(* ===== verification/_CoqProject ===== *)
-Q . S2P
Prelude.v
Py.v
Sha256.v
JsonText.v
IpNetwork.v
Models.v
Store.v
Logic.v
Security.v
TaskCore.v
Notifications.v
Governance.v
CoreInvariant.v
GovernanceFacts.v
AgentGovernance.v
Controls.v
EvaluatorRouting.v
Tasks.v
Dag.v
Missions.v
AgentContext.v
TaskGraphs.v
Conversations.v
ProposalSchema.v
FounderConversations.v
Proposals.v
TaskRuntime.v
Supervision.v
TasksFacts.v
RuntimeFacts.v
FounderFacts.v
Authority.v
ApprovalRoutes.v
Endpoints.v
System.v
Demo.v
SystemTheorems.v
GovernanceTheorems.v
AgentGovernanceTheorems.v
HashChain.v
RuntimeTheorems.v
GraphTheorems.v
RoutingTheorems.v
AuthorityTheorems.v
MissionTheorems.v
FactorLanguage.v
FactorTheorems.v
SymbolicSearch.v
SearchTheorems.v
WorkloadIdentity.v
WorkloadTheorems.v
Runbooks.v
Packages.v
Agents.v
Artifacts.v
BrokerTickets.v
WorkerPackages.v
Broker.v
BrokerTheorems.v
InfraService.v
InfraDeployment.v
InfraCycles.v
InfraTheorems.v
AgentTheorems.v
Lifecycles.v
LifecycleFacts.v
LifecycleTheorems.v
FounderInvariant.v
FounderTheorems.v
