(* ===== verification/Prelude.v ===== *)
(** * Hermes swarm control plane: verification library

    Hermes lets a fleet of autonomous workers change code and infrastructure
    under human control.  The control plane under src/backend/app keeps tasks,
    approvals, capability grants, missions and task graphs in a database and
    answers the HTTP requests of workers, operators and the founder.  This
    library models the handlers that decide what a worker may do, the root broker
    that carries out its infrastructure operations, and the language in which
    research factors are written, with the conversations in which the founder
    asks for work, and proves what they guarantee.

    ** Shape of the model

    A request is a program of the state and error monad [Sess] of Store.v: it
    reads and writes the rows of a [database], reads the clock and the random
    source of a [World], may [commit], and either returns or raises.  What
    survives is the last committed database, as [get_db] closes the session of a
    failed request.  Rows are read again by primary key at every use, which is
    what the identity map gives the Python objects; sessions do not autoflush,
    and a violated unique constraint raises IntegrityError at the insert.  Each
    request is one atomic step, because every handler locks the rows it changes
    (FOR UPDATE); rows that a concurrent transaction holds, which the code skips
    with SKIP LOCKED, are given by [w_locked].

    ** Files, in order

    - Prelude: record update, stable sorting, generic lemmas.  Py: strings, JSON,
      canonical [json.dumps], UUIDs and datetimes.  Sha256: SHA-256 and HMAC.
    - Models, Store: rows of backend/app/models, the database and the session
      monad.  Logic: partial and total correctness of sessions ([wp],
      [returns]), frames ([preserves]) and their hint databases.
    - Security (core/security.py), TaskCore and Tasks (services/tasks.py),
      Notifications (services/founder_notifications.py), Governance
      (services/governance.py), AgentGovernance (services/agent_governance.py),
      Controls (services/controls.py), EvaluatorRouting
      (services/evaluator_routing.py), Dag (the cycle check of
      schemas/task_graph.py), Missions (services/missions.py), AgentContext and
      Conversations (the parts of services/agent_context.py and
      services/conversations.py that the task endpoints call), TaskGraphs
      (services/task_graphs.py), TaskRuntime (routes/task_runtime.py and
      routes/tasks.py), Supervision (services/supervision.py), Authority
      (services/authority.py), ApprovalRoutes (routes/governance.py), Endpoints
      (the other routes that change state).  One definition per function of
      the source, with its guards in their order.
    - CoreInvariant, GovernanceFacts, TasksFacts, RuntimeFacts: the safety
      invariant of tasks and approvals and its preservation by every operation.
    - System: the endpoints as calls, their runs, and the reachable databases.
      Demo: a small concrete control plane on which witnesses are evaluated.
    - SystemTheorems, GovernanceTheorems, AgentGovernanceTheorems, HashChain,
      RuntimeTheorems, GraphTheorems, RoutingTheorems, AuthorityTheorems and
      MissionTheorems: the properties, one file per subject.
    - FactorLanguage (services/factor_language.py) and FactorTheorems;
      SymbolicSearch (services/symbolic_search.py) and SearchTheorems: the typed
      expressions of research factors, and the bounded search over them.
    - WorkloadIdentity (services/workload_identity.py, its routes, and
      get_current_agent of core/security.py) and WorkloadTheorems: who a request
      comes from.  An agent argument of the other handlers is its result.
    - Runbooks (services/runbook_packages.py and its schemas), BrokerTickets
      (services/broker_tickets.py, the ticket endpoint), IpNetwork (ipaddress of
      the standard library, as far as parameters need it), and of the worker under
      src/worker/src/swarm_worker/infrastructure WorkerPackages (packages.py) and
      Broker (broker.py); BrokerTheorems joins the two sides.  The broker is a
      state and error monad of its own over the commands it ran; the machine
      under it is the class [Host], on which every theorem is parametric.
    - Packages (services/packages.py, routes/packages.py), Agents
      (services/agents.py, routes/agents.py and agent_runtime.py) and Artifacts
      (the artifact endpoint of routes/governance.py); AgentTheorems.
    - InfraService (role_package.py and infrastructure/runbooks.py, service.py and
      the loop of __main__.py): the worker's cycle over two interfaces, the
      classes [ControlPlane] and [BrokerPeer].  InfraCycles proves what a cycle and
      a run of the process do against them.  InfraDeployment (api_client.py and
      infrastructure/client.py) implements both: the control plane over HTTP, with
      losses of the network and writes of other clients between any two requests,
      and the broker over its socket.  InfraTheorems is the whole chain, from the
      queue of the control plane to the broker's commands and back.
    - Lifecycles (services/institutional_lifecycle.py, lifecycle_consequence.py and
      candidate_lifecycle_gate.py, with their schemas and routes): the four state
      machines of a governed subject.  LifecycleFacts is the invariant of their
      tables and of the steps on them; LifecycleTheorems shows that every request
      takes such a step, states the abstract machines ([spec_step]) and the theorems.
    - JsonText (the reader of json.loads that a contract's evidence goes through),
      ProposalSchema (schemas/proposal.py: which documents a planner may propose,
      and their dumps), FounderConversations (services/conversations.py and the
      routes that write) and Proposals (services/proposals.py, routes/proposals.py,
      the requests and decisions of routes/founder_channel.py, and
      queue_founder_idea of services/alpha_discovery.py).  FounderFacts shows that
      they keep the safety invariant, FounderInvariant what they do to the
      founder's own tables; FounderTheorems has histories and the theorems.

    ** What is shown

    - Safety of every reachable database: a task that needs approval is leased
      or running only under an approval of its exact plan, consumed by that
      lease; rows stay well formed (attempts bounded, lease fields present
      exactly while a lease is held).
    - Selection: a lease is handed out only for a queued task that satisfies
      every clause of the selection and that the agent's charter, package and
      grant authorise; the token handed out is accepted until it expires, and a
      token is accepted only under the exact conditions of [verify_task_lease].
    - Functional behaviour of approvals, grants, charters, releases, failures,
      completions and reaping, on every branch.
    - A request is admitted exactly for a live credential bound to a live
      identity of the right scope; a rotation hands a credential over without a
      gap and rolls back to the old one; emergency grants admit nothing.
    - A factor compiles exactly when it is typed, and a compiled factor cannot
      read a field before it is available; a search run stays within its budget
      and accepts only admissible candidates.
    - A broker ticket certifies a running, approved task; the broker takes it
      once, across crashes and restarts, which is a refinement of a store that
      spends each nonce once; no ticket reaches the command line; a restart of a
      service ends in one of four ways that the machine's answers determine, and
      is either verified or rolled back once it was attempted.
    - The worker between them hands the broker only tickets certified for tasks it
      leased and its policy accepts, at most one per cycle; a success it reports is
      the broker's and is recorded with the digest of its evidence; its process
      ends a cycle, pauses or exits as the cycle's result says, and is bounded in
      requests and delays.
    - A revoked agent is shut out at once and nobody else is; a deployment lets an
      agent's heartbeats through until it is revoked.
    - Lifecycle requests refine four abstract state machines with a cross-dimension
      guard; every move rests on a recorded decision; and the dossier of every
      subject replays after any history of requests.
    - A founder's turn supersedes every plan made before it: queued planning tasks
      of earlier revisions are cancelled and earlier proposals refused; a repeated
      message is answered with the newest task of the revision.  A proposal
      that is materialized becomes exactly the task it describes, on the route of
      its contract and behind an approval when its risk asks for one.  After any
      history of requests a conversation is explained by its messages and a
      proposal is open or was decided once.
    - Event logs are hash chains: appends keep them linked, and whoever keeps the
      digest of the last event knows every event before it, its type, actor,
      payload and time, unless two different texts with one SHA-256 digest are
      exhibited.
    - A supervision round completes exactly the missions whose tasks all succeeded,
      recovers retryable failures within the mission's policy and raises attention
      for the others.
    - Defects of the code are stated as theorems about it (see the manifest's
      findings).

    ** Choices

    Times are microseconds in [Z]; [now()] of the database server is constant in
    a transaction; every write of a task row through the ORM sets [updated_at].
    Timestamps come back from the database in UTC (the time zone of its connection).
    A history of lifecycle requests takes the server clock to advance between two
    requests, since their events are ordered by it.  UUIDs are numbers drawn from a counter, since uuid4 never repeats.  Strings
    are bytes below 256.  JSON documents of validated pydantic models are
    records where the code reads their fields and [json] values elsewhere.
    Queries without an order take the table's order.  Floats are kept as their
    decimal text.  The hybrid search behind a planning task's context is an argument
    ([w_search]); a stored proposal keeps the typed document it is the dump of,
    and the short identifier of a conversation and the suffix of a planned task
    (uuid4().hex in the code) come from the random source.  A pydantic ValidationError (a request body the schema
    refuses, or one raised inside a handler) is the exception "ValidationError".
    How asyncio interleaves the heartbeats of a task with the broker's work is an
    argument of the cycle ([pace]); cycles are counted by the list of their paces.
    An agent argument is the row that get_current_agent authenticated.  Column
    length limits other than those of the schemas are not modelled, nor are
    foreign keys.  Recursion is structural everywhere except in the cycle check
    of Dag.v, whose fuel is the number of nodes, and in the reader of JsonText.v,
    whose fuel is a little over twice the length of the text, both proved enough there.  The
    [environment] step of System.v stands for the parts that are not modelled
    and do not touch tasks or approvals.  The parts that do touch them and are not
    modelled are outside of the transition system: the campaign director
    (services/alpha_campaign.py) and services/alpha_discovery.py, which create,
    requeue and close tasks of their own and revoke approvals; the research and
    operational-note routes that file a task; the approval route of
    routes/founder_channel.py, which calls the functions of Governance.v behind
    another readiness check; and the scripted pilots.

    ** Not modelled

    The alpha discovery and campaign services (but for queueing an idea), research memory and retrieval,
    the registries of signed execution documents, ingestion and surveillance,
    the rest of the worker, the telegram gateway, mission control, migrations and scripts:
    they are input and output, generated, or self-contained research pipelines
    around the core modelled here.  Of the broker, the bodies of the PostgreSQL
    operations and of the deployment preflight ([host_postgres],
    [host_preflight]) and the pydantic and YAML readings of documents
    ([host_ticket], [host_packages]) are fields of [Host]. *)
From stdpp Require Export base tactics numbers list gmap strings pretty sorting.
From Stdlib Require Export ZArith Lia.

(** ** Record update

    A [Setter p] rebuilds a record with the field [p] replaced.  Instances are
    derived once per mutable column from the eta expansion of the record, and
    used through the notation [r <| p := v |>]. *)

Class Eta (R : Type) := eta_expand : R → R.

Class Setter {R T : Type} (p : R → T) := set_field : T → R → R.
Arguments set_field {R T} p {_} v r / : rename.

Ltac derive_setter :=
  match goal with
  | |- @Setter ?R ?T ?p =>
      let v := fresh "v" in
      let r := fresh "r" in
      intros v r;
      let e := eval hnf in (@eta_expand R _ r) in
      let f := eval pattern (p r) in e in
      match f with
      | ?g _ => let t := eval cbv beta in (g v) in exact t
      end
  end.

Declare Scope record_scope.
Delimit Scope record_scope with record.
Notation "r <| p := v |>" := (set_field p v r)
  (at level 12, left associativity, p at level 9,
   format "r  <| p  :=  v |>") : stdpp_scope.

(** the numeric ranges of the schemas *)
Definition within (low high n : Z) : bool := ((low <=? n) && (n <=? high))%Z.

(** ** Sorting: a stable insertion sort by a boolean order, for [ORDER BY] *)
Fixpoint insert_by {A} (leb : A → A → bool) (x : A) (l : list A) : list A :=
  match l with
  | [] => [x]
  | y :: l' => if leb x y then x :: l else y :: insert_by leb x l'
  end.
Definition sort_by {A} (leb : A → A → bool) (l : list A) : list A :=
  foldr (insert_by leb) [] l.

Lemma insert_by_perm {A} (leb : A → A → bool) x l : insert_by leb x l ≡ₚ x :: l.
Proof.
  induction l as [|y l IH]; cbn; [done|]. destruct (leb x y); [done|].
  rewrite IH. apply perm_swap.
Qed.

Lemma sort_by_perm {A} (leb : A → A → bool) l : sort_by leb l ≡ₚ l.
Proof. induction l as [|x l IH]; cbn; [done|]. by rewrite insert_by_perm, IH. Qed.

Lemma elem_of_sort_by {A} (leb : A → A → bool) x l : x ∈ sort_by leb l ↔ x ∈ l.
Proof. by rewrite sort_by_perm. Qed.

(** the first of a sorted list is least, for a total and transitive order *)
Lemma insert_by_head {A} (leb : A → A → bool) x l y :
  (∀ a b, leb a b = false → leb b a = true) → head (insert_by leb x l) = Some y →
  y = x ∧ (∀ z, head l = Some z → leb x z = true) ∨ head l = Some y ∧ leb y x = true.
Proof.
  intros Ht. destruct l as [|z l]; cbn; [intros [= <-]; left; by split|].
  destruct (leb x z) eqn:E; cbn; intros [= <-]; [left|right]; [|by auto]. split; [done|]. by intros ? [= <-].
Qed.

Lemma sort_by_head {A} (leb : A → A → bool) l x y :
  (∀ a b, leb a b = false → leb b a = true) → (∀ a b c, leb a b = true → leb b c = true → leb a c = true) →
  head (sort_by leb l) = Some x → y ∈ l → leb x y = true.
Proof.
  intros Ht Htr. assert (Hrefl : ∀ a, leb a a = true).
  { intros a. destruct (leb a a) eqn:E; [done|]. by rewrite (Ht _ _ E) in E. }
  revert x. induction l as [|z l IH]; intros x; cbn; [done|].
  intros Hh. destruct (insert_by_head _ _ _ _ Ht Hh) as [[-> Hz]|[Hh' Hxz]].
  - intros [->|Hy]%elem_of_cons; [apply Hrefl|].
    fold (sort_by leb l) in Hz. destruct (head (sort_by leb l)) as [w|] eqn:Hw.
    + eapply Htr; [by apply Hz|by apply IH].
    + exfalso. assert (Hin : y ∈ sort_by leb l) by by rewrite sort_by_perm.
      destruct (sort_by leb l); [by apply elem_of_nil in Hin|done].
  - intros [->|Hy]%elem_of_cons; [done|]. by apply IH.
Qed.

(** the result is sorted, for a total and transitive order *)
Lemma insert_by_sorted {A} (leb : A → A → bool) x l :
  (∀ a b, leb a b = false → leb b a = true) → (∀ a b c, leb a b = true → leb b c = true → leb a c = true) →
  StronglySorted (fun a b => leb a b = true) l → StronglySorted (fun a b => leb a b = true) (insert_by leb x l).
Proof.
  intros Ht Htr. induction l as [|y l IH]; cbn; [by repeat constructor|]. intros Hs.
  pose proof Hs as [Hy Hl]%StronglySorted_cons. destruct (leb x y) eqn:E.
  - constructor; [done|]. constructor; [done|]. eapply Forall_impl; [exact Hy|]. intros z Hz. by eapply Htr.
  - constructor; [by apply IH|]. rewrite insert_by_perm. constructor; [by apply Ht|done].
Qed.

Lemma sort_by_sorted {A} (leb : A → A → bool) l :
  (∀ a b, leb a b = false → leb b a = true) → (∀ a b c, leb a b = true → leb b c = true → leb a c = true) →
  StronglySorted (fun a b => leb a b = true) (sort_by leb l).
Proof.
  intros Ht Htr. induction l as [|x l IH]; cbn; [constructor|]. by apply insert_by_sorted.
Qed.

(** the first element with the greatest key, for [ORDER BY key DESC LIMIT 1] *)
Definition max_by {A} (key : A → Z) (l : list A) : option A :=
  foldl (fun best x =>
    match best with
    | Some b => if (key b <? key x)%Z then Some x else best
    | None => Some x
    end) None l.

Lemma max_by_app {A} (key : A → Z) l x :
  max_by key (l ++ [x]) =
  match max_by key l with
  | Some b => if (key b <? key x)%Z then Some x else Some b
  | None => Some x
  end.
Proof. unfold max_by. rewrite foldl_app. cbn. by destruct (foldl _ None l). Qed.

Lemma max_by_elem {A} (key : A → Z) l x : max_by key l = Some x → x ∈ l.
Proof.
  induction l as [|y l IH] using rev_ind; [done|]. rewrite max_by_app, elem_of_app, list_elem_of_singleton.
  destruct (max_by key l) as [b|]; [destruct (_ <? _)%Z|]; intros [= <-]; auto.
Qed.

Lemma max_by_None {A} (key : A → Z) l : max_by key l = None → l = [].
Proof.
  induction l as [|y l IH] using rev_ind; [done|]. rewrite max_by_app.
  destruct (max_by key l) as [b|]; [destruct (_ <? _)%Z|]; done.
Qed.

Lemma filter_perm {A} (p : A → bool) l l' : l ≡ₚ l' → List.filter p l ≡ₚ List.filter p l'.
Proof.
  induction 1; cbn; [done| | |by etransitivity].
  - destruct (p x); [by constructor|done].
  - destruct (p x), (p y); try done. apply perm_swap.
Qed.

(** two assignments to one row *)
Lemma alter_alter {K A} `{Countable K} (f g : A → A) (k : K) (m : gmap K A) :
  alter f k (alter g k m) = alter (fun x => f (g x)) k m.
Proof.
  apply map_eq. intros j. destruct (decide (j = k)) as [->|Hne].
  - rewrite !lookup_alter_eq. by destruct (m !! k).
  - by rewrite !lookup_alter_ne by done.
Qed.
