(* ===== verification/Py.v ===== *)
(** * Python values the control plane relies on

    Strings with code points below 256, the JSON values stored in the JSONB
    columns, [json.dumps] in the canonical form every digest uses, UUIDs and
    aware UTC datetimes.  Times are integers counting microseconds since the
    epoch, so a [timedelta(seconds=n)] is [n * 1_000_000]. *)
From S2P Require Import Prelude.
From Stdlib Require Import Ascii.

Open Scope Z_scope.

(** ** Strings *)
Module Str.
Definition rev (s : string) : string := String.rev s.

(** [s.startswith(p)] *)
Definition startswith (p s : string) : bool := String.prefix p s.

(** [s.endswith(p)] *)
Definition endswith (p s : string) : bool := String.prefix (rev p) (rev s).

(** [p in s] *)
Fixpoint contains (p s : string) : bool :=
  String.prefix p s ||
  match s with EmptyString => false | String _ s' => contains p s' end.

(** [s.split(sep, maxsplit)] for a one character separator; [n] is the number
    of cuts still allowed and [acc] the current piece, reversed. *)
Fixpoint split_go (sep : ascii) (n : nat) (acc s : string) : list string :=
  match s with
  | EmptyString => [rev acc]
  | String c s' =>
      match n with
      | O => [rev acc +:+ s]
      | S n' => if Ascii.eqb c sep then rev acc :: split_go sep n' "" s'
                else split_go sep n (String c acc) s'
      end
  end.
Definition split (sep : ascii) (n : nat) (s : string) : list string :=
  split_go sep n "" s.

Fixpoint join (sep : string) (l : list string) : string :=
  match l with
  | [] => ""
  | [x] => x
  | x :: l' => x +:+ sep +:+ join sep l'
  end.

Fixpoint chars (s : string) : list ascii :=
  match s with EmptyString => [] | String c s' => c :: chars s' end.

Fixpoint of_chars (l : list ascii) : string :=
  match l with [] => EmptyString | c :: l' => String c (of_chars l') end.

Definition lower_ascii (c : ascii) : ascii :=
  let n := N_of_ascii c in
  if ((65 <=? n) && (n <=? 90))%N then ascii_of_N (n + 32) else c.
(** [s.lower()] on ASCII letters *)
Fixpoint lower (s : string) : string :=
  match s with EmptyString => EmptyString
  | String c s' => String (lower_ascii c) (lower s') end.

Definition is_alnum (c : ascii) : bool :=
  let n := N_of_ascii c in
  ((48 <=? n) && (n <=? 57) || (65 <=? n) && (n <=? 90) || (97 <=? n) && (n <=? 122))%N.

(** [re.fullmatch("[a-z0-9][a-z0-9_-]*", s)] *)
Definition is_lower (c : ascii) : bool :=
  let n := N_of_ascii c in ((97 <=? n) && (n <=? 122))%N.
Definition is_lower_alnum (c : ascii) : bool :=
  let n := N_of_ascii c in ((48 <=? n) && (n <=? 57) || (97 <=? n) && (n <=? 122))%N.
Definition safe_name (s : string) : bool :=
  match chars s with
  | [] => false
  | c :: l => is_lower_alnum c &&
      forallb (fun c => is_lower_alnum c || Ascii.eqb c "_" || Ascii.eqb c "-") l
  end.

Definition nonempty (s : string) : bool := negb (String.eqb s "").

(** [re.fullmatch("[0-9a-f]{low,high}", s)] *)
Definition hex_between (low high : nat) (s : string) : bool :=
  ((low <=? String.length s) && (String.length s <=? high))%nat &&
  forallb (fun c => let n := N_of_ascii c in ((48 <=? n) && (n <=? 57) || (97 <=? n) && (n <=? 102))%N) (chars s).

(** [s.split(sep)] *)
Definition split_all (sep : ascii) (s : string) : list string := split sep (String.length s) s.

(** [re.fullmatch("[a-z0-9]+(-[a-z0-9]+)*", s)] *)
Definition kebab (s : string) : bool :=
  forallb (fun piece => nonempty piece && forallb is_lower_alnum (chars piece)) (split_all "-" s).

(** [re.fullmatch("[0-9]+\.[0-9]+\.[0-9]+", s)] *)
Definition is_digit (c : ascii) : bool := let n := N_of_ascii c in ((48 <=? n) && (n <=? 57))%N.
Definition dotted_version (s : string) : bool :=
  match split_all "." s with
  | [_; _; _] as l => forallb (fun piece => nonempty piece && forallb is_digit (chars piece)) l
  | _ => false
  end.

(** [re.fullmatch("[A-Za-z0-9][A-Za-z0-9._-]*", s)] *)
Definition actor_name (s : string) : bool :=
  match chars s with
  | [] => false
  | c :: l => is_alnum c && forallb (fun c => is_alnum c || Ascii.eqb c "." || Ascii.eqb c "_" || Ascii.eqb c "-") l
  end.

Definition upper_ascii (c : ascii) : ascii :=
  let n := N_of_ascii c in if is_lower c then ascii_of_N (n - 32) else c.
(** [s.upper()] on ASCII letters *)
Fixpoint upper (s : string) : string :=
  match s with EmptyString => EmptyString | String c s' => String (upper_ascii c) (upper s') end.

(** [c.isspace()], which is also what [\s] matches *)
Definition is_space (c : ascii) : bool :=
  let n := N_of_ascii c in
  ((9 <=? n) && (n <=? 13) || (28 <=? n) && (n <=? 32) || (n =? 133) || (n =? 160))%N.

(** [s.split()]; [acc] is the current word, reversed *)
Fixpoint words_go (acc s : string) : list string :=
  match s with
  | EmptyString => if nonempty acc then [rev acc] else []
  | String c s' =>
      if is_space c then (if nonempty acc then [rev acc] else []) ++ words_go "" s'
      else words_go (String c acc) s'
  end.
Definition words (s : string) : list string := words_go "" s.

(** [re.sub(r"\s+", " ", s)]; [inside] tells that the last character was a space *)
Fixpoint collapse_go (inside : bool) (s : string) : string :=
  match s with
  | EmptyString => EmptyString
  | String c s' =>
      if is_space c then (if inside then "" else " ") +:+ collapse_go true s'
      else String c (collapse_go false s')
  end.
Definition collapse (s : string) : string := collapse_go false s.

(** [s[:n]] and [s[-n:]] *)
Definition head (n : nat) (s : string) : string := String.substring 0 n s.
Definition tail (n : nat) (s : string) : string := String.substring (String.length s - n) n s.

(** [s.encode()]: UTF-8 *)
Fixpoint encode (s : string) : string :=
  match s with
  | EmptyString => EmptyString
  | String c s' =>
      let n := N_of_ascii c in
      if (n <? 128)%N then String c (encode s')
      else String (ascii_of_N (192 + n / 64)) (String (ascii_of_N (128 + n mod 64)) (encode s'))
  end.

(** [f"{n:0wd}"] for a non-negative [n] *)
Fixpoint zeros (k : nat) : string :=
  match k with O => "" | S k' => String "0" (zeros k') end.
Definition pad (w : nat) (n : Z) : string :=
  let s := pretty n in zeros (w - String.length s) +:+ s.
End Str.

Definition str_eqb (a b : string) : bool := String.eqb a b.

(** [x in xs] on lists of strings *)
Definition str_in (x : string) (l : list string) : bool := existsb (String.eqb x) l.

(** [set(xs).issubset(ys)] *)
Definition str_subset (xs ys : list string) : bool := forallb (fun x => str_in x ys) xs.

(** [sorted(set(xs))] *)
Fixpoint str_insert (x : string) (l : list string) : list string :=
  match l with
  | [] => [x]
  | y :: l' => if String.eqb x y then l
               else if String.leb x y then x :: l else y :: str_insert x l'
  end.
Definition sorted_set (xs : list string) : list string := foldr str_insert [] xs.

(** ** UUIDs and datetimes *)
Abbreviation uuid := N.
Abbreviation datetime := Z.

Definition hex_digit (n : N) : ascii :=
  if (n <? 10)%N then ascii_of_N (48 + n) else ascii_of_N (87 + n).

Fixpoint hex_digits (k : nat) (n : N) : string :=
  match k with
  | O => ""
  | S k' => hex_digits k' (N.shiftr n 4) +:+ String (hex_digit (N.land n 15)) ""
  end.

(** [str(uuid)]: 8-4-4-4-12 hexadecimal digits *)
Definition uuid_str (u : uuid) : string :=
  hex_digits 8 (N.shiftr u 96) +:+ "-" +:+ hex_digits 4 (N.shiftr u 80) +:+ "-" +:+
  hex_digits 4 (N.shiftr u 64) +:+ "-" +:+ hex_digits 4 (N.shiftr u 48) +:+ "-" +:+
  hex_digits 12 u.

(** [UUID(s)]: hyphens, braces and the urn prefix are dropped, then exactly 32
    hexadecimal digits must remain ([int(hex, 16)]'s other spellings of a number
    are treated as malformed) *)
Definition hex_value (c : ascii) : option N :=
  let n := N_of_ascii c in
  if ((48 <=? n) && (n <=? 57))%N then Some (n - 48)%N
  else if ((97 <=? n) && (n <=? 102))%N then Some (n - 87)%N
  else if ((65 <=? n) && (n <=? 70))%N then Some (n - 55)%N
  else None.

Fixpoint parse_hex (acc : N) (l : list ascii) : option N :=
  match l with
  | [] => Some acc
  | c :: l' => match hex_value c with Some v => parse_hex (16 * acc + v)%N l' | None => None end
  end.

Definition drop_prefix (p s : string) : string :=
  if Str.startswith p s then String.substring (String.length p) (String.length s) s else s.

Definition parse_uuid (s : string) : option uuid :=
  let l := List.filter (fun c => negb (Ascii.eqb c "-" || Ascii.eqb c "{" || Ascii.eqb c "}"))
             (Str.chars (drop_prefix "uuid:" (drop_prefix "urn:" s))) in
  if Nat.eqb (length l) 32 then parse_hex 0 l else None.

Definition seconds (n : Z) : Z := n * 1000000.
Definition minutes (n : Z) : Z := seconds (60 * n).
Definition days (n : Z) : Z := seconds (86400 * n).

(** proleptic Gregorian date of a day number counted from 1970-01-01 *)
Definition civil_of_days (d : Z) : Z * Z * Z :=
  let z := d + 719468 in
  let era := z / 146097 in
  let doe := z - era * 146097 in
  let yoe := (doe - doe / 1460 + doe / 36524 - doe / 146096) / 365 in
  let doy := doe - (365 * yoe + yoe / 4 - yoe / 100) in
  let mp := (5 * doy + 2) / 153 in
  let m := if mp <? 10 then mp + 3 else mp - 9 in
  let y := yoe + era * 400 in
  ((if m <=? 2 then y + 1 else y), m, doy - (153 * mp + 2) / 5 + 1).

(** the parts of an aware UTC datetime, [sep] between date and time, [utc] at the end *)
Definition format_datetime (sep utc : string) (t : datetime) : string :=
  let '(y, m, d) := civil_of_days (t / days 1) in
  let s := t mod days 1 in
  let us := s mod 1000000 in
  let sec := s / 1000000 in
  Str.pad 4 y +:+ "-" +:+ Str.pad 2 m +:+ "-" +:+ Str.pad 2 d +:+ sep +:+
  Str.pad 2 (sec / 3600) +:+ ":" +:+ Str.pad 2 ((sec / 60) mod 60) +:+ ":" +:+
  Str.pad 2 (sec mod 60) +:+
  (if us =? 0 then "" else "." +:+ Str.pad 6 us) +:+ utc.

(** [dt.isoformat()], [str(dt)], and the JSON form pydantic gives a datetime *)
Definition isoformat (t : datetime) : string := format_datetime "T" "+00:00" t.
Definition datetime_str (t : datetime) : string := format_datetime " " "+00:00" t.
Definition pydantic_datetime (t : datetime) : string := format_datetime "T" "Z" t.

(** [f"{t:%Y%m%dT%H%M%S}"] and the [%f] of [t] *)
Definition compact_datetime (t : datetime) : string :=
  let '(y, m, d) := civil_of_days (t / days 1) in
  let sec := (t mod days 1) / 1000000 in
  Str.pad 4 y +:+ Str.pad 2 m +:+ Str.pad 2 d +:+ "T" +:+
  Str.pad 2 (sec / 3600) +:+ Str.pad 2 ((sec / 60) mod 60) +:+ Str.pad 2 (sec mod 60).
Definition microseconds (t : datetime) : string := Str.pad 6 (t mod 1000000).

(** an aware datetime: its instant, and its offset from UTC in seconds *)
Record aware_datetime := mkAware { aw_instant : datetime; aw_offset : Z }.

Definition offset_str (offset : Z) : string :=
  let o := Z.abs offset in
  (if offset <? 0 then "-" else "+") +:+ Str.pad 2 (o / 3600) +:+ ":" +:+ Str.pad 2 ((o / 60) mod 60) +:+
  (if o mod 60 =? 0 then "" else ":" +:+ Str.pad 2 (o mod 60)).

Definition isoformat_aware (a : aware_datetime) : string :=
  format_datetime "T" (offset_str (aw_offset a)) (aw_instant a + seconds (aw_offset a)).

(** the day number of a date, counted from 1970-01-01 *)
Definition days_of_civil (y m d : Z) : Z :=
  let y := if m <=? 2 then y - 1 else y in
  let era := y / 400 in
  let yoe := y - era * 400 in
  let doy := (153 * (if 2 <? m then m - 3 else m + 9) + 2) / 5 + d - 1 in
  era * 146097 + (yoe * 365 + yoe / 4 - yoe / 100 + doy) - 719468.

(** the digits at the head of [l]: exactly [n] of them *)
Fixpoint take_digits (n : nat) (acc : Z) (l : list ascii) : option (Z * list ascii) :=
  match n, l with
  | O, _ => Some (acc, l)
  | S n', c :: l' =>
      if Str.is_digit c then take_digits n' (10 * acc + (Z.of_N (N_of_ascii c) - 48)) l' else None
  | S _, [] => None
  end.

Definition take_char (c : ascii) (l : list ascii) : option (list ascii) :=
  match l with x :: l' => if Ascii.eqb x c then Some l' else None | [] => None end.

(** [HH:MM] with optional seconds, as seconds *)
Definition take_clock (l : list ascii) : option (Z * list ascii) :=
  h ← take_digits 2 0 l; rest ← take_char ":" h.2; m ← take_digits 2 0 rest;
  let whole := 3600 * h.1 + 60 * m.1 in
  if (23 <? h.1) || (59 <? m.1) then None
  else
    match take_char ":" m.2 with
    | None => Some (whole, m.2)
    | Some rest => s ← take_digits 2 0 rest; if 59 <? s.1 then None else Some (whole + s.1, s.2)
    end.

(** the digits at the head, up to [n] of them as a number of [n] digits; those after are dropped *)
Fixpoint fraction_digits (n : nat) (acc : Z) (l : list ascii) : Z * list ascii :=
  match l with
  | c :: l' =>
      if Str.is_digit c then
        match n with
        | O => fraction_digits O acc l'
        | S n' => fraction_digits n' (10 * acc + (Z.of_N (N_of_ascii c) - 48)) l'
        end
      else (acc * 10 ^ Z.of_nat n, l)
  | [] => (acc * 10 ^ Z.of_nat n, [])
  end.

(** a fraction of a second, in microseconds *)
Definition take_fraction (l : list ascii) : option (Z * list ascii) :=
  match take_char "." l with
  | None => Some (0, l)
  | Some rest => _ ← take_digits 1 0 rest; Some (fraction_digits 6 0 rest)
  end.

(** the offset at the end, none for a naive datetime *)
Definition take_offset (l : list ascii) : option (option Z) :=
  match l with
  | [] => Some None
  | c :: rest =>
      sign ← (if Ascii.eqb c "+" then Some 1 else if Ascii.eqb c "-" then Some (-1) else None);
      r ← take_clock rest;
      match r.2 with [] => Some (Some (sign * r.1)) | _ => None end
  end.

(** [datetime.fromisoformat] of the extended calendar form, as the local microseconds
    and the offset; basic and week dates and clocks without minutes are treated as
    malformed *)
Definition fromisoformat (s : string) : option (Z * option Z) :=
  y ← take_digits 4 0 (Str.chars s); r1 ← take_char "-" y.2; m ← take_digits 2 0 r1; r2 ← take_char "-" m.2;
  d ← take_digits 2 0 r2;
  let day := days_of_civil y.1 m.1 d.1 in
  if negb (bool_decide (civil_of_days day = (y.1, m.1, d.1)) && (1 <=? y.1)) then None
  else
    match d.2 with
    | [] => Some (days day, None)
    | _ :: r3 =>
        clock ← take_clock r3; fraction ← take_fraction clock.2; offset ← take_offset fraction.2;
        Some (days day + seconds clock.1 + fraction.1, offset)
    end.

(** ** JSON values

    A float is kept as its [repr], which is how [json.dumps] prints it. *)
Inductive json :=
| JNull
| JBool (b : bool)
| JInt (z : Z)
| JFloat (repr : string)
| JStr (s : string)
| JList (l : list json)
| JObj (kv : list (string * json)).

#[export] Instance json_eq_dec : EqDecision json.
Proof.
  refine (fix go a b := let dec : EqDecision json := @go in
    match a, b with
    | JNull, JNull => left eq_refl
    | JBool x, JBool y => cast_if (decide (x = y))
    | JInt x, JInt y => cast_if (decide (x = y))
    | JFloat x, JFloat y => cast_if (decide (x = y))
    | JStr x, JStr y => cast_if (decide (x = y))
    | JList l, JList l' => cast_if (decide (l = l'))
    | JObj l, JObj l' => cast_if (decide (l = l'))
    | _, _ => right _
    end); clear dec go; abstract congruence.
Defined.

Module Json.
Definition str_list (l : list string) : json := JList (JStr <$> l).
Definition opt_str (o : option string) : json := from_option JStr JNull o.
Definition opt_uuid (o : option uuid) : json := from_option (JStr ∘ uuid_str) JNull o.

Definition dict := list (string * json).

(** [d.get(k)] *)
Fixpoint get (k : string) (d : dict) : option json :=
  match d with
  | [] => None
  | (k', v) :: d' => if String.eqb k k' then Some v else get k d'
  end.

(** [d[k] = v]: in place when the key exists, appended otherwise *)
Fixpoint set (k : string) (v : json) (d : dict) : dict :=
  match d with
  | [] => [(k, v)]
  | (k', v') :: d' => if String.eqb k k' then (k', v) :: d' else (k', v') :: set k v d'
  end.

(** [{**a, **b}] *)
Definition merge (a b : dict) : dict := foldl (fun acc '(k, v) => set k v acc) a b.

Definition keys (d : dict) : list string := fst <$> d.

(** Python truth value *)
Definition truthy (v : json) : bool :=
  match v with
  | JNull => false
  | JBool b => b
  | JInt z => negb (z =? 0)
  | JFloat r => negb (String.eqb r "0.0" || String.eqb r "-0.0")
  | JStr s => Str.nonempty s
  | JList l => match l with [] => false | _ => true end
  | JObj d => match d with [] => false | _ => true end
  end.

Definition truthy_opt (v : option json) : bool := from_option truthy false v.

Definition as_str (v : json) : option string :=
  match v with JStr s => Some s | _ => None end.
Definition as_dict (v : json) : option dict :=
  match v with JObj d => Some d | _ => None end.
Definition as_list (v : json) : option (list json) :=
  match v with JList l => Some l | _ => None end.
Definition as_int (v : json) : option Z :=
  match v with JInt z => Some z | JBool b => Some (Z.b2z b) | _ => None end.

(** the strings of a JSON list (other members dropped) *)
Definition strs (v : option json) : list string :=
  match v with Some (JList l) => omap as_str l | _ => [] end.

(** [a == b]: dictionaries compare without order, booleans as integers; floats
    by their [repr] *)
Fixpoint eqb (a b : json) {struct a} : bool :=
  match a, b with
  | JNull, JNull => true
  | JBool x, JBool y => Bool.eqb x y
  | JBool x, JInt y => Z.b2z x =? y
  | JInt x, JBool y => x =? Z.b2z y
  | JInt x, JInt y => x =? y
  | JFloat x, JFloat y => String.eqb x y
  | JStr x, JStr y => String.eqb x y
  | JList l, JList l' =>
      (fix go (l l' : list json) : bool :=
         match l, l' with
         | [], [] => true
         | x :: l, y :: l' => eqb x y && go l l'
         | _, _ => false
         end) l l'
  | JObj d, JObj d' =>
      Nat.eqb (length d) (length d') &&
      (fix go (d : list (string * json)) : bool :=
         match d with
         | [] => true
         | (k, x) :: d => match get k d' with Some y => eqb x y | None => false end && go d
         end) d
  | _, _ => false
  end.

(** [d.get(k) == d'.get(k')], [None] for a missing key *)
Definition eqb_opt (a b : option json) : bool := eqb (default JNull a) (default JNull b).

(** *** [json.dumps(v, sort_keys=True, separators=(",", ":"))] *)
Definition escape_char (c : ascii) : string :=
  let n := N_of_ascii c in
  match n with
  | 34 => "\" +:+ String c ""
  | 92 => "\\"
  | 8 => "\b" | 12 => "\f" | 10 => "\n" | 13 => "\r" | 9 => "\t"
  | _ => if ((32 <=? n) && (n <=? 126))%N then String c ""
         else "\u" +:+ hex_digits 4 n
  end%N.

Definition quote : string := String "034" "".
Fixpoint escape (s : string) : string :=
  match s with EmptyString => "" | String c s' => escape_char c +:+ escape s' end.
Definition quoted (s : string) : string := quote +:+ escape s +:+ quote.

Fixpoint insert_key (k : string) (v : string) (d : list (string * string)) :=
  match d with
  | [] => [(k, v)]
  | (k', v') :: d' => if String.leb k k' then (k, v) :: d else (k', v') :: insert_key k v d'
  end.

Definition float_text (r : string) : string :=
  if String.eqb r "nan" then "NaN"
  else if String.eqb r "inf" then "Infinity"
  else if String.eqb r "-inf" then "-Infinity" else r.

Fixpoint dumps (v : json) : string :=
  match v with
  | JNull => "null"
  | JBool b => if b then "true" else "false"
  | JInt z => pretty z
  | JFloat r => float_text r
  | JStr s => quoted s
  | JList l => "[" +:+ Str.join "," (dumps <$> l) +:+ "]"
  | JObj d =>
      "{" +:+ Str.join "," ((fun kv => quoted kv.1 +:+ ":" +:+ kv.2) <$>
        foldr (fun kv acc => insert_key kv.1 kv.2 acc) []
          ((fun kv => (kv.1, dumps kv.2)) <$> d)) +:+ "}"
  end.

(** *** [json.dumps(v)] with spaces, on one line or indented by two *)
Section render.
Context (sorted : bool) (newline : nat → string) (comma : string).

Definition enclosed (opening closing : string) (level : nat) (items : list string) : string :=
  match items with
  | [] => opening +:+ closing
  | _ => opening +:+ newline (S level) +:+ Str.join (comma +:+ newline (S level)) items +:+ newline level +:+ closing
  end.

Fixpoint render (level : nat) (v : json) : string :=
  match v with
  | JNull => "null"
  | JBool b => if b then "true" else "false"
  | JInt z => pretty z
  | JFloat r => float_text r
  | JStr s => quoted s
  | JList l => enclosed "[" "]" level (render (S level) <$> l)
  | JObj d =>
      let items := (fun kv => (kv.1, render (S level) kv.2)) <$> d in
      enclosed "{" "}" level ((fun kv => quoted kv.1 +:+ ": " +:+ kv.2) <$>
        if sorted then foldr (fun kv acc => insert_key kv.1 kv.2 acc) [] items else items)
  end.
End render.

Definition newline : string := String "010" "".
Definition dumps_spaced (sorted : bool) : json → string := render sorted (fun _ => "") ", " 0.
(** [indent=2, sort_keys=True] *)
Definition dumps_indented : json → string :=
  render true (fun level => newline +:+ Str.join "" (repeat "  " level)) "," 0.

(** *** [repr(v)] and [str(v)] *)
Definition backslash : string := String "092" "".
Definition repr_char (delimiter c : ascii) : string :=
  let n := N_of_ascii c in
  if (Ascii.eqb c delimiter || (n =? 92))%N then backslash +:+ String c ""
  else if (n =? 9)%N then backslash +:+ "t"
  else if (n =? 10)%N then backslash +:+ "n"
  else if (n =? 13)%N then backslash +:+ "r"
  else if ((n <? 32) || (127 <=? n) && (n <=? 160) || (n =? 173))%N
  then backslash +:+ "x" +:+ hex_digits 2 n
  else String c "".
Fixpoint repr_body (delimiter : ascii) (s : string) : string :=
  match s with EmptyString => "" | String c s' => repr_char delimiter c +:+ repr_body delimiter s' end.
Definition repr_str (s : string) : string :=
  let delimiter := if Str.contains "'" s && negb (Str.contains quote s) then "034"%char else "'"%char in
  String delimiter "" +:+ repr_body delimiter s +:+ String delimiter "".
Fixpoint repr (v : json) : string :=
  match v with
  | JNull => "None"
  | JBool b => if b then "True" else "False"
  | JInt z => pretty z
  | JFloat r => r
  | JStr s => repr_str s
  | JList l => "[" +:+ Str.join ", " (repr <$> l) +:+ "]"
  | JObj d => "{" +:+ Str.join ", " ((fun kv => repr_str kv.1 +:+ ": " +:+ repr kv.2) <$> d) +:+ "}"
  end.
Definition str (v : json) : string := match v with JStr s => s | _ => repr v end.
End Json.

Section examples.
Local Open Scope string_scope.
Example isoformat_ex : isoformat 1767225600000001 = "2026-01-01T00:00:00.000001+00:00".
Proof. reflexivity. Qed.
Example isoformat_aware_ex : isoformat_aware (mkAware 1767225600000000 7200) = "2026-01-01T02:00:00+02:00".
Proof. reflexivity. Qed.
Example fromisoformat_ex :
  fromisoformat "2026-01-01T00:00:00.000001+00:00" = Some (1767225600000001, Some 0) ∧
  fromisoformat "2026-01-01 02:00:00.25-02:30" = Some (1767232800250000, Some (-9000)) ∧
  fromisoformat "2026-02-29T00:00:00" = None ∧ fromisoformat "" = None.
Proof. repeat split; reflexivity. Qed.
Example split_ex : Str.split "_" 3 "swarm_lt_ab_c_d" = ["swarm"; "lt"; "ab"; "c_d"].
Proof. reflexivity. Qed.
Example uuid_ex : uuid_str 255 = "00000000-0000-0000-0000-0000000000ff".
Proof. reflexivity. Qed.
Example parse_uuid_ex : parse_uuid (uuid_str 48879) = Some 48879%N.
Proof. reflexivity. Qed.
Example repr_ex : Json.repr (JStr "it's") = Json.quote ++ "it's" ++ Json.quote.
Proof. reflexivity. Qed.
Example dumps_ex : Json.dumps (JObj [("b", JInt (-2)); ("a", JList [JNull; JStr "x"])])
  = "{" ++ Json.quoted "a" ++ ":[null," ++ Json.quoted "x" ++ "]," ++ Json.quoted "b" ++ ":-2}".
Proof. vm_compute. reflexivity. Qed.
Example dumps_spaced_ex : Json.dumps_spaced false (JObj [("b", JInt 1); ("a", JList [JNull; JObj []])])
  = "{" ++ Json.quoted "b" ++ ": 1, " ++ Json.quoted "a" ++ ": [null, {}]}".
Proof. vm_compute. reflexivity. Qed.
Example dumps_indented_ex : Json.dumps_indented (JObj [("b", JInt 1); ("a", JList [JNull])])
  = "{" ++ Json.newline ++ "  " ++ Json.quoted "a" ++ ": [" ++ Json.newline ++ "    null" ++ Json.newline ++
    "  ]," ++ Json.newline ++ "  " ++ Json.quoted "b" ++ ": 1" ++ Json.newline ++ "}".
Proof. vm_compute. reflexivity. Qed.
End examples.

(** ** Reflection of the boolean tests on strings *)

Lemma str_eqb_spec a b : str_eqb a b = true ↔ a = b.
Proof. apply String.eqb_eq. Qed.

Lemma str_eqb_refl a : str_eqb a a = true.
Proof. apply String.eqb_refl. Qed.

Lemma str_in_spec x l : str_in x l = true ↔ x ∈ l.
Proof.
  unfold str_in. rewrite existsb_exists. split.
  - intros (y & Hin & E). apply String.eqb_eq in E. subst. by apply list_elem_of_In.
  - intros Hin. exists x. split; [by apply list_elem_of_In|apply String.eqb_refl].
Qed.

Lemma str_subset_spec xs ys : str_subset xs ys = true ↔ xs ⊆ ys.
Proof.
  unfold str_subset. rewrite forallb_forall. split.
  - intros Hf x Hx. by apply str_in_spec, Hf, list_elem_of_In.
  - intros Hsub x Hx. by apply str_in_spec, Hsub, list_elem_of_In.
Qed.

Lemma str_insert_elem x y l : y ∈ str_insert x l ↔ y = x ∨ y ∈ l.
Proof.
  induction l as [|z l IH]; cbn; [by rewrite list_elem_of_singleton, elem_of_nil; tauto|].
  destruct (String.eqb x z) eqn:E; [|destruct (String.leb x z)].
  - apply String.eqb_eq in E as ->. rewrite elem_of_cons. tauto.
  - rewrite !elem_of_cons. tauto.
  - rewrite !elem_of_cons, IH. tauto.
Qed.

Lemma sorted_set_elem y l : y ∈ sorted_set l ↔ y ∈ l.
Proof.
  induction l as [|x l IH]; cbn; [done|]. by rewrite str_insert_elem, elem_of_cons, IH.
Qed.

(** ** Sorted sets of strings *)

Lemma ascii_compare_spec a b :
  Ascii.compare a b = (N_of_ascii a ?= N_of_ascii b)%N.
Proof. done. Qed.

Lemma str_leb_trans (a b c : string) :
  String.leb a b = true → String.leb b c = true → String.leb a c = true.
Proof.
  unfold String.leb. revert b c. induction a as [|x a IH]; intros [|y b] [|z c]; cbn; try done.
  rewrite !ascii_compare_spec. specialize (IH b c). revert IH.
  destruct (N.compare_spec (N_of_ascii x) (N_of_ascii y)) as [E1|E1|E1];
    destruct (N.compare_spec (N_of_ascii y) (N_of_ascii z)) as [E2|E2|E2];
    destruct (N.compare_spec (N_of_ascii x) (N_of_ascii z)) as [E3|E3|E3]; try done; lia.
Qed.

Definition str_le (a b : string) : Prop := String.leb a b = true.

Lemma str_insert_sorted x l : StronglySorted str_le l → StronglySorted str_le (str_insert x l).
Proof.
  induction 1 as [|y l Hs IH Hall]; cbn; [by repeat constructor|].
  destruct (String.eqb x y) eqn:E; [by constructor|]. destruct (String.leb x y) eqn:El.
  - constructor; [by constructor|]. constructor; [done|].
    eapply Forall_impl; [exact Hall|]. intros z Hz. by eapply str_leb_trans.
  - constructor; [done|]. apply Forall_forall. intros z [->|Hz]%str_insert_elem.
    + destruct (String.leb_total x y) as [Ht|Ht]; [congruence|done].
    + by eapply Forall_forall in Hall.
Qed.

Lemma sorted_set_sorted l : StronglySorted str_le (sorted_set l).
Proof. induction l as [|x l IH]; cbn; [constructor|by apply str_insert_sorted]. Qed.

Lemma str_insert_length x l :
  StronglySorted str_le l →
  length (str_insert x l) = if bool_decide (x ∈ l) then length l else S (length l).
Proof.
  induction 1 as [|y l Hs IH Hall]; cbn; [done|].
  destruct (String.eqb x y) eqn:E.
  { apply String.eqb_eq in E as ->. rewrite bool_decide_eq_true_2; [done|by left]. }
  assert (Hne : x ≠ y) by by apply String.eqb_neq in E.
  destruct (String.leb x y) eqn:El.
  - rewrite bool_decide_eq_false_2; [done|]. intros [->|Hin]%elem_of_cons; [done|].
    eapply Forall_forall in Hall; [|exact Hin]. by apply Hne, String.leb_antisym.
  - cbn. rewrite IH, (bool_decide_ext (x ∈ y :: l) (x ∈ l)); [by case_bool_decide|].
    rewrite elem_of_cons. tauto.
Qed.

Lemma sorted_set_length l : (length (sorted_set l) ≤ length l)%nat.
Proof.
  induction l as [|x l IH]; cbn; [done|]. fold (sorted_set l).
  rewrite str_insert_length by apply sorted_set_sorted. case_bool_decide; lia.
Qed.

Lemma sorted_set_NoDup l : length (sorted_set l) = length l ↔ NoDup l.
Proof.
  induction l as [|x l IH]; cbn; [by split; constructor|].
  fold (sorted_set l). rewrite str_insert_length by apply sorted_set_sorted. rewrite NoDup_cons, <- IH.
  pose proof (sorted_set_length l). case_bool_decide as Hin; rewrite sorted_set_elem in Hin.
  - split; [lia|tauto].
  - split; [intros [= ->]; done|intros [_ ->]; done].
Qed.
