(* ===== verification/Sha256.v ===== *)
(** * SHA-256 and HMAC-SHA-256

    [hashlib.sha256] and [hmac.new(key, msg, sha256)] as executable functions on
    strings of bytes (FIPS 180-4, RFC 2104), so that the digests stored by the
    control plane can be evaluated.  Words are 32-bit integers in [Z]. *)
From S2P Require Import Prelude Py.
From Stdlib Require Import Ascii.

Open Scope Z_scope.

Definition mask32 : Z := 4294967295.
Definition add32 (a b : Z) : Z := Z.land (a + b) mask32.
Definition not32 (a : Z) : Z := Z.lxor a mask32.
Definition rotr (n a : Z) : Z :=
  Z.lor (Z.shiftr a n) (Z.land (Z.shiftl a (32 - n)) mask32).

Definition Ch (x y z : Z) := Z.lxor (Z.land x y) (Z.land (not32 x) z).
Definition Maj (x y z : Z) := Z.lxor (Z.lxor (Z.land x y) (Z.land x z)) (Z.land y z).
Definition Sigma0 x := Z.lxor (Z.lxor (rotr 2 x) (rotr 13 x)) (rotr 22 x).
Definition Sigma1 x := Z.lxor (Z.lxor (rotr 6 x) (rotr 11 x)) (rotr 25 x).
Definition sigma0 x := Z.lxor (Z.lxor (rotr 7 x) (rotr 18 x)) (Z.shiftr x 3).
Definition sigma1 x := Z.lxor (Z.lxor (rotr 17 x) (rotr 19 x)) (Z.shiftr x 10).

(** The constants are the first 32 fractional bits of the square and cube roots
    of the first primes: the integer root of [p * 2^(32 e)], modulo [2^32]. *)
Fixpoint integer_root (bits : nat) (e n acc : Z) : Z :=
  match bits with
  | O => acc
  | S b => let r := acc + Z.shiftl 1 (Z.of_nat b) in
           integer_root b e n (if r ^ e <=? n then r else acc)
  end.
Definition root_fraction (e p : Z) : Z :=
  Z.land (integer_root 40 e (Z.shiftl p (32 * e)) 0) mask32.

Definition is_prime (n : Z) : bool :=
  (2 <=? n) && forallb (fun d => negb (n mod Z.of_nat d =? 0)) (seq 2 (Z.to_nat n - 2)).
Definition primes (bound : nat) : list Z := List.filter is_prime (Z.of_nat <$> seq 0 bound).

Definition K256 : list Z := Eval vm_compute in root_fraction 3 <$> take 64 (primes 312).
Definition H0 : list Z := Eval vm_compute in root_fraction 2 <$> take 8 (primes 20).

(** message schedule: the sixteen block words, then 48 derived words; [w] holds
    the last sixteen words, oldest first *)
Fixpoint schedule (k : nat) (w : list Z) : list Z :=
  match k, w with
  | S k', w0 :: ws =>
      let w1 := nth 0 ws 0 in let w9 := nth 8 ws 0 in let w14 := nth 13 ws 0 in
      let x := add32 (add32 (sigma1 w14) w9) (add32 (sigma0 w1) w0) in
      w0 :: schedule k' (ws ++ [x])
  | _, _ => w
  end.

Definition round (st : list Z) (kw : Z * Z) : list Z :=
  match st with
  | [a; b; c; d; e; f; g; h] =>
      let t1 := add32 (add32 h (Sigma1 e)) (add32 (Ch e f g) (add32 kw.1 kw.2)) in
      let t2 := add32 (Sigma0 a) (Maj a b c) in
      [add32 t1 t2; a; b; c; add32 d t1; e; f; g]
  | _ => st
  end.

Definition compress (st block : list Z) : list Z :=
  zip_with add32 st (foldl round st (zip K256 (schedule 48 block))).

(** ** Padding *)
Definition bytes_of (s : string) : list Z := (fun c => Z.of_N (N_of_ascii c)) <$> Str.chars s.
Definition of_bytes (l : list Z) : string := Str.of_chars ((fun b => ascii_of_N (Z.to_N b)) <$> l).

Fixpoint be_bytes (k : nat) (z : Z) : list Z :=
  match k with O => [] | S k' => Z.land (Z.shiftr z (8 * Z.of_nat k')) 255 :: be_bytes k' z end.

Definition pad_message (m : list Z) : list Z :=
  let len := Z.of_nat (length m) in
  m ++ [128] ++ replicate (Z.to_nat ((55 - len) mod 64)) 0 ++ be_bytes 8 (8 * len).

Fixpoint words_of (m : list Z) : list Z :=
  match m with
  | a :: b :: c :: d :: m' =>
      Z.lor (Z.shiftl a 24) (Z.lor (Z.shiftl b 16) (Z.lor (Z.shiftl c 8) d)) :: words_of m'
  | _ => []
  end.

Fixpoint blocks (fuel : nat) (st ws : list Z) : list Z :=
  match fuel, ws with
  | S n, _ :: _ => blocks n (compress st (take 16 ws)) (drop 16 ws)
  | _, _ => st
  end.

Definition sha256_bytes (m : list Z) : list Z :=
  let ws := words_of (pad_message m) in
  mjoin (be_bytes 4 <$> blocks (length ws) H0 ws).

Definition hex_of_bytes (l : list Z) : string :=
  foldr (fun b acc => hex_digits 2 (Z.to_N b) +:+ acc) EmptyString l.

(** [hashlib.sha256(s.encode()).hexdigest()] *)
Definition sha256 (s : string) : string := hex_of_bytes (sha256_bytes (bytes_of s)).

(** [hmac.new(key.encode(), msg.encode(), hashlib.sha256).hexdigest()] *)
Definition hmac_sha256 (key msg : string) : string :=
  let k := bytes_of key in
  let k0 := if (Nat.ltb 64 (length k)) then sha256_bytes k else k in
  let k1 := k0 ++ replicate (64 - length k0) 0 in
  let inner := sha256_bytes ((Z.lxor 54 <$> k1) ++ bytes_of msg) in
  hex_of_bytes (sha256_bytes ((Z.lxor 92 <$> k1) ++ inner)).

Local Open Scope string_scope.
Example sha256_abc :
  sha256 "abc" = "ba7816bf8f01cfea414140de5dae2223b00361a396177a9cb410ff61f20015ad".
Proof. vm_compute. reflexivity. Qed.
Example sha256_two_blocks :
  sha256 "abcdbcdecdefdefgefghfghighijhijkijkljklmklmnlmnomnopnopq" =
  "248d6a61d20638b8e5c026930c3e6039a33ce45964ff2167f6ecedd419db06c1".
Proof. vm_compute. reflexivity. Qed.
Example hmac_rfc4231_2 :
  hmac_sha256 "Jefe" "what do ya want for nothing?" =
  "5bdcc146bf60754e6a042426089575c75a003f089d2739839dec58b964ec3843".
Proof. vm_compute. reflexivity. Qed.

(** [sha256(json.dumps(v, sort_keys=True, separators=(",", ":")).encode())], the
    digest every evidence record of the control plane carries *)
Definition digest (v : json) : string := sha256 (Json.dumps v).

(** ** The shape of a digest *)
Definition is_hex (c : ascii) : bool :=
  let n := N_of_ascii c in ((48 <=? n) && (n <=? 57) || (97 <=? n) && (n <=? 102))%N.

Lemma hex_digit_is_hex n : is_hex (hex_digit (N.land n 15)) = true.
Proof.
  assert (Hall : forallb (fun k => is_hex (hex_digit (N.of_nat k))) (seq 0 16) = true) by reflexivity.
  rewrite forallb_forall in Hall. change 15%N with (N.ones 4). rewrite N.land_ones. change (2 ^ 4)%N with 16%N.
  specialize (Hall (N.to_nat (n mod 16))). rewrite N2Nat.id in Hall. apply Hall, in_seq.
  rewrite N2Nat.inj_mod. split; [apply Nat.le_0_l|]. by apply Nat.mod_upper_bound.
Qed.

Lemma chars_app (a b : string) : Str.chars (a +:+ b) = (Str.chars a ++ Str.chars b)%list.
Proof. induction a as [|c a IH]; [done|]. change (String c a +:+ b) with (String c (a +:+ b)). cbn. by rewrite IH. Qed.

Lemma length_chars (s : string) : length (Str.chars s) = String.length s.
Proof. induction s as [|c s IH]; cbn; [done|]. by rewrite IH. Qed.

Lemma hex_digits_chars k n : length (Str.chars (hex_digits k n)) = k ∧ forallb is_hex (Str.chars (hex_digits k n)) = true.
Proof.
  revert n. induction k as [|k IH]; intros n; [done|]. cbn [hex_digits]. rewrite chars_app, length_app, forallb_app.
  destruct (IH (N.shiftr n 4)) as [-> ->]. cbn [Str.chars forallb length]. rewrite hex_digit_is_hex. split; [lia|done].
Qed.

Lemma hex_of_bytes_chars l :
  length (Str.chars (hex_of_bytes l)) = (2 * length l)%nat ∧ forallb is_hex (Str.chars (hex_of_bytes l)) = true.
Proof.
  induction l as [|b l IH]; [done|]. cbn [hex_of_bytes foldr length].
  change (foldr _ _ l) with (hex_of_bytes l). rewrite chars_app, length_app, forallb_app.
  destruct (hex_digits_chars 2 (Z.to_N b)) as [-> ->], IH as [-> ->]. split; [lia|done].
Qed.

Lemma round_length st kw : length (round st kw) = length st.
Proof. unfold round. by repeat case_match. Qed.

Lemma blocks_length fuel st ws : length st = 8%nat → length (blocks fuel st ws) = 8%nat.
Proof.
  revert st ws. induction fuel as [|n IH]; intros st ws Hst; [done|]. destruct ws as [|w ws]; [done|].
  cbn [blocks]. apply IH. unfold compress. rewrite length_zip_with, Hst.
  assert (Hr : ∀ l st, length st = 8%nat → length (foldl round st l) = 8%nat).
  { induction l as [|x l IHl]; intros st' Hst'; [done|]. cbn. apply IHl. by rewrite round_length. }
  by rewrite Hr.
Qed.

Lemma sha256_bytes_length m : length (sha256_bytes m) = 32%nat.
Proof.
  unfold sha256_bytes. set (st := blocks _ _ _). assert (Hst : length st = 8%nat) by by apply blocks_length.
  do 9 (destruct st as [|? st]; try done).
Qed.

(** every digest is 64 lower case hexadecimal digits *)
Lemma hex_of_digest m : Str.hex_between 64 64 (hex_of_bytes (sha256_bytes m)) = true.
Proof.
  destruct (hex_of_bytes_chars (sha256_bytes m)) as [Hl Hh]. rewrite sha256_bytes_length, length_chars in Hl.
  unfold Str.hex_between. rewrite Hl. cbn [Nat.leb Nat.mul andb]. exact Hh.
Qed.

Lemma sha256_hex s : Str.hex_between 64 64 (sha256 s) = true.
Proof. apply hex_of_digest. Qed.

Lemma hmac_hex key msg : Str.hex_between 64 64 (hmac_sha256 key msg) = true.
Proof. apply hex_of_digest. Qed.

#[global] Opaque sha256 hmac_sha256.
