(* ===== verification/JsonText.v ===== *)
(** * Reading JSON text

    [json.loads] as the validators use it: which texts are accepted, and the
    shape of the value (nesting, the keys of objects, numbers that overflow).
    Keys are kept as the UTF-16 units they spell, since an escape can name
    characters beyond the code points of a [string].  Also the decimal value of
    a Python float's [repr], with which the bounds of the schemas compare. *)
From S2P Require Import Prelude Py.
From Stdlib Require Import Ascii.

Open Scope Z_scope.

(** ** Numbers *)
Record number := mkNumber {
  nb_negative : bool;
  nb_digits : list ascii;
  nb_exponent : Z;
  nb_float : bool }.

Fixpoint span_digits (l : list ascii) : list ascii * list ascii :=
  match l with
  | c :: l' => if Str.is_digit c then let '(ds, r) := span_digits l' in (c :: ds, r) else ([], l)
  | [] => ([], [])
  end.

Definition digits_value (ds : list ascii) : Z :=
  foldl (fun acc c => 10 * acc + (Z.of_N (N_of_ascii c) - 48)) 0 ds.

Definition scan_sign (l : list ascii) : bool * list ascii :=
  match l with c :: r => if Ascii.eqb c "-" then (true, r) else (false, l) | [] => (false, l) end.

Definition scan_integer (l : list ascii) : option (list ascii * list ascii) :=
  match l with
  | c :: r =>
      if Ascii.eqb c "0" then Some ([c], r)
      else if Str.is_digit c then Some (span_digits l) else None
  | [] => None
  end.

Definition scan_fraction (l : list ascii) : list ascii * list ascii :=
  match l with
  | c :: r =>
      if Ascii.eqb c "." && negb (bool_decide ((span_digits r).1 = [])) then span_digits r else ([], l)
  | [] => ([], l)
  end.

Definition scan_exponent (l : list ascii) : option Z * list ascii :=
  match l with
  | c :: r =>
      if Ascii.eqb c "e" || Ascii.eqb c "E" then
        let '(negative, r1) := match r with
          | s :: r1 => if Ascii.eqb s "-" then (true, r1) else if Ascii.eqb s "+" then (false, r1) else (false, r)
          | [] => (false, r)
          end in
        let '(ds, r2) := span_digits r1 in
        if bool_decide (ds = []) then (None, l)
        else (Some (if negative : bool then - digits_value ds else digits_value ds), r2)
      else (None, l)
  | [] => (None, l)
  end.

(** ["-?(0|[1-9][0-9]*)(\.[0-9]+)?([eE][-+]?[0-9]+)?"] *)
Definition scan_number (l : list ascii) : option (number * list ascii) :=
  let '(negative, l1) := scan_sign l in
  integer ← scan_integer l1;
  let '(fraction, l2) := scan_fraction integer.2 in
  let '(exponent, l3) := scan_exponent l2 in
  Some (mkNumber negative (integer.1 ++ fraction)
          (default 0 exponent - Z.of_nat (length fraction))
          (negb (bool_decide (fraction = [])) || bool_decide (is_Some exponent)), l3).

(** decimals from here on round to infinity *)
Definition infinite_from : Z := 2 ^ 1024 - 2 ^ 970.

(** [m * 10 ^ e <= n * 10 ^ f] *)
Definition decimal_le (m e n f : Z) : bool :=
  let low := Z.min e f in m * 10 ^ (e - low) <=? n * 10 ^ (f - low).

Definition magnitude (n : number) : Z := digits_value (nb_digits n).
Definition signed (n : number) : Z := if nb_negative n then - magnitude n else magnitude n.
Definition overflows (n : number) : bool :=
  nb_float n && decimal_le infinite_from 0 (magnitude n) (nb_exponent n).

(** [int] refuses more digits than [sys.get_int_max_str_digits()] *)
Definition max_int_digits : nat := 4300.
Definition too_long (n : number) : bool :=
  negb (nb_float n) && negb (length (nb_digits n) <=? max_int_digits)%nat.

(** [low <= x <= high] for a float, the bounds in tenths *)
Definition float_within (low high : Z) (x : string) : bool :=
  match scan_number (Str.chars x) with
  | Some (n, []) =>
      decimal_le low (-1) (signed n) (nb_exponent n) && decimal_le (signed n) (nb_exponent n) high (-1)
  | _ => false
  end.

Example float_bounds :
  float_within 5 8 "0.8" = true ∧ float_within 5 8 "0.8000000000000002" = false ∧
  float_within 0 10 "1e-05" = true ∧ float_within 0 10 "-1e-05" = false ∧
  float_within 0 1000 "nan" = false ∧ float_within (-100) 100 "-10.0" = true.
Proof. vm_compute. repeat split. Qed.

(** ** Values *)
Inductive shape :=
| Leaf
| NonFinite
| Arr (l : list shape)
| Obj (kv : list (list N * shape)).

Definition skips (c : ascii) : bool :=
  Ascii.eqb c " " || Ascii.eqb c "009" || Ascii.eqb c "010" || Ascii.eqb c "013".
Fixpoint skip_space (l : list ascii) : list ascii :=
  match l with c :: l' => if skips c then skip_space l' else l | [] => [] end.

Definition hex_digit_value (c : ascii) : option N :=
  let n := N_of_ascii c in
  if ((65 <=? n) && (n <=? 70))%N then Some (n - 55)%N else hex_value c.

Definition hex_unit (a b c d : ascii) : option N :=
  a ← hex_digit_value a; b ← hex_digit_value b; c ← hex_digit_value c; d ← hex_digit_value d;
  Some (4096 * a + 256 * b + 16 * c + d)%N.

Definition escaped (c : ascii) : option N :=
  match c with
  | "034"%char => Some 34%N | "\"%char => Some 92%N | "/"%char => Some 47%N
  | "b"%char => Some 8%N | "f"%char => Some 12%N | "n"%char => Some 10%N
  | "r"%char => Some 13%N | "t"%char => Some 9%N
  | _ => None
  end.

(** the units of a string after its opening quote, and what follows the closing one *)
Fixpoint scan_string (l : list ascii) : option (list N * list ascii) :=
  match l with
  | [] => None
  | c :: r =>
      if Ascii.eqb c "034" then Some ([], r)
      else if Ascii.eqb c "\" then
        match r with
        | [] => None
        | e :: r1 =>
            if Ascii.eqb e "u" then
              match r1 with
              | a :: b :: c :: d :: r2 =>
                  u ← hex_unit a b c d; rest ← scan_string r2; Some (u :: rest.1, rest.2)
              | _ => None
              end
            else u ← escaped e; rest ← scan_string r1; Some (u :: rest.1, rest.2)
        end
      else if (N_of_ascii c <? 32)%N then None
      else rest ← scan_string r; Some (N_of_ascii c :: rest.1, rest.2)
  end.

Fixpoint strip (p l : list ascii) : option (list ascii) :=
  match p, l with
  | [], _ => Some l
  | a :: p', b :: l' => if Ascii.eqb a b then strip p' l' else None
  | _ :: _, [] => None
  end.

Definition literals : list (string * shape) :=
  [("null", Leaf); ("true", Leaf); ("false", Leaf); ("NaN", NonFinite); ("Infinity", NonFinite);
   ("-Infinity", NonFinite)].

Definition scan_literal (l : list ascii) : option (shape * list ascii) :=
  head (omap (fun '(word, s) => r ← strip (Str.chars word) l; Some (s, r)) literals).

Definition scan_scalar (l : list ascii) : option (shape * list ascii) :=
  match scan_literal l with
  | Some r => Some r
  | None =>
      n ← scan_number l;
      if too_long n.1 then None else Some (if overflows n.1 then NonFinite else Leaf, n.2)
  end.

(** a later member replaces an earlier one of the same key *)
Fixpoint put (k : list N) (v : shape) (kv : list (list N * shape)) : list (list N * shape) :=
  match kv with
  | [] => [(k, v)]
  | (k', v') :: kv' => if bool_decide (k = k') then (k', v) :: kv' else (k', v') :: put k v kv'
  end.

(** the rest of the text, when its first character is [c] *)
Definition after (c : ascii) (l : list ascii) : option (list ascii) :=
  match l with
  | a :: r => if Ascii.eqb a c then Some r else None
  | [] => None
  end.

(** Each call consumes a character or hands the text to another kind of call, so
    a little over twice the length of the text is fuel enough ([loads_fuel]). *)
Fixpoint read_value (fuel : nat) (l : list ascii) : option (shape * list ascii) :=
  match fuel with
  | O => None
  | S fuel =>
      match after "034" l, after "[" l, after "{" l with
      | Some r, _, _ => s ← scan_string r; Some (Leaf, s.2)
      | _, Some r, _ =>
          match after "]" (skip_space r) with
          | Some r' => Some (Arr [], r')
          | None => items ← read_items fuel (skip_space r); Some (Arr items.1, items.2)
          end
      | _, _, Some r =>
          match after "}" (skip_space r) with
          | Some r' => Some (Obj [], r')
          | None => members ← read_members fuel (skip_space r);
                    Some (Obj (foldl (fun kv m => put m.1 m.2 kv) [] members.1), members.2)
          end
      | None, None, None => scan_scalar l
      end
  end
with read_items (fuel : nat) (l : list ascii) : option (list shape * list ascii) :=
  match fuel with
  | O => None
  | S fuel =>
      item ← read_value fuel l;
      match after "]" (skip_space item.2), after "," (skip_space item.2) with
      | Some r, _ => Some ([item.1], r)
      | None, Some r => items ← read_items fuel (skip_space r); Some (item.1 :: items.1, items.2)
      | None, None => None
      end
  end
with read_members (fuel : nat) (l : list ascii) : option (list (list N * shape) * list ascii) :=
  match fuel with
  | O => None
  | S fuel =>
      r ← after "034" l;
      key ← scan_string r;
      r1 ← after ":" (skip_space key.2);
      value ← read_value fuel (skip_space r1);
      match after "}" (skip_space value.2), after "," (skip_space value.2) with
      | Some r2, _ => Some ([(key.1, value.1)], r2)
      | None, Some r2 =>
          members ← read_members fuel (skip_space r2);
          Some ((key.1, value.1) :: members.1, members.2)
      | None, None => None
      end
  end.

(** [json.loads(text)]; [None] is a ValueError *)
Definition loads (text : string) : option shape :=
  let l := skip_space (Str.chars text) in
  value ← read_value (2 * length l + 1) l;
  if bool_decide (skip_space value.2 = []) then Some value.1 else None.

Fixpoint height (v : shape) : nat :=
  match v with
  | Leaf | NonFinite => 0
  | Arr l => foldr (fun x n => Nat.max (S (height x)) n) 0%nat l
  | Obj kv => foldr (fun x n => Nat.max (S (height x.2)) n) 0%nat kv
  end.

Fixpoint all_finite (v : shape) : bool :=
  match v with
  | Leaf => true
  | NonFinite => false
  | Arr l => forallb all_finite l
  | Obj kv => forallb (fun x => all_finite x.2) kv
  end.

(** ** The fuel is enough *)
Section fuel.
Local Open Scope nat_scope.

Lemma skip_space_le l : length (skip_space l) ≤ length l.
Proof. induction l as [|c l IH]; cbn; [done|]. destruct (skips c); cbn; lia. Qed.

Lemma after_lt c l r : after c l = Some r → S (length r) = length l.
Proof. destruct l as [|a l]; cbn; [done|]. destruct (Ascii.eqb a c); [|done]. by intros [= ->]. Qed.

Lemma span_digits_le l : length (span_digits l).2 ≤ length l.
Proof.
  induction l as [|c l IH]; cbn; [done|]. destruct (Str.is_digit c); [|done].
  destruct (span_digits l); cbn in *. lia.
Qed.

Lemma strip_le p l r : strip p l = Some r → length r ≤ length l.
Proof.
  revert l. induction p as [|a p IH]; intros [|b l]; cbn; try (by intros [= <-]); try done.
  destruct (Ascii.eqb a b); [|done]. intros H. apply IH in H. lia.
Qed.

Lemma scan_string_le n l s r : length l ≤ n → scan_string l = Some (s, r) → length r ≤ length l.
Proof.
  revert l s r. induction n as [|n IH]; intros [|c l] s r Hn; cbn in *; try done; [lia|].
  destruct (Ascii.eqb c "034"); [intros [= <- <-]; lia|]. destruct (Ascii.eqb c "\").
  - destruct l as [|e l]; [done|]. cbn in *. destruct (Ascii.eqb e "u").
    + destruct l as [|a [|b [|c' [|d l]]]]; try done. cbn in *. destruct (hex_unit a b c' d); [|done]. cbn.
      destruct (scan_string l) as [[s' r']|] eqn:E; [|done]. cbn. intros [= <- <-]. apply IH in E; lia.
    + destruct (escaped e); [|done]. cbn.
      destruct (scan_string l) as [[s' r']|] eqn:E; [|done]. cbn. intros [= <- <-]. apply IH in E; lia.
  - destruct (N_of_ascii c <? 32)%N; [done|].
    destruct (scan_string l) as [[s' r']|] eqn:E; [|done]. cbn. intros [= <- <-]. apply IH in E; lia.
Qed.

Lemma scan_literal_le l v r : scan_literal l = Some (v, r) → length r ≤ length l.
Proof.
  unfold scan_literal. intros H%head_Some_elem_of. apply list_elem_of_omap in H as ([word sh] & _ & H).
  destruct (strip (Str.chars word) l) as [r'|] eqn:E; [|done]. injection H as <- <-. by eapply strip_le.
Qed.

Lemma scan_sign_le l : length (scan_sign l).2 ≤ length l.
Proof. destruct l as [|c l]; cbn; [done|]. destruct (Ascii.eqb c "-"); cbn; lia. Qed.

Lemma scan_integer_le l ds r : scan_integer l = Some (ds, r) → length r ≤ length l.
Proof.
  destruct l as [|c l]; [done|]. cbn -[span_digits]. destruct (Ascii.eqb c "0"); [intros [= <- <-]; cbn; lia|].
  pose proof (span_digits_le (c :: l)) as H. destruct (Str.is_digit c) eqn:Ed; [|done].
  intros [= E]. cbn in H. rewrite Ed in E, H. by rewrite E in H.
Qed.

Lemma scan_fraction_le l : length (scan_fraction l).2 ≤ length l.
Proof.
  destruct l as [|c l]; [done|]. cbn. destruct (_ && _); [|done]. pose proof (span_digits_le l). lia.
Qed.

Lemma scan_exponent_le l : length (scan_exponent l).2 ≤ length l.
Proof.
  destruct l as [|c l]; [done|]. cbn -[span_digits]. destruct (_ || _); [|done].
  destruct (match l with [] => _ | _ => _ end) as [b r1] eqn:E1.
  assert (length r1 ≤ length l).
  { destruct l as [|s l]; [by injection E1 as <- <-|]. destruct (Ascii.eqb s "-"); [injection E1 as <- <-; cbn; lia|].
    destruct (Ascii.eqb s "+"); injection E1 as <- <-; cbn; lia. }
  pose proof (span_digits_le r1). destruct (span_digits r1) as [ds r2]. case_bool_decide; cbn in *; lia.
Qed.

Lemma scan_number_le l n r : scan_number l = Some (n, r) → length r ≤ length l.
Proof.
  unfold scan_number. pose proof (scan_sign_le l). destruct (scan_sign l) as [b l1]. cbn in *.
  destruct (scan_integer l1) as [[ds l2]|] eqn:E; [|done]. apply scan_integer_le in E. cbn.
  pose proof (scan_fraction_le l2). destruct (scan_fraction l2) as [fs l3]. cbn in *.
  pose proof (scan_exponent_le l3). destruct (scan_exponent l3) as [e l4]. cbn in *. intros [= <- <-]. lia.
Qed.

Lemma scan_scalar_le l v r : scan_scalar l = Some (v, r) → length r ≤ length l.
Proof.
  unfold scan_scalar. destruct (scan_literal l) as [[v' r']|] eqn:E; [intros [= <- <-]; by eapply scan_literal_le|].
  destruct (scan_number l) as [[n r']|] eqn:En; [|done]. cbn. destruct (too_long n); [done|].
  intros [= <- <-]. by eapply scan_number_le.
Qed.

(** what is read is a prefix of the text *)
Lemma read_le f :
  (∀ l v r, read_value f l = Some (v, r) → length r ≤ length l) ∧
  (∀ l v r, read_items f l = Some (v, r) → length r ≤ length l) ∧
  (∀ l v r, read_members f l = Some (v, r) → length r ≤ length l).
Proof.
  induction f as [|f (IHv & IHi & IHm)]; [done|].
  repeat split; intros l v r; cbn [read_value read_items read_members].
  - destruct (after "034" l) as [r0|] eqn:E0; [|destruct (after "[" l) as [r0|] eqn:E1; [|destruct (after "{" l) as [r0|] eqn:E2]].
    + apply after_lt in E0. destruct (scan_string r0) as [[k r1]|] eqn:Es; [|done]. cbn. intros [= <- <-].
      pose proof (scan_string_le _ _ _ _ (le_n _) Es). lia.
    + apply after_lt in E1. pose proof (skip_space_le r0). destruct (after "]" _) as [r1|] eqn:Ea.
      { apply after_lt in Ea. intros [= <- <-]. lia. }
      destruct (read_items f _) as [[k r1]|] eqn:Es; [|done]. cbn. intros [= <- <-]. apply IHi in Es. lia.
    + apply after_lt in E2. pose proof (skip_space_le r0). destruct (after "}" _) as [r1|] eqn:Ea.
      { apply after_lt in Ea. intros [= <- <-]. lia. }
      destruct (read_members f _) as [[k r1]|] eqn:Es; [|done]. cbn. intros [= <- <-]. apply IHm in Es. lia.
    + apply scan_scalar_le.
  - destruct (read_value f l) as [[x r0]|] eqn:E0; [|done]. apply IHv in E0. cbn.
    pose proof (skip_space_le r0). destruct (after "]" _) as [r1|] eqn:Ea.
    { apply after_lt in Ea. intros [= <- <-]. lia. }
    destruct (after "," _) as [r1|] eqn:Eb; [|done]. apply after_lt in Eb.
    destruct (read_items f _) as [[k r2]|] eqn:Es; [|done]. apply IHi in Es. pose proof (skip_space_le r1).
    cbn. intros [= <- <-]. lia.
  - destruct (after "034" l) as [r0|] eqn:E0; [|done]. apply after_lt in E0. cbn.
    destruct (scan_string r0) as [[k r1]|] eqn:Es; [|done]. apply (scan_string_le _ _ _ _ (le_n _)) in Es. cbn.
    pose proof (skip_space_le r1). destruct (after ":" _) as [r2|] eqn:Ec; [|done]. apply after_lt in Ec. cbn.
    pose proof (skip_space_le r2). destruct (read_value f _) as [[x r3]|] eqn:Ev; [|done]. apply IHv in Ev. cbn.
    pose proof (skip_space_le r3). destruct (after "}" _) as [r4|] eqn:Ea.
    { apply after_lt in Ea. intros [= <- <-]. lia. }
    destruct (after "," _) as [r4|] eqn:Eb; [|done]. apply after_lt in Eb. pose proof (skip_space_le r4).
    destruct (read_members f _) as [[m r5]|] eqn:Em; [|done]. apply IHm in Em. cbn. intros [= <- <-]. lia.
Qed.

Lemma read_step f :
  (∀ l, 2 * length l + 1 ≤ f → read_value (S f) l = read_value f l) ∧
  (∀ l, 2 * length l + 2 ≤ f → read_items (S f) l = read_items f l) ∧
  (∀ l, 2 * length l + 2 ≤ f → read_members (S f) l = read_members f l).
Proof.
  induction f as [|f (IHv & IHi & IHm)]; [repeat split; intros; lia|].
  destruct (read_le f) as (Lv & _ & _).
  remember (S f) as g eqn:Eg. repeat split; intros l Hf; rewrite Eg in Hf; rewrite Eg at 2;
    [cbn [read_value]|cbn [read_items]|cbn [read_members]]; clear Eg.
  - destruct (after "034" l); [done|]. destruct (after "[" l) as [r0|] eqn:E1; [|destruct (after "{" l) as [r0|] eqn:E2; [|done]].
    + apply after_lt in E1. pose proof (skip_space_le r0). rewrite (IHi (skip_space r0)) by lia. done.
    + apply after_lt in E2. pose proof (skip_space_le r0). rewrite (IHm (skip_space r0)) by lia. done.
  - rewrite (IHv l) by lia. destruct (read_value f l) as [[x r0]|] eqn:E0; [|done]. apply Lv in E0. cbn -[read_items].
    pose proof (skip_space_le r0). destruct (after "]" _); [done|]. destruct (after "," _) as [r1|] eqn:Eb; [|done].
    apply after_lt in Eb. pose proof (skip_space_le r1). rewrite (IHi (skip_space r1)) by lia. done.
  - destruct (after "034" l) as [r0|] eqn:E0; [|done]. apply after_lt in E0. cbn -[read_value read_members].
    destruct (scan_string r0) as [[k r1]|] eqn:Es; [|done]. apply (scan_string_le _ _ _ _ (le_n _)) in Es.
    cbn -[read_value read_members]. pose proof (skip_space_le r1). destruct (after ":" _) as [r2|] eqn:Ec; [|done].
    apply after_lt in Ec. cbn -[read_value read_members]. pose proof (skip_space_le r2). rewrite (IHv (skip_space r2)) by lia.
    destruct (read_value f _) as [[x r3]|] eqn:Ev; [|done]. apply Lv in Ev. cbn -[read_members].
    pose proof (skip_space_le r3). destruct (after "}" _); [done|]. destruct (after "," _) as [r4|] eqn:Eb; [|done].
    apply after_lt in Eb. pose proof (skip_space_le r4). rewrite (IHm (skip_space r4)) by lia. done.
Qed.

(** more fuel never changes what a text reads as *)
Lemma loads_fuel l f : 2 * length l + 1 ≤ f → read_value f l = read_value (2 * length l + 1) l.
Proof.
  intros Hf. induction Hf as [|f Hf IH]; [done|]. rewrite <- IH. by apply read_step.
Qed.
End fuel.

Example loads_object :
  loads ("{" +:+ Json.quoted "a" +:+ ": [1, -2.5e3, {}], " +:+ Json.quoted "a" +:+ " : null}") =
    Some (Obj [([97%N], Leaf)]) ∧
  loads "[1,]" = None ∧ loads "[1e999, NaN]" = Some (Arr [NonFinite; NonFinite]) ∧ loads "01" = None.
Proof. vm_compute. repeat split. Qed.
