(* ===== verification/IpNetwork.v ===== *)
(** * [ipaddress.ip_network]

    The part of Python's [ipaddress] module the operation parameters use:
    [ip_network(item, strict=True)] of a JSON value, as the version and the
    prefix length of the network, or [None] where it raises [ValueError]. *)
From Stdlib Require Import Ascii.
From S2P Require Import Prelude Py.

Open Scope Z_scope.

Definition digit_value (c : ascii) : Z := Z.of_N (N_of_ascii c) - 48.

(** [int(s)] of a string of ASCII digits *)
Definition parse_digits (s : string) : option Z :=
  if Str.nonempty s && forallb Str.is_digit (Str.chars s)
  then Some (foldl (fun acc c => 10 * acc + digit_value c) 0 (Str.chars s)) else None.

Definition is_hex_digit (c : ascii) : bool :=
  let n := N_of_ascii c in ((48 <=? n) && (n <=? 57) || (65 <=? n) && (n <=? 70) || (97 <=? n) && (n <=? 102))%N.
Definition hex_digit_value (c : ascii) : Z :=
  let n := Z.of_N (N_of_ascii c) in if n <=? 57 then n - 48 else if n <=? 70 then n - 55 else n - 87.

(** the parts of an address, most significant first *)
Definition join_parts (width : Z) (l : list Z) : Z := foldl (fun acc x => Z.lor (Z.shiftl acc width) x) 0 l.

(** ** IPv4 *)
Definition parse_octet (s : string) : option Z :=
  if (3 <? Z.of_nat (String.length s)) || negb (str_eqb s "0") && Str.startswith "0" s then None
  else match parse_digits s with
       | Some n => if n <=? 255 then Some n else None
       | None => None
       end.

Definition ipv4_address (s : string) : option Z :=
  match Str.split_all "." s with
  | [a; b; c; d] => join_parts 8 <$> mapM parse_octet [a; b; c; d]
  | _ => None
  end.

(** [_prefix_from_ip_int] *)
Fixpoint righthand_zeros (fuel : nat) (n : Z) : Z :=
  match fuel with
  | O => 0
  | S k => if Z.odd n then 0 else 1 + righthand_zeros k (Z.shiftr n 1)
  end.
Definition prefix_from_ip_int (n : Z) : option Z :=
  let zeros := righthand_zeros 32 n in
  let prefixlen := 32 - zeros in
  if Z.shiftr n zeros =? Z.ones prefixlen then Some prefixlen else None.

Definition prefix_from_ip_string (s : string) : option Z :=
  n ← ipv4_address s;
  match prefix_from_ip_int n with
  | Some p => Some p
  | None => prefix_from_ip_int (Z.lxor n (Z.ones 32))
  end.

Definition prefix_from_prefix_string (width : Z) (s : string) : option Z :=
  p ← parse_digits s; if p <=? width then Some p else None.

Definition ipv4_netmask (s : string) : option Z :=
  match prefix_from_prefix_string 32 s with Some p => Some p | None => prefix_from_ip_string s end.

(** ** IPv6 *)
Definition parse_hextet (s : string) : option Z :=
  if Str.nonempty s && (Z.of_nat (String.length s) <=? 4) && forallb is_hex_digit (Str.chars s)
  then Some (foldl (fun acc c => 16 * acc + hex_digit_value c) 0 (Str.chars s)) else None.

(** the groups of an address, a trailing dotted quad as two of them *)
Definition ipv6_groups (parts : list string) : option (list string * list Z) :=
  match last parts with
  | Some quad =>
      if Str.contains "." quad then
        n ← ipv4_address quad; Some (removelast parts, [Z.shiftr n 16; Z.land n 65535])
      else Some (parts, [])
  | None => None
  end.

(** the positions of the empty parts strictly inside *)
Definition inner_empty (parts : list string) : list nat :=
  List.filter (fun i => match parts !! i with Some s => negb (Str.nonempty s) | None => false end)
    (seq 1 (length parts - 2)).

(** the parsed groups around the elided ones; [tail] are the groups of a dotted quad *)
Definition elided_address (parts : list string) (tail : list Z) (skip : nat) : option Z :=
  let hi := take skip parts in
  let lo := drop (S skip) parts in
  let hi' := match hi with "" :: l => l | l => l end in
  let lo' := if bool_decide (tail = []) && bool_decide (last lo = Some "") then removelast lo else lo in
  if negb (bool_decide (length hi' = length hi)) && negb (bool_decide (hi' = [])) then None
  else if negb (bool_decide (length lo' = length lo)) && negb (bool_decide (lo' = [])) then None
  else
    let skipped := 8 - Z.of_nat (length hi' + length lo' + length tail) in
    if skipped <? 1 then None
    else
      high ← mapM parse_hextet hi'; low ← mapM parse_hextet lo';
      Some (join_parts 16 (high ++ replicate (Z.to_nat skipped) 0 ++ low ++ tail)).

Definition ipv6_address (s : string) : option Z :=
  let parts := Str.split_all ":" s in
  if (length parts <? 3)%nat then None
  else
    groups ← ipv6_groups parts;
    let '(parts, tail) := groups in
    if (9 <? length parts + length tail)%nat then None
    else
      match inner_empty (parts ++ replicate (length tail) "0") with
      | [] =>
          if negb (length parts + length tail =? 8)%nat then None
          else groups ← mapM parse_hextet parts; Some (join_parts 16 (groups ++ tail))
      | [skip] => elided_address parts tail skip
      | _ => None
      end.

(** the address before a scope identifier *)
Definition split_scope_id (s : string) : option string :=
  match Str.split_all "%" s with
  | [address] => Some address
  | [address; scope] => if Str.nonempty scope then Some address else None
  | _ => None
  end.

(** ** Networks *)

(** the address, its width and the length of its mask *)
Definition network_of (version width : Z) (address : option Z) (prefixlen : option Z) : option (option (Z * Z)) :=
  match address, prefixlen with
  | Some a, Some p =>
      (* strict: no host bits *)
      Some (if Z.land a (Z.shiftl (Z.ones p) (width - p)) =? a then Some (version, p) else None)
  | _, _ => None
  end.

(** [None]: not a network of this version; [Some None]: [ValueError] *)
Definition ip_network_int (version width n : Z) : option (option (Z * Z)) :=
  if (0 <=? n) && (n <? 2 ^ width) then Some (Some (version, width)) else None.

Definition ip_network_str (version width : Z) (address netmask : string → option Z) (s : string)
    : option (option (Z * Z)) :=
  match Str.split_all "/" s with
  | [a] => network_of version width (address a) (Some width)
  | [a; m] => network_of version width (address a) (netmask m)
  | _ => None
  end.

Definition ip_network (item : json) : option (Z * Z) :=
  let number n :=
    match ip_network_int 4 32 n with
    | Some r => r
    | None => default None (ip_network_int 6 128 n)
    end in
  match item with
  | JInt n => number n
  | JBool b => number (if b then 1 else 0)
  | v =>
      let s := Json.str v in
      match ip_network_str 4 32 ipv4_address ipv4_netmask s with
      | Some r => r
      | None =>
          default None (ip_network_str 6 128 (fun a => split_scope_id a ≫= ipv6_address)
                          (prefix_from_prefix_string 128) s)
      end
  end.

Section examples.
Example ipv4_private : ip_network (JStr "10.0.0.0/8") = Some (4, 8). Proof. reflexivity. Qed.
Example ipv4_dotted_mask : ip_network (JStr "192.168.0.0/255.255.0.0") = Some (4, 16). Proof. reflexivity. Qed.
Example ipv4_host_mask : ip_network (JStr "192.168.0.0/0.0.255.255") = Some (4, 16). Proof. reflexivity. Qed.
Example ipv4_host_bits : ip_network (JStr "10.0.0.1/8") = None. Proof. reflexivity. Qed.
Example ipv4_leading_zero : ip_network (JStr "10.00.0.0/8") = None. Proof. reflexivity. Qed.
Example ipv4_address_only : ip_network (JStr "10.0.0.1") = Some (4, 32). Proof. reflexivity. Qed.
Example ipv4_number : ip_network (JInt 5) = Some (4, 32). Proof. reflexivity. Qed.
Example ipv6_elided : ip_network (JStr "2001:db8::/32") = Some (6, 32). Proof. reflexivity. Qed.
Example ipv6_any : ip_network (JStr "::/0") = Some (6, 0). Proof. reflexivity. Qed.
Example ipv6_quad : ip_network (JStr "::ffff:1.2.3.4") = Some (6, 128). Proof. reflexivity. Qed.
Example ipv6_full : ip_network (JStr "fe80:0:0:0:1:2:3:4%eth0") = Some (6, 128). Proof. reflexivity. Qed.
Example ipv6_two_elisions : ip_network (JStr "1::2::3") = None. Proof. reflexivity. Qed.
Example ipv6_open_start : ip_network (JStr ":1:2:3:4:5:6:7") = None. Proof. reflexivity. Qed.
Example ipv6_elided_group : ip_network (JStr "1::2:3:4:5:6:7:8") = None. Proof. reflexivity. Qed.
Example none_network : ip_network JNull = None. Proof. reflexivity. Qed.
End examples.
