(* ===== verification/Models.v ===== *)
(** * Database rows

    One record per SQLAlchemy model the modelled services read or write, with
    the columns of the class.  Status columns that only ever hold the values of
    a closed set are inductive types; the others stay strings.  A column holding
    the validated dump of a pydantic model ([manifest], [task_spec]) is a record
    of that model's fields.  Rows of append-only tables carry no identifier: it
    is their position in the log. *)
From S2P Require Import Prelude Py.

Open Scope Z_scope.

(** a Python float, by its [repr] *)
Definition py_float : Type := string.

(** [schemas/task.py]: [TaskStatus] *)
Inductive TaskStatus :=
| Queued | Leased | Running | Succeeded | Failed | Cancelled | PendingApproval.
#[export] Instance TaskStatus_eq_dec : EqDecision TaskStatus.
Proof. solve_decision. Defined.

Definition task_status_str (s : TaskStatus) : string :=
  match s with
  | Queued => "queued" | Leased => "leased" | Running => "running"
  | Succeeded => "succeeded" | Failed => "failed" | Cancelled => "cancelled"
  | PendingApproval => "pending_approval"
  end.

Inductive ApprovalStatus :=
| ApPending | ApApproved | ApConsumed | ApExpired | ApRejected | ApRevoked.
#[export] Instance ApprovalStatus_eq_dec : EqDecision ApprovalStatus.
Proof. solve_decision. Defined.

Definition approval_status_str (s : ApprovalStatus) : string :=
  match s with
  | ApPending => "pending" | ApApproved => "approved" | ApConsumed => "consumed"
  | ApExpired => "expired" | ApRejected => "rejected" | ApRevoked => "revoked"
  end.

Inductive NotificationState := NPending | NWaiting | NSuperseded | NAcknowledged.
#[export] Instance NotificationState_eq_dec : EqDecision NotificationState.
Proof. solve_decision. Defined.

Inductive MissionStatus := MPendingApproval | MActive | MSucceeded | MBlocked | MCancelled.
#[export] Instance MissionStatus_eq_dec : EqDecision MissionStatus.
Proof. solve_decision. Defined.

Definition mission_status_str (s : MissionStatus) : string :=
  match s with
  | MPendingApproval => "pending_approval" | MActive => "active" | MSucceeded => "succeeded"
  | MBlocked => "blocked" | MCancelled => "cancelled"
  end.

Inductive SupervisionStatus :=
| SvPendingApproval | SvActive | SvRecovering | SvAttentionRequired | SvSucceeded | SvAborted.
#[export] Instance SupervisionStatus_eq_dec : EqDecision SupervisionStatus.
Proof. solve_decision. Defined.

Inductive GraphStatus :=
| GDraft | GActive | GCancelling | GCompensating | GSucceeded | GFailed | GCancelled
| GCompensated | GCompensationFailed.
#[export] Instance GraphStatus_eq_dec : EqDecision GraphStatus.
Proof. solve_decision. Defined.

Definition graph_status_str (s : GraphStatus) : string :=
  match s with
  | GDraft => "draft" | GActive => "active" | GCancelling => "cancelling"
  | GCompensating => "compensating" | GSucceeded => "succeeded" | GFailed => "failed"
  | GCancelled => "cancelled" | GCompensated => "compensated"
  | GCompensationFailed => "compensation_failed"
  end.

(** a node is ["blocked"] until it mirrors the status of its task *)
Inductive NodeStatus := NodeBlocked | NodeTask (s : TaskStatus).
#[export] Instance NodeStatus_eq_dec : EqDecision NodeStatus.
Proof. solve_decision. Defined.

(** [schemas/authority.py]: the participants a separation rule can name *)
Inductive SeparationField := FRequester | FOriginator | FEvaluator.

(** [models/agent.py]: class [Agent] *)
Record Agent := mkAgent {
  ag_id : uuid;
  ag_slug : string;
  ag_display_name : string;
  ag_role : string;
  ag_machine : string;
  ag_hermes_profile : string;
  ag_runtime : option string;
  ag_runtime_version : option string;
  ag_status : string;
  ag_capabilities : list string;
  ag_heartbeat_metadata : Json.dict;
  ag_risk_ceiling : Z;
  ag_is_enabled : bool;
  ag_last_heartbeat_at : option datetime;
  ag_created_at : datetime;
  ag_updated_at : datetime }.
#[export] Instance eta_Agent : Eta Agent := fun r => mkAgent (ag_id r) (ag_slug r) (ag_display_name
  r) (ag_role r) (ag_machine r) (ag_hermes_profile r) (ag_runtime r) (ag_runtime_version r)
  (ag_status r) (ag_capabilities r) (ag_heartbeat_metadata r) (ag_risk_ceiling r) (ag_is_enabled r)
  (ag_last_heartbeat_at r) (ag_created_at r) (ag_updated_at r).
#[export] Instance set_ag_runtime : Setter ag_runtime := ltac:(derive_setter).
#[export] Instance set_ag_runtime_version : Setter ag_runtime_version := ltac:(derive_setter).
#[export] Instance set_ag_status : Setter ag_status := ltac:(derive_setter).
#[export] Instance set_ag_capabilities : Setter ag_capabilities := ltac:(derive_setter).
#[export] Instance set_ag_heartbeat_metadata : Setter ag_heartbeat_metadata := ltac:(derive_setter).
#[export] Instance set_ag_is_enabled : Setter ag_is_enabled := ltac:(derive_setter).
#[export] Instance set_ag_last_heartbeat_at : Setter ag_last_heartbeat_at := ltac:(derive_setter).
#[export] Instance set_ag_updated_at : Setter ag_updated_at := ltac:(derive_setter).

(** [models/agent_credential.py]: class [AgentCredential] *)
Record AgentCredential := mkAgentCredential {
  cr_id : uuid;
  cr_agent_id : uuid;
  cr_workload_identity_id : option uuid;
  cr_rotation_parent_id : option uuid;
  cr_rotation_state : string;
  cr_overlap_expires_at : option datetime;
  cr_token_prefix : string;
  cr_token_digest : string;
  cr_created_at : datetime;
  cr_last_used_at : option datetime;
  cr_expires_at : option datetime;
  cr_revoked_at : option datetime }.
#[export] Instance eta_AgentCredential : Eta AgentCredential := fun r => mkAgentCredential (cr_id r)
  (cr_agent_id r) (cr_workload_identity_id r) (cr_rotation_parent_id r) (cr_rotation_state r)
  (cr_overlap_expires_at r) (cr_token_prefix r) (cr_token_digest r) (cr_created_at r)
  (cr_last_used_at r) (cr_expires_at r) (cr_revoked_at r).
#[export] Instance set_cr_workload_identity_id : Setter cr_workload_identity_id := ltac:(derive_setter).
#[export] Instance set_cr_rotation_state : Setter cr_rotation_state := ltac:(derive_setter).
#[export] Instance set_cr_overlap_expires_at : Setter cr_overlap_expires_at := ltac:(derive_setter).
#[export] Instance set_cr_last_used_at : Setter cr_last_used_at := ltac:(derive_setter).
#[export] Instance set_cr_revoked_at : Setter cr_revoked_at := ltac:(derive_setter).

(** [models/task.py]: class [Task] *)
Record Task := mkTask {
  t_id : uuid;
  t_task_number : string;
  t_project : string;
  t_task_type : string;
  t_title : string;
  t_objective : string;
  t_status : TaskStatus;
  t_priority : Z;
  t_risk_level : Z;
  t_assigned_agent_id : option uuid;
  t_parent_task_id : option uuid;
  t_conversation_id : option uuid;
  t_conversation_revision : option Z;
  t_mission_id : option uuid;
  t_milestone_step_id : option string;
  t_task_graph_node_id : option uuid;
  t_created_by : string;
  t_input_contract : Json.dict;
  t_expected_outputs : json;
  t_acceptance_criteria : json;
  t_approval_policy : Json.dict;
  t_approval_required : bool;
  t_plan_digest : string;
  t_required_capabilities : list string;
  t_allowed_machines : list string;
  t_max_attempts : Z;
  t_attempt_count : Z;
  t_leased_at : option datetime;
  t_lease_expires_at : option datetime;
  t_lease_token_prefix : option string;
  t_lease_token_digest : option string;
  t_last_execution_heartbeat_at : option datetime;
  t_result : Json.dict;
  t_failure : Json.dict;
  t_created_at : datetime;
  t_updated_at : datetime;
  t_started_at : option datetime;
  t_completed_at : option datetime;
  t_cancel_requested_at : option datetime;
  t_cancel_reason : option string }.
#[export] Instance eta_Task : Eta Task := fun r => mkTask (t_id r) (t_task_number r) (t_project r)
  (t_task_type r) (t_title r) (t_objective r) (t_status r) (t_priority r) (t_risk_level r)
  (t_assigned_agent_id r) (t_parent_task_id r) (t_conversation_id r) (t_conversation_revision r)
  (t_mission_id r) (t_milestone_step_id r) (t_task_graph_node_id r) (t_created_by r)
  (t_input_contract r) (t_expected_outputs r) (t_acceptance_criteria r) (t_approval_policy r)
  (t_approval_required r) (t_plan_digest r) (t_required_capabilities r) (t_allowed_machines r)
  (t_max_attempts r) (t_attempt_count r) (t_leased_at r) (t_lease_expires_at r)
  (t_lease_token_prefix r) (t_lease_token_digest r) (t_last_execution_heartbeat_at r) (t_result r)
  (t_failure r) (t_created_at r) (t_updated_at r) (t_started_at r) (t_completed_at r)
  (t_cancel_requested_at r) (t_cancel_reason r).
#[export] Instance set_t_status : Setter t_status := ltac:(derive_setter).
#[export] Instance set_t_assigned_agent_id : Setter t_assigned_agent_id := ltac:(derive_setter).
#[export] Instance set_t_parent_task_id : Setter t_parent_task_id := ltac:(derive_setter).
#[export] Instance set_t_conversation_id : Setter t_conversation_id := ltac:(derive_setter).
#[export] Instance set_t_conversation_revision : Setter t_conversation_revision := ltac:(derive_setter).
#[export] Instance set_t_mission_id : Setter t_mission_id := ltac:(derive_setter).
#[export] Instance set_t_milestone_step_id : Setter t_milestone_step_id := ltac:(derive_setter).
#[export] Instance set_t_task_graph_node_id : Setter t_task_graph_node_id := ltac:(derive_setter).
#[export] Instance set_t_max_attempts : Setter t_max_attempts := ltac:(derive_setter).
#[export] Instance set_t_attempt_count : Setter t_attempt_count := ltac:(derive_setter).
#[export] Instance set_t_leased_at : Setter t_leased_at := ltac:(derive_setter).
#[export] Instance set_t_lease_expires_at : Setter t_lease_expires_at := ltac:(derive_setter).
#[export] Instance set_t_lease_token_prefix : Setter t_lease_token_prefix := ltac:(derive_setter).
#[export] Instance set_t_lease_token_digest : Setter t_lease_token_digest := ltac:(derive_setter).
#[export] Instance set_t_last_execution_heartbeat_at : Setter t_last_execution_heartbeat_at := ltac:(derive_setter).
#[export] Instance set_t_result : Setter t_result := ltac:(derive_setter).
#[export] Instance set_t_failure : Setter t_failure := ltac:(derive_setter).
#[export] Instance set_t_updated_at : Setter t_updated_at := ltac:(derive_setter).
#[export] Instance set_t_started_at : Setter t_started_at := ltac:(derive_setter).
#[export] Instance set_t_completed_at : Setter t_completed_at := ltac:(derive_setter).
#[export] Instance set_t_cancel_requested_at : Setter t_cancel_requested_at := ltac:(derive_setter).
#[export] Instance set_t_cancel_reason : Setter t_cancel_reason := ltac:(derive_setter).

(** [models/task_event.py]: class [TaskEvent] *)
Record TaskEvent := mkTaskEvent {
  te_task_id : uuid;
  te_agent_id : option uuid;
  te_event_type : string;
  te_attempt_number : Z;
  te_message : string;
  te_payload : Json.dict;
  te_created_at : datetime }.

(** [models/governance.py]: class [TaskApproval] *)
Record TaskApproval := mkTaskApproval {
  ap_id : uuid;
  ap_task_id : uuid;
  ap_status : ApprovalStatus;
  ap_plan_digest : string;
  ap_risk_level : Z;
  ap_scope : Json.dict;
  ap_requested_by : string;
  ap_decided_by : option string;
  ap_decision_reason : option string;
  ap_nonce_digest : option string;
  ap_issued_at : option datetime;
  ap_expires_at : option datetime;
  ap_consumed_at : option datetime;
  ap_created_at : datetime;
  ap_updated_at : datetime }.
#[export] Instance eta_TaskApproval : Eta TaskApproval := fun r => mkTaskApproval (ap_id r)
  (ap_task_id r) (ap_status r) (ap_plan_digest r) (ap_risk_level r) (ap_scope r) (ap_requested_by r)
  (ap_decided_by r) (ap_decision_reason r) (ap_nonce_digest r) (ap_issued_at r) (ap_expires_at r)
  (ap_consumed_at r) (ap_created_at r) (ap_updated_at r).
#[export] Instance set_ap_status : Setter ap_status := ltac:(derive_setter).
#[export] Instance set_ap_decided_by : Setter ap_decided_by := ltac:(derive_setter).
#[export] Instance set_ap_decision_reason : Setter ap_decision_reason := ltac:(derive_setter).
#[export] Instance set_ap_nonce_digest : Setter ap_nonce_digest := ltac:(derive_setter).
#[export] Instance set_ap_issued_at : Setter ap_issued_at := ltac:(derive_setter).
#[export] Instance set_ap_expires_at : Setter ap_expires_at := ltac:(derive_setter).
#[export] Instance set_ap_consumed_at : Setter ap_consumed_at := ltac:(derive_setter).
#[export] Instance set_ap_updated_at : Setter ap_updated_at := ltac:(derive_setter).

(** [models/governance.py]: class [ApprovalEvent] *)
Record ApprovalEvent := mkApprovalEvent {
  ae_approval_id : uuid;
  ae_event_type : string;
  ae_actor : string;
  ae_reason : string;
  ae_payload : Json.dict;
  ae_created_at : datetime }.

(** [models/governance.py]: class [FounderNotification] *)
Record FounderNotification := mkFounderNotification {
  fn_id : uuid;
  fn_kind : string;
  fn_entity_id : uuid;
  fn_deduplication_key : string;
  fn_state : NotificationState;
  fn_payload : Json.dict;
  fn_acknowledged_by : option string;
  fn_acknowledged_at : option datetime;
  fn_superseded_at : option datetime;
  fn_created_at : datetime;
  fn_updated_at : datetime }.
#[export] Instance eta_FounderNotification : Eta FounderNotification := fun r =>
  mkFounderNotification (fn_id r) (fn_kind r) (fn_entity_id r) (fn_deduplication_key r) (fn_state r)
  (fn_payload r) (fn_acknowledged_by r) (fn_acknowledged_at r) (fn_superseded_at r) (fn_created_at
  r) (fn_updated_at r).
#[export] Instance set_fn_state : Setter fn_state := ltac:(derive_setter).
#[export] Instance set_fn_acknowledged_by : Setter fn_acknowledged_by := ltac:(derive_setter).
#[export] Instance set_fn_acknowledged_at : Setter fn_acknowledged_at := ltac:(derive_setter).
#[export] Instance set_fn_superseded_at : Setter fn_superseded_at := ltac:(derive_setter).
#[export] Instance set_fn_updated_at : Setter fn_updated_at := ltac:(derive_setter).

(** [models/control.py]: class [ControlScope] *)
Record ControlScope := mkControlScope {
  cs_id : uuid;
  cs_scope_type : string;
  cs_scope_key : string;
  cs_is_paused : bool;
  cs_reason : option string;
  cs_updated_by : string;
  cs_created_at : datetime;
  cs_updated_at : datetime }.
#[export] Instance eta_ControlScope : Eta ControlScope := fun r => mkControlScope (cs_id r)
  (cs_scope_type r) (cs_scope_key r) (cs_is_paused r) (cs_reason r) (cs_updated_by r) (cs_created_at
  r) (cs_updated_at r).
#[export] Instance set_cs_is_paused : Setter cs_is_paused := ltac:(derive_setter).
#[export] Instance set_cs_reason : Setter cs_reason := ltac:(derive_setter).
#[export] Instance set_cs_updated_by : Setter cs_updated_by := ltac:(derive_setter).
#[export] Instance set_cs_updated_at : Setter cs_updated_at := ltac:(derive_setter).

(** [models/control.py]: class [ControlEvent] *)
Record ControlEvent := mkControlEvent {
  ce_scope_type : string;
  ce_scope_key : string;
  ce_event_type : string;
  ce_actor : string;
  ce_reason : option string;
  ce_payload : Json.dict;
  ce_created_at : datetime }.

(** [models/mission.py]: class [EngineeringMission] *)
Record EngineeringMission := mkEngineeringMission {
  ms_id : uuid;
  ms_milestone_id : string;
  ms_project : string;
  ms_objective : string;
  ms_status : MissionStatus;
  ms_manifest_digest : string;
  ms_manifest : json;
  ms_approved_by : string;
  ms_approval_reference : string;
  ms_approval_signature : string;
  ms_max_tasks : Z;
  ms_max_attempts : Z;
  ms_max_duration_seconds : Z;
  ms_deadline_at : datetime;
  ms_created_by : string;
  ms_created_at : datetime;
  ms_updated_at : datetime;
  ms_completed_at : option datetime;
  ms_supervision_enabled : bool;
  ms_supervision_status : option SupervisionStatus;
  ms_supervision_policy : Json.dict;
  ms_supervision_approved_at : option datetime;
  ms_supervision_approved_by : option string;
  ms_recovery_count : Z;
  ms_next_reconcile_at : option datetime;
  ms_supervision_exception : Json.dict }.
#[export] Instance eta_EngineeringMission : Eta EngineeringMission := fun r => mkEngineeringMission
  (ms_id r) (ms_milestone_id r) (ms_project r) (ms_objective r) (ms_status r) (ms_manifest_digest r)
  (ms_manifest r) (ms_approved_by r) (ms_approval_reference r) (ms_approval_signature r)
  (ms_max_tasks r) (ms_max_attempts r) (ms_max_duration_seconds r) (ms_deadline_at r) (ms_created_by
  r) (ms_created_at r) (ms_updated_at r) (ms_completed_at r) (ms_supervision_enabled r)
  (ms_supervision_status r) (ms_supervision_policy r) (ms_supervision_approved_at r)
  (ms_supervision_approved_by r) (ms_recovery_count r) (ms_next_reconcile_at r)
  (ms_supervision_exception r).
#[export] Instance set_ms_status : Setter ms_status := ltac:(derive_setter).
#[export] Instance set_ms_updated_at : Setter ms_updated_at := ltac:(derive_setter).
#[export] Instance set_ms_completed_at : Setter ms_completed_at := ltac:(derive_setter).
#[export] Instance set_ms_supervision_status : Setter ms_supervision_status := ltac:(derive_setter).
#[export] Instance set_ms_supervision_approved_at : Setter ms_supervision_approved_at := ltac:(derive_setter).
#[export] Instance set_ms_supervision_approved_by : Setter ms_supervision_approved_by := ltac:(derive_setter).
#[export] Instance set_ms_recovery_count : Setter ms_recovery_count := ltac:(derive_setter).
#[export] Instance set_ms_next_reconcile_at : Setter ms_next_reconcile_at := ltac:(derive_setter).
#[export] Instance set_ms_supervision_exception : Setter ms_supervision_exception := ltac:(derive_setter).

(** [models/mission.py]: class [TaskDependency] *)
Record TaskDependency := mkTaskDependency {
  td_task_id : uuid;
  td_depends_on_task_id : uuid;
  td_created_at : datetime }.

(** [models/mission.py]: class [MissionEvent] *)
Record MissionEvent := mkMissionEvent {
  me_mission_id : uuid;
  me_event_type : string;
  me_actor : string;
  me_message : string;
  me_payload : Json.dict;
  me_created_at : datetime }.

(** [models/task_graph.py]: class [TaskGraph] *)
Record TaskGraph := mkTaskGraph {
  tg_id : uuid;
  tg_graph_key : string;
  tg_project : string;
  tg_objective : string;
  tg_status : GraphStatus;
  tg_schema_version : string;
  tg_manifest : json;
  tg_manifest_digest : string;
  tg_max_nodes : Z;
  tg_max_total_attempts : Z;
  tg_max_duration_seconds : Z;
  tg_max_parallelism : Z;
  tg_created_by : string;
  tg_terminal_reason : Json.dict;
  tg_created_at : datetime;
  tg_activated_at : option datetime;
  tg_deadline_at : option datetime;
  tg_completed_at : option datetime }.
#[export] Instance eta_TaskGraph : Eta TaskGraph := fun r => mkTaskGraph (tg_id r) (tg_graph_key r)
  (tg_project r) (tg_objective r) (tg_status r) (tg_schema_version r) (tg_manifest r)
  (tg_manifest_digest r) (tg_max_nodes r) (tg_max_total_attempts r) (tg_max_duration_seconds r)
  (tg_max_parallelism r) (tg_created_by r) (tg_terminal_reason r) (tg_created_at r) (tg_activated_at
  r) (tg_deadline_at r) (tg_completed_at r).
#[export] Instance set_tg_status : Setter tg_status := ltac:(derive_setter).
#[export] Instance set_tg_terminal_reason : Setter tg_terminal_reason := ltac:(derive_setter).
#[export] Instance set_tg_activated_at : Setter tg_activated_at := ltac:(derive_setter).
#[export] Instance set_tg_deadline_at : Setter tg_deadline_at := ltac:(derive_setter).
#[export] Instance set_tg_completed_at : Setter tg_completed_at := ltac:(derive_setter).

(** [schemas/task_graph.py]: class [GraphTaskSpec] *)
Record GraphTaskSpec := mkGraphTaskSpec {
  gs_task_type : string;
  gs_title : string;
  gs_objective : string;
  gs_input_contract : Json.dict;
  gs_expected_outputs : list string;
  gs_acceptance_criteria : list string;
  gs_required_capabilities : list string;
  gs_allowed_machines : list string;
  gs_max_attempts : Z;
  gs_risk_level : Z }.

(** [models/task_graph.py]: class [TaskGraphNode] *)
Record TaskGraphNode := mkTaskGraphNode {
  gn_id : uuid;
  gn_graph_id : uuid;
  gn_node_key : string;
  gn_role : string;
  gn_task_id : option uuid;
  gn_node_type : string;
  gn_status : NodeStatus;
  gn_depends_on : list string;
  gn_input_type : string;
  gn_output_type : string;
  gn_task_spec : GraphTaskSpec;
  gn_stop_conditions : list string;
  gn_compensation : option GraphTaskSpec;
  gn_ordinal : Z;
  gn_created_at : datetime }.
#[export] Instance eta_TaskGraphNode : Eta TaskGraphNode := fun r => mkTaskGraphNode (gn_id r)
  (gn_graph_id r) (gn_node_key r) (gn_role r) (gn_task_id r) (gn_node_type r) (gn_status r)
  (gn_depends_on r) (gn_input_type r) (gn_output_type r) (gn_task_spec r) (gn_stop_conditions r)
  (gn_compensation r) (gn_ordinal r) (gn_created_at r).
#[export] Instance set_gn_task_id : Setter gn_task_id := ltac:(derive_setter).
#[export] Instance set_gn_status : Setter gn_status := ltac:(derive_setter).

(** [models/task_graph.py]: class [TaskGraphMessage] *)
Record TaskGraphMessage := mkTaskGraphMessage {
  gm_graph_id : uuid;
  gm_node_id : option uuid;
  gm_sequence : Z;
  gm_message_type : string;
  gm_sender : string;
  gm_recipient : string;
  gm_payload : Json.dict;
  gm_payload_digest : string;
  gm_created_at : datetime }.

(** [models/task_graph.py]: class [TaskGraphEvent] *)
Record TaskGraphEvent := mkTaskGraphEvent {
  ge_graph_id : uuid;
  ge_sequence : Z;
  ge_event_type : string;
  ge_actor : string;
  ge_payload : Json.dict;
  ge_previous_digest : option string;
  ge_event_digest : string;
  ge_created_at : datetime }.

(** [schemas/agent_governance.py]: class [AgentCharterManifest] *)
Record AgentCharterManifest := mkAgentCharterManifest {
  cm_role : string;
  cm_responsibilities : list string;
  cm_capabilities : list string;
  cm_allowed_machines : list string;
  cm_allowed_task_types : list string;
  cm_allowed_repositories : list string;
  cm_risk_ceiling : Z;
  cm_accountable_owner : string;
  cm_conflicts : list string;
  cm_forbidden_actions : list string }.

(** [models/agent_governance.py]: class [AgentCharter] *)
Record AgentCharter := mkAgentCharter {
  ch_id : uuid;
  ch_agent_id : uuid;
  ch_version : string;
  ch_manifest : AgentCharterManifest;
  ch_manifest_digest : string;
  ch_status : string;
  ch_created_by : string;
  ch_created_at : datetime;
  ch_activated_by : option string;
  ch_activated_at : option datetime;
  ch_supersedes_id : option uuid }.
#[export] Instance eta_AgentCharter : Eta AgentCharter := fun r => mkAgentCharter (ch_id r)
  (ch_agent_id r) (ch_version r) (ch_manifest r) (ch_manifest_digest r) (ch_status r) (ch_created_by
  r) (ch_created_at r) (ch_activated_by r) (ch_activated_at r) (ch_supersedes_id r).
#[export] Instance set_ch_status : Setter ch_status := ltac:(derive_setter).
#[export] Instance set_ch_activated_by : Setter ch_activated_by := ltac:(derive_setter).
#[export] Instance set_ch_activated_at : Setter ch_activated_at := ltac:(derive_setter).
#[export] Instance set_ch_supersedes_id : Setter ch_supersedes_id := ltac:(derive_setter).

(** [models/agent_governance.py]: class [AgentCapabilityGrant] *)
Record AgentCapabilityGrant := mkAgentCapabilityGrant {
  gr_id : uuid;
  gr_agent_id : uuid;
  gr_charter_id : uuid;
  gr_package_id : uuid;
  gr_capability : string;
  gr_machine : string;
  gr_task_types : list string;
  gr_repositories : list string;
  gr_risk_ceiling : Z;
  gr_accountable_owner : string;
  gr_status : string;
  gr_granted_by : string;
  gr_reason : string;
  gr_expires_at : datetime;
  gr_revoked_by : option string;
  gr_revoked_at : option datetime;
  gr_revocation_reason : option string;
  gr_record_digest : string;
  gr_created_at : datetime }.
#[export] Instance eta_AgentCapabilityGrant : Eta AgentCapabilityGrant := fun r =>
  mkAgentCapabilityGrant (gr_id r) (gr_agent_id r) (gr_charter_id r) (gr_package_id r)
  (gr_capability r) (gr_machine r) (gr_task_types r) (gr_repositories r) (gr_risk_ceiling r)
  (gr_accountable_owner r) (gr_status r) (gr_granted_by r) (gr_reason r) (gr_expires_at r)
  (gr_revoked_by r) (gr_revoked_at r) (gr_revocation_reason r) (gr_record_digest r) (gr_created_at
  r).
#[export] Instance set_gr_status : Setter gr_status := ltac:(derive_setter).
#[export] Instance set_gr_revoked_by : Setter gr_revoked_by := ltac:(derive_setter).
#[export] Instance set_gr_revoked_at : Setter gr_revoked_at := ltac:(derive_setter).
#[export] Instance set_gr_revocation_reason : Setter gr_revocation_reason := ltac:(derive_setter).

(** [models/agent_governance.py]: class [AgentGrantEvent] *)
Record AgentGrantEvent := mkAgentGrantEvent {
  gv_grant_id : uuid;
  gv_sequence : Z;
  gv_event_type : string;
  gv_actor : string;
  gv_payload : Json.dict;
  gv_prior_event_digest : option string;
  gv_event_digest : string;
  gv_created_at : datetime }.

(** [schemas/package.py]: class [CompatibilitySpec] *)
Record CompatibilitySpec := mkCompatibilitySpec {
  ct_worker_version_min : string;
  ct_worker_version_max_exclusive : string }.

(** [schemas/package.py]: class [PermissionProfile] *)
Record PermissionProfile := mkPermissionProfile {
  pp_name : string;
  pp_network_access : string;
  pp_privileged_operations : bool;
  pp_writable_roots : list string }.

(** [schemas/package.py]: class [RepositoryProfile] *)
Record RepositoryProfile := mkRepositoryProfile {
  rp_repositories : list string;
  rp_primary_checkout_write : bool;
  rp_remote_write : bool }.

(** [schemas/package.py]: class [WorkflowArtifact] *)
Record WorkflowArtifact := mkWorkflowArtifact {
  wf_name : string;
  wf_file : string;
  wf_sha256 : string }.

(** [schemas/package.py]: class [RunbookPackageArtifact] *)
Record RunbookPackageArtifact := mkRunbookPackageArtifact {
  ra_name : string;
  ra_file : string;
  ra_sha256 : string }.

(** [schemas/package.py]: class [RolePackageManifest] *)
Record RolePackageManifest := mkRolePackageManifest {
  pm_name : string;
  pm_version : string;
  pm_role : string;
  pm_task_types : list string;
  pm_workflows : list WorkflowArtifact;
  pm_runbook_packages : list RunbookPackageArtifact;
  pm_required_capabilities : list string;
  pm_allowed_machines : list string;
  pm_risk_ceiling : Z;
  pm_compatibility : CompatibilitySpec;
  pm_permission_profile : PermissionProfile;
  pm_repository_profile : RepositoryProfile }.

(** [models/package.py]: class [RolePackage] *)
Record RolePackage := mkRolePackage {
  pk_id : uuid;
  pk_name : string;
  pk_version : string;
  pk_manifest : RolePackageManifest;
  pk_manifest_digest : string;
  pk_signature : string;
  pk_source_repository : string;
  pk_source_commit : string;
  pk_created_by : string;
  pk_created_at : datetime }.

(** [models/package.py]: class [PackageDeployment] *)
Record PackageDeployment := mkPackageDeployment {
  pd_id : uuid;
  pd_agent_id : uuid;
  pd_package_id : uuid;
  pd_is_active : bool;
  pd_deployed_by : string;
  pd_deployed_at : datetime;
  pd_revoked_at : option datetime }.
#[export] Instance eta_PackageDeployment : Eta PackageDeployment := fun r => mkPackageDeployment
  (pd_id r) (pd_agent_id r) (pd_package_id r) (pd_is_active r) (pd_deployed_by r) (pd_deployed_at r)
  (pd_revoked_at r).
#[export] Instance set_pd_is_active : Setter pd_is_active := ltac:(derive_setter).
#[export] Instance set_pd_revoked_at : Setter pd_revoked_at := ltac:(derive_setter).

(** [models/workload_identity.py]: class [WorkloadIdentityControl] *)
Record WorkloadIdentityControl := mkWorkloadIdentityControl {
  wc_enforcement_active : bool;
  wc_policy_version : string;
  wc_policy_digest : string;
  wc_activated_by : option string;
  wc_activated_at : option datetime;
  wc_updated_at : datetime }.
#[export] Instance eta_WorkloadIdentityControl : Eta WorkloadIdentityControl := fun r =>
  mkWorkloadIdentityControl (wc_enforcement_active r) (wc_policy_version r) (wc_policy_digest r)
  (wc_activated_by r) (wc_activated_at r) (wc_updated_at r).
#[export] Instance set_wc_enforcement_active : Setter wc_enforcement_active := ltac:(derive_setter).
#[export] Instance set_wc_activated_by : Setter wc_activated_by := ltac:(derive_setter).
#[export] Instance set_wc_activated_at : Setter wc_activated_at := ltac:(derive_setter).

(** [models/workload_identity.py]: class [WorkloadIdentity] *)
Record WorkloadIdentity := mkWorkloadIdentity {
  wi_id : uuid;
  wi_agent_id : uuid;
  wi_charter_id : uuid;
  wi_package_id : uuid;
  wi_version : string;
  wi_machine : string;
  wi_audience : string;
  wi_scopes : list string;
  wi_accountable_owner : string;
  wi_manifest : json;
  wi_manifest_digest : string;
  wi_status : string;
  wi_valid_from : datetime;
  wi_expires_at : datetime;
  wi_created_by : string;
  wi_created_at : datetime;
  wi_revoked_by : option string;
  wi_revoked_at : option datetime;
  wi_revocation_reason : option string }.
#[export] Instance eta_WorkloadIdentity : Eta WorkloadIdentity := fun r => mkWorkloadIdentity (wi_id
  r) (wi_agent_id r) (wi_charter_id r) (wi_package_id r) (wi_version r) (wi_machine r) (wi_audience
  r) (wi_scopes r) (wi_accountable_owner r) (wi_manifest r) (wi_manifest_digest r) (wi_status r)
  (wi_valid_from r) (wi_expires_at r) (wi_created_by r) (wi_created_at r) (wi_revoked_by r)
  (wi_revoked_at r) (wi_revocation_reason r).
#[export] Instance set_wi_status : Setter wi_status := ltac:(derive_setter).
#[export] Instance set_wi_revoked_by : Setter wi_revoked_by := ltac:(derive_setter).
#[export] Instance set_wi_revoked_at : Setter wi_revoked_at := ltac:(derive_setter).
#[export] Instance set_wi_revocation_reason : Setter wi_revocation_reason := ltac:(derive_setter).

(** [models/workload_identity.py]: class [WorkloadIdentityEvent] *)
Record WorkloadIdentityEvent := mkWorkloadIdentityEvent {
  we_identity_id : uuid;
  we_sequence : Z;
  we_event_type : string;
  we_actor : string;
  we_payload : Json.dict;
  we_prior_event_digest : option string;
  we_event_digest : string;
  we_created_at : datetime }.

(** [models/workload_identity.py]: class [WorkloadEmergencyGrant] *)
Record WorkloadEmergencyGrant := mkWorkloadEmergencyGrant {
  wg_id : uuid;
  wg_identity_id : uuid;
  wg_scopes : list string;
  wg_reason : string;
  wg_approved_by : string;
  wg_independent_reviewer : string;
  wg_approval_reference : string;
  wg_status : string;
  wg_starts_at : datetime;
  wg_expires_at : datetime;
  wg_record_digest : string;
  wg_revoked_at : option datetime;
  wg_created_at : datetime }.
#[export] Instance eta_WorkloadEmergencyGrant : Eta WorkloadEmergencyGrant := fun r =>
  mkWorkloadEmergencyGrant (wg_id r) (wg_identity_id r) (wg_scopes r) (wg_reason r) (wg_approved_by
  r) (wg_independent_reviewer r) (wg_approval_reference r) (wg_status r) (wg_starts_at r)
  (wg_expires_at r) (wg_record_digest r) (wg_revoked_at r) (wg_created_at r).
#[export] Instance set_wg_status : Setter wg_status := ltac:(derive_setter).
#[export] Instance set_wg_revoked_at : Setter wg_revoked_at := ltac:(derive_setter).

(** [models/agent_context.py]: class [AgentWorkingMemoryReceipt] *)
Record AgentWorkingMemoryReceipt := mkAgentWorkingMemoryReceipt {
  wm_id : uuid;
  wm_context_manifest_id : uuid;
  wm_task_id : uuid;
  wm_agent_id : uuid;
  wm_sequence : Z;
  wm_kind : string;
  wm_content_digest : string;
  wm_workspace_path : string;
  wm_sensitivity : string;
  wm_status : string;
  wm_expires_at : datetime;
  wm_receipt_digest : string;
  wm_discarded_at : option datetime;
  wm_created_at : datetime }.
#[export] Instance eta_AgentWorkingMemoryReceipt : Eta AgentWorkingMemoryReceipt := fun r =>
  mkAgentWorkingMemoryReceipt (wm_id r) (wm_context_manifest_id r) (wm_task_id r) (wm_agent_id r)
  (wm_sequence r) (wm_kind r) (wm_content_digest r) (wm_workspace_path r) (wm_sensitivity r)
  (wm_status r) (wm_expires_at r) (wm_receipt_digest r) (wm_discarded_at r) (wm_created_at r).
#[export] Instance set_wm_status : Setter wm_status := ltac:(derive_setter).
#[export] Instance set_wm_discarded_at : Setter wm_discarded_at := ltac:(derive_setter).

(** [models/conversation.py]: class [FounderConversation] *)
Record FounderConversation := mkFounderConversation {
  fc_id : uuid;
  fc_short_id : string;
  fc_founder_key : string;
  fc_title : string;
  fc_project : option string;
  fc_status : string;
  fc_working_summary : string;
  fc_current_specification : Json.dict;
  fc_specification_digest : option string;
  fc_revision : Z;
  fc_created_at : datetime;
  fc_updated_at : datetime;
  fc_closed_at : option datetime }.
#[export] Instance eta_FounderConversation : Eta FounderConversation := fun r =>
  mkFounderConversation (fc_id r) (fc_short_id r) (fc_founder_key r) (fc_title r) (fc_project r)
  (fc_status r) (fc_working_summary r) (fc_current_specification r) (fc_specification_digest r)
  (fc_revision r) (fc_created_at r) (fc_updated_at r) (fc_closed_at r).
#[export] Instance set_fc_project : Setter fc_project := ltac:(derive_setter).
#[export] Instance set_fc_status : Setter fc_status := ltac:(derive_setter).
#[export] Instance set_fc_working_summary : Setter fc_working_summary := ltac:(derive_setter).
#[export] Instance set_fc_current_specification : Setter fc_current_specification := ltac:(derive_setter).
#[export] Instance set_fc_specification_digest : Setter fc_specification_digest := ltac:(derive_setter).
#[export] Instance set_fc_revision : Setter fc_revision := ltac:(derive_setter).
#[export] Instance set_fc_updated_at : Setter fc_updated_at := ltac:(derive_setter).
#[export] Instance set_fc_closed_at : Setter fc_closed_at := ltac:(derive_setter).

(** [models/conversation.py]: class [FounderConversationEvent] *)
Record FounderConversationEvent := mkFounderConversationEvent {
  fe_conversation_id : uuid;
  fe_event_type : string;
  fe_actor : string;
  fe_prior_status : option string;
  fe_resulting_status : string;
  fe_revision : Z;
  fe_payload : Json.dict;
  fe_created_at : datetime }.

(** [models/evaluator_routing.py]: class [EvaluatorProfile] *)
Record EvaluatorProfile := mkEvaluatorProfile {
  ep_id : uuid;
  ep_agent_id : uuid;
  ep_profile_version : string;
  ep_status : string;
  ep_review_kinds : list string;
  ep_capabilities : list string;
  ep_machine : string;
  ep_provider : string;
  ep_model_family : string;
  ep_runtime : string;
  ep_context_group : string;
  ep_package_id : uuid;
  ep_package_digest : string;
  ep_attestation : Json.dict;
  ep_profile_digest : string;
  ep_registered_by : string;
  ep_created_at : datetime;
  ep_retired_at : option datetime }.
#[export] Instance eta_EvaluatorProfile : Eta EvaluatorProfile := fun r => mkEvaluatorProfile (ep_id
  r) (ep_agent_id r) (ep_profile_version r) (ep_status r) (ep_review_kinds r) (ep_capabilities r)
  (ep_machine r) (ep_provider r) (ep_model_family r) (ep_runtime r) (ep_context_group r)
  (ep_package_id r) (ep_package_digest r) (ep_attestation r) (ep_profile_digest r) (ep_registered_by
  r) (ep_created_at r) (ep_retired_at r).
#[export] Instance set_ep_status : Setter ep_status := ltac:(derive_setter).
#[export] Instance set_ep_retired_at : Setter ep_retired_at := ltac:(derive_setter).

(** [models/evaluator_routing.py]: class [EvaluationRoute] *)
Record EvaluationRoute := mkEvaluationRoute {
  er_id : uuid;
  er_subject_type : string;
  er_subject_id : string;
  er_subject_digest : string;
  er_producer : Json.dict;
  er_policy : Json.dict;
  er_status : string;
  er_route_digest : string;
  er_requested_by : string;
  er_blocked_reason : Json.dict;
  er_created_at : datetime;
  er_completed_at : option datetime }.
#[export] Instance eta_EvaluationRoute : Eta EvaluationRoute := fun r => mkEvaluationRoute (er_id r)
  (er_subject_type r) (er_subject_id r) (er_subject_digest r) (er_producer r) (er_policy r)
  (er_status r) (er_route_digest r) (er_requested_by r) (er_blocked_reason r) (er_created_at r)
  (er_completed_at r).
#[export] Instance set_er_status : Setter er_status := ltac:(derive_setter).
#[export] Instance set_er_blocked_reason : Setter er_blocked_reason := ltac:(derive_setter).
#[export] Instance set_er_completed_at : Setter er_completed_at := ltac:(derive_setter).

(** [models/evaluator_routing.py]: class [EvaluatorAssignment] *)
Record EvaluatorAssignment := mkEvaluatorAssignment {
  ea_id : uuid;
  ea_route_id : uuid;
  ea_evaluator_profile_id : uuid;
  ea_review_kind : string;
  ea_status : string;
  ea_correlation_report : Json.dict;
  ea_assignment_digest : string;
  ea_review_id : option string;
  ea_review_digest : option string;
  ea_completed_by : option string;
  ea_assigned_at : datetime;
  ea_completed_at : option datetime }.
#[export] Instance eta_EvaluatorAssignment : Eta EvaluatorAssignment := fun r =>
  mkEvaluatorAssignment (ea_id r) (ea_route_id r) (ea_evaluator_profile_id r) (ea_review_kind r)
  (ea_status r) (ea_correlation_report r) (ea_assignment_digest r) (ea_review_id r)
  (ea_review_digest r) (ea_completed_by r) (ea_assigned_at r) (ea_completed_at r).
#[export] Instance set_ea_status : Setter ea_status := ltac:(derive_setter).
#[export] Instance set_ea_review_id : Setter ea_review_id := ltac:(derive_setter).
#[export] Instance set_ea_review_digest : Setter ea_review_digest := ltac:(derive_setter).
#[export] Instance set_ea_completed_by : Setter ea_completed_by := ltac:(derive_setter).
#[export] Instance set_ea_completed_at : Setter ea_completed_at := ltac:(derive_setter).

(** [models/evaluator_routing.py]: class [EvaluationRouteEvent] *)
Record EvaluationRouteEvent := mkEvaluationRouteEvent {
  ev_route_id : uuid;
  ev_sequence : Z;
  ev_event_type : string;
  ev_actor : string;
  ev_payload : Json.dict;
  ev_previous_digest : option string;
  ev_event_digest : string;
  ev_created_at : datetime }.

(** [models/evaluator_routing.py]: class [EvaluationIndependenceReceipt] *)
Record EvaluationIndependenceReceipt := mkEvaluationIndependenceReceipt {
  ei_id : uuid;
  ei_route_id : uuid;
  ei_subject_digest : string;
  ei_verdict : string;
  ei_assertion : Json.dict;
  ei_receipt_digest : string;
  ei_issued_by : string;
  ei_issued_at : datetime }.

(** [models/alpha_discovery.py]: class [AlphaResearchMandate] *)
Record AlphaResearchMandate := mkAlphaResearchMandate {
  am_id : uuid;
  am_mandate_key : string;
  am_version : string;
  am_objective : string;
  am_specification : Json.dict;
  am_budget : Json.dict;
  am_mandate_digest : string;
  am_status : string;
  am_cycle_count : Z;
  am_hypothesis_count : Z;
  am_trial_count : Z;
  am_created_by : string;
  am_approved_by : option string;
  am_created_at : datetime;
  am_valid_from : datetime;
  am_valid_until : datetime;
  am_approved_at : option datetime;
  am_heartbeat_at : datetime }.
#[export] Instance eta_AlphaResearchMandate : Eta AlphaResearchMandate := fun r =>
  mkAlphaResearchMandate (am_id r) (am_mandate_key r) (am_version r) (am_objective r)
  (am_specification r) (am_budget r) (am_mandate_digest r) (am_status r) (am_cycle_count r)
  (am_hypothesis_count r) (am_trial_count r) (am_created_by r) (am_approved_by r) (am_created_at r)
  (am_valid_from r) (am_valid_until r) (am_approved_at r) (am_heartbeat_at r).
#[export] Instance set_am_status : Setter am_status := ltac:(derive_setter).
#[export] Instance set_am_cycle_count : Setter am_cycle_count := ltac:(derive_setter).
#[export] Instance set_am_hypothesis_count : Setter am_hypothesis_count := ltac:(derive_setter).
#[export] Instance set_am_trial_count : Setter am_trial_count := ltac:(derive_setter).
#[export] Instance set_am_approved_by : Setter am_approved_by := ltac:(derive_setter).
#[export] Instance set_am_approved_at : Setter am_approved_at := ltac:(derive_setter).
#[export] Instance set_am_heartbeat_at : Setter am_heartbeat_at := ltac:(derive_setter).

(** [schemas/authority.py]: class [RoleBinding] *)
Record RoleBinding := mkRoleBinding {
  rb_role : string;
  rb_actors : list string }.

(** [schemas/authority.py]: class [SeparationRule] *)
Record SeparationRule := mkSeparationRule {
  sr_field : SeparationField;
  sr_minimum_risk : Z;
  sr_rule_key : string }.

(** [schemas/authority.py]: class [DecisionRight] *)
Record DecisionRight := mkDecisionRight {
  dr_decision_type : string;
  dr_actions : list string;
  dr_accountable_roles : list string;
  dr_veto_roles : list string;
  dr_environments : list string;
  dr_maximum_risk : Z;
  dr_delegable : bool;
  dr_constitutional : bool;
  dr_separation : list SeparationRule }.

(** [schemas/authority.py]: class [AuthorityPolicyManifest] *)
Record AuthorityPolicyManifest := mkAuthorityPolicyManifest {
  apm_policy_key : string;
  apm_version : string;
  apm_roles : list RoleBinding;
  apm_identity_aliases : list (string * string);
  apm_decisions : list DecisionRight;
  apm_constitutional_boundaries : list string }.

(** [models/authority.py]: class [AuthorityPolicySnapshot] *)
Record AuthorityPolicySnapshot := mkAuthorityPolicySnapshot {
  aps_id : uuid;
  aps_policy_key : string;
  aps_version : string;
  aps_status : string;
  aps_manifest : AuthorityPolicyManifest;
  aps_manifest_digest : string;
  aps_effective_from : option datetime;
  aps_effective_until : option datetime;
  aps_activated_by : option string;
  aps_activated_at : option datetime;
  aps_supersedes_id : option uuid;
  aps_created_by : string;
  aps_created_at : datetime }.
#[export] Instance eta_AuthorityPolicySnapshot : Eta AuthorityPolicySnapshot := fun r =>
  mkAuthorityPolicySnapshot (aps_id r) (aps_policy_key r) (aps_version r) (aps_status r)
  (aps_manifest r) (aps_manifest_digest r) (aps_effective_from r) (aps_effective_until r)
  (aps_activated_by r) (aps_activated_at r) (aps_supersedes_id r) (aps_created_by r) (aps_created_at
  r).
#[export] Instance set_aps_status : Setter aps_status := ltac:(derive_setter).
#[export] Instance set_aps_effective_from : Setter aps_effective_from := ltac:(derive_setter).
#[export] Instance set_aps_effective_until : Setter aps_effective_until := ltac:(derive_setter).
#[export] Instance set_aps_activated_by : Setter aps_activated_by := ltac:(derive_setter).
#[export] Instance set_aps_activated_at : Setter aps_activated_at := ltac:(derive_setter).
#[export] Instance set_aps_supersedes_id : Setter aps_supersedes_id := ltac:(derive_setter).

(** [models/authority.py]: class [AuthorityDelegation] *)
Record AuthorityDelegation := mkAuthorityDelegation {
  ad_id : uuid;
  ad_policy_id : uuid;
  ad_grantor_actor : string;
  ad_grantee_actor : string;
  ad_decision_types : list string;
  ad_scope : Json.dict;
  ad_max_risk : Z;
  ad_environment : string;
  ad_reason : string;
  ad_status : string;
  ad_expires_at : datetime;
  ad_revoked_at : option datetime;
  ad_created_at : datetime }.
#[export] Instance eta_AuthorityDelegation : Eta AuthorityDelegation := fun r =>
  mkAuthorityDelegation (ad_id r) (ad_policy_id r) (ad_grantor_actor r) (ad_grantee_actor r)
  (ad_decision_types r) (ad_scope r) (ad_max_risk r) (ad_environment r) (ad_reason r) (ad_status r)
  (ad_expires_at r) (ad_revoked_at r) (ad_created_at r).
#[export] Instance set_ad_status : Setter ad_status := ltac:(derive_setter).
#[export] Instance set_ad_revoked_at : Setter ad_revoked_at := ltac:(derive_setter).

(** [models/authority.py]: class [AuthorityException] *)
Record AuthorityException := mkAuthorityException {
  ax_id : uuid;
  ax_policy_id : uuid;
  ax_rule_key : string;
  ax_requester : string;
  ax_approver : option string;
  ax_independent_reviewer : string;
  ax_reason : string;
  ax_scope : Json.dict;
  ax_risk_level : Z;
  ax_compensating_controls : list string;
  ax_status : string;
  ax_effective_from : option datetime;
  ax_expires_at : datetime;
  ax_closed_at : option datetime;
  ax_terminal_disposition : option string;
  ax_record_digest : string;
  ax_created_at : datetime }.
#[export] Instance eta_AuthorityException : Eta AuthorityException := fun r => mkAuthorityException
  (ax_id r) (ax_policy_id r) (ax_rule_key r) (ax_requester r) (ax_approver r)
  (ax_independent_reviewer r) (ax_reason r) (ax_scope r) (ax_risk_level r) (ax_compensating_controls
  r) (ax_status r) (ax_effective_from r) (ax_expires_at r) (ax_closed_at r) (ax_terminal_disposition
  r) (ax_record_digest r) (ax_created_at r).
#[export] Instance set_ax_approver : Setter ax_approver := ltac:(derive_setter).
#[export] Instance set_ax_status : Setter ax_status := ltac:(derive_setter).
#[export] Instance set_ax_effective_from : Setter ax_effective_from := ltac:(derive_setter).
#[export] Instance set_ax_closed_at : Setter ax_closed_at := ltac:(derive_setter).
#[export] Instance set_ax_terminal_disposition : Setter ax_terminal_disposition := ltac:(derive_setter).

(** [models/authority.py]: class [AuthorityDecisionRecord] *)
Record AuthorityDecisionRecord := mkAuthorityDecisionRecord {
  ar_id : uuid;
  ar_policy_id : uuid;
  ar_decision_type : string;
  ar_action : string;
  ar_object_type : string;
  ar_object_id : string;
  ar_object_digest : string;
  ar_actor : string;
  ar_effective_roles : list string;
  ar_scope : Json.dict;
  ar_risk_level : Z;
  ar_outcome : string;
  ar_reason : string;
  ar_evidence : Json.dict;
  ar_delegation_id : option uuid;
  ar_exception_id : option uuid;
  ar_record_digest : string;
  ar_created_at : datetime }.

(** [models/workload_identity.py]: class [WorkloadAuthorizationReceipt] *)
Record WorkloadAuthorizationReceipt := mkWorkloadAuthorizationReceipt {
  wr_id : uuid;
  wr_identity_id : uuid;
  wr_credential_prefix : string;
  wr_action : string;
  wr_required_scope : string;
  wr_allowed : bool;
  wr_reason : string;
  wr_context : Json.dict;
  wr_receipt_digest : string;
  wr_created_at : datetime }.

(** [schemas/factor_language.py]: class [FieldContract] *)
Record FieldContract := mkFieldContract {
  fct_unit : string;
  fct_domain : string;
  fct_clock : string;
  fct_availability_lag : Z }.

(** [schemas/factor_language.py]: class [FactorDefinition] *)
Record FactorDefinition := mkFactorDefinition {
  fdf_expression : Json.dict;
  fdf_output_unit : string;
  fdf_missing_policy : string }.

(** [schemas/factor_language.py]: class [LabelDefinition] *)
Record LabelDefinition := mkLabelDefinition {
  lbl_field : string;
  lbl_horizon : Z;
  lbl_kind : string }.

(** [schemas/factor_language.py]: class [FactorProgramSource] *)
Record FactorProgramSource := mkFactorProgramSource {
  fps_schema_version : string;
  fps_representation_contract_digest : string;
  fps_dataset_manifest_digest : string;
  fps_decision_clock : string;
  fps_fields : list (string * FieldContract);
  fps_parameters : list (string * list json);
  fps_factors : list (string * FactorDefinition);
  fps_label : LabelDefinition;
  fps_maximum_trials : Z }.

(** [schemas/factor_language.py]: class [FactorProgramCreate] *)
Record FactorProgramCreate := mkFactorProgramCreate {
  fpc_program_key : string;
  fpc_hypothesis_id : uuid;
  fpc_source : FactorProgramSource;
  fpc_supersedes_program_id : option uuid;
  fpc_registered_by : string }.

(** [models/factor_language.py]: class [FactorExperimentProgram] *)
Record FactorExperimentProgram := mkFactorExperimentProgram {
  fxp_id : uuid;
  fxp_program_key : string;
  fxp_hypothesis_id : uuid;
  fxp_language_version : string;
  fxp_source : FactorProgramSource;
  fxp_source_digest : string;
  fxp_semantic_digest : string;
  fxp_compiled : json;
  fxp_compiled_digest : string;
  fxp_status : string;
  fxp_supersedes_program_id : option uuid;
  fxp_registered_by : string;
  fxp_registered_at : datetime }.
#[export] Instance eta_FactorExperimentProgram : Eta FactorExperimentProgram := fun r =>
  mkFactorExperimentProgram (fxp_id r) (fxp_program_key r) (fxp_hypothesis_id r)
  (fxp_language_version r) (fxp_source r) (fxp_source_digest r) (fxp_semantic_digest r)
  (fxp_compiled r) (fxp_compiled_digest r) (fxp_status r) (fxp_supersedes_program_id r)
  (fxp_registered_by r) (fxp_registered_at r).
#[export] Instance set_fxp_status : Setter fxp_status := ltac:(derive_setter).

(** [models/research.py]: class [ResearchHypothesis] *)
Record ResearchHypothesis := mkResearchHypothesis {
  rhy_id : uuid;
  rhy_hypothesis_key : string;
  rhy_trial_family : string;
  rhy_specification : Json.dict;
  rhy_record_digest : string;
  rhy_registered_by : string;
  rhy_registered_at : datetime }.

(** [models/data_contract.py]: class [ResearchDatasetManifest] *)
Record ResearchDatasetManifest := mkResearchDatasetManifest {
  rdm_id : uuid;
  rdm_manifest_key : string;
  rdm_manifest : Json.dict;
  rdm_manifest_digest : string;
  rdm_registered_by : string;
  rdm_registered_at : datetime }.

(** [models/prompt_policy.py]: class [PromptPolicyBundle] *)
Record PromptPolicyBundle := mkPromptPolicyBundle {
  ppb_id : uuid;
  ppb_bundle_key : string;
  ppb_version : string;
  ppb_purpose : string;
  ppb_status : string;
  ppb_schema_version : string;
  ppb_model_binding : Json.dict;
  ppb_prompt_template : string;
  ppb_policy : Json.dict;
  ppb_input_schema : Json.dict;
  ppb_output_schema : Json.dict;
  ppb_trust_labels : list string;
  ppb_allowed_tools : list string;
  ppb_allowed_data_classes : list string;
  ppb_bundle_digest : string;
  ppb_created_by : string;
  ppb_created_at : datetime;
  ppb_activated_at : option datetime;
  ppb_retired_at : option datetime }.

(** [schemas/symbolic_search.py]: class [SymbolicConstraints] *)
Record SymbolicConstraints := mkSymbolicConstraints {
  syc_maximum_candidates : Z;
  syc_maximum_nodes : Z;
  syc_maximum_depth : Z;
  syc_maximum_constants : Z;
  syc_allowed_operators : list string;
  syc_required_fields : list string;
  syc_allow_parameters : bool }.

(** the constraints a run stores *)
Record RunConstraints := mkRunConstraints {
  rcn_terms : SymbolicConstraints;
  rcn_base_factor_program_digest : string;
  rcn_prompt_policy_digest : string }.

(** [models/symbolic_search.py]: class [SymbolicSearchRun] *)
Record SymbolicSearchRun := mkSymbolicSearchRun {
  syr_id : uuid;
  syr_run_key : string;
  syr_base_factor_program_id : uuid;
  syr_prompt_policy_bundle_id : uuid;
  syr_constraints : RunConstraints;
  syr_constraints_digest : string;
  syr_status : string;
  syr_candidate_count : Z;
  syr_accepted_count : Z;
  syr_closure : Json.dict;
  syr_generated_by : string;
  syr_created_at : datetime }.
#[export] Instance eta_SymbolicSearchRun : Eta SymbolicSearchRun := fun r => mkSymbolicSearchRun
  (syr_id r) (syr_run_key r) (syr_base_factor_program_id r) (syr_prompt_policy_bundle_id r)
  (syr_constraints r) (syr_constraints_digest r) (syr_status r) (syr_candidate_count r)
  (syr_accepted_count r) (syr_closure r) (syr_generated_by r) (syr_created_at r).
#[export] Instance set_syr_status : Setter syr_status := ltac:(derive_setter).
#[export] Instance set_syr_candidate_count : Setter syr_candidate_count := ltac:(derive_setter).
#[export] Instance set_syr_accepted_count : Setter syr_accepted_count := ltac:(derive_setter).
#[export] Instance set_syr_closure : Setter syr_closure := ltac:(derive_setter).

(** [models/symbolic_search.py]: class [SymbolicSearchCandidate] *)
Record SymbolicSearchCandidate := mkSymbolicSearchCandidate {
  syk_id : uuid;
  syk_run_id : uuid;
  syk_candidate_key : string;
  syk_proposal : Json.dict;
  syk_proposal_digest : string;
  syk_semantic_digest : option string;
  syk_status : string;
  syk_violations : list string;
  syk_compiled : Json.dict;
  syk_validation_digest : string;
  syk_submitted_by : string;
  syk_created_at : datetime }.

(** [schemas/symbolic_search.py]: class [SymbolicSearchCreate] *)
Record SymbolicSearchCreate := mkSymbolicSearchCreate {
  ssc_run_key : string;
  ssc_base_factor_program_id : uuid;
  ssc_prompt_policy_bundle_id : uuid;
  ssc_constraints : SymbolicConstraints;
  ssc_generated_by : string }.

(** [schemas/symbolic_search.py]: class [GeneratorIdentity] *)
Record GeneratorIdentity := mkGeneratorIdentity {
  gid_provider : string;
  gid_model : string;
  gid_version : string;
  gid_seed : Z;
  gid_candidate_index : Z }.

(** [schemas/symbolic_search.py]: class [SymbolicCandidateCreate] *)
Record SymbolicCandidateCreate := mkSymbolicCandidateCreate {
  scc_candidate_key : string;
  scc_expression : Json.dict;
  scc_output_unit : string;
  scc_generator : GeneratorIdentity;
  scc_output_digest : string;
  scc_submitted_by : string }.

(** [models/workload_identity.py]: class [WorkloadSecretPolicy] *)
Record WorkloadSecretPolicy := mkWorkloadSecretPolicy {
  wsp_id : uuid;
  wsp_identity_id : uuid;
  wsp_logical_name : string;
  wsp_version : string;
  wsp_required_scope : string;
  wsp_reference : string;
  wsp_rotation_due_at : datetime;
  wsp_expires_at : datetime;
  wsp_status : string;
  wsp_policy_digest : string;
  wsp_created_by : string;
  wsp_created_at : datetime }.
#[export] Instance eta_WorkloadSecretPolicy : Eta WorkloadSecretPolicy := fun r =>
  mkWorkloadSecretPolicy (wsp_id r) (wsp_identity_id r) (wsp_logical_name r) (wsp_version r)
  (wsp_required_scope r) (wsp_reference r) (wsp_rotation_due_at r) (wsp_expires_at r) (wsp_status r)
  (wsp_policy_digest r) (wsp_created_by r) (wsp_created_at r).
#[export] Instance set_wsp_status : Setter wsp_status := ltac:(derive_setter).

(** [schemas/workload_identity.py]: class [WorkloadIdentityCreate] *)
Record WorkloadIdentityCreate := mkWorkloadIdentityCreate {
  wic_agent_id : uuid;
  wic_charter_id : uuid;
  wic_package_id : uuid;
  wic_version : string;
  wic_audience : string;
  wic_scopes : list string;
  wic_accountable_owner : string;
  wic_expires_at : datetime;
  wic_created_by : string }.

(** [schemas/workload_identity.py]: class [WorkloadAuthorizationRequest] *)
Record WorkloadAuthorizationRequest := mkWorkloadAuthorizationRequest {
  war_identity_id : uuid;
  war_credential_prefix : string;
  war_action : string;
  war_required_scope : string;
  war_context : Json.dict }.

(** [schemas/workload_identity.py]: class [WorkloadSecretPolicyCreate] *)
Record WorkloadSecretPolicyCreate := mkWorkloadSecretPolicyCreate {
  wpc_identity_id : uuid;
  wpc_logical_name : string;
  wpc_version : string;
  wpc_required_scope : string;
  wpc_reference : string;
  wpc_rotation_due_at : datetime;
  wpc_expires_at : datetime;
  wpc_created_by : string }.

(** [schemas/workload_identity.py]: class [WorkloadEmergencyGrantCreate] *)
Record WorkloadEmergencyGrantCreate := mkWorkloadEmergencyGrantCreate {
  wgc_identity_id : uuid;
  wgc_scopes : list string;
  wgc_reason : string;
  wgc_approved_by : string;
  wgc_independent_reviewer : string;
  wgc_approval_reference : string;
  wgc_expires_at : datetime }.

(** [schemas/runbook_package.py]: class [ParameterDefinition] *)
Record ParameterDefinition := mkParameterDefinition {
  rpd_type : string;
  rpd_required : bool;
  rpd_secret : bool;
  rpd_minimum : option Z;
  rpd_maximum : option Z;
  rpd_allowed_values : list string }.

(** [schemas/runbook_package.py]: class [TargetProfile] *)
Record TargetProfile := mkTargetProfile {
  rtp_name : string;
  rtp_machine : string;
  rtp_environment : string;
  rtp_service_class : string;
  rtp_writable_roots : list string;
  rtp_private_endpoint : option string;
  rtp_dns_name : option string }.

(** [schemas/runbook_package.py]: class [PreflightContract] *)
Record PreflightContract := mkPreflightContract {
  rpf_checks : list string;
  rpf_failure_mode : string }.

(** [schemas/runbook_package.py]: class [RehearsalContract] *)
Record RehearsalContract := mkRehearsalContract {
  rhc_required : bool;
  rhc_target_profile : string;
  rhc_max_evidence_age_hours : Z;
  rhc_required_evidence : list string }.

(** [schemas/runbook_package.py]: class [RollbackDefinition] *)
Record RollbackDefinition := mkRollbackDefinition {
  rbk_operation : string;
  rbk_triggers : list string;
  rbk_timeout_seconds : Z;
  rbk_required_evidence : list string }.

(** [schemas/runbook_package.py]: class [PackagedOperation] *)
Record PackagedOperation := mkPackagedOperation {
  rpo_name : string;
  rpo_category : string;
  rpo_task_type : string;
  rpo_target_profile : string;
  rpo_risk_level : Z;
  rpo_approval_required : bool;
  rpo_parameters : list (string * ParameterDefinition);
  rpo_preflight : PreflightContract;
  rpo_evidence : list string;
  rpo_rollback : option RollbackDefinition }.

(** [schemas/runbook_package.py]: class [RunbookPackageManifest] *)
Record RunbookPackageManifest := mkRunbookPackageManifest {
  rpm_schema_version : Z;
  rpm_name : string;
  rpm_version : string;
  rpm_description : string;
  rpm_target_profiles : list TargetProfile;
  rpm_rehearsal : RehearsalContract;
  rpm_operations : list PackagedOperation }.

(** [models/runbook_package.py]: class [RunbookPackage] *)
Record RunbookPackage := mkRunbookPackage {
  rpk_id : uuid;
  rpk_name : string;
  rpk_version : string;
  rpk_manifest : RunbookPackageManifest;
  rpk_manifest_digest : string;
  rpk_signature : string;
  rpk_source_repository : string;
  rpk_source_commit : string;
  rpk_created_by : string;
  rpk_created_at : datetime }.

(** [models/runbook_package.py]: class [RunbookPromotion] *)
Record RunbookPromotion := mkRunbookPromotion {
  rpr_id : uuid;
  rpr_package_id : uuid;
  rpr_state : string;
  rpr_evidence_digest : option string;
  rpr_approval_reference : option string;
  rpr_previous_record_digest : option string;
  rpr_record_digest : string;
  rpr_recorded_by : string;
  rpr_recorded_at : datetime }.

(** [schemas/runbook_package.py]: class [RunbookPackageCreate] *)
Record RunbookPackageCreate := mkRunbookPackageCreate {
  rkc_manifest : RunbookPackageManifest;
  rkc_manifest_digest : string;
  rkc_signature : string;
  rkc_source_repository : string;
  rkc_source_commit : string;
  rkc_created_by : string }.

(** [schemas/runbook_package.py]: class [RunbookPromotionCreate] *)
Record RunbookPromotionCreate := mkRunbookPromotionCreate {
  rqc_state : string;
  rqc_evidence_digest : option string;
  rqc_approval_reference : option string;
  rqc_recorded_by : string }.

(** [schemas/infrastructure.py]: class [InfrastructureContract] *)
Record InfrastructureContract := mkInfrastructureContract {
  icn_runbook : string;
  icn_runbook_version : string;
  icn_operation : string;
  icn_target : string;
  icn_parameters : Json.dict;
  icn_package_name : option string;
  icn_package_version : option string;
  icn_package_digest : option string }.

(** [schemas/infrastructure.py]: class [BrokerTicketPayload] *)
Record BrokerTicketPayload := mkBrokerTicketPayload {
  btp_schema_version : Z;
  btp_task_id : uuid;
  btp_task_number : string;
  btp_attempt_number : Z;
  btp_agent_id : uuid;
  btp_machine : string;
  btp_task_type : string;
  btp_risk_level : Z;
  btp_plan_digest : string;
  btp_contract : InfrastructureContract;
  btp_nonce : string;
  btp_issued_at : datetime;
  btp_expires_at : datetime }.

(** [schemas/infrastructure.py]: class [BrokerTicketResponse] *)
Record BrokerTicketResponse := mkBrokerTicketResponse {
  btr_payload : BrokerTicketPayload;
  btr_signature : string }.

(** [schemas/agent.py]: class [AgentCreate] *)
Record AgentCreate := mkAgentCreate {
  agc_slug : string;
  agc_display_name : string;
  agc_role : string;
  agc_machine : string;
  agc_hermes_profile : string;
  agc_capabilities : list string;
  agc_risk_ceiling : Z }.

(** [schemas/agent.py]: class [AgentHeartbeat] *)
Record AgentHeartbeat := mkAgentHeartbeat {
  ahb_status : string;
  ahb_runtime : string;
  ahb_runtime_version : option string;
  ahb_capabilities : option (list string);
  ahb_metadata : Json.dict }.

(** [schemas/package.py]: class [RolePackageCreate] *)
Record RolePackageCreate := mkRolePackageCreate {
  rpc_manifest : RolePackageManifest;
  rpc_manifest_digest : string;
  rpc_signature : string;
  rpc_source_repository : string;
  rpc_source_commit : string;
  rpc_created_by : string }.

(** [schemas/package.py]: class [PackageDeploymentCreate] *)
Record PackageDeploymentCreate := mkPackageDeploymentCreate {
  pdc_agent_id : uuid;
  pdc_package_id : uuid;
  pdc_deployed_by : string }.

(** [models/governance.py]: class [Artifact] *)
Record Artifact := mkArtifact {
  af_id : uuid;
  af_task_id : uuid;
  af_agent_id : uuid;
  af_attempt_number : Z;
  af_artifact_type : string;
  af_name : string;
  af_size_bytes : Z;
  af_sha256 : string;
  af_location : string;
  af_storage_backend : string;
  af_workflow : string;
  af_workflow_version : string;
  af_source_commit : string;
  af_confidentiality : string;
  af_retention_class : string;
  af_verification_status : string;
  af_expires_at : option datetime;
  af_metadata_json : Json.dict;
  af_created_at : datetime }.

(** [schemas/governance.py]: class [ArtifactCreate] *)
Record ArtifactCreate := mkArtifactCreate {
  afc_lease_token : string;
  afc_artifact_type : string;
  afc_name : string;
  afc_size_bytes : Z;
  afc_sha256 : string;
  afc_location : string;
  afc_storage_backend : string;
  afc_workflow : string;
  afc_workflow_version : string;
  afc_source_commit : string;
  afc_confidentiality : string;
  afc_retention_class : string;
  afc_expires_at : option datetime;
  afc_metadata : Json.dict }.

(** [models/institutional_lifecycle.py]: class [InstitutionalLifecycleProjection] *)
Record InstitutionalLifecycleProjection := mkInstitutionalLifecycleProjection {
  ilp_id : uuid;
  ilp_subject_type : string;
  ilp_subject_id : string;
  ilp_subject_digest : string;
  ilp_dimension : string;
  ilp_state : string;
  ilp_version : Z;
  ilp_last_event_digest : option string;
  ilp_updated_at : datetime }.
#[export] Instance eta_InstitutionalLifecycleProjection : Eta InstitutionalLifecycleProjection :=
  fun r => mkInstitutionalLifecycleProjection (ilp_id r) (ilp_subject_type r) (ilp_subject_id r)
  (ilp_subject_digest r) (ilp_dimension r) (ilp_state r) (ilp_version r) (ilp_last_event_digest r)
  (ilp_updated_at r).
#[export] Instance set_ilp_state : Setter ilp_state := ltac:(derive_setter).
#[export] Instance set_ilp_version : Setter ilp_version := ltac:(derive_setter).
#[export] Instance set_ilp_last_event_digest : Setter ilp_last_event_digest := ltac:(derive_setter).
#[export] Instance set_ilp_updated_at : Setter ilp_updated_at := ltac:(derive_setter).

(** [models/institutional_lifecycle.py]: class [InstitutionalLifecycleEvent] *)
Record InstitutionalLifecycleEvent := mkInstitutionalLifecycleEvent {
  ile_id : uuid;
  ile_projection_id : uuid;
  ile_command_id : uuid;
  ile_dimension : string;
  ile_command : string;
  ile_prior_state : string;
  ile_resulting_state : string;
  ile_actor : string;
  ile_authority_decision_id : uuid;
  ile_expected_version : Z;
  ile_resulting_version : Z;
  ile_reason : string;
  ile_evidence : list string;
  ile_prior_event_digest : option string;
  ile_record_digest : string;
  ile_effective_at : datetime;
  ile_created_at : datetime }.

(** [models/lifecycle_consequence.py]: class [LifecycleConsequence] *)
Record LifecycleConsequence := mkLifecycleConsequence {
  lcq_id : uuid;
  lcq_event_id : uuid;
  lcq_command_id : uuid;
  lcq_action : string;
  lcq_status : string;
  lcq_prior_state : string;
  lcq_resulting_state : string;
  lcq_rollback_state : string;
  lcq_approvers : list string;
  lcq_affected_descendants : list string;
  lcq_evidence_epoch : datetime;
  lcq_expires_at : datetime;
  lcq_reversed_by_id : option uuid;
  lcq_reversal_of_id : option uuid;
  lcq_reason : string;
  lcq_record_digest : string;
  lcq_created_at : datetime }.
#[export] Instance eta_LifecycleConsequence : Eta LifecycleConsequence := fun r =>
  mkLifecycleConsequence (lcq_id r) (lcq_event_id r) (lcq_command_id r) (lcq_action r) (lcq_status
  r) (lcq_prior_state r) (lcq_resulting_state r) (lcq_rollback_state r) (lcq_approvers r)
  (lcq_affected_descendants r) (lcq_evidence_epoch r) (lcq_expires_at r) (lcq_reversed_by_id r)
  (lcq_reversal_of_id r) (lcq_reason r) (lcq_record_digest r) (lcq_created_at r).
#[export] Instance set_lcq_status : Setter lcq_status := ltac:(derive_setter).
#[export] Instance set_lcq_reversed_by_id : Setter lcq_reversed_by_id := ltac:(derive_setter).

(** [models/quantitative_receipt.py]: class [QuantitativeProducerReceipt] *)
Record QuantitativeProducerReceipt := mkQuantitativeProducerReceipt {
  qpr_id : uuid;
  qpr_milestone : string;
  qpr_producer : string;
  qpr_producer_version : string;
  qpr_source_commit : string;
  qpr_dataset_digest : string;
  qpr_result_digest : string;
  qpr_receipt_digest : string;
  qpr_receipt : Json.dict;
  qpr_registered_by : string;
  qpr_registered_at : datetime }.

(** [schemas/institutional_lifecycle.py]: class [LifecycleSubjectCreate] *)
Record LifecycleSubjectCreate := mkLifecycleSubjectCreate {
  lsc_subject_type : string;
  lsc_subject_id : string;
  lsc_subject_digest : string }.

(** [schemas/institutional_lifecycle.py]: class [InstitutionalTransitionCreate] *)
Record InstitutionalTransitionCreate := mkInstitutionalTransitionCreate {
  itc_command_id : uuid;
  itc_actor : string;
  itc_dimension : string;
  itc_command : string;
  itc_expected_version : Z;
  itc_subject_digest : string;
  itc_evidence : list string;
  itc_reason : string;
  itc_risk_level : Z;
  itc_environment : string;
  itc_requester : option string;
  itc_originator : option string;
  itc_evaluator : option string;
  itc_active_veto_roles : list string;
  itc_authority_exception_id : option uuid;
  itc_effective_at : aware_datetime }.

(** [schemas/lifecycle_consequence.py]: class [ConsequenceCreate] *)
Record ConsequenceCreate := mkConsequenceCreate {
  cqc_command_id : uuid;
  cqc_actor : string;
  cqc_action : string;
  cqc_dimension : string;
  cqc_expected_version : Z;
  cqc_subject_digest : string;
  cqc_evidence : list string;
  cqc_evidence_epoch : aware_datetime;
  cqc_approvers : list string;
  cqc_affected_descendants : list string;
  cqc_expires_at : aware_datetime;
  cqc_reason : string;
  cqc_risk_level : Z;
  cqc_environment : string;
  cqc_originator : option string;
  cqc_evaluator : option string;
  cqc_active_veto_roles : list string }.

(** [schemas/lifecycle_consequence.py]: class [ConsequenceReverse] *)
Record ConsequenceReverse := mkConsequenceReverse {
  cqr_command_id : uuid;
  cqr_actor : string;
  cqr_expected_version : Z;
  cqr_reason : string;
  cqr_risk_level : Z;
  cqr_environment : string;
  cqr_originator : string;
  cqr_evaluator : string;
  cqr_active_veto_roles : list string }.

(** [models/conversation.py]: class [FounderConversationMessage] *)
Record FounderConversationMessage := mkFounderConversationMessage {
  fm_id : uuid;
  fm_conversation_id : uuid;
  fm_sequence : Z;
  fm_role : string;
  fm_channel : string;
  fm_channel_message_id : option string;
  fm_reply_to_message_id : option uuid;
  fm_content : string;
  fm_content_digest : string;
  fm_detail : Json.dict;
  fm_created_at : datetime }.

(** [schemas/conversation.py]: class [ConversationCreate] *)
Record ConversationCreate := mkConversationCreate {
  ccr_founder_key : string;
  ccr_channel : string;
  ccr_title : string;
  ccr_message : string;
  ccr_channel_message_id : option string;
  ccr_reply_to_channel_message_id : option string }.

(** [schemas/conversation.py]: class [ConversationTurnCreate] *)
Record ConversationTurnCreate := mkConversationTurnCreate {
  ctc_founder_key : string;
  ctc_channel : string;
  ctc_message : string;
  ctc_channel_message_id : option string;
  ctc_reply_to_channel_message_id : option string }.

(** [schemas/conversation.py]: class [ConversationTransition] *)
Record ConversationTransition := mkConversationTransition {
  ctt_founder_key : string;
  ctt_action : string;
  ctt_reason : string }.

(** [schemas/proposal.py]: class [ProposalDefaultDecision] *)
Record ProposalDefaultDecision := mkProposalDefaultDecision {
  pdd_field : string;
  pdd_value : string;
  pdd_basis : string;
  pdd_policy_version : string;
  pdd_confidence : string;
  pdd_alternatives : list string }.

(** [schemas/proposal.py]: class [ProposalCodeValidationContract] *)
Record ProposalCodeValidationContract := mkProposalCodeValidationContract {
  pcv_repository : string;
  pcv_workflow : string;
  pcv_base_ref : string }.

(** [schemas/proposal.py]: class [ProposalEngineeringMissionContract] *)
Record ProposalEngineeringMissionContract := mkProposalEngineeringMissionContract {
  pem_repository : string;
  pem_workflow : string;
  pem_base_ref : string;
  pem_milestone_id : string;
  pem_work_item_id : string;
  pem_objective : string;
  pem_allowed_paths : list string;
  pem_context_paths : list string;
  pem_evidence_context : string;
  pem_acceptance_criteria : list string;
  pem_stop_conditions : list string;
  pem_max_files_changed : Z;
  pem_max_diff_lines : Z;
  pem_max_duration_seconds : Z }.

(** [schemas/proposal.py]: class [ProposalInfrastructureParameters] *)
Record ProposalInfrastructureParameters := mkProposalInfrastructureParameters {
  pip_service : option string;
  pip_certificate_profile : option string }.

(** [schemas/proposal.py]: class [ProposalInfrastructureContract] *)
Record ProposalInfrastructureContract := mkProposalInfrastructureContract {
  pic_runbook : string;
  pic_runbook_version : string;
  pic_operation : string;
  pic_target : string;
  pic_parameters : ProposalInfrastructureParameters;
  pic_package_name : option string;
  pic_package_version : option string;
  pic_package_digest : option string }.

(** [schemas/proposal.py]: class [ProposalResearchAcceptance] *)
Record ProposalResearchAcceptance := mkProposalResearchAcceptance {
  pra_minimum_out_of_sample_sharpe : py_float;
  pra_maximum_out_of_sample_drawdown : py_float;
  pra_minimum_out_of_sample_trades : Z;
  pra_minimum_cost_stress_sharpe : py_float }.

(** [schemas/proposal.py]: class [ProposalResearchExperimentContract] *)
Record ProposalResearchExperimentContract := mkProposalResearchExperimentContract {
  pre_repository : string;
  pre_workflow : string;
  pre_base_ref : string;
  pre_program_id : string;
  pre_hypothesis_id : string;
  pre_hypothesis : string;
  pre_dataset : string;
  pre_dataset_digest : option string;
  pre_experiment_digest : option string;
  pre_trial_digest : option string;
  pre_seed : Z;
  pre_observations : Z;
  pre_train_fraction : py_float;
  pre_transaction_cost_bps : py_float;
  pre_acceptance : ProposalResearchAcceptance }.

(** [schemas/proposal.py]: class [ProposalResearchMemorySyncContract] *)
Record ProposalResearchMemorySyncContract := mkProposalResearchMemorySyncContract {
  prm_repository : string;
  prm_workflow : string;
  prm_base_ref : string }.

(** [schemas/proposal.py]: class [ProposalFounderHypothesisIntakeContract] *)
Record ProposalFounderHypothesisIntakeContract := mkProposalFounderHypothesisIntakeContract {
  phi_repository : string;
  phi_workflow : string;
  phi_base_ref : string;
  phi_mandate_id : option uuid;
  phi_mandate_digest : option string;
  phi_research_idea : string;
  phi_minimum_history_days : Z;
  phi_maximum_variants : Z;
  phi_minimum_instruments : Z;
  phi_maximum_instruments : Z;
  phi_universe_selection_policy : string;
  phi_universe_slices : list string }.

(** [schemas/proposal.py]: [ProposalInputContract]; the [workflow] or [runbook]
    literal of a document decides which member of the union it is *)
Inductive ProposalInputContract :=
| CodeValidation (contract : ProposalCodeValidationContract)
| EngineeringMissionWork (contract : ProposalEngineeringMissionContract)
| Infrastructure (contract : ProposalInfrastructureContract)
| ResearchExperiment (contract : ProposalResearchExperimentContract)
| ResearchMemorySync (contract : ProposalResearchMemorySyncContract)
| FounderHypothesisIntake (contract : ProposalFounderHypothesisIntakeContract).

(** [schemas/proposal.py]: class [ProposalApprovalPolicy] *)
Record ProposalApprovalPolicy := mkProposalApprovalPolicy {
  pap_kind : string;
  pap_risk : Z }.

(** [schemas/proposal.py]: class [ProposedTask] *)
Record ProposedTask := mkProposedTask {
  pt_project : string;
  pt_task_type : string;
  pt_title : string;
  pt_objective : string;
  pt_priority : Z;
  pt_risk_level : Z;
  pt_input_contract : ProposalInputContract;
  pt_expected_outputs : list string;
  pt_acceptance_criteria : list string;
  pt_approval_policy : ProposalApprovalPolicy;
  pt_approval_required : bool;
  pt_required_capabilities : list string;
  pt_allowed_machines : list string;
  pt_max_attempts : Z }.

(** [schemas/proposal.py]: class [FounderProposalDocument] *)
Record FounderProposalDocument := mkFounderProposalDocument {
  fpd_schema_version : Z;
  fpd_summary : string;
  fpd_interpretation : string;
  fpd_recommended_action : string;
  fpd_assumptions : list string;
  fpd_clarification_questions : list string;
  fpd_target_role : option string;
  fpd_target_role_reason : option string;
  fpd_safety_constraints : list string;
  fpd_unresolved_fields : list string;
  fpd_specification_format : list (string * string);
  fpd_resolved_defaults : list ProposalDefaultDecision;
  fpd_proposed_task : option ProposedTask }.

(** [schemas/proposal.py]: class [FounderProposalCreate] *)
Record FounderProposalCreate := mkFounderProposalCreate {
  fpn_lease_token : string;
  fpn_proposal : FounderProposalDocument }.

(** [schemas/proposal.py]: class [FounderProposalDecision] *)
Record FounderProposalDecision := mkFounderProposalDecision {
  fpx_actor : string;
  fpx_reason : string;
  fpx_mandate_id : option uuid;
  fpx_mandate_digest : option string }.

(** [models/proposal.py]: class [FounderProposal] *)
Record FounderProposal := mkFounderProposal {
  fp_id : uuid;
  fp_source_task_id : uuid;
  fp_conversation_id : option uuid;
  fp_conversation_revision : option Z;
  fp_planner_agent_id : uuid;
  fp_status : string;
  fp_proposal : FounderProposalDocument;
  fp_proposal_digest : string;
  fp_decision_reason : option string;
  fp_decided_by : option string;
  fp_materialized_task_id : option uuid;
  fp_created_at : datetime;
  fp_updated_at : datetime;
  fp_decided_at : option datetime }.
#[export] Instance eta_FounderProposal : Eta FounderProposal := fun r => mkFounderProposal (fp_id r)
  (fp_source_task_id r) (fp_conversation_id r) (fp_conversation_revision r) (fp_planner_agent_id r)
  (fp_status r) (fp_proposal r) (fp_proposal_digest r) (fp_decision_reason r) (fp_decided_by r)
  (fp_materialized_task_id r) (fp_created_at r) (fp_updated_at r) (fp_decided_at r).
#[export] Instance set_fp_status : Setter fp_status := ltac:(derive_setter).
#[export] Instance set_fp_decision_reason : Setter fp_decision_reason := ltac:(derive_setter).
#[export] Instance set_fp_decided_by : Setter fp_decided_by := ltac:(derive_setter).
#[export] Instance set_fp_materialized_task_id : Setter fp_materialized_task_id := ltac:(derive_setter).
#[export] Instance set_fp_updated_at : Setter fp_updated_at := ltac:(derive_setter).
#[export] Instance set_fp_decided_at : Setter fp_decided_at := ltac:(derive_setter).

(** [schemas/founder_channel.py]: class [FounderChannelRequest] *)
Record FounderChannelRequest := mkFounderChannelRequest {
  fcq_kind : string;
  fcq_project : string;
  fcq_title : string;
  fcq_objective : string;
  fcq_risk_level : Z;
  fcq_acceptance_criteria : list string }.

(** [schemas/founder_channel.py]: class [FounderChannelDecision] *)
Record FounderChannelDecision := mkFounderChannelDecision {
  fcd_reason : string;
  fcd_expires_in_seconds : Z;
  fcd_authority_exception_id : option uuid }.

(** [models/alpha_discovery.py]: class [AlphaFounderResearchIdea] *)
Record AlphaFounderResearchIdea := mkAlphaFounderResearchIdea {
  afi_id : uuid;
  afi_mandate_id : uuid;
  afi_cycle_id : option uuid;
  afi_conversation_id : option uuid;
  afi_submitted_by : string;
  afi_idea : string;
  afi_constraints : Json.dict;
  afi_idea_digest : string;
  afi_status : string;
  afi_created_at : datetime;
  afi_updated_at : datetime }.
#[export] Instance eta_AlphaFounderResearchIdea : Eta AlphaFounderResearchIdea := fun r =>
  mkAlphaFounderResearchIdea (afi_id r) (afi_mandate_id r) (afi_cycle_id r) (afi_conversation_id r)
  (afi_submitted_by r) (afi_idea r) (afi_constraints r) (afi_idea_digest r) (afi_status r)
  (afi_created_at r) (afi_updated_at r).
#[export] Instance set_afi_status : Setter afi_status := ltac:(derive_setter).
#[export] Instance set_afi_updated_at : Setter afi_updated_at := ltac:(derive_setter).

(** [schemas/alpha_discovery.py]: class [AlphaFounderResearchIdeaCreate] *)
Record AlphaFounderResearchIdeaCreate := mkAlphaFounderResearchIdeaCreate {
  aic_mandate_id : uuid;
  aic_expected_mandate_digest : string;
  aic_idea : string;
  aic_submitted_by : string;
  aic_conversation_id : option uuid;
  aic_minimum_history_days : Z;
  aic_maximum_variants : Z;
  aic_minimum_instruments : Z;
  aic_maximum_instruments : Z;
  aic_universe_selection_policy : string;
  aic_universe_slices : list string }.

(** [models/alpha_discovery.py]: class [AlphaDiscoveryEvent] *)
Record AlphaDiscoveryEvent := mkAlphaDiscoveryEvent {
  ade_mandate_id : uuid;
  ade_cycle_id : option uuid;
  ade_sequence : Z;
  ade_event_type : string;
  ade_actor : string;
  ade_payload : Json.dict;
  ade_previous_digest : option string;
  ade_event_digest : string;
  ade_created_at : datetime }.

(** [models/market_data_catalog.py]: class [MarketDataCatalogSnapshot] *)
Record MarketDataCatalogSnapshot := mkMarketDataCatalogSnapshot {
  mdc_id : uuid;
  mdc_catalog_key : string;
  mdc_as_of : datetime;
  mdc_catalog : Json.dict;
  mdc_catalog_digest : string;
  mdc_reference_snapshot_digest : string;
  mdc_supersedes_catalog_id : option uuid;
  mdc_registered_by : string;
  mdc_registered_at : datetime }.

(** [schemas/authority.py]: class [AuthorityPolicyCreate] *)
Record AuthorityPolicyCreate := mkAuthorityPolicyCreate {
  apc_manifest : AuthorityPolicyManifest;
  apc_manifest_digest : string;
  apc_created_by : string }.

