(* ===== verification/Store.v ===== *)
(** * The database session

    The rows of every modelled table, and the SQLAlchemy session a request runs
    in as a state and error monad [Sess].  A session holds the working rows
    ([db]), the last committed rows ([saved]), and how many times the request
    has read the clock and the random source.  [get_db] closes the session when
    a request ends, which discards whatever was not committed: [request] keeps
    only [saved].

    Rows are shared by identity: a handler names a row by its primary key and
    every read goes back to the table, which is what the session's identity map
    gives the Python objects. *)
From S2P Require Import Prelude Py Models.

Open Scope Z_scope.

Record database := mkDatabase {
  agents : gmap uuid Agent;
  credentials : gmap uuid AgentCredential;
  tasks : gmap uuid Task;
  approvals : gmap uuid TaskApproval;
  notifications : gmap uuid FounderNotification;
  controls : gmap uuid ControlScope;
  missions : gmap uuid EngineeringMission;
  graphs : gmap uuid TaskGraph;
  nodes : gmap uuid TaskGraphNode;
  charters : gmap uuid AgentCharter;
  grants : gmap uuid AgentCapabilityGrant;
  packages : gmap uuid RolePackage;
  deployments : gmap uuid PackageDeployment;
  identities : gmap uuid WorkloadIdentity;
  emergency_grants : gmap uuid WorkloadEmergencyGrant;
  working_memory : gmap uuid AgentWorkingMemoryReceipt;
  conversations : gmap uuid FounderConversation;
  profiles : gmap uuid EvaluatorProfile;
  routes : gmap uuid EvaluationRoute;
  assignments : gmap uuid EvaluatorAssignment;
  mandates : gmap uuid AlphaResearchMandate;
  policies : gmap uuid AuthorityPolicySnapshot;
  delegations : gmap uuid AuthorityDelegation;
  exceptions : gmap uuid AuthorityException;
  programs : gmap uuid FactorExperimentProgram;
  hypotheses : gmap uuid ResearchHypothesis;
  dataset_manifests : gmap uuid ResearchDatasetManifest;
  prompt_policies : gmap uuid PromptPolicyBundle;
  search_runs : gmap uuid SymbolicSearchRun;
  candidates : gmap uuid SymbolicSearchCandidate;
  secret_policies : gmap uuid WorkloadSecretPolicy;
  runbook_packages : gmap uuid RunbookPackage;
  runbook_promotions : gmap uuid RunbookPromotion;
  lifecycle_projections : gmap uuid InstitutionalLifecycleProjection;
  lifecycle_events : gmap uuid InstitutionalLifecycleEvent;
  lifecycle_consequences : gmap uuid LifecycleConsequence;
  quantitative_receipts : gmap uuid QuantitativeProducerReceipt;
  messages : gmap uuid FounderConversationMessage;
  proposals : gmap uuid FounderProposal;
  ideas : gmap uuid AlphaFounderResearchIdea;
  catalogs : gmap uuid MarketDataCatalogSnapshot;
  task_events : list TaskEvent;
  approval_events : list ApprovalEvent;
  control_events : list ControlEvent;
  dependencies : list TaskDependency;
  mission_events : list MissionEvent;
  graph_messages : list TaskGraphMessage;
  graph_events : list TaskGraphEvent;
  grant_events : list AgentGrantEvent;
  identity_events : list WorkloadIdentityEvent;
  conversation_events : list FounderConversationEvent;
  route_events : list EvaluationRouteEvent;
  independence_receipts : list EvaluationIndependenceReceipt;
  decision_records : list AuthorityDecisionRecord;
  authorization_receipts : list WorkloadAuthorizationReceipt;
  artifacts : list Artifact;
  discovery_events : list AlphaDiscoveryEvent;
  identity_control : option WorkloadIdentityControl;
  next_id : uuid }.
#[export] Instance eta_database : Eta database := fun d => mkDatabase (agents d) (credentials d)
  (tasks d) (approvals d) (notifications d) (controls d) (missions d) (graphs d) (nodes d) (charters
  d) (grants d) (packages d) (deployments d) (identities d) (emergency_grants d) (working_memory d)
  (conversations d) (profiles d) (routes d) (assignments d) (mandates d) (policies d) (delegations
  d) (exceptions d) (programs d) (hypotheses d) (dataset_manifests d) (prompt_policies d)
  (search_runs d) (candidates d) (secret_policies d) (runbook_packages d) (runbook_promotions d)
  (lifecycle_projections d) (lifecycle_events d) (lifecycle_consequences d) (quantitative_receipts
  d) (messages d) (proposals d) (ideas d) (catalogs d) (task_events d) (approval_events d)
  (control_events d) (dependencies d) (mission_events d) (graph_messages d) (graph_events d)
  (grant_events d) (identity_events d) (conversation_events d) (route_events d)
  (independence_receipts d) (decision_records d) (authorization_receipts d) (artifacts d)
  (discovery_events d) (identity_control d) (next_id d).
#[export] Instance set_agents : Setter agents := ltac:(derive_setter).
#[export] Instance set_credentials : Setter credentials := ltac:(derive_setter).
#[export] Instance set_tasks : Setter tasks := ltac:(derive_setter).
#[export] Instance set_approvals : Setter approvals := ltac:(derive_setter).
#[export] Instance set_notifications : Setter notifications := ltac:(derive_setter).
#[export] Instance set_controls : Setter controls := ltac:(derive_setter).
#[export] Instance set_missions : Setter missions := ltac:(derive_setter).
#[export] Instance set_graphs : Setter graphs := ltac:(derive_setter).
#[export] Instance set_nodes : Setter nodes := ltac:(derive_setter).
#[export] Instance set_charters : Setter charters := ltac:(derive_setter).
#[export] Instance set_grants : Setter grants := ltac:(derive_setter).
#[export] Instance set_packages : Setter packages := ltac:(derive_setter).
#[export] Instance set_deployments : Setter deployments := ltac:(derive_setter).
#[export] Instance set_identities : Setter identities := ltac:(derive_setter).
#[export] Instance set_emergency_grants : Setter emergency_grants := ltac:(derive_setter).
#[export] Instance set_working_memory : Setter working_memory := ltac:(derive_setter).
#[export] Instance set_conversations : Setter conversations := ltac:(derive_setter).
#[export] Instance set_profiles : Setter profiles := ltac:(derive_setter).
#[export] Instance set_routes : Setter routes := ltac:(derive_setter).
#[export] Instance set_assignments : Setter assignments := ltac:(derive_setter).
#[export] Instance set_mandates : Setter mandates := ltac:(derive_setter).
#[export] Instance set_policies : Setter policies := ltac:(derive_setter).
#[export] Instance set_delegations : Setter delegations := ltac:(derive_setter).
#[export] Instance set_exceptions : Setter exceptions := ltac:(derive_setter).
#[export] Instance set_programs : Setter programs := ltac:(derive_setter).
#[export] Instance set_hypotheses : Setter hypotheses := ltac:(derive_setter).
#[export] Instance set_dataset_manifests : Setter dataset_manifests := ltac:(derive_setter).
#[export] Instance set_prompt_policies : Setter prompt_policies := ltac:(derive_setter).
#[export] Instance set_search_runs : Setter search_runs := ltac:(derive_setter).
#[export] Instance set_candidates : Setter candidates := ltac:(derive_setter).
#[export] Instance set_secret_policies : Setter secret_policies := ltac:(derive_setter).
#[export] Instance set_runbook_packages : Setter runbook_packages := ltac:(derive_setter).
#[export] Instance set_runbook_promotions : Setter runbook_promotions := ltac:(derive_setter).
#[export] Instance set_lifecycle_projections : Setter lifecycle_projections := ltac:(derive_setter).
#[export] Instance set_lifecycle_events : Setter lifecycle_events := ltac:(derive_setter).
#[export] Instance set_lifecycle_consequences : Setter lifecycle_consequences := ltac:(derive_setter).
#[export] Instance set_quantitative_receipts : Setter quantitative_receipts := ltac:(derive_setter).
#[export] Instance set_messages : Setter messages := ltac:(derive_setter).
#[export] Instance set_proposals : Setter proposals := ltac:(derive_setter).
#[export] Instance set_ideas : Setter ideas := ltac:(derive_setter).
#[export] Instance set_catalogs : Setter catalogs := ltac:(derive_setter).
#[export] Instance set_task_events : Setter task_events := ltac:(derive_setter).
#[export] Instance set_approval_events : Setter approval_events := ltac:(derive_setter).
#[export] Instance set_control_events : Setter control_events := ltac:(derive_setter).
#[export] Instance set_dependencies : Setter dependencies := ltac:(derive_setter).
#[export] Instance set_mission_events : Setter mission_events := ltac:(derive_setter).
#[export] Instance set_graph_messages : Setter graph_messages := ltac:(derive_setter).
#[export] Instance set_graph_events : Setter graph_events := ltac:(derive_setter).
#[export] Instance set_grant_events : Setter grant_events := ltac:(derive_setter).
#[export] Instance set_identity_events : Setter identity_events := ltac:(derive_setter).
#[export] Instance set_conversation_events : Setter conversation_events := ltac:(derive_setter).
#[export] Instance set_route_events : Setter route_events := ltac:(derive_setter).
#[export] Instance set_independence_receipts : Setter independence_receipts := ltac:(derive_setter).
#[export] Instance set_decision_records : Setter decision_records := ltac:(derive_setter).
#[export] Instance set_authorization_receipts : Setter authorization_receipts := ltac:(derive_setter).
#[export] Instance set_artifacts : Setter artifacts := ltac:(derive_setter).
#[export] Instance set_discovery_events : Setter discovery_events := ltac:(derive_setter).
#[export] Instance set_identity_control : Setter identity_control := ltac:(derive_setter).
#[export] Instance set_next_id : Setter next_id := ltac:(derive_setter).

Definition empty_db : database := mkDatabase ∅ ∅ ∅ ∅ ∅ ∅ ∅ ∅ ∅ ∅ ∅ ∅ ∅ ∅ ∅ ∅ ∅ ∅ ∅ ∅ ∅ ∅ ∅ ∅ ∅ ∅ ∅ ∅ ∅ ∅ ∅ ∅ ∅ ∅ ∅ ∅ ∅ ∅ ∅ ∅ ∅ [] [] [] [] [] [] [] [] [] [] [] [] [] [] [] [] None 1%N.

(** ** Sessions *)
Record session := mkSession {
  db : database;
  saved : database;
  clock : nat;
  entropy : nat }.
#[export] Instance eta_session : Eta session := fun s => mkSession (db s) (saved s) (clock s) (entropy s).
#[export] Instance set_db : Setter db := ltac:(derive_setter).
#[export] Instance set_saved : Setter saved := ltac:(derive_setter).
#[export] Instance set_clock : Setter clock := ltac:(derive_setter).
#[export] Instance set_entropy : Setter entropy := ltac:(derive_setter).

(** Exceptions: FastAPI's [HTTPException], or any other Python exception (which
    the framework turns into a 500 response). *)
Inductive exn :=
| HTTPException (status_code : Z) (detail : json)
| PyException (class message : string).

Inductive outcome (A : Type) :=
| Ok (a : A)
| Err (e : exn).
Arguments Ok {A} a.
Arguments Err {A} e.

(** the parts of a retrieval that its callers read *)
Record RetrievalHit := mkRetrievalHit {
  rh_object_id : uuid;
  rh_content_digest : string;
  rh_coordinates : json;
  rh_text : string;
  rh_confidence : py_float }.

Record Retrieval := mkRetrieval {
  rt_corpus_digest : string;
  rt_confidence : py_float;
  rt_abstained : bool;
  rt_hits : list RetrievalHit }.

(** What a request observes of its environment: the readings of
    [datetime.now(UTC)] in order, the database server's [now()] (fixed during a
    transaction), the values drawn from [secrets], the rows that another
    transaction holds locked, the configured secret, and what the retrieval
    service answers to a query ([hybrid_search], which is not modelled). *)
Class World := {
  w_now : nat → datetime;
  w_server_now : datetime;
  w_token_hex : nat → string;
  w_token_urlsafe : nat → string;
  w_locked : uuid → bool;
  agent_token_secret : string;
  w_search : string → outcome Retrieval }.

#[export] Instance outcome_ret : MRet outcome := @Ok.
#[export] Instance outcome_bind : MBind outcome := fun A B f m =>
  match m with Ok a => f a | Err e => Err e end.

Definition Sess (A : Type) : Type := session → outcome A * session.

#[export] Instance Sess_ret : MRet Sess := fun A a s => (Ok a, s).
#[export] Instance Sess_bind : MBind Sess := fun A B f m s =>
  match m s with
  | (Ok a, s') => f a s'
  | (Err e, s') => (Err e, s')
  end.

Definition raise {A} (e : exn) : Sess A := fun s => (Err e, s).
Definition http {A} (code : Z) (detail : string) : Sess A := raise (HTTPException code (JStr detail)).
(** a call that neither reads nor changes the session *)
Definition lift {A} (m : outcome A) : Sess A := fun s => (m, s).
Definition gets {A} (f : database → A) : Sess A := fun s => (Ok (f (db s)), s).
Definition update (f : database → database) : Sess unit := fun s => (Ok tt, s <| db := f (db s) |>).
Definition when (b : bool) (m : Sess unit) : Sess unit := if b then m else mret tt.

Fixpoint for_each {A} (l : list A) (f : A → Sess unit) : Sess unit :=
  match l with
  | [] => mret tt
  | x :: l' => _ ← f x; for_each l' f
  end.

Fixpoint map_each {A B} (l : list A) (f : A → Sess B) : Sess (list B) :=
  match l with
  | [] => mret []
  | x :: l' => y ← f x; ys ← map_each l' f; mret (y :: ys)
  end.

(** ** Transactions, clock and randomness *)

Definition commit : Sess unit := fun s => (Ok tt, s <| saved := db s |>).
Definition rollback : Sess unit := fun s => (Ok tt, s <| db := saved s |>).

Definition utc_now `{World} : Sess datetime :=
  fun s => (Ok (w_now (clock s)), s <| clock := S (clock s) |>).
Definition token_hex `{World} : Sess string :=
  fun s => (Ok (w_token_hex (entropy s)), s <| entropy := S (entropy s) |>).
Definition token_urlsafe `{World} : Sess string :=
  fun s => (Ok (w_token_urlsafe (entropy s)), s <| entropy := S (entropy s) |>).

(** [uuid.uuid4()]: an identifier no row carries *)
Definition fresh_id : Sess uuid :=
  fun s => (Ok (next_id (db s)), s <| db := db s <| next_id := N.succ (next_id (db s)) |> |>).

(** the state a request leaves behind, and its response *)
Definition open_session (d : database) : session := mkSession d d 0 0.
Definition request {A} (m : Sess A) (d : database) : outcome A * database :=
  let '(r, s) := m (open_session d) in (r, saved s).

(** ** Rows *)

(** [db.get(Model, id)] *)
Definition get_row {R} (tbl : database → gmap uuid R) (id : uuid) : Sess (option R) :=
  gets (fun d => tbl d !! id).

(** attribute assignment on a loaded row *)
Definition alter_row {R} (tbl : database → gmap uuid R) `{!Setter tbl}
    (id : uuid) (f : R → R) : Sess unit :=
  update (fun d => set_field tbl (alter f id (tbl d)) d).

(** a flush that violates a unique constraint *)
Definition integrity_error {A} : Sess A := raise (PyException "IntegrityError" "unique constraint").

(** [except IntegrityError]: the handler rolls back and answers 409 *)
Definition catch_integrity {A} (m : Sess A) (detail : string) : Sess A := fun s =>
  match m s with
  | (Err (PyException class _), s') =>
      if String.eqb class "IntegrityError"
      then (Err (HTTPException 409 (JStr detail)), s' <| db := saved s' |>)
      else m s
  | r => r
  end.

(** [except Class as exc: db.rollback(); raise HTTPException(409, str(exc))] *)
Definition catch_conflict {A} (class : string) (m : Sess A) : Sess A := fun s =>
  match m s with
  | (Err (PyException c message), s') =>
      if String.eqb c class
      then (Err (HTTPException 409 (JStr message)), s' <| db := saved s' |>)
      else (Err (PyException c message), s')
  | r => r
  end.

(** [db.add(row)] and its flush; the primary key is unique *)
Definition insert_row {R} (tbl : database → gmap uuid R) `{!Setter tbl}
    (id : uuid) (r : R) : Sess unit :=
  clash ← gets (fun d => tbl d !! id);
  match clash with
  | Some _ => integrity_error
  | None => update (fun d => set_field tbl (<[id := r]> (tbl d)) d)
  end.

(** [db.add(event)] on an append-only table *)
Definition append_log {E} (lg : database → list E) `{!Setter lg} (e : E) : Sess unit :=
  update (fun d => set_field lg (lg d ++ [e]) d).

(** the rows of a table, in no particular order *)
Definition table_rows {R} (m : gmap uuid R) : list R := (map_to_list m).*2.

(** [select(Model).where(p)] *)
Definition select_rows {R} (tbl : database → gmap uuid R) (p : R → bool) : Sess (list R) :=
  gets (fun d => List.filter p (table_rows (tbl d))).

(** [db.scalar(select(Model).where(p))]: some matching row *)
Definition select_one {R} (tbl : database → gmap uuid R) (p : R → bool) : Sess (option R) :=
  gets (fun d => head (List.filter p (table_rows (tbl d)))).
