(* ===== verification/Logic.v ===== *)
(** * Reasoning about sessions

    [wp I m Q s]: running [m] from [s] either returns normally in a session
    satisfying [Q], or raises and leaves committed rows satisfying [I] (the only
    rows that survive an exception).  [preserves π m] says that [m] leaves the
    part [π] of the working rows alone and commits nothing; it is proved
    compositionally by the hint database [frame]. *)
From S2P Require Import Prelude Py Models Store.

Create HintDb frame discriminated.

Section wp.
Context (I : database → Prop).

Definition wp {A} (m : Sess A) (Q : A → session → Prop) (s : session) : Prop :=
  match m s with
  | (Ok a, s') => Q a s'
  | (Err _, s') => I (saved s')
  end.

Lemma wp_ret {A} (a : A) Q s : Q a s → wp (mret a) Q s.
Proof. done. Qed.

Lemma wp_bind {A B} (m : Sess A) (f : A → Sess B) Q s :
  wp m (fun a s' => wp (f a) Q s') s → wp (m ≫= f) Q s.
Proof.
  unfold wp, mbind, Sess_bind. by destruct (m s) as [[a|e] s'].
Qed.

Lemma wp_raise {A} e (Q : A → session → Prop) s : I (saved s) → wp (raise e) Q s.
Proof. done. Qed.

Lemma wp_gets {A} (f : database → A) Q s : Q (f (db s)) s → wp (gets f) Q s.
Proof. done. Qed.

Lemma wp_get_row {R} (tbl : database → gmap uuid R) id Q s :
  Q (tbl (db s) !! id) s → wp (get_row tbl id) Q s.
Proof. done. Qed.

Lemma wp_update f Q s : Q tt (s <| db := f (db s) |>) → wp (update f) Q s.
Proof. done. Qed.

Lemma wp_alter {R} (tbl : database → gmap uuid R) `{!Setter tbl} id f Q s :
  Q tt (s <| db := set_field tbl (alter f id (tbl (db s))) (db s) |>) →
  wp (alter_row tbl id f) Q s.
Proof. done. Qed.

Lemma wp_insert {R} (tbl : database → gmap uuid R) `{!Setter tbl} id r Q s :
  I (saved s) →
  (tbl (db s) !! id = None →
   Q tt (s <| db := set_field tbl (<[id := r]> (tbl (db s))) (db s) |>)) →
  wp (insert_row tbl id r) Q s.
Proof.
  intros HI HQ. apply wp_bind, wp_gets.
  destruct (tbl (db s) !! id); [by apply wp_raise|]. by apply HQ.
Qed.

Lemma wp_utc_now `{World} Q s :
  (∀ t, t = w_now (clock s) → Q t (s <| clock := S (clock s) |>)) → wp utc_now Q s.
Proof. intros HQ. by apply HQ. Qed.

Lemma wp_when (b : bool) m Q s :
  (b = true → wp m Q s) → (b = false → Q tt s) → wp (when b m) Q s.
Proof. destruct b; cbn; intros H1 H2; [by apply H1|by apply H2]. Qed.

Lemma wp_if {A} (b : bool) (m n : Sess A) Q s :
  (b = true → wp m Q s) → (b = false → wp n Q s) → wp (if b then m else n) Q s.
Proof. destruct b; auto. Qed.

Lemma wp_mono {A} (m : Sess A) (Q Q' : A → session → Prop) s :
  wp m Q s → (∀ a s', Q a s' → Q' a s') → wp m Q' s.
Proof. unfold wp. destruct (m s) as [[a|e] s']; auto. Qed.

Lemma wp_commit Q s : Q tt (s <| saved := db s |>) → wp commit Q s.
Proof. done. Qed.

Lemma wp_catch_integrity {A} (m : Sess A) detail Q s :
  wp m Q s → wp (catch_integrity m detail) Q s.
Proof.
  unfold wp, catch_integrity. destruct (m s) as [[a|[c d|c d]] s'] eqn:E; [done..|].
  by destruct (String.eqb c "IntegrityError").
Qed.

(** loops keep what every iteration keeps *)
Lemma wp_for_each {A} (l : list A) (f : A → Sess unit) (J : session → Prop) s :
  J s →
  (∀ x s', x ∈ l → J s' → wp (f x) (fun _ => J) s') →
  wp (for_each l f) (fun _ => J) s.
Proof.
  revert s. induction l as [|x l IH]; intros s HJ Hf; [done|].
  cbn. apply wp_bind. eapply wp_mono; [apply Hf; [left|done]|].
  intros ? s' HJ'. apply IH; [done|]. intros y s'' Hy. apply Hf. by right.
Qed.

(** what survives a request *)
Lemma wp_request {A} (m : Sess A) (d : database) :
  wp m (fun _ s => I (saved s)) (open_session d) → I (request m d).2.
Proof.
  unfold wp, request. by destruct (m (open_session d)) as [[a|e] s'].
Qed.
End wp.

(** ** Frames *)

Definition preserves {A T} (π : database → T) (m : Sess A) : Prop :=
  ∀ s, π (db (m s).2) = π (db s) ∧ saved (m s).2 = saved s.

Section preserves.
Context {T : Type} (π : database → T).

Lemma preserves_ret {A} (a : A) : preserves π (mret a).
Proof. done. Qed.
Lemma preserves_raise {A} e : preserves π (raise (A:=A) e).
Proof. done. Qed.
Lemma preserves_integrity_error {A} : preserves π (integrity_error (A:=A)).
Proof. done. Qed.
Lemma preserves_http {A} c d : preserves π (http (A:=A) c d).
Proof. done. Qed.
Lemma preserves_gets {A} (f : database → A) : preserves π (gets f).
Proof. done. Qed.
Lemma preserves_get_row {R} (tbl : database → gmap uuid R) id : preserves π (get_row tbl id).
Proof. done. Qed.
Lemma preserves_select_rows {R} (tbl : database → gmap uuid R) p : preserves π (select_rows tbl p).
Proof. done. Qed.
Lemma preserves_select_one {R} (tbl : database → gmap uuid R) p : preserves π (select_one tbl p).
Proof. done. Qed.
Lemma preserves_utc_now `{World} : preserves π utc_now.
Proof. done. Qed.
Lemma preserves_token_hex `{World} : preserves π token_hex.
Proof. done. Qed.
Lemma preserves_token_urlsafe `{World} : preserves π token_urlsafe.
Proof. done. Qed.

Lemma preserves_bind {A B} (m : Sess A) (f : A → Sess B) :
  preserves π m → (∀ a, preserves π (f a)) → preserves π (m ≫= f).
Proof.
  intros Hm Hf s. unfold mbind, Sess_bind. specialize (Hm s).
  destruct (m s) as [[a|e] s']; cbn in *; [|done].
  destruct Hm as [<- <-]. apply Hf.
Qed.

Lemma preserves_update f : (∀ d, π (f d) = π d) → preserves π (update f).
Proof. intros Hf s. cbn. by rewrite Hf. Qed.
Lemma preserves_alter_row {R} (tbl : database → gmap uuid R) `{!Setter tbl} id f :
  (∀ v d, π (set_field tbl v d) = π d) → preserves π (alter_row tbl id f).
Proof. intros Hf s. cbn. split; [apply Hf|done]. Qed.
Lemma preserves_insert_row {R} (tbl : database → gmap uuid R) `{!Setter tbl} id r :
  (∀ v d, π (set_field tbl v d) = π d) → preserves π (insert_row tbl id r).
Proof.
  intros Hf s. unfold insert_row, mbind, Sess_bind, gets. cbn.
  destruct (tbl (db s) !! id); cbn; [done|]. split; [apply Hf|done].
Qed.
Lemma preserves_append_log {E} (lg : database → list E) `{!Setter lg} e :
  (∀ v d, π (set_field lg v d) = π d) → preserves π (append_log lg e).
Proof. intros Hf s. cbn. split; [apply Hf|done]. Qed.
Lemma preserves_fresh_id :
  (∀ v d, π (set_field next_id v d) = π d) → preserves π fresh_id.
Proof. intros Hf s. cbn. split; [apply Hf|done]. Qed.

Lemma preserves_when (b : bool) m : preserves π m → preserves π (when b m).
Proof. by destruct b. Qed.
Lemma preserves_if {A} (b : bool) (m n : Sess A) :
  preserves π m → preserves π n → preserves π (if b then m else n).
Proof. by destruct b. Qed.
Lemma preserves_for_each {A} (l : list A) (f : A → Sess unit) :
  (∀ x, preserves π (f x)) → preserves π (for_each l f).
Proof.
  intros Hf. induction l as [|x l IH]; [done|]. by apply preserves_bind.
Qed.
Lemma preserves_map_each {A B} (l : list A) (f : A → Sess B) :
  (∀ x, preserves π (f x)) → preserves π (map_each l f).
Proof.
  intros Hf. induction l as [|x l IH]; [done|]. cbn.
  apply preserves_bind; [done|]. intros y. apply preserves_bind; [done|]. done.
Qed.

(** a framed call can be stepped over *)
Lemma wp_frame I {A} (m : Sess A) Q s :
  preserves π m → I (saved s) →
  (∀ a s', saved s' = saved s → π (db s') = π (db s) → Q a s') → wp I m Q s.
Proof.
  intros Hm HI HQ. specialize (Hm s). unfold wp.
  destruct (m s) as [[a|e] s']; cbn in *; destruct Hm as [Hπ Hs].
  - by apply HQ.
  - by rewrite Hs.
Qed.
End preserves.

#[export] Hint Resolve preserves_ret preserves_raise preserves_http
  preserves_integrity_error preserves_gets
  preserves_get_row preserves_select_rows preserves_select_one preserves_utc_now
  preserves_token_hex preserves_token_urlsafe preserves_when preserves_if
  preserves_for_each preserves_map_each : frame.

(** decompose a body into its calls; the calls are closed by the database *)
Ltac frame_step :=
  lazymatch goal with
  | |- preserves _ (_ ≫= _) => apply preserves_bind; [|intros ?]
  | |- preserves _ (update _) => apply preserves_update; intros ?; reflexivity
  | |- preserves _ (alter_row _ _ _) => apply preserves_alter_row; intros ??; reflexivity
  | |- preserves _ (insert_row _ _ _) => apply preserves_insert_row; intros ??; reflexivity
  | |- preserves _ (append_log _ _) => apply preserves_append_log; intros ??; reflexivity
  | |- preserves _ fresh_id => apply preserves_fresh_id; intros ??; reflexivity
  | |- preserves _ (match ?x with _ => _ end) => destruct x
  | |- preserves _ (match ?x with _ => _ end _) => destruct x
  | |- preserves _ (when _ _) => apply preserves_when
  | |- preserves _ (for_each _ _) => apply preserves_for_each; intros ?
  | |- preserves _ (map_each _ _) => apply preserves_map_each; intros ?
  | |- preserves _ _ => solve [eauto with frame]
  end.
Ltac frame := repeat frame_step.

(** ** Total correctness

    [returns m Q s]: running [m] from [s] raises nothing and ends in [Q]. *)
Definition returns {A} (m : Sess A) (Q : A → session → Prop) (s : session) : Prop :=
  wp (fun _ => False) m Q s.

Lemma returns_run {A} (m : Sess A) Q s :
  returns m Q s ↔ ∃ a s', m s = (Ok a, s') ∧ Q a s'.
Proof.
  unfold returns, wp. split.
  - destruct (m s) as [[a|e] s']; [by eauto|done].
  - intros (a & s' & -> & HQ). done.
Qed.

Lemma returns_insert {R} (tbl : database → gmap uuid R) `{!Setter tbl} id r Q s :
  tbl (db s) !! id = None →
  Q tt (s <| db := set_field tbl (<[id := r]> (tbl (db s))) (db s) |>) →
  returns (insert_row tbl id r) Q s.
Proof. intros Hn HQ. apply wp_bind, wp_gets. by rewrite Hn. Qed.

(** a call that raises nothing and leaves [π] alone *)
Definition harmless {A T} (π : database → T) (m : Sess A) (s : session) : Prop :=
  returns m (fun _ s' => saved s' = saved s ∧ π (db s') = π (db s)) s.

Lemma returns_harmless {A T} (π : database → T) (m : Sess A) Q s :
  harmless π m s → (∀ a s', saved s' = saved s → π (db s') = π (db s) → Q a s') → returns m Q s.
Proof. intros Hm HQ. eapply wp_mono; [exact Hm|]. intros a s' [??]. by apply HQ. Qed.

(** from a statement on runs to one on a run *)
Lemma wp_run I {A} (m : Sess A) Q s a s' : wp I m Q s → m s = (Ok a, s') → Q a s'.
Proof. unfold wp. by intros Hm E; rewrite E in Hm. Qed.

(** running a bind *)
Lemma run_bind {A B} (m : Sess A) (f : A → Sess B) s a s' :
  m s = (Ok a, s') → (m ≫= f) s = f a s'.
Proof. unfold mbind, Sess_bind. by intros ->. Qed.

(** one step of symbolic execution of a [wp] goal *)
Ltac wp_step :=
  lazymatch goal with
  | |- wp _ (_ ≫= _) _ _ => apply wp_bind
  | |- wp _ (mret _) _ _ => apply wp_ret
  | |- wp _ (raise _) _ _ => apply wp_raise
  | |- wp _ (http _ _) _ _ => apply wp_raise
  | |- wp _ (gets _) _ _ => apply wp_gets
  | |- wp _ (get_row _ _) _ _ => apply wp_get_row
  | |- wp _ (update _) _ _ => apply wp_update
  | |- wp _ (alter_row _ _ _) _ _ => apply wp_alter
  | |- wp _ utc_now _ _ => apply wp_utc_now; intros ? ?
  | |- wp _ commit _ _ => apply wp_commit
  | |- wp _ (when _ _) _ _ => apply wp_when; intros ?
  | |- wp _ (if _ then _ else _) _ _ => apply wp_if; intros ?
  | |- wp _ (match ?x with _ => _ end) _ _ => destruct x eqn:?
  end.

(** ** Inverting a successful run *)
Lemma bind_Ok {A B} (m : Sess A) (f : A → Sess B) s b s' :
  (m ≫= f) s = (Ok b, s') → ∃ a s1, m s = (Ok a, s1) ∧ f a s1 = (Ok b, s').
Proof. unfold mbind, Sess_bind. destruct (m s) as [[a|e] s1]; [by eauto|done]. Qed.

Ltac run_ok H :=
  let a := fresh "a" in let s1 := fresh "s" in let E := fresh "E" in
  apply bind_Ok in H as (a & s1 & E & H).

Lemma preserves_run {A T} (π : database → T) (m : Sess A) s r s' :
  preserves π m → m s = (r, s') → π (db s') = π (db s) ∧ saved s' = saved s.
Proof. intros Hm E. specialize (Hm s). by rewrite E in Hm. Qed.
