(* ===== verification/Security.v ===== *)
(** * Bearer tokens

    [core/security.py]: creation, digest and prefix extraction of agent
    credentials and task lease tokens. *)
From S2P Require Import Prelude Py Sha256 Models Store Logic.
From Stdlib Require Import Ascii.

Open Scope Z_scope.

Record GeneratedTaskLeaseToken := mkLeaseToken {
  lt_token : string;
  lt_prefix : string;
  lt_digest : string }.

Record GeneratedAgentCredential := mkGeneratedCredential {
  ac_token : string;
  ac_prefix : string;
  ac_digest : string }.

(** a token [swarm_<kind>_<prefix>_<secret>] names its prefix *)
Definition extract_token_prefix (kind token : string) : option string :=
  match Str.split "_" 3 token with
  | [namespace; credential_type; prefix; secret] =>
      if negb (str_eqb namespace "swarm") || negb (str_eqb credential_type kind) then None
      else if negb (Str.nonempty prefix) || negb (Str.nonempty secret) then None
      else Some prefix
  | _ => None
  end.

Definition extract_agent_token_prefix (token : string) : option string :=
  extract_token_prefix "ag" token.
Definition extract_task_lease_token_prefix (token : string) : option string :=
  extract_token_prefix "lt" token.

Section tokens.
Context `{World}.

Definition digest_agent_token (token : string) : string :=
  hmac_sha256 agent_token_secret token.

Definition digest_task_lease_token (token : string) : string :=
  hmac_sha256 agent_token_secret ("task-lease:" +:+ token).

Definition create_agent_token : Sess GeneratedAgentCredential :=
  prefix ← token_hex;
  secret ← token_urlsafe;
  let token := "swarm_ag_" +:+ prefix +:+ "_" +:+ secret in
  mret (mkGeneratedCredential token prefix (digest_agent_token token)).

(** the token made of a drawn prefix and secret *)
Definition lease_token_of (prefix secret : string) : GeneratedTaskLeaseToken :=
  let token := "swarm_lt_" +:+ prefix +:+ "_" +:+ secret in
  mkLeaseToken token prefix (digest_task_lease_token token).

Definition create_task_lease_token : Sess GeneratedTaskLeaseToken :=
  prefix ← token_hex;
  secret ← token_urlsafe;
  mret (lease_token_of prefix secret).
End tokens.

(** ** The prefix of a generated token can be read back *)

Fixpoint free_of (c : ascii) (s : string) : bool :=
  match s with
  | EmptyString => true
  | String d s' => negb (Ascii.eqb d c) && free_of c s'
  end.

Lemma rev_app_spec acc s : String.rev_app acc s = String.rev acc +:+ s.
Proof.
  unfold String.rev. revert s.
  assert (Hgen : ∀ a s t, String.rev_app a (s +:+ t) = String.rev_app a s +:+ t).
  { induction a as [|c a IH]; intros s t; [done|]. cbn. by rewrite <- (IH (String c s)). }
  intros s. by rewrite <- Hgen.
Qed.

Lemma rev_cons c acc : String.rev (String c acc) = String.rev acc +:+ String c "".
Proof. unfold String.rev. cbn. apply rev_app_spec. Qed.

Lemma string_app_cons c (a b : string) : String c a +:+ b = String c (a +:+ b).
Proof. done. Qed.

Lemma string_app_nil_l (a : string) : "" +:+ a = a.
Proof. done. Qed.

Lemma string_app_assoc (a b c : string) : (a +:+ b) +:+ c = a +:+ (b +:+ c).
Proof. induction a as [|x a IH]; [done|]. rewrite !string_app_cons. by rewrite IH. Qed.

Lemma string_app_nil_r (a : string) : a +:+ "" = a.
Proof. induction a as [|x a IH]; [done|]. rewrite string_app_cons. by rewrite IH. Qed.

Lemma split_go_piece sep n acc p s :
  free_of sep p = true →
  Str.split_go sep (S n) acc (p +:+ String sep s) =
  (String.rev acc +:+ p) :: Str.split_go sep n "" s.
Proof.
  revert acc. induction p as [|c p IH]; intros acc Hp.
  - rewrite string_app_nil_l. cbn. rewrite Ascii.eqb_refl. by rewrite string_app_nil_r.
  - rewrite string_app_cons. cbn in *. apply andb_prop in Hp as [Hc Hp].
    destruct (Ascii.eqb c sep); [done|]. rewrite IH by done.
    rewrite rev_cons, string_app_assoc. done.
Qed.

Lemma rev_nil_app (a : string) : String.rev "" +:+ a = a.
Proof. done. Qed.

Lemma split_go_last sep acc s : Str.split_go sep 0 acc s = [String.rev acc +:+ s].
Proof. destruct s; cbn; [by rewrite string_app_nil_r|done]. Qed.

Lemma extract_generated kind prefix secret :
  free_of "_" kind = true → free_of "_" prefix = true →
  Str.nonempty prefix = true → Str.nonempty secret = true →
  extract_token_prefix kind ("swarm_" +:+ kind +:+ "_" +:+ prefix +:+ "_" +:+ secret) = Some prefix.
Proof.
  intros Hk Hp Hpn Hsn. unfold extract_token_prefix, Str.split.
  replace ("swarm_" +:+ kind +:+ "_" +:+ prefix +:+ "_" +:+ secret)
    with ("swarm" +:+ String "_" (kind +:+ String "_" (prefix +:+ String "_" secret))) by done.
  rewrite !split_go_piece by done. rewrite split_go_last. cbv beta iota.
  rewrite !rev_nil_app. unfold str_eqb. rewrite !String.eqb_refl, Hpn, Hsn. done.
Qed.
