(* ===== verification/TaskCore.v ===== *)
(** * Task rows: events and leases

    The part of [services/tasks.py] that the other services call: the task event
    log, [clear_lease] and [verify_task_lease]. *)
From S2P Require Import Prelude Py Sha256 Models Store Logic Security.

Open Scope Z_scope.

(** [ACTIVE_LEASE_STATUSES] *)
Definition ACTIVE_LEASE_STATUSES : list TaskStatus := [Leased; Running].
Definition active_lease (s : TaskStatus) : bool := bool_decide (s ∈ ACTIVE_LEASE_STATUSES).

(** [TERMINAL_TASK] of [services/task_graphs.py] *)
Definition TERMINAL_TASK : list TaskStatus := [Succeeded; Failed; Cancelled].
Definition terminal_task (s : TaskStatus) : bool := bool_decide (s ∈ TERMINAL_TASK).

Section ops.
Context `{World}.

(** attribute assignments on a task; the flush sets [updated_at] *)
Definition alter_task (id : uuid) (f : Task → Task) : Sess unit :=
  alter_row tasks id (fun t => f t <| t_updated_at := w_server_now |>).

Definition append_task_event (task_id : uuid) (event_type message : string)
    (agent_id : option uuid) (payload : Json.dict) : Sess unit :=
  task ← get_row tasks task_id;
  append_log task_events
    (mkTaskEvent task_id agent_id event_type (from_option t_attempt_count 0 task)
       message payload w_server_now).

Definition clear_lease (task : Task) : Task :=
  task <| t_assigned_agent_id := None |>
       <| t_leased_at := None |>
       <| t_lease_expires_at := None |>
       <| t_lease_token_prefix := None |>
       <| t_lease_token_digest := None |>
       <| t_last_execution_heartbeat_at := None |>.

Definition verify_task_lease (task : Task) (agent : Agent) (supplied_token : string)
    (allowed_statuses : list TaskStatus) : Sess datetime :=
  current_time ← utc_now;
  if negb (bool_decide (t_status task ∈ allowed_statuses)) then
    http 409 ("Task is in state '" +:+ task_status_str (t_status task) +:+
              "', but this operation requires one of: [" +:+
              Str.join ", " ((fun s => "'" +:+ s +:+ "'") <$>
                sorted_set (task_status_str <$> allowed_statuses)) +:+ "].")
  else if negb (bool_decide (t_assigned_agent_id task = Some (ag_id agent))) then
    http 403 "This task lease belongs to another agent."
  else if match t_lease_expires_at task with
          | None => true
          | Some e => e <=? current_time
          end then
    http 409 "Task lease has expired."
  else
    match extract_task_lease_token_prefix supplied_token,
          t_lease_token_prefix task, t_lease_token_digest task with
    | Some supplied_prefix, Some prefix, Some digest =>
        if negb (str_eqb supplied_prefix prefix) then
          http 401 "Invalid task lease token."
        else if negb (str_eqb (digest_task_lease_token supplied_token) digest) then
          http 401 "Invalid task lease token."
        else mret current_time
    | _, _, _ => http 401 "Invalid task lease token."
    end.

Definition lock_task (task_id : uuid) : Sess Task :=
  task ← get_row tasks task_id;
  match task with
  | None => http 404 "Task not found."
  | Some task => mret task
  end.
End ops.

Section lemmas.
Context `{World}.

Lemma append_task_event_frame {T} (π : database → T) id ty msg a p :
  (∀ v d, π (set_field task_events v d) = π d) →
  preserves π (append_task_event id ty msg a p).
Proof. intros Hπ. unfold append_task_event. frame. apply preserves_append_log, Hπ. Qed.

Lemma verify_task_lease_frame {T} (π : database → T) t a tok l :
  preserves π (verify_task_lease t a tok l).
Proof. unfold verify_task_lease, http. frame. Qed.

Lemma lock_task_frame {T} (π : database → T) id : preserves π (lock_task id).
Proof. unfold lock_task. frame. Qed.

(** what a verified lease guarantees *)
Definition holds_lease (t : Task) (a : Agent) (token : string) (now : datetime) : Prop :=
  t_assigned_agent_id t = Some (ag_id a) ∧
  (∃ e, t_lease_expires_at t = Some e ∧ now < e) ∧
  t_lease_token_prefix t = extract_task_lease_token_prefix token ∧
  t_lease_token_digest t = Some (digest_task_lease_token token).

Lemma wp_verify_task_lease I t a tok l Q s :
  I (saved s) →
  (∀ now, now = w_now (clock s) → t_status t ∈ l → holds_lease t a tok now →
     Q now (s <| clock := S (clock s) |>)) →
  wp I (verify_task_lease t a tok l) Q s.
Proof.
  intros HI HQ. unfold verify_task_lease.
  apply wp_bind, wp_utc_now. intros now Hnow.
  apply wp_if; intros Hs; [by apply wp_raise|].
  apply wp_if; intros Ha; [by apply wp_raise|].
  apply wp_if; intros He; [by apply wp_raise|].
  destruct (extract_task_lease_token_prefix tok) as [sp|] eqn:Hsp; [|by apply wp_raise].
  destruct (t_lease_token_prefix t) as [p|] eqn:Hp; [|by apply wp_raise].
  destruct (t_lease_token_digest t) as [dg|] eqn:Hd; [|by apply wp_raise].
  apply wp_if; intros Hpp; [by apply wp_raise|].
  apply wp_if; intros Hdd; [by apply wp_raise|].
  apply wp_ret, HQ; [done| |].
  - by apply negb_false_iff, bool_decide_eq_true in Hs.
  - apply negb_false_iff in Ha, Hpp, Hdd. apply bool_decide_eq_true in Ha.
    apply String.eqb_eq in Hpp, Hdd. subst.
    destruct (t_lease_expires_at t) as [e|] eqn:Het; [|done].
    split; [done|]. split; [exists e; split; [done|lia]|]. split; congruence.
Qed.
End lemmas.

#[export] Hint Resolve append_task_event_frame verify_task_lease_frame lock_task_frame : frame.
#[export] Hint Extern 2 (∀ _ _, _ = _) => (intros ??; reflexivity) : frame.

(** ** The governed core

    Tasks and their approvals: the part of the database the safety invariants
    speak about. *)
Definition core (d : database) : gmap uuid Task * gmap uuid TaskApproval := (tasks d, approvals d).
