(* ===== verification/Notifications.v ===== *)
(** * Founder notifications

    [services/founder_notifications.py]: the notification outbox.  A
    notification is inserted at most once per deduplication key. *)
From S2P Require Import Prelude Py Sha256 Models Store Logic TaskCore.

Open Scope Z_scope.

Definition dict_of (v : option json) : Json.dict := default [] (v ≫= Json.as_dict).

Section ops.
Context `{World}.

Definition new_notification (id : uuid) (kind : string) (entity_id : uuid) (key : string)
    (state : NotificationState) (payload : Json.dict) : FounderNotification :=
  mkFounderNotification id kind entity_id key state payload None None None
    w_server_now w_server_now.

Definition has_key (key : string) (n : FounderNotification) : bool :=
  str_eqb (fn_deduplication_key n) key.

(** [db.add(notification)] and its flush *)
Definition add_notification (kind : string) (entity_id : uuid) (key : string)
    (state : NotificationState) (payload : Json.dict) : Sess uuid :=
  clash ← select_one notifications (has_key key);
  match clash with
  | Some _ => integrity_error
  | None =>
      id ← fresh_id;
      _ ← insert_row notifications id (new_notification id kind entity_id key state payload);
      mret id
  end.

(** [_insert_once]; the [IntegrityError] branch needs a concurrent insert
    between the select and the flush, which a request run alone never sees *)
Definition insert_once (kind : string) (entity_id : uuid) (key : string)
    (state : NotificationState) (payload : Json.dict) : Sess uuid :=
  existing ← select_one notifications (has_key key);
  match existing with
  | Some n => mret (fn_id n)
  | None => add_notification kind entity_id key state payload
  end.

Definition approval_key (approval : TaskApproval) (generation : Z) : string :=
  "approval:" +:+ uuid_str (ap_id approval) +:+ ":" +:+ ap_plan_digest approval +:+ ":" +:+ pretty generation.

Definition approval_payload (approval : TaskApproval) (task : Task) (blocked_by : list string) : Json.dict :=
  [("approval_id", JStr (uuid_str (ap_id approval)));
   ("task_number", JStr (t_task_number task));
   ("task_title", JStr (t_title task));
   ("operation", default JNull (Json.get "operation" (t_input_contract task)));
   ("task_type", JStr (t_task_type task));
   ("risk_level", JInt (ap_risk_level approval));
   ("plan_digest", JStr (ap_plan_digest approval));
   ("blocked_by", Json.str_list blocked_by)].

Definition enqueue_approval_gate (approval : TaskApproval) (task : Task) (generation : Z) : Sess uuid :=
  insert_once "approval_required" (ap_id approval) (approval_key approval generation) NWaiting
    (approval_payload approval task []).

Definition enqueue_task_ready (task : Task) (approval : TaskApproval) (generation : Z) : Sess uuid :=
  insert_once "task_ready" (t_id task)
    ("task-ready:" +:+ uuid_str (t_id task) +:+ ":" +:+ uuid_str (ap_id approval) +:+ ":" +:+ pretty generation)
    NPending
    [("task_id", JStr (uuid_str (t_id task)));
     ("task_number", JStr (t_task_number task));
     ("task_title", JStr (t_title task));
     ("task_type", JStr (t_task_type task));
     ("plan_digest", JStr (t_plan_digest task))].

Definition acknowledge_notification (n : FounderNotification) (delivery_reference : string)
    : Sess unit :=
  if bool_decide (fn_state n = NAcknowledged) then mret tt
  else if negb (bool_decide (fn_state n = NPending)) then
    http 409 "Notification is no longer active."
  else
    now ← utc_now;
    alter_row notifications (fn_id n) (fun n =>
      n <| fn_state := NAcknowledged |>
        <| fn_acknowledged_by := Some delivery_reference |>
        <| fn_acknowledged_at := Some now |>
        <| fn_updated_at := now |>).

(** ** Readiness of an approval *)

Definition blocking_dependencies (d : database) (task_id : uuid) : list string :=
  omap (fun dep =>
    if bool_decide (td_task_id dep = task_id) then
      pred ← tasks d !! td_depends_on_task_id dep;
      if bool_decide (t_status pred = Succeeded) then None
      else Some (t_task_number pred +:+ ":" +:+ task_status_str (t_status pred))
    else None) (dependencies d).

Definition mission_ready (mission : option EngineeringMission) (now : datetime) : bool :=
  match mission with
  | None => true
  | Some m => bool_decide (ms_status m = MActive) && (now <? ms_deadline_at m)
  end.

Definition approval_readiness (approval : TaskApproval) : Sess (bool * list string * Task) :=
  task ← get_row tasks (ap_task_id approval);
  match task with
  | None => http 409 "Approval task is unavailable."
  | Some task =>
      blocked_by ← gets (fun d => blocking_dependencies d (t_id task));
      mission ← gets (fun d => m ← t_mission_id task; missions d !! m);
      now ← utc_now;
      mret (bool_decide (ap_status approval = ApPending) &&
            bool_decide (t_status task = PendingApproval) &&
            bool_decide (blocked_by = []) && mission_ready mission now, blocked_by, task)
  end.

(** ** Reconciliation *)

(** identifier of the last [approval_requested] event of an approval, or 0 *)
Definition last_request_id (d : database) (approval_id : uuid) : Z :=
  foldl (fun acc '(i, e) =>
    if bool_decide (ae_approval_id e = approval_id) && str_eqb (ae_event_type e) "approval_requested"
    then Z.of_nat (S i) else acc) 0 (imap pair (approval_events d)).

Definition active_notification (n : FounderNotification) : bool :=
  bool_decide (fn_state n = NPending) || bool_decide (fn_state n = NWaiting).

Definition supersede_notification (now : datetime) (n : FounderNotification) : FounderNotification :=
  n <| fn_state := NSuperseded |> <| fn_superseded_at := Some now |> <| fn_updated_at := now |>.

Definition reconcile_approval_notification (now : datetime) (approval : TaskApproval) : Sess string :=
  r ← approval_readiness approval;
  let '(actionable, blocked_by, task) := r in
  generation ← gets (fun d => last_request_id d (ap_id approval));
  let key := approval_key approval generation in
  id ← insert_once "approval_required" (ap_id approval) key NWaiting
         (approval_payload approval task blocked_by);
  _ ← alter_row notifications id (fun n =>
        if active_notification n then
          n <| fn_state := if actionable : bool then NPending else NWaiting |> <| fn_updated_at := now |>
        else n);
  mret key.

Definition reconcile_mission_notification (mission : EngineeringMission) : Sess string :=
  let key := "mission:" +:+ uuid_str (ms_id mission) +:+ ":" +:+ ms_manifest_digest mission in
  _ ← insert_once "mission_approval_required" (ms_id mission) key NPending
    [("mission_id", JStr (uuid_str (ms_id mission)));
     ("milestone_id", JStr (ms_milestone_id mission));
     ("objective", JStr (ms_objective mission));
     ("manifest_digest", JStr (ms_manifest_digest mission));
     ("max_auto_recoveries",
       default (JInt 0) (Json.get "max_auto_recoveries" (ms_supervision_policy mission)))];
  mret key.

(** [d[k]] *)
Definition subscript (k : string) (d : Json.dict) : Sess json :=
  match Json.get k d with Some v => mret v | None => raise (PyException "KeyError" k) end.

Definition reconcile_mandate_notification (mandate : AlphaResearchMandate) : Sess string :=
  let key := "alpha-mandate:" +:+ uuid_str (am_id mandate) +:+ ":" +:+ am_mandate_digest mandate in
  venues ← subscript "allowed_venues" (am_specification mandate);
  instruments ← subscript "allowed_instruments" (am_specification mandate);
  trials ← subscript "maximum_total_trials" (am_budget mandate);
  authority ← subscript "authority" (am_specification mandate);
  _ ← insert_once "alpha_mandate_approval_required" (am_id mandate) key NPending
    [("mandate_id", JStr (uuid_str (am_id mandate)));
     ("mandate_key", JStr (am_mandate_key mandate));
     ("objective", JStr (am_objective mandate));
     ("mandate_digest", JStr (am_mandate_digest mandate));
     ("valid_until", JStr (isoformat (am_valid_until mandate)));
     ("allowed_venues", venues); ("allowed_instruments", instruments);
     ("maximum_total_trials", trials); ("authority", authority)];
  mret key.

(** last [task_authority_denied] event of a task *)
Definition last_denied (d : database) (task_id : uuid) : option TaskEvent :=
  last (List.filter (fun e => bool_decide (te_task_id e = task_id) &&
                              str_eqb (te_event_type e) "task_authority_denied") (task_events d)).

Definition stalled_candidate (now : datetime) (t : Task) : bool :=
  str_eqb (t_task_type t) "founder_request" &&
  bool_decide (t_status t ∈ [Queued; Leased; Running]) &&
  (t_updated_at t <=? now - minutes 2).

Definition reconcile_stalled (now : datetime) (task : Task) : Sess unit :=
  if active_lease (t_status task) &&
     match t_lease_expires_at task with Some e => now <? e | None => false end then mret tt
  else
    match t_conversation_id task with
    | None => mret tt
    | Some cid =>
        conversation ← get_row conversations cid;
        match conversation with
        | None => mret tt
        | Some c =>
            if negb (bool_decide (t_conversation_revision task = Some (fc_revision c))) then mret tt
            else
              denied ← gets (fun d => last_denied d (t_id task));
              let reason :=
                match denied with
                | Some _ => "effective authority denied the planner lease"
                | None => "planning has not advanced within two minutes"
                end in
              _ ← alter_row conversations cid (fun c =>
                    c <| fc_status := "attention_required" |> <| fc_updated_at := w_server_now |>);
              _ ← insert_once "conversation_stalled" cid
                ("conversation-stalled:" +:+ uuid_str cid +:+ ":" +:+ pretty (fc_revision c) +:+ ":" +:+ reason)
                NPending
                [("conversation_id", JStr (uuid_str cid));
                 ("short_id", JStr (fc_short_id c));
                 ("title", JStr (fc_title c));
                 ("task_id", JStr (uuid_str (t_id task)));
                 ("task_status", JStr (task_status_str (t_status task)));
                 ("reason", JStr reason);
                 ("authority_reasons",
                   match denied with
                   | Some e => default (JList []) (Json.get "reasons" (te_payload e))
                   | None => JList [] end)];
              mret tt
        end
    end.

Definition reconcile_stalled_conversations (now : datetime) : Sess unit :=
  stalled ← select_rows tasks (stalled_candidate now);
  for_each stalled (reconcile_stalled now).

Definition reconciled_kinds : list string :=
  ["approval_required"; "mission_approval_required"; "alpha_mandate_approval_required"].

Definition notification_leb (a b : FounderNotification) : bool :=
  (fn_created_at a <? fn_created_at b) ||
  ((fn_created_at a =? fn_created_at b) && (fn_id a <=? fn_id b)%N).

Definition reconcile_founder_notifications : Sess (list FounderNotification) :=
  now ← utc_now;
  _ ← reconcile_stalled_conversations now;
  pending_approvals ← select_rows approvals (fun a => bool_decide (ap_status a = ApPending));
  approval_keys ← map_each pending_approvals (reconcile_approval_notification now);
  pending_missions ← select_rows missions (fun m =>
    ms_supervision_enabled m && bool_decide (ms_supervision_status m = Some SvPendingApproval));
  mission_keys ← map_each pending_missions reconcile_mission_notification;
  awaiting ← select_rows mandates (fun m => str_eqb (am_status m) "awaiting_approval");
  mandate_keys ← map_each awaiting reconcile_mandate_notification;
  let current_keys := approval_keys ++ mission_keys ++ mandate_keys in
  pending ← select_rows notifications (fun n => active_notification n && str_in (fn_kind n) reconciled_kinds);
  _ ← for_each pending (fun n =>
        when (negb (str_in (fn_deduplication_key n) current_keys))
          (alter_row notifications (fn_id n) (supersede_notification now)));
  ready ← select_rows notifications (fun n =>
    bool_decide (fn_state n = NPending) && str_eqb (fn_kind n) "task_ready");
  _ ← for_each ready (fun n =>
        task ← get_row tasks (fn_entity_id n);
        when (negb (match task with Some t => bool_decide (t_status t = Queued) | None => false end))
          (alter_row notifications (fn_id n) (supersede_notification now)));
  remaining ← select_rows notifications (fun n => bool_decide (fn_state n = NPending));
  mret (sort_by notification_leb remaining).
End ops.

(** ** Frames: the outbox never touches tasks or approvals *)
Section frames.
Context `{World}.

Lemma add_notification_frame k e key st p : preserves core (add_notification k e key st p).
Proof. unfold add_notification. frame. Qed.
#[local] Hint Resolve add_notification_frame : frame.

Lemma insert_once_frame k e key st p : preserves core (insert_once k e key st p).
Proof. unfold insert_once. frame. Qed.
#[local] Hint Resolve insert_once_frame : frame.

Lemma enqueue_approval_gate_frame a t g : preserves core (enqueue_approval_gate a t g).
Proof. unfold enqueue_approval_gate. frame. Qed.

Lemma enqueue_task_ready_frame t a g : preserves core (enqueue_task_ready t a g).
Proof. unfold enqueue_task_ready. frame. Qed.

Lemma acknowledge_frame n r : preserves core (acknowledge_notification n r).
Proof. unfold acknowledge_notification. frame. Qed.

Lemma approval_readiness_frame {T} (π : database → T) a : preserves π (approval_readiness a).
Proof. unfold approval_readiness. frame. Qed.
#[local] Hint Resolve approval_readiness_frame : frame.

Lemma reconcile_approval_frame now a : preserves core (reconcile_approval_notification now a).
Proof. unfold reconcile_approval_notification. frame. Qed.
Lemma reconcile_mission_frame m : preserves core (reconcile_mission_notification m).
Proof. unfold reconcile_mission_notification. frame. Qed.
Lemma subscript_frame {T} (π : database → T) k d : preserves π (subscript k d).
Proof. unfold subscript. frame. Qed.
#[local] Hint Resolve subscript_frame : frame.
Lemma reconcile_mandate_frame m : preserves core (reconcile_mandate_notification m).
Proof. unfold reconcile_mandate_notification. frame. Qed.
Lemma reconcile_stalled_frame now t : preserves core (reconcile_stalled now t).
Proof. unfold reconcile_stalled. frame. Qed.
#[local] Hint Resolve reconcile_approval_frame reconcile_mission_frame
  reconcile_mandate_frame reconcile_stalled_frame : frame.

Lemma reconcile_notifications_frame : preserves core reconcile_founder_notifications.
Proof. unfold reconcile_founder_notifications, reconcile_stalled_conversations. frame. Qed.
End frames.

#[export] Hint Resolve add_notification_frame insert_once_frame enqueue_approval_gate_frame
  enqueue_task_ready_frame acknowledge_frame approval_readiness_frame
  reconcile_notifications_frame subscript_frame : frame.
