(* ===== verification/Governance.v ===== *)
(** * Task approvals

    [services/governance.py]: creation, decision, consumption, expiry and
    re-arming of the approval that gates a risky task. *)
From S2P Require Import Prelude Py Sha256 Models Store Logic Security TaskCore Notifications.

Open Scope Z_scope.

(** [task_plan_digest] *)
Definition task_plan_digest (document : Json.dict) : string := digest (JObj document).

Section ops.
Context `{World}.

(** the event's identifier is its position in the log *)
Definition append_approval_event (approval_id : uuid) (event_type actor reason : string)
    (payload : Json.dict) : Sess Z :=
  _ ← append_log approval_events
        (mkApprovalEvent approval_id event_type actor reason payload w_server_now);
  gets (fun d => Z.of_nat (length (approval_events d))).

Definition approval_of_task (task_id : uuid) (a : TaskApproval) : bool :=
  bool_decide (ap_task_id a = task_id).

(** [select(TaskApproval).where(TaskApproval.task_id == task.id)] *)
Definition select_approval (task_id : uuid) : Sess (option TaskApproval) :=
  select_one approvals (approval_of_task task_id).

Definition new_approval (id : uuid) (task : Task) : TaskApproval :=
  mkTaskApproval id (t_id task) ApPending (t_plan_digest task) (t_risk_level task)
    [("project", JStr (t_project task));
     ("task_type", JStr (t_task_type task));
     ("input_contract", JObj (t_input_contract task))]
    (t_created_by task) None None None None None None w_server_now w_server_now.

(** [create_approval]; the flush enforces the unique [task_id] *)
Definition create_approval (task : Task) : Sess uuid :=
  existing ← select_approval (t_id task);
  match existing with
  | Some _ => integrity_error
  | None =>
      id ← fresh_id;
      let approval := new_approval id task in
      _ ← insert_row approvals id approval;
      requested ← append_approval_event id "approval_requested" (t_created_by task)
                    "Task requires approval." [];
      _ ← enqueue_approval_gate approval task requested;
      mret id
  end.

(** attribute assignments on an approval *)
Definition grant_approval (actor reason nonce : string) (now expires : datetime)
    (a : TaskApproval) : TaskApproval :=
  a <| ap_status := ApApproved |> <| ap_decided_by := Some actor |>
    <| ap_decision_reason := Some reason |> <| ap_nonce_digest := Some (sha256 nonce) |>
    <| ap_issued_at := Some now |> <| ap_expires_at := Some expires |>
    <| ap_updated_at := now |>.

Definition approve_task (approval_id : uuid) (actor reason : string)
    (expires_in_seconds : Z) : Sess unit :=
  approval ← get_row approvals approval_id;
  match approval with
  | None => http 404 "Approval not found."
  | Some approval =>
    if negb (bool_decide (ap_status approval = ApPending)) then
      http 409 "Approval is not pending."
    else
      task ← get_row tasks (ap_task_id approval);
      match task with
      | None => http 409 "Task plan digest has changed."
      | Some task =>
        if negb (str_eqb (t_plan_digest task) (ap_plan_digest approval)) then
          http 409 "Task plan digest has changed."
        else
          now ← utc_now;
          nonce ← token_urlsafe;
          _ ← alter_row approvals approval_id
                (grant_approval actor reason nonce now (now + seconds expires_in_seconds));
          _ ← alter_task (t_id task) (fun t => t <| t_status := Queued |>);
          mission ← gets (fun d => m ← t_mission_id task; missions d !! m);
          _ ← match mission with
              | Some m => when (ms_supervision_enabled m)
                  (alter_row missions (ms_id m) (fun m =>
                     m <| ms_next_reconcile_at := Some now |> <| ms_updated_at := w_server_now |>))
              | None => mret tt
              end;
          granted ← append_approval_event approval_id "approval_granted" actor reason [];
          _ ← append_task_event (t_id task) "task_ready"
                "Approved task is ready for a matching worker." None
                [("approval_id", JStr (uuid_str approval_id));
                 ("plan_digest", JStr (t_plan_digest task))];
          _ ← enqueue_task_ready task approval granted;
          mret tt
      end
  end.

Inductive approval_action := Reject | Revoke.

Definition action_str (a : approval_action) : string :=
  match a with Reject => "reject" | Revoke => "revoke" end.

(** the status each action may be taken from, and the one it leads to *)
Definition allowed_from (a : approval_action) : ApprovalStatus :=
  match a with Reject => ApPending | Revoke => ApApproved end.
Definition decided_status (a : approval_action) : ApprovalStatus :=
  match a with Reject => ApRejected | Revoke => ApRevoked end.
Definition decided_task_status (a : approval_action) : TaskStatus :=
  match a with Reject => Cancelled | Revoke => PendingApproval end.

Definition decide_approval (actor reason : string) (action : approval_action) (now : datetime)
    (a : TaskApproval) : TaskApproval :=
  a <| ap_status := decided_status action |> <| ap_decided_by := Some actor |>
    <| ap_decision_reason := Some reason |> <| ap_updated_at := now |>.

Definition decide_task (approval_id : uuid) (actor reason : string)
    (action : approval_action) : Sess unit :=
  approval ← get_row approvals approval_id;
  match approval with
  | None => http 404 "Approval not found."
  | Some approval =>
    if negb (bool_decide (ap_status approval = allowed_from action)) then
      http 409 ("Approval cannot be " +:+ action_str action +:+ "d.")
    else
      now ← utc_now;
      _ ← alter_row approvals approval_id (decide_approval actor reason action now);
      _ ← alter_task (ap_task_id approval) (fun t => t <| t_status := decided_task_status action |>);
      _ ← append_approval_event approval_id
            ("approval_" +:+ approval_status_str (decided_status action)) actor reason [];
      mret tt
  end.

Definition set_approval_status (st : ApprovalStatus) (now : datetime) (a : TaskApproval) : TaskApproval :=
  a <| ap_status := st |> <| ap_updated_at := now |>.

Definition approval_expired (now : datetime) (a : TaskApproval) : bool :=
  match ap_expires_at a with None => true | Some e => e <=? now end.

Definition consume_task_approval (task : Task) (now : datetime) : Sess unit :=
  if negb (t_approval_required task) then mret tt
  else
    approval ← select_approval (t_id task);
    match approval with
    | None => http 409 "Task lacks an approved plan."
    | Some a =>
      if negb (bool_decide (ap_status a = ApApproved)) then http 409 "Task lacks an approved plan."
      else if approval_expired now a then
        _ ← alter_row approvals (ap_id a) (set_approval_status ApExpired now);
        _ ← alter_task (t_id task) (fun t => t <| t_status := PendingApproval |>);
        _ ← append_approval_event (ap_id a) "approval_expired" "control-plane" "Approval expired." [];
        http 409 "Task approval expired."
      else
        _ ← alter_row approvals (ap_id a) (fun a =>
              set_approval_status ApConsumed now (a <| ap_consumed_at := Some now |>));
        _ ← append_approval_event (ap_id a) "approval_consumed" "control-plane"
              "Approval consumed by task lease."
              [("attempt_number", JInt (t_attempt_count task + 1))];
        mret tt
    end.

(** approvals whose window has closed *)
Definition lapsed (now : datetime) (a : TaskApproval) : bool :=
  bool_decide (ap_status a = ApApproved) &&
  match ap_expires_at a with Some e => e <=? now | None => false end.

Definition expire_approval (now : datetime) (a : TaskApproval) : Sess unit :=
  _ ← alter_row approvals (ap_id a) (set_approval_status ApExpired now);
  task ← get_row tasks (ap_task_id a);
  _ ← when (match task with Some t => bool_decide (t_status t = Queued) | None => false end)
        (alter_task (ap_task_id a) (fun t => t <| t_status := PendingApproval |>));
  _ ← append_approval_event (ap_id a) "approval_expired" "control-plane" "Approval expired." [];
  mret tt.

(** [expire_approvals]; rows locked by another transaction are skipped *)
Definition expire_approvals (now : datetime) : Sess Z :=
  lapsed_rows ← select_rows approvals (fun a => lapsed now a && negb (w_locked (ap_id a)));
  _ ← for_each lapsed_rows (expire_approval now);
  mret (Z.of_nat (length lapsed_rows)).

Definition reset_approval (now : datetime) (a : TaskApproval) : TaskApproval :=
  a <| ap_status := ApPending |> <| ap_decided_by := None |> <| ap_decision_reason := None |>
    <| ap_nonce_digest := None |> <| ap_issued_at := None |> <| ap_expires_at := None |>
    <| ap_consumed_at := None |> <| ap_updated_at := now |>.

Definition rearm_task_approval (task_id : uuid) (reason : string) : Sess unit :=
  task ← get_row tasks task_id;
  match task with
  | None => mret tt
  | Some task =>
    if negb (t_approval_required task) then
      alter_task task_id (fun t => t <| t_status := Queued |>)
    else
      approval ← select_approval task_id;
      match approval with
      | None => http 409 "Task approval is missing."
      | Some a =>
        rearmed_at ← utc_now;
        _ ← alter_row approvals (ap_id a) (reset_approval rearmed_at);
        _ ← alter_task task_id (fun t => t <| t_status := PendingApproval |>);
        prior ← select_rows notifications (fun n =>
          str_eqb (fn_kind n) "approval_required" && bool_decide (fn_entity_id n = ap_id a) &&
          active_notification n);
        _ ← for_each prior (fun n =>
              alter_row notifications (fn_id n) (supersede_notification rearmed_at));
        requested ← append_approval_event (ap_id a) "approval_requested" "control-plane" reason
          [("attempt_count", JInt (t_attempt_count task))];
        _ ← enqueue_approval_gate (reset_approval rearmed_at a)
              (task <| t_status := PendingApproval |>) requested;
        mret tt
      end
  end.
End ops.
