(* ===== verification/CoreInvariant.v ===== *)
(** * The safety invariant of tasks and approvals

    [core_inv X c]: every task row of [c] is well formed (bounded attempts, lease
    fields set exactly while leased or running), every approval gates one task
    with the same plan digest, every task that requires approval has one, and
    while such a task is leased or running its approval is consumed.  [X] exempts
    one task from the conditions a handler breaks between two assignments. *)
From S2P Require Import Prelude Py Sha256 Models Store Logic Security TaskCore Notifications Governance.

Open Scope Z_scope.

(** ** Well-formed task rows *)

Definition lease_held (t : Task) : Prop :=
  is_Some (t_assigned_agent_id t) ∧ is_Some (t_leased_at t) ∧ is_Some (t_lease_expires_at t) ∧
  is_Some (t_lease_token_prefix t) ∧ is_Some (t_lease_token_digest t) ∧
  is_Some (t_last_execution_heartbeat_at t) ∧ 1 ≤ t_attempt_count t.

Definition lease_clear (t : Task) : Prop :=
  t_assigned_agent_id t = None ∧ t_leased_at t = None ∧ t_lease_expires_at t = None ∧
  t_lease_token_prefix t = None ∧ t_lease_token_digest t = None ∧
  t_last_execution_heartbeat_at t = None.

Definition active (t : Task) : Prop := t_status t = Leased ∨ t_status t = Running.
#[export] Instance active_dec t : Decision (active t).
Proof. unfold active. apply _. Defined.

Record task_wf (t : Task) : Prop := {
  wf_attempts : 0 ≤ t_attempt_count t ≤ t_max_attempts t;
  wf_max : 1 ≤ t_max_attempts t;
  wf_held : active t → lease_held t;
  wf_clear : ¬ active t → lease_clear t }.

Lemma active_lease_spec t : active_lease (t_status t) = true ↔ active t.
Proof.
  unfold active_lease, active, ACTIVE_LEASE_STATUSES. rewrite bool_decide_eq_true.
  rewrite !elem_of_cons, elem_of_nil. tauto.
Qed.

Lemma clear_lease_clear t : lease_clear (clear_lease t).
Proof. by repeat split. Qed.

(** ** The invariant *)

Section inv.
Local Abbreviation rows := (gmap uuid Task * gmap uuid TaskApproval)%type.

(** approval [a] gates task [t] *)
Definition gates (a : TaskApproval) (t : Task) : Prop :=
  ap_task_id a = t_id t ∧ t_approval_required t = true ∧ ap_plan_digest a = t_plan_digest t.

Definition task_ok (c : rows) (t : Task) : Prop :=
  task_wf t ∧
  (active t → ∀ a id, c.2 !! id = Some a → ap_task_id a = t_id t → ap_status a = ApConsumed).

Record core_inv (X : option uuid) (c : rows) : Prop := {
  ci_task_id : ∀ id t, c.1 !! id = Some t → t_id t = id;
  ci_approval_id : ∀ id a, c.2 !! id = Some a → ap_id a = id;
  ci_unique : ∀ id1 id2 a1 a2, c.2 !! id1 = Some a1 → c.2 !! id2 = Some a2 →
    ap_task_id a1 = ap_task_id a2 → id1 = id2;
  ci_gates : ∀ id a, c.2 !! id = Some a → ∃ t, c.1 !! ap_task_id a = Some t ∧ gates a t;
  ci_gated : ∀ id t, c.1 !! id = Some t → t_approval_required t = true →
    ∃ aid a, c.2 !! aid = Some a ∧ ap_task_id a = id;
  ci_ok : ∀ id t, c.1 !! id = Some t → Some id ≠ X → task_ok c t }.

Lemma core_inv_open id c : core_inv None c → core_inv (Some id) c.
Proof. intros []. split; eauto. Qed.

Lemma core_inv_close id c :
  core_inv (Some id) c → (∀ t, c.1 !! id = Some t → task_ok c t) → core_inv None c.
Proof.
  intros [] Hok. split; [by eauto..|]. intros id' t Ht _.
  destruct (decide (id' = id)) as [->|]; [by eauto|]. apply (ci_ok0 id'); [done|congruence].
Qed.

(** the columns no handler changes after creation *)
Definition same_plan (t t' : Task) : Prop :=
  t_id t' = t_id t ∧ t_approval_required t' = t_approval_required t ∧
  t_plan_digest t' = t_plan_digest t.

Definition same_target (a a' : TaskApproval) : Prop :=
  ap_id a' = ap_id a ∧ ap_task_id a' = ap_task_id a ∧ ap_plan_digest a' = ap_plan_digest a.

Lemma core_inv_alter_task X id f ts aps :
  core_inv X (ts, aps) →
  (∀ t, ts !! id = Some t → same_plan t (f t)) →
  (∀ t, ts !! id = Some t → Some id ≠ X → task_ok (ts, aps) (f t)) →
  core_inv X (alter f id ts, aps).
Proof.
  intros [Hid Haid Huniq Hgates Hgated Hok] Hplan Hf. split; cbn in *.
  - intros id' t. rewrite lookup_alter_Some. intros [(-> & t0 & Ht & ->)|[_ Ht]]; [|by eauto].
    destruct (Hplan _ Ht) as [-> _]. eauto.
  - done.
  - done.
  - intros aid a Ha. destruct (Hgates _ _ Ha) as (t & Ht & H1 & H2 & H3).
    destruct (decide (ap_task_id a = id)) as [<-|E].
    + exists (f t). rewrite lookup_alter_eq, Ht.
      destruct (Hplan _ Ht) as (E1 & E2 & E3). split; [done|]. unfold gates. rewrite E1, E2, E3. auto.
    + exists t. rewrite lookup_alter_ne by done. split; [done|by repeat split].
  - intros id' t. rewrite lookup_alter_Some. intros [(-> & t0 & Ht & ->)|[_ Ht]]; [|by eauto].
    destruct (Hplan _ Ht) as (_ & -> & _). eauto.
  - intros id' t. rewrite lookup_alter_Some. intros [(-> & t0 & Ht & ->)|[_ Ht]] HX.
    + by apply (Hf _ Ht).
    + by apply (Hok id').
Qed.

Lemma core_inv_alter_approval X id f ts aps :
  core_inv X (ts, aps) →
  (∀ a, aps !! id = Some a → same_target a (f a)) →
  (∀ a t, aps !! id = Some a → ts !! ap_task_id a = Some t → Some (ap_task_id a) ≠ X →
     active t → ap_status (f a) = ApConsumed) →
  core_inv X (ts, alter f id aps).
Proof.
  intros [Hid Haid Huniq Hgates Hgated Hok] Htgt Hf.
  assert (Hlook : ∀ id' a, alter f id aps !! id' = Some a →
    ∃ a0, aps !! id' = Some a0 ∧ same_target a0 a ∧ (a = a0 ∨ id' = id ∧ a = f a0)).
  { intros id' a. rewrite lookup_alter_Some. intros [(-> & a0 & Ha & ->)|[_ Ha]].
    - exists a0. split; [done|]. split; [by apply Htgt|by right].
    - exists a. split; [done|]. split; [by repeat split|by left]. }
  split; cbn in *.
  - done.
  - intros id' a Ha. destruct (Hlook _ _ Ha) as (a0 & Ha0 & (-> & _) & _). eauto.
  - intros id1 id2 a1 a2 H1 H2 E.
    destruct (Hlook _ _ H1) as (b1 & Hb1 & (_ & E1 & _) & _).
    destruct (Hlook _ _ H2) as (b2 & Hb2 & (_ & E2 & _) & _).
    eapply Huniq; [exact Hb1|exact Hb2|congruence].
  - intros id' a Ha. destruct (Hlook _ _ Ha) as (a0 & Ha0 & (_ & E1 & E2) & _).
    destruct (Hgates _ _ Ha0) as (t & Ht & G1 & G2 & G3). exists t. unfold gates.
    rewrite E1, E2. auto.
  - intros id' t Ht Hreq. destruct (Hgated _ _ Ht Hreq) as (aid & a & Ha & E).
    destruct (decide (aid = id)) as [->|Hne].
    + exists id, (f a). rewrite lookup_alter_eq, Ha. split; [done|].
      destruct (Htgt _ Ha) as (_ & -> & _). done.
    + exists aid, a. by rewrite lookup_alter_ne.
  - intros id' t Ht HX. destruct (Hok _ _ Ht HX) as [Hwf Hcons]. split; [done|].
    intros Hact a aid Ha E. destruct (Hlook _ _ Ha) as (a0 & Ha0 & (_ & E1 & _) & [->|[-> ->]]).
    + by eapply Hcons.
    + pose proof (Hid _ _ Ht) as Htid. rewrite Htid in *.
      apply (Hf _ t); [done|congruence|congruence|done].
Qed.

Lemma core_inv_insert_task X id t ts aps :
  core_inv X (ts, aps) → ts !! id = None → t_id t = id →
  t_approval_required t = false → task_wf t → ¬ active t →
  core_inv X (<[id := t]> ts, aps).
Proof.
  intros [Hid Haid Huniq Hgates Hgated Hok] Hnew Htid Hreq Hwf Hact. split; cbn in *.
  - intros id' t'. rewrite lookup_insert_Some. intros [[<- <-]|[_ ?]]; eauto.
  - done.
  - done.
  - intros aid a Ha. destruct (Hgates _ _ Ha) as (t0 & Ht0 & ?). exists t0.
    rewrite lookup_insert_ne by congruence. auto.
  - intros id' t'. rewrite lookup_insert_Some. intros [[<- <-]|[_ ?]]; [congruence|eauto].
  - intros id' t'. rewrite lookup_insert_Some. intros [[<- <-]|[_ ?]] HX.
    + split; done.
    + by apply (Hok id').
Qed.

(** a task and the approval that gates it enter together *)
Lemma core_inv_insert_gated X id t aid a ts aps :
  core_inv X (ts, aps) → ts !! id = None → aps !! aid = None →
  t_id t = id → ap_id a = aid → gates a t → task_wf t → ¬ active t →
  (∀ aid' a', aps !! aid' = Some a' → ap_task_id a' ≠ id) →
  core_inv X (<[id := t]> ts, <[aid := a]> aps).
Proof.
  intros [Hid Haid Huniq Hgates Hgated Hok] Hnew Hanew Htid Hapid Hg Hwf Hact Hfree.
  pose proof Hg as (Hg1 & Hg2 & Hg3). split; cbn in *.
  - intros id' t'. rewrite lookup_insert_Some. intros [[<- <-]|[_ ?]]; eauto.
  - intros id' a'. rewrite lookup_insert_Some. intros [[<- <-]|[_ ?]]; eauto.
  - intros id1 id2 a1 a2. rewrite !lookup_insert_Some.
    intros [[<- <-]|[? H1]] [[<- <-]|[? H2]] E; [done| | |by eauto].
    + exfalso. apply (Hfree _ _ H2). congruence.
    + exfalso. apply (Hfree _ _ H1). congruence.
  - intros id' a'. rewrite lookup_insert_Some. intros [[<- <-]|[_ Ha]].
    + exists t. rewrite Hg1, Htid, lookup_insert_eq. auto.
    + destruct (Hgates _ _ Ha) as (t0 & Ht0 & ?). exists t0.
      rewrite lookup_insert_ne by congruence. auto.
  - intros id' t'. rewrite lookup_insert_Some. intros [[<- <-]|[Hne Ht']] Hr.
    + exists aid, a. rewrite lookup_insert_eq. split; congruence.
    + destruct (Hgated _ _ Ht' Hr) as (aid' & a' & Ha' & E). exists aid', a'.
      rewrite lookup_insert_ne by congruence. auto.
  - intros id' t'. rewrite lookup_insert_Some. intros [[<- <-]|[Hne Ht']] HX.
    + split; done.
    + destruct (Hok _ _ Ht' HX) as [Hwf' Hc]. split; [done|].
      intros Ha' a' aid'. cbn. rewrite lookup_insert_Some. intros [[<- <-]|[_ ?]] E; [|by eauto].
      exfalso. apply Hne. rewrite <- (Hid _ _ Ht'). congruence.
Qed.

Lemma core_inv_empty : core_inv None (∅, ∅).
Proof. split; cbn; intros *; rewrite ?lookup_empty; try done. Qed.

(** a task whose approval is not consumed is not leased or running *)
Lemma core_inv_not_active id a t c :
  core_inv None c → c.2 !! id = Some a → c.1 !! ap_task_id a = Some t →
  ap_status a ≠ ApConsumed → ¬ active t.
Proof.
  intros [Hid _ _ _ _ Hok] Ha Ht Hst Hact.
  destruct (Hok _ _ Ht) as [_ Hc]; [done|]. apply Hst, (Hc Hact _ _ Ha). by rewrite (Hid _ _ Ht).
Qed.
End inv.

Abbreviation Inv d := (core_inv None (core d)).
