(* ===== verification/GovernanceFacts.v ===== *)
(** * Approvals keep the safety invariant

    Every operation of [services/governance.py] maps rows satisfying the
    invariant to rows satisfying it; [keeps] is the compositional form of that
    statement, collected in the hint database [keeps]. *)
From S2P Require Import Prelude Py Sha256 Models Store Logic Security TaskCore Notifications Governance.
From S2P Require Import CoreInvariant.

Open Scope Z_scope.

Create HintDb keeps discriminated.

Definition safe (d : database) : Prop := core_inv None (core d).

(** [m] keeps the working and the committed rows safe *)
Definition keeps {A} (m : Sess A) : Prop :=
  ∀ s, safe (saved s) → safe (db s) →
    wp safe m (fun _ s' => safe (saved s') ∧ safe (db s')) s.

Section keeps.
Lemma keeps_bind {A B} (m : Sess A) (f : A → Sess B) :
  keeps m → (∀ a, keeps (f a)) → keeps (m ≫= f).
Proof.
  intros Hm Hf s Hs Hd. apply wp_bind. eapply wp_mono; [by apply Hm|].
  intros a s' [? ?]. by apply Hf.
Qed.

Lemma keeps_frame {A} (m : Sess A) : preserves core m → keeps m.
Proof.
  intros Hm s Hs Hd. eapply wp_frame; [exact Hm|done|].
  unfold safe. intros a s' -> ->. done.
Qed.

Lemma keeps_for_each {A} (l : list A) (f : A → Sess unit) :
  (∀ x, x ∈ l → keeps (f x)) → keeps (for_each l f).
Proof.
  intros Hf s Hs Hd. apply (wp_for_each safe l f (fun s => safe (saved s) ∧ safe (db s))); [done|].
  intros x s' Hx [? ?]. by apply Hf.
Qed.

Lemma keeps_commit : keeps commit.
Proof. intros s Hs Hd. by apply wp_commit. Qed.

Lemma keeps_if {A} (b : bool) (m n : Sess A) : keeps m → keeps n → keeps (if b then m else n).
Proof. by destruct b. Qed.

Lemma keeps_when (b : bool) m : keeps m → keeps (when b m).
Proof. destruct b; [done|]. intros _ s Hs Hd. done. Qed.

Lemma keeps_ret {A} (a : A) : keeps (mret a).
Proof. intros s Hs Hd. done. Qed.

Lemma keeps_raise {A} e : keeps (raise (A:=A) e).
Proof. intros s Hs Hd. done. Qed.

Lemma keeps_catch {A} (m : Sess A) detail : keeps m → keeps (catch_integrity m detail).
Proof. intros Hm s Hs Hd. by apply wp_catch_integrity, Hm. Qed.

Lemma keeps_http {A} c d : keeps (http (A:=A) c d).
Proof. intros s Hs Hd. done. Qed.

Lemma keeps_request {A} (m : Sess A) d : keeps m → safe d → safe (request m d).2.
Proof.
  intros Hm Hd. apply wp_request. eapply wp_mono; [by apply Hm|]. by intros ? ? [? ?].
Qed.
End keeps.

#[export] Hint Resolve keeps_if keeps_when keeps_ret keeps_raise keeps_http keeps_commit : keeps.
#[export] Hint Extern 5 (keeps _) => (apply keeps_frame; solve [eauto with frame]) : keeps.

(** decompose a body; calls that touch the governed rows come from [keeps] *)
Ltac keeps_step :=
  lazymatch goal with
  | |- keeps (_ ≫= _) => apply keeps_bind; [|intros ?]
  | |- keeps (match ?x with _ => _ end) => destruct x
  | |- keeps (match ?x with _ => _ end _) => destruct x
  | |- keeps (when _ _) => apply keeps_when
  | |- keeps (catch_integrity _ _) => apply keeps_catch
  | |- keeps (for_each _ _) => apply keeps_for_each; intros ? ?
  | |- keeps _ => first [solve [eauto with keeps] | apply keeps_frame; solve [frame]]
  end.
Ltac keeps := repeat keeps_step.

Lemma select_one_Some {R} (tbl : database → gmap uuid R) p d r :
  head (List.filter p (table_rows (tbl d))) = Some r → p r = true ∧ ∃ id, tbl d !! id = Some r.
Proof.
  intros Hh. assert (Hin : In r (List.filter p (table_rows (tbl d)))).
  { destruct (List.filter p _); [done|]. cbn in Hh. injection Hh as ->. by left. }
  apply filter_In in Hin as [Hin Hp]. split; [done|]. unfold table_rows in Hin.
  apply list_elem_of_In, list_elem_of_fmap in Hin as ([id r'] & -> & Hin).
  exists id. by apply elem_of_map_to_list in Hin.
Qed.

Lemma select_one_None {R} (tbl : database → gmap uuid R) p d :
  head (List.filter p (table_rows (tbl d))) = None → ∀ id r, tbl d !! id = Some r → p r = false.
Proof.
  intros Hh id r Hr. destruct (p r) eqn:Hp; [|done].
  assert (Hin : In r (List.filter p (table_rows (tbl d)))).
  { apply filter_In. split; [|done]. apply list_elem_of_In. unfold table_rows.
    apply list_elem_of_fmap. exists (id, r). split; [done|]. by apply elem_of_map_to_list. }
  destruct (List.filter p _); [done|discriminate].
Qed.

Lemma select_rows_elem {R} (tbl : database → gmap uuid R) p d r :
  r ∈ List.filter p (table_rows (tbl d)) → p r = true ∧ ∃ id, tbl d !! id = Some r.
Proof.
  intros Hin. apply list_elem_of_In, filter_In in Hin as [Hin Hp]. split; [done|].
  unfold table_rows in Hin.
  apply list_elem_of_In, list_elem_of_fmap in Hin as ([id r'] & -> & Hin).
  exists id. by apply elem_of_map_to_list in Hin.
Qed.

Section governance.
Context `{World}.

Lemma append_approval_event_frame i ty a r p :
  preserves core (append_approval_event i ty a r p).
Proof. unfold append_approval_event. frame. Qed.
#[local] Hint Resolve append_approval_event_frame : frame.

Lemma select_approval_frame {T} (π : database → T) id : preserves π (select_approval id).
Proof. unfold select_approval. frame. Qed.
#[local] Hint Resolve select_approval_frame : frame.

(** a task that is not leased may be moved between idle statuses *)
Lemma safe_set_idle_status d id st :
  safe d → (∀ t, tasks d !! id = Some t → ¬ active t) →
  st ≠ Leased → st ≠ Running →
  safe (set_field tasks (alter (fun t => t <| t_status := st |> <| t_updated_at := w_server_now |>) id
          (tasks d)) d).
Proof.
  unfold safe, core. cbn. intros Hs Hidle H1 H2.
  apply core_inv_alter_task; [done|by repeat split|].
  intros t Ht _. destruct (ci_ok _ _ Hs _ _ Ht) as [[Hatt Hmax Hheld Hclear] _]; [done|].
  assert (Hna : ¬ active (t <| t_status := st |> <| t_updated_at := w_server_now |>))
    by (by intros [?|?]).
  split; [|done]. split; try done. intros _. by apply Hclear, Hidle.
Qed.

(** an approval may change status freely while its task is idle *)
Lemma safe_alter_approval d id f :
  safe d → (∀ a, approvals d !! id = Some a → same_target a (f a)) →
  (∀ a t, approvals d !! id = Some a → tasks d !! ap_task_id a = Some t → ¬ active t) →
  safe (set_field approvals (alter f id (approvals d)) d).
Proof.
  unfold safe, core. cbn. intros Hs Htgt Hidle.
  apply core_inv_alter_approval; [done..|]. intros a t Ha Ht _ Hact.
  by destruct (Hidle _ _ Ha Ht).
Qed.

Lemma safe_idle d id a t :
  safe d → approvals d !! id = Some a → tasks d !! ap_task_id a = Some t →
  ap_status a ≠ ApConsumed → ¬ active t.
Proof. intros Hs Ha Ht. by eapply core_inv_not_active. Qed.

(** moving a status on an approval that is not consumed, then on its idle task *)
Lemma safe_decide d id a f st :
  safe d → approvals d !! id = Some a → ap_status a ≠ ApConsumed →
  (∀ a, same_target a (f a)) → st ≠ Leased → st ≠ Running →
  let d' := set_field approvals (alter f id (approvals d)) d in
  safe d' ∧
  safe (set_field tasks (alter (fun t => t <| t_status := st |> <| t_updated_at := w_server_now |>)
          (ap_task_id a) (tasks d')) d').
Proof.
  intros Hd Ha Hst Htgt H1 H2 d'.
  assert (Hidle : ∀ t, tasks d !! ap_task_id a = Some t → ¬ active t)
    by (intros t Ht; by eapply safe_idle).
  assert (Hd' : safe d').
  { apply safe_alter_approval; [done|done|]. intros a' t Ha'. rewrite Ha in Ha'.
    injection Ha' as <-. apply Hidle. }
  split; [done|]. by apply safe_set_idle_status.
Qed.

Lemma approve_task_keeps id actor reason n : keeps (approve_task id actor reason n).
Proof.
  intros s Hs Hd. unfold approve_task. apply wp_bind, wp_get_row.
  destruct (approvals (db s) !! id) as [a|] eqn:Ha; [|by apply wp_raise].
  apply wp_if; intros Hst; [by apply wp_raise|].
  apply negb_false_iff, bool_decide_eq_true in Hst.
  apply wp_bind, wp_get_row. destruct (tasks (db s) !! ap_task_id a) as [t|] eqn:Ht;
    [|by apply wp_raise].
  apply wp_if; intros Hdg; [by apply wp_raise|].
  apply wp_bind, wp_utc_now; intros now _. apply wp_bind.
  eapply (wp_frame core); [eauto with frame|done|]. intros nonce s1 Hs1 Hc1.
  assert (Hd1 : safe (db s1)) by (unfold safe; by rewrite Hc1).
  assert (Ha1 : approvals (db s1) !! id = Some a) by (by injection Hc1 as _ ->).
  destruct (ci_gates _ _ Hd _ _ Ha) as (t' & Ht' & Hg & _).
  assert (E : t_id t = ap_task_id a) by (cbn in Ht'; congruence).
  destruct (safe_decide (db s1) id a
    (grant_approval actor reason nonce now (now + seconds n)) Queued) as [Hd2 Hd3];
    [done|done|congruence|by repeat split|done|done|].
  apply wp_bind, wp_alter, wp_bind, wp_alter. rewrite E.
  match goal with |- wp _ ?m _ _ => assert (Hk : keeps m) by keeps end.
  apply Hk; [|done]. cbn. by rewrite Hs1.
Qed.

Lemma decide_task_keeps id actor reason act : keeps (decide_task id actor reason act).
Proof.
  intros s Hs Hd. unfold decide_task. apply wp_bind, wp_get_row.
  destruct (approvals (db s) !! id) as [a|] eqn:Ha; [|by apply wp_raise].
  apply wp_if; intros Hst; [by apply wp_raise|].
  apply negb_false_iff, bool_decide_eq_true in Hst.
  apply wp_bind, wp_utc_now; intros now _. apply wp_bind, wp_alter, wp_bind, wp_alter.
  destruct (safe_decide (db s) id a (decide_approval actor reason act now)
    (decided_task_status act)) as [Hd2 Hd3];
    [done|done|rewrite Hst; by destruct act|by repeat split|by destruct act..|].
  match goal with |- wp _ ?m _ _ => assert (Hk : keeps m) by keeps end.
  by apply Hk.
Qed.

(** the row behind a selected approval is still unconsumed *)
Definition unconsumed (d : database) (a : TaskApproval) : Prop :=
  ∃ a', approvals d !! ap_id a = Some a' ∧ ap_status a' ≠ ApConsumed ∧ ap_task_id a' = ap_task_id a.

Lemma expire_approval_keeps now a (l : list TaskApproval) s :
  safe (saved s) → safe (db s) → (∀ x, x ∈ l → unconsumed (db s) x) → a ∈ l →
  wp safe (expire_approval now a) (fun _ s' => safe (saved s') ∧ safe (db s') ∧
    ∀ x, x ∈ l → unconsumed (db s') x) s.
Proof.
  intros Hs Hd Hl Hal. destruct (Hl a Hal) as (a' & Ha & Hst & Htid).
  unfold expire_approval. apply wp_bind, wp_alter, wp_bind, wp_get_row.
  destruct (safe_decide (db s) (ap_id a) a' (set_approval_status ApExpired now) PendingApproval)
    as [Hd2 Hd3]; [done|done|congruence|by repeat split|done..|].
  assert (Hun : ∀ x, x ∈ l → ∃ x', alter (set_approval_status ApExpired now) (ap_id a)
    (approvals (db s)) !! ap_id x = Some x' ∧ ap_status x' ≠ ApConsumed ∧ ap_task_id x' = ap_task_id x).
  { intros x Hx. destruct (Hl x Hx) as (x' & Hx' & Hsx & Htx).
    destruct (decide (ap_id a = ap_id x)) as [E|E].
    - exists (set_approval_status ApExpired now x'). rewrite <- E, lookup_alter_eq, E, Hx'. done.
    - exists x'. by rewrite lookup_alter_ne. }
  rewrite Htid in Hd3.
  apply wp_bind, wp_when; intros _; [apply wp_alter|]; apply wp_bind;
    (eapply (wp_frame core); [eauto with frame|done|]); intros g s' Hs' Hc'; apply wp_ret;
    unfold safe, unconsumed in *; rewrite Hs', Hc'; (split; [done|]); (split; [done|]);
    injection Hc' as _ ->; exact Hun.
Qed.

Lemma expire_approvals_keeps now : keeps (expire_approvals now).
Proof.
  intros s Hs Hd. unfold expire_approvals. apply wp_bind.
  unfold select_rows at 1. apply wp_gets, wp_bind.
  set (l := List.filter _ _).
  eapply wp_mono; [apply (wp_for_each safe l _ (fun s => safe (saved s) ∧ safe (db s) ∧
    ∀ x, x ∈ l → unconsumed (db s) x))|].
  - split; [done|]. split; [done|]. intros x Hx. subst l.
    apply (select_rows_elem approvals) in Hx as [Hp [id Hid]]. exists x.
    apply andb_prop in Hp as [Hp _]. apply andb_prop in Hp as [Hp _].
    apply bool_decide_eq_true in Hp. rewrite (ci_approval_id _ _ Hd _ _ Hid), Hp. done.
  - intros x s' Hx (? & ? & ?). by apply expire_approval_keeps.
  - intros ? s' (? & ? & ?). by apply wp_ret.
Qed.

(** *** Re-arming, consuming and creating *)

Definition rearm_status (t : Task) : TaskStatus :=
  if t_approval_required t then PendingApproval else Queued.
Definition rearmed (t : Task) : Task :=
  t <| t_status := rearm_status t |> <| t_updated_at := w_server_now |>.

Lemma wp_rearm id reason t Q s :
  safe (saved s) → core_inv (Some id) (core (db s)) → tasks (db s) !! id = Some t →
  (∀ s', saved s' = saved s → core_inv (Some id) (core (db s')) →
     tasks (db s') = alter rearmed id (tasks (db s)) → Q tt s') →
  wp safe (rearm_task_approval id reason) Q s.
Proof.
  intros Hs Hd Ht HQ. unfold rearm_task_approval. apply wp_bind, wp_get_row. rewrite Ht.
  assert (Halt : ∀ st, t_status (rearmed t) = st →
    alter (fun t => t <| t_status := st |> <| t_updated_at := w_server_now |>) id (tasks (db s))
    = alter rearmed id (tasks (db s))).
  { intros st <-. apply alter_ext. intros x Hx. rewrite Ht in Hx. by injection Hx as <-. }
  unfold rearmed, rearm_status in Halt.
  apply wp_if; intros Hreq.
  { apply negb_true_iff in Hreq. rewrite Hreq in Halt. apply wp_alter, HQ; [done| |by apply Halt].
    apply core_inv_alter_task; [done|by repeat split|done]. }
  apply negb_false_iff in Hreq. rewrite Hreq in Halt.
  apply wp_bind. unfold select_approval, select_one. apply wp_gets.
  destruct (head _) as [a|] eqn:Hh; [|by apply wp_raise].
  apply (select_one_Some approvals) in Hh as [Hp [aid Ha]].
  apply bool_decide_eq_true in Hp.
  rewrite (ci_approval_id _ _ Hd _ _ Ha).
  apply wp_bind, wp_utc_now; intros now _. apply wp_bind, wp_alter, wp_bind, wp_alter.
  match goal with |- wp _ ?m _ _ => assert (Hk : preserves core m) by frame end.
  eapply (wp_frame core); [exact Hk|done|]. intros [] s' Hs' Hc'.
  apply HQ; [done| |].
  - rewrite Hc'. apply core_inv_alter_task; [|by repeat split|done].
    apply core_inv_alter_approval; [done|by repeat split|].
    intros a0 t0 Ha0 Ht0 HX _. cbn in Ha, Ha0. rewrite Ha in Ha0. injection Ha0 as <-. congruence.
  - injection Hc' as Et _. rewrite Et. exact (Halt PendingApproval eq_refl).
Qed.

(** what an approval must be for a task to be leased under it *)
Definition grants_lease (d : database) (t : Task) (now : datetime) : Prop :=
  ∃ id a e, approvals d !! id = Some a ∧ gates a t ∧ ap_status a = ApApproved ∧
    ap_expires_at a = Some e ∧ now < e.

Definition consumed_for (d : database) (t : Task) : Prop :=
  ∀ id a, approvals d !! id = Some a → ap_task_id a = t_id t → ap_status a = ApConsumed.

Lemma wp_consume t now Q s :
  safe (saved s) → safe (db s) → tasks (db s) !! t_id t = Some t →
  (∀ s', saved s' = saved s → safe (db s') → tasks (db s') = tasks (db s) →
     (t_approval_required t = true → grants_lease (db s) t now ∧ consumed_for (db s') t) →
     Q tt s') →
  wp safe (consume_task_approval t now) Q s.
Proof.
  intros Hs Hd Ht HQ. unfold consume_task_approval.
  apply wp_if; intros Hreq.
  { apply wp_ret, HQ; [done..|]. apply negb_true_iff in Hreq. congruence. }
  apply wp_bind. unfold select_approval, select_one. apply wp_gets.
  destruct (head _) as [a|] eqn:Hh; [|by apply wp_raise].
  apply (select_one_Some approvals) in Hh as [Hp [aid Ha]].
  apply bool_decide_eq_true in Hp. rewrite (ci_approval_id _ _ Hd _ _ Ha).
  apply wp_if; intros Hst; [by apply wp_raise|].
  apply negb_false_iff, bool_decide_eq_true in Hst.
  apply wp_if; intros Hexp.
  { apply wp_bind, wp_alter, wp_bind, wp_alter, wp_bind.
    eapply (wp_frame core); [eauto with frame|done|]. intros g s' Hs' _. apply wp_raise.
    by rewrite Hs'. }
  apply wp_bind, wp_alter, wp_bind.
  eapply (wp_frame core); [eauto with frame|done|]. intros g s' Hs' Hc'. apply wp_ret.
  apply HQ; [done| | |].
  - unfold safe. rewrite Hc'. apply core_inv_alter_approval; [done|by repeat split|done].
  - by injection Hc'.
  - intros _. split.
    + unfold approval_expired in Hexp. destruct (ap_expires_at a) as [e|] eqn:He; [|done].
      exists aid, a, e. split; [done|]. split; [|split; [done|split; [done|lia]]].
      destruct (ci_gates _ _ Hd _ _ Ha) as (t' & Ht' & Hg). cbn in Ht'. rewrite Hp in Ht'.
      congruence.
    + injection Hc' as _ E. unfold consumed_for. rewrite E. intros id' a'. cbn.
      rewrite lookup_alter_Some. intros [(-> & a0 & Ha0 & ->)|[Hne Ha']] E'; [done|].
      exfalso. apply Hne. eapply (ci_unique _ _ Hd); [exact Ha|exact Ha'|congruence].
Qed.

Lemma wp_create_approval (I : database → Prop) t Q s :
  I (saved s) →
  (∀ s' aid, saved s' = saved s → tasks (db s') = tasks (db s) →
     approvals (db s') = <[aid := new_approval aid t]> (approvals (db s)) →
     approvals (db s) !! aid = None →
     (∀ id a, approvals (db s) !! id = Some a → ap_task_id a ≠ t_id t) → Q aid s') →
  wp I (create_approval t) Q s.
Proof.
  intros Hs HQ. unfold create_approval. apply wp_bind. unfold select_approval, select_one.
  apply wp_gets. destruct (head _) as [a|] eqn:Hh; [by apply wp_raise|].
  apply wp_bind. eapply (wp_frame core); [frame|done|]. intros aid s1 Hs1 Hc1.
  injection Hc1 as Et1 Ea1.
  apply wp_bind, wp_insert; [by rewrite Hs1|]. intros Hnew.
  apply wp_bind. eapply (wp_frame core); [eauto with frame|cbn; by rewrite Hs1|].
  intros g s2 Hs2 Hc2. apply wp_bind.
  eapply (wp_frame core); [eauto with frame|by rewrite Hs2; cbn; rewrite Hs1|].
  intros g' s3 Hs3 Hc3. apply wp_ret.
  rewrite Hc2 in Hc3. injection Hc3 as Et Ea. cbn in Hs2, Et, Ea.
  apply HQ; [congruence|by rewrite Et|by rewrite Ea, Ea1|by rewrite <- Ea1|].
  intros id a Ha E. pose proof (select_one_None approvals _ _ Hh id a Ha) as Hf.
  by apply bool_decide_eq_false in Hf.
Qed.
End governance.

#[export] Hint Resolve append_approval_event_frame select_approval_frame : frame.
#[export] Hint Resolve approve_task_keeps decide_task_keeps expire_approvals_keeps : keeps.
