(* ===== verification/AgentGovernance.v ===== *)
(** * Charters, capability grants and effective authority

    [services/agent_governance.py]: an agent may use a capability when its
    registration, its active charter, its active role package and an active
    grant all allow the request. *)
From S2P Require Import Prelude Py Sha256 Models Store Logic.

Open Scope Z_scope.

(** ** Requests ([schemas/agent_governance.py]) *)

Record AgentCharterCreate := mkAgentCharterCreate {
  cc_agent_id : uuid;
  cc_version : string;
  cc_manifest : AgentCharterManifest;
  cc_manifest_digest : string;
  cc_created_by : string }.

Record AgentCapabilityGrantCreate := mkAgentCapabilityGrantCreate {
  gc_agent_id : uuid;
  gc_charter_id : uuid;
  gc_package_id : uuid;
  gc_capability : string;
  gc_machine : string;
  gc_task_types : list string;
  gc_repositories : list string;
  gc_risk_ceiling : Z;
  gc_accountable_owner : string;
  gc_granted_by : string;
  gc_reason : string;
  gc_expires_at : datetime }.

Record EffectiveAuthorityRequest := mkEffectiveAuthorityRequest {
  rq_capability : string;
  rq_machine : string;
  rq_task_type : string;
  rq_repository : option string;
  rq_risk_level : Z }.

(** the constraints pydantic checks on an [EffectiveAuthorityRequest] *)
Definition valid_authority_request (r : EffectiveAuthorityRequest) : bool :=
  Str.safe_name (rq_capability r) && Str.safe_name (rq_machine r) &&
  Str.safe_name (rq_task_type r) && (0 <=? rq_risk_level r) && (rq_risk_level r <=? 5).

(** what [resolve] returns *)
Record EffectiveAuthority := mkEffectiveAuthority {
  ef_agent_id : uuid;
  ef_allowed : bool;
  ef_reasons : list string;
  ef_accountable_owner : option string;
  ef_charter_digest : option string;
  ef_package_digest : option string;
  ef_grant_digest : option string;
  ef_resolved_at : datetime;
  ef_snapshot_digest : string }.

(** [manifest.model_dump(mode="json")] *)
Definition charter_manifest_json (m : AgentCharterManifest) : json := JObj
  [("schema_version", JStr "agent-charter-v1.0.0");
   ("role", JStr (cm_role m));
   ("responsibilities", Json.str_list (cm_responsibilities m));
   ("capabilities", Json.str_list (cm_capabilities m));
   ("allowed_machines", Json.str_list (cm_allowed_machines m));
   ("allowed_task_types", Json.str_list (cm_allowed_task_types m));
   ("allowed_repositories", Json.str_list (cm_allowed_repositories m));
   ("risk_ceiling", JInt (cm_risk_ceiling m));
   ("accountable_owner", JStr (cm_accountable_owner m));
   ("conflicts", Json.str_list (cm_conflicts m));
   ("forbidden_actions", Json.str_list (cm_forbidden_actions m))].

Definition grant_create_json (p : AgentCapabilityGrantCreate) : Json.dict :=
  [("agent_id", JStr (uuid_str (gc_agent_id p)));
   ("charter_id", JStr (uuid_str (gc_charter_id p)));
   ("package_id", JStr (uuid_str (gc_package_id p)));
   ("capability", JStr (gc_capability p));
   ("machine", JStr (gc_machine p));
   ("task_types", Json.str_list (gc_task_types p));
   ("repositories", Json.str_list (gc_repositories p));
   ("risk_ceiling", JInt (gc_risk_ceiling p));
   ("accountable_owner", JStr (gc_accountable_owner p));
   ("granted_by", JStr (gc_granted_by p));
   ("reason", JStr (gc_reason p));
   ("expires_at", JStr (pydantic_datetime (gc_expires_at p)))].

(** ** Effective authority *)

(** [_active_package]: the package of the agent's latest active deployment *)
Definition _active_package (d : database) (agent_id : uuid) : option RolePackage :=
  let deployed := omap (fun dep =>
      if bool_decide (pd_agent_id dep = agent_id) && pd_is_active dep
      then p ← packages d !! pd_package_id dep; Some (dep, p) else None)
    (table_rows (deployments d)) in
  snd <$> max_by (pd_deployed_at ∘ fst) deployed.

Definition active_charter (d : database) (agent_id : uuid) : option AgentCharter :=
  head (List.filter (fun c =>
    bool_decide (ch_agent_id c = agent_id) && str_eqb (ch_status c) "active")
    (table_rows (charters d))).

(** the newest active grant for the capability, under [package] when there is one *)
Definition grant_matches (agent_id : uuid) (capability : string) (package : option RolePackage)
    (g : AgentCapabilityGrant) : bool :=
  bool_decide (gr_agent_id g = agent_id) && str_eqb (gr_capability g) capability &&
  str_eqb (gr_status g) "active" &&
  match package with
  | Some p => bool_decide (gr_package_id g = pk_id p)
  | None => true
  end.

Definition active_grant (d : database) (agent_id : uuid) (capability : string)
    (package : option RolePackage) : option AgentCapabilityGrant :=
  max_by gr_created_at
    (List.filter (grant_matches agent_id capability package) (table_rows (grants d))).

Definition reason_if (b : bool) (reason : string) : list string := if b then [reason] else [].

Section reasons.
Context (request : EffectiveAuthorityRequest).

Definition repository_access_required : bool :=
  negb (str_eqb (rq_capability request) "founder-intake" &&
        str_eqb (rq_task_type request) "founder_request").

(** [repository_access_required and request.repository and request.repository not in l] *)
Definition repository_outside (l : list string) : bool :=
  repository_access_required &&
  match rq_repository request with
  | Some r => Str.nonempty r && negb (str_in r l)
  | None => false
  end.

Definition agent_reasons (agent : option Agent) : list string :=
  reason_if (negb (from_option ag_is_enabled false agent)) "agent-disabled-or-missing".

Definition registration_reasons (agent : option Agent) : list string :=
  match agent with
  | None => []
  | Some a => reason_if
      (negb (str_eqb (ag_machine a) (rq_machine request)) ||
       negb (str_in (rq_capability request) (ag_capabilities a)) ||
       (ag_risk_ceiling a <? rq_risk_level request)) "agent-registration-mismatch"
  end.

Definition charter_reasons (charter : option AgentCharter) : list string :=
  match charter with
  | None => []
  | Some c =>
      let m := ch_manifest c in
      reason_if
        (negb (str_in (rq_capability request) (cm_capabilities m)) ||
         negb (str_in (rq_machine request) (cm_allowed_machines m)) ||
         negb (str_in (rq_task_type request) (cm_allowed_task_types m)) ||
         (cm_risk_ceiling m <? rq_risk_level request) ||
         repository_outside (cm_allowed_repositories m)) "charter-boundary-violation" ++
      reason_if
        (str_in (rq_capability request) (cm_conflicts m) ||
         str_in (rq_capability request) (cm_forbidden_actions m)) "charter-conflict-or-prohibition"
  end.

Definition package_reasons (package : option RolePackage) : list string :=
  match package with
  | None => []
  | Some p =>
      let m := pk_manifest p in
      reason_if
        (negb (str_in (rq_capability request) (pm_required_capabilities m)) ||
         negb (str_in (rq_machine request) (pm_allowed_machines m)) ||
         negb (str_in (rq_task_type request) (pm_task_types m)) ||
         (pm_risk_ceiling m <? rq_risk_level request) ||
         repository_outside (rp_repositories (pm_repository_profile m))) "package-boundary-violation"
  end.

Definition grant_reasons (now : datetime) (package : option RolePackage)
    (grant : option AgentCapabilityGrant) : list string :=
  match grant with
  | None => []
  | Some g =>
      reason_if (match package with
                 | Some p => negb (bool_decide (gr_package_id g = pk_id p))
                 | None => true end) "grant-package-mismatch" ++
      reason_if (gr_expires_at g <=? now) "grant-expired" ++
      reason_if
        (negb (str_eqb (rq_machine request) (gr_machine g)) ||
         negb (str_in (rq_task_type request) (gr_task_types g)) ||
         (gr_risk_ceiling g <? rq_risk_level request) ||
         repository_outside (gr_repositories g)) "grant-boundary-violation"
  end.
End reasons.

Definition missing_reason {A} (o : option A) (reason : string) : list string :=
  match o with Some _ => [] | None => [reason] end.

(** every ground for refusing the request *)
Definition denial_reasons (d : database) (agent_id : uuid) (request : EffectiveAuthorityRequest)
    (now : datetime) : list string :=
  let agent := agents d !! agent_id in
  let charter := active_charter d agent_id in
  let package := _active_package d agent_id in
  let grant := active_grant d agent_id (rq_capability request) package in
  agent_reasons agent ++
  missing_reason charter "active-charter-missing" ++
  missing_reason package "active-package-missing" ++
  missing_reason grant "active-grant-missing" ++
  registration_reasons request agent ++
  charter_reasons request charter ++
  package_reasons request package ++
  grant_reasons request now package grant.

Definition resolve (d : database) (agent_id : uuid) (request : EffectiveAuthorityRequest)
    (now : datetime) : EffectiveAuthority :=
  let charter := active_charter d agent_id in
  let package := _active_package d agent_id in
  let grant := active_grant d agent_id (rq_capability request) package in
  let reasons := denial_reasons d agent_id request now in
  let allowed := bool_decide (reasons = []) in
  let owner := gr_accountable_owner <$> grant in
  let charter_digest := ch_manifest_digest <$> charter in
  let package_digest := pk_manifest_digest <$> package in
  let grant_digest := gr_record_digest <$> grant in
  let result :=
    [("agent_id", JStr (uuid_str agent_id));
     ("allowed", JBool allowed);
     ("reasons", Json.str_list (sorted_set reasons));
     ("accountable_owner", Json.opt_str owner);
     ("charter_digest", Json.opt_str charter_digest);
     ("package_digest", Json.opt_str package_digest);
     ("grant_digest", Json.opt_str grant_digest);
     ("resolved_at", JStr (datetime_str now))] in
  mkEffectiveAuthority agent_id allowed (sorted_set reasons) owner charter_digest package_digest
    grant_digest now (digest (JObj result)).

(** ** Mutations *)
Section ops.
Context `{World}.

(** [_event]: the grant's next event, linked to the previous one *)
Definition grant_event_body (grant_id : uuid) (sequence : Z) (event_type actor : string)
    (payload : Json.dict) (prior : option string) : json := JObj
  [("grant_id", JStr (uuid_str grant_id));
   ("sequence", JInt sequence);
   ("event_type", JStr event_type);
   ("actor", JStr actor);
   ("payload", JObj payload);
   ("prior_event_digest", Json.opt_str prior)].

Definition _event (grant_id : uuid) (event_type actor : string) (payload : Json.dict) : Sess unit :=
  previous ← gets (fun d => max_by gv_sequence
    (List.filter (fun e => bool_decide (gv_grant_id e = grant_id)) (grant_events d)));
  let sequence := from_option gv_sequence 0 previous + 1 in
  let prior := gv_event_digest <$> previous in
  append_log grant_events
    (mkAgentGrantEvent grant_id sequence event_type actor payload prior
       (digest (grant_event_body grant_id sequence event_type actor payload prior)) w_server_now).

Definition create_charter (payload : AgentCharterCreate) : Sess uuid :=
  agent ← get_row agents (cc_agent_id payload);
  match agent with
  | None => http 404 "Agent not found."
  | Some agent =>
    let manifest := cc_manifest payload in
    if negb (str_eqb (digest (charter_manifest_json manifest)) (cc_manifest_digest payload)) then
      http 422 "Charter manifest digest mismatch."
    else if negb (str_in (ag_machine agent) (cm_allowed_machines manifest)) then
      http 422 "Charter does not allow the registered machine."
    else if negb (str_subset (cm_capabilities manifest) (ag_capabilities agent)) then
      http 422 "Charter exceeds registered agent capabilities."
    else if ag_risk_ceiling agent <? cm_risk_ceiling manifest then
      http 422 "Charter exceeds registered agent risk ceiling."
    else
      (* unique ("agent_id", "version") and unique manifest_digest *)
      clash ← select_one charters (fun c =>
        bool_decide (ch_agent_id c = cc_agent_id payload) && str_eqb (ch_version c) (cc_version payload) ||
        str_eqb (ch_manifest_digest c) (cc_manifest_digest payload));
      match clash with
      | Some _ => integrity_error
      | None =>
          id ← fresh_id;
          _ ← insert_row charters id
                (mkAgentCharter id (cc_agent_id payload) (cc_version payload) manifest
                   (cc_manifest_digest payload) "draft" (cc_created_by payload) w_server_now
                   None None None);
          _ ← commit;
          mret id
      end
  end.

Definition revoke_grant (grant : AgentCapabilityGrant) (actor reason : string)
    (do_commit : bool) : Sess unit :=
  if negb (str_eqb (gr_status grant) "active") then mret tt
  else
    now ← utc_now;
    _ ← alter_row grants (gr_id grant) (fun g =>
          g <| gr_status := "revoked" |> <| gr_revoked_by := Some actor |>
            <| gr_revoked_at := Some now |> <| gr_revocation_reason := Some reason |>);
    _ ← _event (gr_id grant) "revoked" actor [("reason", JStr reason)];
    when do_commit commit.

Definition activate_charter (charter : AgentCharter) (actor : string) : Sess unit :=
  if str_eqb (ch_status charter) "active" then mret tt
  else if negb (str_eqb (ch_status charter) "draft") then
    http 409 "Only a draft charter can be activated."
  else
    now ← utc_now;
    previous ← gets (fun d => active_charter d (ch_agent_id charter));
    _ ← match previous with
        | None => mret tt
        | Some p =>
            _ ← alter_row charters (ch_id p) (fun c => c <| ch_status := "superseded" |>);
            _ ← alter_row charters (ch_id charter) (fun c => c <| ch_supersedes_id := Some (ch_id p) |>);
            active ← select_rows grants (fun g =>
              bool_decide (gr_charter_id g = ch_id p) && str_eqb (gr_status g) "active");
            for_each active (fun g => revoke_grant g actor "charter superseded" false)
        end;
    _ ← alter_row charters (ch_id charter) (fun c =>
          c <| ch_status := "active" |> <| ch_activated_by := Some actor |>
            <| ch_activated_at := Some now |>);
    commit.

(** the checks of [create_grant] against the charter, in order *)
Definition grant_checks (p : AgentCapabilityGrantCreate) (agent : Agent)
    (m : AgentCharterManifest) : list (bool * string) :=
  [(str_in (gc_capability p) (cm_capabilities m), "Capability is outside the charter.");
   (str_eqb (gc_machine p) (ag_machine agent) && str_in (gc_machine p) (cm_allowed_machines m),
     "Machine is outside the charter.");
   (str_subset (gc_task_types p) (cm_allowed_task_types m), "Task type is outside the charter.");
   (str_subset (gc_repositories p) (cm_allowed_repositories m), "Repository is outside the charter.");
   (gc_risk_ceiling p <=? cm_risk_ceiling m, "Risk exceeds the charter.");
   (str_eqb (gc_accountable_owner p) (cm_accountable_owner m),
     "Accountable owner differs from the charter.");
   (negb (str_in (gc_capability p) (cm_conflicts m)), "Capability has a declared conflict.");
   (negb (str_in (gc_capability p) (cm_forbidden_actions m)), "Capability is prohibited by the charter.")].

Definition failed_check (l : list (bool * string)) : option string :=
  snd <$> head (List.filter (fun c => negb c.1) l).

Definition new_grant (id : uuid) (p : AgentCapabilityGrantCreate) : AgentCapabilityGrant :=
  mkAgentCapabilityGrant id (gc_agent_id p) (gc_charter_id p) (gc_package_id p) (gc_capability p)
    (gc_machine p) (gc_task_types p) (gc_repositories p) (gc_risk_ceiling p)
    (gc_accountable_owner p) "active" (gc_granted_by p) (gc_reason p) (gc_expires_at p)
    None None None (digest (JObj (grant_create_json p))) w_server_now.

Definition create_grant (payload : AgentCapabilityGrantCreate) : Sess uuid :=
  now ← utc_now;
  charter ← get_row charters (gc_charter_id payload);
  agent ← get_row agents (gc_agent_id payload);
  match charter, agent with
  | Some charter, Some agent =>
    if negb (bool_decide (ch_agent_id charter = gc_agent_id payload)) ||
       negb (str_eqb (ch_status charter) "active") then
      http 409 "An active charter for this agent is required."
    else if gc_expires_at payload <=? now then
      http 422 "Grant expiry must be in the future."
    else
      match failed_check (grant_checks payload agent (ch_manifest charter)) with
      | Some message => http 422 message
      | None =>
        package ← get_row packages (gc_package_id payload);
        deployment ← select_one deployments (fun dep =>
          bool_decide (pd_agent_id dep = ag_id agent) &&
          bool_decide (pd_package_id dep = gc_package_id payload) && pd_is_active dep);
        match package, deployment with
        | Some package, Some _ =>
          let pm := pk_manifest package in
          if negb (str_in (gc_capability payload) (pm_required_capabilities pm)) ||
             negb (str_subset (gc_task_types payload) (pm_task_types pm)) then
            http 422 "Grant exceeds the active role package."
          else
            (* unique record_digest *)
            clash ← select_one grants (fun g =>
              str_eqb (gr_record_digest g) (digest (JObj (grant_create_json payload))));
            match clash with
            | Some _ => integrity_error
            | None =>
                id ← fresh_id;
                _ ← insert_row grants id (new_grant id payload);
                _ ← _event id "granted" (gc_granted_by payload) (grant_create_json payload);
                _ ← commit;
                mret id
            end
        | _, _ => http 409 "An active role-package deployment is required."
        end
      end
  | _, _ => http 409 "An active charter for this agent is required."
  end.
End ops.
