(* ===== verification/Controls.v ===== *)
(** * Operator controls

    [services/controls.py]: pausing the whole swarm, a machine, an agent or the
    autonomous research workflow. *)
From S2P Require Import Prelude Py Models Store Logic.

Open Scope Z_scope.

Definition GLOBAL_SCOPE_KEY : string := "all".
Definition AUTONOMOUS_RESEARCH_SCOPE_KEY : string := "autonomous-research".
Definition AUTONOMOUS_RESEARCH_TASK_TYPES : list string :=
  ["alpha_data_admission"; "alpha_discovery"; "alpha_research_execution";
   "alpha_strategy_review"; "founder_hypothesis_intake"].

Definition task_matches_control_scope (scope : ControlScope) (task : Task) : bool :=
  if negb (str_eqb (cs_scope_type scope) "workflow") ||
     negb (str_eqb (cs_scope_key scope) AUTONOMOUS_RESEARCH_SCOPE_KEY) then false
  else if str_in (t_task_type task) AUTONOMOUS_RESEARCH_TASK_TYPES then true
  else str_eqb (t_task_type task) "engineering_mission" &&
       str_eqb (t_project task) "bulletproof_bt" &&
       str_eqb (t_created_by task) "alpha-campaign-director".

Definition scope_leb (a b : ControlScope) : bool :=
  if str_eqb (cs_scope_type a) (cs_scope_type b)
  then String.leb (cs_scope_key a) (cs_scope_key b)
  else String.leb (cs_scope_type a) (cs_scope_type b).

(** the paused scopes that cover an agent *)
Definition covers_agent (agent : Agent) (scope : ControlScope) : bool :=
  cs_is_paused scope &&
  ((str_eqb (cs_scope_type scope) "global" && str_eqb (cs_scope_key scope) GLOBAL_SCOPE_KEY) ||
   (str_eqb (cs_scope_type scope) "machine" && str_eqb (cs_scope_key scope) (ag_machine agent)) ||
   (str_eqb (cs_scope_type scope) "agent" && str_eqb (cs_scope_key scope) (ag_slug agent))).

Definition matching_control_scopes (agent : Agent) : Sess (list ControlScope) :=
  scopes ← select_rows controls (covers_agent agent);
  mret (sort_by scope_leb scopes).

Definition workflow_paused (s : ControlScope) : bool :=
  cs_is_paused s && str_eqb (cs_scope_type s) "workflow".

Definition paused_workflow_scopes : Sess (list ControlScope) :=
  scopes ← select_rows controls workflow_paused;
  mret (sort_by (fun a b => String.leb (cs_scope_key a) (cs_scope_key b)) scopes).

Definition is_scope (scope_type scope_key : string) (s : ControlScope) : bool :=
  str_eqb (cs_scope_type s) scope_type && str_eqb (cs_scope_key s) scope_key.

Section ops.
Context `{World}.

Definition set_control_scope (scope_type scope_key : string) (paused : bool)
    (reason actor : string) : Sess unit :=
  scope ← select_one controls (is_scope scope_type scope_key);
  let previous := from_option cs_is_paused false scope in
  _ ← match scope with
      | None =>
          id ← fresh_id;
          insert_row controls id
            (mkControlScope id scope_type scope_key paused (Some reason) actor w_server_now w_server_now)
      | Some s =>
          alter_row controls (cs_id s) (fun s =>
            s <| cs_is_paused := paused |> <| cs_reason := Some reason |>
              <| cs_updated_by := actor |> <| cs_updated_at := w_server_now |>)
      end;
  append_log control_events
    (mkControlEvent scope_type scope_key (if paused then "control_paused" else "control_resumed")
       actor (Some reason) [("previous_paused", JBool previous); ("paused", JBool paused)]
       w_server_now).
End ops.
