(* ===== verification/EvaluatorRouting.v ===== *)
(** * Independent evaluator routing

    [services/evaluator_routing.py]: evaluator profiles, the selection of
    reviewers that share no identity, package or context with the producer or
    with each other, the completion of their reviews, and the receipt that
    attests independence. *)
From S2P Require Import Prelude Py Sha256 Models Store Logic.
From Stdlib Require Import Ascii.

Open Scope Z_scope.

Definition CORRELATION_DIMENSIONS : list string :=
  ["machine"; "provider"; "model_family"; "runtime"].

(** ** Requests ([schemas/evaluator_routing.py]) *)

Record EvaluatorProfileCreate := mkEvaluatorProfileCreate {
  pc_agent_id : uuid;
  pc_profile_version : string;
  pc_review_kinds : list string;
  pc_capabilities : list string;
  pc_provider : string;
  pc_model_family : string;
  pc_context_group : string;
  pc_registered_by : string }.

Record ProducerIdentity := mkProducerIdentity {
  pi_actor : string;
  pi_agent_id : option uuid;
  pi_machine : string;
  pi_provider : string;
  pi_model_family : string;
  pi_runtime : string;
  pi_context_group : string;
  pi_package_digest : string }.

Record EvaluationRouteCreate := mkEvaluationRouteCreate {
  rc_subject_type : string;
  rc_subject_id : string;
  rc_subject_digest : string;
  rc_producer : ProducerIdentity;
  rc_excluded_producers : list ProducerIdentity;
  rc_required_review_kinds : list string;
  rc_required_capabilities : list string;
  rc_max_pairwise_shared_dimensions : Z;
  rc_requested_by : string;
  rc_routing_revision : Z;
  rc_supersedes_route_id : option uuid }.

Record AlphaStrategyReview := mkAlphaStrategyReview {
  sr_subject_digest : string;
  sr_verdict : string;
  sr_rationale : string;
  sr_checks : list string;
  sr_blockers : list string }.

Record EvaluatorAssignmentComplete := mkEvaluatorAssignmentComplete {
  eac_evaluator_agent_id : uuid;
  eac_review_id : string;
  eac_review_digest : string;
  eac_alpha_strategy_review : option AlphaStrategyReview }.

(** [model_dump(mode="json")] *)
Definition producer_json (p : ProducerIdentity) : Json.dict :=
  [("actor", JStr (pi_actor p));
   ("agent_id", Json.opt_uuid (pi_agent_id p));
   ("machine", JStr (pi_machine p));
   ("provider", JStr (pi_provider p));
   ("model_family", JStr (pi_model_family p));
   ("runtime", JStr (pi_runtime p));
   ("context_group", JStr (pi_context_group p));
   ("package_digest", JStr (pi_package_digest p))].

Definition route_create_json (p : EvaluationRouteCreate) : Json.dict :=
  [("subject_type", JStr (rc_subject_type p));
   ("subject_id", JStr (rc_subject_id p));
   ("subject_digest", JStr (rc_subject_digest p));
   ("producer", JObj (producer_json (rc_producer p)));
   ("excluded_producers", JList ((JObj ∘ producer_json) <$> rc_excluded_producers p));
   ("required_review_kinds", Json.str_list (rc_required_review_kinds p));
   ("required_capabilities", Json.str_list (rc_required_capabilities p));
   ("max_pairwise_shared_dimensions", JInt (rc_max_pairwise_shared_dimensions p));
   ("requested_by", JStr (rc_requested_by p));
   ("routing_revision", JInt (rc_routing_revision p));
   ("supersedes_route_id", Json.opt_uuid (rc_supersedes_route_id p))].

Definition review_json (r : AlphaStrategyReview) : Json.dict :=
  [("subject_digest", JStr (sr_subject_digest r));
   ("verdict", JStr (sr_verdict r));
   ("rationale", JStr (sr_rationale r));
   ("checks", Json.str_list (sr_checks r));
   ("blockers", Json.str_list (sr_blockers r))].

(** *** Validation of a submitted review *)

Definition is_hex64 (s : string) : bool := Str.hex_between 64 64 s.

Definition length_between (lo hi : nat) (n : nat) : bool := (lo <=? n)%nat && (n <=? hi)%nat.

(** a JSON list of strings *)
Definition str_items (v : json) : option (list string) :=
  match v with
  | JList l => mapM Json.as_str l
  | _ => None
  end.

Definition review_fields : list string :=
  ["subject_digest"; "verdict"; "rationale"; "checks"; "blockers"].

Definition validate_review (v : json) : option AlphaStrategyReview :=
  d ← Json.as_dict v;
  subject ← Json.get "subject_digest" d ≫= Json.as_str;
  verdict ← Json.get "verdict" d ≫= Json.as_str;
  rationale ← Json.get "rationale" d ≫= Json.as_str;
  checks ← Json.get "checks" d ≫= str_items;
  blockers ← str_items (default (JList []) (Json.get "blockers" d));
  if str_subset (Json.keys d) review_fields && is_hex64 subject &&
     (str_eqb verdict "approve" || str_eqb verdict "reject") &&
     length_between 20 4000 (String.length rationale) &&
     length_between 1 30 (length checks) && length_between 0 30 (length blockers) &&
     negb (str_eqb verdict "approve" && negb (bool_decide (blockers = [])))
  then Some (mkAlphaStrategyReview subject verdict rationale checks blockers)
  else None.

(** ** Identities and correlation *)

Definition agent_runtime (agent : Agent) : string :=
  Str.join "/" (List.filter Str.nonempty (omap id [ag_runtime agent; ag_runtime_version agent])).

Definition or_unknown (s : string) : string := if Str.nonempty s then s else "unknown".

Definition _profile_identity (profile : EvaluatorProfile) : Json.dict :=
  [("agent_id", JStr (uuid_str (ep_agent_id profile)));
   ("machine", JStr (ep_machine profile));
   ("provider", JStr (ep_provider profile));
   ("model_family", JStr (ep_model_family profile));
   ("runtime", JStr (ep_runtime profile));
   ("context_group", JStr (ep_context_group profile));
   ("package_digest", JStr (ep_package_digest profile));
   ("profile_digest", JStr (ep_profile_digest profile))].

Definition same_field (first second : Json.dict) (field : string) : bool :=
  Json.eqb_opt (Json.get field first) (Json.get field second).

Definition hard_fields : list string := ["agent_id"; "package_digest"; "context_group"].

Definition _hard_conflicts (first second : Json.dict) : list string :=
  List.filter (fun field =>
    Json.truthy_opt (Json.get field first) && same_field first second field) hard_fields.

Record Correlation := mkCorrelation {
  co_shared_dimensions : list string;
  co_hard_conflicts : list string }.

Definition _correlation (first second : Json.dict) : Correlation :=
  mkCorrelation (List.filter (same_field first second) CORRELATION_DIMENSIONS)
    (_hard_conflicts first second).

Definition co_shared_count (c : Correlation) : Z := Z.of_nat (length (co_shared_dimensions c)).

Definition correlation_json (c : Correlation) : json := JObj
  [("shared_dimensions", Json.str_list (co_shared_dimensions c));
   ("shared_dimension_count", JInt (co_shared_count c));
   ("hard_conflicts", Json.str_list (co_hard_conflicts c))].

Definition has_conflict (c : Correlation) : bool := negb (bool_decide (co_hard_conflicts c = [])).

(** ** Selection *)

Definition correlation_claim : string :=
  "identity/package/context separation is enforced; shared provider/model/runtime/host dimensions are disclosed, not described as independent".

Record selection := mkSelection {
  sl_review_kind : string;
  sl_profile : EvaluatorProfile;
  sl_report : json }.

Definition reason_when (b : bool) (r : string) : list string := if b then [r] else [].

Section selection.
Context (payload : EvaluationRouteCreate).

Definition producer_correlation (profile : EvaluatorProfile) : Correlation :=
  _correlation (producer_json (rc_producer payload)) (_profile_identity profile).
Definition excluded_correlations (profile : EvaluatorProfile) : list Correlation :=
  (fun p => _correlation (producer_json p) (_profile_identity profile)) <$>
    rc_excluded_producers payload.
Definition selected_correlations (selected : list selection) (profile : EvaluatorProfile)
    : list Correlation :=
  (fun s => _correlation (_profile_identity (sl_profile s)) (_profile_identity profile)) <$> selected.

Definition over_ceiling (c : Correlation) : bool :=
  rc_max_pairwise_shared_dimensions payload <? co_shared_count c.

(** why a profile cannot take a review *)
Definition exclusion_reasons (selected : list selection) (review_kind : string)
    (profile : EvaluatorProfile) : list string :=
  co_hard_conflicts (producer_correlation profile) ++
  reason_when (existsb has_conflict (excluded_correlations profile)) "excluded_producer_hard_conflict" ++
  reason_when (existsb over_ceiling (excluded_correlations profile)) "excluded_producer_correlation_ceiling" ++
  reason_when (negb (str_in review_kind (ep_review_kinds profile))) "review_kind" ++
  reason_when (negb (str_subset (rc_required_capabilities payload) (ep_capabilities profile))) "capabilities" ++
  reason_when (str_eqb (rc_subject_type payload) "alpha_strategy_qualification" &&
               negb (str_in ("alpha-strategy-review-" +:+ review_kind) (ep_capabilities profile)))
    "strategy_review_executor_capability" ++
  reason_when (existsb has_conflict (selected_correlations selected profile)) "selected_evaluator_hard_conflict" ++
  reason_when (existsb over_ceiling (selected_correlations selected profile)) "pairwise_correlation_ceiling".

Definition eligible (selected : list selection) (review_kind : string)
    (profile : EvaluatorProfile) : bool :=
  bool_decide (exclusion_reasons selected review_kind profile = []).

Definition correlation_score (selected : list selection) (profile : EvaluatorProfile) : Z :=
  co_shared_count (producer_correlation profile) +
  foldr Z.add 0 (co_shared_count <$> selected_correlations selected profile).

Definition correlation_report (selected : list selection) (profile : EvaluatorProfile) : json := JObj
  [("producer", correlation_json (producer_correlation profile));
   ("excluded_producers", JList (correlation_json <$> excluded_correlations profile));
   ("selected_evaluators", JList (correlation_json <$> selected_correlations selected profile));
   ("correlation_score", JInt (correlation_score selected profile));
   ("claim_boundary", JStr correlation_claim)].

Definition exclusion_record (selected : list selection) (review_kind : string)
    (profile : EvaluatorProfile) : json := JObj
  [("profile_digest", JStr (ep_profile_digest profile));
   ("review_kind", JStr review_kind);
   ("reasons", Json.str_list (sorted_set (exclusion_reasons selected review_kind profile)))].

(** [min(eligible, key=(score, profile_digest))] *)
Definition preferred (selected : list selection) (p q : EvaluatorProfile) : bool :=
  (correlation_score selected p <? correlation_score selected q) ||
  ((correlation_score selected p =? correlation_score selected q) &&
   String.leb (ep_profile_digest p) (ep_profile_digest q)).

Definition choose (profiles : list EvaluatorProfile) (selected : list selection)
    (review_kind : string) : option EvaluatorProfile :=
  head (sort_by (preferred selected) (List.filter (eligible selected review_kind) profiles)).

(** the last [n] members of a list *)
Definition last_n {A} (n : nat) (l : list A) : list A := drop (length l - n) l.

(** [_route_profiles]: one reviewer per kind, or the kind that cannot be filled *)
Fixpoint route_kinds (profiles : list EvaluatorProfile) (kinds : list string)
    (selected : list selection) (excluded : list json) : list selection * Json.dict :=
  match kinds with
  | [] => (selected, [])
  | kind :: kinds' =>
      let rejected := List.filter (fun p => negb (eligible selected kind p)) profiles in
      let excluded := excluded ++ (exclusion_record selected kind <$> rejected) in
      match choose profiles selected kind with
      | None =>
          ([], [("category", JStr "independent_evaluator_unavailable");
                ("unfilled_review_kind", JStr kind);
                ("excluded", JList (last_n 50 excluded))])
      | Some chosen =>
          route_kinds profiles kinds'
            (selected ++ [mkSelection kind chosen (correlation_report selected chosen)]) excluded
      end
  end.

Definition _route_profiles (profiles : list EvaluatorProfile) : list selection * Json.dict :=
  route_kinds profiles (rc_required_review_kinds payload) [] [].
End selection.

(** ** Provenance of a lease *)

Definition producer_identity_for_lease (d : database) (agent : Agent)
    (package_digests : list (option string)) : option Json.dict :=
  if bool_decide (package_digests = []) then None
  else
    profile ← max_by ep_created_at (List.filter (fun p =>
      bool_decide (ep_agent_id p = ag_id agent) && str_eqb (ep_status p) "active" &&
      str_in (ep_package_digest p) (omap id package_digests)) (table_rows (profiles d)));
    if negb (str_eqb (ep_machine profile) (ag_machine agent)) ||
       negb (str_eqb (ep_runtime profile) (or_unknown (agent_runtime agent))) then None
    else Some (_profile_identity profile).

Definition leased_event (d : database) (task : Task) : option TaskEvent :=
  last (List.filter (fun e =>
    bool_decide (te_task_id e = t_id task) && str_eqb (te_event_type e) "task_leased" &&
    (te_attempt_number e =? t_attempt_count task)) (task_events d)).

Definition task_producer_identity (d : database) (task : Task) : option Json.dict :=
  event ← leased_event d task;
  identity ← Json.get "producer_identity" (te_payload event) ≫= Json.as_dict;
  agent_id ← te_agent_id event;
  if Json.eqb_opt (Json.get "agent_id" identity) (Some (JStr (uuid_str agent_id))) &&
     Json.eqb_opt (Json.get "producer_identity_digest" (te_payload event))
       (Some (JStr (digest (JObj identity))))
  then Some identity else None.

(** ** Mutations *)
Section ops.
Context `{World}.

Definition route_event_body (route_id : uuid) (sequence : Z) (kind actor : string)
    (payload : Json.dict) (previous : option string) : json := JObj
  [("route_id", JStr (uuid_str route_id));
   ("sequence", JInt sequence);
   ("event_type", JStr kind);
   ("actor", JStr actor);
   ("payload", JObj payload);
   ("previous_digest", Json.opt_str previous)].

(** [append_event] *)
Definition append_route_event (route_id : uuid) (kind actor : string) (payload : Json.dict)
    : Sess unit :=
  previous ← gets (fun d => max_by ev_sequence
    (List.filter (fun e => bool_decide (ev_route_id e = route_id)) (route_events d)));
  let sequence := from_option ev_sequence 0 previous + 1 in
  let previous_digest := ev_event_digest <$> previous in
  append_log route_events
    (mkEvaluationRouteEvent route_id sequence kind actor payload previous_digest
       (digest (route_event_body route_id sequence kind actor payload previous_digest)) w_server_now).

Definition profile_document (p : EvaluatorProfileCreate) (agent : Agent) (package : RolePackage)
    : json := JObj
  [("agent_id", JStr (uuid_str (pc_agent_id p)));
   ("profile_version", JStr (pc_profile_version p));
   ("review_kinds", Json.str_list (pc_review_kinds p));
   ("capabilities", Json.str_list (pc_capabilities p));
   ("provider", JStr (pc_provider p));
   ("model_family", JStr (pc_model_family p));
   ("context_group", JStr (pc_context_group p));
   ("registered_by", JStr (pc_registered_by p));
   ("machine", JStr (ag_machine agent));
   ("runtime", JStr (or_unknown (agent_runtime agent)));
   ("package_id", JStr (uuid_str (pk_id package)));
   ("package_digest", JStr (pk_manifest_digest package))].

Definition new_profile (id : uuid) (p : EvaluatorProfileCreate) (agent : Agent)
    (deployment : PackageDeployment) (package : RolePackage) : EvaluatorProfile :=
  mkEvaluatorProfile id (ag_id agent) (pc_profile_version p) "active" (pc_review_kinds p)
    (pc_capabilities p) (ag_machine agent) (pc_provider p) (pc_model_family p)
    (or_unknown (agent_runtime agent)) (pc_context_group p) (pk_id package)
    (pk_manifest_digest package)
    [("agent_slug", JStr (ag_slug agent));
     ("deployment_id", JStr (uuid_str (pd_id deployment)));
     ("source_repository", JStr (pk_source_repository package));
     ("source_commit", JStr (pk_source_commit package));
     ("identity_claim_boundary", JStr "provider and model family are operator-declared; agent, machine, runtime and package are registry-derived")]
    (digest (profile_document p agent package)) (pc_registered_by p) w_server_now None.

Definition retire_profile (now : datetime) (p : EvaluatorProfile) : EvaluatorProfile :=
  p <| ep_status := "retired" |> <| ep_retired_at := Some now |>.

Definition register_profile (payload : EvaluatorProfileCreate) : Sess uuid :=
  agent ← get_row agents (pc_agent_id payload);
  match agent with
  | None => http 409 "Evaluator agent is missing or disabled."
  | Some agent =>
    if negb (ag_is_enabled agent) then http 409 "Evaluator agent is missing or disabled."
    else if negb (str_subset (pc_capabilities payload) (ag_capabilities agent)) then
      http 409 "Evaluator capabilities exceed the agent registration."
    else
      deployed ← gets (fun d => head (omap (fun dep =>
        if bool_decide (pd_agent_id dep = ag_id agent) && pd_is_active dep
        then p ← packages d !! pd_package_id dep; Some (dep, p) else None)
        (table_rows (deployments d))));
      match deployed with
      | None => http 409 "Evaluator lacks an active role-package deployment."
      | Some (deployment, package) =>
        if str_eqb (or_unknown (agent_runtime agent)) "unknown" then
          http 409 "Evaluator runtime is not attested; start the worker heartbeat before registering its profile."
        else
          prior ← select_rows profiles (fun p =>
            bool_decide (ep_agent_id p = ag_id agent) && str_eqb (ep_status p) "active");
          _ ← for_each prior (fun p =>
                now ← utc_now;
                alter_row profiles (ep_id p) (retire_profile now));
          (* unique ("agent_id", "profile_version") and unique profile_digest *)
          clash ← select_one profiles (fun p =>
            bool_decide (ep_agent_id p = ag_id agent) &&
            str_eqb (ep_profile_version p) (pc_profile_version payload) ||
            str_eqb (ep_profile_digest p) (digest (profile_document payload agent package)));
          match clash with
          | Some _ => integrity_error
          | None =>
              id ← fresh_id;
              _ ← insert_row profiles id (new_profile id payload agent deployment package);
              mret id
          end
      end
  end.

Definition profile_leb (p q : EvaluatorProfile) : bool :=
  String.leb (ep_profile_digest p) (ep_profile_digest q).

(** profiles that still describe their agent *)
Definition current_profile (d : database) (p : EvaluatorProfile) : bool :=
  str_eqb (ep_status p) "active" &&
  match agents d !! ep_agent_id p with
  | Some a => ag_is_enabled a && str_eqb (ep_machine p) (ag_machine a) &&
              str_eqb (ep_runtime p) (agent_runtime a)
  | None => false
  end.

Definition _active_profiles (d : database) : list EvaluatorProfile :=
  sort_by profile_leb (List.filter (current_profile d) (table_rows (profiles d))).

Definition _catalog_digest (l : list EvaluatorProfile) : string :=
  digest (Json.str_list (sort_by String.leb (ep_profile_digest <$> l))).

Definition assignment_document (route : EvaluationRoute) (s : selection) : json := JObj
  [("route_digest", JStr (er_route_digest route));
   ("review_kind", JStr (sl_review_kind s));
   ("evaluator_profile_digest", JStr (ep_profile_digest (sl_profile s)));
   ("correlation_report", sl_report s)].

Definition assign_reviewer (route : EvaluationRoute) (s : selection) : Sess unit :=
  let assignment_digest := digest (assignment_document route s) in
  (* unique (route, kind), (route, profile) and assignment_digest *)
  clash ← select_one assignments (fun a =>
    bool_decide (ea_route_id a = er_id route) &&
    (str_eqb (ea_review_kind a) (sl_review_kind s) ||
     bool_decide (ea_evaluator_profile_id a = ep_id (sl_profile s))) ||
    str_eqb (ea_assignment_digest a) assignment_digest);
  match clash with
  | Some _ => integrity_error
  | None =>
      id ← fresh_id;
      _ ← insert_row assignments id
            (mkEvaluatorAssignment id (er_id route) (ep_id (sl_profile s)) (sl_review_kind s)
               "assigned" (default [] (Json.as_dict (sl_report s))) assignment_digest None None None
               w_server_now None);
      append_route_event (er_id route) "evaluator_assigned" "evaluator-router"
        [("review_kind", JStr (sl_review_kind s));
         ("profile_digest", JStr (ep_profile_digest (sl_profile s)));
         ("assignment_digest", JStr assignment_digest);
         ("correlation_report", sl_report s)]
  end.

Definition _assign_route (route : EvaluationRoute) (payload : EvaluationRouteCreate)
    (candidates : list EvaluatorProfile) : Sess unit :=
  let '(selected, blocked) := _route_profiles payload candidates in
  if negb (bool_decide (blocked = [])) then
    let blocked := Json.merge blocked [("evaluator_catalog_digest", JStr (_catalog_digest candidates))] in
    _ ← alter_row routes (er_id route) (fun r =>
          r <| er_status := "blocked" |> <| er_blocked_reason := blocked |>);
    append_route_event (er_id route) "route_blocked" "evaluator-router" blocked
  else
    _ ← for_each selected (assign_reviewer route);
    alter_row routes (er_id route) (fun r =>
      r <| er_status := "assigned" |> <| er_blocked_reason := [] |>).

(** *** Creating a route *)

Definition expected_policy (p : EvaluationRouteCreate) : Json.dict :=
  [("required_review_kinds", Json.str_list (rc_required_review_kinds p));
   ("required_capabilities", Json.str_list (rc_required_capabilities p));
   ("excluded_producers", JList ((JObj ∘ producer_json) <$> rc_excluded_producers p));
   ("max_pairwise_shared_dimensions", JInt (rc_max_pairwise_shared_dimensions p))].

Definition route_policy (p : EvaluationRouteCreate) : Json.dict :=
  expected_policy p ++
  [("hard_separation", Json.str_list hard_fields);
   ("disclosed_correlation", Json.str_list CORRELATION_DIMENSIONS);
   ("routing_revision", JInt (rc_routing_revision p));
   ("supersedes_route_id", Json.opt_uuid (rc_supersedes_route_id p))].

Definition policy_revision (policy : Json.dict) : Z :=
  default 1 (Json.get "routing_revision" policy ≫= Json.as_int).

Definition compatible_predecessor (p : EvaluationRouteCreate) (r : EvaluationRoute) : bool :=
  str_eqb (er_status r) "superseded" &&
  str_eqb (er_subject_type r) (rc_subject_type p) &&
  str_eqb (er_subject_id r) (rc_subject_id p) &&
  str_eqb (er_subject_digest r) (rc_subject_digest p) &&
  Json.eqb (JObj (er_producer r)) (JObj (producer_json (rc_producer p))) &&
  str_eqb (er_requested_by r) (rc_requested_by p) &&
  forallb (fun kv => Json.eqb_opt (Json.get kv.1 (er_policy r)) (Some kv.2)) (expected_policy p) &&
  (policy_revision (er_policy r) <? rc_routing_revision p).

Definition new_route (id : uuid) (p : EvaluationRouteCreate) : EvaluationRoute :=
  mkEvaluationRoute id (rc_subject_type p) (rc_subject_id p) (rc_subject_digest p)
    (producer_json (rc_producer p)) (route_policy p) "routing" (digest (JObj (route_create_json p)))
    (rc_requested_by p) [] w_server_now None.

Definition create_route (payload : EvaluationRouteCreate) : Sess uuid :=
  compatible ← match rc_supersedes_route_id payload with
    | None => mret true
    | Some rid =>
        predecessor ← get_row routes rid;
        mret (from_option (compatible_predecessor payload) false predecessor)
    end;
  if negb compatible then
    http 409 "Evaluator route predecessor is not a compatible superseded route."
  else
    clash ← select_one routes (fun r =>
      str_eqb (er_route_digest r) (digest (JObj (route_create_json payload))));
    match clash with
    | Some _ => integrity_error
    | None =>
        id ← fresh_id;
        let route := new_route id payload in
        _ ← insert_row routes id route;
        _ ← append_route_event id "route_requested" (rc_requested_by payload)
              [("route_digest", JStr (er_route_digest route));
               ("subject_digest", JStr (er_subject_digest route))];
        candidates ← gets _active_profiles;
        _ ← _assign_route route payload candidates;
        mret id
    end.

(** *** Completing a review *)

Definition kind_leb (a b : EvaluatorAssignment) : bool :=
  String.leb (ea_review_kind a) (ea_review_kind b).

Definition independence_claim : string :=
  "independence demonstrated under declared identity/package/context rules; disclosed shared runtime dimensions remain correlated risk".

Definition assignment_entry (a : EvaluatorAssignment) : Json.dict :=
  [("assignment_digest", JStr (ea_assignment_digest a));
   ("review_kind", JStr (ea_review_kind a));
   ("review_digest", Json.opt_str (ea_review_digest a));
   ("correlation_report", JObj (ea_correlation_report a))].

Definition completion_event (d : database) (route_id : uuid) (a : EvaluatorAssignment)
    : option EvaluationRouteEvent :=
  head (List.filter (fun e =>
    bool_decide (ev_route_id e = route_id) && str_eqb (ev_event_type e) "evaluation_completed" &&
    match ea_completed_by a with Some c => str_eqb (ev_actor e) c | None => false end &&
    Json.eqb_opt (Json.get "assignment_digest" (ev_payload e)) (Some (JStr (ea_assignment_digest a))))
    (route_events d)).

(** the assertion's entry for an assignment; a strategy review also names its author *)
Definition attested_entry (route : EvaluationRoute) (a : EvaluatorAssignment) : Sess json :=
  if negb (str_eqb (er_subject_type route) "alpha_strategy_qualification") then
    mret (JObj (assignment_entry a))
  else
    profile ← get_row profiles (ea_evaluator_profile_id a);
    event ← gets (fun d => completion_event d (er_id route) a);
    match profile, event with
    | Some profile, Some event =>
        match Json.get "alpha_strategy_review" (ev_payload event) with
        | None => raise (PyException "KeyError" "alpha_strategy_review")
        | Some review =>
            mret (JObj (assignment_entry a ++
              [("evaluator_identity", JObj (_profile_identity profile));
               ("alpha_strategy_review", review)]))
        end
    | _, _ => http 409 "Alpha review lacks immutable evaluator provenance."
    end.

Definition receipt_of (route_id : uuid) (d : database) : option EvaluationIndependenceReceipt :=
  head (List.filter (fun r => bool_decide (ei_route_id r = route_id)) (independence_receipts d)).

Definition _issue_receipt (route : EvaluationRoute) (l : list EvaluatorAssignment) : Sess unit :=
  existing ← gets (receipt_of (er_id route));
  match existing with
  | Some _ => mret tt
  | None =>
      entries ← map_each (sort_by kind_leb l) (attested_entry route);
      let assertion :=
        [("schema_version", JStr "evaluation-independence-assertion-v1.0.0");
         ("route_digest", JStr (er_route_digest route));
         ("subject_digest", JStr (er_subject_digest route));
         ("producer", JObj (er_producer route));
         ("policy", JObj (er_policy route));
         ("assignments", JList entries);
         ("claim_boundary", JStr independence_claim)] in
      let receipt_digest := digest (JObj assertion) in
      id ← fresh_id;
      _ ← append_log independence_receipts
            (mkEvaluationIndependenceReceipt id (er_id route) (er_subject_digest route)
               "independence_demonstrated" assertion receipt_digest "evaluator-router" w_server_now);
      now ← utc_now;
      _ ← alter_row routes (er_id route) (fun r =>
            r <| er_status := "completed" |> <| er_completed_at := Some now |>);
      append_route_event (er_id route) "independence_asserted" "evaluator-router"
        [("verdict", JStr "independence_demonstrated"); ("receipt_digest", JStr receipt_digest)]
  end.

(** the review a completion must carry, given the subject of its route *)
Definition required_review (route : EvaluationRoute) (payload : EvaluatorAssignmentComplete)
    : Sess (option AlphaStrategyReview) :=
  if negb (str_eqb (er_subject_type route) "alpha_strategy_qualification") then mret None
  else
    match eac_alpha_strategy_review payload with
    | None => http 422 "Alpha strategy evaluation requires an explicit review verdict."
    | Some review =>
        if negb (str_eqb (sr_subject_digest review) (er_subject_digest route)) then
          http 422 "Alpha strategy review identifies a different subject."
        else if negb (str_eqb (digest (JObj (review_json review))) (eac_review_digest payload)) then
          http 422 "Alpha strategy review digest does not match its content."
        else mret (Some review)
    end.

Definition complete_assignment (route : EvaluationRoute) (assignment : EvaluatorAssignment)
    (payload : EvaluatorAssignmentComplete) : Sess unit :=
  if negb (str_eqb (er_status route) "assigned") || negb (str_eqb (ea_status assignment) "assigned") then
    http 409 "Only an active assigned evaluation can be completed."
  else
    profile ← get_row profiles (ea_evaluator_profile_id assignment);
    match profile with
    | None => http 403 "Only the routed evaluator may complete this assignment."
    | Some profile =>
      if negb (bool_decide (ep_agent_id profile = eac_evaluator_agent_id payload)) then
        http 403 "Only the routed evaluator may complete this assignment."
      else
        review ← required_review route payload;
        now ← utc_now;
        let actor := uuid_str (eac_evaluator_agent_id payload) in
        _ ← alter_row assignments (ea_id assignment) (fun a =>
              a <| ea_status := "completed" |> <| ea_review_id := Some (eac_review_id payload) |>
                <| ea_review_digest := Some (eac_review_digest payload) |>
                <| ea_completed_by := Some actor |> <| ea_completed_at := Some now |>);
        _ ← append_route_event (er_id route) "evaluation_completed" actor
              ([("assignment_digest", JStr (ea_assignment_digest assignment));
                ("review_kind", JStr (ea_review_kind assignment));
                ("review_id", JStr (eac_review_id payload));
                ("review_digest", JStr (eac_review_digest payload))] ++
               match review with
               | Some r => [("alpha_strategy_review", JObj (review_json r))]
               | None => []
               end);
        all_rows ← select_rows assignments (fun a => bool_decide (ea_route_id a = er_id route));
        when (forallb (fun a => str_eqb (ea_status a) "completed") all_rows)
          (_issue_receipt route all_rows)
    end.

Definition invalid_review {A} : Sess A :=
  http 422 "Strategy review task result or contract is invalid.".

(** [UUID(contract[key])] *)
Definition contract_uuid (key : string) (contract : Json.dict) : Sess uuid :=
  match Json.get key contract with
  | None | Some JNull => invalid_review
  | Some (JStr s) => match parse_uuid s with Some u => mret u | None => invalid_review end
  | Some _ => raise (PyException "AttributeError" "replace")
  end.

Definition completion_of (task : Task) (agent : Agent) (result : Json.dict)
    : option EvaluatorAssignmentComplete :=
  summary ← Json.get "summary" result ≫= Json.as_dict;
  review ← Json.get "alpha_strategy_review" summary ≫= validate_review;
  review_digest ← Json.get "review_digest" summary ≫= Json.as_str;
  if is_hex64 review_digest then
    Some (mkEvaluatorAssignmentComplete (ag_id agent)
      ("task:" +:+ uuid_str (t_id task) +:+ ":attempt:" +:+ pretty (t_attempt_count task))
      review_digest (Some review))
  else None.

(** the lease under which the task ran belongs to the routed profile *)
Definition lease_identity_matches (d : database) (task : Task) (profile : EvaluatorProfile) : bool :=
  let contract := t_input_contract task in
  match task_producer_identity d task with
  | None => false
  | Some identity => Json.eqb (JObj identity) (JObj (_profile_identity profile))
  end &&
  Json.eqb_opt (Json.get "evaluator_profile_digest" contract) (Some (JStr (ep_profile_digest profile))) &&
  Json.eqb_opt (Json.get "evaluator_package_digest" contract) (Some (JStr (ep_package_digest profile))).

Definition subject_matches (task : Task) (route : EvaluationRoute)
    (assignment : EvaluatorAssignment) : bool :=
  let contract := t_input_contract task in
  str_eqb (er_subject_type route) "alpha_strategy_qualification" &&
  Json.eqb_opt (Json.get "subject_digest" contract) (Some (JStr (er_subject_digest route))) &&
  Json.eqb_opt (Json.get "review_kind" contract) (Some (JStr (ea_review_kind assignment))) &&
  str_eqb (digest (default JNull (Json.get "subject" contract))) (er_subject_digest route) &&
  Json.eqb_opt (Json.get "authority" contract) (Some (JStr "review_only_no_execution")).

Definition complete_strategy_review_task (task : Task) (agent : Agent) (result : Json.dict)
    : Sess unit :=
  if negb (str_eqb (t_task_type task) "alpha_strategy_review") then mret tt
  else
    let contract := t_input_contract task in
    route_id ← contract_uuid "route_id" contract;
    assignment_id ← contract_uuid "assignment_id" contract;
    match completion_of task agent result with
    | None => invalid_review
    | Some completion =>
      if negb (Json.eqb_opt (Json.get "evaluator_agent_id" contract) (Some (JStr (uuid_str (ag_id agent))))) ||
         negb (bool_decide (t_assigned_agent_id task = Some (ag_id agent))) then
        http 403 "Strategy review is assigned to another evaluator."
      else
        route ← get_row routes route_id;
        assignment ← get_row assignments assignment_id;
        match route, assignment with
        | Some route, Some assignment =>
          if negb (bool_decide (ea_route_id assignment = route_id)) then
            http 409 "Strategy review route or assignment is missing."
          else
            profile ← get_row profiles (ea_evaluator_profile_id assignment);
            matches ← gets (fun d => from_option (lease_identity_matches d task) false profile);
            if negb matches then
              http 409 "Reviewer lease identity differs from the routed profile/package."
            else if negb (subject_matches task route assignment) then
              http 422 "Strategy review task differs from its routed subject."
            else complete_assignment route assignment completion
        | _, _ => http 409 "Strategy review route or assignment is missing."
        end
    end.

Definition require_independence (route : EvaluationRoute) : Sess EvaluationIndependenceReceipt :=
  receipt ← gets (receipt_of (er_id route));
  match receipt with
  | Some r =>
      if str_eqb (er_status route) "completed" then mret r
      else http 409 "Independent evaluation is incomplete; promotion must remain blocked."
  | None => http 409 "Independent evaluation is incomplete; promotion must remain blocked."
  end.
End ops.

(** ** Frames *)
Section frames.
Context `{World}.

Lemma append_route_event_frame {T} (π : database → T) r k a p :
  (∀ v d, π (set_field route_events v d) = π d) → preserves π (append_route_event r k a p).
Proof. intros Hπ. unfold append_route_event. frame. apply preserves_append_log, Hπ. Qed.
End frames.
#[export] Hint Resolve append_route_event_frame : frame.
