(* ===== verification/Tasks.v ===== *)
(** * Tasks: creation, leasing and lease expiry

    [services/tasks.py]. *)
From S2P Require Import Prelude Py Sha256 Models Store Logic Security TaskCore Notifications Governance.
From S2P Require Import AgentGovernance Controls EvaluatorRouting.
From Stdlib Require Import Ascii.

Open Scope Z_scope.

(** ** [schemas/task.py]: [TaskCreate] *)

Record TaskCreate := mkTaskCreate {
  tc_task_number : string;
  tc_project : string;
  tc_task_type : string;
  tc_title : string;
  tc_objective : string;
  tc_priority : Z;
  tc_risk_level : Z;
  tc_parent_task_id : option uuid;
  tc_created_by : string;
  tc_input_contract : Json.dict;
  tc_expected_outputs : json;
  tc_acceptance_criteria : json;
  tc_approval_policy : Json.dict;
  tc_approval_required : bool;
  tc_required_capabilities : list string;
  tc_allowed_machines : list string;
  tc_max_attempts : Z }.

Definition len_between (lo hi : nat) (s : string) : bool :=
  (lo <=? String.length s)%nat && (String.length s <=? hi)%nat.

(** ["^[A-Za-z0-9][A-Za-z0-9._-]*$"] *)
Definition task_number_pattern (s : string) : bool :=
  match Str.chars s with
  | [] => false
  | c :: l => Str.is_alnum c &&
      forallb (fun c => Str.is_alnum c || Ascii.eqb c "." || Ascii.eqb c "_" || Ascii.eqb c "-") l
  end.

(** the constraints pydantic checks when a [TaskCreate] is built *)
Definition valid_task_create (p : TaskCreate) : bool :=
  len_between 1 50 (tc_task_number p) && task_number_pattern (tc_task_number p) &&
  len_between 1 100 (tc_project p) && len_between 1 150 (tc_task_type p) &&
  len_between 1 300 (tc_title p) && Str.nonempty (tc_objective p) &&
  (0 <=? tc_priority p) && (tc_priority p <=? 100) &&
  (0 <=? tc_risk_level p) && (tc_risk_level p <=? 5) &&
  len_between 1 150 (tc_created_by p) &&
  (1 <=? tc_max_attempts p) && (tc_max_attempts p <=? 20).

Definition validation_error {A} (model : string) : Sess A :=
  raise (PyException "ValidationError" model).

(** ** Creation *)

Definition plan_document (p : TaskCreate) : Json.dict :=
  [("project", JStr (tc_project p));
   ("task_type", JStr (tc_task_type p));
   ("objective", JStr (tc_objective p));
   ("risk_level", JInt (tc_risk_level p));
   ("input_contract", JObj (tc_input_contract p));
   ("expected_outputs", tc_expected_outputs p);
   ("acceptance_criteria", tc_acceptance_criteria p);
   ("required_capabilities", Json.str_list (tc_required_capabilities p));
   ("allowed_machines", Json.str_list (tc_allowed_machines p))].

(** a request carrying a risk of 2 or more needs approval, whatever it asks for *)
Definition needs_approval (p : TaskCreate) : bool :=
  tc_approval_required p || (2 <=? tc_risk_level p).

Section ops.
Context `{World}.

(** [build_task]; the row's identifier is drawn when it is added *)
Definition build_task (payload : TaskCreate) (id : uuid) : Task :=
  mkTask id (tc_task_number payload) (tc_project payload) (tc_task_type payload)
    (tc_title payload) (tc_objective payload)
    (if needs_approval payload then PendingApproval else Queued)
    (tc_priority payload) (tc_risk_level payload) None (tc_parent_task_id payload)
    None None None None None (tc_created_by payload) (tc_input_contract payload)
    (tc_expected_outputs payload) (tc_acceptance_criteria payload) (tc_approval_policy payload)
    (needs_approval payload) (task_plan_digest (plan_document payload))
    (tc_required_capabilities payload) (tc_allowed_machines payload) (tc_max_attempts payload)
    0 None None None None None [] [] w_server_now w_server_now None None None None.

Definition numbered (number : string) (t : Task) : bool := str_eqb (t_task_number t) number.

Definition persist_new_task (task : Task) : Sess unit :=
  (* unique task_number *)
  clash ← select_one tasks (numbered (t_task_number task));
  match clash with
  | Some _ => integrity_error
  | None =>
      _ ← insert_row tasks (t_id task) task;
      _ ← when (t_approval_required task) (_ ← create_approval task; mret tt);
      append_task_event (t_id task) "task_created"
        (if t_approval_required task then "Task created pending approval."
         else "Task created and queued.") None
        [("created_by", JStr (t_created_by task));
         ("priority", JInt (t_priority task));
         ("risk_level", JInt (t_risk_level task))]
  end.

(** ** Authority of a candidate *)

(** [input_contract.get("repository") or task.project]; pydantic accepts only a string *)
Definition task_repository (task : Task) : option string :=
  match Json.get "repository" (t_input_contract task) with
  | Some v => if Json.truthy v then Json.as_str v else Some (t_project task)
  | None => Some (t_project task)
  end.

Definition authority_request (task : Task) (agent : Agent) (repository capability : string)
    : EffectiveAuthorityRequest :=
  mkEffectiveAuthorityRequest capability (ag_machine agent) (t_task_type task) (Some repository)
    (t_risk_level task).

Definition resolve_capability (task : Task) (agent : Agent) (now : datetime) (capability : string)
    : Sess EffectiveAuthority :=
  match task_repository task with
  | None => validation_error "EffectiveAuthorityRequest"
  | Some repository =>
      let request := authority_request task agent repository capability in
      if valid_authority_request request
      then gets (fun d => resolve d (ag_id agent) request now)
      else validation_error "EffectiveAuthorityRequest"
  end.

Definition resolve_task_authority (task : Task) (agent : Agent) (now : datetime)
    : Sess (list EffectiveAuthority) :=
  map_each (t_required_capabilities task) (resolve_capability task agent now).

(** ** Candidates *)

Definition unmet_dependency (d : database) (task : Task) : bool :=
  existsb (fun dep => bool_decide (td_task_id dep = t_id task) &&
    match tasks d !! td_depends_on_task_id dep with
    | Some p => negb (bool_decide (t_status p = Succeeded))
    | None => false
    end) (dependencies d).

Definition live_approval (now : datetime) (task : Task) (a : TaskApproval) : bool :=
  bool_decide (ap_task_id a = t_id task) && bool_decide (ap_status a = ApApproved) &&
  str_eqb (ap_plan_digest a) (t_plan_digest task) &&
  match ap_expires_at a with Some e => now <? e | None => false end.

Definition valid_approval (d : database) (now : datetime) (task : Task) : bool :=
  negb (t_approval_required task) ||
  existsb (live_approval now task) (table_rows (approvals d)).

(** the leased and running tasks of a graph *)
Definition graph_active_count (d : database) (graph_id : uuid) : Z :=
  Z.of_nat (length (List.filter (fun t =>
    active_lease (t_status t) &&
    match t_task_graph_node_id t ≫= fun n => nodes d !! n with
    | Some n => bool_decide (gn_graph_id n = graph_id)
    | None => false
    end) (table_rows (tasks d)))).

Definition graph_parallelism_available (d : database) (task : Task) : bool :=
  match t_task_graph_node_id task with
  | None => true
  | Some node_id =>
      match nodes d !! node_id with
      | None => false
      | Some n =>
          match graphs d !! gn_graph_id n with
          | None => false
          | Some g => bool_decide (tg_status g = GActive) &&
                      (graph_active_count d (tg_id g) <? tg_max_parallelism g)
          end
      end
  end.

Definition mission_open (d : database) (now : datetime) (task : Task) : bool :=
  match t_mission_id task with
  | None => true
  | Some m => match missions d !! m with
              | Some m => bool_decide (ms_status m = MActive) && (now <? ms_deadline_at m)
              | None => false
              end
  end.

Definition reviewer_matches (agent : Agent) (task : Task) : bool :=
  negb (str_eqb (t_task_type task) "alpha_strategy_review") ||
  match Json.get "evaluator_agent_id" (t_input_contract task) with
  | Some (JStr s) => str_eqb s (uuid_str (ag_id agent))
  | _ => false
  end.

Definition machine_allowed (agent : Agent) (task : Task) : bool :=
  bool_decide (t_allowed_machines task = []) || str_in (ag_machine agent) (t_allowed_machines task).

(** the [WHERE] clause of [lease_next_task] *)
Definition is_candidate (d : database) (agent : Agent) (now : datetime) (task : Task) : bool :=
  bool_decide (t_status task = Queued) &&
  (t_attempt_count task <? t_max_attempts task) &&
  (t_risk_level task <=? ag_risk_ceiling agent) &&
  str_subset (t_required_capabilities task) (ag_capabilities agent) &&
  valid_approval d now task &&
  graph_parallelism_available d task &&
  reviewer_matches agent task &&
  mission_open d now task &&
  negb (unmet_dependency d task) &&
  machine_allowed agent task.

(** [ORDER BY priority DESC, created_at ASC] *)
Definition candidate_leb (a b : Task) : bool :=
  (t_priority b <? t_priority a) ||
  ((t_priority a =? t_priority b) && (t_created_at a <=? t_created_at b)).

Definition lease_candidates (agent : Agent) (now : datetime) : Sess (list Task) :=
  gets (fun d => take 100 (sort_by candidate_leb
    (List.filter (fun t => is_candidate d agent now t && negb (w_locked (t_id t)))
       (table_rows (tasks d))))).

(** ** Leasing *)

Definition denied_reasons (snapshots : list EffectiveAuthority) : list string :=
  let reasons := sorted_set (concat (ef_reasons <$> snapshots)) in
  if bool_decide (reasons = []) then ["authority-resolution-unavailable"] else reasons.

Definition report_denied (agent : Agent) (candidate : Task) (reasons : list string) : Sess unit :=
  prior ← gets (fun d => last_denied d (t_id candidate));
  let repeated := match prior with
    | Some e => Json.eqb_opt (Json.get "reasons" (te_payload e)) (Some (Json.str_list reasons))
    | None => false
    end in
  when (negb repeated)
    (append_task_event (t_id candidate) "task_authority_denied"
       "Task matched the worker but effective authority denied its lease."
       (Some (ag_id agent)) [("reasons", Json.str_list reasons)]).

(** the first candidate no pause covers and whose every capability is authorised *)
Fixpoint select_candidate (workflow_scopes : list ControlScope) (agent : Agent) (now : datetime)
    (candidates : list Task) : Sess (option (Task * list EffectiveAuthority)) :=
  match candidates with
  | [] => mret None
  | candidate :: rest =>
      if existsb (fun scope => task_matches_control_scope scope candidate) workflow_scopes then
        select_candidate workflow_scopes agent now rest
      else
        snapshots ← resolve_task_authority candidate agent now;
        if negb (bool_decide (snapshots = [])) && forallb ef_allowed snapshots then
          mret (Some (candidate, snapshots))
        else
          _ ← report_denied agent candidate (denied_reasons snapshots);
          select_candidate workflow_scopes agent now rest
  end.

Definition lease_to (agent : Agent) (now expires : datetime) (generated : GeneratedTaskLeaseToken)
    (t : Task) : Task :=
  t <| t_status := Leased |>
    <| t_assigned_agent_id := Some (ag_id agent) |>
    <| t_attempt_count := t_attempt_count t + 1 |>
    <| t_leased_at := Some now |>
    <| t_lease_expires_at := Some expires |>
    <| t_lease_token_prefix := Some (lt_prefix generated) |>
    <| t_lease_token_digest := Some (lt_digest generated) |>
    <| t_last_execution_heartbeat_at := Some now |>
    <| t_failure := [] |>.

(** tasks whose lease records who produced their result *)
Definition records_producer (task : Task) : bool :=
  str_eqb (t_task_type task) "alpha_strategy_review" ||
  (str_eqb (t_task_type task) "alpha_research_execution" &&
   match Json.get "stage" (t_input_contract task) with
   | Some (JStr s) => str_in s ["draft"; "qualify"]
   | _ => false
   end).

Definition authority_entry (cs : string * EffectiveAuthority) : json := JObj
  [("capability", JStr cs.1);
   ("snapshot_digest", JStr (ef_snapshot_digest cs.2));
   ("charter_digest", Json.opt_str (ef_charter_digest cs.2));
   ("package_digest", Json.opt_str (ef_package_digest cs.2));
   ("grant_digest", Json.opt_str (ef_grant_digest cs.2));
   ("accountable_owner", Json.opt_str (ef_accountable_owner cs.2))].

Definition lease_payload (task : Task) (expires : datetime) (lease_seconds : Z)
    (producer : option Json.dict) (snapshots : list EffectiveAuthority) : Json.dict :=
  [("lease_expires_at", JStr (isoformat expires)); ("lease_seconds", JInt lease_seconds)] ++
  match producer with
  | Some p => [("producer_identity", JObj p); ("producer_identity_digest", JStr (digest (JObj p)))]
  | None => []
  end ++
  [("effective_authority", JList (authority_entry <$> zip (t_required_capabilities task) snapshots))].

(** leasing the selected task: its identifier, token and previous failure *)
Definition lease_selected (agent : Agent) (lease_seconds : Z) (now : datetime) (task : Task)
    (snapshots : list EffectiveAuthority) : Sess (option (uuid * string * Json.dict)) :=
  _ ← consume_task_approval task now;
  generated ← create_task_lease_token;
  let expires := now + seconds lease_seconds in
  _ ← alter_task (t_id task) (lease_to agent now expires generated);
  producer ← gets (fun d =>
    if records_producer task
    then producer_identity_for_lease d agent (ef_package_digest <$> snapshots) else None);
  _ ← append_task_event (t_id task) "task_leased" "Task leased to agent." (Some (ag_id agent))
        (lease_payload task expires lease_seconds producer snapshots);
  mret (Some (t_id task, lt_token generated, t_failure task)).

Definition lease_next_task (agent : Agent) (lease_seconds : Z)
    : Sess (option (uuid * string * Json.dict)) :=
  now ← utc_now;
  _ ← expire_approvals now;
  workflow_scopes ← paused_workflow_scopes;
  candidates ← lease_candidates agent now;
  selected ← select_candidate workflow_scopes agent now candidates;
  match selected with
  | None => mret None
  | Some (task, snapshots) => lease_selected agent lease_seconds now task snapshots
  end.

(** ** Lease expiry *)

Definition lease_lapsed (now : datetime) (t : Task) : bool :=
  active_lease (t_status t) &&
  match t_lease_expires_at t with Some e => e <=? now | None => false end.

Definition expiry_leb (a b : Task) : bool :=
  default 0 (t_lease_expires_at a) <=? default 0 (t_lease_expires_at b).

Definition exhausted_failure : Json.dict :=
  [("reason", JStr "lease_expired");
   ("message", JStr "Maximum attempts reached after lease expiry.")].

(** one expired lease, read again since the loop's rows are live objects;
    [true] when the task is requeued *)
Definition reap_row (now : datetime) (task : Task) : Sess bool :=
  let id := t_id task in
  _ ← append_task_event id "lease_expired" "Task lease expired." (t_assigned_agent_id task)
        [("previous_status", JStr (task_status_str (t_status task)));
         ("lease_expires_at", Json.opt_str (isoformat <$> t_lease_expires_at task))];
  if t_max_attempts task <=? t_attempt_count task then
    _ ← alter_task id (fun t => t <| t_status := Failed |> <| t_failure := exhausted_failure |>
          <| t_completed_at := Some now |>);
    _ ← append_task_event id "task_failed" "Task failed after exhausting lease attempts."
          (t_assigned_agent_id task) exhausted_failure;
    _ ← alter_task id clear_lease;
    mret false
  else
    _ ← rearm_task_approval id "A new approval is required after lease expiry.";
    _ ← append_task_event id "task_requeued"
          "Task returned for approval or requeued after lease expiry." (t_assigned_agent_id task) [];
    _ ← alter_task id clear_lease;
    mret true.

Definition reap_task (now : datetime) (id : uuid) : Sess bool :=
  task ← lock_task id;
  reap_row now task.

(** leases inspected, requeued and failed; locked rows are skipped *)
Definition reap_expired_leases : Sess (Z * Z * Z) :=
  now ← utc_now;
  expired ← select_rows tasks (fun t => lease_lapsed now t && negb (w_locked (t_id t)));
  outcomes ← map_each (t_id <$> sort_by expiry_leb expired) (reap_task now);
  let requeued := Z.of_nat (length (List.filter id outcomes)) in
  let inspected := Z.of_nat (length expired) in
  mret (inspected, requeued, inspected - requeued).
End ops.
