(* ===== verification/Dag.v ===== *)
(** * Cycle detection in dependency manifests

    The depth-first search [visit] that [schemas/task_graph.py] and
    [schemas/mission.py] run on the declared dependencies.  It accepts exactly
    the graphs whose dependency relation is well founded. *)
From S2P Require Import Prelude Py.

(** ** The search *)

(** the sets [visiting] and [visited] of the Python closure *)
Record marks := mkMarks { visiting : gset string; visited : gset string }.

Inductive visit_result :=
| Visited (m : marks)
| Cycle
| OutOfFuel.

Section visit.
Context (deps : string → list string).

Fixpoint visit_all (visit : string → marks → visit_result) (keys : list string) (m : marks)
    : visit_result :=
  match keys with
  | [] => Visited m
  | key :: keys' =>
      match visit key m with
      | Visited m' => visit_all visit keys' m'
      | r => r
      end
  end.

Fixpoint visit (fuel : nat) (key : string) (m : marks) : visit_result :=
  match fuel with
  | O => OutOfFuel
  | S fuel' =>
      if bool_decide (key ∈ visiting m) then Cycle
      else if bool_decide (key ∈ visited m) then Visited m
      else
        match visit_all (visit fuel') (deps key)
                (mkMarks ({[key]} ∪ visiting m) (visited m)) with
        | Visited m' => Visited (mkMarks (visiting m' ∖ {[key]}) ({[key]} ∪ visited m'))
        | r => r
        end
  end.

(** the search from every key; the recursion is never deeper than the number of keys *)
Definition search (keys : list string) : visit_result :=
  visit_all (visit (S (length keys))) keys (mkMarks ∅ ∅).
End visit.

Definition is_acyclic (deps : string → list string) (keys : list string) : bool :=
  match search deps keys with Visited _ => true | _ => false end.

(** ** The checks shared by the manifests *)

(** no member twice *)
Definition unique (l : list string) : bool := Nat.eqb (length (sorted_set l)) (length l).

(** [graph[key]] of the validators *)
Definition item_deps (items : list (string * list string)) (key : string) : list string :=
  match List.find (fun i => String.eqb i.1 key) items with Some i => i.2 | None => [] end.

(** unique keys, known dependencies and no cycle *)
Definition valid_dependencies (items : list (string * list string)) : bool :=
  unique (fst <$> items) &&
  forallb (fun i => str_subset i.2 (fst <$> items)) items &&
  is_acyclic (item_deps items) (fst <$> items).

(** ** Correctness *)
Section correct.
Context (deps : string → list string).

(** [x] is a dependency of [y] *)
Definition dep_of (x y : string) : Prop := x ∈ deps y.

Definition sound_marks (m : marks) : Prop := ∀ x, x ∈ visited m → Acc dep_of x.

(** what a completed visit of [key] leaves *)
Definition visit_ok (m m' : marks) : Prop :=
  visiting m' = visiting m ∧ visited m ⊆ visited m' ∧ sound_marks m'.

Lemma visit_all_ok visit keys m m' :
  (∀ key m m', key ∈ keys → sound_marks m → visit key m = Visited m' →
     visit_ok m m' ∧ key ∈ visited m') →
  sound_marks m → visit_all visit keys m = Visited m' →
  visit_ok m m' ∧ ∀ key, key ∈ keys → key ∈ visited m'.
Proof.
  revert m. induction keys as [|key keys IH]; intros m Hv Hm; cbn.
  { intros [= <-]. split; [|by intros ? ?%elem_of_nil].
    split; [reflexivity|split; [reflexivity|exact Hm]]. }
  destruct (visit key m) as [m1| |] eqn:E; [|done..]. intros Hrest.
  destruct (Hv key m m1) as [(V1 & D1 & S1) K1]; [by left|done|done|].
  destruct (IH m1) as [(V2 & D2 & S2) K2]; [|done|done|].
  { intros k n n' Hk. apply Hv. by right. }
  split.
  - split; [congruence|]. split; [exact (transitivity D1 D2)|exact S2].
  - intros k [->|Hk]%elem_of_cons; [exact (D2 _ K1)|exact (K2 _ Hk)].
Qed.

Lemma visit_sound fuel key m m' :
  sound_marks m → visit deps fuel key m = Visited m' → visit_ok m m' ∧ key ∈ visited m'.
Proof.
  revert key m m'. induction fuel as [|fuel IH]; [done|]. intros key m m' Hm. cbn.
  case_bool_decide as Hvis; [done|]. case_bool_decide as Hdone.
  { intros [= <-]. split; [|exact Hdone].
    split; [reflexivity|split; [reflexivity|exact Hm]]. }
  destruct (visit_all _ _ _) as [m1| |] eqn:E; [|done..]. intros [= <-].
  apply visit_all_ok in E as [(V1 & D1 & S1) K1]; [| |done].
  2:{ intros k n n' _. apply IH. }
  cbn in *. assert (Hacc : Acc dep_of key).
  { constructor. intros x Hx. apply S1, K1, Hx. }
  split; [|cbn; set_solver]. split; cbn.
  - rewrite V1. set_solver.
  - split; [set_solver|]. intros x [->%elem_of_singleton|Hx]%elem_of_union; [done|by apply S1].
Qed.

(** every mark in progress leads to the key being visited *)
Definition on_path (m : marks) (key : string) : Prop :=
  ∀ v, v ∈ visiting m → tc dep_of key v.

Lemma visit_all_cycle visit keys m :
  (∀ key m m', key ∈ keys → visit key m = Visited m' → visiting m' = visiting m) →
  visit_all visit keys m = Cycle →
  ∃ key m', key ∈ keys ∧ visiting m' = visiting m ∧ visit key m' = Cycle.
Proof.
  intros Hv. revert m. induction keys as [|key keys IH]; intros m; cbn; [done|].
  destruct (visit key m) as [m1| |] eqn:E.
  - intros (k & m' & Hk & Hm' & Hc)%IH; [|intros k n n' Hk; apply Hv; by right].
    exists k, m'. split; [by right|]. split; [|done]. rewrite Hm'.
    apply (Hv key m m1); [by left|done].
  - intros _. exists key, m. split; [by left|done].
  - done.
Qed.

Lemma visit_visiting fuel key m m' : visit deps fuel key m = Visited m' → visiting m' = visiting m.
Proof.
  revert key m m'. induction fuel as [|fuel IH]; [done|]. intros key m m'. cbn.
  case_bool_decide as Hvis; [done|]. case_bool_decide as Hdone; [by intros [= <-]|].
  destruct (visit_all _ _ _) as [m1| |] eqn:E; [|done..]. intros [= <-]. cbn.
  assert (Hall : visiting m1 = {[key]} ∪ visiting m); [|rewrite Hall; set_solver].
  change ({[key]} ∪ visiting m) with (visiting (mkMarks ({[key]} ∪ visiting m) (visited m))).
  revert E. generalize (mkMarks ({[key]} ∪ visiting m) (visited m)). generalize (deps key).
  intros l. induction l as [|k l IHl]; intros n; cbn; [by intros [= <-]|].
  destruct (visit deps fuel k n) as [n1| |] eqn:Ek; [|done..].
  intros ->%IHl. by eapply IH.
Qed.

Lemma visit_cycle fuel key m :
  on_path m key → visit deps fuel key m = Cycle → ∃ x, tc dep_of x x.
Proof.
  revert key m. induction fuel as [|fuel IH]; [done|]. intros key m Hp. cbn.
  case_bool_decide as Hvis; [intros _; exists key; by apply Hp|].
  case_bool_decide as Hdone; [done|].
  destruct (visit_all _ _ _) as [m1| |] eqn:E; [done| |done]. intros _.
  apply visit_all_cycle in E as (k & m' & Hk & Hm' & Hc).
  2:{ intros k n n' _. apply visit_visiting. }
  apply (IH k m'); [|done]. intros v. rewrite Hm'. cbn [visiting].
  intros [->%elem_of_singleton|Hv]%elem_of_union; [by apply tc_once|].
  eapply tc_l; [exact Hk|]. by apply Hp.
Qed.

Lemma acc_no_cycle x : Acc dep_of x → ¬ tc dep_of x x.
Proof.
  assert (Hwf : ∀ x, Acc dep_of x → Acc (tc dep_of) x).
  { intros y Hy. induction Hy as [y _ IH]. constructor. intros z Hz.
    revert IH. induction Hz as [z y Hz|z w y Hz Hwy IHz]; intros IH; [by apply IH|].
    apply IHz in IH. destruct IH as [H]. apply H. by apply tc_once. }
  intros Hx%Hwf Hc. induction Hx as [x _ IH]. by apply (IH x).
Qed.

Context (keys : list string).
Hypothesis known : ∀ x y, x ∈ deps y → x ∈ keys ∧ y ∈ keys.

Lemma size_keys_le (l : list string) : (size (list_to_set l : gset string) ≤ length l)%nat.
Proof.
  induction l as [|x l IH]; cbn; [by rewrite size_empty|].
  rewrite size_union_alt, size_singleton.
  enough (size (list_to_set l ∖ {[x]} : gset string) ≤ size (list_to_set l : gset string))%nat by lia.
  apply subseteq_size. clear. set_solver.
Qed.

(** the fuel suffices: each level of recursion marks one more key *)
Lemma visit_all_fuel visit l m :
  (∀ key m m', key ∈ l → visit key m = Visited m' → visiting m' = visiting m) →
  (∀ key m', key ∈ l → visiting m' = visiting m → visit key m' ≠ OutOfFuel) →
  visit_all visit l m ≠ OutOfFuel.
Proof.
  revert m. induction l as [|key l IH]; intros m Hv Hf; cbn; [done|].
  destruct (visit key m) as [m1| |] eqn:E; [|done|by destruct (Hf key m); [left|..]].
  apply IH; [intros k n n' Hk; apply Hv; by right|].
  intros k n Hk Hn. apply Hf; [by right|]. rewrite Hn. eapply Hv; [by left|exact E].
Qed.

Definition unmarked (m : marks) : gset string := list_to_set keys ∖ visiting m.

Lemma visit_fuel fuel key m :
  key ∈ keys → (size (unmarked m) < fuel)%nat → visit deps fuel key m ≠ OutOfFuel.
Proof.
  revert key m. induction fuel as [|fuel IH]; intros key m Hkey Hsize; [lia|]. cbn.
  case_bool_decide as Hvis; [done|]. case_bool_decide as Hdone; [done|].
  assert (Hall : visit_all (visit deps fuel) (deps key)
    (mkMarks ({[key]} ∪ visiting m) (visited m)) ≠ OutOfFuel); [|by destruct (visit_all _ _ _)].
  apply visit_all_fuel; [intros k n n' _; apply visit_visiting|].
  intros k n Hk Hn. apply IH; [exact (proj1 (known _ _ Hk))|]. unfold unmarked in *. rewrite Hn. cbn.
  enough (size (list_to_set keys ∖ ({[key]} ∪ visiting m) : gset string) <
          size (list_to_set keys ∖ visiting m : gset string))%nat by lia.
  apply subset_size. split; [clear; set_solver|]. intros Hsub.
  assert (Hin : key ∈ (list_to_set keys ∖ ({[key]} ∪ visiting m) : gset string)); [|clear -Hin; set_solver].
  apply Hsub, elem_of_difference. split; [|done]. by apply elem_of_list_to_set.
Qed.

Lemma search_terminates : search deps keys ≠ OutOfFuel.
Proof.
  apply visit_all_fuel; [intros k n n' _; apply visit_visiting|].
  intros key m Hk Hm. apply visit_fuel; [done|]. unfold unmarked. rewrite Hm. cbn.
  rewrite difference_empty_L. pose proof (size_keys_le keys). lia.
Qed.

Lemma search_sound m : search deps keys = Visited m → ∀ x, x ∈ keys → Acc dep_of x.
Proof.
  intros E. apply visit_all_ok in E as [(_ & _ & Hs) Hall].
  - intros x Hx. by apply Hs, Hall.
  - intros k n n' _. apply visit_sound.
  - intros x Hx. set_solver.
Qed.

Lemma search_cycle : search deps keys = Cycle → ∃ x, tc dep_of x x.
Proof.
  intros E. apply visit_all_cycle in E as (k & m & Hk & Hm & Hc).
  - eapply visit_cycle; [|exact Hc]. intros v. rewrite Hm. cbn. set_solver.
  - intros k n n' _. apply visit_visiting.
Qed.

Lemma is_acyclic_spec : is_acyclic deps keys = true ↔ ∀ x, ¬ tc dep_of x x.
Proof.
  unfold is_acyclic. destruct (search deps keys) as [m| |] eqn:E.
  - split; [|done]. intros _ x Hx. apply (acc_no_cycle x); [|done].
    apply (search_sound m E). inversion Hx as [a b Hd|a b c Hd]; exact (proj1 (known _ _ Hd)).
  - split; [done|]. intros Hno. apply search_cycle in E as [x Hx]. by destruct (Hno x).
  - by destruct search_terminates.
Qed.
End correct.

(** ** What [valid_dependencies] accepts *)
Section accepted.
Context (items : list (string * list string)).

(** item [y] declares [x] as a dependency *)
Definition depends (x y : string) : Prop := ∃ ds, (y, ds) ∈ items ∧ x ∈ ds.

Lemma unique_spec l : unique l = true ↔ NoDup l.
Proof. unfold unique. rewrite Nat.eqb_eq. apply sorted_set_NoDup. Qed.

Lemma item_deps_elem key ds : NoDup items.*1 → (key, ds) ∈ items → item_deps items key = ds.
Proof.
  unfold item_deps. intros Hnd Hin. destruct (List.find _ items) as [[k ds']|] eqn:E.
  - apply find_some in E as [Hin' Hk]. cbn in *. apply String.eqb_eq in Hk as ->.
    apply list_elem_of_In in Hin'. revert Hnd Hin Hin'. clear. induction items as [|[k d] l IH]; cbn; [by intros ? ?%elem_of_nil|].
    intros [Hn Hnd]%NoDup_cons. rewrite !elem_of_cons.
    assert (Hno : ∀ d', (key, d') ∈ l → k ≠ key).
    { intros d' Hd <-. apply Hn, list_elem_of_fmap. by exists (k, d'). }
    intros [H1|H1] [H2|H2]; simplify_eq; [done|by destruct (Hno _ H2)|by destruct (Hno _ H1)|by apply IH].
  - pose proof (find_none _ _ E (key, ds) (proj1 (list_elem_of_In _ _) Hin)) as Hf. cbn in Hf.
    by rewrite String.eqb_refl in Hf.
Qed.

Lemma item_deps_depends x y : NoDup items.*1 → x ∈ item_deps items y ↔ depends x y.
Proof.
  intros Hnd. split.
  - unfold item_deps. destruct (List.find _ items) as [[k ds]|] eqn:E; [|by intros ?%elem_of_nil].
    apply find_some in E as [Hin Hk]. cbn in *. apply String.eqb_eq in Hk as ->.
    exists ds. split; [by apply list_elem_of_In|done].
  - intros (ds & Hin & Hx). by rewrite (item_deps_elem y ds).
Qed.

Lemma depends_key x y : depends x y → y ∈ items.*1.
Proof. intros (ds & Hin & _). apply list_elem_of_fmap. by exists (y, ds). Qed.

Lemma known_dependencies :
  forallb (fun i => str_subset i.2 items.*1) items = true ↔ ∀ x y, depends x y → x ∈ items.*1.
Proof.
  rewrite forallb_forall. split.
  - intros Hf x y (ds & Hin & Hx). apply list_elem_of_In in Hin. specialize (Hf _ Hin). cbn in Hf.
    apply str_subset_spec in Hf. by apply Hf.
  - intros Hk [y ds] Hin. apply str_subset_spec. intros x Hx. apply (Hk x y). exists ds.
    split; [by apply list_elem_of_In|done].
Qed.

Lemma item_known x y :
  NoDup items.*1 → (∀ x y, depends x y → x ∈ items.*1) → x ∈ item_deps items y →
  x ∈ items.*1 ∧ y ∈ items.*1.
Proof.
  intros Hnd Hk Hx. apply item_deps_depends in Hx; [|done]. split; [by eapply Hk|by eapply depends_key].
Qed.

Lemma acyclic_dependencies :
  NoDup items.*1 → (∀ x y, depends x y → x ∈ items.*1) →
  is_acyclic (item_deps items) items.*1 = true ↔ ∀ x, ¬ tc depends x x.
Proof.
  intros Hnd Hk. rewrite is_acyclic_spec.
  2:{ intros x y. by apply item_known. }
  split; intros Hac x Hx; apply (Hac x); (eapply (tc_congruence (fun a => a)); [|exact Hx]); intros a b; by apply item_deps_depends.
Qed.

Lemma valid_dependencies_spec :
  valid_dependencies items = true ↔
  NoDup items.*1 ∧ (∀ x y, depends x y → x ∈ items.*1) ∧ (∀ x, ¬ tc depends x x).
Proof.
  unfold valid_dependencies. rewrite !andb_true_iff, unique_spec, known_dependencies. split.
  - intros [[Hnd Hk] Hac]. split; [done|]. split; [done|]. by apply acyclic_dependencies.
  - intros (Hnd & Hk & Hac). split; [done|]. by apply acyclic_dependencies.
Qed.

(** ** Progress: what is not done can be continued *)
Lemma ready_item (finished : gset string) key :
  valid_dependencies items = true → key ∈ items.*1 → key ∉ finished →
  ∃ k, k ∈ items.*1 ∧ k ∉ finished ∧ ∀ x, depends x k → x ∈ finished.
Proof.
  unfold valid_dependencies. rewrite !andb_true_iff, unique_spec, known_dependencies.
  intros [[Hnd Hk] Hac] Hkey Hnot.
  assert (Hacc : Acc (dep_of (item_deps items)) key).
  { unfold is_acyclic in Hac. destruct (search (item_deps items) items.*1) as [m| |] eqn:E; [|done..].
    apply (search_sound (item_deps items) items.*1 (fun x y => item_known x y Hnd Hk) m); done. }
  induction Hacc as [key _ IH].
  destruct (decide (Forall (fun x => x ∈ finished) (item_deps items key))) as [Hall|Hsome].
  - exists key. split; [done|]. split; [done|]. intros x Hx%item_deps_depends; [|done].
    by eapply Forall_forall in Hall.
  - apply not_Forall_Exists, Exists_exists in Hsome as (x & Hx & Hnx); [|apply _].
    apply (IH x); [done| |done]. apply item_deps_depends in Hx; [|done]. by eapply Hk.
Qed.
End accepted.
