(* ===== verification/Missions.v ===== *)
(** * Engineering and infrastructure missions

    [schemas/mission.py] and [services/missions.py]: an approved manifest becomes
    a mission row and one task per work item or phase, ordered by dependencies. *)
From S2P Require Import Prelude Py Sha256 Models Store Logic TaskCore Notifications Governance.
From S2P Require Import AgentGovernance Controls EvaluatorRouting Tasks Dag.
From Stdlib Require Import Ascii.

Open Scope Z_scope.

(** ** Manifests *)

Record MissionBudget := mkMissionBudget {
  mb_max_tasks : Z;
  mb_max_attempts_per_task : Z;
  mb_max_duration_seconds : Z;
  mb_max_files_changed : Z;
  mb_max_diff_lines : Z }.

Record EngineeringWorkItem := mkEngineeringWorkItem {
  ew_id : string;
  ew_objective : string;
  ew_depends_on : list string;
  ew_allowed_paths : list string;
  ew_context_paths : list string;
  ew_acceptance_criteria : list string;
  ew_stop_conditions : list string }.

Record MissionSupervisionPolicy := mkMissionSupervisionPolicy {
  mp_max_auto_recoveries : Z;
  mp_retry_backoff_seconds : Z;
  mp_retryable_categories : list string;
  mp_rehearsal_evidence_sha256 : string;
  mp_rehearsal_source_commit : string }.

Record EngineeringMilestoneManifest := mkEngineeringMilestoneManifest {
  em_milestone_id : string;
  em_project : string;
  em_objective : string;
  em_base_ref : string;
  em_source_references : list string;
  em_risk_level : Z;
  em_allowed_machines : list string;
  em_required_capabilities : list string;
  em_budget : MissionBudget;
  em_work_items : list EngineeringWorkItem;
  em_deliverables : list string;
  em_approved_by : string;
  em_approval_reference : string;
  em_supervision : option MissionSupervisionPolicy }.

Record InfrastructureMissionBudget := mkInfrastructureMissionBudget {
  ib_max_tasks : Z;
  ib_max_attempts_per_task : Z;
  ib_max_duration_seconds : Z }.

Record InfrastructurePhase := mkInfrastructurePhase {
  ip_id : string;
  ip_operation : string;
  ip_objective : string;
  ip_depends_on : list string;
  ip_risk_level : Z;
  ip_approval_required : bool;
  ip_acceptance_criteria : list string;
  ip_expected_outputs : list string }.

Record InfrastructureRunbookManifest := mkInfrastructureRunbookManifest {
  im_milestone_id : string;
  im_objective : string;
  im_source_references : list string;
  im_allowed_machines : list string;
  im_required_capabilities : list string;
  im_budget : InfrastructureMissionBudget;
  im_phases : list InfrastructurePhase;
  im_approved_by : string;
  im_approval_reference : string;
  im_supervision : option MissionSupervisionPolicy }.

Inductive MissionManifest :=
| Engineering (m : EngineeringMilestoneManifest)
| Infrastructure (m : InfrastructureRunbookManifest).

(** ** Validation *)

(** a path that stays inside the repository *)
Definition path_char (c : ascii) : bool :=
  Str.is_alnum c || Ascii.eqb c "/" || Ascii.eqb c "_" || Ascii.eqb c "." || Ascii.eqb c "-".

Definition safe_path (p : string) : bool :=
  negb (Str.startswith "/" p || Str.startswith "." p || Str.startswith "-" p) &&
  negb (str_in ".." (Str.split "/" (String.length p) p)) &&
  match Str.chars p with
  | [] => false
  | c :: l => Str.is_alnum c && forallb path_char l
  end.

Definition safe_paths (i : EngineeringWorkItem) : bool :=
  forallb safe_path (ew_allowed_paths i) && forallb safe_path (ew_context_paths i).

(** a commit hash in hexadecimal *)
Definition commit_pinned (s : string) : bool :=
  length_between 40 64 (String.length s) &&
  forallb (fun c => let n := N_of_ascii c in
    ((48 <=? n) && (n <=? 57) || (97 <=? n) && (n <=? 102))%N) (Str.chars s).

Definition work_item_deps (m : EngineeringMilestoneManifest) : list (string * list string) :=
  (fun i => (ew_id i, ew_depends_on i)) <$> em_work_items m.

(** [EngineeringMilestoneManifest.valid_dag] *)
Definition valid_engineering_dag (m : EngineeringMilestoneManifest) : bool :=
  match em_supervision m with Some _ => commit_pinned (em_base_ref m) | None => true end &&
  valid_dependencies (work_item_deps m) &&
  (Z.of_nat (length (em_work_items m)) <=? mb_max_tasks (em_budget m)).

(** [InfrastructurePhase.operation_policy_matches] *)
Definition phase_policy : list (string * (Z * bool)) :=
  [("preflight-invariance-postgres", (0, false));
   ("stage-invariance-postgres", (2, true));
   ("start-invariance-postgres-private", (3, true));
   ("initialize-invariance-schema", (3, true));
   ("configure-invariance-backups", (3, true));
   ("verify-invariance-postgres", (0, false));
   ("prepare-invariance-cutover", (0, false))].

Definition operation_policy_matches (p : InfrastructurePhase) : bool :=
  match List.find (fun e => String.eqb e.1 (ip_operation p)) phase_policy with
  | Some (_, (risk, approval)) => (ip_risk_level p =? risk) && Bool.eqb (ip_approval_required p) approval
  | None => false
  end.

Definition infrastructure_capabilities : list string :=
  ["deployment-architecture"; "infrastructure-observation"; "postgres-deployment"; "service-health"].

Definition phase_deps (m : InfrastructureRunbookManifest) : list (string * list string) :=
  (fun p => (ip_id p, ip_depends_on p)) <$> im_phases m.

(** [InfrastructureRunbookManifest.valid_dag] *)
Definition valid_infrastructure_dag (m : InfrastructureRunbookManifest) : bool :=
  bool_decide (im_allowed_machines m = ["vm2-deployment"]) &&
  bool_decide (im_required_capabilities m = infrastructure_capabilities) &&
  valid_dependencies (phase_deps m) &&
  (Z.of_nat (length (im_phases m)) <=? ib_max_tasks (im_budget m)).

(** the numeric ranges of [MissionBudget] and [InfrastructureMissionBudget] *)
Definition valid_budget (b : MissionBudget) : bool :=
  within 1 20 (mb_max_tasks b) && within 1 5 (mb_max_attempts_per_task b) &&
  within 60 86400 (mb_max_duration_seconds b) && within 1 100 (mb_max_files_changed b) &&
  within 1 10000 (mb_max_diff_lines b).

Definition valid_infrastructure_budget (b : InfrastructureMissionBudget) : bool :=
  within 1 20 (ib_max_tasks b) && within 1 3 (ib_max_attempts_per_task b) &&
  within 60 86400 (ib_max_duration_seconds b).

Definition valid_manifest (m : MissionManifest) : bool :=
  match m with
  | Engineering m => valid_budget (em_budget m) && within 0 1 (em_risk_level m) &&
                     valid_engineering_dag m && forallb safe_paths (em_work_items m)
  | Infrastructure m => valid_infrastructure_budget (im_budget m) &&
                        valid_infrastructure_dag m && forallb operation_policy_matches (im_phases m)
  end.

(** ** [model_dump(mode="json")] *)

Definition budget_json (b : MissionBudget) : json := JObj
  [("max_tasks", JInt (mb_max_tasks b));
   ("max_attempts_per_task", JInt (mb_max_attempts_per_task b));
   ("max_duration_seconds", JInt (mb_max_duration_seconds b));
   ("max_files_changed", JInt (mb_max_files_changed b));
   ("max_diff_lines", JInt (mb_max_diff_lines b))].

Definition work_item_json (i : EngineeringWorkItem) : json := JObj
  [("id", JStr (ew_id i));
   ("objective", JStr (ew_objective i));
   ("depends_on", Json.str_list (ew_depends_on i));
   ("allowed_paths", Json.str_list (ew_allowed_paths i));
   ("context_paths", Json.str_list (ew_context_paths i));
   ("acceptance_criteria", Json.str_list (ew_acceptance_criteria i));
   ("stop_conditions", Json.str_list (ew_stop_conditions i))].

Definition supervision_json (p : MissionSupervisionPolicy) : Json.dict :=
  [("mode", JStr "autonomous");
   ("approval_mode", JStr "mission_plan");
   ("max_auto_recoveries", JInt (mp_max_auto_recoveries p));
   ("retry_backoff_seconds", JInt (mp_retry_backoff_seconds p));
   ("retryable_categories", Json.str_list (mp_retryable_categories p));
   ("rehearsal_evidence_sha256", JStr (mp_rehearsal_evidence_sha256 p));
   ("rehearsal_source_commit", JStr (mp_rehearsal_source_commit p))].

Definition opt_supervision (p : option MissionSupervisionPolicy) : json :=
  from_option (JObj ∘ supervision_json) JNull p.

Definition engineering_json (m : EngineeringMilestoneManifest) : json := JObj
  [("schema_version", JInt 1);
   ("milestone_id", JStr (em_milestone_id m));
   ("project", JStr (em_project m));
   ("objective", JStr (em_objective m));
   ("base_ref", JStr (em_base_ref m));
   ("source_references", Json.str_list (em_source_references m));
   ("workflow", JStr "engineering-mission");
   ("risk_level", JInt (em_risk_level m));
   ("allowed_machines", Json.str_list (em_allowed_machines m));
   ("required_capabilities", Json.str_list (em_required_capabilities m));
   ("budget", budget_json (em_budget m));
   ("work_items", JList (work_item_json <$> em_work_items m));
   ("deliverables", Json.str_list (em_deliverables m));
   ("approved_by", JStr (em_approved_by m));
   ("approval_reference", JStr (em_approval_reference m));
   ("supervision", opt_supervision (em_supervision m))].

Definition phase_json (p : InfrastructurePhase) : json := JObj
  [("id", JStr (ip_id p));
   ("operation", JStr (ip_operation p));
   ("objective", JStr (ip_objective p));
   ("depends_on", Json.str_list (ip_depends_on p));
   ("risk_level", JInt (ip_risk_level p));
   ("approval_required", JBool (ip_approval_required p));
   ("acceptance_criteria", Json.str_list (ip_acceptance_criteria p));
   ("expected_outputs", Json.str_list (ip_expected_outputs p))].

Definition infrastructure_json (m : InfrastructureRunbookManifest) : json := JObj
  [("schema_version", JInt 1);
   ("milestone_id", JStr (im_milestone_id m));
   ("project", JStr "invariance_research");
   ("objective", JStr (im_objective m));
   ("source_references", Json.str_list (im_source_references m));
   ("workflow", JStr "infrastructure-runbook");
   ("runbook", JStr "vm2-postgres-deployment");
   ("runbook_version", JStr "1.0.0");
   ("target", JStr "vm2-invariance-postgres");
   ("allowed_machines", Json.str_list (im_allowed_machines m));
   ("required_capabilities", Json.str_list (im_required_capabilities m));
   ("budget", JObj [("max_tasks", JInt (ib_max_tasks (im_budget m)));
                    ("max_attempts_per_task", JInt (ib_max_attempts_per_task (im_budget m)));
                    ("max_duration_seconds", JInt (ib_max_duration_seconds (im_budget m)))]);
   ("phases", JList (phase_json <$> im_phases m));
   ("approved_by", JStr (im_approved_by m));
   ("approval_reference", JStr (im_approval_reference m));
   ("supervision", opt_supervision (im_supervision m))].

Definition manifest_json (m : MissionManifest) : json :=
  match m with
  | Engineering m => engineering_json m
  | Infrastructure m => infrastructure_json m
  end.

Definition canonical_manifest (m : MissionManifest) : string := Json.dumps (manifest_json m).

(** ** Creation *)

(** the parts of a manifest both kinds of mission record *)
Record mission_terms := mkMissionTerms {
  mt_milestone_id : string;
  mt_project : string;
  mt_objective : string;
  mt_approved_by : string;
  mt_approval_reference : string;
  mt_max_tasks : Z;
  mt_max_attempts : Z;
  mt_max_duration_seconds : Z;
  mt_supervision : option MissionSupervisionPolicy }.

Definition engineering_terms (m : EngineeringMilestoneManifest) : mission_terms :=
  mkMissionTerms (em_milestone_id m) (em_project m) (em_objective m) (em_approved_by m)
    (em_approval_reference m) (mb_max_tasks (em_budget m)) (mb_max_attempts_per_task (em_budget m))
    (mb_max_duration_seconds (em_budget m)) (em_supervision m).

Definition infrastructure_terms (m : InfrastructureRunbookManifest) : mission_terms :=
  mkMissionTerms (im_milestone_id m) "invariance_research" (im_objective m) (im_approved_by m)
    (im_approval_reference m) (ib_max_tasks (im_budget m)) (ib_max_attempts_per_task (im_budget m))
    (ib_max_duration_seconds (im_budget m)) (im_supervision m).

(** [digest[:8]] *)
Definition short_digest (d : string) : string := String.substring 0 8 d.

Section ops.
Context `{World}.

Definition append_mission_event (mission_id : uuid) (event_type actor message : string)
    (payload : Json.dict) : Sess unit :=
  append_log mission_events (mkMissionEvent mission_id event_type actor message payload w_server_now).

Definition new_mission (id : uuid) (t : mission_terms) (manifest : json) (created_by signature : string)
    (now : datetime) : EngineeringMission :=
  let supervised := match mt_supervision t with Some _ => true | None => false end in
  mkEngineeringMission id (mt_milestone_id t) (mt_project t) (mt_objective t)
    (if supervised then MPendingApproval else MActive) (digest manifest) manifest
    (mt_approved_by t) (mt_approval_reference t) signature (mt_max_tasks t) (mt_max_attempts t)
    (mt_max_duration_seconds t) (now + seconds (mt_max_duration_seconds t)) created_by
    w_server_now w_server_now None supervised (if supervised then Some SvPendingApproval else None)
    (from_option supervision_json [] (mt_supervision t)) None None 0 None [].

(** the mission row, with its unique milestone *)
Definition add_mission (t : mission_terms) (manifest : json) (created_by signature : string)
    : Sess uuid :=
  now ← utc_now;
  clash ← select_one missions (fun m => str_eqb (ms_milestone_id m) (mt_milestone_id t));
  match clash with
  | Some _ => integrity_error
  | None =>
      id ← fresh_id;
      _ ← insert_row missions id (new_mission id t manifest created_by signature now);
      mret id
  end.

(** [db.add(TaskDependency(...))]: the pair is unique *)
Definition add_dependency (task_id depends_on : uuid) : Sess unit :=
  clash ← gets (fun d => existsb (fun td =>
    bool_decide (td_task_id td = task_id) && bool_decide (td_depends_on_task_id td = depends_on))
    (dependencies d));
  if clash : bool then integrity_error
  else append_log dependencies (mkTaskDependency task_id depends_on w_server_now).

(** [tasks_by_step[key].id] *)
Definition task_of_step (steps : list (string * uuid)) (key : string) : Sess uuid :=
  match List.find (fun s => String.eqb s.1 key) steps with
  | Some s => mret s.2
  | None => raise (PyException "KeyError" key)
  end.

Definition add_dependencies (steps : list (string * uuid)) (item : string * list string) : Sess unit :=
  for_each item.2 (fun dependency =>
    task_id ← task_of_step steps item.1;
    depends_on ← task_of_step steps dependency;
    add_dependency task_id depends_on).

(** *** Engineering missions *)

Definition work_item_contract (m : EngineeringMilestoneManifest) (i : EngineeringWorkItem) : Json.dict :=
  [("repository", JStr (em_project m));
   ("workflow", JStr "engineering-mission");
   ("base_ref", JStr (em_base_ref m));
   ("milestone_id", JStr (em_milestone_id m));
   ("work_item_id", JStr (ew_id i));
   ("objective", JStr (ew_objective i));
   ("allowed_paths", Json.str_list (ew_allowed_paths i));
   ("context_paths", Json.str_list (ew_context_paths i));
   ("acceptance_criteria", Json.str_list (ew_acceptance_criteria i));
   ("stop_conditions", Json.str_list (ew_stop_conditions i));
   ("max_files_changed", JInt (mb_max_files_changed (em_budget m)));
   ("max_diff_lines", JInt (mb_max_diff_lines (em_budget m)));
   ("max_duration_seconds", JInt (mb_max_duration_seconds (em_budget m)))].

Definition work_item_task (m : EngineeringMilestoneManifest) (mission_id : uuid) (digest : string)
    (created_by : string) (index : Z) (i : EngineeringWorkItem) (id : uuid) : Task :=
  let contract := work_item_contract m i in
  mkTask id ("M4-" +:+ short_digest digest +:+ "-" +:+ Str.pad 2 index) (em_project m)
    "engineering_mission" (em_milestone_id m +:+ ": " +:+ ew_id i) (ew_objective i) Queued 60
    (em_risk_level m) None None None None (Some mission_id) (Some (ew_id i)) None created_by contract
    (Json.str_list ["patch"; "validation"; "review"; "pr_bundle"])
    (Json.str_list (ew_acceptance_criteria i))
    [("milestone_approval_reference", JStr (em_approval_reference m));
     ("approved_by", JStr (em_approved_by m))]
    false (task_plan_digest contract) (em_required_capabilities m) (em_allowed_machines m)
    (mb_max_attempts_per_task (em_budget m)) 0 None None None None None [] [] w_server_now
    w_server_now None None None None.

Definition add_work_item (m : EngineeringMilestoneManifest) (mission_id : uuid)
    (digest created_by : string) (ix : Z * EngineeringWorkItem) : Sess (string * uuid) :=
  let '(index, item) := ix in
  id ← fresh_id;
  let task := work_item_task m mission_id digest created_by index item id in
  clash ← select_one tasks (numbered (t_task_number task));
  match clash with
  | Some _ => integrity_error
  | None =>
      _ ← insert_row tasks id task;
      _ ← append_task_event id "task_created" "Task created from an approved engineering milestone."
            None [("created_by", JStr created_by); ("priority", JInt (t_priority task));
                  ("risk_level", JInt (t_risk_level task))];
      _ ← append_task_event id "mission_task_planned" "Task created from approved milestone manifest."
            None [("mission_id", JStr (uuid_str mission_id)); ("manifest_digest", JStr digest);
                  ("work_item_id", JStr (ew_id item))];
      mret (ew_id item, id)
  end.

(** [enumerate(l, start=1)] *)
Definition enumerate1 {A} (l : list A) : list (Z * A) := imap (fun i x => (Z.of_nat i + 1, x)) l.

Definition _create_engineering_mission (m : EngineeringMilestoneManifest)
    (created_by signature : string) : Sess uuid :=
  let manifest := engineering_json m in
  mission_id ← add_mission (engineering_terms m) manifest created_by signature;
  _ ← append_mission_event mission_id "mission_created" created_by
        "Approved engineering mission created." [("manifest_digest", JStr (digest manifest))];
  steps ← map_each (enumerate1 (em_work_items m))
            (add_work_item m mission_id (digest manifest) created_by);
  _ ← for_each (work_item_deps m) (add_dependencies steps);
  mret mission_id.

(** *** Infrastructure missions *)

Definition observation_operations : list string :=
  ["preflight-invariance-postgres"; "verify-invariance-postgres"; "prepare-invariance-cutover"].

Definition phase_task_create (m : InfrastructureRunbookManifest) (digest created_by : string)
    (index : Z) (p : InfrastructurePhase) : TaskCreate :=
  let supervised := match im_supervision m with Some _ => true | None => false end in
  mkTaskCreate ("INF-" +:+ short_digest digest +:+ "-" +:+ Str.pad 2 index) "invariance_research"
    (if str_in (ip_operation p) observation_operations
     then "infrastructure_observation" else "infrastructure_operation")
    (im_milestone_id m +:+ ": " +:+ ip_id p) (ip_objective p) 70 (ip_risk_level p) None created_by
    [("runbook", JStr "vm2-postgres-deployment");
     ("runbook_version", JStr "1.0.0");
     ("operation", JStr (ip_operation p));
     ("target", JStr "vm2-invariance-postgres");
     ("parameters", JObj [])]
    (Json.str_list (ip_expected_outputs p)) (Json.str_list (ip_acceptance_criteria p))
    [("kind", JStr (if ip_approval_required p then "explicit" else "automatic"));
     ("risk", JInt (ip_risk_level p));
     ("mission_manifest_digest", JStr digest);
     ("phase_id", JStr (ip_id p))]
    (ip_approval_required p && negb supervised) (im_required_capabilities m) (im_allowed_machines m)
    (ib_max_attempts_per_task (im_budget m)).

Definition add_phase (m : InfrastructureRunbookManifest) (mission_id : uuid)
    (digest created_by : string) (ix : Z * InfrastructurePhase) : Sess (string * uuid) :=
  let '(index, phase) := ix in
  let payload := phase_task_create m digest created_by index phase in
  if negb (valid_task_create payload) then validation_error "TaskCreate"
  else
    id ← fresh_id;
    let task := build_task payload id <| t_mission_id := Some mission_id |>
                  <| t_milestone_step_id := Some (ip_id phase) |> in
    _ ← persist_new_task task;
    _ ← append_task_event id "mission_task_planned"
          "Task created from approved infrastructure runbook manifest." None
          [("mission_id", JStr (uuid_str mission_id)); ("manifest_digest", JStr digest);
           ("phase_id", JStr (ip_id phase))];
    mret (ip_id phase, id).

Definition _create_infrastructure_mission (m : InfrastructureRunbookManifest)
    (created_by signature : string) : Sess uuid :=
  let manifest := infrastructure_json m in
  mission_id ← add_mission (infrastructure_terms m) manifest created_by signature;
  _ ← append_mission_event mission_id "mission_created" created_by
        "Approved infrastructure runbook mission created."
        [("manifest_digest", JStr (digest manifest)); ("runbook", JStr "vm2-postgres-deployment")];
  steps ← map_each (enumerate1 (im_phases m)) (add_phase m mission_id (digest manifest) created_by);
  _ ← for_each (phase_deps m) (add_dependencies steps);
  mret mission_id.

Definition create_mission (m : MissionManifest) (created_by signature : string) : Sess uuid :=
  match m with
  | Infrastructure m => _create_infrastructure_mission m created_by signature
  | Engineering m => _create_engineering_mission m created_by signature
  end.

Definition verify_mission_approval (m : MissionManifest) (signature secret : string) : Sess unit :=
  if str_eqb (hmac_sha256 secret (canonical_manifest m)) signature then mret tt
  else http 422 "Mission approval signature verification failed.".

(** ** Status of a mission *)

Definition alter_mission (id : uuid) (f : EngineeringMission → EngineeringMission) : Sess unit :=
  alter_row missions id (fun m => f m <| ms_updated_at := w_server_now |>).

Definition mission_tasks (d : database) (mission_id : uuid) : list Task :=
  List.filter (fun t => bool_decide (t_mission_id t = Some mission_id)) (table_rows (tasks d)).

Definition all_tasks_succeeded (l : list Task) : bool :=
  negb (bool_decide (l = [])) && forallb (fun t => bool_decide (t_status t = Succeeded)) l.

Definition has_unsuccessful (l : list Task) : bool :=
  existsb (fun t => bool_decide (t_status t ∈ [Failed; Cancelled])) l.

Definition status_list (l : list Task) : json :=
  Json.str_list ((task_status_str ∘ t_status) <$> l).

Definition announce_transition (id : uuid) (previous status : MissionStatus) (l : list Task) : Sess unit :=
  when (negb (bool_decide (status = previous)) && bool_decide (status ∈ [MSucceeded; MBlocked]))
    (append_mission_event id ("mission_" +:+ mission_status_str status) "control-plane"
       ("Mission transitioned to " +:+ mission_status_str status +:+ ".")
       [("task_statuses", status_list l)]).

Definition refresh_mission (mission_id : uuid) : Sess unit :=
  mission ← get_row missions mission_id;
  match mission with
  | None => mret tt
  | Some m =>
      l ← gets (fun d => mission_tasks d mission_id);
      now ← utc_now;
      let previous := ms_status m in
      if all_tasks_succeeded l then
        _ ← alter_mission mission_id (fun m =>
              m <| ms_status := MSucceeded |> <| ms_completed_at := Some now |>);
        announce_transition mission_id previous MSucceeded l
      else
        let status := if (ms_deadline_at m <=? now) || has_unsuccessful l then MBlocked else MActive in
        _ ← when (negb (bool_decide (status = previous)))
              (alter_mission mission_id (fun m => m <| ms_status := status |>));
        announce_transition mission_id previous status l
  end.

(** ** Endpoints of [routes/missions.py] that change state *)

Definition submit_mission (secret : string) (m : MissionManifest) (created_by signature : string)
    : Sess uuid :=
  if negb (valid_manifest m) then validation_error "MissionCreate"
  else
    _ ← verify_mission_approval m signature secret;
    catch_integrity
      (id ← create_mission m created_by signature; _ ← commit; mret id)
      "Milestone ID or mission task already exists.".

(** [GET /v1/missions/{mission_id}] refreshes the mission and commits *)
Definition get_mission (mission_id : uuid) : Sess (option EngineeringMission) :=
  mission ← get_row missions mission_id;
  match mission with
  | None => http 404 "Mission not found."
  | Some _ =>
      _ ← refresh_mission mission_id;
      _ ← commit;
      get_row missions mission_id
  end.
End ops.
