(* ===== verification/AgentContext.v ===== *)
(** * Working memory of a task

    [services/agent_context.py]: [discard_working_memory], the part the task
    runtime and the task graphs call when a task stops. *)
From S2P Require Import Prelude Py Models Store Logic.

Open Scope Z_scope.

Section ops.
Context `{World}.

Definition active_memory (task_id : uuid) (r : AgentWorkingMemoryReceipt) : bool :=
  bool_decide (wm_task_id r = task_id) && str_eqb (wm_status r) "active".

Definition discard_receipt (now : datetime) (r : AgentWorkingMemoryReceipt) : AgentWorkingMemoryReceipt :=
  r <| wm_status := "discarded" |> <| wm_discarded_at := Some now |>.

(** [discard_working_memory(db, task_id)], with its default [commit=False] *)
Definition discard_working_memory (task_id : uuid) : Sess Z :=
  now ← utc_now;
  records ← select_rows working_memory (active_memory task_id);
  _ ← for_each records (fun r => alter_row working_memory (wm_id r) (discard_receipt now));
  mret (Z.of_nat (length records)).
End ops.

Section frames.
Context `{World}.
Lemma discard_working_memory_frame {T} (π : database → T) id :
  (∀ v d, π (set_field working_memory v d) = π d) → preserves π (discard_working_memory id).
Proof. intros Hπ. unfold discard_working_memory. frame. apply preserves_alter_row, Hπ. Qed.
End frames.
#[export] Hint Resolve discard_working_memory_frame : frame.
