(* ===== verification/TaskGraphs.v ===== *)
(** * Typed task graphs

    [schemas/task_graph.py] and [services/task_graphs.py]: a validated graph of
    task nodes is materialised as tasks with dependencies, reconciled against
    their statuses, cancelled cooperatively and compensated on failure. *)
From S2P Require Import Prelude Py Sha256 Models Store Logic TaskCore Notifications Governance.
From S2P Require Import AgentGovernance Controls EvaluatorRouting Tasks Dag Missions AgentContext.
From Stdlib Require Import Ascii.

Open Scope Z_scope.

(** ** Requests *)

Record TaskGraphNodeCreate := mkTaskGraphNodeCreate {
  nc_key : string;
  nc_role : string;
  nc_node_type : string;
  nc_depends_on : list string;
  nc_input_type : string;
  nc_output_type : string;
  nc_task : GraphTaskSpec;
  nc_stop_conditions : list string;
  nc_compensation : option GraphTaskSpec }.

Record TaskGraphCreate := mkTaskGraphCreate {
  gcr_graph_key : string;
  gcr_project : string;
  gcr_objective : string;
  gcr_created_by : string;
  gcr_max_nodes : Z;
  gcr_max_total_attempts : Z;
  gcr_max_duration_seconds : Z;
  gcr_max_parallelism : Z;
  gcr_nodes : list TaskGraphNodeCreate }.

Record TaskGraphMessageCreate := mkTaskGraphMessageCreate {
  mc_node_key : option string;
  mc_message_type : string;
  mc_sender : string;
  mc_recipient : string;
  mc_payload : Json.dict }.

(** [TaskGraphCreate.validate_dag] *)
Definition node_deps (p : TaskGraphCreate) : list (string * list string) :=
  (fun n => (nc_key n, nc_depends_on n)) <$> gcr_nodes p.

Definition declared_attempts (p : TaskGraphCreate) : Z :=
  foldr Z.add 0 ((gs_max_attempts ∘ nc_task) <$> gcr_nodes p).

Definition validate_dag (p : TaskGraphCreate) : bool :=
  (Z.of_nat (length (gcr_nodes p)) <=? gcr_max_nodes p) &&
  valid_dependencies (node_deps p) &&
  (declared_attempts p <=? gcr_max_total_attempts p).

(** the fields of [GraphTaskSpec] *)
Definition valid_spec (s : GraphTaskSpec) : bool :=
  len_between 1 150 (gs_task_type s) && len_between 1 300 (gs_title s) && Str.nonempty (gs_objective s) &&
  (1 <=? length (gs_expected_outputs s))%nat && (1 <=? length (gs_acceptance_criteria s))%nat &&
  within 1 10 (gs_max_attempts s) && within 0 5 (gs_risk_level s).

(** ["^[a-z0-9][a-z0-9-]{0,99}$"] *)
Definition node_key_pattern (s : string) : bool :=
  match Str.chars s with
  | [] => false
  | c :: l => Str.is_lower_alnum c && forallb (fun c => Str.is_lower_alnum c || Ascii.eqb c "-") l && (length l <=? 99)%nat
  end.

(** ["^[A-Za-z0-9][A-Za-z0-9._-]{0,99}$"] *)
Definition graph_key_pattern (s : string) : bool :=
  match Str.chars s with
  | [] => false
  | c :: l =>
      Str.is_alnum c &&
      forallb (fun c => Str.is_alnum c || Ascii.eqb c "." || Ascii.eqb c "_" || Ascii.eqb c "-") l && (length l <=? 99)%nat
  end.

Definition NODE_TYPES : list string := ["work"; "review"; "decision"; "publication"; "compensation"].

(** the fields of [TaskGraphNodeCreate] *)
Definition valid_node_create (n : TaskGraphNodeCreate) : bool :=
  node_key_pattern (nc_key n) && len_between 1 100 (nc_role n) && str_in (nc_node_type n) NODE_TYPES &&
  (length (nc_depends_on n) <=? 20)%nat && len_between 1 100 (nc_input_type n) && len_between 1 100 (nc_output_type n) &&
  valid_spec (nc_task n) && within 1 20 (Z.of_nat (length (nc_stop_conditions n))) &&
  from_option valid_spec true (nc_compensation n).

(** [TaskGraphCreate]: its fields, its nodes and [validate_dag] *)
Definition valid_graph_create (p : TaskGraphCreate) : bool :=
  graph_key_pattern (gcr_graph_key p) && len_between 1 100 (gcr_project p) && Str.nonempty (gcr_objective p) &&
  len_between 1 150 (gcr_created_by p) &&
  within 1 64 (gcr_max_nodes p) && within 1 256 (gcr_max_total_attempts p) &&
  within 60 86400 (gcr_max_duration_seconds p) && within 1 16 (gcr_max_parallelism p) &&
  within 1 64 (Z.of_nat (length (gcr_nodes p))) && forallb valid_node_create (gcr_nodes p) && validate_dag p.

(** ["^[a-z][a-z0-9_.-]{0,99}$"] *)
Definition message_type_pattern (s : string) : bool :=
  match Str.chars s with
  | [] => false
  | c :: l =>
      Str.is_lower c &&
      forallb (fun c => Str.is_lower_alnum c || Ascii.eqb c "_" || Ascii.eqb c "." || Ascii.eqb c "-") l &&
      (length l <=? 99)%nat
  end.

Definition valid_message_create (p : TaskGraphMessageCreate) : bool :=
  message_type_pattern (mc_message_type p) && len_between 1 100 (mc_sender p) &&
  len_between 1 100 (mc_recipient p).

(** [model_dump(mode="json")] *)
Definition spec_json (s : GraphTaskSpec) : json := JObj
  [("task_type", JStr (gs_task_type s));
   ("title", JStr (gs_title s));
   ("objective", JStr (gs_objective s));
   ("input_contract", JObj (gs_input_contract s));
   ("expected_outputs", Json.str_list (gs_expected_outputs s));
   ("acceptance_criteria", Json.str_list (gs_acceptance_criteria s));
   ("required_capabilities", Json.str_list (gs_required_capabilities s));
   ("allowed_machines", Json.str_list (gs_allowed_machines s));
   ("max_attempts", JInt (gs_max_attempts s));
   ("risk_level", JInt (gs_risk_level s))].

Definition node_json (n : TaskGraphNodeCreate) : json := JObj
  [("key", JStr (nc_key n));
   ("role", JStr (nc_role n));
   ("node_type", JStr (nc_node_type n));
   ("depends_on", Json.str_list (nc_depends_on n));
   ("input_type", JStr (nc_input_type n));
   ("output_type", JStr (nc_output_type n));
   ("task", spec_json (nc_task n));
   ("stop_conditions", Json.str_list (nc_stop_conditions n));
   ("compensation", from_option spec_json JNull (nc_compensation n))].

Definition graph_create_json (p : TaskGraphCreate) : json := JObj
  [("graph_key", JStr (gcr_graph_key p));
   ("project", JStr (gcr_project p));
   ("objective", JStr (gcr_objective p));
   ("created_by", JStr (gcr_created_by p));
   ("max_nodes", JInt (gcr_max_nodes p));
   ("max_total_attempts", JInt (gcr_max_total_attempts p));
   ("max_duration_seconds", JInt (gcr_max_duration_seconds p));
   ("max_parallelism", JInt (gcr_max_parallelism p));
   ("nodes", JList (node_json <$> gcr_nodes p))].

Definition ACTIVE_GRAPH : list GraphStatus := [GActive; GCancelling; GCompensating].
Definition active_graph (g : TaskGraph) : bool := bool_decide (tg_status g ∈ ACTIVE_GRAPH).

(** SQL [LIKE]: ["%"] stands for any text, ["_"] for any one character *)
Fixpoint sql_like (pattern s : string) : bool :=
  match pattern with
  | EmptyString => negb (Str.nonempty s)
  | String c p =>
      if Ascii.eqb c "%" then
        (fix any (s : string) : bool :=
           sql_like p s || match s with EmptyString => false | String _ s' => any s' end) s
      else
        match s with
        | EmptyString => false
        | String x s' => (Ascii.eqb c "_" || Ascii.eqb c x) && sql_like p s'
        end
  end.

Definition node_leb (a b : TaskGraphNode) : bool := gn_ordinal a <=? gn_ordinal b.

Definition graph_nodes (d : database) (graph_id : uuid) : list TaskGraphNode :=
  sort_by node_leb (List.filter (fun n => bool_decide (gn_graph_id n = graph_id)) (table_rows (nodes d))).

Section ops.
Context `{World}.

(** [append_event] *)
Definition graph_event_body (graph_id : uuid) (sequence : Z) (event_type actor : string)
    (payload : Json.dict) (previous : option string) : json := JObj
  [("graph_id", JStr (uuid_str graph_id));
   ("sequence", JInt sequence);
   ("event_type", JStr event_type);
   ("actor", JStr actor);
   ("payload", JObj payload);
   ("previous_digest", Json.opt_str previous)].

Definition append_graph_event (graph_id : uuid) (event_type actor : string) (payload : Json.dict)
    : Sess unit :=
  previous ← gets (fun d => max_by ge_sequence
    (List.filter (fun e => bool_decide (ge_graph_id e = graph_id)) (graph_events d)));
  let sequence := from_option ge_sequence 0 previous + 1 in
  let previous_digest := ge_event_digest <$> previous in
  append_log graph_events
    (mkTaskGraphEvent graph_id sequence event_type actor payload previous_digest
       (digest (graph_event_body graph_id sequence event_type actor payload previous_digest))
       w_server_now).

(** ** Creation *)

Definition new_graph (id : uuid) (p : TaskGraphCreate) : TaskGraph :=
  mkTaskGraph id (gcr_graph_key p) (gcr_project p) (gcr_objective p) GDraft
    "typed-task-graph-v1.0.0" (graph_create_json p) (digest (graph_create_json p))
    (gcr_max_nodes p) (gcr_max_total_attempts p) (gcr_max_duration_seconds p)
    (gcr_max_parallelism p) (gcr_created_by p) [] w_server_now None None None.

Definition new_node (id graph_id : uuid) (ordinal : Z) (n : TaskGraphNodeCreate) : TaskGraphNode :=
  mkTaskGraphNode id graph_id (nc_key n) (nc_role n) None (nc_node_type n) NodeBlocked
    (nc_depends_on n) (nc_input_type n) (nc_output_type n) (nc_task n) (nc_stop_conditions n)
    (nc_compensation n) ordinal w_server_now.

Definition add_node (graph_id : uuid) (io : Z * TaskGraphNodeCreate) : Sess unit :=
  id ← fresh_id;
  insert_row nodes id (new_node id graph_id io.1 io.2).

Definition create_graph (payload : TaskGraphCreate) : Sess uuid :=
  (* unique graph_key, unique manifest_digest *)
  clash ← select_one graphs (fun g => str_eqb (tg_graph_key g) (gcr_graph_key payload) ||
    str_eqb (tg_manifest_digest g) (digest (graph_create_json payload)));
  match clash with
  | Some _ => integrity_error
  | None =>
      id ← fresh_id;
      _ ← insert_row graphs id (new_graph id payload);
      _ ← for_each (imap (fun i n => (Z.of_nat i, n)) (gcr_nodes payload)) (add_node id);
      _ ← append_graph_event id "graph_created" (gcr_created_by payload)
            [("manifest_digest", JStr (digest (graph_create_json payload)));
             ("node_count", JInt (Z.of_nat (length (gcr_nodes payload))))];
      mret id
  end.

(** [_task_payload] *)
Definition _task_payload (graph : TaskGraph) (node : TaskGraphNode) (spec : GraphTaskSpec)
    (suffix : string) : TaskCreate :=
  mkTaskCreate (tg_graph_key graph +:+ "-" +:+ gn_node_key node +:+ suffix) (tg_project graph)
    (gs_task_type spec) (gs_title spec) (gs_objective spec) 50 (gs_risk_level spec) None
    (tg_created_by graph)
    (Json.set "task_graph" (JObj
       [("graph_id", JStr (uuid_str (tg_id graph)));
        ("node_key", JStr (gn_node_key node));
        ("manifest_digest", JStr (tg_manifest_digest graph))]) (gs_input_contract spec))
    (Json.str_list (gs_expected_outputs spec)) (Json.str_list (gs_acceptance_criteria spec)) []
    false (gs_required_capabilities spec) (gs_allowed_machines spec) (gs_max_attempts spec).

(** [build_task(_task_payload(...))], adjusted by [f] before it is persisted *)
Definition materialize (payload : TaskCreate) (f : Task → Task) : Sess (uuid * TaskStatus) :=
  if negb (valid_task_create payload) then validation_error "TaskCreate"
  else
    id ← fresh_id;
    let task := f (build_task payload id) in
    _ ← persist_new_task task;
    mret (id, t_status task).

Definition materialize_node (graph : TaskGraph) (node : TaskGraphNode) : Sess (string * uuid) :=
  created ← materialize (_task_payload graph node (gn_task_spec node) "")
              (fun t => t <| t_task_graph_node_id := Some (gn_id node) |>);
  _ ← alter_row nodes (gn_id node) (fun n =>
        n <| gn_task_id := Some created.1 |> <| gn_status := NodeTask created.2 |>);
  mret (gn_node_key node, created.1).

Definition activate_graph (graph : TaskGraph) (actor : string) : Sess unit :=
  if negb (bool_decide (tg_status graph = GDraft)) then
    http 409 "Only a draft task graph can be activated."
  else
    graph_rows ← gets (fun d => graph_nodes d (tg_id graph));
    created ← map_each graph_rows (materialize_node graph);
    _ ← for_each graph_rows (fun n => add_dependencies created (gn_node_key n, gn_depends_on n));
    stamp ← utc_now;
    let deadline := stamp + seconds (tg_max_duration_seconds graph) in
    _ ← alter_row graphs (tg_id graph) (fun g =>
          g <| tg_status := GActive |> <| tg_activated_at := Some stamp |>
            <| tg_deadline_at := Some deadline |>);
    append_graph_event (tg_id graph) "graph_activated" actor
      [("deadline_at", JStr (isoformat deadline));
       ("task_ids", JObj ((fun kv => (kv.1, JStr (uuid_str kv.2))) <$> created))].

(** ** Messages *)

Definition node_of_key (graph_id : uuid) (key : string) (n : TaskGraphNode) : bool :=
  bool_decide (gn_graph_id n = graph_id) && str_eqb (gn_node_key n) key.

Definition declared_type (n : TaskGraphNode) (message_type : string) : bool :=
  str_in message_type
    [gn_input_type n; gn_output_type n; "control.cancel"; "evidence.receipt"; "failure.report"].

Definition record_message (graph_id : uuid) (node : option uuid) (payload : TaskGraphMessageCreate)
    : Sess unit :=
  last_sequence ← gets (fun d => foldr Z.max 0 (gm_sequence <$>
    List.filter (fun m => bool_decide (gm_graph_id m = graph_id)) (graph_messages d)));
  let sequence := last_sequence + 1 in
  let payload_digest := digest (JObj (mc_payload payload)) in
  _ ← append_log graph_messages
        (mkTaskGraphMessage graph_id node sequence (mc_message_type payload) (mc_sender payload)
           (mc_recipient payload) (mc_payload payload) payload_digest w_server_now);
  append_graph_event graph_id "typed_message_recorded" (mc_sender payload)
    [("sequence", JInt sequence);
     ("message_type", JStr (mc_message_type payload));
     ("payload_digest", JStr payload_digest)].

Definition append_message (graph : TaskGraph) (payload : TaskGraphMessageCreate) : Sess unit :=
  if negb (active_graph graph) then
    http 409 "Messages are accepted only while a graph is active."
  else
    match mc_node_key payload with
    | None => record_message (tg_id graph) None payload
    | Some key =>
        if negb (Str.nonempty key) then record_message (tg_id graph) None payload
        else
          node ← select_one nodes (node_of_key (tg_id graph) key);
          match node with
          | None => http 404 "Task graph node not found."
          | Some n =>
              if negb (declared_type n (mc_message_type payload)) then
                http 422 "Message type is not declared by the target node."
              else record_message (tg_id graph) (Some (gn_id n)) payload
          end
    end.

(** ** Cancellation *)

Definition request_cancellation (stamp : datetime) (reason : string) (t : Task) : Task :=
  t <| t_cancel_requested_at := Some stamp |> <| t_cancel_reason := Some reason |>.

(** a leased task is asked to stop, an idle one is cancelled *)
Definition _cancel_task (task : Task) (reason : string) : Sess bool :=
  if terminal_task (t_status task) then mret false
  else
    let id := t_id task in
    stamp ← utc_now;
    if active_lease (t_status task) then
      _ ← alter_task id (request_cancellation stamp reason);
      _ ← append_task_event id "task_cancellation_requested" reason None [("cooperative", JBool true)];
      mret true
    else
      _ ← alter_task id (fun t => clear_lease (request_cancellation stamp reason t
            <| t_status := Cancelled |> <| t_completed_at := Some stamp |>));
      _ ← discard_working_memory id;
      _ ← append_task_event id "task_cancelled" reason None [("cooperative", JBool false)];
      mret true.

(** the task is a live object: its row is read again *)
Definition cancel_task_row (reason : string) (id : uuid) : Sess bool :=
  task ← get_row tasks id;
  match task with
  | None => mret false
  | Some t => _cancel_task t reason
  end.

Definition node_task (d : database) (n : TaskGraphNode) : option Task :=
  id ← gn_task_id n; tasks d !! id.

Definition cancel_node (reason : string) (n : TaskGraphNode) : Sess bool :=
  task ← gets (fun d => node_task d n);
  match task with
  | None => mret false
  | Some t => _cancel_task t reason
  end.

Definition count_true (l : list bool) : Z := Z.of_nat (length (List.filter id l)).

Definition cancel_graph (graph : TaskGraph) (actor reason : string) : Sess Z :=
  if negb (active_graph graph) then http 409 "Only an active task graph can be cancelled."
  else
    _ ← alter_row graphs (tg_id graph) (fun g => g <| tg_status := GCancelling |>);
    graph_rows ← select_rows nodes (fun n => bool_decide (gn_graph_id n = tg_id graph));
    affected ← map_each graph_rows (cancel_node reason);
    let changed := count_true affected in
    _ ← alter_row graphs (tg_id graph) (fun g => g <| tg_terminal_reason :=
          [("category", JStr "operator_cancelled"); ("reason", JStr reason)] |>);
    _ ← append_graph_event (tg_id graph) "graph_cancellation_requested" actor
          [("reason", JStr reason); ("tasks_affected", JInt changed)];
    mret changed.

(** ** Compensation *)

Definition compensation_number (graph : TaskGraph) (node : TaskGraphNode) : string :=
  tg_graph_key graph +:+ "-" +:+ gn_node_key node +:+ "-compensate".

Definition compensate_node (graph : TaskGraph) (node : TaskGraphNode) : Sess bool :=
  original ← gets (fun d => node_task d node);
  match original, gn_compensation node with
  | Some original, Some spec =>
      if negb (bool_decide (t_status original = Succeeded)) then mret false
      else
        existing ← select_one tasks (numbered (compensation_number graph node));
        match existing with
        | Some _ => mret false
        | None =>
            created ← materialize (_task_payload graph node spec "-compensate")
                        (fun t => t <| t_parent_task_id := Some (t_id original) |>);
            _ ← append_graph_event (tg_id graph) "compensation_materialized" "task-graph-controller"
                  [("node_key", JStr (gn_node_key node));
                   ("task_id", JStr (uuid_str created.1));
                   ("original_task_id", JStr (uuid_str (t_id original)))];
            mret true
        end
  | _, _ => mret false
  end.

(** compensations run for the latest nodes first *)
Definition _create_compensations (graph : TaskGraph) (graph_rows : list TaskGraphNode) : Sess Z :=
  created ← map_each (sort_by (fun a b => node_leb b a) graph_rows) (compensate_node graph);
  mret (count_true created).

(** ** Reconciliation *)

(** a node takes the status of its task; [true] when it changes *)
Definition mirror_status (n : TaskGraphNode) : Sess bool :=
  task ← gets (fun d => node_task d n);
  match task with
  | None => mret false
  | Some t =>
      if bool_decide (gn_status n = NodeTask (t_status t)) then mret false
      else
        _ ← alter_row nodes (gn_id n) (fun n => n <| gn_status := NodeTask (t_status t) |>);
        mret true
  end.

Definition all_succeeded (l : list Task) : bool :=
  forallb (fun t => bool_decide (t_status t = Succeeded)) l.
Definition all_terminal (l : list Task) : bool := forallb (fun t => terminal_task (t_status t)) l.

Definition reconcile_compensating (graph : TaskGraph) : Sess unit :=
  compensations ← select_rows tasks (fun t =>
    sql_like (tg_graph_key graph +:+ "-%-compensate") (t_task_number t));
  when (negb (bool_decide (compensations = [])) && all_terminal compensations)
    (let status := if all_succeeded compensations then GCompensated else GCompensationFailed in
     stamp ← utc_now;
     _ ← alter_row graphs (tg_id graph) (fun g =>
           g <| tg_status := status |> <| tg_completed_at := Some stamp |>);
     append_graph_event (tg_id graph) "graph_compensation_completed" "task-graph-controller"
       [("status", JStr (graph_status_str status));
        ("task_ids", JList ((fun t => JStr (uuid_str (t_id t))) <$> compensations))]).

Definition budget_reason (graph : TaskGraph) (stamp : datetime) (attempts : Z) : option string :=
  if match tg_deadline_at graph with Some e => e <=? stamp | None => false end
  then Some "graph_deadline_exceeded"
  else if tg_max_total_attempts graph <? attempts then Some "graph_attempt_budget_exceeded"
  else None.

(** cancel what is left and compensate what succeeded *)
Definition fail_closed (graph : TaskGraph) (graph_rows : list TaskGraphNode) (graph_tasks : list Task)
    (stamp : datetime) (reason : string) (failed : list Task) : Sess Z :=
  _ ← map_each (t_id <$> graph_tasks) (cancel_task_row reason);
  let terminal_reason :=
    [("category", JStr reason);
     ("failed_task_ids", JList ((fun t => JStr (uuid_str (t_id t))) <$> failed))] in
  _ ← alter_row graphs (tg_id graph) (fun g =>
        g <| tg_status := GCompensating |> <| tg_terminal_reason := terminal_reason |>);
  created ← _create_compensations graph graph_rows;
  _ ← when (created =? 0)
        (alter_row graphs (tg_id graph) (fun g =>
           g <| tg_status := GFailed |> <| tg_completed_at := Some stamp |>));
  _ ← append_graph_event (tg_id graph) "graph_failed_closed" "task-graph-controller"
        (terminal_reason ++ [("compensation_tasks_created", JInt created)]);
  mret created.

Definition runnable (t : Task) : bool :=
  bool_decide (t_status t ∈ [Queued; PendingApproval; Leased; Running]).

Definition deadlock_reason : Json.dict :=
  [("category", JStr "deadlock"); ("reason", JStr "No runnable or terminal path remains.")].

(** a graph within budget and without failed tasks; the compensations created *)
Definition settle (graph : TaskGraph) (graph_rows : list TaskGraphNode) (graph_tasks : list Task)
    (stamp : datetime) (attempts : Z) : Sess Z :=
  if negb (bool_decide (graph_tasks = [])) && all_succeeded graph_tasks then
    _ ← alter_row graphs (tg_id graph) (fun g =>
          g <| tg_status := GSucceeded |> <| tg_completed_at := Some stamp |>);
    _ ← append_graph_event (tg_id graph) "graph_succeeded" "task-graph-controller"
          [("attempts", JInt attempts)];
    mret 0
  else if bool_decide (tg_status graph = GCancelling) && all_terminal graph_tasks then
    created ← _create_compensations graph graph_rows;
    _ ← alter_row graphs (tg_id graph) (fun g =>
          g <| tg_status := if created =? 0 then GCancelled else GCompensating |>
            <| tg_completed_at := if created =? 0 then Some stamp else None |>);
    mret created
  else
    _ ← when (negb (existsb runnable graph_tasks) && negb (bool_decide (graph_tasks = [])))
          (_ ← alter_row graphs (tg_id graph) (fun g =>
                 g <| tg_status := GFailed |> <| tg_completed_at := Some stamp |>
                   <| tg_terminal_reason := deadlock_reason |>);
           append_graph_event (tg_id graph) "graph_deadlocked" "task-graph-controller" deadlock_reason);
    mret 0.

(** nodes changed, compensations created *)
Definition reconcile_graph (graph : TaskGraph) : Sess (Z * Z) :=
  if negb (active_graph graph) then mret (0, 0)
  else
    graph_rows ← gets (fun d => graph_nodes d (tg_id graph));
    changed ← map_each graph_rows mirror_status;
    graph_tasks ← gets (fun d => omap (node_task d) graph_rows);
    let transitioned := count_true changed in
    let attempts := foldr Z.add 0 (t_attempt_count <$> graph_tasks) in
    if bool_decide (tg_status graph = GCompensating) then
      _ ← reconcile_compensating graph;
      mret (transitioned, 0)
    else
      stamp ← utc_now;
      let failed := List.filter (fun t => bool_decide (t_status t = Failed)) graph_tasks in
      match budget_reason graph stamp attempts, failed with
      | None, [] =>
          created ← settle graph graph_rows graph_tasks stamp attempts;
          mret (transitioned, created)
      | reason, _ =>
          created ← fail_closed graph graph_rows graph_tasks stamp
                      (default "dependency_failed" reason) failed;
          mret (transitioned, created)
      end.

(** ** Endpoints of [routes/task_graphs.py] *)

Definition locked (graph_id : uuid) : Sess TaskGraph :=
  graph ← get_row graphs graph_id;
  match graph with
  | None => http 404 "Task graph not found."
  | Some g => mret g
  end.

Definition create_graph_endpoint (payload : TaskGraphCreate) : Sess uuid :=
  if negb (valid_graph_create payload) then validation_error "TaskGraphCreate"
  else
    catch_integrity (id ← create_graph payload; _ ← commit; mret id)
      "Task graph key or manifest digest already exists.".

Definition activate_endpoint (graph_id : uuid) (actor : string) : Sess unit :=
  graph ← locked graph_id;
  _ ← activate_graph graph actor;
  commit.

Definition message_endpoint (graph_id : uuid) (payload : TaskGraphMessageCreate) : Sess unit :=
  if negb (valid_message_create payload) then validation_error "TaskGraphMessageCreate"
  else
    graph ← locked graph_id;
    _ ← append_message graph payload;
    commit.

Definition cancel_endpoint (graph_id : uuid) (actor reason : string) : Sess (Z * Z) :=
  graph ← locked graph_id;
  transitioned ← cancel_graph graph actor reason;
  (* the loaded row now carries the assignments of [cancel_graph] *)
  graph ← locked graph_id;
  r ← reconcile_graph graph;
  _ ← commit;
  mret (transitioned, r.2).

Definition reconcile_endpoint (graph_id : uuid) : Sess (Z * Z) :=
  graph ← locked graph_id;
  r ← reconcile_graph graph;
  _ ← commit;
  mret r.
End ops.
