(* ===== verification/Conversations.v ===== *)
(** * Founder conversations

    [services/conversations.py]: [record_planning_started], the transition the
    task runtime makes when a planner starts on a founder request. *)
From S2P Require Import Prelude Py Sha256 Models Store Logic TaskCore Notifications.

Open Scope Z_scope.

Section ops.
Context `{World}.

(** [_event] *)
Definition conversation_event (c : FounderConversation) (event_type actor : string)
    (prior : option string) (payload : Json.dict) : Sess unit :=
  append_log conversation_events
    (mkFounderConversationEvent (fc_id c) event_type actor prior (fc_status c) (fc_revision c)
       payload w_server_now).

Definition planning_key (c : FounderConversation) : string :=
  "conversation-planning:" +:+ uuid_str (fc_id c) +:+ ":" +:+ pretty (fc_revision c).

(** the notification is added directly, not through [_insert_once] *)
Definition record_planning_started (task : Task) : Sess unit :=
  match t_conversation_id task with
  | None => mret tt
  | Some cid =>
      conversation ← get_row conversations cid;
      match conversation with
      | None => mret tt
      | Some c =>
          if negb (bool_decide (t_conversation_revision task = Some (fc_revision c))) then mret tt
          else
            _ ← when (negb (str_eqb (fc_status c) "planning"))
                  (alter_row conversations cid (fun c =>
                     c <| fc_status := "planning" |> <| fc_updated_at := w_server_now |>));
            _ ← conversation_event (c <| fc_status := "planning" |>) "conversation_planning_started"
                  "founder-planner" (Some (fc_status c)) [("task_id", JStr (uuid_str (t_id task)))];
            _ ← add_notification "conversation_planning" cid (planning_key c) NPending
                  [("conversation_id", JStr (uuid_str cid));
                   ("short_id", JStr (fc_short_id c));
                   ("title", JStr (fc_title c));
                   ("revision", JInt (fc_revision c));
                   ("task_id", JStr (uuid_str (t_id task)))];
            mret tt
      end
  end.
End ops.

Section frames.
Context `{World}.
Lemma record_planning_started_frame t : preserves core (record_planning_started t).
Proof. unfold record_planning_started, conversation_event. frame. Qed.
End frames.
#[export] Hint Resolve record_planning_started_frame : frame.
