(* ===== verification/ProposalSchema.v ===== *)
(** * Founder proposals: the documents

    [schemas/proposal.py]: which documents a planner may propose, and their
    dumps.  A document is refused with a ValidationError, or with the TypeError
    that [forbid_execution_surface] raises, which pydantic lets through. *)
From S2P Require Import Prelude Py Sha256 JsonText Models Store Tasks.
From Stdlib Require Import Ascii.

Open Scope Z_scope.

(** ** Fields *)
Definition sized {A} (low high : nat) (l : list A) : bool := (low <=? length l)%nat && (length l <=? high)%nat.
Definition optional {A} (p : A → bool) (o : option A) : bool := from_option p true o.
Definition sha_hex : string → bool := Str.hex_between 64 64.

(** ["^[a-z0-9-]+$"] *)
Definition package_name_pattern (s : string) : bool :=
  Str.nonempty s && forallb (fun c => Str.is_lower_alnum c || Ascii.eqb c "-") (Str.chars s).

Definition valid_default (d : ProposalDefaultDecision) : bool :=
  len_between 1 100 (pdd_field d) && len_between 1 1000 (pdd_value d) && len_between 3 1000 (pdd_basis d) &&
  len_between 1 100 (pdd_policy_version d) && str_in (pdd_confidence d) ["high"; "medium"; "low"] &&
  sized 0 10 (pdd_alternatives d).

(** ** Contracts *)
Definition valid_code_validation (c : ProposalCodeValidationContract) : bool :=
  Str.actor_name (pcv_repository c) && str_eqb (pcv_workflow c) "code-validation" &&
  len_between 1 255 (pcv_base_ref c).

(** [bounded_evidence]; every way to fail is a ValueError *)
Definition bounded_evidence (value : string) : bool :=
  (String.length (Str.encode value) <=? 48000)%nat &&
  match loads value with
  | Some (Obj kv) => (length kv <=? 20)%nat && (height (Obj kv) <=? 32)%nat && all_finite (Obj kv)
  | _ => false
  end.

Definition valid_engineering_mission (c : ProposalEngineeringMissionContract) : bool :=
  Str.actor_name (pem_repository c) && str_eqb (pem_workflow c) "engineering-mission" &&
  len_between 1 255 (pem_base_ref c) && Str.actor_name (pem_milestone_id c) &&
  Str.actor_name (pem_work_item_id c) && len_between 10 4000 (pem_objective c) &&
  sized 1 50 (pem_allowed_paths c) && sized 0 50 (pem_context_paths c) &&
  len_between 0 48000 (pem_evidence_context c) && bounded_evidence (pem_evidence_context c) &&
  sized 1 50 (pem_acceptance_criteria c) && sized 1 20 (pem_stop_conditions c) &&
  within 1 100 (pem_max_files_changed c) && within 1 10000 (pem_max_diff_lines c) &&
  within 60 86400 (pem_max_duration_seconds c).

Definition infrastructure_operations : list string :=
  ["observe-control-plane"; "restart-control-plane-api"; "preflight-invariance-postgres";
   "stage-invariance-postgres"; "start-invariance-postgres-private"; "initialize-invariance-schema";
   "configure-invariance-backups"; "verify-invariance-postgres"; "prepare-invariance-cutover";
   "verify-docker-service"; "restart-docker-service"; "verify-redis"; "verify-storage";
   "verify-certificate"; "verify-backup"; "verify-service-health"].

Definition valid_infrastructure_parameters (p : ProposalInfrastructureParameters) : bool :=
  optional (fun s => str_in s ["api"; "postgres"; "pgbouncer"; "redis"]) (pip_service p) &&
  optional Str.actor_name (pip_certificate_profile p).

Definition valid_infrastructure (c : ProposalInfrastructureContract) : bool :=
  str_in (pic_runbook c) ["vm2-infrastructure"; "vm2-postgres-deployment"; "vm2-platform-operations"] &&
  str_eqb (pic_runbook_version c) "1.0.0" && str_in (pic_operation c) infrastructure_operations &&
  str_in (pic_target c) ["vm2-control-plane"; "vm2-invariance-postgres"; "vm2-production"] &&
  valid_infrastructure_parameters (pic_parameters c) &&
  optional package_name_pattern (pic_package_name c) && optional Str.dotted_version (pic_package_version c) &&
  optional sha_hex (pic_package_digest c).

Definition valid_research_acceptance (a : ProposalResearchAcceptance) : bool :=
  float_within (-100) 100 (pra_minimum_out_of_sample_sharpe a) &&
  float_within 0 10 (pra_maximum_out_of_sample_drawdown a) &&
  within 1 10000 (pra_minimum_out_of_sample_trades a) &&
  float_within (-100) 100 (pra_minimum_cost_stress_sharpe a).

Definition valid_research_experiment (c : ProposalResearchExperimentContract) : bool :=
  str_eqb (pre_repository c) "bulletproof_bt" && str_eqb (pre_workflow c) "research-experiment" &&
  len_between 1 255 (pre_base_ref c) && Str.actor_name (pre_program_id c) && Str.actor_name (pre_hypothesis_id c) &&
  str_in (pre_hypothesis c) ["lagged-return-momentum"; "btc-hourly-lagged-return"] &&
  str_in (pre_dataset c) ["synthetic-regime-v1"; "binance-btcusdt-1h-2025"] &&
  optional sha_hex (pre_dataset_digest c) && optional sha_hex (pre_experiment_digest c) &&
  optional sha_hex (pre_trial_digest c) && within 0 2147483647 (pre_seed c) &&
  within 500 10000 (pre_observations c) && float_within 5 8 (pre_train_fraction c) &&
  float_within 0 1000 (pre_transaction_cost_bps c) && valid_research_acceptance (pre_acceptance c).

Definition valid_research_memory_sync (c : ProposalResearchMemorySyncContract) : bool :=
  str_eqb (prm_repository c) "bulletproof_bt" && str_eqb (prm_workflow c) "research-memory-sync" &&
  len_between 1 255 (prm_base_ref c).

(** the slices of [universe_slices], in a proposal and in a queued idea *)
Definition valid_slices (l : list string) : bool :=
  forallb (fun s => str_in s ["stable"; "volatile"; "all_eligible"]) l && sized 1 3 l.

(** with [ordered_instrument_bounds] *)
Definition valid_founder_hypothesis_intake (c : ProposalFounderHypothesisIntakeContract) : bool :=
  str_eqb (phi_repository c) "swarm-control-plane" && str_eqb (phi_workflow c) "founder-hypothesis-intake" &&
  str_eqb (phi_base_ref c) "main" && optional sha_hex (phi_mandate_digest c) &&
  len_between 20 12000 (phi_research_idea c) && within 365 3650 (phi_minimum_history_days c) &&
  within 1 8 (phi_maximum_variants c) && within 1 8 (phi_minimum_instruments c) &&
  within 1 8 (phi_maximum_instruments c) &&
  str_eqb (phi_universe_selection_policy c) "preregistered_point_in_time" && valid_slices (phi_universe_slices c) &&
  (phi_minimum_instruments c <=? phi_maximum_instruments c) &&
  Bool.eqb (bool_decide (phi_mandate_id c = None)) (bool_decide (phi_mandate_digest c = None)).

Definition valid_contract (c : ProposalInputContract) : bool :=
  match c with
  | CodeValidation c => valid_code_validation c
  | EngineeringMissionWork c => valid_engineering_mission c
  | Infrastructure c => valid_infrastructure c
  | ResearchExperiment c => valid_research_experiment c
  | ResearchMemorySync c => valid_research_memory_sync c
  | FounderHypothesisIntake c => valid_founder_hypothesis_intake c
  end.

(** ** [ProposedTask] *)

(** [SupportedTaskType], with the class [expected] of the contract of each *)
Definition expected_contract (task_type : string) (c : ProposalInputContract) : bool :=
  match c with
  | CodeValidation _ => str_eqb task_type "code_validation"
  | EngineeringMissionWork _ => str_eqb task_type "engineering_mission"
  | Infrastructure _ => str_in task_type ["infrastructure_observation"; "infrastructure_operation"]
  | ResearchExperiment _ => str_eqb task_type "research_experiment"
  | ResearchMemorySync _ => str_eqb task_type "research_memory_sync"
  | FounderHypothesisIntake _ => str_eqb task_type "founder_hypothesis_intake"
  end.

Definition supported_task_types : list string :=
  ["code_validation"; "engineering_mission"; "infrastructure_observation"; "infrastructure_operation";
   "research_experiment"; "research_memory_sync"; "founder_hypothesis_intake"].

(** the fields of a task, before its model validator *)
Definition valid_task_fields (p : ProposedTask) : bool :=
  len_between 1 100 (pt_project p) && Str.actor_name (pt_project p) &&
  str_in (pt_task_type p) supported_task_types && len_between 3 300 (pt_title p) &&
  len_between 10 8000 (pt_objective p) && within 0 100 (pt_priority p) && within 0 5 (pt_risk_level p) &&
  valid_contract (pt_input_contract p) && sized 0 30 (pt_expected_outputs p) &&
  sized 0 30 (pt_acceptance_criteria p) &&
  str_in (pap_kind (pt_approval_policy p)) ["automatic"; "explicit"; "registry_gate"] &&
  within 0 5 (pap_risk (pt_approval_policy p)) && sized 0 30 (pt_required_capabilities p) &&
  sized 0 20 (pt_allowed_machines p) && within 1 5 (pt_max_attempts p).

(** the machines and capabilities that execute a contract *)
Definition canonical_route (c : ProposalInputContract) : list string * list string :=
  match c with
  | CodeValidation _ | EngineeringMissionWork _ => (["vm1-developer"], ["git"; "python"; "testing"])
  | ResearchExperiment _ => (["vm1-developer"], ["git"; "python"; "backtesting"; "research-audit"])
  | ResearchMemorySync _ => (["vm1-developer"], ["git"; "python"; "research-memory-sync"])
  | FounderHypothesisIntake _ =>
      (["vm1-developer"], ["research-intelligence"; "research-proposal"; "prior-art"])
  | Infrastructure c =>
      (["vm2-deployment"],
       if str_eqb (pic_runbook c) "vm2-infrastructure"
       then ["infrastructure-observation"; "service-health"; "controlled-restart"]
       else ["deployment-architecture"; "infrastructure-observation"; "postgres-deployment"; "service-health"])
  end.

(** the refusals of a document *)
Definition refuse {A} : outcome A := Err (PyException "ValidationError" "FounderProposalDocument").

(** [forbid_execution_surface].  Its search for [_FORBIDDEN_KEYS] starts from
    [self.input_contract], which is a model and neither a dict nor a list, so it
    visits nothing. *)
Definition forbid_execution_surface (p : ProposedTask) : outcome unit :=
  if negb (expected_contract (pt_task_type p) (pt_input_contract p)) then
    Err (PyException "TypeError" "proposal task type does not match its input contract")
  else if negb (bool_decide (pt_allowed_machines p = (canonical_route (pt_input_contract p)).1)) then refuse
  else if negb (bool_decide (pt_required_capabilities p = (canonical_route (pt_input_contract p)).2)) then refuse
  else if negb (pap_risk (pt_approval_policy p) =? pt_risk_level p) then refuse
  else Ok tt.

Definition check_task (p : ProposedTask) : outcome unit :=
  if valid_task_fields p then forbid_execution_surface p else refuse.

(** ** [FounderProposalDocument] *)
Definition valid_document_fields (d : FounderProposalDocument) : bool :=
  (fpd_schema_version d =? 1) && len_between 10 1000 (fpd_summary d) && len_between 10 4000 (fpd_interpretation d) &&
  str_in (fpd_recommended_action d) ["create_task"; "needs_clarification"; "decline"; "respond"] &&
  sized 0 20 (fpd_assumptions d) && sized 0 20 (fpd_clarification_questions d) &&
  optional (len_between 0 150) (fpd_target_role d) && optional (len_between 0 1000) (fpd_target_role_reason d) &&
  sized 0 20 (fpd_safety_constraints d) && sized 0 30 (fpd_unresolved_fields d) &&
  forallb valid_default (fpd_resolved_defaults d) && sized 0 30 (fpd_resolved_defaults d).

(** [task_matches_action] *)
Definition task_matches_action (d : FounderProposalDocument) : bool :=
  Bool.eqb (str_eqb (fpd_recommended_action d) "create_task") (bool_decide (is_Some (fpd_proposed_task d))) &&
  if str_eqb (fpd_recommended_action d) "needs_clarification" then
    negb (bool_decide (fpd_clarification_questions d = [])) && negb (bool_decide (fpd_unresolved_fields d = [])) &&
    str_subset (fpd_unresolved_fields d) (fpd_specification_format d).*1
  else bool_decide (fpd_unresolved_fields d = []).

Definition check_document (d : FounderProposalDocument) : outcome unit :=
  _ ← from_option check_task (Ok tt) (fpd_proposed_task d);
  if valid_document_fields d && task_matches_action d then Ok tt else refuse.

(** ** Dumps

    The fields of a contract in their order, [None] for a null; [mode="json"]
    writes the nulls, [exclude_none=True] leaves them out. *)
Definition dump_str (s : string) : option json := Some (JStr s).
Definition dump_strs (l : list string) : option json := Some (Json.str_list l).
Definition dump_float (x : py_float) : option json := Some (JFloat x).
Definition nulls (d : list (string * option json)) : Json.dict := prod_map id (default JNull) <$> d.
Definition no_nulls (d : list (string * option json)) : Json.dict := omap (fun kv => v ← kv.2; Some (kv.1, v)) d.

Section dump.
Context (keep : list (string * option json) → Json.dict).

Definition dump_parameters (p : ProposalInfrastructureParameters) : json := JObj (keep
  [("service", JStr <$> pip_service p); ("certificate_profile", JStr <$> pip_certificate_profile p)]).

Definition dump_acceptance (a : ProposalResearchAcceptance) : json := JObj (keep
  [("minimum_out_of_sample_sharpe", dump_float (pra_minimum_out_of_sample_sharpe a));
   ("maximum_out_of_sample_drawdown", dump_float (pra_maximum_out_of_sample_drawdown a));
   ("minimum_out_of_sample_trades", Some (JInt (pra_minimum_out_of_sample_trades a)));
   ("minimum_cost_stress_sharpe", dump_float (pra_minimum_cost_stress_sharpe a))]).

Definition dump_contract (c : ProposalInputContract) : Json.dict := keep
  match c with
  | CodeValidation c =>
      [("repository", dump_str (pcv_repository c)); ("workflow", dump_str (pcv_workflow c));
       ("base_ref", dump_str (pcv_base_ref c))]
  | EngineeringMissionWork c =>
      [("repository", dump_str (pem_repository c)); ("workflow", dump_str (pem_workflow c));
       ("base_ref", dump_str (pem_base_ref c)); ("milestone_id", dump_str (pem_milestone_id c));
       ("work_item_id", dump_str (pem_work_item_id c)); ("objective", dump_str (pem_objective c));
       ("allowed_paths", dump_strs (pem_allowed_paths c)); ("context_paths", dump_strs (pem_context_paths c));
       ("evidence_context", dump_str (pem_evidence_context c));
       ("acceptance_criteria", dump_strs (pem_acceptance_criteria c));
       ("stop_conditions", dump_strs (pem_stop_conditions c));
       ("max_files_changed", Some (JInt (pem_max_files_changed c)));
       ("max_diff_lines", Some (JInt (pem_max_diff_lines c)));
       ("max_duration_seconds", Some (JInt (pem_max_duration_seconds c)))]
  | Infrastructure c =>
      [("runbook", dump_str (pic_runbook c)); ("runbook_version", dump_str (pic_runbook_version c));
       ("operation", dump_str (pic_operation c)); ("target", dump_str (pic_target c));
       ("parameters", Some (dump_parameters (pic_parameters c)));
       ("package_name", JStr <$> pic_package_name c); ("package_version", JStr <$> pic_package_version c);
       ("package_digest", JStr <$> pic_package_digest c)]
  | ResearchExperiment c =>
      [("repository", dump_str (pre_repository c)); ("workflow", dump_str (pre_workflow c));
       ("base_ref", dump_str (pre_base_ref c)); ("program_id", dump_str (pre_program_id c));
       ("hypothesis_id", dump_str (pre_hypothesis_id c)); ("hypothesis", dump_str (pre_hypothesis c));
       ("dataset", dump_str (pre_dataset c)); ("dataset_digest", JStr <$> pre_dataset_digest c);
       ("experiment_digest", JStr <$> pre_experiment_digest c); ("trial_digest", JStr <$> pre_trial_digest c);
       ("seed", Some (JInt (pre_seed c))); ("observations", Some (JInt (pre_observations c)));
       ("train_fraction", dump_float (pre_train_fraction c));
       ("transaction_cost_bps", dump_float (pre_transaction_cost_bps c));
       ("acceptance", Some (dump_acceptance (pre_acceptance c)))]
  | ResearchMemorySync c =>
      [("repository", dump_str (prm_repository c)); ("workflow", dump_str (prm_workflow c));
       ("base_ref", dump_str (prm_base_ref c))]
  | FounderHypothesisIntake c =>
      [("repository", dump_str (phi_repository c)); ("workflow", dump_str (phi_workflow c));
       ("base_ref", dump_str (phi_base_ref c)); ("mandate_id", (JStr ∘ uuid_str) <$> phi_mandate_id c);
       ("mandate_digest", JStr <$> phi_mandate_digest c); ("research_idea", dump_str (phi_research_idea c));
       ("minimum_history_days", Some (JInt (phi_minimum_history_days c)));
       ("maximum_variants", Some (JInt (phi_maximum_variants c)));
       ("minimum_instruments", Some (JInt (phi_minimum_instruments c)));
       ("maximum_instruments", Some (JInt (phi_maximum_instruments c)));
       ("universe_selection_policy", dump_str (phi_universe_selection_policy c));
       ("universe_slices", dump_strs (phi_universe_slices c))]
  end.
End dump.

Definition dump_policy (p : ProposalApprovalPolicy) : Json.dict :=
  [("kind", JStr (pap_kind p)); ("risk", JInt (pap_risk p))].

Definition dump_default (d : ProposalDefaultDecision) : json := JObj
  [("field", JStr (pdd_field d)); ("value", JStr (pdd_value d)); ("basis", JStr (pdd_basis d));
   ("policy_version", JStr (pdd_policy_version d)); ("confidence", JStr (pdd_confidence d));
   ("alternatives", Json.str_list (pdd_alternatives d))].

Definition dump_task (p : ProposedTask) : json := JObj
  [("project", JStr (pt_project p)); ("task_type", JStr (pt_task_type p)); ("title", JStr (pt_title p));
   ("objective", JStr (pt_objective p)); ("priority", JInt (pt_priority p)); ("risk_level", JInt (pt_risk_level p));
   ("input_contract", JObj (dump_contract nulls (pt_input_contract p)));
   ("expected_outputs", Json.str_list (pt_expected_outputs p));
   ("acceptance_criteria", Json.str_list (pt_acceptance_criteria p));
   ("approval_policy", JObj (dump_policy (pt_approval_policy p)));
   ("approval_required", JBool (pt_approval_required p));
   ("required_capabilities", Json.str_list (pt_required_capabilities p));
   ("allowed_machines", Json.str_list (pt_allowed_machines p)); ("max_attempts", JInt (pt_max_attempts p))].

(** [document.model_dump(mode="json")] *)
Definition dump_document (d : FounderProposalDocument) : Json.dict :=
  [("schema_version", JInt (fpd_schema_version d)); ("summary", JStr (fpd_summary d));
   ("interpretation", JStr (fpd_interpretation d)); ("recommended_action", JStr (fpd_recommended_action d));
   ("assumptions", Json.str_list (fpd_assumptions d));
   ("clarification_questions", Json.str_list (fpd_clarification_questions d));
   ("target_role", Json.opt_str (fpd_target_role d)); ("target_role_reason", Json.opt_str (fpd_target_role_reason d));
   ("safety_constraints", Json.str_list (fpd_safety_constraints d));
   ("unresolved_fields", Json.str_list (fpd_unresolved_fields d));
   ("specification_format", JObj (prod_map id JStr <$> fpd_specification_format d));
   ("resolved_defaults", JList (dump_default <$> fpd_resolved_defaults d));
   ("proposed_task", from_option dump_task JNull (fpd_proposed_task d))].

(** [proposal_digest] of [services/proposals.py] *)
Definition proposal_digest (document : FounderProposalDocument) : string := digest (JObj (dump_document document)).
