(* ===== verification/FounderConversations.v ===== *)
(** * Founder conversations: turns and planning

    [services/conversations.py] and the routes of [routes/conversations.py] that
    change state.  A turn of the founder raises the revision of the conversation,
    cancels what is still queued from earlier revisions and queues a planning task. *)
From S2P Require Import Prelude Py Sha256 Models Store Logic TaskCore Notifications Governance.
From S2P Require Import Tasks TaskGraphs Conversations.
From Stdlib Require Import Ascii.

Open Scope Z_scope.

(** ** [schemas/conversation.py] *)

(** ["^[A-Za-z0-9][A-Za-z0-9:._-]*$"], of 3 to 160 characters *)
Definition founder_key_pattern (s : string) : bool :=
  len_between 3 160 s &&
  match Str.chars s with
  | [] => false
  | c :: l => Str.is_alnum c && forallb (fun c => Str.is_alnum c || Ascii.eqb c ":" || Ascii.eqb c "." ||
                                                  Ascii.eqb c "_" || Ascii.eqb c "-") l
  end.

Definition valid_turn (p : ConversationTurnCreate) : bool :=
  founder_key_pattern (ctc_founder_key p) && str_in (ctc_channel p) ["telegram"; "mission-control"] &&
  len_between 1 12000 (ctc_message p) && from_option (len_between 0 160) true (ctc_channel_message_id p) &&
  from_option (len_between 0 160) true (ctc_reply_to_channel_message_id p).

(** the turn [create_conversation] appends *)
Definition first_turn (p : ConversationCreate) : ConversationTurnCreate :=
  mkConversationTurnCreate (ccr_founder_key p) (ccr_channel p) (ccr_message p) (ccr_channel_message_id p)
    (ccr_reply_to_channel_message_id p).

Definition valid_conversation_create (p : ConversationCreate) : bool :=
  valid_turn (first_turn p) && len_between 3 160 (ccr_title p).

Definition valid_transition (p : ConversationTransition) : bool :=
  founder_key_pattern (ctt_founder_key p) && str_in (ctt_action p) ["finish"; "stop"; "resume"; "archive"] &&
  len_between 3 500 (ctt_reason p).

(** ** What the service reads *)
Definition OPEN_STATUSES : list string :=
  ["collecting"; "planning"; "needs_clarification"; "ready_for_review"; "attention_required"].
Definition RESEARCH_WORDS : list string :=
  ["research"; "hypothesis"; "backtest"; "strategy"; "experiment"; "sharpe"; "drawdown"].
Definition INFRA_WORDS : list string :=
  ["postgres"; "redis"; "docker"; "backup"; "restart"; "certificate"; "infrastructure"].
Definition KNOWLEDGE_WORDS : list string :=
  ["knowledge"; "second brain"; "index"; "document"; "research intelligence"].

Definition _classify_project (messages : list string) : string :=
  let text := Str.lower (Str.join " " messages) in
  let any := existsb (fun word => Str.contains word text) in
  if any INFRA_WORDS then "swarm-control-plane"
  else if any RESEARCH_WORDS then "bulletproof_bt"
  else if any KNOWLEDGE_WORDS then "knowledge"
  else "swarm-control-plane".

Definition paragraph : string := Json.newline +:+ Json.newline.
Definition _bounded_summary (messages : list string) : string := Str.tail 12000 (Str.join paragraph messages).
Definition _title (value : string) : string :=
  Str.head 160 (Str.join " " (take 12 (Str.words (Str.collapse value)))).

Definition messages_of (d : database) (cid : uuid) : list FounderConversationMessage :=
  List.filter (fun m => bool_decide (fm_conversation_id m = cid)) (table_rows (messages d)).

Definition sequence_leb (a b : FounderConversationMessage) : bool := fm_sequence a <=? fm_sequence b.

(** [conversation_messages] *)
Definition conversation_messages (d : database) (cid : uuid) : list FounderConversationMessage :=
  sort_by sequence_leb (messages_of d cid).

Definition _founder_messages (d : database) (cid : uuid) : list string :=
  fm_content <$> sort_by sequence_leb (List.filter (fun m => str_eqb (fm_role m) "founder") (messages_of d cid)).

(** [coalesce(max(sequence), 0) + 1] *)
Definition next_sequence (d : database) (cid : uuid) : Z :=
  foldr Z.max 0 (fm_sequence <$> messages_of d cid) + 1.

Definition newest_first (a b : Task) : bool := t_created_at b <=? t_created_at a.

Definition latest_task (d : database) (cid : uuid) : option Task :=
  head (sort_by newest_first
    (List.filter (fun t => bool_decide (t_conversation_id t = Some cid)) (table_rows (tasks d)))).

Definition active_conversation (d : database) (founder_key : string) : option FounderConversation :=
  head (sort_by (fun a b => fc_updated_at b <=? fc_updated_at a)
    (List.filter (fun c => str_eqb (fc_founder_key c) founder_key && str_in (fc_status c) OPEN_STATUSES)
       (table_rows (conversations d)))).

(** the message of the conversation that carries a channel's identifier *)
Definition carries (cid : uuid) (channel_message_id : string) (m : FounderConversationMessage) : bool :=
  bool_decide (fm_conversation_id m = cid) && bool_decide (fm_channel_message_id m = Some channel_message_id).

(** the task of the conversation's current revision *)
Definition of_revision (c : FounderConversation) (t : Task) : bool :=
  bool_decide (t_conversation_id t = Some (fc_id c)) &&
  bool_decide (t_conversation_revision t = Some (fc_revision c)).

(** a queued task of an earlier revision of the conversation *)
Definition stale (cid : uuid) (revision : Z) (t : Task) : bool :=
  bool_decide (t_conversation_id t = Some cid) &&
  match t_conversation_revision t with Some r => r <? revision | None => false end &&
  bool_decide (t_status t = Queued).

(** ** [_specification_guide] *)
Definition _specification_guide (project : option string) : Json.dict :=
  if bool_decide (project = Some "bulletproof_bt") then
    [("required", Json.str_list ["repository"; "workflow"; "base_ref"; "hypothesis"; "dataset"; "seed";
       "observations"; "train_fraction"; "transaction_cost_bps"; "acceptance"]);
     ("system_generated", Json.str_list ["program_id"; "hypothesis_id"; "task_number"]);
     ("formats", JObj
       [("base_ref", JStr "Git ref such as main"); ("train_fraction", JStr "decimal 0.50-0.80");
        ("transaction_cost_bps", JStr "number 0-100");
        ("acceptance", JStr "Sharpe, drawdown, trade-count and cost-stress thresholds")]);
     ("reasonable_defaults", JObj
       [("base_ref", JStr "main"); ("seed", JInt 20260730); ("observations", JInt 1200);
        ("train_fraction", JFloat "0.65"); ("transaction_cost_bps", JFloat "5.0");
        ("acceptance", JObj
          [("minimum_out_of_sample_sharpe", JFloat "1.0"); ("maximum_out_of_sample_drawdown", JFloat "0.25");
           ("minimum_out_of_sample_trades", JInt 50); ("minimum_cost_stress_sharpe", JFloat "0.5")])]);
     ("never_default", Json.str_list ["hypothesis meaning"; "unavailable dataset"; "live trading";
       "production promotion"]);
     ("founder_hypothesis_intake", JObj
       [("purpose", JStr "queue a founder idea for RI evidence retrieval and independent senior-researcher challenge before any test");
        ("minimum_history_days", JInt 365); ("maximum_variants", JInt 8); ("minimum_instruments", JInt 1);
        ("maximum_instruments", JInt 8); ("universe_selection_policy", JStr "preregistered_point_in_time")])]
  else
    [("required", Json.str_list ["bounded objective"; "target route"; "acceptance criteria"]);
     ("system_generated", Json.str_list ["task_number"]); ("reasonable_defaults", JObj []);
     ("never_default", Json.str_list ["credentials"; "destructive action"; "permission expansion"])].

(** ** [_grounding_context] *)

(** [{key: document[key] for key in keys if key in document}] *)
Definition project_keys (keys : list string) (document : Json.dict) : Json.dict :=
  omap (fun k => v ← Json.get k document; Some (k, v)) keys.

Definition dataset_keys : list string :=
  ["schema_version"; "dataset_id"; "venue"; "instrument"; "timeframe"; "start"; "end"; "availability";
   "provider"; "instruments"; "date_start"; "date_end"; "timezone"; "output_columns"; "transformations";
   "fallback_policy"].

Definition dataset_entry (item : ResearchDatasetManifest) : json := JObj
  [("id", JStr (uuid_str (rdm_id item))); ("key", JStr (rdm_manifest_key item));
   ("digest", JStr (rdm_manifest_digest item)); ("summary", JObj (project_keys dataset_keys (rdm_manifest item)))].

Definition hypothesis_entry (item : ResearchHypothesis) : json := JObj
  [("id", JStr (uuid_str (rhy_id item))); ("key", JStr (rhy_hypothesis_key item));
   ("digest", JStr (rhy_record_digest item));
   ("summary", JObj (project_keys ["research_question"; "hypothesis"; "dataset"; "status"] (rhy_specification item)))].

Definition capability_entry (item : Agent) : json := JObj
  [("slug", JStr (ag_slug item)); ("machine", JStr (ag_machine item));
   ("capabilities", Json.str_list (ag_capabilities item)); ("risk_ceiling", JInt (ag_risk_ceiling item))].

(** [min(8, int(budget.get("maximum_variants_per_hypothesis", 8)))]; the budget is
    the dump of a schema in which this is an integer *)
Definition bounded_variants (budget : Json.dict) : outcome Z :=
  match Json.get "maximum_variants_per_hypothesis" budget with
  | None => Ok 8
  | Some v => match Json.as_int v with
              | Some n => Ok (Z.min 8 n)
              | None => Err (PyException "TypeError" "maximum_variants_per_hypothesis")
              end
  end.

Definition mandate_entry (item : AlphaResearchMandate) : outcome json :=
  variants ← bounded_variants (am_budget item);
  Ok (JObj
    [("id", JStr (uuid_str (am_id item))); ("key", JStr (am_mandate_key item));
     ("digest", JStr (am_mandate_digest item)); ("valid_until", JStr (isoformat (am_valid_until item)));
     ("allowed_venues", default (JList []) (Json.get "allowed_venues" (am_specification item)));
     ("allowed_instruments", default (JList []) (Json.get "allowed_instruments" (am_specification item)));
     ("execution_window_start", default JNull (Json.get "execution_window_start" (am_specification item)));
     ("execution_window_end", default JNull (Json.get "execution_window_end" (am_specification item)));
     ("maximum_variants", JInt variants)]).

Fixpoint all_ok {A B} (f : A → outcome B) (l : list A) : outcome (list B) :=
  match l with
  | [] => Ok []
  | x :: l => y ← f x; ys ← all_ok f l; Ok (y :: ys)
  end.

(** [catalog.get(key, [])[:100]] on a list or a string *)
Definition catalog_section (catalog : option MarketDataCatalogSnapshot) (key : string) : outcome json :=
  match catalog with
  | None => Ok (JList [])
  | Some c =>
      match Json.get key (mdc_catalog c) with
      | None => Ok (JList [])
      | Some (JList l) => Ok (JList (take 100 l))
      | Some (JStr s) => Ok (JStr (Str.head 100 s))
      | Some _ => Err (PyException "TypeError" key)
      end
  end.

Definition catalog_context (catalog : option MarketDataCatalogSnapshot) : outcome json :=
  partitions ← catalog_section catalog "partitions";
  memberships ← catalog_section catalog "memberships";
  availability ← catalog_section catalog "source_availability";
  Ok (JObj
    [("available", JBool (bool_decide (is_Some catalog))); ("digest", Json.opt_str (mdc_catalog_digest <$> catalog));
     ("as_of", Json.opt_str (isoformat ∘ mdc_as_of <$> catalog)); ("partitions", partitions);
     ("memberships", memberships); ("source_availability", availability);
     ("scope", JStr "Latest registered snapshot, bounded to 100 entries per section; not an exhaustive filesystem inventory or an access grant.")]).

Definition hit_entry (hit : RetrievalHit) : json := JObj
  [("object_id", JStr (uuid_str (rh_object_id hit))); ("content_digest", JStr (rh_content_digest hit));
   ("coordinates", rh_coordinates hit); ("text", JStr (Str.head 1200 (rh_text hit)));
   ("confidence", JFloat (rh_confidence hit))].

(** [HybridRetrievalRequest] takes a query of 2 to 1000 characters; only an
    HTTPException of the search is caught.  [str(exc.detail)] *)
Definition knowledge_context (search : string → outcome Retrieval) (query : string) : outcome json :=
  if negb (len_between 2 1000 (Str.head 1000 query)) then
    Err (PyException "ValidationError" "HybridRetrievalRequest")
  else
    match search (Str.head 1000 query) with
    | Ok r => Ok (JObj
        [("available", JBool true); ("corpus_digest", JStr (rt_corpus_digest r));
         ("confidence", JFloat (rt_confidence r)); ("abstained", JBool (rt_abstained r));
         ("hits", JList (hit_entry <$> rt_hits r))])
    | Err (HTTPException _ detail) => Ok (JObj [("available", JBool false); ("reason", JStr (Json.str detail))])
    | Err e => Err e
    end.

Definition founder_hypothesis_intake_policy : json := JObj
  [("minimum_history_days", JInt 365); ("maximum_variants", JInt 8); ("minimum_instruments", JInt 1);
   ("maximum_instruments", JInt 8); ("universe_selection_policy", JStr "preregistered_point_in_time");
   ("universe_slices", Json.str_list ["all_eligible"]);
   ("selection_rule", JStr "freeze the selected universe and alternatives before outcome evaluation");
   ("workflow", JStr "founder-hypothesis-intake")].

Definition representation_guidance : json := JObj
  [("producer", JStr "bulletproof_bt");
   ("source_commit", JStr "6b3c068c4bb59b639d7c2f4ec3cf30643da3735d");
   ("source_path", JStr "src/bt/data/resample.py");
   ("source_sha256", JStr "890317433c979f6bb4043a77ef7c1d7c74fd8a4da323c9d1028697890c05cc12");
   ("reviewed_signal_timeframes", Json.str_list ["1m"; "5m"; "7m"; "10m"; "12m"; "1h"; "2h"; "1d"]);
   ("duration_contract", JStr "Positive integer m/h/d durations within the native timestamp range; examples are not an allowlist. Seconds and fractional durations are unsupported.");
   ("base_feed", JStr "1m UTC"); ("strict", JBool true);
   ("rules", Json.str_list
     ["Use Bulletproof's native resampler; no Hermes aggregation engine.";
      "Expose only complete closed buckets at rollover; no fabricated missing minutes or final partial bucket.";
      "HTFBar.ts labels bucket start, not information availability; preserve the emission clock.";
      "Signal cadence can differ from the 1m execution clock; freeze both before evaluating outcomes.";
      "Choose representation from mechanism and horizon, not the best observed result; timeframe alternatives count toward the search budget.";
      "Auxiliary funding, open-interest, mark and index fields need their own point-in-time transformation contract; OHLCV aggregation does not establish theirs.";
      "Stable/volatile universe labels require registered point-in-time memberships; never infer broad admission from local files.";
      "Odd-duration buckets use epoch-anchored UTC alignment, not a daily reset; freeze alignment and require complete constituent minutes."]);
   ("claim_boundary", JStr "Reviewed native capability snapshot for planning only. Exact campaign engine version, data entitlement, resampling configuration and output audit must be qualified before execution.")].

(** the [n] rows that come first by a key, newest first *)
Definition newest {A} (n : nat) (key : A → datetime) (rows : list A) : list A :=
  take n (sort_by (fun a b => key b <=? key a) rows).

Definition grounding_document (d : database) (search : string → outcome Retrieval) (now : datetime)
    (project : option string) (query : string) : outcome Json.dict :=
  let catalog := head (newest 1 mdc_registered_at (table_rows (catalogs d))) in
  knowledge ← knowledge_context search query;
  mandates ← all_ok mandate_entry (newest 3 am_created_at
    (List.filter (fun m => str_eqb (am_status m) "active" && (now <? am_valid_until m)) (table_rows (mandates d))));
  catalog_json ← catalog_context catalog;
  Ok [("project", Json.opt_str project); ("knowledge", knowledge);
      ("datasets", JList (dataset_entry <$> newest 12 rdm_registered_at (table_rows (dataset_manifests d))));
      ("hypotheses", JList (hypothesis_entry <$> newest 12 rhy_registered_at (table_rows (hypotheses d))));
      ("task_capabilities", JList (capability_entry <$> take 50 (sort_by (fun a b => String.leb (ag_slug a) (ag_slug b))
        (List.filter ag_is_enabled (table_rows (agents d))))));
      ("active_research_mandates", JList mandates);
      ("founder_hypothesis_intake_policy", founder_hypothesis_intake_policy);
      ("market_data_catalog", catalog_json);
      ("representation_guidance", representation_guidance);
      ("claim_boundary", JStr "Context is advisory evidence only and grants no execution authority.")].

Section ops.
Context `{World}.

Definition _grounding_context (project : option string) (query : string) : Sess Json.dict :=
  now ← utc_now;
  document ← gets (fun d => grounding_document d w_search now project query);
  lift document.

(** ** [_planning_task] *)
Definition planning_contract (c : FounderConversation) (messages : list string) (grounding : Json.dict) : Json.dict :=
  let number := "HERMES-" +:+ Str.upper (fc_short_id c) in
  [("schema_version", JInt 2); ("request_kind", JStr "task"); ("objective", JStr (default "" (head messages)));
   ("conversation_id", JStr (uuid_str (fc_id c))); ("conversation_revision", JInt (fc_revision c));
   ("conversation_context", Json.str_list (drop (length messages - 20) messages));
   ("suggested_identifiers", JObj [("program_id", JStr number); ("hypothesis_id", JStr (number +:+ "-H1"))]);
   ("specification_guide", JObj (_specification_guide (fc_project c)));
   ("grounding_context", JObj grounding)].

Definition planning_risk (c : FounderConversation) : Z :=
  if bool_decide (fc_project c = Some "bulletproof_bt") then 1 else 0.

(** the [TaskCreate] of a planning task *)
Definition planning_create (now : datetime) (c : FounderConversation) (messages : list string) (actor : string)
    (grounding : Json.dict) : TaskCreate :=
  mkTaskCreate ("FOUNDER-CONVERSATION-" +:+ compact_datetime now +:+ microseconds now +:+ "Z")
    (match fc_project c with Some p => if Str.nonempty p then p else "swarm-control-plane" | None => "swarm-control-plane" end)
    "founder_request" (_title (default "" (head messages))) (fc_working_summary c) 70 (planning_risk c) None actor
    (planning_contract c messages grounding) (Json.str_list ["reviewed structured execution plan"]) (JList [])
    [("kind", JStr "automatic"); ("risk", JInt (planning_risk c))] false ["founder-intake"] ["vm1-developer"] 1.

(** ties a task to the revision it plans *)
Definition for_conversation (cid : option uuid) (revision : option Z) (t : Task) : Task :=
  t <| t_conversation_id := cid |> <| t_conversation_revision := revision |>.

(** [_planning_task] and the [persist_new_task] that follows it *)
Definition _planning_task (c : FounderConversation) (messages : list string) (actor : string) : Sess (uuid * TaskStatus) :=
  now ← utc_now;
  grounding ← _grounding_context (fc_project c) (default "" (last messages));
  materialize (planning_create now c messages actor grounding) (for_conversation (Some (fc_id c)) (Some (fc_revision c))).

(** ** [append_turn] *)

(** [db.add(message)] and its flush; sequences and channel identifiers are unique
    in a conversation *)
Definition add_message (m : FounderConversationMessage) : Sess unit :=
  clash ← gets (fun d => existsb (fun m' => bool_decide (fm_sequence m' = fm_sequence m) ||
    bool_decide (is_Some (fm_channel_message_id m)) &&
    bool_decide (fm_channel_message_id m' = fm_channel_message_id m)) (messages_of d (fm_conversation_id m)));
  if clash : bool then integrity_error else insert_row messages (fm_id m) m.

Definition founder_message (id : uuid) (cid : uuid) (sequence : Z) (reply_to : option uuid)
    (p : ConversationTurnCreate) : FounderConversationMessage :=
  mkFounderConversationMessage id cid sequence "founder" (ctc_channel p) (ctc_channel_message_id p) reply_to
    (ctc_message p) (sha256 (Str.encode (ctc_message p)))
    (match ctc_reply_to_channel_message_id p with
     | Some r => if Str.nonempty r then [("reply_to_channel_message_id", JStr r)] else []
     | None => []
     end) w_server_now.

(** cancels a queued task of an earlier revision *)
Definition supersede (revision : Z) (t : Task) : Sess unit :=
  _ ← alter_task (t_id t) (fun t => t <| t_status := Cancelled |>);
  append_task_event (t_id t) "conversation_revision_superseded"
    "A newer founder turn superseded this planning revision." None
    [("superseded_by_revision", JInt revision)].

(** the conversation after a turn, once its messages are known *)
Definition turned (revision : Z) (messages : list string) (c : FounderConversation) : FounderConversation :=
  c <| fc_revision := revision |>
    <| fc_project := Some (_classify_project messages) |>
    <| fc_working_summary := _bounded_summary messages |>
    <| fc_status := "collecting" |>
    <| fc_current_specification := [] |>
    <| fc_specification_digest := None |>
    <| fc_updated_at := w_server_now |>.

(** the message that already carries the turn's channel identifier *)
Definition find_duplicate (cid : uuid) (id : option string) : Sess (option FounderConversationMessage) :=
  match id with
  | Some id => if Str.nonempty id then select_one messages (carries cid id) else mret None
  | None => mret None
  end.

Definition find_reply (cid : uuid) (channel : string) (id : option string) : Sess (option FounderConversationMessage) :=
  match id with
  | Some id => if Str.nonempty id
               then select_one messages (fun m => carries cid id m && str_eqb (fm_channel m) channel) else mret None
  | None => mret None
  end.

(** a turn that is not a duplicate *)
Definition new_turn (c : FounderConversation) (payload : ConversationTurnCreate) : Sess uuid :=
  sequence ← gets (fun d => next_sequence d (fc_id c));
  reply_to ← find_reply (fc_id c) (ctc_channel payload) (ctc_reply_to_channel_message_id payload);
  id ← fresh_id;
  let message := founder_message id (fc_id c) sequence (fm_id <$> reply_to) payload in
  _ ← add_message message;
  let revision := fc_revision c + 1 in
  stale_tasks ← select_rows tasks (stale (fc_id c) revision);
  _ ← for_each stale_tasks (supersede revision);
  contents ← gets (fun d => _founder_messages d (fc_id c));
  let c' := turned revision contents c in
  _ ← alter_row conversations (fc_id c) (turned revision contents);
  task ← _planning_task c' contents (ctc_founder_key payload);
  _ ← conversation_event c' "founder_turn_added" (ctc_founder_key payload) (Some (fc_status c))
        [("message_digest", JStr (fm_content_digest message)); ("task_id", JStr (uuid_str task.1));
         ("sequence", JInt sequence)];
  mret task.1.

Definition append_turn (c : FounderConversation) (payload : ConversationTurnCreate) : Sess uuid :=
  if negb (str_eqb (fc_founder_key c) (ctc_founder_key payload)) then http 404 "Conversation not found."
  else if negb (str_in (fc_status c) OPEN_STATUSES) then http 409 "Conversation is not open for new turns."
  else
    duplicate ← find_duplicate (fc_id c) (ctc_channel_message_id payload);
    match duplicate with
    | Some _ =>
        task ← gets (fun d => head (sort_by newest_first (List.filter (of_revision c) (table_rows (tasks d)))));
        match task with
        | None => http 409 "Duplicate turn has no task."
        | Some t => mret (t_id t)
        end
    | None => new_turn c payload
    end.

(** ** [create_conversation] *)
Definition new_conversation_row (id : uuid) (short_id : string) (p : ConversationCreate) : FounderConversation :=
  mkFounderConversation id short_id (ccr_founder_key p) (ccr_title p) None "collecting" "" [] None 0
    w_server_now w_server_now None.

(** [short_id] is unique *)
Definition add_conversation (c : FounderConversation) : Sess unit :=
  clash ← select_one conversations (fun c' => str_eqb (fc_short_id c') (fc_short_id c));
  match clash with
  | Some _ => integrity_error
  | None => insert_row conversations (fc_id c) c
  end.

(** [uuid.uuid4().hex[:12]] is drawn from the random source *)
Definition create_conversation (payload : ConversationCreate) : Sess (uuid * uuid) :=
  hex ← token_hex;
  id ← fresh_id;
  let c := new_conversation_row id (Str.head 12 hex) payload in
  _ ← add_conversation c;
  task ← append_turn c (first_turn payload);
  row ← get_row conversations id;
  _ ← conversation_event (default c row) "conversation_created" (ccr_founder_key payload) None
        [("channel", JStr (ccr_channel payload))];
  mret (id, task).

(** ** [transition_conversation] *)
Definition transition_target (action : string) : string :=
  if str_eqb action "finish" then "finished"
  else if str_eqb action "stop" then "stopped"
  else if str_eqb action "archive" then "archived"
  else "collecting".

Definition transition_conversation (c : FounderConversation) (action actor reason : string) : Sess unit :=
  if str_eqb action "resume" && negb (str_in (fc_status c) ["finished"; "stopped"]) then
    http 409 "Only finished or stopped conversations may resume."
  else if negb (str_eqb action "resume") && str_in (fc_status c) ["archived"; "stopped"] then
    http 409 "Conversation transition is invalid."
  else
    let target := transition_target action in
    closed ← (if str_eqb target "collecting" then mret None else now ← utc_now; mret (Some now));
    let f c := c <| fc_status := target |> <| fc_closed_at := closed |> <| fc_updated_at := w_server_now |> in
    _ ← alter_row conversations (fc_id c) f;
    conversation_event (f c) ("conversation_" +:+ action) actor (Some (fc_status c)) [("reason", JStr reason)].

(** ** [record_planner_response] *)
Definition response_status (action : string) : string :=
  if str_eqb action "create_task" then "ready_for_review"
  else if str_eqb action "needs_clarification" then "needs_clarification"
  else if str_eqb action "decline" then "attention_required"
  else "collecting".

Definition response_content (document : FounderProposalDocument) : string :=
  fpd_summary document +:+
  (if bool_decide (fpd_clarification_questions document = []) then ""
   else paragraph +:+ Str.join Json.newline
          (imap (fun i q => pretty (Z.of_nat i + 1) +:+ ". " +:+ q) (fpd_clarification_questions document))).

Definition response_message (id cid : uuid) (sequence : Z) (document : FounderProposalDocument) (digest : string)
    : FounderConversationMessage :=
  mkFounderConversationMessage id cid sequence "hermes" "system" None None (response_content document)
    (sha256 (Str.encode (response_content document)))
    [("proposal_digest", JStr digest); ("recommended_action", JStr (fpd_recommended_action document))] w_server_now.

(** [proposal] is the dump of [document] *)
Definition record_planner_response (task : Task) (document : FounderProposalDocument) (proposal : Json.dict)
    (digest : string) : Sess unit :=
  match t_conversation_id task with
  | None => mret tt
  | Some cid =>
      conversation ← get_row conversations cid;
      match conversation with
      | None => mret tt
      | Some c =>
          if negb (bool_decide (t_conversation_revision task = Some (fc_revision c))) then mret tt
          else
            let f c := c <| fc_status := response_status (fpd_recommended_action document) |>
                         <| fc_current_specification := proposal |>
                         <| fc_specification_digest := Some digest |>
                         <| fc_updated_at := w_server_now |> in
            _ ← alter_row conversations cid f;
            sequence ← gets (fun d => next_sequence d cid);
            id ← fresh_id;
            _ ← add_message (response_message id cid sequence document digest);
            conversation_event (f c) "planner_response_recorded" "founder-planner" (Some (fc_status c))
              [("proposal_digest", JStr digest)]
      end
  end.

(** ** [routes/conversations.py] *)

(** [_get] *)
Definition get_conversation (conversation_id : uuid) (founder_key : string) : Sess FounderConversation :=
  item ← get_row conversations conversation_id;
  match item with
  | Some c => if str_eqb (fc_founder_key c) founder_key then mret c else http 404 "Conversation not found."
  | None => http 404 "Conversation not found."
  end.

Definition new_conversation (payload : ConversationCreate) : Sess (uuid * uuid) :=
  if negb (valid_conversation_create payload) then validation_error "ConversationCreate"
  else r ← create_conversation payload; _ ← commit; mret r.

Definition add_turn (conversation_id : uuid) (payload : ConversationTurnCreate) : Sess uuid :=
  if negb (valid_turn payload) then validation_error "ConversationTurnCreate"
  else
    item ← get_conversation conversation_id (ctc_founder_key payload);
    task ← append_turn item payload;
    _ ← commit; mret task.

Definition transition_endpoint (conversation_id : uuid) (payload : ConversationTransition) : Sess unit :=
  if negb (valid_transition payload) then validation_error "ConversationTransition"
  else
    item ← get_conversation conversation_id (ctt_founder_key payload);
    _ ← transition_conversation item (ctt_action payload) (ctt_founder_key payload) (ctt_reason payload);
    commit.
End ops.
