(* ===== verification/Proposals.v ===== *)
(** * Founder proposals: from a plan to a task

    [services/proposals.py], the routes of [routes/proposals.py], the requests
    and proposal decisions of [routes/founder_channel.py], and
    [queue_founder_idea] of [services/alpha_discovery.py].  A planner answers a
    founder request with one document; a decision turns it into a task or ends it. *)
From S2P Require Import Prelude Py Sha256 JsonText Models Store Logic TaskCore Notifications Governance.
From S2P Require Import Tasks TaskGraphs Conversations ProposalSchema FounderConversations.

Open Scope Z_scope.

(** ** Request bodies *)
Definition valid_decision (p : FounderProposalDecision) : bool :=
  len_between 1 150 (fpx_actor p) && Str.actor_name (fpx_actor p) && len_between 10 1000 (fpx_reason p) &&
  optional sha_hex (fpx_mandate_digest p) &&
  Bool.eqb (bool_decide (fpx_mandate_id p = None)) (bool_decide (fpx_mandate_digest p = None)).

Definition valid_channel_decision (p : FounderChannelDecision) : bool :=
  len_between 10 1000 (fcd_reason p) && within 60 3600 (fcd_expires_in_seconds p).

Definition valid_channel_request (p : FounderChannelRequest) : bool :=
  str_in (fcq_kind p) ["task"; "mission"] && len_between 1 100 (fcq_project p) && Str.actor_name (fcq_project p) &&
  len_between 3 160 (fcq_title p) && len_between 10 4000 (fcq_objective p) && within 0 5 (fcq_risk_level p) &&
  sized 0 20 (fcq_acceptance_criteria p).

(** [AlphaFounderResearchIdeaCreate] *)
Definition valid_idea (p : AlphaFounderResearchIdeaCreate) : bool :=
  sha_hex (aic_expected_mandate_digest p) && len_between 20 12000 (aic_idea p) &&
  str_eqb (aic_submitted_by p) "founder-operator" && within 365 3650 (aic_minimum_history_days p) &&
  within 1 8 (aic_maximum_variants p) && within 1 128 (aic_minimum_instruments p) &&
  within 1 128 (aic_maximum_instruments p) &&
  str_eqb (aic_universe_selection_policy p) "preregistered_point_in_time" && valid_slices (aic_universe_slices p) &&
  (aic_minimum_instruments p <=? aic_maximum_instruments p).

Section ops.
Context `{World}.

(** ** [queue_founder_idea] *)

Definition discovery_event_body (mandate_id : uuid) (sequence : Z) (kind : string) (payload : Json.dict)
    (previous : option string) : json := JObj
  [("mandate_id", JStr (uuid_str mandate_id)); ("cycle_id", JNull); ("sequence", JInt sequence);
   ("event_type", JStr kind); ("actor", JStr "alpha-continuous-director"); ("payload", JObj payload);
   ("previous_digest", Json.opt_str previous)].

(** [_event] of [services/alpha_discovery.py], outside a cycle *)
Definition discovery_event (mandate_id : uuid) (kind : string) (payload : Json.dict) : Sess unit :=
  prior ← gets (fun d => max_by ade_sequence
    (List.filter (fun e => bool_decide (ade_mandate_id e = mandate_id)) (discovery_events d)));
  let sequence := from_option ade_sequence 0 prior + 1 in
  let previous := ade_event_digest <$> prior in
  append_log discovery_events
    (mkAlphaDiscoveryEvent mandate_id None sequence kind "alpha-continuous-director" payload previous
       (digest (discovery_event_body mandate_id sequence kind payload previous)) w_server_now).

Definition idea_constraints (p : AlphaFounderResearchIdeaCreate) : Json.dict :=
  [("minimum_history_days", JInt (aic_minimum_history_days p)); ("maximum_variants", JInt (aic_maximum_variants p));
   ("minimum_instruments", JInt (aic_minimum_instruments p));
   ("maximum_instruments", JInt (aic_maximum_instruments p));
   ("universe_selection_policy", JStr (aic_universe_selection_policy p));
   ("universe_slices", Json.str_list (aic_universe_slices p));
   ("selection_timing", JStr "frozen_before_outcome_evaluation")].

Definition idea_digest (mandate : AlphaResearchMandate) (p : AlphaFounderResearchIdeaCreate) : string :=
  digest (JObj [("mandate_digest", JStr (am_mandate_digest mandate)); ("idea", JStr (aic_idea p));
                ("constraints", JObj (idea_constraints p)); ("conversation_id", Json.opt_uuid (aic_conversation_id p))]).

Definition new_idea (id : uuid) (mandate : AlphaResearchMandate) (p : AlphaFounderResearchIdeaCreate)
    : AlphaFounderResearchIdea :=
  mkAlphaFounderResearchIdea id (am_id mandate) None (aic_conversation_id p) (aic_submitted_by p) (aic_idea p)
    (idea_constraints p) (idea_digest mandate p) "queued" w_server_now w_server_now.

Definition add_idea (mandate : AlphaResearchMandate) (p : AlphaFounderResearchIdeaCreate)
    : Sess AlphaFounderResearchIdea :=
  existing ← select_one ideas (fun i => str_eqb (afi_idea_digest i) (idea_digest mandate p));
  match existing with
  | Some idea => mret idea
  | None =>
      id ← fresh_id;
      let idea := new_idea id mandate p in
      _ ← insert_row ideas id idea;
      _ ← discovery_event (am_id mandate) "founder_research_idea_queued"
            [("idea_id", JStr (uuid_str id)); ("idea_digest", JStr (afi_idea_digest idea));
             ("constraints", JObj (afi_constraints idea))];
      mret idea
  end.

Definition queue_founder_idea (mandate : AlphaResearchMandate) (payload : AlphaFounderResearchIdeaCreate)
    : Sess AlphaFounderResearchIdea :=
  let inactive := http 409 "Founder research ideas require an active research mandate." in
  if negb (str_eqb (am_status mandate) "active") then inactive
  else
    now ← utc_now;
    if negb ((am_valid_from mandate <=? now) && (now <? am_valid_until mandate)) then inactive
    else if negb (str_eqb (am_mandate_digest mandate) (aic_expected_mandate_digest payload)) then
      http 409 "Mandate digest changed before the idea was queued."
    else add_idea mandate payload.

(** ** [create_proposal] *)
Definition new_proposal (id : uuid) (source : Task) (planner : Agent) (document : FounderProposalDocument)
    : FounderProposal :=
  mkFounderProposal id (t_id source) (t_conversation_id source) (t_conversation_revision source) (ag_id planner)
    "proposed" document (proposal_digest document) None None None w_server_now w_server_now None.

(** [source_task.conversation_revision != conversation.revision] *)
Definition current_revision (c : FounderConversation) (revision : option Z) : bool :=
  bool_decide (revision = Some (fc_revision c)).

Definition create_proposal (source : Task) (planner : Agent) (document : FounderProposalDocument)
    : Sess FounderProposal :=
  if negb (str_eqb (t_task_type source) "founder_request") then
    http 422 "Proposals may only be submitted for founder_request tasks."
  else if negb (str_in "founder-intake" (ag_capabilities planner)) then
    http 403 "Agent is not authorized to plan founder requests."
  else
    conversation ← match t_conversation_id source with
                   | None => mret None
                   | Some cid => c ← get_row conversations cid; mret (Some c)
                   end;
    if match conversation with
       | None => false
       | Some None => true
       | Some (Some c) => negb (current_revision c (t_conversation_revision source))
       end
    then http 409 "A newer founder turn superseded this planning revision."
    else
      existing ← select_one proposals (fun p => bool_decide (fp_source_task_id p = t_id source));
      match existing with
      | Some _ => http 409 "A proposal already exists for this founder request."
      | None =>
          id ← fresh_id;
          let proposal := new_proposal id source planner document in
          _ ← insert_row proposals id proposal;
          _ ← record_planner_response source document (dump_document document) (fp_proposal_digest proposal);
          mret proposal
      end.

(** ** [materialize_proposal] *)

(** [_task_create]; the suffix is upper-case hexadecimal *)
Definition _task_create (proposed : ProposedTask) (source : Task) (actor : string) (now : datetime) (suffix : string)
    : TaskCreate :=
  mkTaskCreate ("PLANNED-" +:+ compact_datetime now +:+ "-" +:+ suffix) (pt_project proposed) (pt_task_type proposed)
    (pt_title proposed) (pt_objective proposed) (pt_priority proposed) (pt_risk_level proposed) (Some (t_id source))
    actor (dump_contract no_nulls (pt_input_contract proposed)) (Json.str_list (pt_expected_outputs proposed))
    (Json.str_list (pt_acceptance_criteria proposed)) (dump_policy (pt_approval_policy proposed))
    (pt_approval_required proposed) (pt_required_capabilities proposed) (pt_allowed_machines proposed)
    (pt_max_attempts proposed).

(** [model_dump(mode="python")] leaves [mandate_id] a UUID, which [json.dumps]
    of the plan refuses *)
Definition holds_uuid (c : ProposalInputContract) : bool :=
  match c with FounderHypothesisIntake c => bool_decide (is_Some (phi_mandate_id c)) | _ => false end.

(** the task of a proposal, as [build_task] and [persist_new_task] leave it *)
Definition planned_task (proposed : ProposedTask) (source : Task) (actor : string) (now : datetime) : Sess uuid :=
  hex ← token_hex;
  let payload := _task_create proposed source actor now (Str.upper (Str.head 8 hex)) in
  if valid_task_create payload && holds_uuid (pt_input_contract proposed) then
    raise (PyException "TypeError" "Object of type UUID is not JSON serializable")
  else
    created ← materialize payload (for_conversation (t_conversation_id source) (t_conversation_revision source));
    mret created.1.

Definition idea_create (c : ProposalFounderHypothesisIntakeContract) (mandate_id : uuid) (mandate_digest : string)
    (source : Task) : AlphaFounderResearchIdeaCreate :=
  mkAlphaFounderResearchIdeaCreate mandate_id mandate_digest (phi_research_idea c) "founder-operator"
    (t_conversation_id source) (phi_minimum_history_days c) (phi_maximum_variants c) (phi_minimum_instruments c)
    (phi_maximum_instruments c) (phi_universe_selection_policy c) (phi_universe_slices c).

(** [a is not None and b not in {None, a}] *)
Definition rebinds {A} `{EqDecision A} (a b : option A) : bool :=
  match a, b with Some x, Some y => negb (bool_decide (x = y)) | _, _ => false end.

Definition orelse {A} (a b : option A) : option A := match a with Some _ => a | None => b end.

(** [contract.mandate_digest or mandate_digest]: an empty digest is falsy *)
Definition digest_or (a b : option string) : option string :=
  match a with Some s => if Str.nonempty s then a else b | None => b end.

Definition idea_result (idea : AlphaFounderResearchIdea) : Json.dict :=
  [("founder_research_idea_id", JStr (uuid_str (afi_id idea))); ("idea_digest", JStr (afi_idea_digest idea));
   ("status", JStr (afi_status idea)); ("authority", JStr "no_capital_research")].

(** a founder hypothesis is queued as an idea, which completes its task *)
Definition queue_hypothesis (c : ProposalFounderHypothesisIntakeContract) (task_id : uuid) (source : Task)
    (created_at : datetime) (mandate_id : option uuid) (mandate_digest : option string) : Sess unit :=
  if rebinds (phi_mandate_id c) mandate_id then http 409 "Proposal is already bound to another mandate."
  else if rebinds (phi_mandate_digest c) mandate_digest then http 409 "Proposal mandate digest cannot be replaced."
  else
    match orelse (phi_mandate_id c) mandate_id, digest_or (phi_mandate_digest c) mandate_digest with
    | Some bound_id, Some bound_digest =>
        mandate ← get_row mandates bound_id;
        match mandate with
        | None => http 404 "Research mandate not found."
        | Some m =>
            let payload := idea_create c bound_id bound_digest source in
            if negb (valid_idea payload) then validation_error "AlphaFounderResearchIdeaCreate"
            else
              idea ← queue_founder_idea m payload;
              _ ← alter_task task_id (fun t => t <| t_status := Succeeded |> <| t_started_at := Some created_at |>
                    <| t_completed_at := Some created_at |> <| t_result := idea_result idea |>);
              append_task_event task_id "founder_research_idea_queued"
                "Research idea queued for independent RI and senior-researcher review." None (idea_result idea)
        end
    | _, _ => http 409 "An active research mandate is required at materialization, not intake."
    end.

(** the decision a proposal carries *)
Definition decided (status actor reason : string) (at_ : datetime) (task : option uuid) (p : FounderProposal)
    : FounderProposal :=
  p <| fp_status := status |> <| fp_materialized_task_id := task |> <| fp_decided_by := Some actor |>
    <| fp_decision_reason := Some reason |> <| fp_decided_at := Some at_ |> <| fp_updated_at := w_server_now |>.

(** [proposal.conversation_revision != conversation.revision or
    conversation.specification_digest != proposal.proposal_digest] *)
Definition superseded (p : FounderProposal) (c : FounderConversation) : bool :=
  negb (current_revision c (fp_conversation_revision p)) ||
  negb (bool_decide (fc_specification_digest c = Some (fp_proposal_digest p))).

(** whether the conversation of a proposal has moved on *)
Definition conversation_moved (p : FounderProposal) : Sess bool :=
  match fp_conversation_id p with
  | None => mret false
  | Some cid => c ← get_row conversations cid; mret (from_option (superseded p) true c)
  end.

Definition materialize_task (p : FounderProposal) (proposed : ProposedTask) (actor reason : string)
    (mandate_id : option uuid) (mandate_digest : option string) : Sess uuid :=
  source ← get_row tasks (fp_source_task_id p);
  match source with
  | None => http 404 "Source request not found."
  | Some source =>
      created_at ← utc_now;
      task_id ← planned_task proposed source actor created_at;
      _ ← match pt_input_contract proposed with
          | FounderHypothesisIntake c => queue_hypothesis c task_id source created_at mandate_id mandate_digest
          | _ => mret tt
          end;
      _ ← alter_row proposals (fp_id p) (decided "materialized" actor reason created_at (Some task_id));
      mret task_id
  end.

Definition already_decided {A} (p : FounderProposal) : Sess A :=
  http 409 ("Proposal is already " +:+ fp_status p +:+ ".").

(** the stored document is the dump of one that was validated, so validating it
    again gives that document back *)
Definition materialize_proposal (p : FounderProposal) (actor reason : string) (mandate_id : option uuid)
    (mandate_digest : option string) : Sess uuid :=
  if negb (str_eqb (fp_status p) "proposed") then already_decided p
  else
    match str_eqb (fpd_recommended_action (fp_proposal p)) "create_task", fpd_proposed_task (fp_proposal p) with
    | true, Some proposed =>
        moved ← conversation_moved p;
        if moved : bool then http 409 "A newer conversation revision superseded this proposal."
        else materialize_task p proposed actor reason mandate_id mandate_digest
    | _, _ => http 409 "This proposal does not recommend task creation."
    end.

Definition reject_proposal (p : FounderProposal) (actor reason : string) : Sess unit :=
  if negb (str_eqb (fp_status p) "proposed") then already_decided p
  else
    now ← utc_now;
    alter_row proposals (fp_id p) (fun p => p <| fp_status := "rejected" |> <| fp_decided_by := Some actor |>
      <| fp_decision_reason := Some reason |> <| fp_decided_at := Some now |> <| fp_updated_at := w_server_now |>).

(** ** [routes/proposals.py] *)
Definition _lock_proposal (proposal_id : uuid) : Sess FounderProposal :=
  proposal ← get_row proposals proposal_id;
  match proposal with
  | None => http 404 "Proposal not found."
  | Some p => mret p
  end.

Definition submit_proposal (task_id : uuid) (payload : FounderProposalCreate) (agent : Agent) : Sess uuid :=
  _ ← lift (check_document (fpn_proposal payload));
  if negb (Str.nonempty (fpn_lease_token payload)) then validation_error "FounderProposalCreate"
  else
    task ← lock_task task_id;
    _ ← verify_task_lease task agent (fpn_lease_token payload) [Running];
    proposal ← create_proposal task agent (fpn_proposal payload);
    _ ← append_task_event task_id "founder_proposal_created" "Planner submitted a structured founder proposal."
          (Some (ag_id agent))
          [("proposal_id", JStr (uuid_str (fp_id proposal))); ("proposal_digest", JStr (fp_proposal_digest proposal));
           ("recommended_action", JStr (fpd_recommended_action (fpn_proposal payload)))];
    _ ← commit;
    mret (fp_id proposal).

Definition approve_and_materialize (proposal_id : uuid) (payload : FounderProposalDecision) : Sess uuid :=
  if negb (valid_decision payload) then validation_error "FounderProposalDecision"
  else
    proposal ← _lock_proposal proposal_id;
    catch_integrity
      (task ← materialize_proposal proposal (fpx_actor payload) (fpx_reason payload) (fpx_mandate_id payload)
                (fpx_mandate_digest payload);
       _ ← commit; mret task) "Proposal materialization conflicted.".

Definition reject_endpoint (proposal_id : uuid) (payload : FounderProposalDecision) : Sess unit :=
  if negb (valid_decision payload) then validation_error "FounderProposalDecision"
  else
    proposal ← _lock_proposal proposal_id;
    _ ← reject_proposal proposal (fpx_actor payload) (fpx_reason payload);
    commit.

(** ** [routes/founder_channel.py] *)
Definition _founder_request_task (payload : FounderChannelRequest) (now : datetime) : TaskCreate :=
  mkTaskCreate ("FOUNDER-TELEGRAM-" +:+ compact_datetime now +:+ microseconds now +:+ "Z") (fcq_project payload)
    "founder_request" (fcq_title payload) (fcq_objective payload) 70 0 None "founder-telegram"
    [("schema_version", JInt 1); ("request_kind", JStr (fcq_kind payload)); ("objective", JStr (fcq_objective payload))]
    (Json.str_list ["reviewed structured execution plan"]) (Json.str_list (fcq_acceptance_criteria payload))
    [("kind", JStr "automatic"); ("risk", JInt 0)] false ["founder-intake"] ["vm1-developer"] 1.

Definition create_request (payload : FounderChannelRequest) : Sess uuid :=
  if negb (valid_channel_request payload) then validation_error "FounderChannelRequest"
  else
    now ← utc_now;
    catch_integrity
      (created ← materialize (_founder_request_task payload now) id; _ ← commit; mret created.1)
      "Request creation conflicted.".

(** the task a materialized proposal became, if the action is that one *)
Definition decide_proposal (proposal_id : uuid) (action : string) (payload : FounderChannelDecision)
    : Sess (option uuid) :=
  if negb (valid_channel_decision payload) then validation_error "FounderChannelDecision"
  else
    proposal ← _lock_proposal proposal_id;
    if str_eqb action "materialize" then
      task ← materialize_proposal proposal "founder-telegram" (fcd_reason payload) None None;
      _ ← commit; mret (Some task)
    else if str_eqb action "reject" then
      _ ← reject_proposal proposal "founder-telegram" (fcd_reason payload);
      _ ← commit; mret None
    else http 404 "Unknown proposal action.".
End ops.
