(* ===== verification/TaskRuntime.v ===== *)
(** * The agents' task endpoints

    [routes/task_runtime.py] and the mutating endpoints of [routes/tasks.py]:
    each is one transaction over the operations of the services.  The agent is
    the row [get_current_agent] authenticated. *)
From S2P Require Import Prelude Py Sha256 Models Store Logic Security TaskCore Notifications Governance.
From S2P Require Import AgentGovernance Controls EvaluatorRouting Tasks Dag Missions AgentContext TaskGraphs.
From S2P Require Import Conversations.

Open Scope Z_scope.

Section ops.
Context `{World}.

(** ** Helpers of [routes/task_runtime.py] *)

(** the graph a task was materialised for *)
Definition node_and_graph (task : Task) : Sess (option (TaskGraphNode * TaskGraph)) :=
  gets (fun d =>
    node_id ← t_task_graph_node_id task;
    node ← nodes d !! node_id;
    graph ← graphs d !! gn_graph_id node;
    Some (node, graph)).

Definition _reconcile_task_graph (task : Task) : Sess unit :=
  found ← node_and_graph task;
  match found with
  | None => mret tt
  | Some (_, graph) => _ ← reconcile_graph graph; mret tt
  end.

(** the message reporting a task's result or failure to its graph *)
Definition task_message (node : TaskGraphNode) (task : Task) (succeeded : bool)
    : TaskGraphMessageCreate :=
  mkTaskGraphMessageCreate (Some (gn_node_key node))
    (if succeeded then gn_output_type node else "failure.report") (gn_role node)
    "task-graph-controller" (if succeeded then t_result task else t_failure task).

Definition _record_graph_task_message (task_id : uuid) (succeeded : bool) : Sess unit :=
  task ← lock_task task_id;
  found ← node_and_graph task;
  match found with
  | None => mret tt
  | Some (node, graph) =>
      let message := task_message node task succeeded in
      if negb (valid_message_create message) then validation_error "TaskGraphMessageCreate"
      else append_message graph message
  end.

Definition _append_terminal_event (task_id : uuid) (event_type message : string)
    (agent_id : option uuid) (payload : Json.dict) : Sess unit :=
  discarded ← discard_working_memory task_id;
  append_task_event task_id event_type message agent_id
    (Json.set "working_memory_discarded" (JInt discarded) payload).

(** ** Leasing *)

Record TaskLeaseResponse := mkTaskLeaseResponse {
  lr_task : option uuid;
  lr_lease_token : option string;
  lr_prior_failure : Json.dict;
  lr_paused : bool;
  lr_pause_reasons : list string }.

Definition pause_reason (scope : ControlScope) : string :=
  match cs_reason scope with
  | Some r => if Str.nonempty r then r else "Paused by operator."
  | None => "Paused by operator."
  end.

Definition lease_task (agent : Agent) (lease_seconds : Z) : Sess TaskLeaseResponse :=
  paused_scopes ← matching_control_scopes agent;
  if negb (bool_decide (pause_reason <$> paused_scopes = [])) then
    _ ← rollback;
    mret (mkTaskLeaseResponse None None [] true (pause_reason <$> paused_scopes))
  else
    _ ← reap_expired_leases;
    leased ← lease_next_task agent lease_seconds;
    _ ← commit;
    mret match leased with
         | None => mkTaskLeaseResponse None None [] false []
         | Some (task_id, token, prior_failure) =>
             mkTaskLeaseResponse (Some task_id) (Some token) prior_failure false []
         end.

(** ** Running a leased task *)

Definition start_task (task_id : uuid) (agent : Agent) (lease_token message : string) : Sess unit :=
  task ← lock_task task_id;
  now ← verify_task_lease task agent lease_token [Leased];
  _ ← alter_task task_id (fun t => t <| t_status := Running |>);
  _ ← when (str_eqb (t_task_type task) "founder_request") (record_planning_started task);
  _ ← alter_task task_id (fun t =>
        t <| t_started_at := Some (default now (t_started_at t)) |>
          <| t_last_execution_heartbeat_at := Some now |>);
  _ ← append_task_event task_id "task_started" message (Some (ag_id agent)) [];
  commit.

Definition heartbeat_task (task_id : uuid) (agent : Agent) (lease_token : string)
    (lease_seconds : Z) (message : string) (progress : Json.dict) : Sess unit :=
  task ← lock_task task_id;
  now ← verify_task_lease task agent lease_token [Leased; Running];
  let expires := now + seconds lease_seconds in
  _ ← alter_task task_id (fun t =>
        t <| t_last_execution_heartbeat_at := Some now |> <| t_lease_expires_at := Some expires |>);
  _ ← append_task_event task_id "task_heartbeat" message (Some (ag_id agent))
        [("progress", JObj progress); ("lease_expires_at", JStr (isoformat expires))];
  commit.

Definition succeed (now : datetime) (result : Json.dict) (t : Task) : Task :=
  t <| t_status := Succeeded |> <| t_result := result |> <| t_failure := [] |>
    <| t_completed_at := Some now |>.

(** [refresh_mission] for a task that belongs to one *)
Definition refresh_task_mission (task : Task) : Sess unit :=
  match t_mission_id task with
  | Some m => refresh_mission m
  | None => mret tt
  end.

Definition complete_task (task_id : uuid) (agent : Agent) (lease_token message : string)
    (result : Json.dict) : Sess unit :=
  task ← lock_task task_id;
  now ← verify_task_lease task agent lease_token [Running];
  match t_cancel_requested_at task with
  | Some _ => http 409 "Task graph cancellation is pending; completion is no longer accepted."
  | None =>
      _ ← complete_strategy_review_task task agent result;
      _ ← alter_task task_id (succeed now result);
      _ ← _append_terminal_event task_id "task_completed" message (Some (ag_id agent))
            [("result", JObj result)];
      _ ← _record_graph_task_message task_id true;
      _ ← alter_task task_id clear_lease;
      _ ← refresh_task_mission task;
      _ ← _reconcile_task_graph task;
      commit
  end.

Definition supervised (d : database) (task : Task) : bool :=
  match t_mission_id task ≫= fun m => missions d !! m with
  | Some m => ms_supervision_enabled m
  | None => false
  end.

(** after a failure: another attempt, under a new approval where one is needed *)
Definition requeue_failed (task : Task) : Sess unit :=
  _ ← if t_approval_required task
      then rearm_task_approval (t_id task) "Retryable execution failure requires renewed approval."
      else alter_task (t_id task) (fun t => t <| t_status := Queued |>);
  append_task_event (t_id task) "task_requeued"
    (if t_approval_required task
     then "Task returned for renewed approval after retryable failure."
     else "Task requeued after retryable failure.")
    (t_assigned_agent_id task) [("approval_required", JBool (t_approval_required task))].

Definition fail_task (task_id : uuid) (agent : Agent) (lease_token message : string)
    (failure : Json.dict) (retryable : bool) : Sess unit :=
  task ← lock_task task_id;
  now ← verify_task_lease task agent lease_token [Leased; Running];
  let failure_payload := Json.set "retryable" (JBool retryable) failure in
  _ ← alter_task task_id (fun t => t <| t_failure := failure_payload |>);
  _ ← _append_terminal_event task_id "task_failed" message (Some (ag_id agent)) failure_payload;
  is_supervised ← gets (fun d => supervised d task);
  _ ← if retryable && (t_attempt_count task <? t_max_attempts task) && negb is_supervised
      then requeue_failed task
      else alter_task task_id (fun t => t <| t_status := Failed |> <| t_completed_at := Some now |>);
  _ ← _record_graph_task_message task_id false;
  _ ← alter_task task_id clear_lease;
  _ ← refresh_task_mission task;
  _ ← _reconcile_task_graph task;
  commit.

(** *** Releasing a lease *)

(** an attempt that never ran is given back *)
Definition effective_attempt_count (task : Task) : Z :=
  if bool_decide (t_status task = Running) then t_attempt_count task
  else Z.max 0 (t_attempt_count task - 1).

Definition released_status (task : Task) : TaskStatus :=
  match t_cancel_requested_at task with
  | Some _ => Cancelled
  | None => if effective_attempt_count task <? t_max_attempts task then Queued else Failed
  end.

Definition released_failure : Json.dict :=
  [("reason", JStr "lease_released");
   ("message", JStr "Maximum attempts reached when lease was released.")].

Definition apply_release (now : datetime) (status : TaskStatus) (t : Task) : Task :=
  match status with
  | Cancelled => t <| t_status := Cancelled |> <| t_completed_at := Some now |>
  | Failed => t <| t_status := Failed |> <| t_failure := released_failure |>
                <| t_completed_at := Some now |>
  | _ => t <| t_status := status |>
  end.

Definition release_task (task_id : uuid) (agent : Agent) (lease_token message : string) : Sess unit :=
  task ← lock_task task_id;
  now ← verify_task_lease task agent lease_token [Leased; Running];
  let status := released_status task in
  _ ← alter_task task_id (apply_release now status);
  _ ← _append_terminal_event task_id "task_released" message (Some (ag_id agent))
        [("previous_status", JStr (task_status_str (t_status task)));
         ("resulting_status", JStr (task_status_str status));
         ("leased_attempt_number", JInt (t_attempt_count task));
         ("attempt_consumed", JBool (bool_decide (t_status task = Running)))];
  _ ← alter_task task_id (fun t => t <| t_attempt_count := effective_attempt_count task |>);
  _ ← when (bool_decide (status = Queued))
        (rearm_task_approval task_id "A new approval is required after lease release.");
  current ← lock_task task_id;
  _ ← when (bool_decide (t_status current ∈ [Queued; PendingApproval]))
        (append_task_event task_id "task_requeued" "Task requeued after lease release."
           (Some (ag_id agent)) []);
  _ ← alter_task task_id clear_lease;
  _ ← _reconcile_task_graph task;
  commit.

(** ** Endpoints of [routes/tasks.py] *)

Definition create_task (payload : TaskCreate) : Sess uuid :=
  if negb (valid_task_create payload) then validation_error "TaskCreate"
  else
    parent ← match tc_parent_task_id payload with
             | None => mret true
             | Some p => row ← get_row tasks p; mret (match row with Some _ => true | None => false end)
             end;
    if negb parent then http 404 "Parent task not found."
    else
      id ← fresh_id;
      _ ← catch_integrity (_ ← persist_new_task (build_task payload id); commit)
            "Task creation conflicted with existing data.";
      mret id.

Definition reap_task_leases : Sess (Z * Z * Z) :=
  r ← reap_expired_leases;
  _ ← commit;
  mret r.

Definition rearm_expired_task_approval (task_id : uuid) (requested_by reason : string) : Sess unit :=
  task ← lock_task task_id;
  if negb (bool_decide (t_status task ∈ [PendingApproval; Queued])) ||
     negb (t_approval_required task) then
    http 409 "Only an approval-gated task pending approval or stranded queued work can be rearmed."
  else
    _ ← rearm_task_approval task_id reason;
    _ ← append_task_event task_id "task_approval_rearmed" "Expired task approval returned to review."
          None [("requested_by", JStr requested_by); ("reason", JStr reason)];
    commit.

Definition resume_row (diagnostic : Json.dict) (t : Task) : Task :=
  t <| t_max_attempts := Z.max (t_max_attempts t) (t_attempt_count t + 1) |>
    <| t_completed_at := None |> <| t_result := [] |>
    <| t_failure := if bool_decide (length diagnostic = 0%nat) then t_failure t
                    else Json.set "operator_retry_context" (JObj diagnostic) (t_failure t) |>.

Definition resume_failed_task (task_id : uuid) (requested_by reason : string)
    (diagnostic : Json.dict) : Sess unit :=
  task ← lock_task task_id;
  if negb (bool_decide (t_status task = Failed)) then http 409 "Only a failed task can be resumed."
  else
    _ ← alter_task task_id (resume_row diagnostic);
    _ ← rearm_task_approval task_id reason;
    _ ← append_task_event task_id "task_resumed" "Failed task checkpoint resumed by operator." None
          [("requested_by", JStr requested_by);
           ("reason", JStr reason);
           ("previous_attempts", JInt (t_attempt_count task));
           ("next_attempt", JInt (t_attempt_count task + 1));
           ("diagnostic_context", JObj diagnostic)];
    _ ← refresh_task_mission task;
    commit.
End ops.
