(* ===== verification/Supervision.v ===== *)
(** * Mission supervision

    [services/supervision.py]: approval, abort and bounded automatic recovery of
    a supervised mission. *)
From S2P Require Import Prelude Py Sha256 Models Store Logic Security TaskCore Notifications Governance.
From S2P Require Import AgentGovernance Controls EvaluatorRouting Tasks Dag Missions.

Open Scope Z_scope.

Section ops.
Context `{World}.

Definition _current_manifest_digest (m : EngineeringMission) : string := digest (ms_manifest m).

Definition approve_supervision (mission : EngineeringMission) (actor reason : string) : Sess unit :=
  if negb (ms_supervision_enabled mission) then http 409 "Mission is not supervised."
  else if negb (bool_decide (ms_supervision_status mission = Some SvPendingApproval)) then
    http 409 "Mission plan is not pending approval."
  else if negb (str_eqb (ms_manifest_digest mission) (_current_manifest_digest mission)) then
    http 409 "Mission manifest digest has changed."
  else
    now ← utc_now;
    _ ← alter_mission (ms_id mission) (fun m =>
          m <| ms_status := MActive |> <| ms_supervision_status := Some SvActive |>
            <| ms_supervision_approved_at := Some now |>
            <| ms_supervision_approved_by := Some actor |>
            <| ms_next_reconcile_at := Some now |>);
    append_mission_event (ms_id mission) "mission_supervision_approved" actor reason
      [("manifest_digest", JStr (ms_manifest_digest mission))].

Definition abort_task (now : datetime) (actor reason : string) (id : uuid) : Sess unit :=
  t ← lock_task id;
  when (bool_decide (t_status t ∈ [Queued; PendingApproval; Failed]))
    (_ ← alter_task id (fun t => t <| t_status := Cancelled |> <| t_completed_at := Some now |>);
     append_task_event id "task_cancelled" "Task cancelled by supervised mission abort." None
       [("actor", JStr actor); ("reason", JStr reason)]).

Definition abort_supervision (mission : EngineeringMission) (actor reason : string) : Sess unit :=
  if negb (ms_supervision_enabled mission) then http 409 "Mission is not supervised."
  else
    l ← gets (fun d => mission_tasks d (ms_id mission));
    if existsb (fun t => active_lease (t_status t)) l then
      http 409 "Running mission checkpoints must stop before abort."
    else
      now ← utc_now;
      _ ← for_each (t_id <$> l) (abort_task now actor reason);
      _ ← alter_mission (ms_id mission) (fun m =>
            m <| ms_status := MCancelled |> <| ms_supervision_status := Some SvAborted |>
              <| ms_supervision_exception :=
                   [("category", JStr "operator_abort"); ("reason", JStr reason)] |>
              <| ms_next_reconcile_at := None |> <| ms_completed_at := Some now |>);
      append_mission_event (ms_id mission) "mission_supervision_aborted" actor reason
        [("manifest_digest", JStr (ms_manifest_digest mission))].

(** ** Reconciliation *)

Inductive reconcile_action := WaitingApproval | Waiting | Recovered | AttentionRequired | MissionSucceeded.

(** [str(a or b or "unknown")]: a worker reports any JSON object as its failure *)
Definition failure_category (failure : Json.dict) : string :=
  let field k := v ← Json.get k failure; if Json.truthy v then Some (Json.str v) else None in
  default "unknown" (match field "error_category" with Some s => Some s | None => field "reason" end).

(** [int(policy.get(k, fallback))]; the policy stored with a mission is the dump of
    a validated [MissionSupervisionPolicy], whose numbers are integers *)
Definition policy_int (k : string) (fallback : Z) (policy : Json.dict) : Z :=
  default fallback (Json.get k policy ≫= Json.as_int).

Definition is_retryable (policy failure : Json.dict) : bool :=
  Json.truthy_opt (Json.get "retryable" failure) ||
  str_in (failure_category failure) (Json.strs (Json.get "retryable_categories" policy)).

(** the attention a mission needs, and why *)
Definition require_attention (mission_id : uuid) (exception : Json.dict) (message : string) : Sess unit :=
  _ ← alter_mission mission_id (fun m =>
        m <| ms_status := MBlocked |> <| ms_supervision_status := Some SvAttentionRequired |>
          <| ms_supervision_exception := exception |> <| ms_next_reconcile_at := None |>);
  append_mission_event mission_id "mission_attention_required" "mission-supervisor" message exception.

Definition deadline_exception : Json.dict :=
  [("category", JStr "mission_deadline_exhausted");
   ("retryable", JBool false);
   ("time_budget_available", JBool false)].

Definition exhausted_exception (m : EngineeringMission) (failed : Task) (max_recoveries : Z)
    (now : datetime) : Json.dict :=
  [("category", JStr (failure_category (t_failure failed)));
   ("task_id", JStr (uuid_str (t_id failed)));
   ("task_number", JStr (t_task_number failed));
   ("retryable", JBool (is_retryable (ms_supervision_policy m) (t_failure failed)));
   ("attempt_budget_available", JBool (t_attempt_count failed <? t_max_attempts failed));
   ("time_budget_available", JBool (now <? ms_deadline_at m));
   ("recovery_budget_available", JBool (ms_recovery_count m <? max_recoveries))].

(** whether the mission's policy still allows recovering a failed task *)
Definition recoverable (m : EngineeringMission) (failed : Task) (now : datetime) : bool :=
  is_retryable (ms_supervision_policy m) (t_failure failed) &&
  (ms_recovery_count m <? policy_int "max_auto_recoveries" 0 (ms_supervision_policy m)) &&
  (t_attempt_count failed <? t_max_attempts failed) &&
  (now <? ms_deadline_at m).

Definition recover_task (m : EngineeringMission) (failed : Task) (now : datetime) : Sess unit :=
  let category := failure_category (t_failure failed) in
  let count := ms_recovery_count m + 1 in
  _ ← alter_mission (ms_id m) (fun m =>
        m <| ms_recovery_count := count |> <| ms_status := MActive |>
          <| ms_supervision_status := Some SvRecovering |> <| ms_supervision_exception := [] |>);
  _ ← alter_task (t_id failed) (fun t => t <| t_completed_at := None |> <| t_result := [] |>);
  _ ← rearm_task_approval (t_id failed) "Mission supervisor authorized bounded recovery.";
  _ ← append_task_event (t_id failed) "task_auto_recovered"
        "Mission supervisor resumed a retryable checkpoint." None
        [("category", JStr category); ("recovery_count", JInt count)];
  _ ← alter_mission (ms_id m) (fun r => r <| ms_next_reconcile_at :=
        Some (now + seconds (policy_int "retry_backoff_seconds" 30 (ms_supervision_policy m))) |>);
  append_mission_event (ms_id m) "mission_auto_recovered" "mission-supervisor"
    "Retryable checkpoint resumed within approved mission budget."
    [("task_id", JStr (uuid_str (t_id failed))); ("category", JStr category)].

Definition created_leb (a b : Task) : bool := t_created_at a <=? t_created_at b.

(** the part of [reconcile_mission] after expired leases and status are refreshed *)
Definition supervise (m : EngineeringMission) (l : list Task) (now : datetime)
    : Sess (reconcile_action * option uuid) :=
  let id := ms_id m in
  if all_tasks_succeeded l then
    _ ← alter_mission id (fun m =>
          m <| ms_supervision_status := Some SvSucceeded |> <| ms_status := MSucceeded |>
            <| ms_completed_at := Some now |>);
    _ ← append_mission_event id "mission_supervision_completed" "mission-supervisor"
          "All mission checkpoints completed." [];
    mret (MissionSucceeded, None)
  else if ms_deadline_at m <=? now then
    _ ← require_attention id deadline_exception "Mission time budget was exhausted.";
    mret (AttentionRequired, None)
  else
    match List.find (fun t => bool_decide (t_status t = Failed)) l with
    | None =>
        _ ← alter_mission id (fun m => m <| ms_next_reconcile_at := Some (now + seconds 10) |>);
        mret (Waiting, None)
    | Some failed =>
        if recoverable m failed now then
          _ ← recover_task m failed now;
          mret (Recovered, Some (t_id failed))
        else
          _ ← require_attention id
                (exhausted_exception m failed
                   (policy_int "max_auto_recoveries" 0 (ms_supervision_policy m)) now)
                "Mission authority is exhausted or the failure is not retryable.";
          mret (AttentionRequired, Some (t_id failed))
    end.

Definition reconcile_mission (mission : EngineeringMission) : Sess (reconcile_action * option uuid) :=
  if negb (ms_supervision_enabled mission) then http 409 "Mission is not supervised."
  else
    match ms_supervision_status mission with
    | Some SvPendingApproval => mret (WaitingApproval, None)
    | Some SvAttentionRequired => mret (AttentionRequired, None)
    | Some SvActive | Some SvRecovering =>
        now ← utc_now;
        if match ms_next_reconcile_at mission with Some t => now <? t | None => false end
        then mret (Waiting, None)
        else
          _ ← reap_expired_leases;
          _ ← refresh_mission (ms_id mission);
          current ← get_row missions (ms_id mission);
          l ← gets (fun d => sort_by created_leb (mission_tasks d (ms_id mission)));
          supervise (default mission current) l now
    | _ => mret (Waiting, None)
    end.

(** ** Endpoints of [routes/missions.py] *)

Definition lock_mission (mission_id : uuid) : Sess EngineeringMission :=
  mission ← get_row missions mission_id;
  match mission with
  | None => http 404 "Mission not found."
  | Some m => mret m
  end.

Definition approve_mission_supervision (mission_id : uuid) (actor reason : string) : Sess unit :=
  m ← lock_mission mission_id;
  _ ← approve_supervision m actor reason;
  commit.

Definition abort_mission_supervision (mission_id : uuid) (actor reason : string) : Sess unit :=
  m ← lock_mission mission_id;
  _ ← abort_supervision m actor reason;
  commit.

Definition reconcile_mission_supervision (mission_id : uuid) : Sess (reconcile_action * option uuid) :=
  m ← lock_mission mission_id;
  r ← reconcile_mission m;
  _ ← commit;
  mret r.
End ops.
