(* ===== verification/TasksFacts.v ===== *)
(** * Leasing, creating and reaping keep the safety invariant

    A handler edits one task at a time: [editing id g aps s] says that the
    invariant holds of everything but task [id], whose row is [g], and that the
    approvals are [aps].  Editing ends when the row satisfies the invariant again. *)
From S2P Require Import Prelude Py Sha256 Models Store Logic Security TaskCore Notifications Governance.
From S2P Require Import CoreInvariant GovernanceFacts AgentGovernance Controls EvaluatorRouting Tasks.

Open Scope Z_scope.

Section editing.
Context `{World}.

Definition editing (id : uuid) (g : Task) (aps : gmap uuid TaskApproval) (s : session) : Prop :=
  safe (saved s) ∧ core_inv (Some id) (core (db s)) ∧ tasks (db s) !! id = Some g ∧
  approvals (db s) = aps.

Lemma edit_open id g s :
  safe (saved s) → safe (db s) → tasks (db s) !! id = Some g → editing id g (approvals (db s)) s.
Proof. intros Hs Hd Hg. split; [done|]. split; [by apply core_inv_open|done]. Qed.

(** the row as [alter_task] leaves it *)
Definition touched (f : Task → Task) (t : Task) : Task := f t <| t_updated_at := w_server_now |>.

Lemma edit_alter id g aps f s :
  editing id g aps s → same_plan g (f g) →
  wp safe (alter_task id f) (fun _ s' => editing id (touched f g) aps s') s.
Proof.
  intros (Hs & Hd & Hg & Ha) Hplan. apply wp_alter. split; [done|]. split; [|split; [|done]].
  - cbn. apply core_inv_alter_task; [done| |done]. intros t Ht. rewrite Hg in Ht. by injection Ht as <-.
  - cbn. by rewrite lookup_alter_eq, Hg.
Qed.

Lemma edit_frame {A} id g aps (m : Sess A) s :
  editing id g aps s → preserves core m → wp safe m (fun _ s' => editing id g aps s') s.
Proof.
  intros (Hs & Hd & Hg & Ha) Hm. eapply wp_frame; [exact Hm|done|].
  intros a s' Hs' Hc'. unfold editing. rewrite Hs', Hc'. injection Hc' as -> ->. done.
Qed.

Lemma edit_rearm id g aps reason s :
  editing id g aps s →
  wp safe (rearm_task_approval id reason) (fun _ s' => ∃ aps', editing id (rearmed g) aps' s') s.
Proof.
  intros (Hs & Hd & Hg & Ha). eapply wp_rearm; [done|done|exact Hg|].
  intros s' Hs' Hd' Ht'. exists (approvals (db s')). unfold editing. rewrite Hs', Ht'.
  split; [done|]. split; [done|]. split; [|done]. by rewrite lookup_alter_eq, Hg.
Qed.

Lemma edit_close_idle id g aps s :
  editing id g aps s → task_wf g → ¬ active g → safe (saved s) ∧ safe (db s).
Proof.
  intros (Hs & Hd & Hg & Ha) Hwf Hact. split; [done|].
  eapply core_inv_close; [exact Hd|]. intros t Ht. cbn in Ht. rewrite Hg in Ht.
  injection Ht as <-. by split.
Qed.

Definition all_consumed (t : Task) (aps : gmap uuid TaskApproval) : Prop :=
  ∀ id a, aps !! id = Some a → ap_task_id a = t_id t → ap_status a = ApConsumed.

Lemma edit_close id g aps s :
  editing id g aps s → task_wf g → all_consumed g aps → safe (saved s) ∧ safe (db s).
Proof.
  intros (Hs & Hd & Hg & Ha) Hwf Hcons. split; [done|].
  eapply core_inv_close; [exact Hd|]. intros t Ht. cbn in Ht. rewrite Hg in Ht.
  injection Ht as <-. split; [done|]. intros _ a aid. cbn. rewrite Ha. apply Hcons.
Qed.

Lemma safe_active_consumed d id t :
  safe d → tasks d !! id = Some t → active t → all_consumed t (approvals d).
Proof.
  intros Hd Ht Hact aid a Ha E. destruct (ci_ok _ _ Hd _ _ Ht) as [_ Hc]; [done|]. by eapply Hc.
Qed.

Lemma safe_wf d id t : safe d → tasks d !! id = Some t → task_wf t.
Proof. intros Hd Ht. by apply (ci_ok _ _ Hd _ _ Ht). Qed.
End editing.

(** a well-formed row stays well formed when it comes to rest *)
Lemma task_wf_idle t t' :
  task_wf t → t_attempt_count t' = t_attempt_count t → t_max_attempts t' = t_max_attempts t →
  ¬ active t' → lease_clear t' → task_wf t'.
Proof.
  intros [Hatt Hmax _ _] Ea Em Hact Hclear. split; [by rewrite Ea, Em|by rewrite Em|done|done].
Qed.

Ltac not_active := let H := fresh in intros [H|H]; discriminate H.

(** the identifying columns of an assignment are those of the row *)
Ltac same_row := split_and!; vm_compute; reflexivity.

(** run the next call of an edit with a lemma; the postcondition is its fact *)
Tactic Notation "edit" uconstr(lem) "as" simple_intropattern(pat) :=
  apply wp_bind; eapply wp_mono; [eapply lem; [eassumption|..]|cbv beta; intros ? ? pat].

Lemma keeps_map_each {A B} (l : list A) (f : A → Sess B) :
  (∀ x, x ∈ l → keeps (f x)) → keeps (map_each l f).
Proof.
  intros Hf. induction l as [|x l IH]; cbn; [apply keeps_ret|].
  apply keeps_bind; [apply Hf; by left|]. intros y. apply keeps_bind; [|intros; apply keeps_ret].
  apply IH. intros z Hz. apply Hf. by right.
Qed.

Section tasks.
Context `{World}.

(** ** Reaping *)

Lemma reap_row_keeps now id t s :
  safe (saved s) → safe (db s) → tasks (db s) !! id = Some t →
  wp safe (reap_row now t) (fun _ s' => safe (saved s') ∧ safe (db s')) s.
Proof.
  intros Hs Hd Ht. pose proof (ci_task_id _ _ Hd _ _ Ht) as E. pose proof (safe_wf _ _ _ Hd Ht) as Hwf.
  pose proof (edit_open _ _ _ Hs Hd Ht) as He. unfold reap_row. rewrite E.
  edit edit_frame as He1; [eauto with frame|]. apply wp_if; intros Hmax.
  - edit edit_alter as He2; [by repeat split|]. edit edit_frame as He3; [eauto with frame|].
    edit edit_alter as He4; [by repeat split|]. apply wp_ret.
    eapply edit_close_idle; [exact He4| |not_active].
    apply (task_wf_idle t); [exact Hwf|reflexivity|reflexivity|not_active|by repeat split].
  - edit edit_rearm as [aps' He2]. edit edit_frame as He3; [eauto with frame|].
    edit edit_alter as He4; [by repeat split|]. apply wp_ret.
    assert (Hna : ¬ active (touched clear_lease (rearmed t))).
    { unfold active, rearmed, rearm_status. cbn. by destruct (t_approval_required t); intros [?|?]. }
    eapply edit_close_idle; [exact He4| |exact Hna].
    apply (task_wf_idle t); [exact Hwf|reflexivity|reflexivity|exact Hna|by repeat split].
Qed.

Lemma reap_task_keeps now id : keeps (reap_task now id).
Proof.
  intros s Hs Hd. unfold reap_task, lock_task. apply wp_bind, wp_bind, wp_get_row.
  destruct (tasks (db s) !! id) as [t|] eqn:Ht; [|by apply wp_raise].
  apply wp_ret. by eapply reap_row_keeps.
Qed.

Lemma reap_expired_leases_keeps : keeps reap_expired_leases.
Proof.
  unfold reap_expired_leases. keeps. apply keeps_map_each. intros id _. apply reap_task_keeps.
Qed.

(** ** Creating *)

Lemma persist_new_task_keeps t : task_wf t → ¬ active t → keeps (persist_new_task t).
Proof.
  intros Hwf Hact s Hs Hd. unfold persist_new_task. apply wp_bind.
  unfold select_one at 1. apply wp_gets. destruct (head _) as [c|]; [by apply wp_raise|].
  apply wp_bind, wp_insert; [done|]. intros Hnew. apply wp_bind, wp_when; intros Hreq.
  - apply wp_bind, wp_create_approval; [done|]. intros s1 aid Hs1 Ht1 Ha1 Hanew Hnone.
    apply wp_ret. apply (keeps_frame _ (append_task_event_frame core _ _ _ _ _ ltac:(done))).
    + by rewrite Hs1.
    + unfold safe, core. rewrite Ht1, Ha1. cbn. apply core_inv_insert_gated; try done.
  - match goal with |- wp _ ?m _ _ => assert (Hk : keeps m) by keeps end.
    apply Hk; [done|]. by apply core_inv_insert_task.
Qed.

Lemma build_task_wf p id : valid_task_create p = true → task_wf (build_task p id).
Proof.
  unfold valid_task_create. rewrite !andb_true_iff, !Z.leb_le. intros Hv. destruct_and?. split; cbn; [lia|lia| |by repeat split].
  unfold active. cbn. by destruct (needs_approval p); intros [?|?].
Qed.

Lemma build_task_idle p id : ¬ active (build_task p id).
Proof. unfold active. cbn. by destruct (needs_approval p); intros [?|?]. Qed.

(** ** Leasing *)

(** a task that is leased or running for a node of the graph *)
Definition busy_in (d : database) (graph_id : uuid) (t : Task) : Prop :=
  active t ∧ ∃ node n, t_task_graph_node_id t = Some node ∧ nodes d !! node = Some n ∧ gn_graph_id n = graph_id.

(** what [lease_next_task] demands of a task in the rows [d] *)
Record leasable (d : database) (agent : Agent) (now : datetime) (t : Task) : Prop := {
  el_queued : t_status t = Queued;
  el_attempts : t_attempt_count t < t_max_attempts t;
  el_risk : t_risk_level t ≤ ag_risk_ceiling agent;
  el_capabilities c : c ∈ t_required_capabilities t → c ∈ ag_capabilities agent;
  el_approval : t_approval_required t = true → ∃ aid a e, approvals d !! aid = Some a ∧ ap_task_id a = t_id t ∧
    ap_status a = ApApproved ∧ ap_plan_digest a = t_plan_digest t ∧ ap_expires_at a = Some e ∧ now < e;
  el_dependencies dep p : dep ∈ dependencies d → td_task_id dep = t_id t →
    tasks d !! td_depends_on_task_id dep = Some p → t_status p = Succeeded;
  (** no [max_parallelism] tasks of its graph are at work *)
  el_graph node : t_task_graph_node_id t = Some node → ∃ n g, nodes d !! node = Some n ∧
    graphs d !! gn_graph_id n = Some g ∧ tg_status g = GActive ∧
    ∀ busy, NoDup busy → (∀ i, i ∈ busy → ∃ t', tasks d !! i = Some t' ∧ busy_in d (tg_id g) t') →
      Z.of_nat (length busy) < tg_max_parallelism g;
  el_mission m : t_mission_id t = Some m → ∃ mission, missions d !! m = Some mission ∧
    ms_status mission = MActive ∧ now < ms_deadline_at mission;
  el_reviewer : t_task_type t = "alpha_strategy_review" →
    Json.get "evaluator_agent_id" (t_input_contract t) = Some (JStr (uuid_str (ag_id agent)));
  el_machine : t_allowed_machines t = [] ∨ ag_machine agent ∈ t_allowed_machines t }.

Lemma table_row {R} (m : gmap uuid R) r : r ∈ table_rows m ↔ ∃ i, m !! i = Some r.
Proof.
  unfold table_rows. rewrite list_elem_of_fmap. split.
  - intros ([i r'] & -> & Hin). exists i. by apply elem_of_map_to_list.
  - intros [i Hi]. exists (i, r). split; [done|]. by apply elem_of_map_to_list.
Qed.

(** distinct rows that satisfy a test are no more than the rows the test selects *)
Lemma rows_at_most {R} (p : R → bool) (m : gmap uuid R) ids :
  NoDup ids → (∀ i, i ∈ ids → ∃ r, m !! i = Some r ∧ p r = true) →
  (length ids ≤ length (List.filter p (table_rows m)))%nat.
Proof.
  intros Hnd Hids. set (chosen := List.filter (fun ir : uuid * R => p ir.2) (map_to_list m)).
  assert (Hlen : length (List.filter p (table_rows m)) = length chosen).
  { unfold table_rows, chosen. induction (map_to_list m) as [|x l IH]; [done|]. cbn. destruct (p x.2); cbn; by rewrite ?IH. }
  rewrite Hlen, <- (length_fmap fst chosen). apply submseteq_length, NoDup_submseteq; [done|].
  intros i Hi. destruct (Hids i Hi) as (r & Hr & Hp). apply list_elem_of_fmap. exists (i, r). split; [done|].
  apply list_elem_of_In, filter_In. split; [|done]. by apply list_elem_of_In, elem_of_map_to_list.
Qed.

Lemma parallelism_available d t node :
  graph_parallelism_available d t = true → t_task_graph_node_id t = Some node →
  ∃ n g, nodes d !! node = Some n ∧ graphs d !! gn_graph_id n = Some g ∧ tg_status g = GActive ∧
    ∀ busy, NoDup busy → (∀ i, i ∈ busy → ∃ t', tasks d !! i = Some t' ∧ busy_in d (tg_id g) t') →
      Z.of_nat (length busy) < tg_max_parallelism g.
Proof.
  unfold graph_parallelism_available. intros Hav Hn. rewrite Hn in Hav. destruct (nodes d !! node) as [n|]; [|done].
  destruct (graphs d !! gn_graph_id n) as [g|] eqn:Hgr; [|done]. apply andb_prop in Hav as [Hst Hlt].
  apply bool_decide_eq_true in Hst. apply Z.ltb_lt in Hlt. exists n, g. split_and!; try done.
  intros busy Hnd Hbusy. eapply Z.le_lt_trans; [|exact Hlt]. unfold graph_active_count. apply inj_le, rows_at_most; [done|].
  intros i Hi. destruct (Hbusy i Hi) as (t' & Ht' & Hact & nid & n' & E1 & E2 & E3). exists t'. split; [done|].
  rewrite E1. cbn. rewrite E2, bool_decide_true by done. by destruct Hact as [-> | ->].
Qed.

Lemma unmet_dependency_spec d t dep p :
  unmet_dependency d t = false → dep ∈ dependencies d → td_task_id dep = t_id t →
  tasks d !! td_depends_on_task_id dep = Some p → t_status p = Succeeded.
Proof.
  intros Hun Hdep Ht Hp. destruct (decide (t_status p = Succeeded)) as [|Hn]; [done|]. exfalso.
  enough (unmet_dependency d t = true) by congruence. apply existsb_exists. exists dep.
  split; [by apply list_elem_of_In|]. by rewrite Hp, bool_decide_true, bool_decide_false.
Qed.

Lemma valid_approval_spec d now t :
  valid_approval d now t = true → t_approval_required t = true → ∃ aid a e, approvals d !! aid = Some a ∧
    ap_task_id a = t_id t ∧ ap_status a = ApApproved ∧ ap_plan_digest a = t_plan_digest t ∧ ap_expires_at a = Some e ∧ now < e.
Proof.
  unfold valid_approval. intros Hv Hr. rewrite Hr in Hv. cbn in Hv. apply existsb_exists in Hv as (a & Ha & Hl).
  apply list_elem_of_In, table_row in Ha as [aid Ha]. unfold live_approval in Hl. destruct (ap_expires_at a) as [e|] eqn:He;
    [|by rewrite andb_false_r in Hl].
  rewrite !andb_true_iff, !bool_decide_eq_true, Z.ltb_lt in Hl. destruct Hl as [[[H1 H2] H3%str_eqb_spec] H4].
  exists aid, a, e. by split_and!.
Qed.

Lemma is_candidate_leasable d agent now t : is_candidate d agent now t = true → leasable d agent now t.
Proof.
  unfold is_candidate. rewrite !andb_true_iff, bool_decide_eq_true, Z.ltb_lt, Z.leb_le, negb_true_iff.
  intros [[[[[[[[[H1 H2] H3] H4] H5] H6] H7] H8] H9] H10]. constructor; try done.
  - intros c Hc. apply str_subset_spec in H4. by apply H4.
  - by apply valid_approval_spec.
  - intros dep p. by apply unmet_dependency_spec.
  - intros node. by apply parallelism_available.
  - unfold mission_open in H8. intros m Hm. rewrite Hm in H8. destruct (missions d !! m) as [ms|]; [|done].
    apply andb_prop in H8 as [Hst%bool_decide_eq_true Hdl%Z.ltb_lt]. by exists ms.
  - unfold reviewer_matches in H7. intros Hty. rewrite Hty in H7. cbn in H7.
    destruct (Json.get _ _) as [[]|]; try done. by apply str_eqb_spec in H7 as ->.
  - unfold machine_allowed in H10. apply orb_prop in H10 as [?%bool_decide_eq_true|?%str_in_spec]; auto.
Qed.

Lemma resolve_capability_frame {T} (π : database → T) t a now c :
  preserves π (resolve_capability t a now c).
Proof. unfold resolve_capability, validation_error. frame. Qed.
#[local] Hint Resolve resolve_capability_frame : frame.

Lemma report_denied_frame a c r : preserves core (report_denied a c r).
Proof. unfold report_denied. frame. Qed.
#[local] Hint Resolve report_denied_frame : frame.

Lemma select_candidate_frame ws a now l : preserves core (select_candidate ws a now l).
Proof.
  induction l as [|c l IH]; cbn; [frame|]. unfold resolve_task_authority. frame.
Qed.

(** *** Authority of the selected candidate *)

(** the tables [resolve] reads *)
Definition authority_rows (d : database) :=
  (agents d, charters d, packages d, deployments d, grants d).

Lemma resolve_ext d d' : authority_rows d = authority_rows d' → resolve d = resolve d'.
Proof.
  intros [= E1 E2 E3 E4 E5]. unfold resolve, denial_reasons, active_charter, _active_package, active_grant.
  by rewrite E1, E2, E3, E4, E5.
Qed.

(** agent [a] is authorised for every capability task [t] requires *)
Definition authorized (d : database) (a : Agent) (t : Task) (now : datetime) : Prop :=
  t_required_capabilities t ≠ [] ∧
  ∃ repository, task_repository t = Some repository ∧
    ∀ c, c ∈ t_required_capabilities t →
      ef_allowed (resolve d (ag_id a) (authority_request t a repository c) now) = true.

Lemma resolve_capability_run t a now c s e s' :
  resolve_capability t a now c s = (Ok e, s') →
  s' = s ∧ ∃ repository, task_repository t = Some repository ∧
    e = resolve (db s) (ag_id a) (authority_request t a repository c) now.
Proof.
  unfold resolve_capability. destruct (task_repository t) as [r|]; [|done].
  destruct (valid_authority_request _); [|done]. intros [= <- <-]. split; [done|]. by exists r.
Qed.

Lemma resolve_task_authority_run t a now s snaps s' :
  resolve_task_authority t a now s = (Ok snaps, s') →
  s' = s ∧ Forall2 (fun c e => ∃ repository, task_repository t = Some repository ∧
    e = resolve (db s) (ag_id a) (authority_request t a repository c) now)
    (t_required_capabilities t) snaps.
Proof.
  unfold resolve_task_authority. generalize (t_required_capabilities t) as l.
  intros l. revert snaps. induction l as [|c l IH]; intros snaps; cbn; [by intros [= <- <-]|].
  unfold mbind, Sess_bind. destruct (resolve_capability t a now c s) as [[e|?] s1] eqn:Ec; [|done].
  apply resolve_capability_run in Ec as [-> He].
  destruct (map_each l _ s) as [[es|?] s2] eqn:El; [|done].
  intros [= <- <-]. destruct (IH es eq_refl) as [-> HF]. by split; [|constructor].
Qed.

Lemma snapshots_authorized d t a now snaps :
  Forall2 (fun c e => ∃ repository, task_repository t = Some repository ∧
    e = resolve d (ag_id a) (authority_request t a repository c) now)
    (t_required_capabilities t) snaps →
  negb (bool_decide (snaps = [])) && forallb ef_allowed snaps = true → authorized d a t now.
Proof.
  intros HF [Hne Hall]%andb_prop. rewrite forallb_forall in Hall.
  apply negb_true_iff, bool_decide_eq_false in Hne.
  revert HF Hne Hall. unfold authorized. generalize (t_required_capabilities t) as caps.
  intros caps [|c0 e0 l es (r & Hr & He0) HF] Hne Hall; [done|]. split; [done|]. exists r. split; [done|]. intros c Hc.
  assert (HF' : Forall2 (fun c e => e = resolve d (ag_id a) (authority_request t a r c) now)
    (c0 :: l) (e0 :: es)).
  { constructor; [done|]. eapply Forall2_impl; [exact HF|]. intros ? ? (r' & Hr' & ->). congruence. }
  apply list_elem_of_lookup in Hc as [i Hi].
  destruct (Forall2_lookup_l _ _ _ _ _ HF' Hi) as (e & He & <-).
  apply Hall, list_elem_of_In, list_elem_of_lookup. by exists i.
Qed.

Lemma report_denied_authority a c r : preserves authority_rows (report_denied a c r).
Proof. unfold report_denied. frame. Qed.

(** no paused workflow covers the task *)
Definition unpaused (ws : list ControlScope) (t : Task) : Prop :=
  ∀ scope, scope ∈ ws → task_matches_control_scope scope t = false.

Lemma existsb_unpaused ws t :
  existsb (fun scope => task_matches_control_scope scope t) ws = false → unpaused ws t.
Proof.
  intros Hf scope Hin. destruct (task_matches_control_scope scope t) eqn:E; [|done].
  rewrite <- Hf. symmetry. apply existsb_exists. exists scope. split; [by apply list_elem_of_In|done].
Qed.

Lemma wp_select_candidate I ws a now l Q s :
  I (saved s) →
  (∀ r s', saved s' = saved s → core (db s') = core (db s) →
     match r with
     | Some (t, _) => t ∈ l ∧ unpaused ws t ∧ authorized (db s) a t now
     | None => True
     end → Q r s') →
  wp I (select_candidate ws a now l) Q s.
Proof.
  revert s. induction l as [|c l IH]; intros s HI HQ; cbn; [by apply wp_ret, HQ|].
  apply wp_if; intros Hpause.
  { apply IH; [done|]. intros [[t sn]|] s' Hs Hc Hr; apply HQ; try done. destruct Hr. split; [by right|done]. }
  apply existsb_unpaused in Hpause.
  apply wp_bind. unfold wp at 1.
  destruct (resolve_task_authority c a now s) as [[snaps|e] s1] eqn:Er.
  2:{ pose proof (preserves_map_each core (t_required_capabilities c) (resolve_capability c a now)
        ltac:(intros; apply resolve_capability_frame) s) as [_ Hsv].
      unfold resolve_task_authority in Er. rewrite Er in Hsv. cbn in Hsv. by rewrite Hsv. }
  apply resolve_task_authority_run in Er as [-> HF].
  apply wp_if; intros Hok.
  { apply wp_ret, HQ; [done..|]. split; [by left|]. split; [done|]. by eapply snapshots_authorized. }
  apply wp_bind. eapply (wp_frame (fun d => (core d, authority_rows d))); [|done|].
  { unfold report_denied. frame. }
  intros _ s2 Hs2 [= Hc1 Hc2 HA1 HA2 HA3 HA4 HA5]. apply IH; [by rewrite Hs2|].
  intros r s3 Hs3 Hc3 Hr. apply HQ; [congruence| |].
  { rewrite Hc3. unfold core. congruence. }
  destruct r as [[t sn]|]; [|done]. destruct Hr as (Hin & Hun & Hau). split; [by right|]. split; [done|].
  assert (E : authority_rows (db s2) = authority_rows (db s)) by (unfold authority_rows; congruence).
  unfold authorized in *. by rewrite (resolve_ext _ _ E) in Hau.
Qed.

(** *** The lease *)

Lemma wp_and_frame {A T} (π : database → T) I (m : Sess A) Q s :
  preserves π m → wp I m Q s →
  wp I m (fun a s' => Q a s' ∧ π (db s') = π (db s) ∧ saved s' = saved s) s.
Proof.
  intros Hm. specialize (Hm s). unfold wp. destruct (m s) as [[a|e] s']; [|done].
  cbn in Hm. by intros ?; destruct Hm.
Qed.

Lemma wp_and {A} I (m : Sess A) Q R s :
  wp I m Q s → wp I m R s → wp I m (fun a s' => Q a s' ∧ R a s') s.
Proof. unfold wp. by destruct (m s) as [[a|e] s']. Qed.

(** expiring approvals only parks queued tasks *)
Definition queued_from (d0 d : database) : Prop :=
  ∀ id t, tasks d !! id = Some t → t_status t = Queued → tasks d0 !! id = Some t.

Lemma expire_approvals_queued I now d0 s :
  I (saved s) → queued_from d0 (db s) →
  wp I (expire_approvals now) (fun _ s' => queued_from d0 (db s') ∧ saved s' = saved s) s.
Proof.
  intros HI Hq. unfold expire_approvals. apply wp_bind. unfold select_rows at 1. apply wp_gets, wp_bind.
  eapply wp_mono; [apply (wp_for_each I _ _ (fun s' => queued_from d0 (db s') ∧ saved s' = saved s))|].
  - done.
  - intros a s1 _ [Hq1 Hs1]. unfold expire_approval.
    apply wp_bind, wp_alter, wp_bind, wp_get_row, wp_bind, wp_when; intros _; [apply wp_alter|];
      (apply wp_bind; eapply (wp_frame core); [eauto with frame|by cbn; rewrite Hs1|];
       intros ? s2 Hs2 Hc2; injection Hc2 as Ht _; apply wp_ret; split; [|by rewrite Hs2]; unfold queued_from; rewrite Ht; cbn).
    + intros id t. rewrite lookup_alter_Some. intros [(_ & t0 & _ & ->)|[_ Hl]] Hst; [done|]. by apply Hq1.
    + done.
  - intros ? s1 H1. by apply wp_ret.
Qed.

Lemma create_task_lease_token_frame {T} (π : database → T) : preserves π create_task_lease_token.
Proof. unfold create_task_lease_token. frame. Qed.
#[local] Hint Resolve create_task_lease_token_frame : frame.

(** a lease token drawn from the world's random source *)
Definition drawn (gen : GeneratedTaskLeaseToken) : Prop :=
  ∃ i j, gen = lease_token_of (w_token_hex i) (w_token_urlsafe j).

Lemma wp_create_lease_token I Q s :
  (∀ gen s', drawn gen → saved s' = saved s → db s' = db s → Q gen s') →
  wp I create_task_lease_token Q s.
Proof. intros HQ. apply HQ; [by eexists _, _|done|done]. Qed.

Lemma lease_row_wf a now e g t :
  task_wf t → t_attempt_count t < t_max_attempts t → task_wf (touched (lease_to a now e g) t).
Proof.
  intros [Hatt Hmax _ _] Hlt. split; cbn; [lia|lia| |by intros []; left].
  intros _. unfold lease_held. cbn. repeat split; eauto. lia.
Qed.

(** a paused workflow that covers the task: that of autonomous research *)
Definition paused_by (scope : ControlScope) (t : Task) : Prop :=
  cs_is_paused scope = true ∧ cs_scope_type scope = "workflow" ∧ cs_scope_key scope = AUTONOMOUS_RESEARCH_SCOPE_KEY ∧
  (t_task_type t ∈ AUTONOMOUS_RESEARCH_TASK_TYPES ∨
   t_task_type t = "engineering_mission" ∧ t_project t = "bulletproof_bt" ∧ t_created_by t = "alpha-campaign-director").

Lemma unpaused_spec d t :
  unpaused (List.filter workflow_paused (table_rows (controls d))) t →
  ∀ i scope, controls d !! i = Some scope → ¬ paused_by scope t.
Proof.
  intros Hun i scope Hi (Hp & Hty & Hk & Hc).
  assert (Hin : scope ∈ List.filter workflow_paused (table_rows (controls d))).
  { apply list_elem_of_In, filter_In. split; [apply list_elem_of_In, table_row; by exists i|].
    unfold workflow_paused. by rewrite Hp, Hty. }
  specialize (Hun _ Hin). unfold task_matches_control_scope in Hun. rewrite Hty, Hk, !str_eqb_refl in Hun. cbn [negb orb] in Hun.
  destruct Hc as [Hc|(H1 & H2 & H3)]; [by rewrite (proj2 (str_in_spec _ _) Hc) in Hun|].
  rewrite H1, H2, H3, !str_eqb_refl in Hun. by destruct (str_in _ _).
Qed.

(** what a successful lease establishes
    [d]: the rows found by the request, [d1]: the same once lapsed approvals
    are expired, [d']: the rows it leaves *)
Definition lease_granted (d d1 d' : database) (agent : Agent) (now : datetime)
    (lease_seconds : Z) (id : uuid) (token : string) (prior : Json.dict) : Prop :=
  ∃ t gen, tasks d !! id = Some t ∧ leasable d1 agent now t ∧
    (∀ i scope, controls d1 !! i = Some scope → ¬ paused_by scope t) ∧
    authorized d agent t now ∧ all_consumed t (approvals d') ∧
    drawn gen ∧ token = lt_token gen ∧ prior = t_failure t ∧
    tasks d' !! id = Some (touched (lease_to agent now (now + seconds lease_seconds) gen) t).

(** after consumption no approval of the task is left unconsumed *)
Lemma consumed_all t now s s' :
  safe (db s') → tasks (db s') !! t_id t = Some t →
  (t_approval_required t = true → grants_lease (db s) t now ∧ consumed_for (db s') t) →
  all_consumed t (approvals (db s')).
Proof.
  intros Hd Ht Hcons. destruct (t_approval_required t) eqn:Hreq; [by apply Hcons|].
  intros aid a Ha Ea. destruct (ci_gates _ _ Hd _ _ Ha) as (t' & Ht' & _ & Hr & _).
  cbn in Ht'. rewrite Ea, Ht in Ht'. congruence.
Qed.

Lemma wp_lease_selected agent lease_seconds now t snaps s :
  safe (saved s) → safe (db s) → tasks (db s) !! t_id t = Some t →
  t_attempt_count t < t_max_attempts t →
  wp safe (lease_selected agent lease_seconds now t snaps) (fun r s' =>
    safe (saved s') ∧ safe (db s') ∧ all_consumed t (approvals (db s')) ∧
    ∃ gen, r = Some (t_id t, lt_token gen, t_failure t) ∧ drawn gen ∧
      tasks (db s') !! t_id t =
        Some (touched (lease_to agent now (now + seconds lease_seconds) gen) t)) s.
Proof.
  intros Hs Hd Hid Hlt. unfold lease_selected.
  apply wp_bind, wp_consume; [done|done|done|].
  intros s4 Hs4 Hd4 Ht4 Hcons. rewrite <- Ht4 in Hid.
  pose proof (consumed_all _ _ _ _ Hd4 Hid Hcons) as Hall.
  apply wp_bind, wp_create_lease_token. intros gen s5 Hgen Hs5 Hd5'. apply wp_bind.
  assert (Hd5 : safe (db s5)) by by rewrite Hd5'. rewrite <- Hd5' in Hid, Hall.
  eapply wp_mono; [eapply edit_alter; [apply edit_open; [by rewrite Hs5, Hs4|done|exact Hid]|by repeat split]|].
  intros ? s6 He1. apply wp_bind.
  eapply wp_mono; [eapply edit_frame; [exact He1|frame]|]. intros producer s7 He2.
  apply wp_bind. eapply wp_mono; [eapply edit_frame; [exact He2|eauto with frame]|].
  intros ? s8 He. apply wp_ret.
  destruct (edit_close _ _ _ _ He) as [Hs8 Hd8];
    [apply lease_row_wf; [by eapply safe_wf|done]|exact Hall|].
  destruct He as (_ & _ & Hrow & Haps). rewrite Haps.
  repeat (split; [done|]). by exists gen.
Qed.

(** what expiring approvals leaves for the selection *)
Lemma expire_approvals_run now s n s1 :
  safe (saved s) → safe (db s) → expire_approvals now s = (Ok n, s1) →
  safe (saved s1) ∧ safe (db s1) ∧ queued_from (db s) (db s1) ∧
  authority_rows (db s1) = authority_rows (db s).
Proof.
  intros Hs Hd E.
  assert (Hwp : wp safe (expire_approvals now) (fun _ s' =>
    ((safe (saved s') ∧ safe (db s')) ∧ queued_from (db s) (db s') ∧ saved s' = saved s) ∧
    authority_rows (db s') = authority_rows (db s) ∧ saved s' = saved s) s).
  { apply (wp_and_frame authority_rows);
      [unfold expire_approvals, expire_approval, append_approval_event, alter_task; frame|].
    apply wp_and; [by apply expire_approvals_keeps|].
    apply (expire_approvals_queued _ _ (db s)); [done|by intros ? ?]. }
  unfold wp in Hwp. rewrite E in Hwp. tauto.
Qed.

Lemma wp_lease_next_task agent lease_seconds s :
  safe (saved s) → safe (db s) →
  wp safe (lease_next_task agent lease_seconds) (fun r s' =>
    safe (saved s') ∧ safe (db s') ∧
    match r with
    | None => True
    | Some (id, token, prior) => ∃ n s1,
        expire_approvals (w_now (clock s)) (s <| clock := S (clock s) |>) = (Ok n, s1) ∧
        lease_granted (db s) (db s1) (db s') agent (w_now (clock s)) lease_seconds id token prior
    end) s.
Proof.
  intros Hs Hd. unfold lease_next_task. apply wp_bind, wp_utc_now. intros now ->.
  set (now := w_now (clock s)). set (s0 := s <| clock := _ |>).
  apply wp_bind. unfold wp at 1. destruct (expire_approvals now s0) as [[n|e] s1] eqn:Ee.
  2:{ pose proof (expire_approvals_keeps now s0 Hs Hd) as He. unfold wp in He. by rewrite Ee in He. }
  destruct (expire_approvals_run now s0 n s1 Hs Hd Ee) as (Hs1 & Hd1 & Hq1 & HA1).
  apply wp_bind. unfold paused_workflow_scopes. apply wp_bind, wp_gets, wp_ret.
  apply wp_bind, wp_gets. apply wp_bind, wp_select_candidate; [done|].
  intros [[t snaps]|] s3 Hs3 Hc3 Hsel.
  2:{ apply wp_ret. rewrite Hs3. split; [done|]. split; [|done]. unfold safe. by rewrite Hc3. }
  destruct Hsel as (Hin & Hun & Hauth).
  unfold authorized in Hauth. rewrite (resolve_ext _ _ HA1) in Hauth.
  apply elem_of_take in Hin as (i & Hi & _). apply list_elem_of_lookup_2, elem_of_sort_by in Hi.
  apply (select_rows_elem tasks) in Hi as [Hcand [id Hid]].
  apply andb_prop in Hcand as [Hcand _].
  apply is_candidate_leasable in Hcand. pose proof (el_queued _ _ _ _ Hcand) as Hst. pose proof (el_attempts _ _ _ _ Hcand) as Hlt.
  pose proof (ci_task_id _ _ Hd1 _ _ Hid) as E. cbn in E. subst id.
  injection Hc3 as Ht3 Ha3.
  assert (Hd3 : safe (db s3)) by (unfold safe, core; by rewrite Ht3, Ha3).
  eapply wp_mono; [apply (wp_lease_selected agent lease_seconds now t snaps);
    [by rewrite Hs3|done|by rewrite Ht3|done]|].
  intros r s4 (Hs4 & Hd4 & Hall & gen & -> & Hdrawn & Hrow). split; [done|]. split; [done|].
  exists n, s1. split; [done|]. exists t, gen. split; [by apply Hq1|]. split; [done|].
  split; [|done]. apply unpaused_spec. intros scope Hscope. apply Hun, elem_of_sort_by, Hscope.
Qed.
End tasks.
