(* ===== verification/RuntimeFacts.v ===== *)
(** * Every endpoint keeps the safety invariant

    Missions, task graphs, supervision and the agents' endpoints, each shown to
    map rows satisfying the invariant to rows satisfying it. *)
From S2P Require Import Prelude Py Sha256 Models Store Logic Security TaskCore Notifications Governance.
From S2P Require Import CoreInvariant GovernanceFacts AgentGovernance Controls EvaluatorRouting Tasks.
From S2P Require Import TasksFacts Dag Missions AgentContext TaskGraphs Conversations TaskRuntime Supervision.

Open Scope Z_scope.

#[export] Hint Resolve reap_expired_leases_keeps : keeps.

(** ** Frames *)
Section frames.
Context `{World}.

Lemma refresh_mission_frame id : preserves core (refresh_mission id).
Proof.
  unfold refresh_mission, announce_transition, append_mission_event, alter_mission. frame.
Qed.
Lemma append_mission_event_frame i e a m p : preserves core (append_mission_event i e a m p).
Proof. unfold append_mission_event. frame. Qed.
Lemma alter_mission_frame i f : preserves core (alter_mission i f).
Proof. unfold alter_mission. frame. Qed.
Lemma add_mission_frame t m c s : preserves core (add_mission t m c s).
Proof. unfold add_mission. frame. Qed.
Lemma add_dependencies_frame l i : preserves core (add_dependencies l i).
Proof. unfold add_dependencies, task_of_step, add_dependency. frame. Qed.
Lemma append_graph_event_frame g e a p : preserves core (append_graph_event g e a p).
Proof. unfold append_graph_event. frame. Qed.
#[local] Hint Resolve append_graph_event_frame : frame.
Lemma append_message_frame g p : preserves core (append_message g p).
Proof. unfold append_message, record_message, http. frame. Qed.
#[local] Hint Resolve append_message_frame : frame.
Lemma create_graph_frame p : preserves core (create_graph p).
Proof. unfold create_graph, add_node. frame. Qed.
Lemma mirror_status_frame n : preserves core (mirror_status n).
Proof. unfold mirror_status. frame. Qed.
Lemma reconcile_compensating_frame g : preserves core (reconcile_compensating g).
Proof. unfold reconcile_compensating. frame. Qed.
Lemma record_graph_message_frame i b : preserves core (_record_graph_task_message i b).
Proof. unfold _record_graph_task_message, node_and_graph, validation_error. frame. Qed.
Lemma append_terminal_event_frame i e m a p : preserves core (_append_terminal_event i e m a p).
Proof. unfold _append_terminal_event. frame. Qed.
Lemma complete_assignment_frame r a p : preserves core (complete_assignment r a p).
Proof.
  unfold complete_assignment, _issue_receipt, required_review, attested_entry, http. frame.
Qed.
#[local] Hint Resolve complete_assignment_frame : frame.
Lemma complete_strategy_review_frame t a r : preserves core (complete_strategy_review_task t a r).
Proof. unfold complete_strategy_review_task, contract_uuid, invalid_review, http. frame. Qed.
Lemma require_attention_frame i e m : preserves core (require_attention i e m).
Proof. unfold require_attention, append_mission_event, alter_mission. frame. Qed.
Lemma refresh_task_mission_frame t : preserves core (refresh_task_mission t).
Proof. unfold refresh_task_mission. frame. apply refresh_mission_frame. Qed.
End frames.
#[export] Hint Resolve refresh_mission_frame append_mission_event_frame alter_mission_frame
  add_mission_frame add_dependencies_frame append_graph_event_frame append_message_frame
  create_graph_frame mirror_status_frame reconcile_compensating_frame record_graph_message_frame
  append_terminal_event_frame complete_strategy_review_frame require_attention_frame
  refresh_task_mission_frame : frame.

Ltac keeps_all :=
  repeat first [keeps_step | lazymatch goal with |- keeps (map_each _ _) => apply keeps_map_each; intros ? ? end].

(** ** Missions and task graphs *)
Section creation.
Context `{World}.

(** a manifest whose budget allows at least one attempt *)
Definition attempts_positive (m : MissionManifest) : Prop :=
  match m with
  | Engineering m => 1 ≤ mb_max_attempts_per_task (em_budget m)
  | Infrastructure m => 1 ≤ ib_max_attempts_per_task (im_budget m)
  end.

Lemma insert_idle_keeps id t :
  t_id t = id → t_approval_required t = false → task_wf t → ¬ active t → keeps (insert_row tasks id t).
Proof.
  intros Hid Hreq Hwf Hact s Hs Hd. apply wp_insert; [done|]. intros Hnew.
  split; [done|]. by apply core_inv_insert_task.
Qed.

Lemma add_work_item_keeps m mid dg c ix :
  1 ≤ mb_max_attempts_per_task (em_budget m) → keeps (add_work_item m mid dg c ix).
Proof.
  intros Hmax. destruct ix as [i item]. unfold add_work_item.
  keeps_all. apply insert_idle_keeps; [done|done| |not_active].
  split; cbn; [lia|lia|by intros [?|?]|by repeat split].
Qed.

Lemma materialized_wf p id f :
  valid_task_create p = true →
  (∀ t, t_status (f t) = t_status t ∧ t_attempt_count (f t) = t_attempt_count t ∧
        t_max_attempts (f t) = t_max_attempts t ∧ (lease_clear t → lease_clear (f t))) →
  task_wf (f (build_task p id)) ∧ ¬ active (f (build_task p id)).
Proof.
  intros Hv Hf. destruct (Hf (build_task p id)) as (Hs & Ha & Hm & Hc).
  assert (Hact : ¬ active (f (build_task p id))).
  { unfold active. rewrite Hs. apply build_task_idle. }
  split; [|done]. eapply task_wf_idle; [by apply (build_task_wf p id)|done|done|done|].
  apply Hc. by repeat split.
Qed.

Lemma materialize_keeps p f :
  (∀ t, t_status (f t) = t_status t ∧ t_attempt_count (f t) = t_attempt_count t ∧
        t_max_attempts (f t) = t_max_attempts t ∧ (lease_clear t → lease_clear (f t))) →
  keeps (materialize p f).
Proof.
  intros Hf. unfold materialize, validation_error.
  destruct (valid_task_create p) eqn:Hv; cbn; [|keeps_all]. keeps_all.
  destruct (materialized_wf p a f Hv Hf). by apply persist_new_task_keeps.
Qed.

Lemma add_phase_keeps m mid dg c ix : keeps (add_phase m mid dg c ix).
Proof.
  destruct ix as [i phase]. unfold add_phase, validation_error.
  destruct (valid_task_create _) eqn:Hv; cbn; [|keeps_all]. keeps_all.
  destruct (materialized_wf (phase_task_create m dg c i phase) a (fun t =>
    t <| t_mission_id := Some mid |> <| t_milestone_step_id := Some (ip_id phase) |>) Hv);
    [intros t; split_and!; [reflexivity..|intros Hc; exact Hc]|].
  by apply persist_new_task_keeps.
Qed.

Lemma create_mission_keeps m c sg : attempts_positive m → keeps (create_mission m c sg).
Proof.
  destruct m as [m|m]; cbn; intros Hmax; unfold _create_engineering_mission, _create_infrastructure_mission.
  - keeps_all. by apply add_work_item_keeps.
  - keeps_all. apply add_phase_keeps.
Qed.

Lemma materialize_node_keeps g n : keeps (materialize_node g n).
Proof.
  unfold materialize_node. keeps_all. apply materialize_keeps.
  intros t. split_and!; [reflexivity..|intros Hc; exact Hc].
Qed.

Lemma activate_graph_keeps g a : keeps (activate_graph g a).
Proof. unfold activate_graph. keeps_all. apply materialize_node_keeps. Qed.

Lemma compensate_node_keeps g n : keeps (compensate_node g n).
Proof.
  unfold compensate_node. keeps_all. apply materialize_keeps.
  intros t0. split_and!; [reflexivity..|intros Hc; exact Hc].
Qed.

Lemma cancel_task_keeps_row reason id t s :
  safe (saved s) → safe (db s) → tasks (db s) !! id = Some t →
  wp safe (_cancel_task t reason) (fun _ s' => safe (saved s') ∧ safe (db s')) s.
Proof.
  intros Hs Hd Ht. pose proof (ci_task_id _ _ Hd _ _ Ht) as E. pose proof (safe_wf _ _ _ Hd Ht) as Hwf.
  unfold _cancel_task. rewrite E. apply wp_if; intros Hterm; [by apply wp_ret|].
  apply wp_bind, wp_utc_now; intros now _. set (s1 := s <| clock := _ |>).
  assert (He : editing id t (approvals (db s)) s1) by (by apply (edit_open id t s1)).
  apply wp_if; intros Hact.
  - apply active_lease_spec in Hact. edit edit_alter as He1; [by repeat split|].
    edit edit_frame as He2; [eauto with frame|]. apply wp_ret.
    eapply edit_close; [exact He2| |].
    + destruct Hwf as [H1 H2 H3 H4]. split; [exact H1|exact H2|exact H3|exact H4].
    + exact (safe_active_consumed _ _ _ Hd Ht Hact).
  - edit edit_alter as He1; [by repeat split|].
    edit edit_frame as He2; [eauto with frame|]. edit edit_frame as He3; [eauto with frame|].
    apply wp_ret. eapply edit_close_idle; [exact He3| |not_active].
    apply (task_wf_idle t); [exact Hwf|reflexivity|reflexivity|not_active|by repeat split].
Qed.

Lemma cancel_task_row_keeps reason id : keeps (cancel_task_row reason id).
Proof.
  intros s Hs Hd. unfold cancel_task_row. apply wp_bind, wp_get_row.
  destruct (tasks (db s) !! id) as [t|] eqn:Ht; [|by apply wp_ret].
  by eapply cancel_task_keeps_row.
Qed.

Lemma cancel_node_keeps reason n : keeps (cancel_node reason n).
Proof.
  intros s Hs Hd. unfold cancel_node, node_task. apply wp_bind, wp_gets.
  destruct (gn_task_id n) as [id|]; [|done]. cbn [mbind option_bind].
  destruct (tasks (db s) !! id) as [t|] eqn:Ht; [|done].
  by eapply cancel_task_keeps_row.
Qed.

Lemma cancel_graph_keeps g a r : keeps (cancel_graph g a r).
Proof. unfold cancel_graph. keeps_all. apply cancel_node_keeps. Qed.

Lemma create_compensations_keeps g l : keeps (_create_compensations g l).
Proof. unfold _create_compensations. keeps_all. apply compensate_node_keeps. Qed.
#[local] Hint Resolve create_compensations_keeps : keeps.

Lemma fail_closed_keeps g l ts st r f : keeps (fail_closed g l ts st r f).
Proof. unfold fail_closed. keeps_all. apply cancel_task_row_keeps. Qed.

Lemma settle_keeps g l ts st n : keeps (settle g l ts st n).
Proof. unfold settle. keeps_all. Qed.
#[local] Hint Resolve fail_closed_keeps settle_keeps : keeps.

Lemma reconcile_graph_keeps g : keeps (reconcile_graph g).
Proof. unfold reconcile_graph. keeps_all. Qed.
End creation.
#[export] Hint Resolve create_mission_keeps activate_graph_keeps cancel_graph_keeps
  reconcile_graph_keeps : keeps.

(** ** The agents' endpoints *)
Section runtime.
Context `{World}.

(** a locked row is the stored one *)
Lemma wp_lock_task I id Q s :
  I (saved s) → (∀ t, tasks (db s) !! id = Some t → Q t s) → wp I (lock_task id) Q s.
Proof.
  intros HI HQ. unfold lock_task. apply wp_bind, wp_get_row.
  destruct (tasks (db s) !! id) eqn:Ht; [by apply wp_ret, HQ|by apply wp_raise].
Qed.

(** the row of an active task stays well formed while its lease fields stay set *)
Lemma held_wf t t' :
  task_wf t → active t → lease_held t' → t_attempt_count t' = t_attempt_count t →
  t_max_attempts t' = t_max_attempts t → active t' → task_wf t'.
Proof.
  intros [Hatt Hmax _ _] _ Hheld Ea Em Hact.
  split; [by rewrite Ea, Em|by rewrite Em|done|by intros []].
Qed.

Lemma status_active t (l : list TaskStatus) : t_status t ∈ l → (∀ x, x ∈ l → x = Leased ∨ x = Running) → active t.
Proof. intros Ht Hl. by destruct (Hl _ Ht); [left|right]. Qed.

Ltac members := intros ?; rewrite ?elem_of_cons, ?elem_of_nil; tauto.

Ltac idle H := rewrite !elem_of_cons, elem_of_nil in H; let E := fresh in
  intros [E|E]; rewrite E in H; intuition discriminate.

(** what editing leaves once the row is safe, followed by calls that keep it *)
Lemma keeps_tail {A} (m : Sess A) s :
  keeps m → safe (saved s) ∧ safe (db s) → wp safe m (fun _ s' => safe (saved s') ∧ safe (db s')) s.
Proof. intros Hm []. by apply Hm. Qed.

Lemma start_task_keeps id a tok msg : keeps (start_task id a tok msg).
Proof.
  intros s Hs Hd. unfold start_task. apply wp_bind, wp_lock_task; [done|]. intros t Ht.
  apply wp_bind, wp_verify_task_lease; [done|]. intros now _ Hst _.
  pose proof (status_active _ _ Hst ltac:(members)) as Hact.
  pose proof (safe_wf _ _ _ Hd Ht) as Hwf.
  set (s1 := s <| clock := _ |>).
  assert (He : editing id t (approvals (db s)) s1) by (by apply (edit_open id t s1)).
  edit edit_alter as He1; [by repeat split|]. edit edit_frame as He2; [frame|].
  edit edit_alter as He3; [by repeat split|]. edit edit_frame as He4; [eauto with frame|].
  apply keeps_tail; [keeps|]. eapply edit_close; [exact He4| |exact (safe_active_consumed _ _ _ Hd Ht Hact)].
  apply (held_wf t); [done|done| |done|done|by right].
  destruct (wf_held _ Hwf Hact) as (H1 & H2 & H3 & H4 & H5 & H6 & H7).
  unfold lease_held. cbn. eauto 10.
Qed.

Lemma heartbeat_task_keeps id a tok n msg p : keeps (heartbeat_task id a tok n msg p).
Proof.
  intros s Hs Hd. unfold heartbeat_task. apply wp_bind, wp_lock_task; [done|]. intros t Ht.
  apply wp_bind, wp_verify_task_lease; [done|]. intros now _ Hst _.
  pose proof (status_active _ _ Hst ltac:(members)) as Hact.
  pose proof (safe_wf _ _ _ Hd Ht) as Hwf.
  set (s1 := s <| clock := _ |>).
  assert (He : editing id t (approvals (db s)) s1) by (by apply (edit_open id t s1)).
  edit edit_alter as He1; [by repeat split|]. edit edit_frame as He2; [eauto with frame|].
  apply keeps_tail; [keeps|]. eapply edit_close; [exact He2| |exact (safe_active_consumed _ _ _ Hd Ht Hact)].
  apply (held_wf t); [done|done| |done|done|exact Hact].
  destruct (wf_held _ Hwf Hact) as (H1 & H2 & H3 & H4 & H5 & H6 & H7).
  unfold lease_held. cbn. eauto 10.
Qed.

Lemma reconcile_task_graph_keeps t : keeps (_reconcile_task_graph t).
Proof. unfold _reconcile_task_graph, node_and_graph. keeps_all. Qed.
#[local] Hint Resolve reconcile_task_graph_keeps : keeps.

Lemma complete_task_keeps id a tok msg r : keeps (complete_task id a tok msg r).
Proof.
  intros s Hs Hd. unfold complete_task. apply wp_bind, wp_lock_task; [done|]. intros t Ht.
  apply wp_bind, wp_verify_task_lease; [done|]. intros now _ Hst _.
  pose proof (safe_wf _ _ _ Hd Ht) as Hwf.
  set (s1 := s <| clock := _ |>).
  assert (He : editing id t (approvals (db s)) s1) by (by apply (edit_open id t s1)).
  destruct (t_cancel_requested_at t); [by apply wp_raise|].
  edit edit_frame as He1; [eauto with frame|]. edit edit_alter as He2; [by repeat split|].
  edit edit_frame as He3; [eauto with frame|]. edit edit_frame as He4; [eauto with frame|].
  edit edit_alter as He5; [same_row|].
  apply keeps_tail; [keeps_all|]. eapply edit_close_idle; [exact He5| |not_active].
  apply (task_wf_idle t); [exact Hwf|reflexivity|reflexivity|not_active|by repeat split].
Qed.

(** the row after [requeue_failed] or the final failure is idle *)
Lemma requeue_failed_edit id t g aps s :
  editing id g aps s → t_id t = id → t_approval_required g = t_approval_required t →
  wp safe (requeue_failed t) (fun _ s' => ∃ g' aps', editing id g' aps' s' ∧ ¬ active g' ∧
    t_attempt_count g' = t_attempt_count g ∧ t_max_attempts g' = t_max_attempts g) s.
Proof.
  intros He E Er. unfold requeue_failed. rewrite E. apply wp_bind. apply wp_if; intros Hreq.
  - eapply wp_mono; [by eapply edit_rearm|]. intros ? s1 [aps' He1]. cbv beta.
    eapply wp_mono; [eapply edit_frame; [exact He1|eauto with frame]|]. intros ? s2 He2.
    exists (rearmed g), aps'. split; [done|]. split; [|done].
    unfold active, rearmed, rearm_status. cbn. by destruct (t_approval_required g); intros [?|?].
  - eapply wp_mono; [by eapply edit_alter; [exact He|repeat split]|]. intros ? s1 He1. cbv beta.
    eapply wp_mono; [eapply edit_frame; [exact He1|eauto with frame]|]. intros ? s2 He2.
    eexists _, aps. split; [exact He2|]. split; [not_active|done].
Qed.

Lemma fail_task_keeps id a tok msg f r : keeps (fail_task id a tok msg f r).
Proof.
  intros s Hs Hd. unfold fail_task. apply wp_bind, wp_lock_task; [done|]. intros t Ht.
  apply wp_bind, wp_verify_task_lease; [done|]. intros now _ Hst _.
  pose proof (safe_wf _ _ _ Hd Ht) as Hwf. pose proof (ci_task_id _ _ Hd _ _ Ht) as E. cbn in E.
  set (s1 := s <| clock := _ |>).
  assert (He : editing id t (approvals (db s)) s1) by (by apply (edit_open id t s1)).
  edit edit_alter as He1; [by repeat split|]. edit edit_frame as He2; [eauto with frame|].
  edit edit_frame as He3; [eauto with frame|].
  apply wp_bind. eapply (wp_mono _ _ (fun _ s' => ∃ g' aps', editing id g' aps' s' ∧ ¬ active g' ∧
    t_attempt_count g' = t_attempt_count t ∧ t_max_attempts g' = t_max_attempts t)).
  { apply wp_if; intros _.
    - eapply wp_mono; [by eapply requeue_failed_edit|]. intros ? ? (g & aps & H1 & H2 & H3 & H4).
      exists g, aps. done.
    - eapply wp_mono; [eapply edit_alter; [exact He3|by repeat split]|]. intros ? s4 He4.
      eexists _, _. split; [exact He4|]. split; [not_active|done]. }
  intros ? s4 (g & aps & He4 & Hna & Ea & Em). cbv beta.
  edit edit_frame as He5; [eauto with frame|]. edit edit_alter as He6; [same_row|].
  apply keeps_tail; [keeps_all|]. eapply edit_close_idle; [exact He6| |exact Hna].
  apply (task_wf_idle t); [exact Hwf|exact Ea|exact Em|exact Hna|by repeat split].
Qed.

Lemma effective_attempts_bound t :
  task_wf t → 0 ≤ effective_attempt_count t ≤ t_max_attempts t.
Proof. intros [? ? _ _]. unfold effective_attempt_count. destruct (bool_decide _); lia. Qed.

(** a released row before its lease fields are cleared *)
Lemma released_row_status t now :
  t_status (apply_release now (released_status t) t) = released_status t.
Proof. by destruct (released_status t). Qed.

Lemma released_not_active t : released_status t ≠ Leased ∧ released_status t ≠ Running.
Proof.
  unfold released_status. destruct (t_cancel_requested_at t); [done|]. by destruct (_ <? _).
Qed.

(** the part of [release_task] that re-arms a requeued task *)
Lemma release_rearm_edit id g aps status s :
  editing id g aps s → t_status g = status → ¬ active g →
  wp safe (when (bool_decide (status = Queued))
             (rearm_task_approval id "A new approval is required after lease release."))
    (fun _ s' => ∃ g' aps', editing id g' aps' s' ∧ ¬ active g' ∧
       t_attempt_count g' = t_attempt_count g ∧ t_max_attempts g' = t_max_attempts g) s.
Proof.
  intros He Hst Hna. apply wp_when; intros _.
  - eapply wp_mono; [by eapply edit_rearm|]. intros ? s1 [aps' He1].
    exists (rearmed g), aps'. split; [done|]. split; [|done].
    unfold active, rearmed, rearm_status. cbn. by destruct (t_approval_required g); intros [?|?].
  - exists g, aps. done.
Qed.

Lemma release_task_keeps id a tok msg : keeps (release_task id a tok msg).
Proof.
  intros s Hs Hd. unfold release_task. apply wp_bind, wp_lock_task; [done|]. intros t Ht.
  apply wp_bind, wp_verify_task_lease; [done|]. intros now _ Hst _.
  pose proof (safe_wf _ _ _ Hd Ht) as Hwf. pose proof (effective_attempts_bound t Hwf) as Heff.
  set (s1 := s <| clock := _ |>).
  assert (He : editing id t (approvals (db s)) s1) by (by apply (edit_open id t s1)).
  assert (Hplan : same_plan t (apply_release now (released_status t) t))
    by (by destruct (released_status t)).
  assert (Hmax : t_max_attempts (apply_release now (released_status t) t) = t_max_attempts t)
    by (by destruct (released_status t)).
  pose proof (released_row_status t now) as Hrow. destruct (released_not_active t) as [HnL HnR].
  revert Hplan Hmax Hrow. generalize (apply_release now (released_status t)) as f. intros f Hplan Hmax Hrow.
  edit edit_alter as He1; [exact Hplan|]. edit edit_frame as He2; [eauto with frame|].
  edit edit_alter as He3; [same_row|].
  apply wp_bind. eapply wp_mono; [eapply release_rearm_edit; [exact He3|exact Hrow|]|].
  { intros [Hx|Hx]; cbn in Hx; congruence. }
  intros ? s4 (g & aps & He4 & Hna & Ea & Em). cbv beta. cbn in Ea, Em.
  edit edit_frame as He5; [eauto with frame|]. edit edit_frame as He6; [eauto with frame|].
  edit edit_alter as He7; [same_row|].
  apply keeps_tail; [keeps_all|]. eapply edit_close_idle; [exact He7| |exact Hna].
  split; cbn; [lia|destruct Hwf; lia|done|by repeat split].
Qed.

Lemma create_task_keeps p : keeps (create_task p).
Proof.
  unfold create_task, validation_error. destruct (valid_task_create p) eqn:Hv; cbn; keeps_all.
  all: apply persist_new_task_keeps; [by apply build_task_wf|apply build_task_idle].
Qed.

Lemma rearm_endpoint_keeps id by_ reason : keeps (rearm_expired_task_approval id by_ reason).
Proof.
  intros s Hs Hd. unfold rearm_expired_task_approval. apply wp_bind, wp_lock_task; [done|].
  intros t Ht. pose proof (safe_wf _ _ _ Hd Ht) as Hwf. apply wp_if; intros Hst; [by apply wp_raise|].
  apply orb_false_iff in Hst as [Hst _]. apply negb_false_iff, bool_decide_eq_true in Hst.
  pose proof (edit_open id t s Hs Hd Ht) as He.
  edit edit_rearm as [aps' He1]. edit edit_frame as He2; [eauto with frame|].
  apply keeps_tail; [keeps|].
  assert (Hna : ¬ active (rearmed t)).
  { unfold active, rearmed, rearm_status. cbn. by destruct (t_approval_required t); intros [?|?]. }
  eapply edit_close_idle; [exact He2| |exact Hna].
  apply (task_wf_idle t); [exact Hwf|reflexivity|reflexivity|exact Hna|].
  apply (wf_clear _ Hwf). idle Hst.
Qed.

Lemma resume_failed_task_keeps id by_ reason dg : keeps (resume_failed_task id by_ reason dg).
Proof.
  intros s Hs Hd. unfold resume_failed_task. apply wp_bind, wp_lock_task; [done|].
  intros t Ht. pose proof (safe_wf _ _ _ Hd Ht) as Hwf. apply wp_if; intros Hst; [by apply wp_raise|].
  apply negb_false_iff, bool_decide_eq_true in Hst.
  pose proof (edit_open id t s Hs Hd Ht) as He.
  edit edit_alter as He1; [same_row|]. edit edit_rearm as [aps' He2].
  edit edit_frame as He3; [eauto with frame|]. edit edit_frame as He4; [eauto with frame|].
  apply keeps_tail; [keeps|].
  assert (Hna : ¬ active (rearmed (touched (resume_row dg) t))).
  { unfold active, rearmed, rearm_status. cbn. by destruct (t_approval_required t); intros [?|?]. }
  assert (Hc : lease_clear t) by (apply (wf_clear _ Hwf); intros [?|?]; congruence).
  eapply edit_close_idle; [exact He4| |exact Hna].
  destruct Hwf. split; cbn; [lia|lia|by intros ?|by intros _].
Qed.

Lemma lease_next_task_keeps a n : keeps (lease_next_task a n).
Proof.
  intros s Hs Hd. eapply wp_mono; [by apply wp_lease_next_task|]. by intros ? ? (? & ? & _).
Qed.

Lemma keeps_rollback : keeps rollback.
Proof. intros s Hs Hd. done. Qed.

Lemma lease_task_keeps a n : keeps (lease_task a n).
Proof.
  unfold lease_task, matching_control_scopes. keeps_all.
  all: first [apply keeps_rollback|apply lease_next_task_keeps].
Qed.

(** ** Supervision *)

Lemma abort_task_keeps now a r id : keeps (abort_task now a r id).
Proof.
  intros s Hs Hd. unfold abort_task. apply wp_bind, wp_lock_task; [done|]. intros t Ht.
  pose proof (safe_wf _ _ _ Hd Ht) as Hwf. apply wp_when; intros Hst; [|done].
  apply bool_decide_eq_true in Hst. pose proof (edit_open id t s Hs Hd Ht) as He.
  edit edit_alter as He1; [same_row|].
  eapply wp_mono; [eapply edit_frame; [exact He1|eauto with frame]|]. intros ? s2 He2. cbv beta.
  eapply edit_close_idle; [exact He2| |not_active].
  apply (task_wf_idle t); [exact Hwf|reflexivity|reflexivity|not_active|].
  apply (wf_clear _ Hwf). idle Hst.
Qed.

Lemma abort_supervision_keeps m a r : keeps (abort_supervision m a r).
Proof. unfold abort_supervision. keeps_all. apply abort_task_keeps. Qed.

Lemma approve_supervision_frame m a r : preserves core (approve_supervision m a r).
Proof. unfold approve_supervision, append_mission_event, alter_mission. frame. Qed.

Lemma recover_task_keeps m t now s :
  safe (saved s) → safe (db s) → tasks (db s) !! t_id t = Some t → t_status t = Failed →
  wp safe (recover_task m t now) (fun _ s' => safe (saved s') ∧ safe (db s')) s.
Proof.
  intros Hs Hd Ht Hst. pose proof (safe_wf _ _ _ Hd Ht) as Hwf. unfold recover_task.
  pose proof (edit_open _ _ _ Hs Hd Ht) as He.
  edit edit_frame as He1; [eauto with frame|]. edit edit_alter as He2; [same_row|].
  edit edit_rearm as [aps' He3]. edit edit_frame as He4; [eauto with frame|].
  apply keeps_tail; [keeps|].
  match type of He4 with editing _ (rearmed ?r) _ _ => assert (Hna : ¬ active (rearmed r)) end.
  { unfold active, rearmed, rearm_status. cbn. by destruct (t_approval_required t); intros [?|?]. }
  eapply edit_close_idle; [exact He4| |exact Hna].
  apply (task_wf_idle t); [exact Hwf|reflexivity|reflexivity|exact Hna|].
  apply (wf_clear _ Hwf). intros [?|?]; congruence.
Qed.

Lemma supervise_keeps m l now s :
  safe (saved s) → safe (db s) → (∀ t, t ∈ l → tasks (db s) !! t_id t = Some t) →
  wp safe (supervise m l now) (fun _ s' => safe (saved s') ∧ safe (db s')) s.
Proof.
  intros Hs Hd Hl. unfold supervise. apply wp_if; intros _.
  { apply keeps_tail; [keeps|done]. }
  apply wp_if; intros _; [apply keeps_tail; [keeps|done]|].
  destruct (List.find _ l) as [t|] eqn:Hf; [|apply keeps_tail; [keeps|done]].
  apply find_some in Hf as [Hin Hst]. apply bool_decide_eq_true in Hst.
  apply wp_if; intros _; [|apply keeps_tail; [keeps|done]].
  apply wp_bind. eapply wp_mono; [apply recover_task_keeps; try done|].
  - by apply Hl, list_elem_of_In.
  - intros ? s' [? ?]. by apply wp_ret.
Qed.

Lemma reconcile_mission_keeps m : keeps (reconcile_mission m).
Proof.
  unfold reconcile_mission. apply keeps_if; [keeps|].
  destruct (ms_supervision_status m) as [[]|]; try apply keeps_ret.
  all: apply keeps_bind; [keeps|intros now]; apply keeps_if; [apply keeps_ret|].
  all: apply keeps_bind; [apply reap_expired_leases_keeps|intros _].
  all: apply keeps_bind; [keeps|intros _].
  all: intros s Hs Hd; apply wp_bind, wp_get_row, wp_bind, wp_gets; apply supervise_keeps; [done..|].
  all: intros t Hin; apply elem_of_sort_by, (select_rows_elem tasks) in Hin as [_ [id Hid]];
    by rewrite (ci_task_id _ _ Hd _ _ Hid).
Qed.
End runtime.
