(* ===== verification/FounderFacts.v ===== *)
(** * Founder requests keep the safety invariant

    What the conversation and proposal requests do to the rows: a new task with
    its approval, the cancelled tasks of earlier revisions, and the tables of the
    founder ([founder]), which the rest of a request leaves alone.  Each request
    keeps the tasks and approvals safe. *)
From S2P Require Import Prelude Py Sha256 JsonText Models Store Logic TaskCore Notifications Governance.
From S2P Require Import CoreInvariant GovernanceFacts Tasks TasksFacts TaskGraphs Conversations RuntimeFacts.
From S2P Require Import ProposalSchema FounderConversations Proposals.

Open Scope Z_scope.

(** the tables of the founder's requests, apart from their logs *)
Definition founder (d : database) := (conversations d, messages d, proposals d, ideas d, mandates d).

Section persist.
Context `{World}.

Lemma create_approval_founder t : preserves founder (create_approval t).
Proof.
  unfold create_approval, enqueue_approval_gate, insert_once, add_notification, append_approval_event,
    select_approval. frame.
Qed.

Lemma append_task_event_founder id ty msg a p : preserves founder (append_task_event id ty msg a p).
Proof. unfold append_task_event. frame. Qed.

Lemma conversation_event_founder c ty a p q : preserves founder (conversation_event c ty a p q).
Proof. unfold conversation_event. frame. Qed.
Lemma conversation_event_core c ty a p q : preserves core (conversation_event c ty a p q).
Proof. unfold conversation_event. frame. Qed.

(** the approval a new task waits for, if it needs one *)
Definition gated_by (t : Task) (aps aps' : gmap uuid TaskApproval) : Prop :=
  if t_approval_required t
  then ∃ aid, aps !! aid = None ∧ aps' = <[aid := new_approval aid t]> aps ∧
         ∀ id a, aps !! id = Some a → ap_task_id a ≠ t_id t
  else aps' = aps.

Lemma gated_by_none t aps aps' : t_approval_required t = false → gated_by t aps aps' → aps' = aps.
Proof. unfold gated_by. by intros ->. Qed.

Lemma gated_by_of t aps : t_approval_required t = false → gated_by t aps aps.
Proof. unfold gated_by. by intros ->. Qed.

Lemma wp_persist I t Q s :
  I (saved s) →
  (∀ s', saved s' = saved s → founder (db s') = founder (db s) → tasks (db s) !! t_id t = None →
     tasks (db s') = <[t_id t := t]> (tasks (db s)) → gated_by t (approvals (db s)) (approvals (db s')) → Q tt s') →
  wp I (persist_new_task t) Q s.
Proof.
  intros HI HQ. unfold persist_new_task. apply wp_bind. unfold select_one at 1. apply wp_gets.
  destruct (head _); [by apply wp_raise|]. apply wp_bind, wp_insert; [done|]. intros Hnew.
  apply wp_bind, wp_when; intros Hreq.
  - apply wp_bind. eapply wp_mono.
    { apply (wp_and_frame founder); [apply create_approval_founder|].
      apply (wp_create_approval I t (fun aid s1 => gated_by t (approvals (db s)) (approvals (db s1)) ∧
        tasks (db s1) = <[t_id t := t]> (tasks (db s)))); [done|].
      intros s1 aid Hs1 Ht1 Ha1 Hn1 Hfree. split; [|exact Ht1]. unfold gated_by. rewrite Hreq. by exists aid. }
    intros aid s1 ((Hg & Ht1) & Hf1 & Hs1). apply wp_ret.
    eapply (wp_frame (fun d => (core d, founder d))); [unfold append_task_event; frame|by rewrite Hs1|].
    intros [] s2 Hs2 [= E1 E2 E3 E4 E5 E6 E7]. apply HQ; [by rewrite Hs2, Hs1| |done|by rewrite E1|by rewrite E2].
    unfold founder in *. injection Hf1 as F3 F4 F5 F6 F7. by rewrite E3, E4, E5, E6, E7, F3, F4, F5, F6, F7.
  - eapply (wp_frame (fun d => (core d, founder d))); [unfold append_task_event; frame|done|].
    intros [] s2 Hs2 [= E1 E2 E3 E4 E5 E6 E7]. apply HQ; [by rewrite Hs2| |done|by rewrite E1|].
    + unfold founder. by rewrite E3, E4, E5, E6, E7.
    + unfold gated_by. by rewrite Hreq, E2.
Qed.

(** what [materialize] adds *)
Definition adds_task (p : TaskCreate) (f : Task → Task) (d d' : database) (id : uuid) : Prop :=
  valid_task_create p = true ∧ tasks d !! id = None ∧ founder d' = founder d ∧
  tasks d' = <[id := f (build_task p id)]> (tasks d) ∧ gated_by (f (build_task p id)) (approvals d) (approvals d').

Lemma wp_materialize I p f Q s :
  I (saved s) → (∀ t, t_id (f t) = t_id t) →
  (∀ id st s', saved s' = saved s → adds_task p f (db s) (db s') id → Q (id, st) s') →
  wp I (materialize p f) Q s.
Proof.
  intros HI Hf HQ. unfold materialize, validation_error. apply wp_if; intros Hv; [by apply wp_raise|].
  apply wp_bind. eapply (wp_frame (fun d => (core d, founder d))); [frame|done|].
  intros id s1 Hs1 [= E1 E2 E3 E4 E5 E6 E7]. apply wp_bind, wp_persist; [by rewrite Hs1|].
  intros s2 Hs2 Hf2 Hn Ht Hg. apply wp_ret. rewrite Hf in *. cbn in *. rewrite E1, E2 in *.
  apply HQ; [congruence|]. split; [by apply negb_false_iff in Hv|]. split; [done|]. split; [|done].
  rewrite Hf2. unfold founder. by rewrite E3, E4, E5, E6, E7.
Qed.

Lemma planned_keeps p cid r : keeps (materialize p (for_conversation cid r)).
Proof. apply materialize_keeps. intros t. split_and!; [reflexivity..|intros Hc; exact Hc]. Qed.
End persist.
#[export] Hint Resolve create_approval_founder append_task_event_founder conversation_event_founder
  conversation_event_core : frame.
#[export] Hint Resolve planned_keeps : keeps.

(** ** A turn *)
Section turns.
Context `{World}.

Definition cancelled (t : Task) : Task := t <| t_status := Cancelled |> <| t_updated_at := w_server_now |>.

(** a task row after a turn raised the revision of conversation [cid] *)
Definition after_turn (cid : uuid) (revision : Z) (t : Task) : Task :=
  if stale cid revision t then cancelled t else t.

(** every row sits under its own identifier *)
Definition keyed (ts : gmap uuid Task) : Prop := ∀ id t, ts !! id = Some t → t_id t = id.

Lemma wp_supersede_all I revision l Q s :
  I (saved s) →
  (∀ s', saved s' = saved s → founder (db s') = founder (db s) → approvals (db s') = approvals (db s) →
     (∀ id, tasks (db s') !! id = (if decide (id ∈ t_id <$> l) then cancelled <$> tasks (db s) !! id
                                   else tasks (db s) !! id)) → Q tt s') →
  wp I (for_each l (supersede revision)) Q s.
Proof.
  revert s Q. induction l as [|t l IH]; intros s Q HI HQ; cbn [for_each].
  { apply wp_ret, HQ; [done..|]. intros id. case_decide as Hin; [by apply elem_of_nil in Hin|done]. }
  unfold supersede at 1. apply wp_bind, wp_bind. unfold alter_task. apply wp_alter.
  eapply (wp_frame (fun d => (core d, founder d))); [unfold append_task_event; frame|done|].
  intros [] s1 Hs1 [= E1 E2 E3 E4 E5 E6 E7]. apply IH; [by rewrite Hs1|].
  intros s2 Hs2 Hf2 Ha2 Ht2. apply HQ; [by rewrite Hs2, Hs1| |by rewrite Ha2, E2|].
  { rewrite Hf2. unfold founder. by rewrite E3, E4, E5, E6, E7. }
  intros id. rewrite Ht2, E1. cbn. destruct (decide (id = t_id t)) as [->|Hne].
  - rewrite lookup_alter_eq. rewrite (decide_True (P := t_id t ∈ t_id t :: _)) by by left.
    case_decide; [|done]. rewrite <- option_fmap_compose. by destruct (tasks (db s) !! t_id t).
  - rewrite lookup_alter_ne by done. case_decide as Hin; case_decide as Hin'; try done.
    + by destruct Hin'; right.
    + by apply elem_of_cons in Hin' as [?|?].
Qed.

Lemma superseded_rows cid revision ts ts' :
  keyed ts →
  (∀ id, ts' !! id = (if decide (id ∈ t_id <$> List.filter (stale cid revision) (table_rows ts))
                      then cancelled <$> ts !! id else ts !! id)) →
  ts' = after_turn cid revision <$> ts.
Proof.
  intros Hk Hts. apply map_eq. intros id. rewrite Hts, lookup_fmap. case_decide as Hin.
  - apply list_elem_of_fmap in Hin as (t & -> & Hin). apply list_elem_of_In, filter_In in Hin as [Hin Hst].
    unfold table_rows in Hin. apply list_elem_of_In, list_elem_of_fmap in Hin as ([id' t'] & -> & Hin).
    apply elem_of_map_to_list in Hin. cbn in *. rewrite (Hk _ _ Hin), Hin. cbn. unfold after_turn. by rewrite Hst.
  - destruct (ts !! id) as [t|] eqn:Ht; [|done]. cbn. unfold after_turn. destruct (stale cid revision t) eqn:Hst; [|done].
    destruct Hin. apply list_elem_of_fmap. exists t. split; [symmetry; by apply Hk|].
    apply list_elem_of_In, filter_In. split; [|done]. apply list_elem_of_In. unfold table_rows.
    apply list_elem_of_fmap. exists (id, t). split; [done|]. by apply elem_of_map_to_list.
Qed.

Lemma stale_idle cid revision t : stale cid revision t = true → ¬ active t.
Proof.
  unfold stale. rewrite !andb_true_iff, bool_decide_eq_true. intros [_ E]. unfold active.
  apply bool_decide_eq_true in E. rewrite E. by intros [?|?].
Qed.

Lemma superseded_safe cid revision ts aps :
  core_inv None (ts, aps) → core_inv None (after_turn cid revision <$> ts, aps).
Proof.
  intros [Hid Haid Huniq Hgates Hgated Hok]. cbn in *.
  assert (Hsame : ∀ t, same_plan t (after_turn cid revision t)).
  { intros t. unfold after_turn. by destruct (stale cid revision t). }
  split; cbn.
  - intros id t. rewrite lookup_fmap. intros (t0 & Ht & ->)%fmap_Some. destruct (Hsame t0) as [-> _]. by apply Hid.
  - done.
  - done.
  - intros id a Ha. destruct (Hgates _ _ Ha) as (t & Ht & H1 & H2 & H3). exists (after_turn cid revision t).
    rewrite lookup_fmap, Ht. split; [done|]. destruct (Hsame t) as (E1 & E2 & E3). unfold gates. by rewrite E1, E2, E3.
  - intros id t. rewrite lookup_fmap. intros (t0 & Ht & ->)%fmap_Some. destruct (Hsame t0) as (_ & -> & _). by apply Hgated.
  - intros id t. rewrite lookup_fmap. intros (t0 & Ht & ->)%fmap_Some _. destruct (Hok _ _ Ht) as [Hwf Hc]; [done|].
    unfold after_turn. destruct (stale cid revision t0) eqn:Hst; [|by split].
    assert (Hna : ¬ active (cancelled t0)) by not_active. split; [|done].
    apply (task_wf_idle t0); [done..|]. by apply (wf_clear _ Hwf), (stale_idle cid revision).
Qed.

(** the planning task of a turn that made the founder's messages [l] *)
Definition turn_create (c : FounderConversation) (p : ConversationTurnCreate) (l : list string) (now : datetime)
    (grounding : Json.dict) : TaskCreate :=
  planning_create now (turned (fc_revision c + 1) l c) l (ctc_founder_key p) grounding.

(** what a new turn does *)
Record turn_taken (c : FounderConversation) (p : ConversationTurnCreate) (d d' : database) (tid : uuid) : Prop := {
  tt_message : ∃ mid reply, messages d !! mid = None ∧
    messages d' = <[mid := founder_message mid (fc_id c) (next_sequence d (fc_id c)) reply p]> (messages d);
  tt_conversation : conversations d' =
    alter (turned (fc_revision c + 1) (_founder_messages d' (fc_id c))) (fc_id c) (conversations d);
  tt_fresh : tasks d !! tid = None;
  tt_task : ∃ now grounding,
    valid_task_create (turn_create c p (_founder_messages d' (fc_id c)) now grounding) = true ∧
    tasks d' = <[tid := for_conversation (Some (fc_id c)) (Some (fc_revision c + 1))
        (build_task (turn_create c p (_founder_messages d' (fc_id c)) now grounding) tid)]>
      (after_turn (fc_id c) (fc_revision c + 1) <$> tasks d);
  tt_approvals : approvals d' = approvals d;
  tt_rest : (proposals d', ideas d', mandates d') = (proposals d, ideas d, mandates d) }.

Lemma planning_needs_no_approval now c l a g : needs_approval (planning_create now c l a g) = false.
Proof. unfold needs_approval, planning_create, planning_risk. cbn. by case_bool_decide. Qed.

Lemma turn_needs_no_approval c p l now g : needs_approval (turn_create c p l now g) = false.
Proof. apply planning_needs_no_approval. Qed.

Lemma wp_add_message I m Q s :
  I (saved s) →
  (messages (db s) !! fm_id m = None →
     (∀ m', m' ∈ messages_of (db s) (fm_conversation_id m) → fm_sequence m' ≠ fm_sequence m ∧
        (is_Some (fm_channel_message_id m) → fm_channel_message_id m' ≠ fm_channel_message_id m)) →
     Q tt (s <| db := set_field messages (<[fm_id m := m]> (messages (db s))) (db s) |>)) →
  wp I (add_message m) Q s.
Proof.
  intros HI HQ. unfold add_message. apply wp_bind, wp_gets. destruct (existsb _ _) eqn:E; [by apply wp_raise|].
  apply wp_insert; [done|]. intros Hn. apply HQ; [done|]. intros m' Hm'.
  assert (Hf : ∀ x, x ∈ messages_of (db s) (fm_conversation_id m) → bool_decide (fm_sequence x = fm_sequence m) = false ∧
    (bool_decide (is_Some (fm_channel_message_id m)) && bool_decide (fm_channel_message_id x = fm_channel_message_id m)) = false).
  { intros x Hx. apply orb_false_iff. destruct (_ || _) eqn:Ex; [|done]. exfalso. rewrite <- not_true_iff_false in E.
    apply E, existsb_exists. exists x. split; [by apply list_elem_of_In|done]. }
  destruct (Hf m' Hm') as [E1 E2]. apply bool_decide_eq_false in E1. split; [done|]. intros Hs E3.
  rewrite andb_false_iff, !bool_decide_eq_false in E2. tauto.
Qed.

Lemma find_duplicate_reads {T} (π : database → T) cid id : preserves π (find_duplicate cid id).
Proof. unfold find_duplicate. frame. Qed.
Lemma find_reply_reads {T} (π : database → T) cid ch id : preserves π (find_reply cid ch id).
Proof. unfold find_reply. frame. Qed.
Lemma lift_reads {A T} (π : database → T) (m : outcome A) : preserves π (lift m).
Proof. done. Qed.
#[local] Hint Resolve find_duplicate_reads find_reply_reads lift_reads : frame.
Lemma grounding_reads {T} (π : database → T) p q : preserves π (_grounding_context p q).
Proof. unfold _grounding_context. frame. Qed.
#[local] Hint Resolve grounding_reads : frame.

Lemma wp_planning I c l actor Q s :
  I (saved s) →
  (∀ now grounding id st s', saved s' = saved s →
     adds_task (planning_create now c l actor grounding) (for_conversation (Some (fc_id c)) (Some (fc_revision c)))
       (db s) (db s') id → Q (id, st) s') →
  wp I (_planning_task c l actor) Q s.
Proof.
  intros HI HQ. unfold _planning_task. apply wp_bind, wp_utc_now; intros now _. apply wp_bind.
  eapply (wp_frame id); [apply grounding_reads|done|]. intros grounding s1 Hs1 Hd1. cbn in Hs1, Hd1.
  apply wp_materialize; [by rewrite Hs1|done|]. intros tid st s2 Hs2 Ha. eapply HQ; [by rewrite Hs2|].
  rewrite Hd1 in Ha. exact Ha.
Qed.

(** the rows between the message and the planning task *)
Record turn_prepared (c : FounderConversation) (p : ConversationTurnCreate) (d d' : database) : Prop := {
  tp_message : ∃ mid reply, messages d !! mid = None ∧
    messages d' = <[mid := founder_message mid (fc_id c) (next_sequence d (fc_id c)) reply p]> (messages d);
  tp_tasks : tasks d' = after_turn (fc_id c) (fc_revision c + 1) <$> tasks d;
  tp_rest : (conversations d', approvals d', proposals d', ideas d', mandates d') =
            (conversations d, approvals d, proposals d, ideas d, mandates d) }.

Lemma planned_approval cid r p id :
  t_approval_required (for_conversation cid r (build_task p id)) = needs_approval p.
Proof. done. Qed.

Lemma turn_completed c p d d1 d2 d3 tid now grounding :
  turn_prepared c p d d1 →
  d2 = set_field conversations (alter (turned (fc_revision c + 1) (_founder_messages d1 (fc_id c))) (fc_id c)
         (conversations d1)) d1 →
  adds_task (turn_create c p (_founder_messages d1 (fc_id c)) now grounding)
    (for_conversation (Some (fc_id c)) (Some (fc_revision c + 1))) d2 d3 tid →
  turn_taken c p d d3 tid.
Proof.
  intros [Hm Ht Hr] Ed (Hv & Hn & Hf & Hts & Hg). injection Hr as R1 R2 R3 R4 R5.
  remember (_founder_messages d1 (fc_id c)) as l eqn:El.
  assert (Hfd : founder d3 = (alter (turned (fc_revision c + 1) l) (fc_id c) (conversations d1), messages d1,
    proposals d1, ideas d1, mandates d1)) by by rewrite Hf, Ed.
  assert (Htd : tasks d2 = tasks d1) by by rewrite Ed. assert (Had : approvals d2 = approvals d1) by by rewrite Ed.
  rewrite Htd in Hn, Hts. rewrite Had in Hg. clear Ed Hf Htd Had. injection Hfd as F1 F2 F3 F4 F5.
  assert (Hl : _founder_messages d3 (fc_id c) = l).
  { rewrite El. unfold _founder_messages, messages_of. by rewrite F2. }
  rewrite Ht in Hn, Hts. split; rewrite ?Hl.
  - destruct Hm as (mid & reply & Hmn & Hm). exists mid, reply. by rewrite F2.
  - by rewrite F1, R1.
  - rewrite lookup_fmap in Hn. by destruct (tasks d !! tid).
  - by exists now, grounding.
  - apply gated_by_none in Hg; [by rewrite Hg|]. by rewrite planned_approval, turn_needs_no_approval.
  - by rewrite F3, F4, F5, R3, R4, R5.
Qed.

(** rows that a turn does not tell apart *)
Lemma turn_taken_same c p d d1 d2 tid :
  core d2 = core d1 → founder d2 = founder d1 → turn_taken c p d d1 tid → turn_taken c p d d2 tid.
Proof.
  intros [= E1 E2] [= F1 F2 F3 F4 F5] [Hm Hc Hn Ht Ha Hr].
  assert (Hl : _founder_messages d2 (fc_id c) = _founder_messages d1 (fc_id c)).
  { unfold _founder_messages, messages_of. by rewrite F2. }
  split; rewrite ?Hl, ?E1, ?E2, ?F1, ?F2, ?F3, ?F4, ?F5; done.
Qed.

Lemma wp_new_turn I c p Q s :
  I (saved s) → keyed (tasks (db s)) →
  (∀ tid s', saved s' = saved s → turn_taken c p (db s) (db s') tid → Q tid s') →
  wp I (new_turn c p) Q s.
Proof.
  intros HI Hk HQ. unfold new_turn. apply wp_bind, wp_gets, wp_bind.
  eapply (wp_frame id); [auto with frame|done|]. intros reply s1 Hs1 Hd1. cbn in Hd1. apply wp_bind.
  eapply (wp_frame (fun d => (core d, founder d))); [frame|by rewrite Hs1|].
  intros mid s2 Hs2 [= E1 E2 E3 E4 E5 E6 E7]. rewrite Hd1 in *. cbv zeta. apply wp_bind, wp_add_message; [by rewrite Hs2, Hs1|].
  intros Hnew _. change (fm_id (founder_message _ _ _ _ _)) with mid in *. rewrite E4 in Hnew.
  apply wp_bind. unfold select_rows. apply wp_gets, wp_bind, wp_supersede_all; [by rewrite <- Hs1, <- Hs2 in HI|].
  intros s3 Hs3 Hf3 Ha3 Ht3.
  assert (Hsv : saved s3 = saved s) by (rewrite Hs3; change (saved s2 = saved s); by rewrite Hs2).
  assert (Hp : turn_prepared c p (db s) (db s3)).
  { injection Hf3 as F3 F4 F5 F6 F7. split.
    - exists mid, (fm_id <$> reply). split; [done|]. rewrite F4. change (messages (db s2)) with (messages (db s2)).
      by rewrite <- E4.
    - apply superseded_rows; [done|]. intros id. rewrite Ht3. rewrite <- E1. done.
    - by rewrite F3, F5, F6, F7, Ha3, <- E2, <- E3, <- E5, <- E6, <- E7. }
  clear Hs3 Hf3 Ha3 Ht3 Hnew E1 E2 E3 E4 E5 E6 E7. apply wp_bind, wp_gets, wp_bind, wp_alter.
  match goal with |- wp _ _ _ ?x => set (s4 := x) end.
  apply wp_bind, wp_planning; [change (saved s4) with (saved s3); by rewrite Hsv|].
  intros now grounding tid st s5 Hs5 Ha. change (saved s4) with (saved s3) in Hs5.
  assert (Ht : turn_taken c p (db s) (db s5) tid) by (eapply turn_completed; [exact Hp|reflexivity|exact Ha]).
  clear Ha Hp. clearbody s4. apply wp_bind.
  eapply (wp_frame (fun d => (core d, founder d))); [unfold conversation_event; frame|by rewrite Hs5, Hsv|].
  intros [] s6 Hs6 E6. apply wp_ret, HQ; [by rewrite Hs6, Hs5, Hsv|].
  eapply turn_taken_same; [exact (f_equal fst E6)|exact (f_equal snd E6)|exact Ht].
Qed.
End turns.

#[export] Hint Resolve find_duplicate_reads find_reply_reads lift_reads grounding_reads : frame.

(** ** A decision *)
Section decisions.
Context `{World}.

Lemma wp_planned_task I proposed source actor now Q s :
  I (saved s) →
  (∀ suffix id s', saved s' = saved s → holds_uuid (pt_input_contract proposed) = false →
     adds_task (_task_create proposed source actor now suffix)
       (for_conversation (t_conversation_id source) (t_conversation_revision source)) (db s) (db s') id → Q id s') →
  wp I (planned_task proposed source actor now) Q s.
Proof.
  intros HI HQ. unfold planned_task. apply wp_bind. eapply (wp_frame id); [frame|done|].
  intros hex s1 Hs1 Hd1. cbn in Hd1. cbv zeta. apply wp_if; intros Hu; [apply wp_raise; by rewrite Hs1|].
  apply wp_bind, wp_materialize; [by rewrite Hs1|done|]. intros id st s2 Hs2 Ha. apply wp_ret.
  eapply HQ; [by rewrite Hs2| |rewrite Hd1 in Ha; exact Ha].
  destruct Ha as [Hv _]. by rewrite Hv in Hu.
Qed.

(** the mandate an idea is queued under *)
Definition mandate_admits (m : AlphaResearchMandate) (now : datetime) (digest : string) : Prop :=
  am_status m = "active" ∧ am_valid_from m ≤ now < am_valid_until m ∧ am_mandate_digest m = digest.

(** what queueing an idea leaves alone *)
Definition beside_ideas (d : database) := (core d, conversations d, messages d, proposals d, mandates d).

Lemma add_idea_rest m p : preserves beside_ideas (add_idea m p).
Proof. unfold add_idea, discovery_event. frame. Qed.

Lemma wp_add_idea I m p Q s :
  I (saved s) →
  (∀ idea s', saved s' = saved s →
     beside_ideas (db s') = beside_ideas (db s) →
     afi_idea_digest idea = idea_digest m p → ideas (db s) ⊆ ideas (db s') →
     (∃ id, ideas (db s') !! id = Some idea) → Q idea s') →
  wp I (add_idea m p) Q s.
Proof.
  intros HI HQ. eapply wp_mono.
  { apply (wp_and_frame beside_ideas I (add_idea m p) (fun idea s' => afi_idea_digest idea = idea_digest m p ∧
      ideas (db s) ⊆ ideas (db s') ∧ ∃ id, ideas (db s') !! id = Some idea)); [apply add_idea_rest|].
    unfold add_idea, select_one. apply wp_bind, wp_gets. destruct (head _) as [idea|] eqn:Hh.
    - apply wp_ret. apply select_one_Some in Hh as [E [id Hid]]. apply String.eqb_eq in E. split; [done|]. split; [done|by exists id].
    - apply wp_bind. eapply (wp_frame ideas); [frame|done|]. intros id s1 Hs1 Hd1. apply wp_bind, wp_insert; [by rewrite Hs1|].
      intros Hn. apply wp_bind. eapply (wp_frame ideas); [unfold discovery_event; frame|by rewrite <- Hs1 in HI|].
      intros [] s2 Hs2 Hd2. apply wp_ret. cbn in Hd2. rewrite Hd1 in Hd2, Hn. split; [done|]. split.
      + rewrite Hd2. by apply insert_subseteq.
      + exists id. by rewrite Hd2, lookup_insert_eq. }
  intros idea s' ((E & Hg & Hin) & Hr & Hs). by apply (HQ idea s').
Qed.

Lemma wp_queue_idea I m p Q s :
  I (saved s) →
  (∀ now idea s', saved s' = saved s → mandate_admits m now (aic_expected_mandate_digest p) →
     beside_ideas (db s') = beside_ideas (db s) →
     afi_idea_digest idea = idea_digest m p → ideas (db s) ⊆ ideas (db s') →
     (∃ id, ideas (db s') !! id = Some idea) → Q idea s') →
  wp I (queue_founder_idea m p) Q s.
Proof.
  intros HI HQ. unfold queue_founder_idea. cbv zeta. apply wp_if; intros Hst; [by apply wp_raise|].
  apply wp_bind, wp_utc_now; intros now _. apply wp_if; intros Hw; [by apply wp_raise|].
  apply wp_if; intros Hdg; [by apply wp_raise|]. apply wp_add_idea; [done|].
  intros idea s1 Hs1 Hr1 E Hg Hin. apply (HQ now); [done| |done..].
  apply negb_false_iff in Hst, Hw, Hdg. apply String.eqb_eq in Hst, Hdg. split; [done|]. split; [lia|done].
Qed.

(** a task whose hypothesis was queued *)
Definition intake_done (at_ : datetime) (idea : AlphaFounderResearchIdea) (t : Task) : Task :=
  t <| t_status := Succeeded |> <| t_started_at := Some at_ |> <| t_completed_at := Some at_ |>
    <| t_result := idea_result idea |> <| t_updated_at := w_server_now |>.

Lemma intake_gated at_ idea t aps aps' : gated_by t aps aps' → gated_by (intake_done at_ idea t) aps aps'.
Proof. done. Qed.

(** a hypothesis entered the research queue, under a mandate that admits it *)
Definition hypothesis_queued (c : ProposalFounderHypothesisIntakeContract) (source : Task) (mandate_id : option uuid)
    (mandate_digest : option string) (d d' : database) (idea : AlphaFounderResearchIdea) : Prop :=
  ∃ bound_id m now, orelse (phi_mandate_id c) mandate_id = Some bound_id ∧ mandates d !! bound_id = Some m ∧
    digest_or (phi_mandate_digest c) mandate_digest = Some (am_mandate_digest m) ∧
    mandate_admits m now (am_mandate_digest m) ∧
    afi_idea_digest idea = idea_digest m (idea_create c bound_id (am_mandate_digest m) source) ∧
    ideas d ⊆ ideas d' ∧ ∃ id, ideas d' !! id = Some idea.

Lemma wp_queue_hypothesis I c tid source at_ mid mdg Q s :
  I (saved s) →
  (∀ idea s', saved s' = saved s → hypothesis_queued c source mid mdg (db s) (db s') idea →
     (approvals (db s'), conversations (db s'), messages (db s'), proposals (db s'), mandates (db s')) =
     (approvals (db s), conversations (db s), messages (db s), proposals (db s), mandates (db s)) →
     tasks (db s') = alter (intake_done at_ idea) tid (tasks (db s)) → Q tt s') →
  wp I (queue_hypothesis c tid source at_ mid mdg) Q s.
Proof.
  intros HI HQ. unfold queue_hypothesis. apply wp_if; intros _; [by apply wp_raise|].
  apply wp_if; intros _; [by apply wp_raise|].
  destruct (orelse _ _) as [bid|] eqn:Eb; [|by apply wp_raise]. destruct (digest_or _ _) as [bdg|] eqn:Ed; [|by apply wp_raise].
  apply wp_bind, wp_get_row. destruct (mandates (db s) !! bid) as [m|] eqn:Em; [|by apply wp_raise].
  cbv zeta. apply wp_if; intros _; [by apply wp_raise|]. apply wp_bind, wp_queue_idea; [done|].
  intros now idea s1 Hs1 Hm [= E1 E2 E3 E4 E5 E6] Eidea Hg Hin. cbn in Hm. apply wp_bind. unfold alter_task. apply wp_alter.
  eapply (wp_frame (fun d => (core d, founder d))); [unfold append_task_event; frame|by cbn; rewrite Hs1|].
  intros [] s2 Hs2 [= F1 F2 F3 F4 F5 F6 F7]. apply (HQ idea); [by rewrite Hs2| | |].
  - destruct Hm as (M1 & M2 & M3). exists bid, m, now. subst bdg. rewrite F6.
    do 5 (split; [done|]). by split.
  - by rewrite F2, F3, F4, F5, F7, <- E2, <- E3, <- E4, <- E5, <- E6.
  - by rewrite F1, <- E1.
Qed.

(** what a decision to materialize does *)
Definition planned_row (p : FounderProposal) (proposed : ProposedTask) (source : Task) (actor : string) (at_ : datetime)
    (suffix : string) (tid : uuid) : Task :=
  for_conversation (t_conversation_id source) (t_conversation_revision source)
    (build_task (_task_create proposed source actor at_ suffix) tid).

Definition final_row (proposed : ProposedTask) (source : Task) (mid : option uuid) (mdg : option string)
    (at_ : datetime) (d d' : database) (t t' : Task) : Prop :=
  match pt_input_contract proposed with
  | FounderHypothesisIntake c => ∃ idea, hypothesis_queued c source mid mdg d d' idea ∧ t' = intake_done at_ idea t
  | _ => t' = t ∧ ideas d' = ideas d
  end.

Record plan_materialized (p : FounderProposal) (actor reason : string) (mid : option uuid) (mdg : option string)
    (d d' : database) (tid : uuid) : Prop := {
  pm_open : fp_status p = "proposed";
  pm_current : ∀ cid, fp_conversation_id p = Some cid →
    ∃ c, conversations d !! cid = Some c ∧ superseded p c = false;
  pm_action : fpd_recommended_action (fp_proposal p) = "create_task";
  pm_task : ∃ proposed source at_ suffix t', fpd_proposed_task (fp_proposal p) = Some proposed ∧
    tasks d !! fp_source_task_id p = Some source ∧ tasks d !! tid = None ∧
    valid_task_create (_task_create proposed source actor at_ suffix) = true ∧
    final_row proposed source mid mdg at_ d d' (planned_row p proposed source actor at_ suffix tid) t' ∧
    tasks d' = <[tid := t']> (tasks d) ∧
    gated_by (planned_row p proposed source actor at_ suffix tid) (approvals d) (approvals d') ∧
    proposals d' = alter (decided "materialized" actor reason at_ (Some tid)) (fp_id p) (proposals d);
  pm_rest : (conversations d', messages d', mandates d') = (conversations d, messages d, mandates d) }.

Lemma wp_materialize_task I p proposed actor reason mid mdg Q s :
  I (saved s) → fp_status p = "proposed" → fpd_recommended_action (fp_proposal p) = "create_task" →
  fpd_proposed_task (fp_proposal p) = Some proposed →
  (∀ cid, fp_conversation_id p = Some cid → ∃ c, conversations (db s) !! cid = Some c ∧ superseded p c = false) →
  (∀ tid s', saved s' = saved s → plan_materialized p actor reason mid mdg (db s) (db s') tid → Q tid s') →
  wp I (materialize_task p proposed actor reason mid mdg) Q s.
Proof.
  intros HI Hst Hact Hp Hcur HQ. unfold materialize_task. apply wp_bind, wp_get_row.
  destruct (tasks (db s) !! fp_source_task_id p) as [source|] eqn:Hsrc; [|by apply wp_raise].
  apply wp_bind, wp_utc_now; intros at_ _. apply wp_bind, wp_planned_task; [done|].
  intros suffix tid s1 Hs1 _ (Hv & Hn & [= F1 F2 F3 F4 F5] & Ht1 & Hg1).
  change (db (s <| clock := _ |>)) with (db s) in *. change (saved s1 = saved s) in Hs1.
  match type of Ht1 with _ = <[tid := ?x]> _ => change x with (planned_row p proposed source actor at_ suffix tid) in Ht1, Hg1 end.
  remember (planned_row p proposed source actor at_ suffix tid) as t eqn:Et.
  assert (Hfin : wp I (match pt_input_contract proposed with
    | FounderHypothesisIntake c => queue_hypothesis c tid source at_ mid mdg | _ => mret tt end)
    (fun _ s2 => saved s2 = saved s ∧ (∃ t', final_row proposed source mid mdg at_ (db s) (db s2) t t' ∧
       tasks (db s2) = <[tid := t']> (tasks (db s))) ∧
       (approvals (db s2), conversations (db s2), messages (db s2), proposals (db s2), mandates (db s2)) =
       (approvals (db s1), conversations (db s1), messages (db s1), proposals (db s1), mandates (db s1))) s1).
  { unfold final_row. destruct (pt_input_contract proposed);
      try (apply wp_ret; split; [done|]; split; [|done]; exists t; rewrite Ht1, F4; done).
    apply wp_queue_hypothesis; [by rewrite Hs1|]. intros idea s2 Hs2 Hq Hr Ht2. split; [by rewrite Hs2|]. split; [|done].
    exists (intake_done at_ idea t). split; [exists idea|by rewrite Ht2, Ht1, alter_insert_eq].
    unfold hypothesis_queued in *. by rewrite F4, F5 in Hq. }
  apply wp_bind. eapply wp_mono; [exact Hfin|]. intros [] s2 (Hs2 & (t' & Hf & Ht2) & Hr2). injection Hr2 as R1 R2 R3 R4 R5.
  apply wp_bind, wp_alter, wp_ret, HQ; [done|].
  split; [done|exact Hcur|done| |by cbn; rewrite R2, R3, R5, F1, F2, F5].
  exists proposed, source, at_, suffix, t'. cbn -[decided planned_row]. rewrite R1, R4, F3, <- Et.
  repeat (split; [done|]). done.
Qed.

Lemma wp_materialize_proposal I p actor reason mid mdg Q s :
  I (saved s) →
  (∀ tid s', saved s' = saved s → plan_materialized p actor reason mid mdg (db s) (db s') tid → Q tid s') →
  wp I (materialize_proposal p actor reason mid mdg) Q s.
Proof.
  intros HI HQ. unfold materialize_proposal, already_decided. apply wp_if; intros Hst; [by apply wp_raise|].
  apply negb_false_iff, String.eqb_eq in Hst. destruct (str_eqb _ "create_task") eqn:Hact; [|by apply wp_raise].
  apply String.eqb_eq in Hact. destruct (fpd_proposed_task _) as [proposed|] eqn:Hp; [|by apply wp_raise].
  apply wp_bind. unfold conversation_moved. destruct (fp_conversation_id p) as [cid|] eqn:Hc.
  - apply wp_bind, wp_get_row, wp_ret. apply wp_if; intros Hm; [by apply wp_raise|].
    apply wp_materialize_task; [done..| |done]. intros cid' E. rewrite Hc in E. injection E as <-.
    destruct (conversations (db s) !! cid) as [c|] eqn:Ec; [|done]. by exists c.
  - apply wp_ret. cbn [mbind]. apply wp_materialize_task; [done..| |done]. by rewrite Hc.
Qed.
End decisions.

(** ** Every founder request keeps the governed rows safe *)
Section keeps.
Context `{World}.

Lemma safe_keyed d : safe d → keyed (tasks d).
Proof. intros Hd id t Ht. by apply (ci_task_id _ _ Hd). Qed.

(** a new idle task enters, with its approval when it needs one *)
Lemma safe_add_task d d' t id :
  safe d → tasks d !! id = None → t_id t = id → task_wf t → ¬ active t →
  tasks d' = <[id := t]> (tasks d) → gated_by t (approvals d) (approvals d') → safe d'.
Proof.
  intros Hd Hn Hid Hwf Hact Ht Hg. unfold safe, core. rewrite Ht. unfold gated_by in Hg.
  destruct (t_approval_required t) eqn:Hreq.
  - destruct Hg as (aid & Hna & -> & Hfree). apply core_inv_insert_gated; [done..| |done|done|].
    + by repeat split.
    + intros aid' a Ha. rewrite <- Hid. by eapply Hfree.
  - rewrite Hg. by apply core_inv_insert_task.
Qed.

Lemma planned_wf cid r p id :
  valid_task_create p = true →
  task_wf (for_conversation cid r (build_task p id)) ∧ ¬ active (for_conversation cid r (build_task p id)).
Proof.
  intros Hv. apply (materialized_wf p id (for_conversation cid r)); [done|].
  intros t. split_and!; [reflexivity..|intros Hc; exact Hc].
Qed.

Lemma turn_safe c p d d' tid : safe d → turn_taken c p d d' tid → safe d'.
Proof.
  intros Hd [_ _ Hn (now & g & Hv & Ht) Ha _]. destruct (planned_wf (Some (fc_id c)) (Some (fc_revision c + 1)) _ tid Hv) as [Hwf Hact].
  assert (Hreq : t_approval_required (for_conversation (Some (fc_id c)) (Some (fc_revision c + 1))
    (build_task (turn_create c p (_founder_messages d' (fc_id c)) now g) tid)) = false)
    by by rewrite planned_approval, turn_needs_no_approval.
  assert (Hid : t_id (for_conversation (Some (fc_id c)) (Some (fc_revision c + 1))
    (build_task (turn_create c p (_founder_messages d' (fc_id c)) now g) tid)) = tid) by done.
  remember (for_conversation _ _ (build_task _ tid)) as t eqn:Et. clear Et Hv.
  apply (safe_add_task (set_field tasks (after_turn (fc_id c) (fc_revision c + 1) <$> tasks d) d) d' t tid); try done.
  - unfold safe, core. cbn. by apply superseded_safe.
  - cbn. by rewrite lookup_fmap, Hn.
  - rewrite Ha. by apply gated_by_of.
Qed.

Lemma new_turn_keeps c p : keeps (new_turn c p).
Proof.
  intros s Hs Hd. apply wp_new_turn; [done|by apply safe_keyed|]. intros tid s' -> Ht.
  split; [done|]. by eapply turn_safe.
Qed.
#[local] Hint Resolve new_turn_keeps : keeps.

Lemma append_turn_keeps c p : keeps (append_turn c p).
Proof. unfold append_turn. keeps. Qed.
#[local] Hint Resolve append_turn_keeps : keeps.

Lemma create_conversation_keeps p : keeps (create_conversation p).
Proof. unfold create_conversation, add_conversation. keeps. Qed.
#[local] Hint Resolve create_conversation_keeps : keeps.

Lemma transition_conversation_core c a k r : preserves core (transition_conversation c a k r).
Proof. unfold transition_conversation, http. frame. Qed.
Lemma get_conversation_reads {T} (π : database → T) i k : preserves π (get_conversation i k).
Proof. unfold get_conversation, http. frame. Qed.
#[local] Hint Resolve transition_conversation_core get_conversation_reads : frame.

Lemma new_conversation_keeps p : keeps (new_conversation p).
Proof. unfold new_conversation, validation_error. keeps. Qed.
Lemma add_turn_keeps i p : keeps (add_turn i p).
Proof. unfold add_turn, validation_error. keeps. Qed.
Lemma transition_endpoint_keeps i p : keeps (transition_endpoint i p).
Proof. unfold transition_endpoint, validation_error. keeps. Qed.

Lemma planner_response_core t doc d g : preserves core (record_planner_response t doc d g).
Proof. unfold record_planner_response, add_message. frame. Qed.
#[local] Hint Resolve planner_response_core : frame.
Lemma create_proposal_core t a doc : preserves core (create_proposal t a doc).
Proof. unfold create_proposal, http. frame. Qed.
#[local] Hint Resolve create_proposal_core : frame.
Lemma lock_proposal_reads {T} (π : database → T) i : preserves π (_lock_proposal i).
Proof. unfold _lock_proposal, http. frame. Qed.
#[local] Hint Resolve lock_proposal_reads : frame.

Lemma submit_proposal_keeps t p a : keeps (submit_proposal t p a).
Proof. unfold submit_proposal, validation_error. keeps. Qed.

Lemma plan_safe p actor reason mid mdg d d' tid : safe d → plan_materialized p actor reason mid mdg d d' tid → safe d'.
Proof.
  intros Hd [_ _ _ (proposed & source & at_ & suffix & t' & _ & _ & Hn & Hv & Hf & Ht & Hg & _) _].
  destruct (planned_wf (t_conversation_id source) (t_conversation_revision source) _ tid Hv) as [Hwf Hact].
  assert (Ht' : t_id t' = tid ∧ task_wf t' ∧ ¬ active t' ∧ gated_by t' (approvals d) (approvals d')).
  { unfold final_row in Hf. fold (planned_row p proposed source actor at_ suffix tid) in Hwf, Hact.
    assert (Hid : t_id (planned_row p proposed source actor at_ suffix tid) = tid) by reflexivity.
    destruct (pt_input_contract proposed); try (destruct Hf as [-> _]; done).
    destruct Hf as (idea & _ & ->). set (t := planned_row _ _ _ _ _ _ _) in *. clearbody t.
    assert (Hna : ¬ active (intake_done at_ idea t)) by not_active.
    split; [done|]. split; [|split; [done|]].
    - apply (task_wf_idle t); [done..|]. by apply (wf_clear _ Hwf).
    - by apply intake_gated. }
  destruct Ht' as (Hid & Hwf' & Hact' & Hg'). by eapply safe_add_task.
Qed.

Lemma materialize_proposal_keeps p a r m g : keeps (materialize_proposal p a r m g).
Proof.
  intros s Hs Hd. apply wp_materialize_proposal; [done|]. intros tid s' -> Hp. split; [done|]. by eapply plan_safe.
Qed.
#[local] Hint Resolve materialize_proposal_keeps : keeps.

Lemma reject_proposal_core p a r : preserves core (reject_proposal p a r).
Proof. unfold reject_proposal, already_decided, http. frame. Qed.
#[local] Hint Resolve reject_proposal_core : frame.

Lemma approve_and_materialize_keeps i p : keeps (approve_and_materialize i p).
Proof. unfold approve_and_materialize, validation_error. keeps. Qed.
Lemma reject_endpoint_keeps i p : keeps (reject_endpoint i p).
Proof. unfold reject_endpoint, validation_error. keeps. Qed.
Lemma create_request_keeps p : keeps (create_request p).
Proof.
  unfold create_request, validation_error. keeps. apply materialize_keeps.
  intros t. split_and!; [reflexivity..|intros Hc; exact Hc].
Qed.
Lemma decide_proposal_keeps i a p : keeps (decide_proposal i a p).
Proof. unfold decide_proposal, validation_error. keeps. Qed.
End keeps.
#[export] Hint Resolve new_conversation_keeps add_turn_keeps transition_endpoint_keeps submit_proposal_keeps
  approve_and_materialize_keeps reject_endpoint_keeps create_request_keeps decide_proposal_keeps : keeps.
