(* ===== verification/Authority.v ===== *)
(** * Decision authority

    [services/authority.py] and [routes/authority.py]: who may take a governed
    decision, under which active policy, delegation or exception, with separation
    of duties and a record of every resolution. *)
From S2P Require Import Prelude Py Sha256 Models Store Logic.
From Stdlib Require Import Ascii.

Open Scope Z_scope.

Definition MAX_DELEGATION : Z := days 30.
Definition MAX_EXCEPTION : Z := seconds (24 * 3600).

(** ** Requests ([schemas/authority.py]) *)

Record AuthorityResolutionRequest := mkAuthorityResolutionRequest {
  arq_actor : string;
  arq_decision_type : string;
  arq_action : string;
  arq_object_type : string;
  arq_object_id : string;
  arq_object_digest : string;
  arq_scope : Json.dict;
  arq_risk_level : Z;
  arq_environment : string;
  arq_requester : option string;
  arq_originator : option string;
  arq_evaluator : option string;
  arq_active_veto_roles : list string;
  arq_exception_id : option uuid }.

(** what pydantic checks on an [AuthorityResolutionRequest] *)
Definition valid_resolution_request (r : AuthorityResolutionRequest) : bool :=
  (2 <=? String.length (arq_actor r))%nat && (String.length (arq_actor r) <=? 150)%nat &&
  Str.hex_between 64 64 (arq_object_digest r) && (0 <=? arq_risk_level r) && (arq_risk_level r <=? 3).

Record DelegationCreate := mkDelegationCreate {
  dc_grantor_actor : string;
  dc_grantee_actor : string;
  dc_decision_types : list string;
  dc_scope : Json.dict;
  dc_max_risk : Z;
  dc_environment : string;
  dc_reason : string;
  dc_expires_at : datetime }.

Record ExceptionCreate := mkExceptionCreate {
  xc_rule_key : string;
  xc_requester : string;
  xc_independent_reviewer : string;
  xc_reason : string;
  xc_scope : Json.dict;
  xc_risk_level : Z;
  xc_compensating_controls : list string;
  xc_expires_at : datetime }.

Inductive exception_action := ApproveException | RejectException | CloseException.

(** ** The policy manifest *)

Section manifest.
Context (m : AuthorityPolicyManifest).

(** [identity_aliases.get(actor, actor)] *)
Definition alias (actor : string) : string :=
  match List.find (fun a => String.eqb a.1 actor) (apm_identity_aliases m) with
  | Some a => a.2
  | None => actor
  end.

Definition roles_for (actor : string) : list string :=
  omap (fun b => if str_in (alias actor) (rb_actors b) then Some (rb_role b) else None) (apm_roles m).

Definition principal_for (actor : option string) : option string :=
  match actor with
  | Some a => if Str.nonempty a then Some (alias a) else None
  | None => None
  end.

Definition decision_rule (decision_type : string) : option DecisionRight :=
  List.find (fun r => str_eqb (dr_decision_type r) decision_type) (apm_decisions m).

(** [getattr(request, separation.field)] *)
Definition participant (request : AuthorityResolutionRequest) (f : SeparationField) : option string :=
  match f with
  | FRequester => arq_requester request
  | FOriginator => arq_originator request
  | FEvaluator => arq_evaluator request
  end.

Definition fail_if (b : bool) (reason : string) : list string := if b then [reason] else [].

Definition overlaps (xs ys : list string) : bool := existsb (fun x => str_in x ys) xs.

Definition opt_str_eqb (a b : option string) : bool :=
  match a, b with
  | Some a, Some b => str_eqb a b
  | None, None => true
  | _, _ => false
  end.

(** the actor plays another part in the same decision *)
Definition separation_violated (rule : DecisionRight) (request : AuthorityResolutionRequest)
    (exception_rule : option string) (s : SeparationRule) : bool :=
  (sr_minimum_risk s <=? arq_risk_level request) &&
  opt_str_eqb (principal_for (participant request (sr_field s)))
              (principal_for (Some (arq_actor request))) &&
  (dr_constitutional rule || negb (opt_str_eqb exception_rule (Some (sr_rule_key s)))).

Definition active_vetoes (rule : DecisionRight) (request : AuthorityResolutionRequest) : list string :=
  sorted_set (List.filter (fun r => str_in r (dr_veto_roles rule)) (arq_active_veto_roles request)).

Definition rule_failures (rule : DecisionRight) (request : AuthorityResolutionRequest)
    (delegated : bool) (exception_rule : option string) : list string :=
  let vetoes := active_vetoes rule request in
  fail_if (negb (str_in (arq_action request) (dr_actions rule))) "action-not-authorized" ++
  fail_if (dr_maximum_risk rule <? arq_risk_level request) "risk-exceeds-authority" ++
  fail_if (negb (str_in "*" (dr_environments rule)) &&
           negb (str_in (arq_environment request) (dr_environments rule))) "environment-out-of-scope" ++
  fail_if (negb (overlaps (roles_for (arq_actor request)) (dr_accountable_roles rule)) && negb delegated)
    "actor-lacks-accountable-role" ++
  fail_if (negb (bool_decide (vetoes = []))) ("active-veto:" +:+ Str.join "," vetoes) ++
  ((fun s => "separation:" +:+ sr_rule_key s) <$>
    List.filter (separation_violated rule request exception_rule) (dr_separation rule)).

Definition pure_resolution (request : AuthorityResolutionRequest) (delegated conflict : bool)
    (exception_rule : option string) : bool * string * list string * list string :=
  let roles := sorted_set (roles_for (arq_actor request)) in
  let conflicts := fail_if conflict "conflicting-delegations" in
  match decision_rule (arq_decision_type request) with
  | None =>
      let failures := conflicts ++ ["decision-type-unregistered"] in
      (false, default "" (head failures), roles, failures)
  | Some rule =>
      let failures := conflicts ++ rule_failures rule request delegated exception_rule in
      (bool_decide (failures = []), default "authorized" (head failures), roles, failures)
  end.
End manifest.

(** ** Policy documents ([AuthorityPolicyManifest]) *)

(** ["^[a-z][a-z0-9-]{1,n}$"] *)
Definition key_within (n : nat) (s : string) : bool :=
  match Str.chars s with
  | [] => false
  | c :: l => Str.is_lower c && forallb (fun c => Str.is_lower_alnum c || Ascii.eqb c "-") l &&
              (1 <=? length l)%nat && (length l <=? n)%nat
  end.

Definition items_within {A} (low high : nat) (l : list A) : bool := (low <=? length l)%nat && (length l <=? high)%nat.

Definition valid_separation (r : SeparationRule) : bool :=
  (0 <=? sr_minimum_risk r) && (sr_minimum_risk r <=? 3) && key_within 119 (sr_rule_key r).

Definition valid_decision_right (r : DecisionRight) : bool :=
  key_within 99 (dr_decision_type r) && items_within 1 20 (dr_actions r) && items_within 1 20 (dr_accountable_roles r) &&
  items_within 0 20 (dr_veto_roles r) && (1 <=? length (dr_environments r))%nat && (0 <=? dr_maximum_risk r) &&
  (dr_maximum_risk r <=? 3) && forallb valid_separation (dr_separation r) && items_within 0 10 (dr_separation r).

(** [unique_keys] *)
Definition unique_keys (m : AuthorityPolicyManifest) : bool :=
  let known := rb_role <$> apm_roles m in
  bool_decide (NoDup known) && bool_decide (NoDup (dr_decision_type <$> apm_decisions m)) &&
  forallb (fun r => str_subset (dr_accountable_roles r ++ dr_veto_roles r) known) (apm_decisions m) &&
  str_subset (apm_identity_aliases m).*2 (mjoin (rb_actors <$> apm_roles m)).

Definition valid_policy_manifest (m : AuthorityPolicyManifest) : bool :=
  key_within 99 (apm_policy_key m) && Str.dotted_version (apm_version m) &&
  forallb (fun b => key_within 79 (rb_role b) && items_within 1 100 (rb_actors b)) (apm_roles m) &&
  items_within 1 100 (apm_roles m) && forallb valid_decision_right (apm_decisions m) && items_within 1 100 (apm_decisions m) &&
  items_within 1 100 (apm_constitutional_boundaries m) && unique_keys m.

Definition separation_field_str (f : SeparationField) : string :=
  match f with FRequester => "requester" | FOriginator => "originator" | FEvaluator => "evaluator" end.

Definition separation_json (r : SeparationRule) : json := JObj
  [("field", JStr (separation_field_str (sr_field r))); ("minimum_risk", JInt (sr_minimum_risk r));
   ("rule_key", JStr (sr_rule_key r))].

Definition decision_right_json (r : DecisionRight) : json := JObj
  [("decision_type", JStr (dr_decision_type r)); ("actions", Json.str_list (dr_actions r));
   ("accountable_roles", Json.str_list (dr_accountable_roles r)); ("veto_roles", Json.str_list (dr_veto_roles r));
   ("environments", Json.str_list (dr_environments r)); ("maximum_risk", JInt (dr_maximum_risk r));
   ("delegable", JBool (dr_delegable r)); ("constitutional", JBool (dr_constitutional r));
   ("separation", JList (separation_json <$> dr_separation r))].

(** [payload.manifest.model_dump(mode="json")] *)
Definition policy_manifest_json (m : AuthorityPolicyManifest) : json := JObj
  [("schema_version", JStr "authority-policy-v1.0.0"); ("policy_key", JStr (apm_policy_key m));
   ("version", JStr (apm_version m));
   ("roles", JList ((fun b => JObj [("role", JStr (rb_role b)); ("actors", Json.str_list (rb_actors b))]) <$> apm_roles m));
   ("identity_aliases", JObj (prod_map id JStr <$> apm_identity_aliases m));
   ("decisions", JList (decision_right_json <$> apm_decisions m));
   ("constitutional_boundaries", Json.str_list (apm_constitutional_boundaries m))].

(** ** The active policy *)

Definition policy_effective (now : datetime) (p : AuthorityPolicySnapshot) : bool :=
  str_eqb (aps_status p) "active" &&
  match aps_effective_from p with Some f => f <=? now | None => false end &&
  match aps_effective_until p with Some u => now <? u | None => true end.

Definition applicable_delegation (p : AuthorityPolicySnapshot) (request : AuthorityResolutionRequest)
    (now : datetime) (a : AuthorityDelegation) : bool :=
  bool_decide (ad_policy_id a = aps_id p) && str_eqb (ad_grantee_actor a) (arq_actor request) &&
  str_eqb (ad_status a) "active" && (now <? ad_expires_at a) &&
  str_in (arq_decision_type request) (ad_decision_types a) &&
  (arq_risk_level request <=? ad_max_risk a) &&
  (str_eqb (ad_environment a) "*" || str_eqb (ad_environment a) (arq_environment request)).

Definition exception_in_force (p : AuthorityPolicySnapshot) (now : datetime) (x : AuthorityException)
    : bool :=
  bool_decide (ax_policy_id x = aps_id p) && str_eqb (ax_status x) "approved" &&
  match ax_effective_from x with Some f => f <=? now | None => false end &&
  (now <? ax_expires_at x).

Section ops.
Context `{World}.

Definition active_policy (now : datetime) : Sess AuthorityPolicySnapshot :=
  policy ← select_one policies (policy_effective now);
  match policy with
  | None => http 409 "No active authority policy."
  | Some p => mret p
  end.

Definition activate_policy (policy : AuthorityPolicySnapshot) (actor : string) (now : datetime)
    : Sess unit :=
  if negb (str_in (aps_status policy) ["draft"; "retired"]) then
    http 409 "Policy cannot be activated from its current state."
  else
    current ← select_one policies (fun p => str_eqb (aps_status p) "active");
    _ ← match current with
        | None => mret tt
        | Some c =>
            _ ← alter_row policies (aps_id c) (fun p =>
                  p <| aps_status := "retired" |> <| aps_effective_until := Some now |>);
            alter_row policies (aps_id policy) (fun p => p <| aps_supersedes_id := Some (aps_id c) |>)
        end;
    alter_row policies (aps_id policy) (fun p =>
      p <| aps_status := "active" |> <| aps_effective_from := Some now |>
        <| aps_effective_until := None |> <| aps_activated_by := Some actor |>
        <| aps_activated_at := Some now |>).

(** ** Resolution *)

(** the single delegation that applies, or a conflict between several *)
Definition find_delegation (p : AuthorityPolicySnapshot) (request : AuthorityResolutionRequest)
    (now : datetime) : Sess (option AuthorityDelegation * bool) :=
  match decision_rule (aps_manifest p) (arq_decision_type request) with
  | Some rule =>
      if dr_delegable rule then
        applicable ← select_rows delegations (applicable_delegation p request now);
        mret (match applicable with [a] => Some a | _ => None end, (1 <? length applicable)%nat)
      else mret (None, false)
  | None => mret (None, false)
  end.

(** the exception the request names, when it is in force *)
Definition find_exception (p : AuthorityPolicySnapshot) (request : AuthorityResolutionRequest)
    (now : datetime) : Sess (option AuthorityException) :=
  match arq_exception_id request with
  | None => mret None
  | Some id =>
      x ← get_row exceptions id;
      mret match x with
           | Some x => if exception_in_force p now x then Some x else None
           | None => None
           end
  end.

Definition resolution_body (p : AuthorityPolicySnapshot) (r : AuthorityResolutionRequest)
    (roles : list string) (allowed : bool) (reason : string) (failures : list string)
    (delegation : option AuthorityDelegation) (exception : option AuthorityException)
    (now : datetime) : json := JObj
  [("policy_digest", JStr (aps_manifest_digest p));
   ("decision_type", JStr (arq_decision_type r));
   ("action", JStr (arq_action r));
   ("object_type", JStr (arq_object_type r));
   ("object_id", JStr (arq_object_id r));
   ("object_digest", JStr (arq_object_digest r));
   ("actor", JStr (arq_actor r));
   ("roles", Json.str_list roles);
   ("scope", JObj (arq_scope r));
   ("risk_level", JInt (arq_risk_level r));
   ("outcome", JStr (if allowed then "authorized" else "denied"));
   ("reason", JStr reason);
   ("failures", Json.str_list failures);
   ("delegation_id", Json.opt_uuid (ad_id <$> delegation));
   ("exception_id", Json.opt_uuid (ax_id <$> exception));
   ("resolved_at", JStr (isoformat now))].

Definition decision_record (id : uuid) (p : AuthorityPolicySnapshot) (r : AuthorityResolutionRequest)
    (roles : list string) (allowed : bool) (reason : string) (failures : list string)
    (delegation : option AuthorityDelegation) (exception : option AuthorityException)
    (now : datetime) : AuthorityDecisionRecord :=
  mkAuthorityDecisionRecord id (aps_id p) (arq_decision_type r) (arq_action r) (arq_object_type r)
    (arq_object_id r) (arq_object_digest r) (arq_actor r) roles (arq_scope r) (arq_risk_level r)
    (if allowed then "authorized" else "denied") reason
    [("failures", Json.str_list failures); ("policy_digest", JStr (aps_manifest_digest p))]
    (ad_id <$> delegation) (ax_id <$> exception)
    (digest (resolution_body p r roles allowed reason failures delegation exception now)) w_server_now.

(** a denial is committed before it is reported *)
Definition resolve_authority_at (now : datetime) (request : AuthorityResolutionRequest) : Sess AuthorityDecisionRecord :=
  policy ← active_policy now;
  found ← find_delegation policy request now;
  exception ← find_exception policy request now;
  let '(delegation, conflict) := found in
  let '(allowed, reason, roles, failures) :=
    pure_resolution (aps_manifest policy) request (match delegation with Some _ => true | None => false end)
      conflict (ax_rule_key <$> exception) in
  id ← fresh_id;
  let record := decision_record id policy request roles allowed reason failures delegation exception now in
  _ ← append_log decision_records record;
  if allowed : bool then mret record
  else
    _ ← commit;
    raise (HTTPException 403 (JObj
      [("reason", JStr reason); ("decision_record_id", JStr (uuid_str id))])).

(** without a [now] *)
Definition resolve_authority (request : AuthorityResolutionRequest) : Sess AuthorityDecisionRecord :=
  now ← utc_now;
  resolve_authority_at now request.

Definition task_approval_request (approval : TaskApproval) (actor action : string)
    (exception_id : option uuid) : AuthorityResolutionRequest :=
  mkAuthorityResolutionRequest actor "task-approval" action "task-approval"
    (uuid_str (ap_id approval)) (ap_plan_digest approval) (ap_scope approval) (ap_risk_level approval)
    (match Json.get "environment" (ap_scope approval) with Some (JStr e) => e | _ => "internal" end)
    (Some (ap_requested_by approval)) None None [] exception_id.

(** [scope["environment"]] must be a string *)
Definition valid_environment (scope : Json.dict) : bool :=
  match Json.get "environment" scope with Some (JStr _) | None => true | Some _ => false end.

Definition resolve_task_approval (approval : TaskApproval) (actor action : string)
    (exception_id : option uuid) : Sess AuthorityDecisionRecord :=
  let request := task_approval_request approval actor action exception_id in
  if valid_resolution_request request && valid_environment (ap_scope approval)
  then resolve_authority request
  else raise (PyException "ValidationError" "AuthorityResolutionRequest").

(** ** Delegations and exceptions *)

(** the first decision type the grantor may not delegate, if any *)
Fixpoint delegation_error (m : AuthorityPolicyManifest) (grantor : string) (max_risk : Z)
    (decision_types : list string) : option (Z * string) :=
  match decision_types with
  | [] => None
  | d :: ds =>
      match decision_rule m d with
      | None => Some (403, "Grantor cannot delegate " +:+ d +:+ ".")
      | Some rule =>
          if negb (dr_delegable rule) || negb (overlaps (roles_for m grantor) (dr_accountable_roles rule))
          then Some (403, "Grantor cannot delegate " +:+ d +:+ ".")
          else if dr_maximum_risk rule <? max_risk
          then Some (422, "Delegation exceeds the parent risk boundary.")
          else delegation_error m grantor max_risk ds
      end
  end.

Definition validate_delegation (p : DelegationCreate) : Sess unit :=
  now ← utc_now;
  policy ← active_policy now;
  if str_eqb (dc_grantor_actor p) (dc_grantee_actor p) then http 422 "Self-delegation is forbidden."
  else if (dc_expires_at p <=? now) || (now + MAX_DELEGATION <? dc_expires_at p) then
    http 422 "Delegation expiry is outside the bounded interval."
  else
    match delegation_error (aps_manifest policy) (dc_grantor_actor p) (dc_max_risk p)
            (dc_decision_types p) with
    | Some (code, detail) => http code detail
    | None => mret tt
    end.

Definition waivable_rules (m : AuthorityPolicyManifest) : list string :=
  concat ((fun r => sr_rule_key <$> dr_separation r) <$> apm_decisions m).

Definition validate_exception_request (m : AuthorityPolicyManifest) (p : ExceptionCreate) : Sess unit :=
  now ← utc_now;
  if str_eqb (xc_requester p) (xc_independent_reviewer p) then
    http 422 "Exception review must be independent."
  else if (xc_expires_at p <=? now) || (now + MAX_EXCEPTION <? xc_expires_at p) then
    http 422 "Exception expiry is outside the bounded interval."
  else if str_in (xc_rule_key p) (apm_constitutional_boundaries m) then
    http 422 "Constitutional boundaries cannot be excepted."
  else if negb (str_in (xc_rule_key p) (waivable_rules m)) then
    http 422 "Exception rule is not registered as waivable."
  else mret tt.

Definition expire_authority : Sess (Z * Z) :=
  now ← utc_now;
  expired_delegations ← select_rows delegations (fun a =>
    str_eqb (ad_status a) "active" && (ad_expires_at a <=? now));
  expired_exceptions ← select_rows exceptions (fun x =>
    str_eqb (ax_status x) "approved" && (ax_expires_at x <=? now));
  _ ← for_each expired_delegations (fun a =>
        alter_row delegations (ad_id a) (fun a => a <| ad_status := "expired" |>));
  _ ← for_each expired_exceptions (fun x =>
        alter_row exceptions (ax_id x) (fun x => x <| ax_status := "expired" |>
          <| ax_closed_at := Some now |> <| ax_terminal_disposition := Some "Expired automatically." |>));
  mret (Z.of_nat (length expired_delegations), Z.of_nat (length expired_exceptions)).

(** ** Endpoints of [routes/authority.py] *)

Definition policy_activation_request (p : AuthorityPolicySnapshot) (actor : string)
    : AuthorityResolutionRequest :=
  mkAuthorityResolutionRequest actor "policy-activation" "activate" "authority-policy"
    (uuid_str (aps_id p)) (aps_manifest_digest p)
    [("policy_key", JStr (aps_policy_key p)); ("version", JStr (aps_version p))] 3 "internal"
    (Some (aps_created_by p)) None None [] None.

Definition valid_policy_create (p : AuthorityPolicyCreate) : bool :=
  valid_policy_manifest (apc_manifest p) && Str.hex_between 64 64 (apc_manifest_digest p) &&
  (2 <=? String.length (apc_created_by p))%nat && (String.length (apc_created_by p) <=? 150)%nat.

Definition draft_policy (id : uuid) (p : AuthorityPolicyCreate) : AuthorityPolicySnapshot :=
  mkAuthorityPolicySnapshot id (apm_policy_key (apc_manifest p)) (apm_version (apc_manifest p)) "draft"
    (apc_manifest p) (apc_manifest_digest p) None None None None None (apc_created_by p) w_server_now.

(** a manifest that is already stored is returned as it is *)
Definition create_policy (p : AuthorityPolicyCreate) : Sess uuid :=
  if negb (valid_policy_create p) then raise (PyException "ValidationError" "AuthorityPolicyCreate")
  else if negb (str_eqb (digest (policy_manifest_json (apc_manifest p))) (apc_manifest_digest p)) then
    http 422 "Authority policy digest mismatch."
  else
    existing ← select_one policies (fun q => str_eqb (aps_manifest_digest q) (apc_manifest_digest p));
    match existing with
    | Some q => mret (aps_id q)
    | None =>
        (* unique policy_key and version *)
        clash ← select_one policies (fun q => str_eqb (aps_policy_key q) (apm_policy_key (apc_manifest p)) &&
                                              str_eqb (aps_version q) (apm_version (apc_manifest p)));
        match clash with
        | Some _ => integrity_error
        | None =>
            id ← fresh_id;
            _ ← insert_row policies id (draft_policy id p);
            _ ← commit;
            mret id
        end
    end.

(** [overview] expires what is overdue, unless no policy is active *)
Definition authority_overview : Sess (AuthorityPolicySnapshot * (Z * Z)) :=
  expired ← expire_authority;
  now ← utc_now;
  policy ← active_policy now;
  _ ← commit;
  mret (policy, expired).

Definition activate (policy_id : uuid) (actor : string) : Sess unit :=
  policy ← get_row policies policy_id;
  match policy with
  | None => http 404 "Authority policy not found."
  | Some p =>
      current ← select_one policies (fun p => str_eqb (aps_status p) "active");
      _ ← match current with
          | Some c =>
              if bool_decide (aps_id c = aps_id p) then mret tt
              else
                let request := policy_activation_request p actor in
                if valid_resolution_request request
                then _ ← resolve_authority request; mret tt
                else raise (PyException "ValidationError" "AuthorityResolutionRequest")
          | None => mret tt
          end;
      now ← utc_now;
      _ ← activate_policy p actor now;
      commit
  end.

Definition resolve_endpoint (request : AuthorityResolutionRequest) : Sess AuthorityDecisionRecord :=
  record ← resolve_authority request;
  _ ← commit;
  mret record.

Definition create_delegation (p : DelegationCreate) : Sess uuid :=
  now ← utc_now;
  policy ← active_policy now;
  _ ← validate_delegation p;
  id ← fresh_id;
  _ ← insert_row delegations id
        (mkAuthorityDelegation id (aps_id policy) (dc_grantor_actor p) (dc_grantee_actor p)
           (dc_decision_types p) (dc_scope p) (dc_max_risk p) (dc_environment p) (dc_reason p)
           "active" (dc_expires_at p) None w_server_now);
  _ ← commit;
  mret id.

Definition revoke_delegation (delegation_id : uuid) (actor : string) : Sess unit :=
  delegation ← get_row delegations delegation_id;
  match delegation with
  | None => http 404 "Delegation not found."
  | Some a =>
      if negb (str_eqb (ad_status a) "active") then http 409 "Delegation is not active."
      else
        permitted ←
          (if str_eqb actor (ad_grantor_actor a) then mret true
           else
             now ← utc_now;
             policy ← active_policy now;
             mret (str_in "governance" (roles_for (aps_manifest policy) actor)));
        if negb permitted then http 403 "Actor cannot revoke this delegation."
        else
          now ← utc_now;
          _ ← alter_row delegations delegation_id (fun a =>
                a <| ad_status := "revoked" |> <| ad_revoked_at := Some now |>);
          commit
  end.

Definition exception_json (p : ExceptionCreate) : Json.dict :=
  [("rule_key", JStr (xc_rule_key p));
   ("requester", JStr (xc_requester p));
   ("independent_reviewer", JStr (xc_independent_reviewer p));
   ("reason", JStr (xc_reason p));
   ("scope", JObj (xc_scope p));
   ("risk_level", JInt (xc_risk_level p));
   ("compensating_controls", Json.str_list (xc_compensating_controls p));
   ("expires_at", JStr (pydantic_datetime (xc_expires_at p)))].

Definition create_exception (p : ExceptionCreate) : Sess uuid :=
  now ← utc_now;
  policy ← active_policy now;
  let record_digest :=
    digest (JObj (("policy_digest", JStr (aps_manifest_digest policy)) :: exception_json p)) in
  _ ← validate_exception_request (aps_manifest policy) p;
  (* unique record_digest *)
  clash ← select_one exceptions (fun x => str_eqb (ax_record_digest x) record_digest);
  match clash with
  | Some _ => integrity_error
  | None =>
      id ← fresh_id;
      _ ← insert_row exceptions id
            (mkAuthorityException id (aps_id policy) (xc_rule_key p) (xc_requester p) None
               (xc_independent_reviewer p) (xc_reason p) (xc_scope p) (xc_risk_level p)
               (xc_compensating_controls p) "pending" None (xc_expires_at p) None None
               record_digest w_server_now);
      _ ← commit;
      mret id
  end.

Definition exception_decision (actor reason : string) (action : exception_action) (now : datetime)
    (x : AuthorityException) : AuthorityException :=
  match action with
  | ApproveException => x <| ax_status := "approved" |> <| ax_approver := Some actor |>
                          <| ax_effective_from := Some now |>
  | RejectException => x <| ax_status := "rejected" |> <| ax_approver := Some actor |>
                         <| ax_closed_at := Some now |> <| ax_terminal_disposition := Some reason |>
  | CloseException => x <| ax_status := "closed" |> <| ax_closed_at := Some now |>
                        <| ax_terminal_disposition := Some reason |>
  end.

Definition decide_exception (exception_id : uuid) (actor reason : string) (action : exception_action)
    : Sess unit :=
  exception ← get_row exceptions exception_id;
  match exception with
  | None => http 404 "Authority exception not found."
  | Some x =>
      if negb (str_in (ax_status x) ["pending"; "approved"]) then
        http 409 "Exception is already terminal."
      else
        now0 ← utc_now;
        policy ← active_policy now0;
        if negb (str_in "governance" (roles_for (aps_manifest policy) actor)) ||
           str_in actor [ax_requester x; ax_independent_reviewer x] then
          http 403 "Exception approval requires an independent governance authority."
        else
          now ← utc_now;
          _ ← alter_row exceptions exception_id (exception_decision actor reason action now);
          commit
  end.
End ops.
