(* ===== verification/ApprovalRoutes.v ===== *)
(** * Approval endpoints

    The decisions of [routes/governance.py]: an actor's authority is resolved
    against the active policy before the approval changes. *)
From S2P Require Import Prelude Py Sha256 Models Store Logic Security TaskCore Notifications Governance.
From S2P Require Import CoreInvariant GovernanceFacts Authority.

Open Scope Z_scope.

(** [ApprovalDecision] *)
Record ApprovalDecision := mkApprovalDecision {
  de_actor : string;
  de_reason : string;
  de_expires_in_seconds : Z;
  de_authority_exception_id : option uuid }.

Section ops.
Context `{World}.

Definition _approval (approval_id : uuid) : Sess TaskApproval :=
  approval ← get_row approvals approval_id;
  match approval with
  | None => http 404 "Approval not found."
  | Some a => mret a
  end.

(** [grant_approval] *)
Definition grant_endpoint (approval_id : uuid) (payload : ApprovalDecision) : Sess unit :=
  approval ← _approval approval_id;
  _ ← resolve_task_approval approval (de_actor payload) "approve" (de_authority_exception_id payload);
  _ ← approve_task approval_id (de_actor payload) (de_reason payload) (de_expires_in_seconds payload);
  commit.

Definition reject_or_revoke_approval (approval_id : uuid) (action : approval_action)
    (payload : ApprovalDecision) : Sess unit :=
  approval ← _approval approval_id;
  _ ← resolve_task_approval approval (de_actor payload) (action_str action)
        (de_authority_exception_id payload);
  _ ← decide_task approval_id (de_actor payload) (de_reason payload) action;
  commit.
End ops.

(** ** Authority decisions leave tasks and approvals alone *)
Section facts.
Context `{World}.

Lemma active_policy_frame {T} (π : database → T) now : preserves π (active_policy now).
Proof. unfold active_policy. frame. Qed.
#[local] Hint Resolve active_policy_frame : frame.

Lemma find_delegation_frame {T} (π : database → T) p r now : preserves π (find_delegation p r now).
Proof. unfold find_delegation. frame. Qed.
Lemma find_exception_frame {T} (π : database → T) p r now : preserves π (find_exception p r now).
Proof. unfold find_exception. frame. Qed.
#[local] Hint Resolve find_delegation_frame find_exception_frame : frame.

Lemma activate_policy_frame p a now : preserves core (activate_policy p a now).
Proof. unfold activate_policy. frame. Qed.
#[local] Hint Resolve activate_policy_frame : frame.

Lemma resolve_at_keeps now r : keeps (resolve_authority_at now r).
Proof. unfold resolve_authority_at. keeps. Qed.
#[local] Hint Resolve resolve_at_keeps : keeps.
Lemma resolve_authority_keeps r : keeps (resolve_authority r).
Proof. unfold resolve_authority. keeps. Qed.
#[local] Hint Resolve resolve_authority_keeps : keeps.

Lemma resolve_task_approval_keeps a actor action x : keeps (resolve_task_approval a actor action x).
Proof. unfold resolve_task_approval. keeps. Qed.
#[local] Hint Resolve resolve_task_approval_keeps : keeps.

Lemma grant_endpoint_keeps id p : keeps (grant_endpoint id p).
Proof. unfold grant_endpoint, _approval. keeps. Qed.

Lemma reject_or_revoke_keeps id a p : keeps (reject_or_revoke_approval id a p).
Proof. unfold reject_or_revoke_approval, _approval. keeps. Qed.

Lemma activate_keeps id a : keeps (activate id a).
Proof. unfold activate. keeps. Qed.
Lemma resolve_endpoint_keeps r : keeps (resolve_endpoint r).
Proof. unfold resolve_endpoint. keeps. Qed.
Lemma validate_delegation_frame {T} (π : database → T) p : preserves π (validate_delegation p).
Proof. unfold validate_delegation. frame. Qed.
Lemma validate_exception_frame {T} (π : database → T) m p : preserves π (validate_exception_request m p).
Proof. unfold validate_exception_request. frame. Qed.
#[local] Hint Resolve validate_delegation_frame validate_exception_frame : frame.
Lemma create_delegation_keeps p : keeps (create_delegation p).
Proof. unfold create_delegation. keeps. Qed.
Lemma revoke_delegation_keeps id a : keeps (revoke_delegation id a).
Proof. unfold revoke_delegation. keeps. Qed.
Lemma create_exception_keeps p : keeps (create_exception p).
Proof. unfold create_exception. keeps. Qed.
Lemma decide_exception_keeps id a r x : keeps (decide_exception id a r x).
Proof. unfold decide_exception. keeps. Qed.
Lemma expire_authority_keeps : keeps expire_authority.
Proof. unfold expire_authority. keeps. Qed.
#[local] Hint Resolve expire_authority_keeps : keeps.
Lemma authority_overview_keeps : keeps authority_overview.
Proof. unfold authority_overview. keeps. Qed.
Lemma create_policy_keeps p : keeps (create_policy p).
Proof. unfold create_policy. keeps. Qed.
End facts.
#[export] Hint Resolve active_policy_frame find_delegation_frame find_exception_frame
  validate_delegation_frame validate_exception_frame : frame.
#[export] Hint Resolve resolve_at_keeps resolve_authority_keeps resolve_task_approval_keeps grant_endpoint_keeps
  reject_or_revoke_keeps activate_keeps resolve_endpoint_keeps create_delegation_keeps
  revoke_delegation_keeps create_exception_keeps decide_exception_keeps expire_authority_keeps authority_overview_keeps
  create_policy_keeps : keeps.
