(* ===== verification/Endpoints.v ===== *)
(** * The operators' endpoints

    Agent governance, operator controls, evaluator routing and the founder's
    notifications: the handlers of [routes/agent_governance.py],
    [routes/controls.py], [routes/evaluator_routing.py] and
    [routes/founder_channel.py] that change state. *)
From S2P Require Import Prelude Py Sha256 Models Store Logic Security TaskCore Notifications Governance.
From S2P Require Import CoreInvariant GovernanceFacts AgentGovernance Controls EvaluatorRouting Tasks.

Open Scope Z_scope.

Section ops.
Context `{World}.

(** ** [routes/agent_governance.py] *)

Definition register (payload : AgentCharterCreate) : Sess uuid :=
  catch_integrity (create_charter payload) "Charter version or digest already exists.".

Definition activate_charter_endpoint (charter_id : uuid) (activated_by : string) : Sess unit :=
  charter ← get_row charters charter_id;
  match charter with
  | None => http 404 "Charter not found."
  | Some c => activate_charter c activated_by
  end.

Definition revoke_endpoint (grant_id : uuid) (revoked_by reason : string) : Sess unit :=
  grant ← get_row grants grant_id;
  match grant with
  | None => http 404 "Grant not found."
  | Some g => revoke_grant g revoked_by reason true
  end.

(** ** [routes/controls.py] *)

Definition _mutate (scope_type scope_key reason actor : string) (paused : bool) : Sess unit :=
  let scope_key := if str_eqb scope_type "global" then GLOBAL_SCOPE_KEY else scope_key in
  _ ← set_control_scope scope_type scope_key paused reason actor;
  commit.

(** ** [routes/evaluator_routing.py] *)

Definition create_profile (payload : EvaluatorProfileCreate) : Sess uuid :=
  catch_integrity (id ← register_profile payload; _ ← commit; mret id)
    "Evaluator profile version or digest already exists.".

Definition route (payload : EvaluationRouteCreate) : Sess uuid :=
  catch_integrity (id ← create_route payload; _ ← commit; mret id)
    "This exact evaluation route already exists.".

Definition finish_assignment (route_id assignment_id : uuid) (payload : EvaluatorAssignmentComplete)
    : Sess unit :=
  record ← get_row routes route_id;
  assignment ← get_row assignments assignment_id;
  match record, assignment with
  | Some record, Some assignment =>
      if negb (bool_decide (ea_route_id assignment = route_id)) then
        http 404 "Evaluation route or assignment not found."
      else
        _ ← complete_assignment record assignment payload;
        commit
  | _, _ => http 404 "Evaluation route or assignment not found."
  end.

(** ** [routes/founder_channel.py] *)

Definition list_notifications : Sess (list FounderNotification) :=
  values ← reconcile_founder_notifications;
  _ ← commit;
  mret values.

Definition acknowledge_founder_notification (id : uuid) (delivery_reference : string) : Sess unit :=
  notification ← get_row notifications id;
  match notification with
  | None => http 404 "Notification not found."
  | Some n =>
      _ ← acknowledge_notification n delivery_reference;
      commit
  end.
End ops.

(** ** None of them touches a task or an approval *)
Section facts.
Context `{World}.

Lemma grant_event_frame {T} (π : database → T) g e a p :
  (∀ v d, π (set_field grant_events v d) = π d) → preserves π (_event g e a p).
Proof. intros Hπ. unfold _event. frame. apply preserves_append_log, Hπ. Qed.
#[local] Hint Resolve grant_event_frame : frame.

Lemma create_charter_keeps p : keeps (create_charter p).
Proof. unfold create_charter. keeps. Qed.
Lemma revoke_grant_keeps g a r b : keeps (revoke_grant g a r b).
Proof. unfold revoke_grant. keeps. Qed.
#[local] Hint Resolve create_charter_keeps revoke_grant_keeps : keeps.
Lemma activate_charter_keeps c a : keeps (activate_charter c a).
Proof. unfold activate_charter. keeps. Qed.
Lemma create_grant_keeps p : keeps (create_grant p).
Proof. unfold create_grant. keeps. Qed.
#[local] Hint Resolve activate_charter_keeps : keeps.

Lemma register_keeps p : keeps (register p).
Proof. unfold register. keeps. Qed.
Lemma activate_charter_endpoint_keeps id a : keeps (activate_charter_endpoint id a).
Proof. unfold activate_charter_endpoint. keeps. Qed.
Lemma revoke_endpoint_keeps id a r : keeps (revoke_endpoint id a r).
Proof. unfold revoke_endpoint. keeps. Qed.

Lemma set_control_scope_frame t k p r a : preserves core (set_control_scope t k p r a).
Proof. unfold set_control_scope. frame. Qed.
#[local] Hint Resolve set_control_scope_frame : frame.
Lemma mutate_keeps t k r a p : keeps (_mutate t k r a p).
Proof. unfold _mutate. keeps. Qed.

Lemma register_profile_frame p : preserves core (register_profile p).
Proof. unfold register_profile, http. frame. Qed.
Lemma assign_route_frame r p l : preserves core (_assign_route r p l).
Proof. unfold _assign_route, assign_reviewer. frame. Qed.
#[local] Hint Resolve assign_route_frame : frame.
Lemma create_route_frame p : preserves core (create_route p).
Proof. unfold create_route, http. frame. Qed.
Lemma complete_assignment_core r a p : preserves core (complete_assignment r a p).
Proof. unfold complete_assignment, _issue_receipt, required_review, attested_entry, http. frame. Qed.
#[local] Hint Resolve register_profile_frame create_route_frame complete_assignment_core : frame.

Lemma create_profile_keeps p : keeps (create_profile p).
Proof. unfold create_profile. keeps. Qed.
Lemma route_keeps p : keeps (route p).
Proof. unfold route. keeps. Qed.
Lemma finish_assignment_keeps r a p : keeps (finish_assignment r a p).
Proof. unfold finish_assignment. keeps. Qed.

Lemma list_notifications_keeps : keeps list_notifications.
Proof. unfold list_notifications. keeps. Qed.
Lemma acknowledge_keeps id r : keeps (acknowledge_founder_notification id r).
Proof. unfold acknowledge_founder_notification. keeps. Qed.
End facts.
#[export] Hint Resolve create_grant_keeps register_keeps activate_charter_endpoint_keeps
  revoke_endpoint_keeps mutate_keeps create_profile_keeps route_keeps finish_assignment_keeps
  list_notifications_keeps acknowledge_keeps : keeps.
