(* ===== verification/System.v ===== *)
(** * The control plane as a transition system

    A request is one of the modelled endpoints with its arguments; [handle] runs
    it as a transaction.  The handlers that do not touch tasks or approvals (agent
    registration, package deployment, ingestion, ...) are the [environment] step,
    which may do anything to the other tables; the header of Prelude.v lists the
    handlers that do touch them and are outside of this system. *)
From S2P Require Import Prelude Py Sha256 Models Store Logic Security TaskCore Notifications Governance.
From S2P Require Import CoreInvariant GovernanceFacts AgentGovernance Controls EvaluatorRouting Tasks.
From S2P Require Import TasksFacts Dag Missions AgentContext TaskGraphs Conversations TaskRuntime Supervision.
From S2P Require Import RuntimeFacts Authority ApprovalRoutes Endpoints.
From S2P Require Import ProposalSchema FounderConversations Proposals FounderFacts.

Open Scope Z_scope.

Inductive call :=
| CreateTask (payload : TaskCreate)
| ReapTaskLeases
| RearmApproval (task_id : uuid) (requested_by reason : string)
| ResumeTask (task_id : uuid) (requested_by reason : string) (diagnostic : Json.dict)
| LeaseTask (agent : Agent) (lease_seconds : Z)
| StartTask (task_id : uuid) (agent : Agent) (token message : string)
| HeartbeatTask (task_id : uuid) (agent : Agent) (token : string) (lease_seconds : Z)
    (message : string) (progress : Json.dict)
| CompleteTask (task_id : uuid) (agent : Agent) (token message : string) (result : Json.dict)
| FailTask (task_id : uuid) (agent : Agent) (token message : string) (failure : Json.dict)
    (retryable : bool)
| ReleaseTask (task_id : uuid) (agent : Agent) (token message : string)
| GrantApproval (approval_id : uuid) (payload : ApprovalDecision)
| DecideApproval (approval_id : uuid) (action : approval_action) (payload : ApprovalDecision)
| SubmitMission (secret : string) (m : MissionManifest) (created_by signature : string)
| GetMission (mission_id : uuid)
| ApproveSupervision (mission_id : uuid) (actor reason : string)
| AbortSupervision (mission_id : uuid) (actor reason : string)
| ReconcileMission (mission_id : uuid)
| CreateGraph (payload : TaskGraphCreate)
| ActivateGraph (graph_id : uuid) (actor : string)
| GraphMessage (graph_id : uuid) (payload : TaskGraphMessageCreate)
| CancelGraph (graph_id : uuid) (actor reason : string)
| ReconcileGraph (graph_id : uuid)
| CreatePolicy (payload : AuthorityPolicyCreate)
| AuthorityOverview
| ActivatePolicy (policy_id : uuid) (actor : string)
| ResolveAuthority (request : AuthorityResolutionRequest)
| CreateDelegation (payload : DelegationCreate)
| RevokeDelegation (delegation_id : uuid) (actor : string)
| CreateException (payload : ExceptionCreate)
| DecideException (exception_id : uuid) (actor reason : string) (action : exception_action)
| RegisterCharter (payload : AgentCharterCreate)
| ActivateCharter (charter_id : uuid) (activated_by : string)
| CreateGrant (payload : AgentCapabilityGrantCreate)
| RevokeGrant (grant_id : uuid) (revoked_by reason : string)
| MutateScope (scope_type scope_key reason actor : string) (paused : bool)
| RegisterProfile (payload : EvaluatorProfileCreate)
| RouteEvaluation (payload : EvaluationRouteCreate)
| FinishAssignment (route_id assignment_id : uuid) (payload : EvaluatorAssignmentComplete)
| ListNotifications
| AcknowledgeNotification (id : uuid) (delivery_reference : string)
| NewConversation (payload : ConversationCreate)
| AddTurn (conversation_id : uuid) (payload : ConversationTurnCreate)
| TransitionConversation (conversation_id : uuid) (payload : ConversationTransition)
| SubmitProposal (task_id : uuid) (payload : FounderProposalCreate) (agent : Agent)
| MaterializeProposal (proposal_id : uuid) (payload : FounderProposalDecision)
| RejectProposal (proposal_id : uuid) (payload : FounderProposalDecision)
| FounderRequest (payload : FounderChannelRequest)
| DecideProposal (proposal_id : uuid) (action : string) (payload : FounderChannelDecision).

(** the response of a handler, whatever its type *)
Definition respond {A} (m : Sess A) (d : database) : option exn * database :=
  match request m d with
  | (Ok _, d') => (None, d')
  | (Err e, d') => (Some e, d')
  end.

(** the error a call answers with, if any, and the rows it leaves committed *)
Definition handle `{World} (c : call) : database → option exn * database :=
  match c with
  | CreateTask p => respond (create_task p)
  | ReapTaskLeases => respond reap_task_leases
  | RearmApproval t b r => respond (rearm_expired_task_approval t b r)
  | ResumeTask t b r d => respond (resume_failed_task t b r d)
  | LeaseTask a n => respond (lease_task a n)
  | StartTask t a k m => respond (start_task t a k m)
  | HeartbeatTask t a k n m p => respond (heartbeat_task t a k n m p)
  | CompleteTask t a k m r => respond (complete_task t a k m r)
  | FailTask t a k m f r => respond (fail_task t a k m f r)
  | ReleaseTask t a k m => respond (release_task t a k m)
  | GrantApproval i p => respond (grant_endpoint i p)
  | DecideApproval i x p => respond (reject_or_revoke_approval i x p)
  | SubmitMission s m c g => respond (submit_mission s m c g)
  | GetMission m => respond (get_mission m)
  | ApproveSupervision m a r => respond (approve_mission_supervision m a r)
  | AbortSupervision m a r => respond (abort_mission_supervision m a r)
  | ReconcileMission m => respond (reconcile_mission_supervision m)
  | CreateGraph p => respond (create_graph_endpoint p)
  | ActivateGraph g a => respond (activate_endpoint g a)
  | GraphMessage g p => respond (message_endpoint g p)
  | CancelGraph g a r => respond (cancel_endpoint g a r)
  | ReconcileGraph g => respond (reconcile_endpoint g)
  | CreatePolicy p => respond (create_policy p)
  | AuthorityOverview => respond authority_overview
  | ActivatePolicy p a => respond (activate p a)
  | ResolveAuthority r => respond (resolve_endpoint r)
  | CreateDelegation p => respond (create_delegation p)
  | RevokeDelegation i a => respond (revoke_delegation i a)
  | CreateException p => respond (create_exception p)
  | DecideException i a r x => respond (decide_exception i a r x)
  | RegisterCharter p => respond (register p)
  | ActivateCharter i a => respond (activate_charter_endpoint i a)
  | CreateGrant p => respond (create_grant p)
  | RevokeGrant i b r => respond (revoke_endpoint i b r)
  | MutateScope t k r a p => respond (_mutate t k r a p)
  | RegisterProfile p => respond (create_profile p)
  | RouteEvaluation p => respond (route p)
  | FinishAssignment r a p => respond (finish_assignment r a p)
  | ListNotifications => respond list_notifications
  | AcknowledgeNotification i r => respond (acknowledge_founder_notification i r)
  | NewConversation p => respond (new_conversation p)
  | AddTurn i p => respond (add_turn i p)
  | TransitionConversation i p => respond (transition_endpoint i p)
  | SubmitProposal t p a => respond (submit_proposal t p a)
  | MaterializeProposal i p => respond (approve_and_materialize i p)
  | RejectProposal i p => respond (reject_endpoint i p)
  | FounderRequest p => respond (create_request p)
  | DecideProposal i a p => respond (decide_proposal i a p)
  end.

(** requests handled one after the other, each with what it observed *)
Fixpoint run (l : list (World * call)) (d : database) : database :=
  match l with
  | [] => d
  | (w, c) :: l' => run l' (@handle w c d).2
  end.

Inductive step : database → database → Prop :=
| handled (w : World) c d : step d (@handle w c d).2
| environment d d' : core d' = core d → step d d'.

(** a control plane before its first task *)
Definition initial (d : database) : Prop := tasks d = ∅ ∧ approvals d = ∅.

Definition reachable (d : database) : Prop := ∃ d0, initial d0 ∧ rtc step d0 d.

(** ** Every reachable database is safe *)
Section facts.
Context `{World}.

Lemma respond_keeps {A} (m : Sess A) d : keeps m → safe d → safe (respond m d).2.
Proof.
  intros Hm Hd. pose proof (keeps_request m d Hm Hd) as Hr. unfold respond.
  by destruct (request m d) as [[a|e] d'].
Qed.

Lemma valid_manifest_attempts m : valid_manifest m = true → attempts_positive m.
Proof.
  destruct m as [m|m]; cbn; unfold valid_budget, valid_infrastructure_budget, within; intros; lia.
Qed.

Lemma submit_mission_keeps s m c g : keeps (submit_mission s m c g).
Proof.
  unfold submit_mission, verify_mission_approval, validation_error.
  destruct (valid_manifest m) eqn:Hv; cbn; [|keeps]. apply keeps_bind; [keeps|intros _].
  apply keeps_catch, keeps_bind; [|intros ?; keeps]. by apply create_mission_keeps, valid_manifest_attempts.
Qed.

Lemma get_mission_keeps m : keeps (get_mission m).
Proof. unfold get_mission. keeps. Qed.

Lemma lock_mission_frame {T} (π : database → T) m : preserves π (lock_mission m).
Proof. unfold lock_mission. frame. Qed.
#[local] Hint Resolve lock_mission_frame approve_supervision_frame : frame.
#[local] Hint Resolve abort_supervision_keeps reconcile_mission_keeps : keeps.

Lemma approve_mission_keeps m a r : keeps (approve_mission_supervision m a r).
Proof. unfold approve_mission_supervision. keeps. Qed.
Lemma abort_mission_keeps m a r : keeps (abort_mission_supervision m a r).
Proof. unfold abort_mission_supervision. keeps. Qed.
Lemma reconcile_supervision_keeps m : keeps (reconcile_mission_supervision m).
Proof. unfold reconcile_mission_supervision. keeps. Qed.

Lemma locked_frame {T} (π : database → T) g : preserves π (locked g).
Proof. unfold locked. frame. Qed.
#[local] Hint Resolve locked_frame : frame.
#[local] Hint Resolve activate_graph_keeps cancel_graph_keeps reconcile_graph_keeps : keeps.

Lemma create_graph_endpoint_keeps p : keeps (create_graph_endpoint p).
Proof. unfold create_graph_endpoint, validation_error. keeps. Qed.
Lemma activate_endpoint_keeps g a : keeps (activate_endpoint g a).
Proof. unfold activate_endpoint. keeps. Qed.
Lemma message_endpoint_keeps g p : keeps (message_endpoint g p).
Proof. unfold message_endpoint, validation_error. keeps. Qed.
Lemma cancel_endpoint_keeps g a r : keeps (cancel_endpoint g a r).
Proof. unfold cancel_endpoint. keeps. Qed.
Lemma reconcile_endpoint_keeps g : keeps (reconcile_endpoint g).
Proof. unfold reconcile_endpoint. keeps. Qed.
Lemma reap_task_leases_keeps : keeps reap_task_leases.
Proof. unfold reap_task_leases. keeps. Qed.
End facts.

#[export] Hint Resolve create_task_keeps rearm_endpoint_keeps resume_failed_task_keeps
  lease_task_keeps start_task_keeps heartbeat_task_keeps complete_task_keeps fail_task_keeps
  release_task_keeps submit_mission_keeps get_mission_keeps approve_mission_keeps
  abort_mission_keeps reconcile_supervision_keeps create_graph_endpoint_keeps
  activate_endpoint_keeps message_endpoint_keeps cancel_endpoint_keeps reconcile_endpoint_keeps
  reap_task_leases_keeps : keeps.

Lemma handle_safe `{World} c d : safe d → safe (handle c d).2.
Proof. intros Hd. destruct c; apply respond_keeps; auto with keeps. Qed.

Lemma step_safe d d' : step d d' → safe d → safe d'.
Proof. intros [w c ? | ? ? Hc] Hd; [by apply handle_safe|]. unfold safe. by rewrite Hc. Qed.

Lemma initial_safe d : initial d → safe d.
Proof. intros [Ht Ha]. unfold safe, core. rewrite Ht, Ha. apply core_inv_empty. Qed.

Lemma reachable_inv d : reachable d → safe d.
Proof.
  intros (d0 & H0 & Hsteps). apply initial_safe in H0.
  induction Hsteps; eauto using step_safe.
Qed.

Lemma run_reachable l d : initial d → reachable (run l d).
Proof.
  intros Hd. exists d. split; [done|]. clear Hd. revert d.
  induction l as [|[w c] l IH]; intros d; cbn; [done|].
  eapply rtc_l; [apply (handled w c)|apply IH].
Qed.
