(* ===== verification/Demo.v ===== *)
(** * A small control plane

    One agent with a charter, a package and a grant, under an active policy that
    lets the founder decide task approvals: the concrete input of the
    development's examples. *)
From S2P Require Import Prelude Py Sha256 Models Store Logic Security TaskCore Notifications Governance.
From S2P Require Import CoreInvariant GovernanceFacts AgentGovernance Controls EvaluatorRouting Tasks Dag.
From S2P Require Import Missions TaskGraphs TaskRuntime Supervision Authority ApprovalRoutes Endpoints System.

Open Scope Z_scope.

(** requests at second [t] of the day 2026-01-01 *)
Definition at_time (t : Z) : World := {|
  w_now := fun n => 1767225600000000 + seconds t + Z.of_nat n;
  w_server_now := 1767225600000000 + seconds t;
  w_token_hex := fun n => "0123456789abcdef";
  w_token_urlsafe := fun n => "c2VjcmV0";
  w_locked := fun _ => false;
  agent_token_secret := "pepper";
  w_search := fun _ => Err (HTTPException 409 (JStr "Retrieval projection is stale and must be rebuilt.")) |}.

Definition epoch : datetime := 1767225600000000.

Definition worker : Agent :=
  mkAgent 1 "vm1-worker" "Worker" "engineer" "vm1" "default" (Some "hermes") (Some "1.0") "online"
    ["code"] [] 3 true None epoch epoch.

Definition worker_charter : AgentCharter :=
  mkAgentCharter 2 1 "1.0.0"
    (mkAgentCharterManifest "engineer" ["build"] ["code"] ["vm1"] ["change"] ["repo"] 3 "founder" [] [])
    "charter-digest" "active" "founder" epoch (Some "founder") (Some epoch) None.

Definition worker_package : RolePackage :=
  mkRolePackage 3 "engineer" "1.0.0"
    (mkRolePackageManifest "engineer" "1.0.0" "engineer" ["change"] [] [] ["code"] ["vm1"] 3
       (mkCompatibilitySpec "1.0.0" "2.0.0") (mkPermissionProfile "default" "none" false [])
       (mkRepositoryProfile ["repo"] false false))
    "package-digest" "signature" "repo" "commit" "founder" epoch.

Definition worker_deployment : PackageDeployment :=
  mkPackageDeployment 4 1 3 true "founder" epoch None.

Definition worker_grant : AgentCapabilityGrant :=
  mkAgentCapabilityGrant 5 1 2 3 "code" "vm1" ["change"] ["repo"] 3 "founder" "active" "founder"
    "work" (epoch + days 30) None None None "grant-digest" epoch.

Definition founder_policy : AuthorityPolicySnapshot :=
  mkAuthorityPolicySnapshot 6 "core" "1.0.0" "active"
    (mkAuthorityPolicyManifest "core" "1.0.0"
       [mkRoleBinding "founder" ["founder"]; mkRoleBinding "governance" ["founder"; "auditor"]]
       [("founder-phone", "founder")]
       [mkDecisionRight "task-approval" ["approve"; "reject"; "revoke"] ["founder"] [] ["*"] 3 true
          false [mkSeparationRule FRequester 1 "no-self-approval"]]
       ["no-live-trading"])
    "policy-digest" (Some epoch) None (Some "founder") (Some epoch) None "founder" epoch.

Definition demo_db : database :=
  empty_db <| agents := {[ 1%N := worker ]} |>
           <| charters := {[ 2%N := worker_charter ]} |>
           <| packages := {[ 3%N := worker_package ]} |>
           <| deployments := {[ 4%N := worker_deployment ]} |>
           <| grants := {[ 5%N := worker_grant ]} |>
           <| policies := {[ 6%N := founder_policy ]} |>
           <| next_id := 10%N |>.

(** a change of risk 2, which needs approval *)
Definition demo_task : TaskCreate :=
  mkTaskCreate "T-1" "repo" "change" "Change" "Change the code" 50 2 None "planner" [] (JList [])
    (JList []) [] false ["code"] ["vm1"] 2.

(** the task is row 10 and its approval row 11 *)
Definition task_id : uuid := 10%N.
Definition approval_id : uuid := 11%N.

Definition decision : ApprovalDecision := mkApprovalDecision "founder" "Plan reviewed." 3600 None.

Definition lease_token : string := "swarm_lt_0123456789abcdef_c2VjcmV0".

Definition created : list (World * call) := [(at_time 1, CreateTask demo_task)].
Definition approved : list (World * call) := created ++ [(at_time 2, GrantApproval approval_id decision)].
Definition leased : list (World * call) := approved ++ [(at_time 3, LeaseTask worker 600)].
Definition running : list (World * call) :=
  leased ++ [(at_time 4, StartTask task_id worker lease_token "started")].
Definition completed : list (World * call) :=
  running ++ [(at_time 5, CompleteTask task_id worker lease_token "done" [("ok", JBool true)])].

Definition status_after (l : list (World * call)) : option (TaskStatus * option ApprovalStatus) :=
  let d := run l demo_db in
  t ← tasks d !! task_id; Some (t_status t, ap_status <$> approvals d !! approval_id).

Example created_status : status_after created = Some (PendingApproval, Some ApPending).
Proof. vm_compute. reflexivity. Qed.
Example approved_status : status_after approved = Some (Queued, Some ApApproved).
Proof. vm_compute. reflexivity. Qed.
Example leased_status : status_after leased = Some (Leased, Some ApConsumed).
Proof. vm_compute. reflexivity. Qed.
Example running_status : status_after running = Some (Running, Some ApConsumed).
Proof. vm_compute. reflexivity. Qed.
Example completed_status : status_after completed = Some (Succeeded, Some ApConsumed).
Proof. vm_compute. reflexivity. Qed.

Lemma demo_initial : initial demo_db.
Proof. by split. Qed.

(** ** A graph with one node of risk 2 *)

Definition demo_spec (risk : Z) : GraphTaskSpec :=
  mkGraphTaskSpec "change" "Node" "Do the node" [] ["out"] ["ok"] ["code"] ["vm1"] 1 risk.

Definition demo_node (key : string) (deps : list string) (risk : Z) (compensation : option GraphTaskSpec)
    : TaskGraphNodeCreate :=
  mkTaskGraphNodeCreate key "engineer" "work" deps "task.input" "task.output" (demo_spec risk) ["done"]
    compensation.

Definition demo_graph (nodes : list TaskGraphNodeCreate) : TaskGraphCreate :=
  mkTaskGraphCreate "G" "repo" "Graph" "planner" 8 16 3600 2 nodes.

(** graph 10, its node 11; activation creates task 12 and its approval 13 *)
Definition graph_id : uuid := 10%N.
Definition activated (nodes : list TaskGraphNodeCreate) : list (World * call) :=
  [(at_time 1, CreateGraph (demo_graph nodes)); (at_time 2, ActivateGraph graph_id "founder")].
