(* ===== verification/SystemTheorems.v ===== *)
(** * What holds in every reachable state

    Rule induction over the transition system of [System]: approval-gated work
    never runs unapproved, task rows stay well formed, and a lease is only given
    to an agent whose authority covers the whole task. *)
From S2P Require Import Prelude Py Sha256 Models Store Logic Security TaskCore Notifications Governance.
From S2P Require Import CoreInvariant GovernanceFacts AgentGovernance Controls EvaluatorRouting Tasks.
From S2P Require Import TasksFacts Dag Missions TaskGraphs TaskRuntime Supervision Authority ApprovalRoutes.
From S2P Require Import Endpoints System Demo.

Open Scope Z_scope.

(** C1. In every reachable state, a task that requires approval and is leased or
    running is gated by exactly one approval, issued for the task's own plan
    digest, and that approval has been consumed. *)
Theorem gated_work_is_approved d id t :
  reachable d → tasks d !! id = Some t → t_approval_required t = true → active t →
  ∃ aid a, approvals d !! aid = Some a ∧ gates a t ∧ ap_status a = ApConsumed ∧
    ∀ aid' a', approvals d !! aid' = Some a' → ap_task_id a' = id → aid' = aid.
Proof.
  intros Hr Ht Hreq Hact. pose proof (reachable_inv d Hr) as Hs.
  destruct (ci_gated _ _ Hs _ _ Ht Hreq) as (aid & a & Ha & E). cbn in Ha.
  pose proof (ci_task_id _ _ Hs _ _ Ht) as Eid. cbn in Eid.
  exists aid, a. split; [done|]. split.
  { destruct (ci_gates _ _ Hs _ _ Ha) as (t' & Ht' & Hg). cbn in Ht'. rewrite E, Ht in Ht'. by injection Ht' as ->. }
  split.
  { apply (safe_active_consumed d id t Hs Ht Hact aid a Ha). congruence. }
  intros aid' a' Ha' E'. eapply (ci_unique _ _ Hs); [exact Ha'|exact Ha|congruence].
Qed.

Lemma gated_work_is_approved_witness :
  ∃ t, tasks (run leased demo_db) !! task_id = Some t ∧ active t ∧
    ∃ aid a, approvals (run leased demo_db) !! aid = Some a ∧ gates a t ∧ ap_status a = ApConsumed ∧
      ∀ aid' a', approvals (run leased demo_db) !! aid' = Some a' → ap_task_id a' = task_id → aid' = aid.
Proof.
  destruct (tasks (run leased demo_db) !! task_id) as [t|] eqn:Ht; [|vm_compute in Ht; discriminate].
  assert (Hreq : t_approval_required t = true).
  { vm_compute in Ht. injection Ht as <-. reflexivity. }
  assert (Hact : active t).
  { left. vm_compute in Ht. injection Ht as <-. reflexivity. }
  exists t. split; [reflexivity|]. split; [exact Hact|].
  exact (gated_work_is_approved _ task_id t (run_reachable leased demo_db demo_initial) Ht Hreq Hact).
Defined.

(** C3. In every reachable state, every task has made between zero and
    [max_attempts] attempts, and its six lease columns are all set while it is
    leased or running (with at least one attempt made) and all empty otherwise. *)
Theorem task_rows_well_formed d id t :
  reachable d → tasks d !! id = Some t →
  t_id t = id ∧ 1 ≤ t_max_attempts t ∧ 0 ≤ t_attempt_count t ≤ t_max_attempts t ∧
  (active t → lease_held t) ∧ (¬ active t → lease_clear t).
Proof.
  intros Hr Ht. pose proof (reachable_inv d Hr) as Hs.
  destruct (safe_wf d id t Hs Ht) as [Hatt Hmax Hheld Hclear].
  split; [exact (ci_task_id _ _ Hs _ _ Ht)|]. auto.
Qed.

Lemma task_rows_well_formed_witness :
  ∃ t, tasks (run completed demo_db) !! task_id = Some t ∧
    t_id t = task_id ∧ 1 ≤ t_max_attempts t ∧ 0 ≤ t_attempt_count t ≤ t_max_attempts t ∧
    (active t → lease_held t) ∧ (¬ active t → lease_clear t).
Proof.
  destruct (tasks (run completed demo_db) !! task_id) as [t|] eqn:Ht; [|vm_compute in Ht; discriminate].
  exists t. split; [reflexivity|].
  exact (task_rows_well_formed _ task_id t (run_reachable completed demo_db demo_initial) Ht).
Defined.

(** C2. When [lease_next_task] hands out a task, that task was eligible once lapsed
    approvals were expired: queued with an attempt left, of a risk and with
    capabilities within the agent's registration, approved for its own plan until
    later than now if it needs approval, with every task it depends on succeeded, its
    graph active and with fewer tasks at work than its parallelism, its mission active
    and in time, reserved for this reviewer if it is a review, and open to the agent's
    machine.  No paused workflow covered it; the agent's effective authority allowed
    every capability it requires; its approvals are now all consumed; and the row is
    exactly the leased row. *)
Theorem lease_grants_only_authorized_work `{World} agent lease_seconds s id token prior s' :
  safe (saved s) → safe (db s) →
  lease_next_task agent lease_seconds s = (Ok (Some (id, token, prior)), s') →
  ∃ n s1, expire_approvals (w_now (clock s)) (s <| clock := S (clock s) |>) = (Ok n, s1) ∧
    lease_granted (db s) (db s1) (db s') agent (w_now (clock s)) lease_seconds id token prior.
Proof.
  intros Hs Hd E. pose proof (wp_lease_next_task agent lease_seconds s Hs Hd) as Hwp.
  unfold wp in Hwp. rewrite E in Hwp. apply Hwp.
Qed.

Lemma lease_grants_only_authorized_work_witness :
  let s := open_session (run approved demo_db) in
  ∃ s', @lease_next_task (at_time 3) worker 600 s = (Ok (Some (task_id, lease_token, [])), s') ∧
  ∃ n s1, @expire_approvals (at_time 3) (@w_now (at_time 3) 0) (s <| clock := 1%nat |>) = (Ok n, s1) ∧
    @lease_granted (at_time 3) (db s) (db s1) (db s') worker (@w_now (at_time 3) 0) 600 task_id
      lease_token [].
Proof.
  intros s. assert (Hsafe : safe (run approved demo_db))
    by (apply reachable_inv, run_reachable, demo_initial).
  assert (E : ∃ s', @lease_next_task (at_time 3) worker 600 s =
    (Ok (Some (task_id, lease_token, [])), s')) by (eexists; vm_compute; reflexivity).
  destruct E as [s' E]. exists s'. split; [exact E|].
  exact (@lease_grants_only_authorized_work (at_time 3) worker 600 s task_id lease_token [] s'
    Hsafe Hsafe E).
Defined.

(** ** A task that no agent can be authorised for *)

(** A candidate whose task type is not a safe name makes the whole selection
    raise, whatever follows it in the queue: the authority request is validated
    before it is resolved, while a task may carry any task type. *)
Theorem poison_candidate_raises `{World} ws agent now c rest s capability capabilities repository :
  unpaused ws c → t_required_capabilities c = capability :: capabilities →
  task_repository c = Some repository → Str.safe_name (t_task_type c) = false →
  select_candidate ws agent now (c :: rest) s =
    (Err (PyException "ValidationError" "EffectiveAuthorityRequest"), s).
Proof.
  intros Hun Hcap Hrepo Hsafe. cbn.
  destruct (existsb _ ws) eqn:Hex.
  { apply existsb_exists in Hex as (scope & Hin & Hm). apply list_elem_of_In in Hin.
    rewrite (Hun scope Hin) in Hm. discriminate. }
  unfold resolve_task_authority. rewrite Hcap. cbn. unfold mbind, Sess_bind, resolve_capability.
  rewrite Hrepo. destruct (valid_authority_request _) eqn:Hv; [|reflexivity].
  exfalso. unfold valid_authority_request, authority_request in Hv. cbn in Hv.
  rewrite Hsafe, !andb_false_r in Hv. discriminate.
Qed.

(** a task of type "Data Import", accepted by [TaskCreate], ahead of the queue *)
Definition poison_task : TaskCreate :=
  mkTaskCreate "T-0" "repo" "Data Import" "Import" "Import the data" 90 0 None "planner" []
    (JList []) (JList []) [] false ["code"] [] 1.

Definition poisoned : list (World * call) := (at_time 0, CreateTask poison_task) :: approved.

(** the worker's lease requests fail although the approved task is waiting *)
Example poisoned_lease :
  (@handle (at_time 3) (LeaseTask worker 600) (run poisoned demo_db)).1 =
    Some (PyException "ValidationError" "EffectiveAuthorityRequest").
Proof. vm_compute. reflexivity. Qed.

Lemma poison_candidate_raises_witness :
  let s := open_session (run poisoned demo_db) in
  let c := @build_task (at_time 0) poison_task 10%N in
  @select_candidate (at_time 3) [] worker (@w_now (at_time 3) 0) [c] s =
    (Err (PyException "ValidationError" "EffectiveAuthorityRequest"), s).
Proof.
  intros s c. apply (@poison_candidate_raises (at_time 3) [] worker (@w_now (at_time 3) 0) c [] s
    "code" [] "repo").
  - intros scope Hin. inversion Hin.
  - reflexivity.
  - reflexivity.
  - vm_compute. reflexivity.
Defined.
