(* ===== verification/GovernanceTheorems.v ===== *)
(** * What approvals promise

    The contract of [services/governance.py]: an approval authorises at most one
    lease, within its window, and only for the plan it was issued for. *)
From S2P Require Import Prelude Py Sha256 Models Store Logic Security TaskCore Notifications Governance.
From S2P Require Import CoreInvariant GovernanceFacts AgentGovernance Controls EvaluatorRouting Tasks.
From S2P Require Import TasksFacts Dag Missions TaskGraphs TaskRuntime Supervision Authority ApprovalRoutes.
From S2P Require Import Endpoints System Demo.

Open Scope Z_scope.

(** ** Calls that raise nothing *)
Section total.
Context `{World}.

Lemma append_approval_event_total i ty a r p s :
  harmless core (append_approval_event i ty a r p) s.
Proof. done. Qed.

Lemma append_task_event_total i ty m a p s : harmless core (append_task_event i ty m a p) s.
Proof. done. Qed.

(** the outbox accepts a notification whose row is new *)
Lemma insert_once_total k e key st p s :
  notifications (db s) !! next_id (db s) = None → harmless core (insert_once k e key st p) s.
Proof.
  intros Hnew. unfold harmless, returns, insert_once. apply wp_bind, wp_gets.
  destruct (head _) as [n|] eqn:Hh; [done|]. unfold add_notification. apply wp_bind, wp_gets.
  rewrite Hh. apply wp_bind. change (returns fresh_id (fun a s' => returns (insert_row notifications a
    (new_notification a k e key st p) ≫= fun _ => mret a)
    (fun _ s' => saved s' = saved s ∧ core (db s') = core (db s)) s') s).
  unfold returns, wp at 1. cbn. apply wp_bind, returns_insert; [exact Hnew|done].
Qed.
End total.

(** ** Deciding an approval *)
Section approve.
Context `{World}.

Definition queue_task (t : Task) : Task := touched (fun t => t <| t_status := Queued |>) t.

(** the rows [approve_task] leaves *)
Definition approved_rows (id : uuid) (a : TaskApproval) (actor reason : string) (n : Z)
    (s s' : session) : Prop :=
  let now := w_now (clock s) in
  approvals (db s') =
    alter (grant_approval actor reason (w_token_urlsafe (entropy s)) now (now + seconds n)) id
      (approvals (db s)) ∧
  tasks (db s') = alter queue_task (ap_task_id a) (tasks (db s)) ∧ saved s' = saved s.

Lemma reschedule_mission_harmless (m : option EngineeringMission) now s :
  harmless (fun d => (core d, notifications d, next_id d))
    (match m with
     | Some m => when (ms_supervision_enabled m)
         (alter_row missions (ms_id m) (fun m =>
            m <| ms_next_reconcile_at := Some now |> <| ms_updated_at := w_server_now |>))
     | None => mret tt
     end) s.
Proof. destruct m as [m|]; [|done]. unfold when. by destruct (ms_supervision_enabled m). Qed.
End approve.

(** Approving a pending approval whose task still has the approved plan
    digest succeeds: the approval records the decision, its actor and its
    window, and the task is queued; no other task or approval changes.  (The
    task's status is not consulted: a cancelled task is queued again.) *)
Theorem approve_task_spec `{World} id actor reason n a t s :
  approvals (db s) !! id = Some a → ap_status a = ApPending →
  tasks (db s) !! ap_task_id a = Some t → t_id t = ap_task_id a →
  t_plan_digest t = ap_plan_digest a → notifications (db s) !! next_id (db s) = None →
  ∃ s', approve_task id actor reason n s = (Ok tt, s') ∧ approved_rows id a actor reason n s s'.
Proof.
  intros Ha Hst Ht Eid Edg Hnew.
  enough (Hret : returns (approve_task id actor reason n)
    (fun _ s' => approved_rows id a actor reason n s s') s).
  { apply returns_run in Hret as ([] & s' & E & HQ). by exists s'. }
  unfold returns, approve_task. apply wp_bind, wp_get_row. rewrite Ha.
  rewrite bool_decide_eq_true_2 by done. cbn [negb]. apply wp_bind, wp_get_row. rewrite Ht.
  unfold str_eqb. rewrite Edg, String.eqb_refl. cbn [negb]. apply wp_bind, wp_utc_now. intros now ->.
  apply wp_bind. unfold wp at 1. cbn [token_urlsafe].
  apply wp_bind, wp_alter, wp_bind, wp_alter. rewrite Eid. apply wp_bind, wp_gets, wp_bind.
  eapply (returns_harmless (fun d => (core d, notifications d, next_id d)));
    [apply reschedule_mission_harmless|].
  intros ? s1 Hs1 [= E1 E2 E3 E4]. cbn in Hs1, E1, E2, E3, E4.
  apply wp_bind, wp_bind. unfold append_log. apply wp_update, wp_gets.
  apply wp_bind. unfold append_task_event. apply wp_bind, wp_get_row, wp_update.
  apply wp_bind. eapply (returns_harmless core); [apply insert_once_total; cbn; congruence|].
  intros ? s2 Hs2 [= E5 E6]. cbn in Hs2, E5, E6. apply wp_ret.
  unfold approved_rows. rewrite E5, E6, Hs2, E1, E2, Hs1. done.
Qed.

(** a task cancelled with its graph, whose approval is still pending *)
Definition cancelled_graph : list (World * call) :=
  activated [demo_node "a" [] 2 None] ++ [(at_time 3, CancelGraph graph_id "founder" "stop")].

(** approving it queues the cancelled task *)
Example approve_resurrects :
  let d := (@handle (at_time 4) (GrantApproval 13 decision) (run cancelled_graph demo_db)).2 in
  t_status <$> tasks (run cancelled_graph demo_db) !! 12%N = Some Cancelled ∧
  t_status <$> tasks d !! 12%N = Some Queued ∧ tg_status <$> graphs d !! graph_id = Some GCancelled.
Proof. vm_compute. auto. Qed.

Lemma approve_task_spec_witness :
  let s := open_session (run cancelled_graph demo_db) in
  ∃ a s', approvals (db s) !! 13%N = Some a ∧ ap_task_id a = 12%N ∧
    @approve_task (at_time 4) 13 "founder" "late" 60 s = (Ok tt, s') ∧
    @approved_rows (at_time 4) 13 a "founder" "late" 60 s s'.
Proof.
  intros s. destruct (approvals (db s) !! 13%N) as [a|] eqn:Ha; [|vm_compute in Ha; discriminate].
  destruct (tasks (db s) !! 12%N) as [t|] eqn:Ht; [|vm_compute in Ht; discriminate].
  assert (Et : ap_task_id a = 12%N) by (vm_compute in Ha; injection Ha as <-; reflexivity).
  destruct (@approve_task_spec (at_time 4) 13 "founder" "late" 60 a t s Ha) as (s' & E & HQ).
  - vm_compute in Ha. injection Ha as <-. reflexivity.
  - rewrite Et. exact Ht.
  - rewrite Et. vm_compute in Ht. injection Ht as <-. reflexivity.
  - vm_compute in Ha, Ht. injection Ha as <-. injection Ht as <-. reflexivity.
  - vm_compute. reflexivity.
  - exists a, s'. auto.
Defined.

(** ** Consuming an approval *)
Section consume.
Context `{World}.

Lemma consume_no_approval t now s :
  t_approval_required t = false → consume_task_approval t now s = (Ok tt, s).
Proof. intros Hr. unfold consume_task_approval. by rewrite Hr. Qed.

(** the approval the query finds is the task's only one *)
Lemma select_approval_run d id a t :
  safe d → approvals d !! id = Some a → ap_task_id a = t_id t →
  head (List.filter (approval_of_task (t_id t)) (table_rows (approvals d))) = Some a.
Proof.
  intros Hd Ha Et. destruct (head _) as [b|] eqn:Hh.
  - apply (select_one_Some approvals) in Hh as [Hp [bid Hb]]. apply bool_decide_eq_true in Hp.
    assert (bid = id) as -> by (eapply (ci_unique _ _ Hd); [exact Hb|exact Ha|congruence]). congruence.
  - pose proof (select_one_None approvals _ _ Hh id a Ha) as Hf. by apply bool_decide_eq_false in Hf.
Qed.

Definition consumed_row (now : datetime) (a : TaskApproval) : TaskApproval :=
  set_approval_status ApConsumed now (a <| ap_consumed_at := Some now |>).
Definition expired_row (now : datetime) (a : TaskApproval) : TaskApproval :=
  set_approval_status ApExpired now a.
Definition approval_pending_task (t : Task) : Task :=
  touched (fun t => t <| t_status := PendingApproval |>) t.

(** what [consume_task_approval] does, given the task's approval *)
Definition consume_outcome (id : uuid) (a : TaskApproval) (t : Task) (now : datetime)
    (s : session) (r : outcome unit) (s' : session) : Prop :=
  if negb (bool_decide (ap_status a = ApApproved)) then
    r = Err (HTTPException 409 (JStr "Task lacks an approved plan.")) ∧ s' = s
  else if approval_expired now a then
    r = Err (HTTPException 409 (JStr "Task approval expired.")) ∧
    approvals (db s') = alter (expired_row now) id (approvals (db s)) ∧
    tasks (db s') = alter approval_pending_task (t_id t) (tasks (db s)) ∧ saved s' = saved s
  else
    r = Ok tt ∧ approvals (db s') = alter (consumed_row now) id (approvals (db s)) ∧
    tasks (db s') = tasks (db s) ∧ saved s' = saved s.
End consume.

(** Consuming the approval of a task that needs one: refused, changing
    nothing, unless the approval is in state approved; an approval whose window
    has closed (or that has none) is expired, its task sent back for approval
    and the lease refused; otherwise the approval is consumed and the task's row
    is left alone. *)
Theorem consume_task_approval_spec `{World} id a t now s :
  safe (db s) → approvals (db s) !! id = Some a → ap_task_id a = t_id t →
  t_approval_required t = true →
  ∃ r s', consume_task_approval t now s = (r, s') ∧ consume_outcome id a t now s r s'.
Proof.
  intros Hd Ha Et Hreq. destruct (consume_task_approval t now s) as [r s'] eqn:E.
  exists r, s'. split; [done|]. unfold consume_task_approval in E. rewrite Hreq in E. cbn [negb] in E.
  unfold select_approval, select_one, mbind, Sess_bind, gets in E.
  rewrite (select_approval_run _ _ _ _ Hd Ha Et) in E.
  pose proof (ci_approval_id _ _ Hd _ _ Ha) as Eid. cbn in Eid. unfold consume_outcome.
  destruct (negb _); [by injection E as <- <-|].
  destruct (approval_expired now a); rewrite Eid in E; injection E as <- <-; done.
Qed.

Lemma consume_task_approval_spec_witness :
  let s := open_session (run approved demo_db) in
  ∃ a t r s', @consume_task_approval (at_time 3) t (@w_now (at_time 3) 0) s = (r, s') ∧
    @consume_outcome (at_time 3) approval_id a t (@w_now (at_time 3) 0) s r s'.
Proof.
  intros s. destruct (approvals (db s) !! approval_id) as [a|] eqn:Ha; [|vm_compute in Ha; discriminate].
  destruct (tasks (db s) !! task_id) as [t|] eqn:Ht; [|vm_compute in Ht; discriminate].
  exists a, t. apply (@consume_task_approval_spec (at_time 3) approval_id a t).
  - apply reachable_inv, run_reachable, demo_initial.
  - exact Ha.
  - vm_compute in Ha, Ht. injection Ha as <-. injection Ht as <-. reflexivity.
  - vm_compute in Ht. injection Ht as <-. reflexivity.
Defined.

(** An approval admits one lease: once consumed for a task that needs
    approval, consuming again, at any later time and from any later session with
    the same approvals, is refused with 409 and changes nothing. *)
Theorem approval_is_single_use `{World} t now s s' later s'' :
  safe (saved s) → safe (db s) → tasks (db s) !! t_id t = Some t → t_approval_required t = true →
  consume_task_approval t now s = (Ok tt, s') → approvals (db s'') = approvals (db s') →
  consume_task_approval t later s'' =
    (Err (HTTPException 409 (JStr "Task lacks an approved plan.")), s'').
Proof.
  intros Hs Hd Ht Hreq E Ea.
  assert (Hc : consumed_for (db s') t).
  { eapply (wp_run safe _ (fun _ s' => consumed_for (db s') t)); [|exact E].
    apply wp_consume; [done..|]. intros s1 _ _ _ Hc. by apply Hc. }
  unfold consume_task_approval. rewrite Hreq. cbn [negb].
  unfold mbind, Sess_bind, select_approval, select_one, gets. rewrite Ea.
  destruct (head _) as [a|] eqn:Hh; [|done].
  apply (select_one_Some approvals) in Hh as [Hp [aid Ha]]. apply bool_decide_eq_true in Hp.
  by rewrite (Hc _ _ Ha Hp).
Qed.

Lemma approval_is_single_use_witness :
  let s := open_session (run approved demo_db) in
  ∃ t s', @consume_task_approval (at_time 3) t (@w_now (at_time 3) 0) s = (Ok tt, s') ∧
    @consume_task_approval (at_time 3) t (@w_now (at_time 4) 0) s' =
      (Err (HTTPException 409 (JStr "Task lacks an approved plan.")), s').
Proof.
  intros s. destruct (tasks (db s) !! task_id) as [t|] eqn:Ht; [|vm_compute in Ht; discriminate].
  assert (Hsafe : safe (run approved demo_db)) by (apply reachable_inv, run_reachable, demo_initial).
  assert (Eid : t_id t = task_id) by (vm_compute in Ht; injection Ht as <-; reflexivity).
  assert (Hreq : t_approval_required t = true) by (vm_compute in Ht; injection Ht as <-; reflexivity).
  assert (E : ∃ s', @consume_task_approval (at_time 3) t (@w_now (at_time 3) 0) s = (Ok tt, s')).
  { vm_compute in Ht. injection Ht as <-. eexists. vm_compute. reflexivity. }
  destruct E as [s' E]. exists t, s'. split; [exact E|].
  apply (@approval_is_single_use (at_time 3) t (@w_now (at_time 3) 0) s s');
    [exact Hsafe|exact Hsafe|rewrite Eid; exact Ht|exact Hreq|exact E|reflexivity].
Defined.

(** ** Rejecting, revoking and expiring *)

(** Rejecting takes a pending approval to rejected and cancels its task;
    revoking takes an approved one to revoked and sends its task back for
    approval; from any other state the decision is refused with 409 and nothing
    changes. *)
Theorem decide_task_spec `{World} id actor reason action a s :
  approvals (db s) !! id = Some a →
  if bool_decide (ap_status a = allowed_from action) then
    ∃ s', decide_task id actor reason action s = (Ok tt, s') ∧ saved s' = saved s ∧
      approvals (db s') =
        alter (decide_approval actor reason action (w_now (clock s))) id (approvals (db s)) ∧
      tasks (db s') =
        alter (touched (fun t => t <| t_status := decided_task_status action |>)) (ap_task_id a)
          (tasks (db s))
  else
    decide_task id actor reason action s =
      (Err (HTTPException 409 (JStr ("Approval cannot be " +:+ action_str action +:+ "d."))), s).
Proof.
  intros Ha. unfold decide_task, get_row, mbind, Sess_bind, gets. rewrite Ha.
  destruct (bool_decide (ap_status a = allowed_from action)); cbn [negb]; [|done].
  eexists. split; [reflexivity|]. done.
Qed.

Lemma decide_task_spec_witness :
  let s := open_session (run approved demo_db) in
  ∃ a s', approvals (db s) !! approval_id = Some a ∧ ap_status a = ApApproved ∧
    @decide_task (at_time 3) approval_id "founder" "no longer needed" Revoke s = (Ok tt, s').
Proof.
  intros s. destruct (approvals (db s) !! approval_id) as [a|] eqn:Ha; [|vm_compute in Ha; discriminate].
  assert (Est : ap_status a = ApApproved) by (vm_compute in Ha; injection Ha as <-; reflexivity).
  pose proof (@decide_task_spec (at_time 3) approval_id "founder" "no longer needed" Revoke a s Ha) as Hspec.
  rewrite bool_decide_eq_true_2 in Hspec by exact Est. destruct Hspec as (s' & E & _).
  exists a, s'. auto.
Defined.

Section expire.
Context `{World}.

Definition expire_queued (t : Task) : Task :=
  if bool_decide (t_status t = Queued) then approval_pending_task t else t.

Lemma expire_queued_idem t : expire_queued (expire_queued t) = expire_queued t.
Proof. unfold expire_queued. destruct (bool_decide (t_status t = Queued)) eqn:E; cbn; [done|by rewrite E]. Qed.

Definition touch_if {A} (b : bool) (f : A → A) (x : A) : A := if b then f x else x.

Lemma touch_if_twice {A} (b c : bool) (f : A → A) x :
  f (f x) = f x → touch_if b f (touch_if c f x) = touch_if (b || c) f x.
Proof. by destruct b, c. Qed.

Lemma lookup_alter_touch {A} (f : A → A) i j (m : gmap uuid A) :
  alter f i m !! j = touch_if (bool_decide (j = i)) f <$> m !! j.
Proof.
  unfold touch_if. case_bool_decide as E.
  - subst. by rewrite lookup_alter_eq.
  - rewrite lookup_alter_ne by done. by destruct (m !! j).
Qed.

Lemma expire_approval_run now a s :
  ∃ s', expire_approval now a s = (Ok tt, s') ∧ saved s' = saved s ∧
    approvals (db s') = alter (expired_row now) (ap_id a) (approvals (db s)) ∧
    tasks (db s') = alter expire_queued (ap_task_id a) (tasks (db s)).
Proof.
  unfold expire_approval, mbind, Sess_bind, get_row, gets, alter_row, update. cbn.
  destruct (tasks (db s) !! ap_task_id a) as [t|] eqn:Ht.
  2:{ eexists. split; [reflexivity|]. split; [done|]. split; [done|]. cbn. symmetry.
      apply alter_id. intros x Hx. congruence. }
  unfold when. destruct (bool_decide (t_status t = Queued)) eqn:Eq; cbn; eexists; (split; [reflexivity|]); cbn.
  - split; [done|]. split; [done|]. apply alter_ext. intros x Hx. rewrite Ht in Hx. injection Hx as <-.
    unfold expire_queued. by rewrite Eq.
  - split; [done|]. split; [done|]. symmetry. apply alter_id. intros x Hx. rewrite Ht in Hx.
    injection Hx as <-. unfold expire_queued. by rewrite Eq.
Qed.

Lemma expire_all_run now l s :
  ∃ s', for_each l (expire_approval now) s = (Ok tt, s') ∧ saved s' = saved s ∧
    (∀ id, approvals (db s') !! id =
      touch_if (bool_decide (id ∈ ap_id <$> l)) (expired_row now) <$> approvals (db s) !! id) ∧
    (∀ id, tasks (db s') !! id =
      touch_if (bool_decide (id ∈ ap_task_id <$> l)) expire_queued <$> tasks (db s) !! id).
Proof.
  revert s. induction l as [|a l IH]; intros s; cbn.
  { exists s. split; [done|]. split; [done|]. split; intros id; [by destruct (approvals (db s) !! id)|
      by destruct (tasks (db s) !! id)]. }
  destruct (expire_approval_run now a s) as (s1 & E1 & Hs1 & Ha1 & Ht1).
  destruct (IH s1) as (s2 & E2 & Hs2 & Ha2 & Ht2). exists s2.
  rewrite (run_bind _ _ _ _ _ E1). split; [done|]. split; [congruence|]. split; intros id.
  - rewrite Ha2, Ha1, lookup_alter_touch. destruct (approvals (db s) !! id) as [b|]; [|done]. cbn.
    rewrite touch_if_twice by done. f_equal. f_equal. rewrite orb_comm. apply eq_true_iff_eq.
    rewrite orb_true_iff, !bool_decide_eq_true, elem_of_cons. done.
  - rewrite Ht2, Ht1, lookup_alter_touch. destruct (tasks (db s) !! id) as [b|]; [|done]. cbn.
    rewrite touch_if_twice by apply expire_queued_idem. f_equal. f_equal. rewrite orb_comm.
    apply eq_true_iff_eq. rewrite orb_true_iff, !bool_decide_eq_true, elem_of_cons. done.
Qed.

(** the approvals a run of [expire_approvals] closes *)
Definition expires (now : datetime) (d : database) (id : uuid) : Prop :=
  ∃ a, approvals d !! id = Some a ∧ lapsed now a = true ∧ w_locked id = false.
End expire.

(** [expire_approvals] always succeeds.  Every approved approval whose window
    has closed, unless another transaction holds it, becomes expired, and if its
    task was queued the task goes back to pending approval; every other approval,
    and every task that was not queued, keeps its row. *)
Theorem expire_approvals_spec `{World} now s :
  safe (db s) →
  ∃ n s', expire_approvals now s = (Ok n, s') ∧ saved s' = saved s ∧
    (∀ id a, approvals (db s) !! id = Some a → expires now (db s) id →
      approvals (db s') !! id = Some (expired_row now a) ∧
      tasks (db s') !! ap_task_id a = expire_queued <$> tasks (db s) !! ap_task_id a) ∧
    (∀ id, ¬ expires now (db s) id → approvals (db s') !! id = approvals (db s) !! id) ∧
    (∀ id t, tasks (db s) !! id = Some t → t_status t ≠ Queued → tasks (db s') !! id = Some t) ∧
    (∀ id a, approvals (db s') !! id = Some a → lapsed now a = true → w_locked id = true).
Proof.
  intros Hd. unfold expire_approvals.
  set (l := List.filter (fun a => lapsed now a && negb (w_locked (ap_id a))) (table_rows (approvals (db s)))). destruct (expire_all_run now l s) as (s' & E & Hs' & Ha & Ht).
  exists (Z.of_nat (length l)), s'.
  assert (Hl : ∀ id, id ∈ ap_id <$> l ↔ expires now (db s) id).
  { intros id. rewrite list_elem_of_fmap. split.
    - intros (a & -> & Hin). apply (select_rows_elem approvals) in Hin as [Hp [id Hid]].
      apply andb_prop in Hp as [Hp Hlk]. pose proof (ci_approval_id _ _ Hd _ _ Hid) as Eid. cbn in Eid.
      rewrite Eid in *. exists a. split; [done|]. split; [done|]. by apply negb_true_iff in Hlk.
    - intros (a & Hid & Hp & Hlk). pose proof (ci_approval_id _ _ Hd _ _ Hid) as Eid. cbn in Eid.
      exists a. split; [done|]. apply list_elem_of_In, filter_In. rewrite Eid, Hlk, Hp. split; [|done].
      apply list_elem_of_In, list_elem_of_fmap. exists (id, a). split; [done|]. by apply elem_of_map_to_list. }
  split; [by rewrite (run_bind _ _ _ l s), (run_bind _ _ _ tt s')|]. split; [done|].
  assert (Hexp : ∀ id, expires now (db s) id → approvals (db s') !! id = expired_row now <$> approvals (db s) !! id).
  { intros id Hid. rewrite Ha, bool_decide_eq_true_2 by by apply Hl. done. }
  assert (Hkeep : ∀ id, ¬ expires now (db s) id → approvals (db s') !! id = approvals (db s) !! id).
  { intros id Hid. rewrite Ha, bool_decide_eq_false_2 by by rewrite Hl. cbn.
    by destruct (approvals (db s) !! id). }
  split.
  { intros id a Hid Hex. split; [by rewrite (Hexp id Hex), Hid|]. rewrite Ht, bool_decide_eq_true_2; [done|].
    apply Hl in Hex. apply list_elem_of_fmap in Hex as (a' & E' & Hin). apply list_elem_of_fmap.
    exists a'. split; [|done]. apply (select_rows_elem approvals) in Hin as [_ [id' Hid']].
    pose proof (ci_approval_id _ _ Hd _ _ Hid') as E1. cbn in E1. congruence. }
  split; [done|]. split.
  { intros id t Hid Hq. rewrite Ht, Hid. unfold touch_if, expire_queued. cbn.
    rewrite (bool_decide_eq_false_2 _ Hq). by destruct (bool_decide _). }
  intros id a Hid Hlap. destruct (w_locked id) eqn:Hlk; [done|].
  assert (Hex : expires now (db s) id → False).
  { intros Hex. rewrite (Hexp _ Hex) in Hid. destruct Hex as (a0 & Ha0 & _). rewrite Ha0 in Hid.
    injection Hid as <-. done. }
  exfalso. apply Hex. rewrite (Hkeep _ Hex) in Hid. by exists a.
Qed.

Lemma expire_approvals_spec_witness :
  let s := open_session (run approved demo_db) in
  ∃ n s', @expire_approvals (at_time 9000) (@w_now (at_time 9000) 0) s = (Ok n, s') ∧
    ap_status <$> approvals (db s') !! approval_id = Some ApExpired.
Proof.
  intros s. assert (Hsafe : safe (db s)) by (apply reachable_inv, run_reachable, demo_initial).
  destruct (approvals (db s) !! approval_id) as [a|] eqn:Ha; [|vm_compute in Ha; discriminate].
  destruct (@expire_approvals_spec (at_time 9000) (@w_now (at_time 9000) 0) s Hsafe)
    as (n & s' & E & _ & Hexp & _).
  exists n, s'. split; [exact E|]. destruct (Hexp approval_id a Ha) as [-> _]; [|reflexivity].
  exists a. split; [exact Ha|]. vm_compute in Ha. injection Ha as <-. vm_compute. auto.
Defined.

(** ** Re-arming *)
Section rearm.
Context `{World}.

(** nothing of an earlier decision survives in a re-armed approval *)
Definition undecided (a : TaskApproval) : Prop :=
  ap_status a = ApPending ∧ ap_decided_by a = None ∧ ap_decision_reason a = None ∧
  ap_nonce_digest a = None ∧ ap_issued_at a = None ∧ ap_expires_at a = None ∧ ap_consumed_at a = None.

Lemma supersede_all_total now l s :
  returns (for_each l (fun n => alter_row notifications (fn_id n) (supersede_notification now)))
    (fun _ s' => saved s' = saved s ∧ core (db s') = core (db s) ∧ next_id (db s') = next_id (db s) ∧
       dom (notifications (db s')) = dom (notifications (db s))) s.
Proof.
  unfold returns. apply (wp_for_each _ _ _ (fun s' => saved s' = saved s ∧ core (db s') = core (db s) ∧
    next_id (db s') = next_id (db s) ∧ dom (notifications (db s')) = dom (notifications (db s)))); [done|].
  intros n s1 _ (H1 & H2 & H3 & H4). apply wp_alter. cbn. by rewrite dom_alter_L.
Qed.
End rearm.

(** Re-arming a task that needs no approval queues it.  For one that does, it
    succeeds whenever the task's approval exists: the approval is pending again
    with every trace of the earlier decision, window and consumption erased, the
    task waits for approval, and no other task or approval changes. *)
Theorem rearm_task_approval_spec `{World} id reason t s :
  safe (db s) → tasks (db s) !! id = Some t → notifications (db s) !! next_id (db s) = None →
  ∃ s', rearm_task_approval id reason s = (Ok tt, s') ∧ saved s' = saved s ∧
    tasks (db s') = alter rearmed id (tasks (db s)) ∧
    if t_approval_required t then
      ∃ aid a, approvals (db s) !! aid = Some a ∧ ap_task_id a = id ∧
        approvals (db s') = alter (reset_approval (w_now (clock s))) aid (approvals (db s)) ∧
        undecided (reset_approval (w_now (clock s)) a)
    else approvals (db s') = approvals (db s).
Proof.
  intros Hd Ht Hnew.
  enough (Hret : returns (rearm_task_approval id reason) (fun _ s' => saved s' = saved s ∧
    tasks (db s') = alter rearmed id (tasks (db s)) ∧
    if t_approval_required t then
      ∃ aid a, approvals (db s) !! aid = Some a ∧ ap_task_id a = id ∧
        approvals (db s') = alter (reset_approval (w_now (clock s))) aid (approvals (db s)) ∧
        undecided (reset_approval (w_now (clock s)) a)
    else approvals (db s') = approvals (db s)) s).
  { apply returns_run in Hret as ([] & s' & E & HQ). by exists s'. }
  assert (Halt : ∀ st, st = rearm_status t →
    alter (fun t => t <| t_status := st |> <| t_updated_at := w_server_now |>) id (tasks (db s))
    = alter rearmed id (tasks (db s))).
  { intros st ->. apply alter_ext. intros x Hx. rewrite Ht in Hx. by injection Hx as <-. }
  unfold rearm_status in Halt. unfold returns, rearm_task_approval. apply wp_bind, wp_get_row. rewrite Ht.
  destruct (t_approval_required t) eqn:Hreq; cbn [negb].
  2:{ apply wp_alter. cbn. split; [done|]. split; [by apply Halt|done]. }
  destruct (ci_gated _ _ Hd _ _ Ht Hreq) as (aid & a & Ha & Ea). cbn in Ha.
  pose proof (ci_task_id _ _ Hd _ _ Ht) as Eid. cbn in Eid.
  apply wp_bind, wp_gets.
  assert (Hsel : head (List.filter (approval_of_task id) (table_rows (approvals (db s)))) = Some a).
  { rewrite <- Eid. apply (select_approval_run _ aid); [done|done|congruence]. }
  rewrite Hsel. pose proof (ci_approval_id _ _ Hd _ _ Ha) as Eaid. cbn in Eaid. rewrite Eaid.
  apply wp_bind, wp_utc_now; intros now ->. apply wp_bind, wp_alter, wp_bind, wp_alter, wp_bind, wp_gets.
  apply wp_bind. eapply wp_mono; [apply supersede_all_total|]. intros ? s1 (H1 & H2 & H3 & H4). cbv beta.
  apply wp_bind, wp_bind. unfold append_log. apply wp_update, wp_gets, wp_bind.
  eapply (returns_harmless core); [apply insert_once_total|].
  { cbn. apply not_elem_of_dom. rewrite H4, H3. cbn. by apply not_elem_of_dom. }
  intros ? s2 Hs2 Hc2. apply wp_ret. cbn in Hs2. unfold core in Hc2, H2. cbn in Hc2, H2.
  injection H2 as E1 E2. rewrite E1, E2 in Hc2. injection Hc2 as E3 E4.
  split; [by rewrite Hs2, H1|]. split; [rewrite E3; exact (Halt PendingApproval eq_refl)|].
  exists aid, a. rewrite E4. by repeat split.
Qed.

Lemma rearm_task_approval_spec_witness :
  let s := open_session (run approved demo_db) in
  ∃ s', @rearm_task_approval (at_time 3) task_id "again" s = (Ok tt, s') ∧
    t_status <$> tasks (db s') !! task_id = Some PendingApproval.
Proof.
  intros s. destruct (tasks (db s) !! task_id) as [t|] eqn:Ht; [|vm_compute in Ht; discriminate].
  assert (Hsafe : safe (db s)) by (apply reachable_inv, run_reachable, demo_initial).
  assert (Hnew : notifications (db s) !! next_id (db s) = None) by (vm_compute; reflexivity).
  destruct (@rearm_task_approval_spec (at_time 3) task_id "again" t s Hsafe Ht Hnew) as (s' & E & _ & Et & _).
  exists s'. split; [exact E|]. rewrite Et, lookup_alter_eq, Ht.
  vm_compute in Ht. injection Ht as <-. reflexivity.
Defined.
