(* ===== verification/AgentGovernanceTheorems.v ===== *)
(** * What a charter, a package and a grant allow

    The contract of [services/agent_governance.py]: effective authority is the
    intersection of registration, charter, package and grant; a grant never
    exceeds them; an agent has one active charter, and replacing it ends the
    grants made under the previous one. *)
From S2P Require Import Prelude Py Sha256 Models Store Logic Security TaskCore Notifications Governance.
From S2P Require Import CoreInvariant GovernanceFacts AgentGovernance Controls EvaluatorRouting Tasks Dag.
From S2P Require Import Missions TaskGraphs TaskRuntime Supervision Authority ApprovalRoutes Endpoints System.
From S2P Require Import Demo.

Open Scope Z_scope.

(** ** Effective authority *)

(** the repository clause shared by charter, package and grant *)
Definition repository_within (rq : EffectiveAuthorityRequest) (repositories : list string) : Prop :=
  (rq_capability rq = "founder-intake" ∧ rq_task_type rq = "founder_request") ∨
  (match rq_repository rq with Some r => r = "" ∨ r ∈ repositories | None => True end).

Definition registered_for (rq : EffectiveAuthorityRequest) (a : Agent) : Prop :=
  ag_is_enabled a = true ∧ ag_machine a = rq_machine rq ∧ rq_capability rq ∈ ag_capabilities a ∧
  rq_risk_level rq ≤ ag_risk_ceiling a.

Definition chartered_for (rq : EffectiveAuthorityRequest) (m : AgentCharterManifest) : Prop :=
  rq_capability rq ∈ cm_capabilities m ∧ rq_machine rq ∈ cm_allowed_machines m ∧
  rq_task_type rq ∈ cm_allowed_task_types m ∧ rq_risk_level rq ≤ cm_risk_ceiling m ∧
  repository_within rq (cm_allowed_repositories m) ∧
  (rq_capability rq ∉ cm_conflicts m) ∧ (rq_capability rq ∉ cm_forbidden_actions m).

Definition packaged_for (rq : EffectiveAuthorityRequest) (m : RolePackageManifest) : Prop :=
  rq_capability rq ∈ pm_required_capabilities m ∧ rq_machine rq ∈ pm_allowed_machines m ∧
  rq_task_type rq ∈ pm_task_types m ∧ rq_risk_level rq ≤ pm_risk_ceiling m ∧
  repository_within rq (rp_repositories (pm_repository_profile m)).

Definition granted_for (rq : EffectiveAuthorityRequest) (now : datetime) (p : RolePackage)
    (g : AgentCapabilityGrant) : Prop :=
  gr_package_id g = pk_id p ∧ now < gr_expires_at g ∧ gr_machine g = rq_machine rq ∧
  rq_task_type rq ∈ gr_task_types g ∧ rq_risk_level rq ≤ gr_risk_ceiling g ∧
  repository_within rq (gr_repositories g).

Section reasons.
Context (rq : EffectiveAuthorityRequest).

Lemma reason_if_nil b r : reason_if b r = [] ↔ b = false.
Proof. by destruct b. Qed.

Lemma missing_nil {A} (o : option A) r : missing_reason o r = [] ↔ is_Some o.
Proof. destruct o; cbn; split; [by eauto|done|done|by intros []]. Qed.

Lemma str_out x l : str_in x l = false ↔ x ∉ l.
Proof. rewrite <- not_true_iff_false, str_in_spec. done. Qed.

Lemma str_neq a b : str_eqb a b = false ↔ a ≠ b.
Proof. rewrite <- not_true_iff_false, str_eqb_spec. done. Qed.

Lemma repository_inside l : repository_outside rq l = false ↔ repository_within rq l.
Proof.
  unfold repository_outside, repository_access_required, repository_within.
  rewrite andb_false_iff, negb_false_iff, andb_true_iff, !str_eqb_spec.
  destruct (rq_repository rq) as [r|]; [|by split; auto].
  rewrite andb_false_iff, negb_false_iff, str_in_spec.
  assert (Str.nonempty r = false ↔ r = "") as -> by (by destruct r). done.
Qed.

Lemma agent_clear a :
  agent_reasons a ++ registration_reasons rq a = [] ↔
  ∃ x, a = Some x ∧ registered_for rq x.
Proof.
  unfold agent_reasons, registration_reasons, registered_for. rewrite app_nil, reason_if_nil.
  destruct a as [x|]; cbn; [|by split; [intros []|intros (? & ? & _)]].
  rewrite reason_if_nil, !orb_false_iff, !negb_false_iff, str_eqb_spec, str_in_spec, Z.ltb_ge.
  split; [|intros (y & [= <-] & ?); tauto]. intros. exists x. tauto.
Qed.

Lemma charter_clear c :
  charter_reasons rq (Some c) = [] ↔ chartered_for rq (ch_manifest c).
Proof.
  unfold charter_reasons, chartered_for.
  rewrite app_nil, !reason_if_nil, !orb_false_iff, !negb_false_iff, !str_in_spec, !str_out,
    Z.ltb_ge, repository_inside. tauto.
Qed.

Lemma package_clear p :
  package_reasons rq (Some p) = [] ↔ packaged_for rq (pk_manifest p).
Proof.
  unfold package_reasons, packaged_for.
  rewrite reason_if_nil, !orb_false_iff, !negb_false_iff, !str_in_spec, Z.ltb_ge, repository_inside. tauto.
Qed.

Lemma grant_clear now p g :
  grant_reasons rq now (Some p) (Some g) = [] ↔ granted_for rq now p g.
Proof.
  unfold grant_reasons, granted_for.
  rewrite !app_nil, !reason_if_nil, !orb_false_iff, !negb_false_iff, bool_decide_eq_true,
    str_eqb_spec, str_in_spec, Z.ltb_ge, Z.leb_gt, repository_inside.
  split; intuition congruence.
Qed.

Lemma denial_reasons_nil d id now :
  denial_reasons d id rq now = [] ↔
  ∃ a c p g, agents d !! id = Some a ∧ active_charter d id = Some c ∧
    _active_package d id = Some p ∧ active_grant d id (rq_capability rq) (Some p) = Some g ∧
    registered_for rq a ∧ chartered_for rq (ch_manifest c) ∧ packaged_for rq (pk_manifest p) ∧
    granted_for rq now p g.
Proof.
  unfold denial_reasons. rewrite !app_nil, !missing_nil. split.
  - intros (Ha & [c Hc] & [p Hp] & [g Hg] & Hr & Hcr & Hpr & Hgr).
    assert (Hag : agent_reasons (agents d !! id) ++ registration_reasons rq (agents d !! id) = [])
      by (by rewrite app_nil).
    apply agent_clear in Hag as (a & Ea & Hreg).
    rewrite Hp in Hg, Hgr, Hpr. rewrite Hg in Hgr. rewrite Hc in Hcr.
    exists a, c, p, g. rewrite <- charter_clear, <- package_clear, <- grant_clear. auto 10.
  - intros (a & c & p & g & Ea & Hc & Hp & Hg & Hreg & Hch & Hpk & Hgr).
    rewrite <- charter_clear in Hch. rewrite <- package_clear in Hpk. rewrite <- grant_clear in Hgr.
    assert (Hag : agent_reasons (agents d !! id) ++ registration_reasons rq (agents d !! id) = [])
      by (apply agent_clear; eauto).
    apply app_nil in Hag as [H1 H2]. rewrite Hc, Hp, Hg. eauto 10.
Qed.
End reasons.

(** C4. Effective authority is allowed exactly when the agent is registered,
    enabled and within its own bounds, its active charter, the package of its
    latest active deployment and its newest active grant for the capability all
    exist, each of them covers the request (capability, machine, task type, risk
    and repository), the capability is neither in conflict nor forbidden, and
    the grant belongs to that package and has not expired. *)
Theorem resolve_allowed_iff d id rq now :
  ef_allowed (resolve d id rq now) = true ↔
  ∃ a c p g, agents d !! id = Some a ∧ active_charter d id = Some c ∧
    _active_package d id = Some p ∧ active_grant d id (rq_capability rq) (Some p) = Some g ∧
    registered_for rq a ∧ chartered_for rq (ch_manifest c) ∧ packaged_for rq (pk_manifest p) ∧
    granted_for rq now p g.
Proof. cbn. rewrite bool_decide_eq_true. apply denial_reasons_nil. Qed.

(** ** Grants *)

(** what [create_grant] demands of the charter, the agent and the package *)
Definition grant_within (p : AgentCapabilityGrantCreate) (a : Agent) (c : AgentCharter)
    (k : RolePackage) (now : datetime) : Prop :=
  let m := ch_manifest c in
  ch_agent_id c = gc_agent_id p ∧ ch_status c = "active" ∧ now < gc_expires_at p ∧
  gc_capability p ∈ cm_capabilities m ∧ gc_machine p = ag_machine a ∧
  gc_machine p ∈ cm_allowed_machines m ∧ gc_task_types p ⊆ cm_allowed_task_types m ∧
  gc_repositories p ⊆ cm_allowed_repositories m ∧ gc_risk_ceiling p ≤ cm_risk_ceiling m ∧
  gc_accountable_owner p = cm_accountable_owner m ∧ (gc_capability p ∉ cm_conflicts m) ∧
  (gc_capability p ∉ cm_forbidden_actions m) ∧
  gc_capability p ∈ pm_required_capabilities (pk_manifest k) ∧
  gc_task_types p ⊆ pm_task_types (pk_manifest k).

Section grants.
Context `{World}.

Lemma failed_check_None l : failed_check l = None → ∀ b m, (b, m) ∈ l → b = true.
Proof.
  unfold failed_check. intros Hf b m Hin.
  destruct (List.filter _ l) as [|x l'] eqn:E; [|done]. destruct b; [done|].
  assert (Hx : (false, m) ∈ List.filter (fun c : bool * string => negb c.1) l)
    by (apply list_elem_of_In, filter_In; split; [by apply list_elem_of_In|done]).
  rewrite E in Hx. by apply not_elem_of_nil in Hx.
Qed.

Lemma grant_checks_hold p a m :
  failed_check (grant_checks p a m) = None →
  gc_capability p ∈ cm_capabilities m ∧ gc_machine p = ag_machine a ∧
  gc_machine p ∈ cm_allowed_machines m ∧ gc_task_types p ⊆ cm_allowed_task_types m ∧
  gc_repositories p ⊆ cm_allowed_repositories m ∧ gc_risk_ceiling p ≤ cm_risk_ceiling m ∧
  gc_accountable_owner p = cm_accountable_owner m ∧ (gc_capability p ∉ cm_conflicts m) ∧
  (gc_capability p ∉ cm_forbidden_actions m).
Proof.
  intros Hf. pose proof (failed_check_None _ Hf) as Hall. unfold grant_checks in Hall.
  assert (Hnth : ∀ i b m', grant_checks p a m !! i = Some (b, m') → b = true).
  { intros i b m' Hi. eapply Hall, list_elem_of_lookup_2, Hi. }
  rewrite <- !str_out, <- !str_in_spec, <- !str_subset_spec, <- !str_eqb_spec, <- Z.leb_le.
  pose proof (Hnth 0%nat _ _ eq_refl) as H0. pose proof (Hnth 1%nat _ _ eq_refl) as H1.
  pose proof (Hnth 2%nat _ _ eq_refl) as H2. pose proof (Hnth 3%nat _ _ eq_refl) as H3.
  pose proof (Hnth 4%nat _ _ eq_refl) as H4. pose proof (Hnth 5%nat _ _ eq_refl) as H5.
  pose proof (Hnth 6%nat _ _ eq_refl) as H6. pose proof (Hnth 7%nat _ _ eq_refl) as H7.
  apply andb_prop in H1 as [H1 H1']. apply negb_true_iff in H6, H7. auto 10.
Qed.
End grants.

(** C5. A grant is only created within the authority it derives from: when
    [create_grant] succeeds, the charter was the agent's and active, and the grant's
    capability, machine, task types, repositories, risk and owner lie within the
    charter; the package was deployed to the agent, and the grant's capability and
    task types, the only bounds that are compared with the package, lie within it;
    the new row is the request's, active, and committed together with a "granted"
    event that carries the request. *)
Theorem create_grant_attenuates `{World} p s id s' :
  create_grant p s = (Ok id, s') →
  ∃ a c k, agents (db s) !! gc_agent_id p = Some a ∧ charters (db s) !! gc_charter_id p = Some c ∧
    packages (db s) !! gc_package_id p = Some k ∧ grant_within p a c k (w_now (clock s)) ∧
    (∃ dep, pd_is_active dep = true ∧ pd_agent_id dep = ag_id a ∧ pd_package_id dep = gc_package_id p ∧
       ∃ did, deployments (db s) !! did = Some dep) ∧
    grants (db s) !! id = None ∧ grants (db s') = <[id := new_grant id p]> (grants (db s)) ∧
    (∃ e, grant_events (db s') = grant_events (db s) ++ [e] ∧ gv_grant_id e = id ∧
       gv_event_type e = "granted" ∧ gv_payload e = grant_create_json p) ∧
    saved s' = db s'.
Proof.
  intros E. unfold create_grant in E. run_ok E. injection E0 as <- <-.
  run_ok E. injection E0 as <- <-. run_ok E. injection E0 as <- <-. cbn in E.
  destruct (charters (db s) !! gc_charter_id p) as [c|] eqn:Hc; [|done].
  destruct (agents (db s) !! gc_agent_id p) as [a|] eqn:Ha; [|done].
  destruct (negb _ || negb _) eqn:Hch; [done|]. destruct (_ <=? _) eqn:Hexp; [done|].
  destruct (failed_check _) eqn:Hchk; [done|].
  run_ok E. injection E0 as <- <-. run_ok E. injection E0 as <- <-. cbn in E.
  destruct (packages (db s) !! gc_package_id p) as [k|] eqn:Hk; [|done].
  destruct (head (List.filter _ (table_rows (deployments (db s))))) as [dep|] eqn:Hdep; [|done].
  destruct (negb _ || negb _) eqn:Hpk in E; [done|]. run_ok E. injection E0 as <- <-.
  destruct (head _) in E; [done|]. run_ok E. injection E0 as <- <-.
  run_ok E. cbn in E0. run_ok E0. injection E1 as <- <-. cbn in E0.
  destruct (grants (db s) !! next_id (db s)) eqn:Hnew; [done|]. injection E0 as <- <-.
  run_ok E. unfold _event in E0. run_ok E0. injection E1 as <- <-. injection E0 as <- <-.
  run_ok E. injection E0 as <- <-. injection E as <- <-.
  apply (select_one_Some deployments) in Hdep as [Hd [did Hdid]].
  apply andb_prop in Hd as [Hd Hact]. apply andb_prop in Hd as [Hd1 Hd2].
  apply bool_decide_eq_true in Hd1, Hd2.
  apply orb_false_iff in Hch as [H1 H2]. apply negb_false_iff in H1, H2.
  apply orb_false_iff in Hpk as [H3 H4]. apply negb_false_iff in H3, H4.
  pose proof (grant_checks_hold _ _ _ Hchk) as (G1 & G2 & G3 & G4 & G5 & G6 & G7 & G8 & G9).
  exists a, c, k. split; [done|]. split; [done|]. split; [done|]. split.
  { unfold grant_within. apply bool_decide_eq_true in H1. apply str_eqb_spec in H2.
    apply str_in_spec in H3. apply str_subset_spec in H4. apply Z.leb_gt in Hexp. auto 20. }
  split; [by exists dep; eauto|]. split; [done|]. split; [done|]. split; [|done].
  eexists. split; [reflexivity|]. done.
Qed.

Definition demo_grant : AgentCapabilityGrantCreate :=
  mkAgentCapabilityGrantCreate 1 2 3 "code" "vm1" ["change"] ["repo"] 1 "founder" "founder" "more"
    (epoch + days 2).

Lemma create_grant_attenuates_witness :
  ∃ s', @create_grant (at_time 1) demo_grant (open_session demo_db) = (Ok 10%N, s') ∧
    grants (db s') !! 10%N = Some (@new_grant (at_time 1) 10 demo_grant) ∧ saved s' = db s'.
Proof.
  assert (E : ∃ s', @create_grant (at_time 1) demo_grant (open_session demo_db) = (Ok 10%N, s'))
    by (eexists; vm_compute; reflexivity).
  destruct E as [s' E]. exists s'. split; [exact E|].
  destruct (@create_grant_attenuates (at_time 1) demo_grant (open_session demo_db) 10%N s' E)
    as (a & c & k & _ & _ & _ & _ & _ & _ & Hg & _ & Hs).
  split; [|exact Hs]. rewrite Hg. apply lookup_insert_eq.
Defined.

(** ** Charters *)
Section charters.
Context `{World}.

Definition keyed {R} (key : R → uuid) (m : gmap uuid R) : Prop := ∀ id r, m !! id = Some r → key r = id.

(** at most one charter of an agent is active *)
Definition one_active (m : gmap uuid AgentCharter) : Prop :=
  ∀ id1 id2 c1 c2, m !! id1 = Some c1 → m !! id2 = Some c2 →
    ch_agent_id c1 = ch_agent_id c2 → ch_status c1 = "active" → ch_status c2 = "active" → id1 = id2.

Lemma revoke_grant_run g actor reason s :
  gr_status g = "active" →
  ∃ s' f, revoke_grant g actor reason false s = (Ok tt, s') ∧ saved s' = saved s ∧
    charters (db s') = charters (db s) ∧ grants (db s') = alter f (gr_id g) (grants (db s)) ∧
    ∀ g0, gr_status (f g0) = "revoked".
Proof.
  intros Hg. unfold revoke_grant. rewrite Hg. cbn. eexists _, _. split; [reflexivity|].
  split; [done|]. split; [done|]. split; [reflexivity|done].
Qed.

(** revoking a list of active grants *)
Lemma revoke_all_run actor reason l s :
  (∀ g, g ∈ l → gr_status g = "active") →
  ∃ s', for_each l (fun g => revoke_grant g actor reason false) s = (Ok tt, s') ∧
    saved s' = saved s ∧ charters (db s') = charters (db s) ∧
    ∀ id g', grants (db s') !! id = Some g' →
      (id ∈ gr_id <$> l ∧ gr_status g' = "revoked") ∨
      ((id ∉ gr_id <$> l) ∧ grants (db s) !! id = Some g').
Proof.
  revert s. induction l as [|g l IH]; intros s Hl.
  { exists s. split; [done|]. split; [done|]. split; [done|]. intros id g' Hg'. right.
    split; [apply not_elem_of_nil|done]. }
  destruct (revoke_grant_run g actor reason s) as (s1 & f & E1 & Hs1 & Hc1 & Hg1 & Hf).
  { apply Hl. by left. }
  destruct (IH s1) as (s' & E & Hs & Hc & Hg). { intros x Hx. apply Hl. by right. }
  exists s'. cbn [for_each]. rewrite (run_bind _ _ _ _ _ E1).
  split; [exact E|]. split; [congruence|]. split; [congruence|].
  intros id g' Hg'. destruct (Hg id g' Hg') as [[Hin Hst]|[Hout Hg2]].
  - left. split; [by right|done].
  - rewrite Hg1 in Hg2. apply lookup_alter_Some in Hg2 as [(<- & g0 & Hg0 & ->)|[Hne Hg2]].
    + left. split; [by left|apply Hf].
    + right. split; [|done]. cbn. rewrite not_elem_of_cons. by split.
Qed.

Lemma active_charter_Some d agent c :
  active_charter d agent = Some c →
  ch_agent_id c = agent ∧ ch_status c = "active" ∧ ∃ id, charters d !! id = Some c.
Proof.
  intros Hc. apply (select_one_Some charters) in Hc as [Hp Hid].
  apply andb_prop in Hp as [Hp1 Hp2]. apply bool_decide_eq_true in Hp1. by apply str_eqb_spec in Hp2.
Qed.

Lemma active_charter_None d agent :
  active_charter d agent = None →
  ∀ id c, charters d !! id = Some c → ch_agent_id c = agent → ch_status c ≠ "active".
Proof.
  intros Hc id c Hid Ea Est. pose proof (select_one_None charters _ _ Hc id c Hid) as Hf. cbv beta in Hf.
  rewrite bool_decide_eq_true_2 in Hf by done. rewrite Est in Hf. done.
Qed.
End charters.

(** *** The charters an activation leaves *)
Section activation.
Context (c p : AgentCharter) (actor : string) (now : datetime) (m : gmap uuid AgentCharter).
Context (Hkey : keyed ch_id m) (Hc : m !! ch_id c = Some c).

Definition activated_charter (c : AgentCharter) : AgentCharter :=
  c <| ch_status := "active" |> <| ch_activated_by := Some actor |> <| ch_activated_at := Some now |>.

(** the table when [p] was active before *)
Definition replaced : gmap uuid AgentCharter :=
  alter activated_charter (ch_id c)
    (alter (fun c => c <| ch_supersedes_id := Some (ch_id p) |>) (ch_id c)
       (alter (fun c => c <| ch_status := "superseded" |>) (ch_id p) m)).

Lemma lookup_replaced id r :
  ch_id p ≠ ch_id c → replaced !! id = Some r →
  (id = ch_id c ∧ ch_status r = "active" ∧ ch_agent_id r = ch_agent_id c) ∨
  (id = ch_id p ∧ ch_status r = "superseded") ∨
  (id ≠ ch_id c ∧ id ≠ ch_id p ∧ m !! id = Some r).
Proof.
  intros Hne. unfold replaced. destruct (decide (id = ch_id c)) as [->|Hid].
  - rewrite !lookup_alter_eq, lookup_alter_ne, Hc by done. intros [= <-]. by left.
  - rewrite !(lookup_alter_ne _ _ (ch_id c)) by done. destruct (decide (id = ch_id p)) as [->|Hid'].
    + rewrite lookup_alter_eq. destruct (m !! ch_id p); intros [= <-]. right. by left.
    + rewrite lookup_alter_ne by done. auto 6.
Qed.

Lemma lookup_activated id r :
  alter activated_charter (ch_id c) m !! id = Some r →
  (id = ch_id c ∧ ch_status r = "active" ∧ ch_agent_id r = ch_agent_id c) ∨
  (id ≠ ch_id c ∧ m !! id = Some r).
Proof.
  rewrite lookup_alter_Some. intros [(<- & r0 & Hr0 & ->)|[Hne Hr]]; [|auto].
  left. rewrite Hc in Hr0. by injection Hr0 as <-.
Qed.

Lemma replaced_one_active :
  one_active m → m !! ch_id p = Some p → ch_agent_id p = ch_agent_id c → ch_status p = "active" →
  ch_id p ≠ ch_id c → one_active replaced.
Proof.
  intros Hone Hp Ea Es Hne id1 id2 c1 c2 H1 H2 Eag Hs1 Hs2.
  destruct (lookup_replaced id1 c1 Hne H1) as [(-> & _ & A1)|[(-> & A1)|(N1 & N1' & M1)]];
    destruct (lookup_replaced id2 c2 Hne H2) as [(-> & _ & A2)|[(-> & A2)|(N2 & N2' & M2)]]; try congruence.
  - exfalso. apply N2'. eapply Hone; [exact M2|exact Hp|congruence|done|done].
  - exfalso. apply N1'. eapply Hone; [exact M1|exact Hp|congruence|done|done].
  - eapply Hone; [exact M1|exact M2|done..].
Qed.

Lemma activated_one_active :
  one_active m → (∀ id r, m !! id = Some r → ch_agent_id r = ch_agent_id c → ch_status r ≠ "active") →
  one_active (alter activated_charter (ch_id c) m).
Proof.
  intros Hone Hnone id1 id2 c1 c2 H1 H2 Eag Hs1 Hs2.
  destruct (lookup_activated id1 c1 H1) as [(-> & _ & A1)|(N1 & M1)];
    destruct (lookup_activated id2 c2 H2) as [(-> & _ & A2)|(N2 & M2)]; try congruence.
  - by destruct (Hnone _ _ M2); [congruence|].
  - by destruct (Hnone _ _ M1); [congruence|].
  - eapply Hone; [exact M1|exact M2|done..].
Qed.
End activation.

(** Activating a draft charter succeeds and leaves the agent exactly one
    active charter, the new one; the previously active charter is superseded, and
    no grant made under it is active any more; charters of other agents are
    untouched. *)
Theorem activate_charter_spec `{World} c actor s :
  charters (db s) !! ch_id c = Some c → ch_status c = "draft" →
  keyed ch_id (charters (db s)) → keyed gr_id (grants (db s)) → one_active (charters (db s)) →
  ∃ s', activate_charter c actor s = (Ok tt, s') ∧ saved s' = db s' ∧
    one_active (charters (db s')) ∧
    (∃ c', charters (db s') !! ch_id c = Some c' ∧ ch_status c' = "active" ∧
       ch_agent_id c' = ch_agent_id c ∧ ch_manifest c' = ch_manifest c) ∧
    (∀ id p, charters (db s) !! id = Some p → ch_agent_id p = ch_agent_id c → ch_status p = "active" →
       ch_status <$> charters (db s') !! id = Some "superseded" ∧
       ∀ gid g, grants (db s') !! gid = Some g → gr_charter_id g = id → gr_status g ≠ "active") ∧
    (∀ id o, charters (db s) !! id = Some o → ch_agent_id o ≠ ch_agent_id c →
       charters (db s') !! id = Some o).
Proof.
  intros Hc Hst Hkc Hkg Hone. unfold activate_charter. rewrite Hst.
  change (str_eqb "draft" "active") with false. change (negb (str_eqb "draft" "draft")) with false.
  cbv iota. set (now := w_now (clock s)). set (s0 := s <| clock := S (clock s) |>).
  rewrite (run_bind _ _ s now s0) by done.
  rewrite (run_bind _ _ s0 (active_charter (db s) (ch_agent_id c)) s0) by done.
  destruct (active_charter (db s) (ch_agent_id c)) as [p|] eqn:Hp.
  - destruct (active_charter_Some _ _ _ Hp) as (Ea & Es & pid & Hpid).
    pose proof (Hkc _ _ Hpid) as <-.
    assert (Hne : ch_id p ≠ ch_id c) by (intros E; rewrite E, Hc in Hpid; congruence).
    set (l := List.filter (fun g => bool_decide (gr_charter_id g = ch_id p) && str_eqb (gr_status g) "active")
      (table_rows (grants (db s)))).
    set (s3 := s0 <| db := set_field charters (alter (fun c => c <| ch_supersedes_id := Some (ch_id p) |>)
      (ch_id c) (alter (fun c => c <| ch_status := "superseded" |>) (ch_id p) (charters (db s)))) (db s) |>).
    destruct (revoke_all_run actor "charter superseded" l s3) as (s4 & E4 & Hs4 & Hc4 & Hg4).
    { intros g Hg. apply (select_rows_elem grants) in Hg as [Hg _]. apply andb_prop in Hg as [_ Hg].
      by apply str_eqb_spec. }
    eexists. split.
    { rewrite (run_bind _ _ s0 tt s4); [|exact E4]. reflexivity. }
    cbn. rewrite Hc4. change (charters (db s3)) with
      (alter (fun c => c <| ch_supersedes_id := Some (ch_id p) |>)
        (ch_id c) (alter (fun c => c <| ch_status := "superseded" |>) (ch_id p) (charters (db s)))).
    split; [done|]. split; [by apply (replaced_one_active c p actor now)|]. split; [|split].
    + rewrite !lookup_alter_eq, lookup_alter_ne, Hc by done. by eexists.
    + intros id q Hq Eaq Esq.
      assert (id = ch_id p) as -> by (eapply Hone; [exact Hq|exact Hpid|congruence|done|done]).
      split; [by rewrite !(lookup_alter_ne _ _ (ch_id c)), lookup_alter_eq, Hq by done|].
      intros gid g Hg Egc Hact. cbn in Hg. destruct (Hg4 gid g Hg) as [[_ Hrev]|[Hout Hg0]]; [congruence|].
      apply Hout, list_elem_of_fmap. cbn in Hg0. exists g. split; [symmetry; by apply Hkg|].
      apply list_elem_of_In, filter_In. split.
      * apply list_elem_of_In, list_elem_of_fmap. exists (gid, g). split; [done|]. by apply elem_of_map_to_list.
      * rewrite bool_decide_eq_true_2 by done. by apply str_eqb_spec.
    + intros id o Ho Eo. rewrite !lookup_alter_ne; [done|intros <-; congruence..].
  - pose proof (active_charter_None _ _ Hp) as Hnone.
    eexists. split; [reflexivity|]. cbn.
    split; [done|]. split; [by apply (activated_one_active c actor now)|]. split; [|split].
    + rewrite lookup_alter_eq, Hc. by eexists.
    + intros id q Hq Eaq Esq. by destruct (Hnone _ _ Hq Eaq).
    + intros id o Ho Eo. rewrite lookup_alter_ne; [done|intros <-; congruence].
Qed.

(** the worker's active charter and a draft that would replace it *)
Definition two_charters : database :=
  demo_db <| charters := {[ 2%N := worker_charter; 7%N := mkAgentCharter 7 1 "2.0.0"
    (ch_manifest worker_charter) "second-digest" "draft" "founder" epoch None None None ]} |>.

Lemma activate_charter_spec_witness :
  ∃ c s', charters two_charters !! 7%N = Some c ∧
    @activate_charter (at_time 1) c "founder" (open_session two_charters) = (Ok tt, s') ∧
    one_active (charters (db s')) ∧ ch_status <$> charters (db s') !! 2%N = Some "superseded".
Proof.
  destruct (charters two_charters !! 7%N) as [c|] eqn:Hc; [|vm_compute in Hc; discriminate].
  assert (E : ch_id c = 7%N ∧ ch_status c = "draft" ∧ ch_agent_id c = 1%N)
    by (vm_compute in Hc; injection Hc as <-; auto).
  destruct E as (Ei & Es & Ea).
  assert (Hkc : keyed ch_id (charters two_charters)).
  { intros id r Hr. cbn in Hr. apply lookup_insert_Some in Hr as [[<- <-]|[_ Hr]]; [reflexivity|].
    apply lookup_singleton_Some in Hr as [<- <-]. reflexivity. }
  assert (Hkg : keyed gr_id (grants two_charters)).
  { intros id r Hr. cbn in Hr. apply lookup_singleton_Some in Hr as [<- <-]. reflexivity. }
  assert (Hone : one_active (charters two_charters)).
  { intros id1 id2 c1 c2 H1 H2 _ S1 S2. cbn in H1, H2.
    apply lookup_insert_Some in H1 as [[<- <-]|[_ H1]], H2 as [[<- <-]|[_ H2]]; try reflexivity.
    - apply lookup_singleton_Some in H2 as [<- <-]. discriminate.
    - apply lookup_singleton_Some in H1 as [<- <-]. discriminate.
    - apply lookup_singleton_Some in H1 as [<- _], H2 as [<- _]. reflexivity. }
  destruct (@activate_charter_spec (at_time 1) c "founder" (open_session two_charters))
    as (s' & E & _ & Hone' & _ & Hsup & _); [rewrite Ei; exact Hc|exact Es|exact Hkc|exact Hkg|exact Hone|].
  exists c, s'. split; [reflexivity|]. split; [exact E|]. split; [exact Hone'|].
  apply (Hsup 2%N worker_charter); [vm_compute; reflexivity|rewrite Ea; reflexivity|reflexivity].
Defined.
