(* ===== verification/HashChain.v ===== *)
(** * Hash-chained event logs

    Grant events, evaluation route events and task graph events share one shape:
    the events of an owner are numbered from 1, each names the digest of the one
    before, and each carries the digest of its own body.  [Chained] is that
    interface; the services' append functions implement it. *)
From Stdlib Require Import Ascii.
From S2P Require Import Prelude Py Sha256 Models Store Logic JsonText AgentGovernance EvaluatorRouting TaskGraphs.

Open Scope Z_scope.

Class Chained (E : Type) := {
  ck_owner : E → uuid;
  ck_sequence : E → Z;
  ck_prior : E → option string;
  ck_digest : E → string;
  ck_body : E → json }.

Section chain.
Context {E : Type} `{!Chained E}.

(** [l] continues a chain: numbered from [n], the first event naming [prior] *)
Fixpoint linked (n : Z) (prior : option string) (l : list E) : Prop :=
  match l with
  | [] => True
  | e :: l' => ck_sequence e = n ∧ ck_prior e = prior ∧ ck_digest e = digest (ck_body e) ∧
               linked (n + 1) (Some (ck_digest e)) l'
  end.

Definition events_of (owner : uuid) (l : list E) : list E :=
  List.filter (fun e => bool_decide (ck_owner e = owner)) l.

(** every owner's events form a chain *)
Definition well_chained (l : list E) : Prop := ∀ owner, linked 1 None (events_of owner l).

(** [e] is what the services append after [l] *)
Definition next_event (l : list E) (e : E) : Prop :=
  let previous := max_by ck_sequence (events_of (ck_owner e) l) in
  ck_sequence e = from_option ck_sequence 0 previous + 1 ∧
  ck_prior e = ck_digest <$> previous ∧ ck_digest e = digest (ck_body e).

Lemma linked_snoc n prior l e :
  linked n prior l →
  ck_sequence e = n + Z.of_nat (length l) →
  ck_prior e = match last l with Some p => Some (ck_digest p) | None => prior end →
  ck_digest e = digest (ck_body e) → linked n prior (l ++ [e]).
Proof.
  revert n prior. induction l as [|x l IH]; intros n prior Hl Hseq Hprior Hdig; cbn in *.
  - split; [lia|]. by repeat split.
  - destruct Hl as (H1 & H2 & H3 & Hl). split; [done|]. split; [done|]. split; [done|].
    apply IH; [done|lia| |done]. rewrite Hprior. rewrite last_cons. by destruct (last l).
Qed.

(** the event with the greatest number is the last one *)
Lemma linked_max n prior l :
  linked n prior l → max_by ck_sequence l = last l ∧
  ∀ e, last l = Some e → ck_sequence e = n + Z.of_nat (length l) - 1.
Proof.
  intros Hl. assert (Hseq : ∀ i e, l !! i = Some e → ck_sequence e = n + Z.of_nat i).
  { revert n prior Hl. induction l as [|x l IH]; intros n prior Hl i e; [done|].
    destruct Hl as (H1 & _ & _ & Hl). destruct i as [|i]; cbn; [intros [= <-]; lia|].
    intros Hi. rewrite (IH _ _ Hl i e Hi). lia. }
  clear Hl. induction l as [|x l IH] using rev_ind; [done|].
  rewrite last_snoc, max_by_app. split.
  - destruct IH as [-> IH]; [intros i e Hi; apply Hseq; by apply lookup_app_l_Some|].
    destruct (last l) as [b|] eqn:Hb; [|done].
    rewrite (IH b eq_refl). rewrite (Hseq (length l) x) by (by rewrite lookup_app_r, Nat.sub_diag by lia).
    by destruct (Z.ltb_spec (n + Z.of_nat (length l) - 1) (n + Z.of_nat (length l))); [|lia].
  - intros e [= <-]. rewrite (Hseq (length l) x) by (by rewrite lookup_app_r, Nat.sub_diag by lia).
    rewrite length_app. cbn. lia.
Qed.

Lemma events_of_snoc owner l e :
  events_of owner (l ++ [e]) =
  if bool_decide (ck_owner e = owner) then events_of owner l ++ [e] else events_of owner l.
Proof.
  unfold events_of. rewrite List.filter_app. cbn. destruct (bool_decide _); [done|apply app_nil_r].
Qed.

Lemma well_chained_append l e : well_chained l → next_event l e → well_chained (l ++ [e]).
Proof.
  intros Hl (H1 & H2 & H3) owner. rewrite events_of_snoc. case_bool_decide as Eo; [|apply Hl].
  subst owner. pose proof (Hl (ck_owner e)) as Hc. destruct (linked_max _ _ _ Hc) as [Hmax Hlast].
  rewrite Hmax in H1, H2. apply linked_snoc; [done| | |done].
  - rewrite H1. destruct (last _) as [p|] eqn:Hp; cbn; [rewrite (Hlast p eq_refl); lia|].
    apply last_None in Hp. rewrite Hp. done.
  - rewrite H2. by destruct (last _).
Qed.

(** the last event of a chain names the digest of the one before it *)
Lemma linked_app n prior l e :
  linked n prior (l ++ [e]) →
  linked n prior l ∧ ck_sequence e = n + Z.of_nat (length l) ∧ ck_digest e = digest (ck_body e) ∧
  ck_prior e = match last l with Some p => Some (ck_digest p) | None => prior end.
Proof.
  revert n prior. induction l as [|x l IH]; intros n prior; cbn -[Z.of_nat].
  - intros (H1 & H2 & H3 & _). split_and!; try done. lia.
  - intros (H1 & H2 & H3 & Hl). destruct (IH _ _ Hl) as (H4 & H5 & H6 & H7). rewrite last_cons.
    split_and!; try done; [lia|]. rewrite H7. by destruct (last l).
Qed.

Lemma linked_digest n prior l e : linked n prior l → last l = Some e → ck_digest e = digest (ck_body e).
Proof. intros Hl [l' ->]%last_Some. by destruct (linked_app _ _ _ _ Hl) as (_ & _ & H & _). Qed.
End chain.

(** ** The three logs *)

#[export] Instance grant_chain : Chained AgentGrantEvent := {
  ck_owner := gv_grant_id; ck_sequence := gv_sequence; ck_prior := gv_prior_event_digest;
  ck_digest := gv_event_digest;
  ck_body e := grant_event_body (gv_grant_id e) (gv_sequence e) (gv_event_type e) (gv_actor e)
                 (gv_payload e) (gv_prior_event_digest e) }.

#[export] Instance route_chain : Chained EvaluationRouteEvent := {
  ck_owner := ev_route_id; ck_sequence := ev_sequence; ck_prior := ev_previous_digest;
  ck_digest := ev_event_digest;
  ck_body e := route_event_body (ev_route_id e) (ev_sequence e) (ev_event_type e) (ev_actor e)
                 (ev_payload e) (ev_previous_digest e) }.

#[export] Instance graph_chain : Chained TaskGraphEvent := {
  ck_owner := ge_graph_id; ck_sequence := ge_sequence; ck_prior := ge_previous_digest;
  ck_digest := ge_event_digest;
  ck_body e := graph_event_body (ge_graph_id e) (ge_sequence e) (ge_event_type e) (ge_actor e)
                 (ge_payload e) (ge_previous_digest e) }.

(** ** What the services' appends guarantee *)
Section appends.
Context `{World}.

Lemma grant_event_run g ty a p s :
  ∃ e, _event g ty a p s = (Ok tt, s <| db := set_field grant_events (grant_events (db s) ++ [e]) (db s) |>) ∧
    next_event (grant_events (db s)) e ∧ gv_grant_id e = g ∧ gv_event_type e = ty ∧ gv_actor e = a ∧ gv_payload e = p.
Proof.
  unfold _event, mbind, Sess_bind, gets, append_log, update. cbv zeta beta iota.
  eexists. split; [reflexivity|]. by repeat split.
Qed.

Lemma route_event_run r ty a p s :
  ∃ e, append_route_event r ty a p s =
    (Ok tt, s <| db := set_field route_events (route_events (db s) ++ [e]) (db s) |>) ∧
    next_event (route_events (db s)) e ∧ ev_route_id e = r ∧ ev_payload e = p.
Proof.
  unfold append_route_event, mbind, Sess_bind, gets, append_log, update. cbv zeta beta iota.
  eexists. split; [reflexivity|]. by repeat split.
Qed.

Lemma graph_event_run g ty a p s :
  ∃ e, append_graph_event g ty a p s =
    (Ok tt, s <| db := set_field graph_events (graph_events (db s) ++ [e]) (db s) |>) ∧
    next_event (graph_events (db s)) e ∧ ge_graph_id e = g ∧ ge_payload e = p.
Proof.
  unfold append_graph_event, mbind, Sess_bind, gets, append_log, update. cbv zeta beta iota.
  eexists. split; [reflexivity|]. by repeat split.
Qed.
End appends.

(** every log of the control plane is chained *)
Definition logs_chained (d : database) : Prop :=
  well_chained (grant_events d) ∧ well_chained (route_events d) ∧ well_chained (graph_events d).

(** C32. Appending a grant event, a route event or a graph event always succeeds,
    adds exactly one event at the end of its log, and keeps every owner's events
    numbered from 1, each carrying the digest of its own body and naming the
    digest of the event before it. *)
Theorem event_appends_keep_chains `{World} owner ty actor payload s :
  logs_chained (db s) →
  (∃ s' e, _event owner ty actor payload s = (Ok tt, s') ∧
     grant_events (db s') = grant_events (db s) ++ [e] ∧ gv_payload e = payload ∧ logs_chained (db s')) ∧
  (∃ s' e, append_route_event owner ty actor payload s = (Ok tt, s') ∧
     route_events (db s') = route_events (db s) ++ [e] ∧ ev_payload e = payload ∧ logs_chained (db s')) ∧
  (∃ s' e, append_graph_event owner ty actor payload s = (Ok tt, s') ∧
     graph_events (db s') = graph_events (db s) ++ [e] ∧ ge_payload e = payload ∧ logs_chained (db s')).
Proof.
  intros (H1 & H2 & H3). split; [|split].
  - destruct (grant_event_run owner ty actor payload s) as (e & E & Hn & _ & _ & _ & Hp).
    eexists _, e. split; [exact E|]. split; [done|]. split; [done|].
    split; [by apply well_chained_append|by split].
  - destruct (route_event_run owner ty actor payload s) as (e & E & Hn & _ & Hp).
    eexists _, e. split; [exact E|]. split; [done|]. split; [done|].
    split; [done|]. split; [by apply well_chained_append|done].
  - destruct (graph_event_run owner ty actor payload s) as (e & E & Hn & _ & Hp).
    eexists _, e. split; [exact E|]. split; [done|]. split; [done|].
    split; [done|]. split; [done|by apply well_chained_append].
Qed.

#[local] Instance quiet_world : World := {|
  w_now := fun _ => 0; w_server_now := 0; w_token_hex := fun _ => ""; w_token_urlsafe := fun _ => "";
  w_locked := fun _ => false; agent_token_secret := "";
  w_search := fun _ => Err (HTTPException 409 (JStr "Retrieval projection is stale and must be rebuilt.")) |}.

Lemma event_appends_keep_chains_witness :
  ∃ s' e, _event 7 "granted" "founder" [] (open_session empty_db) = (Ok tt, s') ∧
    grant_events (db s') = [] ++ [e] ∧ gv_payload e = [] ∧ logs_chained (db s').
Proof.
  apply (event_appends_keep_chains 7 "granted" "founder" [] (open_session empty_db)).
  split; [|split]; intros owner; exact I.
Defined.

(** ** The canonical text of a grant event *)

(** reading an escaped string gives it back, whatever follows the closing quote *)
Lemma scan_escape s r : scan_string (Str.chars (Json.escape s) ++ "034"%char :: r) = Some (N_of_ascii <$> Str.chars s, r).
Proof.
  induction s as [|c s IH]; [done|]. cbn [Json.escape Str.chars fmap list_fmap]. rewrite chars_app, <- app_assoc.
  set (l := (Str.chars (Json.escape s) ++ _)%list) in *. clearbody l.
  assert (E : scan_string (Str.chars (Json.escape_char c) ++ l) =
    match scan_string l with Some rest => Some (N_of_ascii c :: rest.1, rest.2) | None => None end).
  { clear IH. destruct c as [[] [] [] [] [] [] [] []]; reflexivity. }
  by rewrite E, IH.
Qed.

Lemma chars_inj s s' : Str.chars s = Str.chars s' → s = s'.
Proof. revert s'. induction s as [|c s IH]; intros [|c' s']; cbn; try done. intros [= -> E]. by rewrite (IH _ E). Qed.

(** a quoted string can be told apart from what follows it *)
Lemma quoted_inj s s' r r' :
  (Str.chars (Json.quoted s) ++ r = Str.chars (Json.quoted s') ++ r')%list → s = s' ∧ r = r'.
Proof.
  unfold Json.quoted. rewrite !chars_app, <- !app_assoc. cbn. intros [= E].
  apply (f_equal scan_string) in E. rewrite !scan_escape in E. injection E as E ->. split; [|done].
  apply chars_inj. revert E. generalize (Str.chars s), (Str.chars s'). induction l as [|c l IH]; intros [|c' l']; cbn; try done.
  intros [= Ec E]. rewrite (IH _ E). f_equal. rewrite <- (ascii_N_embedding c), <- (ascii_N_embedding c'). by rewrite Ec.
Qed.

(** the members after the payload *)
Definition event_tail (prior : option string) (sequence : Z) : list ascii :=
  Str.chars ("," +:+ Json.quoted "prior_event_digest" +:+ ":") ++ Str.chars (Json.dumps (Json.opt_str prior)) ++
  Str.chars ("," +:+ Json.quoted "sequence" +:+ ":" +:+ pretty sequence +:+ "}").

(** the members of an event in the order of their keys *)
Lemma members_sorted g n ty a p prior :
  foldr (fun kv acc => Json.insert_key kv.1 kv.2 acc) []
    [("grant_id", g); ("sequence", n); ("event_type", ty); ("actor", a); ("payload", p); ("prior_event_digest", prior)] =
  [("actor", a); ("event_type", ty); ("grant_id", g); ("payload", p); ("prior_event_digest", prior); ("sequence", n)].
Proof. reflexivity. Qed.

Lemma event_text g n ty a p prior :
  Str.chars (Json.dumps (grant_event_body g n ty a p prior)) =
  (Str.chars ("{" +:+ Json.quoted "actor" +:+ ":") ++ Str.chars (Json.quoted a) ++
   Str.chars ("," +:+ Json.quoted "event_type" +:+ ":") ++ Str.chars (Json.quoted ty) ++
   Str.chars ("," +:+ Json.quoted "grant_id" +:+ ":") ++ Str.chars (Json.quoted (uuid_str g)) ++
   Str.chars ("," +:+ Json.quoted "payload" +:+ ":") ++ Str.chars (Json.dumps (JObj p)) ++ event_tail prior n)%list.
Proof.
  unfold grant_event_body, event_tail. generalize (JObj p), (Json.opt_str prior). intros payload prior'.
  change (Json.dumps (JObj ?d)) with ("{" +:+ Str.join "," ((fun kv => Json.quoted kv.1 +:+ ":" +:+ kv.2) <$>
    foldr (fun kv acc => Json.insert_key kv.1 kv.2 acc) [] ((fun kv => (kv.1, Json.dumps kv.2)) <$> d)) +:+ "}").
  cbn [fmap list_fmap fst snd]. rewrite members_sorted. cbn [fmap list_fmap fst snd Str.join].
  rewrite !chars_app, <- !app_assoc. reflexivity.
Qed.

Lemma escape_hex s : forallb is_hex (Str.chars s) = true → Json.escape s = s.
Proof.
  induction s as [|c s IH]; [done|]. cbn [Str.chars forallb Json.escape]. intros [Hc Hs]%andb_prop. rewrite (IH Hs).
  clear IH Hs. by destruct c as [[] [] [] [] [] [] [] []].
Qed.

(** the texts of a missing digest and of a digest *)
Definition digest_or_none (prior : option string) : Prop := from_option (fun d => Str.hex_between 64 64 d = true) True prior.

Lemma prior_length prior :
  digest_or_none prior → length (Str.chars (Json.dumps (Json.opt_str prior))) = if prior then 66%nat else 4%nat.
Proof.
  destruct prior as [d|]; [|done]. cbn [digest_or_none from_option Json.opt_str Json.dumps].
  unfold Str.hex_between. rewrite !andb_true_iff, !Nat.leb_le. intros [[H1 H2] Hd]. unfold Json.quoted.
  rewrite escape_hex by exact Hd. rewrite !chars_app, !length_app, !length_chars. cbn. lia.
Qed.

Lemma opt_str_inj prior prior' : Json.dumps (Json.opt_str prior) = Json.dumps (Json.opt_str prior') → prior = prior'.
Proof.
  destruct prior as [d|], prior' as [d'|]; intros E; try done. cbn in E. f_equal. apply (f_equal Str.chars) in E.
  apply (quoted_inj d d' [] []). by rewrite !app_nil_r.
Qed.

(** events at one place of their chains with one text say the same *)
Lemma event_text_inj g g' n ty ty' a a' p p' prior prior' :
  digest_or_none prior → digest_or_none prior' → (is_Some prior ↔ is_Some prior') →
  Json.dumps (grant_event_body g n ty a p prior) = Json.dumps (grant_event_body g' n ty' a' p' prior') →
  ty = ty' ∧ a = a' ∧ Json.dumps (JObj p) = Json.dumps (JObj p') ∧ prior = prior'.
Proof.
  intros Hp Hp' Hiff E. apply (f_equal Str.chars) in E. rewrite !event_text in E.
  apply app_inv_head in E. apply quoted_inj in E as [-> E]. apply app_inv_head in E. apply quoted_inj in E as [-> E].
  apply app_inv_head in E. apply quoted_inj in E as [_ E]. apply app_inv_head in E.
  apply app_inj_2 in E as [E Et].
  - apply chars_inj in E. unfold event_tail in Et. apply app_inv_head, app_inv_tail, chars_inj in Et.
    split_and!; try done. by apply opt_str_inj.
  - unfold event_tail. rewrite !length_app, !prior_length by done.
    destruct Hiff as [H1 H2].
    destruct prior, prior'; try done; [by destruct (H1 (mk_is_Some _ _ eq_refl))|by destruct (H2 (mk_is_Some _ _ eq_refl))].
Qed.

(** what an event tells: its type, its actor and the text of its payload *)
Definition told (e : AgentGrantEvent) : string * string * string :=
  (gv_event_type e, gv_actor e, Json.dumps (JObj (gv_payload e))).

(** two events with different texts and one SHA-256 *)
Definition text_collision (e e' : AgentGrantEvent) : Prop :=
  Json.dumps (ck_body e) ≠ Json.dumps (ck_body e') ∧ sha256 (Json.dumps (ck_body e)) = sha256 (Json.dumps (ck_body e')).

Lemma text_told e e' :
  gv_sequence e = gv_sequence e' → digest_or_none (gv_prior_event_digest e) → digest_or_none (gv_prior_event_digest e') →
  (is_Some (gv_prior_event_digest e) ↔ is_Some (gv_prior_event_digest e')) →
  Json.dumps (ck_body e) = Json.dumps (ck_body e') → told e = told e' ∧ gv_prior_event_digest e = gv_prior_event_digest e'.
Proof.
  intros Hn Hp Hp' Hiff E. change (ck_body ?x) with (grant_event_body (gv_grant_id x) (gv_sequence x) (gv_event_type x)
    (gv_actor x) (gv_payload x) (gv_prior_event_digest x)) in E. rewrite Hn in E.
  apply event_text_inj in E as (E1 & E2 & E3 & E4); [|done..]. unfold told. by rewrite E1, E2, E3.
Qed.

(** the events before the last of a chain carry digests *)
Lemma prior_is_digest (l : list AgentGrantEvent) y p :
  linked 1 None (l ++ [y]) → p = Some (gv_event_digest y) → digest_or_none p.
Proof. intros Hl ->. pose proof (linked_digest _ _ _ _ Hl (last_snoc _ _)) as E. cbn in E |- *. rewrite E. apply sha256_hex. Qed.

(** chains of one length that end in one digest tell the same, or two events at one
    place collide *)
Lemma chains_agree l l' e e' :
  linked 1 None (l ++ [e]) → linked 1 None (l' ++ [e']) → length l = length l' → gv_event_digest e = gv_event_digest e' →
  told <$> l ++ [e] = told <$> l' ++ [e'] ∨
  (∃ i x x', (l ++ [e]) !! i = Some x ∧ (l' ++ [e']) !! i = Some x' ∧ text_collision x x').
Proof.
  revert l' e e'. induction l as [|y l IH] using rev_ind; intros l' e e' H1 H2 Hlen Hdig;
    destruct (linked_app _ _ _ _ H1) as (Hl1 & S1 & D1 & P1); destruct (linked_app _ _ _ _ H2) as (Hl2 & S2 & D2 & P2);
    (destruct (decide (Json.dumps (ck_body e) = Json.dumps (ck_body e'))) as [Eb|Nb];
      [|right; exists (length l'), e, e'; rewrite <- Hlen at 1; rewrite !lookup_app_r, !Nat.sub_diag by lia;
        split_and!; [done|done|]; split; [done|exact (eq_trans (eq_sym D1) (eq_trans Hdig D2))]]).
  - destruct l' as [|? ?]; [|done]. left. cbn in S1, S2, P1, P2.
    apply text_told in Eb as [Eb _]; [|by rewrite S1, S2|by rewrite P1|by rewrite P2|by rewrite P1, P2].
    cbn. by rewrite Eb.
  - destruct l' as [|x l' _] using rev_ind; [rewrite length_app in Hlen; cbn in Hlen; lia|].
    rewrite !length_app in Hlen. cbn in Hlen. rewrite last_snoc in P1, P2. cbn in P1, P2.
    apply text_told in Eb as [Et Ep];
      [|cbn in S1, S2; rewrite S1, S2, !length_app; cbn; lia|exact (prior_is_digest _ _ _ Hl1 P1)|exact (prior_is_digest _ _ _ Hl2 P2)|by rewrite P1, P2].
    rewrite P1, P2 in Ep. injection Ep as Ep.
    destruct (IH l' y x Hl1 Hl2) as [Hall|(i & z & z' & Hz & Hz' & Hc)]; [lia|done| |].
    + left. rewrite !(fmap_app told (_ ++ _)), Hall. cbn. by rewrite Et.
    + right. exists i, z, z'. split; [by apply lookup_app_l_Some|]. split; [by apply lookup_app_l_Some|done].
Qed.

(** ** A history of a grant log *)
Record grant_append := mkGrantAppend {
  ga_grant : uuid; ga_event_type : string; ga_actor : string; ga_payload : Json.dict }.

(** the appends one after the other *)
Definition append_all `{World} (appends : list grant_append) : Sess unit :=
  for_each appends (fun a => _event (ga_grant a) (ga_event_type a) (ga_actor a) (ga_payload a)).

(** what was appended to the log of one grant *)
Definition appended (g : uuid) (appends : list grant_append) : list (string * string * string) :=
  (fun a => (ga_event_type a, ga_actor a, Json.dumps (JObj (ga_payload a)))) <$>
  List.filter (fun a => bool_decide (ga_grant a = g)) appends.

Lemma append_all_run `{World} appends s :
  well_chained (grant_events (db s)) →
  ∃ s', append_all appends s = (Ok tt, s') ∧ well_chained (grant_events (db s')) ∧
    ∀ g, told <$> events_of g (grant_events (db s')) = (told <$> events_of g (grant_events (db s))) ++ appended g appends.
Proof.
  unfold append_all. revert s. induction appends as [|a appends IH]; intros s Hc; cbn [for_each].
  { exists s. split; [done|]. split; [done|]. intros g. by rewrite app_nil_r. }
  destruct (grant_event_run (ga_grant a) (ga_event_type a) (ga_actor a) (ga_payload a) s) as (e & E & Hn & Hg & Ht & Ha & Hp).
  rewrite (run_bind _ _ _ _ _ E). destruct (IH (s <| db := set_field grant_events (grant_events (db s) ++ [e]) (db s) |>))
    as (s' & E' & Hc' & Htold); [by apply well_chained_append|].
  exists s'. split; [exact E'|]. split; [done|]. intros g. rewrite Htold. cbn -[events_of]. rewrite events_of_snoc.
  unfold appended. cbn. rewrite Hg. case_bool_decide; [|done].
  rewrite fmap_app, <- app_assoc. cbn. unfold told at 2. by rewrite Ht, Ha, Hp.
Qed.

(** C33. A grant's event log is tamper evident.  Appending any list of events to an
    empty log succeeds, and the events of a grant tell what was appended to it, in
    order.  Any other log of the grant that verifies as a chain, with as many events
    and the same last digest, tells the same types, actors and payloads (as
    canonical text) in the same order, unless at one place its event and the
    recorded one are different texts with one SHA-256. *)
Theorem grant_log_tamper_evident `{World} appends g s :
  grant_events (db s) = [] →
  ∃ s', append_all appends s = (Ok tt, s') ∧
    let recorded := events_of g (grant_events (db s')) in
    told <$> recorded = appended g appends ∧ linked 1 None recorded ∧
    ∀ log, linked 1 None log → length log = length (appended g appends) →
      gv_event_digest <$> last log = gv_event_digest <$> last recorded →
      told <$> log = appended g appends ∨
      ∃ i x x', recorded !! i = Some x ∧ log !! i = Some x' ∧ text_collision x x'.
Proof.
  intros Hs. destruct (append_all_run appends s) as (s' & E & Hc & Ht); [by rewrite Hs|]. exists s'. split; [done|].
  specialize (Ht g). specialize (Hc g). rewrite Hs in Ht. set (recorded := events_of g (grant_events (db s'))) in *.
  cbn in Ht. cbv zeta. split; [done|]. split; [done|]. intros log Hl Hlen Hlast. rewrite <- Ht in Hlen |- *. rewrite length_fmap in Hlen.
  clearbody recorded. destruct recorded as [|x l _] using rev_ind; [apply nil_length_inv in Hlen as ->; by left|].
  destruct log as [|x' l' _] using rev_ind; [rewrite length_app in Hlen; cbn in Hlen; lia|].
  rewrite !last_snoc in Hlast. injection Hlast as Hlast. rewrite !length_app in Hlen. cbn in Hlen.
  destruct (chains_agree l l' x x' Hc Hl) as [->|?]; [lia|done|by left|by right].
Qed.

(** two appends, and the log they leave *)
Definition demo_appends : list grant_append :=
  [mkGrantAppend 7 "granted" "founder" [("capability", JStr "code")]; mkGrantAppend 7 "revoked" "founder" []].

Lemma grant_log_tamper_evident_witness :
  ∃ s', append_all demo_appends (open_session empty_db) = (Ok tt, s') ∧
    told <$> events_of 7 (grant_events (db s')) = appended 7 demo_appends ∧ length (appended 7 demo_appends) = 2%nat.
Proof.
  destruct (grant_log_tamper_evident demo_appends 7 (open_session empty_db) eq_refl) as (s' & E & Ht & _).
  exists s'. split; [exact E|]. split; [exact Ht|reflexivity].
Defined.
