(* ===== verification/RuntimeTheorems.v ===== *)
(** * The life of a lease

    What the agents' endpoints do to a task once it is leased: which tokens are
    accepted, what starting, failing, releasing and reaping leave behind. *)
From Stdlib Require Import Ascii.
From S2P Require Import Prelude Py Sha256 Models Store Logic Security TaskCore Notifications Governance.
From S2P Require Import CoreInvariant GovernanceFacts AgentGovernance Controls EvaluatorRouting Tasks Dag.
From S2P Require Import Missions AgentContext TaskGraphs Conversations TaskRuntime Supervision TasksFacts.
From S2P Require Import RuntimeFacts System Demo.

Open Scope Z_scope.

(** ** Lease verification *)
Section verify.
Context `{World}.

(** a lease that [verify_task_lease] accepts at time [now] *)
Definition accepts (t : Task) (a : Agent) (token : string) (now : datetime) : Prop :=
  t_assigned_agent_id t = Some (ag_id a) ∧
  (∃ e, t_lease_expires_at t = Some e ∧ now < e) ∧
  (∃ prefix, extract_task_lease_token_prefix token = Some prefix ∧ t_lease_token_prefix t = Some prefix) ∧
  t_lease_token_digest t = Some (digest_task_lease_token token).

Lemma verify_accepts t a token l s :
  t_status t ∈ l → accepts t a token (w_now (clock s)) →
  verify_task_lease t a token l s = (Ok (w_now (clock s)), s <| clock := S (clock s) |>).
Proof.
  intros Hst (Ha & (e & He & Hlt) & (p & Hp & Hp') & Hd). unfold verify_task_lease.
  rewrite (run_bind _ _ s (w_now (clock s)) (s <| clock := S (clock s) |>)) by done.
  rewrite (bool_decide_eq_true_2 _ Hst), (bool_decide_eq_true_2 _ Ha), He, Hp, Hp', Hd. cbv beta iota.
  destruct (Z.leb_spec e (w_now (clock s))); [lia|]. by rewrite !str_eqb_refl.
Qed.

Lemma verify_ok t a token l s now s' :
  verify_task_lease t a token l s = (Ok now, s') →
  now = w_now (clock s) ∧ s' = s <| clock := S (clock s) |> ∧ t_status t ∈ l ∧ accepts t a token now.
Proof.
  intros E. assert (Hsome : is_Some (extract_task_lease_token_prefix token)).
  { unfold verify_task_lease in E. run_ok E. repeat (case_match; try discriminate). by eexists. }
  pose proof (wp_verify_task_lease (fun _ => True) t a token l (fun now s' =>
    now = w_now (clock s) ∧ s' = s <| clock := S (clock s) |> ∧ t_status t ∈ l ∧ accepts t a token now) s I)
    as Hwp. unfold wp in Hwp. rewrite E in Hwp. apply Hwp.
  intros ? -> Hst (Ha & He & Hp & Hd). split; [done|]. split; [done|]. split; [done|].
  split; [done|]. split; [done|]. split; [|done]. destruct Hsome as [p Hs]. exists p. by rewrite Hp.
Qed.

(** what [secrets.token_hex] and [secrets.token_urlsafe] draw *)
Definition good_entropy : Prop :=
  (∀ i, free_of "_"%char (w_token_hex i) = true ∧ Str.nonempty (w_token_hex i) = true) ∧
  (∀ i, Str.nonempty (w_token_urlsafe i) = true).

Lemma drawn_prefix gen :
  good_entropy → drawn gen →
  extract_task_lease_token_prefix (lt_token gen) = Some (lt_prefix gen) ∧
  lt_digest gen = digest_task_lease_token (lt_token gen).
Proof.
  intros [Hhex Hurl] (i & j & ->). destruct (Hhex i) as [H1 H2]. split; [|done].
  exact (extract_generated "lt" (w_token_hex i) (w_token_urlsafe j) eq_refl H1 H2 (Hurl j)).
Qed.
End verify.

(** [verify_task_lease] accepts a token exactly when the task's status is one
    of those allowed, the task is assigned to the calling agent, its lease
    expires strictly later than now, and the token's prefix and keyed digest are
    those stored on the row; it then reads the clock once and changes no row. *)
Theorem verify_task_lease_iff `{World} t agent token allowed s now s' :
  verify_task_lease t agent token allowed s = (Ok now, s') ↔
  now = w_now (clock s) ∧ s' = s <| clock := S (clock s) |> ∧ t_status t ∈ allowed ∧
  accepts t agent token now.
Proof.
  split; [apply verify_ok|]. intros (-> & -> & Hst & Hacc). by apply verify_accepts.
Qed.

(** C7. The token a lease hands out is accepted for that task and agent at every
    moment before the lease expires, from the committed row alone. *)
Theorem granted_lease_verifies `{World} agent lease_seconds s id token prior s' :
  good_entropy → safe (saved s) → safe (db s) →
  lease_next_task agent lease_seconds s = (Ok (Some (id, token, prior)), s') →
  ∃ t, tasks (db s') !! id = Some t ∧ t_lease_expires_at t = Some (w_now (clock s) + seconds lease_seconds) ∧
    ∀ s2, w_now (clock s2) < w_now (clock s) + seconds lease_seconds →
      verify_task_lease t agent token [Leased] s2 = (Ok (w_now (clock s2)), s2 <| clock := S (clock s2) |>).
Proof.
  intros Hent Hs Hd E. pose proof (wp_lease_next_task agent lease_seconds s Hs Hd) as Hwp.
  unfold wp in Hwp. rewrite E in Hwp.
  destruct Hwp as (_ & _ & n & s1 & _ & t & gen & _ & _ & _ & _ & _ & Hgen & -> & _ & Hrow).
  destruct (drawn_prefix gen Hent Hgen) as [Hp Hdig].
  eexists. split; [exact Hrow|]. split; [done|]. intros s2 Hlt. apply verify_accepts; [by left|].
  split; [done|]. split; [by eexists|]. split; [by exists (lt_prefix gen)|]. cbn. by rewrite Hdig.
Qed.

Lemma granted_lease_verifies_witness :
  let s := open_session (run approved demo_db) in
  ∃ s' t, @lease_next_task (at_time 3) worker 600 s = (Ok (Some (task_id, lease_token, [])), s') ∧
    tasks (db s') !! task_id = Some t ∧
    ∀ s2, @w_now (at_time 3) (clock s2) < @w_now (at_time 3) 0 + seconds 600 →
      @verify_task_lease (at_time 3) t worker lease_token [Leased] s2 =
        (Ok (@w_now (at_time 3) (clock s2)), s2 <| clock := S (clock s2) |>).
Proof.
  intros s. assert (Hsafe : safe (run approved demo_db))
    by (apply reachable_inv, run_reachable, demo_initial).
  assert (Hent : @good_entropy (at_time 3)) by (split; [intros i; split; reflexivity|intros i; reflexivity]).
  assert (E : ∃ s', @lease_next_task (at_time 3) worker 600 s =
    (Ok (Some (task_id, lease_token, [])), s')) by (eexists; vm_compute; reflexivity).
  destruct E as [s' E].
  destruct (@granted_lease_verifies (at_time 3) worker 600 s task_id lease_token [] s' Hent Hsafe Hsafe E)
    as (t & Ht & _ & Hver).
  exists s', t. split; [exact E|]. split; [exact Ht|exact Hver].
Defined.

(** ** Reaping expired leases *)
Section reap.
Context `{World}.

(** the row a reaped lease leaves *)
Definition reaped (now : datetime) (t : Task) : Task :=
  let ended :=
    if t_max_attempts t <=? t_attempt_count t
    then touched (fun t => t <| t_status := Failed |> <| t_failure := exhausted_failure |>
                             <| t_completed_at := Some now |>) t
    else rearmed t in
  touched clear_lease ended.

Lemma wp_reap_row now id t s :
  safe (saved s) → safe (db s) → tasks (db s) !! id = Some t →
  wp safe (reap_row now t) (fun _ s' => safe (saved s') ∧ safe (db s') ∧
    tasks (db s') = alter (reaped now) id (tasks (db s))) s.
Proof.
  intros Hs Hd Ht. eapply wp_mono;
    [apply wp_and; [by apply (reap_row_keeps now id t)|]|intros r s' [[H1 H2] H3]; split; [exact H1|split; [exact H2|exact H3]]].
  pose proof (ci_task_id _ _ Hd _ _ Ht) as E. cbn in E. unfold reap_row. rewrite E.
  apply wp_bind. eapply (wp_frame core); [eauto with frame|done|]. intros ? s1 Hs1 Hc1.
  injection Hc1 as Ht1 Ha1. rewrite <- Ht1 in Ht |- *. rewrite <- Hs1 in Hs.
  assert (Hd1 : safe (db s1)) by (unfold safe, core; by rewrite Ht1, Ha1).
  apply wp_if; intros Hmax.
  - apply wp_bind, wp_alter, wp_bind. eapply (wp_frame core); [eauto with frame|done|].
    intros ? s2 Hs2 Hc2. injection Hc2 as Ht2 _. apply wp_bind, wp_alter, wp_ret. cbn. rewrite Ht2. cbn.
    rewrite alter_alter. apply alter_ext. intros x Hx. rewrite Ht in Hx. injection Hx as <-.
    unfold reaped. by rewrite Hmax.
  - apply wp_bind. eapply wp_rearm; [done|by apply core_inv_open|exact Ht|].
    intros s2 Hs2 _ Ht2. apply wp_bind. eapply (wp_frame core); [eauto with frame|by rewrite Hs2|].
    intros ? s3 Hs3 Hc3. injection Hc3 as Ht3 _. apply wp_bind, wp_alter, wp_ret. cbn. rewrite Ht3, Ht2.
    rewrite alter_alter. apply alter_ext. intros x Hx. rewrite Ht in Hx. injection Hx as <-.
    unfold reaped. by rewrite Hmax.
Qed.

Lemma wp_reap_all now (l : list uuid) s :
  NoDup l → safe (saved s) → safe (db s) →
  wp safe (map_each l (reap_task now)) (fun _ s' => safe (saved s') ∧ safe (db s') ∧
    ∀ id, tasks (db s') !! id =
      (if bool_decide (id ∈ l) then reaped now else fun t => t) <$> tasks (db s) !! id) s.
Proof.
  intros Hnd. revert s. induction Hnd as [|x l Hx Hnd IH]; intros s Hs Hd; cbn [map_each].
  { apply wp_ret. split; [done|]. split; [done|]. intros id. cbn. by destruct (tasks (db s) !! id). }
  apply wp_bind. unfold reap_task. apply wp_bind, wp_lock_task; [done|]. intros t Ht.
  eapply wp_mono; [by apply (wp_reap_row now x t)|]. intros ? s1 (Hs1 & Hd1 & Ht1). cbv beta.
  apply wp_bind. eapply wp_mono; [by apply IH|]. intros ? s2 (Hs2 & Hd2 & Ht2). apply wp_ret.
  split; [done|]. split; [done|]. intros id. rewrite Ht2, Ht1.
  destruct (decide (id = x)) as [->|Hne].
  - rewrite lookup_alter_eq, Ht. cbn. rewrite bool_decide_eq_false_2 by done.
    rewrite bool_decide_eq_true_2 by by left. done.
  - rewrite (lookup_alter_ne _ _ x) by done. f_equal.
    rewrite (bool_decide_ext (id ∈ x :: l) (id ∈ l)); [done|]. rewrite elem_of_cons. tauto.
Qed.

(** the leases a run of [reap_expired_leases] ends *)
Definition reapable (now : datetime) (t : Task) : bool := lease_lapsed now t && negb (w_locked (t_id t)).

Lemma NoDup_selected (p : Task → bool) d leb :
  safe d → NoDup (t_id <$> sort_by leb (List.filter p (table_rows (tasks d)))).
Proof.
  intros Hd. rewrite sort_by_perm.
  assert (E : ∀ l : list (uuid * Task), (∀ kv, kv ∈ l → t_id kv.2 = kv.1) → NoDup l.*1 →
    NoDup (t_id <$> List.filter p l.*2)).
  { induction l as [|[k v] l IH]; cbn; intros Hk Hnd; [constructor|]. apply NoDup_cons in Hnd as [Hn Hnd].
    assert (IH' : NoDup (t_id <$> List.filter p l.*2)) by (apply IH; [intros kv Hin; apply Hk; by right|done]).
    destruct (p v); [|done]. cbn. pose proof (Hk (k, v) ltac:(by left)) as Hkv. cbn in Hkv. rewrite Hkv. constructor; [|done].
    intros (t & -> & Hin)%list_elem_of_fmap. apply Hn. apply list_elem_of_In, filter_In in Hin as [Hin _].
    apply list_elem_of_In, list_elem_of_fmap in Hin as (kv & -> & Hin). apply list_elem_of_fmap.
    exists kv. split; [apply Hk; by right|done]. }
  apply E; [|apply NoDup_fst_map_to_list]. intros [k v] Hin. apply elem_of_map_to_list in Hin.
  exact (ci_task_id _ _ Hd _ _ Hin).
Qed.
Definition lapsed_ids (now : datetime) (d : database) : list uuid :=
  t_id <$> sort_by expiry_leb (List.filter (reapable now) (table_rows (tasks d))).

Lemma lapsed_ids_elem now d id t :
  safe d → tasks d !! id = Some t → bool_decide (id ∈ lapsed_ids now d) = reapable now t.
Proof.
  intros Hd Ht. apply eq_true_iff_eq. rewrite bool_decide_eq_true. unfold lapsed_ids.
  rewrite list_elem_of_fmap. split.
  - intros (t' & -> & Hin). apply elem_of_sort_by in Hin.
    apply (select_rows_elem tasks) in Hin as [Hp [id' Hid']].
    pose proof (ci_task_id _ _ Hd _ _ Hid') as E'. cbn in E'. congruence.
  - intros Hp. exists t. split; [symmetry; exact (ci_task_id _ _ Hd _ _ Ht)|].
    apply elem_of_sort_by, list_elem_of_In, filter_In. split; [|done].
    apply list_elem_of_In, list_elem_of_fmap. exists (id, t). split; [done|]. by apply elem_of_map_to_list.
Qed.

Lemma wp_reap_expired s :
  let now := w_now (clock s) in
  safe (saved s) → safe (db s) →
  wp safe reap_expired_leases (fun _ s' => safe (db s') ∧ ∀ id, tasks (db s') !! id =
    (fun t => if reapable now t then reaped now t else t) <$> tasks (db s) !! id) s.
Proof.
  intros now Hs Hd. unfold reap_expired_leases. apply wp_bind, wp_utc_now. intros n En. subst n.
  unfold select_rows. apply wp_bind, wp_gets, wp_bind.
  eapply wp_mono; [apply (wp_reap_all now (lapsed_ids now (db s)));
    [exact (NoDup_selected (reapable now) (db s) expiry_leb Hd)|exact Hs|exact Hd]|].
  intros rs s1 (_ & Hd1 & Ht1). apply wp_ret. split; [exact Hd1|]. intros id. rewrite Ht1. cbn.
  destruct (tasks (db s) !! id) as [t|] eqn:Ht; [|done]. cbn.
  rewrite (lapsed_ids_elem now (db s) id t Hd Ht). by destruct (reapable now t).
Qed.

(** a reaped row holds no lease *)
Lemma reaped_unleased now t : lease_lapsed now (reaped now t) = false.
Proof. unfold lease_lapsed, reaped. by destruct (_ <=? _); rewrite andb_false_r. Qed.
End reap.

(** C6. Reaping ends exactly the lapsed leases that no other transaction holds:
    each such task fails for good when its attempts are used up and otherwise
    waits again (for a new approval where one is required), its lease fields
    cleared either way; every other row is untouched, so no lapsed lease is left
    except on rows another transaction holds. *)
Theorem reap_expired_leases_spec `{World} s r s' :
  let now := w_now (clock s) in
  safe (saved s) → safe (db s) → reap_expired_leases s = (Ok r, s') →
  (∀ id, tasks (db s') !! id =
     (fun t => if reapable now t then reaped now t else t) <$> tasks (db s) !! id) ∧
  (∀ id t e, tasks (db s') !! id = Some t → active t → t_lease_expires_at t = Some e → e ≤ now →
     w_locked id = true).
Proof.
  intros now Hs Hd E. pose proof (wp_reap_expired s Hs Hd) as Hwp. apply (wp_run _ _ _ _ _ _ Hwp) in E as [_ Hall].
  split; [exact Hall|]. intros id t e Ht Hact He Hle. rewrite Hall in Ht.
  assert (Hlap : lease_lapsed now t = true).
  { unfold lease_lapsed. rewrite He. apply active_lease_spec in Hact. rewrite Hact. cbn. lia. }
  clear Hact He Hle.
  destruct (tasks (db s) !! id) as [t0|] eqn:Ht0; [|done]. cbn in Ht. injection Ht as <-.
  pose proof (ci_task_id _ _ Hd _ _ Ht0) as E0. cbn in E0. fold now in Hlap. unfold reapable in Hlap.
  rewrite E0 in Hlap. destruct (w_locked id); [done|]. exfalso.
  destruct (lease_lapsed now t0) eqn:Hl0; cbn in Hlap; [by rewrite reaped_unleased in Hlap|congruence].
Qed.

Lemma reap_expired_leases_spec_witness :
  let s := open_session (run running demo_db) in
  ∃ r s', @reap_expired_leases (at_time 5000) s = (Ok r, s') ∧
    t_status <$> tasks (db s') !! task_id = Some PendingApproval.
Proof.
  intros s. assert (Hsafe : safe (run running demo_db)) by (apply reachable_inv, run_reachable, demo_initial).
  assert (E : ∃ r s', @reap_expired_leases (at_time 5000) s = (Ok r, s')) by (eexists _, _; vm_compute; reflexivity).
  destruct E as (r & s' & E). exists r, s'. split; [exact E|].
  destruct (@reap_expired_leases_spec (at_time 5000) s r s' Hsafe Hsafe E) as [Hall _].
  rewrite Hall. vm_compute. reflexivity.
Defined.

(** ** One task edited, the others left alone *)
Section alone.
Context `{World}.

Definition others (id : uuid) (d : database) : gmap uuid Task := delete id (tasks d).

(** [editing], with the other task rows fixed to [ts] *)
Definition alone (ts : gmap uuid Task) (id : uuid) (g : Task) (s : session) : Prop :=
  (∃ aps, editing id g aps s) ∧ others id (db s) = ts.

Lemma others_alter id f : preserves (others id) (alter_task id f).
Proof. intros s. split; [|done]. unfold others. cbn. apply delete_alter_eq. Qed.
Lemma others_core {A} id (m : Sess A) : preserves core m → preserves (others id) m.
Proof. intros Hm s. destruct (Hm s) as [Hc Hs]. injection Hc as Et _. split; [|done]. unfold others. by rewrite Et. Qed.
#[local] Hint Resolve others_alter : frame.
#[local] Hint Extern 5 (preserves (others _) _) => (apply others_core; solve [eauto with frame]) : frame.

Lemma others_rearm id reason : preserves (others id) (rearm_task_approval id reason).
Proof. unfold rearm_task_approval, append_approval_event, select_approval. frame. Qed.

Lemma alone_open id t s :
  safe (saved s) → safe (db s) → tasks (db s) !! id = Some t → alone (others id (db s)) id t s.
Proof. intros Hs Hd Ht. split; [|done]. eexists. by apply edit_open. Qed.

Lemma alone_alter ts id g f s :
  alone ts id g s → same_plan g (f g) →
  wp safe (alter_task id f) (fun _ s' => alone ts id (touched f g) s') s.
Proof.
  intros [[aps He] Ho] Hp. eapply wp_mono; [apply (wp_and_frame (others id)); [apply others_alter|by eapply edit_alter]|].
  intros ? s' (He' & Ho' & _). split; [by eexists|congruence].
Qed.

Lemma alone_frame {A} ts id g (m : Sess A) s :
  alone ts id g s → preserves core m → wp safe m (fun _ s' => alone ts id g s') s.
Proof.
  intros [[aps He] Ho] Hm. eapply wp_mono; [apply (wp_and_frame core); [exact Hm|by eapply edit_frame]|].
  intros ? s' (He' & Hc' & _). injection Hc' as Et _. split; [by eexists|]. unfold others. by rewrite Et.
Qed.

Lemma alone_rearm ts id g reason s :
  alone ts id g s → wp safe (rearm_task_approval id reason) (fun _ s' => alone ts id (rearmed g) s') s.
Proof.
  intros [[aps He] Ho]. eapply wp_mono; [apply (wp_and_frame (others id)); [apply others_rearm|by eapply edit_rearm]|].
  intros ? s' ([aps' He'] & Ho' & _). split; [by exists aps'|congruence].
Qed.

(** a task outside every graph: its graph is not told and not reconciled *)
Lemma wp_no_graph I t Q s :
  t_task_graph_node_id t = None → Q tt s → wp I (_reconcile_task_graph t) Q s.
Proof.
  intros Hn HQ. unfold _reconcile_task_graph, node_and_graph. apply wp_bind, wp_gets. rewrite Hn. cbn.
  by apply wp_ret.
Qed.

(** what an endpoint that ends a lease leaves of a task outside every graph *)
Definition lease_ended (id : uuid) (d : database) (s' : session) (t' : Task) : Prop :=
  saved s' = db s' ∧ others id (db s') = others id d ∧ tasks (db s') !! id = Some t' ∧ lease_clear t'.

Lemma wp_commit_ended I id d g s :
  alone (others id d) id g s → lease_clear g → wp I commit (fun _ s' => lease_ended id d s' g) s.
Proof. intros [[aps (_ & _ & Hg & _)] Ho] Hc. apply wp_commit. split; [reflexivity|]. by split. Qed.
End alone.

Section leased.
Context `{World}.

Lemma wp_open_leased id t agent token allowed (f : Task → datetime → Sess unit) (Q : unit → session → Prop) s :
  safe (saved s) → safe (db s) → tasks (db s) !! id = Some t →
  (∀ s1, t_status t ∈ allowed → accepts t agent token (w_now (clock s)) → db s1 = db s →
     alone (others id (db s)) id t s1 → wp safe (f t (w_now (clock s))) Q s1) →
  wp safe (task ← lock_task id; now ← verify_task_lease task agent token allowed; f task now) Q s.
Proof.
  intros Hs Hd Ht HQ. apply wp_bind, wp_lock_task; [exact Hs|]. intros t0 Ht0. rewrite Ht in Ht0.
  injection Ht0 as <-. apply wp_bind. unfold wp at 1.
  destruct (verify_task_lease t agent token allowed s) as [[now|e] s1] eqn:E.
  - apply verify_ok in E as (-> & -> & Hst & Hacc). eapply HQ; [exact Hst|exact Hacc|reflexivity|].
    split; [|reflexivity]. eexists. eapply edit_open; [exact Hs|exact Hd|exact Ht].
  - pose proof (verify_task_lease_frame core t agent token allowed s) as [_ Hf]. rewrite E in Hf.
    cbn in Hf. by rewrite Hf.
Qed.
End leased.

Lemma wp_complete_task `{World} id agent token message result t s :
  safe (saved s) → safe (db s) → tasks (db s) !! id = Some t → t_task_graph_node_id t = None →
  wp safe (complete_task id agent token message result) (fun _ s' =>
    t_status t ∈ [Running] ∧ accepts t agent token (w_now (clock s)) ∧ t_cancel_requested_at t = None ∧
    lease_ended id (db s) s' (touched clear_lease (touched (succeed (w_now (clock s)) result) t))) s.
Proof.
  intros Hs Hd Ht Hn. apply (wp_open_leased id t); [done..|]. intros s1 Hst Hacc _ Ha1.
  destruct (t_cancel_requested_at t); [by apply wp_raise; destruct Ha1 as [[? []] ?]|].
  edit alone_frame as Ha2; [eauto with frame|]. edit alone_alter as Ha3; [same_row|].
  edit alone_frame as Ha4; [eauto with frame|]. edit alone_frame as Ha5; [eauto with frame|].
  edit alone_alter as Ha6; [same_row|]. edit alone_frame as Ha7; [eauto with frame|].
  apply wp_bind, wp_no_graph; [done|]. 
  eapply wp_mono; [eapply wp_commit_ended; [exact Ha7|by repeat split]|].
  intros ? s8 He. split; [exact Hst|]. split; [exact Hacc|]. split; [reflexivity|exact He].
Qed.

(** C8. Completing a task outside every graph: only a running task with a lease
    the token proves and no cancellation pending succeeds; it keeps the result,
    its completion time is the time of the request, its lease is cleared, no
    other task changes and everything is committed. *)
Theorem complete_task_spec `{World} id agent token message result t s s' :
  safe (saved s) → safe (db s) → tasks (db s) !! id = Some t → t_task_graph_node_id t = None →
  complete_task id agent token message result s = (Ok tt, s') →
  t_status t = Running ∧ accepts t agent token (w_now (clock s)) ∧ t_cancel_requested_at t = None ∧
  ∃ t', lease_ended id (db s) s' t' ∧ t_status t' = Succeeded ∧ t_result t' = result ∧ t_failure t' = [] ∧
    t_completed_at t' = Some (w_now (clock s)) ∧ t_attempt_count t' = t_attempt_count t.
Proof.
  intros Hs Hd Ht Hn E.
  apply (wp_run _ _ _ _ _ _ (wp_complete_task id agent token message result t s Hs Hd Ht Hn)) in E
    as (Hst%list_elem_of_singleton & Hacc & Hc & He).
  split; [done|]. split; [done|]. split; [done|]. eexists. split; [exact He|]. done.
Qed.

Lemma complete_task_spec_witness :
  let s := open_session (run running demo_db) in
  ∃ s' t', @complete_task (at_time 5) task_id worker lease_token "done" [("ok", JBool true)] s = (Ok tt, s') ∧
    tasks (db s') !! task_id = Some t' ∧ t_status t' = Succeeded.
Proof.
  intros s. assert (Hsafe : safe (run running demo_db)) by (apply reachable_inv, run_reachable, demo_initial).
  destruct (tasks (run running demo_db) !! task_id) as [t|] eqn:Ht; [|vm_compute in Ht; discriminate].
  assert (Hn : t_task_graph_node_id t = None) by (vm_compute in Ht; injection Ht as <-; reflexivity).
  assert (E : ∃ s', @complete_task (at_time 5) task_id worker lease_token "done" [("ok", JBool true)] s = (Ok tt, s'))
    by (eexists; vm_compute; reflexivity).
  destruct E as [s' E]. exists s'.
  destruct (@complete_task_spec (at_time 5) task_id worker lease_token "done" [("ok", JBool true)] t s s'
    Hsafe Hsafe Ht Hn E) as (_ & _ & _ & t' & (_ & _ & Ht' & _) & Hst & _).
  exists t'. split; [exact E|]. split; [exact Ht'|exact Hst].
Defined.

(** C9. Failing a task outside every graph: the task goes back to the queue, or
    to a new approval where one is required, exactly when the failure is
    retryable, attempts are left and no supervised mission owns it; otherwise it
    has failed for good.  The failure is recorded, the attempt stays counted, the
    lease is cleared and no other task changes. *)
Theorem fail_task_spec `{World} id agent token message failure retryable t s s' :
  safe (saved s) → safe (db s) → tasks (db s) !! id = Some t → t_task_graph_node_id t = None →
  fail_task id agent token message failure retryable s = (Ok tt, s') →
  active t ∧ accepts t agent token (w_now (clock s)) ∧
  ∃ t', lease_ended id (db s) s' t' ∧
    t_status t' = (if retryable && (t_attempt_count t <? t_max_attempts t) && negb (supervised (db s) t)
                   then rearm_status t else Failed) ∧
    t_failure t' = Json.set "retryable" (JBool retryable) failure ∧
    t_attempt_count t' = t_attempt_count t ∧ t_max_attempts t' = t_max_attempts t.
Proof.
  intros Hs Hd Ht Hn E.
  remember (retryable && (t_attempt_count t <? t_max_attempts t) && negb (supervised (db s) t)) as again eqn:Eagain.
  enough (Hwp : wp safe (fail_task id agent token message failure retryable) (fun _ s' =>
    t_status t ∈ [Leased; Running] ∧ accepts t agent token (w_now (clock s)) ∧ ∃ t', lease_ended id (db s) s' t' ∧
      t_status t' = (if again then rearm_status t else Failed) ∧
      t_failure t' = Json.set "retryable" (JBool retryable) failure ∧
      t_attempt_count t' = t_attempt_count t ∧ t_max_attempts t' = t_max_attempts t) s).
  { pose proof (wp_run _ _ _ _ _ _ Hwp E) as (Hst & Hacc & He). split; [|done].
    rewrite !elem_of_cons, elem_of_nil in Hst. unfold active. tauto. }
  apply (wp_open_leased id t); [done..|]. intros s1 Hst Hacc Hdb Ha1.
  apply wp_bind. eapply wp_mono; [apply (wp_and_frame missions); [unfold alter_task; frame|eapply alone_alter; [exact Ha1|same_row]]|].
  intros ? s2 (Ha2 & Hm2 & _). cbv beta.
  apply wp_bind. eapply wp_mono; [apply (wp_and_frame missions); [unfold _append_terminal_event, discard_working_memory; frame|eapply alone_frame; [exact Ha2|eauto with frame]]|].
  intros ? s3 (Ha3 & Hm3 & _). cbv beta. apply wp_bind, wp_gets.
  replace (supervised (db s3) t) with (supervised (db s) t) by (unfold supervised; by rewrite Hm3, Hm2, Hdb).
  rewrite <- Eagain. apply wp_bind.
  eapply (wp_mono _ _ (fun _ s' => ∃ g, alone (others id (db s)) id g s' ∧
    t_status g = (if again then rearm_status t else Failed) ∧
    t_failure g = Json.set "retryable" (JBool retryable) failure ∧
    t_attempt_count g = t_attempt_count t ∧ t_max_attempts g = t_max_attempts t)).
  { pose proof (ci_task_id _ _ Hd _ _ Ht) as Eid. cbn in Eid.
    apply wp_if; intros Hagain; rewrite Hagain.
    - unfold requeue_failed. rewrite Eid. apply wp_bind. apply wp_if; intros Hreq.
      + eapply wp_mono; [eapply alone_rearm; exact Ha3|]. intros ? s4 Ha4. cbv beta.
        eapply wp_mono; [eapply alone_frame; [exact Ha4|eauto with frame]|]. intros ? s5 Ha5.
        eexists. by split; [exact Ha5|].
      + eapply wp_mono; [eapply alone_alter; [exact Ha3|same_row]|]. intros ? s4 Ha4. cbv beta.
        eapply wp_mono; [eapply alone_frame; [exact Ha4|eauto with frame]|]. intros ? s5 Ha5.
        eexists. split; [exact Ha5|]. unfold rearm_status. by rewrite Hreq.
    - eapply wp_mono; [eapply alone_alter; [exact Ha3|same_row]|]. intros ? s4 Ha4. cbv beta.
      eexists. by split; [exact Ha4|]. }
  intros ? s4 (g & Ha4 & Hg1 & Hg2 & Hg3 & Hg4). cbv beta.
  edit alone_frame as Ha5; [eauto with frame|]. edit alone_alter as Ha6; [same_row|].
  edit alone_frame as Ha7; [eauto with frame|].
  apply wp_bind, wp_no_graph; [done|]. 
  eapply wp_mono; [eapply wp_commit_ended; [exact Ha7|by repeat split]|].
  intros ? s8 He. split; [exact Hst|]. split; [exact Hacc|]. eexists. split; [exact He|].
  split; [exact Hg1|]. split; [exact Hg2|]. split; [exact Hg3|exact Hg4].
Qed.

Lemma fail_task_spec_witness :
  let s := open_session (run running demo_db) in
  ∃ s' t', @fail_task (at_time 5) task_id worker lease_token "broken" [] true s = (Ok tt, s') ∧
    tasks (db s') !! task_id = Some t' ∧ t_status t' = PendingApproval.
Proof.
  intros s. assert (Hsafe : safe (run running demo_db)) by (apply reachable_inv, run_reachable, demo_initial).
  destruct (tasks (run running demo_db) !! task_id) as [t|] eqn:Ht; [|vm_compute in Ht; discriminate].
  assert (Hn : t_task_graph_node_id t = None) by (vm_compute in Ht; injection Ht as <-; reflexivity).
  assert (E : ∃ s', @fail_task (at_time 5) task_id worker lease_token "broken" [] true s = (Ok tt, s'))
    by (eexists; vm_compute; reflexivity).
  destruct E as [s' E]. exists s'.
  destruct (@fail_task_spec (at_time 5) task_id worker lease_token "broken" [] true t s s'
    Hsafe Hsafe Ht Hn E) as (_ & _ & t' & (_ & _ & Ht' & _) & Hst & _).
  exists t'. split; [exact E|]. split; [exact Ht'|]. rewrite Hst.
  vm_compute in Ht. injection Ht as <-. vm_compute. reflexivity.
Defined.

(** Releasing a lease on a task outside every graph gives the attempt back
    unless the task had started running.  A task whose cancellation is pending is
    cancelled; one with an attempt left returns to the queue, or to a new approval
    where one is required; one without has failed.  The lease is cleared and no
    other task changes. *)
Theorem release_task_spec `{World} id agent token message t s s' :
  safe (saved s) → safe (db s) → tasks (db s) !! id = Some t → t_task_graph_node_id t = None →
  release_task id agent token message s = (Ok tt, s') →
  active t ∧ accepts t agent token (w_now (clock s)) ∧
  ∃ t', lease_ended id (db s) s' t' ∧
    t_status t' = (if bool_decide (released_status t = Queued) then rearm_status t else released_status t) ∧
    t_attempt_count t' = effective_attempt_count t ∧ t_max_attempts t' = t_max_attempts t.
Proof.
  intros Hs Hd Ht Hn E. set (now := w_now (clock s)) in *.
  enough (Hwp : wp safe (release_task id agent token message) (fun _ s' =>
    t_status t ∈ [Leased; Running] ∧ accepts t agent token now ∧ ∃ t', lease_ended id (db s) s' t' ∧
      t_status t' = (if bool_decide (released_status t = Queued) then rearm_status t else released_status t) ∧
      t_attempt_count t' = effective_attempt_count t ∧ t_max_attempts t' = t_max_attempts t) s).
  { pose proof (wp_run _ _ _ _ _ _ Hwp E) as (Hst & Hacc & He). split; [|done].
    rewrite !elem_of_cons, elem_of_nil in Hst. unfold active. tauto. }
  apply (wp_open_leased id t); [done..|]. intros s1 Hst Hacc _ Ha1. fold now in Hacc |- *.
  assert (Hplan : same_plan t (apply_release now (released_status t) t)) by by destruct (released_status t).
  assert (Hmax : t_max_attempts (apply_release now (released_status t) t) = t_max_attempts t)
    by by destruct (released_status t).
  assert (Hreq : t_approval_required (apply_release now (released_status t) t) = t_approval_required t)
    by by destruct (released_status t).
  pose proof (released_row_status t now) as Hrow.
  revert Hplan Hmax Hreq Hrow. generalize (apply_release now (released_status t)) as f. intros f Hplan Hmax Hreq Hrow.
  edit alone_alter as Ha2; [exact Hplan|]. edit alone_frame as Ha3; [eauto with frame|].
  edit alone_alter as Ha4; [same_row|].
  set (g4 := touched (fun t0 => t0 <| t_attempt_count := effective_attempt_count t |>) (touched f t)) in *.
  apply wp_bind. eapply (wp_mono _ _ (fun _ s' => ∃ g, alone (others id (db s)) id g s' ∧
    t_status g = (if bool_decide (released_status t = Queued) then rearm_status t else released_status t) ∧
    t_attempt_count g = effective_attempt_count t ∧ t_max_attempts g = t_max_attempts t)).
  { apply wp_when; intros Hq; rewrite Hq.
    - eapply wp_mono; [eapply alone_rearm; exact Ha4|]. intros ? s5 Ha5. eexists. split; [exact Ha5|].
      unfold rearmed, rearm_status. cbn. by rewrite Hreq, Hmax.
    - exists g4. split; [exact Ha4|]. cbn. by rewrite Hrow, Hmax. }
  intros ? s5 (g & Ha5 & Hg1 & Hg2 & Hg3). cbv beta.
  edit alone_frame as Ha6; [eauto with frame|]. edit alone_frame as Ha7; [eauto with frame|].
  edit alone_alter as Ha8; [same_row|]. apply wp_bind, wp_no_graph; [done|].
  eapply wp_mono; [eapply wp_commit_ended; [exact Ha8|by repeat split]|].
  intros ? s9 He. split; [exact Hst|]. split; [exact Hacc|]. eexists. split; [exact He|].
  split; [exact Hg1|]. split; [exact Hg2|exact Hg3].
Qed.

Lemma release_task_spec_witness :
  let s := open_session (run leased demo_db) in
  ∃ s' t', @release_task (at_time 5) task_id worker lease_token "released" s = (Ok tt, s') ∧
    tasks (db s') !! task_id = Some t' ∧ t_status t' = PendingApproval ∧ t_attempt_count t' = 0.
Proof.
  intros s. assert (Hsafe : safe (run leased demo_db)) by (apply reachable_inv, run_reachable, demo_initial).
  destruct (tasks (run leased demo_db) !! task_id) as [t|] eqn:Ht; [|vm_compute in Ht; discriminate].
  assert (Hn : t_task_graph_node_id t = None) by (vm_compute in Ht; injection Ht as <-; reflexivity).
  assert (E : ∃ s', @release_task (at_time 5) task_id worker lease_token "released" s = (Ok tt, s'))
    by (eexists; vm_compute; reflexivity).
  destruct E as [s' E]. exists s'.
  destruct (@release_task_spec (at_time 5) task_id worker lease_token "released" t s s'
    Hsafe Hsafe Ht Hn E) as (_ & _ & t' & (_ & _ & Ht' & _) & Hst & Hatt & _).
  exists t'. split; [exact E|]. split; [exact Ht'|]. rewrite Hst, Hatt.
  vm_compute in Ht. injection Ht as <-. split; reflexivity.
Defined.
