(* ===== verification/GraphTheorems.v ===== *)
(** * What typed task graphs promise

    The contract of [schemas/task_graph.py] and [services/task_graphs.py]: which
    manifests are accepted, that an accepted graph can always make progress, how
    activation wires it and what cancelling it leaves running. *)
From Stdlib Require Import Ascii.
From S2P Require Import Prelude Py Sha256 Models Store Logic Security TaskCore Notifications Governance.
From S2P Require Import CoreInvariant GovernanceFacts AgentGovernance Controls EvaluatorRouting Tasks.
From S2P Require Import TasksFacts Dag Missions AgentContext TaskGraphs TaskRuntime RuntimeFacts System Demo.

Open Scope Z_scope.

(** ** Accepted manifests *)

Definition node_keys (p : TaskGraphCreate) : list string := nc_key <$> gcr_nodes p.

(** node [y] of the manifest depends on [x] *)
Definition node_depends (p : TaskGraphCreate) (x y : string) : Prop :=
  ∃ n, n ∈ gcr_nodes p ∧ nc_key n = y ∧ x ∈ nc_depends_on n.

Lemma node_deps_keys p : (node_deps p).*1 = node_keys p.
Proof. unfold node_deps, node_keys. rewrite <- list_fmap_compose. done. Qed.

Lemma node_deps_depends p x y : depends (node_deps p) x y ↔ node_depends p x y.
Proof.
  unfold node_deps. split.
  - intros (ds & Hin & Hx). apply list_elem_of_fmap in Hin as (n & [= -> ->] & Hin). by exists n.
  - intros (n & Hin & <- & Hx). exists (nc_depends_on n). split; [|done].
    apply list_elem_of_fmap. by exists n.
Qed.

(** C36. A graph manifest is accepted exactly when it has no more nodes than its
    budget, its node keys are distinct, every dependency names a node, no node
    depends on itself through any chain of dependencies, and the declared
    attempts fit the attempt budget. *)
Theorem validate_dag_iff p :
  validate_dag p = true ↔
  Z.of_nat (length (gcr_nodes p)) ≤ gcr_max_nodes p ∧ NoDup (node_keys p) ∧
  (∀ x y, node_depends p x y → x ∈ node_keys p) ∧ (∀ x, ¬ tc (node_depends p) x x) ∧
  declared_attempts p ≤ gcr_max_total_attempts p.
Proof.
  unfold validate_dag. rewrite !andb_true_iff, !Z.leb_le, valid_dependencies_spec, node_deps_keys.
  setoid_rewrite node_deps_depends.
  assert (Htc : ∀ x, tc (depends (node_deps p)) x x ↔ tc (node_depends p) x x).
  { intros x. split; apply (tc_congruence (fun a => a)); intros a b; by apply node_deps_depends. }
  setoid_rewrite Htc. tauto.
Qed.

(** C37. An accepted graph never has to stall: whichever nodes have finished, as
    long as one has not, some unfinished node has all of its dependencies
    finished. *)
Theorem accepted_graph_progresses p (finished : gset string) key :
  validate_dag p = true → key ∈ node_keys p → key ∉ finished →
  ∃ n, n ∈ gcr_nodes p ∧ nc_key n ∉ finished ∧ ∀ x, x ∈ nc_depends_on n → x ∈ finished.
Proof.
  unfold validate_dag. rewrite !andb_true_iff. intros [[_ Hv] _] Hkey Hnot.
  rewrite <- node_deps_keys in Hkey.
  destruct (ready_item (node_deps p) finished key Hv Hkey Hnot) as (k & Hk & Hnk & Hdeps).
  rewrite node_deps_keys in Hk. apply list_elem_of_fmap in Hk as (n & -> & Hn).
  exists n. split; [done|]. split; [done|]. intros x Hx. apply Hdeps, node_deps_depends. by exists n.
Qed.

Definition diamond : TaskGraphCreate :=
  demo_graph [demo_node "d" ["b"; "c"] 0 None; demo_node "b" ["a"] 0 None;
              demo_node "c" ["a"] 0 None; demo_node "a" [] 0 None].

Lemma accepted_graph_progresses_witness :
  ∃ n, n ∈ gcr_nodes diamond ∧ nc_key n ∉ ({["a"; "b"]} : gset string) ∧
    ∀ x, x ∈ nc_depends_on n → x ∈ ({["a"; "b"]} : gset string).
Proof.
  apply (accepted_graph_progresses diamond {["a"; "b"]} "d").
  - vm_compute. reflexivity.
  - left.
  - set_solver.
Defined.

(** ** Compensations are found by name *)

Lemma sql_like_prefix k p s :
  free_of "%"%char k = true → sql_like (k +:+ p) (k +:+ s) = sql_like p s.
Proof.
  induction k as [|c k IH]; [done|]. cbn [free_of]. intros [Hc Hk]%andb_prop.
  rewrite !string_app_cons. cbn. apply negb_true_iff in Hc. rewrite Hc, Ascii.eqb_refl, orb_true_r. by apply IH.
Qed.

Lemma sql_like_any p s t : sql_like p t = true → sql_like (String "%"%char p) (s +:+ t) = true.
Proof.
  intros Hp. induction s as [|c s IH].
  - rewrite string_app_nil_l. cbn. destruct t; by rewrite Hp.
  - rewrite string_app_cons. cbn. cbn in IH. rewrite IH. apply orb_true_r.
Qed.

Lemma sql_like_refl s : free_of "%"%char s = true → sql_like s s = true.
Proof.
  induction s as [|c s IH]; [done|]. cbn. intros [Hc Hs]%andb_prop. apply negb_true_iff in Hc.
  by rewrite Hc, Ascii.eqb_refl, orb_true_r, IH.
Qed.

(** A compensating graph takes the compensation tasks of every graph whose key
    extends its own with a dash for its own: the pattern it selects them with
    matches their numbers.  (The graph is closed, as compensated or failed, only
    when the other graph's compensations have ended too.) *)
Theorem compensation_pattern_leaks graph other node suffix :
  free_of "%"%char (tg_graph_key graph) = true →
  tg_graph_key other = tg_graph_key graph +:+ "-" +:+ suffix →
  sql_like (tg_graph_key graph +:+ "-%-compensate") (compensation_number other node) = true.
Proof.
  intros Hfree E. unfold compensation_number. rewrite E, !string_app_assoc, sql_like_prefix by done.
  change ("-%-compensate") with ("-" +:+ String "%"%char "-compensate"). rewrite sql_like_prefix by done.
  rewrite <- (string_app_assoc suffix "-"), <- (string_app_assoc (suffix +:+ "-")).
  by apply sql_like_any, sql_like_refl.
Qed.

Definition other_graph : TaskGraphCreate :=
  mkTaskGraphCreate "G-two" "repo" "Other" "planner" 8 16 3600 2 [demo_node "a" [] 0 None].

Lemma compensation_pattern_leaks_witness :
  let graph := @new_graph (at_time 1) 10 diamond in
  let other := @new_graph (at_time 1) 20 other_graph in
  let node := @new_node (at_time 1) 21 20 0 (demo_node "a" [] 0 None) in
  sql_like (tg_graph_key graph +:+ "-%-compensate") (compensation_number other node) = true.
Proof.
  intros graph other node. apply (compensation_pattern_leaks graph other node "two"); reflexivity.
Defined.

(** ** Cancelling a graph *)
Section cancel.
Context `{World}.

(** what cancelling leaves of a task: nothing changes if it had ended, a leased
    or running task is asked to stop, an idle one is cancelled *)
Definition stopped (reason : string) (t t' : Task) : Prop :=
  if terminal_task (t_status t) then t' = t
  else t_id t' = t_id t ∧ is_Some (t_cancel_requested_at t') ∧ t_cancel_reason t' = Some reason ∧
    if active_lease (t_status t)
    then t_status t' = t_status t ∧ t_assigned_agent_id t' = t_assigned_agent_id t ∧
         t_lease_token_digest t' = t_lease_token_digest t ∧ t_lease_expires_at t' = t_lease_expires_at t
    else t_status t' = Cancelled ∧ lease_clear t' ∧ is_Some (t_completed_at t').

Lemma stopped_stopped reason t t' t'' : stopped reason t t' → stopped reason t' t'' → stopped reason t t''.
Proof.
  unfold stopped. destruct (terminal_task (t_status t)) eqn:Ht; [by intros ->; rewrite Ht|].
  destruct (active_lease (t_status t)) eqn:Ha.
  - intros (Ei & _ & _ & E & E1 & E2 & E3). rewrite E, Ht, Ha. intros (Ei' & ? & ? & ? & ? & ? & ?).
    split_and!; congruence || done.
  - intros (? & ? & ? & E & ?). rewrite E. change (terminal_task Cancelled) with true. by intros ->.
Qed.

(** every task is as it was, or was stopped *)
Definition only_stopped (reason : string) (ts ts' : gmap uuid Task) : Prop :=
  ∀ id, ts' !! id = ts !! id ∨ ∃ t t', ts !! id = Some t ∧ ts' !! id = Some t' ∧ stopped reason t t'.

Lemma only_stopped_trans reason ts1 ts2 ts3 :
  only_stopped reason ts1 ts2 → only_stopped reason ts2 ts3 → only_stopped reason ts1 ts3.
Proof.
  intros H1 H2 id. destruct (H2 id) as [->|(t & t' & Ht & Ht' & Hst)]; [by apply H1|].
  right. destruct (H1 id) as [E|(t0 & t0' & Ht0 & Ht0' & Hst0)].
  - exists t, t'. by rewrite <- E.
  - exists t0, t'. split; [done|]. split; [done|]. assert (t0' = t) as -> by congruence.
    by eapply stopped_stopped.
Qed.

(** the part of a session that cancelling tasks leaves alone *)
Definition uncancelled (d : database) := (nodes d, graphs d, graph_events d).

Definition cancelling_frame (d : database) := (tasks d, uncancelled d).

Lemma discard_total id s : harmless cancelling_frame (discard_working_memory id) s.
Proof.
  unfold harmless, returns, discard_working_memory.
  apply wp_bind, wp_utc_now; intros now _. apply wp_bind. unfold select_rows. apply wp_gets, wp_bind.
  eapply wp_mono; [apply (wp_for_each _ _ _ (fun s' => saved s' = saved s ∧ cancelling_frame (db s') = cancelling_frame (db s)))|].
  - done.
  - intros r s1 _ [Hs1 Hd1]. by apply wp_alter.
  - intros ? s1 H1. by apply wp_ret.
Qed.

Lemma task_event_total id ty m a p s : harmless cancelling_frame (append_task_event id ty m a p) s.
Proof. done. Qed.

Definition cancel_effect (reason : string) (id : uuid) (t : Task) (s s' : session) : Prop :=
  uncancelled (db s') = uncancelled (db s) ∧ only_stopped reason (tasks (db s)) (tasks (db s')) ∧
  ∃ t', tasks (db s') !! id = Some t' ∧ stopped reason t t'.

Lemma cancel_effect_alter reason id t f s s' :
  tasks (db s) !! id = Some t → cancelling_frame (db s') = (alter f id (tasks (db s)), uncancelled (db s)) →
  stopped reason t (f t) → cancel_effect reason id t s s'.
Proof.
  intros Ht Hd Hf. unfold cancelling_frame in Hd. injection Hd as E Hu. unfold cancel_effect. rewrite E.
  assert (Hrow : alter f id (tasks (db s)) !! id = Some (f t)) by by rewrite lookup_alter_eq, Ht.
  split; [unfold uncancelled in *; congruence|]. split; [|by exists (f t)]. intros id'.
  destruct (decide (id' = id)) as [->|Hne].
  - right. by exists t, (f t).
  - left. by rewrite (lookup_alter_ne _ _ id).
Qed.

Lemma returns_cancel_task reason t s :
  tasks (db s) !! t_id t = Some t →
  returns (_cancel_task t reason) (fun _ s' => cancel_effect reason (t_id t) t s s') s.
Proof.
  intros Ht. unfold returns, _cancel_task. apply wp_if; intros Hterm.
  { apply wp_ret. split; [done|]. split; [by left|]. exists t. split; [done|]. unfold stopped. by rewrite Hterm. }
  apply wp_bind, wp_utc_now; intros now _. apply wp_if; intros Hact.
  - apply wp_bind, wp_alter, wp_bind. eapply (returns_harmless cancelling_frame); [apply task_event_total|].
    intros ? s1 _ Hd1. apply wp_ret. eapply cancel_effect_alter; [exact Ht|exact Hd1|].
    unfold stopped. rewrite Hterm, Hact. by repeat split.
  - apply wp_bind, wp_alter, wp_bind. eapply (returns_harmless cancelling_frame); [apply discard_total|].
    intros ? s1 _ Hd1. apply wp_bind. eapply (returns_harmless cancelling_frame); [apply task_event_total|].
    intros ? s2 _ Hd2. apply wp_ret. rewrite Hd1 in Hd2. eapply cancel_effect_alter; [exact Ht|exact Hd2|].
    unfold stopped. rewrite Hterm, Hact. by repeat split.
Qed.

Lemma stopped_id reason t t' : stopped reason t t' → t_id t' = t_id t.
Proof. unfold stopped. destruct (terminal_task (t_status t)); [by intros ->|by intros []]. Qed.

Definition keyed_tasks (ts : gmap uuid Task) : Prop := ∀ id t, ts !! id = Some t → t_id t = id.

Lemma only_stopped_keyed reason ts ts' : keyed_tasks ts → only_stopped reason ts ts' → keyed_tasks ts'.
Proof.
  intros Hk Ho id t Ht. destruct (Ho id) as [E|(t0 & t' & Ht0 & Ht' & Hst)]; [apply Hk; congruence|].
  assert (t' = t) as -> by congruence. rewrite (stopped_id _ _ _ Hst). by apply Hk.
Qed.

(** the tasks of a list of nodes, all stopped *)
Definition nodes_stopped (reason : string) (l : list TaskGraphNode) (s s' : session) : Prop :=
  uncancelled (db s') = uncancelled (db s) ∧ only_stopped reason (tasks (db s)) (tasks (db s')) ∧
  ∀ n id t, n ∈ l → gn_task_id n = Some id → tasks (db s) !! id = Some t →
    ∃ t', tasks (db s') !! id = Some t' ∧ stopped reason t t'.

Lemma returns_cancel_node reason n s :
  keyed_tasks (tasks (db s)) → returns (cancel_node reason n) (fun _ s' => nodes_stopped reason [n] s s') s.
Proof.
  intros Hk. unfold returns, cancel_node, node_task. apply wp_bind, wp_gets.
  destruct (gn_task_id n) as [id|] eqn:Hn; cbn [mbind option_bind].
  2:{ apply wp_ret. split; [done|]. split; [by left|]. intros n' id t ->%list_elem_of_singleton. congruence. }
  destruct (tasks (db s) !! id) as [t|] eqn:Ht.
  2:{ apply wp_ret. split; [done|]. split; [by left|]. intros n' id' t ->%list_elem_of_singleton. congruence. }
  pose proof (Hk _ _ Ht) as Eid. eapply wp_mono; [apply returns_cancel_task; by rewrite Eid|].
  intros ? s1 (Hu & Ho & t' & Ht' & Hst). rewrite Eid in Ht'. split; [done|]. split; [done|].
  intros n' id' t0 ->%list_elem_of_singleton. rewrite Hn. intros [= <-]. rewrite Ht. intros [= <-]. by exists t'.
Qed.

Lemma returns_cancel_nodes reason (l : list TaskGraphNode) s :
  keyed_tasks (tasks (db s)) → returns (map_each l (cancel_node reason)) (fun _ s' => nodes_stopped reason l s s') s.
Proof.
  unfold returns. revert s. induction l as [|n l IH]; intros s Hk; cbn [map_each].
  { apply wp_ret. split; [done|]. split; [by left|]. by intros n id t ?%elem_of_nil. }
  apply wp_bind. eapply wp_mono; [by apply returns_cancel_node|]. intros ? s1 (Hu1 & Ho1 & Hn1). cbv beta.
  apply wp_bind. eapply wp_mono; [apply IH; by eapply only_stopped_keyed|]. intros ? s2 (Hu2 & Ho2 & Hn2).
  apply wp_ret. split; [congruence|]. split; [by eapply only_stopped_trans|].
  intros n' id t [->|Hin]%elem_of_cons Hid Ht.
  - destruct (Hn1 n id t) as (t1 & Ht1 & Hst1); [by left|done|done|].
    destruct (Ho2 id) as [E|(t1' & t2 & Ht1' & Ht2 & Hst2)]; [exists t1; by rewrite E|].
    exists t2. split; [done|]. assert (t1' = t1) as -> by congruence. by eapply stopped_stopped.
  - destruct (Ho1 id) as [E|(t0 & t1 & Ht0 & Ht1 & Hst1)].
    + apply (Hn2 n' id t); [done|done|congruence].
    + assert (t0 = t) as -> by congruence. destruct (Hn2 n' id t1) as (t2 & Ht2 & Hst2); [done..|].
      exists t2. split; [done|]. by eapply stopped_stopped.
Qed.
End cancel.

(** Cancelling an active graph always succeeds.  Every task of the graph is
    stopped: a task that had ended keeps its row, a leased or running one keeps
    its lease and is asked to stop, and an idle one is cancelled with its lease
    fields cleared.  No task changes in any other way, and the graph is cancelling with the operator's reason. *)
Theorem cancel_graph_stops_work `{World} graph actor reason s :
  safe (db s) → graphs (db s) !! tg_id graph = Some graph → active_graph graph = true →
  ∃ n s' g', cancel_graph graph actor reason s = (Ok n, s') ∧
    (∀ node id t, nodes (db s) !! gn_id node = Some node → gn_graph_id node = tg_id graph →
       gn_task_id node = Some id → tasks (db s) !! id = Some t →
       ∃ t', tasks (db s') !! id = Some t' ∧ stopped reason t t') ∧
    only_stopped reason (tasks (db s)) (tasks (db s')) ∧
    graphs (db s') !! tg_id graph = Some g' ∧ tg_status g' = GCancelling ∧
    Json.get "reason" (tg_terminal_reason g') = Some (JStr reason).
Proof.
  intros Hd Hg Hact.
  enough (Hret : returns (cancel_graph graph actor reason) (fun _ s' =>
    (∀ node id t, nodes (db s) !! gn_id node = Some node → gn_graph_id node = tg_id graph →
       gn_task_id node = Some id → tasks (db s) !! id = Some t →
       ∃ t', tasks (db s') !! id = Some t' ∧ stopped reason t t') ∧
    only_stopped reason (tasks (db s)) (tasks (db s')) ∧
    ∃ g', graphs (db s') !! tg_id graph = Some g' ∧ tg_status g' = GCancelling ∧
      Json.get "reason" (tg_terminal_reason g') = Some (JStr reason)) s).
  { apply returns_run in Hret as (n & s' & E & H1 & H2 & g' & H3). by exists n, s', g'. }
  unfold returns, cancel_graph. rewrite Hact. cbn [negb].
  apply wp_bind, wp_alter, wp_bind. unfold select_rows. apply wp_gets, wp_bind.
  eapply wp_mono; [apply returns_cancel_nodes; exact (ci_task_id _ _ Hd)|]. intros affected s1 (Hu & Ho & Hn).
  cbv beta zeta. apply wp_bind, wp_alter, wp_bind, wp_bind, wp_gets.
  unfold append_log. apply wp_update, wp_ret. cbn in Ho, Hn |- *.
  split; [|split; [exact Ho|]].
  - intros node id t Hnode Egraph Hid Ht. apply (Hn node id t); [|done|done].
    apply list_elem_of_In, filter_In. split; [|by rewrite Egraph, bool_decide_eq_true_2].
    apply list_elem_of_In, list_elem_of_fmap. exists (gn_id node, node). split; [done|]. by apply elem_of_map_to_list.
  - injection Hu as _ Eg _. rewrite Eg. cbn. rewrite !lookup_alter_eq, Hg. eexists. split; [reflexivity|]. done.
Qed.

Lemma cancel_graph_stops_work_witness :
  let s := open_session (run (activated [demo_node "a" [] 2 None]) demo_db) in
  ∃ graph n s' t', graphs (db s) !! graph_id = Some graph ∧
    @cancel_graph (at_time 5) graph "founder" "obsolete" s = (Ok n, s') ∧
    tasks (db s') !! 12%N = Some t' ∧ t_status t' = Cancelled.
Proof.
  intros s. assert (Hsafe : safe (db s)) by (apply reachable_inv, run_reachable, demo_initial).
  destruct (graphs (db s) !! graph_id) as [graph|] eqn:Hg; [|vm_compute in Hg; discriminate].
  assert (Eid : tg_id graph = graph_id) by (vm_compute in Hg; injection Hg as <-; reflexivity).
  assert (Hact : active_graph graph = true) by (vm_compute in Hg; injection Hg as <-; reflexivity).
  destruct (nodes (db s) !! 11%N) as [node|] eqn:Hn; [|vm_compute in Hn; discriminate].
  assert (En : gn_id node = 11%N ∧ gn_graph_id node = graph_id ∧ gn_task_id node = Some 12%N)
    by (vm_compute in Hn; injection Hn as <-; split; [|split]; reflexivity).
  destruct En as (En1 & En2 & En3).
  destruct (tasks (db s) !! 12%N) as [t|] eqn:Ht; [|vm_compute in Ht; discriminate].
  assert (Hst : t_status t = PendingApproval) by (vm_compute in Ht; injection Ht as <-; reflexivity).
  destruct (@cancel_graph_stops_work (at_time 5) graph "founder" "obsolete" s Hsafe)
    as (n & s' & g' & E & Hstop & _); [by rewrite Eid|exact Hact|].
  destruct (Hstop node 12%N t) as (t' & Ht' & Hs); [by rewrite En1|by rewrite En2, Eid|exact En3|exact Ht|].
  exists graph, n, s', t'. split; [reflexivity|]. split; [exact E|]. split; [exact Ht'|].
  unfold stopped in Hs. rewrite Hst in Hs. apply Hs.
Defined.

(** ** Activating a graph *)
Section activation.
Context `{World}.

Local Abbreviation anything := (fun _ : database => True).

Definition wired (d : database) := (tasks d, dependencies d).

(** tasks are only added *)
Definition grown (ts ts' : gmap uuid Task) : Prop := ts ⊆ ts'.

Lemma wp_persist_new_task t s :
  wp anything (persist_new_task t) (fun _ s' => tasks (db s) !! t_id t = None ∧
    tasks (db s') = <[t_id t := t]> (tasks (db s)) ∧ dependencies (db s') = dependencies (db s)) s.
Proof.
  unfold persist_new_task, select_one at 1. apply wp_bind, wp_gets.
  destruct (head _); [by apply wp_raise|]. apply wp_bind, wp_insert; [done|]. intros Hnew.
  eapply (wp_frame wired); [|done|].
  { unfold create_approval, enqueue_approval_gate, insert_once, add_notification, append_approval_event, select_approval. frame. }
  intros ? s1 _ Hd1. injection Hd1 as -> ->. done.
Qed.

(** the task of a node *)
Definition task_of_node (n : TaskGraphNode) (t : Task) : Prop :=
  t_task_graph_node_id t = Some (gn_id n) ∧ t_risk_level t = gs_risk_level (gn_task_spec n) ∧
  t_status t = (if 2 <=? gs_risk_level (gn_task_spec n) then PendingApproval else Queued) ∧
  t_attempt_count t = 0 ∧ t_max_attempts t = gs_max_attempts (gn_task_spec n).

Definition materialized (ts ts' : gmap uuid Task) (n : TaskGraphNode) (kv : string * uuid) : Prop :=
  kv.1 = gn_node_key n ∧ ts !! kv.2 = None ∧ ∃ t, ts' !! kv.2 = Some t ∧ task_of_node n t.

Lemma wp_materialize_node g n s :
  wp anything (materialize_node g n) (fun kv s' => grown (tasks (db s)) (tasks (db s')) ∧
    materialized (tasks (db s)) (tasks (db s')) n kv ∧ dependencies (db s') = dependencies (db s)) s.
Proof.
  unfold materialize_node, materialize. apply wp_bind.
  apply wp_if; intros _; [by apply wp_raise|]. apply wp_bind.
  eapply (wp_frame wired); [frame|done|]. intros id s1 _ Hd1. injection Hd1 as Et1 Ed1.
  apply wp_bind. eapply wp_mono; [apply wp_persist_new_task|]. intros ? s2 (Hnew & Et2 & Ed2). cbv beta.
  apply wp_ret, wp_bind, wp_alter, wp_ret. cbn in Hnew, Et2 |- *. rewrite Et2, Ed2, Et1, Ed1. rewrite Et1 in Hnew.
  split; [by apply insert_subseteq|]. split; [|done]. split; [done|]. split; [done|].
  eexists. split; [apply lookup_insert_eq|]. by repeat split.
Qed.

Lemma materialized_grown ts0 ts ts1 ts2 n kv :
  grown ts0 ts → grown ts1 ts2 → materialized ts ts1 n kv → materialized ts0 ts2 n kv.
Proof.
  intros H0 H1 (Hk & Hnew & t & Ht & Hn). split; [done|]. split.
  - destruct (ts0 !! kv.2) as [t0|] eqn:E; [|done]. exfalso. pose proof (lookup_weaken _ _ _ _ E H0). congruence.
  - exists t. split; [by eapply lookup_weaken|done].
Qed.

Lemma wp_materialize_nodes g l s :
  wp anything (map_each l (materialize_node g)) (fun created s' => grown (tasks (db s)) (tasks (db s')) ∧
    Forall2 (materialized (tasks (db s)) (tasks (db s'))) l created ∧
    dependencies (db s') = dependencies (db s)) s.
Proof.
  revert s. induction l as [|n l IH]; intros s; cbn [map_each].
  { apply wp_ret. split; [done|]. by split; [constructor|]. }
  apply wp_bind. eapply wp_mono; [apply wp_materialize_node|]. intros kv s1 (Hg1 & Hm1 & Hd1). cbv beta.
  apply wp_bind. eapply wp_mono; [apply IH|]. intros created s2 (Hg2 & Hm2 & Hd2). apply wp_ret.
  split; [by etransitivity|]. split; [|congruence]. constructor.
  - eapply materialized_grown; [unfold grown; reflexivity|exact Hg2|exact Hm1].
  - eapply Forall2_impl; [exact Hm2|]. intros n' kv' Hm.
    eapply materialized_grown; [exact Hg1|unfold grown; reflexivity|exact Hm].
Qed.

(** an edge of the graph, as the scheduler reads it *)
Definition edge (d : database) (created : list (string * uuid)) (key dep : string) : Prop :=
  ∃ a b at_, (key, a) ∈ created ∧ (dep, b) ∈ created ∧ mkTaskDependency a b at_ ∈ dependencies d.

Lemma wp_task_of_step created key Q s :
  (∀ id, (key, id) ∈ created → Q id s) → wp anything (task_of_step created key) Q s.
Proof.
  intros HQ. unfold task_of_step. destruct (List.find _ created) as [[k id]|] eqn:E; [|by apply wp_raise].
  apply find_some in E as [Hin Hk]. cbn in Hk. apply String.eqb_eq in Hk as ->. by apply wp_ret, HQ, list_elem_of_In.
Qed.

Lemma edge_more d d' created key dep :
  (∃ l, dependencies d' = dependencies d ++ l) → edge d created key dep → edge d' created key dep.
Proof.
  intros [l E] (a & b & t & Ha & Hb & Hin). exists a, b, t. rewrite E, elem_of_app. auto.
Qed.

Lemma wp_add_dependencies created key deps s :
  wp anything (add_dependencies created (key, deps)) (fun _ s' => tasks (db s') = tasks (db s) ∧
    (∃ l, dependencies (db s') = dependencies (db s) ++ l) ∧ ∀ dep, dep ∈ deps → edge (db s') created key dep) s.
Proof.
  unfold add_dependencies. cbn [fst snd]. revert s. induction deps as [|dep deps IH]; intros s; cbn [for_each].
  { apply wp_ret. split; [done|]. split; [by exists []; rewrite app_nil_r|]. by intros dep ?%elem_of_nil. }
  apply wp_bind, wp_bind, wp_task_of_step. intros a Ha. apply wp_bind, wp_task_of_step. intros b Hb.
  unfold add_dependency. apply wp_bind, wp_gets. apply wp_if; intros _; [by apply wp_raise|].
  unfold append_log. apply wp_update. eapply wp_mono; [apply IH|]. intros ? s1 (Et & [l El] & Hall). cbn in Et, El.
  split; [done|]. split; [by eexists; rewrite El, <- (assoc_L (++))|]. intros dep' [->|Hin]%elem_of_cons; [|by apply Hall].
  exists a, b, w_server_now. split; [done|]. split; [done|]. rewrite El, !elem_of_app, list_elem_of_singleton. auto.
Qed.
Lemma wp_add_all_dependencies created (l : list TaskGraphNode) s :
  wp anything (for_each l (fun n => add_dependencies created (gn_node_key n, gn_depends_on n)))
    (fun _ s' => tasks (db s') = tasks (db s) ∧ (∃ l', dependencies (db s') = dependencies (db s) ++ l') ∧
     ∀ n dep, n ∈ l → dep ∈ gn_depends_on n → edge (db s') created (gn_node_key n) dep) s.
Proof.
  revert s. induction l as [|n l IH]; intros s; cbn [for_each].
  { apply wp_ret. split; [done|]. split; [by exists []; rewrite app_nil_r|]. by intros n dep ?%elem_of_nil. }
  apply wp_bind. eapply wp_mono; [apply wp_add_dependencies|]. intros ? s1 (Et1 & [l1 El1] & Hn). cbv beta.
  eapply wp_mono; [apply IH|]. intros ? s2 (Et2 & [l2 El2] & Hall).
  split; [congruence|]. split; [by eexists; rewrite El2, El1, <- (assoc_L (++))|].
  intros n' dep [->|Hin]%elem_of_cons Hdep; [|by apply Hall].
  eapply edge_more; [by exists l2|by apply Hn].
Qed.
End activation.

(** C38. A successful activation starts from a draft and gives every node of the
    graph one new task, bound to the node, with the node's risk and attempts,
    waiting for approval exactly when its risk is 2 or more; and every dependency
    between nodes becomes a dependency between their tasks, which is what keeps
    a task from being leased before its predecessors have succeeded. *)
Theorem activation_materializes_graph `{World} graph actor s s' :
  activate_graph graph actor s = (Ok tt, s') →
  let rows := graph_nodes (db s) (tg_id graph) in
  tg_status graph = GDraft ∧ ∃ created,
    Forall2 (materialized (tasks (db s)) (tasks (db s'))) rows created ∧
    ∀ n dep, n ∈ rows → dep ∈ gn_depends_on n → edge (db s') created (gn_node_key n) dep.
Proof.
  intros E rows.
  enough (Hwp : wp (fun _ => True) (activate_graph graph actor) (fun _ s' => tg_status graph = GDraft ∧
    ∃ created, Forall2 (materialized (tasks (db s)) (tasks (db s'))) rows created ∧
      ∀ n dep, n ∈ rows → dep ∈ gn_depends_on n → edge (db s') created (gn_node_key n) dep) s)
    by exact (wp_run _ _ _ _ _ _ Hwp E).
  unfold activate_graph. apply wp_if; intros Hst; [by apply wp_raise|].
  apply negb_false_iff, bool_decide_eq_true in Hst.
  apply wp_bind, wp_gets, wp_bind. eapply wp_mono; [apply wp_materialize_nodes|].
  intros created s1 (_ & Hm & _). cbv beta. apply wp_bind.
  eapply wp_mono; [apply wp_add_all_dependencies|]. intros ? s2 (Et2 & _ & Hedges). cbv beta.
  apply wp_bind, wp_utc_now; intros stamp _. cbv zeta. apply wp_bind, wp_alter, wp_bind, wp_gets.
  unfold append_log. apply wp_update. split; [done|]. exists created. split; [|exact Hedges].
  cbn. rewrite Et2. exact Hm.
Qed.

Lemma activation_materializes_graph_witness :
  let s := open_session (run [(at_time 1, CreateGraph diamond)] demo_db) in
  ∃ graph s', graphs (db s) !! graph_id = Some graph ∧
    @activate_graph (at_time 2) graph "founder" s = (Ok tt, s') ∧
    ∃ created, Forall2 (materialized (tasks (db s)) (tasks (db s'))) (graph_nodes (db s) (tg_id graph)) created.
Proof.
  intros s. destruct (graphs (db s) !! graph_id) as [graph|] eqn:Hg; [|vm_compute in Hg; discriminate].
  assert (E : ∃ s', @activate_graph (at_time 2) graph "founder" s = (Ok tt, s')).
  { vm_compute in Hg. injection Hg as <-. eexists. vm_compute. reflexivity. }
  destruct E as [s' E]. exists graph, s'. split; [reflexivity|]. split; [exact E|].
  destruct (@activation_materializes_graph (at_time 2) graph "founder" s s' E) as (_ & created & Hm & _).
  exists created. exact Hm.
Defined.
