(* ===== verification/RoutingTheorems.v ===== *)
(** * What evaluator routing promises

    The contract of [services/evaluator_routing.py]: the reviewers selected for a
    route cover its review kinds and are separate from the producers and from
    each other, and independence is attested only when every review is in. *)
From S2P Require Import Prelude Py Sha256 Models Store Logic AgentGovernance EvaluatorRouting System Demo.

Open Scope Z_scope.

(** ** Separation, spelled out *)

(** different agents, and no shared package or context *)
Definition separate (p q : EvaluatorProfile) : Prop :=
  ep_agent_id p ≠ ep_agent_id q ∧
  (ep_package_digest p ≠ "" → ep_package_digest p ≠ ep_package_digest q) ∧
  (ep_context_group p ≠ "" → ep_context_group p ≠ ep_context_group q).

(** the same for a producer, whose agent may be unknown *)
Definition producer_separate (p : ProducerIdentity) (q : EvaluatorProfile) : Prop :=
  pi_agent_id p ≠ Some (ep_agent_id q) ∧
  (pi_package_digest p ≠ "" → pi_package_digest p ≠ ep_package_digest q) ∧
  (pi_context_group p ≠ "" → pi_context_group p ≠ ep_context_group q).

(** how many of machine, provider, model family and runtime two identities share *)
Definition same (a b : string) : Z := if str_eqb a b then 1 else 0.
Definition shared_with (machine provider model_family runtime : string) (q : EvaluatorProfile) : Z :=
  same machine (ep_machine q) + same provider (ep_provider q) +
  same model_family (ep_model_family q) + same runtime (ep_runtime q).
Definition shared (p q : EvaluatorProfile) : Z :=
  shared_with (ep_machine p) (ep_provider p) (ep_model_family p) (ep_runtime p) q.
Definition producer_shared (p : ProducerIdentity) (q : EvaluatorProfile) : Z :=
  shared_with (pi_machine p) (pi_provider p) (pi_model_family p) (pi_runtime p) q.

Lemma shared_count p q : co_shared_count (_correlation (_profile_identity p) (_profile_identity q)) = shared p q.
Proof.
  unfold co_shared_count, _correlation, shared, shared_with, same. cbn -[Z.add].
  unfold same_field. cbn -[Z.add]. unfold str_eqb.
  repeat (destruct (String.eqb _ _); cbn -[Z.add]); reflexivity.
Qed.

Lemma producer_shared_count p q :
  co_shared_count (_correlation (producer_json p) (_profile_identity q)) = producer_shared p q.
Proof.
  unfold co_shared_count, _correlation, producer_shared, shared_with, same. cbn -[Z.add].
  unfold same_field. cbn -[Z.add]. unfold str_eqb.
  repeat (destruct (String.eqb _ _); cbn -[Z.add]); reflexivity.
Qed.

Lemma no_hard_conflicts first second field :
  has_conflict (_correlation first second) = false → field ∈ hard_fields →
  Json.truthy_opt (Json.get field first) = true → same_field first second field = false.
Proof.
  unfold has_conflict. intros Hc%negb_false_iff%bool_decide_eq_true Hin Ht.
  destruct (same_field first second field) eqn:E; [|done]. exfalso.
  assert (Hin' : field ∈ _hard_conflicts first second).
  { apply list_elem_of_In, filter_In. split; [by apply list_elem_of_In|by rewrite Ht, E]. }
  change (_hard_conflicts first second = []) in Hc. rewrite Hc in Hin'. by apply elem_of_nil in Hin'.
Qed.

Lemma nonempty_ne s : s ≠ "" → Str.nonempty s = true.
Proof. intros Hs. unfold Str.nonempty. by rewrite (proj2 (String.eqb_neq _ _) Hs). Qed.

Lemma nonempty_app a b : Str.nonempty (a +:+ b) = Str.nonempty a || Str.nonempty b.
Proof. by destruct a. Qed.

Lemma uuid_nonempty u : Str.nonempty (uuid_str u) = true.
Proof. unfold uuid_str. rewrite !nonempty_app. by rewrite orb_true_r. Qed.

Lemma profile_separate p q :
  has_conflict (_correlation (_profile_identity p) (_profile_identity q)) = false → separate p q.
Proof.
  intros Hc. split; [|split].
  - intros E. assert (Hf := no_hard_conflicts _ _ "agent_id" Hc ltac:(by left) (uuid_nonempty _)).
    unfold same_field in Hf. cbn in Hf. by rewrite E, String.eqb_refl in Hf.
  - intros Hne E. assert (Hf := no_hard_conflicts _ _ "package_digest" Hc ltac:(by right; left) (nonempty_ne _ Hne)).
    unfold same_field in Hf. cbn in Hf. by rewrite E, String.eqb_refl in Hf.
  - intros Hne E. assert (Hf := no_hard_conflicts _ _ "context_group" Hc ltac:(by right; right; left) (nonempty_ne _ Hne)).
    unfold same_field in Hf. cbn in Hf. by rewrite E, String.eqb_refl in Hf.
Qed.

Lemma producer_profile_separate p q :
  has_conflict (_correlation (producer_json p) (_profile_identity q)) = false → producer_separate p q.
Proof.
  intros Hc. split; [|split].
  - intros E. assert (Ht : Json.truthy_opt (Json.get "agent_id" (producer_json p)) = true)
      by (cbn; rewrite E; apply uuid_nonempty).
    assert (Hf := no_hard_conflicts _ _ "agent_id" Hc ltac:(by left) Ht).
    unfold same_field in Hf. cbn in Hf. rewrite E in Hf. cbn in Hf. by rewrite String.eqb_refl in Hf.
  - intros Hne E. assert (Hf := no_hard_conflicts _ _ "package_digest" Hc ltac:(by right; left) (nonempty_ne _ Hne)).
    unfold same_field in Hf. cbn in Hf. by rewrite E, String.eqb_refl in Hf.
  - intros Hne E. assert (Hf := no_hard_conflicts _ _ "context_group" Hc ltac:(by right; right; left) (nonempty_ne _ Hne)).
    unfold same_field in Hf. cbn in Hf. by rewrite E, String.eqb_refl in Hf.
Qed.

(** ** The selected panel *)
Section panel.
Context (payload : EvaluationRouteCreate) (profiles : list EvaluatorProfile).

Local Abbreviation ceiling := (rc_max_pairwise_shared_dimensions payload).

(** a reviewer fit for its kind *)
Record fit (s : selection) : Prop := {
  fit_profile : sl_profile s ∈ profiles;
  fit_kind : sl_review_kind s ∈ ep_review_kinds (sl_profile s);
  fit_capabilities : rc_required_capabilities payload ⊆ ep_capabilities (sl_profile s);
  fit_producer : producer_separate (rc_producer payload) (sl_profile s);
  fit_excluded : ∀ e, e ∈ rc_excluded_producers payload →
    producer_separate e (sl_profile s) ∧ producer_shared e (sl_profile s) ≤ ceiling }.

Definition apart (a b : selection) : Prop :=
  separate (sl_profile a) (sl_profile b) ∧ shared (sl_profile a) (sl_profile b) ≤ ceiling.

Definition least_correlated (selected : list selection) (s : selection) : Prop :=
  ∀ q, q ∈ profiles → eligible payload selected (sl_review_kind s) q = true →
    correlation_score payload selected (sl_profile s) ≤ correlation_score payload selected q.

Record panel (selected : list selection) : Prop := {
  panel_fit : ∀ s, s ∈ selected → fit s;
  panel_apart : ∀ i j a b, (i < j)%nat → selected !! i = Some a → selected !! j = Some b → apart a b;
  panel_least : ∀ i s, selected !! i = Some s → least_correlated (take i selected) s }.

Lemma reason_when_nil b r : reason_when b r = [] ↔ b = false.
Proof. by destruct b. Qed.

Lemma over_ceiling_false c : over_ceiling payload c = false ↔ co_shared_count c ≤ ceiling.
Proof. unfold over_ceiling. apply Z.ltb_ge. Qed.

Lemma existsb_map_false {A B} (f : A → B) (p : B → bool) l :
  existsb p (f <$> l) = false ↔ ∀ x, x ∈ l → p (f x) = false.
Proof.
  split.
  - intros He x Hx. destruct (p (f x)) eqn:E; [|done]. rewrite <- He. symmetry. apply existsb_exists.
    exists (f x). split; [by apply list_elem_of_In, list_elem_of_fmap_2|done].
  - intros Hall. destruct (existsb p _) eqn:E; [|done]. apply existsb_exists in E as (y & Hin & Hp).
    apply list_elem_of_In, list_elem_of_fmap in Hin as (x & -> & Hx). by rewrite Hall in Hp.
Qed.

Lemma eligible_fit selected kind p report :
  p ∈ profiles → eligible payload selected kind p = true →
  fit (mkSelection kind p report) ∧ ∀ s, s ∈ selected → apart s (mkSelection kind p report).
Proof.
  unfold eligible. intros Hin Hel%bool_decide_eq_true. unfold exclusion_reasons in Hel.
  rewrite !app_nil, !reason_when_nil, !negb_false_iff in Hel.
  destruct Hel as (Hprod & Hexc & Hexs & Hkind & Hcaps & _ & Hsel & Hsels).
  unfold excluded_correlations, selected_correlations in *.
  rewrite existsb_map_false in Hexc, Hexs.
  pose proof (proj1 (existsb_map_false _ _ _) Hsel) as Hsel'.
  pose proof (proj1 (existsb_map_false _ _ _) Hsels) as Hsels'. split.
  - split; cbn; [done|by apply str_in_spec|by apply str_subset_spec| |].
    + apply producer_profile_separate. unfold has_conflict, producer_correlation in *. by rewrite Hprod.
    + intros e He. split; [by apply producer_profile_separate, Hexc|].
      rewrite <- producer_shared_count. by apply over_ceiling_false, Hexs.
  - intros s Hs. split; cbn; [by apply profile_separate, (Hsel' s)|].
    rewrite <- shared_count. by apply over_ceiling_false, (Hsels' s).
Qed.
Lemma preferred_total selected p q : preferred payload selected p q = false → preferred payload selected q p = true.
Proof.
  unfold preferred. intros [H1 H2]%orb_false_iff. apply Z.ltb_ge in H1.
  destruct (Z.ltb_spec (correlation_score payload selected q) (correlation_score payload selected p)); [done|].
  assert (correlation_score payload selected q = correlation_score payload selected p) as E by lia.
  rewrite E, Z.eqb_refl in *. cbn in *.
  destruct (String.leb_total (ep_profile_digest p) (ep_profile_digest q)) as [Ht|Ht]; [congruence|done].
Qed.

Lemma preferred_trans selected p q r :
  preferred payload selected p q = true → preferred payload selected q r = true → preferred payload selected p r = true.
Proof.
  unfold preferred. rewrite !orb_true_iff, !andb_true_iff, !Z.ltb_lt, !Z.eqb_eq.
  intros [H1|[H1 L1]] [H2|[H2 L2]]; [left; lia..|]. right. split; [lia|]. by eapply str_leb_trans.
Qed.

Lemma chosen_least selected kind p :
  choose payload profiles selected kind = Some p →
  p ∈ profiles ∧ eligible payload selected kind p = true ∧
  ∀ q, q ∈ profiles → eligible payload selected kind q = true →
    correlation_score payload selected p ≤ correlation_score payload selected q.
Proof.
  unfold choose. intros Hh.
  assert (Hin : p ∈ sort_by (preferred payload selected) (List.filter (eligible payload selected kind) profiles))
    by (destruct (sort_by _ _); [done|injection Hh as ->; by left]).
  apply elem_of_sort_by, list_elem_of_In, filter_In in Hin as [Hin Hel].
  split; [by apply list_elem_of_In|]. split; [done|]. intros q Hq Hqe.
  assert (Hp : preferred payload selected p q = true).
  { eapply (sort_by_head (preferred payload selected)); [apply preferred_total|apply preferred_trans|exact Hh|].
    apply list_elem_of_In, filter_In. split; [by apply list_elem_of_In|done]. }
  unfold preferred in Hp. rewrite orb_true_iff, andb_true_iff, Z.ltb_lt, Z.eqb_eq in Hp. lia.
Qed.

Lemma panel_snoc selected kind p report :
  panel selected → choose payload profiles selected kind = Some p →
  panel (selected ++ [mkSelection kind p report]).
Proof.
  intros [Hfit Hap Hleast] Hch. destruct (chosen_least _ _ _ Hch) as (Hin & Hel & Hmin).
  destruct (eligible_fit selected kind p report Hin Hel) as [Hf Ha]. split.
  - intros s [Hs|Hs%list_elem_of_singleton]%elem_of_app; [by apply Hfit|by rewrite Hs].
  - intros i j a b Hij Hi Hj. apply lookup_app_Some in Hj as [Hj|[Hlen Hj]].
    + apply (Hap i j); [done| |done]. apply lookup_lt_Some in Hj. rewrite lookup_app_l in Hi by lia. done.
    + apply list_lookup_singleton_Some in Hj as [E <-]. apply Ha.
      rewrite lookup_app_l in Hi by lia. by eapply list_elem_of_lookup_2.
  - intros i s Hi. apply lookup_app_Some in Hi as [Hi|[Hlen Hi]].
    + rewrite take_app_le by (apply lookup_lt_Some in Hi; lia). by apply Hleast.
    + apply list_lookup_singleton_Some in Hi as [E <-].
      assert (i = length selected) as -> by lia. rewrite take_app_length. exact Hmin.
Qed.

Lemma route_kinds_panel kinds selected excluded result :
  panel selected → route_kinds payload profiles kinds selected excluded = (result, []) →
  panel result ∧ sl_review_kind <$> result = (sl_review_kind <$> selected) ++ kinds.
Proof.
  revert selected excluded. induction kinds as [|kind kinds IH]; intros selected excluded Hp; cbn.
  { intros [= <-]. split; [done|by rewrite app_nil_r]. }
  destruct (choose payload profiles selected kind) as [p|] eqn:Hch; [|done]. intros E.
  apply IH in E as [Hp' Hk]; [|by apply panel_snoc]. split; [done|].
  rewrite Hk, fmap_app, <- (assoc_L (++)). done.
Qed.
End panel.

(** C40. When a route is assigned, its reviewers cover the required review kinds
    exactly, in order; each is an offered profile registered for its kind with
    every required capability, shares no agent, package or context with the
    producer or an excluded producer; any two of them share no agent, package or
    context and at most the allowed number of correlated dimensions; and each was
    the least correlated of the profiles eligible when it was chosen. *)
Theorem routed_panel_is_independent payload profiles selected :
  _route_profiles payload profiles = (selected, []) →
  panel payload profiles selected ∧ sl_review_kind <$> selected = rc_required_review_kinds payload.
Proof.
  unfold _route_profiles. intros E. apply (route_kinds_panel payload profiles) in E; [done|].
  split; [by intros s ?%elem_of_nil|by intros|by intros i s].
Qed.

(** *** Four evaluators on one fleet *)
Definition evaluator (agent : uuid) (package context provider : string) (kinds : list string) : EvaluatorProfile :=
  mkEvaluatorProfile agent agent "1.0.0" "active" kinds ["review"] "vm1" provider "family" "hermes/1.0" context
    agent package [] ("profile-" +:+ package) "founder" 0 None.

Definition producer : ProducerIdentity :=
  mkProducerIdentity "producer" (Some 1%N) "vm2" "provider-a" "family" "hermes/1.0" "context-a" "package-a".

Definition demo_route (kinds : list string) : EvaluationRouteCreate :=
  mkEvaluationRouteCreate "proposal" "P-1" "subject-digest" producer [] kinds ["review"] 3 "founder" 1 None.

Lemma routed_panel_is_independent_witness :
  let profiles := [evaluator 1 "package-a" "context-a" "provider-a" ["risk"; "code"];
                   evaluator 2 "package-b" "context-b" "provider-b" ["risk"; "code"];
                   evaluator 3 "package-c" "context-c" "provider-c" ["code"]] in
  ∃ selected, _route_profiles (demo_route ["risk"; "code"]) profiles = (selected, []) ∧
    ep_agent_id <$> (sl_profile <$> selected) = [2%N; 3%N] ∧
    panel (demo_route ["risk"; "code"]) profiles selected.
Proof.
  intros profiles. eexists. split; [vm_compute; reflexivity|]. split; [reflexivity|].
  apply routed_panel_is_independent. vm_compute. reflexivity.
Defined.

(** ** Completing reviews *)
Section complete.
Context `{World}.

(** what makes a completion acceptable *)
Definition acceptable (d : database) (route : EvaluationRoute) (a : EvaluatorAssignment)
    (payload : EvaluatorAssignmentComplete) : Prop :=
  er_status route = "assigned" ∧ ea_status a = "assigned" ∧
  (∃ p, profiles d !! ea_evaluator_profile_id a = Some p ∧ ep_agent_id p = eac_evaluator_agent_id payload) ∧
  (er_subject_type route = "alpha_strategy_qualification" →
   ∃ review, eac_alpha_strategy_review payload = Some review ∧ sr_subject_digest review = er_subject_digest route ∧
     eac_review_digest payload = digest (JObj (review_json review))).

Definition all_reviews_in (d : database) (route : EvaluationRoute) : Prop :=
  ∀ id a, assignments d !! id = Some a → ea_route_id a = er_id route → ea_status a = "completed".

Lemma wp_required_review route payload Q s :
  (∀ r, (er_subject_type route = "alpha_strategy_qualification" →
     ∃ review, eac_alpha_strategy_review payload = Some review ∧ sr_subject_digest review = er_subject_digest route ∧
       eac_review_digest payload = digest (JObj (review_json review))) → Q r s) →
  wp (fun _ => True) (required_review route payload) Q s.
Proof.
  intros HQ. unfold required_review. apply wp_if; intros Hty.
  { apply wp_ret, HQ. intros E. rewrite E, str_eqb_refl in Hty. discriminate. }
  destruct (eac_alpha_strategy_review payload) as [review|]; [|by apply wp_raise].
  apply wp_if; intros Hs; [by apply wp_raise|]. apply wp_if; intros Hd; [by apply wp_raise|].
  apply negb_false_iff, str_eqb_spec in Hs, Hd. apply wp_ret, HQ. intros _. by exists review.
Qed.

Lemma issue_receipt_frame route l : preserves assignments (_issue_receipt route l).
Proof. unfold _issue_receipt, attested_entry. frame. Qed.

Lemma wp_complete_assignment route a payload s :
  wp (fun _ => True) (complete_assignment route a payload) (fun _ s' =>
    acceptable (db s) route a payload ∧
    assignments (db s') !! ea_id a = (fun x => x <| ea_status := "completed" |>
      <| ea_review_id := Some (eac_review_id payload) |> <| ea_review_digest := Some (eac_review_digest payload) |>
      <| ea_completed_by := Some (uuid_str (eac_evaluator_agent_id payload)) |>
      <| ea_completed_at := Some (w_now (clock s)) |>) <$> assignments (db s) !! ea_id a ∧
    (independence_receipts (db s') = independence_receipts (db s) ∨ all_reviews_in (db s') route)) s.
Proof.
  unfold complete_assignment. apply wp_if; intros Hst; [by apply wp_raise|].
  apply orb_false_iff in Hst as [Hr Ha]. apply negb_false_iff, str_eqb_spec in Hr, Ha.
  apply wp_bind, wp_get_row. destruct (profiles (db s) !! _) as [p|] eqn:Hp; [|by apply wp_raise].
  apply wp_if; intros Hag; [by apply wp_raise|]. apply negb_false_iff, bool_decide_eq_true in Hag.
  apply wp_bind, wp_required_review. intros review Hrev.
  assert (Hacc : acceptable (db s) route a payload) by (split; [done|]; split; [done|]; split; [by exists p|done]).
  apply wp_bind, wp_utc_now; intros now ->. cbv zeta. apply wp_bind, wp_alter, wp_bind.
  eapply (wp_frame (fun d => (assignments d, independence_receipts d))); [eauto with frame|done|].
  intros ? s1 _ Hd1. cbn in Hd1. injection Hd1 as Ha1 Hi1. apply wp_bind. unfold select_rows. apply wp_gets.
  apply wp_when; intros Hall.
  - eapply (wp_frame assignments); [apply issue_receipt_frame|done|]. intros ? s2 _ Ha2.
    split; [done|]. split; [by rewrite Ha2, Ha1, lookup_alter_eq|]. right. intros id x Hx Hroute.
    rewrite forallb_forall in Hall. apply str_eqb_spec, Hall, filter_In. rewrite Ha2 in Hx.
    split; [|by rewrite Hroute, bool_decide_eq_true_2]. apply list_elem_of_In, list_elem_of_fmap.
    exists (id, x). split; [done|]. by apply elem_of_map_to_list.
  - split; [done|]. split; [by rewrite Ha1, lookup_alter_eq|]. by left.
Qed.
End complete.

(** A review is accepted only for an assigned route and an assigned reviewer,
    from the agent of the routed profile, and (for a strategy) with an explicit
    review of the route's subject whose digest is the one submitted; the
    assignment then carries the review.  Independence is attested only when
    every assignment of the route is completed. *)
Theorem independence_needs_every_review `{World} route a payload s s' :
  complete_assignment route a payload s = (Ok tt, s') →
  acceptable (db s) route a payload ∧
  (∀ x, assignments (db s) !! ea_id a = Some x → ∃ x', assignments (db s') !! ea_id a = Some x' ∧
     ea_status x' = "completed" ∧ ea_review_digest x' = Some (eac_review_digest payload) ∧
     ea_completed_by x' = Some (uuid_str (eac_evaluator_agent_id payload))) ∧
  (independence_receipts (db s') ≠ independence_receipts (db s) → all_reviews_in (db s') route).
Proof.
  intros E. destruct (wp_run _ _ _ _ _ _ (wp_complete_assignment route a payload s) E) as (Hacc & Ha & Hr).
  split; [done|]. split; [|tauto]. intros x Hx. rewrite Ha, Hx. eexists. split; [reflexivity|]. done.
Qed.

(** a route with two reviewers *)
Definition routed_db : database :=
  demo_db <| profiles := {[ 2%N := evaluator 2 "package-b" "context-b" "provider-b" ["risk"; "code"] ]} |>
          <| routes := {[ 30%N := @new_route (at_time 1) 30 (demo_route ["risk"]) <| er_status := "assigned" |> ]} |>
          <| assignments := {[ 31%N := mkEvaluatorAssignment 31 30 2 "risk" "assigned" [] "assignment-digest"
                                  None None None 0 None ]} |>.

Lemma independence_needs_every_review_witness :
  ∃ route a s', routes routed_db !! 30%N = Some route ∧ assignments routed_db !! 31%N = Some a ∧
    @complete_assignment (at_time 2) route a (mkEvaluatorAssignmentComplete 2 "review" "review-digest" None)
      (open_session routed_db) = (Ok tt, s') ∧ length (independence_receipts (db s')) = 1%nat ∧
    all_reviews_in (db s') route.
Proof.
  destruct (routes routed_db !! 30%N) as [route|] eqn:Hr; [|vm_compute in Hr; discriminate].
  destruct (assignments routed_db !! 31%N) as [a|] eqn:Ha; [|vm_compute in Ha; discriminate].
  assert (E : ∃ s', @complete_assignment (at_time 2) route a
    (mkEvaluatorAssignmentComplete 2 "review" "review-digest" None) (open_session routed_db) = (Ok tt, s') ∧
    length (independence_receipts (db s')) = 1%nat).
  { vm_compute in Hr, Ha. injection Hr as <-. injection Ha as <-. eexists. split; vm_compute; reflexivity. }
  destruct E as (s' & E & Hl). exists route, a, s'. split; [reflexivity|]. split; [reflexivity|].
  split; [exact E|]. split; [exact Hl|].
  destruct (@independence_needs_every_review (at_time 2) route a _ _ s' E) as (_ & _ & Hall).
  apply Hall. intros Heq. rewrite Heq in Hl. discriminate Hl.
Defined.
