(* ===== verification/AuthorityTheorems.v ===== *)
(** * What authority policies promise

    The contract of [services/authority.py] and [routes/authority.py]: who may
    decide what, that a denial leaves a record, that one policy is in force, and
    how far delegations and exceptions reach. *)
From S2P Require Import Prelude Py Sha256 Models Store Logic Security TaskCore Notifications Governance.
From S2P Require Import CoreInvariant GovernanceFacts AgentGovernance Controls EvaluatorRouting Tasks Dag Missions TaskGraphs TaskRuntime.
From S2P Require Import Supervision Authority ApprovalRoutes System Demo.

Open Scope Z_scope.

(** ** Resolution *)
Section resolution.
Context (m : AuthorityPolicyManifest).

(** the participants of the decision are kept apart, or the exception in force
    waives exactly that rule of a decision that is not constitutional *)
Definition separated (rule : DecisionRight) (request : AuthorityResolutionRequest)
    (exception_rule : option string) : Prop :=
  ∀ s, s ∈ dr_separation rule → sr_minimum_risk s ≤ arq_risk_level request →
    principal_for m (participant request (sr_field s)) = principal_for m (Some (arq_actor request)) →
    dr_constitutional rule = false ∧ exception_rule = Some (sr_rule_key s).

Definition permitted (request : AuthorityResolutionRequest) (delegated : bool)
    (exception_rule : option string) : Prop :=
  ∃ rule, decision_rule m (arq_decision_type request) = Some rule ∧
    arq_action request ∈ dr_actions rule ∧ arq_risk_level request ≤ dr_maximum_risk rule ∧
    ("*" ∈ dr_environments rule ∨ arq_environment request ∈ dr_environments rule) ∧
    ((∃ role, role ∈ roles_for m (arq_actor request) ∧ role ∈ dr_accountable_roles rule) ∨ delegated = true) ∧
    (∀ role, role ∈ arq_active_veto_roles request → role ∉ dr_veto_roles rule) ∧
    separated rule request exception_rule.

Lemma fail_if_nil b r : fail_if b r = [] ↔ b = false.
Proof. by destruct b. Qed.

Lemma overlaps_spec xs ys : overlaps xs ys = true ↔ ∃ x, x ∈ xs ∧ x ∈ ys.
Proof.
  unfold overlaps. rewrite existsb_exists. split; intros (x & H1 & H2); exists x.
  - split; [by apply list_elem_of_In|by apply str_in_spec].
  - split; [by apply list_elem_of_In|by apply str_in_spec].
Qed.

Lemma opt_str_eqb_spec a b : opt_str_eqb a b = true ↔ a = b.
Proof.
  destruct a as [a|], b as [b|]; cbn; [|done..]. rewrite str_eqb_spec. split; [by intros ->|by intros [= ->]].
Qed.

Lemma filter_nil {A} (p : A → bool) l : List.filter p l = [] ↔ ∀ x, x ∈ l → p x = false.
Proof.
  split.
  - intros Hf x Hx. destruct (p x) eqn:E; [|done]. assert (Hin : In x (List.filter p l)) by (apply filter_In; split; [by apply list_elem_of_In|done]).
    by rewrite Hf in Hin.
  - intros Hall. destruct (List.filter p l) as [|x l'] eqn:E; [done|].
    assert (Hin : In x (List.filter p l)) by (rewrite E; by left). apply filter_In in Hin as [Hin Hp].
    rewrite Hall in Hp; [done|]. by apply list_elem_of_In.
Qed.

Lemma active_vetoes_nil rule request :
  active_vetoes rule request = [] ↔ ∀ role, role ∈ arq_active_veto_roles request → role ∉ dr_veto_roles rule.
Proof.
  unfold active_vetoes. split.
  - intros Hn role Hr Hv. assert (Hin : role ∈ sorted_set (List.filter (fun r => str_in r (dr_veto_roles rule)) (arq_active_veto_roles request))).
    { apply sorted_set_elem, list_elem_of_In, filter_In. split; [by apply list_elem_of_In|by apply str_in_spec]. }
    rewrite Hn in Hin. by apply elem_of_nil in Hin.
  - intros Hall. rewrite (proj2 (filter_nil _ _)); [done|]. intros role Hr.
    destruct (str_in role _) eqn:E; [|done]. apply str_in_spec in E. by destruct (Hall role).
Qed.

Lemma map_nil {A B} (f : A → B) (l : list A) : f <$> l = [] ↔ l = [].
Proof. by destruct l. Qed.

Lemma separated_nil rule request exception_rule :
  (fun s => "separation:" +:+ sr_rule_key s) <$>
    List.filter (separation_violated m rule request exception_rule) (dr_separation rule) = [] ↔
  separated rule request exception_rule.
Proof.
  rewrite map_nil, filter_nil. unfold separated, separation_violated. split; intros Hall s Hs.
  - intros Hrisk Hsame. specialize (Hall s Hs). apply Z.leb_le in Hrisk. apply opt_str_eqb_spec in Hsame.
    rewrite Hrisk, Hsame in Hall. cbn in Hall. apply orb_false_iff in Hall as [-> Hx].
    apply negb_false_iff, opt_str_eqb_spec in Hx. done.
  - destruct (Z.leb_spec (sr_minimum_risk s) (arq_risk_level request)) as [Hr|]; [|done].
    destruct (opt_str_eqb (principal_for m _) _) eqn:E; [|done]. apply opt_str_eqb_spec in E.
    destruct (Hall s Hs Hr E) as [-> ->]. cbn. by rewrite str_eqb_refl.
Qed.

Lemma rule_failures_nil rule request delegated exception_rule :
  rule_failures m rule request delegated exception_rule = [] ↔
  arq_action request ∈ dr_actions rule ∧ arq_risk_level request ≤ dr_maximum_risk rule ∧
  ("*" ∈ dr_environments rule ∨ arq_environment request ∈ dr_environments rule) ∧
  ((∃ role, role ∈ roles_for m (arq_actor request) ∧ role ∈ dr_accountable_roles rule) ∨ delegated = true) ∧
  (∀ role, role ∈ arq_active_veto_roles request → role ∉ dr_veto_roles rule) ∧
  separated rule request exception_rule.
Proof.
  unfold rule_failures. rewrite !app_nil, !fail_if_nil, separated_nil, !negb_false_iff.
  rewrite bool_decide_eq_true, active_vetoes_nil, Z.ltb_ge, str_in_spec.
  rewrite !andb_false_iff, !negb_false_iff, !str_in_spec, overlaps_spec. done.
Qed.
End resolution.

Lemma allowed_permitted m request delegated conflict exception_rule :
  (pure_resolution m request delegated conflict exception_rule).1.1.1 = true ↔
  conflict = false ∧ permitted m request delegated exception_rule.
Proof.
  unfold pure_resolution, permitted. destruct (decision_rule m _) as [rule|]; cbn.
  - rewrite bool_decide_eq_true, app_nil, fail_if_nil, rule_failures_nil. split.
    + intros [-> H]. split; [done|]. by exists rule.
    + intros [-> (rule' & [= <-] & H)]. done.
  - split; [done|]. by intros [_ (rule & ? & _)].
Qed.

(** C34. A decision is authorised exactly when no two delegations compete, its type
    is registered, and the rule allows the action, the risk and the environment,
    the actor holds an accountable role or acts under a delegation, no active
    role vetoes it, and every separation rule that applies at this risk either
    finds the actor's principal different from the other participant's, or is
    waived by the exception in force on a decision that is not constitutional. *)
Theorem pure_resolution_allowed_iff m request delegated conflict exception_rule :
  (pure_resolution m request delegated conflict exception_rule).1.1.1 = true ↔
  conflict = false ∧ permitted m request delegated exception_rule.
Proof. apply allowed_permitted. Qed.

(** ** A resolution and its record *)
Section record.
Context `{World}.

(** the policy in force, the delegation and the exception a resolution finds *)
Definition in_force (d : database) (now : datetime) (p : AuthorityPolicySnapshot) : Prop :=
  (∃ id, policies d !! id = Some p) ∧ policy_effective now p = true.

Definition delegation_found (d : database) (p : AuthorityPolicySnapshot) (request : AuthorityResolutionRequest)
    (now : datetime) (a : AuthorityDelegation) : Prop :=
  (∃ id, delegations d !! id = Some a) ∧ applicable_delegation p request now a = true ∧
  ∀ id b, delegations d !! id = Some b → applicable_delegation p request now b = true → b = a.

Definition exception_found (d : database) (p : AuthorityPolicySnapshot) (request : AuthorityResolutionRequest)
    (now : datetime) (x : AuthorityException) : Prop :=
  ∃ id, arq_exception_id request = Some id ∧ exceptions d !! id = Some x ∧ exception_in_force p now x = true.

(** what justifies an authorised decision *)
Definition grounded (d : database) (now : datetime) (request : AuthorityResolutionRequest) : Prop :=
  ∃ p delegation exception, in_force d now p ∧
    (∀ a, delegation = Some a → delegation_found d p request now a) ∧
    (∀ x, exception = Some x → exception_found d p request now x) ∧
    permitted (aps_manifest p) request (match delegation with Some _ => true | None => false end)
      (ax_rule_key <$> exception).

Lemma select_all {R} (tbl : database → gmap uuid R) (p : R → bool) d l :
  List.filter p (table_rows (tbl d)) = l → ∀ id r, tbl d !! id = Some r → p r = true → r ∈ l.
Proof.
  intros <- id r Hr Hp. apply list_elem_of_In, filter_In. split; [|done].
  apply list_elem_of_In, list_elem_of_fmap. exists (id, r). split; [done|]. by apply elem_of_map_to_list.
Qed.

Lemma wp_active_policy I now Q s :
  I (saved s) → (∀ p, in_force (db s) now p → Q p s) → wp I (active_policy now) Q s.
Proof.
  intros HI HQ. unfold active_policy, select_one. apply wp_bind, wp_gets.
  destruct (head _) as [p|] eqn:Hh; [|by apply wp_raise]. apply wp_ret, HQ.
  destruct (select_one_Some _ _ _ _ Hh) as [Hp Hex]. done.
Qed.

Lemma wp_find_delegation I p request now Q s :
  (∀ r conflict, (∀ a, r = Some a → conflict = false → delegation_found (db s) p request now a) → Q (r, conflict) s) →
  wp I (find_delegation p request now) Q s.
Proof.
  intros HQ. unfold find_delegation. destruct (decision_rule _ _) as [rule|]; [|by apply wp_ret, HQ].
  apply wp_if; intros _; [|by apply wp_ret, HQ]. unfold select_rows. apply wp_bind, wp_gets, wp_ret, HQ.
  intros a Ha _. destruct (List.filter _ _) as [|b [|]] eqn:E; [done| |done]. injection Ha as ->.
  assert (Hin : a ∈ List.filter (applicable_delegation p request now) (table_rows (delegations (db s))))
    by (rewrite E; by left).
  apply (select_rows_elem delegations) in Hin as [Hp Hex]. split; [done|]. split; [done|].
  intros id b Hb Hpb. apply list_elem_of_singleton. by eapply (select_all delegations).
Qed.

Lemma wp_find_exception I p request now Q s :
  (∀ r, (∀ x, r = Some x → exception_found (db s) p request now x) → Q r s) →
  wp I (find_exception p request now) Q s.
Proof.
  intros HQ. unfold find_exception. destruct (arq_exception_id request) as [id|] eqn:Hid; [|by apply wp_ret, HQ].
  apply wp_bind, wp_get_row, wp_ret, HQ. intros x Hx. destruct (exceptions (db s) !! id) as [y|] eqn:Hy; [|done].
  destruct (exception_in_force p now y) eqn:Hf; [|done]. injection Hx as ->. by exists id.
Qed.

(** the record a resolution leaves *)
Definition recorded (request : AuthorityResolutionRequest) (outcome : string) (r : AuthorityDecisionRecord)
    (d d' : database) : Prop :=
  decision_records d' = decision_records d ++ [r] ∧ ar_outcome r = outcome ∧
  ar_actor r = arq_actor request ∧ ar_decision_type r = arq_decision_type request ∧
  ar_action r = arq_action request ∧ ar_object_type r = arq_object_type request ∧
  ar_object_id r = arq_object_id request ∧ ar_object_digest r = arq_object_digest request.

(** the readings of a resolution change nothing *)
Lemma find_delegation_run p request now s :
  ∃ r conflict, find_delegation p request now s = (Ok (r, conflict), s) ∧
    ∀ a, r = Some a → conflict = false → delegation_found (db s) p request now a.
Proof.
  enough (Hret : returns (find_delegation p request now) (fun x s' => s' = s ∧
    ∀ a, x.1 = Some a → x.2 = false → delegation_found (db s) p request now a) s).
  { apply returns_run in Hret as ([r c] & s' & E & -> & H1). by exists r, c. }
  apply wp_find_delegation. done.
Qed.

Lemma find_exception_run p request now s :
  ∃ r, find_exception p request now s = (Ok r, s) ∧ ∀ x, r = Some x → exception_found (db s) p request now x.
Proof.
  enough (Hret : returns (find_exception p request now) (fun r s' => s' = s ∧
    ∀ x, r = Some x → exception_found (db s) p request now x) s).
  { apply returns_run in Hret as (r & s' & E & -> & H1). by exists r. }
  apply wp_find_exception. done.
Qed.

Lemma active_policy_cases now s :
  (∃ p, active_policy now s = (Ok p, s) ∧ in_force (db s) now p) ∨
  active_policy now s = (Err (HTTPException 409 (JStr "No active authority policy.")), s).
Proof.
  unfold active_policy, select_one, mbind, Sess_bind, gets. destruct (head _) as [p|] eqn:Hh; [left|by right].
  exists p. split; [done|]. by destruct (select_one_Some _ _ _ _ Hh) as [Hp Hex].
Qed.

Lemma resolve_at_cases now request s :
  match resolve_authority_at now request s with
  | (Ok r, s') => grounded (db s) now request ∧ recorded request "authorized" r (db s) (db s') ∧
                  core (db s') = core (db s)
  | (Err e, s') => (∃ r reason, recorded request "denied" r (db s) (saved s') ∧ saved s' = db s' ∧
                      e = HTTPException 403 (JObj [("reason", JStr reason);
                                                   ("decision_record_id", JStr (uuid_str (ar_id r)))])) ∨
                   (e = HTTPException 409 (JStr "No active authority policy.") ∧ saved s' = saved s)
  end.
Proof.
  unfold resolve_authority_at.
  destruct (active_policy_cases now s) as [(p & Ep & Hp)|Ep].
  2:{ unfold mbind, Sess_bind. rewrite Ep. by right. }
  rewrite (run_bind _ _ _ _ _ Ep).
  destruct (find_delegation_run p request now s) as (del & conflict & Ed & Hdel). rewrite (run_bind _ _ _ _ _ Ed).
  destruct (find_exception_run p request now s) as (exc & Ex & Hexc). rewrite (run_bind _ _ _ _ _ Ex). cbv beta iota.
  pose proof (allowed_permitted (aps_manifest p) request (match del with Some _ => true | None => false end)
    conflict (ax_rule_key <$> exc)) as Hiff.
  destruct (pure_resolution _ _ _ _ _) as [[[allowed reason] roles] failures]. cbn in Hiff.
  unfold mbind, Sess_bind, fresh_id, append_log, update, commit, raise. destruct allowed.
  - destruct (proj1 Hiff eq_refl) as [-> Hperm]. split; [|by repeat split].
    exists p, del, exc. split; [exact Hp|]. split; [intros a Ha; exact (Hdel a Ha eq_refl)|]. split; [exact Hexc|exact Hperm].
  - left. eexists _, reason. split; [split; [reflexivity|by repeat split]|]. by split.
Qed.

Lemma resolve_authority_cases request s :
  match resolve_authority request s with
  | (Ok r, s') => grounded (db s) (w_now (clock s)) request ∧ recorded request "authorized" r (db s) (db s') ∧
                  core (db s') = core (db s)
  | (Err e, s') => (∃ r reason, recorded request "denied" r (db s) (saved s') ∧ saved s' = db s' ∧
                      e = HTTPException 403 (JObj [("reason", JStr reason);
                                                   ("decision_record_id", JStr (uuid_str (ar_id r)))])) ∨
                   (e = HTTPException 409 (JStr "No active authority policy.") ∧ saved s' = saved s)
  end.
Proof.
  unfold resolve_authority. rewrite (run_bind _ _ s (w_now (clock s)) (s <| clock := S (clock s) |>)) by done.
  exact (resolve_at_cases (w_now (clock s)) request (s <| clock := S (clock s) |>)).
Qed.

(** a resolution writes its record and takes an identifier; a denial is committed *)
Lemma resolve_at_effect now request s o s' :
  resolve_authority_at now request s = (o, s') →
  saved s' = saved s ∧ db s' = db s ∧ (∃ e, o = Err e) ∨
  ∃ r, db s' = db s <| next_id := N.succ (next_id (db s)) |>
                    <| decision_records := decision_records (db s) ++ [r] |> ∧
    ((∃ e, o = Err e) ∧ saved s' = db s' ∨ o = Ok r ∧ saved s' = saved s).
Proof.
  unfold resolve_authority_at.
  destruct (active_policy_cases now s) as [(p & Ep & Hp)|Ep].
  2:{ unfold mbind, Sess_bind. rewrite Ep. intros [= <- <-]. left. by eauto. }
  rewrite (run_bind _ _ _ _ _ Ep).
  destruct (find_delegation_run p request now s) as (del & conflict & Ed & _). rewrite (run_bind _ _ _ _ _ Ed).
  destruct (find_exception_run p request now s) as (exc & Ex & _). rewrite (run_bind _ _ _ _ _ Ex). cbv beta iota.
  destruct (pure_resolution _ _ _ _ _) as [[[allowed reason] roles] failures].
  unfold mbind, Sess_bind, fresh_id, append_log, update, commit, raise.
  destruct allowed; intros [= <- <-]; right; eexists; (split; [reflexivity|]); [by right|left; by eauto].
Qed.
Lemma resolve_authority_effect request s o s' :
  resolve_authority request s = (o, s') →
  saved s' = saved s ∧ db s' = db s ∧ (∃ e, o = Err e) ∨
  ∃ r, db s' = db s <| next_id := N.succ (next_id (db s)) |>
                    <| decision_records := decision_records (db s) ++ [r] |> ∧
    ((∃ e, o = Err e) ∧ saved s' = db s' ∨ o = Ok r ∧ saved s' = saved s).
Proof.
  unfold resolve_authority. rewrite (run_bind _ _ s (w_now (clock s)) (s <| clock := S (clock s) |>)) by done.
  exact (resolve_at_effect (w_now (clock s)) request (s <| clock := S (clock s) |>) o s').
Qed.
End record.

(** A resolution either authorises the request, when the policy in force
    permits it (with the single applicable delegation, and the exception named if
    it is in force), appending one record of the authorised decision; or denies
    it, in which case the record of the denial is committed before the 403 that
    names it; or no policy is in force and nothing is committed. *)
Theorem every_resolution_is_recorded `{World} request s :
  match resolve_authority request s with
  | (Ok r, s') => grounded (db s) (w_now (clock s)) request ∧ recorded request "authorized" r (db s) (db s') ∧
                  core (db s') = core (db s)
  | (Err e, s') => (∃ r reason, recorded request "denied" r (db s) (saved s') ∧ saved s' = db s' ∧
                      e = HTTPException 403 (JObj [("reason", JStr reason);
                                                   ("decision_record_id", JStr (uuid_str (ar_id r)))])) ∨
                   (e = HTTPException 409 (JStr "No active authority policy.") ∧ saved s' = saved s)
  end.
Proof. apply resolve_authority_cases. Qed.

(** ** Approving a task through the API *)
Section grant.
Context `{World}.

Lemma approve_task_records id actor reason n : preserves decision_records (approve_task id actor reason n).
Proof.
  unfold approve_task, enqueue_task_ready, insert_once, add_notification, append_approval_event, append_task_event, alter_task.
  frame.
Qed.

Lemma resolve_task_approval_run a actor action exc s r s' :
  resolve_task_approval a actor action exc s = (Ok r, s') →
  let request := task_approval_request a actor action exc in
  grounded (db s) (w_now (clock s)) request ∧ recorded request "authorized" r (db s) (db s') ∧
  core (db s') = core (db s).
Proof.
  unfold resolve_task_approval. destruct (_ && _); [|done]. intros E.
  pose proof (resolve_authority_cases (task_approval_request a actor action exc) s) as Hc. by rewrite E in Hc.
Qed.
End grant.

(** C35. A task approval is granted through the API only by an actor whom the
    policy in force permits to approve it: the decision asked for is that of this
    actor on this approval, at the risk and in the environment of the approval (an
    internal one if its scope names none), with the approval's requester as the
    participant to be separated from; it is recorded against the plan digest, and
    the approval was pending. *)
Theorem api_approval_is_authorized `{World} id payload s s' :
  grant_endpoint id payload s = (Ok tt, s') →
  ∃ a r, approvals (db s) !! id = Some a ∧ ap_status a = ApPending ∧
    let request := task_approval_request a (de_actor payload) "approve" (de_authority_exception_id payload) in
    arq_requester request = Some (ap_requested_by a) ∧ arq_object_digest request = ap_plan_digest a ∧
    arq_actor request = de_actor payload ∧ arq_decision_type request = "task-approval" ∧ arq_action request = "approve" ∧
    arq_object_id request = uuid_str (ap_id a) ∧ arq_risk_level request = ap_risk_level a ∧
    arq_environment request =
      match Json.get "environment" (ap_scope a) with Some (JStr value) => value | _ => "internal" end ∧
    arq_exception_id request = de_authority_exception_id payload ∧
    grounded (db s) (w_now (clock s)) request ∧ recorded request "authorized" r (db s) (saved s') ∧
    saved s' = db s'.
Proof.
  unfold grant_endpoint, _approval. intros E. apply bind_Ok in E as (a & s1 & Ea & E).
  apply bind_Ok in Ea as (row & s0 & [= <- <-] & Ea).
  destruct (approvals (db s) !! id) as [a'|] eqn:Ha; [|done]. injection Ea as -> <-.
  apply bind_Ok in E as (r & s2 & Er & E). destruct (resolve_task_approval_run _ _ _ _ _ _ _ Er) as (Hg & (Hrec & Hrest) & Hc).
  apply bind_Ok in E as ([] & s3 & Et & E). injection E as <-. exists a, r. split; [done|].
  assert (Hpend : ap_status a = ApPending).
  { unfold approve_task in Et. apply bind_Ok in Et as (row & s4 & [= <- <-] & Et).
    injection Hc as _ Hap. rewrite Hap, Ha in Et. destruct (bool_decide _) eqn:Hst in Et; [|done].
    by apply bool_decide_eq_true in Hst. }
  split; [done|]. do 9 (split; [done|]). split; [exact Hg|]. split; [|done].
  destruct (preserves_run decision_records _ _ _ _ (approve_task_records _ _ _ _) Et) as [Hd _].
  split; [|exact Hrest]. cbn. by rewrite Hd.
Qed.

Lemma api_approval_is_authorized_witness :
  let s := open_session (run created demo_db) in
  ∃ a s', @grant_endpoint (at_time 2) approval_id decision s = (Ok tt, s') ∧
    approvals (db s) !! approval_id = Some a ∧
    @grounded (db s) (@w_now (at_time 2) 0) (task_approval_request a "founder" "approve" None).
Proof.
  intros s. assert (E : ∃ s', @grant_endpoint (at_time 2) approval_id decision s = (Ok tt, s'))
    by (eexists; vm_compute; reflexivity).
  destruct E as [s' E].
  destruct (@api_approval_is_authorized (at_time 2) approval_id decision s s' E)
    as (a & r & Ha & _ & _ & _ & _ & _ & _ & _ & _ & _ & _ & Hg & _).
  exists a, s'. split; [exact E|]. split; [exact Ha|exact Hg].
Defined.

(** ** One policy in force *)
Section policy.

Definition sole_active (d : database) : Prop :=
  ∀ id id' p p', policies d !! id = Some p → policies d !! id' = Some p' →
    aps_status p = "active" → aps_status p' = "active" → id = id'.

Definition keyed_policies (d : database) : Prop := ∀ id p, policies d !! id = Some p → aps_id p = id.

Lemma select_active_Some d c :
  head (List.filter (fun p => str_eqb (aps_status p) "active") (table_rows (policies d))) = Some c →
  keyed_policies d → policies d !! aps_id c = Some c ∧ aps_status c = "active".
Proof.
  intros Hh Hk. destruct (select_one_Some policies _ _ _ Hh) as [Hst [id Hid]].
  apply str_eqb_spec in Hst. by rewrite (Hk _ _ Hid).
Qed.

Lemma select_active_None d id p :
  head (List.filter (fun p => str_eqb (aps_status p) "active") (table_rows (policies d))) = None →
  policies d !! id = Some p → aps_status p ≠ "active".
Proof.
  intros Hh Hp E. pose proof (select_one_None policies _ _ Hh id p Hp) as Hf. cbn in Hf.
  by rewrite E in Hf.
Qed.
End policy.

(** Activating a draft or retired policy always succeeds, and leaves it the
    only active policy, effective from now without an end and recorded as
    activated by the actor; the policy that was active is retired as of now. *)
Theorem activate_policy_spec policy actor now s :
  keyed_policies (db s) → sole_active (db s) → policies (db s) !! aps_id policy = Some policy →
  aps_status policy ∈ ["draft"; "retired"] →
  ∃ s', activate_policy policy actor now s = (Ok tt, s') ∧
    (∃ p', policies (db s') !! aps_id policy = Some p' ∧ aps_status p' = "active" ∧
       aps_effective_from p' = Some now ∧ aps_effective_until p' = None ∧ aps_activated_by p' = Some actor) ∧
    (∀ id q, policies (db s') !! id = Some q → aps_status q = "active" → id = aps_id policy) ∧
    (∀ id q, policies (db s) !! id = Some q → aps_status q = "active" →
       ∃ q', policies (db s') !! id = Some q' ∧ aps_status q' = "retired" ∧ aps_effective_until q' = Some now).
Proof.
  intros Hk Hsole Hp Hst. unfold activate_policy.
  assert (Hin : str_in (aps_status policy) ["draft"; "retired"] = true) by by apply str_in_spec.
  assert (Hna : aps_status policy ≠ "active").
  { rewrite !elem_of_cons, elem_of_nil in Hst. destruct Hst as [->|[->|[]]]; done. }
  rewrite Hin. cbn [negb]. unfold select_one, mbind, Sess_bind, gets, alter_row, update.
  destruct (head _) as [c|] eqn:Hh.
  - destruct (select_active_Some _ _ Hh Hk) as [Hc Hact]. assert (Hne : aps_id c ≠ aps_id policy) by congruence.
    eexists. split; [reflexivity|]. cbn. split; [|split].
    + rewrite !lookup_alter_eq, (lookup_alter_ne _ _ (aps_id c)) by done. rewrite Hp. by eexists.
    + intros id q Hq Hqa. destruct (decide (id = aps_id policy)) as [|Hn]; [done|]. exfalso.
      rewrite !(lookup_alter_ne _ _ (aps_id policy)) in Hq by done.
      destruct (decide (id = aps_id c)) as [->|Hnc].
      * rewrite lookup_alter_eq, Hc in Hq. injection Hq as <-. done.
      * rewrite (lookup_alter_ne _ _ (aps_id c)) in Hq by done. apply Hnc. by eapply Hsole.
    + intros id q Hq Hqa. assert (id = aps_id c) as -> by by eapply Hsole.
      rewrite !(lookup_alter_ne _ _ (aps_id policy)), lookup_alter_eq, Hc by done. by eexists.
  - eexists. split; [reflexivity|]. cbn. split; [|split].
    + rewrite lookup_alter_eq, Hp. by eexists.
    + intros id q Hq Hqa. destruct (decide (id = aps_id policy)) as [|Hn]; [done|]. exfalso.
      rewrite (lookup_alter_ne _ _ (aps_id policy)) in Hq by done. by eapply select_active_None.
    + intros id q Hq Hqa. by destruct (select_active_None _ _ _ Hh Hq).
Qed.

Definition second_policy : AuthorityPolicySnapshot :=
  mkAuthorityPolicySnapshot 7 "core" "2.0.0" "draft" (aps_manifest founder_policy) "policy-digest-2"
    None None None None None "founder" epoch.
Definition two_policies : database :=
  demo_db <| policies := <[7%N := second_policy]> (policies demo_db) |>.

Lemma activate_policy_spec_witness :
  ∃ s' q', activate_policy second_policy "founder" epoch (open_session two_policies) = (Ok tt, s') ∧
    policies (db s') !! 6%N = Some q' ∧ aps_status q' = "retired".
Proof.
  assert (Hrows : ∀ id p, policies two_policies !! id = Some p → id = 7%N ∧ p = second_policy ∨ id = 6%N ∧ p = founder_policy).
  { intros id p Hp. unfold two_policies in Hp. cbn in Hp. apply lookup_insert_Some in Hp as [[<- <-]|[_ Hp]]; [by left|].
    apply lookup_singleton_Some in Hp as [<- <-]. by right. }
  destruct (activate_policy_spec second_policy "founder" epoch (open_session two_policies))
    as (s' & E & _ & _ & Hret).
  - intros id p Hp. destruct (Hrows id p Hp) as [[-> ->]|[-> ->]]; reflexivity.
  - intros id id' p p' Hp Hp' Ha Ha'. destruct (Hrows id p Hp) as [[-> ->]|[-> ->]]; [discriminate Ha|].
    destruct (Hrows id' p' Hp') as [[-> ->]|[-> ->]]; [discriminate Ha'|reflexivity].
  - reflexivity.
  - left.
  - destruct (Hret 6%N founder_policy) as (q' & Hq & Hst & _); [reflexivity|reflexivity|].
    exists s', q'. split; [exact E|]. split; [exact Hq|exact Hst].
Defined.

(** ** Delegations and exceptions *)
Section delegation.

(** the grantor may delegate every decision up to the risk *)
Definition delegable (m : AuthorityPolicyManifest) (p : DelegationCreate) : Prop :=
  ∀ d, d ∈ dc_decision_types p → ∃ rule role, decision_rule m d = Some rule ∧ dr_delegable rule = true ∧
    role ∈ roles_for m (dc_grantor_actor p) ∧ role ∈ dr_accountable_roles rule ∧ dc_max_risk p ≤ dr_maximum_risk rule.

Lemma delegation_error_None m grantor risk l :
  delegation_error m grantor risk l = None →
  ∀ d, d ∈ l → ∃ rule role, decision_rule m d = Some rule ∧ dr_delegable rule = true ∧
    role ∈ roles_for m grantor ∧ role ∈ dr_accountable_roles rule ∧ risk ≤ dr_maximum_risk rule.
Proof.
  induction l as [|d l IH]; cbn; [by intros _ d ?%elem_of_nil|].
  destruct (decision_rule m d) as [rule|] eqn:Hr; [|done]. destruct (negb _ || negb _) eqn:Hd; [done|].
  destruct (dr_maximum_risk rule <? risk) eqn:Hm; [done|]. intros He d' [->|Hin]%elem_of_cons; [|by apply IH].
  apply orb_false_iff in Hd as [Hd Ho]. apply negb_false_iff in Hd, Ho. apply overlaps_spec in Ho as (role & H1 & H2).
  apply Z.ltb_ge in Hm. by exists rule, role.
Qed.
End delegation.

(** A delegation is created only by a grantor other than the grantee, for at
    most thirty days, and only for decisions that the policy in force lets the
    grantor delegate: each is delegable, the grantor holds one of its accountable
    roles, and the delegated risk is within the decision's own bound. *)
Theorem delegation_is_bounded `{World} p s id s' :
  create_delegation p s = (Ok id, s') →
  dc_grantor_actor p ≠ dc_grantee_actor p ∧
  (∃ now policy, now = w_now (S (clock s)) ∧ in_force (db s) now policy ∧
     now < dc_expires_at p ≤ now + MAX_DELEGATION ∧ delegable (aps_manifest policy) p) ∧
  ∃ a, delegations (saved s') !! id = Some a ∧ ad_status a = "active" ∧
    ad_grantee_actor a = dc_grantee_actor p ∧ ad_max_risk a = dc_max_risk p ∧ ad_expires_at a = dc_expires_at p.
Proof.
  intros E. enough (Hwp : wp (fun _ => True) (create_delegation p) (fun id s' =>
    dc_grantor_actor p ≠ dc_grantee_actor p ∧
    (∃ now policy, now = w_now (S (clock s)) ∧ in_force (db s) now policy ∧
       now < dc_expires_at p ≤ now + MAX_DELEGATION ∧ delegable (aps_manifest policy) p) ∧
    ∃ a, delegations (saved s') !! id = Some a ∧ ad_status a = "active" ∧
      ad_grantee_actor a = dc_grantee_actor p ∧ ad_max_risk a = dc_max_risk p ∧ ad_expires_at a = dc_expires_at p) s)
    by exact (wp_run _ _ _ _ _ _ Hwp E).
  unfold create_delegation. apply wp_bind, wp_utc_now; intros now0 _.
  apply wp_bind, wp_active_policy; [done|]. intros policy0 _. apply wp_bind. unfold validate_delegation.
  apply wp_bind, wp_utc_now; intros now ->. apply wp_bind, wp_active_policy; [done|]. intros policy Hpol.
  apply wp_if; intros Hself; [by apply wp_raise|]. apply wp_if; intros Hexp; [by apply wp_raise|].
  destruct (delegation_error _ _ _ _) as [[code detail]|] eqn:Hde; [by apply wp_raise|].
  apply wp_ret, wp_bind. eapply (wp_frame delegations); [frame|done|]. intros new s1 _ _.
  apply wp_bind, wp_insert; [done|]. intros _. apply wp_bind, wp_commit, wp_ret.
  split; [intros E'; by rewrite E', str_eqb_refl in Hself|]. split.
  - eexists _, policy. split; [reflexivity|]. split; [exact Hpol|]. cbn in Hexp |- *.
    apply orb_false_iff in Hexp as [H1%Z.leb_gt H2%Z.ltb_ge]. split; [lia|]. by intros d; apply delegation_error_None.
  - eexists. cbn. split; [apply lookup_insert_eq|]. done.
Qed.

Definition phone_delegation : DelegationCreate :=
  mkDelegationCreate "founder-phone" "auditor" ["task-approval"] [] 2 "internal" "Travelling this week."
    (epoch + days 7).

Lemma delegation_is_bounded_witness :
  ∃ id s' a, @create_delegation (at_time 2) phone_delegation (open_session demo_db) = (Ok id, s') ∧
    delegations (saved s') !! id = Some a ∧ ad_status a = "active" ∧ ad_max_risk a = 2.
Proof.
  assert (E : ∃ id s', @create_delegation (at_time 2) phone_delegation (open_session demo_db) = (Ok id, s'))
    by (do 2 eexists; vm_compute; reflexivity).
  destruct E as (id & s' & E).
  destruct (@delegation_is_bounded (at_time 2) phone_delegation _ id s' E) as (_ & _ & a & Ha & Hst & _ & Hr & _).
  exists id, s', a. by split.
Defined.

(** The decision on an exception keeps out only the names the exception was
    filed under: with governance authority any other name decides it, also an
    alias of the requester, although the roles are resolved through the aliases. *)
Theorem exception_decided_by_name `{World} id x actor reason action s :
  exceptions (db s) !! id = Some x → ax_status x ∈ ["pending"; "approved"] →
  (∃ p, in_force (db s) (w_now (clock s)) p) →
  (∀ p, in_force (db s) (w_now (clock s)) p → "governance" ∈ roles_for (aps_manifest p) actor) →
  if decide (actor = ax_requester x ∨ actor = ax_independent_reviewer x) then
    ∃ detail s', decide_exception id actor reason action s = (Err (HTTPException 403 detail), s') ∧ saved s' = saved s
  else
    ∃ s' now, decide_exception id actor reason action s = (Ok tt, s') ∧
      exceptions (saved s') !! id = Some (exception_decision actor reason action now x).
Proof.
  intros Hx Hst (p0 & (pid & Hp0) & Heff) Hgov. unfold decide_exception. cbv zeta.
  assert (Hin : str_in (ax_status x) ["pending"; "approved"] = true) by by apply str_in_spec.
  rewrite (run_bind _ _ s (Some x) s) by (unfold get_row, gets; by rewrite Hx). cbn iota. rewrite Hin. cbn [negb].
  rewrite (run_bind _ _ s (w_now (clock s)) (s <| clock := S (clock s) |>)) by done.
  destruct (active_policy_cases (w_now (clock s)) (s <| clock := S (clock s) |>)) as [(p & Ep & Hp)|Ep].
  2:{ exfalso. unfold active_policy, select_one, mbind, Sess_bind, gets in Ep. destruct (head _) as [p|] eqn:Hh; [done|].
      pose proof (select_one_None policies _ _ Hh pid p0 Hp0) as Hf. by rewrite Heff in Hf. }
  rewrite (run_bind _ _ _ _ _ Ep). rewrite (proj2 (str_in_spec _ _) (Hgov p Hp)). cbn [negb orb].
  assert (Hb : str_in actor [ax_requester x; ax_independent_reviewer x] =
               bool_decide (actor = ax_requester x ∨ actor = ax_independent_reviewer x)).
  { apply eq_true_iff_eq. rewrite str_in_spec, bool_decide_eq_true, !elem_of_cons, elem_of_nil. tauto. }
  rewrite Hb. case_bool_decide as Hn; destruct (decide _) as [Hd|Hd]; try done.
  - do 2 eexists. split; [reflexivity|done].
  - do 2 eexists. split; [reflexivity|]. cbn. by rewrite lookup_alter_eq, Hx.
Qed.

Definition own_exception : AuthorityException :=
  mkAuthorityException 8 6 "no-self-approval" "founder" None "auditor" "Single operator." [] 1 ["log review"]
    "pending" None (epoch + days 7) None None "exception-digest" epoch.
Definition excepted : database := demo_db <| exceptions := {[ 8%N := own_exception ]} |>.

Lemma exception_decided_by_name_witness :
  alias (aps_manifest founder_policy) "founder-phone" = ax_requester own_exception ∧
  ∃ s' x, @decide_exception (at_time 2) 8 "founder-phone" "Fine." ApproveException (open_session excepted) = (Ok tt, s') ∧
    exceptions (saved s') !! 8%N = Some x ∧ ax_status x = "approved".
Proof.
  split; [reflexivity|].
  assert (Hp : ∀ p now, in_force excepted now p → p = founder_policy).
  { intros p now [[id Hid] _]. cbn in Hid. by apply lookup_singleton_Some in Hid as [_ <-]. }
  pose proof (@exception_decided_by_name (at_time 2) 8 own_exception "founder-phone" "Fine." ApproveException
    (open_session excepted) eq_refl) as C. cbv zeta in C.
  destruct (decide _) as [[E|E]|_] in C; [discriminate E..|].
  destruct C as (s' & now & E & Hx).
  - left.
  - exists founder_policy. split; [by exists 6%N|reflexivity].
  - intros p Hf. rewrite (Hp p _ Hf). right. left.
  - exists s'. eexists. split; [exact E|]. split; [exact Hx|reflexivity].
Defined.
