(* ===== verification/MissionTheorems.v ===== *)
(** * What missions promise

    The contract of [services/missions.py] and [services/supervision.py]: how a
    mission's status follows its tasks, how far automatic recovery may go, and
    what the founder's conversations record. *)
From S2P Require Import Prelude Py Sha256 Models Store Logic Security TaskCore Notifications Governance.
From S2P Require Import CoreInvariant GovernanceFacts AgentGovernance Controls EvaluatorRouting Tasks Dag Missions.
From S2P Require Import AgentContext TaskGraphs Conversations TaskRuntime Supervision TasksFacts RuntimeFacts Endpoints System Demo.

Open Scope Z_scope.

(** ** The status of a mission *)
Section status.
Context `{World}.

(** the status that the tasks of a mission and the time leave it in *)
Definition derived_status (m : EngineeringMission) (l : list Task) (now : datetime) : MissionStatus :=
  if all_tasks_succeeded l then MSucceeded
  else if (ms_deadline_at m <=? now) || has_unsuccessful l then MBlocked else MActive.

Lemma refresh_mission_run id m s :
  missions (db s) !! id = Some m →
  returns (refresh_mission id) (fun _ s' => ∃ m', missions (db s') !! id = Some m' ∧
    ms_status m' = derived_status m (mission_tasks (db s) id) (w_now (clock s)) ∧
    ms_supervision_status m' = ms_supervision_status m ∧ tasks (db s') = tasks (db s)) s.
Proof.
  intros Hm. unfold returns, refresh_mission, derived_status. apply wp_bind, wp_get_row. rewrite Hm.
  apply wp_bind, wp_gets, wp_bind, wp_utc_now; intros now ->. cbv zeta. apply wp_if; intros Hall; rewrite Hall.
  - apply wp_bind. apply wp_alter. unfold announce_transition, append_mission_event. apply wp_when; intros _.
    + apply wp_update. cbn. rewrite lookup_alter_eq, Hm. by eexists.
    + cbn. rewrite lookup_alter_eq, Hm. by eexists.
  - apply wp_bind. apply wp_when; intros Hne; unfold announce_transition, append_mission_event.
    + apply wp_alter, wp_when; intros _; [apply wp_update|]; cbn; rewrite lookup_alter_eq, Hm; by eexists.
    + apply negb_false_iff, bool_decide_eq_true in Hne. rewrite Hne.
      apply wp_when; intros _; [apply wp_update|]; cbn; rewrite Hm; by eexists.
Qed.
End status.

(** Reading a mission commits the status its tasks and deadline give it,
    whatever status it had: succeeded when it has tasks and all succeeded,
    blocked when it is late or has a failed or cancelled task, active otherwise.
    A supervised mission that awaits approval, or that was aborted, is made
    active or blocked by the read while its supervision status stays as it was. *)
Theorem get_mission_overwrites_status `{World} id m s :
  missions (db s) !! id = Some m →
  ∃ m' s', get_mission id s = (Ok (Some m'), s') ∧ saved s' = db s' ∧ missions (saved s') !! id = Some m' ∧
    ms_status m' = derived_status m (mission_tasks (db s) id) (w_now (clock s)) ∧
    ms_supervision_status m' = ms_supervision_status m ∧ tasks (saved s') = tasks (db s).
Proof.
  intros Hm. unfold get_mission. rewrite (run_bind _ _ s (Some m) s) by (unfold get_row, gets; by rewrite Hm). cbn iota.
  destruct (proj1 (returns_run _ _ _) (refresh_mission_run id m s Hm)) as ([] & s1 & E & m' & Hm' & Hst & Hsv & Ht).
  rewrite (run_bind _ _ _ _ _ E). rewrite (run_bind _ _ _ tt (s1 <| saved := db s1 |>)) by done.
  exists m'. eexists. split; [unfold get_row, gets; cbn; by rewrite Hm'|]. by repeat split.
Qed.

(** ** Supervision *)
Section supervision.
Context `{World}.

(** ** What a round should do *)

(** every task of a mission that has tasks succeeded *)
Definition accomplished (l : list Task) : Prop := l ≠ [] ∧ ∀ t, t ∈ l → t_status t = Succeeded.

Definition first_failed (l : list Task) : option Task := List.find (fun t => bool_decide (t_status t = Failed)) l.

(** the failure may be retried, and both the recoveries of the mission's policy and
    the attempts of the task are not used up *)
Definition may_recover (m : EngineeringMission) (t : Task) : Prop :=
  (Json.truthy_opt (Json.get "retryable" (t_failure t)) = true ∨
   failure_category (t_failure t) ∈ Json.strs (Json.get "retryable_categories" (ms_supervision_policy m))) ∧
  ms_recovery_count m < policy_int "max_auto_recoveries" 0 (ms_supervision_policy m) ∧
  t_attempt_count t < t_max_attempts t.

(** the round recovers [t] *)
Definition recovers (m : EngineeringMission) (l : list Task) (now : datetime) (t : Task) : Prop :=
  ¬ accomplished l ∧ now < ms_deadline_at m ∧ first_failed l = Some t ∧ may_recover m t.

(** the row of a recovered task: queued, or waiting for a new approval *)
Definition resumed (d d' : database) (id : uuid) : Prop :=
  ∀ t, tasks d !! id = Some t → ∃ t', tasks d' !! id = Some t' ∧
    t_status t' = (if t_approval_required t then PendingApproval else Queued) ∧ t_completed_at t' = None ∧ t_result t' = [].

Definition attention (m m' : EngineeringMission) : Prop :=
  ms_status m' = MBlocked ∧ ms_supervision_status m' = Some SvAttentionRequired ∧ ms_next_reconcile_at m' = None ∧
  ms_recovery_count m' = ms_recovery_count m.

(** what a round that found the mission row [m] and its tasks [l] in [d] answers, and
    the mission row [m'] it leaves in [d'] *)
Record round_of (m : EngineeringMission) (l : list Task) (now : datetime) (d d' : database)
    (action : reconcile_action) (target : option uuid) (m' : EngineeringMission) : Prop := {
  ro_succeeded : accomplished l → action = MissionSucceeded ∧ target = None ∧ ms_status m' = MSucceeded ∧
    ms_supervision_status m' = Some SvSucceeded ∧ ms_completed_at m' = Some now ∧ ms_recovery_count m' = ms_recovery_count m;
  ro_late : ¬ accomplished l → ms_deadline_at m ≤ now → action = AttentionRequired ∧ target = None ∧ attention m m' ∧
    ms_supervision_exception m' = deadline_exception;
  ro_waiting : ¬ accomplished l → now < ms_deadline_at m → first_failed l = None → action = Waiting ∧ target = None ∧
    m' = m <| ms_next_reconcile_at := Some (now + seconds 10) |> <| ms_updated_at := w_server_now |>;
  ro_recovered t : recovers m l now t → action = Recovered ∧ target = Some (t_id t) ∧ ms_status m' = MActive ∧
    ms_supervision_status m' = Some SvRecovering ∧ ms_recovery_count m' = ms_recovery_count m + 1 ∧
    ms_next_reconcile_at m' = Some (now + seconds (policy_int "retry_backoff_seconds" 30 (ms_supervision_policy m))) ∧
    resumed d d' (t_id t);
  ro_exhausted t : ¬ accomplished l → now < ms_deadline_at m → first_failed l = Some t → ¬ may_recover m t →
    action = AttentionRequired ∧ target = Some (t_id t) ∧ attention m m' }.

Lemma all_tasks_succeeded_spec l : all_tasks_succeeded l = true ↔ accomplished l.
Proof.
  unfold all_tasks_succeeded, accomplished. rewrite andb_true_iff, negb_true_iff, bool_decide_eq_false, forallb_forall.
  setoid_rewrite bool_decide_eq_true. setoid_rewrite list_elem_of_In. done.
Qed.

Lemma recoverable_spec m t now : now < ms_deadline_at m → recoverable m t now = true ↔ may_recover m t.
Proof.
  intros Hnow. unfold recoverable, may_recover, is_retryable.
  rewrite !andb_true_iff, orb_true_iff, !Z.ltb_lt, str_in_spec. tauto.
Qed.

Lemma wp_require_attention I id x message m s (Q : unit → session → Prop) :
  missions (db s) !! id = Some m →
  (∀ s' m', missions (db s') !! id = Some m' → attention m m' → ms_supervision_exception m' = x → Q tt s') →
  wp I (require_attention id x message) Q s.
Proof.
  intros Hm HQ. unfold require_attention. apply wp_bind, wp_alter. unfold append_mission_event.
  apply wp_update. eapply HQ; [cbn; by rewrite lookup_alter_eq, Hm|by repeat split|done].
Qed.

(** rearming a task sets its status, and leaves the missions *)
Lemma wp_rearm_row id reason s (Q : unit → session → Prop) :
  (∀ s', missions (db s') = missions (db s) →
     (∀ t, tasks (db s) !! id = Some t → ∃ t', tasks (db s') !! id = Some t' ∧
        t_status t' = (if t_approval_required t then PendingApproval else Queued) ∧
        t_completed_at t' = t_completed_at t ∧ t_result t' = t_result t) → Q tt s') →
  wp (fun _ => True) (rearm_task_approval id reason) Q s.
Proof.
  intros HQ. unfold rearm_task_approval. apply wp_bind, wp_get_row. destruct (tasks (db s) !! id) as [t|] eqn:Ht.
  2:{ apply wp_ret, HQ; [done|]. by rewrite Ht. }
  apply wp_if; intros Hreq.
  { apply negb_true_iff in Hreq. unfold alter_task. apply wp_alter, HQ; [done|]. intros t' [= <-]. cbn.
    rewrite lookup_alter_eq, Ht, Hreq. by eexists. }
  apply negb_false_iff in Hreq. unfold select_approval. apply wp_bind. unfold select_one. apply wp_gets.
  destruct (head _) as [a|]; [|by apply wp_raise]. apply wp_bind, wp_utc_now. intros now _. apply wp_bind, wp_alter, wp_bind.
  unfold alter_task. apply wp_alter. apply (wp_frame (fun d => (missions d, tasks d))); [|done|].
  { unfold append_approval_event, enqueue_approval_gate, insert_once, add_notification. frame. }
  intros [] s' _ [= Hm Ht']. apply HQ; [exact Hm|]. intros t' [= <-]. rewrite Ht'. cbn. rewrite lookup_alter_eq, Ht, Hreq.
  by eexists.
Qed.

Lemma wp_recover m t now s (Q : unit → session → Prop) :
  missions (db s) !! ms_id m = Some m →
  (∀ s' m', missions (db s') !! ms_id m = Some m' → ms_status m' = MActive →
     ms_supervision_status m' = Some SvRecovering → ms_recovery_count m' = ms_recovery_count m + 1 →
     ms_next_reconcile_at m' = Some (now + seconds (policy_int "retry_backoff_seconds" 30 (ms_supervision_policy m))) →
     resumed (db s) (db s') (t_id t) → Q tt s') →
  wp (fun _ => True) (recover_task m t now) Q s.
Proof.
  intros Hm HQ. unfold recover_task. cbv zeta. apply wp_bind, wp_alter, wp_bind, wp_alter, wp_bind, wp_rearm_row.
  intros s1 Hm1 Ht1. apply wp_bind. unfold append_task_event, append_log. apply wp_bind, wp_get_row, wp_update.
  apply wp_bind, wp_alter. unfold append_mission_event. apply wp_update. cbn in Hm1, Ht1.
  eapply HQ; [cbn; rewrite Hm1; by rewrite !lookup_alter_eq, Hm|done..|].
  intros r Hr. cbn in Hr. rewrite lookup_alter_eq, Hr in Ht1. destruct (Ht1 _ eq_refl) as (t' & Ht' & H1 & H2 & H3).
  exists t'. by split_and!.
Qed.

Lemma wp_error (I I' : database → Prop) {A} (p : Sess A) Q s : (∀ d, I d → I' d) → wp I p Q s → wp I' p Q s.
Proof. unfold wp. destruct (p s) as [[a|e] s']; auto. Qed.

(** everywhere but in a recovery, which needs the approval of its task, a round answers *)
Lemma supervise_cases m l now s :
  missions (db s) !! ms_id m = Some m →
  wp (fun _ => ∃ t, recovers m l now t) (supervise m l now) (fun r s' => ∃ m', missions (db s') !! ms_id m = Some m' ∧
    round_of m l now (db s) (db s') r.1 r.2 m') s.
Proof.
  intros Hm. unfold supervise. cbv zeta. apply wp_if; intros Hall.
  { apply all_tasks_succeeded_spec in Hall. apply wp_bind, wp_alter, wp_bind. unfold append_mission_event. apply wp_update, wp_ret. cbn.
    rewrite lookup_alter_eq, Hm. eexists. split; [reflexivity|].
    constructor; [by repeat split|done|done|by intros t [? _]|done]. }
  assert (Hn : ¬ accomplished l) by (rewrite <- all_tasks_succeeded_spec; congruence).
  apply wp_if; intros Hd.
  { apply Z.leb_le in Hd. apply wp_bind. eapply wp_require_attention; [done|]. intros s' m' Hm' Ha Hx. apply wp_ret.
    exists m'. split; [done|]. constructor; [done|by intros _ _|intros _ ?; lia|intros t (_ & ? & _); lia|intros t _ ?; lia]. }
  apply Z.leb_gt in Hd. fold (first_failed l). destruct (first_failed l) as [t|] eqn:Hf.
  - apply wp_if; intros Hr.
    + assert (Hrec : recovers m l now t) by (split_and!; try done; by apply recoverable_spec with now).
      apply (wp_error (fun _ => True)); [intros _ _; by exists t|]. apply wp_bind.
      eapply wp_recover; [done|]. intros s' m' Hm' H1 H2 H3 H4 H5. apply wp_ret. exists m'. split; [done|].
      constructor; [done|intros _ ?; lia|intros _ _ E; congruence| |].
      * intros t' (_ & _ & E & _). rewrite Hf in E. injection E as <-. by split_and!.
      * intros t' _ _ E Hno. rewrite Hf in E. injection E as <-. destruct Hno. apply Hrec.
    + apply wp_bind. eapply wp_require_attention; [done|]. intros s' m' Hm' Ha _. apply wp_ret. exists m'. split; [done|].
      assert (Hno : ¬ may_recover m t) by (rewrite <- (recoverable_spec m t now) by done; congruence).
      constructor; [done|intros _ ?; lia|intros _ _ E; congruence| |].
      * intros t' (_ & _ & E & Hy). rewrite Hf in E. injection E as <-. by destruct Hno.
      * intros t' _ _ E _. rewrite Hf in E. by injection E as <-.
  - apply wp_bind, wp_alter, wp_ret. cbn. rewrite lookup_alter_eq, Hm. eexists. split; [reflexivity|].
    constructor; [done|intros _ ?; lia|by intros _ _ _|intros t (_ & _ & E & _); congruence|intros t _ _ E; congruence].
Qed.
End supervision.

(** C39. A round of supervision does what the state of the mission asks for: a mission
    that has tasks, all succeeded, is completed; any other that is late is blocked and
    needs attention; one with a failed task recovers the first of them exactly when the
    failure is retryable and neither the recoveries its policy allows nor the attempts
    of the task are used up, which uses up one recovery and puts the task back in the
    queue, or in wait of a new approval if it needs one; a failure that may not be
    recovered blocks the mission; and without a failed task the mission waits ten
    seconds.  No other outcome changes the recovery count.  A round can only raise
    during a recovery. *)
Theorem supervision_is_bounded `{World} m l now s :
  missions (db s) !! ms_id m = Some m →
  match supervise m l now s with
  | (Ok (action, target), s') => ∃ m', missions (db s') !! ms_id m = Some m' ∧ round_of m l now (db s) (db s') action target m'
  | (Err _, _) => ∃ t, recovers m l now t
  end.
Proof.
  intros Hm. pose proof (supervise_cases m l now s Hm) as Hwp. unfold wp in Hwp.
  by destruct (supervise m l now s) as [[[action target]|e] s'].
Qed.

(** a mission of three recoveries that was aborted, and a failed task of it *)
Definition demo_mission (status : MissionStatus) (supervision : SupervisionStatus) : EngineeringMission :=
  mkEngineeringMission 20 "M-1" "repo" "Ship it" status "manifest-digest" (JObj []) "founder" "REF-1" "signature"
    4 3 86400 (epoch + days 1) "planner" epoch epoch None true (Some supervision)
    [("max_auto_recoveries", JInt 3); ("retryable_categories", Json.str_list ["timeout"])]
    (Some epoch) (Some "founder") 1 None [].
Definition mission_db (status : MissionStatus) (supervision : SupervisionStatus) : database :=
  demo_db <| missions := {[ 20%N := demo_mission status supervision ]} |>.

Lemma get_mission_overwrites_status_witness :
  ∃ m' s', @get_mission (at_time 9) 20 (open_session (mission_db MCancelled SvAborted)) = (Ok (Some m'), s') ∧
    missions (saved s') !! 20%N = Some m' ∧ ms_status m' = MActive ∧ ms_supervision_status m' = Some SvAborted.
Proof.
  destruct (@get_mission_overwrites_status (at_time 9) 20 (demo_mission MCancelled SvAborted)
    (open_session (mission_db MCancelled SvAborted)) eq_refl) as (m' & s' & E & _ & Hm & Hst & Hsv & _).
  exists m', s'. split; [exact E|]. split; [exact Hm|]. split; [rewrite Hst; vm_compute; reflexivity|exact Hsv].
Defined.

Definition timed_out (t : Task) : Task :=
  t <| t_status := Failed |> <| t_failure := [("error_category", JStr "timeout")] |>.

Lemma supervision_is_bounded_witness :
  let s := open_session (run created demo_db <| missions := {[ 20%N := demo_mission MActive SvActive ]} |>) in
  ∃ t m' s', tasks (db s) !! task_id = Some t ∧
    @supervise (at_time 9) (demo_mission MActive SvActive) [timed_out t] epoch s = (Ok (Recovered, Some task_id), s') ∧
    missions (db s') !! 20%N = Some m' ∧ ms_recovery_count m' = 2 ∧ resumed (db s) (db s') task_id.
Proof.
  intros s. destruct (tasks (db s) !! task_id) as [t|] eqn:Ht; [|vm_compute in Ht; discriminate].
  assert (E : ∃ s', @supervise (at_time 9) (demo_mission MActive SvActive) [timed_out t] epoch s =
                    (Ok (Recovered, Some task_id), s') ∧ recovers (demo_mission MActive SvActive) [timed_out t] epoch (timed_out t)
                    ∧ t_id t = task_id).
  { vm_compute in Ht. injection Ht as <-. eexists. split; [vm_compute; reflexivity|]. split; [|reflexivity].
    split; [intros [_ Hall]; by specialize (Hall _ (list_elem_of_here _ _))|]. split; [reflexivity|]. split; [reflexivity|].
    split; [right; apply str_in_spec; reflexivity|]. split; reflexivity. }
  destruct E as (s' & E & Hrec & Hid).
  pose proof (@supervision_is_bounded (at_time 9) (demo_mission MActive SvActive) [timed_out t] epoch s eq_refl) as Hb.
  rewrite E in Hb. destruct Hb as (m' & Hm & Hround). destruct (ro_recovered _ _ _ _ _ _ _ _ Hround _ Hrec) as (_ & _ & _ & _ & Hc & _ & Hres).
  exists t, m', s'. split; [reflexivity|]. split; [exact E|]. split; [exact Hm|]. split; [exact Hc|]. cbn in Hres. rewrite Hid in Hres. exact Hres.
Defined.

(** ** Submission *)
Section submission.
Context `{World}.

Lemma mission_frame_persist t : preserves missions (persist_new_task t).
Proof.
  unfold persist_new_task, create_approval, append_task_event, append_approval_event,
    enqueue_approval_gate, insert_once, add_notification. frame.
Qed.

Lemma mission_frame_item m id d c ix : preserves missions (add_work_item m id d c ix).
Proof. unfold add_work_item, append_task_event. frame. Qed.

Lemma mission_frame_phase m id d c ix : preserves missions (add_phase m id d c ix).
Proof. unfold add_phase, append_task_event, validation_error. frame. apply mission_frame_persist. Qed.

Lemma mission_frame_deps steps item : preserves missions (add_dependencies steps item).
Proof. unfold add_dependencies, task_of_step, add_dependency. frame. Qed.

(** the mission row that stores a manifest *)
Definition stored_mission (m : MissionManifest) (signature : string) (row : EngineeringMission) : Prop :=
  ms_manifest row = manifest_json m ∧ ms_manifest_digest row = digest (manifest_json m) ∧
  ms_approval_signature row = signature ∧ ms_recovery_count row = 0 ∧
  ms_status row = (if ms_supervision_enabled row then MPendingApproval else MActive).

Lemma wp_add_mission t manifest c signature d0 s (Q : uuid → session → Prop) :
  saved s = d0 →
  (∀ id s' now, saved s' = d0 → missions (db s') !! id = Some (new_mission id t manifest c signature now) → Q id s') →
  wp (fun d => d = d0) (add_mission t manifest c signature) Q s.
Proof.
  intros Hs HQ. unfold add_mission. apply wp_bind, wp_utc_now; intros now _. apply wp_bind. unfold select_one. apply wp_gets.
  destruct (head _) as [x|]; [by apply wp_raise|]. apply wp_bind. eapply (wp_frame missions); [frame|done|].
  intros id s1 H1 _. apply wp_bind, wp_insert; [by rewrite H1|]. intros _. apply wp_ret.
  eapply HQ; cbn; [by rewrite H1|]. by rewrite lookup_insert_eq.
Qed.

Lemma wp_create_mission m c signature s :
  wp (fun d => d = saved s) (create_mission m c signature) (fun id s' => saved s' = saved s ∧
    ∃ row, missions (db s') !! id = Some row ∧ stored_mission m signature row) s.
Proof.
  destruct m as [m|m]; cbn [create_mission]; unfold _create_engineering_mission, _create_infrastructure_mission;
    cbv zeta; apply wp_bind, wp_add_mission; try done; intros id s1 now H1 Hrow.
  all: apply wp_bind; unfold append_mission_event at 1; apply wp_update; apply wp_bind.
  all: eapply (wp_frame missions); [apply preserves_map_each; intros ?; first [apply mission_frame_item|apply mission_frame_phase]|done|].
  all: intros steps s2 H2 E2; cbv beta; apply wp_bind.
  all: eapply (wp_frame missions); [apply preserves_for_each; intros ?; apply mission_frame_deps|cbn in H2; congruence|].
  all: intros [] s3 H3 E3; apply wp_ret; cbn in H2, E2; split; [congruence|].
  all: rewrite E3, E2, Hrow; eexists; split; [reflexivity|]; repeat split.
Qed.
End submission.

(** A mission is accepted only with the signature of its canonical manifest
    under the approval secret, and only when its budget, its dependencies and
    the operations it names are valid; the row stored holds that manifest, its
    digest and the signature, and waits for approval exactly when the manifest
    asks for supervision.  Anything else is refused with nothing stored. *)
Theorem mission_needs_signature `{World} secret m created_by signature s :
  match submit_mission secret m created_by signature s with
  | (Ok id, s') => hmac_sha256 secret (canonical_manifest m) = signature ∧ valid_manifest m = true ∧
      ∃ row, missions (saved s') !! id = Some row ∧ stored_mission m signature row
  | (Err _, s') => saved s' = saved s
  end.
Proof.
  unfold submit_mission. destruct (valid_manifest m) eqn:Hv; cbn [negb]; [|done].
  unfold verify_mission_approval. destruct (str_eqb _ signature) eqn:Hs; [|done].
  apply str_eqb_spec in Hs. rewrite (run_bind _ _ s tt s) by done.
  unfold catch_integrity, mbind, Sess_bind. pose proof (wp_create_mission m created_by signature s) as Hwp. unfold wp in Hwp.
  destruct (create_mission m created_by signature s) as [[id|e] s1]; cbn in *.
  - destruct Hwp as [_ Hrow]. by split_and!.
  - destruct e as [|class msg]; cbn; [done|]. by destruct (class =? "IntegrityError")%string.
Qed.

(** ** Conversations *)
Section planning.
Context `{World}.

Lemma add_notification_clash kind id key state payload n s :
  (∃ i, notifications (db s) !! i = Some n) → has_key key n = true →
  add_notification kind id key state payload s = (Err (PyException "IntegrityError" "unique constraint"), s).
Proof.
  intros [i Hi] Hk. unfold add_notification, select_one, mbind, Sess_bind, gets.
  destruct (head _) as [r|] eqn:Hh; [done|]. pose proof (select_one_None notifications _ _ Hh i n Hi) as Hf. congruence.
Qed.
Lemma wp_planning_started task cid c s :
  t_conversation_id task = Some cid → conversations (db s) !! cid = Some c →
  t_conversation_revision task = Some (fc_revision c) →
  wp (fun _ => True) (record_planning_started task) (fun _ s' =>
    (∃ c', conversations (db s') !! cid = Some c' ∧ fc_id c' = fc_id c ∧ fc_revision c' = fc_revision c) ∧
    ∃ i n, notifications (db s') !! i = Some n ∧ has_key (planning_key c) n = true) s.
Proof.
  intros Ht Hc Hrev. unfold record_planning_started. rewrite Ht. apply wp_bind, wp_get_row. rewrite Hc, (bool_decide_eq_true_2 _ Hrev).
  cbn [negb]. apply wp_bind. eapply wp_mono with (Q := fun _ s' => ∃ c', conversations (db s') !! cid = Some c' ∧
    fc_id c' = fc_id c ∧ fc_revision c' = fc_revision c).
  { apply wp_when; intros _; [apply wp_alter; cbn; rewrite lookup_alter_eq, Hc|]; by eexists. }
  intros _ s1 (c' & Hc' & E1 & E2). apply wp_bind. unfold conversation_event. apply wp_update, wp_bind.
  unfold add_notification, select_one. apply wp_bind, wp_gets. destruct (head _); [by apply wp_raise|].
  apply wp_bind. eapply (wp_frame conversations); [frame|done|]. intros i s2 _ E3. apply wp_bind, wp_insert; [done|].
  intros _. apply wp_ret, wp_ret. cbn in E3 |- *. split; [exists c'; by rewrite E3|].
  eexists i, _. split; [apply lookup_insert_eq|]. unfold has_key. cbn. apply str_eqb_refl.
Qed.
End planning.

(** When a conversation's planning is recorded a second time at the same
    revision, as when its task is released and started again, the request fails
    with an IntegrityError: the notification is added without looking for the one
    already sent. *)
Theorem planning_restart_fails `{World} task cid c s s' :
  t_conversation_id task = Some cid → conversations (db s) !! cid = Some c →
  t_conversation_revision task = Some (fc_revision c) →
  record_planning_started task s = (Ok tt, s') →
  ∃ s'', record_planning_started task s' = (Err (PyException "IntegrityError" "unique constraint"), s'').
Proof.
  intros Ht Hc Hrev E.
  destruct (wp_run _ _ _ _ _ _ (wp_planning_started task cid c s Ht Hc Hrev) E) as ((c' & Hc' & E1 & E2) & i & n & Hn & Hk).
  assert (Hkey : planning_key c' = planning_key c) by (unfold planning_key; congruence).
  unfold record_planning_started at 1. rewrite Ht, (run_bind _ _ s' (Some c') s') by (unfold get_row, gets; by rewrite Hc').
  rewrite E2, (bool_decide_eq_true_2 _ Hrev). cbn [negb].
  set (m := when _ _). assert (exists s1, m s' = (Ok tt, s1) /\ notifications (db s1) = notifications (db s')) as (s1 & Em & En)
    by (unfold m; destruct (negb _); by eexists).
  rewrite (run_bind _ _ _ _ _ Em). unfold mbind, Sess_bind, conversation_event, append_log, update. cbv beta iota.
  rewrite Hkey, (add_notification_clash _ _ _ _ _ n); [by eexists| |exact Hk].
  exists i. cbn. by rewrite En.
Qed.

Definition demo_conversation : FounderConversation :=
  mkFounderConversation 30 "FC-1" "founder" "Ship it" (Some "repo") "planning_queued" "" [] None 1 epoch epoch None.
Definition conversation_db : database :=
  run created demo_db <| conversations := {[ 30%N := demo_conversation ]} |>.
Definition planning_of (t : Task) : Task :=
  t <| t_conversation_id := Some 30%N |> <| t_conversation_revision := Some 1 |>.

Lemma planning_restart_fails_witness :
  ∃ t s' s'', tasks conversation_db !! task_id = Some t ∧
    @record_planning_started (at_time 3) (planning_of t) (open_session conversation_db) = (Ok tt, s') ∧
    @record_planning_started (at_time 3) (planning_of t) s' = (Err (PyException "IntegrityError" "unique constraint"), s'').
Proof.
  destruct (tasks conversation_db !! task_id) as [t|] eqn:Ht; [|vm_compute in Ht; discriminate].
  assert (E : ∃ s', @record_planning_started (at_time 3) (planning_of t) (open_session conversation_db) = (Ok tt, s')).
  { vm_compute in Ht. injection Ht as <-. eexists. vm_compute. reflexivity. }
  destruct E as [s' E].
  destruct (@planning_restart_fails (at_time 3) (planning_of t) 30%N demo_conversation (open_session conversation_db) s' eq_refl eq_refl eq_refl E) as [s'' E'].
  exists t, s', s''. split; [reflexivity|]. by split.
Defined.
