(* ===== verification/FactorLanguage.v ===== *)
(** * The factor experiment language

    [services/factor_language.py]: the compiler of factor expressions, which
    infers units and refuses to read a field before it is available, the
    enumeration of the trials of a program, and its registration.

    An expression arrives as JSON; what the compiler emits is the inductive type
    [ir], and [ir_json] is the document it is stored as.  Errors are values of
    [outcome]: [FactorLanguageConflict] where the language refuses, the exception
    Python raises where a value of the wrong type reaches an operation. *)
From Stdlib Require Import Ascii.
From S2P Require Import Prelude Py Sha256 Models Store.

Open Scope Z_scope.

(** [raise FactorLanguageConflict(message)] *)
Definition FactorLanguageConflict {A} (message : string) : outcome A :=
  Err (PyException "FactorLanguageConflict" message).

(** ** Operators and compiled expressions *)
Inductive unary_op := Abs | Log | Negate.
Inductive binary_op := Add | Subtract | Multiply | Divide | Greater | Less | And | Or.

Definition _UNARY : list (string * unary_op) := [("abs", Abs); ("log", Log); ("negate", Negate)].
Definition _BINARY : list (string * binary_op) :=
  [("add", Add); ("subtract", Subtract); ("multiply", Multiply); ("divide", Divide);
   ("greater", Greater); ("less", Less); ("and", And); ("or", Or)].

(** [d[k]] on a dictionary that is kept as a list *)
Fixpoint assoc {A} (k : string) (d : list (string * A)) : option A :=
  match d with
  | [] => None
  | (k', v) :: d' => if String.eqb k k' then Some v else assoc k d'
  end.

Definition unary_name (op : unary_op) : string :=
  match op with Abs => "abs" | Log => "log" | Negate => "negate" end.
Definition binary_name (op : binary_op) : string :=
  match op with
  | Add => "add" | Subtract => "subtract" | Multiply => "multiply" | Divide => "divide"
  | Greater => "greater" | Less => "less" | And => "and" | Or => "or"
  end.

Inductive ir :=
| IField (field : string) (effective_lag : Z)
| IConstant (value : json)
| IParameter (name : string)
| ILag (e : ir) (lag : json)
| IRollingMean (e : ir) (window : json)
| IRollingMeanBy (e window : ir)
| IUnary (op : unary_op) (e : ir)
| IBinary (op : binary_op) (left right : ir).

Definition op_json (op : string) (args : list json) : json :=
  JObj [("op", JStr op); ("args", JList args)].

Fixpoint ir_json (e : ir) : json :=
  match e with
  | IField f n => JObj [("op", JStr "field"); ("field", JStr f); ("effective_lag", JInt n)]
  | IConstant v => JObj [("op", JStr "constant"); ("value", v)]
  | IParameter p => JObj [("op", JStr "parameter"); ("name", JStr p)]
  | ILag e n => op_json "lag" [ir_json e; n]
  | IRollingMean e w => op_json "rolling_mean" [ir_json e; w]
  | IRollingMeanBy e w => op_json "rolling_mean" [ir_json e; ir_json w]
  | IUnary op e => op_json (unary_name op) [ir_json e]
  | IBinary op l r => op_json (binary_name op) [ir_json l; ir_json r]
  end.

(** ** Units *)
Definition _unit_for_binary (op : binary_op) (left right : string) : outcome string :=
  match op with
  | Add | Subtract | Greater | Less =>
      if negb (str_eqb left right)
      then FactorLanguageConflict (binary_name op +:+ " operands must have identical units.")
      else match op with Add | Subtract => Ok left | _ => Ok "boolean" end
  | And | Or =>
      if negb (str_eqb left "boolean") || negb (str_eqb right "boolean")
      then FactorLanguageConflict (binary_name op +:+ " operands must be boolean.")
      else Ok "boolean"
  | Multiply =>
      if str_eqb left "dimensionless" then Ok right
      else if str_eqb right "dimensionless" then Ok left
      else Ok ("(" +:+ left +:+ "*" +:+ right +:+ ")")
  | Divide =>
      if str_eqb right left then Ok "dimensionless"
      else if str_eqb right "dimensionless" then Ok left
      else Ok ("(" +:+ left +:+ "/" +:+ right +:+ ")")
  end.

(** ** The compiler *)
Section compiler.
Context (fields : list (string * FieldContract)) (parameters : list (string * list json)).

(** [v in d] raises for a value that cannot be a key *)
Definition in_dict {A} (v : json) (d : list (string * A)) : outcome (option A) :=
  match v with
  | JStr k => Ok (assoc k d)
  | JList _ => Err (PyException "TypeError" "unhashable type: 'list'")
  | JObj _ => Err (PyException "TypeError" "unhashable type: 'dict'")
  | _ => Ok None
  end.

Definition compile_field (path : string) (args : list json) : outcome (ir * string) :=
  let refused := FactorLanguageConflict (path +:+ " field requires [known_field, positive_lag].") in
  match args with
  | [field; lag] =>
      contract ← in_dict field fields;
      match contract, Json.as_int lag, field with
      | Some c, Some lag, JStr name =>
          let effective_lag := lag + fct_availability_lag c in
          if (lag <? 0) || (effective_lag <? 1)
          then FactorLanguageConflict (path +:+ " reads " +:+ name +:+ " before it is causally available.")
          else Ok (IField name effective_lag, fct_unit c)
      | _, _, _ => refused
      end
  | _ => refused
  end.

(** integers from here on round to infinity, and [math.isfinite] raises *)
Definition float_overflow : Z := 2 ^ 1024 - 2 ^ 970.
Definition finite_float (r : string) : bool := negb (str_in r ["nan"; "inf"; "-inf"]).

Definition compile_constant (path : string) (args : list json) : outcome (ir * string) :=
  let refused := FactorLanguageConflict (path +:+ " constant must be one finite number.") in
  match args with
  | [JInt z] => if float_overflow <=? Z.abs z
                then Err (PyException "OverflowError" "int too large to convert to float")
                else Ok (IConstant (JInt z), "dimensionless")
  | [JFloat r] => if finite_float r then Ok (IConstant (JFloat r), "dimensionless") else refused
  | _ => refused
  end.

Definition compile_parameter (path : string) (args : list json) : outcome (ir * string) :=
  let refused := FactorLanguageConflict (path +:+ " references an undeclared parameter.") in
  match args with
  | [name] =>
      values ← in_dict name parameters;
      match values, name with
      | Some _, JStr name => Ok (IParameter name, "dimensionless")
      | _, _ => refused
      end
  | _ => refused
  end.

(** the operators with operands, given the compiler of the level below *)
Section operands.
Context (compile : string → json → outcome (ir * string)).

Definition operand (path : string) (i : Z) (e : json) : outcome (ir * string) :=
  compile (path +:+ ".args[" +:+ pretty i +:+ "]") e.

Definition compile_lag (path : string) (args : list json) : outcome (ir * string) :=
  let refused := FactorLanguageConflict (path +:+ " lag requires [expression, positive_integer].") in
  match args with
  | [e; lag] =>
      match Json.as_int lag with
      | Some n => if n <? 1 then refused
                  else child ← operand path 0 e; Ok (ILag child.1 lag, child.2)
      | None => refused
      end
  | _ => refused
  end.

Definition compile_rolling_mean (path : string) (args : list json) : outcome (ir * string) :=
  match args with
  | [e; window] =>
      child ← operand path 0 e;
      let refused := FactorLanguageConflict (path +:+ " rolling window must be >=2 or a parameter.") in
      match window, Json.as_int window with
      | JObj d, _ =>
          if Json.eqb_opt (Json.get "op" d) (Some (JStr "parameter"))
          then w ← operand path 1 window; Ok (IRollingMeanBy child.1 w.1, child.2)
          else refused
      | _, Some n => if 2 <=? n then Ok (IRollingMean child.1 window, child.2) else refused
      | _, None => refused
      end
  | _ => FactorLanguageConflict (path +:+ " rolling_mean requires [expression, window].")
  end.

Definition compile_unary (path : string) (op : unary_op) (args : list json) : outcome (ir * string) :=
  match args with
  | [e] =>
      child ← operand path 0 e;
      match op with
      | Log => if negb (str_eqb child.2 "dimensionless")
               then FactorLanguageConflict "log requires a dimensionless expression."
               else Ok (IUnary op child.1, child.2)
      | _ => Ok (IUnary op child.1, child.2)
      end
  | _ => FactorLanguageConflict (path +:+ " " +:+ unary_name op +:+ " requires one argument.")
  end.

Definition compile_binary (path : string) (op : binary_op) (args : list json) : outcome (ir * string) :=
  match args with
  | [l; r] =>
      left ← operand path 0 l;
      right ← operand path 1 r;
      unit ← _unit_for_binary op left.2 right.2;
      Ok (IBinary op left.1 right.1, unit)
  | _ => FactorLanguageConflict (path +:+ " " +:+ binary_name op +:+ " requires two arguments.")
  end.

Definition compile_op (path : string) (op : json) (args : list json) : outcome (ir * string) :=
  match op with
  | JStr name =>
      if str_eqb name "field" then compile_field path args
      else if str_eqb name "constant" then compile_constant path args
      else if str_eqb name "parameter" then compile_parameter path args
      else if str_eqb name "lag" then compile_lag path args
      else if str_eqb name "rolling_mean" then compile_rolling_mean path args
      else match assoc name _UNARY, assoc name _BINARY with
           | Some op, _ => compile_unary path op args
           | None, Some op => compile_binary path op args
           | None, None => FactorLanguageConflict
               (path +:+ " uses unsupported operator " +:+ Json.repr_str name +:+ ".")
           end
  | _ => unary ← in_dict op _UNARY;
         FactorLanguageConflict (path +:+ " uses unsupported operator " +:+ Json.repr op +:+ ".")
  end.
End operands.

Definition op_and_args (d : Json.dict) : bool :=
  str_subset (Json.keys d) ["op"; "args"] && str_subset ["op"; "args"] (Json.keys d).

(** [levels] is the number of levels the expression may still have: 33 minus
    [depth], so that depth 33 is refused *)
Fixpoint _compile_expression (levels : nat) (path : string) (node : json) : outcome (ir * string) :=
  match levels with
  | O => FactorLanguageConflict "Expression depth exceeds the language limit."
  | S levels =>
      let refused := FactorLanguageConflict (path +:+ " must contain exactly op and args.") in
      match node with
      | JObj d =>
          if op_and_args d then
            match Json.get "op" d, Json.get "args" d with
            | Some op, Some (JList args) => compile_op (_compile_expression levels) path op args
            | _, _ => FactorLanguageConflict (path +:+ ".args must be a list.")
            end
          else refused
      | _ => refused
      end
  end.
End compiler.

Definition LEVELS : nat := 33.

(** ** Programs *)

Definition field_json (f : FieldContract) : json := JObj
  [("unit", JStr (fct_unit f)); ("domain", JStr (fct_domain f)); ("clock", JStr (fct_clock f));
   ("availability_lag", JInt (fct_availability_lag f))].
Definition factor_json (f : FactorDefinition) : json := JObj
  [("expression", JObj (fdf_expression f)); ("output_unit", JStr (fdf_output_unit f));
   ("missing_policy", JStr (fdf_missing_policy f))].
Definition label_json (l : LabelDefinition) : json := JObj
  [("field", JStr (lbl_field l)); ("horizon", JInt (lbl_horizon l)); ("kind", JStr (lbl_kind l))].
Definition named_json {A} (f : A → json) (l : list (string * A)) : json :=
  JObj ((fun kv => (kv.1, f kv.2)) <$> l).

(** [payload.source.model_dump(mode="json")] *)
Definition source_json (s : FactorProgramSource) : json := JObj
  [("schema_version", JStr (fps_schema_version s));
   ("representation_contract_digest", JStr (fps_representation_contract_digest s));
   ("dataset_manifest_digest", JStr (fps_dataset_manifest_digest s));
   ("decision_clock", JStr (fps_decision_clock s));
   ("fields", named_json field_json (fps_fields s));
   ("parameters", named_json JList (fps_parameters s));
   ("factors", named_json factor_json (fps_factors s));
   ("label", label_json (fps_label s));
   ("maximum_trials", JInt (fps_maximum_trials s))].

(** [len(values) == len({record_digest(value) for value in values})] *)
Definition distinct_values (values : list json) : bool :=
  bool_decide (NoDup (digest <$> values)).

Definition check_parameter (p : string * list json) : outcome unit :=
  if bool_decide (p.2 = []) || negb (distinct_values p.2)
  then FactorLanguageConflict ("Parameter " +:+ p.1 +:+ " must contain distinct values.")
  else if existsb (fun v => match v with JFloat r => negb (finite_float r) | _ => false end) p.2
  then FactorLanguageConflict ("Parameter " +:+ p.1 +:+ " contains a non-finite value.")
  else Ok tt.

Fixpoint check_parameters (l : list (string * list json)) : outcome unit :=
  match l with
  | [] => Ok tt
  | p :: l' => _ ← check_parameter p; check_parameters l'
  end.

Definition by_name {A} (a b : string * A) : bool := String.leb a.1 b.1.

Definition combinations (parameters : list (string * list json)) : Z :=
  foldr Z.mul 1 ((fun p => Z.of_nat (length p.2)) <$> parameters).

(** [itertools.product(...)] zipped with the names: the last name varies fastest *)
Fixpoint assignments (parameters : list (string * list json)) : list (list (string * json)) :=
  match parameters with
  | [] => [[]]
  | (name, values) :: rest => v ← values; (fun a => (name, v) :: a) <$> assignments rest
  end.

Record compiled_factor := mkCompiledFactor {
  cf_name : string;
  cf_expression : ir;
  cf_unit : string;
  cf_missing_policy : string }.

Definition compiled_factor_json (f : compiled_factor) : json := JObj
  [("expression", ir_json (cf_expression f)); ("unit", JStr (cf_unit f));
   ("missing_policy", JStr (cf_missing_policy f))].

Definition compile_factor (s : FactorProgramSource) (f : string * FactorDefinition) : outcome compiled_factor :=
  compiled ← _compile_expression (fps_fields s) (fps_parameters s) LEVELS ("factors." +:+ f.1)
               (JObj (fdf_expression f.2));
  if negb (str_eqb compiled.2 (fdf_output_unit f.2))
  then FactorLanguageConflict ("Factor " +:+ f.1 +:+ " declares " +:+ fdf_output_unit f.2 +:+
                               ", inferred " +:+ compiled.2 +:+ ".")
  else Ok (mkCompiledFactor f.1 compiled.1 compiled.2 (fdf_missing_policy f.2)).

Fixpoint compile_factors (s : FactorProgramSource) (l : list (string * FactorDefinition))
    : outcome (list compiled_factor) :=
  match l with
  | [] => Ok []
  | f :: l' => c ← compile_factor s f; cs ← compile_factors s l'; Ok (c :: cs)
  end.

Record trial := mkTrial {
  tr_ordinal : Z;
  tr_parameters : list (string * json);
  tr_trial_digest : string }.

Definition trial_json (t : trial) : json := JObj
  [("ordinal", JInt (tr_ordinal t)); ("parameters", JObj (tr_parameters t));
   ("trial_digest", JStr (tr_trial_digest t))].

Definition new_trial (s : FactorProgramSource) (i : nat) (assignment : list (string * json)) : trial :=
  mkTrial (Z.of_nat i + 1) assignment
    (digest (JObj [("source", source_json s); ("parameters", JObj assignment)])).

Record compiled_program := mkCompiledProgram {
  cp_factors : list compiled_factor;
  cp_trials : list trial }.

Definition compiled_json (s : FactorProgramSource) (c : compiled_program) : json := JObj
  [("schema_version", JStr "factor-experiment-ir-v1.0.0");
   ("source_digest", JStr (digest (source_json s)));
   ("representation_contract_digest", JStr (fps_representation_contract_digest s));
   ("dataset_manifest_digest", JStr (fps_dataset_manifest_digest s));
   ("factors", JObj ((fun f => (cf_name f, compiled_factor_json f)) <$> cp_factors c));
   ("label", label_json (fps_label s));
   ("trial_count", JInt (Z.of_nat (length (cp_trials c))));
   ("trials", JList (trial_json <$> cp_trials c));
   ("action_authority", JBool false)].

Definition semantic_json (p : FactorProgramCreate) : json := JObj
  [("language_version", JStr (fps_schema_version (fpc_source p)));
   ("hypothesis_id", JStr (uuid_str (fpc_hypothesis_id p)));
   ("source", source_json (fpc_source p))].

Definition compile_program (payload : FactorProgramCreate) : outcome compiled_program :=
  let s := fpc_source payload in
  _ ← check_parameters (fps_parameters s);
  if fps_maximum_trials s <? combinations (fps_parameters s)
  then FactorLanguageConflict "Parameter grid exceeds maximum_trials."
  else
    factors ← compile_factors s (sort_by by_name (fps_factors s));
    match assoc (lbl_field (fps_label s)) (fps_fields s) with
    | None => FactorLanguageConflict "Label references an unknown field."
    | Some _ => Ok (mkCompiledProgram factors
                  (imap (new_trial s) (assignments (sort_by by_name (fps_parameters s)))))
    end.

(** ** Registration *)
Section registration.
Context `{World}.

Definition conflict {A} (message : string) : Sess A := lift (FactorLanguageConflict message).

(** the program to be superseded is locked and retired *)
Definition supersede_program (hypothesis_id id : uuid) : Sess unit :=
  prior ← get_row programs id;
  let refused := conflict "Superseded program is absent, inactive, or belongs to another hypothesis." in
  match prior with
  | None => refused
  | Some p =>
      if negb (str_eqb (fxp_status p) "active") || negb (bool_decide (fxp_hypothesis_id p = hypothesis_id))
      then refused
      else alter_row programs id (fun p => p <| fxp_status := "superseded" |>)
  end.

(** the unique columns of two programs that may not coincide *)
Definition program_clash (a b : FactorExperimentProgram) : bool :=
  str_eqb (fxp_program_key a) (fxp_program_key b) || str_eqb (fxp_source_digest a) (fxp_source_digest b) ||
  str_eqb (fxp_semantic_digest a) (fxp_semantic_digest b) ||
  str_eqb (fxp_compiled_digest a) (fxp_compiled_digest b).

Definition new_program (payload : FactorProgramCreate) (c : compiled_program) (id : uuid)
    : FactorExperimentProgram :=
  let s := fpc_source payload in
  mkFactorExperimentProgram id (fpc_program_key payload) (fpc_hypothesis_id payload)
    (fps_schema_version s) s (digest (source_json s)) (digest (semantic_json payload))
    (compiled_json s c) (digest (compiled_json s c)) "active" (fpc_supersedes_program_id payload)
    (fpc_registered_by payload) w_server_now.

Definition register_factor_program (payload : FactorProgramCreate) : Sess uuid :=
  hypothesis ← get_row hypotheses (fpc_hypothesis_id payload);
  match hypothesis with
  | None => conflict "A registered hypothesis is required."
  | Some _ =>
      dataset ← select_one dataset_manifests (fun m =>
        str_eqb (rdm_manifest_digest m) (fps_dataset_manifest_digest (fpc_source payload)));
      match dataset with
      | None => conflict "A registered dataset manifest is required."
      | Some _ =>
          compiled ← lift (compile_program payload);
          _ ← match fpc_supersedes_program_id payload with
              | None => mret tt
              | Some prior => supersede_program (fpc_hypothesis_id payload) prior
              end;
          id ← fresh_id;
          let record := new_program payload compiled id in
          clash ← select_one programs (program_clash record);
          match clash with
          | Some _ => conflict "Program key, source, semantics, or compiled artifact already exists."
          | None => _ ← insert_row programs id record; mret id
          end
      end
  end.

(** [POST /v1/research/factor-programs] *)
Definition create_program (payload : FactorProgramCreate) : Sess uuid :=
  catch_conflict "FactorLanguageConflict"
    (id ← register_factor_program payload; _ ← commit; mret id).
End registration.
