(* ===== verification/FactorTheorems.v ===== *)
(** * What the factor language promises

    The contract of [services/factor_language.py]: which expressions compile and
    to what unit, that a compiled factor reads only data that is available, and
    which trials a program has. *)
From S2P Require Import Prelude Py Sha256 Models Store Logic FactorLanguage.

Open Scope Z_scope.

(** ** Errors as values *)
Lemma outcome_Ok {A B} (m : outcome A) (f : A → outcome B) b :
  (m ≫= f) = Ok b → ∃ a, m = Ok a ∧ f a = Ok b.
Proof. destruct m as [a|e]; cbn; [by eauto|done]. Qed.

Lemma outcome_bind_eq {A B} (m : outcome A) (f : A → outcome B) a : m = Ok a → (m ≫= f) = f a.
Proof. by intros ->. Qed.

(** take a successful run of binds apart *)
Ltac outcome_inv H :=
  let a := fresh "r" in let E := fresh "E" in
  apply outcome_Ok in H as (a & E & H).

(** ** Typing *)
Section typing.
Context (fields : list (string * FieldContract)) (parameters : list (string * list json)).

(** a JSON object with exactly these two keys *)
Definition node (v op : json) (args : list json) : Prop :=
  ∃ d, v = JObj d ∧ op_and_args d = true ∧ Json.get "op" d = Some op ∧ Json.get "args" d = Some (JList args).

Definition finite_number (v : json) : Prop :=
  match v with
  | JInt z => Z.abs z < float_overflow
  | JFloat r => finite_float r = true
  | _ => False
  end.

Definition unit_rule (op : binary_op) (l r u : string) : Prop :=
  match op with
  | Add | Subtract => l = r ∧ u = l
  | Greater | Less => l = r ∧ u = "boolean"
  | And | Or => l = "boolean" ∧ r = "boolean" ∧ u = "boolean"
  | Multiply => u = if str_eqb l "dimensionless" then r else if str_eqb r "dimensionless" then l
                    else "(" +:+ l +:+ "*" +:+ r +:+ ")"
  | Divide => u = if str_eqb r l then "dimensionless" else if str_eqb r "dimensionless" then l
                  else "(" +:+ l +:+ "/" +:+ r +:+ ")"
  end.

(** [typed v e u]: the expression [v] means [e] and has the unit [u] *)
Inductive typed : json → ir → string → Prop :=
| typed_field v f lag n c :
    node v (JStr "field") [JStr f; lag] → assoc f fields = Some c → Json.as_int lag = Some n →
    0 ≤ n → 1 ≤ n + fct_availability_lag c →
    typed v (IField f (n + fct_availability_lag c)) (fct_unit c)
| typed_constant v x : node v (JStr "constant") [x] → finite_number x → typed v (IConstant x) "dimensionless"
| typed_parameter v p values :
    node v (JStr "parameter") [JStr p] → assoc p parameters = Some values →
    typed v (IParameter p) "dimensionless"
| typed_lag v a lag n e u :
    node v (JStr "lag") [a; lag] → Json.as_int lag = Some n → 1 ≤ n → typed a e u → typed v (ILag e lag) u
| typed_mean v a w n e u :
    node v (JStr "rolling_mean") [a; w] → Json.as_int w = Some n → 2 ≤ n → typed a e u →
    typed v (IRollingMean e w) u
| typed_mean_by v a w p e u u' :
    node v (JStr "rolling_mean") [a; w] → typed a e u → typed w (IParameter p) u' →
    typed v (IRollingMeanBy e (IParameter p)) u
| typed_unary v op a e u :
    node v (JStr (unary_name op)) [a] → typed a e u → (op = Log → u = "dimensionless") →
    typed v (IUnary op e) u
| typed_binary v op a b l r ul ur u :
    node v (JStr (binary_name op)) [a; b] → typed a l ul → typed b r ur → unit_rule op ul ur u →
    typed v (IBinary op l r) u.

(** the number of levels of an expression *)
Fixpoint height (e : ir) : nat :=
  match e with
  | IField _ _ | IConstant _ | IParameter _ => 1
  | ILag e _ | IRollingMean e _ | IUnary _ e => S (height e)
  | IRollingMeanBy e w => S (Nat.max (height e) (height w))
  | IBinary _ l r => S (Nat.max (height l) (height r))
  end.

Lemma unit_for_binary_spec op l r u : _unit_for_binary op l r = Ok u ↔ unit_rule op l r u.
Proof.
  assert (Hne : ∀ a b : string, str_eqb a b = false → a ≠ b).
  { intros a b E ->. by rewrite (proj2 (str_eqb_spec b b) eq_refl) in E. }
  destruct op; cbn; repeat (case_match; cbn in *; try (rewrite ?negb_true_iff, ?negb_false_iff in * )).
  all: rewrite ?orb_true_iff, ?orb_false_iff, ?negb_true_iff, ?negb_false_iff in *.
  all: rewrite ?str_eqb_spec in *; split; intros; destruct_and?; destruct_or?; simplify_eq/=; try done.
  all: naive_solver.
Qed.

Lemma assoc_unary name op : assoc name _UNARY = Some op ↔ name = unary_name op.
Proof.
  split; [|intros ->; by destruct op]. cbn.
  repeat match goal with |- context [(name =? ?s)%string] => destruct (String.eqb_spec name s) end; intros [= <-]; done.
Qed.

Lemma assoc_binary name op : assoc name _BINARY = Some op ↔ name = binary_name op.
Proof.
  split; [|intros ->; by destruct op]. cbn.
  repeat match goal with |- context [(name =? ?s)%string] => destruct (String.eqb_spec name s) end; intros [= <-]; done.
Qed.

Lemma in_dict_Some {A} v (d : list (string * A)) a :
  in_dict v d = Ok (Some a) ↔ ∃ k, v = JStr k ∧ assoc k d = Some a.
Proof.
  split; [|intros (k & -> & E); cbn; by rewrite E].
  destruct v; cbn; try done. intros [= E]. by eauto.
Qed.

(** *** What each operator accepts *)
Lemma compile_field_spec path args e u :
  compile_field fields path args = Ok (e, u) ↔
  ∃ f lag n c, args = [JStr f; lag] ∧ assoc f fields = Some c ∧ Json.as_int lag = Some n ∧ 0 ≤ n ∧
    1 ≤ n + fct_availability_lag c ∧ e = IField f (n + fct_availability_lag c) ∧ u = fct_unit c.
Proof.
  unfold compile_field. split.
  - destruct args as [|f [|lag [|]]]; try done. intros E. outcome_inv E. destruct r as [c|]; [|done].
    apply in_dict_Some in E0 as (k & -> & Hc). destruct (Json.as_int lag) as [n|] eqn:Hn; [|done].
    destruct (_ || _) eqn:Hb in E; [done|]. injection E as <- <-.
    apply orb_false_iff in Hb as [H1%Z.ltb_ge H2%Z.ltb_ge]. exists k, lag, n, c. by repeat split.
  - intros (f & lag & n & c & -> & Hc & Hn & H1 & H2 & -> & ->). cbn. rewrite Hc, Hn.
    by rewrite (proj2 (Z.ltb_ge n 0)), (proj2 (Z.ltb_ge (n + _) 1)) by done.
Qed.

Lemma compile_constant_spec path args e u :
  compile_constant path args = Ok (e, u) ↔
  ∃ x, args = [x] ∧ finite_number x ∧ e = IConstant x ∧ u = "dimensionless".
Proof.
  unfold compile_constant. split.
  - destruct args as [|x [|]]; [done| |by destruct x]. destruct x; try done.
    + destruct (Z.leb_spec float_overflow (Z.abs z)); [done|]. intros [= <- <-]. by eexists.
    + destruct (finite_float repr) eqn:Hf; [|done]. intros [= <- <-]. by eexists.
  - intros (x & -> & Hx & -> & ->). destruct x; cbn in Hx; try done.
    + destruct (Z.leb_spec float_overflow (Z.abs z)); [lia|done].
    + by rewrite Hx.
Qed.

Lemma compile_parameter_spec path args e u :
  compile_parameter parameters path args = Ok (e, u) ↔
  ∃ p values, args = [JStr p] ∧ assoc p parameters = Some values ∧ e = IParameter p ∧ u = "dimensionless".
Proof.
  unfold compile_parameter. split.
  - destruct args as [|x [|]]; try done. intros E. outcome_inv E. destruct r as [values|]; [|done].
    apply in_dict_Some in E0 as (k & -> & Hc). injection E as <- <-. by exists k, values.
  - intros (p & values & -> & Hp & -> & ->). cbn. by rewrite Hp.
Qed.

Section operands.
Context (compile : string → json → outcome (ir * string)).

Lemma compile_lag_spec path args e u :
  compile_lag compile path args = Ok (e, u) ↔
  ∃ a lag n x, args = [a; lag] ∧ Json.as_int lag = Some n ∧ 1 ≤ n ∧ operand compile path 0 a = Ok (x, u) ∧
    e = ILag x lag.
Proof.
  unfold compile_lag. split.
  - destruct args as [|a [|lag [|]]]; try done. destruct (Json.as_int lag) as [n|] eqn:Hn; [|done].
    destruct (Z.ltb_spec n 1); [done|]. intros E. outcome_inv E. destruct r as [x u']. injection E as <- <-.
    by exists a, lag, n, x.
  - intros (a & lag & n & x & -> & Hn & H1 & Ha & ->). rewrite Hn.
    destruct (Z.ltb_spec n 1); [lia|]. by rewrite (outcome_bind_eq _ _ _ Ha).
Qed.

Lemma compile_unary_spec path op args e u :
  compile_unary compile path op args = Ok (e, u) ↔
  ∃ a x, args = [a] ∧ operand compile path 0 a = Ok (x, u) ∧ (op = Log → u = "dimensionless") ∧ e = IUnary op x.
Proof.
  unfold compile_unary. split.
  - destruct args as [|a [|]]; try done. intros E. outcome_inv E. destruct r as [x u']. cbn [fst snd] in E.
    destruct op; try (injection E as <- <-; by exists a, x).
    destruct (str_eqb u' "dimensionless") eqn:Hu; cbn in E; [|done]. injection E as <- <-. apply str_eqb_spec in Hu.
    by exists a, x.
  - intros (a & x & -> & Ha & Hu & ->). rewrite (outcome_bind_eq _ _ _ Ha). cbn [fst snd]. destruct op; try done.
    by rewrite (proj2 (str_eqb_spec u _) (Hu eq_refl)).
Qed.

Lemma compile_binary_spec path op args e u :
  compile_binary compile path op args = Ok (e, u) ↔
  ∃ a b l r ul ur, args = [a; b] ∧ operand compile path 0 a = Ok (l, ul) ∧ operand compile path 1 b = Ok (r, ur) ∧
    unit_rule op ul ur u ∧ e = IBinary op l r.
Proof.
  unfold compile_binary. split.
  - destruct args as [|a [|b [|]]]; try done. intros E. outcome_inv E. outcome_inv E. outcome_inv E.
    destruct r as [l ul], r0 as [r ur]. injection E as <- <-. apply unit_for_binary_spec in E2.
    by exists a, b, l, r, ul, ur.
  - intros (a & b & l & r & ul & ur & -> & Ha & Hb & Hu%unit_for_binary_spec & ->).
    rewrite (outcome_bind_eq _ _ _ Ha), (outcome_bind_eq _ _ _ Hb). cbn. by rewrite Hu.
Qed.

Lemma parameter_op d : Json.eqb_opt (Json.get "op" d) (Some (JStr "parameter")) = true ↔ Json.get "op" d = Some (JStr "parameter").
Proof.
  unfold Json.eqb_opt. destruct (Json.get "op" d) as [v|]; cbn; [|done].
  destruct v; cbn; try done. rewrite String.eqb_eq. naive_solver.
Qed.

Lemma compile_rolling_mean_spec path args e u :
  compile_rolling_mean compile path args = Ok (e, u) ↔
  ∃ a w x, args = [a; w] ∧ operand compile path 0 a = Ok (x, u) ∧
    ((∃ n, Json.as_int w = Some n ∧ 2 ≤ n ∧ e = IRollingMean x w) ∨
     (∃ d y u', w = JObj d ∧ Json.get "op" d = Some (JStr "parameter") ∧ operand compile path 1 w = Ok (y, u') ∧
        e = IRollingMeanBy x y)).
Proof.
  unfold compile_rolling_mean. split.
  - destruct args as [|a [|w [|]]]; try done. intros E. outcome_inv E. destruct r as [x u'].
    assert (Hint : ∀ n, Json.as_int w = Some n →
      (if 2 <=? n then Ok (IRollingMean x w, u') else FactorLanguageConflict (path +:+ " rolling window must be >=2 or a parameter."))
        = Ok (e, u) → ∃ a0 w0 x0, [a; w] = [a0; w0] ∧ operand compile path 0 a0 = Ok (x0, u) ∧
          ((∃ n, Json.as_int w0 = Some n ∧ 2 ≤ n ∧ e = IRollingMean x0 w0) ∨
           (∃ d y u', w0 = JObj d ∧ Json.get "op" d = Some (JStr "parameter") ∧ operand compile path 1 w0 = Ok (y, u') ∧
              e = IRollingMeanBy x0 y))).
    { intros n Hn E'. destruct (Z.leb_spec 2 n); [|done]. injection E' as <- <-. exists a, w, x.
      split; [done|]. split; [done|]. left. by exists n. }
    destruct w as [|b|z| | |l|d]; try (by apply (Hint _ eq_refl)); try done.
    cbn in E. destruct (Json.eqb_opt _ _) eqn:Hp in E; [|done]. apply parameter_op in Hp. outcome_inv E.
    destruct r as [y u'']. injection E as <- <-. exists a, (JObj d), x. split; [done|]. split; [done|].
    right. by exists d, y, u''.
  - intros (a & w & x & -> & Ha & Hw). rewrite (outcome_bind_eq _ _ _ Ha). cbn.
    destruct Hw as [(n & Hn & H2 & ->)|(d & y & u' & -> & Hp & Hy & ->)].
    + apply Z.leb_le in H2. destruct w; try done; cbn in Hn; injection Hn as Hn; cbn; by rewrite Hn, H2.
    + cbn. rewrite (proj2 (parameter_op d) Hp). by rewrite (outcome_bind_eq _ _ _ Hy).
Qed.

(** the operator a successful compilation took *)
Inductive dispatched (path : string) (args : list json) (e : ir) (u : string) : json → Prop :=
| on_field : compile_field fields path args = Ok (e, u) → dispatched path args e u (JStr "field")
| on_constant : compile_constant path args = Ok (e, u) → dispatched path args e u (JStr "constant")
| on_parameter : compile_parameter parameters path args = Ok (e, u) → dispatched path args e u (JStr "parameter")
| on_lag : compile_lag compile path args = Ok (e, u) → dispatched path args e u (JStr "lag")
| on_mean : compile_rolling_mean compile path args = Ok (e, u) → dispatched path args e u (JStr "rolling_mean")
| on_unary op : compile_unary compile path op args = Ok (e, u) → dispatched path args e u (JStr (unary_name op))
| on_binary op : compile_binary compile path op args = Ok (e, u) → dispatched path args e u (JStr (binary_name op)).

Lemma compile_op_spec path op args e u :
  compile_op fields parameters compile path op args = Ok (e, u) ↔ dispatched path args e u op.
Proof.
  split.
  - unfold compile_op. destruct op as [| | | |name| |]; try (intros E; by outcome_inv E).
    repeat match goal with
    | |- (if str_eqb name ?k then _ else _) = _ → _ =>
        destruct (str_eqb name k) eqn:Hk; [apply str_eqb_spec in Hk as ->; by constructor|clear Hk]
    end.
    destruct (assoc name _UNARY) as [op|] eqn:Hu; [apply assoc_unary in Hu as ->; by constructor|].
    destruct (assoc name _BINARY) as [op|] eqn:Hb; [apply assoc_binary in Hb as ->; by constructor|done].
  - intros []; try done; by destruct op0.
Qed.
End operands.

(** ** The compiler implements the typing rules *)
Lemma compile_node levels path v e u :
  _compile_expression fields parameters (S levels) path v = Ok (e, u) ↔
  ∃ op args, node v op args ∧ dispatched (_compile_expression fields parameters levels) path args e u op.
Proof.
  cbn [_compile_expression]. split.
  - destruct v as [| | | | | |d]; try done. destruct (op_and_args d) eqn:Hd; [|done].
    destruct (Json.get "op" d) as [op|] eqn:Hop; [|done]. destruct (Json.get "args" d) as [a|] eqn:Ha; [|done].
    destruct a as [| | | | |args|]; try done. intros E%compile_op_spec. exists op, args. split; [by exists d|done].
  - intros (op & args & (d & -> & Hd & Hop & Ha) & E). rewrite Hd, Hop, Ha. by apply compile_op_spec.
Qed.

Lemma typed_parameter_op d e u :
  typed (JObj d) e u → Json.get "op" d = Some (JStr "parameter") → ∃ p, e = IParameter p.
Proof.
  intros Ht Hop. assert (Hn : ∀ op args, node (JObj d) op args → op = JStr "parameter").
  { intros op args (d' & [= <-] & _ & Hop' & _). congruence. }
  inversion Ht; subst;
    lazymatch goal with H : node _ _ _ |- _ => apply Hn in H end; try done; [by eexists|..]; by destruct op.
Qed.

Lemma typed_compiles v e u :
  typed v e u → ∀ levels path, (height e ≤ levels)%nat → _compile_expression fields parameters levels path v = Ok (e, u).
Proof.
  induction 1; intros [|levels] path Hh; cbn in Hh; try lia; apply compile_node; eexists _, _; (split; [eassumption|]).
  - apply on_field, compile_field_spec. by exists f, lag, n, c.
  - apply on_constant, compile_constant_spec. by exists x.
  - apply on_parameter, compile_parameter_spec. by exists p, values.
  - apply on_lag, compile_lag_spec. exists a, lag, n, e. split_and!; try done. apply IHtyped. lia.
  - apply on_mean, compile_rolling_mean_spec. exists a, w, e. split; [done|]. split; [apply IHtyped; lia|]. left. by exists n.
  - apply on_mean, compile_rolling_mean_spec. exists a, w, e. split; [done|]. split; [apply IHtyped1; lia|]. right.
    assert (Hw : ∃ d, w = JObj d ∧ Json.get "op" d = Some (JStr "parameter")).
    { inversion H1 as [| |? ? ? (d & -> & _ & Hop & _)| | | | |]; subst. by exists d. }
    destruct Hw as (d & -> & Hop). exists d, (IParameter p), u'. split_and!; try done. apply IHtyped2. cbn. lia.
  - apply on_unary, compile_unary_spec. exists a, e. split_and!; try done. apply IHtyped. lia.
  - apply on_binary, compile_binary_spec. exists a, b, l, r, ul, ur. split_and!; try done; [apply IHtyped1|apply IHtyped2]; lia.
Qed.

Lemma compiles_typed levels : ∀ path v e u,
  _compile_expression fields parameters levels path v = Ok (e, u) → typed v e u ∧ (height e ≤ levels)%nat.
Proof.
  induction levels as [|levels IH]; [done|]. intros path v e u (op & args & Hv & Hd)%compile_node.
  destruct Hd as [E|E|E|E|E|op E|op E].
  - apply compile_field_spec in E as (f & lag & n & c & -> & Hc & Hn & H1 & H2 & -> & ->).
    split; [by eapply typed_field|cbn; lia].
  - apply compile_constant_spec in E as (x & -> & Hx & -> & ->). split; [by eapply typed_constant|cbn; lia].
  - apply compile_parameter_spec in E as (p & values & -> & Hp & -> & ->). split; [by eapply typed_parameter|cbn; lia].
  - apply compile_lag_spec in E as (a & lag & n & x & -> & Hn & H1 & [Ha Hh]%IH & ->).
    split; [by eapply typed_lag|cbn; lia].
  - apply compile_rolling_mean_spec in E as (a & w & x & -> & [Ha Hh]%IH & [(n & Hn & H2 & ->)|(d & y & u' & -> & Hp & [Hy Hy']%IH & ->)]).
    + split; [by eapply typed_mean|cbn; lia].
    + destruct (typed_parameter_op _ _ _ Hy Hp) as [p ->].
      cbn in Hy'. split; [by eapply typed_mean_by|cbn; lia].
  - apply compile_unary_spec in E as (a & x & -> & [Ha Hh]%IH & Hu & ->). split; [by eapply typed_unary|cbn; lia].
  - apply compile_binary_spec in E as (a & b & l & r & ul & ur & -> & [Ha Hla]%IH & [Hb Hlb]%IH & Hu & ->).
    split; [by eapply typed_binary|cbn; lia].
Qed.
End typing.

(** C22. The compiler accepts exactly the expressions the typing rules allow within
    its levels, and returns the meaning and the unit they give: operands of sums
    and comparisons agree in unit, logical operands are boolean, logarithms
    dimensionless, lags positive, windows at least two or a declared parameter,
    constants finite, and every field is known and read no earlier than it is
    available. *)
Theorem compile_expression_iff fields parameters levels path v e u :
  _compile_expression fields parameters levels path v = Ok (e, u) ↔
  typed fields parameters v e u ∧ (height e ≤ levels)%nat.
Proof. split; [apply compiles_typed|intros [Ht Hh]; by apply typed_compiles]. Qed.

(** ** Causality *)
Section causality.
Context {V : Type} (fields : list (string * FieldContract)) (parameters : list (string * list json)).
Context (constant : json → V) (parameter : string → V) (window : string → Z).
Context (mean : list V → V) (unary : unary_op → V → V) (binary : binary_op → V → V → V).

(** the value of an expression at decision [t], over the history of every field
    and for any reading of the operators *)
Fixpoint value (history : string → Z → V) (e : ir) (t : Z) : V :=
  match e with
  | IField f n => history f (t - n)
  | IConstant c => constant c
  | IParameter p => parameter p
  | ILag e n => value history e (t - default 0 (Json.as_int n))
  | IRollingMean e w => mean ((fun i => value history e (t - i)) <$> seqZ 0 (default 0 (Json.as_int w)))
  | IRollingMeanBy e w =>
      mean ((fun i => value history e (t - i)) <$> seqZ 0 (match w with IParameter p => window p | _ => 0 end))
  | IUnary op e => unary op (value history e t)
  | IBinary op l r => binary op (value history l t) (value history r t)
  end.

(** the observation of time [s] can be known when deciding at [t] *)
Definition available (c : FieldContract) (s t : Z) : Prop := s < t ∧ s + fct_availability_lag c ≤ t.

(** two histories that cannot be told apart when deciding at [t] *)
Definition agree (history history' : string → Z → V) (t : Z) : Prop :=
  ∀ f c s, assoc f fields = Some c → available c s t → history f s = history' f s.

Lemma agree_earlier h h' t n : 0 ≤ n → agree h h' t → agree h h' (t - n).
Proof. intros Hn Hag f c s Hf [Hs Hv]. eapply Hag; [done|]. unfold available. lia. Qed.

Lemma mean_causal h h' e n t :
  (∀ i, 0 ≤ i → value h e (t - i) = value h' e (t - i)) →
  mean ((fun i => value h e (t - i)) <$> seqZ 0 n) = mean ((fun i => value h' e (t - i)) <$> seqZ 0 n).
Proof.
  intros He. f_equal. apply list_fmap_ext. intros i x Hx%list_elem_of_lookup_2. apply elem_of_seqZ in Hx. apply He. lia.
Qed.

Lemma typed_causal v e u :
  typed fields parameters v e u → ∀ history history' t, agree history history' t →
  value history e t = value history' e t.
Proof.
  induction 1 as [? f lag n c ? Hc ? H1 H2| | |? a lag n e u ? Hn H1 ? IH|? a w n e u ? Hn H2 ? IH|? a w p e u u' ? ? IH ? IHw|? op a e u ? ? IH|? op a b l r ul ur u ? ? IHl ? IHr ?];
    intros h h' t Hag; cbn; try done.
  - eapply Hag; [exact Hc|]. unfold available. lia.
  - rewrite Hn. cbn. apply IH, agree_earlier; [lia|done].
  - rewrite Hn. apply mean_causal. intros i Hi. apply IH, agree_earlier; done.
  - apply mean_causal. intros i Hi. apply IH, agree_earlier; done.
  - f_equal. by apply IH.
  - f_equal; [by apply IHl|by apply IHr].
Qed.
End causality.

(** C23. A compiled factor cannot look ahead: whatever its operators compute, two
    histories that agree on every observation older than the decision and already
    past its availability lag give the factor the same value. *)
Theorem factors_cannot_look_ahead {V} fields parameters path v e u constant parameter window mean unary binary
    (history history' : string → Z → V) t :
  _compile_expression fields parameters LEVELS path v = Ok (e, u) →
  agree fields history history' t →
  value constant parameter window mean unary binary history e t =
  value constant parameter window mean unary binary history' e t.
Proof. intros [Ht _]%compiles_typed. by eapply typed_causal. Qed.

Definition close : FieldContract := mkFieldContract "usd" "positive" "decision_close" 0.
Definition volume : FieldContract := mkFieldContract "contracts" "nonnegative" "decision_close" 1.
Definition field_node (f : string) (lag : Z) : json := op_json "field" [JStr f; JInt lag].
Definition lagged_return : json :=
  op_json "subtract" [op_json "divide" [field_node "close" 1; field_node "close" 2]; op_json "constant" [JInt 1]].
Definition demo_fields : list (string * FieldContract) := [("close", close); ("volume", volume)].
Definition demo_parameters : list (string * list json) :=
  [("threshold", [JFloat "0.0"; JFloat "0.01"]); ("lookback", [JInt 2; JInt 4])].

Example lagged_return_ex :
  _compile_expression demo_fields demo_parameters LEVELS "expression" lagged_return =
  Ok (IBinary Subtract (IBinary Divide (IField "close" 1) (IField "close" 2)) (IConstant (JInt 1)), "dimensionless").
Proof. vm_compute. reflexivity. Qed.

Example look_ahead_refused :
  _compile_expression demo_fields demo_parameters LEVELS "expression" (field_node "close" 0) =
  FactorLanguageConflict "expression reads close before it is causally available.".
Proof. vm_compute. reflexivity. Qed.

(** with numbers for values, the history of the future does not matter *)
Lemma factors_cannot_look_ahead_witness :
  ∃ e u, _compile_expression demo_fields demo_parameters LEVELS "expression" lagged_return = Ok (e, u) ∧
    value (fun _ => 1) (fun _ => 0) (fun _ => 2) (foldr Z.add 0) (fun _ x => x) (fun _ x y => x - y)
      (fun _ s => s) e 10 =
    value (fun _ => 1) (fun _ => 0) (fun _ => 2) (foldr Z.add 0) (fun _ x => x) (fun _ x y => x - y)
      (fun _ s => if s <? 10 then s else 0) e 10.
Proof.
  eexists _, _. split; [exact lagged_return_ex|].
  apply (factors_cannot_look_ahead demo_fields demo_parameters "expression" lagged_return _ "dimensionless").
  - exact lagged_return_ex.
  - intros f c s Hf [Hs _]. destruct (Z.ltb_spec s 10); [reflexivity|lia].
Defined.

(** ** Trials *)
Section trials.

(** one value for each parameter *)
Definition in_grid (parameters : list (string * list json)) (a : list (string * json)) : Prop :=
  Forall2 (fun p x => x.1 = p.1 ∧ x.2 ∈ p.2) parameters a.

Lemma assignments_spec parameters a : a ∈ assignments parameters ↔ in_grid parameters a.
Proof.
  unfold in_grid. revert a. induction parameters as [|[name values] rest IH]; intros a; cbn.
  - rewrite list_elem_of_singleton. split; [intros ->; constructor|by intros ?%Forall2_nil_inv_l].
  - rewrite list_elem_of_bind. setoid_rewrite list_elem_of_fmap. setoid_rewrite IH. split.
    + intros (v & (b & -> & Hb) & Hv). by constructor.
    + intros ([n v] & b & [E Hv] & Hb & ->)%Forall2_cons_inv_l. cbn in E, Hv. subst n. exists v. split; [|done]. by exists b.
Qed.

Lemma assignments_length parameters : Z.of_nat (length (assignments parameters)) = combinations parameters.
Proof.
  unfold combinations. induction parameters as [|[name values] rest IH]; [done|]. cbn. rewrite <- IH.
  induction values as [|v values IHv]; [done|]. cbn. rewrite length_app, length_fmap. lia.
Qed.

Lemma assignments_NoDup parameters :
  Forall (fun p => NoDup p.2) parameters → NoDup (assignments parameters).
Proof.
  induction 1 as [|[name values] rest Hv _ IH]; cbn in *; [apply NoDup_singleton|].
  induction Hv as [|v values Hnot Hv IHv]; cbn; [constructor|]. apply NoDup_app. split_and!; [|intros a|done].
  - apply NoDup_fmap_2; [|done]. by intros a b [= ->].
  - intros (b & -> & _)%list_elem_of_fmap. rewrite list_elem_of_bind. intros (w & (b' & E & _)%list_elem_of_fmap & Hw).
    injection E as -> _. done.
Qed.

Lemma check_parameters_spec l : check_parameters l = Ok tt → Forall (fun p => p.2 ≠ [] ∧ NoDup p.2) l.
Proof.
  induction l as [|p l IH]; cbn; [constructor|]. intros E. outcome_inv E. constructor; [|by apply IH].
  unfold check_parameter in E0. destruct (_ || _) eqn:Hb; [done|]. apply orb_false_iff in Hb as [Hn Hd].
  apply bool_decide_eq_false in Hn. apply negb_false_iff, bool_decide_eq_true in Hd. split; [done|]. by eapply NoDup_fmap_1.
Qed.

Lemma combinations_perm l l' : l ≡ₚ l' → combinations l = combinations l'.
Proof. unfold combinations. intros E. induction E; cbn; lia. Qed.

Lemma compile_factors_spec s l cs :
  compile_factors s l = Ok cs → Forall2 (fun f c => cf_name c = f.1 ∧ cf_unit c = fdf_output_unit f.2 ∧
    typed (fps_fields s) (fps_parameters s) (JObj (fdf_expression f.2)) (cf_expression c) (cf_unit c)) l cs.
Proof.
  revert cs. induction l as [|f l IH]; cbn [compile_factors]; intros cs E; [injection E as <-; constructor|].
  outcome_inv E. outcome_inv E. injection E as <-. constructor; [|by apply IH].
  unfold compile_factor in E0. apply outcome_Ok in E0 as ([e u] & Hc & E0). cbn [fst snd] in E0.
  destruct (str_eqb u (fdf_output_unit f.2)) eqn:Hu; [|done]. injection E0 as <-.
  apply str_eqb_spec in Hu as ->. by apply compiles_typed in Hc as [Ht _].
Qed.

Lemma trials_parameters s l : tr_parameters <$> imap (new_trial s) l = l.
Proof.
  apply list_eq; intros i. rewrite list_lookup_fmap, list_lookup_imap. by destruct (l !! i).
Qed.

Lemma trials_ordinal s l : tr_ordinal <$> imap (new_trial s) l = seqZ 1 (Z.of_nat (length l)).
Proof.
  apply list_eq; intros i. rewrite list_lookup_fmap, list_lookup_imap. destruct (l !! i) as [a|] eqn:Ha; cbn.
  - apply lookup_lt_Some in Ha. rewrite lookup_seqZ_lt by lia. f_equal. lia.
  - apply lookup_ge_None in Ha. rewrite lookup_seqZ_ge by lia. done.
Qed.
End trials.

(** A compiled program has one factor for every factor of its source, meaning
    what the typing rules give it and of the unit it declares; and its trials
    number, from 1, every assignment of a value to each parameter exactly once,
    no more than the declared maximum. *)
Theorem compiled_program_spec payload c :
  compile_program payload = Ok c →
  let s := fpc_source payload in
  let parameters := sort_by by_name (fps_parameters s) in
  Forall2 (fun f c => cf_name c = f.1 ∧ cf_unit c = fdf_output_unit f.2 ∧
    typed (fps_fields s) (fps_parameters s) (JObj (fdf_expression f.2)) (cf_expression c) (cf_unit c))
    (sort_by by_name (fps_factors s)) (cp_factors c) ∧
  Z.of_nat (length (cp_trials c)) = combinations (fps_parameters s) ∧
  Z.of_nat (length (cp_trials c)) ≤ fps_maximum_trials s ∧
  tr_ordinal <$> cp_trials c = seqZ 1 (Z.of_nat (length (cp_trials c))) ∧
  NoDup (tr_parameters <$> cp_trials c) ∧
  ∀ a, a ∈ tr_parameters <$> cp_trials c ↔ in_grid parameters a.
Proof.
  unfold compile_program. intros E. outcome_inv E. destruct r. destruct (Z.ltb_spec (fps_maximum_trials (fpc_source payload))
    (combinations (fps_parameters (fpc_source payload)))) as [|Hmax]; [done|].
  outcome_inv E. destruct (assoc _ _); [|done]. injection E as <-. apply compile_factors_spec in E1. cbn [cp_factors cp_trials].
  set (s := fpc_source payload) in *. set (ps := sort_by by_name (fps_parameters s)).
  assert (Hlen : Z.of_nat (length (imap (new_trial s) (assignments ps))) = combinations (fps_parameters s)).
  { rewrite length_imap, assignments_length. apply combinations_perm, sort_by_perm. }
  split; [exact E1|]. split; [exact Hlen|]. split; [by rewrite Hlen|].
  split; [by rewrite trials_ordinal, length_imap|]. rewrite trials_parameters.
  split; [|intros a; apply assignments_spec]. apply assignments_NoDup. unfold ps. rewrite sort_by_perm.
  apply check_parameters_spec in E0. eapply Forall_impl; [exact E0|]. by intros p [].
Qed.

Definition demo_source : FactorProgramSource :=
  mkFactorProgramSource "factor-experiment-language-v1.0.0" "contract-digest" "manifest-digest" "decision_close"
    demo_fields demo_parameters
    [("lagged_return", mkFactorDefinition (default [] (Json.as_dict lagged_return)) "dimensionless" "reject")]
    (mkLabelDefinition "close" 1 "forward_return") 4.
Definition demo_program : FactorProgramCreate := mkFactorProgramCreate "program" 1 demo_source None "researcher".

(** two parameters of two values: four trials, the last parameter varying fastest *)
Lemma compiled_program_spec_witness :
  ∃ c, compile_program demo_program = Ok c ∧ length (cp_trials c) = 4%nat ∧
    [("lookback", JInt 2); ("threshold", JFloat "0.01")] ∈ tr_parameters <$> cp_trials c.
Proof.
  assert (E : ∃ c, compile_program demo_program = Ok c) by (eexists; vm_compute; reflexivity).
  destruct E as [c E]. destruct (compiled_program_spec demo_program c E) as (_ & Hlen & _ & _ & _ & Hgrid).
  exists c. split; [exact E|]. split; [apply Nat2Z.inj; exact Hlen|]. apply Hgrid.
  constructor; [split; [reflexivity|left]|]. constructor; [split; [reflexivity|right; left]|constructor].
Defined.
