(* ===== verification/SymbolicSearch.v ===== *)
(** * Bounded symbolic search

    [services/symbolic_search.py]: runs that admit generated factor expressions
    within declared bounds, the walk that measures an expression, the normal form
    that identifies expressions up to the order of commutative operands, and the
    admission of a candidate. *)
From S2P Require Import Prelude Py Sha256 Models Store FactorLanguage.

Open Scope Z_scope.

(** ** Measuring an expression *)

(** apply [f] to the list under the key "args"; [a] when there is none *)
Definition with_args {A} (f : list json → A) (a : A) : Json.dict → A :=
  fix find (d : Json.dict) : A :=
    match d with
    | [] => a
    | (k, x) :: rest => if String.eqb "args" k then match x with JList l => f l | _ => a end else find rest
    end.

Record walked := mkWalked {
  wk_nodes : Z;
  wk_depth : Z;
  wk_constants : Z;
  wk_operators : list string;
  wk_fields : list string }.

(** a node without its children *)
Definition walk_root (depth : Z) (op : json) (args : list json) : walked :=
  mkWalked 1 depth (match op with JStr "constant" => 1 | _ => 0 end) [Json.str op]
    (match op, args with JStr "field", JStr f :: _ => [f] | _, _ => [] end).

Definition walk_join (a b : walked) : walked :=
  mkWalked (wk_nodes a + wk_nodes b) (Z.max (wk_depth a) (wk_depth b)) (wk_constants a + wk_constants b)
    (wk_operators a ++ wk_operators b) (wk_fields a ++ wk_fields b).

Definition SymbolicSearchConflict {A} (message : string) : outcome A :=
  Err (PyException "SymbolicSearchConflict" message).

Fixpoint _walk (depth : Z) (v : json) {struct v} : outcome walked :=
  let refused := SymbolicSearchConflict "Expression nodes must contain exactly op and list args." in
  match v with
  | JObj d =>
      if op_and_args d then
        with_args (fun args =>
          (fix children (acc : walked) (l : list json) : outcome walked :=
             match l with
             | [] => Ok acc
             | c :: l' =>
                 match c with
                 | JObj _ => w ← _walk (depth + 1) c; children (walk_join acc w) l'
                 | _ => children acc l'
                 end
             end) (walk_root depth (default JNull (Json.get "op" d)) args) args) refused d
      else refused
  | _ => refused
  end.

(** ** Normal forms *)
Definition _COMMUTATIVE : list string := ["add"; "multiply"; "and"; "or"].

Definition commutative (op : json) : bool :=
  match op with JStr s => str_in s _COMMUTATIVE | _ => false end.

Definition digest_leb (a b : json) : bool := String.leb (digest a) (digest b).

(** total, where Python raises on arguments that are no list; it is applied only
    to expressions that the compiler accepted *)
Fixpoint _normalize (v : json) : json :=
  match v with
  | JObj d =>
      let op := default JNull (Json.get "op" d) in
      let args := with_args (fun l => _normalize <$> l) [] d in
      JObj [("op", op); ("args", JList (if commutative op then sort_by digest_leb args else args))]
  | _ => v
  end.

(** ** Runs *)
Section runs.
Context `{World}.

Definition search_conflict {A} (message : string) : Sess A := lift (SymbolicSearchConflict message).

Definition _SAFE_GENERATOR_TOOLS : list string := ["research.retrieve"].

(** [xs - ys], sorted *)
Definition set_difference (xs ys : list string) : list string :=
  sorted_set (List.filter (fun x => negb (str_in x ys)) xs).

Definition constraints_json (c : SymbolicConstraints) : Json.dict :=
  [("maximum_candidates", JInt (syc_maximum_candidates c));
   ("maximum_nodes", JInt (syc_maximum_nodes c));
   ("maximum_depth", JInt (syc_maximum_depth c));
   ("maximum_constants", JInt (syc_maximum_constants c));
   ("allowed_operators", Json.str_list (syc_allowed_operators c));
   ("required_fields", Json.str_list (syc_required_fields c));
   ("allow_parameters", JBool (syc_allow_parameters c))].

Definition run_constraints_json (c : RunConstraints) : json := JObj
  (constraints_json (rcn_terms c) ++
   [("base_factor_program_digest", JStr (rcn_base_factor_program_digest c));
    ("prompt_policy_digest", JStr (rcn_prompt_policy_digest c))]).

Definition ALLOWED_OPERATORS : list string :=
  ["field"; "constant"; "parameter"; "lag"; "rolling_mean"; "abs"; "log"; "negate"; "add"; "subtract";
   "multiply"; "divide"; "greater"; "less"; "and"; "or"].

(** the ranges of [SymbolicConstraints] and its validator [grammar] *)
Definition valid_constraints (c : SymbolicConstraints) : bool :=
  within 1 10000 (syc_maximum_candidates c) && within 1 1000 (syc_maximum_nodes c) &&
  within 1 32 (syc_maximum_depth c) && within 0 100 (syc_maximum_constants c) &&
  within 1 20 (Z.of_nat (length (syc_allowed_operators c))) &&
  within 0 100 (Z.of_nat (length (syc_required_fields c))) &&
  bool_decide (NoDup (syc_allowed_operators c)) &&
  str_subset (syc_allowed_operators c) ALLOWED_OPERATORS &&
  str_in "field" (syc_allowed_operators c) && bool_decide (NoDup (syc_required_fields c)).

(** a generator may only return data *)
Definition unsafe_tools (p : PromptPolicyBundle) : list string :=
  set_difference (ppb_allowed_tools p) _SAFE_GENERATOR_TOOLS.
Definition unsafe_policy (p : PromptPolicyBundle) : bool :=
  negb (Json.eqb_opt (Json.get "output_authority" (ppb_policy p)) (Some (JStr "data_only"))) ||
  negb (bool_decide (unsafe_tools p = [])).

Definition register_symbolic_search (payload : SymbolicSearchCreate) : Sess uuid :=
  program ← get_row programs (ssc_base_factor_program_id payload);
  policy ← get_row prompt_policies (ssc_prompt_policy_bundle_id payload);
  match program with
  | None => search_conflict "An active DISC-003 factor program is required."
  | Some program =>
    if negb (str_eqb (fxp_status program) "active")
    then search_conflict "An active DISC-003 factor program is required."
    else
      match policy with
      | None => search_conflict "An active AGT-004 prompt policy is required."
      | Some policy =>
        if negb (str_eqb (ppb_status policy) "active")
        then search_conflict "An active AGT-004 prompt policy is required."
        else if unsafe_policy policy then
          search_conflict ("Generator policy must be data-only and contains unsafe tools: " +:+
                           Json.repr (Json.str_list (unsafe_tools policy)))
        else
          let unknown := set_difference (syc_required_fields (ssc_constraints payload))
                           (fst <$> fps_fields (fxp_source program)) in
          if negb (bool_decide (unknown = [])) then
            search_conflict ("Required fields are absent from the base program: " +:+
                             Json.repr (Json.str_list unknown))
          else
            let constraints := mkRunConstraints (ssc_constraints payload) (fxp_compiled_digest program)
                                 (ppb_bundle_digest policy) in
            let constraints_digest := digest (run_constraints_json constraints) in
            existing ← select_one search_runs (fun r =>
              str_eqb (syr_run_key r) (ssc_run_key payload) ||
              str_eqb (syr_constraints_digest r) constraints_digest);
            match existing with
            | Some r =>
                if str_eqb (syr_constraints_digest r) constraints_digest then mret (syr_id r)
                else search_conflict "Run key already has different constraints."
            | None =>
                id ← fresh_id;
                _ ← insert_row search_runs id
                      (mkSymbolicSearchRun id (ssc_run_key payload) (fxp_id program) (ppb_id policy)
                         constraints constraints_digest "active" 0 0 [] (ssc_generated_by payload)
                         w_server_now);
                mret id
            end
      end
  end.

(** ** Candidates *)

Definition generator_json (g : GeneratorIdentity) : json := JObj
  [("provider", JStr (gid_provider g)); ("model", JStr (gid_model g)); ("version", JStr (gid_version g));
   ("seed", JInt (gid_seed g)); ("candidate_index", JInt (gid_candidate_index g))].

Definition proposal_json (p : SymbolicCandidateCreate) : Json.dict :=
  [("expression", JObj (scc_expression p)); ("output_unit", JStr (scc_output_unit p));
   ("generator", generator_json (scc_generator p))].

Definition run_candidates (d : database) (run_id : uuid) : list SymbolicSearchCandidate :=
  List.filter (fun c => bool_decide (syk_run_id c = run_id)) (table_rows (candidates d)).

(** the same generator state that produced something else before *)
Definition nondeterministic (prior : list SymbolicSearchCandidate) (proposal : Json.dict) : bool :=
  existsb (fun c =>
    Json.eqb_opt (Json.get "generator" (syk_proposal c)) (Json.get "generator" proposal) &&
    negb (Json.eqb_opt (Json.get "expression" (syk_proposal c)) (Json.get "expression" proposal) &&
          Json.eqb_opt (Json.get "output_unit" (syk_proposal c)) (Json.get "output_unit" proposal))) prior.

Definition violation (b : bool) (v : string) : list string := if b then [v] else [].

(** the violations of the declared bounds, in the order they are found *)
Definition bound_violations (c : SymbolicConstraints) (w : walked) (digest_matches : bool) : list string :=
  let disallowed := set_difference (wk_operators w) (syc_allowed_operators c) in
  let missing := set_difference (syc_required_fields c) (wk_fields w) in
  violation (negb digest_matches) "generator_output_digest_mismatch" ++
  violation (negb (bool_decide (disallowed = []))) ("disallowed_operators:" +:+ Str.join "," disallowed) ++
  violation (negb (syc_allow_parameters c) && str_in "parameter" (wk_operators w)) "parameters_forbidden" ++
  violation (syc_maximum_nodes c <? wk_nodes w) "maximum_nodes_exceeded" ++
  violation (syc_maximum_depth c <? wk_depth w) "maximum_depth_exceeded" ++
  violation (syc_maximum_constants c <? wk_constants w) "maximum_constants_exceeded" ++
  violation (negb (bool_decide (missing = []))) ("required_fields_missing:" +:+ Str.join "," missing).

Definition semantic_identity (expression : json) (output_unit : string) : string :=
  digest (JObj [("expression", _normalize expression); ("output_unit", JStr output_unit)]).

(** what the search knows already: the factors of the program and what it accepted *)
Definition known_digests (program : FactorProgramSource) (prior : list SymbolicSearchCandidate) : list string :=
  ((fun f => semantic_identity (JObj (fdf_expression f.2)) (fdf_output_unit f.2)) <$> fps_factors program) ++
  omap syk_semantic_digest (List.filter (fun c => str_eqb (syk_status c) "accepted") prior).

Record assessment := mkAssessment {
  as_violations : list string;
  as_semantic_digest : option string;
  as_compiled : Json.dict }.

Definition compiled_candidate (e : ir) (unit : string) (w : walked) : Json.dict :=
  [("expression", ir_json e); ("unit", JStr unit); ("nodes", JInt (wk_nodes w)); ("depth", JInt (wk_depth w));
   ("constants", JInt (wk_constants w)); ("action_authority", JBool false)].

(** the body of the [try]; [violations] are those found before it *)
Definition assess (constraints : SymbolicConstraints) (program : option FactorExperimentProgram)
    (prior : list SymbolicSearchCandidate) (violations : list string) (payload : SymbolicCandidateCreate)
    : outcome assessment :=
  w ← _walk 1 (JObj (scc_expression payload));
  let violations := violations ++ bound_violations constraints w
    (str_eqb (digest (JObj (proposal_json payload))) (scc_output_digest payload)) in
  source ← match program with
           | Some p => Ok (fxp_source p)
           | None => Err (PyException "AttributeError" "'NoneType' object has no attribute 'source'")
           end;
  if negb (bool_decide (violations = [])) then Ok (mkAssessment violations None [])
  else
    let parameters := if syc_allow_parameters constraints then fps_parameters source else [] in
    compiled ← _compile_expression (fps_fields source) parameters LEVELS "expression"
                 (JObj (scc_expression payload));
    if negb (str_eqb compiled.2 (scc_output_unit payload))
    then Ok (mkAssessment ["unit_mismatch:" +:+ compiled.2] None [])
    else
      let semantic := semantic_identity (JObj (scc_expression payload)) compiled.2 in
      if str_in semantic (known_digests source prior)
      then Ok (mkAssessment ["semantic_duplicate"] (Some semantic) [])
      else Ok (mkAssessment [] (Some semantic) (compiled_candidate compiled.1 compiled.2 w)).

(** the [except]: a conflict of the search or of the compiler becomes a violation *)
Definition assessed (violations : list string) (r : outcome assessment) : outcome assessment :=
  match r with
  | Err (PyException class message) =>
      if str_in class ["SymbolicSearchConflict"; "FactorLanguageConflict"]
      then Ok (mkAssessment (violations ++ ["compiler_rejection:" +:+ message]) None [])
      else r
  | _ => r
  end.

Definition candidate_status (violations : list string) : string :=
  if str_in "semantic_duplicate" violations then "duplicate"
  else if negb (bool_decide (violations = [])) then "rejected" else "accepted".

Definition validation_json (proposal_digest : string) (run : SymbolicSearchRun) (a : assessment) : json := JObj
  [("proposal_digest", JStr proposal_digest);
   ("semantic_digest", Json.opt_str (as_semantic_digest a));
   ("status", JStr (candidate_status (as_violations a)));
   ("violations", Json.str_list (as_violations a));
   ("compiled", JObj (as_compiled a));
   ("constraints_digest", JStr (syr_constraints_digest run))].

Definition new_candidate (run : SymbolicSearchRun) (payload : SymbolicCandidateCreate) (proposal_digest : string)
    (a : assessment) (id : uuid) : SymbolicSearchCandidate :=
  mkSymbolicSearchCandidate id (syr_id run) (scc_candidate_key payload) (proposal_json payload) proposal_digest
    (as_semantic_digest a) (candidate_status (as_violations a)) (as_violations a) (as_compiled a)
    (digest (validation_json proposal_digest run a)) (scc_submitted_by payload) w_server_now.

(** the unique columns of two candidates that may not coincide *)
Definition candidate_clash (a b : SymbolicSearchCandidate) : bool :=
  bool_decide (syk_run_id a = syk_run_id b) && str_eqb (syk_candidate_key a) (syk_candidate_key b) ||
  str_eqb (syk_proposal_digest a) (syk_proposal_digest b) ||
  str_eqb (syk_validation_digest a) (syk_validation_digest b).

(** the counters of a run after a candidate of this status *)
Definition count_candidate (status : string) (r : SymbolicSearchRun) : SymbolicSearchRun :=
  let n := syr_candidate_count r + 1 in
  let r := r <| syr_candidate_count := n |> in
  let r := if str_eqb status "accepted" then r <| syr_accepted_count := syr_accepted_count r + 1 |> else r in
  if n =? syc_maximum_candidates (rcn_terms (syr_constraints r)) then r <| syr_status := "complete" |> else r.

Definition proposal_identity (run : SymbolicSearchRun) (payload : SymbolicCandidateCreate) : string :=
  digest (JObj [("run_constraints_digest", JStr (syr_constraints_digest run));
                ("proposal", JObj (proposal_json payload));
                ("claimed_output_digest", JStr (scc_output_digest payload))]).

Definition lock_run (run_id : uuid) : Sess SymbolicSearchRun :=
  run ← get_row search_runs run_id;
  match run with
  | None => search_conflict "An active symbolic-search run is required."
  | Some run => if negb (str_eqb (syr_status run) "active")
                then search_conflict "An active symbolic-search run is required." else mret run
  end.

(** the candidate is assessed, recorded and counted *)
Definition admit_candidate (run : SymbolicSearchRun) (prior : list SymbolicSearchCandidate)
    (payload : SymbolicCandidateCreate) : Sess uuid :=
  let constraints := rcn_terms (syr_constraints run) in
  let violations := violation (nondeterministic prior (proposal_json payload)) "nondeterministic_generator_output" in
  program ← get_row programs (syr_base_factor_program_id run);
  a ← lift (assessed violations (assess constraints program prior violations payload));
  id ← fresh_id;
  let record := new_candidate run payload (proposal_identity run payload) a id in
  clash ← select_one candidates (candidate_clash record);
  match clash with
  | Some _ => integrity_error
  | None =>
      _ ← insert_row candidates id record;
      _ ← alter_row search_runs (syr_id run) (count_candidate (syk_status record));
      mret id
  end.

Definition validate_candidate (run_id : uuid) (payload : SymbolicCandidateCreate) : Sess uuid :=
  run ← lock_run run_id;
  prior ← gets (fun d => sort_by (fun a b => syk_created_at a <=? syk_created_at b) (run_candidates d (syr_id run)));
  match List.find (fun c => str_eqb (syk_proposal_digest c) (proposal_identity run payload)) prior with
  | Some c => mret (syk_id c)
  | None =>
      if existsb (fun c => str_eqb (syk_candidate_key c) (scc_candidate_key payload)) prior
      then search_conflict "Candidate key already has different content."
      else if syc_maximum_candidates (rcn_terms (syr_constraints run)) <=? Z.of_nat (length prior) then
        _ ← alter_row search_runs run_id (fun r => r <| syr_status := "complete" |>);
        search_conflict "Symbolic-search candidate budget is exhausted."
      else admit_candidate run prior payload
  end.

Definition quarantine_run (run_id : uuid) (actor reason : string) : Sess unit :=
  run ← lock_run run_id;
  alter_row search_runs run_id (fun r => r <| syr_status := "quarantined" |> <| syr_closure :=
    [("actor", JStr actor); ("reason", JStr reason); ("candidate_count", JInt (syr_candidate_count run));
     ("accepted_count", JInt (syr_accepted_count run)); ("lineage_retained", JBool true);
     ("action_authority", JBool false)] |>).

(** ** Endpoints of [routes/symbolic_search.py] *)

Definition create_run (payload : SymbolicSearchCreate) : Sess uuid :=
  if negb (valid_constraints (ssc_constraints payload))
  then raise (PyException "ValidationError" "SymbolicConstraints")
  else catch_conflict "SymbolicSearchConflict"
         (id ← register_symbolic_search payload; _ ← commit; mret id).
Definition submit_candidate (run_id : uuid) (payload : SymbolicCandidateCreate) : Sess uuid :=
  catch_conflict "SymbolicSearchConflict" (id ← validate_candidate run_id payload; _ ← commit; mret id).
Definition quarantine (run_id : uuid) (actor reason : string) : Sess unit :=
  catch_conflict "SymbolicSearchConflict" (_ ← quarantine_run run_id actor reason; commit).
End runs.
