(* ===== verification/SearchTheorems.v ===== *)
(** * What symbolic search promises

    The contract of [services/symbolic_search.py]: which expressions count as the
    same, what an accepted candidate satisfies, and that a run stays within its
    budget. *)
From S2P Require Import Prelude Py Sha256 Models Store Logic GovernanceFacts Demo FactorLanguage FactorTheorems SymbolicSearch.

Open Scope Z_scope.

(** ** Documents *)
Fixpoint json_size (v : json) : nat :=
  match v with
  | JList l => S (sum_list (json_size <$> l))
  | JObj d => S (sum_list ((fun kv => json_size kv.2) <$> d))
  | _ => 1
  end.

(** the operator and the arguments of a node *)
Definition node_op (d : Json.dict) : json := default JNull (Json.get "op" d).
Definition node_args (d : Json.dict) : list json := with_args (fun l => l) [] d.

Lemma with_args_eq {A} (f : list json → A) d : with_args f (f []) d = f (node_args d).
Proof.
  induction d as [|[k x] d IH]; [done|]. unfold node_args in *. cbn -[String.eqb].
  destruct ("args" =? k)%string; [by destruct x|done].
Qed.

Lemma node_args_size d x : x ∈ node_args d → (json_size x < json_size (JObj d))%nat.
Proof.
  assert (Hsum : ∀ (l : list json) y, y ∈ l → (json_size y ≤ sum_list (json_size <$> l))%nat).
  { induction l as [|z l IH]; intros y; [by intros ?%elem_of_nil|]. intros [->|Hy]%elem_of_cons; cbn; [lia|]. apply IH in Hy. lia. }
  unfold node_args. induction d as [|[k v] d IH]; cbn -[String.eqb]; [by intros ?%elem_of_nil|].
  destruct ("args" =? k)%string.
  - destruct v; try (by intros ?%elem_of_nil). intros Hx%Hsum. cbn. lia.
  - intros Hx. specialize (IH Hx). cbn in IH. lia.
Qed.

Lemma normalize_node d :
  _normalize (JObj d) = JObj [("op", node_op d); ("args", JList
    (if commutative (node_op d) then sort_by digest_leb (_normalize <$> node_args d) else _normalize <$> node_args d))].
Proof.
  cbn [_normalize].
  assert (E : with_args (fun l => _normalize <$> l) [] d = _normalize <$> node_args d)
    by exact (with_args_eq (fun l => _normalize <$> l) d).
  by rewrite E.
Qed.

(** ** Expressions up to the order of commutative operands *)
Inductive commuted : json → json → Prop :=
| commuted_leaf v : Json.as_dict v = None → commuted v v
| commuted_node d d' args :
    node_op d = node_op d' → Forall2 commuted (node_args d) args →
    (if commutative (node_op d) then args ≡ₚ node_args d' else args = node_args d') →
    commuted (JObj d) (JObj d').

(** an operand of an expression, at any depth *)
Inductive operand_of (x : json) : json → Prop :=
| operand_arg d : x ∈ node_args d → operand_of x (JObj d)
| operand_below d y : y ∈ node_args d → operand_of x y → operand_of x (JObj d).

(** the record digest tells the operands of an expression apart, up to normal form *)
Definition digests_apart (v : json) : Prop :=
  ∀ x y, operand_of x v → operand_of y v → digest (_normalize x) = digest (_normalize y) → _normalize x = _normalize y.

Lemma digests_apart_arg d x : digests_apart (JObj d) → x ∈ node_args d → digests_apart x.
Proof. intros Hv Hx y z Hy Hz. by apply Hv; eapply operand_below. Qed.

Definition digest_le (a b : json) : Prop := digest_leb a b = true.

Lemma digest_leb_total a b : digest_leb a b = false → digest_leb b a = true.
Proof. unfold digest_leb. destruct (String.leb_total (digest a) (digest b)); congruence. Qed.

Lemma insert_digest_sorted x l : StronglySorted digest_le l → StronglySorted digest_le (insert_by digest_leb x l).
Proof.
  induction 1 as [|y l Hl IH Hy]; cbn; [by repeat constructor|]. destruct (digest_leb x y) eqn:Hxy.
  - constructor; [by constructor|]. constructor; [done|]. eapply Forall_impl; [exact Hy|]. intros z Hz.
    by eapply str_leb_trans.
  - constructor; [done|]. apply Forall_forall. intros z. rewrite insert_by_perm.
    intros [->|Hz]%elem_of_cons; [by apply digest_leb_total|]. by eapply Forall_forall in Hy.
Qed.

Lemma sort_digest_sorted l : StronglySorted digest_le (sort_by digest_leb l).
Proof. induction l as [|x l IH]; cbn; [constructor|by apply insert_digest_sorted]. Qed.

(** permuted lists have one sorted form when the digest tells their members apart *)
Lemma sort_digest_perm l l' :
  (∀ x y, x ∈ l → y ∈ l → digest x = digest y → x = y) → l ≡ₚ l' → sort_by digest_leb l = sort_by digest_leb l'.
Proof.
  intros Hinj Hp. apply (StronglySorted_unique_strong digest_le); [|apply sort_digest_sorted..|by rewrite !sort_by_perm].
  intros x y Hx Hy H1 H2. rewrite sort_by_perm in Hx. rewrite sort_by_perm, <- Hp in Hy.
  apply Hinj; [done..|]. by apply String.leb_antisym.
Qed.

Lemma normalize_commuted v : ∀ v', _normalize v = _normalize v' → commuted v v'.
Proof.
  induction (Nat.lt_wf_0_projected json_size v) as [v _ IH]. intros v' E.
  destruct v as [| | | | | |d]; try (destruct v'; try done; cbn in E; simplify_eq; by constructor).
  destruct v' as [| | | | | |d']; try done. rewrite !normalize_node in E. injection E as Hop Hargs.
  assert (Hstep : ∀ l, _normalize <$> node_args d = _normalize <$> l → Forall2 commuted (node_args d) l).
  { intros l El. assert (Hin : ∀ x, x ∈ node_args d → ∀ y, _normalize x = _normalize y → commuted x y).
    { intros x Hx. apply IH. by apply node_args_size. }
    revert l El. clear -Hin. induction (node_args d) as [|x xs IHx]; intros [|y l]; try done.
    intros [= E1 E2]. constructor; [apply Hin; [left|done]|]. apply IHx; [|done]. intros z Hz. apply Hin. by right. }
  rewrite <- Hop in Hargs. destruct (commutative (node_op d)) eqn:Hc.
  - assert (Hp : _normalize <$> node_args d ≡ₚ _normalize <$> node_args d').
    { by rewrite <- (sort_by_perm digest_leb), Hargs, sort_by_perm. }
    apply Permutation_map_inv in Hp as (l & El & Hp). apply commuted_node with l; [done|by apply Hstep|].
    rewrite Hc. done.
  - apply commuted_node with (node_args d'); [done|by apply Hstep|by rewrite Hc].
Qed.

Lemma commuted_normalize v : ∀ v', digests_apart v → commuted v v' → _normalize v = _normalize v'.
Proof.
  induction (Nat.lt_wf_0_projected json_size v) as [v _ IH]. intros v' Hd Hv.
  inversion Hv as [? Hleaf|d d' args Hop Hargs Hperm]; subst; [done|].
  assert (Hstep : _normalize <$> node_args d = _normalize <$> args).
  { assert (Hin : ∀ x, x ∈ node_args d → ∀ y, commuted x y → _normalize x = _normalize y).
    { intros x Hx y. apply IH; [by apply node_args_size|by eapply digests_apart_arg]. }
    clear -Hin Hargs. induction Hargs as [|x y xs ys Hxy _ IHx]; [done|]. cbn.
    rewrite (Hin x) with y; [|left|done]. by rewrite IHx by (intros z Hz; apply Hin; by right). }
  rewrite !normalize_node, <- Hop. destruct (commutative (node_op d)); [|by rewrite Hstep, Hperm].
  rewrite (sort_digest_perm (_normalize <$> node_args d) (_normalize <$> node_args d')); [done| |by rewrite Hstep, Hperm].
  intros ? ? (x & -> & Hx)%list_elem_of_fmap (y & -> & Hy)%list_elem_of_fmap. apply Hd; by apply operand_arg.
Qed.

(** C28. Two expressions with the same normal form are equal up to the order of the
    operands of sums, products, conjunctions and disjunctions, at any depth.
    Conversely, an expression keeps its normal form under every such reordering,
    as long as no two of its own operands with different normal forms share a
    record digest. *)
Theorem normalize_iff_commuted v v' :
  (_normalize v = _normalize v' → commuted v v') ∧
  (digests_apart v → commuted v v' → _normalize v = _normalize v').
Proof. split; [apply normalize_commuted|apply commuted_normalize]. Qed.

(** [a + b * c] and [c * b + a] *)
Definition demo_sum : json := op_json "add" [field_node "close" 1; op_json "multiply" [field_node "close" 2; op_json "constant" [JInt 3]]].
Definition demo_sum' : json := op_json "add" [op_json "multiply" [op_json "constant" [JInt 3]; field_node "close" 2]; field_node "close" 1].

(** the operands of an expression, listed *)
Fixpoint operands (fuel : nat) (v : json) : list json :=
  match fuel, v with
  | S n, JObj d => node_args d ++ mjoin (operands n <$> node_args d)
  | _, _ => []
  end.

Lemma operand_listed x v : operand_of x v → ∀ n, (json_size v ≤ n)%nat → x ∈ operands n v.
Proof.
  induction 1 as [d Hx|d y Hy _ IH]; intros [|n] Hn; [cbn in Hn; lia| |cbn in Hn; lia|]; cbn [operands]; apply elem_of_app; [by left|right].
  apply list_elem_of_join. exists (operands n y). split; [|by apply list_elem_of_fmap_2].
  apply IH. pose proof (node_args_size d y Hy). lia.
Qed.

Definition apart (l : list json) : bool :=
  forallb (fun x => forallb (fun y =>
    negb (str_eqb (digest (_normalize x)) (digest (_normalize y))) || bool_decide (_normalize x = _normalize y)) l) l.

Lemma apart_digests v : apart (operands (json_size v) v) = true → digests_apart v.
Proof.
  intros Ha x y Hx Hy E. pose proof (operand_listed _ _ Hx _ (le_n _)) as Lx. pose proof (operand_listed _ _ Hy _ (le_n _)) as Ly.
  unfold apart in Ha. rewrite forallb_forall in Ha. apply list_elem_of_In in Lx, Ly. specialize (Ha x Lx).
  rewrite forallb_forall in Ha. specialize (Ha y Ly). rewrite E, str_eqb_refl in Ha. by apply bool_decide_eq_true in Ha.
Qed.

Lemma normalize_iff_commuted_witness :
  commuted demo_sum demo_sum' ∧ _normalize demo_sum = _normalize demo_sum' ∧ demo_sum ≠ demo_sum'.
Proof.
  assert (Hc : commuted demo_sum demo_sum').
  { apply (normalize_iff_commuted demo_sum demo_sum'). vm_compute. reflexivity. }
  split; [exact Hc|]. split; [|discriminate].
  refine (proj2 (normalize_iff_commuted demo_sum demo_sum') _ Hc). apply apart_digests. vm_compute. reflexivity.
Defined.

(** ** Admission *)
Section admission.
Context `{World}.

Lemma set_difference_nil xs ys : set_difference xs ys = [] ↔ ∀ x, x ∈ xs → x ∈ ys.
Proof.
  unfold set_difference. split.
  - intros E x Hx. destruct (str_in x ys) eqn:Hy; [by apply str_in_spec|].
    assert (Hin : x ∈ sorted_set (List.filter (fun x => negb (str_in x ys)) xs)); [|by rewrite E in Hin; apply elem_of_nil in Hin].
    apply sorted_set_elem, list_elem_of_In, filter_In. split; [by apply list_elem_of_In|by rewrite Hy].
  - intros Hall. destruct (sorted_set _) as [|x l] eqn:E; [done|].
    assert (Hin : x ∈ sorted_set (List.filter (fun x => negb (str_in x ys)) xs)) by (rewrite E; left).
    apply sorted_set_elem, list_elem_of_In, filter_In in Hin as [Hx%list_elem_of_In Hn].
    by rewrite (proj2 (str_in_spec _ _) (Hall x Hx)) in Hn.
Qed.

(** the bounds a run declares *)
Definition within_bounds (c : SymbolicConstraints) (w : walked) : Prop :=
  wk_nodes w ≤ syc_maximum_nodes c ∧ wk_depth w ≤ syc_maximum_depth c ∧ wk_constants w ≤ syc_maximum_constants c ∧
  (∀ op, op ∈ wk_operators w → op ∈ syc_allowed_operators c) ∧
  (∀ f, f ∈ syc_required_fields c → f ∈ wk_fields w) ∧
  (syc_allow_parameters c = false → "parameter" ∉ wk_operators w).

Lemma violation_nil b v : violation b v = [] ↔ b = false.
Proof. by destruct b. Qed.

Lemma bound_violations_nil c w ok : bound_violations c w ok = [] ↔ ok = true ∧ within_bounds c w.
Proof.
  unfold bound_violations, within_bounds. rewrite !app_nil, !violation_nil, !negb_false_iff, !bool_decide_eq_true.
  rewrite !set_difference_nil, !Z.ltb_ge, andb_false_iff, negb_false_iff.
  assert (Hp : syc_allow_parameters c = true ∨ str_in "parameter" (wk_operators w) = false ↔
               (syc_allow_parameters c = false → "parameter" ∉ wk_operators w)).
  { rewrite <- (str_in_spec "parameter"). destruct (syc_allow_parameters c), (str_in "parameter" (wk_operators w)); naive_solver. }
  rewrite Hp. tauto.
Qed.

(** what the search demands of an expression it accepts *)
Record acceptable (run : SymbolicSearchRun) (source : FactorProgramSource) (prior : list SymbolicSearchCandidate)
    (payload : SymbolicCandidateCreate) (c : SymbolicSearchCandidate) : Prop := {
  acc_digest : digest (JObj (proposal_json payload)) = scc_output_digest payload;
  acc_generator : nondeterministic prior (proposal_json payload) = false;
  acc_expression : ∃ w e,
    _walk 1 (JObj (scc_expression payload)) = Ok w ∧ within_bounds (rcn_terms (syr_constraints run)) w ∧
    typed (fps_fields source)
      (if syc_allow_parameters (rcn_terms (syr_constraints run)) then fps_parameters source else [])
      (JObj (scc_expression payload)) e (scc_output_unit payload) ∧
    syk_compiled c = compiled_candidate e (scc_output_unit payload) w;
  acc_new : semantic_identity (JObj (scc_expression payload)) (scc_output_unit payload) ∉ known_digests source prior;
  acc_semantic : syk_semantic_digest c = Some (semantic_identity (JObj (scc_expression payload)) (scc_output_unit payload)) }.

Lemma assess_accepted constraints program prior violations payload a :
  assess constraints program prior violations payload = Ok a → as_violations a = [] →
  ∃ p w e, program = Some p ∧ violations = [] ∧ digest (JObj (proposal_json payload)) = scc_output_digest payload ∧
    _walk 1 (JObj (scc_expression payload)) = Ok w ∧ within_bounds constraints w ∧
    typed (fps_fields (fxp_source p)) (if syc_allow_parameters constraints then fps_parameters (fxp_source p) else [])
      (JObj (scc_expression payload)) e (scc_output_unit payload) ∧
    semantic_identity (JObj (scc_expression payload)) (scc_output_unit payload) ∉ known_digests (fxp_source p) prior ∧
    a = mkAssessment [] (Some (semantic_identity (JObj (scc_expression payload)) (scc_output_unit payload)))
          (compiled_candidate e (scc_output_unit payload) w).
Proof.
  unfold assess. intros E Hnil. apply outcome_Ok in E as (w & Hw & E). apply outcome_Ok in E as (src & Hsrc & E).
  destruct program as [p|]; [|done]. injection Hsrc as <-.
  destruct (bool_decide _) eqn:Hb in E; cbn [negb] in E; [|injection E as <-; cbn in Hnil; by rewrite Hnil in Hb].
  apply bool_decide_eq_true, app_nil in Hb as [-> Hb]. apply bound_violations_nil in Hb as [Hd%str_eqb_spec Hb].
  apply outcome_Ok in E as ([e u] & Hc & E). cbn [fst snd] in E.
  destruct (str_eqb u (scc_output_unit payload)) eqn:Hu; cbn [negb] in E; [|injection E as <-; done].
  apply str_eqb_spec in Hu as ->. destruct (str_in _ _) eqn:Hk in E; [injection E as <-; done|]. injection E as <-.
  apply compiles_typed in Hc as [Ht _]. exists p, w, e. split_and!; try done.
  intros Hin. by rewrite (proj2 (str_in_spec _ _) Hin) in Hk.
Qed.

Lemma assessed_accepted violations r a :
  assessed violations r = Ok a → as_violations a = [] → r = Ok a.
Proof.
  destruct r as [a'|[c d|class m]]; cbn -[str_in]; [done..|]. destruct (str_in _ _); [|done]. intros [= <-]. cbn.
  intros Hn. by apply app_nil in Hn as [_ ?].
Qed.

Lemma candidate_status_accepted l : candidate_status l = "accepted" → l = [].
Proof. unfold candidate_status. destruct (str_in _ _); [done|]. by case_bool_decide. Qed.

Definition by_created (a b : SymbolicSearchCandidate) : bool := syk_created_at a <=? syk_created_at b.
Definition prior_candidates (d : database) (run : SymbolicSearchRun) : list SymbolicSearchCandidate :=
  sort_by by_created (run_candidates d (syr_id run)).

(** what a successful submission did: nothing, for a proposal seen before, or it
    recorded and counted a new candidate *)
Definition submitted (run_id : uuid) (payload : SymbolicCandidateCreate) (d : database) (id : uuid) (d' : database) : Prop :=
  d' = d ∨ ∃ run c, search_runs d !! run_id = Some run ∧ syr_status run = "active" ∧
    Z.of_nat (length (prior_candidates d run)) < syc_maximum_candidates (rcn_terms (syr_constraints run)) ∧
    candidates d !! id = None ∧ candidates d' = <[id := c]> (candidates d) ∧ syk_run_id c = syr_id run ∧
    search_runs d' = alter (count_candidate (syk_status c)) (syr_id run) (search_runs d) ∧
    (syk_status c = "accepted" → ∃ p, programs d !! syr_base_factor_program_id run = Some p ∧
       acceptable run (fxp_source p) (prior_candidates d run) payload c).

Lemma wp_lock_run I run_id Q s :
  I (saved s) →
  (∀ run, search_runs (db s) !! run_id = Some run → syr_status run = "active" → Q run s) →
  wp I (lock_run run_id) Q s.
Proof.
  intros HI HQ. unfold lock_run. apply wp_bind, wp_get_row. destruct (search_runs (db s) !! run_id) as [run|] eqn:Hr; [|done].
  apply wp_if; intros Hs; [done|]. apply negb_false_iff, str_eqb_spec in Hs. apply wp_ret. by apply HQ.
Qed.

Lemma wp_admit I run prior payload s (Q : uuid → session → Prop) :
  I (saved s) →
  (∀ id c s', saved s' = saved s → candidates (db s) !! id = None →
     candidates (db s') = <[id := c]> (candidates (db s)) → syk_run_id c = syr_id run →
     search_runs (db s') = alter (count_candidate (syk_status c)) (syr_id run) (search_runs (db s)) →
     (syk_status c = "accepted" → ∃ p, programs (db s) !! syr_base_factor_program_id run = Some p ∧
        acceptable run (fxp_source p) prior payload c) → Q id s') →
  wp I (admit_candidate run prior payload) Q s.
Proof.
  intros HI HQ. unfold admit_candidate. cbv zeta. apply wp_bind, wp_get_row. set (program := programs (db s) !! _) in *.
  destruct (assessed _ _) as [a|e] eqn:Ha; [|done]. apply wp_bind. unfold lift, wp at 1. cbv beta iota.
  apply wp_bind. eapply (wp_frame (fun d => (candidates d, search_runs d))); [frame|done|]. intros id s1 H1 E1.
  injection E1 as Ec Er. unfold select_one. apply wp_bind, wp_gets. destruct (head _); [by rewrite <- H1 in HI|].
  apply wp_bind, wp_insert; [by rewrite H1|]. intros Hnone. apply wp_bind, wp_alter, wp_ret. rewrite Ec in Hnone.
  eapply HQ; [exact H1|exact Hnone|cbn; by rewrite Ec|done|cbn; by rewrite Er|].
  intros Hst. cbn in Hst. apply candidate_status_accepted in Hst. apply assessed_accepted in Ha; [|done].
  destruct (assess_accepted _ _ _ _ _ _ Ha Hst) as (p & w & e & Hp & Hv & Hd & Hw & Hb & Ht & Hk & ->).
  exists p. split; [done|]. constructor; try done.
  - apply violation_nil in Hv. done.
  - exists w, e. by split_and!.
Qed.

Lemma wp_validate I run_id payload s :
  I (saved s) →
  wp I (validate_candidate run_id payload) (fun id s' => saved s' = saved s ∧ submitted run_id payload (db s) id (db s')) s.
Proof.
  intros HI. unfold validate_candidate. apply wp_bind, wp_lock_run; [done|]. intros run Hr Hact.
  apply wp_bind, wp_gets. fold by_created. fold (prior_candidates (db s) run).
  destruct (List.find _ _) as [c|]; [apply wp_ret; split; [done|by left]|].
  apply wp_if; intros _; [done|]. apply wp_if; intros Hmax; [by apply wp_bind, wp_alter|]. apply Z.leb_gt in Hmax.
  apply wp_admit; [done|]. intros id c s' Hs Hn Hc Hid Hruns Hacc. split; [done|]. right. exists run, c. by split_and!.
Qed.

Lemma wp_catch_conflict I {A} class (m : Sess A) Q s : wp I m Q s → wp I (catch_conflict class m) Q s.
Proof.
  unfold wp, catch_conflict. destruct (m s) as [[a|[c d|c d]] s'] eqn:E; [done..|]. by destruct (c =? class)%string.
Qed.

Lemma wp_submit I run_id payload s :
  I (saved s) →
  wp I (submit_candidate run_id payload) (fun id s' => submitted run_id payload (db s) id (saved s')) s.
Proof.
  intros HI. apply wp_catch_conflict, wp_bind. eapply wp_mono; [by apply wp_validate|]. intros id s' [_ Hsub].
  apply wp_bind, wp_commit, wp_ret. done.
Qed.
End admission.

(** A candidate that is accepted lies within the bounds of its run, comes from
    a generator that returned what it claims and never anything else for the same
    state, compiles with the declared unit against the fields of the base program
    (and its parameters if the run allows them), and is new: it equals no factor
    of the program up to commutative operands, unless two of its operands share a
    digest, and no candidate accepted before by digest. *)
Theorem accepted_candidate_is_admissible `{World} run_id payload s id s' c :
  submit_candidate run_id payload s = (Ok id, s') → candidates (db s) !! id = None →
  candidates (saved s') !! id = Some c → syk_status c = "accepted" →
  ∃ run p, search_runs (db s) !! run_id = Some run ∧ syr_status run = "active" ∧
    programs (db s) !! syr_base_factor_program_id run = Some p ∧
    acceptable run (fxp_source p) (prior_candidates (db s) run) payload c ∧
    ∀ f, f ∈ fps_factors (fxp_source p) → fdf_output_unit f.2 = scc_output_unit payload →
      commuted (JObj (scc_expression payload)) (JObj (fdf_expression f.2)) → ¬ digests_apart (JObj (scc_expression payload)).
Proof.
  intros E Hnew Hc Hst. pose proof (wp_run _ _ _ _ _ _ (wp_submit (fun _ => True) run_id payload s I) E) as Hsub.
  destruct Hsub as [Hd|(run & c' & Hrun & Hact & _ & _ & Ecs & _ & _ & Hacc)]; [congruence|].
  rewrite Ecs, lookup_insert_eq in Hc. injection Hc as ->. destruct (Hacc Hst) as (p & Hp & Hok).
  exists run, p. split_and!; try done. intros f Hf Hu Hcm Hap.
  pose proof (commuted_normalize _ _ Hap Hcm) as En. destruct (acc_new _ _ _ _ _ Hok).
  unfold known_digests. apply elem_of_app. left. apply list_elem_of_fmap. exists f. split; [|done].
  unfold semantic_identity. by rewrite En, Hu.
Qed.

(** ** Counting *)
Section counting.
Context `{World}.

Definition count_if {A} (p : A → bool) (l : list A) : Z := Z.of_nat (length (List.filter p l)).

Lemma count_if_cons {A} (p : A → bool) x l : count_if p (x :: l) = (if p x then 1 else 0) + count_if p l.
Proof. unfold count_if. cbn. destruct (p x); cbn; lia. Qed.

Lemma count_if_perm {A} (p : A → bool) l l' : l ≡ₚ l' → count_if p l = count_if p l'.
Proof. induction 1; rewrite ?count_if_cons; lia. Qed.

Lemma count_if_insert {R} (p : R → bool) (m : gmap uuid R) id r :
  m !! id = None → count_if p (table_rows (<[id := r]> m)) = (if p r then 1 else 0) + count_if p (table_rows m).
Proof.
  intros Hn. rewrite <- count_if_cons. apply count_if_perm. unfold table_rows. by rewrite map_to_list_insert.
Qed.

Definition of_run (run_id : uuid) (c : SymbolicSearchCandidate) : bool := bool_decide (syk_run_id c = run_id).
Definition accepted_of (run_id : uuid) (c : SymbolicSearchCandidate) : bool :=
  of_run run_id c && str_eqb (syk_status c) "accepted".

Definition max_candidates (r : SymbolicSearchRun) : Z := syc_maximum_candidates (rcn_terms (syr_constraints r)).

(** the counters of every run are exact and within its budget, and a run still
    active has budget left *)
Definition counted (d : database) (id : uuid) (r : SymbolicSearchRun) : Prop :=
  syr_id r = id ∧ syr_candidate_count r = count_if (of_run id) (table_rows (candidates d)) ∧
  syr_accepted_count r = count_if (accepted_of id) (table_rows (candidates d)) ∧
  syr_candidate_count r ≤ max_candidates r ∧ (syr_status r = "active" → syr_candidate_count r < max_candidates r).

Record search_ok (d : database) : Prop := {
  so_run id r : search_runs d !! id = Some r → counted d id r;
  so_candidate id c : candidates d !! id = Some c → is_Some (search_runs d !! syk_run_id c) }.

Lemma search_ok_frame d d' :
  candidates d' = candidates d → search_runs d' = search_runs d → search_ok d → search_ok d'.
Proof.
  intros Ec Er Hd. split; [intros id r; rewrite Er; intros Hr; unfold counted; rewrite Ec; by apply (so_run _ Hd)|].
  intros id c. rewrite Ec, Er. apply (so_candidate _ Hd).
Qed.

Lemma count_candidate_counts status r :
  syr_id (count_candidate status r) = syr_id r ∧ syr_constraints (count_candidate status r) = syr_constraints r ∧
  syr_candidate_count (count_candidate status r) = syr_candidate_count r + 1 ∧
  syr_accepted_count (count_candidate status r) = syr_accepted_count r + (if str_eqb status "accepted" then 1 else 0) ∧
  (syr_status (count_candidate status r) = "active" →
     syr_status r = "active" ∧ syr_candidate_count r + 1 ≠ max_candidates r).
Proof.
  unfold count_candidate, max_candidates. destruct (str_eqb status "accepted"); cbn.
  all: match goal with |- context [?a =? ?b] => destruct (Z.eqb_spec a b) end; cbn; split_and!; try done; lia.
Qed.

Lemma submitted_ok run_id payload d id d' :
  search_ok d → submitted run_id payload d id d' → search_ok d'.
Proof.
  intros Hd [->|(run & c & Hrun & Hact & Hlen & Hnone & Ec & Eid & Er & _)]; [done|].
  destruct (so_run _ Hd _ _ Hrun) as (Hid & Hcount & Hacc & Hle & Hlt). rewrite Hid in Eid, Er.
  split.
  - intros rid r. rewrite Er. unfold counted. rewrite Ec, !count_if_insert by done.
    destruct (decide (rid = run_id)) as [->|Hne].
    + rewrite lookup_alter_eq, Hrun. intros [= <-]. specialize (Hlt Hact).
      destruct (count_candidate_counts (syk_status c) run) as (E1 & E2 & E3 & E4 & E5).
      unfold max_candidates in *. rewrite E1, E2, E3, E4. unfold accepted_of, of_run in *. rewrite (bool_decide_eq_true_2 _ Eid).
      cbn [andb]. split_and!; [done|lia|lia|lia|]. intros Ha. destruct (E5 Ha) as [_ ?]. lia.
    + rewrite (lookup_alter_ne _ _ run_id) by done. intros Hr. destruct (so_run _ Hd _ _ Hr) as (H1 & H2 & H3 & H4 & H5).
      unfold accepted_of, of_run in *. rewrite (bool_decide_eq_false_2 (syk_run_id c = rid)) by congruence. cbn. by split_and!.
  - intros cid c'. rewrite Ec, Er. intros [[<- <-]|[_ Hc]]%lookup_insert_Some.
    + rewrite Eid, lookup_alter_eq, Hrun. by eexists.
    + apply lookup_alter_is_Some. by eapply so_candidate.
Qed.

Lemma count_if_none {A} (p : A → bool) l : (∀ x, x ∈ l → p x = false) → count_if p l = 0.
Proof.
  induction l as [|x l IH]; [done|]. intros Hall. rewrite count_if_cons, (Hall x), IH; [done| |left].
  intros y Hy. apply Hall. by right.
Qed.

Lemma insert_run_ok d d' id r :
  search_ok d → search_runs d !! id = None → candidates d' = candidates d →
  search_runs d' = <[id := r]> (search_runs d) → syr_id r = id → syr_candidate_count r = 0 →
  syr_accepted_count r = 0 → 1 ≤ max_candidates r → search_ok d'.
Proof.
  intros Hd Hn Ec Er Hid H0 H1 Hmax.
  assert (Hno : ∀ c, c ∈ table_rows (candidates d) → of_run id c = false).
  { intros c Hc. unfold table_rows in Hc. apply list_elem_of_fmap in Hc as ([cid c'] & -> & Hc%elem_of_map_to_list).
    apply (so_candidate _ Hd) in Hc. apply bool_decide_eq_false. cbn. intros Eid. rewrite Eid, Hn in Hc. by destruct Hc. }
  split.
  - intros rid r'. rewrite Er. unfold counted. rewrite Ec. intros [[<- <-]|[_ Hr]]%lookup_insert_Some; [|by apply (so_run _ Hd)].
    rewrite !count_if_none; [|intros c Hc; unfold accepted_of; by rewrite Hno|done]. split_and!; try done; lia.
  - intros cid c. rewrite Ec, Er. intros Hc%(so_candidate _ Hd). by apply lookup_insert_is_Some'; right.
Qed.

Lemma wp_create_run payload s :
  search_ok (saved s) → search_ok (db s) → wp search_ok (create_run payload) (fun _ s' => search_ok (saved s')) s.
Proof.
  intros Hs Hd. unfold create_run. apply wp_if; intros Hv; [done|]. apply negb_false_iff in Hv.
  assert (Hmax : 1 ≤ syc_maximum_candidates (ssc_constraints payload)).
  { unfold valid_constraints in Hv. rewrite !andb_true_iff in Hv. destruct Hv as [[[[[[[[[Hv _] _] _] _] _] _] _] _] _].
    unfold within in Hv. apply andb_true_iff in Hv as [?%Z.leb_le _]. done. }
  apply wp_catch_conflict, wp_bind. eapply wp_mono with (Q := fun _ s' => search_ok (db s')).
  2:{ intros id s' Hs'. by apply wp_bind, wp_commit, wp_ret. }
  unfold register_symbolic_search. apply wp_bind, wp_get_row, wp_bind, wp_get_row.
  destruct (programs (db s) !! _) as [program|]; [|done]. apply wp_if; intros _; [done|].
  destruct (prompt_policies (db s) !! _) as [policy|]; [|done]. apply wp_if; intros _; [done|].
  apply wp_if; intros _; [done|]. apply wp_if; intros _; [done|]. unfold select_one. apply wp_bind, wp_gets.
  destruct (head _) as [r|]; [by apply wp_if; intros _|]. apply wp_bind.
  eapply (wp_frame (fun d => (candidates d, search_runs d))); [frame|done|]. intros id s1 H1 E1. injection E1 as Ec Er.
  apply wp_bind, wp_insert; [by rewrite H1|]. intros Hnone. apply wp_ret. rewrite Er in Hnone.
  eapply insert_run_ok; [exact Hd|exact Hnone|exact Ec|cbn; by rewrite Er|done..].
Qed.

Lemma wp_quarantine run_id actor reason s :
  search_ok (saved s) → search_ok (db s) → wp search_ok (quarantine run_id actor reason) (fun _ s' => search_ok (saved s')) s.
Proof.
  intros Hs Hd. apply wp_catch_conflict, wp_bind. unfold quarantine_run. apply wp_bind, wp_lock_run; [done|].
  intros run Hrun _. apply wp_alter, wp_commit. cbn. split.
  - intros id r. cbn. destruct (decide (id = run_id)) as [->|Hne].
    + rewrite lookup_alter_eq, Hrun. intros [= <-]. destruct (so_run _ Hd _ _ Hrun) as (H1 & H2 & H3 & H4 & _). by split_and!.
    + rewrite (lookup_alter_ne _ _ run_id) by done. apply (so_run _ Hd).
  - intros id c. cbn. intros Hc%(so_candidate _ Hd). by apply lookup_alter_is_Some.
Qed.

(** the requests of the search *)
Inductive search_call :=
| CreateRun (payload : SymbolicSearchCreate)
| SubmitCandidate (run_id : uuid) (payload : SymbolicCandidateCreate)
| Quarantine (run_id : uuid) (actor reason : string).

(** what a request leaves committed *)
Definition after (c : search_call) (d : database) : database :=
  let s := open_session d in
  match c with
  | CreateRun p => saved (create_run p s).2
  | SubmitCandidate r p => saved (submit_candidate r p s).2
  | Quarantine r a m => saved (quarantine r a m s).2
  end.

Lemma wp_saved {A} (m : Sess A) s : wp search_ok m (fun _ s' => search_ok (saved s')) s → search_ok (saved (m s).2).
Proof. unfold wp. by destruct (m s) as [[a|e] s']. Qed.

Lemma after_ok c d : search_ok d → search_ok (after c d).
Proof.
  intros Hd. destruct c; cbn [after]; apply wp_saved; [apply wp_create_run; exact Hd| |apply wp_quarantine; exact Hd].
  eapply wp_mono; [apply wp_submit; exact Hd|]. intros id s' Hsub. eapply submitted_ok; [exact Hd|exact Hsub].
Qed.
End counting.

(** each request at its own time *)
Definition after_all (calls : list (World * search_call)) (d : database) : database :=
  foldl (fun d c => @after c.1 c.2 d) d calls.

Lemma after_all_ok calls d : search_ok d → search_ok (after_all calls d).
Proof. revert d. induction calls as [|c calls IH]; intros d Hd; [done|]. by apply IH, after_ok. Qed.

(** C27. Whatever requests arrive in whatever order, the counters of a run are the
    numbers of its candidates and of its accepted candidates, a run never holds
    more candidates than it was declared for, and a run that is still active has
    room for another. *)
Theorem search_runs_stay_within_budget (calls : list (World * search_call)) d id r :
  search_ok d → search_runs (after_all calls d) !! id = Some r → counted (after_all calls d) id r.
Proof. intros Hd. by apply so_run, after_all_ok. Qed.

(** *** A run of four candidates over the lagged return *)
Definition demo_policy : PromptPolicyBundle :=
  mkPromptPolicyBundle 2 "bundle" "1.0.0" "Propose factors." "active" "v1" [] "template"
    [("output_authority", JStr "data_only")] [] [] [] [] [] "bundle-digest" "founder" 0 None None.
Definition demo_compiled : compiled_program :=
  match compile_program demo_program with Ok c => c | Err _ => mkCompiledProgram [] [] end.
Definition search_db : database :=
  empty_db <| programs := {[ 1%N := @new_program (at_time 1) demo_program demo_compiled 1 ]} |>
           <| prompt_policies := {[ 2%N := demo_policy ]} |> <| next_id := 10%N |>.

Definition demo_run : SymbolicSearchCreate :=
  mkSymbolicSearchCreate "run-1" 1 2
    (mkSymbolicConstraints 1 12 6 1 ["field"; "constant"; "add"; "divide"] ["close"] false) "generator".

(** [close / close + 1], with the digest the generator claims *)
Definition demo_expression : json :=
  op_json "add" [op_json "constant" [JInt 1]; op_json "divide" [field_node "close" 1; field_node "close" 2]].
Definition demo_candidate : SymbolicCandidateCreate :=
  let c digest := mkSymbolicCandidateCreate "candidate-1" (default [] (Json.as_dict demo_expression)) "dimensionless"
    (mkGeneratorIdentity "provider" "model" "1" 7 0) digest "researcher" in
  c (digest (JObj (proposal_json (c "")))).

Definition searching : database := @after (at_time 2) (CreateRun demo_run) search_db.

Lemma accepted_candidate_is_admissible_witness :
  ∃ s' c, @submit_candidate (at_time 3) 10 demo_candidate (open_session searching) = (Ok 11%N, s') ∧
    candidates (saved s') !! 11%N = Some c ∧ syk_status c = "accepted" ∧ nondeterministic [] (proposal_json demo_candidate) = false.
Proof.
  assert (E : ∃ s', @submit_candidate (at_time 3) 10 demo_candidate (open_session searching) = (Ok 11%N, s') ∧
    (syk_status <$> candidates (saved s') !! 11%N) = Some "accepted") by (eexists; vm_compute; split; reflexivity).
  destruct E as (s' & E & Est). destruct (candidates (saved s') !! 11%N) as [c|] eqn:Hc; [|discriminate Est].
  injection Est as Est.
  destruct (@accepted_candidate_is_admissible (at_time 3) 10 demo_candidate (open_session searching) 11 s' c E)
    as (run & p & _ & _ & _ & Hok & _); [vm_compute; reflexivity|exact Hc|exact Est|].
  exists s', c. split; [exact E|]. split; [exact Hc|]. split; [exact Est|]. vm_compute. reflexivity.
Defined.

Definition search_calls : list (World * search_call) :=
  [(at_time 2, CreateRun demo_run); (at_time 3, SubmitCandidate 10 demo_candidate)].

Lemma search_runs_stay_within_budget_witness :
  ∃ r, search_runs (after_all search_calls search_db) !! 10%N = Some r ∧ syr_candidate_count r = 1 ∧
    syr_status r = "complete" ∧ counted (after_all search_calls search_db) 10 r.
Proof.
  assert (Hr : ∃ r, search_runs (after_all search_calls search_db) !! 10%N = Some r ∧ syr_candidate_count r = 1 ∧
    syr_status r = "complete") by (eexists; vm_compute; repeat split; reflexivity).
  destruct Hr as (r & Hr & Hn & Hst). exists r. split; [exact Hr|]. split; [exact Hn|]. split; [exact Hst|].
  apply (search_runs_stay_within_budget search_calls search_db); [|exact Hr].
  split; intros id x Hx; cbn in Hx; discriminate Hx.
Defined.
