(* ===== verification/WorkloadIdentity.v ===== *)
(** * Workload identities

    [services/workload_identity.py], the authenticated agent boundary
    [get_current_agent] of [core/security.py], and the endpoints of
    [routes/workload_identities.py]: scoped identities, credential rotation,
    secret policies, emergency grants and authorization receipts. *)
From Stdlib Require Import Ascii.
From S2P Require Import Prelude Py Sha256 Models Store Logic Security.

Open Scope Z_scope.

Definition POLICY_VERSION : string := "workload-identity-v1.0.0".
Definition EMERGENCY_SCOPES : list string :=
  ["health:read"; "task:halt"; "credential:revoke"; "workload:isolate"].

(** [sorted(xs)] *)
Definition sorted_strings (xs : list string) : list string := sort_by String.leb xs.

(** ** Scopes *)
Definition scope_when (b : bool) (scopes : list string) : list string := if b then scopes else [].

Definition scopes_for_package (m : RolePackageManifest) : list string :=
  let task_types := pm_task_types m in
  ["identity:read"; "heartbeat:write"; "control:read"; "package:read"] ++
  scope_when (negb (bool_decide (task_types = []))) ["task:lease"; "task:execute"] ++
  scope_when (existsb (Str.startswith "infrastructure_") task_types) ["infrastructure:broker"] ++
  scope_when (str_in "founder_request" task_types) ["proposal:write"] ++
  scope_when (existsb (Str.startswith "research_") task_types) ["research:write"] ++
  scope_when (str_in "fleet_observation" task_types) ["fleet:write"] ++
  scope_when (str_in "operational_memory" task_types) ["notes:write"].

Definition required_scope (method path : string) : string :=
  if Str.endswith "/heartbeat" path && Str.startswith "/v1/agent/tasks/" path then "task:execute"
  else if str_eqb path "/v1/agent/heartbeat" then "heartbeat:write"
  else if str_in path ["/v1/agent/me"; "/v1/agent/control"] then
    if Str.endswith "/me" path then "identity:read" else "control:read"
  else if Str.startswith "/v1/agent/tasks" path then
    if Str.endswith "/lease" path then "task:lease"
    else if Str.endswith "/broker-ticket" path then "infrastructure:broker"
    else "task:execute"
  else if Str.startswith "/v1/agent/packages" path then "package:read"
  else if Str.startswith "/v1/agent/proposals" path then "proposal:write"
  else if Str.startswith "/v1/agent/research" path then "research:write"
  else if Str.startswith "/v1/agent/fleet" path then "fleet:write"
  else if Str.startswith "/v1/agent/operational-notes" path then "notes:write"
  else if Str.startswith "/v1/agent/governance" path then "governance:read"
  else "identity:read".

(** the validator of [WorkloadIdentityCreate] *)
Definition valid_scopes (scopes : list string) : bool :=
  negb (bool_decide (scopes = [])) && bool_decide (NoDup scopes) && negb (existsb (Str.contains "*") scopes).

Section ops.
Context `{World}.

(** ** The enforcement switch and the event log *)
Definition default_control : WorkloadIdentityControl :=
  let policy := JObj [("schema_version", JStr POLICY_VERSION); ("wildcards", JBool false);
                      ("secret_values_persisted", JBool false)] in
  mkWorkloadIdentityControl false POLICY_VERSION (digest policy) None None w_server_now.

Definition control : Sess WorkloadIdentityControl :=
  row ← gets identity_control;
  match row with
  | Some row => mret row
  | None => _ ← update (fun d => d <| identity_control := Some default_control |>); mret default_control
  end.

Definition identity_event_body (identity_id : uuid) (sequence : Z) (event_type actor : string)
    (payload : Json.dict) (prior : option string) : json := JObj
  [("identity_id", JStr (uuid_str identity_id)); ("sequence", JInt sequence); ("event_type", JStr event_type);
   ("actor", JStr actor); ("payload", JObj payload); ("prior_event_digest", Json.opt_str prior)].

Definition append_event (identity_id : uuid) (event_type actor : string) (payload : Json.dict) : Sess unit :=
  previous ← gets (fun d => max_by we_sequence
    (List.filter (fun e => bool_decide (we_identity_id e = identity_id)) (identity_events d)));
  let sequence := match previous with None => 1 | Some e => we_sequence e + 1 end in
  let prior := we_event_digest <$> previous in
  append_log identity_events
    (mkWorkloadIdentityEvent identity_id sequence event_type actor payload prior
       (digest (identity_event_body identity_id sequence event_type actor payload prior)) w_server_now).

(** ** Creating an identity *)
Definition active_deployment (agent_id package_id : uuid) (x : PackageDeployment) : bool :=
  bool_decide (pd_agent_id x = agent_id) && bool_decide (pd_package_id x = package_id) && pd_is_active x.

Definition live_grant (agent_id charter_id package_id : uuid) (now : datetime) (g : AgentCapabilityGrant) : bool :=
  bool_decide (gr_agent_id g = agent_id) && bool_decide (gr_charter_id g = charter_id) &&
  bool_decide (gr_package_id g = package_id) && str_eqb (gr_status g) "active" && (now <? gr_expires_at g).

Definition identity_manifest (payload : WorkloadIdentityCreate) (agent : Agent) (charter : AgentCharter)
    (package : RolePackage) : json := JObj
  [("schema_version", JStr POLICY_VERSION); ("agent_id", JStr (uuid_str (ag_id agent)));
   ("charter_digest", JStr (ch_manifest_digest charter)); ("package_digest", JStr (pk_manifest_digest package));
   ("machine", JStr (ag_machine agent)); ("audience", JStr (wic_audience payload));
   ("scopes", Json.str_list (sorted_strings (wic_scopes payload)));
   ("accountable_owner", JStr (wic_accountable_owner payload));
   ("expires_at", JStr (isoformat (wic_expires_at payload)))].

Definition new_identity (payload : WorkloadIdentityCreate) (agent : Agent) (charter : AgentCharter)
    (package : RolePackage) (now : datetime) (id : uuid) : WorkloadIdentity :=
  let manifest := identity_manifest payload agent charter package in
  mkWorkloadIdentity id (ag_id agent) (ch_id charter) (pk_id package) (wic_version payload) (ag_machine agent)
    (wic_audience payload) (sorted_strings (wic_scopes payload)) (wic_accountable_owner payload) manifest
    (digest manifest) "active" now (wic_expires_at payload) (wic_created_by payload) w_server_now None None None.

Definition identity_clash (a b : WorkloadIdentity) : bool :=
  bool_decide (wi_agent_id a = wi_agent_id b) && str_eqb (wi_version a) (wi_version b) ||
  str_eqb (wi_manifest_digest a) (wi_manifest_digest b).

(** the agent, charter and package an identity binds, when all are in place *)
Definition bound_authority (agent : option Agent) (charter : option AgentCharter) (package : option RolePackage)
    (deployment : option PackageDeployment) : option (Agent * AgentCharter * RolePackage) :=
  match agent, charter, package, deployment with
  | Some a, Some c, Some p, Some _ =>
      if ag_is_enabled a && bool_decide (ch_agent_id c = ag_id a) && str_eqb (ch_status c) "active"
      then Some (a, c, p) else None
  | _, _, _, _ => None
  end.

Definition create_identity (payload : WorkloadIdentityCreate) : Sess uuid :=
  now ← utc_now;
  agent ← get_row agents (wic_agent_id payload);
  charter ← get_row charters (wic_charter_id payload);
  package ← get_row packages (wic_package_id payload);
  deployment ← select_one deployments (active_deployment (wic_agent_id payload) (wic_package_id payload));
  match bound_authority agent charter package deployment with
  | None => http 409 "Identity requires an enabled agent with the exact active charter and package deployment."
  | Some (agent, charter, package) =>
      live ← select_rows grants (live_grant (ag_id agent) (ch_id charter) (pk_id package) now);
      if bool_decide (live = []) then http 409 "Identity requires active exact-package capability grants."
      else if negb (str_subset (wic_scopes payload) (scopes_for_package (pk_manifest package))) then
        http 422 "Requested workload scope exceeds the active package authority."
      else
        id ← fresh_id;
        let identity := new_identity payload agent charter package now id in
        clash ← select_one identities (identity_clash identity);
        match clash with
        | Some _ => integrity_error
        | None =>
            _ ← insert_row identities id identity;
            _ ← append_event id "created" (wic_created_by payload)
                  [("manifest_digest", JStr (wi_manifest_digest identity))];
            mret id
        end
  end.

(** ** Checking a request *)
Definition current_identity (now : datetime) (i : WorkloadIdentity) : bool :=
  str_eqb (wi_status i) "active" && (wi_valid_from i <=? now) && (now <? wi_expires_at i).

Definition live_emergency (identity_id : uuid) (now : datetime) (g : WorkloadEmergencyGrant) : bool :=
  bool_decide (wg_identity_id g = identity_id) && str_eqb (wg_status g) "active" &&
  (wg_starts_at g <=? now) && (now <? wg_expires_at g).

(** the charter and the package are still in force for the agent *)
Definition snapshot_active (agent : Agent) (charter : option AgentCharter) (package : option RolePackage)
    (deployment : option PackageDeployment) : option (AgentCharter * RolePackage) :=
  match charter, package, deployment with
  | Some c, Some p, Some _ =>
      if str_eqb (ch_status c) "active" && bool_decide (ch_agent_id c = ag_id agent) then Some (c, p) else None
  | _, _, _ => None
  end.

(** the checks made once enforcement is on *)
Definition check_identity (agent : Agent) (credential : AgentCredential) (method path : string)
    (now : datetime) : Sess WorkloadIdentity :=
  identity ← gets (fun d => cr_workload_identity_id credential ≫= fun id => identities d !! id);
  match identity with
  | None => http 403 "Active workload identity required."
  | Some identity =>
    if negb (current_identity now identity) then http 403 "Active workload identity required."
    else if negb (bool_decide (wi_agent_id identity = ag_id agent)) ||
            negb (str_eqb (wi_machine identity) (ag_machine agent)) then
      http 403 "Workload identity subject or machine mismatch."
    else
      charter ← get_row charters (wi_charter_id identity);
      package ← get_row packages (wi_package_id identity);
      deployment ← select_one deployments (active_deployment (ag_id agent) (wi_package_id identity));
      match snapshot_active agent charter package deployment with
      | None => http 403 "Workload identity authority snapshot is no longer active."
      | Some (charter, package) =>
          live ← select_rows grants (fun g =>
            live_grant (ag_id agent) (ch_id charter) (pk_id package) now g &&
            str_eqb (gr_machine g) (ag_machine agent));
          if negb (str_subset (pm_required_capabilities (pk_manifest package)) (gr_capability <$> live)) then
            http 403 "Workload identity capability grants are incomplete or expired."
          else
            let scope := required_scope method path in
            emergency ← select_rows emergency_grants (live_emergency (wi_id identity) now);
            if negb (str_in scope (wi_scopes identity ++ (emergency ≫= wg_scopes))) then
              http 403 ("Workload scope denied: " +:+ scope +:+ ".")
            else mret identity
      end
  end.

Definition validate_identity (agent : Agent) (credential : AgentCredential) (method path : string)
    (now : datetime) : Sess (option WorkloadIdentity) :=
  state ← control;
  if negb (wc_enforcement_active state) then mret None
  else identity ← check_identity agent credential method path now; mret (Some identity).

(** ** [core/security.py]: the authenticated agent *)
Definition unauthorized {A} (detail : string) : Sess A := http 401 detail.

Definition get_current_agent (method path : string) (bearer : option string) : Sess Agent :=
  match bearer with
  | None => unauthorized "Agent credential required."
  | Some token =>
    match extract_agent_token_prefix token with
    | None => unauthorized "Invalid agent credential."
    | Some prefix =>
      credential ← select_one credentials (fun c => str_eqb (cr_token_prefix c) prefix);
      match credential with
      | None => unauthorized "Invalid agent credential."
      | Some credential =>
        now ← utc_now;
        if match cr_revoked_at credential with Some _ => true | None => false end then
          unauthorized "Agent credential has been revoked."
        else if match cr_expires_at credential with Some e => e <=? now | None => false end then
          unauthorized "Agent credential has expired."
        else if str_eqb (cr_rotation_state credential) "overlap" &&
                match cr_overlap_expires_at credential with Some e => e <=? now | None => false end then
          unauthorized "Agent credential rotation overlap has expired."
        else if negb (str_eqb (digest_agent_token token) (cr_token_digest credential)) then
          unauthorized "Invalid agent credential."
        else
          agent ← get_row agents (cr_agent_id credential);
          match agent with
          | None => http 403 "Agent is disabled."
          | Some agent =>
              if negb (ag_is_enabled agent) then http 403 "Agent is disabled."
              else
                _ ← validate_identity agent credential method path now;
                _ ← alter_row credentials (cr_id credential) (fun c => c <| cr_last_used_at := Some now |>);
                _ ← commit;
                mret agent
          end
      end
    end
  end.

(** ** Binding and enforcement *)
Definition bind_credentials (identity : WorkloadIdentity) (actor : string) : Sess Z :=
  live ← select_rows credentials (fun c =>
    bool_decide (cr_agent_id c = wi_agent_id identity) && bool_decide (cr_revoked_at c = None));
  let changed := List.filter (fun c =>
    negb (bool_decide (cr_workload_identity_id c = Some (wi_id identity)))) live in
  _ ← for_each changed (fun c =>
        alter_row credentials (cr_id c) (fun c => c <| cr_workload_identity_id := Some (wi_id identity) |>));
  _ ← when (negb (bool_decide (changed = [])))
        (append_event (wi_id identity) "credentials_bound" actor
           [("credential_prefixes", Json.str_list (sorted_strings (cr_token_prefix <$> changed)))]);
  mret (Z.of_nat (length changed)).

(** a live credential of an enabled agent with an active deployment *)
Definition deployed_credential (d : database) (c : AgentCredential) : bool :=
  match agents d !! cr_agent_id c with Some a => ag_is_enabled a | None => false end &&
  existsb (fun x => bool_decide (pd_agent_id x = cr_agent_id c) && pd_is_active x) (table_rows (deployments d)) &&
  bool_decide (cr_revoked_at c = None).

Definition activate_enforcement (actor : string) : Sess Z :=
  now ← utc_now;
  deployed ← gets (fun d => List.filter (deployed_credential d) (table_rows (credentials d)));
  let uncovered := List.filter (fun c => bool_decide (cr_workload_identity_id c = None)) deployed in
  if negb (bool_decide (uncovered = [])) then
    http 409 ("Cannot activate: " +:+ pretty (Z.of_nat (length uncovered)) +:+
              " active credentials lack workload identity.")
  else
    state ← control;
    _ ← update (fun d => d <| identity_control := Some (state
          <| wc_enforcement_active := true |> <| wc_activated_by := Some actor |>
          <| wc_activated_at := Some now |>) |>);
    mret (Z.of_nat (length deployed)).

(** ** Authorization receipts *)

(** [str(dt.timestamp())]: the exact decimal, of a time after 1970 *)
Fixpoint trim_zeros (digits : list ascii) : list ascii :=
  match digits with
  | c :: rest => if Ascii.eqb c "0" then trim_zeros rest else digits
  | [] => []
  end.
Definition timestamp_str (t : datetime) : string :=
  let fraction := trim_zeros (reverse (Str.chars (Str.pad 6 (t mod 1000000)))) in
  pretty (t / 1000000) +:+ "." +:+
  (if bool_decide (fraction = []) then "0" else Str.of_chars (reverse fraction)).

Definition safe_key (k : string) : bool :=
  negb (existsb (fun word => Str.contains word (Str.lower k)) ["secret"; "token"; "password"]).
Definition safe_context (context : Json.dict) : Json.dict := List.filter (fun kv => safe_key kv.1) context.

Definition authorize (payload : WorkloadAuthorizationRequest) : Sess bool :=
  identity ← get_row identities (war_identity_id payload);
  credential ← select_one credentials (fun c =>
    str_eqb (cr_token_prefix c) (war_credential_prefix payload) &&
    bool_decide (cr_workload_identity_id c = Some (war_identity_id payload)));
  match identity with
  | None => http 404 "Workload identity not found."
  | Some identity =>
      let allowed := match credential with Some _ => true | None => false end &&
        str_eqb (wi_status identity) "active" && str_in (war_required_scope payload) (wi_scopes identity) in
      let reason := if allowed then "scope-authorized" else "subject-scope-or-credential-mismatch" in
      let context := safe_context (war_context payload) in
      now ← utc_now;
      let body := JObj
        [("identity_id", JStr (uuid_str (war_identity_id payload)));
         ("credential_prefix", JStr (war_credential_prefix payload)); ("action", JStr (war_action payload));
         ("required_scope", JStr (war_required_scope payload)); ("allowed", JBool allowed);
         ("reason", JStr reason); ("context", JObj context); ("nonce", JStr (timestamp_str now))] in
      id ← fresh_id;
      (* unique receipt_digest *)
      clash ← gets (fun d => existsb (fun r => str_eqb (wr_receipt_digest r) (digest body)) (authorization_receipts d));
      if clash : bool then integrity_error
      else
        _ ← append_log authorization_receipts
              (mkWorkloadAuthorizationReceipt id (war_identity_id payload) (war_credential_prefix payload)
                 (war_action payload) (war_required_scope payload) allowed reason context (digest body) w_server_now);
        mret allowed
  end.

(** ** Credential rotation *)
Definition newest (l : list AgentCredential) : option AgentCredential := max_by cr_created_at l.

Definition rotate (identity : WorkloadIdentity) (actor : string) (overlap_seconds : Z)
    : Sess (AgentCredential * string * uuid) :=
  now ← utc_now;
  live ← select_rows credentials (fun c =>
    bool_decide (cr_agent_id c = wi_agent_id identity) &&
    bool_decide (cr_workload_identity_id c = Some (wi_id identity)) && bool_decide (cr_revoked_at c = None));
  match newest live with
  | None => http 409 "No active scoped credential to rotate."
  | Some prior =>
      generated ← create_agent_token;
      let overlap := now + seconds overlap_seconds in
      _ ← alter_row credentials (cr_id prior) (fun c => c <| cr_rotation_state := "overlap" |>
            <| cr_overlap_expires_at := Some overlap |>);
      id ← fresh_id;
      let new := mkAgentCredential id (wi_agent_id identity) (Some (wi_id identity)) (Some (cr_id prior)) "active"
        None (ac_prefix generated) (ac_digest generated) w_server_now None
        (Some (Z.min (wi_expires_at identity) (now + days 90))) None in
      (* unique token_prefix *)
      clash ← select_one credentials (fun c => str_eqb (cr_token_prefix c) (ac_prefix generated));
      match clash with
      | Some _ => integrity_error
      | None =>
          _ ← insert_row credentials id new;
          _ ← append_event (wi_id identity) "credential_rotated" actor
                [("prior_prefix", JStr (cr_token_prefix prior)); ("new_prefix", JStr (ac_prefix generated));
                 ("overlap_expires_at", JStr (isoformat overlap))];
          mret (new, ac_token generated, cr_id prior)
      end
  end.

Definition finalize_rotation (identity : WorkloadIdentity) (actor : string) (rollback : bool) : Sess unit :=
  pending ← select_rows credentials (fun c =>
    bool_decide (cr_workload_identity_id c = Some (wi_id identity)) &&
    negb (bool_decide (cr_rotation_parent_id c = None)) && bool_decide (cr_revoked_at c = None));
  match newest pending with
  | None => http 409 "No pending rotation."
  | Some new =>
      prior ← gets (fun d => cr_rotation_parent_id new ≫= fun id => credentials d !! id);
      now ← utc_now;
      match prior with
      | None => raise (PyException "AttributeError" "'NoneType' object has no attribute 'overlap_expires_at'")
      | Some prior =>
          let record event := append_event (wi_id identity) event actor
            [("prior_prefix", JStr (cr_token_prefix prior)); ("new_prefix", JStr (cr_token_prefix new))] in
          if rollback then
            if match cr_overlap_expires_at prior with Some e => e <=? now | None => true end then
              http 409 "Credential rollback window has expired."
            else
              _ ← alter_row credentials (cr_id new) (fun c => c <| cr_revoked_at := Some now |>
                    <| cr_rotation_state := "rolled_back" |>);
              _ ← alter_row credentials (cr_id prior) (fun c => c <| cr_rotation_state := "active" |>
                    <| cr_overlap_expires_at := None |>);
              record "credential_rotation_rolled_back"
          else
            _ ← alter_row credentials (cr_id prior) (fun c => c <| cr_revoked_at := Some now |>
                  <| cr_rotation_state := "revoked" |> <| cr_overlap_expires_at := None |>);
            record "credential_rotation_finalized"
      end
  end.

(** ** Endpoints of [routes/workload_identities.py] *)

Definition create_endpoint (payload : WorkloadIdentityCreate) : Sess uuid :=
  if negb (valid_scopes (wic_scopes payload)) then raise (PyException "ValidationError" "WorkloadIdentityCreate")
  else catch_integrity (id ← create_identity payload; _ ← commit; mret id)
         "Workload identity agent/version is already registered.".

(** a request that names an identity *)
Definition with_identity {A} (identity_id : uuid) (f : WorkloadIdentity → Sess A) : Sess A :=
  identity ← get_row identities identity_id;
  match identity with
  | None => http 404 "Workload identity not found."
  | Some identity => f identity
  end.

Definition bind_endpoint (identity_id : uuid) (actor : string) : Sess Z :=
  with_identity identity_id (fun identity => n ← bind_credentials identity actor; _ ← commit; mret n).
Definition activate_endpoint (activated_by : string) : Sess Z :=
  n ← activate_enforcement activated_by; _ ← commit; mret n.
Definition authorization (payload : WorkloadAuthorizationRequest) : Sess bool :=
  allowed ← authorize payload; _ ← commit; mret allowed.

Definition secret_policy_json (p : WorkloadSecretPolicyCreate) : json := JObj
  [("identity_id", JStr (uuid_str (wpc_identity_id p))); ("logical_name", JStr (wpc_logical_name p));
   ("version", JStr (wpc_version p)); ("required_scope", JStr (wpc_required_scope p));
   ("reference", JStr (wpc_reference p)); ("rotation_due_at", JStr (pydantic_datetime (wpc_rotation_due_at p)));
   ("expires_at", JStr (pydantic_datetime (wpc_expires_at p))); ("created_by", JStr (wpc_created_by p))].

Definition new_secret_policy (p : WorkloadSecretPolicyCreate) (id : uuid) : WorkloadSecretPolicy :=
  mkWorkloadSecretPolicy id (wpc_identity_id p) (wpc_logical_name p) (wpc_version p) (wpc_required_scope p)
    (wpc_reference p) (wpc_rotation_due_at p) (wpc_expires_at p) "active" (digest (secret_policy_json p))
    (wpc_created_by p) w_server_now.

Definition secret_policy_clash (a b : WorkloadSecretPolicy) : bool :=
  bool_decide (wsp_identity_id a = wsp_identity_id b) && str_eqb (wsp_logical_name a) (wsp_logical_name b) &&
  str_eqb (wsp_version a) (wsp_version b) || str_eqb (wsp_policy_digest a) (wsp_policy_digest b).

Definition add_secret_policy (p : WorkloadSecretPolicyCreate) : Sess WorkloadSecretPolicy :=
  id ← fresh_id;
  let policy := new_secret_policy p id in
  clash ← select_one secret_policies (secret_policy_clash policy);
  match clash with
  | Some _ => integrity_error
  | None => _ ← insert_row secret_policies id policy; mret policy
  end.

(** [reference.split(":", 1)[0]] *)
Definition reference_scheme (reference : string) : string := default "" (head (Str.split ":" 1 reference)).

Definition secret_policy (p : WorkloadSecretPolicyCreate) : Sess uuid :=
  identity ← get_row identities (wpc_identity_id p);
  match identity with
  | Some identity =>
      if negb (str_in (wpc_required_scope p) (wi_scopes identity)) then
        http 422 "Secret policy scope must belong to the workload identity."
      else
        policy ← add_secret_policy p;
        _ ← append_event (wi_id identity) "secret_policy_registered" (wpc_created_by p)
              [("logical_name", JStr (wpc_logical_name p)); ("policy_digest", JStr (wsp_policy_digest policy));
               ("reference_scheme", JStr (reference_scheme (wpc_reference p)))];
        _ ← commit;
        mret (wsp_id policy)
  | None => http 422 "Secret policy scope must belong to the workload identity."
  end.

(** the identity of a row that a foreign key guarantees *)
Definition identity_of (id : uuid) : Sess WorkloadIdentity :=
  identity ← get_row identities id;
  match identity with
  | Some identity => mret identity
  | None => raise (PyException "AttributeError" "'NoneType' object has no attribute 'id'")
  end.

Definition rotate_secret_policy (policy_id : uuid) (p : WorkloadSecretPolicyCreate) : Sess uuid :=
  prior ← get_row secret_policies policy_id;
  match prior with
  | None => http 404 "Secret policy not found."
  | Some prior =>
      if negb (str_eqb (wsp_status prior) "active") then http 409 "Only an active secret policy can rotate."
      else if negb (bool_decide (wpc_identity_id p = wsp_identity_id prior)) ||
              negb (str_eqb (wpc_logical_name p) (wsp_logical_name prior)) then
        http 422 "Secret rotation must preserve workload identity and logical name."
      else
        identity ← identity_of (wsp_identity_id prior);
        if negb (str_in (wpc_required_scope p) (wi_scopes identity)) then
          http 422 "Secret policy scope must belong to the workload identity."
        else
          _ ← alter_row secret_policies policy_id (fun x => x <| wsp_status := "rotated" |>);
          replacement ← add_secret_policy p;
          _ ← append_event (wi_id identity) "secret_policy_rotated" (wpc_created_by p)
                [("logical_name", JStr (wsp_logical_name prior));
                 ("prior_policy_digest", JStr (wsp_policy_digest prior));
                 ("replacement_policy_digest", JStr (wsp_policy_digest replacement))];
          _ ← commit;
          mret (wsp_id replacement)
  end.

Definition revoke_secret_policy (policy_id : uuid) (actor reason : string) : Sess unit :=
  policy ← get_row secret_policies policy_id;
  match policy with
  | None => http 404 "Secret policy not found."
  | Some policy =>
      if negb (str_eqb (wsp_status policy) "active") then http 409 "Only an active secret policy can be revoked."
      else
        identity ← identity_of (wsp_identity_id policy);
        _ ← alter_row secret_policies policy_id (fun x => x <| wsp_status := "revoked" |>);
        _ ← append_event (wi_id identity) "secret_policy_revoked" actor
              [("logical_name", JStr (wsp_logical_name policy)); ("policy_digest", JStr (wsp_policy_digest policy));
               ("reason", JStr reason)];
        commit
  end.

Definition emergency_json (p : WorkloadEmergencyGrantCreate) : json := JObj
  [("identity_id", JStr (uuid_str (wgc_identity_id p))); ("scopes", Json.str_list (wgc_scopes p));
   ("reason", JStr (wgc_reason p)); ("approved_by", JStr (wgc_approved_by p));
   ("independent_reviewer", JStr (wgc_independent_reviewer p));
   ("approval_reference", JStr (wgc_approval_reference p));
   ("expires_at", JStr (pydantic_datetime (wgc_expires_at p)))].

(** the validators of [WorkloadEmergencyGrantCreate] *)
Definition valid_emergency (p : WorkloadEmergencyGrantCreate) : bool :=
  negb (bool_decide (wgc_scopes p = [])) && within 10 500 (Z.of_nat (String.length (wgc_reason p))) &&
  negb (str_eqb (wgc_approved_by p) (wgc_independent_reviewer p)).

Definition emergency_grant (p : WorkloadEmergencyGrantCreate) : Sess uuid :=
  if negb (valid_emergency p) then raise (PyException "ValidationError" "WorkloadEmergencyGrantCreate")
  else
    now ← utc_now;
    with_identity (wgc_identity_id p) (fun identity =>
      if negb (str_subset (wgc_scopes p) EMERGENCY_SCOPES) then
        http 422 "Emergency access is reduction-only; requested scope is prohibited."
      else if (wgc_expires_at p <=? now) || (now + seconds 3600 <? wgc_expires_at p) then
        http 422 "Emergency grant must expire within one hour."
      else
        id ← fresh_id;
        let record_digest := digest (emergency_json p) in
        (* unique record_digest *)
        clash ← select_one emergency_grants (fun g => str_eqb (wg_record_digest g) record_digest);
        match clash with
        | Some _ => integrity_error
        | None =>
            _ ← insert_row emergency_grants id
                  (mkWorkloadEmergencyGrant id (wgc_identity_id p) (wgc_scopes p) (wgc_reason p)
                     (wgc_approved_by p) (wgc_independent_reviewer p) (wgc_approval_reference p) "active" now
                     (wgc_expires_at p) record_digest None w_server_now);
            _ ← append_event (wi_id identity) "emergency_grant_issued" (wgc_approved_by p)
                  [("scopes", Json.str_list (sorted_strings (wgc_scopes p)));
                   ("expires_at", JStr (isoformat (wgc_expires_at p))); ("record_digest", JStr record_digest)];
            _ ← commit;
            mret id
        end).

Definition revoke_emergency_grant (grant_id : uuid) (actor reason : string) : Sess unit :=
  grant ← get_row emergency_grants grant_id;
  match grant with
  | None => http 404 "Emergency grant not found."
  | Some grant =>
      if negb (str_eqb (wg_status grant) "active") then http 409 "Only an active emergency grant can be revoked."
      else
        identity ← identity_of (wg_identity_id grant);
        now ← utc_now;
        _ ← alter_row emergency_grants grant_id (fun g => g <| wg_status := "revoked" |> <| wg_revoked_at := Some now |>);
        _ ← append_event (wi_id identity) "emergency_grant_revoked" actor
              [("record_digest", JStr (wg_record_digest grant)); ("reason", JStr reason)];
        commit
  end.

(** the schema bounds the overlap *)
Definition rotate_credential (identity_id : uuid) (actor : string) (overlap_seconds : Z)
    : Sess (AgentCredential * string * uuid) :=
  if negb (within 30 900 overlap_seconds) then raise (PyException "ValidationError" "WorkloadCredentialRotation")
  else with_identity identity_id (fun identity => r ← rotate identity actor overlap_seconds; _ ← commit; mret r).
Definition finalize (identity_id : uuid) (actor : string) : Sess unit :=
  with_identity identity_id (fun identity => _ ← finalize_rotation identity actor false; commit).
Definition rollback_rotation (identity_id : uuid) (actor : string) : Sess unit :=
  with_identity identity_id (fun identity => _ ← finalize_rotation identity actor true; commit).
End ops.
