(* ===== verification/WorkloadTheorems.v ===== *)
(** * What the agent boundary promises

    The contract of [get_current_agent] and of the workload identities behind
    it: which requests are let through, what emergency grants can add, and what
    a credential rotation leaves valid. *)
From S2P Require Import Prelude Py Sha256 Models Store Logic Security GovernanceFacts WorkloadIdentity.
From S2P Require Import RuntimeTheorems Demo.

Open Scope Z_scope.

(** ** Specification: the credential and the identity behind a request *)

(** a bound that may be absent *)
Definition before (now : datetime) (bound : option datetime) : Prop := ∀ e, bound = Some e → now < e.

(** credentials are stored under their identifiers, and a prefix names one *)
Definition credentials_ok (d : database) : Prop :=
  map_Forall (fun i c => cr_id c = i) (credentials d) ∧
  ∀ i j a b, credentials d !! i = Some a → credentials d !! j = Some b →
    cr_token_prefix a = cr_token_prefix b → i = j.

Section specification.
Context `{World}.

(** [token] is the secret of credential [c], which is in force at [now] *)
Record presents (d : database) (token : string) (now : datetime) (c : AgentCredential) : Prop := {
  pr_row : credentials d !! cr_id c = Some c;
  pr_prefix : extract_agent_token_prefix token = Some (cr_token_prefix c);
  pr_digest : cr_token_digest c = digest_agent_token token;
  pr_live : cr_revoked_at c = None;
  pr_expiry : before now (cr_expires_at c);
  pr_overlap : cr_rotation_state c = "overlap" → before now (cr_overlap_expires_at c) }.

Definition enforced (d : database) : Prop :=
  ∃ state, identity_control d = Some state ∧ wc_enforcement_active state = true.

(** the identity bound to [c] lets [agent] make the request *)
Record scoped (d : database) (agent : Agent) (c : AgentCredential) (method path : string) (now : datetime)
    (i : WorkloadIdentity) : Prop := {
  sc_bound : cr_workload_identity_id c ≫= (fun id => identities d !! id) = Some i;
  sc_current : wi_status i = "active" ∧ wi_valid_from i <= now < wi_expires_at i;
  sc_subject : wi_agent_id i = ag_id agent ∧ wi_machine i = ag_machine agent;
  sc_authority : ∃ charter package,
    charters d !! wi_charter_id i = Some charter ∧ ch_status charter = "active" ∧ ch_agent_id charter = ag_id agent ∧
    packages d !! wi_package_id i = Some package ∧
    (∃ id x, deployments d !! id = Some x ∧ pd_agent_id x = ag_id agent ∧ pd_package_id x = wi_package_id i ∧
      pd_is_active x = true) ∧
    (∀ capability, capability ∈ pm_required_capabilities (pk_manifest package) →
      ∃ id g, grants d !! id = Some g ∧ gr_capability g = capability ∧ gr_agent_id g = ag_id agent ∧
        gr_charter_id g = ch_id charter ∧ gr_package_id g = pk_id package ∧ gr_status g = "active" ∧
        gr_machine g = ag_machine agent ∧ now < gr_expires_at g);
  sc_scope : required_scope method path ∈ wi_scopes i ∨
    ∃ id g, emergency_grants d !! id = Some g ∧ wg_identity_id g = wi_id i ∧ wg_status g = "active" ∧
      wg_starts_at g <= now < wg_expires_at g ∧ required_scope method path ∈ wg_scopes g }.

(** the requests that pass, as the agent they act for *)
Definition admitted (d : database) (method path : string) (bearer : option string) (now : datetime)
    (agent : Agent) (c : AgentCredential) : Prop :=
  (∃ token, bearer = Some token ∧ presents d token now c) ∧
  agents d !! cr_agent_id c = Some agent ∧ ag_is_enabled agent = true ∧
  (enforced d → ∃ i, scoped d agent c method path now i).
End specification.

(** ** The checks *)
Lemma before_spec now o : match o with Some e => e <=? now | None => false end = false ↔ before now o.
Proof.
  unfold before. destruct o as [e|]; [|naive_solver]. rewrite Z.leb_gt. split; [by intros ? ? [= <-]|auto].
Qed.

Lemma row_in {R} (m : gmap uuid R) p r :
  r ∈ List.filter p (table_rows m) ↔ ∃ id, m !! id = Some r ∧ p r = true.
Proof.
  unfold table_rows. rewrite list_elem_of_In, filter_In, <- list_elem_of_In, list_elem_of_fmap. split.
  - intros [([id r'] & -> & Hin) Hp]. exists id. by apply elem_of_map_to_list in Hin.
  - intros (id & Hr & Hp). split; [|done]. exists (id, r). by rewrite elem_of_map_to_list.
Qed.


Lemma head_filter {R} (m : gmap uuid R) p :
  head (List.filter p (table_rows m)) ≠ None ↔ ∃ id r, m !! id = Some r ∧ p r = true.
Proof.
  split.
  - destruct (List.filter p _) as [|r l] eqn:E; [done|]. intros _.
    assert (Hr : r ∈ List.filter p (table_rows m)) by (rewrite E; left). apply row_in in Hr as (id & Hr). by exists id, r.
  - intros (id & r & Hr). assert (Hin : r ∈ List.filter p (table_rows m)) by (apply row_in; by exists id).
    destruct (List.filter p _); [by apply elem_of_nil in Hin|done].
Qed.

Section boundary.
Context `{World}.

(** reading the switch creates its row on first use *)
Definition with_control (d : database) : database :=
  match identity_control d with Some _ => d | None => d <| identity_control := Some default_control |> end.

Lemma control_run s : ∃ state,
  control s = (Ok state, s <| db := with_control (db s) |>) ∧
  (wc_enforcement_active state = true ↔ enforced (db s)).
Proof.
  unfold control, with_control, enforced. destruct s as [d sv ck en].
  unfold mbind, Sess_bind, gets. cbn [db]. destruct (identity_control d) as [row|]; eexists; (split; [reflexivity|]).
  - naive_solver.
  - split; [done|]. by intros (? & ? & ?).
Qed.

Lemma with_control_rows d :
  credentials (with_control d) = credentials d ∧ identities (with_control d) = identities d ∧
  charters (with_control d) = charters d ∧ packages (with_control d) = packages d ∧
  deployments (with_control d) = deployments d ∧ grants (with_control d) = grants d ∧
  emergency_grants (with_control d) = emergency_grants d ∧ agents (with_control d) = agents d.
Proof. unfold with_control. by destruct (identity_control d). Qed.

(** running reads *)
Lemma run_gets {A B} (f : database → A) (k : A → Sess B) s : (gets f ≫= k) s = k (f (db s)) s.
Proof. done. Qed.

(** ** Each check of [validate_identity] is a condition of [scoped] *)
Lemma current_identity_spec now i :
  current_identity now i = true ↔ wi_status i = "active" ∧ wi_valid_from i <= now < wi_expires_at i.
Proof. unfold current_identity. rewrite !andb_true_iff, str_eqb_spec, Z.leb_le, Z.ltb_lt. tauto. Qed.

Lemma subject_spec (agent : Agent) i :
  negb (bool_decide (wi_agent_id i = ag_id agent)) || negb (str_eqb (wi_machine i) (ag_machine agent)) = false ↔
  wi_agent_id i = ag_id agent ∧ wi_machine i = ag_machine agent.
Proof. by rewrite orb_false_iff, !negb_false_iff, bool_decide_eq_true, str_eqb_spec. Qed.

Lemma deployed_spec d agent_id package_id :
  head (List.filter (active_deployment agent_id package_id) (table_rows (deployments d))) ≠ None ↔
  ∃ id x, deployments d !! id = Some x ∧ pd_agent_id x = agent_id ∧ pd_package_id x = package_id ∧ pd_is_active x = true.
Proof.
  rewrite head_filter. unfold active_deployment. split; intros (id & x & Hx & Hp); exists id, x; split; try done.
  - rewrite !andb_true_iff, !bool_decide_eq_true in Hp. tauto.
  - rewrite !andb_true_iff, !bool_decide_eq_true. tauto.
Qed.

Lemma capabilities_spec d (agent : Agent) charter_id package_id now required :
  str_subset required (gr_capability <$> List.filter (fun g =>
    live_grant (ag_id agent) charter_id package_id now g && str_eqb (gr_machine g) (ag_machine agent))
    (table_rows (grants d))) = true ↔
  ∀ capability, capability ∈ required →
    ∃ id g, grants d !! id = Some g ∧ gr_capability g = capability ∧ gr_agent_id g = ag_id agent ∧
      gr_charter_id g = charter_id ∧ gr_package_id g = package_id ∧ gr_status g = "active" ∧
      gr_machine g = ag_machine agent ∧ now < gr_expires_at g.
Proof.
  rewrite str_subset_spec. unfold live_grant. split; intros Hsub c Hc; specialize (Hsub c Hc).
  - apply list_elem_of_fmap in Hsub as (g & -> & (id & Hg & Hp)%row_in). exists id, g.
    rewrite !andb_true_iff, !bool_decide_eq_true, !str_eqb_spec, Z.ltb_lt in Hp. naive_solver.
  - destruct Hsub as (id & g & Hg & <- & Hp). apply list_elem_of_fmap. exists g. split; [done|].
    apply row_in. exists id. rewrite !andb_true_iff, !bool_decide_eq_true, !str_eqb_spec, Z.ltb_lt. naive_solver.
Qed.

Lemma scope_spec d scope now i :
  str_in scope (wi_scopes i ++ (List.filter (live_emergency (wi_id i) now) (table_rows (emergency_grants d)) ≫= wg_scopes)) = true ↔
  scope ∈ wi_scopes i ∨ ∃ id g, emergency_grants d !! id = Some g ∧ wg_identity_id g = wi_id i ∧ wg_status g = "active" ∧
    wg_starts_at g <= now < wg_expires_at g ∧ scope ∈ wg_scopes g.
Proof.
  rewrite str_in_spec, elem_of_app, list_elem_of_bind. unfold live_emergency. apply or_iff_compat_l. split.
  - intros (g & Hs & (id & Hg & Hp)%row_in). exists id, g.
    rewrite !andb_true_iff, bool_decide_eq_true, str_eqb_spec, Z.leb_le, Z.ltb_lt in Hp. naive_solver.
  - intros (id & g & Hg & Hp). exists g. split; [naive_solver|]. apply row_in. exists id.
    rewrite !andb_true_iff, bool_decide_eq_true, str_eqb_spec, Z.leb_le, Z.ltb_lt. naive_solver.
Qed.

(** [m] only reads, and succeeds exactly when [P] *)
Definition decides {A} (m : Sess A) (P : Prop) (s : session) : Prop :=
  ∃ r, m s = (r, s) ∧ ((∃ a, r = Ok a) ↔ P).

Lemma decides_ok {A} (a : A) (P : Prop) s : P → decides (mret a) P s.
Proof. intros HP. exists (Ok a). split; [done|]. split; [done|by eexists]. Qed.

Lemma decides_http {A} code detail (P : Prop) s : ¬ P → decides (http (A:=A) code detail) P s.
Proof. intros HP. eexists (Err _). split; [done|]. split; [by intros [? ?]|done]. Qed.

Lemma decides_gets {A B} (f : database → A) (k : A → Sess B) (P : Prop) s :
  decides (k (f (db s))) P s → decides (gets f ≫= k) P s.
Proof. done. Qed.

Lemma decides_check {A} (b : bool) code detail (m : Sess A) (P : Prop) s :
  (P → b = false) → (b = false → decides m P s) → decides (if b then http code detail else m) P s.
Proof. destruct b; [|auto]. intros HP _. apply decides_http. intros HP'. by apply HP in HP'. Qed.

Lemma snapshot_active_spec agent charter package deployment c p :
  snapshot_active agent charter package deployment = Some (c, p) →
  charter = Some c ∧ package = Some p ∧ deployment ≠ None ∧ ch_status c = "active" ∧ ch_agent_id c = ag_id agent.
Proof.
  unfold snapshot_active. destruct charter as [ch|], package as [pk|], deployment as [dp|]; try done.
  destruct (_ && _) eqn:E; [|done]. intros [= -> ->]. apply andb_prop in E as [?%str_eqb_spec ?%bool_decide_eq_true]. done.
Qed.

Lemma snapshot_inactive agent charter package deployment c p :
  snapshot_active agent charter package deployment = None →
  charter = Some c → package = Some p → deployment ≠ None → ch_status c = "active" → ch_agent_id c = ag_id agent → False.
Proof.
  unfold snapshot_active. intros E -> -> Hd Hs Ha. destruct deployment; [|done].
  by rewrite Hs, bool_decide_eq_true_2 in E.
Qed.

Lemma check_identity_decides agent c method path now s :
  decides (check_identity agent c method path now) (∃ i, scoped (db s) agent c method path now i) s.
Proof.
  unfold check_identity. apply decides_gets. cbv beta.
  destruct (cr_workload_identity_id c ≫= _) as [i|] eqn:Hi; [|apply decides_http; intros (i & []); congruence].
  assert (Hsame : ∀ j, scoped (db s) agent c method path now j → j = i) by (intros j []; congruence).
  apply decides_check.
  { intros (j & Hj). pose proof (Hsame j Hj) as ->. destruct Hj. by apply negb_false_iff, current_identity_spec. }
  intros Hcur%negb_false_iff%current_identity_spec. apply decides_check.
  { intros (j & Hj). pose proof (Hsame j Hj) as ->. destruct Hj. by apply subject_spec. }
  intros Hsub%subject_spec. do 3 (apply decides_gets; cbv beta).
  destruct (snapshot_active _ _ _ _) as [[charter package]|] eqn:Hsnap.
  2:{ apply decides_http. intros (j & Hj). pose proof (Hsame j Hj) as ->.
      destruct Hj as [_ _ _ (ch & pk & Hch & Hact & Hag & Hpk & Hdep & _) _].
      eapply snapshot_inactive; [exact Hsnap|exact Hch|exact Hpk| |exact Hact|exact Hag]. by apply deployed_spec. }
  apply snapshot_active_spec in Hsnap as (Hch & Hpk & Hdep%deployed_spec & Hact & Hag).
  apply decides_gets. apply decides_check.
  { intros (j & Hj). pose proof (Hsame j Hj) as ->. destruct Hj as [_ _ _ (ch & pk & Hch' & _ & _ & Hpk' & _ & Hcap) _].
    apply negb_false_iff, capabilities_spec. replace charter with ch by congruence. by replace package with pk by congruence. }
  intros Hcap%negb_false_iff. rewrite capabilities_spec in Hcap. apply decides_gets. apply decides_check.
  { intros (j & Hj). pose proof (Hsame j Hj) as ->. destruct Hj as [_ _ _ _ Hscope]. by apply negb_false_iff, scope_spec. }
  intros Hscope%negb_false_iff%scope_spec. apply decides_ok. exists i. constructor; try done. by exists charter, package.
Qed.

Lemma scoped_with_control d agent c method path now i :
  scoped (with_control d) agent c method path now i ↔ scoped d agent c method path now i.
Proof. unfold with_control. destruct (identity_control d); [done|]. split; intros []; by constructor. Qed.

Lemma validate_identity_run agent c method path now s : ∃ r,
  validate_identity agent c method path now s = (r, s <| db := with_control (db s) |>) ∧
  ((∃ o, r = Ok o) ↔ (enforced (db s) → ∃ i, scoped (db s) agent c method path now i)).
Proof.
  unfold validate_identity. destruct (control_run s) as (state & Hrun & Henf).
  rewrite (run_bind _ _ _ _ _ Hrun). destruct (wc_enforcement_active state); cbn [negb].
  - set (s1 := s <| db := with_control (db s) |>).
    destruct (check_identity_decides agent c method path now s1) as (r & Hcheck & Hr).
    assert (Hscope : (∃ i, scoped (db s1) agent c method path now i) ↔ ∃ i, scoped (db s) agent c method path now i)
      by (split; intros (i & Hi); exists i; by apply scoped_with_control).
    unfold mbind, Sess_bind. rewrite Hcheck. destruct r as [i|e]; eexists; (split; [reflexivity|]).
    + split; [intros _ _; apply Hscope, Hr; by eexists|by eexists].
    + split; [by intros [? ?]|]. intros Hi. apply proj1 in Henf. destruct (proj2 Hr) as [? ?]; [|done].
      apply Hscope, Hi. by apply Henf.
  - eexists. split; [reflexivity|]. split; [|by eexists]. intros _ Hon%Henf. done.
Qed.

(** ** Admission *)
Lemma unauthorized_wp I {A} detail (Q : A → session → Prop) s : I (saved s) → wp I (unauthorized detail) Q s.
Proof. apply wp_raise. Qed.

(** the only credential a token can present *)
Lemma presented_row d token now p c c' :
  credentials_ok d → extract_agent_token_prefix token = Some p →
  head (List.filter (fun c => str_eqb (cr_token_prefix c) p) (table_rows (credentials d))) = Some c →
  presents d token now c' → c' = c.
Proof.
  intros [Hkey Huniq] Hp [Hc%str_eqb_spec (i & Hi)]%select_one_Some [Hrow Hp' _ _ _ _].
  assert (E : cr_id c' = i) by (eapply Huniq; [exact Hrow|exact Hi|congruence]). congruence.
Qed.

(** the four checks on a stored credential *)
Lemma presents_checks d token now c :
  credentials d !! cr_id c = Some c → extract_agent_token_prefix token = Some (cr_token_prefix c) →
  presents d token now c ↔
  (match cr_revoked_at c with Some _ => true | None => false end = false ∧
   match cr_expires_at c with Some e => e <=? now | None => false end = false ∧
   str_eqb (cr_rotation_state c) "overlap" &&
     match cr_overlap_expires_at c with Some e => e <=? now | None => false end = false ∧
   negb (str_eqb (digest_agent_token token) (cr_token_digest c)) = false).
Proof.
  intros Hrow Hp. rewrite andb_false_iff, !before_spec, negb_false_iff, str_eqb_spec.
  assert (Hs : str_eqb (cr_rotation_state c) "overlap" = false ↔ cr_rotation_state c ≠ "overlap").
  { rewrite <- not_true_iff_false, str_eqb_spec. done. }
  rewrite Hs. split.
  - intros [_ _ E El ? Ho]. rewrite El. split_and!; try done.
    destruct (decide (cr_rotation_state c = "overlap")); auto.
  - intros (Hr & ? & Ho & E). constructor; try done.
    + by destruct (cr_revoked_at c).
    + intros ?. by destruct Ho.
Qed.

(** what an admitted request leaves behind *)
Definition request_recorded (d : database) (now : datetime) (c : AgentCredential) : database :=
  with_control d <| credentials := alter (fun c => c <| cr_last_used_at := Some now |>) (cr_id c) (credentials d) |>.

Lemma wp_get_current_agent method path bearer d :
  credentials_ok d →
  wp (fun d' => d' = d ∧ ∀ a c, ¬ admitted d method path bearer (w_now 0) a c)
    (get_current_agent method path bearer)
    (fun a s' => ∃ c, admitted d method path bearer (w_now 0) a c ∧ saved s' = request_recorded d (w_now 0) c)
    (open_session d).
Proof.
  intros Hok. unfold get_current_agent. destruct bearer as [token|].
  2:{ apply unauthorized_wp. split; [done|]. by intros a c [(? & ? & _) _]. }
  destruct (extract_agent_token_prefix token) as [p|] eqn:Hp.
  2:{ apply unauthorized_wp. split; [done|]. intros a c [(? & [= <-] & []) _]. congruence. }
  apply wp_bind, wp_gets. cbn [db open_session].
  destruct (head _) as [c|] eqn:Hc.
  2:{ apply unauthorized_wp. split; [done|]. intros a c [(? & [= <-] & []) _].
      pose proof (select_one_None _ _ _ Hc _ _ pr_row0) as Hn. cbv beta in Hn.
      assert (str_eqb (cr_token_prefix c) p = true) by (apply str_eqb_spec; congruence). congruence. }
  assert (Honly : ∀ now c', presents d token now c' → c' = c) by (intros now c'; by apply (presented_row d token now p)).
  pose proof (select_one_Some _ _ _ _ Hc) as [Hpre%str_eqb_spec (i & Hrow)].
  pose proof (proj1 Hok _ _ Hrow) as Hi. cbv beta in Hi. subst i.
  assert (Hno : ∀ P : Prop, P → (presents d token (w_now 0) c → P → False) →
    d = d ∧ ∀ a c', ¬ admitted d method path (Some token) (w_now 0) a c').
  { intros P HP Hn. split; [done|]. intros a c' [(? & [= <-] & Hpr) _]. pose proof (Honly _ _ Hpr) as ->. auto. }
  apply wp_bind, wp_utc_now. intros now Hnow. change (now = w_now 0) in Hnow. subst now.
  pose proof (presents_checks d token (w_now 0) c Hrow (eq_trans Hp (f_equal Some (eq_sym Hpre)))) as Hchecks.
  do 4 (apply wp_if; intros ?; [apply unauthorized_wp, (Hno True); [done|]; intros (? & ? & ? & ?)%Hchecks; congruence|]).
  assert (Hpr : presents d token (w_now 0) c) by by apply Hchecks.
  assert (Hdis : ∀ P : Prop, P → (∀ a, agents d !! cr_agent_id c = Some a → ag_is_enabled a = true →
      (enforced d → ∃ i, scoped d a c method path (w_now 0) i) → P → False) →
    d = d ∧ ∀ a c', ¬ admitted d method path (Some token) (w_now 0) a c').
  { intros P HP Hn. split; [done|]. intros a c' [(? & [= <-] & Hpr') (Ha & He & Hs)].
    pose proof (Honly _ _ Hpr') as ->. by apply (Hn a). }
  apply wp_bind, wp_get_row. change (db (open_session d <|clock := S (clock (open_session d))|>)) with d.
  destruct (agents d !! cr_agent_id c) as [a|] eqn:Ha.
  2:{ apply wp_raise. apply (Hdis True); [done|]. naive_solver. }
  apply wp_if; intros Hen; [apply wp_raise, (Hdis _ Hen); intros ? [= <-] ->; done|].
  apply negb_false_iff in Hen. apply wp_bind.
  destruct (validate_identity_run a c method path (w_now 0) (open_session d <| clock := 1%nat |>)) as (r & Hrun & Hr).
  unfold wp at 1. change (open_session d <|clock := S (clock (open_session d))|>) with (open_session d <|clock := 1%nat|>). rewrite Hrun. destruct r as [o|e].
  - apply wp_bind, wp_alter, wp_bind, wp_commit, wp_ret. exists c. split; [|].
    + split; [by exists token|]. split; [done|]. split; [done|]. apply Hr. by eexists.
    + unfold request_recorded. cbn. by rewrite (proj1 (with_control_rows d)).
  - apply (Hdis True); [done|]. intros ? [= <-] _ Hs _. destruct (proj2 Hr Hs). done.
Qed.

(** C21. A request to the agent API passes exactly when its bearer token carries the
    prefix of a stored credential that is neither revoked, expired nor past its
    rotation overlap, whose stored digest is the token's HMAC, whose agent is
    enabled, and, once enforcement is on, whose bound workload identity is current,
    names the agent and its machine, rests on an active charter and deployment with
    all required capabilities granted, and holds the scope of the route or an
    emergency grant of it. A request that passes leaves one change, the time of use
    of that credential (and the enforcement row on first use); one that is refused
    changes nothing. *)
Theorem get_current_agent_spec method path bearer d :
  credentials_ok d →
  match request (get_current_agent method path bearer) d with
  | (Ok a, d') => ∃ c, admitted d method path bearer (w_now 0) a c ∧ d' = request_recorded d (w_now 0) c
  | (Err _, d') => d' = d ∧ ∀ a c, ¬ admitted d method path bearer (w_now 0) a c
  end.
Proof.
  intros Hok. pose proof (wp_get_current_agent method path bearer d Hok) as Hwp. unfold wp, request in *.
  by destruct (get_current_agent method path bearer (open_session d)) as [[a|e] s'].
Qed.

(** ** Emergency grants *)
Definition reduction_only (d : database) : Prop :=
  ∀ id g, emergency_grants d !! id = Some g → wg_scopes g ⊆ EMERGENCY_SCOPES.

Lemma required_not_emergency method path : required_scope method path ∉ EMERGENCY_SCOPES.
Proof. rewrite <- str_in_spec. unfold required_scope. repeat case_match; done. Qed.

Lemma append_event_frame {T} (π : database → T) id ty actor p :
  (∀ l d, π (d <| identity_events := l |>) = π d) → preserves π (append_event id ty actor p).
Proof.
  intros Hπ. unfold append_event. apply preserves_bind; [frame|]. intros ?.
  apply preserves_append_log. intros ??. apply Hπ.
Qed.

Lemma wp_emergency_grant p s :
  reduction_only (saved s) → reduction_only (db s) →
  wp reduction_only (emergency_grant p) (fun _ s' => reduction_only (saved s')) s.
Proof.
  intros Hs Hd. unfold emergency_grant. apply wp_if; intros _; [by apply wp_raise|].
  apply wp_bind, wp_utc_now. intros now _. unfold with_identity. apply wp_bind, wp_get_row.
  destruct (identities _ !! _) as [i|]; [|by apply wp_raise].
  apply wp_if; intros Hsub; [by apply wp_raise|]. apply negb_false_iff, str_subset_spec in Hsub.
  apply wp_if; intros _; [by apply wp_raise|].
  apply wp_bind. eapply (wp_frame emergency_grants); [frame|done|]. intros id s1 Hsv Hrows. cbv beta.
  apply wp_bind, wp_gets. destruct (head _); [apply wp_raise; by rewrite Hsv|].
  apply wp_bind, wp_insert; [by rewrite Hsv|]. intros _. apply wp_bind.
  eapply (wp_frame emergency_grants); [by apply append_event_frame|by cbn; rewrite Hsv|].
  intros _ s2 Hsv2 Hrows2. cbv beta. apply wp_bind, wp_commit, wp_ret. cbn. intros j g. rewrite Hrows2. cbn.
  intros [[<- <-]|[_ Hg]]%lookup_insert_Some; [done|]. rewrite Hrows in Hg. by apply (Hd j).
Qed.

(** Emergency access is reduction-only in the strictest sense: every emergency
    grant the API issues stays within the four emergency scopes, no route of the
    agent API requires any of them, and so, while all grants are such, a request
    that passes under enforcement always holds the scope of its route in its
    identity; no emergency grant ever lets a request through. *)
Theorem emergency_access_is_inert p method path bearer d :
  credentials_ok d → reduction_only d →
  reduction_only (request (emergency_grant p) d).2 ∧
  (enforced d → ∀ a d', request (get_current_agent method path bearer) d = (Ok a, d') →
    ∃ c i, admitted d method path bearer (w_now 0) a c ∧ scoped d a c method path (w_now 0) i ∧
      required_scope method path ∈ wi_scopes i).
Proof.
  intros Hok Hred. split; [by apply wp_request, wp_emergency_grant|]. intros Henf a d' E.
  pose proof (wp_get_current_agent method path bearer d Hok) as Hwp. unfold wp, request in *.
  destruct (get_current_agent method path bearer (open_session d)) as [[a'|e] s']; [|done]. injection E as <- <-.
  destruct Hwp as (c & Hadm & _). pose proof Hadm as (_ & _ & _ & Hi). destruct (Hi Henf) as (i & Hsc).
  exists c, i. split; [done|]. split; [done|]. destruct Hsc as [_ _ _ _ [Hin|(id & g & Hg & _ & _ & _ & Hin)]]; [done|].
  exfalso. apply (required_not_emergency method path). by apply (Hred id g).
Qed.

(** ** Credential rotation *)

(** [presents] beyond the row itself *)
Lemma presents_move d d' token now c :
  credentials d' !! cr_id c = Some c → presents d token now c → presents d' token now c.
Proof. intros Hrow []. by constructor. Qed.

Lemma max_by_bound {A} (key : A → Z) l x y : max_by key l = Some x → y ∈ l → key y <= key x.
Proof.
  revert x. induction l as [|z l IH] using rev_ind; intros x; [done|]. rewrite max_by_app, elem_of_app, list_elem_of_singleton.
  destruct (max_by key l) as [b|] eqn:E.
  - destruct (Z.ltb_spec (key b) (key z)); intros [= <-] [Hy| ->]; try lia.
    + pose proof (IH _ eq_refl Hy). lia.
    + by apply IH.
  - apply max_by_None in E as ->. intros [= <-] [Hy| ->]; [by apply elem_of_nil in Hy|lia].
Qed.

Lemma max_by_strict {A} (key : A → Z) l x :
  x ∈ l → (∀ y, y ∈ l → y = x ∨ key y < key x) → max_by key l = Some x.
Proof.
  intros Hx Hlt. destruct (max_by key l) as [y|] eqn:E; [|apply max_by_None in E as ->; by apply elem_of_nil in Hx].
  pose proof (max_by_bound _ _ _ _ E Hx). apply max_by_elem, Hlt in E as [->|?]; [done|lia].
Qed.

(** the credential a rotation replaces, in its overlap *)
Definition in_overlap (until : datetime) (c : AgentCredential) : AgentCredential :=
  c <| cr_rotation_state := "overlap" |> <| cr_overlap_expires_at := Some until |>.

(** [d1] is [d] with the live credential [p] of identity [i] replaced by [n] *)
Record rotated (d d1 : database) (i : WorkloadIdentity) (now until : datetime) (token : string)
    (p n : AgentCredential) : Prop := {
  ro_prior : credentials d !! cr_id p = Some p ∧ cr_workload_identity_id p = Some (wi_id i) ∧ cr_revoked_at p = None;
  ro_rows : credentials d1 = <[cr_id n := n]> (alter (in_overlap until) (cr_id p) (credentials d));
  ro_identities : identities d1 = identities d;
  ro_fresh : credentials d !! cr_id n = None;
  ro_prefix : ∀ j c, credentials d !! j = Some c → cr_token_prefix c ≠ cr_token_prefix n;
  ro_new : cr_agent_id n = wi_agent_id i ∧ cr_workload_identity_id n = Some (wi_id i) ∧
    cr_rotation_parent_id n = Some (cr_id p) ∧ cr_rotation_state n = "active" ∧ cr_revoked_at n = None ∧
    cr_created_at n = w_server_now ∧ cr_expires_at n = Some (Z.min (wi_expires_at i) (now + days 90));
  ro_token : extract_agent_token_prefix token = Some (cr_token_prefix n) ∧
    cr_token_digest n = digest_agent_token token }.

Lemma wp_append_event I id ty actor p Q s :
  (∀ s', saved s' = saved s → credentials (db s') = credentials (db s) → identities (db s') = identities (db s) → Q tt s') →
  wp I (append_event id ty actor p) Q s.
Proof. intros HQ. unfold append_event. apply wp_bind, wp_gets, wp_update, HQ; by destruct s. Qed.

Lemma wp_create_agent_token I Q s :
  good_entropy →
  (∀ g s', db s' = db s → saved s' = saved s → extract_agent_token_prefix (ac_token g) = Some (ac_prefix g) →
    ac_digest g = digest_agent_token (ac_token g) → Q g s') →
  wp I create_agent_token Q s.
Proof.
  intros [Hhex Hurl] HQ. unfold create_agent_token. apply wp_bind. unfold wp at 1. cbn -[digest_agent_token].
  apply wp_bind. unfold wp at 1. cbn -[digest_agent_token]. apply wp_ret, HQ; [by destruct s..| |done].
  destruct (Hhex (entropy s)) as [H1 H2]. by apply (extract_generated "ag").
Qed.

Lemma wp_fresh_id I Q s :
  (∀ s', saved s' = saved s → credentials (db s') = credentials (db s) → identities (db s') = identities (db s) →
    Q (next_id (db s)) s') →
  wp I fresh_id Q s.
Proof. intros HQ. apply HQ; by destruct s. Qed.

Lemma wp_rotate_credential id actor overlap d :
  credentials_ok d → good_entropy →
  wp (fun _ => True) (rotate_credential id actor overlap) (fun r s' =>
    let '(n, token, pid) := r in ∃ i p, identities d !! id = Some i ∧ pid = cr_id p ∧
      rotated d (saved s') i (w_now 0) (w_now 0 + seconds overlap) token p n) (open_session d).
Proof.
  intros [Hkey _] Hent. unfold rotate_credential. apply wp_if; intros _; [done|].
  unfold with_identity. apply wp_bind, wp_get_row. cbn [db open_session].
  destruct (identities d !! id) as [i|] eqn:Hi; [|done]. apply wp_bind. unfold rotate.
  apply wp_bind, wp_utc_now. intros now Hnow. change (now = w_now 0) in Hnow. subst now.
  apply wp_bind, wp_gets. cbv beta. destruct (newest _) as [p|] eqn:Hp; [|done].
  apply max_by_elem, row_in in Hp as (j & Hrow & Hlive). change (credentials d !! j = Some p) in Hrow.
  pose proof (Hkey _ _ Hrow) as Hj. cbv beta in Hj. subst j.
  apply andb_prop in Hlive as [[_ Hbound%bool_decide_eq_true]%andb_prop Hrev%bool_decide_eq_true].
  apply wp_bind, wp_create_agent_token; [done|]. intros g [d1 sv1 ck1 en1] Hdb Hsv Hext Hdig. cbv beta.
  change (d1 = d) in Hdb. subst d1.
  apply wp_bind, wp_alter, wp_bind, wp_fresh_id. intros s2 Hsv2 Hcr2 Hid2. cbv beta.
  apply wp_bind, wp_gets. cbv beta. destruct (head _) eqn:Hclash; [done|].
  apply wp_bind, wp_insert; [done|]. intros Hfree. apply wp_bind, wp_append_event. intros s3 Hsv3 Hcr3 Hid3. cbv beta.
  apply wp_ret, wp_bind, wp_commit, wp_ret. exists i, p. split; [done|]. split; [done|].
  rewrite Hcr2 in Hfree, Hclash. set (n := mkAgentCredential _ _ _ _ _ _ _ _ _ _ _ _) in *.
  set (until := w_now 0 + seconds overlap) in *.
  change (alter (in_overlap until) (cr_id p) (credentials d) !! cr_id n = None) in Hfree. rewrite lookup_alter_None in Hfree.
  constructor; try done.
  - cbn. by rewrite Hcr3, Hcr2.
  - cbn. rewrite Hid3. exact Hid2.
  - intros j c Hc E. assert (Hsame : ∃ c', alter (in_overlap until) (cr_id p) (credentials d) !! j = Some c' ∧ cr_token_prefix c' = cr_token_prefix c).
    { destruct (decide (j = cr_id p)) as [->|Hne]; [rewrite lookup_alter_eq, Hc|rewrite lookup_alter_ne, Hc by done]; by eexists. }
    destruct Hsame as (c' & Hc' & Hpre).
    pose proof (select_one_None (fun d => alter (in_overlap until) (cr_id p) (credentials d)) _ d Hclash j c' Hc') as Hn.
    cbv beta in Hn. assert (str_eqb (cr_token_prefix c') (ac_prefix g) = true) by (apply str_eqb_spec; by rewrite Hpre). congruence.
Qed.

Lemma pending_is_new d d1 i now until token p n :
  map_Forall (fun j c => cr_id c = j) (credentials d) →
  (∀ j c, credentials d !! j = Some c → cr_created_at c < cr_created_at n) →
  rotated d d1 i now until token p n →
  newest (List.filter (fun c => bool_decide (cr_workload_identity_id c = Some (wi_id i)) &&
    negb (bool_decide (cr_rotation_parent_id c = None)) && bool_decide (cr_revoked_at c = None))
    (table_rows (credentials d1))) = Some n.
Proof.
  intros Hkey Hnew []. destruct ro_new0 as (_ & Hb & Hpar & _ & Hrev & _). apply max_by_strict.
  - apply row_in. exists (cr_id n). rewrite ro_rows0, lookup_insert_eq. split; [done|]. by rewrite Hb, Hpar, Hrev, bool_decide_eq_true_2.
  - intros y (j & Hy & _)%row_in. rewrite ro_rows0 in Hy. apply lookup_insert_Some in Hy as [[_ <-]|[_ Hy]]; [by left|right].
    apply lookup_alter_Some in Hy as [(_ & c & Hc & ->)|[_ Hc]]; by apply Hnew in Hc.
Qed.

(** the credential a finalized rotation revokes *)
Definition retired (now : datetime) (c : AgentCredential) : AgentCredential :=
  c <| cr_revoked_at := Some now |> <| cr_rotation_state := "revoked" |> <| cr_overlap_expires_at := None |>.

(** the two credentials of a rotation that is rolled back *)
Definition withdrawn (now : datetime) (c : AgentCredential) : AgentCredential :=
  c <| cr_revoked_at := Some now |> <| cr_rotation_state := "rolled_back" |>.
Definition restored (c : AgentCredential) : AgentCredential :=
  c <| cr_rotation_state := "active" |> <| cr_overlap_expires_at := None |>.
End boundary.

Section finishing.
Variables (W1 W2 : World) (d d1 : database) (i : WorkloadIdentity) (now until : datetime) (token : string).
Variables (p n : AgentCredential).
Hypothesis Hkey : map_Forall (fun j c => cr_id c = j) (credentials d).
Hypothesis Hnew : ∀ j c, credentials d !! j = Some c → cr_created_at c < cr_created_at n.
Hypothesis Hrot : @rotated W1 d d1 i now until token p n.

Lemma prior_row : credentials d1 !! cr_id p = Some (in_overlap until p).
Proof.
  destruct Hrot as [[Hp _] Hrows _ Hfree _ _ _]. rewrite Hrows, lookup_insert_ne by congruence.
  by rewrite lookup_alter_eq, Hp.
Qed.

Lemma finalize_returns id actor :
  identities d !! id = Some i →
  returns (@finalize W2 id actor) (fun _ s' =>
    credentials (saved s') = alter (retired (@w_now W2 0)) (cr_id p) (credentials d1)) (open_session d1).
Proof.
  intros Hi. unfold finalize, with_identity. apply wp_bind, wp_get_row. cbn [db open_session].
  rewrite (@ro_identities W1 _ _ _ _ _ _ _ _ Hrot), Hi. apply wp_bind. unfold finalize_rotation. apply wp_bind, wp_gets.
  cbn [db open_session]. rewrite (@pending_is_new W1 d d1 i now until token p n Hkey Hnew Hrot).
  destruct (@ro_new W1 _ _ _ _ _ _ _ _ Hrot) as (_ & _ & Hpar & _). apply wp_bind, wp_gets. cbn [db open_session].
  rewrite Hpar. cbn [mbind option_bind]. rewrite prior_row. apply wp_bind, wp_utc_now. intros t ->.
  apply wp_bind, wp_alter, wp_append_event. intros s' _ Hcr _. apply wp_commit. cbn. by rewrite Hcr.
Qed.

Lemma rollback_returns id actor :
  identities d !! id = Some i → @w_now W2 0 < until →
  returns (@rollback_rotation W2 id actor) (fun _ s' =>
    credentials (saved s') = alter restored (cr_id p) (alter (withdrawn (@w_now W2 0)) (cr_id n) (credentials d1)))
    (open_session d1).
Proof.
  intros Hi Hlt. unfold rollback_rotation, with_identity. apply wp_bind, wp_get_row. cbn [db open_session].
  rewrite (@ro_identities W1 _ _ _ _ _ _ _ _ Hrot), Hi. apply wp_bind. unfold finalize_rotation. apply wp_bind, wp_gets.
  cbn [db open_session]. rewrite (@pending_is_new W1 d d1 i now until token p n Hkey Hnew Hrot).
  destruct (@ro_new W1 _ _ _ _ _ _ _ _ Hrot) as (_ & _ & Hpar & _). apply wp_bind, wp_gets. cbn [db open_session].
  rewrite Hpar. cbn [mbind option_bind]. rewrite prior_row. apply wp_bind, wp_utc_now. intros t ->.
  cbn [clock open_session in_overlap]. apply wp_if; intros Hexp; [apply Z.leb_le in Hexp; cbn in Hexp; lia|].
  apply wp_bind, wp_alter, wp_bind, wp_alter, wp_append_event. intros s' _ Hcr _. apply wp_commit. cbn. by rewrite Hcr.
Qed.
End finishing.

(** credential [cid] honours [token] at [now] *)
Definition honours `{World} (d : database) (token : string) (now : datetime) (cid : uuid) : Prop :=
  ∃ c, cr_id c = cid ∧ presents d token now c.

Section handover.
Context `{World}.

Lemma accepts_row d token now cid c :
  credentials d !! cid = Some c → cr_id c = cid → honours d token now cid ↔ presents d token now c.
Proof.
  intros Hrow Hid. split.
  - intros (c' & <- & Hc). destruct Hc as [Hrow' ? ? ? ? ?]. replace c with c' by congruence. by constructor.
  - intros Hc. by exists c.
Qed.

Lemma refused_row d token now cid c t :
  credentials d !! cid = Some c → cr_revoked_at c = Some t → ¬ honours d token now cid.
Proof. intros Hrow Hrev (c' & <- & []). congruence. Qed.

Lemma new_accepts d d1 i now0 until token p n now :
  rotated d d1 i now0 until token p n →
  honours d1 token now (cr_id n) ↔ now < Z.min (wi_expires_at i) (now0 + days 90).
Proof.
  intros [_ Hrows _ _ _ (_ & _ & _ & Hact & Hrev & _ & Hexp) [Hext Hdig]].
  assert (Hrow : credentials d1 !! cr_id n = Some n) by by rewrite Hrows, lookup_insert_eq.
  rewrite (accepts_row _ _ _ _ n) by done. split.
  - intros [_ _ _ _ E _]. by apply E.
  - intros Hlt. constructor; try done; [by rewrite Hexp; intros ? [= <-]|by rewrite Hact].
Qed.

Lemma prior_accepts d d1 i now0 until token p n t now :
  rotated d d1 i now0 until token p n → honours d t now (cr_id p) → honours d1 t now (cr_id p) ↔ now < until.
Proof.
  intros Hrot Hacc. pose proof (prior_row _ d d1 i now0 until token p n Hrot) as Hrow.
  destruct (ro_prior _ _ _ _ _ _ _ _ Hrot) as (Hp & _). apply (accepts_row _ _ _ _ p) in Hacc; [|done..].
  rewrite (accepts_row _ _ _ _ (in_overlap until p)) by done. destruct Hacc. split.
  - intros [_ _ _ _ _ E]. by apply E.
  - intros Hlt. constructor; try done. by intros _ ? [= <-].
Qed.

Lemma restored_accepts d t now c cid d2 :
  honours d t now cid → credentials d !! cid = Some c → cr_id c = cid → credentials d2 !! cid = Some (restored c) →
  honours d2 t now cid.
Proof.
  intros Hacc Hrow Hid Hrow2. apply (accepts_row _ _ _ _ c) in Hacc; [|done..]. destruct Hacc.
  apply (accepts_row _ _ _ _ (restored c)); [done..|]. constructor; try done. by rewrite <- Hid in Hrow2.
Qed.
End handover.

Lemma returns_request {A} (m : Sess A) Q d :
  returns m Q (open_session d) → ∃ a s', request m d = (Ok a, saved s') ∧ Q a s'.
Proof. intros (a & s' & E & HQ)%returns_run. exists a, s'. unfold request. by rewrite E. Qed.

(** C31. Rotating the credential of a workload identity hands over without a gap and
    without two masters afterwards. During the overlap both tokens are accepted:
    the new one until its own expiry (the identity's, at most ninety days), the
    prior one until the overlap ends. Finalizing the rotation then succeeds, the
    prior credential is never accepted again and the new one is unaffected;
    rolling it back before the overlap ends also succeeds, the new credential is
    never accepted again, and every token the prior credential accepted before the
    rotation is accepted as before. *)
Theorem rotation_hands_over (W1 W2 : World) id actor actor' overlap d n token pid d1 :
  credentials_ok d → @good_entropy W1 → (∀ j c, credentials d !! j = Some c → cr_created_at c < @w_server_now W1) →
  request (@rotate_credential W1 id actor overlap) d = (Ok (n, token, pid), d1) →
  (∃ i, identities d !! id = Some i ∧
    ∀ now, @honours W1 d1 token now (cr_id n) ↔ now < Z.min (wi_expires_at i) (@w_now W1 0 + days 90)) ∧
  (∀ t now, @honours W1 d t now pid → @honours W1 d1 t now pid ↔ now < @w_now W1 0 + seconds overlap) ∧
  (∃ d2, request (@finalize W2 id actor') d1 = (Ok tt, d2) ∧
    (∀ t now, ¬ @honours W1 d2 t now pid) ∧
    ∀ t now, @honours W1 d2 t now (cr_id n) ↔ @honours W1 d1 t now (cr_id n)) ∧
  (@w_now W2 0 < @w_now W1 0 + seconds overlap →
   ∃ d2, request (@rollback_rotation W2 id actor') d1 = (Ok tt, d2) ∧
    (∀ t now, ¬ @honours W1 d2 t now (cr_id n)) ∧
    ∀ t now, @honours W1 d t now pid → @honours W1 d2 t now pid).
Proof.
  intros Hok Hent Hnew E. pose proof (wp_rotate_credential id actor overlap d Hok Hent) as Hwp.
  unfold wp in Hwp. unfold request in E. destruct (rotate_credential id actor overlap (open_session d)) as [[[[n' token'] pid']|] s']; [|done].
  injection E as -> -> -> <-. destruct Hwp as (i & p & Hi & -> & Hrot).
  assert (Hn : ∀ j c, credentials d !! j = Some c → cr_created_at c < cr_created_at n).
  { destruct (ro_new _ _ _ _ _ _ _ _ Hrot) as (_ & _ & _ & _ & _ & -> & _). done. }
  assert (Hrow : credentials (saved s') !! cr_id n = Some n) by by rewrite (ro_rows _ _ _ _ _ _ _ _ Hrot), lookup_insert_eq.
  pose proof (prior_row _ _ _ _ _ _ _ _ _ Hrot) as Hprior. destruct (ro_prior _ _ _ _ _ _ _ _ Hrot) as (Hp & _).
  assert (Hne : cr_id p ≠ cr_id n) by (pose proof (ro_fresh _ _ _ _ _ _ _ _ Hrot); congruence).
  split; [exists i; split; [done|]; intros now; by eapply new_accepts|].
  split; [intros t now; by eapply prior_accepts|]. split.
  - destruct (returns_request _ _ _ (finalize_returns W1 W2 _ _ _ _ _ _ _ _ (proj1 Hok) Hn Hrot id actor' Hi)) as ([] & s2 & Hreq & Hrows).
    exists (saved s2). split; [exact Hreq|]. split.
    + intros t now. eapply refused_row; [by rewrite Hrows, lookup_alter_eq, Hprior|done].
    + intros t now. assert (Hrow2 : credentials (saved s2) !! cr_id n = Some n) by by rewrite Hrows, lookup_alter_ne.
      rewrite !(accepts_row _ _ _ _ n) by done. by split; apply presents_move.
  - intros Hlt. destruct (returns_request _ _ _ (rollback_returns W1 W2 _ _ _ _ _ _ _ _ (proj1 Hok) Hn Hrot id actor' Hi Hlt)) as ([] & s2 & Hreq & Hrows).
    exists (saved s2). split; [exact Hreq|]. split.
    + intros t now. eapply refused_row; [by rewrite Hrows, lookup_alter_ne, lookup_alter_eq, Hrow|done].
    + intros t now Hacc. eapply restored_accepts; [exact Hacc|done..|].
      by rewrite Hrows, lookup_alter_eq, lookup_alter_ne, Hprior.
Qed.

(** ** A worker under enforcement *)
Definition guard_token : string := "swarm_ag_fedcba_c2VjcmV0".

Definition guard_identity : WorkloadIdentity :=
  mkWorkloadIdentity 20 1 2 3 "1.0.0" "vm1" "control-plane" ["identity:read"; "task:lease"] "founder" JNull
    "identity-digest" "active" epoch (epoch + days 30) "founder" epoch None None None.

Definition guard_credential : AgentCredential :=
  mkAgentCredential 21 1 (Some 20%N) None "active" None "fedcba" (@digest_agent_token (at_time 1) guard_token)
    epoch None None None.

Definition guarded_db : database :=
  demo_db <| identities := {[ 20%N := guard_identity ]} |>
          <| credentials := {[ 21%N := guard_credential ]} |>
          <| identity_control := Some (mkWorkloadIdentityControl true POLICY_VERSION "policy-digest" None None epoch) |>
          <| next_id := 30%N |>.

Lemma guarded_credential i a : credentials guarded_db !! i = Some a → i = 21%N ∧ a = guard_credential.
Proof.
  change (credentials guarded_db) with ({[ 21%N := guard_credential ]} : gmap uuid AgentCredential).
  by intros [<- <-]%lookup_singleton_Some.
Qed.

Lemma guarded_identity i a : identities guarded_db !! i = Some a → a = guard_identity.
Proof.
  change (identities guarded_db) with ({[ 20%N := guard_identity ]} : gmap uuid WorkloadIdentity).
  by intros [_ <-]%lookup_singleton_Some.
Qed.

Lemma guarded_ok : credentials_ok guarded_db.
Proof.
  split; [by intros i a [-> ->]%guarded_credential|].
  by intros i j a b [-> ->]%guarded_credential [-> ->]%guarded_credential.
Qed.

Lemma get_current_agent_spec_witness :
  ∃ c, @admitted (at_time 1) guarded_db "GET" "/v1/agent/me" (Some guard_token) (@w_now (at_time 1) 0) worker c.
Proof.
  pose proof (@get_current_agent_spec (at_time 1) "GET" "/v1/agent/me" (Some guard_token) guarded_db guarded_ok) as Hspec.
  assert (E : (request (@get_current_agent (at_time 1) "GET" "/v1/agent/me" (Some guard_token)) guarded_db).1 = Ok worker)
    by (vm_compute; reflexivity).
  destruct (request _ _) as [[a|e] d']; [|discriminate]. injection E as ->. destruct Hspec as (c & Hadm & _). by exists c.
Defined.

Definition guard_emergency : WorkloadEmergencyGrantCreate :=
  mkWorkloadEmergencyGrantCreate 20 ["task:halt"] "Runaway worker on vm1." "founder" "auditor" "INC-1" (epoch + seconds 600).

Lemma guarded_reduction_only : reduction_only guarded_db.
Proof. intros id g. change (emergency_grants guarded_db) with (∅ : gmap uuid WorkloadEmergencyGrant). by rewrite lookup_empty. Qed.

Lemma emergency_access_is_inert_witness :
  reduction_only (request (@emergency_grant (at_time 1) guard_emergency) guarded_db).2 ∧
  (∃ a d', request (@get_current_agent (at_time 1) "GET" "/v1/agent/me" (Some guard_token)) guarded_db = (Ok a, d')) ∧
  ∃ i, wi_id i = 20%N ∧ required_scope "GET" "/v1/agent/me" ∈ wi_scopes i.
Proof.
  destruct (@emergency_access_is_inert (at_time 1) guard_emergency "GET" "/v1/agent/me" (Some guard_token) guarded_db
    guarded_ok guarded_reduction_only) as [Hred Hreq].
  assert (E : ∃ d', request (@get_current_agent (at_time 1) "GET" "/v1/agent/me" (Some guard_token)) guarded_db = (Ok worker, d'))
    by (eexists; vm_compute; reflexivity).
  destruct E as (d' & E). split; [exact Hred|]. split; [by exists worker, d'|].
  assert (Hon : enforced guarded_db) by (eexists; split; reflexivity).
  destruct (Hreq Hon worker d' E) as (c & i & [(? & _ & Hc) _] & Hi & Hin). exists i. split; [|exact Hin].
  destruct Hi as [Hb _ _ _ _]. destruct Hc as [Hrow _ _ _ _ _].
  apply guarded_credential in Hrow as [_ ->]. by apply guarded_identity in Hb as ->.
Defined.

Lemma rotation_hands_over_witness :
  ∃ n token pid d1, request (@rotate_credential (at_time 1) 20 "founder" 300) guarded_db = (Ok (n, token, pid), d1) ∧
    pid = 21%N ∧ @honours (at_time 1) d1 token (epoch + seconds 60) (cr_id n) ∧
    ∃ d2, request (@finalize (at_time 60) 20 "founder") d1 = (Ok tt, d2) ∧
      ∀ t now, ¬ @honours (at_time 1) d2 t now pid.
Proof.
  assert (E : ∃ n token d1, request (@rotate_credential (at_time 1) 20 "founder" 300) guarded_db = (Ok (n, token, 21%N), d1))
    by (do 3 eexists; vm_compute; reflexivity).
  destruct E as (n & token & d1 & E).
  assert (Hent : @good_entropy (at_time 1)) by (split; [intros i; split; reflexivity|intros i; reflexivity]).
  assert (Hnew : ∀ j c, credentials guarded_db !! j = Some c → cr_created_at c < @w_server_now (at_time 1)).
  { by intros j c [_ ->]%guarded_credential. }
  destruct (rotation_hands_over (at_time 1) (at_time 60) 20 "founder" "founder" 300 guarded_db n token 21%N d1
    guarded_ok Hent Hnew E) as ((i & Hi & Hn) & _ & (d2 & Hfin & Hgone & _) & _).
  exists n, token, 21%N, d1. split; [exact E|]. split; [reflexivity|]. split; [|by exists d2].
  apply Hn. by apply guarded_identity in Hi as ->.
Defined.
