(* ===== verification/Runbooks.v ===== *)
(** * Runbook packages

    [schemas/runbook_package.py], [services/runbook_packages.py] and
    [routes/runbook_packages.py]: signed manifests of privileged operations and
    their promotion from draft to deployed. *)
From S2P Require Import Prelude Py Sha256 Models Store Logic.

Open Scope Z_scope.

(** ** The validators of [schemas/runbook_package.py] *)
Definition PARAMETER_TYPES : list string := ["string"; "integer"; "boolean"; "cidr-list"].
Definition SERVICE_CLASSES : list string :=
  ["platform"; "docker"; "redis"; "postgres"; "storage"; "certificate"; "backup"; "health"].
Definition CATEGORIES : list string :=
  ["docker"; "redis"; "postgres"; "storage"; "certificate"; "backup"; "health"].
Definition INFRASTRUCTURE_TASKS : list string := ["infrastructure_observation"; "infrastructure_operation"].

Definition length_within (low high : Z) (s : string) : bool := within low high (Z.of_nat (String.length s)).
Definition size_within {A} (low high : Z) (l : list A) : bool := within low high (Z.of_nat (length l)).
Definition opt_all {A} (p : A → bool) (o : option A) : bool := from_option p true o.

(** two lengths agree: [len(set(xs)) == len(xs)] *)
Definition all_distinct (xs : list string) : bool := Nat.eqb (length (sorted_set xs)) (length xs).

Definition constraints_match_type (p : ParameterDefinition) : bool :=
  (str_eqb (rpd_type p) "integer" || bool_decide (rpd_minimum p = None) && bool_decide (rpd_maximum p = None)) &&
  match rpd_minimum p, rpd_maximum p with Some low, Some high => low <=? high | _, _ => true end &&
  (str_eqb (rpd_type p) "string" || bool_decide (rpd_allowed_values p = [])).

Definition valid_parameter (p : ParameterDefinition) : bool :=
  str_in (rpd_type p) PARAMETER_TYPES && size_within 0 50 (rpd_allowed_values p) && constraints_match_type p.

Definition valid_target_profile (t : TargetProfile) : bool :=
  Str.kebab (rtp_name t) && Str.kebab (rtp_machine t) &&
  str_in (rtp_environment t) ["rehearsal"; "staging"; "production"] && str_in (rtp_service_class t) SERVICE_CLASSES &&
  size_within 0 20 (rtp_writable_roots t) && opt_all (length_within 0 255) (rtp_private_endpoint t) &&
  opt_all (length_within 0 253) (rtp_dns_name t).

Definition valid_preflight (p : PreflightContract) : bool :=
  size_within 1 30 (rpf_checks p) && str_eqb (rpf_failure_mode p) "block".

Definition valid_rehearsal (r : RehearsalContract) : bool :=
  Str.kebab (rhc_target_profile r) && within 1 720 (rhc_max_evidence_age_hours r) && size_within 1 30 (rhc_required_evidence r).

Definition valid_rollback (r : RollbackDefinition) : bool :=
  Str.kebab (rbk_operation r) && size_within 1 20 (rbk_triggers r) && within 1 3600 (rbk_timeout_seconds r) &&
  size_within 1 20 (rbk_required_evidence r).

Definition mutation_has_rollback (o : PackagedOperation) : bool :=
  negb (str_eqb (rpo_task_type o) "infrastructure_operation") ||
  rpo_approval_required o && negb (bool_decide (rpo_rollback o = None)).

(** the fields of an operation, before its own validator *)
Definition valid_operation_fields (o : PackagedOperation) : bool :=
  Str.kebab (rpo_name o) && str_in (rpo_category o) CATEGORIES && str_in (rpo_task_type o) INFRASTRUCTURE_TASKS &&
  Str.kebab (rpo_target_profile o) && within 0 5 (rpo_risk_level o) &&
  forallb (fun kv => valid_parameter kv.2) (rpo_parameters o) && valid_preflight (rpo_preflight o) &&
  size_within 1 30 (rpo_evidence o) && opt_all valid_rollback (rpo_rollback o).

Definition valid_operation (o : PackagedOperation) : bool := valid_operation_fields o && mutation_has_rollback o.

Definition references_exist (m : RunbookPackageManifest) : bool :=
  let targets := rtp_name <$> rpm_target_profiles m in
  all_distinct targets && str_in (rhc_target_profile (rpm_rehearsal m)) targets &&
  all_distinct (rpo_name <$> rpm_operations m) &&
  forallb (fun o => str_in (rpo_target_profile o) targets) (rpm_operations m).

(** the manifest, whose operations satisfy [operation] *)
Definition valid_runbook_manifest (operation : PackagedOperation → bool) (m : RunbookPackageManifest) : bool :=
  (rpm_schema_version m =? 1) && Str.kebab (rpm_name m) && Str.dotted_version (rpm_version m) &&
  length_within 1 300 (rpm_description m) && size_within 1 20 (rpm_target_profiles m) &&
  forallb valid_target_profile (rpm_target_profiles m) && valid_rehearsal (rpm_rehearsal m) &&
  size_within 1 50 (rpm_operations m) && forallb operation (rpm_operations m) && references_exist m.

Definition valid_package_create (p : RunbookPackageCreate) : bool :=
  valid_runbook_manifest valid_operation (rkc_manifest p) && Str.hex_between 64 64 (rkc_manifest_digest p) &&
  length_within 64 128 (rkc_signature p) && Str.kebab (rkc_source_repository p) &&
  Str.hex_between 40 64 (rkc_source_commit p) && Str.actor_name (rkc_created_by p).

Definition valid_promotion_create (p : RunbookPromotionCreate) : bool :=
  str_in (rqc_state p) ["draft"; "rehearsed"; "approved"; "deployed"] &&
  opt_all (Str.hex_between 64 64) (rqc_evidence_digest p) &&
  opt_all (length_within 1 150) (rqc_approval_reference p) && Str.actor_name (rqc_recorded_by p).

(** ** [model_dump(mode="json")] *)
Definition opt_json {A} (f : A → json) (o : option A) : json := from_option f JNull o.

Definition parameter_json (p : ParameterDefinition) : json := JObj
  [("type", JStr (rpd_type p)); ("required", JBool (rpd_required p)); ("secret", JBool (rpd_secret p));
   ("minimum", opt_json JInt (rpd_minimum p)); ("maximum", opt_json JInt (rpd_maximum p));
   ("allowed_values", Json.str_list (rpd_allowed_values p))].

Definition target_profile_json (t : TargetProfile) : json := JObj
  [("name", JStr (rtp_name t)); ("machine", JStr (rtp_machine t)); ("environment", JStr (rtp_environment t));
   ("service_class", JStr (rtp_service_class t)); ("writable_roots", Json.str_list (rtp_writable_roots t));
   ("private_endpoint", Json.opt_str (rtp_private_endpoint t)); ("dns_name", Json.opt_str (rtp_dns_name t))].

Definition rollback_json (r : RollbackDefinition) : json := JObj
  [("operation", JStr (rbk_operation r)); ("triggers", Json.str_list (rbk_triggers r));
   ("timeout_seconds", JInt (rbk_timeout_seconds r)); ("required_evidence", Json.str_list (rbk_required_evidence r))].

Definition operation_json (o : PackagedOperation) : json := JObj
  [("name", JStr (rpo_name o)); ("category", JStr (rpo_category o)); ("task_type", JStr (rpo_task_type o));
   ("target_profile", JStr (rpo_target_profile o)); ("risk_level", JInt (rpo_risk_level o));
   ("approval_required", JBool (rpo_approval_required o));
   ("parameters", JObj ((fun kv => (kv.1, parameter_json kv.2)) <$> rpo_parameters o));
   ("preflight", JObj [("checks", Json.str_list (rpf_checks (rpo_preflight o)));
                       ("failure_mode", JStr (rpf_failure_mode (rpo_preflight o)))]);
   ("evidence", Json.str_list (rpo_evidence o)); ("rollback", opt_json rollback_json (rpo_rollback o))].

Definition runbook_manifest_json (m : RunbookPackageManifest) : json := JObj
  [("schema_version", JInt (rpm_schema_version m)); ("name", JStr (rpm_name m)); ("version", JStr (rpm_version m));
   ("description", JStr (rpm_description m)); ("target_profiles", JList (target_profile_json <$> rpm_target_profiles m));
   ("rehearsal", JObj
      [("required", JBool (rhc_required (rpm_rehearsal m)));
       ("target_profile", JStr (rhc_target_profile (rpm_rehearsal m)));
       ("max_evidence_age_hours", JInt (rhc_max_evidence_age_hours (rpm_rehearsal m)));
       ("required_evidence", Json.str_list (rhc_required_evidence (rpm_rehearsal m)))]);
   ("operations", JList (operation_json <$> rpm_operations m))].

Definition canonical_runbook (m : RunbookPackageManifest) : string := Json.dumps (runbook_manifest_json m).

(** ** Registration *)
Definition verify_runbook_package (payload : RunbookPackageCreate) (secret : string) : Sess unit :=
  let document := canonical_runbook (rkc_manifest payload) in
  if negb (str_eqb (sha256 document) (rkc_manifest_digest payload)) then http 422 "Runbook manifest digest mismatch."
  else if negb (str_eqb (hmac_sha256 secret document) (rkc_signature payload)) then
    http 422 "Runbook signature is invalid."
  else mret tt.

(** unique [(name, version)] and [manifest_digest] *)
Definition package_clash (a b : RunbookPackage) : bool :=
  str_eqb (rpk_name a) (rpk_name b) && str_eqb (rpk_version a) (rpk_version b) ||
  str_eqb (rpk_manifest_digest a) (rpk_manifest_digest b).

Section ops.
Context `{World}.

Definition new_package (payload : RunbookPackageCreate) (id : uuid) : RunbookPackage :=
  mkRunbookPackage id (rpm_name (rkc_manifest payload)) (rpm_version (rkc_manifest payload)) (rkc_manifest payload)
    (rkc_manifest_digest payload) (rkc_signature payload) (rkc_source_repository payload) (rkc_source_commit payload)
    (rkc_created_by payload) w_server_now.

Definition register_runbook_package (secret : string) (payload : RunbookPackageCreate) : Sess uuid :=
  if negb (valid_package_create payload) then raise (PyException "ValidationError" "RunbookPackageCreate")
  else
    _ ← verify_runbook_package payload secret;
    id ← fresh_id;
    let package := new_package payload id in
    catch_integrity
      (clash ← select_one runbook_packages (package_clash package);
       match clash with
       | Some _ => integrity_error
       | None => _ ← insert_row runbook_packages id package; _ ← commit; mret id
       end) "Runbook package name/version or digest already exists.".

(** ** Promotion *)
Definition _STATES : list string := ["draft"; "rehearsed"; "approved"; "deployed"].

(** [ORDER BY recorded_at, id] *)
Definition promotion_leb (a b : RunbookPromotion) : bool :=
  (rpr_recorded_at a <? rpr_recorded_at b) ||
  (rpr_recorded_at a =? rpr_recorded_at b) && (rpr_id a <=? rpr_id b)%N.

Definition promotions_of (package_id : uuid) (d : database) : list RunbookPromotion :=
  sort_by promotion_leb
    (List.filter (fun p => bool_decide (rpr_package_id p = package_id)) (table_rows (runbook_promotions d))).

Definition promotion_document (package : RunbookPackage) (payload : RunbookPromotionCreate)
    (previous : option RunbookPromotion) (recorded_at : datetime) : json := JObj
  [("package_id", JStr (uuid_str (rpk_id package))); ("manifest_digest", JStr (rpk_manifest_digest package));
   ("state", JStr (rqc_state payload)); ("evidence_digest", Json.opt_str (rqc_evidence_digest payload));
   ("approval_reference", Json.opt_str (rqc_approval_reference payload));
   ("previous_record_digest", Json.opt_str (rpr_record_digest <$> previous));
   ("recorded_by", JStr (rqc_recorded_by payload)); ("recorded_at", JStr (isoformat recorded_at))].

Definition promotion_record_digest (document : json) : string := digest document.

Definition new_promotion (package : RunbookPackage) (payload : RunbookPromotionCreate)
    (previous : option RunbookPromotion) (recorded_at : datetime) (id : uuid) : RunbookPromotion :=
  mkRunbookPromotion id (rpk_id package) (rqc_state payload) (rqc_evidence_digest payload)
    (rqc_approval_reference payload) (rpr_record_digest <$> previous)
    (promotion_record_digest (promotion_document package payload previous recorded_at))
    (rqc_recorded_by payload) recorded_at.

(** unique [(package_id, state)] and [record_digest] *)
Definition promotion_clash (a b : RunbookPromotion) : bool :=
  bool_decide (rpr_package_id a = rpr_package_id b) && str_eqb (rpr_state a) (rpr_state b) ||
  str_eqb (rpr_record_digest a) (rpr_record_digest b).

Definition needs_reference (payload : RunbookPromotionCreate) : bool :=
  str_in (rqc_state payload) ["approved"; "deployed"] &&
  negb (match rqc_approval_reference payload with Some r => Str.nonempty r | None => false end).

Definition promote_runbook_package (package : RunbookPackage) (payload : RunbookPromotionCreate) : Sess uuid :=
  promotions ← gets (promotions_of (rpk_id package));
  if negb (bool_decide (rpr_state <$> promotions = take (length promotions) _STATES)) then
    http 409 "Promotion chain is invalid."
  else if negb (bool_decide (_STATES !! length promotions = Some (rqc_state payload))) then
    http 409 "Promotion must be sequential."
  else if negb (str_eqb (rqc_state payload) "draft") && bool_decide (rqc_evidence_digest payload = None) then
    http 422 "Promotion evidence is required."
  else if needs_reference payload then http 422 "Approval reference is required."
  else
    recorded_at ← utc_now;
    id ← fresh_id;
    let promotion := new_promotion package payload (last promotions) recorded_at id in
    clash ← select_one runbook_promotions (promotion_clash promotion);
    match clash with
    | Some _ => integrity_error
    | None => _ ← insert_row runbook_promotions id promotion; _ ← commit; mret id
    end.

Definition promote_runbook (package_id : uuid) (payload : RunbookPromotionCreate) : Sess uuid :=
  if negb (valid_promotion_create payload) then raise (PyException "ValidationError" "RunbookPromotionCreate")
  else
    package ← get_row runbook_packages package_id;
    match package with
    | None => http 404 "Runbook package not found."
    | Some package => promote_runbook_package package payload
    end.
End ops.
