(* ===== verification/Packages.v ===== *)
(** * Role packages

    [schemas/package.py], [services/packages.py] and [routes/packages.py]: the
    signed description of what an agent runs, its registration, its deployment to
    an agent, and the attestation an agent's heartbeat carries. *)
From Stdlib Require Import Ascii.
From S2P Require Import Prelude Py Sha256 Models Store Logic Security Runbooks.

Open Scope Z_scope.

(** ** [schemas/package.py] *)
Definition valid_compatibility (c : CompatibilitySpec) : bool :=
  Str.dotted_version (ct_worker_version_min c) && Str.dotted_version (ct_worker_version_max_exclusive c).

Definition valid_permission_profile (p : PermissionProfile) : bool :=
  Str.kebab (pp_name p) && str_in (pp_network_access p) ["none"; "control-plane"] && size_within 0 20 (pp_writable_roots p).

Definition valid_repository_profile (r : RepositoryProfile) : bool := size_within 0 50 (rp_repositories r).

(** [^[A-Za-z0-9][A-Za-z0-9._-]*\.yaml$] *)
Definition yaml_file (file : string) : bool := Str.actor_name file && Str.endswith ".yaml" file.

Definition valid_artifact (name file sha256 : string) : bool :=
  Str.kebab name && yaml_file file && Str.hex_between 64 64 sha256.
Definition valid_workflow (w : WorkflowArtifact) : bool := valid_artifact (wf_name w) (wf_file w) (wf_sha256 w).
Definition valid_runbook_artifact (a : RunbookPackageArtifact) : bool := valid_artifact (ra_name a) (ra_file a) (ra_sha256 a).

(** [^[a-z0-9][a-z0-9_-]*$] *)
Definition safe_name (s : string) : bool :=
  match Str.chars s with
  | [] => false
  | c :: l => Str.is_lower_alnum c &&
      forallb (fun c => Str.is_lower_alnum c || Ascii.eqb c "_" || Ascii.eqb c "-") l
  end.
Definition unique_values (values : list string) : bool := all_distinct values && forallb safe_name values.

Definition non_executing : list string :=
  ["founder_request"; "operational_memory"; "research_intelligence"; "scientific_ingestion_recovery";
   "fleet_observation"].

(** only packages that execute nothing may omit workflows or repositories *)
Definition executes_somewhere (m : RolePackageManifest) : bool :=
  let reasoning := str_subset (pm_task_types m) non_executing in
  (reasoning || negb (bool_decide (pm_workflows m = []))) &&
  (reasoning || negb (bool_decide (rp_repositories (pm_repository_profile m) = []))).

Definition enforce_restrictions (m : RolePackageManifest) : bool :=
  negb (pp_privileged_operations (pm_permission_profile m)) &&
  negb (rp_primary_checkout_write (pm_repository_profile m)) && negb (rp_remote_write (pm_repository_profile m)) &&
  executes_somewhere m.

Definition valid_package_fields (m : RolePackageManifest) : bool :=
  Str.kebab (pm_name m) && Str.dotted_version (pm_version m) && length_within 1 150 (pm_role m) &&
  size_within 1 50 (pm_task_types m) && size_within 0 50 (pm_workflows m) && forallb valid_workflow (pm_workflows m) &&
  size_within 0 50 (pm_runbook_packages m) && forallb valid_runbook_artifact (pm_runbook_packages m) &&
  size_within 1 50 (pm_required_capabilities m) && size_within 1 50 (pm_allowed_machines m) &&
  within 0 5 (pm_risk_ceiling m) && valid_compatibility (pm_compatibility m) &&
  valid_permission_profile (pm_permission_profile m) && valid_repository_profile (pm_repository_profile m).

Definition distinct_artifacts (m : RolePackageManifest) : bool :=
  all_distinct (wf_name <$> pm_workflows m) && all_distinct (ra_name <$> pm_runbook_packages m).

Definition valid_package_manifest (m : RolePackageManifest) : bool :=
  valid_package_fields m && unique_values (pm_task_types m) && unique_values (pm_required_capabilities m) &&
  unique_values (pm_allowed_machines m) && distinct_artifacts m && enforce_restrictions m.

Definition valid_role_package_create (p : RolePackageCreate) : bool :=
  valid_package_manifest (rpc_manifest p) && Str.hex_between 64 64 (rpc_manifest_digest p) &&
  length_within 64 128 (rpc_signature p) && Str.kebab (rpc_source_repository p) &&
  Str.hex_between 40 64 (rpc_source_commit p) && Str.actor_name (rpc_created_by p).

Definition valid_deployment_create (p : PackageDeploymentCreate) : bool := Str.actor_name (pdc_deployed_by p).

(** [manifest.model_dump(mode="json")] *)
Definition artifact_json (name file sha256 : string) : json :=
  JObj [("name", JStr name); ("file", JStr file); ("sha256", JStr sha256)].

Definition permission_json (p : PermissionProfile) : json := JObj
  [("name", JStr (pp_name p)); ("network_access", JStr (pp_network_access p));
   ("privileged_operations", JBool (pp_privileged_operations p)); ("writable_roots", Json.str_list (pp_writable_roots p))].

Definition repository_json (r : RepositoryProfile) : json := JObj
  [("repositories", Json.str_list (rp_repositories r)); ("primary_checkout_write", JBool (rp_primary_checkout_write r));
   ("remote_write", JBool (rp_remote_write r))].

Definition package_manifest_json (m : RolePackageManifest) : json := JObj
  [("schema_version", JInt 1); ("name", JStr (pm_name m)); ("version", JStr (pm_version m)); ("role", JStr (pm_role m));
   ("task_types", Json.str_list (pm_task_types m));
   ("workflows", JList ((fun w => artifact_json (wf_name w) (wf_file w) (wf_sha256 w)) <$> pm_workflows m));
   ("runbook_packages", JList ((fun a => artifact_json (ra_name a) (ra_file a) (ra_sha256 a)) <$> pm_runbook_packages m));
   ("required_capabilities", Json.str_list (pm_required_capabilities m));
   ("allowed_machines", Json.str_list (pm_allowed_machines m)); ("risk_ceiling", JInt (pm_risk_ceiling m));
   ("compatibility", JObj [("worker_version_min", JStr (ct_worker_version_min (pm_compatibility m)));
                           ("worker_version_max_exclusive", JStr (ct_worker_version_max_exclusive (pm_compatibility m)))]);
   ("permission_profile", permission_json (pm_permission_profile m));
   ("repository_profile", repository_json (pm_repository_profile m))].

Definition canonical_package (m : RolePackageManifest) : string := Json.dumps (package_manifest_json m).

Section ops.
Context `{World}.

(** ** Registration *)
Definition verify_package (payload : RolePackageCreate) (signing_secret : string) : Sess unit :=
  let document := canonical_package (rpc_manifest payload) in
  if negb (str_eqb (sha256 document) (rpc_manifest_digest payload)) then
    http 422 "Manifest digest does not match canonical package content."
  else if negb (str_eqb (hmac_sha256 signing_secret document) (rpc_signature payload)) then
    http 422 "Package signature verification failed."
  else mret tt.

(** unique (name, version) and unique manifest_digest *)
Definition role_package_clash (a b : RolePackage) : bool :=
  str_eqb (pk_name a) (pk_name b) && str_eqb (pk_version a) (pk_version b) ||
  str_eqb (pk_manifest_digest a) (pk_manifest_digest b).

Definition new_role_package (payload : RolePackageCreate) (id : uuid) : RolePackage :=
  mkRolePackage id (pm_name (rpc_manifest payload)) (pm_version (rpc_manifest payload)) (rpc_manifest payload)
    (rpc_manifest_digest payload) (rpc_signature payload) (rpc_source_repository payload) (rpc_source_commit payload)
    (rpc_created_by payload) w_server_now.

Definition register_package (secret : string) (payload : RolePackageCreate) : Sess uuid :=
  if negb (valid_role_package_create payload) then raise (PyException "ValidationError" "RolePackageCreate")
  else
    _ ← verify_package payload secret;
    id ← fresh_id;
    catch_integrity
      (let package := new_role_package payload id in
       clash ← select_one packages (role_package_clash package);
       match clash with
       | Some _ => integrity_error
       | None => _ ← insert_row packages id package; _ ← commit; mret id
       end)
      "Package name/version or digest is already registered.".

(** ** Deployment *)
Definition deployable (agent : Agent) (m : RolePackageManifest) : Sess unit :=
  if negb (str_in (ag_machine agent) (pm_allowed_machines m)) then http 422 "Package does not allow this machine."
  else if pm_risk_ceiling m <? ag_risk_ceiling agent then http 422 "Agent risk ceiling exceeds package ceiling."
  else if negb (str_subset (pm_required_capabilities m) (ag_capabilities agent)) then
    http 422 "Agent lacks package capabilities."
  else mret tt.

Definition deploy_package (payload : PackageDeploymentCreate) : Sess uuid :=
  if negb (valid_deployment_create payload) then raise (PyException "ValidationError" "PackageDeploymentCreate")
  else
    agent ← get_row agents (pdc_agent_id payload);
    package ← get_row packages (pdc_package_id payload);
    match agent, package with
    | Some agent, Some package =>
        _ ← deployable agent (pk_manifest package);
        id ← fresh_id;
        catch_integrity
          (let deployment := mkPackageDeployment id (pdc_agent_id payload) (pdc_package_id payload) true
             (pdc_deployed_by payload) w_server_now None in
           (* unique (agent_id, package_id) *)
           clash ← select_one deployments (fun x =>
             bool_decide (pd_agent_id x = pdc_agent_id payload) && bool_decide (pd_package_id x = pdc_package_id payload));
           match clash with
           | Some _ => integrity_error
           | None => _ ← insert_row deployments id deployment; _ ← commit; mret id
           end)
          "Deployment already exists."
    | _, _ => http 404 "Agent or package not found."
    end.

Definition revoke_deployment (deployment_id : uuid) : Sess unit :=
  deployment ← get_row deployments deployment_id;
  match deployment with
  | None => http 404 "Deployment not found."
  | Some deployment =>
      if pd_is_active deployment then
        now ← utc_now;
        _ ← alter_row deployments deployment_id (fun x => x <| pd_is_active := false |> <| pd_revoked_at := Some now |>);
        commit
      else mret tt
  end.

(** ** Attestation *)

(** the package the agent says it runs is deployed to it *)
Definition attested (d : database) (agent_id : uuid) (digest name version : string) (p : RolePackage) : bool :=
  existsb (fun x => bool_decide (pd_package_id x = pk_id p) && bool_decide (pd_agent_id x = agent_id) && pd_is_active x)
    (table_rows (deployments d)) &&
  str_eqb (pk_manifest_digest p) digest && str_eqb (pk_name p) name && str_eqb (pk_version p) version.

Definition verify_agent_package_attestation (agent : Agent) (heartbeat : AgentHeartbeat) : Sess unit :=
  let read k := Json.get k (ahb_metadata heartbeat) ≫= Json.as_str in
  match read "role_package_digest", read "role_package", read "role_package_version" with
  | Some digest, Some name, Some version =>
      deployed ← gets (fun d => List.find (attested d (ag_id agent) digest name version) (table_rows (packages d)));
      match deployed with
      | None => http 409 "Role-package attestation does not match an active deployment."
      | Some _ => mret tt
      end
  | _, _, _ => http 409 "A complete role-package attestation is required."
  end.
End ops.
