(* ===== verification/Agents.v ===== *)
(** * Agents

    [services/agents.py], [routes/agents.py] and [routes/agent_runtime.py]:
    registration and revocation of agents, their credentials and presence, and the
    heartbeat by which an agent reports itself. *)
From S2P Require Import Prelude Py Sha256 Models Store Logic Security Runbooks WorkloadIdentity Packages.

Open Scope Z_scope.

(** ** [schemas/agent.py] *)
Definition valid_agent_create (p : AgentCreate) : bool :=
  length_within 3 100 (agc_slug p) && Str.kebab (agc_slug p) && length_within 1 200 (agc_display_name p) &&
  length_within 1 150 (agc_role p) && length_within 1 100 (agc_machine p) && length_within 1 150 (agc_hermes_profile p) &&
  within 0 5 (agc_risk_ceiling p).

Definition valid_agent_heartbeat (p : AgentHeartbeat) : bool :=
  str_in (ahb_status p) ["idle"; "busy"; "degraded"] && length_within 1 100 (ahb_runtime p) &&
  opt_all (length_within 0 100) (ahb_runtime_version p).

(** ** [services/agents.py] *)
Definition ONLINE_THRESHOLD_SECONDS : Z := 90.
Definition DEGRADED_THRESHOLD_SECONDS : Z := 300.

Definition calculate_presence (agent : Agent) (now : datetime) : string :=
  if negb (ag_is_enabled agent) then "revoked"
  else
    match ag_last_heartbeat_at agent with
    | None => "offline"
    | Some t =>
        let elapsed := now - t in
        if elapsed <=? seconds ONLINE_THRESHOLD_SECONDS then "online"
        else if elapsed <=? seconds DEGRADED_THRESHOLD_SECONDS then "degraded" else "offline"
    end.

Section ops.
Context `{World}.

Definition issue_agent_credential (agent_id : uuid) : Sess (AgentCredential * string) :=
  generated ← create_agent_token;
  id ← fresh_id;
  let credential := mkAgentCredential id agent_id None None "active" None (ac_prefix generated) (ac_digest generated)
    w_server_now None None None in
  (* unique token_prefix *)
  clash ← select_one credentials (fun c => str_eqb (cr_token_prefix c) (ac_prefix generated));
  match clash with
  | Some _ => integrity_error
  | None => _ ← insert_row credentials id credential; mret (credential, ac_token generated)
  end.

Definition revoke_active_credentials (agent_id : uuid) (now : datetime) : Sess Z :=
  live ← select_rows credentials (fun c =>
    bool_decide (cr_agent_id c = agent_id) && bool_decide (cr_revoked_at c = None));
  _ ← for_each live (fun c => alter_row credentials (cr_id c) (fun c => c <| cr_revoked_at := Some now |>));
  mret (Z.of_nat (length live)).

(** ** [routes/agents.py] *)
Definition new_agent (p : AgentCreate) (id : uuid) : Agent :=
  mkAgent id (agc_slug p) (agc_display_name p) (agc_role p) (agc_machine p) (agc_hermes_profile p) None None "offline"
    (agc_capabilities p) [] (agc_risk_ceiling p) true None w_server_now w_server_now.

Definition register_agent (payload : AgentCreate) : Sess (uuid * string) :=
  if negb (valid_agent_create payload) then raise (PyException "ValidationError" "AgentCreate")
  else
    existing ← select_one agents (fun a => str_eqb (ag_slug a) (agc_slug payload));
    match existing with
    | Some _ => http 409 "An agent with this slug already exists."
    | None =>
        id ← fresh_id;
        catch_integrity
          (_ ← insert_row agents id (new_agent payload id);
           issued ← issue_agent_credential id;
           _ ← commit;
           mret (id, issued.2))
          "Agent registration conflicted with existing data."
    end.

Definition with_agent {A} (agent_id : uuid) (f : Agent → Sess A) : Sess A :=
  agent ← get_row agents agent_id;
  match agent with
  | None => http 404 "Agent not found."
  | Some agent => f agent
  end.

Definition rotate_agent_credential (agent_id : uuid) : Sess (AgentCredential * string) :=
  with_agent agent_id (fun agent =>
    if negb (ag_is_enabled agent) then http 409 "Cannot rotate credentials for a disabled agent."
    else
      state ← control;
      if wc_enforcement_active state then
        http 409 "Workload identity enforcement is active; use the scoped credential rotation lifecycle."
      else
        now ← utc_now;
        _ ← revoke_active_credentials agent_id now;
        issued ← issue_agent_credential agent_id;
        _ ← commit;
        mret issued).

(** every write of an agent's row through the session stamps [updated_at] *)
Definition alter_agent (agent_id : uuid) (f : Agent → Agent) : Sess unit :=
  alter_row agents agent_id (fun a => f a <| ag_updated_at := w_server_now |>).

Definition revoke_agent (agent_id : uuid) : Sess Z :=
  with_agent agent_id (fun _ =>
    now ← utc_now;
    revoked ← revoke_active_credentials agent_id now;
    _ ← alter_agent agent_id (fun a => a <| ag_is_enabled := false |> <| ag_status := "revoked" |>);
    _ ← commit;
    mret revoked).

(** ** [routes/agent_runtime.py] *)

(** the agent and its presence *)
Definition get_agent_identity (agent : Agent) : Sess (Agent * string) :=
  now ← utc_now; mret (agent, calculate_presence agent now).

Definition report (p : AgentHeartbeat) (now : datetime) (a : Agent) : Agent :=
  let a := a <| ag_status := ahb_status p |> <| ag_runtime := Some (ahb_runtime p) |>
             <| ag_runtime_version := ahb_runtime_version p |> <| ag_heartbeat_metadata := ahb_metadata p |>
             <| ag_last_heartbeat_at := Some now |> in
  match ahb_capabilities p with Some l => a <| ag_capabilities := l |> | None => a end.

Definition receive_heartbeat (payload : AgentHeartbeat) (agent : Agent) : Sess datetime :=
  if negb (valid_agent_heartbeat payload) then raise (PyException "ValidationError" "AgentHeartbeat")
  else
    now ← utc_now;
    _ ← verify_agent_package_attestation agent payload;
    _ ← alter_agent (ag_id agent) (report payload now);
    _ ← commit;
    mret now.
End ops.
