(* ===== verification/Artifacts.v ===== *)
(** * Artifacts

    The artifact endpoint of [routes/governance.py] with its schema: what a worker
    registers about a file it produced. *)
From Stdlib Require Import Ascii.
From S2P Require Import Prelude Py Sha256 Models Store Logic Security TaskCore Runbooks.

Open Scope Z_scope.

(** [value.split("://", 1)] of a location that has a scheme *)
Definition location_path (location : string) : option (string * string) :=
  scheme ← List.find (fun s => Str.startswith (s +:+ "://") location) ["workspace"; "object"];
  Some (scheme, drop_prefix (scheme +:+ "://") location).

(** [^(workspace|object)://[A-Za-z0-9][A-Za-z0-9/_.-]*$] *)
Definition location_pattern (location : string) : bool :=
  match location_path location with
  | None => false
  | Some (_, path) =>
      match Str.chars path with
      | [] => false
      | c :: l => Str.is_alnum c &&
          forallb (fun c => Str.is_alnum c || existsb (Ascii.eqb c) ["/"%char; "_"%char; "."%char; "-"%char]) l
      end
  end.

Definition safe_location (location : string) : bool :=
  match location_path location with
  | None => false
  | Some (_, path) => negb (str_in ".." (Str.split_all "/" path)) && negb (Str.contains "//" path)
  end.

Definition bounded_metadata (metadata : Json.dict) : bool :=
  Z.of_nat (String.length (Json.dumps_spaced false (JObj metadata))) <=? 16384.

Definition valid_artifact_create (p : ArtifactCreate) : bool :=
  Str.nonempty (afc_lease_token p) && str_in (afc_artifact_type p) ["log"; "report"; "result"; "evidence"] &&
  length_within 1 200 (afc_name p) && Str.actor_name (afc_name p) && within 0 10000000000 (afc_size_bytes p) &&
  Str.hex_between 64 64 (afc_sha256 p) && length_within 1 2000 (afc_location p) && location_pattern (afc_location p) &&
  str_in (afc_storage_backend p) ["workspace"; "object"] && length_within 1 100 (afc_workflow p) &&
  length_within 1 50 (afc_workflow_version p) && Str.hex_between 40 64 (afc_source_commit p) &&
  str_in (afc_confidentiality p) ["internal"; "confidential"; "restricted"] &&
  str_in (afc_retention_class p) ["ephemeral"; "standard"; "audit"; "legal"] && safe_location (afc_location p) &&
  bounded_metadata (afc_metadata p).

Section ops.
Context `{World}.

Definition new_artifact (p : ArtifactCreate) (task : Task) (agent_id id : uuid) : Artifact :=
  mkArtifact id (t_id task) agent_id (t_attempt_count task) (afc_artifact_type p) (afc_name p) (afc_size_bytes p)
    (afc_sha256 p) (afc_location p) (afc_storage_backend p) (afc_workflow p) (afc_workflow_version p)
    (afc_source_commit p) (afc_confidentiality p) (afc_retention_class p) "worker-digest" (afc_expires_at p)
    (afc_metadata p) w_server_now.

Definition register_artifact (task_id : uuid) (payload : ArtifactCreate) (agent : Agent) : Sess Artifact :=
  if negb (valid_artifact_create payload) then raise (PyException "ValidationError" "ArtifactCreate")
  else
    task ← lock_task task_id;
    _ ← verify_task_lease task agent (afc_lease_token payload) [Leased; Running];
    if negb (Str.startswith (afc_storage_backend payload +:+ "://") (afc_location payload)) then
      http 422 "Storage backend mismatch."
    else
      id ← fresh_id;
      let artifact := new_artifact payload task (ag_id agent) id in
      _ ← append_log artifacts artifact;
      _ ← commit;
      mret artifact.
End ops.
