(* ===== verification/BrokerTickets.v ===== *)
(** * Broker tickets

    [services/broker_tickets.py], [schemas/infrastructure.py] and the ticket
    endpoint of [routes/task_runtime.py]: the short-lived signed statement by
    which a running task asks the privileged broker for one operation. *)
From Stdlib Require Import Ascii.
From S2P Require Import Prelude Py Sha256 IpNetwork Models Store Logic Security TaskCore Notifications Governance.
From S2P Require Import Runbooks.

Open Scope Z_scope.

(** ** [schemas/infrastructure.py] *)
Definition RUNBOOKS : list string := ["vm2-infrastructure"; "vm2-postgres-deployment"; "vm2-platform-operations"].
Definition OPERATIONS : list string :=
  ["observe-control-plane"; "restart-control-plane-api"; "preflight-invariance-postgres";
   "stage-invariance-postgres"; "start-invariance-postgres-private"; "initialize-invariance-schema";
   "configure-invariance-backups"; "verify-invariance-postgres"; "prepare-invariance-cutover";
   "verify-docker-service"; "restart-docker-service"; "verify-redis"; "verify-storage"; "verify-certificate";
   "verify-backup"; "verify-service-health"].
Definition TARGETS : list string := ["vm2-control-plane"; "vm2-invariance-postgres"; "vm2-production"].

(** the operations a ticket counts as observations *)
Definition OBSERVATIONS : list string :=
  ["observe-control-plane"; "preflight-invariance-postgres"; "verify-invariance-postgres";
   "prepare-invariance-cutover"; "verify-docker-service"; "verify-redis"; "verify-storage"; "verify-certificate";
   "verify-backup"; "verify-service-health"].

Definition packaged (c : InfrastructureContract) : bool := str_eqb (icn_runbook c) "vm2-platform-operations".

(** an optional string that is set and not empty *)
Definition given (o : option string) : bool := from_option Str.nonempty false o.

Definition operation_has_no_untyped_parameters (c : InfrastructureContract) : bool :=
  let package_values := [icn_package_name c; icn_package_version c; icn_package_digest c] in
  (packaged c || bool_decide (icn_parameters c = [])) &&
  if packaged c then
    forallb given package_values && bool_decide (icn_package_name c = Some (icn_runbook c))
  else negb (existsb given package_values).

(** [re.fullmatch("[a-z0-9-]+", s)] *)
Definition package_name_pattern (s : string) : bool :=
  Str.nonempty s && forallb (fun c => Str.is_lower_alnum c || Ascii.eqb c "-") (Str.chars s).

Definition valid_contract (c : InfrastructureContract) : bool :=
  str_in (icn_runbook c) RUNBOOKS && str_eqb (icn_runbook_version c) "1.0.0" && str_in (icn_operation c) OPERATIONS &&
  str_in (icn_target c) TARGETS && opt_all package_name_pattern (icn_package_name c) &&
  opt_all Str.dotted_version (icn_package_version c) && opt_all (Str.hex_between 64 64) (icn_package_digest c) &&
  operation_has_no_untyped_parameters c.

(** a required string, and an optional one that may be null *)
Definition json_str (k : string) (d : Json.dict) : option string := Json.get k d ≫= Json.as_str.
Definition json_opt_str (k : string) (d : Json.dict) : option (option string) :=
  match Json.get k d with
  | None | Some JNull => Some None
  | Some (JStr s) => Some (Some s)
  | Some _ => None
  end.

Definition contract_keys : list string :=
  ["runbook"; "runbook_version"; "operation"; "target"; "parameters"; "package_name"; "package_version";
   "package_digest"].

(** [InfrastructureContract.model_validate] of a JSON object *)
Definition contract_of_json (d : Json.dict) : option InfrastructureContract :=
  if negb (str_subset (Json.keys d) contract_keys) then None
  else
    runbook ← json_str "runbook" d; runbook_version ← json_str "runbook_version" d;
    operation ← json_str "operation" d; target ← json_str "target" d;
    parameters ← match Json.get "parameters" d with None => Some [] | Some v => Json.as_dict v end;
    package_name ← json_opt_str "package_name" d; package_version ← json_opt_str "package_version" d;
    package_digest ← json_opt_str "package_digest" d;
    let c := mkInfrastructureContract runbook runbook_version operation target parameters
               package_name package_version package_digest in
    if valid_contract c then Some c else None.

Definition task_number_pattern (s : string) : bool := Str.actor_name s && (Z.of_nat (String.length s) <=? 100).

Definition operation_matches_task_type (p : BrokerTicketPayload) : bool :=
  str_eqb (btp_task_type p)
    (if str_in (icn_operation (btp_contract p)) OBSERVATIONS then "infrastructure_observation"
     else "infrastructure_operation") &&
  (btp_issued_at p <? btp_expires_at p).

Definition valid_payload (p : BrokerTicketPayload) : bool :=
  (btp_schema_version p =? 1) && task_number_pattern (btp_task_number p) && (1 <=? btp_attempt_number p) &&
  str_eqb (btp_machine p) "vm2-deployment" && str_in (btp_task_type p) INFRASTRUCTURE_TASKS &&
  within 0 5 (btp_risk_level p) && Str.hex_between 64 64 (btp_plan_digest p) && valid_contract (btp_contract p) &&
  Str.hex_between 64 64 (btp_nonce p) && operation_matches_task_type p.

Definition valid_ticket (t : BrokerTicketResponse) : bool :=
  valid_payload (btr_payload t) && Str.hex_between 64 64 (btr_signature t).

(** [model_dump(mode="json")] *)
Definition contract_json (c : InfrastructureContract) : json := JObj
  [("runbook", JStr (icn_runbook c)); ("runbook_version", JStr (icn_runbook_version c));
   ("operation", JStr (icn_operation c)); ("target", JStr (icn_target c)); ("parameters", JObj (icn_parameters c));
   ("package_name", Json.opt_str (icn_package_name c)); ("package_version", Json.opt_str (icn_package_version c));
   ("package_digest", Json.opt_str (icn_package_digest c))].

Definition payload_json (p : BrokerTicketPayload) : json := JObj
  [("schema_version", JInt (btp_schema_version p)); ("task_id", JStr (uuid_str (btp_task_id p)));
   ("task_number", JStr (btp_task_number p)); ("attempt_number", JInt (btp_attempt_number p));
   ("agent_id", JStr (uuid_str (btp_agent_id p))); ("machine", JStr (btp_machine p));
   ("task_type", JStr (btp_task_type p)); ("risk_level", JInt (btp_risk_level p));
   ("plan_digest", JStr (btp_plan_digest p)); ("contract", contract_json (btp_contract p));
   ("nonce", JStr (btp_nonce p)); ("issued_at", JStr (pydantic_datetime (btp_issued_at p)));
   ("expires_at", JStr (pydantic_datetime (btp_expires_at p)))].

Definition ticket_json (t : BrokerTicketResponse) : json := JObj
  [("payload", payload_json (btr_payload t)); ("signature", JStr (btr_signature t))].

Definition canonical_ticket (payload : BrokerTicketPayload) : string := Json.dumps (payload_json payload).

(** ** Parameters of a packaged operation *)
Definition refused {A} (detail : string) : outcome A := Err (HTTPException 422 (JStr detail)).
Definition refuse_when (b : bool) (detail : string) (m : outcome unit) : outcome unit := if b then refused detail else m.

Definition unsafe_characters : list ascii :=
  ["010"%char; "013"%char; ";"%char; "&"%char; "|"%char; "`"%char; "$"%char; "<"%char; ">"%char].
Definition has_unsafe_character (s : string) : bool :=
  existsb (fun c => existsb (Ascii.eqb c) unsafe_characters) (Str.chars s).

(** the items of an iteration over a JSON value *)
Definition iterate (v : json) : option (list json) :=
  match v with
  | JList l => Some l
  | JStr s => Some ((fun c => JStr (String c "")) <$> Str.chars s)
  | JObj d => Some (JStr <$> Json.keys d)
  | _ => None
  end.

Definition broad_network (n : Z * Z) : bool := n.2 <? (if n.1 =? 4 then 8 else 32).

Definition networks_of (v : json) : option (list (Z * Z)) := items ← iterate v; mapM ip_network items.

Definition integer_out_of_range (d : ParameterDefinition) (n : Z) : bool :=
  match rpd_minimum d with Some low => n <? low | None => false end ||
  match rpd_maximum d with Some high => high <? n | None => false end.

Definition check_parameter (d : ParameterDefinition) (value : json) : outcome unit :=
  let kind := rpd_type d in
  if str_eqb kind "string" then
    match value with
    | JStr s =>
        refuse_when (negb (Str.nonempty s) || has_unsafe_character s) "Unsafe string parameter."
          (refuse_when (negb (bool_decide (rpd_allowed_values d = [])) && negb (str_in s (rpd_allowed_values d)))
             "Parameter is not allowlisted." (Ok tt))
    | _ => refused "Unsafe string parameter."
    end
  else if str_eqb kind "boolean" then
    match value with JBool _ => Ok tt | _ => refused "Boolean parameter required." end
  else if str_eqb kind "integer" then
    match value with
    | JInt n => refuse_when (integer_out_of_range d n) "Integer parameter out of range." (Ok tt)
    | _ => refused "Integer parameter required."
    end
  else if str_eqb kind "cidr-list" then
    match networks_of value with
    | None => refused "Invalid CIDR parameter."
    | Some networks =>
        refuse_when (bool_decide (networks = []) || existsb broad_network networks) "CIDR parameter is too broad."
          (Ok tt)
    end
  else refused "Unknown parameter type.".

Definition definition_of (name : string) (definitions : list (string * ParameterDefinition)) : option ParameterDefinition :=
  snd <$> find (fun kv => str_eqb kv.1 name) definitions.

Fixpoint check_parameters (definitions : list (string * ParameterDefinition)) (supplied : Json.dict) : outcome unit :=
  match supplied with
  | [] => Ok tt
  | (name, value) :: rest =>
      _ ← match definition_of name definitions with
          | Some d => check_parameter d value
          | None => Err (PyException "KeyError" name)
          end;
      check_parameters definitions rest
  end.

Definition _validate_packaged_parameters (definitions : list (string * ParameterDefinition)) (supplied : Json.dict)
    : outcome unit :=
  refuse_when (negb (str_subset (Json.keys supplied) definitions.*1)) "Unknown operation parameter."
    (refuse_when (existsb (fun kv => rpd_required kv.2 && negb (str_in kv.1 (Json.keys supplied))) definitions)
       "Required operation parameter missing."
       (check_parameters definitions supplied)).

Section ops.
Context `{World}.

(** ** The package behind a packaged operation *)
Definition attested_package (c : InfrastructureContract) (p : RunbookPackage) : bool :=
  bool_decide (Some (rpk_name p) = icn_package_name c) && bool_decide (Some (rpk_version p) = icn_package_version c) &&
  bool_decide (Some (rpk_manifest_digest p) = icn_package_digest c).

(** the operations by name: a later one replaces an earlier one *)
Definition operation_named (name : string) (m : RunbookPackageManifest) : option PackagedOperation :=
  find (fun o => str_eqb (rpo_name o) name) (rev (rpm_operations m)).

Definition hours (n : Z) : Z := seconds (3600 * n).

Definition _validate_packaged_operation (contract : InfrastructureContract) (task : Task) (issued_at : datetime)
    : Sess unit :=
  package ← select_one runbook_packages (attested_package contract);
  match package with
  | None => http 409 "Runbook package is not registered."
  | Some package =>
      promotion ← gets (fun d => last (promotions_of (rpk_id package) d));
      if negb (from_option (fun p => str_in (rpr_state p) ["approved"; "deployed"]) false promotion) then
        http 409 "Runbook package is not approved."
      else
        rehearsal ← select_one runbook_promotions (fun p =>
          bool_decide (rpr_package_id p = rpk_id package) && str_eqb (rpr_state p) "rehearsed");
        let max_age := rhc_max_evidence_age_hours (rpm_rehearsal (rpk_manifest package)) in
        if match rehearsal with None => true | Some r => rpr_recorded_at r + hours max_age <=? issued_at end then
          http 409 "Runbook rehearsal is stale."
        else
          match operation_named (icn_operation contract) (rpk_manifest package) with
          | None => http 422 "Operation is not in the package."
          | Some operation =>
              if negb (str_eqb (rpo_target_profile operation) (icn_target contract)) ||
                 negb (str_eqb (rpo_task_type operation) (t_task_type task)) ||
                 negb (rpo_risk_level operation =? t_risk_level task) then
                http 422 "Task does not match package policy."
              else lift (_validate_packaged_parameters (rpo_parameters operation) (icn_parameters contract))
          end
  end.

(** ** Issuing a ticket *)
Definition observations : list string :=
  ["observe-control-plane"; "preflight-invariance-postgres"; "verify-invariance-postgres";
   "prepare-invariance-cutover"].
Definition risk_two : list string := ["stage-invariance-postgres"].

(** the approval whose consumption started the task is still good for this plan *)
Definition consumed_approval (task : Task) (issued_at : datetime) (a : TaskApproval) : bool :=
  bool_decide (ap_status a = ApConsumed) && str_eqb (ap_plan_digest a) (t_plan_digest task) &&
  negb (bool_decide (ap_consumed_at a = None)) &&
  match ap_expires_at a with Some e => issued_at <? e | None => false end.

Definition ticket_nonce (task : Task) : string :=
  sha256 (uuid_str (t_id task) +:+ ":" +:+ pretty (t_attempt_count task) +:+ ":" +:+ t_plan_digest task).

Definition ticket_payload (task : Task) (agent : Agent) (contract : InfrastructureContract) (issued_at lease : datetime)
    : BrokerTicketPayload :=
  mkBrokerTicketPayload 1 (t_id task) (t_task_number task) (t_attempt_count task) (ag_id agent) (ag_machine agent)
    (t_task_type task) (t_risk_level task) (t_plan_digest task) contract (ticket_nonce task) issued_at
    (Z.min lease (issued_at + seconds 60)).

Definition signed_ticket (secret : string) (payload : BrokerTicketPayload) : BrokerTicketResponse :=
  mkBrokerTicketResponse payload (hmac_sha256 secret (canonical_ticket payload)).

(** risk two and above needs the consumed approval of this plan *)
Definition require_approval (task : Task) (issued_at : datetime) : Sess unit :=
  if negb (2 <=? t_risk_level task) then mret tt
  else
    approval ← select_approval (t_id task);
    if negb (from_option (consumed_approval task issued_at) false approval) then
      http 409 "A consumed approval for this exact plan is required."
    else mret tt.

(** the risk an operation must have *)
Definition require_risk (contract : InfrastructureContract) (risk : Z) : outcome unit :=
  if str_in (icn_operation contract) observations &&
     negb (if packaged contract then within 0 1 risk else risk =? 0) then refused "Observation must use risk zero."
  else if str_in (icn_operation contract) risk_two && negb (risk =? 2) then refused "Operation must use risk two."
  else if negb (str_in (icn_operation contract) (observations ++ risk_two)) && negb (packaged contract) &&
          negb (risk =? 3) then refused "Operation must use risk three."
  else Ok tt.

(** the signed ticket, within the lease *)
Definition seal_ticket (task : Task) (agent : Agent) (contract : InfrastructureContract) (secret : string)
    (issued_at : datetime) : outcome BrokerTicketResponse :=
  let expired := Err (HTTPException 409 (JStr "Task lease has expired.")) in
  match t_lease_expires_at task with
  | None => expired
  | Some lease =>
      if lease <=? issued_at then expired
      else
        let payload := ticket_payload task agent contract issued_at lease in
        if valid_payload payload then Ok (signed_ticket secret payload)
        else Err (PyException "ValidationError" "BrokerTicketPayload")
  end.

Definition issue_broker_ticket (task : Task) (agent : Agent) (secret : string) : Sess BrokerTicketResponse :=
  issued_at ← utc_now;
  if negb (str_in (t_task_type task) INFRASTRUCTURE_TASKS) then http 422 "Task type cannot use the broker."
  else
    match contract_of_json (t_input_contract task) with
    | None => http 422 "Infrastructure contract is invalid."
    | Some contract =>
        if 5 <? t_risk_level task then http 422 "Broker risk ceiling exceeded."
        else
          _ ← when (packaged contract) (_validate_packaged_operation contract task issued_at);
          _ ← lift (require_risk contract (t_risk_level task));
          _ ← require_approval task issued_at;
          lift (seal_ticket task agent contract secret issued_at)
    end.

(** [routes/task_runtime.py]: [get_broker_ticket] *)
Definition get_broker_ticket (secret : string) (task_id : uuid) (agent : Agent) (lease_token : string)
    : Sess BrokerTicketResponse :=
  task ← lock_task task_id;
  _ ← verify_task_lease task agent lease_token [Running];
  ticket ← issue_broker_ticket task agent secret;
  _ ← append_task_event task_id "broker_ticket_issued" "Issued a bounded infrastructure broker ticket."
        (Some (ag_id agent))
        [("operation", JStr (icn_operation (btp_contract (btr_payload ticket))));
         ("expires_at", JStr (isoformat (btp_expires_at (btr_payload ticket))))];
  _ ← commit;
  mret ticket.
End ops.
