(* ===== verification/WorkerPackages.v ===== *)
(** * Runbook packages on the worker

    [swarm_worker/infrastructure/packages.py]: the worker's own copy of the
    package schema, the parameters of an operation, and promotion records. *)
From Stdlib Require Import Ascii.
From S2P Require Import Prelude Py Sha256 IpNetwork Models Store Runbooks BrokerTickets.

Open Scope Z_scope.

(** ** Packages *)
Definition RunbookPackageError {A} (message : string) : outcome A := Err (PyException "RunbookPackageError" message).

(** the worker also bounds the risk of an observation *)
Definition enforce_mutation_policy (o : PackagedOperation) : bool :=
  if str_eqb (rpo_task_type o) "infrastructure_operation"
  then rpo_approval_required o && negb (bool_decide (rpo_rollback o = None))
  else rpo_risk_level o <=? 1.

Definition worker_operation (o : PackagedOperation) : bool := valid_operation_fields o && enforce_mutation_policy o.

Record VerifiedRunbookPackage := mkVerifiedRunbookPackage {
  vr_manifest : RunbookPackageManifest;
  vr_manifest_digest : string }.

(** [files name]: the fields of the document in [<name>.yaml] of the directory,
    when the file is inside it, is YAML and has the manifest's fields *)
Definition load_runbook_package (files : string → option RunbookPackageManifest) (name : string)
    : outcome VerifiedRunbookPackage :=
  if negb (Str.kebab name) then RunbookPackageError "Runbook package name is unsafe."
  else
    match files name with
    | Some manifest =>
        if negb (valid_runbook_manifest worker_operation manifest) then
          RunbookPackageError "Runbook package is unavailable or invalid."
        else if negb (str_eqb (rpm_name manifest) name) then
          RunbookPackageError "Runbook package name does not match its file."
        else Ok (mkVerifiedRunbookPackage manifest (sha256 (canonical_runbook manifest)))
    | None => RunbookPackageError "Runbook package is unavailable or invalid."
    end.

(** [^[A-Za-z0-9][A-Za-z0-9._:/-]{0,254}$] *)
Definition _SAFE_VALUE (s : string) : bool :=
  match Str.chars s with
  | [] => false
  | c :: l => Str.is_alnum c && (Z.of_nat (length l) <=? 254) &&
      forallb (fun c => Str.is_alnum c || existsb (Ascii.eqb c) ["."%char; "_"%char; ":"%char; "/"%char; "-"%char]) l
  end.

Definition parameter_error (name problem : string) : outcome unit :=
  RunbookPackageError ("Parameter " +:+ Json.repr_str name +:+ " " +:+ problem).
Definition reject_when (b : bool) (error m : outcome unit) : outcome unit := if b then error else m.

(** the checks of [_validate_parameter]; what it returns is not used *)
Definition _validate_parameter (name : string) (d : ParameterDefinition) (value : json) : outcome unit :=
  let kind := rpd_type d in
  if str_eqb kind "boolean" then
    match value with JBool _ => Ok tt | _ => parameter_error name "must be boolean." end
  else if str_eqb kind "integer" then
    match value with
    | JInt n =>
        reject_when (match rpd_minimum d with Some low => n <? low | None => false end)
          (parameter_error name "is below its minimum.")
          (reject_when (match rpd_maximum d with Some high => high <? n | None => false end)
             (parameter_error name "exceeds its maximum.") (Ok tt))
    | _ => parameter_error name "must be an integer."
    end
  else if str_eqb kind "cidr-list" then
    match value with
    | JList (_ :: _ as items) =>
        match mapM ip_network items with
        | None => parameter_error name "contains invalid CIDR."
        | Some networks => reject_when (existsb broad_network networks) (parameter_error name "is too broad.") (Ok tt)
        end
    | _ => parameter_error name "must be a CIDR list."
    end
  else
    match value with
    | JStr s =>
        reject_when (negb (_SAFE_VALUE s)) (parameter_error name "is unsafe.")
          (reject_when (negb (bool_decide (rpd_allowed_values d = [])) && negb (str_in s (rpd_allowed_values d)))
             (parameter_error name "is not allowlisted.") (Ok tt))
    | _ => parameter_error name "is unsafe."
    end.

Fixpoint validate_each (definitions : list (string * ParameterDefinition)) (supplied : Json.dict) : outcome unit :=
  match supplied with
  | [] => Ok tt
  | (name, value) :: rest =>
      _ ← match definition_of name definitions with
          | Some d => _validate_parameter name d value
          | None => Err (PyException "KeyError" name)
          end;
      validate_each definitions rest
  end.

Definition validate_parameters (operation : PackagedOperation) (supplied : Json.dict) : outcome unit :=
  let definitions := rpo_parameters operation in
  if negb (str_subset (Json.keys supplied) definitions.*1) ||
     existsb (fun kv => rpd_required kv.2 && negb (str_in kv.1 (Json.keys supplied))) definitions
  then RunbookPackageError "Operation parameters do not match the contract."
  else validate_each definitions supplied.

(** ** Promotion records *)
Record PromotionRecord := mkPromotionRecord {
  prr_package_name : string;
  prr_package_version : string;
  prr_manifest_digest : string;
  prr_state : string;
  prr_recorded_at : datetime;
  prr_recorded_by : string;
  prr_evidence_digest : option string;
  prr_approval_reference : option string;
  prr_previous_record_digest : option string }.

Definition required_state_evidence (r : PromotionRecord) : bool :=
  (str_eqb (prr_state r) "draft" || negb (bool_decide (prr_evidence_digest r = None))) &&
  (negb (str_in (prr_state r) ["approved"; "deployed"]) || given (prr_approval_reference r)).

Definition valid_promotion_record (r : PromotionRecord) : bool :=
  Str.kebab (prr_package_name r) && Str.dotted_version (prr_package_version r) &&
  Str.hex_between 64 64 (prr_manifest_digest r) && str_in (prr_state r) _STATES &&
  length_within 1 100 (prr_recorded_by r) && opt_all (Str.hex_between 64 64) (prr_evidence_digest r) &&
  opt_all (length_within 1 150) (prr_approval_reference r) &&
  opt_all (Str.hex_between 64 64) (prr_previous_record_digest r) && required_state_evidence r.

Definition promotion_record_json (r : PromotionRecord) : json := JObj
  [("package_name", JStr (prr_package_name r)); ("package_version", JStr (prr_package_version r));
   ("manifest_digest", JStr (prr_manifest_digest r)); ("state", JStr (prr_state r));
   ("recorded_at", JStr (pydantic_datetime (prr_recorded_at r))); ("recorded_by", JStr (prr_recorded_by r));
   ("evidence_digest", Json.opt_str (prr_evidence_digest r));
   ("approval_reference", Json.opt_str (prr_approval_reference r));
   ("previous_record_digest", Json.opt_str (prr_previous_record_digest r))].

Definition promotion_digest (r : PromotionRecord) : string := sha256 (Json.dumps (promotion_record_json r)).

(** the state after the one of [previous], the first without one *)
Definition expected_state (previous : option PromotionRecord) : option string :=
  match previous with
  | None => Some "draft"
  | Some r =>
      if str_eqb (prr_state r) "draft" then Some "rehearsed"
      else if str_eqb (prr_state r) "rehearsed" then Some "approved"
      else if str_eqb (prr_state r) "approved" then Some "deployed"
      else None
  end.

Definition promote_package (package : VerifiedRunbookPackage) (state : string) (recorded_at : datetime)
    (recorded_by : string) (previous : option PromotionRecord) (evidence_digest approval_reference : option string)
    : outcome PromotionRecord :=
  if from_option (fun r => str_eqb (prr_state r) "deployed") false previous then
    RunbookPackageError "A deployed package has no further promotion state."
  else if negb (bool_decide (expected_state previous = Some state)) then
    RunbookPackageError "Runbook package promotion must be sequential."
  else if from_option (fun r =>
            negb (str_eqb (prr_package_name r) (rpm_name (vr_manifest package))) ||
            negb (str_eqb (prr_package_version r) (rpm_version (vr_manifest package))) ||
            negb (str_eqb (prr_manifest_digest r) (vr_manifest_digest package))) false previous then
    RunbookPackageError "Promotion record does not match package digest."
  else
    let record := mkPromotionRecord (rpm_name (vr_manifest package)) (rpm_version (vr_manifest package))
      (vr_manifest_digest package) state recorded_at recorded_by evidence_digest approval_reference
      (promotion_digest <$> previous) in
    if valid_promotion_record record then Ok record else Err (PyException "ValidationError" "PromotionRecord").
