(* ===== verification/Broker.v ===== *)
(** * The privileged broker

    [swarm_worker/infrastructure/broker.py] of the worker: the root process that accepts signed tickets over a local socket, spends each
    ticket once against a ledger on disk, and runs operations compiled into it.

    A broker is a state machine over the commands it has run.  What the machine
    answers is the class [Host]; the bodies of the PostgreSQL operations and of
    the deployment preflight are fields of it and are not modelled. *)
From Stdlib Require Import Ascii.
From S2P Require Import Prelude Py Sha256 Models Store Runbooks BrokerTickets WorkerPackages.

Open Scope Z_scope.

(** ** The machine under the broker *)
Record command := mkCommand { cmd_args : list string; cmd_cwd : string; cmd_stdin : option string }.

(** what became of a subprocess; [Unstarted]: opening its standard input or starting
    it raised an [OSError] of that class *)
Inductive completion :=
| Completed (return_code : Z) (out err : string)
| TimedOut (out err : string)
| Unstarted (class message : string).

(** what the broker did to the machine *)
Inductive action := Ran (c : command) | Staged | Slept.

Record dump := mkDump {
  dp_path : string; dp_name : string; dp_size_bytes : Z; dp_sha256 : string; dp_modified_at : datetime;
  dp_modified_text : string }.

(** [BrokerExecutionResult] *)
Record BrokerExecutionResult := mkResult {
  bx_success : bool;
  bx_operation : string;
  bx_task_id : uuid;
  bx_attempt_number : Z;
  bx_started_at : datetime;
  bx_ended_at : datetime;
  bx_pre_state : json;
  bx_action : option json;
  bx_post_state : option json;
  bx_rollback : option json;
  bx_rollback_state : option json;
  bx_error : option string }.

(** Every answer may depend on all that was done before.  [host_ticket] is
    pydantic's reading of a ticket document; [host_stage] is
    [PostgresDeploymentManager.stage]; [host_postgres] and [host_preflight] are
    the operations left out, with the staging result they start from. *)
Class Host := {
  host_now : nat → datetime;
  host_run : list action → command → completion;
  host_is_file : list action → string → bool;
  host_free_bytes : list action → string → option Z;
  host_filesystem : list action → string → Z * Z;
  host_dumps : list action → string → list dump;
  host_packages : string → option RunbookPackageManifest;
  host_ticket : json → option BrokerTicketResponse;
  host_stage : list action → outcome json;
  host_postgres : list action → BrokerTicketPayload → json → outcome (list action * BrokerExecutionResult);
  host_preflight : list action → BrokerTicketPayload → outcome (list action * BrokerExecutionResult) }.

(** the arguments of [InfrastructureBroker] *)
Record settings := mkSettings {
  st_secret : string;
  st_effective_uid : Z;
  st_runtime_path : string;
  st_backup_path : string;
  st_postgres_root : string;
  st_platform_services : list (string * (string * string * string));
  st_backup_timer_unit : string;
  st_platform_health_attempts : nat }.

Definition default_services (runtime postgres : string) : list (string * (string * string * string)) :=
  [("api", ("api", runtime, "swarm-api")); ("redis", ("redis", runtime, "swarm-redis"));
   ("postgres", ("postgres", postgres, "invariance-postgres"));
   ("pgbouncer", ("pgbouncer", postgres, "invariance-pgbouncer"))].

(** [_consumed], the ledger file (as the JSON it holds, [Some None] when it
    holds none), the actions so far and the readings of the clock *)
Record broker := mkBroker {
  bk_consumed : list string;
  bk_ledger : option (option json);
  bk_actions : list action;
  bk_clock : nat }.
#[export] Instance eta_broker : Eta broker := fun b => mkBroker (bk_consumed b) (bk_ledger b) (bk_actions b) (bk_clock b).
#[export] Instance set_bk_consumed : Setter bk_consumed := ltac:(derive_setter).
#[export] Instance set_bk_ledger : Setter bk_ledger := ltac:(derive_setter).
#[export] Instance set_bk_actions : Setter bk_actions := ltac:(derive_setter).
#[export] Instance set_bk_clock : Setter bk_clock := ltac:(derive_setter).

Definition Brk (A : Type) : Type := broker → outcome A * broker.
#[export] Instance Brk_ret : MRet Brk := fun A a b => (Ok a, b).
#[export] Instance Brk_bind : MBind Brk := fun A B f m b =>
  match m b with
  | (Ok a, b') => f a b'
  | (Err e, b') => (Err e, b')
  end.

Definition fails {A} (e : exn) : Brk A := fun b => (Err e, b).
Definition broker_error {A} (message : string) : Brk A := fails (PyException "BrokerError" message).
Definition of_outcome {A} (m : outcome A) : Brk A := fun b => (m, b).
Definition observe {A} (f : list action → A) : Brk A := fun b => (Ok (f (bk_actions b)), b).
Definition acted (l : list action) : Brk unit := fun b => (Ok tt, b <| bk_actions := bk_actions b ++ l |>).

(** [str.strip()] *)
Definition is_space (c : ascii) : bool :=
  let n := N_of_ascii c in ((9 <=? n) && (n <=? 13) || (28 <=? n) && (n <=? 32))%N.
Fixpoint lstrip (l : list ascii) : list ascii :=
  match l with [] => [] | c :: l' => if is_space c then lstrip l' else l end.
Definition strip (s : string) : string := Str.of_chars (rev (lstrip (rev (lstrip (Str.chars s))))).

Definition _RUNTIME : string := "/srv/invariance/swarm/control-plane-runtime".
Definition _MAX_OUTPUT : nat := Z.to_nat 16000.
Definition _MAX_BACKUP_AGE_SECONDS : Z := 7 * 24 * 60 * 60.

(** [value[-n:]] *)
Definition last_chars (n : nat) (s : string) : string :=
  String.substring (String.length s - n) n s.
Definition first_chars (n : nat) (s : string) : string := String.substring 0 n s.
Definition _bounded_text (value : string) : string := last_chars _MAX_OUTPUT value.

(** the dictionary [FixedRunner.run] returns *)
Record reply := mkReply { rp_args : list string; rp_return_code : Z; rp_stdout : string; rp_stderr : string }.
Definition reply_json (r : reply) : json := JObj
  [("args", Json.str_list (rp_args r)); ("return_code", JInt (rp_return_code r)); ("stdout", JStr (rp_stdout r));
   ("stderr", JStr (rp_stderr r))].

Definition reply_of (args : list string) (c : completion) : outcome reply :=
  match c with
  | Completed code out err => Ok (mkReply args code (_bounded_text out) (_bounded_text err))
  | TimedOut out err => Ok (mkReply args 124 (_bounded_text out) (_bounded_text err))
  | Unstarted class message => Err (PyException class message)
  end.

Definition was_run (c : completion) : bool := match c with Unstarted _ _ => false | _ => true end.

(** the state of a platform service *)
Record service_state := mkServiceState {
  sv_service : string; sv_container : string; sv_healthy : bool; sv_state : string }.
Definition service_state_json (s : service_state) : json := JObj
  [("service", JStr (sv_service s)); ("container", JStr (sv_container s)); ("healthy", JBool (sv_healthy s));
   ("state", JStr (sv_state s))].

(** what [_observe] reports *)
Record observation := mkObservation { ob_healthy : bool; ob_json : json }.

Definition error_unless (success : bool) (message : string) : option string := if success then None else Some message.

Section broker.
Context `{Host} (cf : settings).

(** [datetime.now(UTC)] *)
Definition broker_now : Brk datetime := fun b => (Ok (host_now (bk_clock b)), b <| bk_clock := S (bk_clock b) |>).

(** [FixedRunner.run] without extra environment, hence without redaction *)
Definition run_command (c : command) : Brk reply :=
  if bool_decide (cmd_args c = []) then broker_error "Broker commands must be argument arrays."
  else
    done ← observe (fun l => host_run l c);
    _ ← (if was_run done then acted [Ran c] else mret tt);
    of_outcome (reply_of (cmd_args c) done).

Definition run_in (cwd : string) (args : list string) : Brk reply := run_command (mkCommand args cwd None).

(** ** Platform services *)
Definition _platform_service (service : string) : Brk (string * string * string) :=
  match find (fun kv => str_eqb kv.1 service) (st_platform_services cf) with
  | Some (_, entry) => mret entry
  | None => broker_error "Service is not in the compiled catalog."
  end.

Definition inspect_format : string :=
  "{{.State.Status}} {{if .State.Health}}{{.State.Health.Status}}{{end}}".

Definition _platform_service_state (service : string) : Brk service_state :=
  entry ← _platform_service service;
  let '(_, _, container) := entry in
  inspect ← run_in _RUNTIME ["docker"; "inspect"; container; "--format"; inspect_format];
  let value := strip (rp_stdout inspect) in
  mret (mkServiceState service container
          ((rp_return_code inspect =? 0) && str_in value ["running healthy"; "running"]) (first_chars 100 value)).

(** [for attempt in range(n)]: stops when healthy, sleeps between attempts *)
Fixpoint until_healthy (n : nat) (service : string) : Brk (option service_state) :=
  match n with
  | O => mret None
  | S k =>
      state ← _platform_service_state service;
      if sv_healthy state then mret (Some state)
      else
        match k with
        | O => mret (Some state)
        | _ => _ ← acted [Slept]; until_healthy k service
        end
  end.

(** [{}] when no attempt is configured *)
Definition _platform_service_state_until_healthy (service : string) : Brk (option service_state) :=
  until_healthy (st_platform_health_attempts cf) service.

Definition final_state_json (s : option service_state) : json := from_option service_state_json (JObj []) s.

Definition _platform_compose_args (service : string) (args : list string) : Brk (list string) :=
  entry ← _platform_service service;
  let '(_, cwd, _) := entry in
  let environment_file := cwd +:+ "/.env.postgres" in
  present ← observe (fun l => host_is_file l environment_file);
  mret (["docker"; "compose"] ++ (if present : bool then ["--env-file"; environment_file] else []) ++ args).

Definition _platform_result (p : BrokerTicketPayload) (started_at : datetime) (success : bool) (post_state : json)
    (error : option string) : Brk BrokerExecutionResult :=
  ended ← broker_now;
  mret (mkResult success (icn_operation (btp_contract p)) (btp_task_id p) (btp_attempt_number p) started_at ended
          (JObj []) None (Some post_state) None None error).

(** [parameters[name]] as a service name; a value of another type is no key of
    the catalog, or no key at all *)
Definition parameter (name : string) (p : BrokerTicketPayload) : Brk string :=
  match Json.get name (icn_parameters (btp_contract p)) with
  | Some (JStr s) => mret s
  | Some (JList _) | Some (JObj _) => fails (PyException "TypeError" "unhashable type")
  | Some _ => broker_error "Service is not in the compiled catalog."
  | None => fails (PyException "KeyError" name)
  end.

Definition verify_service (p : BrokerTicketPayload) (started_at : datetime) : Brk BrokerExecutionResult :=
  service ← parameter "service" p;
  state ← _platform_service_state service;
  _platform_result p started_at (sv_healthy state) (service_state_json state)
    (error_unless (sv_healthy state) "Service health check failed.").

(** the restart proper, once the service and its configuration were checked *)
Definition restart_transaction (p : BrokerTicketPayload) (started_at : datetime) (service compose_service cwd : string)
    (pre : service_state) : Brk BrokerExecutionResult :=
  restart ← _platform_compose_args service ["restart"; "--timeout"; "30"; compose_service];
  action ← run_in cwd restart;
  post ← _platform_service_state_until_healthy service;
  success ← (if rp_return_code action =? 0
             then match post with Some state => mret (sv_healthy state) | None => fails (PyException "KeyError" "healthy") end
             else mret false);
  undone ← (if success : bool then mret (None, None)
            else
              recreate ← _platform_compose_args service ["up"; "-d"; "--no-deps"; "--force-recreate"; compose_service];
              rollback ← run_in cwd recreate;
              state ← _platform_service_state_until_healthy service;
              mret (Some (reply_json rollback), Some (final_state_json state)));
  ended ← broker_now;
  mret (mkResult success (icn_operation (btp_contract p)) (btp_task_id p) (btp_attempt_number p) started_at ended
          (service_state_json pre) (Some (reply_json action)) (Some (final_state_json post)) undone.1 undone.2
          (error_unless success "Service restart verification failed.")).

Definition restart_docker_service (p : BrokerTicketPayload) (started_at : datetime) : Brk BrokerExecutionResult :=
  service ← parameter "service" p;
  pre ← _platform_service_state service;
  if negb (sv_healthy pre) then
    _platform_result p started_at false (service_state_json pre) (Some "Service restart preflight failed.")
  else
    entry ← _platform_service service;
    let '(compose_service, cwd, _) := entry in
    check ← _platform_compose_args service ["config"; "--quiet"];
    config ← run_in cwd check;
    if negb (rp_return_code config =? 0) then
      _platform_result p started_at false (JObj [("healthy", JBool false); ("compose_config", reply_json config)])
        (Some "Service restart preflight failed.")
    else restart_transaction p started_at service compose_service cwd pre.

Definition verify_redis (p : BrokerTicketPayload) (started_at : datetime) : Brk BrokerExecutionResult :=
  entry ← _platform_service "redis";
  let '(_, _, container) := entry in
  command ← run_in _RUNTIME ["docker"; "exec"; container; "redis-cli"; "PING"];
  let healthy := (rp_return_code command =? 0) && str_eqb (strip (rp_stdout command)) "PONG" in
  _platform_result p started_at healthy (JObj [("healthy", JBool healthy); ("probe", reply_json command)])
    (error_unless healthy "Redis verification failed.").

(** [path.is_dir()] and the free space of the filesystem under it *)
Definition filesystem_json (free : option Z) : json :=
  JObj [("exists", JBool (negb (bool_decide (free = None)))); ("free_bytes", opt_json JInt free)].

Definition verify_storage (p : BrokerTicketPayload) (started_at : datetime) : Brk BrokerExecutionResult :=
  free ← observe (fun l => (fun path => (path, host_free_bytes l path)) <$> [st_runtime_path cf; st_postgres_root cf]);
  let healthy := forallb (fun kv => match kv.2 with Some n => 10 * 1024 ^ 3 <=? n | None => false end) free in
  let filesystems := foldl (fun acc '(path, n) => Json.set path (filesystem_json n) acc) [] free in
  _platform_result p started_at healthy (JObj [("healthy", JBool healthy); ("filesystems", JObj filesystems)])
    (error_unless healthy "Storage verification failed.").

Definition verify_certificate (p : BrokerTicketPayload) (started_at : datetime) : Brk BrokerExecutionResult :=
  match Json.get "certificate_profile" (icn_parameters (btp_contract p)) with
  | None => fails (PyException "KeyError" "certificate_profile")
  | Some profile =>
      if negb (Json.eqb profile (JStr "invariance-postgres-client")) then
        broker_error "Certificate profile is not compiled."
      else
        let cert := st_postgres_root cf +:+ "/certs/server.crt" in
        present ← observe (fun l => host_is_file l cert);
        probe ← (if present : bool then
                   r ← run_in (st_postgres_root cf)
                         ["openssl"; "x509"; "-in"; cert; "-noout"; "-checkend"; "2592000"];
                   mret (rp_return_code r, reply_json r)
                 else mret (1, JObj [("return_code", JInt 1); ("stdout", JStr ""); ("stderr", JStr "")]));
        let healthy := probe.1 =? 0 in
        _platform_result p started_at healthy
          (JObj [("healthy", JBool healthy); ("profile", profile); ("probe", probe.2)])
          (error_unless healthy "Certificate verification failed.")
  end.

(** ** Backups *)
(** the most recent dump first *)
Definition newest_dump (l : list dump) : option dump := head (sort_by (fun a b => dp_modified_at b <=? dp_modified_at a) l).

Definition _postgres_compose_args (args : list string) : list string :=
  ["docker"; "compose"; "--env-file"; st_postgres_root cf +:+ "/.env.postgres"] ++ args.

Definition _backup_state : Brk (bool * bool * json) :=
  dumps ← observe (fun l => host_dumps l (st_postgres_root cf +:+ "/backups"));
  timer ← run_in _RUNTIME ["systemctl"; "is-enabled"; st_backup_timer_unit cf];
  let timer_enabled := rp_return_code timer =? 0 in
  match newest_dump dumps with
  | None =>
      mret (false, timer_enabled,
        JObj [("integrity_ok", JBool false); ("timer_enabled", JBool timer_enabled); ("latest_backup", JNull)])
  | Some d =>
      integrity ← run_command (mkCommand (_postgres_compose_args ["exec"; "-T"; "postgres"; "pg_restore"; "--list"])
                                 (st_postgres_root cf) (Some (dp_path d)));
      let integrity_ok := rp_return_code integrity =? 0 in
      mret (integrity_ok, timer_enabled,
        JObj [("integrity_ok", JBool integrity_ok); ("timer_enabled", JBool timer_enabled);
              ("latest_backup", JObj [("name", JStr (dp_name d)); ("size_bytes", JInt (dp_size_bytes d));
                                      ("sha256", JStr (dp_sha256 d))])])
  end.

Definition verify_backup (p : BrokerTicketPayload) (started_at : datetime) : Brk BrokerExecutionResult :=
  state ← _backup_state;
  let '(integrity_ok, timer_enabled, backup) := state in
  let healthy := integrity_ok && timer_enabled in
  _platform_result p started_at healthy (JObj [("healthy", JBool healthy); ("backup", backup)])
    (error_unless healthy "Backup verification failed.").

Definition _execute_platform_operation (p : BrokerTicketPayload) (started_at : datetime) : Brk BrokerExecutionResult :=
  let operation := icn_operation (btp_contract p) in
  if str_in operation ["verify-docker-service"; "verify-service-health"] then verify_service p started_at
  else if str_eqb operation "restart-docker-service" then restart_docker_service p started_at
  else if str_eqb operation "verify-redis" then verify_redis p started_at
  else if str_eqb operation "verify-storage" then verify_storage p started_at
  else if str_eqb operation "verify-certificate" then verify_certificate p started_at
  else if str_eqb operation "verify-backup" then verify_backup p started_at
  else broker_error "Packaged operation has no compiled broker primitive.".

(** ** The control plane itself *)
Definition compose_in_runtime (args : list string) : Brk reply := run_in (st_runtime_path cf) (["docker"; "compose"] ++ args).

Definition health_probe : string :=
  "import urllib.request;print(urllib.request.urlopen('http://100.112.117.59:8787/health',timeout=5).status)".

(** the latest backup: whether it is intact and fresh *)
Definition latest_backup (d : dump) : Brk (bool * json) :=
  integrity ← run_command (mkCommand ["docker"; "compose"; "exec"; "-T"; "postgres"; "pg_restore"; "--list"]
                             (st_runtime_path cf) (Some (dp_path d)));
  now ← broker_now;
  let age_seconds := Z.max 0 (Z.quot (now - dp_modified_at d) (seconds 1)) in
  let integrity_ok := rp_return_code integrity =? 0 in
  let fresh := age_seconds <=? _MAX_BACKUP_AGE_SECONDS in
  mret (integrity_ok && fresh, JObj
    [("name", JStr (dp_name d)); ("size_bytes", JInt (dp_size_bytes d)); ("modified_at", JStr (dp_modified_text d));
     ("age_seconds", JInt age_seconds); ("sha256", JStr (dp_sha256 d));
     ("integrity_return_code", JInt (rp_return_code integrity)); ("integrity_ok", JBool integrity_ok);
     ("integrity_error", JStr (last_chars (Z.to_nat 500) (rp_stderr integrity))); ("fresh", JBool fresh)]).

Definition _observe : Brk observation :=
  compose ← compose_in_runtime ["ps"; "--format"; "json"];
  postgres ← compose_in_runtime ["exec"; "-T"; "postgres"; "pg_isready"; "-U"; "swarm_app"; "-d"; "swarm_control"];
  redis ← compose_in_runtime ["exec"; "-T"; "redis"; "redis-cli"; "ping"];
  health ← run_in (st_runtime_path cf) ["python3"; "-c"; health_probe];
  disk ← observe (fun l => host_filesystem l (st_runtime_path cf));
  dumps ← observe (fun l => host_dumps l (st_backup_path cf));
  latest ← match newest_dump dumps with
           | None => mret (false, JNull)
           | Some d => latest_backup d
           end;
  let healthy := forallb (fun r => rp_return_code r =? 0) [compose; postgres; redis; health] in
  mret (mkObservation (healthy && latest.1) (JObj
    [("healthy", JBool (healthy && latest.1)); ("compose", reply_json compose); ("postgres", reply_json postgres);
     ("redis", reply_json redis); ("api_health", reply_json health);
     ("storage", JObj [("total_bytes", JInt disk.1); ("available_bytes", JInt disk.2)]);
     ("latest_backup", latest.2); ("certificate", JObj [("status", JStr "not-configured")])])).

(** at most [n] further observations, each after a pause *)
Fixpoint observe_again (n : nat) (state : observation) : Brk observation :=
  match n with
  | O => mret state
  | S k =>
      if ob_healthy state then mret state
      else _ ← acted [Slept]; state ← _observe; observe_again k state
  end.
Definition _observe_until_healthy : Brk observation := state ← _observe; observe_again 5 state.

(** [observe-control-plane], and the restart of the API with its rollback *)
Definition control_plane_operation (p : BrokerTicketPayload) (started_at : datetime) : Brk BrokerExecutionResult :=
  let operation := icn_operation (btp_contract p) in
  pre ← _observe;
  if str_eqb operation "observe-control-plane" then
    ended ← broker_now;
    mret (mkResult (ob_healthy pre) operation (btp_task_id p) (btp_attempt_number p) started_at ended (ob_json pre)
            None None None None (error_unless (ob_healthy pre) "Health verification failed."))
  else
    action ← compose_in_runtime ["restart"; "--timeout"; "30"; "api"];
    post ← _observe_until_healthy;
    let success := (rp_return_code action =? 0) && ob_healthy post in
    undone ← (if success then mret (None, None)
              else
                rollback ← compose_in_runtime ["up"; "-d"; "--no-deps"; "--force-recreate"; "api"];
                state ← _observe_until_healthy;
                mret (Some (reply_json rollback), Some (ob_json state)));
    ended ← broker_now;
    mret (mkResult success operation (btp_task_id p) (btp_attempt_number p) started_at ended (ob_json pre)
            (Some (reply_json action)) (Some (ob_json post)) undone.1 undone.2
            (error_unless success "Restart transaction verification failed.")).

(** [manager.stage()] *)
Definition stage : Brk json := metadata ← observe host_stage; _ ← acted [Staged]; of_outcome metadata.

Definition POSTGRES_OPERATIONS : list string :=
  ["start-invariance-postgres-private"; "initialize-invariance-schema"; "configure-invariance-backups";
   "verify-invariance-postgres"; "prepare-invariance-cutover"].

(** an operation left to the host *)
Definition host_operation (run : list action → outcome (list action * BrokerExecutionResult)) : Brk BrokerExecutionResult :=
  done ← observe run;
  result ← of_outcome done;
  _ ← acted result.1;
  mret result.2.

Definition stage_operation (p : BrokerTicketPayload) (started_at : datetime) : Brk BrokerExecutionResult :=
  action ← stage;
  let field k := default JNull (Json.as_dict action ≫= Json.get k) in
  ended ← broker_now;
  mret (mkResult true (icn_operation (btp_contract p)) (btp_task_id p) (btp_attempt_number p) started_at ended
          (JObj [("target_directory", JStr "absent-or-reviewed")]) (Some action)
          (Some (JObj [("staged", field "staged"); ("public_access", field "public_access");
                       ("metadata_sha256", field "metadata_sha256")])) None None None).

(** every PostgreSQL operation stages the deployment first *)
Definition _execute_postgres_operation (p : BrokerTicketPayload) : Brk BrokerExecutionResult :=
  staged ← stage;
  host_operation (fun l => host_postgres l p staged).

Definition _execute_operation (p : BrokerTicketPayload) (started_at : datetime) : Brk BrokerExecutionResult :=
  let operation := icn_operation (btp_contract p) in
  if packaged (btp_contract p) then _execute_platform_operation p started_at
  else if str_eqb operation "stage-invariance-postgres" then stage_operation p started_at
  else if str_in operation POSTGRES_OPERATIONS then _execute_postgres_operation p
  else if str_eqb operation "preflight-invariance-postgres" then host_operation (fun l => host_preflight l p)
  else control_plane_operation p started_at.

(** ** Tickets *)
Definition not_approved {A} : outcome A := Err (PyException "BrokerError" "Packaged operation is not locally approved.").

(** [except (RunbookPackageError, StopIteration)] *)
Definition locally_approved {A} (m : outcome A) : outcome A :=
  match m with
  | Err (PyException c _) => if str_eqb c "RunbookPackageError" then not_approved else m
  | m => m
  end.

Definition packaged_definition (p : BrokerTicketPayload) : outcome (VerifiedRunbookPackage * PackagedOperation) :=
  package ← load_runbook_package host_packages (default "" (icn_package_name (btp_contract p)));
  match find (fun o => str_eqb (rpo_name o) (icn_operation (btp_contract p))) (rpm_operations (vr_manifest package)) with
  | None => not_approved
  | Some definition =>
      _ ← validate_parameters definition (icn_parameters (btp_contract p)); Ok (package, definition)
  end.

(** the reviewed operations: task type and risk *)
Definition reviewed_operations : list (string * (string * Z)) :=
  [("observe-control-plane", ("infrastructure_observation", 0));
   ("restart-control-plane-api", ("infrastructure_operation", 3));
   ("preflight-invariance-postgres", ("infrastructure_observation", 0));
   ("stage-invariance-postgres", ("infrastructure_operation", 2));
   ("start-invariance-postgres-private", ("infrastructure_operation", 3));
   ("initialize-invariance-schema", ("infrastructure_operation", 3));
   ("configure-invariance-backups", ("infrastructure_operation", 3));
   ("verify-invariance-postgres", ("infrastructure_observation", 0));
   ("prepare-invariance-cutover", ("infrastructure_observation", 0))].

Definition _validate_operation (p : BrokerTicketPayload) : outcome unit :=
  let contract := btp_contract p in
  let operation := icn_operation contract in
  if packaged contract then
    found ← locally_approved (packaged_definition p);
    let '(package, definition) := found in
    if negb (bool_decide (icn_package_version contract = Some (rpm_version (vr_manifest package)))) ||
       negb (bool_decide (icn_package_digest contract = Some (vr_manifest_digest package))) ||
       negb (str_eqb (icn_target contract) (rpo_target_profile definition)) ||
       negb (str_eqb (btp_machine p) "vm2-deployment") || negb (str_eqb (btp_task_type p) (rpo_task_type definition)) ||
       negb (btp_risk_level p =? rpo_risk_level definition)
    then Err (PyException "BrokerError" "Ticket does not match packaged operation policy.")
    else Ok tt
  else
    match find (fun kv => str_eqb kv.1 operation) reviewed_operations with
    | None => Err (PyException "KeyError" operation)
    | Some (_, (task_type, risk)) =>
        if negb (str_eqb (btp_machine p) "vm2-deployment") || negb (str_eqb (btp_task_type p) task_type) ||
           negb (btp_risk_level p =? risk) || negb (bool_decide (icn_parameters contract = []))
        then Err (PyException "BrokerError" "Ticket does not match the reviewed operation.")
        else Ok tt
    end.

(** ** The replay ledger *)

(** [set(value)], of a list of strings *)
Definition ledger_nonces (v : json) : option (list string) := Json.as_list v ≫= mapM Json.as_str.

Definition _load_ledger (file : option (option json)) : outcome (list string) :=
  match file with
  | None => Ok []
  | Some content =>
      match content ≫= ledger_nonces with
      | Some nonces => Ok (sorted_set nonces)
      | None => Err (PyException "BrokerError" "Broker replay ledger is invalid.")
      end
  end.

(** [written]: the temporary file was written and renamed; otherwise an
    [OSError] stops the request with the old ledger in place *)
Definition _consume (written : bool) (nonce : string) : Brk unit := fun b =>
  let consumed := str_insert nonce (bk_consumed b) in
  let b := b <| bk_consumed := consumed |> in
  if written then (Ok tt, b <| bk_ledger := Some (Some (Json.str_list consumed)) |>)
  else (Err (PyException "OSError" "replay ledger"), b).

(** the checks of [execute], up to and including the spending of the ticket *)
Definition admit_ticket (written : bool) (document : json) : Brk (BrokerTicketPayload * datetime) :=
  match host_ticket document with
  | None => broker_error "Broker ticket is invalid."
  | Some ticket =>
      if negb (valid_ticket ticket) then broker_error "Broker ticket is invalid."
      else
        let payload := btr_payload ticket in
        if negb (str_eqb (hmac_sha256 (st_secret cf) (canonical_ticket payload)) (btr_signature ticket)) then
          broker_error "Broker ticket signature is invalid."
        else
          now ← broker_now;
          if btp_expires_at payload <=? now then broker_error "Broker ticket has expired."
          else
            spent ← (fun b => (Ok (str_in (btp_nonce payload) (bk_consumed b)), b));
            if spent : bool then broker_error "Broker ticket was already consumed."
            else
              _ ← of_outcome (_validate_operation payload);
              _ ← _consume written (btp_nonce payload);
              mret (payload, now)
  end.

Definition execute (written : bool) (document : json) : Brk BrokerExecutionResult :=
  admitted ← admit_ticket written document;
  _execute_operation admitted.1 admitted.2.

(** [InfrastructureBroker.__init__] on the ledger found on disk *)
Definition start_broker (ledger : option (option json)) : outcome broker :=
  if Z.of_nat (String.length (st_secret cf)) <? 32 then
    Err (PyException "BrokerError" "Broker secret is unavailable or too short.")
  else if negb (st_effective_uid cf =? 0) then
    Err (PyException "BrokerError" "Infrastructure broker must run as root.")
  else consumed ← _load_ledger ledger; Ok (mkBroker consumed ledger [] 0).

(** ** The socket handler *)
Inductive response :=
| Done (result : BrokerExecutionResult)
| Failed (class message : string).

(** [not line or len(line) > 1_000_000] *)
Definition bad_length (line_length : Z) : bool := (line_length =? 0) || (1000000 <? line_length).

(** a request line: its length, and the document it parses to or the message of
    the parser's error *)
Definition handle (written : bool) (line_length : Z) (line : json + string) (b : broker) : response * broker :=
  let answer '(r, b') :=
    match r with
    | Ok result => (Done result, b')
    | Err (PyException class message) => (Failed class (first_chars (Z.to_nat 500) message), b')
    | Err (HTTPException _ detail) => (Failed "HTTPException" (first_chars (Z.to_nat 500) (Json.str detail)), b')
    end in
  if bad_length line_length then
    (Failed "BrokerError" "Broker request size is invalid.", b)
  else
    match line with
    | inr message => (Failed "JSONDecodeError" (first_chars (Z.to_nat 500) message), b)
    | inl document => answer (execute written document b)
    end.
End broker.
