(* ===== verification/BrokerTheorems.v ===== *)
(** * From a running task to a privileged operation

    What a broker ticket certifies, that the broker accepts exactly the reviewed
    tickets the control plane issues, that it spends each at most once across
    crashes and restarts, and that no ticket reaches the command line. *)
From S2P Require Import Prelude Py Sha256 IpNetwork Models Store Logic Security TaskCore Notifications Governance.
From S2P Require Import GovernanceFacts RuntimeTheorems Runbooks BrokerTickets WorkerPackages Broker Demo.

Open Scope Z_scope.

(** ** What a ticket certifies *)
Section issuing.
Context `{World}.

(** the risk at which the control plane lets an operation run *)
Definition risk_allowed (c : InfrastructureContract) (risk : Z) : Prop :=
  if str_in (icn_operation c) observations then if packaged c then 0 <= risk <= 1 else risk = 0
  else if str_in (icn_operation c) risk_two then risk = 2
  else packaged c = true ∨ risk = 3.

(** the approval behind a risky task *)
Definition approved_for (d : database) (task : Task) (now : datetime) : Prop :=
  ∃ id a e, approvals d !! id = Some a ∧ ap_task_id a = t_id task ∧ ap_status a = ApConsumed ∧
    ap_plan_digest a = t_plan_digest task ∧ ap_expires_at a = Some e ∧ now < e.

(** the registered, approved and freshly rehearsed package behind a packaged operation *)
Definition backed_by_package (d : database) (c : InfrastructureContract) (task : Task) (now : datetime) : Prop :=
  ∃ id pk promotion rid rehearsal o,
    runbook_packages d !! id = Some pk ∧ Some (rpk_name pk) = icn_package_name c ∧
    Some (rpk_version pk) = icn_package_version c ∧ Some (rpk_manifest_digest pk) = icn_package_digest c ∧
    last (promotions_of (rpk_id pk) d) = Some promotion ∧ (rpr_state promotion = "approved" ∨ rpr_state promotion = "deployed") ∧
    runbook_promotions d !! rid = Some rehearsal ∧ rpr_package_id rehearsal = rpk_id pk ∧ rpr_state rehearsal = "rehearsed" ∧
    now < rpr_recorded_at rehearsal + hours (rhc_max_evidence_age_hours (rpm_rehearsal (rpk_manifest pk))) ∧
    o ∈ rpm_operations (rpk_manifest pk) ∧ rpo_name o = icn_operation c ∧ rpo_target_profile o = icn_target c ∧
    rpo_task_type o = t_task_type task ∧ rpo_risk_level o = t_risk_level task ∧
    _validate_packaged_parameters (rpo_parameters o) (icn_parameters c) = Ok tt.

(** what the control plane vouches for when it signs *)
Record certified (d : database) (task : Task) (agent : Agent) (secret : string) (now : datetime)
    (ticket : BrokerTicketResponse) : Prop := {
  ce_contract : contract_of_json (t_input_contract task) = Some (btp_contract (btr_payload ticket));
  ce_payload : ∃ lease, t_lease_expires_at task = Some lease ∧ now < lease ∧
    btr_payload ticket = ticket_payload task agent (btp_contract (btr_payload ticket)) now lease;
  ce_valid : valid_payload (btr_payload ticket) = true;
  ce_signature : btr_signature ticket = hmac_sha256 secret (canonical_ticket (btr_payload ticket));
  ce_risk : risk_allowed (btp_contract (btr_payload ticket)) (t_risk_level task);
  ce_approval : 2 <= t_risk_level task → approved_for d task now;
  ce_package : packaged (btp_contract (btr_payload ticket)) = true →
    backed_by_package d (btp_contract (btr_payload ticket)) task now;
  ce_task : btp_task_id (btr_payload ticket) = t_id task ∧ btp_attempt_number (btr_payload ticket) = t_attempt_count task ∧
    btp_agent_id (btr_payload ticket) = ag_id agent ∧ btp_machine (btr_payload ticket) = ag_machine agent ∧
    btp_task_type (btr_payload ticket) = t_task_type task ∧ btp_risk_level (btr_payload ticket) = t_risk_level task ∧
    btp_plan_digest (btr_payload ticket) = t_plan_digest task;
  ce_nonce : btp_nonce (btr_payload ticket) =
    sha256 (uuid_str (t_id task) +:+ ":" +:+ pretty (t_attempt_count task) +:+ ":" +:+ t_plan_digest task);
  ce_expiry : btp_issued_at (btr_payload ticket) = now ∧ now < btp_expires_at (btr_payload ticket) <= now + seconds 60 ∧
    ∃ lease, t_lease_expires_at task = Some lease ∧ btp_expires_at (btr_payload ticket) <= lease }.

Lemma head_find {A} (p : A → bool) l x : find p l = Some x → x ∈ l ∧ p x = true.
Proof. intros Hf. apply find_some in Hf as [??]. split; [by apply list_elem_of_In|done]. Qed.

Lemma wp_lift I {A} (m : outcome A) Q s :
  (∀ a, m = Ok a → Q a s) → (∀ e, m = Err e → I (saved s)) → wp I (lift m) Q s.
Proof. unfold wp, lift. destruct m as [a|e]; intros H1 H2; [by apply H1|by apply (H2 e)]. Qed.

(** the package check only reads *)
Lemma packaged_operation_backed c task now s Q :
  (backed_by_package (db s) c task now → Q tt s) → wp (fun _ => True) (_validate_packaged_operation c task now) Q s.
Proof.
  intros HQ. unfold _validate_packaged_operation. apply wp_bind, wp_gets.
  destruct (head _) as [pk|] eqn:Hpk; [|done]. apply select_one_Some in Hpk as [Hatt (id & Hrow)].
  apply andb_prop in Hatt as [[H1%bool_decide_eq_true H2%bool_decide_eq_true]%andb_prop H3%bool_decide_eq_true].
  apply wp_bind, wp_gets. apply wp_if; intros Hpr; [done|]. apply negb_false_iff in Hpr.
  destruct (last _) as [promotion|] eqn:Hlast; [|done]. cbn [from_option] in Hpr.
  apply str_in_spec in Hpr. assert (Hst : rpr_state promotion = "approved" ∨ rpr_state promotion = "deployed").
  { apply elem_of_cons in Hpr as [?|Hpr]; [by left|]. by apply list_elem_of_singleton in Hpr; right. }
  apply wp_bind, wp_gets. apply wp_if; intros Hre; [done|].
  destruct (head (List.filter _ (table_rows (runbook_promotions (db s))))) as [r|] eqn:Hr; [|done].
  apply Z.leb_gt in Hre. apply select_one_Some in Hr as [Hr (rid & Hrid)].
  apply andb_prop in Hr as [Hr1%bool_decide_eq_true Hr2%str_eqb_spec].
  destruct (operation_named _ _) as [o|] eqn:Ho; [|done]. unfold operation_named in Ho.
  apply head_find in Ho as [Ho Hname%str_eqb_spec]. rewrite list_elem_of_In, <- in_rev, <- list_elem_of_In in Ho.
  apply wp_if; intros Hpol; [done|]. rewrite !orb_false_iff, !negb_false_iff, !str_eqb_spec, Z.eqb_eq in Hpol.
  unfold wp, lift. destruct (_validate_packaged_parameters _ _) as [[]|e] eqn:Hp; [|done].
  apply HQ. exists id, pk, promotion, rid, r, o. naive_solver.
Qed.

Lemma require_risk_ok c risk : require_risk c risk = Ok tt ↔ risk_allowed c risk.
Proof.
  assert (Hdis : str_in (icn_operation c) observations = true → str_in (icn_operation c) risk_two = false).
  { rewrite <- not_true_iff_false, !str_in_spec. intros Hin Hst%list_elem_of_singleton. rewrite Hst in Hin.
    by apply str_in_spec in Hin. }
  revert Hdis. unfold require_risk, risk_allowed, refused, str_in, within. rewrite existsb_app.
  destruct (existsb _ observations), (existsb _ risk_two), (packaged c); cbn; intros Hdis;
    try (by discriminate (Hdis eq_refl));
    repeat match goal with |- context [if negb ?b then _ else _] => destruct b eqn:?; cbn end;
    split; intros Hr; first [done|lia|by left|by right; lia|by destruct Hr; [|lia]].
Qed.

Lemma consumed_approval_spec task now a :
  consumed_approval task now a = true →
  ap_status a = ApConsumed ∧ ap_plan_digest a = t_plan_digest task ∧ ∃ e, ap_expires_at a = Some e ∧ now < e.
Proof.
  unfold consumed_approval. intros [[[H1%bool_decide_eq_true H2%str_eqb_spec]%andb_prop _]%andb_prop He]%andb_prop.
  destruct (ap_expires_at a) as [e|]; [|done]. split; [done|]. split; [done|]. exists e. split; [done|]. by apply Z.ltb_lt.
Qed.

Lemma seal_ticket_ok task agent c secret now t :
  seal_ticket task agent c secret now = Ok t →
  ∃ lease, t_lease_expires_at task = Some lease ∧ now < lease ∧
    valid_payload (ticket_payload task agent c now lease) = true ∧ t = signed_ticket secret (ticket_payload task agent c now lease).
Proof.
  unfold seal_ticket. destruct (t_lease_expires_at task) as [lease|]; [|done].
  destruct (lease <=? now) eqn:E; [done|]. apply Z.leb_gt in E.
  destruct (valid_payload _) eqn:Hv; [|done]. intros [= <-]. by exists lease.
Qed.

Lemma wp_require_approval task now s Q :
  ((2 <= t_risk_level task → approved_for (db s) task now) → Q tt s) → wp (fun _ => True) (require_approval task now) Q s.
Proof.
  intros HQ. unfold require_approval. apply wp_if; intros Hr.
  - apply negb_true_iff, Z.leb_gt in Hr. apply wp_ret, HQ. lia.
  - apply wp_bind, wp_gets. destruct (head _) as [a|] eqn:Ha; [|done]. cbn [from_option].
    apply wp_if; intros Hc; [done|]. apply negb_false_iff, consumed_approval_spec in Hc as (H1 & H2 & e & H3).
    apply select_one_Some in Ha as [Hof%bool_decide_eq_true (id & Hrow)]. apply wp_ret, HQ. intros _.
    exists id, a, e. naive_solver.
Qed.

Lemma wp_issue_broker_ticket task agent secret s :
  wp (fun _ => True) (issue_broker_ticket task agent secret)
    (fun ticket s' => db s' = db s ∧ saved s' = saved s ∧ certified (db s) task agent secret (w_now (clock s)) ticket) s.
Proof.
  unfold issue_broker_ticket. apply wp_bind, wp_utc_now. intros now ->.
  apply wp_if; intros _; [done|]. destruct (contract_of_json _) as [c|] eqn:Hc; [|done].
  apply wp_if; intros _; [done|]. set (s1 := s <|clock := S (clock s)|>). apply wp_bind.
  assert (Hrest : (packaged c = true → backed_by_package (db s1) c task (w_now (clock s))) →
    wp (fun _ => True) (_ ← lift (require_risk c (t_risk_level task));
      _ ← require_approval task (w_now (clock s)); lift (seal_ticket task agent c secret (w_now (clock s))))
      (fun ticket s' => db s' = db s ∧ saved s' = saved s ∧ certified (db s) task agent secret (w_now (clock s)) ticket) s1).
  { intros Hpk. apply wp_bind, wp_lift; [|done]. intros [] Hrisk%require_risk_ok.
    apply wp_bind, wp_require_approval. intros Hap. apply wp_lift; [|done].
    intros t (lease & Hl & Hlt & Hv & ->)%seal_ticket_ok. split; [done|]. split; [done|].
    constructor; try done; [by exists lease|]. cbn. unfold seconds. split_and!; [done|lia..|]. exists lease. split; [done|lia]. }
  apply wp_when; intros Hp; [|apply Hrest; intros ?; congruence].
  apply packaged_operation_backed. intros Hb. by apply Hrest.
Qed.
(** the endpoint, from any session *)
Lemma get_broker_ticket_ok secret task_id agent token s ticket s' :
  get_broker_ticket secret task_id agent token s = (Ok ticket, s') →
  ∃ task, tasks (db s) !! task_id = Some task ∧ t_status task = Running ∧ accepts task agent token (w_now (clock s)) ∧
    certified (db s) task agent secret (w_now (S (clock s))) ticket ∧
    tasks (saved s') = tasks (db s) ∧ approvals (saved s') = approvals (db s).
Proof.
  intros E. unfold get_broker_ticket in E. run_ok E. unfold lock_task in E0. run_ok E0.
  injection E1 as <- <-. cbn in E0. destruct (tasks (db s) !! task_id) as [task|] eqn:Ht; [|done]. injection E0 as <- <-.
  run_ok E. apply verify_ok in E0 as (-> & -> & Hst%list_elem_of_singleton & Hacc).
  run_ok E. pose proof (wp_run _ _ _ _ _ _ (wp_issue_broker_ticket _ _ _ _) E0) as (Hdb & Hsv & Hce).
  assert (Hend : a = ticket ∧ tasks (saved s') = tasks (db s0) ∧ approvals (saved s') = approvals (db s0)).
  { clear -E. run_ok E. run_ok E. injection E1 as <- <-. injection E as -> <-. split; [done|].
    unfold append_task_event in E0. run_ok E0. injection E as <- <-. injection E0 as _ <-. done. }
  destruct Hend as (-> & H1 & H2). exists task. by rewrite H1, H2, Hdb.
Qed.
End issuing.

(** C11. A broker ticket is issued only for a running task to the agent that holds
    its live lease, and it certifies: the contract of that task, a risk the
    operation may have, from risk two the consumed and unexpired approval of this
    very plan, for a packaged operation a registered package whose promotion is
    approved or deployed, whose rehearsal is fresh and whose policy and parameters
    the task meets; the task, its attempt and plan and the agent; a nonce that is the
    SHA-256 of the task, its attempt and its plan; an expiry later than the issue and
    within both the lease and sixty seconds; and the HMAC of all of it. Issuing
    changes neither tasks nor approvals. *)
Theorem ticket_certifies_running_task `{World} secret task_id agent token d ticket d' :
  request (get_broker_ticket secret task_id agent token) d = (Ok ticket, d') →
  ∃ task, tasks d !! task_id = Some task ∧ t_status task = Running ∧ accepts task agent token (w_now 0) ∧
    certified d task agent secret (w_now 1) ticket ∧ tasks d' = tasks d ∧ approvals d' = approvals d.
Proof.
  unfold request. destruct (get_broker_ticket _ _ _ _ _) as [r s'] eqn:E. intros [= -> <-].
  exact (get_broker_ticket_ok _ _ _ _ _ _ _ E).
Qed.

(** ** Admission by the broker *)
Section admission.
Context `{Host} (cf : settings).

(** the tickets a broker takes at time [now] *)
Definition acceptable_ticket (t : BrokerTicketResponse) (now : datetime) : Prop :=
  valid_ticket t = true ∧ btr_signature t = hmac_sha256 (st_secret cf) (canonical_ticket (btr_payload t)) ∧
  now < btp_expires_at (btr_payload t) ∧ _validate_operation (btr_payload t) = Ok tt.

Lemma admit_ticket_spec written document t b :
  host_ticket document = Some t →
  acceptable_ticket t (host_now (bk_clock b)) → btp_nonce (btr_payload t) ∉ bk_consumed b →
  admit_ticket cf written document b =
    (x ← _consume written (btp_nonce (btr_payload t)); mret (btr_payload t, host_now (bk_clock b)))
      (b <| bk_clock := S (bk_clock b) |>).
Proof.
  intros Ht (Hv & Hs & He & Ho) Hn. unfold admit_ticket. rewrite Ht, Hv. cbn [negb].
  rewrite <- Hs, str_eqb_refl. cbn [negb]. unfold broker_now, mbind, Brk_bind. cbv beta iota.
  destruct (Z.leb_spec (btp_expires_at (btr_payload t)) (host_now (bk_clock b))); [lia|].
  change (bk_consumed (b <|bk_clock := S (bk_clock b)|>)) with (bk_consumed b).
  rewrite <- str_in_spec in Hn. apply not_true_is_false in Hn. rewrite Hn. unfold of_outcome. by rewrite Ho.
Qed.

Lemma admit_ticket_inv written document b p now b' :
  admit_ticket cf written document b = (Ok (p, now), b') →
  now = host_now (bk_clock b) ∧ written = true ∧ p.(btp_nonce) ∉ bk_consumed b ∧
  (∃ t, host_ticket document = Some t ∧ btr_payload t = p ∧ acceptable_ticket t now) ∧
  b' = b <| bk_clock := S (bk_clock b) |> <| bk_consumed := str_insert (btp_nonce p) (bk_consumed b) |>
         <| bk_ledger := Some (Some (Json.str_list (str_insert (btp_nonce p) (bk_consumed b)))) |>.
Proof.
  unfold admit_ticket. destruct (host_ticket document) as [t|] eqn:Ht; [|done].
  destruct (valid_ticket t) eqn:Hv; [|done]. cbn [negb].
  destruct (str_eqb _ _) eqn:Hs; [|done]. cbn [negb]. apply str_eqb_spec in Hs.
  unfold broker_now, mbind, Brk_bind. cbv beta iota.
  destruct (Z.leb_spec (btp_expires_at (btr_payload t)) (host_now (bk_clock b))); [done|].
  change (bk_consumed (b <|bk_clock := S (bk_clock b)|>)) with (bk_consumed b).
  destruct (str_in _ _) eqn:Hn; [done|]. unfold of_outcome.
  destruct (_validate_operation (btr_payload t)) as [[]|e] eqn:Ho; [|done]. unfold _consume.
  destruct written; [|done]. intros [= <- <- <-]. split; [done|]. split; [done|].
  split; [by rewrite <- str_in_spec, Hn|]. split; [|done]. by exists t.
Qed.

(** a request that is not admitted leaves the ledger alone *)
Lemma admit_ticket_err written document b e b' :
  admit_ticket cf written document b = (Err e, b') →
  bk_ledger b' = bk_ledger b ∧ bk_actions b' = bk_actions b ∧
  (∀ n, n ∈ bk_consumed b → n ∈ bk_consumed b').
Proof.
  unfold admit_ticket. destruct (host_ticket document) as [t|]; [|by intros [= _ <-]].
  destruct (valid_ticket t); cbn [negb]; [|by intros [= _ <-]].
  destruct (str_eqb _ _); cbn [negb]; [|by intros [= _ <-]].
  unfold broker_now, mbind, Brk_bind. cbv beta iota. destruct (_ <=? _); [by intros [= _ <-]|].
  destruct (str_in _ _); [by intros [= _ <-]|]. unfold of_outcome.
  destruct (_validate_operation _); [|by intros [= _ <-]]. unfold _consume. destruct written; [done|].
  intros [= _ <-]. split; [done|]. split; [done|]. intros n Hn. cbn. by apply str_insert_elem; right.
Qed.
End admission.

(** ** What an operation may touch *)

(** [m] leaves the ledger alone and only does actions that satisfy [P] *)
Definition does (P : action → Prop) {A} (m : Brk A) : Prop := ∀ b,
  bk_ledger (m b).2 = bk_ledger b ∧ bk_consumed (m b).2 = bk_consumed b ∧
  ∃ l, bk_actions (m b).2 = bk_actions b ++ l ∧ Forall P l.

Section does.
Context (P : action → Prop).

Lemma does_quiet {A} (m : Brk A) :
  (∀ b, bk_ledger (m b).2 = bk_ledger b ∧ bk_consumed (m b).2 = bk_consumed b ∧ bk_actions (m b).2 = bk_actions b) →
  does P m.
Proof. intros Hm b. destruct (Hm b) as (? & ? & E). split_and!; try done. exists []. by rewrite E, app_nil_r. Qed.

Lemma does_ret {A} (a : A) : does P (mret a).
Proof. by apply does_quiet. Qed.
Lemma does_fails {A} e : does P (fails (A:=A) e).
Proof. by apply does_quiet. Qed.
Lemma does_error {A} m : does P (broker_error (A:=A) m).
Proof. by apply does_quiet. Qed.
Lemma does_observe {A} (f : list action → A) : does P (observe f).
Proof. by apply does_quiet. Qed.
Lemma does_outcome {A} (o : outcome A) : does P (of_outcome o).
Proof. by apply does_quiet. Qed.
Lemma does_now `{Host} : does P broker_now.
Proof. by apply does_quiet. Qed.

Lemma does_acted l : Forall P l → does P (acted l).
Proof. intros Hl b. split_and!; try done. by exists l. Qed.

Lemma does_bind {A B} (m : Brk A) (f : A → Brk B) : does P m → (∀ a, does P (f a)) → does P (m ≫= f).
Proof.
  intros Hm Hf b. specialize (Hm b) as (H1 & H2 & l & H3 & H4). unfold mbind, Brk_bind.
  destruct (m b) as [[a|e] b']; cbn in *; [|split_and!; try done; by exists l].
  specialize (Hf a b') as (K1 & K2 & l' & K3 & K4). rewrite K1, K2, K3, H1, H2, H3. split_and!; try done.
  exists (l ++ l'). split; [by rewrite app_assoc|by apply Forall_app].
Qed.

Lemma does_run `{Host} c : P (Ran c) → does P (run_command c).
Proof.
  intros Hc. unfold run_command. case_bool_decide; [apply does_error|].
  apply does_bind; [apply does_observe|intros done]. apply does_bind; [|intros ?; apply does_outcome].
  destruct (was_run done); [|apply does_ret]. apply does_acted. by constructor.
Qed.
End does.

Create HintDb does discriminated.
#[export] Hint Resolve does_ret does_fails does_error does_observe does_outcome does_now : does.

(** decompose an operation; the commands it runs remain *)
Ltac does_step :=
  lazymatch goal with
  | |- does _ (_platform_compose_args _ _ _ ≫= _) => fail
  | |- does _ (_platform_service _ _ ≫= _) => fail
  | |- does _ (_ ≫= _) => apply does_bind; [|intros ?]
  | |- does _ (if ?b then _ else _) => destruct b eqn:?
  | |- does _ (match ?x with _ => _ end) => destruct x eqn:?
  | |- does _ (run_command _) => apply does_run
  | |- does _ (run_in _ _) => apply does_run
  | |- does _ _ => solve [eauto with does]
  end.
Ltac does := repeat (does_step; cbv beta).

(** ** The commands compiled into the broker *)
Section compiled.
Context `{Host} (cf : settings).

(** the commands run for one service of the catalog *)
Definition service_commands (entry : string * (string * string * string)) : list (list string * string) :=
  let '(_, (compose_service, cwd, container)) := entry in
  [(["docker"; "inspect"; container; "--format"; inspect_format], _RUNTIME);
   (["docker"; "exec"; container; "redis-cli"; "PING"], _RUNTIME)] ++
  (env ← [[]; ["--env-file"; cwd +:+ "/.env.postgres"]];
   args ← [["config"; "--quiet"]; ["restart"; "--timeout"; "30"; compose_service];
           ["up"; "-d"; "--no-deps"; "--force-recreate"; compose_service]];
   [(["docker"; "compose"] ++ env ++ args, cwd)]).

(** the commands run in the directory of the control plane *)
Definition runtime_commands : list (list string * string) :=
  (fun args => (["docker"; "compose"] ++ args, st_runtime_path cf)) <$>
    [["ps"; "--format"; "json"]; ["exec"; "-T"; "postgres"; "pg_isready"; "-U"; "swarm_app"; "-d"; "swarm_control"];
     ["exec"; "-T"; "redis"; "redis-cli"; "ping"]; ["exec"; "-T"; "postgres"; "pg_restore"; "--list"];
     ["restart"; "--timeout"; "30"; "api"]; ["up"; "-d"; "--no-deps"; "--force-recreate"; "api"]].

Definition postgres_commands : list (list string * string) :=
  [(["openssl"; "x509"; "-in"; st_postgres_root cf +:+ "/certs/server.crt"; "-noout"; "-checkend"; "2592000"],
    st_postgres_root cf);
   (_postgres_compose_args cf ["exec"; "-T"; "postgres"; "pg_restore"; "--list"], st_postgres_root cf);
   (["systemctl"; "is-enabled"; st_backup_timer_unit cf], _RUNTIME);
   (["python3"; "-c"; health_probe], st_runtime_path cf)].

(** all of them: a finite list that no ticket occurs in *)
Definition compiled_commands : list (list string * string) :=
  (st_platform_services cf ≫= service_commands) ++ runtime_commands ++ postgres_commands.

Definition compiled (a : action) : Prop :=
  match a with
  | Ran c => (cmd_args c, cmd_cwd c) ∈ compiled_commands
  | Slept => True
  | Staged => False
  end.

Lemma compiled_service entry x :
  entry ∈ st_platform_services cf → x ∈ service_commands entry → x ∈ compiled_commands.
Proof. intros He Hx. apply elem_of_app. left. apply list_elem_of_bind. by exists entry. Qed.

Lemma compiled_runtime args stdin : (["docker"; "compose"] ++ args, st_runtime_path cf) ∈ runtime_commands →
  compiled (Ran (mkCommand (["docker"; "compose"] ++ args) (st_runtime_path cf) stdin)).
Proof. intros Hx. cbn. apply elem_of_app. right. apply elem_of_app. by left. Qed.

Lemma compiled_postgres args cwd stdin : (args, cwd) ∈ postgres_commands → compiled (Ran (mkCommand args cwd stdin)).
Proof. intros Hx. cbn. apply elem_of_app. right. apply elem_of_app. by right. Qed.

(** looking a service up either fails or gives its entry *)
Lemma does_service P {A} service (k : string * string * string → Brk A) :
  (∀ name entry, find (fun kv => str_eqb kv.1 service) (st_platform_services cf) = Some (name, entry) → does P (k entry)) →
  does P (_platform_service cf service ≫= k).
Proof.
  intros Hk. unfold _platform_service. destruct (find _ _) as [[name entry]|] eqn:Hf; [|by apply does_quiet].
  intros b. by apply (Hk name).
Qed.

Lemma found_service service name entry :
  find (fun kv => str_eqb kv.1 service) (st_platform_services cf) = Some (name, entry) →
  (name, entry) ∈ st_platform_services cf.
Proof. intros Hf. apply find_some in Hf as [Hf _]. by apply list_elem_of_In. Qed.

Lemma does_inspect service : does compiled (_platform_service_state cf service).
Proof.
  unfold _platform_service_state. apply does_service. intros name [[cs cwd] ct] Hf. unfold run_in. does.
  eapply compiled_service; [by eapply found_service|]. left.
Qed.

Lemma does_slept : does compiled (acted [Slept]).
Proof. apply does_acted, Forall_singleton. exact I. Qed.
#[local] Hint Resolve does_slept : does.

Lemma does_until k service : does compiled (until_healthy cf k service).
Proof.
  induction k as [|k IH]; cbn; [does|]. apply does_bind; [apply does_inspect|intros s]. does.
Qed.
#[local] Hint Resolve does_inspect does_until : does.

(** a compose command for a service, run in its directory *)
Lemma does_compose service name args cwd cs ct {A} (k : reply → Brk A) :
  find (fun kv => str_eqb kv.1 service) (st_platform_services cf) = Some (name, (cs, cwd, ct)) →
  args ∈ [["config"; "--quiet"]; ["restart"; "--timeout"; "30"; cs]; ["up"; "-d"; "--no-deps"; "--force-recreate"; cs]] →
  (∀ r, does compiled (k r)) →
  does compiled (full ← _platform_compose_args cf service args; r ← run_in cwd full; k r).
Proof.
  intros Hf Ha Hk. unfold _platform_compose_args, _platform_service. rewrite Hf. pose proof (find_some _ _ Hf) as [Hin%list_elem_of_In _].
  assert (Hc : ∀ present : bool, compiled (Ran (mkCommand
    (["docker"; "compose"] ++ (if present then ["--env-file"; cwd +:+ "/.env.postgres"] else []) ++ args) cwd None))).
  { intros present. eapply compiled_service; [exact Hin|]. cbn [service_commands]. apply elem_of_app. right.
    apply list_elem_of_bind. exists (if present then ["--env-file"; cwd +:+ "/.env.postgres"] else []).
    split; [|destruct present; [right; left|left]]. apply list_elem_of_bind. exists args. split; [left|exact Ha]. }
  intros b. exact (does_bind _ _ k (does_run _ _ (Hc (host_is_file (bk_actions b) (cwd +:+ "/.env.postgres")))) Hk b).
Qed.

Lemma does_restart p started service name cs cwd ct pre :
  find (fun kv => str_eqb kv.1 service) (st_platform_services cf) = Some (name, (cs, cwd, ct)) →
  does compiled (restart_transaction cf p started service cs cwd pre).
Proof.
  intros Hf. unfold restart_transaction, _platform_service_state_until_healthy.
  eapply does_compose; [exact Hf|right; left|]. intros r. does.
  eapply does_compose; [exact Hf|right; right; left|]. intros r'. does.
Qed.

Lemma does_parameter name p : does compiled (parameter name p).
Proof. unfold parameter. does. Qed.
Lemma does_result p started ok post e : does compiled (_platform_result p started ok post e).
Proof. unfold _platform_result. does. Qed.
#[local] Hint Resolve does_parameter does_result : does.

Lemma does_restart_service p started : does compiled (restart_docker_service cf p started).
Proof.
  unfold restart_docker_service. does. apply does_service. intros name [[cs cwd] ct] Hf.
  eapply does_compose; [exact Hf|left|]. intros r. does. by eapply does_restart.
Qed.

Lemma does_backup_state : does compiled (_backup_state cf).
Proof.
  unfold _backup_state, run_in. does; apply compiled_postgres; [right; right; left|right; left].
Qed.
#[local] Hint Resolve does_restart_service does_backup_state : does.

Lemma does_platform p started : does compiled (_execute_platform_operation cf p started).
Proof.
  unfold _execute_platform_operation. does; cbv beta; [..|does].
  - unfold verify_service. does.
  - unfold verify_redis. apply does_service. intros name [[cs cwd] ct] Hf. unfold run_in. does.
    eapply compiled_service; [by eapply found_service|]. right. left.
  - unfold verify_storage. does.
  - unfold verify_certificate. does. unfold run_in. does. apply compiled_postgres. left.
  - unfold verify_backup. does.
Qed.

(** a fixed command of the control plane *)
Ltac runtime_command :=
  apply compiled_runtime; unfold runtime_commands; apply list_elem_of_fmap; eexists; split; [reflexivity|]; by repeat constructor.

Lemma does_observation : does compiled (_observe cf).
Proof.
  unfold _observe, compose_in_runtime, run_in, latest_backup. does; try runtime_command.
  apply compiled_postgres. right. right. right. left.
Qed.
#[local] Hint Resolve does_observation : does.

Lemma does_again k o : does compiled (observe_again cf k o).
Proof.
  revert o. induction k as [|k IH]; intros o; cbn [observe_again]; does; apply IH.
Qed.
#[local] Hint Resolve does_again : does.

Lemma does_control_plane p started : does compiled (control_plane_operation cf p started).
Proof.
  unfold control_plane_operation, _observe_until_healthy, compose_in_runtime, run_in. does; runtime_command.
Qed.
End compiled.

(** ** The ledger across crashes and restarts *)
Section ledger.
Context (cf : settings).

(** the file on disk, the broker process if one runs, and the tickets whose
    operation was begun *)
Record machine := mkMachine {
  ma_file : option (option json);
  ma_broker : option broker;
  ma_performed : list BrokerTicketResponse }.

(** the request is admitted as ticket [t], leaving [b'] before the operation *)
Definition admits (h : Host) (written : bool) (document : json) (b : broker) (t : BrokerTicketResponse)
    (b' : broker) : Prop :=
  host_ticket document = Some t ∧ ∃ now, admit_ticket cf written document b = (Ok (btr_payload t, now), b').

Inductive step : machine → machine → Prop :=
| step_performed h written len document b t b' file done :
    bad_length len = false → admits h written document b t b' →
    step (mkMachine file (Some b) done)
      (mkMachine (bk_ledger (@handle h cf written len (inl document) b).2)
         (Some (@handle h cf written len (inl document) b).2) (t :: done))
| step_refused h written len line b file done :
    (bad_length len = false → ∀ document, line = inl document → ∀ p b', @admit_ticket h cf written document b ≠ (Ok p, b')) →
    step (mkMachine file (Some b) done)
      (mkMachine (bk_ledger (@handle h cf written len line b).2) (Some (@handle h cf written len line b).2) done)
| step_interrupted h written document b t b' file done :
    (* the machine dies between the ledger and the operation *)
    admits h written document b t b' →
    step (mkMachine file (Some b) done) (mkMachine (bk_ledger b') None done)
| step_crash b file done : step (mkMachine file (Some b) done) (mkMachine file None done)
| step_start file b done :
    start_broker cf file = Ok b → step (mkMachine file None done) (mkMachine file (Some b) done).

(** the nonces in the file include those of every operation begun, and a running
    broker knows them *)
Record ledger_inv (m : machine) : Prop := {
  li_once : NoDup ((fun t => btp_nonce (btr_payload t)) <$> ma_performed m);
  li_signed : Forall (fun t => valid_ticket t = true ∧
    btr_signature t = hmac_sha256 (st_secret cf) (canonical_ticket (btr_payload t))) (ma_performed m);
  li_file : ∃ nonces, _load_ledger (ma_file m) = Ok nonces ∧
    (∀ t, t ∈ ma_performed m → btp_nonce (btr_payload t) ∈ nonces) ∧
    ∀ b, ma_broker m = Some b → bk_ledger b = ma_file m ∧ ∀ n, n ∈ nonces → n ∈ bk_consumed b }.

Lemma mapM_as_str l : mapM Json.as_str (JStr <$> l) = Some l.
Proof. induction l as [|x l IH]; [done|]. cbn. cbn in IH. by rewrite IH. Qed.

Lemma load_written l : _load_ledger (Some (Some (Json.str_list l))) = Ok (sorted_set l).
Proof. unfold _load_ledger, ledger_nonces, Json.str_list. cbn. by rewrite mapM_as_str. Qed.

(** operations never touch the ledger *)
Lemma does_weaken {A} (P Q : action → Prop) (m : Brk A) : (∀ a, P a → Q a) → does P m → does Q m.
Proof.
  intros HPQ Hm b. destruct (Hm b) as (? & ? & l & ? & Hl). split_and!; try done. exists l. split; [done|].
  eapply Forall_impl; [exact Hl|done].
Qed.

Lemma execute_operation_does `{Host} p now : does (fun _ => True) (_execute_operation cf p now).
Proof.
  assert (Hacted : ∀ l, does (fun _ => True) (acted l)) by (intros l; by apply does_acted, Forall_true).
  unfold _execute_operation, stage_operation, _execute_postgres_operation, host_operation, stage. does; try done.
  - eapply does_weaken; [done|apply does_platform].
  - eapply does_weaken; [done|apply does_control_plane].
Qed.

(** a request performs its operation after the ticket was admitted *)
Lemma handle_admitted h written len document b t b' :
  bad_length len = false → admits h written document b t b' →
  bk_ledger (@handle h cf written len (inl document) b).2 = bk_ledger b' ∧
  bk_consumed (@handle h cf written len (inl document) b).2 = bk_consumed b'.
Proof.
  intros Hlen [_ [now Ha]]. unfold handle. rewrite Hlen.
  unfold execute, mbind, Brk_bind. rewrite Ha. cbn [fst snd].
  destruct (execute_operation_does (btr_payload t) now b') as (K1 & K2 & _). revert K1 K2.
  by destruct (_execute_operation _ _ _ _) as [[r|[]] b''].
Qed.

Lemma handle_refused h written len line b :
  (bad_length len = false → ∀ document, line = inl document → ∀ p b', @admit_ticket h cf written document b ≠ (Ok p, b')) →
  bk_ledger (@handle h cf written len line b).2 = bk_ledger b ∧
  ∀ n, n ∈ bk_consumed b → n ∈ bk_consumed (@handle h cf written len line b).2.
Proof.
  intros Hno. unfold handle. destruct (bad_length len); [done|].
  destruct line as [document|message]; [|done]. unfold execute, mbind, Brk_bind.
  destruct (admit_ticket cf written document b) as [[p|e] b'] eqn:E.
  - exfalso. by apply (Hno eq_refl document eq_refl p b').
  - apply admit_ticket_err in E as (H1 & _ & H2). by destruct e.
Qed.

(** *** The specification: each nonce is spent at most once *)
Definition spent (m : machine) : gset string := list_to_set ((fun t => btp_nonce (btr_payload t)) <$> ma_performed m).

Inductive spend : gset string → gset string → Prop :=
| spend_idle s : spend s s
| spend_once n s : n ∉ s → spend s ({[ n ]} ∪ s).

Lemma admitted_inv h written document b t b' file done :
  ledger_inv (mkMachine file (Some b) done) → admits h written document b t b' →
  ledger_inv (mkMachine (bk_ledger b') (Some b') (t :: done)) ∧ btp_nonce (btr_payload t) ∉ spent (mkMachine file (Some b) done).
Proof.
  intros [Honce Hsigned (nonces & Hload & Hdone & Hrun)] [Ht [now Ha]].
  apply admit_ticket_inv in Ha as (_ & _ & Hfresh & (t' & Ht' & _ & Hv & Hs & _) & ->).
  assert (t' = t) as -> by congruence. destruct (Hrun b eq_refl) as [_ Hknown].
  assert (Hnew : ∀ t', t' ∈ done → btp_nonce (btr_payload t') ≠ btp_nonce (btr_payload t)).
  { intros u Hu E. apply Hfresh, Hknown. rewrite <- E. by apply Hdone. }
  assert (Hout : btp_nonce (btr_payload t) ∉ (fun t => btp_nonce (btr_payload t)) <$> done).
  { intros (u & E & Hu)%list_elem_of_fmap. by apply (Hnew u). }
  split; [|unfold spent; by rewrite elem_of_list_to_set].
  constructor; cbn -[str_insert].
  - by constructor.
  - by constructor.
  - eexists. split; [apply load_written|]. split.
    + intros u [->|Hu]%elem_of_cons; apply sorted_set_elem, str_insert_elem; [by left|right]. by apply Hknown, Hdone.
    + intros ? [= <-]. cbn -[str_insert]. split; [done|]. intros n. by rewrite sorted_set_elem.
Qed.

Lemma ledger_step m m' : ledger_inv m → step m m' → ledger_inv m' ∧ spend (spent m) (spent m').
Proof.
  intros Hm Hstep. destruct Hstep as [h w len doc b t b' f l Hlen Ha|h w len line b f l Hno|h w doc b t b' f l Ha|b f l|f b l Hstart].
  - destruct (admitted_inv _ _ _ _ _ _ _ _ Hm Ha) as [[H1 H2 (ns & H3 & H4 & H5)] Hout].
    destruct (handle_admitted _ _ _ _ _ _ _ Hlen Ha) as [E1 E2]. split; [|by apply spend_once].
    constructor; [done..|]. exists ns. cbn in *. rewrite E1. split; [done|]. split; [done|].
    intros ? [= <-]. rewrite E1, E2. by apply H5.
  - destruct (handle_refused _ _ _ _ _ Hno) as [E1 E2]. split; [|apply spend_idle].
    destruct Hm as [H1 H2 (ns & H3 & H4 & H5)]. cbn in *. destruct (H5 b eq_refl) as [Hl Hc].
    constructor; [done..|]. exists ns. cbn. rewrite E1, Hl. split; [done|]. split; [done|].
    intros ? [= <-]. rewrite E1. split; [done|]. intros n Hn. by apply E2, Hc.
  - destruct (admitted_inv _ _ _ _ _ _ _ _ Hm Ha) as [[H1 H2 (ns & H3 & H4 & H5)] Hout]. split; [|apply spend_idle].
    destruct Hm as [K1 K2 _]. constructor; [done..|]. exists ns. cbn in *. split; [done|]. split; [|done].
    intros u Hu. apply H4. by right.
  - split; [|apply spend_idle]. destruct Hm as [H1 H2 (ns & H3 & H4 & H5)]. constructor; [done..|]. exists ns. done.
  - split; [|apply spend_idle]. destruct Hm as [H1 H2 (ns & H3 & H4 & _)]. constructor; [done..|]. exists ns. cbn in *.
    split; [done|]. split; [done|]. intros ? [= <-]. revert Hstart. unfold start_broker.
    destruct (_ <? 32); [done|]. destruct (negb _); [done|]. unfold mbind, outcome_bind. rewrite H3. by intros [= <-].
Qed.

(** C10. The broker refines a store in which every nonce is spent at most once:
    along every run of the machine, through refused requests, failed writes of the
    ledger, crashes between the ledger and the operation, crashes at any other time
    and restarts from the file, each step either begins no operation or begins the
    operation of one ticket whose nonce no earlier operation had; and every
    operation begun belongs to a valid ticket signed under the broker's secret. *)
Theorem broker_refines_spend_once file nonces m :
  _load_ledger file = Ok nonces →
  rtc step (mkMachine file None []) m →
  rtc spend ∅ (spent m) ∧ NoDup ((fun t => btp_nonce (btr_payload t)) <$> ma_performed m) ∧
  Forall (fun t => valid_ticket t = true ∧
    btr_signature t = hmac_sha256 (st_secret cf) (canonical_ticket (btr_payload t))) (ma_performed m).
Proof.
  intros Hload Hrun. assert (Hinit : ledger_inv (mkMachine file None [])).
  { constructor; [constructor..|]. exists nonces. split; [done|]. split; [|done]. by intros t ?%elem_of_nil. }
  assert (Hgo : ∀ m0, rtc step m0 m → ledger_inv m0 → rtc spend (spent m0) (spent m) ∧ ledger_inv m).
  { clear. intros m0 Hrun. induction Hrun as [m0|m0 m1 m2 Hs _ IH]; intros Hm; [by split|].
    destruct (ledger_step _ _ Hm Hs) as [Hm1 Hsp]. destruct (IH Hm1) as [Hr ?]. split; [by eapply rtc_l|done]. }
  destruct (Hgo _ Hrun Hinit) as [Hspend [H1 H2 _]]. done.
Qed.
End ledger.

(** ** The two policies agree *)
Section agreement.
Context `{World} `{Host} (cf : settings).

Lemma certified_valid d task agent issued t :
  certified d task agent (st_secret cf) issued t → valid_ticket t = true.
Proof. intros [_ _ Hv Hs _ _ _]. unfold valid_ticket. by rewrite Hv, Hs, hmac_hex. Qed.

Lemma valid_payload_facts p :
  valid_payload p = true →
  btp_machine p = "vm2-deployment" ∧ operation_has_no_untyped_parameters (btp_contract p) = true ∧
  btp_task_type p = (if str_in (icn_operation (btp_contract p)) OBSERVATIONS then "infrastructure_observation"
                     else "infrastructure_operation").
Proof.
  unfold valid_payload, valid_contract, operation_matches_task_type. rewrite !andb_true_iff, !str_eqb_spec. tauto.
Qed.

(** the control plane's risk and task type are the reviewed ones *)
Lemma reviewed_policy p :
  valid_payload p = true → packaged (btp_contract p) = false → risk_allowed (btp_contract p) (btp_risk_level p) →
  icn_operation (btp_contract p) ∈ reviewed_operations.*1 → _validate_operation p = Ok tt.
Proof.
  intros (Hm & Hpar & Hty)%valid_payload_facts Hp Hrisk Hop. unfold _validate_operation. rewrite Hp.
  assert (Hnone : icn_parameters (btp_contract p) = []).
  { revert Hpar. unfold operation_has_no_untyped_parameters. rewrite Hp. cbn [orb].
    intros [Hn _]%andb_prop. by apply bool_decide_eq_true in Hn. }
  unfold risk_allowed in Hrisk. rewrite Hp in Hrisk. clear Hp Hpar.
  destruct p as [sv ti tn an ag machine task_type risk pd [r v op tg ps pn pv pd'] nonce ia ea].
  cbn [btp_machine btp_task_type btp_risk_level btp_contract icn_operation icn_parameters] in *. subst machine task_type ps.
  repeat (apply elem_of_cons in Hop as [->|Hop];
    [vm_compute in Hrisk; first [subst risk|destruct Hrisk as [?| ->]; [done|]]; reflexivity|]).
  by inversion Hop.
Qed.

Lemma unreviewed_refused p x :
  packaged (btp_contract p) = false → icn_operation (btp_contract p) ∉ reviewed_operations.*1 →
  _validate_operation p ≠ Ok x.
Proof.
  intros Hp Hop. unfold _validate_operation. rewrite Hp. destruct (find _ _) as [[op [ty r]]|] eqn:Hf; [|done].
  apply find_some in Hf as [Hin%list_elem_of_In Heq%str_eqb_spec]. destruct Hop. cbn in Heq. subst op.
  apply list_elem_of_fmap. eexists. split; [|exact Hin]. done.
Qed.

(** C24. For an operation outside the packages the broker's table of reviewed
    operations and the control plane's rules agree: presented once before it
    expires, a certified ticket is taken exactly when its operation is reviewed,
    whatever task produced it, and a ticket that was taken is refused when it is
    presented again. A certified ticket for one of the other operations of the
    schema is always refused. *)
Theorem certified_ticket_is_taken_once d task agent issued t b :
  certified d task agent (st_secret cf) issued t → packaged (btp_contract (btr_payload t)) = false →
  host_ticket (ticket_json t) = Some t →
  host_now (bk_clock b) < btp_expires_at (btr_payload t) → btp_nonce (btr_payload t) ∉ bk_consumed b →
  (icn_operation (btp_contract (btr_payload t)) ∈ reviewed_operations.*1 →
   ∃ b', admit_ticket cf true (ticket_json t) b = (Ok (btr_payload t, host_now (bk_clock b)), b') ∧
     ∀ written x b'', admit_ticket cf written (ticket_json t) b' ≠ (Ok x, b'')) ∧
  (icn_operation (btp_contract (btr_payload t)) ∉ reviewed_operations.*1 →
   ∀ written x b', admit_ticket cf written (ticket_json t) b ≠ (Ok x, b')).
Proof.
  intros Hce Hp Ht Hnow Hfresh. pose proof (certified_valid _ _ _ _ _ Hce) as Hv.
  destruct Hce as [_ (lease & _ & _ & Hpay) Hvp Hs Hrisk _ _ _ _ _].
  assert (Hr : btp_risk_level (btr_payload t) = t_risk_level task) by by rewrite Hpay.
  rewrite <- Hr in Hrisk. split.
  - intros Hop. assert (Hacc : acceptable_ticket cf t (host_now (bk_clock b))) by (split_and!; try done; by apply reviewed_policy).
    rewrite (admit_ticket_spec cf true _ t b Ht Hacc Hfresh). unfold _consume, mbind, Brk_bind. cbv beta iota zeta.
    eexists. split; [reflexivity|]. intros written [p now] b'' E.
    apply admit_ticket_inv in E as (_ & _ & Hno & (t' & Ht' & <- & _) & _). assert (t' = t) as -> by congruence.
    apply Hno. cbn -[str_insert]. apply str_insert_elem. by left.
  - intros Hop written [p now] b' E. apply admit_ticket_inv in E as (_ & _ & _ & (t' & Ht' & <- & _ & _ & _ & Ho) & _).
    assert (t' = t) as -> by congruence. by apply (unreviewed_refused (btr_payload t) tt).
Qed.

(** C25. No ticket reaches the command line: whatever document a broker is handed,
    the commands it runs for a packaged operation, for observing the control plane
    and for restarting its API are among a finite list computed from the broker's
    own configuration, working directories included. *)
Theorem broker_commands_are_compiled written document b :
  (∀ t, host_ticket document = Some t → packaged (btp_contract (btr_payload t)) = true ∨
     str_in (icn_operation (btp_contract (btr_payload t))) ["observe-control-plane"; "restart-control-plane-api"] = true) →
  ∃ l, bk_actions (execute cf written document b).2 = bk_actions b ++ l ∧
    ∀ c, Ran c ∈ l → (cmd_args c, cmd_cwd c) ∈ compiled_commands cf.
Proof.
  intros Hkind. enough (Hl : ∃ l, bk_actions (execute cf written document b).2 = bk_actions b ++ l ∧ Forall (compiled cf) l).
  { destruct Hl as (l & E & Hl). exists l. split; [done|]. intros c Hc. by apply (proj1 (Forall_forall _ _) Hl (Ran c)). }
  unfold execute, mbind, Brk_bind. destruct (admit_ticket cf written document b) as [[[p now]|e] b'] eqn:E.
  - apply admit_ticket_inv in E as (_ & _ & _ & (t & Ht & <- & _) & ->). specialize (Hkind _ Ht). cbn [fst snd].
    assert (Hd : does (compiled cf) (_execute_operation cf (btr_payload t) now)).
    { unfold _execute_operation. destruct (packaged _); [apply does_platform|]. destruct Hkind as [?|Hop]; [done|].
      apply str_in_spec, elem_of_cons in Hop as [->|Hop%list_elem_of_singleton]; [|rewrite Hop]; apply does_control_plane. }
    match goal with |- context [_execute_operation _ _ _ ?b'] => destruct (Hd b') as (_ & _ & l & El & Hl) end.
    exists l. by rewrite El.
  - apply admit_ticket_err in E as (_ & Ea & _). exists []. cbn. by rewrite Ea, app_nil_r.
Qed.
End agreement.

(** ** The restart transaction *)
Lemma brk_ok {A B} (m : Brk A) (f : A → Brk B) b x b' :
  (m ≫= f) b = (Ok x, b') → ∃ a b1, m b = (Ok a, b1) ∧ f a b1 = (Ok x, b').
Proof. unfold mbind, Brk_bind. destruct (m b) as [[a|e] b1]; [by eauto|done]. Qed.
Ltac brk_ok H :=
  let a := fresh "a" in let b := fresh "b" in let E := fresh "E" in apply brk_ok in H as (a & b & E & H).

Lemma parameter_ok name p s b b' :
  parameter name p b = (Ok s, b') → Json.get name (icn_parameters (btp_contract p)) = Some (JStr s) ∧ b' = b.
Proof. unfold parameter. destruct (Json.get _ _) as [[]|]; try done. by intros [= -> ->]. Qed.

Lemma parameter_service p service :
  Json.get "service" (icn_parameters (btp_contract p)) = Some (JStr service) → ∀ b, parameter "service" p b = (Ok service, b).
Proof. intros Hp b. unfold parameter. by rewrite Hp. Qed.

Lemma catalogued cf service entry b b' :
  _platform_service cf service b = (Ok entry, b') →
  ∃ name, find (fun kv => str_eqb kv.1 service) (st_platform_services cf) = Some (name, entry).
Proof. unfold _platform_service. destruct (find _ _) as [[name e]|]; [|done]. intros [= -> ->]. by exists name. Qed.

(** what came back from a subprocess, if it was started *)
Definition return_code (done : completion) : option Z :=
  match done with Completed code _ _ => Some code | TimedOut _ _ => Some 124 | Unstarted _ _ => None end.

(** the state of a service as its inspection shows it *)
Definition state_seen (service container : string) (done : completion) : option service_state :=
  match done with
  | Completed code out _ =>
      let value := strip (_bounded_text out) in
      Some (mkServiceState service container ((code =? 0) && str_in value ["running healthy"; "running"]) (first_chars 100 value))
  | TimedOut out _ => Some (mkServiceState service container false (first_chars 100 (strip (_bounded_text out))))
  | Unstarted _ _ => None
  end.

(** ** What a restart should do *)
Section restart.
Context `{Host} (cf : settings).

Definition inspection (container : string) : command :=
  mkCommand ["docker"; "inspect"; container; "--format"; inspect_format] _RUNTIME None.

(** a compose command of a service, with its environment file when there is one *)
Definition compose (done : list action) (cwd : string) (args : list string) : command :=
  let environment_file := cwd +:+ "/.env.postgres" in
  mkCommand (["docker"; "compose"] ++ (if host_is_file done environment_file then ["--env-file"; environment_file] else []) ++ args)
    cwd None.

Section outcome.
Context (service compose_service cwd container : string).

Definition sees (done : list action) (s : service_state) : Prop :=
  state_seen service container (host_run done (inspection container)) = Some s.

(** at most [n] inspections, a pause after each but the last, up to the first that
    shows the service healthy *)
Inductive polls : nat → list action → list action → option service_state → Prop :=
| polls_none l : polls 0 l l None
| polls_healthy n l s : sees l s → sv_healthy s = true → polls (S n) l (l ++ [Ran (inspection container)]) (Some s)
| polls_last l s : sees l s → sv_healthy s = false → polls 1 l (l ++ [Ran (inspection container)]) (Some s)
| polls_again n l l' s o : sees l s → sv_healthy s = false → polls (S n) (l ++ [Ran (inspection container); Slept]) l' o →
    polls (S (S n)) l l' o.

Definition failed_preflight (r : BrokerExecutionResult) (post : json) : Prop :=
  bx_success r = false ∧ bx_action r = None ∧ bx_rollback r = None ∧ bx_rollback_state r = None ∧
  bx_post_state r = Some post ∧ bx_error r = Some "Service restart preflight failed.".

(** the command came back with this reply *)
Definition answers (l : list action) (c : command) (a : reply) : Prop :=
  return_code (host_run l c) = Some (rp_return_code a) ∧ reply_of (cmd_args c) (host_run l c) = Ok a.

(** the service was seen healthy and its configuration checks, which is all that was
    done from [l] to [l'] *)
Definition preflight (l : list action) (pre : service_state) (l' : list action) : Prop :=
  let l1 := l ++ [Ran (inspection container)] in
  let check := compose l1 cwd ["config"; "--quiet"] in
  sees l pre ∧ sv_healthy pre = true ∧ return_code (host_run l1 check) = Some 0 ∧ l' = l1 ++ [Ran check].

(** the restart itself, its reply, and the state of the service afterwards *)
Definition restart_run (l : list action) (a : reply) (l' : list action) (post : option service_state) : Prop :=
  let restart := compose l cwd ["restart"; "--timeout"; "30"; compose_service] in
  answers l restart a ∧ polls (st_platform_health_attempts cf) (l ++ [Ran restart]) l' post.

(** the four ends of a restart: the actions done and the result *)
Inductive restart_outcome (l : list action) : list action → BrokerExecutionResult → Prop :=
| restart_unhealthy s r :
    sees l s → sv_healthy s = false → failed_preflight r (service_state_json s) →
    restart_outcome l (l ++ [Ran (inspection container)]) r
| restart_misconfigured s a r :
    let l1 := l ++ [Ran (inspection container)] in
    let check := compose l1 cwd ["config"; "--quiet"] in
    sees l s → sv_healthy s = true → answers l1 check a → rp_return_code a ≠ 0 →
    failed_preflight r (JObj [("healthy", JBool false); ("compose_config", reply_json a)]) →
    restart_outcome l (l1 ++ [Ran check]) r
| restart_verified pre l1 a l2 s r :
    preflight l pre l1 → restart_run l1 a l2 (Some s) → rp_return_code a = 0 → sv_healthy s = true →
    bx_success r = true → bx_action r = Some (reply_json a) → bx_pre_state r = service_state_json pre →
    bx_post_state r = Some (service_state_json s) → bx_rollback r = None → bx_rollback_state r = None → bx_error r = None →
    restart_outcome l l2 r
| restart_rolled_back pre l1 a l2 post undo l3 restored r :
    preflight l pre l1 → restart_run l1 a l2 post →
    (rp_return_code a ≠ 0 ∨ ∃ s, post = Some s ∧ sv_healthy s = false) →
    let recreate := compose l2 cwd ["up"; "-d"; "--no-deps"; "--force-recreate"; compose_service] in
    answers l2 recreate undo →
    polls (st_platform_health_attempts cf) (l2 ++ [Ran recreate]) l3 restored →
    bx_success r = false → bx_action r = Some (reply_json a) → bx_pre_state r = service_state_json pre →
    bx_post_state r = Some (final_state_json post) → bx_rollback r = Some (reply_json undo) →
    bx_rollback_state r = Some (final_state_json restored) → bx_error r = Some "Service restart verification failed." →
    restart_outcome l l3 r.
End outcome.

(** ** What it does *)
Lemma run_ok cwd args b a b' :
  run_in cwd args b = (Ok a, b') →
  answers (bk_actions b) (mkCommand args cwd None) a ∧
  bk_actions b' = bk_actions b ++ [Ran (mkCommand args cwd None)].
Proof.
  unfold run_in, run_command. case_bool_decide; [done|]. unfold mbind, Brk_bind, observe, acted, of_outcome. cbn.
  unfold answers. cbn.
  destruct (host_run _ _) as [code out err|out err|cl m]; cbn; try done; by intros [= <- <-].
Qed.

Context (service compose_service cwd container : string).
Hypothesis catalog : ∃ name, find (fun kv => str_eqb kv.1 service) (st_platform_services cf) = Some (name, (compose_service, cwd, container)).

Lemma service_run b : _platform_service cf service b = (Ok (compose_service, cwd, container), b).
Proof. unfold _platform_service. by destruct catalog as [name ->]. Qed.

Lemma state_ok b s b' :
  _platform_service_state cf service b = (Ok s, b') →
  sees service container (bk_actions b) s ∧ bk_actions b' = bk_actions b ++ [Ran (inspection container)].
Proof.
  intros E. unfold _platform_service_state in E. brk_ok E. rewrite service_run in E0. injection E0 as <- <-. brk_ok E.
  apply run_ok in E0 as ([_ Hr] & Ha). injection E as <- <-. split; [|done]. unfold sees, inspection.
  destruct (host_run _ _); cbn in Hr |- *; try done; by injection Hr as <-.
Qed.

Lemma compose_ok args b full b' :
  _platform_compose_args cf service args b = (Ok full, b') →
  b' = b ∧ mkCommand full cwd None = compose (bk_actions b) cwd args.
Proof.
  intros E. unfold _platform_compose_args in E. brk_ok E. rewrite service_run in E0. injection E0 as <- <-. brk_ok E.
  injection E0 as <- <-. by injection E as <- <-.
Qed.

Lemma until_ok n b o b' :
  until_healthy cf n service b = (Ok o, b') → polls service container n (bk_actions b) (bk_actions b') o.
Proof.
  revert b. induction n as [|[|n] IH]; intros b E; cbn [until_healthy] in E.
  - injection E as <- <-. constructor.
  - brk_ok E. apply state_ok in E0 as [Hs Ha]. destruct (sv_healthy a) eqn:Hh; injection E as <- <-; rewrite Ha; by constructor.
  - brk_ok E. apply state_ok in E0 as [Hs Ha]. destruct (sv_healthy a) eqn:Hh.
    { injection E as <- <-. rewrite Ha. by constructor. }
    brk_ok E. injection E0 as <- <-. apply IH in E. cbn in E. rewrite Ha, <- app_assoc in E. by eapply polls_again.
Qed.

Lemma polls_some n l l' o : polls service container n l l' o → is_Some o ∨ n = 0%nat.
Proof. induction 1; [by right|by left..|]. destruct IHpolls; [by left|lia]. Qed.

Lemma result_ok p started ok post e b r b' :
  _platform_result p started ok post e b = (Ok r, b') →
  bk_actions b' = bk_actions b ∧ bx_success r = ok ∧ bx_action r = None ∧ bx_rollback r = None ∧
  bx_rollback_state r = None ∧ bx_post_state r = Some post ∧ bx_error r = e.
Proof. intros E. unfold _platform_result in E. brk_ok E. injection E0 as <- <-. by injection E as <- <-. Qed.

Lemma transaction_ok p started pre l b r b' :
  preflight service cwd container l pre (bk_actions b) →
  restart_transaction cf p started service compose_service cwd pre b = (Ok r, b') →
  restart_outcome service compose_service cwd container l (bk_actions b') r.
Proof.
  intros Hpre E. unfold restart_transaction in E. apply brk_ok in E as (full & b1 & Ec & E). apply compose_ok in Ec as [-> Hc].
  apply brk_ok in E as (a & b2 & Ea & E). apply run_ok in Ea as (Hcode & Ha). rewrite Hc in Hcode, Ha.
  apply brk_ok in E as (post & b3 & Ep & E). apply until_ok in Ep. rewrite Ha in Ep. apply brk_ok in E as (success & b4 & Es & E).
  assert (Hsucc : b4 = b3 ∧ if success : bool then rp_return_code a = 0 ∧ ∃ s, post = Some s ∧ sv_healthy s = true
                            else rp_return_code a ≠ 0 ∨ ∃ s, post = Some s ∧ sv_healthy s = false).
  { destruct (Z.eqb_spec (rp_return_code a) 0) as [E2|E2]; [|injection Es as <- <-; by auto].
    destruct post as [st|]; [|done]. injection Es as <- <-. split; [done|]. destruct (sv_healthy st) eqn:Hh; eauto. }
  destruct Hsucc as [-> Hsucc]. apply brk_ok in E as (undone & b5 & Eu & E). apply brk_ok in E as (ended & b6 & En & E).
  injection En as <- <-. injection E as <- <-. destruct success.
  - destruct Hsucc as (H0 & st & -> & Hst). injection Eu as <- <-. cbn. by eapply restart_verified.
  - apply brk_ok in Eu as (full2 & b6 & Ec & Eu). apply compose_ok in Ec as [-> Hc2].
    apply brk_ok in Eu as (undo & b7 & Ea & Eu). apply run_ok in Ea as (Hundo & Ha2). rewrite Hc2 in Hundo, Ha2.
    apply brk_ok in Eu as (restored & b8 & Er & Eu). apply until_ok in Er. rewrite Ha2 in Er. injection Eu as <- <-. cbn.
    by eapply restart_rolled_back.
Qed.

Lemma restart_ok p started b r b' :
  Json.get "service" (icn_parameters (btp_contract p)) = Some (JStr service) →
  restart_docker_service cf p started b = (Ok r, b') →
  restart_outcome service compose_service cwd container (bk_actions b) (bk_actions b') r.
Proof.
  intros Hpar E. unfold restart_docker_service in E. brk_ok E. unfold parameter in E0. rewrite Hpar in E0. injection E0 as <- <-.
  brk_ok E. apply state_ok in E0 as [Hs Ha]. destruct (sv_healthy a) eqn:Hh; cbn [negb] in E.
  - brk_ok E. rewrite service_run in E0. injection E0 as <- <-. brk_ok E. apply compose_ok in E0 as [-> Hc].
    brk_ok E. apply run_ok in E0 as (Hcode & Ha2). rewrite Hc, Ha in Hcode, Ha2.
    destruct (Z.eqb_spec (rp_return_code a1) 0) as [E0|E0]; cbn [negb] in E.
    + eapply transaction_ok; [|exact E]. destruct Hcode as [Hcode _]. rewrite E0 in Hcode. by split_and!.
    + apply result_ok in E as (Hb & Hres). rewrite Hb, Ha2. by eapply restart_misconfigured.
  - apply result_ok in E as (Hb & Hres). rewrite Hb, Ha. by eapply restart_unhealthy.
Qed.

(** ** It comes to an end *)
Definition ends {A} (m : Brk A) (b : broker) : Prop := ∃ a b', m b = (Ok a, b').

Lemma ends_bind {A B} (m : Brk A) (f : A → Brk B) b :
  ends m b → (∀ a b', m b = (Ok a, b') → ends (f a) b') → ends (m ≫= f) b.
Proof. intros (a & b' & E) Hf. unfold ends, mbind, Brk_bind. rewrite E. by apply Hf. Qed.

Lemma ends_ret {A} (a : A) b : ends (mret a) b.
Proof. by exists a, b. Qed.

Hypothesis runs : ∀ l c, was_run (host_run l c) = true.

Lemma run_ends cwd' args b : args ≠ [] → ends (run_in cwd' args) b.
Proof.
  intros Hne. unfold ends, run_in, run_command. rewrite bool_decide_false by done.
  unfold mbind, Brk_bind, observe, acted, of_outcome. cbn. specialize (runs (bk_actions b) (mkCommand args cwd' None)).
  destruct (host_run _ _); cbn in *; [by eauto..|done].
Qed.

Lemma state_ends b : ends (_platform_service_state cf service) b.
Proof.
  apply ends_bind; [eexists _, _; apply service_run|]. intros [[cs cwd'] ct] b' _.
  apply ends_bind; [by apply run_ends|]. intros; apply ends_ret.
Qed.

Lemma until_ends n b : ends (until_healthy cf n service) b.
Proof.
  revert b. induction n as [|n IH]; intros b; cbn [until_healthy]; [apply ends_ret|].
  apply ends_bind; [apply state_ends|]. intros st b' _. destruct (sv_healthy st); [apply ends_ret|].
  destruct n as [|n]; [apply ends_ret|]. apply ends_bind; [by eexists _, _|]. intros; apply IH.
Qed.

Lemma compose_ends args b : ends (_platform_compose_args cf service args) b.
Proof.
  apply ends_bind; [eexists _, _; apply service_run|]. intros [[cs cwd'] ct] b' _. apply ends_bind; [by eexists _, _|].
  intros; apply ends_ret.
Qed.

Lemma transaction_ends p started pre b :
  (1 <= st_platform_health_attempts cf)%nat →
  ends (restart_transaction cf p started service compose_service cwd pre) b.
Proof.
  intros Hn. unfold restart_transaction.
  apply ends_bind; [apply compose_ends|]. intros full b1 [_ Hc]%compose_ok.
  apply ends_bind; [apply run_ends; by injection Hc as ->|]. intros a b2 _.
  apply ends_bind; [apply until_ends|]. intros post b3 Hp%until_ok.
  apply ends_bind.
  { destruct (_ =? 0); [|apply ends_ret]. destruct post; [apply ends_ret|]. apply polls_some in Hp as [[? [=]]|?]; lia. }
  intros success b4 _. apply ends_bind.
  - destruct success; [apply ends_ret|].
    apply ends_bind; [apply compose_ends|]. intros full2 b5 [_ Hc2]%compose_ok.
    apply ends_bind; [apply run_ends; by injection Hc2 as ->|]. intros undo b6 _.
    apply ends_bind; [apply until_ends|]. intros; apply ends_ret.
  - intros undone b7 _. apply ends_bind; [by eexists _, _|]. intros; apply ends_ret.
Qed.

Lemma restart_ends p started b :
  (1 <= st_platform_health_attempts cf)%nat →
  Json.get "service" (icn_parameters (btp_contract p)) = Some (JStr service) →
  ends (restart_docker_service cf p started) b.
Proof.
  intros Hn Hpar. unfold restart_docker_service.
  assert (Hresult : ∀ ok post e b0, ends (_platform_result p started ok post e) b0)
    by (intros; apply ends_bind; [by eexists _, _|]; intros; apply ends_ret).
  apply ends_bind; [eexists _, _; by apply parameter_service|]. intros name b1 Ep.
  rewrite (parameter_service _ _ Hpar) in Ep. injection Ep as <- <-.
  apply ends_bind; [apply state_ends|]. intros pre b2 _. destruct (sv_healthy pre); cbn [negb]; [|apply Hresult].
  apply ends_bind; [eexists _, _; apply service_run|]. intros entry b3 Ee. rewrite service_run in Ee. injection Ee as <- <-.
  apply ends_bind; [apply compose_ends|]. intros full b4 [_ Hc]%compose_ok.
  apply ends_bind; [apply run_ends; by injection Hc as ->|]. intros config b5 _.
  destruct (_ =? 0); cbn [negb]; [by apply transaction_ends|apply Hresult].
Qed.
End restart.

Section promises.
Context `{Host} (cf : settings).

(** C26. Restarting a service of the catalog ends in one of four ways, each fixed
    by what the machine answered. If the service is not seen healthy, it is
    inspected and nothing else is done. If its configuration does not check, the
    check is the last command. Otherwise the service is restarted and inspected,
    up to the configured number of attempts, and the restart is reported as a
    success exactly when the command returned zero and the last inspection showed
    the service healthy; in every other case the container is recreated, inspected
    again, and a failure is reported with the reply to the rollback and the state
    after it. A service outside the catalog is refused with nothing done; one of the catalog
    always gets a report, if an attempt is configured and the machine can start
    the commands. *)
Theorem restart_is_verified_or_rolled_back p started b :
  (∀ r b', restart_docker_service cf p started b = (Ok r, b') →
     ∃ service name compose_service cwd container,
       Json.get "service" (icn_parameters (btp_contract p)) = Some (JStr service) ∧
       find (fun kv => str_eqb kv.1 service) (st_platform_services cf) = Some (name, (compose_service, cwd, container)) ∧
       restart_outcome cf service compose_service cwd container (bk_actions b) (bk_actions b') r) ∧
  (∀ service, Json.get "service" (icn_parameters (btp_contract p)) = Some (JStr service) →
     service ∈ (st_platform_services cf).*1 → (1 <= st_platform_health_attempts cf)%nat →
     (∀ l c, was_run (host_run l c) = true) →
     ∃ r b', restart_docker_service cf p started b = (Ok r, b')) ∧
  (∀ service, Json.get "service" (icn_parameters (btp_contract p)) = Some (JStr service) →
     service ∉ (st_platform_services cf).*1 → ∃ e, restart_docker_service cf p started b = (Err e, b)).
Proof.
  split_and!.
  - intros r b' E. pose proof E as Er. unfold restart_docker_service in Er. apply brk_ok in Er as (service & b1 & Ep & Er).
    apply parameter_ok in Ep as [Hpar ->]. apply brk_ok in Er as (pre & b2 & Es & _).
    unfold _platform_service_state in Es. apply brk_ok in Es as ([[cs cwd] ct] & b3 & Ec & _).
    apply catalogued in Ec as [name Hc]. exists service, name, cs, cwd, ct. split_and!; [done..|].
    eapply restart_ok; eauto.
  - intros service Hpar Hin Hn Hruns. apply list_elem_of_fmap in Hin as ([k [[cs cwd] ct]] & -> & Hin).
    destruct (find (fun kv => str_eqb kv.1 k) (st_platform_services cf)) as [[name [[cs' cwd'] ct']]|] eqn:Hf.
    + eapply restart_ends; eauto.
    + apply list_elem_of_In, (find_none _ _ Hf) in Hin. cbn in Hin. by rewrite str_eqb_refl in Hin.
  - intros service Hpar Hno. eexists. unfold restart_docker_service, mbind, Brk_bind. rewrite (parameter_service _ _ Hpar).
    unfold _platform_service_state, mbind, Brk_bind, _platform_service.
    destruct (find _ _) as [[name entry]|] eqn:Hf; [|reflexivity].
    apply find_some in Hf as [Hin%list_elem_of_In Heq%str_eqb_spec]. cbn in Heq. subst name.
    destruct Hno. apply list_elem_of_fmap. by exists (service, entry).
Qed.

(** verifying the deployment or its readiness for a cutover is an observation, of
    risk zero and with no approval, and yet it begins by staging the deployment,
    which is an operation of risk two that needs one *)
Theorem observation_stages p started b :
  packaged (btp_contract p) = false →
  icn_operation (btp_contract p) ∈ ["verify-invariance-postgres"; "prepare-invariance-cutover"] →
  (∀ risk, risk_allowed (btp_contract p) risk → risk = 0) ∧
  ∃ l, bk_actions (_execute_operation cf p started b).2 = bk_actions b ++ Staged :: l.
Proof.
  intros Hp Hop. assert (Ho : icn_operation (btp_contract p) = "verify-invariance-postgres" ∨
    icn_operation (btp_contract p) = "prepare-invariance-cutover").
  { apply elem_of_cons in Hop as [?|?%list_elem_of_singleton]; auto. }
  split; [unfold risk_allowed; rewrite Hp; by destruct Ho as [-> | ->]|].
  assert (E : _execute_operation cf p started = _execute_postgres_operation p).
  { unfold _execute_operation. rewrite Hp. by destruct Ho as [-> | ->]. }
  rewrite E. unfold _execute_postgres_operation, stage, mbind, Brk_bind, of_outcome. cbn.
  destruct (host_stage (bk_actions b)) as [staged|e]; [|by exists []].
  unfold host_operation, mbind, Brk_bind, of_outcome. cbn.
  destruct (host_postgres _ p staged) as [[l r]|e]; cbn; [exists l; by rewrite <- app_assoc|by exists []].
Qed.
End promises.

(** ** A running infrastructure task and its broker *)
Definition broker_secret : string := "an infrastructure broker secret of 32+".
Definition demo_settings : settings :=
  mkSettings broker_secret 0 "/srv/runtime" "/srv/backup" "/srv/postgres" (default_services "/srv/runtime" "/srv/postgres")
    "backup.timer" 3.

Definition deployer : Agent :=
  mkAgent 1 "vm2-worker" "Deployer" "operator" "vm2-deployment" "default" (Some "hermes") (Some "1.0") "online"
    [] [] 3 true None epoch epoch.
Definition deploy_contract : Json.dict :=
  [("runbook", JStr "vm2-infrastructure"); ("runbook_version", JStr "1.0.0");
   ("operation", JStr "restart-control-plane-api"); ("target", JStr "vm2-control-plane")].
Definition deploy_digest : string := sha256 "plan".

(** the running task, leased at second 3 and approved *)
Definition deploy_task : Task :=
  mkTask 20 "T-20" "repo" "infrastructure_operation" "Restart" "Restart the API" Running 50 3 (Some 1%N) None None None
    None None None "founder" deploy_contract (JList []) (JList []) [] true deploy_digest [] ["vm2-deployment"] 2 1
    (Some (epoch + seconds 3)) (Some (epoch + seconds 603)) (Some "0123456789abcdef")
    (Some (@digest_task_lease_token (at_time 3) lease_token)) None [] [] epoch epoch (Some (epoch + seconds 4)) None None None.
Definition deploy_approval : TaskApproval :=
  mkTaskApproval 21 20 ApConsumed deploy_digest 3 [] "founder" (Some "founder") (Some "ok") None (Some epoch)
    (Some (epoch + seconds 3600)) (Some (epoch + seconds 3)) epoch epoch.
Definition deploy_db : database :=
  demo_db <| agents := {[ 1%N := deployer ]} |> <| tasks := {[ 20%N := deploy_task ]} |> <| approvals := {[ 21%N := deploy_approval ]} |> <| next_id := 30%N |>.

Definition deploy_ticket : outcome BrokerTicketResponse :=
  (request (@get_broker_ticket (at_time 5) broker_secret 20 deployer lease_token) deploy_db).1.

Definition ticket : BrokerTicketResponse :=
  let payload := @ticket_payload deploy_task deployer
    (default (mkInfrastructureContract "" "" "" "" [] None None None) (contract_of_json deploy_contract))
    (@w_now (at_time 5) 1) (epoch + seconds 603) in
  signed_ticket broker_secret payload.

Example ticket_issued : deploy_ticket = Ok ticket.
Proof. vm_compute. reflexivity. Qed.

Lemma ticket_certifies_running_task_witness :
  ∃ task, tasks deploy_db !! 20%N = Some task ∧ t_status task = Running ∧
    @certified deploy_db task deployer broker_secret (@w_now (at_time 5) 1) ticket.
Proof.
  assert (E : ∃ d', request (@get_broker_ticket (at_time 5) broker_secret 20 deployer lease_token) deploy_db = (Ok ticket, d'))
    by (eexists; vm_compute; reflexivity).
  destruct E as [d' E].
  destruct (@ticket_certifies_running_task (at_time 5) broker_secret 20%N deployer lease_token deploy_db ticket d' E)
    as (task & H1 & H2 & _ & H3 & _).
  exact (ex_intro _ task (conj H1 (conj H2 H3))).
Defined.

(** a machine on which every command returns zero and every container runs *)
Definition parsed (t : BrokerTicketResponse) (document : json) : option BrokerTicketResponse :=
  if Json.eqb document (ticket_json t) then Some t else None.
Definition no_result : outcome (list action * BrokerExecutionResult) := Err (PyException "BrokerError" "").

#[local] Instance demo_host : Host := {|
  host_now := fun n => epoch + seconds 6 + Z.of_nat n;
  host_run := fun _ c => Completed 0 "running healthy" "";
  host_is_file := fun _ _ => true;
  host_free_bytes := fun _ _ => None;
  host_filesystem := fun _ _ => (0, 0);
  host_dumps := fun _ _ => [];
  host_packages := fun _ => None;
  host_ticket := parsed ticket;
  host_stage := fun _ => Ok (JObj []);
  host_postgres := fun _ _ _ => no_result;
  host_preflight := fun _ _ => no_result |}.

Definition idle : broker := mkBroker [] None [] 0.

Lemma ticket_parses : host_ticket (ticket_json ticket) = Some ticket.
Proof. vm_compute. reflexivity. Qed.

Lemma ticket_certified : @certified deploy_db deploy_task deployer broker_secret (@w_now (at_time 5) 1) ticket.
Proof.
  assert (E : ∃ s', @issue_broker_ticket (at_time 5) deploy_task deployer broker_secret (mkSession deploy_db deploy_db 1 0) = (Ok ticket, s'))
    by (eexists; vm_compute; reflexivity).
  destruct E as [s' E]. by destruct (wp_run _ _ _ _ _ _ (@wp_issue_broker_ticket (at_time 5) _ _ _ _) E) as (_ & _ & Hce).
Qed.

Lemma broker_refines_spend_once_witness :
  ∃ m, rtc (step demo_settings) (mkMachine None None []) m ∧ ma_performed m = [ticket] ∧ rtc spend ∅ (spent m).
Proof.
  set (b1 := (handle demo_settings true 100 (inl (ticket_json ticket)) idle).2).
  set (b2 := (handle demo_settings true 100 (inl (ticket_json ticket)) b1).2).
  assert (Hadm : ∃ b', admits demo_settings demo_host true (ticket_json ticket) idle ticket b').
  { eexists. split; [exact ticket_parses|]. eexists. vm_compute. reflexivity. }
  destruct Hadm as [b' Hadm].
  assert (Hrun : rtc (step demo_settings) (mkMachine None None []) (mkMachine (bk_ledger b2) (Some b2) [ticket])).
  { eapply rtc_l; [apply (step_start demo_settings None idle); vm_compute; reflexivity|].
    eapply rtc_l; [apply (step_performed demo_settings demo_host true 100 (ticket_json ticket) idle ticket b' None []);
                   [reflexivity|exact Hadm]|].
    eapply rtc_l; [|apply rtc_refl].
    apply (step_refused demo_settings demo_host true 100 (inl (ticket_json ticket)) b1 (bk_ledger b1) [ticket]).
    intros _ document [= <-] p b''.
    assert (Hr : ∃ e b0, admit_ticket demo_settings true (ticket_json ticket) b1 = (Err e, b0))
      by (eexists _, _; vm_compute; reflexivity).
    destruct Hr as (e & b0 & Hr). unfold b1 in *. rewrite Hr. discriminate. }
  exists (mkMachine (bk_ledger b2) (Some b2) [ticket]). split; [exact Hrun|]. split; [reflexivity|].
  exact (proj1 (broker_refines_spend_once demo_settings None [] _ eq_refl Hrun)).
Defined.

Lemma certified_ticket_is_taken_once_witness :
  ∃ b', admit_ticket demo_settings true (ticket_json ticket) idle = (Ok (btr_payload ticket, host_now 0), b') ∧
    ∀ written x b'', admit_ticket demo_settings written (ticket_json ticket) b' ≠ (Ok x, b'').
Proof.
  apply (@certified_ticket_is_taken_once demo_host demo_settings deploy_db deploy_task deployer
    (@w_now (at_time 5) 1) ticket idle).
  - exact ticket_certified.
  - vm_compute. reflexivity.
  - exact ticket_parses.
  - vm_compute. reflexivity.
  - apply not_elem_of_nil.
  - apply str_in_spec. vm_compute. reflexivity.
Defined.

Lemma broker_commands_are_compiled_witness :
  ∃ l, bk_actions (execute demo_settings true (ticket_json ticket) idle).2 = l ∧ l ≠ [] ∧
    ∀ c, Ran c ∈ l → (cmd_args c, cmd_cwd c) ∈ compiled_commands demo_settings.
Proof.
  assert (Hkind : ∀ t, host_ticket (ticket_json ticket) = Some t → packaged (btp_contract (btr_payload t)) = true ∨
    str_in (icn_operation (btp_contract (btr_payload t))) ["observe-control-plane"; "restart-control-plane-api"] = true).
  { intros t Ht. rewrite ticket_parses in Ht. injection Ht as <-. right. vm_compute. reflexivity. }
  destruct (@broker_commands_are_compiled demo_host demo_settings true (ticket_json ticket) idle Hkind) as (l & E & Hl).
  exists l. split; [exact E|]. split; [|exact Hl]. intros ->. revert E. vm_compute. discriminate.
Defined.

(** the ticket of a packaged service restart *)
Definition restart_payload : BrokerTicketPayload :=
  mkBrokerTicketPayload 1 20 "T-20" 1 1 "vm2-deployment" "infrastructure_operation" 3 deploy_digest
    (mkInfrastructureContract "vm2-platform-operations" "1.0.0" "restart-docker-service" "vm2-production"
       [("service", JStr "redis")] (Some "vm2-platform-operations") (Some "1.0.0") (Some deploy_digest))
    deploy_digest epoch (epoch + seconds 60).

Lemma restart_is_verified_or_rolled_back_witness :
  ∃ r b' cs cwd container, restart_docker_service demo_settings restart_payload epoch idle = (Ok r, b') ∧
    bx_success r = true ∧
    @restart_outcome demo_host demo_settings "redis" cs cwd container [] (bk_actions b') r.
Proof.
  pose proof (@restart_is_verified_or_rolled_back demo_host demo_settings restart_payload epoch idle) as (Hout & Hends & _).
  destruct (Hends "redis") as (r & b' & E); [reflexivity|apply str_in_spec; vm_compute; reflexivity|apply Nat.leb_le; vm_compute; reflexivity|
    intros; reflexivity|].
  destruct (Hout r b' E) as (service & name & cs & cwd & container & Hs & _ & Hr). injection Hs as <-.
  exists r, b', cs, cwd, container. split; [exact E|]. split; [|exact Hr].
  assert (Hc : (restart_docker_service demo_settings restart_payload epoch idle).1 = Ok r) by exact (f_equal fst E).
  revert Hc. vm_compute. intros [= <-]. reflexivity.
Defined.
