(* ===== verification/InfraService.v ===== *)
(** * The restricted infrastructure worker

    [swarm_worker/role_package.py] and, of [swarm_worker/infrastructure],
    [runbooks.py], [service.py] and the loop of [__main__.py]: a process that
    leases one task at a time, checks it against its own packages, obtains a ticket,
    hands it to the broker while it keeps the lease alive, and reports the result.

    The control plane and the broker are interfaces here, [ControlPlane] and
    [BrokerPeer]; a cycle is a program over the states of the two. *)
From Stdlib Require Import Ascii.
From S2P Require Import Prelude Py Sha256 IpNetwork Models Store Logic Security Runbooks Packages BrokerTickets.
From S2P Require Import WorkerPackages Broker.

Open Scope Z_scope.

(** ** Errors a cycle meets

    The first seven are the exceptions of [api_client.py]; its [ValidationError]
    is another class than pydantic's, which is [ModelError]. *)
Inductive worker_error :=
| AuthenticationError
| ConflictError
| ApiValidationError
| ConnectionError
| ServerError
| UnexpectedResponseError
| ResponseValidationError
| BrokerClientError
| FileError (class : string)
| ModelError
| LineTooLong
| InfrastructureServiceError
| PackageVerificationError
| RunbookPackageUnavailable
| RunbookError.

(** [type(exc).__name__] *)
Definition error_name (e : worker_error) : string :=
  match e with
  | AuthenticationError => "AuthenticationError"
  | ConflictError => "ConflictError"
  | ApiValidationError | ModelError => "ValidationError"
  | ConnectionError => "ConnectionError"
  | ServerError => "ServerError"
  | UnexpectedResponseError => "UnexpectedResponseError"
  | ResponseValidationError => "ResponseValidationError"
  | BrokerClientError => "BrokerClientError"
  | FileError class => class
  | LineTooLong => "ValueError"
  | InfrastructureServiceError => "InfrastructureServiceError"
  | PackageVerificationError => "PackageVerificationError"
  | RunbookPackageUnavailable => "RunbookPackageError"
  | RunbookError => "RunbookError"
  end.

(** ** What the worker talks to *)
Class ControlPlane (S : Type) := {
  get_identity : S → (worker_error + Agent) * S;
  send_agent_heartbeat : AgentHeartbeat → S → (worker_error + unit) * S;
  api_lease_task : Z → S → (worker_error + (option Task * option string)) * S;
  api_start_task : uuid → string → string → S → (worker_error + unit) * S;
  api_broker_ticket : uuid → string → S → (worker_error + BrokerTicketResponse) * S;
  api_heartbeat_task : uuid → string → Z → string → Json.dict → S → (worker_error + unit) * S;
  api_register_artifact : uuid → ArtifactCreate → S → (worker_error + unit) * S;
  api_complete_task : uuid → string → string → Json.dict → S → (worker_error + unit) * S;
  api_fail_task : uuid → string → string → Json.dict → bool → S → (worker_error + unit) * S;
  api_release_task : uuid → string → string → S → (worker_error + unit) * S }.

Class BrokerPeer (B : Type) := {
  broker_execute : BrokerTicketResponse → B → (worker_error + BrokerExecutionResult) * B }.

(** [infrastructure/runbooks.py] *)
Record OperationDefinition := mkOperationDefinition {
  od_name : string;
  od_task_type : string;
  od_target : string;
  od_risk_level : Z;
  od_approval_required : bool;
  od_evidence : list string }.
Record InfrastructureRunbook := mkInfrastructureRunbook {
  ib_schema_version : Z;
  ib_name : string;
  ib_version : string;
  ib_operations : list OperationDefinition }.

(** the files of the worker: the fields of the documents, the contents of the
    declared artifacts when they are inside their directory, and the class of the
    [OSError] that preparing the workspace, or writing evidence below a directory,
    raises, if any *)
Class WorkerFiles := {
  wf_worker_version : string;
  wf_role_manifest : option RolePackageManifest;
  wf_workflow_bytes : string → option string;
  wf_package_bytes : string → option string;
  wf_runbook : string → option InfrastructureRunbook;
  wf_package : string → option RunbookPackageManifest;
  wf_prepare_error : option string;
  wf_write_error : string → option string }.

(** the settings a cycle reads *)
Record InfrastructureSettings := mkInfrastructureSettings {
  is_agent_slug : string;
  is_machine : string;
  is_poll_interval : Z;
  is_lease_seconds : Z;
  is_workspace_root : string;
  is_source_commit : string }.

(** ** [role_package.py] *)
Definition version_tuple (value : string) : option (list Z) :=
  if Str.dotted_version value then mapM parse_digits (Str.split_all "." value) else None.

Fixpoint tuple_ltb (a b : list Z) : bool :=
  match a, b with
  | x :: a, y :: b => (x <? y) || (x =? y) && tuple_ltb a b
  | [], _ :: _ => true
  | _, [] => false
  end.

Definition compatible_version (c : CompatibilitySpec) (version : string) : bool :=
  match version_tuple (ct_worker_version_min c), version_tuple version, version_tuple (ct_worker_version_max_exclusive c) with
  | Some low, Some v, Some high => negb (tuple_ltb v low) && tuple_ltb v high
  | _, _, _ => false
  end.

(** the worker's schema: the backend's without the names of the values *)
Definition worker_package_manifest (m : RolePackageManifest) : bool :=
  valid_package_fields m && distinct_artifacts m && enforce_restrictions m.

Definition artifact_matches (bytes : string → option string) (file digest : string) : bool :=
  match bytes file with Some content => str_eqb (sha256 content) digest | None => false end.

Definition load_role_package `{WorkerFiles} : worker_error + (RolePackageManifest * string) :=
  match wf_role_manifest with
  | Some m =>
      if worker_package_manifest m && compatible_version (pm_compatibility m) wf_worker_version &&
         forallb (fun w => artifact_matches wf_workflow_bytes (wf_file w) (wf_sha256 w)) (pm_workflows m) &&
         forallb (fun a => artifact_matches wf_package_bytes (ra_file a) (ra_sha256 a)) (pm_runbook_packages m)
      then inr (m, sha256 (canonical_package m))
      else inl PackageVerificationError
  | None => inl PackageVerificationError
  end.

(** ** [runbooks.py] *)
Definition RUNBOOK_OPERATIONS : list string :=
  ["observe-control-plane"; "restart-control-plane-api"; "preflight-invariance-postgres";
   "stage-invariance-postgres"; "start-invariance-postgres-private"; "initialize-invariance-schema";
   "configure-invariance-backups"; "verify-invariance-postgres"; "prepare-invariance-cutover"].

Definition valid_operation_definition (o : OperationDefinition) : bool :=
  str_in (od_name o) RUNBOOK_OPERATIONS && str_in (od_task_type o) INFRASTRUCTURE_TASKS &&
  str_in (od_target o) ["vm2-control-plane"; "vm2-invariance-postgres"] && within 0 3 (od_risk_level o) &&
  size_within 1 20 (od_evidence o).

Definition valid_runbook (r : InfrastructureRunbook) : bool :=
  (ib_schema_version r =? 1) && str_in (ib_name r) ["vm2-infrastructure"; "vm2-postgres-deployment"] &&
  str_eqb (ib_version r) "1.0.0" && size_within 1 10 (ib_operations r) &&
  forallb valid_operation_definition (ib_operations r).

Definition load_runbook `{WorkerFiles} (file : string) : worker_error + list OperationDefinition :=
  match wf_runbook file with
  | Some r => if valid_runbook r then inr (ib_operations r) else inl RunbookError
  | None => inl RunbookError
  end.

(** ** What a cycle loads first *)

#[export] Instance sum_ret E : MRet (sum E) := fun A a => inr a.
#[export] Instance sum_bind E : MBind (sum E) := fun A B f m => match m with inl e => inl e | inr a => f a end.

Fixpoint load_each {A B} (f : A → worker_error + list B) (l : list A) : worker_error + list B :=
  match l with
  | [] => inr []
  | x :: l' => this ← f x; rest ← load_each f l'; inr (this ++ rest)
  end.

Definition packaged_of `{WorkerFiles} (a : RunbookPackageArtifact)
    : worker_error + list (PackagedOperation * VerifiedRunbookPackage) :=
  match load_runbook_package wf_package (ra_name a) with
  | Ok loaded =>
      if negb (str_eqb (ra_name a +:+ ".yaml") (ra_file a)) then inl InfrastructureServiceError
      else inr ((fun o => (o, loaded)) <$> rpm_operations (vr_manifest loaded))
  | Err _ => inl RunbookPackageUnavailable
  end.

Record loaded_worker := mkLoaded {
  ld_manifest : RolePackageManifest;
  ld_digest : string;
  ld_packaged : list (PackagedOperation * VerifiedRunbookPackage);
  ld_operations : list OperationDefinition }.

(** [prepare_directories], then the files *)
Definition load_worker `{WorkerFiles} : worker_error + loaded_worker :=
  _ ← (match wf_prepare_error with Some class => inl (FileError class) | None => inr tt end);
  package ← load_role_package;
  packaged ← load_each packaged_of (pm_runbook_packages package.1);
  operations ← load_each (fun w => load_runbook (wf_file w)) (pm_workflows package.1);
  inr (mkLoaded package.1 package.2 packaged operations).

(** ** The task policy *)

(** the operations by name: a later one replaces an earlier one *)
Definition last_named {A} (name : A → string) (k : string) (l : list A) : option A :=
  find (fun x => str_eqb (name x) k) (rev l).

(** [legacy_expected] is the broker's table of reviewed operations *)
Definition expected_policy (loaded : loaded_worker) (task : Task) (c : InfrastructureContract) : option (string * Z) :=
  if packaged c then
    found ← last_named (fun kv => rpo_name kv.1) (icn_operation c) (ld_packaged loaded);
    let '(definition, package) := found in
    if bool_decide (icn_package_name c = Some (rpm_name (vr_manifest package))) &&
       bool_decide (icn_package_version c = Some (rpm_version (vr_manifest package))) &&
       bool_decide (icn_package_digest c = Some (vr_manifest_digest package)) &&
       str_eqb (icn_target c) (rpo_target_profile definition) && str_eqb (t_task_type task) (rpo_task_type definition) &&
       (t_risk_level task =? rpo_risk_level definition) &&
       match validate_parameters definition (icn_parameters c) with Ok _ => true | Err _ => false end
    then Some (rpo_task_type definition, rpo_risk_level definition) else None
  else snd <$> find (fun kv => str_eqb kv.1 (icn_operation c)) reviewed_operations.

(** the runbook's definition of a legacy operation agrees with the table *)
Definition defined_by_runbook (loaded : loaded_worker) (c : InfrastructureContract) (expected : string * Z) : bool :=
  packaged c ||
  match last_named od_name (icn_operation c) (ld_operations loaded) with
  | Some d => str_eqb (od_task_type d) expected.1 && (od_risk_level d =? expected.2) && str_eqb (od_target d) (icn_target c)
  | None => false
  end.

Definition _validate_task (loaded : loaded_worker) (task : Task) (identity : Agent) : option InfrastructureContract :=
  if negb (str_in (t_task_type task) (pm_task_types (ld_manifest loaded))) then None
  else
    c ← contract_of_json (t_input_contract task);
    expected ← expected_policy loaded task c;
    if defined_by_runbook loaded c expected && str_eqb (t_task_type task) expected.1 &&
       (t_risk_level task =? expected.2) && bool_decide (t_allowed_machines task = ["vm2-deployment"]) &&
       str_subset (t_required_capabilities task) (ag_capabilities identity) &&
       (t_risk_level task <=? ag_risk_ceiling identity) && (1 <=? t_attempt_count task)
    then Some c else None.

(** ** Evidence *)
Definition result_json (r : BrokerExecutionResult) : json := JObj
  [("success", JBool (bx_success r)); ("operation", JStr (bx_operation r)); ("task_id", JStr (uuid_str (bx_task_id r)));
   ("attempt_number", JInt (bx_attempt_number r)); ("started_at", JStr (pydantic_datetime (bx_started_at r)));
   ("ended_at", JStr (pydantic_datetime (bx_ended_at r))); ("pre_state", bx_pre_state r);
   ("action", default JNull (bx_action r)); ("post_state", default JNull (bx_post_state r));
   ("rollback", default JNull (bx_rollback r)); ("rollback_state", default JNull (bx_rollback_state r));
   ("error", Json.opt_str (bx_error r))].

Definition evidence_content (r : BrokerExecutionResult) : string := Json.dumps_indented (result_json r) +:+ Json.newline.

(** [re.sub("[^A-Za-z0-9._-]+", "-", s)]; [in_run]: the last character was replaced *)
Fixpoint safe_directory (in_run : bool) (l : list ascii) : list ascii :=
  match l with
  | [] => []
  | c :: l' =>
      if Str.is_alnum c || existsb (Ascii.eqb c) ["."%char; "_"%char; "-"%char] then c :: safe_directory false l'
      else if in_run then safe_directory true l' else "-"%char :: safe_directory true l'
  end.

Definition attempt_directory (cf : InfrastructureSettings) (task : Task) : string :=
  is_workspace_root cf +:+ "/" +:+
  first_chars 80 (Str.of_chars (safe_directory false (Str.chars (t_task_number task)))) +:+ "-" +:+ uuid_str (t_id task) +:+
  "/attempt-" +:+ pretty (t_attempt_count task).

(** a dictionary field of a result, empty when it is missing *)
Definition fields (o : option json) : Json.dict := default [] (o ≫= Json.as_dict).
Definition field (k : string) (d : Json.dict) : json := default JNull (Json.get k d).
(** [d.get(k, d.get(k'))] *)
Definition field_or (k k' : string) (d : Json.dict) : json := default (field k' d) (Json.get k d).
Definition when_json (b : bool) (v : json) : json := if b then v else JNull.
Definition present {A} (o : option A) : bool := match o with Some _ => true | None => false end.

Definition return_codes (action : Json.dict) : Json.dict :=
  omap (fun kv => d ← Json.as_dict kv.2; code ← Json.get "return_code" d; Some (kv.1, code)) action.

Definition _bounded_summary (r : BrokerExecutionResult) (digest : string) : Json.dict :=
  let pre := fields (Some (bx_pre_state r)) in
  let post := fields (bx_post_state r) in
  let action := fields (bx_action r) in
  let preflight := str_eqb (bx_operation r) "preflight-invariance-postgres" in
  [("success", JBool (bx_success r)); ("operation", JStr (bx_operation r)); ("attempt", JInt (bx_attempt_number r));
   ("started_at", JStr (isoformat (bx_started_at r))); ("ended_at", JStr (isoformat (bx_ended_at r)));
   ("pre_healthy", JBool (Json.truthy (field_or "healthy" "ready" pre)));
   ("preflight_checks", when_json preflight (field "checks" pre));
   ("public_tls", when_json preflight (field "public_tls" pre));
   ("post_healthy", when_json (present (bx_post_state r)) (JBool (Json.truthy (field "healthy" post))));
   ("readiness", when_json (str_eqb (bx_operation r) "prepare-invariance-cutover")
      (JObj [("ready", JBool (Json.truthy (field "ready" post))); ("checks", field "checks" post);
             ("public_access_changed", field "public_access_changed" post)]));
   ("private_network",
      when_json (str_in (bx_operation r) ["start-invariance-postgres-private"; "verify-invariance-postgres"])
        (JObj [("public_access", field "public_access" post); ("bindings", field "bindings" post)]));
   ("schema_marker", field "schema_marker" post); ("backup", field_or "backup" "latest_backup" post);
   ("restore_drill", field "restore_drill" post);
   ("latest_backup", match Json.as_dict (field "latest_backup" pre) with Some d => JObj d | None => JNull end);
   ("action_return_code", field "return_code" action); ("action_return_codes", JObj (return_codes action));
   ("rollback_attempted", JBool (present (bx_rollback r)));
   ("rollback_return_code", field "return_code" (fields (bx_rollback r)));
   ("rollback_healthy", when_json (present (bx_rollback_state r))
      (JBool (Json.truthy (field "healthy" (fields (bx_rollback_state r))))));
   ("evidence", JStr "artifacts/infrastructure-evidence.json"); ("evidence_sha256", JStr digest)].

(** ** Cycles *)
Record cycle (S B : Type) := mkCycle { cy_plane : S; cy_broker : B }.
Arguments mkCycle {S B}.
Arguments cy_plane {S B}.
Arguments cy_broker {S B}.

Definition Wrk (S B A : Type) : Type := cycle S B → (worker_error + A) * cycle S B.
#[export] Instance Wrk_ret S B : MRet (Wrk S B) := fun A a s => (inr a, s).
#[export] Instance Wrk_bind S B : MBind (Wrk S B) := fun A C f m s =>
  match m s with
  | (inr a, s') => f a s'
  | (inl e, s') => (inl e, s')
  end.

Definition throw {S B A} (e : worker_error) : Wrk S B A := fun s => (inl e, s).
Definition of_sum {S B A} (r : worker_error + A) : Wrk S B A := fun s => (r, s).
(** [try] *)
Definition attempt {S B A} (m : Wrk S B A) : Wrk S B (worker_error + A) := fun s => let '(r, s') := m s in (inr r, s').
Definition plane {S B A} (f : S → (worker_error + A) * S) : Wrk S B A := fun s =>
  let '(r, p) := f (cy_plane s) in (r, mkCycle p (cy_broker s)).
Definition peer {S B A} (f : B → (worker_error + A) * B) : Wrk S B A := fun s =>
  let '(r, b) := f (cy_broker s) in (r, mkCycle (cy_plane s) b).

(** [InfrastructureOutcome] *)
Inductive InfrastructureOutcome :=
| NoWork
| Succeeded (task_id : uuid)
| Failed (task_id : uuid)
| Released (task_id : uuid)
| LeaseLost (task_id : uuid).

(** How the heartbeats and the broker interleave, which asyncio decides: the
    heartbeats answered before the broker answers, whether one more reaches the
    control plane and is then abandoned, and, when a heartbeat fails and the
    execution is cancelled, whether the broker was reached by then. *)
Record pace := mkPace { beats : nat; in_flight : bool; reached : bool }.

Section worker.
Context {Pl Br : Type} `{ControlPlane Pl} `{BrokerPeer Br} `{WorkerFiles} (cf : InfrastructureSettings).

Definition task_heartbeat (task_id : uuid) (lease_token operation : string) : Wrk Pl Br unit :=
  plane (api_heartbeat_task task_id lease_token (is_lease_seconds cf) "Restricted infrastructure operation is running."
    [("progress", JObj [("operation", JStr operation); ("phase", JStr "broker_execution")])]).

Fixpoint keep_alive (n : nat) (task_id : uuid) (lease_token operation : string) : Wrk Pl Br unit :=
  match n with
  | O => mret tt
  | S k => _ ← task_heartbeat task_id lease_token operation; keep_alive k task_id lease_token operation
  end.

(** the control plane and the broker share no state, so the heartbeats may be
    taken before the broker's answer *)
Definition _execute_with_heartbeats (p : pace) (ticket : BrokerTicketResponse) (task_id : uuid)
    (lease_token operation : string) : Wrk Pl Br BrokerExecutionResult :=
  beaten ← attempt (keep_alive (beats p) task_id lease_token operation);
  match beaten with
  | inl e =>
      _ ← (if reached p then attempt (peer (broker_execute ticket)) else mret (inl e));
      throw e
  | inr _ =>
      result ← attempt (peer (broker_execute ticket));
      _ ← (if in_flight p then attempt (task_heartbeat task_id lease_token operation) else mret (inr tt));
      of_sum result
  end.

(** writes the evidence, and returns its content and digest *)
Definition _write_evidence (task : Task) (r : BrokerExecutionResult) : Wrk Pl Br (string * string) :=
  match wf_write_error (attempt_directory cf task) with
  | Some class => throw (FileError class)
  | None => let content := evidence_content r in mret (content, sha256 content)
  end.

Definition evidence_artifact (lease_token : string) (c : InfrastructureContract) (content digest : string)
    : ArtifactCreate :=
  mkArtifactCreate lease_token "evidence" "infrastructure-evidence.json" (Z.of_nat (String.length content)) digest
    "workspace://artifacts/infrastructure-evidence.json" "workspace" (icn_operation c) (icn_runbook_version c)
    (is_source_commit cf) "internal" "audit" None [("operation", JStr (icn_operation c))].

(** the body of the [try] after the task was started *)
Definition run_started (p : pace) (task : Task) (lease_token : string) (c : InfrastructureContract)
    : Wrk Pl Br InfrastructureOutcome :=
  ticket ← plane (api_broker_ticket (t_id task) lease_token);
  result ← _execute_with_heartbeats p ticket (t_id task) lease_token (icn_operation c);
  evidence ← _write_evidence task result;
  _ ← plane (api_register_artifact (t_id task) (evidence_artifact lease_token c evidence.1 evidence.2));
  let summary := _bounded_summary result evidence.2 in
  if bx_success result then
    _ ← plane (api_complete_task (t_id task) lease_token "Restricted infrastructure operation succeeded." summary);
    mret (Succeeded (t_id task))
  else
    _ ← plane (api_fail_task (t_id task) lease_token "Restricted infrastructure operation failed." summary false);
    mret (Failed (t_id task)).

(** the [except] clauses once the task was started *)
Definition handle_started (task : Task) (lease_token : string) (r : worker_error + InfrastructureOutcome)
    : Wrk Pl Br InfrastructureOutcome :=
  match r with
  | inr outcome => mret outcome
  | inl (AuthenticationError | ConflictError) => mret (LeaseLost (t_id task))
  | inl ((BrokerClientError | FileError _ | ModelError) as e) =>
      failed ← attempt (plane (api_fail_task (t_id task) lease_token "Infrastructure broker execution failed."
        [("error_category", JStr (error_name e)); ("retryable", JBool false)] false));
      match failed with
      | inl (AuthenticationError | ConflictError) => mret (LeaseLost (t_id task))
      | inl e' => throw e'
      | inr _ => mret (Failed (t_id task))
      end
  | inl e => throw e
  end.

Definition worker_heartbeat (identity : Agent) (loaded : loaded_worker) : AgentHeartbeat :=
  mkAgentHeartbeat "idle" "hermes-infrastructure" (Some wf_worker_version) (Some (ag_capabilities identity))
    [("agent_slug", JStr (ag_slug identity)); ("machine", JStr (ag_machine identity));
     ("worker_version", JStr wf_worker_version); ("role_package", JStr (pm_name (ld_manifest loaded)));
     ("role_package_version", JStr (pm_version (ld_manifest loaded))); ("role_package_digest", JStr (ld_digest loaded))].

Definition identity_mismatch (identity : Agent) : bool :=
  negb (ag_is_enabled identity) || negb (str_eqb (ag_slug identity) (is_agent_slug cf)) ||
  negb (str_eqb (ag_machine identity) (is_machine cf)).

Definition package_mismatch (m : RolePackageManifest) (identity : Agent) : bool :=
  negb (str_in (is_machine cf) (pm_allowed_machines m)) ||
  negb (str_subset (pm_required_capabilities m) (ag_capabilities identity)) ||
  (ag_risk_ceiling identity <? pm_risk_ceiling m).

(** a leased task: released when the worker's policy refuses it, run otherwise *)
Definition run_leased (p : pace) (loaded : loaded_worker) (identity : Agent) (task : Task) (lease_token : string)
    : Wrk Pl Br InfrastructureOutcome :=
  match _validate_task loaded task identity with
  | None =>
      _ ← plane (api_release_task (t_id task) lease_token
            "Infrastructure worker policy rejection: InfrastructureServiceError.");
      mret (Released (t_id task))
  | Some c =>
      _ ← plane (api_start_task (t_id task) lease_token "Restricted infrastructure operation started.");
      r ← attempt (run_started p task lease_token c);
      handle_started task lease_token r
  end.

Definition run_once (p : pace) : Wrk Pl Br InfrastructureOutcome :=
  loaded ← of_sum load_worker;
  identity ← plane get_identity;
  if identity_mismatch identity then throw InfrastructureServiceError
  else if package_mismatch (ld_manifest loaded) identity then throw InfrastructureServiceError
  else
    _ ← plane (send_agent_heartbeat (worker_heartbeat identity loaded));
    lease ← plane (api_lease_task (is_lease_seconds cf));
    match lease with
    | (None, None) => mret NoWork
    | (Some task, Some lease_token) => run_leased p loaded identity task lease_token
    | _ => throw InfrastructureServiceError
    end.

(** ** The loop of [__main__.py] *)
Inductive process :=
| Waiting (delay : Z)
| Exited (code : Z)
| Crashed (e : worker_error).

(** what the loop does with the result of a cycle *)
Definition after_cycle (delay : Z) (r : worker_error + InfrastructureOutcome) : process :=
  match r with
  | inr _ => Waiting (is_poll_interval cf)
  | inl AuthenticationError => Exited 3
  | inl (ConnectionError | ServerError) => Waiting (Z.min (seconds 120) (Z.max (delay * 2) (seconds 5)))
  | inl e => Crashed e
  end.

(** the cycles until the stop event is set, with the delays waited after them *)
Fixpoint serve (paces : list pace) (delay : Z) (s : cycle Pl Br) : process * list Z * cycle Pl Br :=
  match paces with
  | [] => (Exited 0, [], s)
  | p :: rest =>
      let '(r, s') := run_once p s in
      match after_cycle delay r with
      | Waiting next => let '(e, delays, s'') := serve rest next s' in (e, next :: delays, s'')
      | stopped => (stopped, [], s')
      end
  end.
End worker.
