(* ===== verification/InfraDeployment.v ===== *)
(** * The worker, the control plane and the broker together

    The two interfaces of a cycle implemented by the models of the other parts:
    the control plane reached over HTTP ([api_client.py] of the worker, the
    endpoints of the backend behind [get_current_agent]), and the broker reached
    over its socket ([infrastructure/client.py] and the broker's handler). *)
From S2P Require Import Prelude Py Sha256 Models Store Logic Security TaskCore TaskRuntime Runbooks WorkloadIdentity Packages.
From S2P Require Import Agents Artifacts BrokerTickets Broker InfraService.

Open Scope Z_scope.

(** ** The control plane over HTTP *)

(** [_raise_for_status]: the framework answers 500 for an exception of a handler *)
Definition error_of (e : exn) : worker_error :=
  match e with
  | HTTPException code _ =>
      if (code =? 401) || (code =? 403) then AuthenticationError
      else if code =? 409 then ConflictError
      else if code =? 422 then ApiValidationError
      else if 500 <=? code then ServerError else UnexpectedResponseError
  | PyException _ _ => ServerError
  end.

(** what the network does with a request: delivers it and its answer, loses it,
    or loses the answer *)
Inductive delivery := Delivered | Unreachable | Unanswered.

(** The surroundings of the [n]-th request: its clock and randomness, the network,
    and what every other client did to the database since the request before; the
    agent's token and the secret tickets are signed with. *)
Record surroundings := mkSurroundings {
  su_world : nat → World;
  su_delivery : nat → delivery;
  su_others : nat → database → database;
  su_bearer : string;
  su_secret : string }.

(** the database, the number of requests so far and the databases they were
    served on, latest first *)
Record http_plane := mkPlane {
  pl_db : database;
  pl_calls : nat;
  pl_served : list database }.

Section plane.
Context (su : surroundings).

(** a request of the authenticated agent *)
Definition as_agent {A} `{World} (method path : string) (handler : Agent → Sess A) : Sess A :=
  agent ← get_current_agent method path (Some (su_bearer su)); handler agent.

(** [_request] *)
Definition call_api {A} (method path : string) (handler : World → Agent → Sess A) (s : http_plane)
    : (worker_error + A) * http_plane :=
  let n := pl_calls s in
  let d := su_others su n (pl_db s) in
  match su_delivery su n with
  | Unreachable => (inl ConnectionError, mkPlane d (S n) (pl_served s))
  | Delivered =>
      let '(r, d') := request (@as_agent A (su_world su n) method path (handler (su_world su n))) d in
      (match r with Ok a => inr a | Err e => inl (error_of e) end, mkPlane d' (S n) (d :: pl_served s))
  | Unanswered =>
      let '(_, d') := request (@as_agent A (su_world su n) method path (handler (su_world su n))) d in
      (inl ConnectionError, mkPlane d' (S n) (d :: pl_served s))
  end.

Definition task_path (task_id : uuid) (action : string) : string :=
  "/v1/agent/tasks/" +:+ uuid_str task_id +:+ "/" +:+ action.

(** [_task_mutation]: the response is not read *)
Definition mutate_task (task_id : uuid) (action : string) (handler : World → Agent → Sess unit)
    : http_plane → (worker_error + unit) * http_plane :=
  call_api "POST" (task_path task_id action) handler.

(** the leased task as the response shows it *)
Definition lease_response `{World} (agent : Agent) (lease_seconds : Z) : Sess (option Task * option string) :=
  leased ← lease_task agent lease_seconds;
  task ← gets (fun d => id ← lr_task leased; tasks d !! id);
  mret (task, lr_lease_token leased).

#[export] Instance http_control_plane : ControlPlane http_plane := {
  get_identity := call_api "GET" "/v1/agent/me" (fun _ agent => r ← get_agent_identity agent; mret r.1);
  send_agent_heartbeat h := call_api "POST" "/v1/agent/heartbeat" (fun _ agent => _ ← receive_heartbeat h agent; mret tt);
  api_lease_task n := call_api "POST" "/v1/agent/tasks/lease" (fun _ agent => lease_response agent n);
  api_start_task id token message := mutate_task id "start" (fun _ agent => start_task id agent token message);
  api_broker_ticket id token := call_api "POST" (task_path id "broker-ticket")
    (fun _ agent => get_broker_ticket (su_secret su) id agent token);
  api_heartbeat_task id token n message progress := mutate_task id "heartbeat"
    (fun _ agent => heartbeat_task id agent token n message progress);
  api_register_artifact id a := call_api "POST" (task_path id "artifacts")
    (fun _ agent => _ ← register_artifact id a agent; mret tt);
  api_complete_task id token message result := mutate_task id "complete"
    (fun _ agent => complete_task id agent token message result);
  api_fail_task id token message failure retryable := mutate_task id "fail"
    (fun _ agent => fail_task id agent token message failure retryable);
  api_release_task id token message := mutate_task id "release" (fun _ agent => release_task id agent token message) }.
End plane.

(** ** The broker behind its socket *)

(** the request line of the client *)
Definition ticket_line (t : BrokerTicketResponse) : string := Json.dumps_spaced true (ticket_json t) +:+ Json.newline.

(** the response of the broker's handler *)
Definition response_json (r : response) : json :=
  match r with
  | Done result => JObj [("ok", JBool true); ("result", result_json result)]
  | Broker.Failed class message => JObj [("ok", JBool false); ("error", JStr class); ("message", JStr message)]
  end.

(** [limit] of an asyncio stream *)
Definition STREAM_LIMIT : Z := 65536.

Definition is_dict (o : option json) : bool :=
  match o with None => true | Some v => present (Json.as_dict v) end.

(** [BrokerExecutionResult.model_validate] of a result the broker dumped *)
Definition valid_result (r : BrokerExecutionResult) : bool :=
  is_dict (Some (bx_pre_state r)) && is_dict (bx_action r) && is_dict (bx_post_state r) && is_dict (bx_rollback r) &&
  is_dict (bx_rollback_state r) && opt_all (length_within 0 500) (bx_error r).

(** what the client makes of the response line *)
Definition read_response (r : response) : worker_error + BrokerExecutionResult :=
  if STREAM_LIMIT <? Z.of_nat (String.length (Json.dumps_spaced true (response_json r))) then inl LineTooLong
  else
    match r with
    | Done result => if valid_result result then inr result else inl BrokerClientError
    | Broker.Failed _ _ => inl BrokerClientError
    end.

(** whether the connection is made, whether the ledger is written, and whether the
    answer arrives within the client's timeout *)
Record socket := mkSocket { so_connects : bool; so_written : bool; so_answers : bool }.

Definition ask_broker `{Host} (bcf : settings) (so : socket) (t : BrokerTicketResponse) (b : broker)
    : (worker_error + BrokerExecutionResult) * broker :=
  if so_connects so then
    let '(r, b') := handle bcf (so_written so) (Z.of_nat (String.length (ticket_line t))) (inl (ticket_json t)) b in
    (if so_answers so then read_response r else inl BrokerClientError, b')
  else (inl BrokerClientError, b).

#[export] Instance socket_peer `{Host} (bcf : settings) (so : socket) : BrokerPeer broker := {
  broker_execute := ask_broker bcf so }.
