(* ===== verification/InfraCycles.v ===== *)
(** * The cycles of the restricted worker

    What a cycle, and a whole run of the worker's process, does to the control
    plane and to the broker, proved against their two interfaces: how many requests
    it makes, how long it waits, and which tickets it hands over. *)
From S2P Require Import Prelude Py Sha256 Models Store Security Runbooks BrokerTickets WorkerPackages Broker InfraService.

Open Scope Z_scope.

(** ** Counting requests

    What an implementation of the interface promises for the theorems below:
    [made n s s'] accounts for [n] requests between two of its states. *)
Class AccountablePlane (Pl : Type) `{ControlPlane Pl} := {
  made : nat → relation Pl;
  made_none s : made 0 s s;
  made_more n m s1 s2 s3 : made n s1 s2 → made m s2 s3 → made (n + m) s1 s3;
  made_identity s : made 1 s (get_identity s).2;
  made_agent_heartbeat h s : made 1 s (send_agent_heartbeat h s).2;
  made_lease n s : made 1 s (api_lease_task n s).2;
  made_start id token message s : made 1 s (api_start_task id token message s).2;
  made_ticket id token s : made 1 s (api_broker_ticket id token s).2;
  made_heartbeat id token n message progress s : made 1 s (api_heartbeat_task id token n message progress s).2;
  made_artifact id a s : made 1 s (api_register_artifact id a s).2;
  made_complete id token message result s : made 1 s (api_complete_task id token message result s).2;
  made_fail id token message failure retryable s : made 1 s (api_fail_task id token message failure retryable s).2;
  made_release id token message s : made 1 s (api_release_task id token message s).2 }.

Create HintDb cycle discriminated.
#[export] Hint Resolve made_identity made_agent_heartbeat made_lease made_start made_ticket made_heartbeat made_artifact
  made_complete made_fail made_release : cycle.

Section cycles.
Context {Pl Br : Type} {CP : ControlPlane Pl} {AP : AccountablePlane Pl} {BP : BrokerPeer Br} {WF : WorkerFiles} (cf : InfrastructureSettings).

(** at most [n] requests *)
Definition at_most (n : nat) (s s' : Pl) : Prop := ∃ k, (k ≤ n)%nat ∧ made k s s'.

Lemma at_most_none n s : at_most n s s.
Proof. exists 0%nat. split; [lia|apply made_none]. Qed.

Lemma at_most_more n m k s1 s2 s3 : at_most n s1 s2 → at_most m s2 s3 → (n + m ≤ k)%nat → at_most k s1 s3.
Proof.
  intros (i & Hi & H1) (j & Hj & H2) Hk. exists (i + j)%nat. split; [lia|by eapply made_more].
Qed.

Lemma at_most_weaken n m s s' : at_most n s s' → (n ≤ m)%nat → at_most m s s'.
Proof. intros (k & Hk & Hm) Hle. exists k. split; [lia|done]. Qed.

(** [m] makes at most [n] requests and does not touch the broker *)
Definition spends (n : nat) {A} (m : Wrk Pl Br A) : Prop := ∀ s,
  at_most n (cy_plane s) (cy_plane (m s).2) ∧ cy_broker (m s).2 = cy_broker s.

Lemma spends_quiet n {A} (m : Wrk Pl Br A) : (∀ s, (m s).2 = s) → spends n m.
Proof. intros Hm s. rewrite Hm. split; [apply at_most_none|done]. Qed.

Lemma spends_plane {A} (f : Pl → (worker_error + A) * Pl) : (∀ s, made 1 s (f s).2) → spends 1 (plane (B:=Br) f).
Proof.
  intros Hf s. unfold plane. specialize (Hf (cy_plane s)). destruct (f (cy_plane s)) as [r p].
  split; [by exists 1%nat|done].
Qed.

Lemma spends_bind n k {A C} (m : Wrk Pl Br A) (f : A → Wrk Pl Br C) :
  spends n m → (∀ a, spends k (f a)) → spends (n + k) (m ≫= f).
Proof.
  intros Hm Hf s. unfold mbind, Wrk_bind. destruct (Hm s) as [H1 H2]. destruct (m s) as [[e|a] s1]; cbn in *.
  - split; [eapply at_most_weaken; [exact H1|lia]|done].
  - destruct (Hf a s1) as [H3 H4]. split; [by eapply at_most_more; [exact H1|exact H3|lia]|by rewrite H4].
Qed.

Lemma spends_weaken n k {A} (m : Wrk Pl Br A) : spends n m → (n ≤ k)%nat → spends k m.
Proof. intros Hm Hle s. destruct (Hm s) as [H1 H2]. split; [by eapply at_most_weaken|done]. Qed.

Lemma spends_attempt n {A} (m : Wrk Pl Br A) : spends n m → spends n (attempt m).
Proof. intros Hm s. unfold attempt. specialize (Hm s). by destruct (m s). Qed.

Lemma spends_beat id token op : spends 1 (task_heartbeat cf id token op).
Proof. apply spends_plane. intros s. apply made_heartbeat. Qed.

Lemma spends_beats n id token op : spends n (keep_alive cf n id token op).
Proof.
  induction n as [|n IH]; cbn [keep_alive]; [by apply spends_quiet|].
  apply (spends_bind 1 n); [apply spends_beat|intros _; exact IH].
Qed.

(** [m] makes at most [n] requests, and hands at most one ticket to the broker:
    one that satisfies [P] *)
Definition asks (P : Pl → Pl → BrokerTicketResponse → Prop) (n : nat) {A} (m : Wrk Pl Br A) : Prop := ∀ s,
  at_most n (cy_plane s) (cy_plane (m s).2) ∧
  (cy_broker (m s).2 = cy_broker s ∨
   ∃ ticket, P (cy_plane s) (cy_plane (m s).2) ticket ∧ cy_broker (m s).2 = (broker_execute ticket (cy_broker s)).2).

Lemma spends_asks P n {A} (m : Wrk Pl Br A) : spends n m → asks P n m.
Proof. intros Hm s. destruct (Hm s) as [H1 H2]. split; [exact H1|by left]. Qed.

Lemma asks_weaken P n k {A} (m : Wrk Pl Br A) : asks P n m → (n ≤ k)%nat → asks P k m.
Proof. intros Hm Hle s. destruct (Hm s) as [H1 H2]. split; [by eapply at_most_weaken|done]. Qed.

Lemma asks_attempt P n {A} (m : Wrk Pl Br A) : asks P n m → asks P n (attempt m).
Proof. intros Hm s. unfold attempt. specialize (Hm s). by destruct (m s). Qed.

(** the requests before and after do not matter to [P] *)
Definition stable (P : Pl → Pl → BrokerTicketResponse → Prop) : Prop :=
  ∀ n m s1 s2 s3 s4 t, at_most n s1 s2 → P s2 s3 t → at_most m s3 s4 → P s1 s4 t.

Lemma asks_then P n k {A C} (m : Wrk Pl Br A) (f : A → Wrk Pl Br C) :
  stable P → asks P n m → (∀ a, spends k (f a)) → asks P (n + k) (m ≫= f).
Proof.
  intros HP Hm Hf s. unfold mbind, Wrk_bind. destruct (Hm s) as [H1 H2]. destruct (m s) as [[e|a] s1]; cbn in *.
  - split; [eapply at_most_weaken; [exact H1|lia]|done].
  - destruct (Hf a s1) as [H3 H4]. split; [by eapply at_most_more; [exact H1|exact H3|lia]|]. rewrite H4.
    destruct H2 as [H2|(t & Ht & Hb)]; [by left|right]. exists t. split; [|done].
    eapply (HP 0%nat k); [apply at_most_none|exact Ht|exact H3].
Qed.

Lemma then_asks P n k {A C} (m : Wrk Pl Br A) (f : A → Wrk Pl Br C) :
  stable P → spends n m → (∀ a, asks P k (f a)) → asks P (n + k) (m ≫= f).
Proof.
  intros HP Hm Hf s. unfold mbind, Wrk_bind. destruct (Hm s) as [H1 H2]. destruct (m s) as [[e|a] s1]; cbn in *.
  - split; [eapply at_most_weaken; [exact H1|lia]|by left].
  - destruct (Hf a s1) as [H3 H4]. split; [by eapply at_most_more; [exact H1|exact H3|lia]|]. rewrite <- H2.
    destruct H4 as [H4|(t & Ht & Hb)]; [by left|right]. exists t. split; [|done].
    eapply (HP n 0%nat); [exact H1|exact Ht|apply at_most_none].
Qed.

Lemma asks_peer P ticket : (∀ s, P s s ticket) → asks P 0 (peer (S:=Pl) (broker_execute ticket)).
Proof.
  intros HP s. unfold peer. destruct (broker_execute ticket (cy_broker s)) as [r b] eqn:E.
  split; [apply at_most_none|]. right. exists ticket. split; [apply HP|]. cbn. by rewrite E.
Qed.

(** the heartbeats and the one exchange with the broker *)
Lemma execute_asks P p ticket id token op :
  stable P → (∀ s, P s s ticket) → asks P (S (beats p)) (_execute_with_heartbeats cf p ticket id token op).
Proof.
  intros HP Ht. unfold _execute_with_heartbeats. apply (asks_weaken P (beats p + 1)); [|lia].
  apply then_asks; [done|apply spends_attempt, spends_beats|]. intros [e|[]].
  - apply (asks_weaken P (0 + 0)); [|lia]. apply asks_then; [done| |intros ?; by apply spends_quiet].
    destruct (reached p); [by apply asks_attempt, asks_peer|by apply spends_asks, spends_quiet].
  - apply (asks_then P 0 1); [done|by apply asks_attempt, asks_peer|]. intros r.
    apply (spends_bind 1 0); [|intros ?; by apply spends_quiet].
    destruct (in_flight p); [apply spends_attempt, spends_beat|by apply spends_quiet].
Qed.

(** the ticket came from the control plane, for this task and token *)
Definition obtained (id : uuid) (token : string) (s s' : Pl) (ticket : BrokerTicketResponse) : Prop :=
  ∃ n m s1, at_most n s s1 ∧ (api_broker_ticket id token s1).1 = inr ticket ∧ at_most m (api_broker_ticket id token s1).2 s'.

Lemma obtained_stable id token : stable (obtained id token).
Proof.
  intros n m s1 s2 s3 s4 t H1 (i & j & s & H2 & Ht & H3) H4.
  exists (n + i)%nat, (j + m)%nat, s. split; [by eapply at_most_more|]. split; [done|by eapply at_most_more].
Qed.

Lemma plane_bind {A C} (g : Pl → (worker_error + A) * Pl) (f : A → Wrk Pl Br C) s :
  (plane g ≫= f) s = match g (cy_plane s) with
                     | (inr a, p) => f a (mkCycle p (cy_broker s))
                     | (inl e, p) => (inl e, mkCycle p (cy_broker s))
                     end.
Proof. unfold mbind, Wrk_bind, plane. by destruct (g (cy_plane s)) as [[e|a] p]. Qed.

Lemma run_started_asks p task token c :
  asks (obtained (t_id task) token) (beats p + 4) (run_started cf p task token c).
Proof.
  intros s. unfold run_started. rewrite plane_bind.
  destruct (api_broker_ticket (t_id task) token (cy_plane s)) as [[e|ticket] pl] eqn:E.
  { split; [|by left]. eapply at_most_weaken; [|instantiate (1 := 1%nat); lia]. exists 1%nat. split; [lia|].
    pose proof (made_ticket (t_id task) token (cy_plane s)) as Hm. by rewrite E in Hm. }
  assert (H1 : at_most 1 (cy_plane s) pl).
  { exists 1%nat. split; [lia|]. pose proof (made_ticket (t_id task) token (cy_plane s)) as Hm. by rewrite E in Hm. }
  assert (Hrest : asks (fun _ _ t => t = ticket) (S (beats p) + 2) (
    result ← _execute_with_heartbeats cf p ticket (t_id task) token (icn_operation c);
    evidence ← _write_evidence cf task result;
    _ ← plane (api_register_artifact (t_id task) (evidence_artifact cf token c evidence.1 evidence.2));
    if bx_success result then
      _ ← plane (api_complete_task (t_id task) token "Restricted infrastructure operation succeeded."
            (_bounded_summary result evidence.2));
      mret (Succeeded (t_id task))
    else
      _ ← plane (api_fail_task (t_id task) token "Restricted infrastructure operation failed."
            (_bounded_summary result evidence.2) false);
      mret (InfraService.Failed (t_id task)))).
  { assert (Hst : stable (λ _ _ t, t = ticket)) by (intros n m s1 s2 s3 s4 t _ Ht _; exact Ht).
    apply asks_then; [exact Hst|by apply execute_asks|]. intros result.
    apply (spends_bind 0 2). { unfold _write_evidence. destruct (wf_write_error _); by apply spends_quiet. }
    intros evidence. apply (spends_bind 1 1); [apply spends_plane; intros; apply made_artifact|]. intros _.
    destruct (bx_success result); apply (spends_bind 1 0); try (intros ?; by apply spends_quiet);
      apply spends_plane; intros; [apply made_complete|apply made_fail]. }
  destruct (Hrest (mkCycle pl (cy_broker s))) as [H2 H3]. cbn [cy_plane cy_broker] in *.
  split; [eapply at_most_more; [exact H1|exact H2|lia]|].
  destruct H3 as [H3|(t & -> & H3)]; [by left|right]. exists ticket. split; [|done].
  exists 0%nat, (S (beats p) + 2)%nat, (cy_plane s). split; [apply at_most_none|]. rewrite E. split; [done|exact H2].
Qed.

(** the clauses after the [try] *)
Lemma spends_handle task token r : spends 1 (handle_started task token r).
Proof.
  assert (Hq : ∀ A (m : Wrk Pl Br A), (∀ s, (m s).2 = s) → spends 1 m).
  { intros A m Hm. apply (spends_weaken 0); [by apply spends_quiet|lia]. }
  unfold handle_started. destruct r as [[]|]; try (by apply Hq);
    (apply (spends_bind 1 0); [apply spends_attempt, spends_plane; intros; apply made_fail|];
     intros [[]|]; by apply spends_quiet).
Qed.

(** A ticket handed to the broker belongs to a task this process leased and its own
    packages admit: the worker's files, the identity the control plane gave it, the
    leased task and its token, and the contract the policy read. *)
Definition vetted (s s' : Pl) (ticket : BrokerTicketResponse) : Prop :=
  ∃ loaded identity task token c n s1,
    load_worker = inr loaded ∧ identity_mismatch cf identity = false ∧
    package_mismatch cf (ld_manifest loaded) identity = false ∧ at_most n s s1 ∧
    (api_lease_task (is_lease_seconds cf) s1).1 = inr (Some task, Some token) ∧
    _validate_task loaded task identity = Some c ∧
    obtained (t_id task) token (api_lease_task (is_lease_seconds cf) s1).2 s' ticket.

Lemma vetted_stable : stable vetted.
Proof.
  intros n m s1 s2 s3 s4 t H1 (loaded & identity & task & token & c & i & s & H2 & H3 & H4 & H5 & H6 & H7 & H8) H9.
  exists loaded, identity, task, token, c, (n + i)%nat, s. split_and!; try done; [by eapply at_most_more|].
  eapply (obtained_stable _ _ 0%nat m); [apply at_most_none|exact H8|exact H9].
Qed.

Lemma run_leased_asks p loaded identity task token c :
  _validate_task loaded task identity = Some c →
  asks (obtained (t_id task) token) (beats p + 6) (run_leased cf p loaded identity task token).
Proof.
  intros Hc. unfold run_leased. rewrite Hc. apply (asks_weaken _ (1 + (beats p + 4 + 1))); [|lia].
  apply then_asks; [apply obtained_stable|apply spends_plane; intros; apply made_start|]. intros _.
  apply asks_then; [apply obtained_stable|apply asks_attempt, run_started_asks|]. intros r. apply spends_handle.
Qed.

Lemma run_leased_refuses p loaded identity task token :
  _validate_task loaded task identity = None → spends 1 (run_leased cf p loaded identity task token).
Proof.
  intros Hc. unfold run_leased. rewrite Hc. apply (spends_bind 1 0); [|intros ?; by apply spends_quiet].
  apply spends_plane. intros. apply made_release.
Qed.

(** from the lease on *)
Lemma lease_asks p loaded identity :
  load_worker = inr loaded → identity_mismatch cf identity = false →
  package_mismatch cf (ld_manifest loaded) identity = false →
  asks vetted (beats p + 7) (
    lease ← plane (api_lease_task (is_lease_seconds cf));
    match lease with
    | (None, None) => mret NoWork
    | (Some task, Some lease_token) => run_leased cf p loaded identity task lease_token
    | _ => throw InfrastructureServiceError
    end).
Proof.
  intros Hl Hi Hp s. rewrite plane_bind. pose proof (made_lease (is_lease_seconds cf) (cy_plane s)) as Hm.
  destruct (api_lease_task _ _) as [r pl] eqn:E. cbn [snd] in Hm.
  assert (H1 : ∀ n, at_most (n + 1) (cy_plane s) pl) by (intros n; exists 1%nat; split; [lia|done]).
  assert (Hquiet : ∀ A (r : A), at_most (beats p + 7) (cy_plane s) (cy_plane (r, mkCycle pl (cy_broker s)).2) ∧
    (cy_broker (r, mkCycle pl (cy_broker s)).2 = cy_broker s ∨ ∃ t, vetted (cy_plane s)
      (cy_plane (r, mkCycle pl (cy_broker s)).2) t ∧ cy_broker (r, mkCycle pl (cy_broker s)).2 = (broker_execute t (cy_broker s)).2)).
  { intros A r'. split; [|by left]. eapply at_most_weaken; [apply (H1 0%nat)|lia]. }
  destruct r as [e|[[task|] [token|]]]; try apply Hquiet.
  destruct (_validate_task loaded task identity) as [c|] eqn:Hc.
  - destruct (run_leased_asks p loaded identity task token c Hc (mkCycle pl (cy_broker s))) as [H2 H3].
    cbn [cy_plane cy_broker] in *. split; [eapply at_most_more; [apply (H1 0%nat)|exact H2|lia]|].
    destruct H3 as [H3|(t & Ht & Hb)]; [by left|right]. exists t. split; [|exact Hb].
    exists loaded, identity, task, token, c, 0%nat, (cy_plane s). rewrite E. split_and!; try done. apply at_most_none.
  - destruct (run_leased_refuses p loaded identity task token Hc (mkCycle pl (cy_broker s))) as [H2 H3].
    cbn [cy_plane cy_broker] in *. split; [eapply at_most_more; [apply (H1 0%nat)|exact H2|lia]|]. by left.
Qed.

Lemma run_once_asks p : asks vetted (beats p + 9) (run_once cf p).
Proof.
  unfold run_once. destruct load_worker as [e|loaded] eqn:E; [by apply spends_asks, spends_quiet|].
  assert (Hstop : ∀ n A (e : worker_error), asks (A:=A) vetted n (throw (S:=Pl) (B:=Br) e)).
  { intros n A e. by apply spends_asks, spends_quiet. }
  assert (Hbody : asks vetted (1 + (1 + (beats p + 7))) (
    identity ← plane get_identity;
    if identity_mismatch cf identity then throw InfrastructureServiceError
    else if package_mismatch cf (ld_manifest loaded) identity then throw InfrastructureServiceError
    else
      _ ← plane (send_agent_heartbeat (worker_heartbeat identity loaded));
      lease ← plane (api_lease_task (is_lease_seconds cf));
      match lease with
      | (None, None) => mret NoWork
      | (Some task, Some lease_token) => run_leased cf p loaded identity task lease_token
      | _ => throw InfrastructureServiceError
      end)).
  { apply then_asks; [apply vetted_stable|apply spends_plane; intros; apply made_identity|]. intros identity.
    destruct (identity_mismatch cf identity) eqn:Hi; [apply Hstop|].
    destruct (package_mismatch cf (ld_manifest loaded) identity) eqn:Hp; [apply Hstop|].
    apply then_asks; [apply vetted_stable|apply spends_plane; intros; apply made_agent_heartbeat|]. intros _.
    by apply lease_asks. }
  apply (asks_weaken _ (1 + (1 + (beats p + 7)))); [exact Hbody|lia].
Qed.

(** ** The whole run of the process *)

(** the tickets a broker was handed, in order *)
Definition handed (tickets : list BrokerTicketResponse) (b : Br) : Br :=
  foldl (fun b t => (broker_execute t b).2) b tickets.

(** the requests a list of cycles may make *)
Definition requests_of (paces : list pace) : nat := foldr (fun p n => beats p + 9 + n)%nat 0%nat paces.

(** ** What the loop does between cycles *)

(** the cycles run one after the other, and their results *)
Inductive cycles : list pace → cycle Pl Br → list (worker_error + InfrastructureOutcome) → cycle Pl Br → Prop :=
| cycles_none s : cycles [] s [] s
| cycles_cons p ps s r s1 rs s' : run_once cf p s = (r, s1) → cycles ps s1 rs s' → cycles (p :: ps) s (r :: rs) s'.

(** what follows the results of the cycles, starting from a delay: the poll interval
    after a cycle that ended, twice the last delay (within five and a hundred and
    twenty seconds) when the control plane could not be reached or failed, and the
    end of the process after any other error, with code three when it is that of the
    credentials.  With no result left the process was told to stop. *)
Inductive loop : Z → list (worker_error + InfrastructureOutcome) → process → list Z → Prop :=
| loop_stopped delay : loop delay [] (Exited 0) []
| loop_ended delay o rs e delays :
    loop (is_poll_interval cf) rs e delays → loop delay (inr o :: rs) e (is_poll_interval cf :: delays)
| loop_backs_off delay lost rs e delays next :
    lost = ConnectionError ∨ lost = ServerError → next = Z.min (seconds 120) (Z.max (delay * 2) (seconds 5)) →
    loop next rs e delays → loop delay (inl lost :: rs) e (next :: delays)
| loop_unauthenticated delay : loop delay [inl AuthenticationError] (Exited 3) []
| loop_crashed delay error :
    error ∉ [AuthenticationError; ConnectionError; ServerError] → loop delay [inl error] (Crashed error) [].

(** one step of the loop *)
Lemma after_cycle_loop delay r :
  match after_cycle cf delay r with
  | Waiting next => ∀ rs e delays, loop next rs e delays → loop delay (r :: rs) e (next :: delays)
  | e => loop delay [r] e [] ∧ e ≠ Exited 0
  end.
Proof.
  unfold after_cycle. destruct r as [[]|o]; try (split; [constructor|done]);
    try (rewrite !elem_of_cons, elem_of_nil; intuition discriminate); intros rs e delays Hl; by econstructor; eauto.
Qed.

(** the process after the cycles of [paces]: it ran the first of them, all when it was
    told to stop, and did between them what the loop does *)
Definition looped (paces : list pace) (delay : Z) (s : cycle Pl Br) (e : process) (delays : list Z) (s' : cycle Pl Br) : Prop :=
  ∃ ran rest results, paces = ran ++ rest ∧ cycles ran s results s' ∧ loop delay results e delays ∧ (e = Exited 0 → rest = []).

Lemma serve_loops paces : ∀ delay s, let '(e, delays, s') := serve cf paces delay s in looped paces delay s e delays s'.
Proof.
  induction paces as [|p paces IH]; intros delay s; cbn [serve].
  { exists [], [], []. split_and!; [done|constructor|constructor|done]. }
  destruct (run_once cf p s) as [r s1] eqn:Er. pose proof (after_cycle_loop delay r) as Hl.
  assert (Hone : ∀ e, loop delay [r] e [] ∧ e ≠ Exited 0 → looped (p :: paces) delay s e [] s1).
  { intros e [He Hne]. exists [p], paces, [r]. split_and!; try done. by repeat econstructor. }
  destruct (after_cycle cf delay r) as [next|code|error]; [|by apply Hone..].
  specialize (IH next s1). destruct (serve cf paces next s1) as [[e delays] s2].
  destruct IH as (ran & rest & results & -> & Hc & Hlo & He). exists (p :: ran), rest, (r :: results).
  split_and!; [done|by econstructor|by apply Hl|done].
Qed.

Lemma serve_vetted paces : ∀ delay s,
  let '(e, delays, s') := serve cf paces delay s in
  at_most (requests_of paces) (cy_plane s) (cy_plane s') ∧
  (∃ tickets, (length tickets ≤ length paces)%nat ∧ Forall (vetted (cy_plane s) (cy_plane s')) tickets ∧
    cy_broker s' = handed tickets (cy_broker s)).
Proof.
  induction paces as [|p paces IH]; intros delay s; cbn [serve].
  { split; [apply at_most_none|]. by exists []. }
  destruct (run_once_asks p s) as [H1 H2]. destruct (run_once cf p s) as [r s1]. cbn [snd] in H1, H2.
  assert (Hfirst : ∃ tickets, (length tickets ≤ 1)%nat ∧ Forall (vetted (cy_plane s) (cy_plane s1)) tickets ∧
    cy_broker s1 = handed tickets (cy_broker s)).
  { destruct H2 as [H2|(t & Ht & H2)]; [exists []|exists [t]]; (split; [cbn; lia|]); (split; [by repeat constructor|done]). }
  destruct Hfirst as (ts1 & Hlen1 & Hts1 & Hb1).
  assert (Hstop : at_most (requests_of (p :: paces)) (cy_plane s) (cy_plane s1) ∧
    ∃ tickets, (length tickets ≤ length (p :: paces))%nat ∧ Forall (vetted (cy_plane s) (cy_plane s1)) tickets ∧
      cy_broker s1 = handed tickets (cy_broker s)).
  { split; [eapply at_most_weaken; [exact H1|unfold requests_of; cbn [foldr]; lia]|].
    exists ts1. split; [cbn; lia|done]. }
  destruct (after_cycle cf delay r) as [next|code|e]; [|exact Hstop..].
  specialize (IH next s1). destruct (serve cf paces next s1) as [[e delays] s2].
  destruct IH as (H3 & (ts & Hlen & Hts & Hb)).
  split; [eapply at_most_more; [exact H1|exact H3|unfold requests_of; cbn [foldr]; lia]|].
  exists (ts1 ++ ts). split; [rewrite length_app; cbn; lia|]. split; [|by unfold handed in *; rewrite foldl_app, <- Hb1].
  apply Forall_app. split; (eapply Forall_impl; [eassumption|]); intros t Ht.
  - eapply (vetted_stable 0%nat); [apply at_most_none|exact Ht|exact H3].
  - eapply (vetted_stable _ 0%nat); [exact H1|exact Ht|apply at_most_none].
Qed.

(** ** What a reported success rests on *)
Lemma wrk_bind_ok {A C} (m : Wrk Pl Br A) (f : A → Wrk Pl Br C) s b s' :
  (m ≫= f) s = (inr b, s') → ∃ a s1, m s = (inr a, s1) ∧ f a s1 = (inr b, s').
Proof. unfold mbind, Wrk_bind. destruct (m s) as [[e|a] s1]; [done|by eauto]. Qed.

Lemma plane_ok {A} (g : Pl → (worker_error + A) * Pl) s a s' :
  plane (B:=Br) g s = (inr a, s') → g (cy_plane s) = (inr a, cy_plane s') ∧ cy_broker s' = cy_broker s.
Proof. unfold plane. destruct (g (cy_plane s)) as [r p]. by intros [= -> <-]. Qed.

(** the broker performed the ticket successfully, the evidence of its result was
    registered, and the task completed with the summary of that result *)
Definition backed (id : uuid) (s s' : cycle Pl Br) : Prop :=
  ∃ token c ticket r s1 s2 n,
    broker_execute ticket (cy_broker s) = (inr r, cy_broker s') ∧ bx_success r = true ∧ at_most n (cy_plane s) s1 ∧
    api_register_artifact id (evidence_artifact cf token c (evidence_content r) (sha256 (evidence_content r))) s1 = (inr tt, s2) ∧
    api_complete_task id token "Restricted infrastructure operation succeeded."
      (_bounded_summary r (sha256 (evidence_content r))) s2 = (inr tt, cy_plane s').

Lemma backed_later id n s s1 s' :
  at_most n (cy_plane s) (cy_plane s1) → cy_broker s1 = cy_broker s → backed id s1 s' → backed id s s'.
Proof.
  intros Hn Hb (token & c & ticket & r & p1 & p2 & m & H1 & H2 & H3 & H4 & H5).
  exists token, c, ticket, r, p1, p2, (n + m)%nat. rewrite <- Hb. split_and!; try done. by eapply at_most_more.
Qed.

(** a step that only makes requests comes before *)
Lemma backed_after {A} n (m : Wrk Pl Br A) id s a s1 s' :
  spends n m → m s = (inr a, s1) → backed id s1 s' → backed id s s'.
Proof. intros Hm E. destruct (Hm s) as [H1 H2]. rewrite E in H1, H2. by eapply backed_later. Qed.

Lemma execute_ok p ticket id token op s r s' :
  _execute_with_heartbeats cf p ticket id token op s = (inr r, s') →
  broker_execute ticket (cy_broker s) = (inr r, cy_broker s') ∧ at_most (S (beats p)) (cy_plane s) (cy_plane s').
Proof.
  intros E. split.
  2:{ destruct (execute_asks (fun _ _ _ => True) p ticket id token op) with (s := s) as [H _]; [done..|]. by rewrite E in H. }
  unfold _execute_with_heartbeats in E. apply wrk_bind_ok in E as (beaten & s1 & E1 & E).
  destruct (spends_attempt _ _ (spends_beats (beats p) id token op) s) as [_ Hb]. rewrite E1 in Hb. cbn in Hb.
  destruct beaten as [e|[]].
  { apply wrk_bind_ok in E as (? & ? & _ & E). discriminate. }
  apply wrk_bind_ok in E as (r' & s2 & E2 & E). apply wrk_bind_ok in E as (? & s3 & E3 & E). injection E as -> <-.
  assert (Hb3 : cy_broker s3 = cy_broker s2).
  { destruct (in_flight p); [|by injection E3 as _ <-].
    destruct (spends_attempt _ _ (spends_beat id token op) s2) as [_ Hb3]. by rewrite E3 in Hb3. }
  rewrite Hb3. unfold attempt, peer in E2. rewrite Hb in E2.
  destruct (broker_execute ticket (cy_broker s)) as [r'' b]. by injection E2 as -> <-.
Qed.

Lemma run_started_succeeded p task token c s id s' :
  run_started cf p task token c s = (inr (Succeeded id), s') → id = t_id task ∧ backed id s s'.
Proof.
  unfold run_started. intros E. apply wrk_bind_ok in E as (ticket & s1 & E1 & E).
  apply wrk_bind_ok in E as (r & s2 & E2 & E). apply wrk_bind_ok in E as (evidence & s3 & E3 & E).
  apply wrk_bind_ok in E as ([] & s4 & E4 & E). cbn zeta in E.
  destruct (bx_success r) eqn:Hr; apply wrk_bind_ok in E as ([] & s5 & E5 & E); [|discriminate].
  injection E as <- <-. split; [done|]. eapply (backed_after 1); [|exact E1|]; [apply spends_plane; intros; apply made_ticket|].
  apply execute_ok in E2 as [Hx Hn]. apply plane_ok in E4 as [Hart Hb4]. apply plane_ok in E5 as [Hdone Hb5].
  unfold _write_evidence in E3. destruct (wf_write_error _); [discriminate|]. injection E3 as <- <-.
  exists token, c, ticket, r, (cy_plane s2), (cy_plane s4), (S (beats p)). rewrite Hb5, Hb4. split_and!; try done.
Qed.

Lemma handle_succeeded task token r s id s' :
  handle_started (Pl:=Pl) (Br:=Br) task token r s = (inr (Succeeded id), s') → r = inr (Succeeded id) ∧ s' = s.
Proof.
  unfold handle_started. destruct r as [[]|]; intros E; try discriminate; try (by injection E as -> <-);
    apply wrk_bind_ok in E as (r & s1 & _ & E); by destruct r as [[]|].
Qed.

Lemma run_leased_succeeded p loaded identity task token s id s' :
  run_leased cf p loaded identity task token s = (inr (Succeeded id), s') → id = t_id task ∧ backed id s s'.
Proof.
  unfold run_leased. destruct (_validate_task loaded task identity) as [c|]; intros E.
  - apply wrk_bind_ok in E as ([] & s1 & E1 & E). apply wrk_bind_ok in E as (r & s2 & E2 & E).
    apply handle_succeeded in E as [-> ->]. unfold attempt in E2.
    destruct (run_started cf p task token c s1) as [r s3] eqn:E3. injection E2 as -> ->.
    apply run_started_succeeded in E3 as [-> Hb]. split; [done|]. eapply (backed_after 1); [|exact E1|exact Hb].
    apply spends_plane. intros. apply made_start.
  - apply wrk_bind_ok in E as ([] & s1 & E1 & E). discriminate.
Qed.

Lemma run_once_succeeded p s id s' : run_once cf p s = (inr (Succeeded id), s') → backed id s s'.
Proof.
  unfold run_once. intros E. apply wrk_bind_ok in E as (loaded & s0 & E0 & E). unfold of_sum in E0. injection E0 as _ <-.
  apply wrk_bind_ok in E as (identity & s1 & E1 & E).
  destruct (identity_mismatch cf identity); [discriminate|].
  destruct (package_mismatch cf (ld_manifest loaded) identity); [discriminate|].
  apply wrk_bind_ok in E as ([] & s2 & E2 & E). apply wrk_bind_ok in E as (lease & s3 & E3 & E).
  eapply (backed_after 1); [|exact E1|]; [apply spends_plane; intros; apply made_identity|].
  eapply (backed_after 1); [|exact E2|]; [apply spends_plane; intros; apply made_agent_heartbeat|].
  eapply (backed_after 1); [|exact E3|]; [apply spends_plane; intros; apply made_lease|].
  destruct lease as [[task|] [token|]]; try discriminate. by apply run_leased_succeeded in E as [_ Hb].
Qed.
End cycles.
