(* ===== verification/InfraTheorems.v ===== *)
(** * From a lease to a privileged operation and back

    The cycles of the restricted worker against the control plane and the broker
    modelled in this library, over an unreliable network and with other clients at
    work between any two requests. *)
From S2P Require Import Prelude Py Sha256 Models Store Logic Security TaskCore CoreInvariant GovernanceFacts TaskRuntime System RuntimeTheorems Runbooks.
From S2P Require Import WorkloadIdentity WorkloadTheorems Packages Agents Artifacts BrokerTickets WorkerPackages Broker.
From S2P Require Import BrokerTheorems InfraService InfraDeployment InfraCycles Demo.

Open Scope Z_scope.

(** ** Over HTTP *)

(** [s'] is [n] requests after [s] *)
Definition requested (n : nat) (s s' : http_plane) : Prop :=
  pl_calls s' = (n + pl_calls s)%nat ∧ ∃ l, pl_served s' = l ++ pl_served s.

Lemma requested_call su {A} method path (h : World → Agent → Sess A) s : requested 1 s (call_api su method path h s).2.
Proof.
  unfold call_api, requested. destruct (su_delivery su (pl_calls s)); [|by split; [|exists []]|];
    destruct (request _ _) as [r d']; cbn; (split; [done|]); by exists [su_others su (pl_calls s) (pl_db s)].
Qed.

#[export] Program Instance http_accountable su : @AccountablePlane http_plane (http_control_plane su) := {
  made := requested }.
Next Obligation. intros su s. split; [done|by exists []]. Qed.
Next Obligation.
  intros su n m s1 s2 s3 [H1 [l1 H2]] [H3 [l2 H4]]. split; [lia|]. exists (l2 ++ l1). by rewrite H4, H2, app_assoc.
Qed.
Solve Obligations with (
  intros; cbv [get_identity send_agent_heartbeat api_lease_task api_start_task api_broker_ticket api_heartbeat_task
    api_register_artifact api_complete_task api_fail_task api_release_task http_control_plane mutate_task];
  apply requested_call).

(** the agent that presents [token] to the control plane *)
Definition bears `{World} (d : database) (token : string) (agent : Agent) : Prop :=
  ∃ i c, credentials d !! i = Some c ∧ extract_agent_token_prefix token = Some (cr_token_prefix c) ∧
    cr_token_digest c = digest_agent_token token ∧ cr_revoked_at c = None ∧
    agents d !! cr_agent_id c = Some agent ∧ ag_is_enabled agent = true.

(** the rows a ticket rests on *)
Definition grounds (d : database) :=
  (tasks d, approvals d, runbook_packages d, runbook_promotions d).

Lemma get_current_agent_ok `{World} method path token s agent s' :
  get_current_agent method path (Some token) s = (Ok agent, s') →
  bears (db s) token agent ∧ grounds (db s') = grounds (db s).
Proof.
  unfold get_current_agent. destruct (extract_agent_token_prefix token) as [p|] eqn:Hp; [|done]. intros E.
  run_ok E. injection E0 as <- <-.
  destruct (head _) as [c|] eqn:Hc; [|done]. apply select_one_Some in Hc as [Hpre%str_eqb_spec (i & Hrow)].
  run_ok E. injection E0 as <- <-.
  destruct (cr_revoked_at c) as [|] eqn:Hrev; [done|]. destruct (match cr_expires_at c with Some e => _ | None => _ end); [done|].
  destruct (_ && _); [done|]. destruct (str_eqb (digest_agent_token token) _) eqn:Hd; [|done]. apply str_eqb_spec in Hd.
  cbn [negb] in E. run_ok E. injection E0 as <- <-. cbn [db] in E.
  destruct (agents _ !! _) as [a|] eqn:Ha; [|done]. destruct (ag_is_enabled a) eqn:Hen; cbn [negb] in E; [|done].
  run_ok E.
  match type of E0 with _ ?s0 = _ => destruct (validate_identity_run a c method path (w_now (clock s)) s0) as (r & Hrun & _) end.
  rewrite Hrun in E0. injection E0 as -> <-. run_ok E. injection E0 as <- <-. run_ok E. injection E0 as <- <-.
  injection E as -> <-. split.
  - exists i, c. split_and!; try done. congruence.
  - cbn. unfold with_control, grounds. cbn. by destruct (identity_control (db s)).
Qed.

Lemma certified_frame d d' task agent secret now ticket :
  grounds d' = grounds d → certified d task agent secret now ticket → certified d' task agent secret now ticket.
Proof.
  intros [= _ Hap Hpk Hpr] [Hct Hpay Hval Hsig Hrisk Happ Hback Htask Hnonce Hexpiry]. constructor; try assumption.
  - intros Hr. destruct (Happ Hr) as (i & a & e & Hrow & Hrest). exists i, a, e. by rewrite Hap.
  - intros Hp. destruct (Hback Hp) as (i & pk & promotion & rid & rehearsal & o & H1 & H2 & H3 & H4 & H5 & H6 & H7 & H8).
    exists i, pk, promotion, rid, rehearsal, o. unfold promotions_of in *. by rewrite Hpk, Hpr.
Qed.

(** what the control plane vouched for when it served [d]: the ticket of a running
    task, given to the agent that holds its live lease *)
Definition vouched (su : surroundings) (d : database) (ticket : BrokerTicketResponse) : Prop :=
  ∃ n k agent id token task,
    @bears (su_world su n) d (su_bearer su) agent ∧
    tasks d !! id = Some task ∧ t_status task = Running ∧
    @accepts (su_world su n) task agent token (@w_now (su_world su n) k) ∧
    certified d task agent (su_secret su) (@w_now (su_world su n) (S k)) ticket.

Lemma ticket_vouched su id token s ticket s' :
  api_broker_ticket (ControlPlane := http_control_plane su) id token s = (inr ticket, s') →
  ∃ d l, pl_served s' = l ++ pl_served s ∧ d ∈ l ∧ vouched su d ticket.
Proof.
  cbn. unfold call_api. set (n := pl_calls s). set (d := su_others su n (pl_db s)).
  destruct (su_delivery su n); [|done|by destruct (request _ _)].
  unfold request, as_agent. destruct (mbind (M:=Sess) _ _ (open_session d)) as [r s1] eqn:E. destruct r as [a|e]; [|done].
  intros [= -> <-]. exists d, [d]. split; [done|]. split; [left|]. run_ok E. apply get_current_agent_ok in E0 as [Hb Hg].
  apply get_broker_ticket_ok in E as (task & Ht & Hrun & Hacc & Hce & _).
  exists n, (clock s0), a, id, token, task. pose proof Hg as [= Htasks _ _ _]. cbn in Hb. split; [exact Hb|].
  split; [by rewrite <- Htasks|]. split; [exact Hrun|]. split; [exact Hacc|].
  eapply certified_frame; [|exact Hce]. symmetry. exact Hg.
Qed.

(** a cycle's ticket was vouched for by a database one of its requests was served on *)
Lemma vetted_vouched su `{WorkerFiles} cf s s' t :
  vetted (CP := http_control_plane su) cf s s' t →
  ∃ d new, pl_served s' = new ++ pl_served s ∧ d ∈ new ∧ vouched su d t.
Proof.
  intros (loaded & identity & task & token & c & n & s1 & _ & _ & _ & (i & _ & _ & l1 & H1) & _ & _ & Hob).
  destruct Hob as (j & m & s2 & (j' & _ & _ & l2 & H2) & Ht & (m' & _ & _ & l3 & H3)).
  destruct (api_broker_ticket _ _ s2) as [r s3] eqn:E. cbn [fst snd] in Ht, H3. subst r.
  assert (Hlease : requested 1 s1 (api_lease_task (ControlPlane := http_control_plane su) (is_lease_seconds cf) s1).2)
    by apply requested_call.
  destruct Hlease as [_ [l4 H4]].
  destruct (ticket_vouched _ _ _ _ _ _ E) as (d & l5 & H5 & Hin & Hd).
  exists d, (l3 ++ l5 ++ l2 ++ l4 ++ l1). split; [by rewrite H3, H5, H2, H4, H1, !app_assoc|].
  split; [|exact Hd]. rewrite !elem_of_app. auto.
Qed.

(** C12. Over any run of the worker's process, whatever the network loses and other
    clients write in between, the broker is handed at most one ticket per cycle,
    nothing else, and each of them was leased in this run, accepted by the worker's
    own policy, and certified by the control plane on a state it served a request of
    this run on: the ticket of a task running there, asked for by the enabled agent
    whose live credential the worker presents and who holds the task's lease. *)
Theorem privileged_work_is_certified (su : surroundings) `{WF : WorkerFiles} `{Hst : Host} cf bcf so paces delay s :
  let '(_, _, s') := @serve _ _ (http_control_plane su) (socket_peer bcf so) WF cf paces delay s in
  ∃ tickets, (length tickets ≤ length paces)%nat ∧
    cy_broker s' = foldl (fun b t => (ask_broker bcf so t b).2) (cy_broker s) tickets ∧
    ∀ t, t ∈ tickets →
      vetted (CP := http_control_plane su) cf (cy_plane s) (cy_plane s') t ∧
      ∃ d new, pl_served (cy_plane s') = new ++ pl_served (cy_plane s) ∧ d ∈ new ∧ vouched su d t.
Proof.
  pose proof (serve_vetted (CP := http_control_plane su) (BP := socket_peer bcf so) cf paces delay s) as Hserve.
  destruct (serve _ _ _ _) as [[e delays] s']. destruct Hserve as (_ & tickets & Hlen & Hall & Hb).
  exists tickets. split; [exact Hlen|]. split; [exact Hb|]. intros t Ht.
  rewrite Forall_forall in Hall. specialize (Hall t Ht). split; [exact Hall|]. by eapply vetted_vouched.
Qed.

(** C14. The process of the worker is bounded.  A cycle makes at most nine requests and
    one for each heartbeat it sends.  After a cycle that ended with an outcome the
    process waits the poll interval; after a cycle that lost its connection, or that
    the control plane failed, twice its last delay, at least five and at most a
    hundred and twenty seconds; after any other error it runs no further cycle: it
    exits with code three without credentials and crashes with the error otherwise.
    It exits with code zero only when told to stop, after all its cycles. *)
Theorem worker_process_is_bounded (su : surroundings) `{WF : WorkerFiles} `{Hst : Host} cf bcf so paces delay s :
  let '(e, delays, s') := @serve _ _ (http_control_plane su) (socket_peer bcf so) WF cf paces delay s in
  (pl_calls (cy_plane s') ≤ requests_of paces + pl_calls (cy_plane s))%nat ∧
  ∃ ran rest results, paces = ran ++ rest ∧
    cycles (CP := http_control_plane su) (BP := socket_peer bcf so) cf ran s results s' ∧
    loop cf delay results e delays ∧ (e = Exited 0 → rest = []).
Proof.
  pose proof (serve_vetted (CP := http_control_plane su) (BP := socket_peer bcf so) cf paces delay s) as Hserve.
  pose proof (serve_loops (CP := http_control_plane su) (BP := socket_peer bcf so) cf paces delay s) as Hloops.
  destruct (serve _ _ _ _) as [[e delays] s']. destruct Hserve as ((k & Hk & Hm & _) & _). split; [lia|exact Hloops].
Qed.

(** ** What the control plane keeps *)

(** the agent's requests keep the safety of the tasks and approvals *)
Section kept.
Context `{World}.

Lemma control_frame : preserves core control.
Proof. unfold control. frame. Qed.
#[local] Hint Resolve control_frame : frame.
Lemma validate_identity_frame a c method path now : preserves core (validate_identity a c method path now).
Proof. unfold validate_identity, check_identity, http. frame. Qed.
#[local] Hint Resolve validate_identity_frame : frame.
Lemma get_current_agent_keeps method path bearer : keeps (get_current_agent method path bearer).
Proof. unfold get_current_agent, unauthorized. keeps. Qed.
Lemma receive_heartbeat_keeps p a : keeps (receive_heartbeat p a).
Proof. unfold receive_heartbeat, verify_agent_package_attestation, alter_agent. keeps. Qed.
Lemma lease_response_keeps a n : keeps (lease_response a n).
Proof. unfold lease_response. keeps. Qed.
Lemma lift_frame {A} (m : outcome A) : preserves core (lift m).
Proof. done. Qed.
#[local] Hint Resolve lift_frame : frame.
Lemma validate_packaged_frame c t now : preserves core (_validate_packaged_operation c t now).
Proof. unfold _validate_packaged_operation, http. frame. Qed.
#[local] Hint Resolve validate_packaged_frame : frame.
Lemma issue_broker_ticket_frame t a secret : preserves core (issue_broker_ticket t a secret).
Proof. unfold issue_broker_ticket, require_approval, http. frame. Qed.
#[local] Hint Resolve issue_broker_ticket_frame : frame.
Lemma get_broker_ticket_keeps secret id a token : keeps (get_broker_ticket secret id a token).
Proof. unfold get_broker_ticket. keeps. Qed.
Lemma register_artifact_keeps id p a : keeps (register_artifact id p a).
Proof. unfold register_artifact. keeps. Qed.
End kept.
#[export] Hint Resolve get_current_agent_keeps receive_heartbeat_keeps lease_response_keeps get_broker_ticket_keeps
  register_artifact_keeps : keeps.

(** [n] requests that leave the control plane's tasks and approvals safe *)
Definition requested_safely (n : nat) (s s' : http_plane) : Prop :=
  requested n s s' ∧ (safe (pl_db s) → safe (pl_db s')).

Section recorded.
Context (su : surroundings) (Hothers : ∀ n d, safe d → safe (su_others su n d)).

Lemma call_api_safe {A} method path (h : World → Agent → Sess A) s :
  (∀ W agent, @keeps A (h W agent)) → safe (pl_db s) → safe (pl_db (call_api su method path h s).2).
Proof.
  intros Hh Hs. apply (Hothers (pl_calls s)) in Hs. unfold call_api.
  assert (Hk : safe (request (@as_agent su A (su_world su (pl_calls s)) method path (h (su_world su (pl_calls s))))
    (su_others su (pl_calls s) (pl_db s))).2).
  { apply keeps_request; [|exact Hs]. unfold as_agent. apply keeps_bind; [auto with keeps|]. intros agent. apply Hh. }
  destruct (su_delivery su (pl_calls s)); [|exact Hs|]; by destruct (request _ _).
Qed.

Lemma requested_safely_call {A} method path (h : World → Agent → Sess A) s :
  (∀ W agent, @keeps A (h W agent)) → requested_safely 1 s (call_api su method path h s).2.
Proof. intros Hh. split; [apply requested_call|by apply call_api_safe]. Qed.

#[local] Program Instance safe_plane : @AccountablePlane http_plane (http_control_plane su) := {
  made := requested_safely }.
Next Obligation. intros s. split; [|done]. split; [done|by exists []]. Qed.
Next Obligation.
  intros n m s1 s2 s3 [H1 H1'] [H2 H2']. split; [by eapply (made_more (AccountablePlane := http_accountable su))|auto].
Qed.
Solve Obligations with (
  intros; cbv [get_identity send_agent_heartbeat api_lease_task api_start_task api_broker_ticket api_heartbeat_task
    api_register_artifact api_complete_task api_fail_task api_release_task http_control_plane mutate_task];
  apply requested_safely_call; intros ? ?; solve [auto with keeps|unfold get_agent_identity; keeps]).

(** a request answered without an error was served, and its changes stand *)
Lemma call_api_ok {A} method path (h : World → Agent → Sess A) s a s' :
  call_api su method path h s = (inr a, s') →
  let n := pl_calls s in let d := su_others su n (pl_db s) in
  pl_served s' = d :: pl_served s ∧ ∃ agent s1 s2, grounds (db s1) = grounds d ∧ (safe d → safe (saved s1) ∧ safe (db s1)) ∧
    h (su_world su n) agent s1 = (Ok a, s2) ∧ pl_db s' = saved s2.
Proof.
  unfold call_api. destruct (su_delivery su (pl_calls s)); [|done|by destruct (request _ _)].
  unfold request, as_agent. destruct (mbind (M:=Sess) _ _ (open_session _)) as [r s2] eqn:E. destruct r as [b|e]; [|done].
  intros [= -> <-]. split; [done|]. run_ok E.
  pose proof (get_current_agent_ok (H := su_world su (pl_calls s)) _ _ _ _ _ _ E0) as [_ Hg].
  exists a0, s0, s2. split; [exact Hg|]. split; [|by split].
  intros Hd. refine (wp_run _ _ _ _ _ _ (get_current_agent_keeps (H := su_world su (pl_calls s)) _ _ _ (open_session _) _ _) E0);
    exact Hd.
Qed.

(** the task completed with [result] on the state its request was served on *)
Lemma completion_recorded id token message result s s' :
  safe (pl_db s) → api_complete_task (ControlPlane := http_control_plane su) id token message result s = (inr tt, s') →
  ∃ d, head (pl_served s') = Some d ∧ ∀ t, tasks d !! id = Some t → t_task_graph_node_id t = None →
    t_status t = Running ∧
    ∃ t', tasks (pl_db s') !! id = Some t' ∧ t_status t' = Models.Succeeded ∧ t_result t' = result ∧ lease_clear t'.
Proof.
  intros Hs E. apply (Hothers (pl_calls s)) in Hs. apply call_api_ok in E as (Hserved & agent & s1 & s2 & Hg & Hsafe & E & ->).
  eexists. split; [by rewrite Hserved|]. intros t Ht Hn. destruct (Hsafe Hs) as [Hs1 Hd1].
  assert (Ht1 : tasks (db s1) !! id = Some t) by (injection Hg as -> _ _ _; exact Ht).
  pose proof (wp_run _ _ _ _ _ _ (@wp_complete_task (su_world su (pl_calls s)) id agent token message result t s1 Hs1 Hd1 Ht1 Hn) E)
    as (Hst%list_elem_of_singleton & _ & _ & Hsaved & _ & Ht' & Hc).
  split; [exact Hst|]. eexists. rewrite Hsaved. split; [exact Ht'|]. split; [done|]. split; [done|exact Hc].
Qed.

Lemma artifact_recorded id p s s' :
  safe (pl_db s) → api_register_artifact (ControlPlane := http_control_plane su) id p s = (inr tt, s') →
  ∃ a, a ∈ artifacts (pl_db s') ∧ af_task_id a = id ∧ af_sha256 a = afc_sha256 p ∧ af_size_bytes a = afc_size_bytes p.
Proof.
  intros Hs E. apply (Hothers (pl_calls s)) in Hs. apply call_api_ok in E as (_ & agent & s1 & s2 & _ & Hsafe & E & ->).
  destruct (Hsafe Hs) as [_ Hd1]. run_ok E. injection E as <-. unfold register_artifact in E0.
  destruct (negb _); [discriminate|]. run_ok E0. unfold lock_task in E. run_ok E. injection E1 as <- <-.
  destruct (tasks (db s1) !! id) as [task|] eqn:Ht; [|discriminate]. injection E as <- <-.
  pose proof (ci_task_id _ _ Hd1 _ _ Ht) as Hid. cbn in Hid.
  run_ok E0. apply verify_ok in E as (-> & -> & _). destruct (negb _); [discriminate|].
  run_ok E0. injection E as <- <-. run_ok E0. injection E as <- <-. run_ok E0. injection E as <- <-. injection E0 as <- <-.
  eexists. split; [apply elem_of_app; right; left|]. done.
Qed.

(** a success the worker reports was the broker's, and is in the control plane *)
Lemma success_recorded `{WF : WorkerFiles} {Br} `{BP : BrokerPeer Br} cf p s id s' :
  safe (pl_db (cy_plane s)) →
  @run_once _ _ (http_control_plane su) BP WF cf p s = (inr (Succeeded id), s') →
  ∃ ticket r, broker_execute ticket (cy_broker s) = (inr r, cy_broker s') ∧ bx_success r = true ∧
    (∃ p1 a, a ∈ artifacts (pl_db p1) ∧ af_task_id a = id ∧ af_sha256 a = sha256 (evidence_content r) ∧
      (∃ n, requested n (cy_plane s) p1) ∧ ∃ n, requested n p1 (cy_plane s')) ∧
    ∃ d, head (pl_served (cy_plane s')) = Some d ∧
      ∀ t, tasks d !! id = Some t → t_task_graph_node_id t = None → t_status t = Running ∧
        ∃ t', tasks (pl_db (cy_plane s')) !! id = Some t' ∧ t_status t' = Models.Succeeded ∧
          t_result t' = _bounded_summary r (sha256 (evidence_content r)) ∧ lease_clear t'.
Proof.
  intros Hs E. apply (run_once_succeeded (AP := safe_plane)) in E
    as (token & c & ticket & r & s1 & s2 & n & H1 & H2 & (k & _ & Hk & Hk') & H4 & H5).
  pose proof (made_artifact (AccountablePlane := safe_plane) id (evidence_artifact cf token c (evidence_content r)
    (sha256 (evidence_content r))) s1) as [Hm Hm']. rewrite H4 in Hm, Hm'. cbn [snd] in Hm, Hm'.
  pose proof (made_complete (AccountablePlane := safe_plane) id token "Restricted infrastructure operation succeeded."
    (_bounded_summary r (sha256 (evidence_content r))) s2) as [Hr _]. rewrite H5 in Hr. cbn [snd] in Hr.
  exists ticket, r. split; [exact H1|]. split; [exact H2|]. split.
  - apply artifact_recorded in H4 as (a & Ha & Hid & Hsha & _); [|auto].
    exists s2, a. split_and!; try done.
    + exists (k + 1)%nat. by eapply (made_more (AccountablePlane := http_accountable su)).
    + exists 1%nat. exact Hr.
  - apply completion_recorded in H5; [|auto]. exact H5.
Qed.
End recorded.

(** C13. A success the worker reports is real and on record, as long as other clients
    leave the control plane's tasks and approvals consistent: in that cycle the broker
    performed one ticket and found its operation successful; an artifact of the task
    with the digest of that result's evidence was stored; and the last request of the
    cycle found the task running and, outside a graph, left it succeeded with its
    lease cleared and with the summary of the broker's result, evidence digest
    included, as its result. *)
Theorem reported_success_is_recorded (su : surroundings) `{WF : WorkerFiles} `{Hst : Host} cf bcf so p s id s' :
  (∀ n d, safe d → safe (su_others su n d)) → safe (pl_db (cy_plane s)) →
  @run_once _ _ (http_control_plane su) (socket_peer bcf so) WF cf p s = (inr (Succeeded id), s') →
  ∃ ticket r, ask_broker bcf so ticket (cy_broker s) = (inr r, cy_broker s') ∧ bx_success r = true ∧
    (∃ p1 a, a ∈ artifacts (pl_db p1) ∧ af_task_id a = id ∧ af_sha256 a = sha256 (evidence_content r) ∧
      (∃ n, requested n (cy_plane s) p1) ∧ ∃ n, requested n p1 (cy_plane s')) ∧
    ∃ d, head (pl_served (cy_plane s')) = Some d ∧
      ∀ t, tasks d !! id = Some t → t_task_graph_node_id t = None → t_status t = Running ∧
        ∃ t', tasks (pl_db (cy_plane s')) !! id = Some t' ∧ t_status t' = Models.Succeeded ∧
          t_result t' = _bounded_summary r (sha256 (evidence_content r)) ∧ lease_clear t'.
Proof. intros Hothers Hs E. exact (success_recorded su Hothers (BP := socket_peer bcf so) cf p s id s' Hs E). Qed.

(** ** A restart, from the queue to its evidence *)
Definition bearer : string := "swarm_ag_fedcba_c2VjcmV0".
Definition restarter : Agent := deployer <| ag_capabilities := ["deploy"] |>.
Definition restarter_credential : AgentCredential :=
  mkAgentCredential 22 1 None None "active" None "fedcba" (@digest_agent_token (at_time 1) bearer) epoch None None None.

Definition runbook_file : string := "the runbook of the control plane".
Definition restarter_role : RolePackageManifest :=
  mkRolePackageManifest "infrastructure" "1.0.0" "operator" ["infrastructure_operation"]
    [mkWorkflowArtifact "vm2-infrastructure" "vm2-infrastructure.yaml" (sha256 runbook_file)] [] ["deploy"]
    ["vm2-deployment"] 3 (mkCompatibilitySpec "1.0.0" "2.0.0") (mkPermissionProfile "restricted" "control-plane" false [])
    (mkRepositoryProfile ["repo"] false false).
Definition restarter_package : RolePackage :=
  mkRolePackage 23 "infrastructure" "1.0.0" restarter_role (sha256 (canonical_package restarter_role)) "signature" "repo"
    "commit" "founder" epoch.

Definition restarter_charter : AgentCharter :=
  mkAgentCharter 2 1 "1.0.0"
    (mkAgentCharterManifest "operator" ["operate"] ["deploy"] ["vm2-deployment"] ["infrastructure_operation"] ["repo"] 3
       "founder" [] [])
    "charter-digest" "active" "founder" epoch (Some "founder") (Some epoch) None.
Definition restarter_grant : AgentCapabilityGrant :=
  mkAgentCapabilityGrant 5 1 2 23 "deploy" "vm2-deployment" ["infrastructure_operation"] ["repo"] 3 "founder" "active"
    "founder" "work" (epoch + days 30) None None None "grant-digest" epoch.

(** the restart of the control plane's API is queued, and its plan approved *)
Definition queued_restart : Task :=
  mkTask 20 "T-20" "repo" "infrastructure_operation" "Restart" "Restart the API" Queued 50 3 None None None None None
    None None "founder" deploy_contract (JList []) (JList []) [] true deploy_digest ["deploy"] ["vm2-deployment"] 2 0
    None None None None None [] [] epoch epoch None None None None.
Definition restart_db : database :=
  deploy_db <| agents := {[ 1%N := restarter ]} |> <| tasks := {[ 20%N := queued_restart ]} |>
    <| approvals := {[ 21%N := deploy_approval <| ap_status := ApApproved |> <| ap_consumed_at := None |> ]} |>
    <| charters := {[ 2%N := restarter_charter ]} |> <| grants := {[ 5%N := restarter_grant ]} |>
    <| credentials := {[ 22%N := restarter_credential ]} |> <| packages := {[ 23%N := restarter_package ]} |>
    <| deployments := {[ 24%N := mkPackageDeployment 24 1 23 true "founder" epoch None ]} |>.

#[local] Instance restarter_files : WorkerFiles := {|
  wf_worker_version := "1.5.0";
  wf_role_manifest := Some restarter_role;
  wf_workflow_bytes := fun _ => Some runbook_file;
  wf_package_bytes := fun _ => None;
  wf_runbook := fun _ => Some (mkInfrastructureRunbook 1 "vm2-infrastructure" "1.0.0"
    [mkOperationDefinition "restart-control-plane-api" "infrastructure_operation" "vm2-control-plane" 3 true ["health"]]);
  wf_package := fun _ => None;
  wf_prepare_error := None;
  wf_write_error := fun _ => None |}.

Definition restarter_settings : InfrastructureSettings :=
  mkInfrastructureSettings "vm2-worker" "vm2-deployment" (seconds 10) 600 "/srv/work" "0123456789abcdef0123456789abcdef01234567".

(** every request arrives, a second after the one before, and no other client writes *)
Definition quiet : surroundings :=
  mkSurroundings (fun n => at_time (1 + Z.of_nat n)) (fun _ => Delivered) (fun _ d => d) bearer broker_secret.

Definition restart_plane : http_plane := mkPlane restart_db 0 [].

(** the ticket of the fifth request *)
Definition restart_ticket : BrokerTicketResponse :=
  let s1 := (get_identity (ControlPlane := http_control_plane quiet) restart_plane).2 in
  let loaded := match load_worker with inr loaded => loaded | inl _ => mkLoaded restarter_role "" [] [] end in
  let s2 := (send_agent_heartbeat (ControlPlane := http_control_plane quiet) (worker_heartbeat restarter loaded) s1).2 in
  let s3 := (api_lease_task (ControlPlane := http_control_plane quiet) 600 s2).2 in
  let s4 := (api_start_task (ControlPlane := http_control_plane quiet) 20 lease_token "started" s3).2 in
  match (api_broker_ticket (ControlPlane := http_control_plane quiet) 20 lease_token s4).1 with
  | inr t => t
  | inl _ => ticket
  end.

#[local] Instance restart_host : Host := {|
  host_now := fun n => epoch + seconds 6 + Z.of_nat n;
  host_run := fun _ c => Completed 0 "running healthy" "";
  host_is_file := fun _ _ => true;
  host_free_bytes := fun _ _ => None;
  host_filesystem := fun _ _ => (0, 0);
  host_dumps := fun _ _ => [mkDump "/srv/backup/latest.dump" "latest.dump" 4096 "" epoch "2026-01-01"];
  host_packages := fun _ => None;
  host_ticket := parsed restart_ticket;
  host_stage := fun _ => Ok (JObj []);
  host_postgres := fun _ _ _ => no_result;
  host_preflight := fun _ _ => no_result |}.

(** one cycle with one heartbeat while the broker works *)
Definition restart_run : (worker_error + InfrastructureOutcome) * cycle http_plane broker :=
  @run_once _ _ (http_control_plane quiet) (@socket_peer restart_host demo_settings (mkSocket true true true))
    restarter_files restarter_settings (mkPace 1 false true) (mkCycle restart_plane idle).


(** it is leased, ticketed, performed and recorded in eight requests *)
Example restart_succeeds :
  restart_run.1 = inr (Succeeded 20) ∧ pl_calls (cy_plane restart_run.2) = 8%nat ∧
  (t_status <$> tasks (pl_db (cy_plane restart_run.2)) !! 20%N) = Some Models.Succeeded ∧
  bk_consumed (cy_broker restart_run.2) = [btp_nonce (btr_payload restart_ticket)].
Proof. vm_compute. done. Qed.

Lemma restart_db_safe : safe restart_db.
Proof.
  assert (Ht : ∀ id t, (core restart_db).1 !! id = Some t → id = 20%N ∧ t = queued_restart)
    by (intros id t; change ((core restart_db).1) with ({[ 20%N := queued_restart ]} : gmap uuid Task);
        intros [<- <-]%lookup_singleton_Some; done).
  set (approval := deploy_approval <| ap_status := ApApproved |> <| ap_consumed_at := None |>).
  assert (Ha : ∀ id a, (core restart_db).2 !! id = Some a → id = 21%N ∧ a = approval)
    by (intros id a; change ((core restart_db).2) with ({[ 21%N := approval ]} : gmap uuid TaskApproval);
        intros [<- <-]%lookup_singleton_Some; done).
  split.
  - by intros id t [-> ->]%Ht.
  - by intros id a [-> ->]%Ha.
  - by intros i j a b [-> ->]%Ha [-> ->]%Ha.
  - intros id a [-> ->]%Ha. exists queued_restart. split; [reflexivity|]. by repeat split.
  - intros id t [-> ->]%Ht _. exists 21%N, approval. by split.
  - assert (Hq : ¬ active queued_restart) by by intros [?|?].
    intros id t [-> ->]%Ht _. split; [|done]. split; [cbn; lia|cbn; lia|done|]. intros _. by repeat split.
Qed.

Lemma reported_success_is_recorded_witness :
  ∃ ticket r t, @ask_broker restart_host demo_settings (mkSocket true true true) ticket idle
      = (inr r, cy_broker restart_run.2) ∧
    tasks (pl_db (cy_plane restart_run.2)) !! 20%N = Some t ∧ t_status t = Models.Succeeded ∧
    t_result t = _bounded_summary r (sha256 (evidence_content r)).
Proof.
  assert (E : restart_run = (inr (Succeeded 20), restart_run.2)).
  { rewrite (surjective_pairing restart_run) at 1. by rewrite (proj1 restart_succeeds). }
  destruct (@reported_success_is_recorded quiet restarter_files restart_host restarter_settings demo_settings
    (mkSocket true true true) (mkPace 1 false true) (mkCycle restart_plane idle) 20%N restart_run.2
    (fun _ d Hd => Hd) restart_db_safe E) as (tk & r & Hb & _ & _ & d & Hd & Hrest).
  assert (Hrow : ∃ t, (d ← head (pl_served (cy_plane restart_run.2)); tasks d !! 20%N) = Some t ∧ t_task_graph_node_id t = None)
    by (eexists; vm_compute; split; reflexivity).
  destruct Hrow as (t & Ht & Hn). rewrite Hd in Ht. destruct (Hrest t Ht Hn) as (_ & t' & H1 & H2 & H3 & _).
  exists tk, r, t'. exact (conj Hb (conj H1 (conj H2 H3))).
Defined.
