(* ===== verification/AgentTheorems.v ===== *)
(** * What registration, deployment and revocation mean for an agent

    Revoking an agent shuts it out of the agent API and nobody else; a deployment
    is what lets an agent's heartbeat through, until it is revoked for good. *)
From S2P Require Import Prelude Py Sha256 Models Store Logic Security GovernanceFacts WorkloadIdentity WorkloadTheorems.
From S2P Require Import Packages Agents Demo.

Open Scope Z_scope.

(** ** Changing many rows *)

(** rows changed one after the other, by a change that repeating does not matter for *)
Lemma lookup_alter_each {A R} (key : A → uuid) (f : R → R) (l : list A) (m : gmap uuid R) i :
  (∀ r, f (f r) = f r) →
  foldl (fun m x => alter f (key x) m) m l !! i = (if bool_decide (i ∈ key <$> l) then f else id) <$> m !! i.
Proof.
  intros Hf. revert m. induction l as [|x l IH]; intros m; cbn [foldl fmap list_fmap].
  { rewrite bool_decide_eq_false_2 by apply not_elem_of_nil. by rewrite option_fmap_id. }
  rewrite IH. destruct (decide (i = key x)) as [->|Hne].
  - rewrite lookup_alter_eq, (bool_decide_eq_true_2 (key x ∈ key x :: _)) by left.
    destruct (m !! key x) as [r|]; [|done]. cbn. by destruct (bool_decide _); cbn; rewrite ?Hf.
  - rewrite lookup_alter_ne by done.
    by rewrite (bool_decide_ext (i ∈ key x :: (key <$> l)) (i ∈ key <$> l)) by (rewrite elem_of_cons; tauto).
Qed.

Lemma run_alter_each {A R} (tbl : database → gmap uuid R) `{!Setter tbl} (key : A → uuid) (f : R → R) (l : list A) s :
  (∀ v d, tbl (set_field tbl v d) = v) → (∀ v w d, set_field tbl v (set_field tbl w d) = set_field tbl v d) →
  for_each l (fun x => alter_row tbl (key x) f) s =
    (Ok tt, match l with [] => s | _ => s <| db := set_field tbl (foldl (fun m x => alter f (key x) m) (tbl (db s)) l) (db s) |> end).
Proof.
  intros Hget Hset. revert s. induction l as [|x l IH]; intros s; [done|]. cbn [for_each].
  rewrite (run_bind _ _ s tt (s <| db := set_field tbl (alter f (key x) (tbl (db s))) (db s) |>)) by done.
  rewrite IH. destruct l as [|y l]; [done|]. cbn. by rewrite Hget, Hset.
Qed.

(** ** Revocation *)
Section revocation.
Context `{World}.

Definition unrevoked (id : uuid) (c : AgentCredential) : bool :=
  bool_decide (cr_agent_id c = id) && bool_decide (cr_revoked_at c = None).
Definition withdraw (now : datetime) (c : AgentCredential) : AgentCredential := c <| cr_revoked_at := Some now |>.
Definition disable (stamp : datetime) (a : Agent) : Agent :=
  a <| ag_is_enabled := false |> <| ag_status := "revoked" |> <| ag_updated_at := stamp |>.

(** what the revocation of an agent leaves behind *)
Record shut_out (id : uuid) (now : datetime) (d d1 : database) : Prop := {
  so_row : is_Some (agents d !! id);
  so_agents : ∃ stamp, agents d1 = alter (disable stamp) id (agents d);
  so_credentials : ∀ i, credentials d1 !! i =
    (fun c => if unrevoked id c then withdraw now c else c) <$> credentials d !! i;
  so_rest : (identities d1, identity_control d1, charters d1, packages d1, deployments d1, grants d1, emergency_grants d1) =
    (identities d, identity_control d, charters d, packages d, deployments d, grants d, emergency_grants d) }.

Lemma live_keys id d i c :
  map_Forall (fun i c => cr_id c = i) (credentials d) → credentials d !! i = Some c →
  i ∈ (cr_id <$> List.filter (unrevoked id) (table_rows (credentials d))) ↔ unrevoked id c = true.
Proof.
  intros Hkey Hc. pose proof (Hkey _ _ Hc) as Hi. cbv beta in Hi. rewrite list_elem_of_fmap. split.
  - intros (c' & E & (j & Hrow & Hl)%row_in). pose proof (Hkey _ _ Hrow) as Hj. cbv beta in Hj. congruence.
  - intros Hl. exists c. split; [congruence|]. apply row_in. by exists i.
Qed.

Lemma revoke_agent_shuts_out id d n d1 :
  map_Forall (fun i c => cr_id c = i) (credentials d) →
  request (revoke_agent id) d = (Ok n, d1) → shut_out id (w_now 0) d d1.
Proof.
  intros Hkey E. unfold request in E. destruct (revoke_agent id _) as [r s'] eqn:Hrun. injection E as -> <-.
  unfold revoke_agent, with_agent in Hrun. run_ok Hrun. injection E as <- <-. cbn [db open_session] in Hrun.
  destruct (agents d !! id) as [a|] eqn:Ha; [|discriminate]. run_ok Hrun. injection E as <- <-.
  run_ok Hrun. unfold revoke_active_credentials in E. run_ok E. injection E0 as <- <-.
  run_ok E. match type of E0 with for_each ?l _ ?s0 = _ =>
    pose proof (run_alter_each credentials cr_id (withdraw (w_now 0)) l s0 ltac:(done) ltac:(done)) as Hr end.
  apply (eq_trans (eq_sym Hr)) in E0. clear Hr. set (live := List.filter _ _) in E0. injection E0 as <- <-.
  injection E as <- <-. run_ok Hrun. injection E as <- <-. run_ok Hrun. injection E as <- <-. injection Hrun as <- <-.
  assert (Hcr : ∀ i, foldl (fun m x => alter (withdraw (w_now 0)) (cr_id x) m) (credentials d) live !! i =
    (fun c => if unrevoked id c then withdraw (w_now 0) c else c) <$> credentials d !! i).
  { intros i. rewrite lookup_alter_each by done. destruct (credentials d !! i) as [c|] eqn:Hc; [|done]. cbn.
    destruct (live_keys id d i c Hkey Hc) as [Hl1 Hl2]. destruct (unrevoked id c).
    - by rewrite bool_decide_eq_true_2 by exact (Hl2 eq_refl).
    - rewrite bool_decide_eq_false_2; [done|]. intros Hin. discriminate (Hl1 Hin). }
  destruct live as [|x live]; (constructor; [by eexists|by exists w_server_now|exact Hcr|done]).
Qed.

Lemma shut_out_presents id now0 d d1 token now c :
  shut_out id now0 d d1 → presents d1 token now c ↔ presents d token now c ∧ cr_agent_id c ≠ id.
Proof.
  intros [_ _ Hrows _]. assert (Hrow : cr_revoked_at c = None →
    credentials d1 !! cr_id c = Some c ↔ credentials d !! cr_id c = Some c ∧ cr_agent_id c ≠ id).
  { intros Hlive. rewrite Hrows. unfold unrevoked. destruct (credentials d !! cr_id c) as [c'|]; cbn; [|by split; [|intros []]].
    destruct (bool_decide_reflect (cr_agent_id c' = id)), (bool_decide_reflect (cr_revoked_at c' = None)); cbn;
      (split; [intros [= <-]; try done; congruence|intros [[= <-] ?]; congruence]). }
  split.
  - intros [H1 H2 H3 H4 H5 H6]. apply (Hrow H4) in H1 as [H1 Hne]. split; [by constructor|done].
  - intros [[H1 H2 H3 H4 H5 H6] Hne]. constructor; try done. apply (Hrow H4). by split.
Qed.

Lemma shut_out_scoped id now0 d d1 agent c method path now i :
  shut_out id now0 d d1 → scoped d1 agent c method path now i ↔ scoped d agent c method path now i.
Proof.
  intros [_ _ _ [= Hi _ Hc Hp Hd Hg He]].
  split; intros [H1 H2 H3 H4 H5]; constructor; try done;
    first [rewrite <- ?Hi, <- ?Hc, <- ?Hp, <- ?Hd, <- ?Hg, <- ?He; assumption
          |rewrite ?Hi, ?Hc, ?Hp, ?Hd, ?Hg, ?He; assumption].
Qed.

Lemma shut_out_admitted id now0 d d1 method path bearer now agent c :
  shut_out id now0 d d1 →
  admitted d1 method path bearer now agent c ↔ admitted d method path bearer now agent c ∧ cr_agent_id c ≠ id.
Proof.
  intros Hout. assert (Henf : enforced d1 ↔ enforced d).
  { destruct Hout as [_ _ _ [= _ Hw _ _ _ _ _]]. unfold enforced. by rewrite Hw. }
  assert (Hag : cr_agent_id c ≠ id → agents d1 !! cr_agent_id c = agents d !! cr_agent_id c).
  { intros Hne. destruct (so_agents _ _ _ _ Hout) as [stamp ->]. by rewrite lookup_alter_ne. }
  unfold admitted. split.
  - intros ((token & -> & Hp) & Ha & Hen & Hs). apply (shut_out_presents _ _ _ _ _ _ _ Hout) in Hp as [Hp Hne].
    split; [|exact Hne]. split; [by exists token|]. rewrite <- (Hag Hne). split; [done|]. split; [done|].
    intros He%Henf. destruct (Hs He) as [i Hi]. exists i. by apply (shut_out_scoped _ _ _ _ _ _ _ _ _ _ Hout).
  - intros (((token & -> & Hp) & Ha & Hen & Hs) & Hne). split; [exists token; split; [done|]|].
    { by apply (shut_out_presents _ _ _ _ _ _ _ Hout). }
    rewrite (Hag Hne). split; [done|]. split; [done|].
    intros He%Henf. destruct (Hs He) as [i Hi]. exists i. by apply (shut_out_scoped _ _ _ _ _ _ _ _ _ _ Hout).
Qed.
End revocation.

(** C29. Revoking an agent takes effect at once, completely and on nobody else: every
    live credential of the agent is revoked and its row disabled, and afterwards a
    request to the agent API is let through, at any time, on any route and with any
    bearer token, exactly when it would have been before and its credential belongs
    to another agent. *)
Theorem revoked_agent_is_locked_out (W1 W2 : World) id d n d1 :
  credentials_ok d → request (@revoke_agent W1 id) d = (Ok n, d1) →
  (∀ i c, credentials d1 !! i = Some c → cr_agent_id c = id → cr_revoked_at c ≠ None) ∧
  (∃ a, agents d1 !! id = Some a ∧ ag_is_enabled a = false) ∧
  ∀ method path bearer now a c,
    @admitted W2 d1 method path bearer now a c ↔ @admitted W2 d method path bearer now a c ∧ cr_agent_id c ≠ id.
Proof.
  intros [Hkey _] E. apply revoke_agent_shuts_out in E; [|exact Hkey]. split; [|split].
  - intros i c Hc Ha. rewrite (so_credentials _ _ _ _ E) in Hc. destruct (credentials d !! i) as [c'|]; [|done].
    injection Hc as <-. unfold unrevoked in *. revert Ha.
    destruct (bool_decide_reflect (cr_agent_id c' = id)), (bool_decide_reflect (cr_revoked_at c' = None)); cbn; congruence.
  - destruct (so_row _ _ _ _ E) as [a Ha], (so_agents _ _ _ _ E) as [stamp Hag].
    exists (disable stamp a). by rewrite Hag, lookup_alter_eq, Ha.
  - intros. by apply (@shut_out_admitted W2 id (@w_now W1 0) d d1).
Qed.

(** ** Deployments *)
Section deployment.
Context `{World}.

(** the heartbeat says that it comes from package [p] *)
Definition claims_package (h : AgentHeartbeat) (p : RolePackage) : Prop :=
  Json.get "role_package_digest" (ahb_metadata h) = Some (JStr (pk_manifest_digest p)) ∧
  Json.get "role_package" (ahb_metadata h) = Some (JStr (pk_name p)) ∧
  Json.get "role_package_version" (ahb_metadata h) = Some (JStr (pk_version p)).

(** an active deployment of a package with the digest, name and version of [p] *)
Definition deployed_to (d : database) (agent_id : uuid) (p : RolePackage) : Prop :=
  ∃ i q j x, packages d !! i = Some q ∧ deployments d !! j = Some x ∧ pd_package_id x = pk_id q ∧
    pd_agent_id x = agent_id ∧ pd_is_active x = true ∧ pk_manifest_digest q = pk_manifest_digest p ∧
    pk_name q = pk_name p ∧ pk_version q = pk_version p.

Lemma attestation_spec agent h p s :
  claims_package h p → decides (verify_agent_package_attestation agent h) (deployed_to (db s) (ag_id agent) p) s.
Proof.
  intros (H1 & H2 & H3). unfold verify_agent_package_attestation. rewrite H1, H2, H3. cbn [mbind option_bind Json.as_str].
  apply decides_gets. cbv beta. destruct (List.find _ _) as [q|] eqn:E.
  - apply find_some in E as [Hin Hatt]. apply decides_ok. apply list_elem_of_In, list_elem_of_fmap in Hin as ([i q'] & -> & Hq).
    apply elem_of_map_to_list in Hq. cbn [snd] in *. unfold attested in Hatt. rewrite !andb_true_iff, !str_eqb_spec in Hatt.
    destruct Hatt as (((Hx & Hd) & Hn) & Hv). apply existsb_exists in Hx as (x & Hx & Hax).
    apply list_elem_of_In, list_elem_of_fmap in Hx as ([j x'] & -> & Hj). apply elem_of_map_to_list in Hj. cbn [snd] in *.
    rewrite !andb_true_iff, !bool_decide_eq_true in Hax. exists i, q', j, x'. naive_solver.
  - apply decides_http. intros (i & q & j & x & Hq & Hx & H4 & H5 & H6 & H7 & H8 & H9).
    assert (Hin : q ∈ table_rows (packages (db s))) by (apply list_elem_of_fmap; exists (i, q); by rewrite elem_of_map_to_list).
    pose proof (find_none _ _ E q (proj1 (list_elem_of_In _ _) Hin)) as Hno. apply not_true_iff_false in Hno. apply Hno.
    unfold attested. rewrite !andb_true_iff, !str_eqb_spec, existsb_exists. split_and!; try done.
    exists x. split; [apply list_elem_of_In, list_elem_of_fmap; exists (j, x); by rewrite elem_of_map_to_list|].
    by rewrite !andb_true_iff, !bool_decide_eq_true.
Qed.

Lemma catch_integrity_Ok {A} (m : Sess A) detail s a s' :
  catch_integrity m detail s = (Ok a, s') → m s = (Ok a, s').
Proof.
  unfold catch_integrity. destruct (m s) as [[b|[c e|c e]] s1]; [done..|]. by destruct (String.eqb c "IntegrityError").
Qed.

(** what a deployment leaves behind *)
Record deployed (p : PackageDeploymentCreate) (id : uuid) (d d1 : database) : Prop := {
  de_allowed : ∃ a pk, agents d !! pdc_agent_id p = Some a ∧ packages d !! pdc_package_id p = Some pk ∧
    ag_machine a ∈ pm_allowed_machines (pk_manifest pk) ∧ ag_risk_ceiling a <= pm_risk_ceiling (pk_manifest pk) ∧
    ∀ capability, capability ∈ pm_required_capabilities (pk_manifest pk) → capability ∈ ag_capabilities a;
  de_first : ∀ j x, deployments d !! j = Some x → ¬ (pd_agent_id x = pdc_agent_id p ∧ pd_package_id x = pdc_package_id p);
  de_packages : packages d1 = packages d;
  de_agents : agents d1 = agents d;
  de_row : ∃ by_ at_, deployments d1 =
    <[id := mkPackageDeployment id (pdc_agent_id p) (pdc_package_id p) true by_ at_ None]> (deployments d) }.

Lemma deployable_ok a m s s' : deployable a m s = (Ok tt, s') →
  s' = s ∧ ag_machine a ∈ pm_allowed_machines m ∧ ag_risk_ceiling a <= pm_risk_ceiling m ∧
  ∀ capability, capability ∈ pm_required_capabilities m → capability ∈ ag_capabilities a.
Proof.
  unfold deployable. destruct (str_in _ _) eqn:H1; [|done]. destruct (Z.ltb_spec (pm_risk_ceiling m) (ag_risk_ceiling a)); [done|].
  destruct (str_subset _ _) eqn:H2; [|done]. intros [= <-]. split; [done|]. split; [by apply str_in_spec|]. split; [done|].
  intros c Hc. unfold str_subset in H2. rewrite forallb_forall in H2. by apply str_in_spec, H2, list_elem_of_In.
Qed.

Lemma deploy_package_ok p d id d1 : request (deploy_package p) d = (Ok id, d1) → deployed p id d d1.
Proof.
  unfold request. destruct (deploy_package p _) as [r s'] eqn:E. intros [= -> <-].
  unfold deploy_package in E. destruct (negb _); [discriminate|]. run_ok E. injection E0 as <- <-. run_ok E. injection E0 as <- <-.
  cbn [db open_session] in E. destruct (agents d !! _) as [a|] eqn:Ha; [|done]. destruct (packages d !! _) as [pk|] eqn:Hp; [|done].
  run_ok E. destruct a0. apply deployable_ok in E0 as (-> & Hm & Hr & Hc). run_ok E. injection E0 as <- <-.
  apply catch_integrity_Ok in E. cbv zeta in E. run_ok E. unfold select_one in E0. injection E0 as Hclash <-.
  destruct a0; [discriminate|]. run_ok E. unfold insert_row in E0. run_ok E0. injection E1 as <- <-.
  cbn in E0. destruct (deployments d !! _) eqn:Hfree; [discriminate|]. injection E0 as <- <-.
  run_ok E. injection E0 as <- <-. injection E as <- <-.
  constructor; [by exists a, pk| |done|done|by eexists _, _].
  intros j x Hx [H1 H2]. pose proof (select_one_None deployments _ d Hclash j x Hx) as Hno. cbv beta in Hno.
  by rewrite !bool_decide_eq_true_2 in Hno.
Qed.

Lemma revoke_deployment_ok id d x d1 :
  deployments d !! id = Some x → pd_is_active x = true → request (revoke_deployment id) d = (Ok tt, d1) →
  packages d1 = packages d ∧ agents d1 = agents d ∧
  ∃ now, deployments d1 = alter (fun x => x <| pd_is_active := false |> <| pd_revoked_at := Some now |>) id (deployments d).
Proof.
  intros Hx Hact. unfold request. destruct (revoke_deployment id _) as [r s'] eqn:E. intros [= -> <-].
  unfold revoke_deployment in E. run_ok E. injection E0 as <- <-. cbn [db open_session] in E. rewrite Hx, Hact in E.
  run_ok E. injection E0 as <- <-. run_ok E. injection E0 as <- <-. injection E as <-. by split_and!; try done; eexists.
Qed.

(** a second deployment of the pair is refused, whatever became of the first *)
Lemma deployed_again p d j x :
  deployments d !! j = Some x → pd_agent_id x = pdc_agent_id p → pd_package_id x = pdc_package_id p →
  ∃ e, request (deploy_package p) d = (Err e, d).
Proof.
  intros Hx H1 H2. assert (Hclash : ∃ y, head (List.filter (fun x => bool_decide (pd_agent_id x = pdc_agent_id p) &&
    bool_decide (pd_package_id x = pdc_package_id p)) (table_rows (deployments d))) = Some y).
  { destruct (head _) as [y|] eqn:Hnone; [by exists y|]. exfalso. pose proof (select_one_None deployments _ d Hnone j x Hx) as Hno.
    cbv beta in Hno. by rewrite !bool_decide_eq_true_2 in Hno. }
  destruct Hclash as [y Hy].
  assert (Hwp : wp (fun d' => d' = d) (deploy_package p) (fun _ _ => False) (open_session d)).
  { unfold deploy_package. apply wp_if; intros _; [by apply wp_raise|]. apply wp_bind, wp_get_row, wp_bind, wp_get_row.
    destruct (agents _ !! _) as [a|]; [|by apply wp_raise]. destruct (packages _ !! _) as [pk|]; [|by apply wp_raise].
    apply wp_bind, (wp_frame deployments); [unfold deployable, http; frame|done|]. intros [] s' Hs' Hd'.
    apply wp_bind, (wp_frame deployments); [frame|by rewrite Hs'|]. intros id s2 Hs2 Hd2. apply wp_catch_integrity. cbv zeta.
    apply wp_bind, wp_gets. rewrite Hd2, Hd'. cbn [db open_session]. rewrite Hy. apply wp_raise. by rewrite Hs2, Hs'. }
  unfold wp in Hwp. unfold request. destruct (deploy_package p _) as [[id|e] s']; [done|]. exists e. by rewrite Hwp.
Qed.
End deployment.

(** C30. A deployment is what lets an agent's heartbeat through, once. Deploying a
    package to an agent needs the machine, the risk ceiling and the capabilities of
    the agent to fit and no earlier deployment of the pair; from then on heartbeats
    of that agent that name the package are attested. When the deployment is revoked
    and no other package has the digest, they are refused, and every later attempt
    to deploy the package to the agent fails and changes nothing. *)
Theorem deployment_gates_heartbeats (W : World) p d id d1 :
  map_Forall (fun i a => ag_id a = i) (agents d) → map_Forall (fun i q => pk_id q = i) (packages d) →
  request (@deploy_package W p) d = (Ok id, d1) →
  ∃ a pk, agents d !! pdc_agent_id p = Some a ∧ packages d !! pdc_package_id p = Some pk ∧
    (ag_machine a ∈ pm_allowed_machines (pk_manifest pk) ∧ ag_risk_ceiling a <= pm_risk_ceiling (pk_manifest pk) ∧
     ∀ capability, capability ∈ pm_required_capabilities (pk_manifest pk) → capability ∈ ag_capabilities a) ∧
    (∀ h, claims_package h pk → request (verify_agent_package_attestation a h) d1 = (Ok tt, d1)) ∧
    ∀ d2, request (@revoke_deployment W id) d1 = (Ok tt, d2) →
      (∀ i q, packages d !! i = Some q → pk_manifest_digest q = pk_manifest_digest pk → i = pdc_package_id p) →
      (∀ h, claims_package h pk → ∃ e, request (verify_agent_package_attestation a h) d2 = (Err e, d2)) ∧
      ∀ p', pdc_agent_id p' = pdc_agent_id p → pdc_package_id p' = pdc_package_id p →
        ∃ e, request (@deploy_package W p') d2 = (Err e, d2).
Proof.
  intros Hka Hkp E. destruct (deploy_package_ok _ _ _ _ E) as [(a & pk & Ha & Hp & Hall) Hfirst Hpk Hag (by_ & at_ & Hrow)].
  set (x := mkPackageDeployment id (pdc_agent_id p) (pdc_package_id p) true by_ at_ None) in *.
  pose proof (Hka _ _ Ha) as Ea. pose proof (Hkp _ _ Hp) as Ep. cbv beta in Ea, Ep.
  assert (Hx : deployments d1 !! id = Some x) by by rewrite Hrow, lookup_insert_eq.
  exists a, pk. split; [exact Ha|]. split; [exact Hp|]. split; [exact Hall|]. split.
  - intros h Hh. destruct (attestation_spec a h pk (open_session d1) Hh) as (r & Hr & [_ Hok]).
    destruct Hok as [[] ->]; [|by unfold request; rewrite Hr].
    exists (pdc_package_id p), pk, id, x. cbn [db open_session]. by rewrite Hpk.
  - intros d2 Hrev Honly. destruct (revoke_deployment_ok id d1 x d2 Hx eq_refl Hrev) as (Hpk2 & _ & now & Hrow2).
    assert (Hx2 : ∀ j y, deployments d2 !! j = Some y → pd_agent_id y = pdc_agent_id p → pd_package_id y = pdc_package_id p →
      pd_is_active y = false).
    { intros j y Hy H1 H2. rewrite Hrow2 in Hy. destruct (decide (j = id)) as [->|Hne].
      - rewrite lookup_alter_eq, Hx in Hy. by injection Hy as <-.
      - rewrite lookup_alter_ne, Hrow, lookup_insert_ne in Hy by done. by destruct (Hfirst j y Hy). }
    split.
    + intros h Hh. destruct (attestation_spec a h pk (open_session d2) Hh) as (r & Hr & [Hok _]).
      destruct r as [[]|e]; [|exists e; by unfold request; rewrite Hr]. exfalso.
      destruct Hok as (i & q & j & y & Hq & Hy & H1 & H2 & H3 & H4 & _); [by eexists|]. cbn [db open_session] in *.
      rewrite Hpk2, Hpk in Hq. pose proof (Honly i q Hq H4) as ->. rewrite (Hx2 j y Hy) in H3; [done|congruence|].
      pose proof (Hkp _ _ Hq) as Eq. cbv beta in Eq. congruence.
    + intros p' H1 H2. eapply (deployed_again p' d2 id (x <| pd_is_active := false |> <| pd_revoked_at := Some now |>)).
      * by rewrite Hrow2, lookup_alter_eq, Hx.
      * by rewrite H1.
      * by rewrite H2.
Qed.

(** ** On the small control plane *)
Lemma revoked_agent_is_locked_out_witness :
  ∃ n d1, request (@revoke_agent (at_time 2) 1) guarded_db = (Ok n, d1) ∧
    ∀ method path now a c, ¬ @admitted (at_time 3) d1 method path (Some guard_token) now a c.
Proof.
  assert (E : ∃ n d1, request (@revoke_agent (at_time 2) 1) guarded_db = (Ok n, d1)) by (eexists _, _; vm_compute; reflexivity).
  destruct E as (n & d1 & E). exists n, d1. split; [exact E|]. intros method path now a c Hc.
  destruct (revoked_agent_is_locked_out (at_time 2) (at_time 3) 1%N guarded_db n d1 guarded_ok E) as (_ & _ & Hiff).
  destruct (proj1 (Hiff method path (Some guard_token) now a c) Hc) as [[(t & _ & [Hrow _ _ _ _ _]) _] Hne].
  apply guarded_credential in Hrow as [_ ->]. exact (Hne eq_refl).
Defined.

Definition undeployed_db : database := demo_db <| deployments := ∅ |>.
Definition worker_deploy : PackageDeploymentCreate := mkPackageDeploymentCreate 1 3 "founder".
Definition demo_heartbeat : AgentHeartbeat :=
  mkAgentHeartbeat "idle" "hermes" None None
    [("role_package", JStr "engineer"); ("role_package_version", JStr "1.0.0"); ("role_package_digest", JStr "package-digest")].

Lemma undeployed_agents i a : agents undeployed_db !! i = Some a → i = 1%N ∧ a = worker.
Proof.
  change (agents undeployed_db) with ({[ 1%N := worker ]} : gmap uuid Agent). by intros [<- <-]%lookup_singleton_Some.
Qed.
Lemma undeployed_packages i q : packages undeployed_db !! i = Some q → i = 3%N ∧ q = worker_package.
Proof.
  change (packages undeployed_db) with ({[ 3%N := worker_package ]} : gmap uuid RolePackage).
  by intros [<- <-]%lookup_singleton_Some.
Qed.

Lemma deployment_gates_heartbeats_witness :
  ∃ d1 d2 e, request (@deploy_package (at_time 1) worker_deploy) undeployed_db = (Ok 10%N, d1) ∧
    request (verify_agent_package_attestation worker demo_heartbeat) d1 = (Ok tt, d1) ∧
    request (@revoke_deployment (at_time 1) 10) d1 = (Ok tt, d2) ∧
    request (@deploy_package (at_time 1) worker_deploy) d2 = (Err e, d2).
Proof.
  assert (E : ∃ d1 d2, request (@deploy_package (at_time 1) worker_deploy) undeployed_db = (Ok 10%N, d1) ∧
    request (@revoke_deployment (at_time 1) 10) d1 = (Ok tt, d2)).
  { eexists _, _. split; [vm_compute; reflexivity|]. vm_compute. reflexivity. }
  destruct E as (d1 & d2 & E1 & E2).
  assert (Hka : map_Forall (fun i a => ag_id a = i) (agents undeployed_db)) by by intros i a [-> ->]%undeployed_agents.
  assert (Hkp : map_Forall (fun i q => pk_id q = i) (packages undeployed_db)) by by intros i q [-> ->]%undeployed_packages.
  destruct (deployment_gates_heartbeats (at_time 1) worker_deploy undeployed_db 10%N d1 Hka Hkp E1)
    as (a & pk & Ha & Hp & _ & Hok & Hrev).
  apply undeployed_agents in Ha as [_ ->]. apply undeployed_packages in Hp as [_ ->].
  destruct (Hrev d2 E2) as [_ Hagain]; [by intros i q [-> _]%undeployed_packages|].
  destruct (Hagain worker_deploy eq_refl eq_refl) as [e He]. exists d1, d2, e.
  split; [exact E1|]. split; [|split; [exact E2|exact He]]. apply Hok. by repeat split.
Defined.
