(* ===== verification/Lifecycles.v ===== *)
(** * Institutional lifecycles

    [services/institutional_lifecycle.py], [services/lifecycle_consequence.py] and
    [services/candidate_lifecycle_gate.py] with their routes and schemas: the four
    state machines (research, evidence, operations, capital) of a governed subject,
    their hash-chained events, and the reversible consequences applied to them. *)
From S2P Require Import Prelude Py Sha256 Models Store Logic Authority.
From Stdlib Require Import Ascii.

Open Scope Z_scope.

(** ** The tables of the state machines *)

(** [d.get(k)] on a constant dictionary *)
Definition dict_get {A} (k : string) (l : list (string * A)) : option A :=
  snd <$> List.find (fun entry => String.eqb entry.1 k) l.

(** the same with a pair as the key *)
Definition dict_get2 {A} (a b : string) (l : list (string * string * A)) : option A :=
  snd <$> List.find (fun entry => String.eqb entry.1.1 a && String.eqb entry.1.2 b) l.

Definition INITIAL_STATES : list (string * string) :=
  [("research", "proposed"); ("evidence", "unassessed"); ("operations", "not-considered");
   ("capital", "no-authority")].

Definition TRANSITIONS : list (string * list (string * string * string)) :=
  [("research",
    [(("proposed", "register"), "registered");
     (("registered", "start"), "running");
     (("running", "succeed"), "succeeded");
     (("running", "fail"), "failed");
     (("proposed", "reject"), "rejected");
     (("registered", "reject"), "rejected")]);
   ("evidence",
    [(("unassessed", "admit"), "admissible");
     (("unassessed", "dispute"), "disputed");
     (("unassessed", "invalidate"), "invalid");
     (("disputed", "admit"), "admissible");
     (("disputed", "invalidate"), "invalid");
     (("admissible", "retract"), "retracted");
     (("admissible", "retire"), "retired")]);
   ("operations",
    [(("not-considered", "nominate"), "candidate");
     (("candidate", "approve"), "approved");
     (("approved", "start-shadow"), "shadow");
     (("shadow", "start-demo"), "demo");
     (("demo", "start-live"), "live");
     (("candidate", "reject"), "rejected");
     (("approved", "revoke"), "revoked");
     (("shadow", "suspend"), "suspended");
     (("demo", "suspend"), "suspended");
     (("live", "suspend"), "suspended");
     (("suspended", "retire"), "retired")]);
   ("capital",
    [(("no-authority", "qualify"), "eligible");
     (("eligible", "allocate"), "allocated");
     (("allocated", "reduce"), "reduced");
     (("allocated", "halt"), "revoked");
     (("reduced", "halt"), "revoked");
     (("eligible", "revoke"), "revoked")])].

Definition AUTHORITY_ACTIONS : list (string * (string * string)) :=
  [("research", ("experiment-execution", "authorize"));
   ("evidence", ("evidence-admissibility", "admit"));
   ("operations", ("production-eligibility", "approve"));
   ("capital", ("capital-allocation", "allocate"))].

Definition COMMAND_AUTHORITY_ACTIONS : list (string * string * (string * string)) :=
  [(("research", "fail"), ("experiment-execution", "halt"));
   (("research", "reject"), ("research-program-charter", "reject"));
   (("evidence", "dispute"), ("evidence-admissibility", "quarantine"));
   (("evidence", "invalidate"), ("evidence-admissibility", "reject"));
   (("evidence", "retract"), ("evidence-admissibility", "reject"));
   (("evidence", "retire"), ("evidence-admissibility", "reject"));
   (("operations", "reject"), ("production-eligibility", "revoke"));
   (("operations", "revoke"), ("production-eligibility", "revoke"));
   (("operations", "suspend"), ("production-eligibility", "revoke"));
   (("operations", "retire"), ("production-eligibility", "revoke"));
   (("capital", "reduce"), ("capital-allocation", "reduce"));
   (("capital", "halt"), ("capital-allocation", "halt"));
   (("capital", "revoke"), ("capital-allocation", "halt"))].

Definition CONSEQUENCE_STATES : list (string * list (string * string * string)) :=
  [("research",
    [(("proposed", "quarantine"), "rejected");
     (("registered", "quarantine"), "rejected");
     (("running", "quarantine"), "failed");
     (("succeeded", "retire"), "retired");
     (("failed", "retire"), "retired");
     (("rejected", "retire"), "retired");
     (("rejected", "reinstate"), "proposed");
     (("retired", "reinstate"), "proposed")]);
   ("evidence",
    [(("unassessed", "quarantine"), "disputed");
     (("admissible", "quarantine"), "disputed");
     (("admissible", "retire"), "retired");
     (("disputed", "retire"), "retired");
     (("retracted", "retire"), "retired");
     (("disputed", "reinstate"), "admissible");
     (("retracted", "reinstate"), "admissible");
     (("retired", "reinstate"), "admissible")]);
   ("operations",
    [(("candidate", "promote"), "approved");
     (("approved", "promote"), "shadow");
     (("shadow", "promote"), "demo");
     (("demo", "promote"), "live");
     (("live", "demote"), "demo");
     (("demo", "demote"), "shadow");
     (("shadow", "demote"), "approved");
     (("approved", "demote"), "candidate");
     (("candidate", "quarantine"), "suspended");
     (("approved", "quarantine"), "suspended");
     (("shadow", "quarantine"), "suspended");
     (("demo", "quarantine"), "suspended");
     (("live", "quarantine"), "suspended");
     (("suspended", "retire"), "retired");
     (("candidate", "retire"), "retired");
     (("approved", "retire"), "retired");
     (("shadow", "retire"), "retired");
     (("demo", "retire"), "retired");
     (("live", "retire"), "retired");
     (("suspended", "reinstate"), "candidate");
     (("retired", "reinstate"), "candidate");
     (("revoked", "reinstate"), "candidate")]);
   ("capital",
    [(("allocated", "demote"), "reduced");
     (("eligible", "quarantine"), "revoked");
     (("allocated", "quarantine"), "revoked");
     (("reduced", "retire"), "revoked");
     (("eligible", "retire"), "revoked");
     (("allocated", "retire"), "revoked");
     (("reduced", "reinstate"), "eligible");
     (("revoked", "reinstate"), "eligible")])].

Definition AUTHORITY : list (string * (string * string)) :=
  [("research", ("research-program-charter", "approve"));
   ("evidence", ("evidence-admissibility", "quarantine"));
   ("operations", ("candidate-maturity", "promote"));
   ("capital", ("capital-allocation", "allocate"))].

(** [d[k]] *)
Definition item_of {A} (k : string) (o : option A) : outcome A :=
  match o with Some a => Ok a | None => Err (PyException "KeyError" k) end.

Definition conflict_409 {A} (detail : string) : outcome A := Err (HTTPException 409 (JStr detail)).

Definition next_state (dimension state command : string) : outcome string :=
  table ← item_of dimension (dict_get dimension TRANSITIONS);
  match dict_get2 state command table with
  | Some resulting_state => Ok resulting_state
  | None => Err (HTTPException 409 (JObj
      [("reason", JStr "invalid-transition"); ("dimension", JStr dimension); ("state", JStr state);
       ("command", JStr command)]))
  end.

Definition consequence_state (dimension state action : string) : outcome string :=
  match dict_get2 state action (default [] (dict_get dimension CONSEQUENCE_STATES)) with
  | Some result => Ok result
  | None => Err (HTTPException 409 (JObj
      [("reason", JStr "invalid-consequence"); ("dimension", JStr dimension); ("state", JStr state);
       ("action", JStr action)]))
  end.

Definition validate_expected_version (current_version expected_version : Z) : outcome unit :=
  if current_version =? expected_version then Ok tt
  else Err (HTTPException 409 (JObj
    [("reason", JStr "stale-version"); ("current_version", JInt current_version)])).

(** [states[a] != x or states[b] != y] *)
Definition either_differs (states : gmap string string) (a x b y : string) : outcome bool :=
  s ← item_of a (states !! a);
  if negb (str_eqb s x) then Ok true
  else t ← item_of b (states !! b); Ok (negb (str_eqb t y)).

Definition validate_cross_dimension_guard (dimension command : string) (states : gmap string string)
    : outcome unit :=
  operations ←
    (if str_eqb dimension "operations" &&
        str_in command ["nominate"; "approve"; "start-shadow"; "start-demo"; "start-live"]
     then either_differs states "research" "succeeded" "evidence" "admissible" else Ok false);
  if operations : bool then
    conflict_409 "Operations progression requires succeeded research and admissible evidence."
  else
    capital ←
      (if str_eqb dimension "capital" && str_in command ["qualify"; "allocate"]
       then either_differs states "operations" "live" "evidence" "admissible" else Ok false);
    if capital : bool then
      conflict_409 "Capital progression requires live operations and admissible evidence."
    else Ok tt.

Definition _authority_for (dimension action : string) : outcome (string * string) :=
  if str_eqb dimension "operations" && str_eqb action "quarantine" then
    Ok ("emergency-containment", "quarantine")
  else
    '(decision_type, positive) ← item_of dimension (dict_get dimension AUTHORITY);
    if str_in action ["demote"; "quarantine"; "retire"] then
      negative ← item_of dimension (dict_get dimension
        [("research", "reject"); ("evidence", "quarantine");
         ("operations", if str_eqb action "retire" then "retire" else "demote"); ("capital", "reduce")]);
      Ok (decision_type, negative)
    else if str_eqb dimension "evidence" then Ok (decision_type, "admit")
    else Ok (decision_type, positive).

(** ** What pydantic checks on the requests *)

Definition chars_between (low high : nat) (s : string) : bool :=
  ((low <=? String.length s) && (String.length s <=? high))%nat.

(** [^[a-z][a-z0-9-]{1,79}$] *)
Definition slug (s : string) : bool :=
  chars_between 2 80 s &&
  match Str.chars s with
  | c :: l => Str.is_lower c && forallb (fun c => Str.is_lower_alnum c || Ascii.eqb c "-"%char) l
  | [] => false
  end.

(** [^[A-Za-z0-9][A-Za-z0-9._:-]{0,199}$] *)
Definition subject_name (s : string) : bool :=
  chars_between 1 200 s &&
  match Str.chars s with
  | c :: l => Str.is_alnum c && forallb (fun c => Str.is_alnum c || existsb (Ascii.eqb c) ["."%char; "_"%char; ":"%char; "-"%char]) l
  | [] => false
  end.

Definition LifecycleDimension : list string := ["research"; "evidence"; "operations"; "capital"].
Definition ConsequenceAction : list string := ["promote"; "demote"; "quarantine"; "retire"; "reinstate"].

Definition valid_subject (p : LifecycleSubjectCreate) : bool :=
  slug (lsc_subject_type p) && subject_name (lsc_subject_id p) && Str.hex_between 64 64 (lsc_subject_digest p).

Definition valid_transition (p : InstitutionalTransitionCreate) : bool :=
  chars_between 2 150 (itc_actor p) && str_in (itc_dimension p) LifecycleDimension &&
  slug (itc_command p) && (0 <=? itc_expected_version p) && Str.hex_between 64 64 (itc_subject_digest p) &&
  (length (itc_evidence p) <=? 100)%nat && chars_between 10 2000 (itc_reason p) &&
  within 0 3 (itc_risk_level p) && (String.length (itc_environment p) <=? 80)%nat.

Definition named (o : option string) : option string :=
  match o with Some s => if Str.nonempty s then Some s else None | None => None end.

(** [bounded_and_independent], at the time [now] of the validation *)
Definition bounded_and_independent (now : datetime) (p : ConsequenceCreate) : bool :=
  (aw_instant (cqc_evidence_epoch p) <=? now + seconds 30) &&
  (now - days 7 <=? aw_instant (cqc_evidence_epoch p)) &&
  (now <? aw_instant (cqc_expires_at p)) && (aw_instant (cqc_expires_at p) <=? now + days 30) &&
  bool_decide (NoDup (cqc_approvers p)) && str_in (cqc_actor p) (cqc_approvers p) &&
  (negb (str_in (cqc_action p) ["promote"; "reinstate"]) ||
   (2 <=? length (cqc_approvers p))%nat &&
   match named (cqc_originator p), named (cqc_evaluator p) with
   | Some o, Some e => negb (str_in o (cqc_approvers p)) && str_in e (cqc_approvers p)
   | _, _ => false
   end).

Definition valid_consequence (now : datetime) (p : ConsequenceCreate) : bool :=
  chars_between 2 150 (cqc_actor p) && str_in (cqc_action p) ConsequenceAction &&
  str_in (cqc_dimension p) LifecycleDimension && (0 <=? cqc_expected_version p) &&
  Str.hex_between 64 64 (cqc_subject_digest p) &&
  ((1 <=? length (cqc_evidence p)) && (length (cqc_evidence p) <=? 100))%nat &&
  forallb (Str.hex_between 64 64) (cqc_evidence p) &&
  ((1 <=? length (cqc_approvers p)) && (length (cqc_approvers p) <=? 20))%nat &&
  (length (cqc_affected_descendants p) <=? 500)%nat && chars_between 20 2000 (cqc_reason p) &&
  within 0 3 (cqc_risk_level p) && (String.length (cqc_environment p) <=? 80)%nat &&
  bounded_and_independent now p.

Definition valid_reversal (p : ConsequenceReverse) : bool :=
  chars_between 2 150 (cqr_actor p) && (0 <=? cqr_expected_version p) &&
  chars_between 20 2000 (cqr_reason p) && within 0 3 (cqr_risk_level p) &&
  chars_between 2 150 (cqr_originator p) && chars_between 2 150 (cqr_evaluator p) &&
  negb (str_in (cqr_actor p) [cqr_originator p; cqr_evaluator p]).

(** ** Projections and their events *)

Definition try_integrity {A} (m handler : Sess A) : Sess A := fun s =>
  match m s with
  | (Err (PyException class message), s') =>
      if String.eqb class "IntegrityError" then handler (s' <| db := saved s' |>)
      else (Err (PyException class message), s')
  | r => r
  end.

Definition of_subject (subject_type subject_id : string) (p : InstitutionalLifecycleProjection) : bool :=
  str_eqb (ilp_subject_type p) subject_type && str_eqb (ilp_subject_id p) subject_id.

Definition by_dimension (a b : InstitutionalLifecycleProjection) : bool :=
  String.leb (ilp_dimension a) (ilp_dimension b).

Definition _projections (subject_type subject_id : string) : Sess (list InstitutionalLifecycleProjection) :=
  rows ← select_rows lifecycle_projections (of_subject subject_type subject_id);
  mret (sort_by by_dimension rows).

(** [{item.dimension: item.state for item in rows}]: later rows override *)
Definition states_of (rows : list InstitutionalLifecycleProjection) : gmap string string :=
  list_to_map (reverse ((fun p => (ilp_dimension p, ilp_state p)) <$> rows)).

Definition projection_in (subject_type subject_id dimension : string) (p : InstitutionalLifecycleProjection)
    : bool :=
  of_subject subject_type subject_id p && str_eqb (ilp_dimension p) dimension.

(** the columns (subject_type, subject_id, dimension) are unique *)
Definition insert_projection (p : InstitutionalLifecycleProjection) : Sess unit :=
  clash ← select_one lifecycle_projections
            (projection_in (ilp_subject_type p) (ilp_subject_id p) (ilp_dimension p));
  match clash with
  | Some _ => integrity_error
  | None => insert_row lifecycle_projections (ilp_id p) p
  end.

(** command_id and record_digest are unique *)
Definition insert_event (e : InstitutionalLifecycleEvent) : Sess unit :=
  clash ← select_one lifecycle_events (fun x =>
            bool_decide (ile_command_id x = ile_command_id e) ||
            str_eqb (ile_record_digest x) (ile_record_digest e));
  match clash with
  | Some _ => integrity_error
  | None => insert_row lifecycle_events (ile_id e) e
  end.

(** event_id, command_id and record_digest are unique *)
Definition insert_consequence (c : LifecycleConsequence) : Sess unit :=
  clash ← select_one lifecycle_consequences (fun x =>
            bool_decide (lcq_event_id x = lcq_event_id c) ||
            bool_decide (lcq_command_id x = lcq_command_id c) ||
            str_eqb (lcq_record_digest x) (lcq_record_digest c));
  match clash with
  | Some _ => integrity_error
  | None => insert_row lifecycle_consequences (lcq_id c) c
  end.

(** the fields an event digest covers, with the effective time as the text it is hashed in *)
Definition event_document (command_id : uuid) (p : InstitutionalLifecycleProjection)
    (dimension command prior_state resulting_state : string) (expected_version resulting_version : Z)
    (actor : string) (authority_decision_id : uuid) (evidence : list string) (reason : string)
    (prior_event_digest : option string) (effective_at : string) : json := JObj
  [("command_id", JStr (uuid_str command_id));
   ("subject_type", JStr (ilp_subject_type p));
   ("subject_id", JStr (ilp_subject_id p));
   ("subject_digest", JStr (ilp_subject_digest p));
   ("dimension", JStr dimension);
   ("command", JStr command);
   ("prior_state", JStr prior_state);
   ("resulting_state", JStr resulting_state);
   ("expected_version", JInt expected_version);
   ("resulting_version", JInt resulting_version);
   ("actor", JStr actor);
   ("authority_decision_id", JStr (uuid_str authority_decision_id));
   ("evidence", Json.str_list evidence);
   ("reason", JStr reason);
   ("prior_event_digest", Json.opt_str prior_event_digest);
   ("effective_at", JStr effective_at)].

Definition digest_document (value : json) : string := digest value.

Definition _event_material (p : InstitutionalLifecycleProjection) (e : InstitutionalLifecycleEvent) : json :=
  event_document (ile_command_id e) p (ile_dimension e) (ile_command e) (ile_prior_state e)
    (ile_resulting_state e) (ile_expected_version e) (ile_resulting_version e) (ile_actor e)
    (ile_authority_decision_id e) (ile_evidence e) (ile_reason e) (ile_prior_event_digest e)
    (isoformat (ile_effective_at e)).

(** ** Replaying the events *)

(** the first loop: every event has a known dimension and, when its projection is
    among [projections], the digest of its fields *)
Definition check_event (projections : list InstitutionalLifecycleProjection)
    (e : InstitutionalLifecycleEvent) : outcome unit :=
  _ ← item_of (ile_dimension e) (dict_get (ile_dimension e) INITIAL_STATES);
  match List.find (fun p => bool_decide (ilp_id p = ile_projection_id e)) projections with
  | Some p =>
      if negb (str_eqb (digest_document (_event_material p e)) (ile_record_digest e))
      then conflict_409 "Lifecycle event digest is invalid."
      else Ok tt
  | None => Ok tt
  end.

Fixpoint each {A} (f : A → outcome unit) (l : list A) : outcome unit :=
  match l with
  | [] => Ok tt
  | x :: l' => _ ← f x; each f l'
  end.

(** one projection: its state, its version and the digest of its last event *)
Definition replay_state : Type := string * Z * option string.

Fixpoint replay_events (st : replay_state) (l : list InstitutionalLifecycleEvent) : outcome replay_state :=
  match l with
  | [] => Ok st
  | e :: l' =>
      if bool_decide ((ile_prior_state e, ile_expected_version e, ile_prior_event_digest e) = st)
      then replay_events (ile_resulting_state e, ile_resulting_version e, Some (ile_record_digest e)) l'
      else conflict_409 "Lifecycle event history is not replayable."
  end.

Definition check_projection (events : list InstitutionalLifecycleEvent)
    (p : InstitutionalLifecycleProjection) : outcome unit :=
  state ← item_of (ilp_dimension p) (dict_get (ilp_dimension p) INITIAL_STATES);
  st ← replay_events (state, 0, None)
         (List.filter (fun e => str_eqb (ile_dimension e) (ilp_dimension p)) events);
  if bool_decide ((ilp_state p, ilp_version p, ilp_last_event_digest p) = st) then Ok tt
  else conflict_409 "Lifecycle projection does not match event history.".

Definition _verify_replay (projections : list InstitutionalLifecycleProjection)
    (events : list InstitutionalLifecycleEvent) : outcome unit :=
  _ ← each (check_event projections) events;
  each (check_projection events) projections.

Definition event_leb (a b : InstitutionalLifecycleEvent) : bool :=
  (ile_created_at a <? ile_created_at b) ||
  (ile_created_at a =? ile_created_at b) && (ile_id a <=? ile_id b)%N.

Record Dossier := mkDossier {
  ds_subject_type : string;
  ds_subject_id : string;
  ds_subject_digest : string;
  ds_projections : list InstitutionalLifecycleProjection;
  ds_events : list InstitutionalLifecycleEvent;
  ds_dossier_digest : string }.

Definition dossier_material (subject_type subject_id subject_digest : string)
    (projections : list InstitutionalLifecycleProjection) (events : list InstitutionalLifecycleEvent) : json :=
  JObj
  [("subject_type", JStr subject_type);
   ("subject_id", JStr subject_id);
   ("subject_digest", JStr subject_digest);
   ("projections", JList ((fun p => JObj
      [("dimension", JStr (ilp_dimension p)); ("state", JStr (ilp_state p));
       ("version", JInt (ilp_version p)); ("last_event_digest", Json.opt_str (ilp_last_event_digest p))])
      <$> projections));
   ("events", Json.str_list (ile_record_digest <$> events))].

Definition lifecycle_dossier (subject_type subject_id : string) : Sess Dossier :=
  projections ← _projections subject_type subject_id;
  match projections with
  | [] => http 404 "Lifecycle subject not found."
  | first :: _ =>
      rows ← select_rows lifecycle_events (fun e =>
               bool_decide (ile_projection_id e ∈ ilp_id <$> projections));
      let events := sort_by event_leb rows in
      _ ← lift (_verify_replay projections events);
      mret (mkDossier subject_type subject_id (ilp_subject_digest first) projections events
              (digest_document
                 (dossier_material subject_type subject_id (ilp_subject_digest first) projections events)))
  end.

(** [.order_by(updated_at.desc()).limit(limit)] *)
Definition list_projections (limit : nat) : Sess (list InstitutionalLifecycleProjection) :=
  rows ← select_rows lifecycle_projections (fun _ => true);
  mret (take limit (sort_by (fun a b => ilp_updated_at b <=? ilp_updated_at a) rows)).

(** ** The candidate gate ([services/candidate_lifecycle_gate.py]) *)

(** [s.replace("Z", "+00:00")] *)
Fixpoint replace_z (s : string) : string :=
  match s with
  | EmptyString => EmptyString
  | String c s' => if Ascii.eqb c "Z"%char then "+00:00" +:+ replace_z s' else String c (replace_z s')
  end.

(** one receipt; its expiry is read before anything is compared *)
Definition receipt_matches (subject_digest requested_action : string) (now : datetime)
    (record : QuantitativeProducerReceipt) : outcome bool :=
  match default (JObj []) (Json.get "result" (qpr_receipt record)) with
  | JObj result =>
      match fromisoformat (replace_z (Json.str (default (JStr "") (Json.get "expires_at" result)))) with
      | None => Err (PyException "ValueError" "Invalid isoformat string")
      | Some (local, offset) =>
          if bool_decide (Json.get "candidate_digest" result = Some (JStr subject_digest)) &&
             bool_decide (Json.get "requested_action" result = Some (JStr requested_action)) &&
             bool_decide (Json.get "eligible_for_authority_review" result = Some (JBool true))
          then
            match offset with
            | Some o => Ok (now <? local - seconds o)
            | None => Err (PyException "TypeError" "can't compare offset-naive and offset-aware datetimes")
            end
          else Ok false
      end
  | _ => Err (PyException "AttributeError" "get")
  end.

Fixpoint matching_receipts (subject_digest requested_action : string) (now : datetime)
    (records : list QuantitativeProducerReceipt) : outcome (list QuantitativeProducerReceipt) :=
  match records with
  | [] => Ok []
  | record :: records' =>
      b ← receipt_matches subject_digest requested_action now record;
      rest ← matching_receipts subject_digest requested_action now records';
      Ok (if b : bool then record :: rest else rest)
  end.

Section ops.
Context `{World}.

Definition require_risk004_evidence (subject_type subject_digest requested_action : string)
    (evidence : list string) : Sess unit :=
  if negb (str_eqb subject_type "portfolio-candidate") then mret tt
  else
    records ← select_rows quantitative_receipts (fun r =>
                str_eqb (qpr_milestone r) "RISK-004" && str_in (qpr_receipt_digest r) evidence);
    now ← utc_now;
    matches ← lift (matching_receipts subject_digest requested_action now records);
    if bool_decide (length matches = 1%nat) then mret tt
    else http 409 "Candidate lifecycle transition requires one fresh, exact RISK-004 receipt.".

(** [AuthorityResolutionRequest(...)] and its resolution *)
Definition authorize_change (request : AuthorityResolutionRequest) : Sess AuthorityDecisionRecord :=
  if valid_resolution_request request then resolve_authority request
  else raise (PyException "ValidationError" "AuthorityResolutionRequest").

(** ** Subjects and transitions ([services/institutional_lifecycle.py]) *)

Definition create_subject (payload : LifecycleSubjectCreate) : Sess (list InstitutionalLifecycleProjection) :=
  let changed := existsb (fun p => negb (str_eqb (ilp_subject_digest p) (lsc_subject_digest payload))) in
  existing ← _projections (lsc_subject_type payload) (lsc_subject_id payload);
  match existing with
  | _ :: _ =>
      if changed existing then http 409 "Lifecycle subject digest is immutable." else mret existing
  | [] =>
      try_integrity
        (_ ← for_each INITIAL_STATES (fun entry =>
               id ← fresh_id;
               insert_projection
                 (mkInstitutionalLifecycleProjection id (lsc_subject_type payload) (lsc_subject_id payload)
                    (lsc_subject_digest payload) entry.1 entry.2 0 None w_server_now));
         _ ← commit;
         _projections (lsc_subject_type payload) (lsc_subject_id payload))
        (existing ← _projections (lsc_subject_type payload) (lsc_subject_id payload);
         if negb (length existing =? length INITIAL_STATES)%nat || changed existing
         then http 409 "Concurrent lifecycle registration conflicted."
         else mret existing)
  end.

Definition same_command (subject_type subject_id : string) (payload : InstitutionalTransitionCreate)
    (p : InstitutionalLifecycleProjection) (e : InstitutionalLifecycleEvent) : bool :=
  of_subject subject_type subject_id p && str_eqb (ile_dimension e) (itc_dimension payload) &&
  str_eqb (ile_command e) (itc_command payload) &&
  (ile_expected_version e =? itc_expected_version payload).

Definition transition_request (subject_type subject_id : string) (payload : InstitutionalTransitionCreate)
    (decision : string * string) : AuthorityResolutionRequest :=
  mkAuthorityResolutionRequest (itc_actor payload) decision.1 decision.2 subject_type subject_id
    (itc_subject_digest payload)
    [("dimension", JStr (itc_dimension payload)); ("command", JStr (itc_command payload))]
    (itc_risk_level payload) (itc_environment payload) (itc_requester payload) (itc_originator payload)
    (itc_evaluator payload) (itc_active_veto_roles payload) (itc_authority_exception_id payload).

Definition transition_event (id : uuid) (p : InstitutionalLifecycleProjection)
    (payload : InstitutionalTransitionCreate) (resulting_state : string)
    (authority : AuthorityDecisionRecord) : InstitutionalLifecycleEvent :=
  mkInstitutionalLifecycleEvent id (ilp_id p) (itc_command_id payload) (itc_dimension payload)
    (itc_command payload) (ilp_state p) resulting_state (itc_actor payload) (ar_id authority)
    (ilp_version p) (ilp_version p + 1) (itc_reason payload) (itc_evidence payload)
    (ilp_last_event_digest p)
    (digest_document (event_document (itc_command_id payload) p (itc_dimension payload)
       (itc_command payload) (ilp_state p) resulting_state (itc_expected_version payload)
       (ilp_version p + 1) (itc_actor payload) (ar_id authority) (itc_evidence payload)
       (itc_reason payload) (ilp_last_event_digest p) (isoformat_aware (itc_effective_at payload))))
    (aw_instant (itc_effective_at payload)) w_server_now.

(** the projection after an event *)
Definition moved (e : InstitutionalLifecycleEvent) (now : datetime) (p : InstitutionalLifecycleProjection)
    : InstitutionalLifecycleProjection :=
  p <| ilp_state := ile_resulting_state e |> <| ilp_version := ilp_version p + 1 |>
    <| ilp_last_event_digest := Some (ile_record_digest e) |> <| ilp_updated_at := now |>.

Definition lookup_projection (subject_type subject_id dimension : string)
    : Sess (option InstitutionalLifecycleProjection) :=
  select_one lifecycle_projections (projection_in subject_type subject_id dimension).

(** the checks of a new command, in the order of the code; the state it leads to *)
Definition check_transition (subject_type subject_id : string) (payload : InstitutionalTransitionCreate)
    (p : InstitutionalLifecycleProjection) : Sess string :=
  if negb (str_eqb (ilp_subject_digest p) (itc_subject_digest payload)) then
    http 409 "Lifecycle subject digest changed."
  else
    _ ← lift (validate_expected_version (ilp_version p) (itc_expected_version payload));
    now ← utc_now;
    if now + seconds 30 <? aw_instant (itc_effective_at payload) then
      http 422 "Lifecycle event cannot take effect in the future."
    else if negb (forallb (Str.hex_between 64 64) (itc_evidence payload)) then
      http 422 "Evidence references must be SHA-256 digests."
    else
      resulting_state ← lift (next_state (itc_dimension payload) (ilp_state p) (itc_command payload));
      _ ← (if str_eqb (itc_dimension payload) "capital" &&
              str_in (itc_command payload) ["qualify"; "allocate"]
           then require_risk004_evidence subject_type (itc_subject_digest payload) "allocate"
                  (itc_evidence payload)
           else mret tt);
      all_projections ← _projections subject_type subject_id;
      _ ← lift (validate_cross_dimension_guard (itc_dimension payload) (itc_command payload)
                  (states_of all_projections));
      if str_in (itc_dimension payload) ["evidence"; "operations"; "capital"] &&
         negb (from_option Str.nonempty false (itc_originator payload)) then
        http 422 (itc_dimension payload +:+ " transitions require an explicit originator.")
      else mret resulting_state.

(** [COMMAND_AUTHORITY_ACTIONS.get(key, AUTHORITY_ACTIONS[dimension])] *)
Definition command_authority (dimension command : string) : outcome (string * string) :=
  fallback ← item_of dimension (dict_get dimension AUTHORITY_ACTIONS);
  Ok (default fallback (dict_get2 dimension command COMMAND_AUTHORITY_ACTIONS)).

Definition transition (subject_type subject_id : string) (payload : InstitutionalTransitionCreate)
    : Sess (uuid * uuid) :=
  replay ← select_one lifecycle_events (fun e =>
             bool_decide (ile_command_id e = itc_command_id payload));
  match replay with
  | Some e =>
      projection ← get_row lifecycle_projections (ile_projection_id e);
      match projection with
      | Some p =>
          if same_command subject_type subject_id payload p e then mret (ilp_id p, ile_id e)
          else http 409 "Command identity was reused with different content."
      | None => http 409 "Command identity was reused with different content."
      end
  | None =>
      projection ← lookup_projection subject_type subject_id (itc_dimension payload);
      match projection with
      | None => http 404 "Lifecycle subject or dimension not found."
      | Some p =>
          resulting_state ← check_transition subject_type subject_id payload p;
          decision ← lift (command_authority (itc_dimension payload) (itc_command payload));
          authority ← authorize_change (transition_request subject_type subject_id payload decision);
          id ← fresh_id;
          let event := transition_event id p payload resulting_state authority in
          now ← utc_now;
          _ ← alter_row lifecycle_projections (ilp_id p) (moved event now);
          _ ← insert_event event;
          _ ← commit;
          mret (ilp_id p, id)
      end
  end.

(** ** Consequences ([services/lifecycle_consequence.py]) *)

(** [event.record_digest], set when the event is built *)
Definition consequence_event (id : uuid) (p : InstitutionalLifecycleProjection) (command_id : uuid)
    (command resulting actor : string) (authority_id : uuid) (evidence : list string) (reason : string)
    (now : datetime) : InstitutionalLifecycleEvent :=
  mkInstitutionalLifecycleEvent id (ilp_id p) command_id (ilp_dimension p) command (ilp_state p)
    resulting actor authority_id (ilp_version p) (ilp_version p + 1) reason evidence
    (ilp_last_event_digest p)
    (digest_document (event_document command_id p (ilp_dimension p) command (ilp_state p) resulting
       (ilp_version p) (ilp_version p + 1) actor authority_id evidence reason (ilp_last_event_digest p)
       (isoformat now)))
    now w_server_now.

Definition _event (p : InstitutionalLifecycleProjection) (command_id : uuid)
    (command resulting actor : string) (authority_id : uuid) (evidence : list string) (reason : string)
    : Sess InstitutionalLifecycleEvent :=
  now ← utc_now;
  id ← fresh_id;
  let event := consequence_event id p command_id command resulting actor authority_id evidence reason now in
  _ ← insert_event event;
  _ ← alter_row lifecycle_projections (ilp_id p) (moved event now);
  mret event.

Definition _locked_projection (subject_type subject_id dimension : string)
    : Sess InstitutionalLifecycleProjection :=
  item ← lookup_projection subject_type subject_id dimension;
  match item with
  | Some p => mret p
  | None => http 404 "Lifecycle projection not found."
  end.

Definition _validate_projection (p : InstitutionalLifecycleProjection) (subject_digest : string) (version : Z)
    : outcome unit :=
  if negb (str_eqb (ilp_subject_digest p) subject_digest) then conflict_409 "Lifecycle subject digest changed."
  else validate_expected_version (ilp_version p) version.

Definition _states (subject_type subject_id : string) : Sess (gmap string string) :=
  rows ← select_rows lifecycle_projections (of_subject subject_type subject_id);
  mret (states_of rows).

(** [{"promote": "admit", "reinstate": "admit"}.get(action, action)] *)
Definition risk_action (action : string) : string :=
  if str_in action ["promote"; "reinstate"] then "admit" else action.

Definition consequence_request (subject_type subject_id : string) (payload : ConsequenceCreate)
    (decision : string * string) : AuthorityResolutionRequest :=
  mkAuthorityResolutionRequest (cqc_actor payload) decision.1 decision.2 subject_type subject_id
    (cqc_subject_digest payload)
    [("dimension", JStr (cqc_dimension payload)); ("consequence", JStr (cqc_action payload));
     ("approvers", Json.str_list (cqc_approvers payload))]
    (cqc_risk_level payload) (cqc_environment payload) None (cqc_originator payload)
    (cqc_evaluator payload) (cqc_active_veto_roles payload) None.

(** the checks of a new consequence; the state it leads to *)
Definition check_consequence (subject_type subject_id : string) (payload : ConsequenceCreate)
    (p : InstitutionalLifecycleProjection) : Sess string :=
  _ ← lift (_validate_projection p (cqc_subject_digest payload) (cqc_expected_version payload));
  resulting ← lift (consequence_state (cqc_dimension payload) (ilp_state p) (cqc_action payload));
  _ ← (if str_eqb (cqc_dimension payload) "operations" then
         require_risk004_evidence subject_type (cqc_subject_digest payload)
           (risk_action (cqc_action payload)) (cqc_evidence payload)
       else mret tt);
  states ← _states subject_type subject_id;
  _ ← (if str_in (cqc_action payload) ["promote"; "reinstate"] then
         lift (validate_cross_dimension_guard (cqc_dimension payload)
                 (if str_eqb (cqc_dimension payload) "operations" then "nominate" else "qualify") states)
       else mret tt);
  mret resulting.

(** the newest active consequence that led [p] to its present state *)
Definition prior_consequence (p : InstitutionalLifecycleProjection) : Sess (option LifecycleConsequence) :=
  gets (fun d => max_by lcq_created_at (List.filter (fun c =>
    match lifecycle_events d !! lcq_event_id c with
    | Some e => bool_decide (ile_projection_id e = ilp_id p)
    | None => false
    end && str_eqb (lcq_status c) "active" && str_eqb (lcq_resulting_state c) (ilp_state p))
    (table_rows (lifecycle_consequences d)))).

Definition consequence_document (payload : ConsequenceCreate) (event : InstitutionalLifecycleEvent)
    (resulting : string) : json := JObj
  [("command_id", JStr (uuid_str (cqc_command_id payload)));
   ("event_digest", JStr (ile_record_digest event));
   ("action", JStr (cqc_action payload));
   ("prior_state", JStr (ile_prior_state event));
   ("resulting_state", JStr resulting);
   ("rollback_state", JStr (ile_prior_state event));
   ("approvers", Json.str_list (cqc_approvers payload));
   ("affected_descendants", Json.str_list (cqc_affected_descendants payload));
   ("evidence_epoch", JStr (isoformat_aware (cqc_evidence_epoch payload)));
   ("expires_at", JStr (isoformat_aware (cqc_expires_at payload)))].

Definition new_consequence (id : uuid) (payload : ConsequenceCreate) (event : InstitutionalLifecycleEvent)
    (resulting : string) (prior : option LifecycleConsequence) : LifecycleConsequence :=
  mkLifecycleConsequence id (ile_id event) (cqc_command_id payload) (cqc_action payload) "active"
    (ile_prior_state event) resulting (ile_prior_state event) (cqc_approvers payload)
    (cqc_affected_descendants payload) (aw_instant (cqc_evidence_epoch payload))
    (aw_instant (cqc_expires_at payload)) None
    match prior with
    | Some c => if str_eqb resulting (lcq_rollback_state c) then Some (lcq_id c) else None
    | None => None
    end
    (cqc_reason payload) (digest_document (consequence_document payload event resulting)) w_server_now.

(** the stored consequence under this command identity is the same command *)
Definition same_consequence (subject_type subject_id : string) (payload : ConsequenceCreate)
    (c : LifecycleConsequence) (e : InstitutionalLifecycleEvent) (p : InstitutionalLifecycleProjection) : bool :=
  str_eqb (lcq_action c) (cqc_action payload) && str_eqb (ile_dimension e) (cqc_dimension payload) &&
  (ile_expected_version e =? cqc_expected_version payload) && of_subject subject_type subject_id p &&
  str_eqb (ilp_subject_digest p) (cqc_subject_digest payload).

Definition none_attribute {A} : Sess A := raise (PyException "AttributeError" "NoneType").

(** [db.get(Event, ...)] and [db.get(Projection, event.projection_id)] *)
Definition event_and_projection (event_id : uuid)
    : Sess (InstitutionalLifecycleEvent * InstitutionalLifecycleProjection) :=
  event ← get_row lifecycle_events event_id;
  match event with
  | None => none_attribute
  | Some e =>
      projection ← get_row lifecycle_projections (ile_projection_id e);
      match projection with
      | None => none_attribute
      | Some p => mret (e, p)
      end
  end.

Definition close_consequence (id : uuid) (status : string) (by_id : uuid) : Sess unit :=
  alter_row lifecycle_consequences id (fun c =>
    c <| lcq_status := status |> <| lcq_reversed_by_id := Some by_id |>).

Definition apply_consequence (subject_type subject_id : string) (payload : ConsequenceCreate) : Sess uuid :=
  existing ← select_one lifecycle_consequences (fun c =>
               bool_decide (lcq_command_id c = cqc_command_id payload));
  match existing with
  | Some c =>
      '(e, p) ← event_and_projection (lcq_event_id c);
      if same_consequence subject_type subject_id payload c e p then mret (lcq_id c)
      else http 409 "Consequence command identity changed."
  | None =>
      p ← _locked_projection subject_type subject_id (cqc_dimension payload);
      resulting ← check_consequence subject_type subject_id payload p;
      decision ← lift (_authority_for (cqc_dimension payload) (cqc_action payload));
      authority ← authorize_change (consequence_request subject_type subject_id payload decision);
      prior ← prior_consequence p;
      event ← _event p (cqc_command_id payload) (cqc_action payload) resulting (cqc_actor payload)
                (ar_id authority) (cqc_evidence payload) (cqc_reason payload);
      id ← fresh_id;
      _ ← insert_consequence (new_consequence id payload event resulting prior);
      _ ← match prior with
          | Some c => close_consequence (lcq_id c) "superseded" id
          | None => mret tt
          end;
      _ ← commit;
      mret id
  end.

Definition reversal_request (original : LifecycleConsequence) (p : InstitutionalLifecycleProjection)
    (payload : ConsequenceReverse) (decision : string * string) : AuthorityResolutionRequest :=
  mkAuthorityResolutionRequest (cqr_actor payload) decision.1 decision.2 (ilp_subject_type p)
    (ilp_subject_id p) (ilp_subject_digest p)
    [("reverse_consequence_id", JStr (uuid_str (lcq_id original)))]
    (cqr_risk_level payload) (cqr_environment payload) None (Some (cqr_originator payload))
    (Some (cqr_evaluator payload)) (cqr_active_veto_roles payload) None.

Definition reversal_record (id : uuid) (original : LifecycleConsequence) (payload : ConsequenceReverse)
    (event : InstitutionalLifecycleEvent) (now : datetime) : LifecycleConsequence :=
  mkLifecycleConsequence id (ile_id event) (cqr_command_id payload) (lcq_action original) "reversal"
    (lcq_resulting_state original) (lcq_rollback_state original) (lcq_resulting_state original)
    [cqr_actor payload] (lcq_affected_descendants original) now (lcq_expires_at original) None
    (Some (lcq_id original)) (cqr_reason payload)
    (digest_document (JObj
       [("command_id", JStr (uuid_str (cqr_command_id payload)));
        ("event_digest", JStr (ile_record_digest event));
        ("action", JStr "reverse");
        ("reversal_of", JStr (uuid_str (lcq_id original)));
        ("resulting_state", JStr (lcq_rollback_state original))]))
    w_server_now.

Definition reverse_consequence (consequence_id : uuid) (payload : ConsequenceReverse)
    (terminal_status : string) : Sess uuid :=
  replay ← select_one lifecycle_consequences (fun c =>
             bool_decide (lcq_command_id c = cqr_command_id payload));
  match replay with
  | Some c =>
      if negb (str_eqb (lcq_status c) "reversal") || negb (bool_decide (lcq_reversal_of_id c = Some consequence_id))
      then http 409 "Reversal command identity changed."
      else mret (lcq_id c)
  | None =>
      original ← get_row lifecycle_consequences consequence_id;
      match original with
      | None => http 404 "Consequence not found."
      | Some original =>
          if negb (str_eqb (lcq_status original) "active") then http 409 "Consequence is not active."
          else
            '(_, p) ← event_and_projection (lcq_event_id original);
            _ ← lift (validate_expected_version (ilp_version p) (cqr_expected_version payload));
            if negb (str_eqb (ilp_state p) (lcq_resulting_state original)) then
              http 409 "Projection moved after the consequence."
            else
              let reverse_action :=
                if str_in (lcq_action original) ["promote"; "reinstate"] then "demote" else "reinstate" in
              decision ← lift (_authority_for (ilp_dimension p) reverse_action);
              authority ← authorize_change (reversal_request original p payload decision);
              event ← _event p (cqr_command_id payload) ("reverse-" +:+ lcq_action original)
                        (lcq_rollback_state original) (cqr_actor payload) (ar_id authority)
                        [lcq_record_digest original] (cqr_reason payload);
              id ← fresh_id;
              now ← utc_now;
              _ ← insert_consequence (reversal_record id original payload event now);
              _ ← close_consequence (lcq_id original) terminal_status id;
              _ ← commit;
              mret id
      end
  end.

Definition expire_consequence (consequence_id : uuid) (payload : ConsequenceReverse) : Sess uuid :=
  original ← get_row lifecycle_consequences consequence_id;
  match original with
  | None => http 404 "Consequence not found."
  | Some c =>
      now ← utc_now;
      if now <? lcq_expires_at c then http 409 "Consequence has not expired."
      else reverse_consequence consequence_id payload "expired"
  end.

Definition list_consequences (limit : nat) : Sess (list LifecycleConsequence) :=
  rows ← select_rows lifecycle_consequences (fun _ => true);
  mret (take limit (sort_by (fun a b => lcq_created_at b <=? lcq_created_at a) rows)).

(** ** The routes *)

Definition invalid_body {A} (schema : string) : Sess A := raise (PyException "ValidationError" schema).

Definition read_projections (limit : Z) : Sess (list InstitutionalLifecycleProjection) :=
  if negb (within 1 500 limit) then invalid_body "Query" else list_projections (Z.to_nat limit).

Definition register_subject (payload : LifecycleSubjectCreate) : Sess Dossier :=
  if negb (valid_subject payload) then invalid_body "LifecycleSubjectCreate"
  else
    _ ← create_subject payload;
    lifecycle_dossier (lsc_subject_type payload) (lsc_subject_id payload).

Definition read_subject (subject_type subject_id : string) : Sess Dossier :=
  lifecycle_dossier subject_type subject_id.

Definition transition_subject (subject_type subject_id : string) (payload : InstitutionalTransitionCreate)
    : Sess Dossier :=
  if negb (valid_transition payload) then invalid_body "InstitutionalTransitionCreate"
  else
    _ ← transition subject_type subject_id payload;
    lifecycle_dossier subject_type subject_id.

Definition read_consequences (limit : Z) : Sess (list LifecycleConsequence) :=
  if negb (within 1 500 limit) then invalid_body "Query" else list_consequences (Z.to_nat limit).

Definition create_consequence (subject_type subject_id : string) (payload : ConsequenceCreate) : Sess uuid :=
  now ← utc_now;
  if negb (valid_consequence now payload) then invalid_body "ConsequenceCreate"
  else apply_consequence subject_type subject_id payload.

Definition reverse_route (consequence_id : uuid) (payload : ConsequenceReverse) : Sess uuid :=
  if negb (valid_reversal payload) then invalid_body "ConsequenceReverse"
  else reverse_consequence consequence_id payload "reversed".

Definition expire_route (consequence_id : uuid) (payload : ConsequenceReverse) : Sess uuid :=
  if negb (valid_reversal payload) then invalid_body "ConsequenceReverse"
  else expire_consequence consequence_id payload.
End ops.
