(* ===== verification/LifecycleFacts.v ===== *)
(** * Well-formed lifecycles

    The invariant of the lifecycle tables, the steps a request takes on them, and
    that every step keeps the invariant, under which every dossier replays. *)
From S2P Require Import Prelude Py Sha256 Models Store Logic GovernanceFacts WorkloadTheorems Authority AuthorityTheorems Lifecycles.

Open Scope Z_scope.

(** ** Generic lemmas *)
Lemma each_Ok {A} (f : A → outcome unit) l : (∀ x, x ∈ l → f x = Ok tt) → each f l = Ok tt.
Proof.
  intros Hf. induction l as [|x l IH]; cbn; [done|]. rewrite Hf by (by left). cbn. apply IH.
  intros y Hy. apply Hf. by right.
Qed.

Lemma replay_app st l l' :
  replay_events st (l ++ l') = (st' ← replay_events st l; replay_events st' l').
Proof.
  revert st. induction l as [|e l IH]; intros st; cbn; [done|]. by case_bool_decide.
Qed.

Lemma filter_app_one {A} (f : A → bool) l x :
  List.filter f (l ++ [x]) = List.filter f l ++ (if f x then [x] else []).
Proof. by rewrite List.filter_app. Qed.

Lemma filter_filter {A} (f g : A → bool) l :
  List.filter f (List.filter g l) = List.filter (fun x => g x && f x) l.
Proof.
  induction l as [|x l IH]; cbn; [done|]. destruct (g x); cbn; [|done]. destruct (f x); by rewrite IH.
Qed.

Lemma filter_ext_elem {A} (f g : A → bool) l :
  (∀ x, x ∈ l → f x = g x) → List.filter f l = List.filter g l.
Proof.
  induction l as [|x l IH]; intros Hfg; cbn; [done|]. rewrite (Hfg x) by (by left).
  rewrite IH; [done|]. intros y Hy. apply Hfg. by right.
Qed.

Lemma filter_elem {A} (f : A → bool) l x : x ∈ List.filter f l ↔ x ∈ l ∧ f x = true.
Proof. by rewrite !list_elem_of_In, filter_In. Qed.

Lemma filter_sorted {A} (R : relation A) (f : A → bool) l :
  StronglySorted R l → StronglySorted R (List.filter f l).
Proof.
  induction 1 as [|x l Hl IH Hx]; cbn; [constructor|]. destruct (f x); [|done]. constructor; [done|].
  rewrite Forall_forall in *. intros y [Hy _]%filter_elem. by apply Hx.
Qed.

Lemma sorted_weaken {A} (R R' : relation A) l :
  (∀ x y, R x y → R' x y) → StronglySorted R l → StronglySorted R' l.
Proof.
  intros HR. induction 1 as [|x l Hl IH Hx]; constructor; [done|]. eapply Forall_impl; [exact Hx|]. auto.
Qed.

Lemma table_rows_insert {R} (m : gmap uuid R) i r :
  m !! i = None → table_rows (<[i := r]> m) ≡ₚ r :: table_rows m.
Proof. intros Hi. unfold table_rows. by rewrite map_to_list_insert. Qed.

Lemma table_rows_elem {R} (m : gmap uuid R) r : r ∈ table_rows m ↔ ∃ i, m !! i = Some r.
Proof.
  unfold table_rows. rewrite list_elem_of_fmap. split.
  - intros ([i r'] & -> & Hin). exists i. by apply elem_of_map_to_list.
  - intros [i Hi]. exists (i, r). split; [done|]. by apply elem_of_map_to_list.
Qed.

Lemma dict_get_elem {A} k (l : list (string * A)) a : dict_get k l = Some a → (k, a) ∈ l.
Proof.
  unfold dict_get. induction l as [|[k' a'] l IH]; cbn; [done|].
  destruct (String.eqb_spec k' k) as [->|]; [intros [= ->]; by left|]. intros Hl. right. by apply IH.
Qed.

Lemma initial_iff k a : (k, a) ∈ INITIAL_STATES ↔ dict_get k INITIAL_STATES = Some a.
Proof.
  split; [|apply dict_get_elem]. intros Hin. unfold INITIAL_STATES in *.
  repeat (apply elem_of_cons in Hin as [[= -> ->]|Hin]; [reflexivity|]). by apply elem_of_nil in Hin.
Qed.

(** ** The rules of a move *)

(** the evidence a progression of operations or capital needs *)
Definition guarded (states : string → option string) (dimension command : string) : Prop :=
  (dimension = "operations" →
   command ∈ ["nominate"; "approve"; "start-shadow"; "start-demo"; "start-live"] →
   states "research" = Some "succeeded" ∧ states "evidence" = Some "admissible") ∧
  (dimension = "capital" → command ∈ ["qualify"; "allocate"] →
   states "operations" = Some "live" ∧ states "evidence" = Some "admissible").

Definition consequence_rule (dimension from action to : string) : Prop :=
  dict_get2 from action (default [] (dict_get dimension CONSEQUENCE_STATES)) = Some to.

(** what may change the state of a dimension: a transition of its table, a
    consequence of its table, or the reversal of a consequence *)
Inductive legal (states : string → option string) (dimension from : string) : string → string → Prop :=
| legal_transition command to table :
    dict_get dimension TRANSITIONS = Some table → dict_get2 from command table = Some to →
    guarded states dimension command → legal states dimension from command to
| legal_consequence action to :
    consequence_rule dimension from action to →
    (action ∈ ["promote"; "reinstate"] →
     guarded states dimension (if str_eqb dimension "operations" then "nominate" else "qualify")) →
    legal states dimension from action to
| legal_reversal action to :
    consequence_rule dimension to action from →
    legal states dimension from ("reverse-" +:+ action) to.

(** the abstract state of a subject: the state and version of each dimension *)
Definition view (d : database) (subject_type subject_id dimension : string) : option (string * Z) :=
  (fun p => (ilp_state p, ilp_version p)) <$>
  head (List.filter (projection_in subject_type subject_id dimension) (table_rows (lifecycle_projections d))).

Definition viewed_states (d : database) (subject_type subject_id dimension : string) : option string :=
  fst <$> view d subject_type subject_id dimension.

(** ** The invariant *)

Definition events_on (i : uuid) (log : list InstitutionalLifecycleEvent) : list InstitutionalLifecycleEvent :=
  List.filter (fun e => bool_decide (ile_projection_id e = i)) log.

Definition earlier (a b : InstitutionalLifecycleEvent) : Prop := ile_created_at a < ile_created_at b.

Definition same_subject (p q : InstitutionalLifecycleProjection) : Prop :=
  ilp_subject_type p = ilp_subject_type q ∧ ilp_subject_id p = ilp_subject_id q.

Definition consequence_ok (d : database) (c : LifecycleConsequence) : Prop :=
  ∃ e p, lifecycle_events d !! lcq_event_id c = Some e ∧
    lifecycle_projections d !! ile_projection_id e = Some p ∧
    (lcq_status c = "active" →
     consequence_rule (ilp_dimension p) (lcq_rollback_state c) (lcq_action c) (lcq_resulting_state c)).

(** [t] bounds the creation times of the events from above *)
Record lifecycles_ok (t : datetime) (d : database) : Prop := {
  ok_projection : ∀ i p, lifecycle_projections d !! i = Some p →
    ilp_id p = i ∧ (i < next_id d)%N ∧ is_Some (dict_get (ilp_dimension p) INITIAL_STATES);
  ok_unique : ∀ i j p q, lifecycle_projections d !! i = Some p → lifecycle_projections d !! j = Some q →
    same_subject p q → ilp_dimension p = ilp_dimension q → i = j;
  ok_complete : ∀ i p dim, lifecycle_projections d !! i = Some p → is_Some (dict_get dim INITIAL_STATES) →
    ∃ j q, lifecycle_projections d !! j = Some q ∧ same_subject q p ∧ ilp_dimension q = dim;
  ok_digest : ∀ i j p q, lifecycle_projections d !! i = Some p → lifecycle_projections d !! j = Some q →
    same_subject p q → ilp_subject_digest p = ilp_subject_digest q;
  ok_event : ∀ i e, lifecycle_events d !! i = Some e →
    ile_id e = i ∧ (i < next_id d)%N ∧ ile_created_at e ≤ t ∧
    ∃ p, lifecycle_projections d !! ile_projection_id e = Some p ∧ ile_dimension e = ilp_dimension p ∧
      ile_record_digest e = digest_document (_event_material p e);
  ok_log : ∃ log, log ≡ₚ table_rows (lifecycle_events d) ∧ StronglySorted earlier log ∧
    ∀ i p, lifecycle_projections d !! i = Some p →
      ∃ s0, dict_get (ilp_dimension p) INITIAL_STATES = Some s0 ∧
        replay_events (s0, 0, None) (events_on i log) = Ok (ilp_state p, ilp_version p, ilp_last_event_digest p);
  ok_consequence : ∀ i c, lifecycle_consequences d !! i = Some c → lcq_id c = i ∧ consequence_ok d c }.

(** ** The steps *)

(** the rows a registration adds, for the dimensions and states in [entries] *)
Definition initial_row (payload : LifecycleSubjectCreate) (entries : list (string * string)) (d d' : database)
    (i : uuid) (p : InstitutionalLifecycleProjection) : Prop :=
  (next_id d ≤ i < next_id d')%N ∧ ilp_id p = i ∧ ilp_subject_type p = lsc_subject_type payload ∧
  ilp_subject_id p = lsc_subject_id payload ∧ ilp_subject_digest p = lsc_subject_digest payload ∧
  (ilp_dimension p, ilp_state p) ∈ entries ∧ ilp_version p = 0 ∧ ilp_last_event_digest p = None.

Record registers (payload : LifecycleSubjectCreate) (entries : list (string * string)) (d d' : database) : Prop := {
  rg_new : ∀ i p, lifecycle_projections d !! i = Some p →
    of_subject (lsc_subject_type payload) (lsc_subject_id payload) p = false;
  rg_old : ∀ i p, lifecycle_projections d !! i = Some p → lifecycle_projections d' !! i = Some p;
  rg_rows : ∀ i p, lifecycle_projections d' !! i = Some p →
    lifecycle_projections d !! i = Some p ∨ initial_row payload entries d d' i p;
  rg_all : ∀ dim s, (dim, s) ∈ entries → ∃ i p, lifecycle_projections d' !! i = Some p ∧
    initial_row payload entries d d' i p ∧ ilp_dimension p = dim ∧ ilp_state p = s;
  rg_unique : ∀ i j p q, lifecycle_projections d' !! i = Some p → lifecycle_projections d' !! j = Some q →
    initial_row payload entries d d' i p → initial_row payload entries d d' j q →
    ilp_dimension p = ilp_dimension q → i = j;
  rg_events : lifecycle_events d' = lifecycle_events d;
  rg_consequences : lifecycle_consequences d' = lifecycle_consequences d;
  rg_next : (next_id d ≤ next_id d')%N }.

(** the decision behind an event: authorised under the policy in force, recorded,
    and named by the event *)
Definition decided `{World} (d d' : database) (p : InstitutionalLifecycleProjection)
    (e : InstitutionalLifecycleEvent) : Prop :=
  ∃ request r n, grounded d (w_now n) request ∧ recorded request "authorized" r d d' ∧
    ile_authority_decision_id e = ar_id r ∧ arq_actor request = ile_actor e ∧
    arq_object_type request = ilp_subject_type p ∧ arq_object_id request = ilp_subject_id p ∧
    arq_object_digest request = ilp_subject_digest p.

(** how the consequences follow a move *)
Definition consequence_kept (d : database) (i : uuid) (c : LifecycleConsequence) : Prop :=
  ∃ c0, lifecycle_consequences d !! i = Some c0 ∧ lcq_id c = lcq_id c0 ∧ lcq_event_id c = lcq_event_id c0 ∧
    lcq_rollback_state c = lcq_rollback_state c0 ∧ lcq_action c = lcq_action c0 ∧
    lcq_resulting_state c = lcq_resulting_state c0 ∧ (lcq_status c = "active" → lcq_status c0 = "active").

Definition consequence_added (p : InstitutionalLifecycleProjection) (e : InstitutionalLifecycleEvent)
    (i : uuid) (c : LifecycleConsequence) : Prop :=
  lcq_id c = i ∧ lcq_event_id c = ile_id e ∧
  (lcq_status c = "active" →
   consequence_rule (ilp_dimension p) (lcq_rollback_state c) (lcq_action c) (lcq_resulting_state c)).

(** what the new event says of its projection [p] *)
Definition event_on `{World} (p : InstitutionalLifecycleProjection) (e : InstitutionalLifecycleEvent) : Prop :=
  ile_projection_id e = ilp_id p ∧ ile_dimension e = ilp_dimension p ∧
  (ile_prior_state e, ile_expected_version e, ile_prior_event_digest e) =
    (ilp_state p, ilp_version p, ilp_last_event_digest p) ∧
  ile_resulting_version e = ilp_version p + 1 ∧ ile_created_at e = w_server_now ∧
  ile_record_digest e = digest_document (_event_material p e).

Record moves `{World} (d d' : database) (p : InstitutionalLifecycleProjection)
    (e : InstitutionalLifecycleEvent) : Prop := {
  mv_row : lifecycle_projections d !! ilp_id p = Some p;
  mv_projections : ∃ now, lifecycle_projections d' = alter (moved e now) (ilp_id p) (lifecycle_projections d);
  mv_events : lifecycle_events d' = <[ile_id e := e]> (lifecycle_events d);
  mv_fresh : lifecycle_events d !! ile_id e = None;
  mv_next : (next_id d ≤ next_id d' ∧ ile_id e < next_id d')%N;
  mv_event : event_on p e;
  mv_legal : legal (viewed_states d (ilp_subject_type p) (ilp_subject_id p)) (ilp_dimension p) (ilp_state p)
    (ile_command e) (ile_resulting_state e);
  mv_consequences : ∀ i c, lifecycle_consequences d' !! i = Some c →
    consequence_kept d i c ∨ consequence_added p e i c;
  mv_decided : decided d d' p e }.

(** nothing of the lifecycles changes *)
Definition still (d d' : database) : Prop :=
  lifecycle_projections d' = lifecycle_projections d ∧ lifecycle_events d' = lifecycle_events d ∧
  lifecycle_consequences d' = lifecycle_consequences d ∧ (next_id d ≤ next_id d')%N.

Inductive lifecycle_step `{World} (d d' : database) : Prop :=
| step_still : still d d' → lifecycle_step d d'
| step_register payload : registers payload INITIAL_STATES d d' → lifecycle_step d d'
| step_move p e : moves d d' p e → lifecycle_step d d'.

(** ** Every step keeps the invariant *)

(** what a move never changes of a projection *)
Definition same_identity (q' q : InstitutionalLifecycleProjection) : Prop :=
  ilp_id q' = ilp_id q ∧ ilp_subject_type q' = ilp_subject_type q ∧ ilp_subject_id q' = ilp_subject_id q ∧
  ilp_subject_digest q' = ilp_subject_digest q ∧ ilp_dimension q' = ilp_dimension q.

Lemma material_identity q' q e : same_identity q' q → _event_material q' e = _event_material q e.
Proof. intros (_ & H1 & H2 & H3 & _). unfold _event_material, event_document. by rewrite H1, H2, H3. Qed.

Lemma still_ok t d d' : lifecycles_ok t d → still d d' → lifecycles_ok t d'.
Proof.
  intros [Hp Hu Hc Hd He Hl Hq] (E1 & E2 & E3 & Hn). split; rewrite ?E1, ?E2, ?E3; try done.
  - intros i p Hi. destruct (Hp i p Hi) as (? & ? & ?). split; [done|]. split; [lia|done].
  - intros i e Hi. destruct (He i e Hi) as (? & ? & ?). split; [done|]. split; [lia|done].
  - intros i c Hi. destruct (Hq i c Hi) as (Hid & e & p & H1 & H2 & H3). split; [done|].
    exists e, p. by rewrite E1, E2.
Qed.

Lemma ok_later t t' d : t ≤ t' → lifecycles_ok t d → lifecycles_ok t' d.
Proof.
  intros Ht [Hp Hu Hc Hd He Hl Hq]. split; try done.
  intros i e Hi. destruct (He i e Hi) as (? & ? & ? & ?). split; [done|]. split; [done|]. split; [lia|done].
Qed.

Section moves.
Context `{World} (d d' : database) (p : InstitutionalLifecycleProjection) (e : InstitutionalLifecycleEvent).
Context (Hm : moves d d' p e).

Lemma moves_back j q' : lifecycle_projections d' !! j = Some q' →
  ∃ q, lifecycle_projections d !! j = Some q ∧ same_identity q' q ∧
    (j = ilp_id p ∧ q = p ∧ (ilp_state q', ilp_version q', ilp_last_event_digest q') =
       (ile_resulting_state e, ile_resulting_version e, Some (ile_record_digest e)) ∨
     j ≠ ilp_id p ∧ q' = q).
Proof.
  destruct Hm as [Hrow (now & Hp) _ _ _ (_ & _ & _ & Hv & _) _ _ _]. rewrite Hp.
  intros [(<- & x & Hx & ->)|[Hne Hq]]%lookup_alter_Some.
  - exists x. split; [done|]. split; [done|]. left. rewrite Hrow in Hx. injection Hx as <-.
    split; [done|]. split; [done|]. by rewrite Hv.
  - exists q'. split; [done|]. split; [done|]. by right.
Qed.

Lemma moves_forth j q : lifecycle_projections d !! j = Some q →
  ∃ q', lifecycle_projections d' !! j = Some q' ∧ same_identity q' q.
Proof.
  destruct Hm as [_ (now & Hp) _ _ _ _ _ _ _]. rewrite Hp. intros Hq.
  destruct (decide (j = ilp_id p)) as [->|Hne].
  - exists (moved e now q). split; [by rewrite lookup_alter_eq, Hq|done].
  - exists q. split; [by rewrite lookup_alter_ne|done].
Qed.

Lemma moves_log t log :
  lifecycles_ok t d → t < w_server_now → log ≡ₚ table_rows (lifecycle_events d) → StronglySorted earlier log →
  log ++ [e] ≡ₚ table_rows (lifecycle_events d') ∧ StronglySorted earlier (log ++ [e]).
Proof.
  intros Hok Ht Hperm Hs. destruct Hm as [_ _ He Hf _ (_ & _ & _ & _ & Hc & _) _ _ _]. split.
  - rewrite He, table_rows_insert, <- Hperm by done. symmetry. apply Permutation_cons_append.
  - apply StronglySorted_app_2; [|done|by repeat constructor]. intros x y Hx Hy%list_elem_of_singleton. subst y.
    rewrite Hperm, table_rows_elem in Hx. destruct Hx as [i Hx]. destruct (ok_event _ _ Hok i x Hx) as (_ & _ & Hle & _).
    unfold earlier. rewrite Hc. lia.
Qed.

Lemma moves_replay (i : uuid) (s0 : string) log q q' :
  lifecycle_projections d !! i = Some q → lifecycle_projections d' !! i = Some q' →
  replay_events (s0, 0, None) (events_on i log) = Ok (ilp_state q, ilp_version q, ilp_last_event_digest q) →
  replay_events (s0, 0, None) (events_on i (log ++ [e])) =
    Ok (ilp_state q', ilp_version q', ilp_last_event_digest q').
Proof.
  intros Hq Hq' Hr. destruct (moves_back i q' Hq') as (q2 & Hq2 & _ & Hcase).
  rewrite Hq in Hq2. injection Hq2 as <-. unfold events_on in *. rewrite filter_app_one, replay_app, Hr. cbn.
  destruct (mv_event _ _ _ _ Hm) as (Hpid & _ & Hprior & _).
  destruct Hcase as [(-> & -> & Hst)|[Hne ->]].
  - rewrite bool_decide_true by done. cbn. rewrite bool_decide_true by done. by rewrite Hst.
  - by rewrite bool_decide_false by congruence.
Qed.

Lemma moves_event_ok t : lifecycles_ok t d → t < w_server_now →
  ∀ i x, lifecycle_events d' !! i = Some x →
    ile_id x = i ∧ (i < next_id d')%N ∧ ile_created_at x ≤ w_server_now ∧
    ∃ q, lifecycle_projections d' !! ile_projection_id x = Some q ∧ ile_dimension x = ilp_dimension q ∧
      ile_record_digest x = digest_document (_event_material q x).
Proof.
  intros Hok Ht i x. destruct Hm as [Hrow _ He Hf [Hn Hn'] (Hpid & Hdim & _ & _ & Hc & Hdig) _ _ _]. rewrite He.
  intros [(<- & <-)|[Hne Hx]]%lookup_insert_Some.
  - split; [done|]. split; [lia|]. split; [lia|]. destruct (moves_forth _ _ Hrow) as (q' & Hq' & Hid).
    exists q'. rewrite Hpid. split; [done|]. rewrite (material_identity _ _ _ Hid). destruct Hid as (_ & _ & _ & _ & ->). done.
  - destruct (ok_event _ _ Hok i x Hx) as (? & ? & ? & q & Hq & Hd & Hg).
    split; [done|]. split; [lia|]. split; [lia|]. destruct (moves_forth _ _ Hq) as (q' & Hq' & Hid).
    exists q'. split; [done|]. rewrite (material_identity _ _ _ Hid). destruct Hid as (_ & _ & _ & _ & ->). done.
Qed.

Lemma moves_consequence_ok t i c : lifecycles_ok t d →
  lifecycle_consequences d' !! i = Some c → lcq_id c = i ∧ consequence_ok d' c.
Proof.
  intros Hok Hi. destruct (mv_event _ _ _ _ Hm) as (Hpid & _). destruct (mv_consequences _ _ _ _ Hm i c Hi) as [Hk|Ha].
  - destruct Hk as (c0 & Hc0 & E1 & E2 & E3 & E4 & E5 & Hact).
    destruct (ok_consequence _ _ Hok i c0 Hc0) as (Hid & x & q & Hx & Hq & Hr).
    split; [congruence|]. destruct (moves_forth _ _ Hq) as (q' & Hq' & (_ & _ & _ & _ & Hd)).
    exists x, q'. rewrite E2, E3, E4, E5, Hd. split; [|split; [done|by auto]].
    rewrite (mv_events _ _ _ _ Hm), lookup_insert_ne; [done|]. intros Heq.
    pose proof (mv_fresh _ _ _ _ Hm) as Hf. by rewrite Heq, Hx in Hf.
  - destruct Ha as (Hid & He & Hr). split; [done|]. destruct (moves_forth _ _ (mv_row _ _ _ _ Hm)) as (q' & Hq' & (_ & _ & _ & _ & Hd)).
    exists e, q'. rewrite He, (mv_events _ _ _ _ Hm), lookup_insert_eq, Hpid, Hd. done.
Qed.

Lemma moves_ok t : lifecycles_ok t d → t < w_server_now → lifecycles_ok w_server_now d'.
Proof.
  intros Hok Ht. pose proof Hok as [Hp Hu Hc Hd He (log & Hperm & Hs & Hl) Hq]. split.
  - intros i q' Hi. destruct (moves_back _ _ Hi) as (q & Hq0 & (E1 & _ & _ & _ & E5) & _).
    destruct (Hp i q Hq0) as (? & ? & ?). destruct (mv_next _ _ _ _ Hm). rewrite E1, E5. split; [done|]. split; [lia|done].
  - intros i j a b Ha Hb [S1 S2] S3. destruct (moves_back _ _ Ha) as (a0 & Ha0 & (_ & A2 & A3 & _ & A5) & _).
    destruct (moves_back _ _ Hb) as (b0 & Hb0 & (_ & B2 & B3 & _ & B5) & _).
    apply (Hu i j a0 b0 Ha0 Hb0); [split|]; congruence.
  - intros i a dim Ha Hdim. destruct (moves_back _ _ Ha) as (a0 & Ha0 & (_ & A2 & A3 & _ & A5) & _).
    destruct (Hc i a0 dim Ha0 Hdim) as (j & b0 & Hb0 & [S1 S2] & S3).
    destruct (moves_forth _ _ Hb0) as (b & Hb & (_ & B2 & B3 & _ & B5)).
    exists j, b. split; [done|]. split; [split|]; congruence.
  - intros i j a b Ha Hb [S1 S2]. destruct (moves_back _ _ Ha) as (a0 & Ha0 & (_ & A2 & A3 & A4 & A5) & _).
    destruct (moves_back _ _ Hb) as (b0 & Hb0 & (_ & B2 & B3 & B4 & B5) & _).
    rewrite A4, B4. apply (Hd i j a0 b0 Ha0 Hb0). split; congruence.
  - by apply (moves_event_ok t).
  - exists (log ++ [e]). destruct (moves_log t log Hok Ht Hperm Hs) as [H1 H2]. split; [done|]. split; [done|].
    intros i q' Hi. destruct (moves_back _ _ Hi) as (q & Hq0 & (_ & _ & _ & _ & E5) & _).
    destruct (Hl i q Hq0) as (s0 & Hs0 & Hr). exists s0. rewrite E5. split; [done|]. by eapply moves_replay.
  - intros i c Hi. by apply (moves_consequence_ok t).
Qed.
End moves.

(** *** Registration *)
Section registers.
Context (payload : LifecycleSubjectCreate) (d d' : database) (t : datetime).
Context (Hr : registers payload INITIAL_STATES d d') (Hok : lifecycles_ok t d).

Lemma initial_subject i p : initial_row payload INITIAL_STATES d d' i p →
  of_subject (lsc_subject_type payload) (lsc_subject_id payload) p = true.
Proof.
  intros (_ & _ & E1 & E2 & _). unfold of_subject. by rewrite E1, E2, !str_eqb_refl.
Qed.

Lemma subject_same p q ty id :
  same_subject p q → of_subject ty id p = of_subject ty id q.
Proof. intros [E1 E2]. unfold of_subject. by rewrite E1, E2. Qed.

(** two rows of one subject are both old or both new *)
Lemma registers_pair i j p q :
  lifecycle_projections d' !! i = Some p → lifecycle_projections d' !! j = Some q → same_subject p q →
  lifecycle_projections d !! i = Some p ∧ lifecycle_projections d !! j = Some q ∨
  initial_row payload INITIAL_STATES d d' i p ∧ initial_row payload INITIAL_STATES d d' j q.
Proof.
  intros Hi Hj Hs. destruct (rg_rows _ _ _ _ Hr i p Hi) as [Hp|Hp], (rg_rows _ _ _ _ Hr j q Hj) as [Hq|Hq]; auto.
  - pose proof (rg_new _ _ _ _ Hr i p Hp) as Hf. rewrite (subject_same _ _ _ _ Hs) in Hf.
    by rewrite (initial_subject j q Hq) in Hf.
  - pose proof (rg_new _ _ _ _ Hr j q Hq) as Hf. rewrite <- (subject_same _ _ _ _ Hs) in Hf.
    by rewrite (initial_subject i p Hp) in Hf.
Qed.

Lemma initial_fresh log i p : initial_row payload INITIAL_STATES d d' i p →
  log ≡ₚ table_rows (lifecycle_events d) → events_on i log = [].
Proof.
  intros ((Hn & _) & _) Hperm. destruct (events_on i log) as [|e l] eqn:E; [done|]. exfalso.
  assert (Hin : e ∈ events_on i log) by (rewrite E; by left).
  apply filter_elem in Hin as [Hin Hid%bool_decide_eq_true]. rewrite Hperm, table_rows_elem in Hin.
  destruct Hin as [j Hj]. destruct (ok_event _ _ Hok j e Hj) as (_ & _ & _ & q & Hq & _). rewrite Hid in Hq.
  destruct (ok_projection _ _ Hok i q Hq) as (_ & Hlt & _). lia.
Qed.

Lemma registers_ok : lifecycles_ok t d'.
Proof.
  pose proof Hr as [_ Hold Hrows Hall Huniq Eev Ecq Hn]. pose proof Hok as [Hp Hu Hc Hd He (log & Hperm & Hs & Hl) Hq].
  split; rewrite ?Eev, ?Ecq.
  - intros i p Hi. destruct (Hrows i p Hi) as [Hi'|Hi'].
    + destruct (Hp i p Hi') as (? & ? & ?). split; [done|]. split; [lia|done].
    + destruct Hi' as ((_ & Hlt) & Hid & _ & _ & _ & Hin & _). split; [done|]. split; [done|].
      apply initial_iff in Hin. by eexists.
  - intros i j p q Hi Hj Hss Hdim. destruct (registers_pair i j p q Hi Hj Hss) as [[Hi' Hj']|[Hi' Hj']].
    + by apply (Hu i j p q).
    + by apply (Huniq i j p q).
  - intros i p dim Hi Hdim. destruct (Hrows i p Hi) as [Hi'|Hi'].
    + destruct (Hc i p dim Hi' Hdim) as (j & q & Hj & Hs').
      exists j, q. split; [by apply Hold|done].
    + destruct Hdim as [s Hdim%initial_iff]. destruct (Hall dim s Hdim) as (j & q & Hj & Hrow & Hd1 & _).
      exists j, q. split; [done|]. split; [|done]. destruct Hi' as (_ & _ & P1 & P2 & _), Hrow as (_ & _ & Q1 & Q2 & _).
      split; congruence.
  - intros i j p q Hi Hj Hss. destruct (registers_pair i j p q Hi Hj Hss) as [[Hi' Hj']|[Hi' Hj']].
    + by apply (Hd i j p q).
    + destruct Hi' as (_ & _ & _ & _ & P & _), Hj' as (_ & _ & _ & _ & Q & _). congruence.
  - intros i e Hi. destruct (He i e Hi) as (? & ? & ? & p & Hpe & Hrest). split; [done|]. split; [lia|]. split; [done|].
    exists p. split; [by apply Hold|done].
  - exists log. split; [done|]. split; [done|]. intros i p Hi. destruct (Hrows i p Hi) as [Hi'|Hi']; [by apply Hl|].
    rewrite (initial_fresh log i p Hi' Hperm). destruct Hi' as (_ & _ & _ & _ & _ & Hin & Hv & Hlast).
    exists (ilp_state p). apply initial_iff in Hin. split; [done|]. cbn. by rewrite Hv, Hlast.
  - intros i c Hi. destruct (Hq i c Hi) as (Hid & e & p & H1 & H2 & H3). split; [done|].
    exists e, p. rewrite Eev. split; [done|]. split; [by apply Hold|done].
Qed.
End registers.

Lemma step_ok `{World} t d d' : lifecycles_ok t d → t < w_server_now → lifecycle_step d d' →
  lifecycles_ok w_server_now d'.
Proof.
  intros Hok Ht [Hs|payload Hr|p e Hm].
  - apply (ok_later t); [lia|]. by apply (still_ok t d).
  - apply (ok_later t); [lia|]. by apply (registers_ok payload d).
  - by apply (moves_ok d d' p e Hm t).
Qed.

(** ** Dossiers of well-formed lifecycles *)

Lemma event_leb_total a b : event_leb a b = false → event_leb b a = true.
Proof.
  unfold event_leb. rewrite !orb_false_iff, !orb_true_iff, !andb_false_iff, !andb_true_iff,
    !Z.ltb_ge, !Z.ltb_lt, !Z.eqb_neq, !Z.eqb_eq, N.leb_gt, N.leb_le. lia.
Qed.

Lemma event_leb_trans a b c : event_leb a b = true → event_leb b c = true → event_leb a c = true.
Proof.
  unfold event_leb. rewrite !orb_true_iff, !andb_true_iff, !Z.ltb_lt, !Z.eqb_eq, !N.leb_le. lia.
Qed.

Lemma earlier_leb a b : earlier a b → event_leb a b = true.
Proof. unfold earlier, event_leb. intros Hlt. apply Z.ltb_lt in Hlt. by rewrite Hlt. Qed.

Section dossier.
Context (t : datetime) (d : database) (Hok : lifecycles_ok t d).

(** the rows in the order of the dossier are the chronological log *)
Lemma dossier_events log f :
  log ≡ₚ table_rows (lifecycle_events d) → StronglySorted earlier log →
  sort_by event_leb (List.filter f (table_rows (lifecycle_events d))) = List.filter f log.
Proof.
  intros Hperm Hs. apply (StronglySorted_unique_strong (fun a b => event_leb a b = true)).
  - intros a b Ha Hb Hab Hba.
    assert (Hrow : ∀ x, x ∈ List.filter f (table_rows (lifecycle_events d)) → lifecycle_events d !! ile_id x = Some x).
    { intros x [Hx _]%filter_elem. apply table_rows_elem in Hx as [i Hx].
      destruct (ok_event _ _ Hok i x Hx) as (Hid & _). by rewrite Hid. }
    rewrite elem_of_sort_by in Ha. rewrite (filter_perm _ _ _ Hperm) in Hb.
    apply Hrow in Ha, Hb. enough (ile_id a = ile_id b) by congruence.
    revert Hab Hba. unfold event_leb. rewrite !orb_true_iff, !andb_true_iff, !Z.ltb_lt, !Z.eqb_eq, !N.leb_le. lia.
  - apply sort_by_sorted; [apply event_leb_total|apply event_leb_trans].
  - apply filter_sorted. by eapply sorted_weaken, Hs; intros; apply earlier_leb.
  - rewrite sort_by_perm. by apply filter_perm.
Qed.

Lemma in_subject_row ty id p :
  p ∈ List.filter (of_subject ty id) (table_rows (lifecycle_projections d)) ↔
  lifecycle_projections d !! ilp_id p = Some p ∧ of_subject ty id p = true.
Proof.
  rewrite filter_elem, table_rows_elem. split; intros [H1 H2]; (split; [|done]).
  - destruct H1 as [i Hi]. destruct (ok_projection _ _ Hok i p Hi) as (-> & _). done.
  - by eexists.
Qed.

Lemma of_subject_same ty id p q : of_subject ty id p = true → of_subject ty id q = true → same_subject p q.
Proof.
  unfold of_subject. rewrite !andb_true_iff, !str_eqb_spec. intros [E1 E2] [E3 E4]. split; congruence.
Qed.

Section subject.
Context (ty id : string) (ps : list InstitutionalLifecycleProjection) (log : list InstitutionalLifecycleEvent).
Context (Hps : ∀ p, p ∈ ps ↔ lifecycle_projections d !! ilp_id p = Some p ∧ of_subject ty id p = true).
Context (Hperm : log ≡ₚ table_rows (lifecycle_events d)).

Let on_subject (e : InstitutionalLifecycleEvent) : bool := bool_decide (ile_projection_id e ∈ ilp_id <$> ps).

Lemma log_row e : e ∈ log → ∃ p, lifecycle_projections d !! ile_projection_id e = Some p ∧
  ile_dimension e = ilp_dimension p ∧ ile_record_digest e = digest_document (_event_material p e) ∧
  ilp_id p = ile_projection_id e.
Proof.
  rewrite Hperm, table_rows_elem. intros [i Hi]. destruct (ok_event _ _ Hok i e Hi) as (_ & _ & _ & p & Hp & Hd & Hg).
  exists p. split; [done|]. split; [done|]. split; [done|]. by destruct (ok_projection _ _ Hok _ _ Hp).
Qed.

Lemma check_event_ok e : e ∈ log → check_event ps e = Ok tt.
Proof.
  intros (p & Hp & Hd & Hg & Hid)%log_row. unfold check_event.
  destruct (ok_projection _ _ Hok _ _ Hp) as (_ & _ & [s Hs]). rewrite Hd, Hs. cbn.
  destruct (List.find _ ps) as [q|] eqn:Hf; [|done]. apply find_some in Hf as [Hin Hq%bool_decide_eq_true].
  apply list_elem_of_In, Hps in Hin as [Hq' _]. rewrite Hq, Hp in Hq'. injection Hq' as <-.
  by rewrite Hg, str_eqb_refl.
Qed.

(** the events a projection replays are those recorded on it *)
Lemma dimension_events p : p ∈ ps →
  List.filter (fun e => str_eqb (ile_dimension e) (ilp_dimension p)) (List.filter on_subject log) =
  events_on (ilp_id p) log.
Proof.
  intros [Hp Hsub]%Hps. rewrite filter_filter. apply filter_ext_elem. intros e He.
  destruct (log_row e He) as (q & Hq & Hd & _ & Hid). apply Bool.eq_iff_eq_true.
  unfold on_subject. rewrite andb_true_iff, !bool_decide_eq_true, str_eqb_spec, list_elem_of_fmap. split.
  - intros [(r & Hr & [Hr' Hrs]%Hps) Hdim]. rewrite Hr in Hq. rewrite Hr' in Hq. injection Hq as <-.
    rewrite Hr. apply (ok_unique _ _ Hok _ _ r p Hr' Hp); [by eapply of_subject_same|congruence].
  - intros Heq. split; [|by rewrite Heq, Hp in Hq; injection Hq as <-].
    exists p. split; [done|]. by apply Hps.
Qed.

Lemma verify_replay_ok :
  (∀ i p, lifecycle_projections d !! i = Some p → ∃ s0, dict_get (ilp_dimension p) INITIAL_STATES = Some s0 ∧
     replay_events (s0, 0, None) (events_on i log) = Ok (ilp_state p, ilp_version p, ilp_last_event_digest p)) →
  _verify_replay ps (List.filter on_subject log) = Ok tt.
Proof.
  intros Hl. unfold _verify_replay. rewrite (each_Ok (check_event ps)) by (intros e [He _]%filter_elem; by apply check_event_ok).
  cbn. apply each_Ok. intros p Hp. unfold check_projection. rewrite dimension_events by done.
  apply Hps in Hp as [Hp _]. destruct (Hl _ p Hp) as (s0 & -> & Hr). cbn. rewrite Hr. cbn.
  by rewrite bool_decide_true.
Qed.
End subject.

Lemma projections_once : NoDup (table_rows (lifecycle_projections d)).
Proof.
  apply NoDup_fmap_2_strong; [|apply NoDup_map_to_list]. intros [i p] [j q] Hi%elem_of_map_to_list Hj%elem_of_map_to_list.
  cbn. intros ->. destruct (ok_projection _ _ Hok i q Hi) as (<- & _), (ok_projection _ _ Hok j q Hj) as (<- & _). done.
Qed.

(** no dimension appears twice *)
Lemma dimensions_once ty id :
  NoDup (ilp_dimension <$> sort_by by_dimension (List.filter (of_subject ty id) (table_rows (lifecycle_projections d)))).
Proof.
  rewrite sort_by_perm. apply NoDup_fmap_2_strong.
  - intros p q [Hp Hps]%in_subject_row [Hq Hqs]%in_subject_row Hdim.
    assert (ilp_id p = ilp_id q) by (eapply (ok_unique _ _ Hok); [done..| |done]; by eapply of_subject_same). congruence.
  - apply NoDup_ListNoDup, List.NoDup_filter, NoDup_ListNoDup, projections_once.
Qed.

(** the dossier of a registered subject: its four projections, in the order of
    their dimensions, and its events in the order they happened *)
Lemma dossier_replays p s :
  db s = d → lifecycle_projections d !! ilp_id p = Some p →
  ∃ ds, lifecycle_dossier (ilp_subject_type p) (ilp_subject_id p) s = (Ok ds, s) ∧
    (∀ q, q ∈ ds_projections ds ↔ lifecycle_projections d !! ilp_id q = Some q ∧ same_subject q p) ∧
    ds_subject_digest ds = ilp_subject_digest p ∧
    (∀ e, e ∈ ds_events ds ↔ lifecycle_events d !! ile_id e = Some e ∧ ∃ q, q ∈ ds_projections ds ∧ ilp_id q = ile_projection_id e) ∧
    StronglySorted earlier (ds_events ds) ∧ NoDup (ilp_dimension <$> ds_projections ds) ∧
    _verify_replay (ds_projections ds) (ds_events ds) = Ok tt.
Proof.
  intros Hdb Hp. set (ty := ilp_subject_type p). set (id := ilp_subject_id p).
  set (ps := sort_by by_dimension (List.filter (of_subject ty id) (table_rows (lifecycle_projections d)))).
  assert (Hps : ∀ q, q ∈ ps ↔ lifecycle_projections d !! ilp_id q = Some q ∧ of_subject ty id q = true).
  { intros q. unfold ps. rewrite elem_of_sort_by. apply in_subject_row. }
  assert (Hself : of_subject ty id p = true) by (unfold of_subject; by rewrite !str_eqb_refl).
  destruct (ok_log _ _ Hok) as (log & Hperm & Hs & Hl).
  unfold lifecycle_dossier, _projections, select_rows, lift, mbind, Sess_bind, gets. cbv beta iota. rewrite Hdb. cbn.
  fold ps. assert (Hin : p ∈ ps) by by apply Hps.
  destruct ps as [|first rest] eqn:E; [by apply elem_of_nil in Hin|]. rewrite <- E in Hps |- *. rewrite ?Hdb.
  rewrite (dossier_events log _ Hperm Hs), (verify_replay_ok ty id ps log Hps Hperm Hl). eexists. split; [reflexivity|].
  cbn. split; [|split; [|split; [|split; [by apply filter_sorted|]]]].
  - intros q. rewrite Hps. split; intros [Hq Hsub]; (split; [done|]); [by eapply of_subject_same|].
    destruct Hsub as [E1 E2]. unfold of_subject. by rewrite E1, E2, !str_eqb_refl.
  - assert (Hf : first ∈ ps) by (rewrite E; by left). apply Hps in Hf as [Hf Hfs].
    apply (ok_digest _ _ Hok _ _ first p Hf Hp). by eapply of_subject_same.
  - intros e. rewrite filter_elem, bool_decide_eq_true, list_elem_of_fmap, Hperm, table_rows_elem. split.
    + intros [[i Hi] (q & Hq & Hqs)]. destruct (ok_event _ _ Hok i e Hi) as (-> & _). split; [done|]. by exists q.
    + intros [He (q & Hqs & Hq)]. split; [by eexists|]. by exists q.
  - split; [|by apply (verify_replay_ok ty id ps log Hps Hperm Hl)]. by apply (dimensions_once ty id).
Qed.
End dossier.
