(* ===== verification/LifecycleTheorems.v ===== *)
(** * What the institutional lifecycles promise

    The contract of the lifecycle and consequence routes: whatever requests came
    before, the dossier of every registered subject replays; every request refines
    one move of the abstract state machines; and every move rests on a recorded,
    authorised decision. *)
From S2P Require Import Prelude Py Sha256 Models Store Logic GovernanceFacts WorkloadTheorems Authority AuthorityTheorems Lifecycles LifecycleFacts.

Open Scope Z_scope.

(** ** Views *)
Lemma projection_in_spec ty id dim p :
  projection_in ty id dim p = true ↔ ilp_subject_type p = ty ∧ ilp_subject_id p = id ∧ ilp_dimension p = dim.
Proof. unfold projection_in, of_subject. rewrite !andb_true_iff, !str_eqb_spec. tauto. Qed.

Section views.
Context (t : datetime) (d : database) (Hok : lifecycles_ok t d).

Lemma view_spec ty id dim st v :
  view d ty id dim = Some (st, v) ↔ ∃ i p, lifecycle_projections d !! i = Some p ∧
    projection_in ty id dim p = true ∧ ilp_state p = st ∧ ilp_version p = v.
Proof.
  unfold view. destruct (head _) as [p|] eqn:Hh; cbn.
  - destruct (select_one_Some _ _ _ _ Hh) as [Hp [i Hi]]. split.
    + intros [= <- <-]. by exists i, p.
    + intros (j & q & Hj & Hq & <- & <-). enough (p = q) by congruence.
      apply projection_in_spec in Hp as (P1 & P2 & P3), Hq as (Q1 & Q2 & Q3).
      assert (i = j) as ->; [|congruence]. apply (ok_unique _ _ Hok i j p q Hi Hj); [split|]; congruence.
  - split; [done|]. intros (i & p & Hi & Hp & _). by rewrite (select_one_None _ _ _ Hh i p Hi) in Hp.
Qed.

Lemma states_of_view ty id rows k v :
  (∀ p, p ∈ rows → (∃ i, lifecycle_projections d !! i = Some p) ∧ of_subject ty id p = true) →
  states_of rows !! k = Some v → viewed_states d ty id k = Some v.
Proof.
  intros Hrows Hk. apply elem_of_list_to_map_2 in Hk. rewrite elem_of_reverse, list_elem_of_fmap in Hk.
  destruct Hk as (p & [= -> ->] & Hp). destruct (Hrows p Hp) as [[i Hi] Hs].
  unfold viewed_states. rewrite (proj2 (view_spec ty id (ilp_dimension p) (ilp_state p) (ilp_version p))); [done|].
  exists i, p. unfold projection_in. by rewrite Hs, str_eqb_refl.
Qed.
End views.

Lemma either_differs_false states a x b y :
  either_differs states a x b y = Ok false → states !! a = Some x ∧ states !! b = Some y.
Proof.
  unfold either_differs. destruct (states !! a) as [s|]; cbn; [|done].
  destruct (str_eqb s x) eqn:E; cbn; [|done]. apply str_eqb_spec in E as ->.
  destruct (states !! b) as [s|]; cbn; [|done]. intros [= E%negb_false_iff%str_eqb_spec]. by subst.
Qed.

Lemma guard_spec dim command states (f : string → option string) :
  (∀ k v, states !! k = Some v → f k = Some v) →
  validate_cross_dimension_guard dim command states = Ok tt → guarded f dim command.
Proof.
  intros Hf. unfold validate_cross_dimension_guard. intros Hv. split; intros -> Hin; apply str_in_spec in Hin.
  - rewrite Hin in Hv. cbn in Hv. destruct (either_differs _ _ _ _ _) as [[]|] eqn:E; [done| |done].
    apply either_differs_false in E as [E1 E2]. auto.
  - rewrite Hin in Hv. cbn in Hv. destruct (either_differs _ _ _ _ _) as [[]|] eqn:E; [done| |done].
    apply either_differs_false in E as [E1 E2]. auto.
Qed.

Lemma lift_Ok {A} (m : outcome A) s a s' : lift m s = (Ok a, s') → m = Ok a ∧ s' = s.
Proof. by intros [= -> ->]. Qed.

Lemma if_Ok {A} (b : bool) (e : exn) (m : Sess A) s a s' :
  (if b then raise e else m) s = (Ok a, s') → b = false ∧ m s = (Ok a, s').
Proof. by destruct b. Qed.

(** ** Calls that only read *)
Definition reads {A} (m : Sess A) : Prop := preserves (fun d => d) m.

Lemma reads_lift {A} (m : outcome A) : reads (lift m).
Proof. done. Qed.
#[export] Hint Extern 1 (preserves _ (lift _)) => done : frame.

Section reads.
Context `{World}.

Lemma reads_risk004 ty digest action evidence : reads (require_risk004_evidence ty digest action evidence).
Proof. unfold reads, require_risk004_evidence. frame. Qed.

Lemma reads_projections ty id : reads (_projections ty id).
Proof. unfold reads, _projections. frame. Qed.

Lemma reads_dossier ty id : reads (lifecycle_dossier ty id).
Proof. unfold reads, lifecycle_dossier, _projections. frame. Qed.

Lemma reads_check_transition ty id payload p : reads (check_transition ty id payload p).
Proof. unfold reads, check_transition, require_risk004_evidence, _projections. frame. Qed.

Lemma reads_check_consequence ty id payload p : reads (check_consequence ty id payload p).
Proof. unfold reads, check_consequence, require_risk004_evidence, _states. frame. Qed.
End reads.

(** ** Calls take steps *)
Section calls.
Context `{World} (t : datetime) (d : database) (Hok : lifecycles_ok t d).

Definition ready (s : session) : Prop := db s = d ∧ saved s = d.

Lemma still_refl : still d d.
Proof. repeat split. lia. Qed.

Lemma ready_saved s : ready s → lifecycle_step d (saved s).
Proof. intros [_ ->]. by apply step_still, still_refl. Qed.

Lemma wp_reads {A} (m : Sess A) Q s :
  reads m → ready s → (∀ a s', m s = (Ok a, s') → ready s' → Q a s') → wp (lifecycle_step d) m Q s.
Proof.
  intros Hm Hs HQ. unfold wp. destruct (m s) as [[a|e] s'] eqn:E; destruct (preserves_run _ _ _ _ _ Hm E) as [H1 H2].
  - apply HQ; [done|]. destruct Hs. split; congruence.
  - rewrite H2. by apply ready_saved.
Qed.

(** the working rows after an authorised decision *)
Definition authorised (request : AuthorityResolutionRequest) (r : AuthorityDecisionRecord) (s : session) : Prop :=
  (∃ n, grounded d (w_now n) request) ∧ recorded request "authorized" r d (db s) ∧ saved s = d ∧
  db s = d <| next_id := N.succ (next_id d) |> <| decision_records := decision_records d ++ [r] |>.

Lemma wp_authorize request Q s :
  ready s → (∀ r s', authorised request r s' → Q r s') →
  wp (lifecycle_step d) (authorize_change request) Q s.
Proof.
  intros [Hdb Hsv] HQ. unfold authorize_change. apply wp_if; intros _.
  2:{ apply wp_raise. rewrite Hsv. by apply step_still, still_refl. }
  unfold wp. pose proof (resolve_authority_cases request s) as Hc.
  destruct (resolve_authority request s) as [o s'] eqn:E.
  destruct (resolve_authority_effect _ _ _ _ E) as [(Hs & _ & e & ->)|(r & Hd & Hcase)].
  - rewrite Hs, Hsv. by apply step_still, still_refl.
  - rewrite Hdb in Hd. destruct Hcase as [[[e ->] Hs]|[-> Hs]].
    + rewrite Hs, Hd. apply step_still. repeat split. cbn. lia.
    + rewrite Hdb in Hc. destruct Hc as (Hg & Hr & _). apply HQ. split; [by eexists|]. split; [done|].
      split; [congruence|done].
Qed.

Lemma projections_run ty id s rows s' :
  _projections ty id s = (Ok rows, s') → s' = s ∧ ∀ p, p ∈ rows →
    (∃ i, lifecycle_projections (db s) !! i = Some p) ∧ of_subject ty id p = true.
Proof.
  unfold _projections, select_rows, mbind, Sess_bind, gets, mret, Sess_ret. intros [= <- <-]. split; [done|].
  intros p. rewrite elem_of_sort_by. intros Hin.
  apply (select_rows_elem lifecycle_projections) in Hin as [H1 H2]. done.
Qed.

Lemma states_run ty id s m s' :
  _states ty id s = (Ok m, s') → ∃ rows, m = states_of rows ∧ ∀ p, p ∈ rows →
    (∃ i, lifecycle_projections (db s) !! i = Some p) ∧ of_subject ty id p = true.
Proof.
  unfold _states, select_rows, mbind, Sess_bind, gets, mret, Sess_ret. intros [= <- <-]. eexists. split; [done|].
  intros p Hin. apply (select_rows_elem lifecycle_projections) in Hin as [H1 H2]. done.
Qed.

(** what a new command was checked for *)
Lemma check_transition_run ty id payload p s to s' :
  ready s → check_transition ty id payload p s = (Ok to, s') →
  ilp_subject_digest p = itc_subject_digest payload ∧ ilp_version p = itc_expected_version payload ∧
  next_state (itc_dimension payload) (ilp_state p) (itc_command payload) = Ok to ∧
  guarded (viewed_states d ty id) (itc_dimension payload) (itc_command payload).
Proof.
  intros Hs. unfold check_transition. intros Hrun. apply if_Ok in Hrun as [Hd Hrun].
  apply negb_false_iff, str_eqb_spec in Hd. run_ok Hrun. apply lift_Ok in E as [Hv ->].
  unfold validate_expected_version in Hv. destruct (Z.eqb_spec (ilp_version p) (itc_expected_version payload)) as [Hver|]; [|done].
  run_ok Hrun. destruct (preserves_run (fun d => d) utc_now _ _ _ (preserves_utc_now _) E) as [E1 E2].
  apply if_Ok in Hrun as [_ Hrun]. apply if_Ok in Hrun as [_ Hrun].
  run_ok Hrun. apply lift_Ok in E0 as [Hn ->]. run_ok Hrun.
  assert (Hr : reads (if str_eqb (itc_dimension payload) "capital" && str_in (itc_command payload) ["qualify"; "allocate"]
    then require_risk004_evidence ty (itc_subject_digest payload) "allocate" (itc_evidence payload) else mret tt)).
  { destruct (_ && _); [apply reads_risk004|done]. }
  destruct (preserves_run _ _ _ _ _ Hr E0) as [E3 E4]. run_ok Hrun. apply projections_run in E5 as [-> Hrows].
  run_ok Hrun. apply lift_Ok in E5 as [Hg ->]. apply if_Ok in Hrun as [_ Hrun]. injection Hrun as -> _.
  split; [done|]. split; [done|]. split; [done|]. match type of Hg with _ = Ok ?u => destruct u end.
  eapply guard_spec; [|exact Hg].
  intros k v. apply (states_of_view t d Hok). destruct Hs as [Hdb _].
  intros q Hq. specialize (Hrows q Hq). by rewrite E3, E1, Hdb in Hrows.
Qed.

Lemma check_consequence_run ty id payload p s to s' :
  ready s → check_consequence ty id payload p s = (Ok to, s') →
  ilp_subject_digest p = cqc_subject_digest payload ∧ ilp_version p = cqc_expected_version payload ∧
  consequence_rule (cqc_dimension payload) (ilp_state p) (cqc_action payload) to ∧
  (cqc_action payload ∈ ["promote"; "reinstate"] → guarded (viewed_states d ty id) (cqc_dimension payload)
     (if str_eqb (cqc_dimension payload) "operations" then "nominate" else "qualify")).
Proof.
  intros Hs. unfold check_consequence. intros Hrun. run_ok Hrun. apply lift_Ok in E as [Hv ->].
  unfold _validate_projection, validate_expected_version in Hv.
  destruct (str_eqb (ilp_subject_digest p) (cqc_subject_digest payload)) eqn:Hd; cbn in Hv; [|done].
  apply str_eqb_spec in Hd. destruct (Z.eqb_spec (ilp_version p) (cqc_expected_version payload)) as [Hver|]; [|done].
  run_ok Hrun. apply lift_Ok in E as [Hn ->]. run_ok Hrun.
  assert (Hr : reads (if str_eqb (cqc_dimension payload) "operations" then require_risk004_evidence ty
    (cqc_subject_digest payload) (risk_action (cqc_action payload)) (cqc_evidence payload) else mret tt)).
  { destruct (str_eqb _ _); [apply reads_risk004|done]. }
  destruct (preserves_run _ _ _ _ _ Hr E) as [E1 _]. run_ok Hrun. apply states_run in E0 as (rows & -> & Hrows).
  run_ok Hrun. injection Hrun as <- <-. split; [done|]. split; [done|]. split.
  - unfold consequence_rule, consequence_state in *. by destruct (dict_get2 _ _ _); [injection Hn as ->|].
  - intros Hin%str_in_spec. rewrite Hin in E0. apply lift_Ok in E0 as [Hg _]. match type of Hg with _ = Ok ?u => destruct u end.
    eapply guard_spec; [|exact Hg]. intros k v. apply (states_of_view t d Hok). destruct Hs as [Hdb _].
    intros q Hq. specialize (Hrows q Hq). by rewrite E1, Hdb in Hrows.
Qed.

Lemma wp_new_id I Q s :
  Q (next_id (db s)) (s <| db := db s <| next_id := N.succ (next_id (db s)) |> |>) → wp I fresh_id Q s.
Proof. done. Qed.

Lemma wp_insert_event I e Q s :
  I (saved s) →
  (lifecycle_events (db s) !! ile_id e = None →
   Q tt (s <| db := set_field lifecycle_events (<[ile_id e := e]> (lifecycle_events (db s))) (db s) |>)) →
  wp I (insert_event e) Q s.
Proof.
  intros HI HQ. apply wp_bind, wp_gets. destruct (head _); [by apply wp_raise|]. by apply wp_insert.
Qed.

Lemma wp_insert_consequence I c Q s :
  I (saved s) →
  (lifecycle_consequences (db s) !! lcq_id c = None →
   Q tt (s <| db := set_field lifecycle_consequences (<[lcq_id c := c]> (lifecycle_consequences (db s))) (db s) |>)) →
  wp I (insert_consequence c) Q s.
Proof.
  intros HI HQ. apply wp_bind, wp_gets. destruct (head _); [by apply wp_raise|]. by apply wp_insert.
Qed.

(** the projection a call works on *)
Lemma wp_lookup ty id dim Q s :
  ready s → (∀ o, (∀ p, o = Some p → lifecycle_projections d !! ilp_id p = Some p ∧
    projection_in ty id dim p = true) → Q o s) →
  wp (lifecycle_step d) (lookup_projection ty id dim) Q s.
Proof.
  intros [Hdb _] HQ. apply wp_gets. apply HQ. intros p Hp. rewrite Hdb in Hp.
  apply (select_one_Some lifecycle_projections) in Hp as [Hp [i Hi]]. split; [|done].
  by destruct (ok_projection _ _ Hok i p Hi) as (-> & _).
Qed.

Lemma next_state_legal f dim from command to :
  next_state dim from command = Ok to → guarded f dim command → legal f dim from command to.
Proof.
  unfold next_state. destruct (dict_get dim TRANSITIONS) as [table|] eqn:Ha; cbn; [|done].
  destruct (dict_get2 from command table) eqn:H2; [|done]. intros [= ->] Hg. by eapply legal_transition.
Qed.

Lemma isoformat_utc a : aw_offset a = 0 → isoformat_aware a = isoformat (aw_instant a).
Proof.
  destruct a as [i o]. cbn. intros ->. unfold isoformat_aware, isoformat. cbn [aw_instant aw_offset].
  change (seconds 0) with 0. by rewrite Z.add_0_r.
Qed.

(** the decision stays named by what is written after it *)
Lemma authorised_decided request r s d' p e :
  authorised request r s → decision_records d' = decision_records (db s) →
  ile_authority_decision_id e = ar_id r → ile_actor e = arq_actor request →
  arq_object_type request = ilp_subject_type p → arq_object_id request = ilp_subject_id p →
  arq_object_digest request = ilp_subject_digest p → decided d d' p e.
Proof.
  intros ((n & Hg) & (Hr & Hrest) & _) Hd Hid Hactor H1 H2 H3. exists request, r, n.
  split; [done|]. split; [split; [by rewrite Hd|done]|]. by repeat split.
Qed.

Lemma transition_steps ty id payload s :
  aw_offset (itc_effective_at payload) = 0 → ready s →
  wp (lifecycle_step d) (transition ty id payload) (fun _ s' => lifecycle_step d (saved s')) s.
Proof.
  intros Hutc Hs. unfold transition. apply wp_bind, wp_gets. destruct (head _) as [e|].
  - apply wp_bind, wp_get_row. destruct (_ !! _); [apply wp_if; intros _|]; by apply ready_saved.
  - apply wp_bind, wp_lookup; [done|]. intros [p|] Hp; [|by apply ready_saved].
    destruct (Hp p eq_refl) as [Hrow (P1 & P2 & P3)%projection_in_spec].
    apply wp_bind, wp_reads; [apply reads_check_transition|done|]. intros to s1 Hc Hs1.
    apply check_transition_run in Hc as (Hdig & Hver & Hnext & Hg); [|done].
    apply wp_bind, wp_reads; [apply reads_lift|done|]. intros decision s2 _ Hs2.
    apply wp_bind, wp_authorize; [done|]. intros r s3 Ha. pose proof Ha as (_ & _ & Hsv & Hdb).
    apply wp_bind, wp_new_id. apply wp_bind, wp_utc_now. intros now _.
    apply wp_bind, wp_alter. apply wp_bind, wp_insert_event; [cbn; rewrite Hsv; apply step_still, still_refl|].
    intros Hfresh. apply wp_bind, wp_commit, wp_ret. cbn in Hfresh. rewrite Hdb in Hfresh. cbn in Hfresh.
    apply (step_move _ _ p (transition_event (next_id (db s3)) p payload to r)). split.
    + exact Hrow.
    + exists now. cbn. by rewrite Hdb.
    + cbn. by rewrite Hdb.
    + cbn. by rewrite Hdb.
    + cbn. rewrite Hdb. cbn. lia.
    + split; [done|]. split; [cbn; by rewrite P3|]. split; [done|]. split; [done|]. split; [done|].
      unfold transition_event, _event_material. cbn -[isoformat isoformat_aware digest_document event_document].
      by rewrite Hver, isoformat_utc.
    + cbn. rewrite P1, P2, P3. by apply next_state_legal.
    + cbn. rewrite Hdb. cbn. intros i c Hc. left. exists c. done.
    + eapply authorised_decided; [exact Ha|cbn; by rewrite Hdb|done..].
Qed.

Lemma wp_event p command_id command to actor authority_id evidence reason Q s :
  lifecycle_step d (saved s) →
  (∀ now e s', e = consequence_event (next_id (db s)) p command_id command to actor authority_id evidence reason now →
     lifecycle_events (db s) !! ile_id e = None → saved s' = saved s →
     db s' = db s <| next_id := N.succ (next_id (db s)) |>
       <| lifecycle_events := <[ile_id e := e]> (lifecycle_events (db s)) |>
       <| lifecycle_projections := alter (moved e now) (ilp_id p) (lifecycle_projections (db s)) |> →
     Q e s') →
  wp (lifecycle_step d) (_event p command_id command to actor authority_id evidence reason) Q s.
Proof.
  intros HI HQ. unfold _event. apply wp_bind, wp_utc_now. intros now _. apply wp_bind, wp_new_id.
  apply wp_bind, wp_insert_event; [done|]. intros Hf. apply wp_bind, wp_alter, wp_ret.
  eapply HQ; [reflexivity|exact Hf|reflexivity|reflexivity].
Qed.

(** the rows of the consequences after one is added and another closed *)
Lemma closed_rows (cs : gmap uuid LifecycleConsequence) id new cid status (by_id : uuid) i c :
  status ≠ "active" →
  alter (fun c => c <| lcq_status := status |> <| lcq_reversed_by_id := Some by_id |>) cid
    (<[id := new]> cs) !! i = Some c →
  ∃ c0, (i = id ∧ c0 = new ∨ cs !! i = Some c0) ∧ lcq_id c = lcq_id c0 ∧ lcq_event_id c = lcq_event_id c0 ∧
    lcq_rollback_state c = lcq_rollback_state c0 ∧ lcq_action c = lcq_action c0 ∧
    lcq_resulting_state c = lcq_resulting_state c0 ∧ (lcq_status c = "active" → lcq_status c0 = "active").
Proof.
  intros Hst. assert (Hin : ∀ j x, <[id := new]> cs !! j = Some x → j = id ∧ x = new ∨ cs !! j = Some x).
  { intros j x [[<- <-]|[_ Hx]]%lookup_insert_Some; [by left|by right]. }
  intros [(<- & x & Hx & ->)|[Hne Hx]]%lookup_alter_Some.
  - exists x. split; [by apply Hin|]. by repeat split.
  - exists c. split; [by apply Hin|]. by repeat split.
Qed.

Lemma followed p e new i c :
  (∃ c0, (i = lcq_id new ∧ c0 = new ∨ lifecycle_consequences d !! i = Some c0) ∧ lcq_id c = lcq_id c0 ∧
    lcq_event_id c = lcq_event_id c0 ∧ lcq_rollback_state c = lcq_rollback_state c0 ∧
    lcq_action c = lcq_action c0 ∧ lcq_resulting_state c = lcq_resulting_state c0 ∧
    (lcq_status c = "active" → lcq_status c0 = "active")) →
  consequence_added p e (lcq_id new) new →
  consequence_kept d i c ∨ consequence_added p e i c.
Proof.
  intros (c0 & [[-> ->]|Hc0] & E1 & E2 & E3 & E4 & E5 & E6) (A1 & A2 & A3).
  - right. split; [done|]. split; [congruence|]. rewrite E3, E4, E5. auto.
  - left. exists c0. by repeat split.
Qed.

(** a move made through [_event] *)
Lemma consequence_moves request r s0 s' d' p command_id command to evidence reason now :
  let e := consequence_event (next_id (db s0)) p command_id command to (arq_actor request) (ar_id r)
             evidence reason now in
  authorised request r s0 → lifecycle_projections d !! ilp_id p = Some p →
  arq_object_type request = ilp_subject_type p → arq_object_id request = ilp_subject_id p →
  arq_object_digest request = ilp_subject_digest p →
  lifecycle_events (db s0) !! ile_id e = None →
  db s' = db s0 <| next_id := N.succ (next_id (db s0)) |>
       <| lifecycle_events := <[ile_id e := e]> (lifecycle_events (db s0)) |>
       <| lifecycle_projections := alter (moved e now) (ilp_id p) (lifecycle_projections (db s0)) |> →
  lifecycle_projections d' = lifecycle_projections (db s') → lifecycle_events d' = lifecycle_events (db s') →
  decision_records d' = decision_records (db s') → (next_id (db s') ≤ next_id d')%N →
  legal (viewed_states d (ilp_subject_type p) (ilp_subject_id p)) (ilp_dimension p) (ilp_state p) command to →
  (∀ i c, lifecycle_consequences d' !! i = Some c → consequence_kept d i c ∨ consequence_added p e i c) →
  moves d d' p e.
Proof.
  intros e Ha Hrow H1 H2 H3 Hf Hdb E1 E2 E3 E4 Hl Hc. pose proof Ha as (_ & _ & _ & Hs0).
  rewrite Hdb in E1, E2, E3, E4. cbn in E1, E2, E3, E4. rewrite Hs0 in Hf, E1, E2, E4. cbn in Hf, E1, E2, E4. split.
  - done.
  - exists now. rewrite E1. unfold e. by rewrite Hs0.
  - rewrite E2. unfold e. by rewrite Hs0.
  - exact Hf.
  - unfold e. cbn. rewrite Hs0. cbn. lia.
  - by repeat split.
  - done.
  - done.
  - by eapply authorised_decided.
Qed.

Lemma apply_steps ty id payload s :
  ready s → wp (lifecycle_step d) (apply_consequence ty id payload) (fun _ s' => lifecycle_step d (saved s')) s.
Proof.
  intros Hs. unfold apply_consequence. apply wp_bind, wp_gets. destruct (head _) as [c|].
  - apply wp_bind, wp_reads; [unfold reads, event_and_projection, none_attribute; frame|done|].
    intros [e p] s1 _ Hs1. apply wp_if; intros _; [by apply ready_saved|]. by apply wp_raise, ready_saved.
  - apply wp_bind. unfold _locked_projection. apply wp_bind, wp_lookup; [done|].
    intros [p|] Hp; [|by apply wp_raise, ready_saved]. apply wp_ret.
    destruct (Hp p eq_refl) as [Hrow (P1 & P2 & P3)%projection_in_spec].
    apply wp_bind, wp_reads; [apply reads_check_consequence|done|]. intros to s1 Hc Hs1.
    apply check_consequence_run in Hc as (Hdig & Hver & Hrule & Hg); [|done].
    apply wp_bind, wp_reads; [apply reads_lift|done|]. intros decision s2 _ Hs2.
    apply wp_bind, wp_authorize; [done|]. intros r s3 Ha. pose proof Ha as (_ & _ & Hsv & Hdb).
    apply wp_bind, wp_gets. set (prior := max_by _ _).
    apply wp_bind, wp_event; [rewrite Hsv; apply step_still, still_refl|]. intros now e s4 He Hf Hsv4 Hdb4.
    apply wp_bind, wp_new_id. set (new := new_consequence _ _ _ _ _).
    apply wp_bind, wp_insert_consequence; [cbn; rewrite Hsv4, Hsv; apply step_still, still_refl|]. intros _.
    assert (Hcs : lifecycle_consequences (db s4) = lifecycle_consequences d) by (rewrite Hdb4; cbn; by rewrite Hdb).
    assert (Hadd : consequence_added p e (lcq_id new) new).
    { split; [done|]. split; [done|]. intros _. cbn. rewrite He, P3. exact Hrule. }
    assert (Hl : legal (viewed_states d (ilp_subject_type p) (ilp_subject_id p)) (ilp_dimension p) (ilp_state p)
      (cqc_action payload) to) by (rewrite P1, P2, P3; by apply legal_consequence).
    assert (Hmoves : ∀ d', lifecycle_projections d' = lifecycle_projections (db s4) →
      lifecycle_events d' = lifecycle_events (db s4) → decision_records d' = decision_records (db s4) →
      (next_id (db s4) ≤ next_id d')%N →
      (∀ i c, lifecycle_consequences d' !! i = Some c → consequence_kept d i c ∨ consequence_added p e i c) →
      lifecycle_step d d').
    { intros d' E1 E2 E3 E4 E5. apply (step_move _ _ p e). subst e.
      by eapply (consequence_moves (consequence_request ty id payload decision) r s3 s4 d' p). }
    destruct prior as [c|].
    + apply wp_bind, wp_alter, wp_bind, wp_commit, wp_ret. apply Hmoves; cbn; [done..|lia|].
      rewrite Hcs. intros i x Hx. eapply followed; [|exact Hadd]. by eapply closed_rows in Hx.
    + apply wp_bind, wp_ret, wp_bind, wp_commit, wp_ret. apply Hmoves; cbn; [done..|lia|].
      rewrite Hcs. intros i x Hx. eapply followed; [|exact Hadd].
      exists x. split; [|by repeat split]. apply lookup_insert_Some in Hx as [[<- <-]|[_ Hx]]; [by left|by right].
Qed.

Lemma reverse_steps consequence_id payload status s :
  status ≠ "active" → ready s →
  wp (lifecycle_step d) (reverse_consequence consequence_id payload status)
    (fun _ s' => lifecycle_step d (saved s')) s.
Proof.
  intros Hst Hs. unfold reverse_consequence. apply wp_bind, wp_gets. destruct (head _) as [c|].
  { apply wp_if; intros _; [by apply wp_raise, ready_saved|by apply ready_saved]. }
  apply wp_bind, wp_get_row. pose proof Hs as [Hd0 _]. rewrite Hd0.
  destruct (lifecycle_consequences d !! consequence_id) as [original|] eqn:Ho; [|by apply wp_raise, ready_saved].
  apply wp_if; intros Hactive; [by apply wp_raise, ready_saved|]. apply negb_false_iff, str_eqb_spec in Hactive.
  destruct (ok_consequence _ _ Hok _ _ Ho) as (Hid & e0 & p & He0 & Hp & Hrule). specialize (Hrule Hactive).
  assert (Hpid : ilp_id p = ile_projection_id e0) by by destruct (ok_projection _ _ Hok _ _ Hp).
  apply wp_bind. unfold event_and_projection. apply wp_bind, wp_get_row. rewrite Hd0, He0.
  apply wp_bind, wp_get_row. rewrite Hd0, Hp. apply wp_ret.
  apply wp_bind, wp_reads; [apply reads_lift|done|]. intros _ s1 _ Hs1.
  apply wp_if; intros Hstate; [by apply wp_raise, ready_saved|]. apply negb_false_iff, str_eqb_spec in Hstate.
  apply wp_bind, wp_reads; [apply reads_lift|done|]. intros decision s2 _ Hs2.
  apply wp_bind, wp_authorize; [done|]. intros r s3 Ha. pose proof Ha as (_ & _ & Hsv & Hdb).
  apply wp_bind, wp_event; [rewrite Hsv; apply step_still, still_refl|]. intros now e s4 He Hf Hsv4 Hdb4.
  apply wp_bind, wp_new_id. apply wp_bind, wp_utc_now. intros now' _. set (new := reversal_record _ _ _ _ _).
  apply wp_bind, wp_insert_consequence; [cbn; rewrite Hsv4, Hsv; apply step_still, still_refl|]. intros _.
  apply wp_bind, wp_alter, wp_bind, wp_commit, wp_ret.
  assert (Hcs : lifecycle_consequences (db s4) = lifecycle_consequences d) by (rewrite Hdb4; cbn; by rewrite Hdb).
  apply (step_move _ _ p e). subst e.
  eapply (consequence_moves (reversal_request original p payload decision) r s3 s4);
    [done|by rewrite Hpid|done..|cbn; lia| |].
  - apply legal_reversal. by rewrite Hstate.
  - cbn. rewrite Hcs. intros i x Hx.
    eapply (followed p _ new); [by eapply closed_rows in Hx|]. by repeat split.
Qed.

Lemma expire_steps consequence_id payload s :
  ready s →
  wp (lifecycle_step d) (expire_consequence consequence_id payload) (fun _ s' => lifecycle_step d (saved s')) s.
Proof.
  intros Hs. unfold expire_consequence. apply wp_bind, wp_get_row. destruct (_ !! _); [|by apply wp_raise, ready_saved].
  apply wp_bind, wp_utc_now. intros now _. apply wp_if; intros _; [by apply wp_raise, ready_saved|].
  by apply reverse_steps.
Qed.

(** *** Registration *)

Lemma initial_row_grows payload entries entries' d1 d2 i p :
  entries ⊆ entries' → (next_id d1 ≤ next_id d2)%N →
  initial_row payload entries d d1 i p → initial_row payload entries' d d2 i p.
Proof.
  intros Hin Hn ((? & ?) & ? & ? & ? & ? & He & ?). split; [lia|]. repeat (split; [done|]). split; [by apply Hin|done].
Qed.

Lemma registers_nil payload :
  (∀ i p, lifecycle_projections d !! i = Some p →
     of_subject (lsc_subject_type payload) (lsc_subject_id payload) p = false) →
  registers payload [] d d.
Proof.
  intros Hnew. split; [done|done|by left| | |done|done|lia].
  - intros dim st Hin. by apply elem_of_nil in Hin.
  - intros i j p q _ _ (_ & _ & _ & _ & _ & Hin & _). by apply elem_of_nil in Hin.
Qed.

(** one more row *)
Lemma registers_snoc payload entries d1 d2 p :
  registers payload entries d d1 →
  ilp_id p = next_id d1 → ilp_subject_type p = lsc_subject_type payload →
  ilp_subject_id p = lsc_subject_id payload → ilp_subject_digest p = lsc_subject_digest payload →
  ilp_version p = 0 → ilp_last_event_digest p = None →
  lifecycle_projections d1 !! ilp_id p = None →
  (∀ i q, lifecycle_projections d1 !! i = Some q →
     projection_in (ilp_subject_type p) (ilp_subject_id p) (ilp_dimension p) q = false) →
  lifecycle_projections d2 = <[ilp_id p := p]> (lifecycle_projections d1) →
  lifecycle_events d2 = lifecycle_events d1 → lifecycle_consequences d2 = lifecycle_consequences d1 →
  next_id d2 = N.succ (next_id d1) →
  registers payload (entries ++ [(ilp_dimension p, ilp_state p)]) d d2.
Proof.
  intros [R1 R2 R3 R4 R5 R6 R7 R8] Hid H1 H2 H3 H4 H5 Hf Hclash E1 E2 E3 E4.
  assert (Hnew : initial_row payload (entries ++ [(ilp_dimension p, ilp_state p)]) d d2 (ilp_id p) p).
  { split; [rewrite E4, Hid; lia|]. repeat (split; [done|]). split; [|done]. apply elem_of_app. right. by left. }
  assert (Hgrow : ∀ i q, initial_row payload entries d d1 i q →
    initial_row payload (entries ++ [(ilp_dimension p, ilp_state p)]) d d2 i q).
  { intros i q. apply initial_row_grows; [|rewrite E4; lia]. intros x Hx. apply elem_of_app. by left. }
  assert (Hback : ∀ i q, lifecycle_projections d1 !! i = Some q →
    initial_row payload (entries ++ [(ilp_dimension p, ilp_state p)]) d d2 i q → ilp_dimension q ≠ ilp_dimension p).
  { intros i q Hi (_ & _ & Q1 & Q2 & _) Heq. specialize (Hclash i q Hi).
    apply not_true_iff_false in Hclash. apply Hclash, projection_in_spec. split; [congruence|]. split; congruence. }
  split; rewrite ?E1, ?E2, ?E3; [done| | | | |done|done|rewrite E4; lia].
  - intros i q Hi. rewrite lookup_insert_ne; [by apply R2|]. intros <-. by rewrite (R2 _ _ Hi) in Hf.
  - intros i q [[<- <-]|[_ Hi]]%lookup_insert_Some; [by right|]. destruct (R3 i q Hi) as [Hq|Hq]; [by left|right; by apply Hgrow].
  - intros dim st [Hin|[= -> ->]%list_elem_of_singleton]%elem_of_app.
    + destruct (R4 dim st Hin) as (i & q & Hi & Hrow & Hd & Hs). exists i, q. split; [|split; [by apply Hgrow|done]].
      rewrite lookup_insert_ne; [done|]. intros <-. by rewrite Hi in Hf.
    + exists (ilp_id p), p. split; [by rewrite lookup_insert_eq|done].
  - intros i j a b [[<- <-]|[_ Ha]]%lookup_insert_Some [[<- <-]|[_ Hb]]%lookup_insert_Some Ra Rb Hdim; [done| | |].
    + by destruct (Hback j b Hb Rb).
    + by destruct (Hback i a Ha Ra).
    + destruct (R3 i a Ha) as [Ha0|Ha0].
      { pose proof (R1 i a Ha0) as Hf'. destruct Ra as (_ & _ & A1 & A2 & _). unfold of_subject in Hf'.
        by rewrite A1, A2, !str_eqb_refl in Hf'. }
      destruct (R3 j b Hb) as [Hb0|Hb0]; [|by apply (R5 i j a b)].
      pose proof (R1 j b Hb0) as Hf'. destruct Rb as (_ & _ & B1 & B2 & _). unfold of_subject in Hf'.
      by rewrite B1, B2, !str_eqb_refl in Hf'.
Qed.

Lemma wp_insert_projection I p Q s :
  I (saved s) →
  (lifecycle_projections (db s) !! ilp_id p = None →
   (∀ i q, lifecycle_projections (db s) !! i = Some q →
      projection_in (ilp_subject_type p) (ilp_subject_id p) (ilp_dimension p) q = false) →
   Q tt (s <| db := set_field lifecycle_projections (<[ilp_id p := p]> (lifecycle_projections (db s))) (db s) |>)) →
  wp I (insert_projection p) Q s.
Proof.
  intros HI HQ. apply wp_bind, wp_gets. destruct (head _) eqn:Hh; [by apply wp_raise|].
  apply wp_insert; [done|]. intros Hn. apply HQ; [done|]. exact (select_one_None lifecycle_projections _ _ Hh).
Qed.

Lemma insert_rows payload entries seen s :
  registers payload seen d (db s) → saved s = d →
  wp (eq d) (for_each entries (fun entry =>
     id ← fresh_id;
     insert_projection
       (mkInstitutionalLifecycleProjection id (lsc_subject_type payload) (lsc_subject_id payload)
          (lsc_subject_digest payload) entry.1 entry.2 0 None w_server_now)))
    (fun _ s' => registers payload (seen ++ entries) d (db s') ∧ saved s' = d) s.
Proof.
  revert seen s. induction entries as [|[dim st] entries IH]; intros seen s Hr Hs.
  - rewrite app_nil_r. by split.
  - cbn [for_each]. apply wp_bind, wp_bind, wp_new_id, wp_insert_projection; [done|]. intros Hn Hclash.
    rewrite cons_middle, app_assoc. apply IH; [|done].
    eapply (registers_snoc payload seen (db s) _ (mkInstitutionalLifecycleProjection (next_id (db s))
      (lsc_subject_type payload) (lsc_subject_id payload) (lsc_subject_digest payload) dim st 0 None w_server_now));
      [exact Hr|..|exact Hn|exact Hclash| | | |]; reflexivity.
Qed.

Lemma wp_try {A} (m h : Sess A) Q s :
  wp (eq d) m Q s → (∀ s', ready s' → wp (lifecycle_step d) h Q s') →
  wp (lifecycle_step d) (try_integrity m h) Q s.
Proof.
  unfold wp, try_integrity. intros Hm Hh. destruct (m s) as [[a|[c x|class message]] s']; [done| |].
  - rewrite <- Hm. apply step_still, still_refl.
  - destruct (String.eqb class "IntegrityError").
    + apply Hh. by split.
    + rewrite <- Hm. apply step_still, still_refl.
Qed.

Lemma register_steps payload s :
  ready s → wp (lifecycle_step d) (create_subject payload) (fun _ s' => lifecycle_step d (saved s')) s.
Proof.
  intros Hs. unfold create_subject. apply wp_bind, wp_reads; [apply reads_projections|done|].
  intros existing s1 Hex Hs1. destruct existing as [|p l].
  2:{ apply wp_if; intros _; [by apply wp_raise, ready_saved|by apply ready_saved]. }
  apply wp_try.
  - apply wp_bind. eapply wp_mono; [apply (insert_rows payload INITIAL_STATES [])|].
    + destruct Hs1 as [-> _]. apply registers_nil. intros i p Hi.
      unfold _projections, select_rows, mbind, Sess_bind, gets, mret, Sess_ret in Hex. injection Hex as Hex _.
      destruct (of_subject _ _ p) eqn:Hof; [|done].
      assert (Hin : p ∈ sort_by by_dimension (List.filter (of_subject (lsc_subject_type payload) (lsc_subject_id payload))
        (table_rows (lifecycle_projections (db s))))).
      { apply elem_of_sort_by, filter_elem. split; [|done]. apply table_rows_elem. exists i. by destruct Hs as [-> _]. }
      rewrite Hex in Hin. by apply elem_of_nil in Hin.
    + by destruct Hs1.
    + intros _ s2 [Hr _]. apply wp_bind, wp_commit. unfold _projections. apply wp_bind, wp_gets, wp_ret.
      by apply (step_register _ _ payload).
  - intros s' Hs'. apply wp_bind, wp_reads; [apply reads_projections|done|]. intros rows s2 _ Hs2.
    apply wp_if; intros _; [by apply wp_raise, ready_saved|by apply ready_saved].
Qed.
End calls.

(** ** Requests and histories *)

(** the requests that write lifecycles *)
Inductive lifecycle_call :=
| RegisterSubject (payload : LifecycleSubjectCreate)
| TransitionSubject (subject_type subject_id : string) (payload : InstitutionalTransitionCreate)
| CreateConsequence (subject_type subject_id : string) (payload : ConsequenceCreate)
| ReverseConsequence (consequence_id : uuid) (payload : ConsequenceReverse)
| ExpireConsequence (consequence_id : uuid) (payload : ConsequenceReverse).

(** what a request leaves behind, whatever it answers *)
Definition run_call `{World} (c : lifecycle_call) (d : database) : database :=
  match c with
  | RegisterSubject payload => (request (register_subject payload) d).2
  | TransitionSubject ty id payload => (request (transition_subject ty id payload) d).2
  | CreateConsequence ty id payload => (request (create_consequence ty id payload) d).2
  | ReverseConsequence id payload => (request (reverse_route id payload) d).2
  | ExpireConsequence id payload => (request (expire_route id payload) d).2
  end.

(** the effective time of a transition is given in UTC *)
Definition in_utc (c : lifecycle_call) : Prop :=
  match c with
  | TransitionSubject _ _ payload => aw_offset (itc_effective_at payload) = 0
  | _ => True
  end.

Lemma call_steps `{World} t d c : lifecycles_ok t d → in_utc c → lifecycle_step d (run_call c d).
Proof.
  intros Hok Hutc. assert (Hs : ready d (open_session d)) by done.
  assert (Hdossier : ∀ ty id s, lifecycle_step d (saved s) →
    wp (lifecycle_step d) (lifecycle_dossier ty id) (fun _ s' => lifecycle_step d (saved s')) s).
  { intros ty id s Hsv. eapply (wp_frame (fun x => x)); [apply reads_dossier|done|]. by intros _ s' -> _. }
  destruct c; cbn [run_call in_utc] in *; apply wp_request.
  - apply wp_if; intros _; [by eapply wp_raise, ready_saved|]. apply wp_bind.
    eapply wp_mono; [by eapply register_steps|]. intros ? s'. apply Hdossier.
  - apply wp_if; intros _; [by eapply wp_raise, ready_saved|]. apply wp_bind.
    eapply wp_mono; [by eapply transition_steps|]. intros ? s'. apply Hdossier.
  - apply wp_bind, wp_utc_now. intros now _. apply wp_if; intros _; [by eapply wp_raise, ready_saved|].
    by eapply apply_steps.
  - apply wp_if; intros _; [by eapply wp_raise, ready_saved|]. by eapply reverse_steps.
  - apply wp_if; intros _; [by eapply wp_raise, ready_saved|]. by eapply expire_steps.
Qed.

(** the databases that requests reach: lifecycle calls, each later on the database
    server's clock than the one before, among any other changes that leave the
    lifecycle tables alone *)
Inductive history : datetime → database → Prop :=
| history_start t d :
    lifecycle_projections d = ∅ → lifecycle_events d = ∅ → lifecycle_consequences d = ∅ → history t d
| history_call (W : World) c t d :
    history t d → t < w_server_now → in_utc c → history w_server_now (run_call c d)
| history_other t d d' : history t d → still d d' → history t d'.

Lemma lifecycles_ok_empty t d :
  lifecycle_projections d = ∅ → lifecycle_events d = ∅ → lifecycle_consequences d = ∅ → lifecycles_ok t d.
Proof.
  intros E1 E2 E3. split; rewrite ?E1, ?E2, ?E3; try (intros; exfalso; match goal with Hr : ∅ !! _ = Some _ |- _ => by rewrite lookup_empty in Hr end).
  exists []. split; [done|]. split; [constructor|]. intros i p. by rewrite lookup_empty.
Qed.

Lemma history_ok t d : history t d → lifecycles_ok t d.
Proof.
  induction 1 as [t d E1 E2 E3|W c t d _ IH Ht Hutc|t d d' _ IH Hs].
  - by apply lifecycles_ok_empty.
  - apply (step_ok t d); [done|done|]. by eapply call_steps.
  - by eapply still_ok.
Qed.

(** C16. After any requests that register subjects, move them, apply consequences,
    reverse or expire them (with effective times in UTC and an advancing server
    clock), every registered subject has exactly the four dimensions, and its
    dossier is answered: the replay of the hash-chained events, in the order they
    happened, gives the stored state, version and last digest of each. *)
Theorem lifecycle_histories_replay t d i p :
  history t d → lifecycle_projections d !! i = Some p →
  ∃ ds, request (read_subject (ilp_subject_type p) (ilp_subject_id p)) d = (Ok ds, d) ∧ p ∈ ds_projections ds ∧
    (∀ dim, dim ∈ ilp_dimension <$> ds_projections ds ↔ dim ∈ fst <$> INITIAL_STATES) ∧
    NoDup (ilp_dimension <$> ds_projections ds) ∧ StronglySorted earlier (ds_events ds) ∧
    _verify_replay (ds_projections ds) (ds_events ds) = Ok tt ∧
    ∀ e, e ∈ ds_events ds ↔ lifecycle_events d !! ile_id e = Some e ∧
      ∃ q, q ∈ ds_projections ds ∧ ilp_id q = ile_projection_id e.
Proof.
  intros Hh Hp. pose proof (history_ok t d Hh) as Hok. destruct (ok_projection _ _ Hok i p Hp) as (<- & _ & _).
  destruct (dossier_replays t d Hok p (open_session d) eq_refl Hp) as (ds & Hrun & Hps & _ & Hes & Hs & Hnd & Hv).
  exists ds. split; [unfold request, read_subject; by rewrite Hrun|]. split; [by apply Hps|]. split; [|done].
  intros dim. rewrite !list_elem_of_fmap. split.
  - intros (q & -> & [Hq _]%Hps). destruct (ok_projection _ _ Hok _ q Hq) as (_ & _ & [s Hs0%initial_iff]).
    by exists (ilp_dimension q, s).
  - intros ([dim' s] & -> & Hin%initial_iff).
    destruct (ok_complete _ _ Hok _ p dim' Hp) as (j & q & Hq & Hss & Hdim); [by eexists|].
    exists q. split; [done|]. apply Hps. by destruct (ok_projection _ _ Hok j q Hq) as (-> & _).
Qed.

(** ** The abstract state machines *)

(** per subject and dimension, the state and the number of moves *)
Definition lifecycles : Type := string → string → string → option (string * Z).

(** one step of the specification: nothing, a new subject in its initial states,
    or one legal move of one dimension *)
Inductive spec_step (v v' : lifecycles) : Prop :=
| spec_stutter : (∀ ty id dim, v' ty id dim = v ty id dim) → spec_step v v'
| spec_register ty id :
    (∀ dim, v ty id dim = None) →
    (∀ dim, v' ty id dim = (fun s => (s, 0)) <$> dict_get dim INITIAL_STATES) →
    (∀ ty' id' dim, (ty', id') ≠ (ty, id) → v' ty' id' dim = v ty' id' dim) → spec_step v v'
| spec_move ty id dim from n command to :
    v ty id dim = Some (from, n) → legal (fun k => fst <$> v ty id k) dim from command to →
    v' ty id dim = Some (to, n + 1) →
    (∀ ty' id' dim', (ty', id', dim') ≠ (ty, id, dim) → v' ty' id' dim' = v ty' id' dim') → spec_step v v'.

Section refinement.
Context (t t' : datetime) (d d' : database) (Hok : lifecycles_ok t d) (Hok' : lifecycles_ok t' d').

(** views agree where the rows do *)
Lemma view_agree ty id dim :
  (∀ i p, projection_in ty id dim p = true →
     lifecycle_projections d' !! i = Some p ↔ lifecycle_projections d !! i = Some p) →
  view d' ty id dim = view d ty id dim.
Proof.
  intros Hrows. apply option_eq. intros [st v]. rewrite (view_spec t' d' Hok'), (view_spec t d Hok).
  split; intros (i & p & Hi & Hp & Hr); exists i, p; (split; [by apply Hrows|done]).
Qed.

Lemma registers_refine payload : registers payload INITIAL_STATES d d' → spec_step (view d) (view d').
Proof.
  intros Hr. apply (spec_register _ _ (lsc_subject_type payload) (lsc_subject_id payload)).
  - intros dim. apply eq_None_not_Some. intros [[st v] (i & p & Hi & Hp & _)%(view_spec t d Hok)].
    pose proof (rg_new _ _ _ _ Hr i p Hi) as Hf. unfold projection_in in Hp. by rewrite Hf in Hp.
  - intros dim. apply option_eq. intros [st v]. rewrite (view_spec t' d' Hok'). split.
    + intros (i & p & Hi & Hp & <- & <-). apply andb_true_iff in Hp as [Hp <-%str_eqb_spec].
      destruct (rg_rows _ _ _ _ Hr i p Hi) as [Hi'|(_ & _ & _ & _ & _ & Hin%initial_iff & -> & _)].
      * by rewrite (rg_new _ _ _ _ Hr i p Hi') in Hp.
      * by rewrite Hin.
    + destruct (dict_get dim INITIAL_STATES) as [s0|] eqn:Ha; cbn; [|done]. intros [= <- <-].
      apply initial_iff in Ha. destruct (rg_all _ _ _ _ Hr dim s0 Ha) as (i & p & Hi & Hrow & Hd & Hs).
      exists i, p. split; [done|]. split; [|split; [done|]]; destruct Hrow as (_ & _ & P1 & P2 & _ & _ & P3 & _); [|done].
      by apply projection_in_spec.
  - intros ty' id' dim Hne. apply view_agree. intros i p Hp. split.
    + intros Hi. destruct (rg_rows _ _ _ _ Hr i p Hi) as [Hi'|(_ & _ & P1 & P2 & _)]; [done|].
      apply projection_in_spec in Hp as (Q1 & Q2 & _). destruct Hne. congruence.
    + apply (rg_old _ _ _ _ Hr).
Qed.

Lemma moves_refine `{World} p e : moves d d' p e →
  view d (ilp_subject_type p) (ilp_subject_id p) (ilp_dimension p) = Some (ilp_state p, ilp_version p) ∧
  view d' (ilp_subject_type p) (ilp_subject_id p) (ilp_dimension p) =
    Some (ile_resulting_state e, ilp_version p + 1) ∧
  ∀ ty' id' dim', (ty', id', dim') ≠ (ilp_subject_type p, ilp_subject_id p, ilp_dimension p) →
    view d' ty' id' dim' = view d ty' id' dim'.
Proof.
  intros Hm. pose proof (mv_row _ _ _ _ Hm) as Hrow. destruct (mv_projections _ _ _ _ Hm) as [now Hp].
  assert (Hself : projection_in (ilp_subject_type p) (ilp_subject_id p) (ilp_dimension p) p = true)
    by by apply projection_in_spec.
  split; [|split].
  - apply (view_spec t d Hok). by exists (ilp_id p), p.
  - apply (view_spec t' d' Hok'). exists (ilp_id p), (moved e now p). by rewrite Hp, lookup_alter_eq, Hrow.
  - intros ty' id' dim' Hne. apply view_agree. intros i q Hq. rewrite Hp.
    destruct (decide (i = ilp_id p)) as [->|Hi]; [|by rewrite lookup_alter_ne].
    rewrite lookup_alter_eq, Hrow. cbn. apply projection_in_spec in Hq as (Q1 & Q2 & Q3).
    split; intros [= <-]; destruct Hne; cbn in *; congruence.
Qed.
End refinement.

Lemma call_ok `{World} c t d :
  history t d → t < w_server_now → in_utc c →
  lifecycles_ok t d ∧ lifecycle_step d (run_call c d) ∧ lifecycles_ok w_server_now (run_call c d).
Proof.
  intros Hh%history_ok Ht Hutc. pose proof (call_steps t d c Hh Hutc) as Hs.
  split; [done|]. split; [done|]. by apply (step_ok t d).
Qed.

(** C15. Every request refines the abstract state machines: as the specification
    sees the stored projections, it changes nothing, or adds a new subject in its
    initial states with version zero, or moves one dimension of one subject along
    a transition of its table under the cross-dimension guard, along a consequence
    of its table (promotions and reinstatements under the guard), or back along
    the consequence it reverses, and counts one version. *)
Theorem lifecycle_calls_refine_spec `{World} c t d :
  history t d → t < w_server_now → in_utc c → spec_step (view d) (view (run_call c d)).
Proof.
  intros Hh Ht Hutc. destruct (call_ok c t d Hh Ht Hutc) as (Hok & Hs & Hok').
  destruct Hs as [(E & _)|payload Hr|p e Hm].
  - apply spec_stutter. intros ty id dim. unfold view. by rewrite E.
  - by eapply registers_refine.
  - destruct (moves_refine _ _ _ _ Hok Hok' p e Hm) as (H1 & H2 & H3).
    eapply spec_move; [exact H1|exact (mv_legal _ _ _ _ Hm)|exact H2|exact H3].
Qed.

(** C17. When a request changes the state or the version of a subject's dimension,
    it appended one event to that dimension, chained to the event before it, and
    one decision record that the event names: an authorised decision of the
    event's actor on exactly this subject and digest, permitted by the authority
    policy in force. *)
Theorem lifecycle_moves_are_authorized `{World} c t d ty id dim x y :
  history t d → t < w_server_now → in_utc c →
  view d ty id dim = Some x → view (run_call c d) ty id dim = Some y → x ≠ y →
  ∃ p e, lifecycle_projections d !! ilp_id p = Some p ∧ projection_in ty id dim p = true ∧
    x = (ilp_state p, ilp_version p) ∧ y = (ile_resulting_state e, ile_resulting_version e) ∧
    lifecycle_events d !! ile_id e = None ∧
    lifecycle_events (run_call c d) = <[ile_id e := e]> (lifecycle_events d) ∧
    event_on p e ∧ decided d (run_call c d) p e.
Proof.
  intros Hh Ht Hutc Hx Hy Hne. destruct (call_ok c t d Hh Ht Hutc) as (Hok & Hs & Hok').
  destruct Hs as [(E & _)|payload Hr|p e Hm].
  - unfold view in Hx, Hy. rewrite E in Hy. congruence.
  - destruct x as [st v], y as [st' v'].
    apply (view_spec t d Hok) in Hx as (i & p & Hi & Hp & <- & <-).
    apply (view_spec _ _ Hok') in Hy as (j & q & Hj & Hq & <- & <-).
    assert (i = j) as ->; [|pose proof (rg_old _ _ _ _ Hr j p Hi); congruence].
    apply projection_in_spec in Hp as (P1 & P2 & P3), Hq as (Q1 & Q2 & Q3).
    apply (ok_unique _ _ Hok' i j p q (rg_old _ _ _ _ Hr i p Hi) Hj); [split|]; congruence.
  - destruct (moves_refine _ _ _ _ Hok Hok' p e Hm) as (H1 & H2 & H3).
    destruct (decide ((ty, id, dim) = (ilp_subject_type p, ilp_subject_id p, ilp_dimension p))) as [[= -> -> ->]|Hd].
    2:{ rewrite (H3 _ _ _ Hd) in Hy. congruence. }
    destruct (mv_event _ _ _ _ Hm) as (_ & _ & _ & Hv & _).
    exists p, e. split; [apply (mv_row _ _ _ _ Hm)|]. split; [by apply projection_in_spec|].
    split; [congruence|]. split; [rewrite Hv; congruence|]. split; [apply (mv_fresh _ _ _ _ Hm)|].
    split; [apply (mv_events _ _ _ _ Hm)|]. split; [apply (mv_event _ _ _ _ Hm)|apply (mv_decided _ _ _ _ Hm)].
Qed.

(** ** A candidate strategy *)

(** requests at second [t] of the day 2026-01-01 *)
Definition lifecycle_time (t : Z) : World := {|
  w_now := fun n => 1767225600000000 + seconds t + Z.of_nat n;
  w_server_now := 1767225600000000 + seconds t;
  w_token_hex := fun _ => ""; w_token_urlsafe := fun _ => "";
  w_locked := fun _ => false; agent_token_secret := "";
  w_search := fun _ => Err (HTTPException 409 (JStr "Retrieval projection is stale and must be rebuilt.")) |}.

Definition research_policy : AuthorityPolicySnapshot :=
  mkAuthorityPolicySnapshot 6 "core" "1.0.0" "active"
    (mkAuthorityPolicyManifest "core" "1.0.0" [mkRoleBinding "founder" ["founder"]] []
       [mkDecisionRight "experiment-execution" ["authorize"; "halt"] ["founder"] [] ["*"] 3 false false [];
        mkDecisionRight "research-program-charter" ["approve"; "reject"] ["founder"] [] ["*"] 3 false false []]
       []) "policy-digest" (Some 1767225600000000) None (Some "founder") (Some 1767225600000000) None
    "founder" 1767225600000000.

Definition institution : database :=
  empty_db <| policies := {[ 6%N := research_policy ]} |> <| next_id := 10%N |>.

Definition strategy : LifecycleSubjectCreate := mkLifecycleSubjectCreate "strategy" "alpha-1" (Str.zeros 64).

Definition register_research : InstitutionalTransitionCreate :=
  mkInstitutionalTransitionCreate 77 "founder" "research" "register" 0 (Str.zeros 64) [] "protocol registered"
    1 "internal" None None None [] None (mkAware 1767225600000000 0).

Definition quarantine_research : ConsequenceCreate :=
  mkConsequenceCreate 78 "founder" "quarantine" "research" 1 (Str.zeros 64) [Str.zeros 64]
    (mkAware 1767225600000000 0) ["founder"] [] (mkAware (1767225600000000 + days 7) 0)
    "the data of the protocol leaked" 1 "internal" None None [].

Definition reverse_quarantine : ConsequenceReverse :=
  mkConsequenceReverse 79 "founder" 2 "the leak was in another protocol" 1 "internal" "researcher" "auditor" [].

Definition candidate_registered : database :=
  @run_call (lifecycle_time 1) (RegisterSubject strategy) institution.
Definition candidate_moved : database :=
  @run_call (lifecycle_time 2) (TransitionSubject "strategy" "alpha-1" register_research) candidate_registered.
Definition candidate_quarantined : database :=
  @run_call (lifecycle_time 3) (CreateConsequence "strategy" "alpha-1" quarantine_research) candidate_moved.

Lemma registered_history : history 1767225601000000 candidate_registered.
Proof.
  apply (history_call (lifecycle_time 1) (RegisterSubject strategy) 0 institution);
    [by apply history_start|reflexivity|exact I].
Qed.

Lemma moved_history : history 1767225602000000 candidate_moved.
Proof.
  apply (history_call (lifecycle_time 2) _ 1767225601000000 candidate_registered);
    [apply registered_history|reflexivity|reflexivity].
Qed.

Lemma quarantined_history : history 1767225603000000 candidate_quarantined.
Proof.
  apply (history_call (lifecycle_time 3) _ 1767225602000000 candidate_moved);
    [apply moved_history|reflexivity|exact I].
Qed.

(** a reversal needs no guard: it goes back to the state before the consequence *)
Example reversal_restores :
  view (@run_call (lifecycle_time 4) (ReverseConsequence 18 reverse_quarantine) candidate_quarantined)
    "strategy" "alpha-1" "research" = Some ("registered", 3).
Proof. vm_compute. reflexivity. Qed.

(** an effective time with another offset is stored as its instant, hashed as it
    was given: the move is kept and its subject's dossier is lost *)
Example offset_breaks_dossier :
  let late := mkInstitutionalTransitionCreate 77 "founder" "research" "register" 0 (Str.zeros 64) []
    "protocol registered" 1 "internal" None None None [] None (mkAware 1767225600000000 7200) in
  let d := @run_call (lifecycle_time 2) (TransitionSubject "strategy" "alpha-1" late) candidate_registered in
  view d "strategy" "alpha-1" "research" = Some ("registered", 1) ∧
  (request (read_subject "strategy" "alpha-1") d).1 =
    Err (HTTPException 409 (JStr "Lifecycle event digest is invalid.")).
Proof. vm_compute. by split. Qed.

Lemma lifecycle_histories_replay_witness :
  ∃ p ds, lifecycle_projections candidate_quarantined !! 10%N = Some p ∧
    request (read_subject (ilp_subject_type p) (ilp_subject_id p)) candidate_quarantined =
      (Ok ds, candidate_quarantined) ∧ p ∈ ds_projections ds.
Proof.
  destruct (lifecycle_projections candidate_quarantined !! 10%N) as [p|] eqn:E.
  - destruct (lifecycle_histories_replay 1767225603000000 candidate_quarantined 10%N p quarantined_history E)
      as (ds & H1 & H2 & _). exists p, ds. split; [reflexivity|]. split; [exact H1|exact H2].
  - vm_compute in E. discriminate E.
Defined.

Lemma lifecycle_calls_refine_spec_witness :
  spec_step (view candidate_moved)
    (view (@run_call (lifecycle_time 3) (CreateConsequence "strategy" "alpha-1" quarantine_research) candidate_moved)) ∧
  view candidate_moved "strategy" "alpha-1" "research" = Some ("registered", 1) ∧
  view candidate_quarantined "strategy" "alpha-1" "research" = Some ("rejected", 2).
Proof.
  split; [|split; vm_compute; reflexivity].
  apply (@lifecycle_calls_refine_spec (lifecycle_time 3) (CreateConsequence "strategy" "alpha-1" quarantine_research)
    1767225602000000 candidate_moved moved_history eq_refl I).
Defined.

Lemma lifecycle_moves_are_authorized_witness :
  ∃ p e, projection_in "strategy" "alpha-1" "research" p = true ∧
    lifecycle_events candidate_moved = <[ile_id e := e]> (lifecycle_events candidate_registered) ∧
    @decided (lifecycle_time 2) candidate_registered candidate_moved p e.
Proof.
  destruct (@lifecycle_moves_are_authorized (lifecycle_time 2)
    (TransitionSubject "strategy" "alpha-1" register_research) 1767225601000000 candidate_registered
    "strategy" "alpha-1" "research" ("proposed", 0) ("registered", 1) registered_history eq_refl eq_refl
    ltac:(vm_compute; reflexivity) ltac:(vm_compute; reflexivity) ltac:(discriminate))
    as (p & e & _ & Hp & _ & _ & _ & He & _ & Hd).
  exists p, e. split; [exact Hp|]. split; [exact He|exact Hd].
Defined.
