(* ===== verification/FounderInvariant.v ===== *)
(** * The founder's records

    What the founder's tables promise ([founder_ok]): conversations explained by
    their messages, proposals decided once.  Each request keeps them consistent;
    what a repeated or a new turn, a planner's answer and a decision do to them. *)
From S2P Require Import Prelude Py Sha256 JsonText Models Store Logic TaskCore Notifications Governance.
From S2P Require Import CoreInvariant GovernanceFacts Tasks TasksFacts TaskGraphs Conversations RuntimeFacts.
From S2P Require Import ProposalSchema FounderConversations Proposals FounderFacts TaskRuntime System.

Open Scope Z_scope.

(** ** Messages in order *)
Section order.

Lemma sequence_total a b : sequence_leb a b = false → sequence_leb b a = true.
Proof. unfold sequence_leb. lia. Qed.
Lemma sequence_trans a b c : sequence_leb a b = true → sequence_leb b c = true → sequence_leb a c = true.
Proof. unfold sequence_leb. lia. Qed.

(** messages with distinct numbers have one order *)
Lemma sequence_order l l' :
  NoDup (fm_sequence <$> l) → l ≡ₚ l' → sort_by sequence_leb l = sort_by sequence_leb l'.
Proof.
  intros Hnd Hp. apply (StronglySorted_unique_strong (fun a b => sequence_leb a b = true)).
  - intros a b Ha Hb H1 H2. apply elem_of_sort_by in Ha, Hb. rewrite <- Hp in Hb.
    assert (E : fm_sequence a = fm_sequence b) by (unfold sequence_leb in *; lia).
    apply list_elem_of_lookup in Ha as [i Hi], Hb as [j Hj].
    assert (i = j) as <-; [|congruence]. eapply NoDup_lookup; [exact Hnd| |];
      rewrite list_lookup_fmap; [by rewrite Hi|by rewrite Hj; cbn; rewrite E].
  - apply sort_by_sorted; [apply sequence_total|apply sequence_trans].
  - apply sort_by_sorted; [apply sequence_total|apply sequence_trans].
  - by rewrite !sort_by_perm.
Qed.

Lemma messages_of_insert d d' m :
  messages d !! fm_id m = None → messages d' = <[fm_id m := m]> (messages d) →
  ∀ cid, messages_of d' cid ≡ₚ
    (if bool_decide (fm_conversation_id m = cid) then [m] else []) ++ messages_of d cid.
Proof.
  intros Hn Hm cid. unfold messages_of, table_rows. rewrite Hm.
  assert (E : (map_to_list (<[fm_id m:=m]> (messages d))).*2 ≡ₚ m :: (map_to_list (messages d)).*2).
  { by rewrite map_to_list_insert. }
  rewrite (filter_perm _ _ _ E). cbn. by case_bool_decide.
Qed.
End order.

(** ** The founder's records *)

(** the columns of a conversation that its records explain; its status follows the planner *)
Definition essence (c : FounderConversation) :=
  (fc_id c, fc_founder_key c, fc_working_summary c, fc_revision c, fc_specification_digest c).

Definition ledger (d : database) := (essence <$> conversations d, messages d, proposals d).

(** a proposal is open, or was decided once *)
Definition decision_ok (p : FounderProposal) : Prop :=
  fp_status p = "proposed" ∧ fp_decided_by p = None ∧ fp_materialized_task_id p = None ∨
  is_Some (fp_decided_by p) ∧ is_Some (fp_decision_reason p) ∧ is_Some (fp_decided_at p) ∧
  (fp_status p = "materialized" ∧ is_Some (fp_materialized_task_id p) ∨
   fp_status p = "rejected" ∧ fp_materialized_task_id p = None).

Definition proposal_ok (d : database) (pid : uuid) (p : FounderProposal) : Prop :=
  fp_id p = pid ∧ check_document (fp_proposal p) = Ok tt ∧ fp_proposal_digest p = proposal_digest (fp_proposal p) ∧
  decision_ok p ∧
  ∀ cid, fp_conversation_id p = Some cid → ∃ c r, conversations d !! cid = Some c ∧
    fp_conversation_revision p = Some r ∧ r ≤ fc_revision c.

(** the messages of a conversation carry the numbers from one on *)
Definition numbered_from_one (l : list FounderConversationMessage) : Prop :=
  fm_sequence <$> l ≡ₚ seqZ 1 (Z.of_nat (length l)).

(** the specification a conversation shows is a proposal for its revision *)
Definition specified (d : database) (cid : uuid) (c : FounderConversation) : Prop :=
  ∀ dg, fc_specification_digest c = Some dg → ∃ pid p, proposals d !! pid = Some p ∧
    fp_conversation_id p = Some cid ∧ fp_conversation_revision p = Some (fc_revision c) ∧ fp_proposal_digest p = dg.

Record founder_ok (d : database) : Prop := {
  fo_id : ∀ cid c, conversations d !! cid = Some c → fc_id c = cid;
  fo_turns : ∀ cid c, conversations d !! cid = Some c →
    fc_revision c = Z.of_nat (length (_founder_messages d cid)) ∧
    fc_working_summary c = _bounded_summary (_founder_messages d cid);
  fo_message : ∀ mid m, messages d !! mid = Some m → is_Some (conversations d !! fm_conversation_id m);
  fo_numbered : ∀ cid, numbered_from_one (messages_of d cid);
  fo_proposal : ∀ pid p, proposals d !! pid = Some p → proposal_ok d pid p;
  fo_single : ∀ i j p q, proposals d !! i = Some p → proposals d !! j = Some q →
    fp_source_task_id p = fp_source_task_id q → i = j;
  fo_spec : ∀ cid c, conversations d !! cid = Some c → specified d cid c }.

Section records.

Lemma numbered_distinct l : numbered_from_one l → NoDup (fm_sequence <$> l).
Proof. unfold numbered_from_one. intros ->. apply NoDup_seqZ. Qed.

Lemma founder_messages_perm d d' cid l :
  numbered_from_one (messages_of d cid) → messages_of d' cid ≡ₚ l ++ messages_of d cid →
  (∀ m, m ∈ l → fm_role m ≠ "founder") → _founder_messages d' cid = _founder_messages d cid.
Proof.
  intros Hn Hp Hl. unfold _founder_messages. f_equal. symmetry. apply sequence_order.
  - assert (Hs : fm_sequence <$> List.filter (fun m => str_eqb (fm_role m) "founder") (messages_of d cid)
        ⊆+ fm_sequence <$> messages_of d cid).
    { apply fmap_submseteq. clear. induction (messages_of d cid) as [|m l IH]; cbn; [done|].
      destruct (str_eqb _ _); [by apply submseteq_skip|by apply submseteq_cons]. }
    apply submseteq_Permutation in Hs as [k Hk]. apply numbered_distinct in Hn. rewrite Hk in Hn. by apply NoDup_app in Hn as [? _].
  - rewrite (filter_perm _ _ _ Hp). clear Hp Hn. induction l as [|m l IH]; [done|]. cbn.
    destruct (str_eqb (fm_role m) "founder") eqn:E.
    + apply String.eqb_eq in E. exfalso. eapply Hl; [by left|done].
    + apply IH. intros m' Hm'. apply Hl. by right.
Qed.

Lemma founder_messages_more d d' cid m :
  messages_of d' cid ≡ₚ m :: messages_of d cid → fm_role m = "founder" →
  length (_founder_messages d' cid) = S (length (_founder_messages d cid)).
Proof.
  intros Hp Hr. unfold _founder_messages. rewrite !length_fmap, !(Permutation_length (sort_by_perm _ _)).
  rewrite (Permutation_length (filter_perm _ _ _ Hp)). cbn. by rewrite Hr.
Qed.

Lemma foldr_max_le l n : (∀ x, x ∈ l → x ≤ n) → 0 ≤ n → foldr Z.max 0 l ≤ n.
Proof.
  induction l as [|x l IH]; cbn; [done|]. intros Hx Hn. pose proof (Hx x ltac:(by left)).
  assert (foldr Z.max 0 l ≤ n) by (apply IH; [|done]; intros y Hy; apply Hx; by right). lia.
Qed.

Lemma foldr_max_ge l x : x ∈ l → x ≤ foldr Z.max 0 l.
Proof. induction l as [|y l IH]; [by intros ?%elem_of_nil|]. intros [->|Hx%IH]%elem_of_cons; cbn; lia. Qed.

Lemma foldr_max_pos l : 0 ≤ foldr Z.max 0 l.
Proof. induction l as [|y l IH]; cbn; lia. Qed.

Lemma next_sequence_numbered d cid :
  numbered_from_one (messages_of d cid) → next_sequence d cid = Z.of_nat (length (messages_of d cid)) + 1.
Proof.
  unfold numbered_from_one, next_sequence. intros Hp. f_equal. apply Z.le_antisymm.
  - apply foldr_max_le; [|lia]. intros x. rewrite Hp, elem_of_seqZ. lia.
  - destruct (decide (length (messages_of d cid) = 0)%nat) as [->|Hne]; [apply foldr_max_pos|].
    apply foldr_max_ge. rewrite Hp, elem_of_seqZ. lia.
Qed.

Lemma numbered_more d d' cid m :
  numbered_from_one (messages_of d cid) → messages_of d' cid ≡ₚ m :: messages_of d cid →
  fm_sequence m = next_sequence d cid → numbered_from_one (messages_of d' cid).
Proof.
  intros Hn Hp Hs. rewrite (next_sequence_numbered _ _ Hn) in Hs. unfold numbered_from_one in *.
  rewrite (Permutation_length Hp), (fmap_Permutation fm_sequence _ _ Hp), fmap_cons, Hs, Hn.
  cbn [length]. rewrite seqZ_S, Permutation_app_comm. cbn. by rewrite (Z.add_comm 1).
Qed.

Lemma numbered_same d d' cid :
  numbered_from_one (messages_of d cid) → messages_of d' cid ≡ₚ messages_of d cid → numbered_from_one (messages_of d' cid).
Proof.
  unfold numbered_from_one. intros Hn Hp. by rewrite (Permutation_length Hp), (fmap_Permutation fm_sequence _ _ Hp).
Qed.

Lemma essence_lookup (m m' : gmap uuid FounderConversation) cid c :
  essence <$> m' = essence <$> m → m' !! cid = Some c → ∃ c0, m !! cid = Some c0 ∧ essence c0 = essence c.
Proof.
  intros E Hc. assert (El : (essence <$> m') !! cid = (essence <$> m) !! cid) by by rewrite E.
  rewrite !lookup_fmap, Hc in El. destruct (m !! cid) as [c0|]; [|done]. apply (inj Some) in El. by exists c0.
Qed.

(** the invariant speaks about the ledger only *)
Lemma founder_ok_ledger d d' : ledger d' = ledger d → founder_ok d → founder_ok d'.
Proof.
  intros [= Ec Em Ep] [Hid Ht Hm Hn Hp Hs Hsp].
  assert (Hmo : ∀ cid, messages_of d' cid = messages_of d cid) by (intros; unfold messages_of; by rewrite Em).
  assert (Hfm : ∀ cid, _founder_messages d' cid = _founder_messages d cid) by (intros; unfold _founder_messages; by rewrite Hmo).
  assert (Hback : ∀ cid c, conversations d !! cid = Some c → ∃ c', conversations d' !! cid = Some c' ∧ essence c' = essence c).
  { intros cid c. by apply essence_lookup. }
  split.
  - intros cid c Hc. destruct (essence_lookup _ _ _ _ Ec Hc) as (c0 & Hc0 & [= E1 E2 E3 E4 E5]). rewrite <- E1. by apply Hid.
  - intros cid c Hc. destruct (essence_lookup _ _ _ _ Ec Hc) as (c0 & Hc0 & [= E1 E2 E3 E4 E5]). rewrite Hfm, <- E3, <- E4. by apply Ht.
  - intros mid m. rewrite Em. intros H. destruct (Hm _ _ H) as [c Hc]. destruct (Hback _ _ Hc) as (c' & Hc' & _). by eexists.
  - intros cid. rewrite Hmo. apply Hn.
  - intros pid p. rewrite Ep. intros H. destruct (Hp _ _ H) as (P1 & P2 & P3 & P4 & P5). do 4 (split; [done|]).
    intros cid Hcid. destruct (P5 _ Hcid) as (c & r & Hc & Hr & Hle). destruct (Hback _ _ Hc) as (c' & Hc' & [= E1 E2 E3 E4 E5]).
    exists c', r. rewrite E4. done.
  - intros i j p q. rewrite Ep. apply Hs.
  - intros cid c Hc dg Hdg. destruct (essence_lookup _ _ _ _ Ec Hc) as (c0 & Hc0 & [= E1 E2 E3 E4 E5]).
    rewrite Ep, <- E4. apply (Hsp _ _ Hc0). by rewrite E5.
Qed.
End records.

(** ** Each request keeps the records consistent *)
Section effects.
Context `{World}.

Lemma turn_ok c p d d' tid :
  founder_ok d → conversations d !! fc_id c = Some c → turn_taken c p d d' tid → founder_ok d'.
Proof.
  intros [Hid Ht Hm Hn Hp Hs Hsp] Hc [(mid & reply & Hmn & Hmd) Hcd _ _ _ [= Ep _ _]].
  set (cid := fc_id c) in *. set (m := founder_message mid cid (next_sequence d cid) reply p) in *.
  assert (Hmo : ∀ x, messages_of d' x ≡ₚ (if bool_decide (cid = x) then [m] else []) ++ messages_of d x)
    by exact (messages_of_insert d d' m Hmn Hmd).
  assert (Hmc : messages_of d' cid ≡ₚ m :: messages_of d cid) by (by rewrite Hmo, bool_decide_true).
  assert (Hme : ∀ x, x ≠ cid → messages_of d' x ≡ₚ messages_of d x).
  { intros x Hx. rewrite Hmo, bool_decide_false by congruence. done. }
  assert (Hfe : ∀ x, x ≠ cid → _founder_messages d' x = _founder_messages d x).
  { intros x Hx. apply (founder_messages_perm d d' x []); [apply Hn|by apply Hme|by intros ? ?%elem_of_nil]. }
  assert (Hlen : Z.of_nat (length (_founder_messages d' cid)) = fc_revision c + 1).
  { rewrite (founder_messages_more d d' cid m Hmc) by done. destruct (Ht _ _ Hc) as [-> _]. lia. }
  assert (Hlook : ∀ x c', conversations d' !! x = Some c' →
    x = cid ∧ c' = turned (fc_revision c + 1) (_founder_messages d' cid) c ∨ x ≠ cid ∧ conversations d !! x = Some c').
  { intros x c'. rewrite Hcd, lookup_alter_Some. intros [(-> & c0 & Hc0 & ->)|[? ?]]; [left|by right].
    rewrite Hc in Hc0. by injection Hc0 as <-. }
  assert (Hgrow : ∀ x c0, conversations d !! x = Some c0 →
    ∃ c', conversations d' !! x = Some c' ∧ fc_revision c0 ≤ fc_revision c').
  { intros x c0 Hc0. rewrite Hcd. destruct (decide (x = cid)) as [->|Hx].
    - rewrite lookup_alter_eq, Hc0. eexists. split; [done|]. rewrite Hc in Hc0. injection Hc0 as <-. cbn. lia.
    - rewrite lookup_alter_ne by done. by exists c0. }
  clear Hcd. split.
  - intros x c' [[-> ->]|[_ Hx]]%Hlook; [done|by apply Hid].
  - intros x c' [[-> ->]|[Hx Hc']]%Hlook; [by rewrite Hlen|]. rewrite Hfe by done. by apply Ht.
  - intros x m'. rewrite Hmd, lookup_insert_Some. intros Hx.
    assert (Hdom : is_Some (conversations d !! fm_conversation_id m')) by
      (destruct Hx as [[<- <-]|[_ Hx]]; [by eexists|by eapply Hm]).
    destruct Hdom as [c0 Hc0]. destruct (Hgrow _ _ Hc0) as (c' & Hc' & _). by eexists.
  - intros x. destruct (decide (x = cid)) as [->|Hx]; [by eapply numbered_more|]. eapply numbered_same; [apply Hn|by apply Hme].
  - intros pid q. rewrite Ep. intros Hq. destruct (Hp _ _ Hq) as (P1 & P2 & P3 & P4 & P5). do 4 (split; [done|]).
    intros x Hx. destruct (P5 _ Hx) as (c0 & r & Hc0 & Hr & Hle).
    destruct (Hgrow _ _ Hc0) as (c' & Hc' & Hle'). exists c', r. split; [done|]. split; [done|lia].
  - intros i j q q'. rewrite Ep. apply Hs.
  - intros x c' [[-> ->]|[Hx Hc']]%Hlook; [by intros dg|]. intros dg Hdg. rewrite Ep. by apply (Hsp _ _ Hc').
Qed.
(** *** A planner's answer *)

(** the conversation with the planner's answer *)
Definition answered (doc : FounderProposalDocument) (c : FounderConversation) : FounderConversation :=
  c <| fc_status := response_status (fpd_recommended_action doc) |>
    <| fc_current_specification := dump_document doc |>
    <| fc_specification_digest := Some (proposal_digest doc) |>
    <| fc_updated_at := w_server_now |>.

Record proposal_recorded (source : Task) (planner : Agent) (doc : FounderProposalDocument) (d d' : database)
    (pid : uuid) : Prop := {
  pr_new : proposals d !! pid = None;
  pr_single : ∀ id p, proposals d !! id = Some p → fp_source_task_id p ≠ t_id source;
  pr_row : proposals d' = <[pid := new_proposal pid source planner doc]> (proposals d);
  pr_conversation :
    match t_conversation_id source with
    | None => conversations d' = conversations d ∧ messages d' = messages d
    | Some cid => ∃ c mid, conversations d !! cid = Some c ∧ t_conversation_revision source = Some (fc_revision c) ∧
        messages d !! mid = None ∧ conversations d' = alter (answered doc) cid (conversations d) ∧
        messages d' = <[mid := response_message mid cid (next_sequence d cid) doc (proposal_digest doc)]> (messages d)
    end }.

Lemma answer_ok source planner doc d d' pid :
  founder_ok d → check_document doc = Ok tt → proposal_recorded source planner doc d d' pid → founder_ok d'.
Proof.
  intros [Hid Ht Hm Hn Hp Hs Hsp] Hdoc [Hnew Hsingle Hrow Hconv].
  set (q := new_proposal pid source planner doc) in *.
  assert (Hsub : ∀ id p, proposals d !! id = Some p → proposals d' !! id = Some p).
  { intros id p Hpp. rewrite Hrow, lookup_insert_ne; [done|]. congruence. }
  assert (Hfm : ∀ x, _founder_messages d' x = _founder_messages d x ∧ numbered_from_one (messages_of d' x)).
  { intros x. destruct (t_conversation_id source) as [cid|].
    - destruct Hconv as (c & mid & _ & _ & Hmn & _ & Hmd).
      set (m := response_message mid cid (next_sequence d cid) doc (proposal_digest doc)) in *.
      pose proof (messages_of_insert d d' m Hmn Hmd x) as Hmo. change (fm_conversation_id m) with cid in Hmo.
      case_bool_decide as E; cbn [app] in Hmo.
      + subst x. split; [|by eapply numbered_more]. apply (founder_messages_perm d d' cid [m]); [apply Hn|done|].
        by intros m' ->%list_elem_of_singleton.
      + split; [|by eapply numbered_same]. apply (founder_messages_perm d d' x []); [apply Hn|done|by intros ? ?%elem_of_nil].
    - destruct Hconv as [_ Hmd]. unfold _founder_messages, messages_of. rewrite Hmd. split; [done|apply Hn]. }
  assert (Hlook : ∀ x c', conversations d' !! x = Some c' → ∃ c, conversations d !! x = Some c ∧
    (c' = c ∨ c' = answered doc c ∧ t_conversation_id source = Some x ∧ t_conversation_revision source = Some (fc_revision c))).
  { intros x c'. destruct (t_conversation_id source) as [cid|]; [|destruct Hconv as [-> _]; by eauto].
    destruct Hconv as (c & mid & Hc & Hr & _ & -> & _). rewrite lookup_alter_Some.
    intros [(-> & c0 & Hc0 & ->)|[_ ?]]; [|by eauto]. exists c0. split; [done|]. right.
    rewrite Hc in Hc0. by injection Hc0 as <-. }
  assert (Hgrow : ∀ x c, conversations d !! x = Some c → ∃ c', conversations d' !! x = Some c' ∧ fc_revision c' = fc_revision c).
  { intros x c Hc. destruct (t_conversation_id source) as [cid|]; [|destruct Hconv as [-> _]; by eauto].
    destruct Hconv as (c0 & mid & _ & _ & _ & -> & _). destruct (decide (x = cid)) as [->|Hx].
    - rewrite lookup_alter_eq, Hc. by eexists.
    - rewrite lookup_alter_ne by done. by eauto. }
  split.
  - intros x c' Hc'. destruct (Hlook _ _ Hc') as (c & Hc & [->|[-> _]]); apply (Hid _ _ Hc).
  - intros x c' Hc'. destruct (Hfm x) as [-> _]. destruct (Hlook _ _ Hc') as (c & Hc & [->|[-> _]]); apply (Ht _ _ Hc).
  - intros mid m Hmm. assert (is_Some (conversations d !! fm_conversation_id m)) as [c Hc].
    { destruct (t_conversation_id source) as [cid|]; [|destruct Hconv as [_ Hmd]; rewrite Hmd in Hmm; by eapply Hm].
      destruct Hconv as (c & mid' & Hc & _ & _ & _ & Hmd). rewrite Hmd, lookup_insert_Some in Hmm.
      destruct Hmm as [[<- <-]|[_ Hmm]]; [by eexists|by eapply Hm]. }
    destruct (Hgrow _ _ Hc) as (c' & Hc' & _). by eexists.
  - intros x. by apply Hfm.
  - intros id p. rewrite Hrow, lookup_insert_Some. intros [[<- <-]|[_ Hpp]].
    + split; [done|]. split; [done|]. split; [done|]. split; [by left|]. intros cid Hcid. cbn in Hcid. rewrite Hcid in *.
      destruct Hconv as (c & mid & Hc & Hr & _). destruct (Hgrow _ _ Hc) as (c' & Hc' & Er).
      exists c', (fc_revision c). split; [done|]. split; [done|lia].
    + destruct (Hp _ _ Hpp) as (P1 & P2 & P3 & P4 & P5). do 4 (split; [done|]). intros cid Hcid.
      destruct (P5 _ Hcid) as (c & r & Hc & Hr & Hle). destruct (Hgrow _ _ Hc) as (c' & Hc' & Er).
      exists c', r. split; [done|]. split; [done|lia].
  - intros i j p p'. rewrite Hrow, !lookup_insert_Some.
    intros [[<- <-]|[Hi Hpi]] [[<- <-]|[Hj Hpj]] E; [done| | |by eapply Hs].
    + exfalso. by apply (Hsingle _ _ Hpj).
    + exfalso. by apply (Hsingle _ _ Hpi).
  - intros x c' Hc' dg Hdg. destruct (Hlook _ _ Hc') as (c & Hc & [->|(-> & Hx & Hr)]).
    + destruct (Hsp _ _ Hc _ Hdg) as (id & p & Hpp & Hrest). exists id, p. split; [by apply Hsub|done].
    + exists pid, q. rewrite Hrow, lookup_insert_eq. split; [done|]. cbn in Hdg. injection Hdg as <-. by repeat split.
Qed.

(** *** A decision *)
Lemma decision_keeps_records d d' pid p f :
  founder_ok d → proposals d !! pid = Some p → fp_status p = "proposed" →
  decision_ok (f p) → (fp_id (f p), fp_source_task_id (f p), fp_conversation_id (f p), fp_conversation_revision (f p),
    fp_proposal (f p), fp_proposal_digest (f p)) = (fp_id p, fp_source_task_id p, fp_conversation_id p,
    fp_conversation_revision p, fp_proposal p, fp_proposal_digest p) →
  proposals d' = alter f pid (proposals d) → (conversations d', messages d') = (conversations d, messages d) → founder_ok d'.
Proof.
  intros [Hid Ht Hm Hn Hp Hs Hsp] Hpp Hst Hdec [= F1 F2 F3 F4 F5 F6] Hrow [= Ec Em].
  assert (Hmo : ∀ x, messages_of d' x = messages_of d x) by (intros; unfold messages_of; by rewrite Em).
  assert (Hfm : ∀ x, _founder_messages d' x = _founder_messages d x) by (intros; unfold _founder_messages; by rewrite Hmo).
  assert (Hlook : ∀ id q', proposals d' !! id = Some q' → ∃ q, proposals d !! id = Some q ∧ (decision_ok q → decision_ok q') ∧
    (fp_id q', fp_source_task_id q', fp_conversation_id q', fp_conversation_revision q', fp_proposal q', fp_proposal_digest q') =
    (fp_id q, fp_source_task_id q, fp_conversation_id q, fp_conversation_revision q, fp_proposal q, fp_proposal_digest q)).
  { intros id q'. rewrite Hrow, lookup_alter_Some. intros [(-> & q & Hq & ->)|[_ Hq]]; [|by eauto].
    rewrite Hpp in Hq. injection Hq as <-. exists p. split; [done|]. split; [done|]. by rewrite F1, F2, F3, F4, F5, F6. }
  split; rewrite ?Ec; try done.
  - intros x c Hc. rewrite Hfm. by apply Ht.
  - intros mid m. rewrite Em. apply Hm.
  - intros x. rewrite Hmo. apply Hn.
  - intros id q' Hq'. destruct (Hlook _ _ Hq') as (q & Hq & Hd & [= E1 E2 E3 E4 E5 E6]).
    destruct (Hp _ _ Hq) as (P1 & P2 & P3 & P4 & P5). unfold proposal_ok. rewrite E1, E3, E4, E5, E6, Ec.
    do 3 (split; [done|]). split; [by apply Hd|done].
  - intros i j q q' Hq Hq'. destruct (Hlook _ _ Hq) as (q0 & Hq0 & _ & [= E1 E2 E3 E4 E5 E6]).
    destruct (Hlook _ _ Hq') as (q1 & Hq1 & _ & [= G1 G2 G3 G4 G5 G6]). rewrite E2, G2. by apply Hs.
  - intros x c Hc dg Hdg. destruct (Hsp _ _ Hc _ Hdg) as (id & q & Hq & C1 & C2 & C3). exists id.
    rewrite Hrow. destruct (decide (id = pid)) as [->|Hne].
    + rewrite Hpp in Hq. injection Hq as <-. exists (f p). rewrite lookup_alter_eq, Hpp, F3, F4, F6. done.
    + exists q. by rewrite lookup_alter_ne.
Qed.

Lemma plan_ok p actor reason mid mdg d d' tid pid :
  founder_ok d → proposals d !! pid = Some p → plan_materialized p actor reason mid mdg d d' tid → founder_ok d'.
Proof.
  intros Hok Hp [Hst _ _ (proposed & source & at_ & suffix & t' & _ & _ & _ & _ & _ & _ & _ & Hrow) [= Ec Em _]].
  pose proof (fo_proposal _ Hok _ _ Hp) as (Hid & _). rewrite Hid in Hrow.
  eapply decision_keeps_records; [done|exact Hp|done| | |exact Hrow|by rewrite Ec, Em]; [|done].
  right. cbn. eauto 10.
Qed.

(** *** A new conversation *)
Lemma opened_ok d d' id c :
  founder_ok d → conversations d !! id = None → fc_id c = id → fc_revision c = 0 → fc_working_summary c = "" →
  fc_specification_digest c = None → conversations d' = <[id := c]> (conversations d) →
  (messages d', proposals d') = (messages d, proposals d) → founder_ok d'.
Proof.
  intros [Hid Ht Hm Hn Hp Hs Hsp] Hnew Hc Hr Hsum Hspec Hcd [= Em Ep].
  assert (Hmo : ∀ x, messages_of d' x = messages_of d x) by (intros; unfold messages_of; by rewrite Em).
  assert (Hfm : ∀ x, _founder_messages d' x = _founder_messages d x) by (intros; unfold _founder_messages; by rewrite Hmo).
  assert (Hnone : messages_of d id = []).
  { destruct (messages_of d id) as [|m l] eqn:E; [done|]. exfalso.
    assert (Hin : m ∈ messages_of d id) by (rewrite E; by left). unfold messages_of in Hin.
    apply (select_rows_elem messages) in Hin as [Hcid [mid Hmid]]. apply bool_decide_eq_true in Hcid.
    destruct (Hm _ _ Hmid) as [c0 Hc0]. rewrite Hcid in Hc0. congruence. }
  assert (Hold : ∀ x c0, conversations d !! x = Some c0 → conversations d' !! x = Some c0).
  { intros x c0 Hx. rewrite Hcd, lookup_insert_ne; [done|]. congruence. }
  split; rewrite ?Ep.
  - intros x c0. rewrite Hcd, lookup_insert_Some. intros [[<- <-]|[_ ?]]; [done|by apply Hid].
  - intros x c0. rewrite Hcd, lookup_insert_Some, Hfm. intros [[<- <-]|[_ ?]]; [|by apply Ht].
    unfold _founder_messages. by rewrite Hnone, Hr, Hsum.
  - intros mid m. rewrite Em. intros H0. destruct (Hm _ _ H0) as [c0 Hc0]. exists c0. by apply Hold.
  - intros x. rewrite Hmo. apply Hn.
  - intros pid p Hpp. destruct (Hp _ _ Hpp) as (P1 & P2 & P3 & P4 & P5). do 4 (split; [done|]).
    intros cid Hcid. destruct (P5 _ Hcid) as (c0 & r & Hc0 & Hrest). exists c0, r. split; [by apply Hold|done].
  - done.
  - intros x c0. rewrite Hcd, lookup_insert_Some. intros [[<- <-]|[_ ?]] dg Hdg; [congruence|]. rewrite Ep. by eapply Hsp.
Qed.

(** ** What the calls do *)

(** a duplicate is answered with the newest task of the current revision *)
Definition duplicate_turn (c : FounderConversation) (p : ConversationTurnCreate) (d : database) (tid : uuid) : Prop :=
  ∃ id mid m t, ctc_channel_message_id p = Some id ∧ Str.nonempty id = true ∧ messages d !! mid = Some m ∧
    fm_conversation_id m = fc_id c ∧ fm_channel_message_id m = Some id ∧ tasks d !! tid = Some t ∧
    t_conversation_id t = Some (fc_id c) ∧ t_conversation_revision t = Some (fc_revision c) ∧
    ∀ i u, tasks d !! i = Some u → t_conversation_id u = Some (fc_id c) → t_conversation_revision u = Some (fc_revision c) →
      t_created_at u ≤ t_created_at t.

Lemma wp_append_turn I c p Q s :
  I (saved s) → keyed (tasks (db s)) →
  (∀ tid, duplicate_turn c p (db s) tid → Q tid s) →
  (∀ tid s', saved s' = saved s → str_in (fc_status c) OPEN_STATUSES = true → turn_taken c p (db s) (db s') tid → Q tid s') →
  wp I (append_turn c p) Q s.
Proof.
  intros HI Hk Hdup Hnew. unfold append_turn. apply wp_if; intros _; [by apply wp_raise|].
  apply wp_if; intros Hst; [by apply wp_raise|]. apply negb_false_iff in Hst.
  assert (Hturn : wp I (new_turn c p) Q s).
  { apply wp_new_turn; [done..|]. intros tid s' Hs' Ht. by apply Hnew. }
  unfold find_duplicate. destruct (ctc_channel_message_id p) as [id|] eqn:Hch; [|done].
  destruct (Str.nonempty id) eqn:Hne; [|done]. apply wp_bind. unfold select_one. apply wp_gets.
  destruct (head _) as [m|] eqn:Hm; [|done]. apply wp_bind, wp_gets.
  destruct (head (sort_by _ _)) as [t|] eqn:Ht; [|by apply wp_raise]. apply wp_ret.
  apply select_one_Some in Hm as [Hc [mid Hmid]]. unfold carries in Hc. rewrite andb_true_iff, !bool_decide_eq_true in Hc.
  assert (Hin : t ∈ sort_by newest_first (List.filter (of_revision c) (table_rows (tasks (db s))))) by (by apply head_Some_elem_of).
  apply elem_of_sort_by, select_rows_elem in Hin as [Hr [tid Htid]]. unfold of_revision in Hr.
  rewrite andb_true_iff, !bool_decide_eq_true in Hr. rewrite (Hk _ _ Htid) in *. apply Hdup. exists id, mid, m, t.
  split_and!; try tauto. intros i u Hu H1 H2. apply Z.leb_le. change (newest_first t u = true).
  eapply sort_by_head; [..|exact Ht|]; [unfold newest_first; intros; lia..|].
  apply list_elem_of_In, filter_In. split; [apply list_elem_of_In, list_elem_of_fmap; exists (i, u); by rewrite elem_of_map_to_list|].
  unfold of_revision. by rewrite H1, H2, !bool_decide_true.
Qed.

Lemma wp_planner_response I source planner doc pid d s Q :
  I (saved s) → proposals d !! pid = None → (∀ id p, proposals d !! id = Some p → fp_source_task_id p ≠ t_id source) →
  (∀ cid, t_conversation_id source = Some cid → ∃ c, conversations d !! cid = Some c ∧
     t_conversation_revision source = Some (fc_revision c)) →
  proposals (db s) = <[pid := new_proposal pid source planner doc]> (proposals d) →
  (conversations (db s), messages (db s)) = (conversations d, messages d) →
  (∀ s', saved s' = saved s → proposal_recorded source planner doc d (db s') pid → Q tt s') →
  wp I (record_planner_response source doc (dump_document doc) (proposal_digest doc)) Q s.
Proof.
  intros HI Hn Hsingle Hconv Hrow [= Ec Em] HQ. unfold record_planner_response.
  destruct (t_conversation_id source) as [cid|] eqn:Hcid.
  2:{ apply wp_ret, HQ; [done|]. split; [done|done|done|]. by rewrite Hcid. }
  destruct (Hconv cid eq_refl) as (c & Hc & Hr). apply wp_bind, wp_get_row. rewrite Ec, Hc.
  apply wp_if; intros Hcur; [by rewrite bool_decide_true in Hcur|]. cbv zeta. apply wp_bind, wp_alter, wp_bind, wp_gets.
  match goal with |- context [next_sequence ?x cid] =>
    replace (next_sequence x cid) with (next_sequence d cid) by (unfold next_sequence, messages_of; cbn; by rewrite Em) end.
  apply wp_bind. eapply (wp_frame founder); [frame|done|]. intros mid s1 Hs1 [= F1 F2 F3 F4 F5].
  apply wp_bind, wp_add_message; [by rewrite Hs1|]. intros Hnm _.
  eapply (wp_frame founder); [apply conversation_event_founder|by cbn; rewrite Hs1|].
  intros [] s2 Hs2 [= G1 G2 G3 G4 G5]. apply HQ; [by rewrite Hs2|].
  split; [done|done|by rewrite G3, F3|]. rewrite Hcid. exists c, mid. split; [done|]. split; [done|].
  split; [by rewrite <- Em, <- F2|]. split; [by rewrite G1, F1, Ec|].
  by rewrite G2, F2, Em.
Qed.

Lemma wp_create_proposal I source planner doc Q s :
  I (saved s) →
  (∀ pid s', saved s' = saved s → t_task_type source = "founder_request" →
     str_in "founder-intake" (ag_capabilities planner) = true →
     proposal_recorded source planner doc (db s) (db s') pid → Q (new_proposal pid source planner doc) s') →
  wp I (create_proposal source planner doc) Q s.
Proof.
  intros HI HQ. unfold create_proposal. apply wp_if; intros Hty; [by apply wp_raise|].
  apply wp_if; intros Hcap; [by apply wp_raise|]. apply negb_false_iff in Hty, Hcap. apply String.eqb_eq in Hty.
  apply wp_bind. eapply wp_mono with (Q := fun conv s1 => s1 = s ∧
    conv = ((fun cid => conversations (db s) !! cid) <$> t_conversation_id source)).
  { destruct (t_conversation_id source); [by apply wp_bind, wp_get_row, wp_ret|by apply wp_ret]. }
  intros conv s1 [-> ->]. apply wp_if; intros Hcur; [by apply wp_raise|].
  apply wp_bind. unfold select_one. apply wp_gets. destruct (head _) as [p|] eqn:Hsel; [by apply wp_raise|].
  assert (Hsingle : ∀ id p, proposals (db s) !! id = Some p → fp_source_task_id p ≠ t_id source).
  { intros id p Hp. apply (bool_decide_eq_false_1 _), (select_one_None proposals _ _ Hsel id p Hp). }
  apply wp_bind. eapply (wp_frame founder); [frame|done|]. intros pid s2 Hs2 [= F1 F2 F3 F4 F5]. cbv zeta.
  apply wp_bind, wp_insert; [by rewrite Hs2|]. intros Hn. rewrite F3 in Hn. apply wp_bind.
  apply (wp_planner_response I source planner doc pid (db s)); [by cbn; rewrite Hs2|done|done| |by cbn; rewrite F3|by cbn; rewrite F1, F2|].
  - intros cid Hcid. rewrite Hcid in Hcur. cbn in Hcur. destruct (conversations (db s) !! cid) as [c|]; [|done].
    exists c. split; [done|]. apply negb_false_iff in Hcur. by apply bool_decide_eq_true in Hcur.
  - intros s3 Hs3 Hrec. apply wp_ret, HQ; [by rewrite Hs3|done..].
Qed.
End effects.

(** ** Every request keeps the records consistent *)
Section requests.
Context `{World}.

(** a request that starts on consistent records leaves consistent ones *)
Definition consistent {A} (m : Sess A) : Prop :=
  ∀ s, safe (db s) → founder_ok (db s) → founder_ok (saved s) → wp founder_ok m (fun _ s' => founder_ok (saved s')) s.

Lemma founder_ledger d d' : founder d' = founder d → ledger d' = ledger d.
Proof. unfold founder, ledger. by intros [= -> -> -> _ _]. Qed.

Lemma founder_ok_same d d' : founder d' = founder d → founder_ok d → founder_ok d'.
Proof. intros E. by apply founder_ok_ledger, founder_ledger. Qed.

(** the commit that ends a request *)
Lemma wp_finish {A} (a : A) s : founder_ok (db s) → wp founder_ok (_ ← commit; mret a) (fun _ s' => founder_ok (saved s')) s.
Proof. intros Hok. by apply wp_bind, wp_commit, wp_ret. Qed.

Lemma wp_founder_log {A T} (m : Sess T) (k : T → Sess A) s :
  preserves founder m → founder_ok (db s) → founder_ok (saved s) →
  (∀ a s', founder_ok (db s') → founder_ok (saved s') → wp founder_ok (k a) (fun _ s' => founder_ok (saved s')) s') →
  wp founder_ok (m ≫= k) (fun _ s' => founder_ok (saved s')) s.
Proof.
  intros Hm Hdb Hsv Hk. apply wp_bind. eapply (wp_frame founder); [exact Hm|exact Hsv|].
  intros a s' Hs' Hf. apply Hk; [by eapply founder_ok_same|by rewrite Hs'].
Qed.

Lemma wp_get_conversation I id k Q s :
  I (saved s) → (∀ c, conversations (db s) !! id = Some c → fc_founder_key c = k → Q c s) →
  wp I (get_conversation id k) Q s.
Proof.
  intros HI HQ. unfold get_conversation. apply wp_bind, wp_get_row.
  destruct (_ !! id) as [c|]; [|by apply wp_raise]. apply wp_if; intros E; [|by apply wp_raise].
  apply String.eqb_eq in E. by apply wp_ret, HQ.
Qed.

Lemma append_turn_ok c p s :
  safe (db s) → founder_ok (db s) → founder_ok (saved s) → conversations (db s) !! fc_id c = Some c →
  wp founder_ok (append_turn c p) (fun _ s' => founder_ok (db s') ∧ saved s' = saved s) s.
Proof.
  intros Hsafe Hdb Hsv Hc. apply wp_append_turn; [done|by apply safe_keyed|done|].
  intros tid s' Hs' _ Ht. split; [by apply (turn_ok c p (db s) _ tid)|done].
Qed.

Lemma add_turn_ok id p : consistent (add_turn id p).
Proof.
  intros s Hsafe Hdb Hsv. unfold add_turn. apply wp_if; intros _; [by apply wp_raise|].
  apply wp_bind, wp_get_conversation; [done|]. intros c Hc _.
  pose proof (fo_id _ Hdb _ _ Hc) as Hid. rewrite <- Hid in Hc. apply wp_bind.
  eapply wp_mono; [by apply append_turn_ok|]. intros tid s' [Hok _]. by apply wp_finish.
Qed.

Lemma wp_create_conversation p s :
  safe (db s) → founder_ok (db s) → founder_ok (saved s) →
  wp founder_ok (create_conversation p) (fun _ s' => founder_ok (db s')) s.
Proof.
  intros Hsafe Hdb Hsv. unfold create_conversation. apply wp_bind.
  eapply (wp_frame (fun d => (core d, founder d))); [frame|done|]. intros hex s1 Hs1 [= E1 E2 E3 E4 E5 E6 E7].
  apply wp_bind. eapply (wp_frame (fun d => (core d, founder d))); [frame|by rewrite Hs1|].
  intros id s2 Hs2 [= F1 F2 F3 F4 F5 F6 F7]. cbv zeta. set (c := new_conversation_row id (Str.head 12 hex) p).
  apply wp_bind. unfold add_conversation. apply wp_bind. unfold select_one. apply wp_gets.
  assert (Hsv2 : founder_ok (saved s2)) by by rewrite Hs2, Hs1.
  destruct (head _); [by apply wp_raise|]. apply wp_insert; [done|]. intros Hn. change (fc_id c) with id in Hn |- *.
  apply wp_bind. eapply wp_mono.
  { apply append_turn_ok; [| |done|by cbn; rewrite lookup_insert_eq].
    - unfold safe, core. cbn. by rewrite F1, F2, E1, E2.
    - eapply (opened_ok (db s2) _ id c); [|done|done..]. eapply founder_ok_same; [|exact Hdb].
      unfold founder. by rewrite F3, F4, F5, F6, F7, E3, E4, E5, E6, E7. }
  intros tid s3 [Hok Hs3]. apply wp_bind, wp_get_row, wp_bind.
  eapply (wp_frame founder); [apply conversation_event_founder|by rewrite Hs3|].
  intros [] s4 _ Hf. apply wp_ret. by eapply founder_ok_same.
Qed.

Lemma new_conversation_ok p : consistent (new_conversation p).
Proof.
  intros s Hsafe Hdb Hsv. unfold new_conversation. apply wp_if; intros _; [by apply wp_raise|].
  apply wp_bind. eapply wp_mono; [by apply wp_create_conversation|]. intros r s' Hok. by apply wp_finish.
Qed.

(** a status change leaves the records of a conversation alone *)
Lemma status_ok d cid f :
  (∀ c, essence (f c) = essence c) → founder_ok d → founder_ok (set_field conversations (alter f cid (conversations d)) d).
Proof.
  intros Hf. apply founder_ok_ledger. unfold ledger. cbn. f_equal. f_equal. apply map_eq. intros i.
  rewrite !lookup_fmap. destruct (decide (i = cid)) as [->|Hne].
  - rewrite lookup_alter_eq. destruct (_ !! cid) as [c|]; [|done]. cbn. by rewrite Hf.
  - by rewrite lookup_alter_ne.
Qed.

Lemma transition_ok id p : consistent (transition_endpoint id p).
Proof.
  intros s Hsafe Hdb Hsv. unfold transition_endpoint. apply wp_if; intros _; [by apply wp_raise|].
  apply wp_bind, wp_get_conversation; [done|]. intros c Hc _. apply wp_bind. unfold transition_conversation.
  apply wp_if; intros _; [by apply wp_raise|]. apply wp_if; intros _; [by apply wp_raise|].
  apply wp_bind. eapply (wp_frame founder); [frame|done|]. intros closed s1 Hs1 Hf1.
  apply wp_bind, wp_alter. eapply (wp_frame founder); [apply conversation_event_founder|by cbn; rewrite Hs1|].
  intros [] s2 _ Hf2. apply wp_commit. eapply founder_ok_same; [exact Hf2|]. apply status_ok; [done|]. by eapply founder_ok_same.
Qed.

Lemma submit_ok tid p a : consistent (submit_proposal tid p a).
Proof.
  intros s Hsafe Hdb Hsv. unfold submit_proposal. apply wp_bind.
  destruct (check_document (fpn_proposal p)) as [[]|e] eqn:Hdoc; [|by apply wp_raise].
  change (wp founder_ok (mret tt) ?Q s) with (Q tt s). apply wp_if; intros _; [by apply wp_raise|].
  apply wp_founder_log; [unfold lock_task; frame|done|done|]. intros t s1 Hdb1 Hsv1.
  apply wp_founder_log; [frame|done|done|]. intros now s2 Hdb2 Hsv2.
  apply wp_bind, wp_create_proposal; [done|]. intros pid s3 Hs3 _ _ Hrec.
  apply wp_founder_log; [apply append_task_event_founder|by apply (answer_ok t a (fpn_proposal p) (db s2) _ pid)|by rewrite Hs3|].
  intros _ s4 Hdb4 _. by apply wp_finish.
Qed.

Lemma wp_lock_proposal I id Q s :
  I (saved s) → (∀ p, proposals (db s) !! id = Some p → Q p s) → wp I (_lock_proposal id) Q s.
Proof.
  intros HI HQ. unfold _lock_proposal. apply wp_bind, wp_get_row.
  destruct (_ !! id) as [p|]; [by apply wp_ret, HQ|by apply wp_raise].
Qed.

Lemma materialize_ok p pid actor reason mid mdg s :
  founder_ok (db s) → founder_ok (saved s) → proposals (db s) !! pid = Some p →
  wp founder_ok (materialize_proposal p actor reason mid mdg) (fun _ s' => founder_ok (db s')) s.
Proof.
  intros Hdb Hsv Hp. apply wp_materialize_proposal; [done|]. intros tid s' _ Hm. by apply (plan_ok p actor reason mid mdg (db s) _ tid pid).
Qed.

Lemma reject_ok p pid actor reason s :
  founder_ok (db s) → founder_ok (saved s) → proposals (db s) !! pid = Some p →
  wp founder_ok (reject_proposal p actor reason) (fun _ s' => founder_ok (db s')) s.
Proof.
  intros Hdb Hsv Hp. unfold reject_proposal, already_decided. apply wp_if; intros Hst; [by apply wp_raise|].
  apply negb_false_iff, String.eqb_eq in Hst. apply wp_bind, wp_utc_now. intros now _. apply wp_alter.
  destruct (fo_proposal _ Hdb _ _ Hp) as (Hid & _ & _ & Hdec & _). rewrite Hid.
  eapply (decision_keeps_records (db s)); [done|exact Hp|done| | |done|done]; [|done].
  right. cbn. destruct Hdec as [(_ & _ & ->)|(_ & _ & _ & [[E _]|[E _]])]; [eauto 10|congruence..].
Qed.

Lemma approve_ok id p : consistent (approve_and_materialize id p).
Proof.
  intros s Hsafe Hdb Hsv. unfold approve_and_materialize. apply wp_if; intros _; [by apply wp_raise|].
  apply wp_bind, wp_lock_proposal; [done|]. intros q Hq. apply wp_catch_integrity, wp_bind.
  eapply wp_mono; [by eapply materialize_ok|]. intros tid s' Hok. by apply wp_finish.
Qed.

Lemma reject_endpoint_ok id p : consistent (reject_endpoint id p).
Proof.
  intros s Hsafe Hdb Hsv. unfold reject_endpoint. apply wp_if; intros _; [by apply wp_raise|].
  apply wp_bind, wp_lock_proposal; [done|]. intros q Hq. apply wp_bind.
  eapply wp_mono; [by eapply reject_ok|]. intros ? s' Hok. by apply wp_commit.
Qed.

Lemma decide_ok id action p : consistent (decide_proposal id action p).
Proof.
  intros s Hsafe Hdb Hsv. unfold decide_proposal. apply wp_if; intros _; [by apply wp_raise|].
  apply wp_bind, wp_lock_proposal; [done|]. intros q Hq. apply wp_if; intros _; [|apply wp_if; intros _].
  - apply wp_bind. eapply wp_mono; [by eapply materialize_ok|]. intros tid s' Hok. by apply wp_finish.
  - apply wp_bind. eapply wp_mono; [by eapply reject_ok|]. intros ? s' Hok. by apply wp_finish.
  - by apply wp_raise.
Qed.

Lemma founder_request_ok p : consistent (create_request p).
Proof.
  intros s Hsafe Hdb Hsv. unfold create_request. apply wp_if; intros _; [by apply wp_raise|].
  apply wp_bind, wp_utc_now. intros now _. apply wp_catch_integrity, wp_bind, wp_materialize; [done|done|].
  intros id st s' Hs' (_ & _ & Hf & _). apply wp_finish. by eapply founder_ok_same.
Qed.

Lemma start_task_ok tid a k m : consistent (start_task tid a k m).
Proof.
  intros s Hsafe Hdb Hsv. unfold start_task.
  apply wp_founder_log; [unfold lock_task; frame|done|done|]. intros t s1 Hdb1 Hsv1.
  apply wp_founder_log; [frame|done|done|]. intros now s2 Hdb2 Hsv2.
  apply wp_founder_log; [unfold alter_task; frame|done|done|]. intros _ s3 Hdb3 Hsv3.
  apply wp_bind. eapply wp_mono with (Q := fun _ s' => founder_ok (db s') ∧ saved s' = saved s3).
  - apply wp_when; intros _; [|done]. unfold record_planning_started.
    destruct (t_conversation_id t) as [cid|]; [|done]. apply wp_bind, wp_get_row. destruct (_ !! cid) as [c|]; [|done].
    apply wp_if; intros _; [done|]. apply wp_bind.
    eapply wp_mono with (Q := fun _ s' => founder_ok (db s') ∧ saved s' = saved s3).
    { apply wp_when; intros _; [|done]. apply wp_alter. split; [by apply status_ok|done]. }
    intros _ s4 [Hdb4 Hs4]. eapply (wp_frame founder); [unfold add_notification; frame|by rewrite Hs4|].
    intros [] s5 Hs5 Hf5. split; [by eapply founder_ok_same|congruence].
  - intros _ s4 [Hdb4 Hs4]. rewrite <- Hs4 in Hsv3.
    apply wp_founder_log; [unfold alter_task; frame|done|done|]. intros _ s5 Hdb5 Hsv5.
    apply wp_founder_log; [apply append_task_event_founder|done|done|]. intros _ s6 Hdb6 Hsv6. by apply wp_commit.
Qed.
End requests.
