(* ===== verification/FounderTheorems.v ===== *)
(** * What the founder's conversations and proposals guarantee

    The records of a conversation stay consistent over any history of requests,
    a turn supersedes every earlier plan, and the task a proposal becomes is the
    plan that was proposed. *)
From S2P Require Import Prelude Py Sha256 JsonText Models Store Logic TaskCore Notifications Governance.
From S2P Require Import CoreInvariant GovernanceFacts Tasks TasksFacts TaskGraphs Conversations RuntimeFacts.
From S2P Require Import ProposalSchema FounderConversations Proposals FounderFacts TaskRuntime FounderInvariant System Demo.


Open Scope Z_scope.

(** ** Histories of the founder's channel *)

(** the requests that write conversations, messages or proposals, with the start
    of a planning task *)
Definition founder_call (c : call) : bool :=
  match c with
  | NewConversation _ | AddTurn _ _ | TransitionConversation _ _ | SubmitProposal _ _ _ | MaterializeProposal _ _
  | RejectProposal _ _ | FounderRequest _ | DecideProposal _ _ _ | StartTask _ _ _ _ => true
  | _ => false
  end.

(** a control plane without conversations, and what the founder's requests make
    of it; between them anything may happen to the other tables, and to the status
    of a conversation, as long as tasks and approvals stay safe *)
Inductive founder_history : database → Prop :=
| founder_start d : conversations d = ∅ → messages d = ∅ → proposals d = ∅ → safe d → founder_history d
| founder_request (w : World) c d : founder_history d → founder_call c = true → founder_history (@handle w c d).2
| founder_other d d' : founder_history d → ledger d' = ledger d → safe d' → founder_history d'.

Section histories.
Context `{World}.

Lemma respond_consistent {A} (m : Sess A) d : consistent m → safe d → founder_ok d → founder_ok (respond m d).2.
Proof.
  intros Hm Hs Hok. specialize (Hm (open_session d) Hs Hok Hok). unfold respond, request, wp in *.
  by destruct (m (open_session d)) as [[a|e] s'].
Qed.

Lemma founder_call_ok c d : founder_call c = true → safe d → founder_ok d → founder_ok (handle c d).2.
Proof.
  intros Hc. destruct c; try discriminate Hc; cbn [handle]; apply respond_consistent;
    auto using start_task_ok, new_conversation_ok, add_turn_ok, transition_ok, submit_ok, approve_ok,
      reject_endpoint_ok, founder_request_ok, decide_ok.
Qed.

(** the answer of a successful request *)
Lemma wp_response {A} I (m : Sess A) (P : A → database → Prop) d a d' :
  wp I m (fun a s' => P a (saved s')) (open_session d) → request m d = (Ok a, d') → P a d'.
Proof. unfold wp, request. destruct (m (open_session d)) as [[b|e] s']; [|done]. by intros HP [= <- <-]. Qed.
End histories.

(** from the answer of a request to what the request does *)
Ltac response H :=
  lazymatch type of H with request _ _ = (Ok ?a, ?d') => pattern a, d'; revert H; apply (wp_response (fun _ => True)) end.

Lemma founder_empty d : conversations d = ∅ → messages d = ∅ → proposals d = ∅ → founder_ok d.
Proof.
  intros Hc Hm Hp. assert (Hmo : ∀ cid, messages_of d cid = []) by (intros; unfold messages_of, table_rows; by rewrite Hm).
  split; rewrite ?Hc, ?Hm, ?Hp; try by intros ??; rewrite lookup_empty.
  intros cid. rewrite Hmo. constructor.
Qed.

Lemma founder_history_ok d : founder_history d → safe d ∧ founder_ok d.
Proof.
  induction 1 as [d Hc Hm Hp Hs|w c d _ [Hs Hok] Hc|d d' _ [_ Hok] Hl Hs].
  - split; [done|by apply founder_empty].
  - split; [by apply handle_safe|by apply founder_call_ok].
  - split; [done|by apply (founder_ok_ledger d)].
Qed.

Lemma seqZ_sorted a n : StronglySorted Z.le (seqZ a n).
Proof.
  unfold seqZ. generalize 0%nat as k. induction (Z.to_nat n) as [|m IH]; intros k; cbn; constructor; [apply IH|].
  apply Forall_forall. intros x (y & -> & Hy)%list_elem_of_fmap. apply elem_of_seq in Hy. lia.
Qed.

Lemma fmap_sorted {A B} (f : A → B) (R : A → A → Prop) (S : B → B → Prop) l :
  (∀ x y, R x y → S (f x) (f y)) → StronglySorted R l → StronglySorted S (f <$> l).
Proof.
  intros Hf. induction 1 as [|x l _ IH Hx]; cbn; constructor; [done|].
  apply Forall_fmap. eapply Forall_impl; [exact Hx|]. intros y. apply Hf.
Qed.

(** the messages of a conversation, in their order, are numbered from one *)
Lemma listed_from_one d cid :
  numbered_from_one (messages_of d cid) →
  fm_sequence <$> conversation_messages d cid = seqZ 1 (Z.of_nat (length (messages_of d cid))).
Proof.
  intros Hn. unfold conversation_messages. apply (StronglySorted_unique Z.le).
  - apply (fmap_sorted _ (fun a b => sequence_leb a b = true)).
    + intros x y. unfold sequence_leb. lia.
    + apply sort_by_sorted; [apply sequence_total|apply sequence_trans].
  - apply seqZ_sorted.
  - by rewrite sort_by_perm.
Qed.

(** ** What is shown *)

Lemma checked_task doc p :
  check_document doc = Ok tt → fpd_proposed_task doc = Some p →
  valid_task_fields p = true ∧ (pt_allowed_machines p, pt_required_capabilities p) = canonical_route (pt_input_contract p).
Proof.
  unfold check_document. intros Hc Hp. rewrite Hp in Hc. cbn [from_option] in Hc. unfold check_task in Hc.
  destruct (valid_task_fields p); [|done]. split; [done|]. unfold forbid_execution_surface in Hc.
  destruct (expected_contract _ _); [|done]. cbn [negb] in Hc.
  destruct (bool_decide (pt_allowed_machines p = _)) eqn:E1; [|done]. cbn [negb] in Hc.
  destruct (bool_decide (pt_required_capabilities p = _)) eqn:E2; [|done].
  apply bool_decide_eq_true in E1, E2. rewrite E1, E2. by destruct (canonical_route _).
Qed.

(** the task of a plan: what the planner wrote, on the route of its contract *)
Definition follows_plan (p : ProposedTask) (source t : Task) : Prop :=
  (t_project t, t_task_type t, t_title t, t_objective t) = (pt_project p, pt_task_type p, pt_title p, pt_objective p) ∧
  (t_priority t, t_risk_level t, t_max_attempts t) = (pt_priority p, pt_risk_level p, pt_max_attempts p) ∧
  t_input_contract t = dump_contract no_nulls (pt_input_contract p) ∧
  (t_allowed_machines t, t_required_capabilities t) = canonical_route (pt_input_contract p) ∧
  (t_parent_task_id t, t_conversation_id t, t_conversation_revision t) =
    (Some (t_id source), t_conversation_id source, t_conversation_revision source) ∧
  t_approval_required t = (pt_approval_required p || (2 <=? pt_risk_level p)).

(** where it starts: a founder hypothesis is done once it is queued for research *)
Definition plan_status (p : ProposedTask) (t : Task) : TaskStatus :=
  match pt_input_contract p with
  | FounderHypothesisIntake _ => Succeeded
  | _ => if t_approval_required t then PendingApproval else Queued
  end.

Lemma planned_follows `{World} p proposed source actor at_ suffix tid :
  (pt_allowed_machines proposed, pt_required_capabilities proposed) = canonical_route (pt_input_contract proposed) →
  follows_plan proposed source (planned_row p proposed source actor at_ suffix tid) ∧
  t_status (planned_row p proposed source actor at_ suffix tid) =
    (if t_approval_required (planned_row p proposed source actor at_ suffix tid) then PendingApproval else Queued).
Proof. intros Hr. split; [|reflexivity]. by split_and!. Qed.

Lemma intake_follows `{World} p source at_ idea t : follows_plan p source t → follows_plan p source (intake_done at_ idea t).
Proof. done. Qed.

(** an open proposal of a conversation that has moved on is not materialized *)
Lemma moved_refused `{World} I p cid c actor reason mid mdg Q s :
  I (saved s) → fp_conversation_id p = Some cid → conversations (db s) !! cid = Some c → superseded p c = true →
  wp I (materialize_proposal p actor reason mid mdg) Q s.
Proof.
  intros HI Hcid Hc Hsup. unfold materialize_proposal, already_decided, conversation_moved. rewrite Hcid.
  apply wp_if; intros _; [by apply wp_raise|]. destruct (str_eqb _ _); [|by apply wp_raise].
  destruct (fpd_proposed_task _); [|by apply wp_raise]. apply wp_bind, wp_bind, wp_get_row, wp_ret.
  rewrite Hc. cbn [from_option]. rewrite Hsup. by apply wp_raise.
Qed.

(** no queued task of an earlier revision is left after a turn *)
Lemma turn_clears `{World} c p d d' tid id t r :
  turn_taken c p d d' tid → tasks d' !! id = Some t → t_conversation_id t = Some (fc_id c) →
  t_conversation_revision t = Some r → t_status t = Queued → fc_revision c < r.
Proof.
  intros [_ _ _ (now & g & _ & Ht) _ _]. rewrite Ht, lookup_insert_Some. intros [[_ <-]|[_ Hrow]] Hcid Hr Hst.
  - change (Some (fc_revision c + 1) = Some r) in Hr. injection Hr as <-. lia.
  - rewrite lookup_fmap in Hrow. apply fmap_Some in Hrow as (t0 & _ & ->). unfold after_turn in *.
    destruct (stale (fc_id c) (fc_revision c + 1) t0) eqn:E; [done|]. unfold stale in E.
    rewrite Hr in E. rewrite !bool_decide_true in E by done. cbn in E. lia.
Qed.

(** a proposal for an earlier revision is refused *)
Lemma turn_closes `{W : World} c p d d' tid pid q (w : World) decision :
  founder_ok d → conversations d !! fc_id c = Some c → @turn_taken W c p d d' tid → proposals d' !! pid = Some q →
  fp_conversation_id q = Some (fc_id c) → ∃ e, request (@approve_and_materialize w pid decision) d' = (Err e, d').
Proof.
  intros Hok Hc [_ Hcd _ _ _ [= Ep _ _]] Hq Hqc. rewrite Ep in Hq.
  destruct (fo_proposal _ Hok _ _ Hq) as (_ & _ & _ & _ & Hrev). destruct (Hrev _ Hqc) as (c0 & r & Hc0 & Hr & Hle).
  rewrite Hc in Hc0. injection Hc0 as <-.
  assert (Hw : wp (fun d => d = d') (@approve_and_materialize w pid decision) (fun _ _ => False) (open_session d')).
  { unfold approve_and_materialize. apply wp_if; intros _; [by apply wp_raise|].
    apply wp_bind, wp_lock_proposal; [done|]. cbn [db open_session]. rewrite Ep, Hq. intros q' [= <-].
    apply wp_catch_integrity, wp_bind. eapply moved_refused; [done|exact Hqc|cbn [db open_session]; by rewrite Hcd, lookup_alter_eq, Hc|].
    unfold superseded, current_revision. rewrite Hr, bool_decide_false; [done|]. intros E. injection E as E. cbn in E. lia. }
  unfold wp in Hw. unfold request. destruct (approve_and_materialize pid decision (open_session d')) as [[a|e] s']; [done|].
  exists e. by rewrite Hw.
Qed.

(** C20. Over any history of the founder's requests, every conversation has the revision and the summary that its
    founder messages give it, its messages are numbered from one without a gap in their order, and the
    specification it shows is a proposal for its current revision; every stored proposal is a valid document with its
    digest, for a revision the conversation has had, is open or was decided exactly once with an actor, a reason and a time
    (with a task exactly when it was materialized), and is the only one for its founder request. *)
Theorem founder_records_are_consistent d :
  founder_history d →
  (∀ cid c, conversations d !! cid = Some c →
     fc_revision c = Z.of_nat (length (_founder_messages d cid)) ∧
     fc_working_summary c = _bounded_summary (_founder_messages d cid) ∧
     fm_sequence <$> conversation_messages d cid = seqZ 1 (Z.of_nat (length (messages_of d cid))) ∧
     specified d cid c) ∧
  (∀ pid p, proposals d !! pid = Some p → proposal_ok d pid p) ∧
  (∀ i j p q, proposals d !! i = Some p → proposals d !! j = Some q → fp_source_task_id p = fp_source_task_id q → i = j).
Proof.
  intros [_ Hok]%founder_history_ok. split; [|split; [apply Hok|apply Hok]]. intros cid c Hc.
  destruct (fo_turns _ Hok _ _ Hc) as [Hr Hs]. split; [done|]. split; [done|].
  split; [by apply listed_from_one, Hok|by apply (fo_spec _ Hok)].
Qed.

(** C19. When a decision to materialize a proposal succeeds, the proposal was open, recommended the task it proposes, and
    was the specification its conversation shows for its current revision.  The one new task is what the validated
    plan says (its text, contract, risk, attempts), on the machines and capabilities its contract fixes, child of the
    founder request; it waits for an approval of that very plan whenever the plan asks for one or its risk is two or
    more, and no other approval, task or proposal changes. *)
Theorem materialization_follows_the_plan `{World} pid payload d tid d' :
  founder_history d → request (approve_and_materialize pid payload) d = (Ok tid, d') →
  ∃ p proposed source at_ t, proposals d !! pid = Some p ∧ fp_status p = "proposed" ∧
    fpd_recommended_action (fp_proposal p) = "create_task" ∧ fpd_proposed_task (fp_proposal p) = Some proposed ∧
    (∀ cid, fp_conversation_id p = Some cid → ∃ c, conversations d !! cid = Some c ∧
       fp_conversation_revision p = Some (fc_revision c) ∧ fc_specification_digest c = Some (fp_proposal_digest p)) ∧
    tasks d !! fp_source_task_id p = Some source ∧ follows_plan proposed source t ∧ t_status t = plan_status proposed t ∧
    tasks d !! tid = None ∧ tasks d' = <[tid := t]> (tasks d) ∧ gated_by t (approvals d) (approvals d') ∧
    proposals d' = alter (decided "materialized" (fpx_actor payload) (fpx_reason payload) at_ (Some tid)) pid (proposals d) ∧
    (conversations d', messages d') = (conversations d, messages d).
Proof.
  intros [Hsafe Hok]%founder_history_ok Hreq. response Hreq.
  unfold approve_and_materialize. apply wp_if; intros _; [by apply wp_raise|].
  apply wp_bind, wp_lock_proposal; [done|]. intros p Hp. apply wp_catch_integrity, wp_bind, wp_materialize_proposal; [done|].
  intros id s' _ [Hst Hcur Hact (proposed & source & at_ & suffix & t' & Hpt & Hsrc & Hn & _ & Hfin & Ht & Hg & Hpr) [= Ec Em _]].
  apply wp_bind, wp_commit, wp_ret. destruct (fo_proposal _ Hok _ _ Hp) as (Hid & Hdoc & _).
  destruct (checked_task _ _ Hdoc Hpt) as [_ Hroute].
  destruct (planned_follows p _ source (fpx_actor payload) at_ suffix id Hroute) as [Hfol Hstat].
  exists p, proposed, source, at_, t'. rewrite Hid in Hpr. cbn [db saved open_session] in *.
  assert (Hrow : follows_plan proposed source t' ∧ t_status t' = plan_status proposed t' ∧ gated_by t' (approvals d) (approvals (db s'))).
  { unfold final_row in Hfin. remember (planned_row p proposed source (fpx_actor payload) at_ suffix id) as t eqn:Et. clear Et.
    unfold plan_status. destruct (pt_input_contract proposed); try (by destruct Hfin as [-> _]).
    destruct Hfin as (idea & _ & ->). split; [by apply intake_follows|]. split; [done|by apply intake_gated]. }
  destruct Hrow as (R1 & R2 & R3).
  split_and!; try done; [|cbn; by rewrite Ec, Em].
  intros cid Hcid. destruct (Hcur cid Hcid) as (c & Hc & Hs). exists c. split; [done|].
  unfold superseded, current_revision in Hs. rewrite orb_false_iff, !negb_false_iff, !bool_decide_eq_true in Hs. tauto.
Qed.

(** C18. A turn of the founder is either a repetition of a message the conversation already has, which changes no row
    and is answered with the newest task of the current revision; or it adds that one message under the next number,
    raises the revision by one, resets the specification, and queues one planning task for the new revision.  After
    it no task of an earlier revision of the conversation is queued, and every proposal made before it is refused if
    somebody decides to materialize it, without changing a row. *)
Theorem turn_supersedes_plans `{World} cid payload d tid d' :
  founder_history d → request (add_turn cid payload) d = (Ok tid, d') →
  ∃ c, conversations d !! cid = Some c ∧ fc_founder_key c = ctc_founder_key payload ∧
    ((duplicate_turn c payload d tid ∧ d' = d) ∨
     (turn_taken c payload d d' tid ∧
      (∀ id t r, tasks d' !! id = Some t → t_conversation_id t = Some cid → t_conversation_revision t = Some r →
         t_status t = Queued → fc_revision c < r) ∧
      ∀ (w : World) pid p decision, proposals d' !! pid = Some p → fp_conversation_id p = Some cid →
        ∃ e, request (@approve_and_materialize w pid decision) d' = (Err e, d'))).
Proof.
  intros [Hsafe Hok]%founder_history_ok Hreq. response Hreq.
  unfold add_turn. apply wp_if; intros _; [by apply wp_raise|].
  apply wp_bind, wp_get_conversation; [done|]. intros c Hc Hkey. pose proof (fo_id _ Hok _ _ Hc) as Hid. subst cid.
  apply wp_bind, wp_append_turn; [done|by apply safe_keyed| |].
  - intros id Hdup. apply wp_bind, wp_commit, wp_ret. exists c. split; [done|]. split; [done|]. by left.
  - intros id s' _ _ Ht. apply wp_bind, wp_commit, wp_ret. exists c. split; [done|]. split; [done|]. right.
    cbn [saved db open_session] in *. split; [done|].
    split; [intros ??? H1 H2 H3 H4; by apply (turn_clears _ _ _ _ _ _ _ _ Ht H1)|].
    intros w pid p dec Hp Hpc. exact (turn_closes c payload d (db s') id pid p w dec Hok Hc Ht Hp Hpc).
Qed.

(** ** A conversation, from its first turn to its task *)
Definition planner : Agent :=
  mkAgent 1 "vm1-planner" "Planner" "planner" "vm1-developer" "default" (Some "hermes") (Some "1.0") "online"
    ["founder-intake"] [] 3 true None epoch epoch.

Definition planner_charter : AgentCharter :=
  mkAgentCharter 2 1 "1.0.0"
    (mkAgentCharterManifest "planner" ["plan"] ["founder-intake"] ["vm1-developer"] ["founder_request"]
       ["swarm-control-plane"] 3 "founder" [] [])
    "charter-digest" "active" "founder" epoch (Some "founder") (Some epoch) None.

Definition planner_package : RolePackage :=
  mkRolePackage 3 "planner" "1.0.0"
    (mkRolePackageManifest "planner" "1.0.0" "planner" ["founder_request"] [] [] ["founder-intake"] ["vm1-developer"] 3
       (mkCompatibilitySpec "1.0.0" "2.0.0") (mkPermissionProfile "default" "none" false [])
       (mkRepositoryProfile ["swarm-control-plane"] false false))
    "package-digest" "signature" "repo" "commit" "founder" epoch.

Definition planner_grant : AgentCapabilityGrant :=
  mkAgentCapabilityGrant 5 1 2 3 "founder-intake" "vm1-developer" ["founder_request"] ["swarm-control-plane"] 3 "founder"
    "active" "founder" "planning" (epoch + days 30) None None None "grant-digest" epoch.

Definition founder_db : database :=
  empty_db <| agents := {[ 1%N := planner ]} |>
           <| charters := {[ 2%N := planner_charter ]} |>
           <| packages := {[ 3%N := planner_package ]} |>
           <| deployments := {[ 4%N := worker_deployment ]} |>
           <| grants := {[ 5%N := planner_grant ]} |>
           <| next_id := 10%N |>.

(** conversation 10, its first message 11 and planning task 12 *)
Definition first_request : ConversationCreate :=
  mkConversationCreate "founder" "telegram" "Backups" "Please validate the backup scripts." (Some "m-1") None.

Definition second_turn : ConversationTurnCreate :=
  mkConversationTurnCreate "founder" "telegram" "Validate the restore scripts too." (Some "m-2") (Some "m-1").

Definition validation_plan : ProposedTask :=
  mkProposedTask "swarm-control-plane" "code_validation" "Validate backups" "Validate the backup scripts." 60 2
    (CodeValidation (mkProposalCodeValidationContract "swarm-control-plane" "code-validation" "main"))
    ["report"] ["all checks pass"] (mkProposalApprovalPolicy "explicit" 2) false ["git"; "python"; "testing"]
    ["vm1-developer"] 2.

Definition planner_document : FounderProposalDocument :=
  mkFounderProposalDocument 1 "Validate the scripts." "The founder wants the backups validated." "create_task" [] [] None
    None [] [] [] [] (Some validation_plan).

Definition plan_decision : FounderProposalDecision :=
  mkFounderProposalDecision "founder" "The plan is sound." None None.

Definition opened : database := (@handle (at_time 1) (NewConversation first_request) founder_db).2.
Definition plan_leased : database := (@handle (at_time 2) (LeaseTask planner 600) opened).2.
Definition plan_started : database :=
  (@handle (at_time 3) (StartTask 12%N planner lease_token "planning") plan_leased).2.
Definition proposed_db : database :=
  (@handle (at_time 4) (SubmitProposal 12%N (mkFounderProposalCreate lease_token planner_document) planner) plan_started).2.

Lemma opened_history : founder_history opened.
Proof. apply (founder_request (at_time 1)); [|reflexivity]. apply founder_start; [done..|]. by apply initial_safe. Qed.

Lemma leased_ledger : ledger plan_leased = ledger opened.
Proof. vm_compute. reflexivity. Qed.

Lemma proposed_history : founder_history proposed_db.
Proof.
  apply (founder_request (at_time 4)); [|reflexivity]. apply (founder_request (at_time 3)); [|reflexivity].
  apply (founder_other opened); [exact opened_history|exact leased_ledger|].
  apply handle_safe, founder_history_ok, opened_history.
Qed.

(** the turn cancels nothing here: its planning task is running; the plan of revision 1 can no longer be used *)
Example plan_superseded :
  let d := (@handle (at_time 5) (AddTurn 10%N second_turn) proposed_db).2 in
  (request (@approve_and_materialize (at_time 6) 14%N plan_decision) d).1 =
    Err (HTTPException 409 (JStr "A newer conversation revision superseded this proposal.")).
Proof. vm_compute. reflexivity. Qed.

(** once the plan is materialized, a repetition of the first message is answered with the task made from it *)
Example repetition_answers_newest :
  let d := (request (@approve_and_materialize (at_time 5) 14%N plan_decision) proposed_db).2 in
  let again := mkConversationTurnCreate "founder" "telegram" "Please validate the backup scripts." (Some "m-1") None in
  request (@add_turn (at_time 6) 10%N again) d = (Ok 16%N, d) ∧
  (t_task_type <$> tasks d !! 16%N) = Some "code_validation" ∧ (t_task_type <$> tasks d !! 12%N) = Some "founder_request".
Proof. vm_compute. by repeat split. Qed.

(** a plan that names its mandate is refused by the digest of its task, so it is never materialized *)
Example bound_hypothesis_fails :
  let intake := mkProposalFounderHypothesisIntakeContract "swarm-control-plane" "founder-hypothesis-intake" "main" (Some 20%N)
    (Some (Str.zeros 64)) "Funding rates lead spot returns." 365 2 1 2 "preregistered_point_in_time" ["stable"] in
  let task := mkProposedTask "swarm-control-plane" "founder_hypothesis_intake" "Queue the idea" "Queue the founder's idea." 50 1
    (FounderHypothesisIntake intake) [] [] (mkProposalApprovalPolicy "automatic" 1) false
    ["research-intelligence"; "research-proposal"; "prior-art"] ["vm1-developer"] 1 in
  let document := mkFounderProposalDocument 1 "Queue the idea." "The founder has a hypothesis." "create_task" [] [] None
    None [] [] [] [] (Some task) in
  let d := (@handle (at_time 4) (SubmitProposal 12%N (mkFounderProposalCreate lease_token document) planner) plan_started).2 in
  check_document document = Ok tt ∧
  (request (@approve_and_materialize (at_time 5) 14%N plan_decision) d).1 =
    Err (PyException "TypeError" "Object of type UUID is not JSON serializable").
Proof. vm_compute. by split. Qed.

Lemma founder_records_are_consistent_witness :
  ∃ c p, conversations proposed_db !! 10%N = Some c ∧ proposals proposed_db !! 14%N = Some p ∧
    fm_sequence <$> conversation_messages proposed_db 10%N = seqZ 1 2 ∧ specified proposed_db 10%N c ∧
    proposal_ok proposed_db 14%N p.
Proof.
  destruct (founder_records_are_consistent proposed_db proposed_history) as (Hc & Hp & _).
  destruct (conversations proposed_db !! 10%N) as [c|] eqn:Ec; [|vm_compute in Ec; discriminate Ec].
  destruct (proposals proposed_db !! 14%N) as [p|] eqn:Ep; [|vm_compute in Ep; discriminate Ep].
  destruct (Hc 10%N c Ec) as (_ & _ & Hseq & Hspec). exists c, p. split; [reflexivity|]. split; [reflexivity|].
  split; [rewrite Hseq; vm_compute; reflexivity|]. split; [exact Hspec|exact (Hp 14%N p Ep)].
Defined.

Lemma materialization_follows_the_plan_witness :
  ∃ d' t, request (@approve_and_materialize (at_time 5) 14%N plan_decision) proposed_db = (Ok 16%N, d') ∧
    tasks d' = <[16%N := t]> (tasks proposed_db) ∧
    (∃ proposed source, follows_plan proposed source t ∧ t_status t = plan_status proposed t) ∧
    @gated_by (at_time 5) t (approvals proposed_db) (approvals d').
Proof.
  destruct (request (@approve_and_materialize (at_time 5) 14%N plan_decision) proposed_db) as [r d'] eqn:E.
  assert (Hr : r = Ok 16%N).
  { change r with ((r, d').1). rewrite <- E. vm_compute. reflexivity. }
  subst r. destruct (@materialization_follows_the_plan (at_time 5) 14%N plan_decision proposed_db 16%N d' proposed_history E)
    as (p & proposed & source & at_ & t & _ & _ & _ & _ & _ & _ & Hf & Hs & _ & Ht & Hg & _).
  exists d', t. split; [reflexivity|]. split; [exact Ht|]. split; [exists proposed, source; split; [exact Hf|exact Hs]|exact Hg].
Defined.

Lemma turn_supersedes_plans_witness :
  ∃ d', request (@add_turn (at_time 5) 10%N second_turn) proposed_db = (Ok 17%N, d') ∧
    ∃ e, request (@approve_and_materialize (at_time 6) 14%N plan_decision) d' = (Err e, d').
Proof.
  destruct (request (@add_turn (at_time 5) 10%N second_turn) proposed_db) as [r d'] eqn:E.
  assert (Hr : r = Ok 17%N).
  { change r with ((r, d').1). rewrite <- E. vm_compute. reflexivity. }
  assert (Hp : (fp_conversation_id <$> proposals d' !! 14%N) = Some (Some 10%N)).
  { change d' with ((r, d').2). rewrite <- E. vm_compute. reflexivity. }
  assert (Hm : messages d' ≠ messages proposed_db).
  { change d' with ((r, d').2). rewrite <- E. intros Hm. apply (f_equal (fun m => length (map_to_list m))) in Hm.
    vm_compute in Hm. discriminate Hm. }
  subst r. destruct (@turn_supersedes_plans (at_time 5) 10%N second_turn proposed_db 17%N d' proposed_history E)
    as (c & _ & _ & [[_ ->]|(_ & _ & Hrefuse)]); [by destruct Hm|].
  exists d'. split; [reflexivity|]. destruct (proposals d' !! 14%N) as [p|] eqn:Ep; [|discriminate Hp].
  cbn in Hp. injection Hp as Hp. exact (Hrefuse (at_time 6) 14%N p plan_decision Ep Hp).
Defined.
